(* ===== verification/_CoqProject ===== *)
-Q . S2P
Prelude.v
Monad.v
Interfaces.v
Cpu.v
Bytes.v
Pmm.v
Heap.v
HeapProofs.v
HeapSpec.v
Keyboard.v
Vmm.v
VmmSpec.v
MemoryBoot.v
Scheduler.v
SchedulerInv.v
SchedulerLife.v
SchedulerSpec.v
SchedulerDemo.v
Block.v
Ata.v
AtaSpec.v
AtaDemo.v
MiniFs.v
MiniFsSafe.v
MiniFsSpec.v
MiniFsDisk.v
MiniFsFiles.v
MiniFsWrite.v
MiniFsDemo.v
Path.v
Vfs.v
VfsSpec.v
VfsKernel.v
VfsRoundtrip.v
VfsDemo.v
Elf.v
ElfSpec.v
ElfLoad.v
ElfDemo.v
AddressSpace.v
AddressSpaceWindow.v
AddressSpaceTables.v
AddressSpaceSpec.v
AddressSpaceLife.v
AddressSpaceSwitch.v
AddressSpaceRefine.v
AddressSpaceUser.v
AddressSpaceExec.v
AddressSpaceDemo.v
Usercopy.v
UsercopySpec.v
UsercopyDemo.v
UserStack.v
UserStackSpec.v
Spawn.v
SpawnSpec.v
SpawnDemo.v
Syscall.v
SyscallBase.v
SyscallSafe.v
SyscallFiles.v
SyscallDemo.v
Libc.v
Edit.v
EditSpec.v
EditCommands.v
EditDemo.v
