(* ===== verification/Prelude.v ===== *)
(** * MiniOrangeOS: a verification development

    MiniOrangeOS is a small 32-bit x86 operating system in C: a kernel with
    paging, a heap, preemptive processes, a file system and system calls, and
    user programs. This library models the kernel, the C library of user programs
    and the editor, and proves what makes them correct, bottom-up from the
    physical frames to the system calls of a process.

    ** The program's parts and the files that model them

    A kernel routine is a function on an explicit state record in the monad of
    Monad.v, with the name it has in C. Its result is [Ret], [Panic] for a call
    of panic(), [Fault] for an access C does not allow (an index out of range, a
    page that is not mapped) or [NoFuel]. The judgement [wp m s Q] accepts [Ret]
    only: it says that [m] terminates, does not panic and touches nothing it may
    not touch, and that [Q] holds at the end; [wpp] also admits the named panics.
    Integers of the C code are [Z] with the wrap-around of their type written out
    ([u32], [s32], [+u]); pointers are addresses or indices; a local or static
    buffer is a list whose accesses are checked.

    - Prelude.v, Monad.v, Interfaces.v, Bytes.v: words, lists, tactics and hint
      databases; the monad with its lenses ([zoom]) and loops; the classes by
      which components are connected; little-endian buffers.
    - Cpu.v: the interrupt flag (src/kernel/arch/x86/irq.c).
    - Pmm.v: frames (src/kernel/mm/pmm.c), discharging [FrameAllocator].
    - Vmm.v, VmmSpec.v: the kernel page tables in physical memory, reached
      through the recursive mapping by an explicit page walk
      (src/kernel/mm/vmm.c); they discharge [PageMapper].
    - Heap.v, HeapProofs.v, HeapSpec.v: kmalloc and kfree over headers in memory
      (src/kernel/mm/heap.c), against [PageMapper].
    - MemoryBoot.v: the three on top of each other, as kernel_main starts them.
    - AddressSpace*.v: user address spaces (src/kernel/mm/address_space.c):
      windows, page tables in frames, the refinement to finite maps, creation,
      destruction, activation, and the instance of the loader's interface.
    - Elf.v, ElfSpec.v, ElfLoad.v, ElfDemo.v: the loader (src/kernel/proc/elf.c)
      against the classes [UserPageOps] (the routines it calls), [UserPageView]
      (what they work on) and [UserPages] (their laws).
    - Usercopy.v, UsercopySpec.v, UsercopyDemo.v: access to user memory
      (src/kernel/mm/usercopy.c) on the same page walk.
    - Scheduler.v, SchedulerInv.v, SchedulerLife.v, SchedulerSpec.v,
      SchedulerDemo.v: the process table (src/kernel/proc/scheduler.c) against
      the class [Services]; a context switch ends the step of a process, and a
      resumed process continues in a step of its own.
    - UserStack.v, UserStackSpec.v, Spawn.v, SpawnSpec.v, SpawnDemo.v: the first
      user stack and the creation of user processes (same file), against
      [SpawnOps] and [Spawning].
    - Keyboard.v: the driver (src/kernel/drivers/keyboard.c) over [Ports].
    - Ata.v, AtaSpec.v, AtaDemo.v: the disk driver (src/kernel/drivers/ata.c) on
      the ports of a drive, discharging [Sectors].
    - Block.v: blocks out of sectors (src/kernel/block/block.c), turning [Sectors]
      into [BlockDevice].
    - MiniFs.v and MiniFs*.v: the file system (src/kernel/fs/minifs.c), as
      robustness on any disk content (Safe, Spec) and as functions of the disk
      image (Disk, Files, Write).
    - Vfs.v, VfsSpec.v, VfsKernel.v, VfsRoundtrip.v, VfsDemo.v: open files and
      descriptors (src/kernel/fs/vfs.c) against [FileSystem] and [Descriptors],
      which VfsKernel.v discharges with the models of minifs.c and scheduler.c.
    - Path.v: path names, and Syscall.v, SyscallBase.v, SyscallSafe.v,
      SyscallFiles.v, SyscallDemo.v: the dispatcher and all 21 system calls
      (src/kernel/core/syscall.c) over the whole state.
    - Libc.v: the C library of user programs (src/user/libc/string.c, io.c) over
      [UserCalls], the system calls as a program sees them.
    - Edit.v, EditSpec.v, EditCommands.v, EditDemo.v: the line editor
      (src/user/programs/edit.c): its text buffer, the search for lines, the
      editing commands, printing, loading, saving and the command interpreter.

    Files named Demo build a concrete system (a machine with frames, a RAM disk
    with a formatted volume, a process table, a loaded executable) on which the
    theorems are applied and their hypotheses checked by evaluation.

    ** What the theorems show

    - Memory: [pmm_init] makes exactly the usable frames allocatable; allocation
      takes the lowest; mapping changes one page and no other; the heap hands out
      fresh, aligned, disjoint memory and takes back exactly what it gave; the
      boot sequence establishes every invariant.
    - Address spaces and programs: the calls on a space refine a finite map;
      destroying a space frees its frames once each; an executable is accepted
      exactly when it is well formed and then the processor sees exactly its
      segments. User memory is read and written only where the process may.
    - Processes: every entry point keeps the invariant of the process table;
      a ready process runs within eighty ticks, sleepers wake on time, exit and
      waitpid meet, and a spawn succeeds or leaves nothing behind.
    - Files: no disk content makes the file system fault, loop or lose its lock;
      on a consistent volume files are byte sequences that writes update and
      reads return; descriptors and open files correspond one to one.
    - System calls: whatever a process passes, a call ends, keeps all these
      invariants and writes only to pages the process may write; what it writes
      to the console or to a file is what its memory holds, and comes back.
    - The editor: its commands are list operations on the lines of the text; an
      unsaved change is never lost without q!; printed numbers read back.

    ** Fuel and bounds

    Structural recursion is used where the C loop has a constant bound. The
    other loops are [while_] with a number of rounds, and every theorem about
    them is a [wp], which excludes running out: 34 rounds for the chunks of a
    system call (4096 bytes in chunks of 128), 17 for the arguments of spawn (16
    at most), one more than the number of blocks, entries or pages elsewhere. The
    polls of the keyboard controller and of the disk are bounded by the C code itself.

    ** Interfaces that stand for code outside src/ or below C

    [Ports] is the I/O space: bytes come in from a device that may answer
    anything. [AtaDrive] is a disk drive in the terms of
    the ATA standard: its registers, the job it is doing, what its status tells;
    it may fail at any time, but once it has left 2^20 polls in a row without an
    answer it does not come back. [Services], [SpawnOps] and [Spawning] state what the
    scheduler uses of the heap, the address spaces, the task-state segment and
    the VFS layer. The volume's place on the disk, which a build step generates,
    is a section variable, and so are the addresses of linker symbols.

    ** What is not modelled

    Boot sectors, entry code, context switch, trap and interrupt stubs are
    assembly; GDT, IDT, PIC and serial set-up are single writes to
    processor tables and ports whose effect is the hardware's. The self tests
    heap_self_test, vmm_self_test, vfs_self_test and minifs_self_test repeat the
    operations proved here on fixed inputs. The context switch is a step boundary
    of the scheduler's model, not a change of registers. The screen driver, the
    shell and the other user programs and the editor's key loop are not modelled. The
    build tools, the environment scripts and the host tests are not part of the
    running system. *)

From stdpp Require Export base numbers list zmap strings gmap.
From Stdlib Require Export Lia.

#[global] Open Scope Z_scope.


(** ** Machine words

    A C value of type [uint8_t], [uint16_t], [uint32_t] or [uint64_t] is a [Z]
    in range; every operation that can leave the range is wrapped where the C
    code wraps it. [s32] is the conversion [uint32_t] to [int32_t]. *)

Definition u8 (z : Z) : Z := z mod 256.
Definition u16 (z : Z) : Z := z mod 65536.
Definition u32 (z : Z) : Z := z mod 4294967296.
Definition u64 (z : Z) : Z := z mod 18446744073709551616.
Definition s32 (z : Z) : Z := (z + 2147483648) mod 4294967296 - 2147483648.

(** The C operator [~] at a width. *)
Definition not8 (z : Z) : Z := u8 (Z.lnot z).
Definition not32 (z : Z) : Z := u32 (Z.lnot z).
Definition not64 (z : Z) : Z := u64 (Z.lnot z).

Definition UINT16_MAX : Z := 65535.
Definition UINT32_MAX : Z := 4294967295.
Definition INT32_MAX : Z := 2147483647.

Declare Scope word_scope.
Delimit Scope word_scope with word.
Notation "x +u y" := (u32 (x + y)) (at level 50, left associativity) : word_scope.
Notation "x -u y" := (u32 (x - y)) (at level 50, left associativity) : word_scope.
Notation "x *u y" := (u32 (x * y)) (at level 40, left associativity) : word_scope.
#[global] Open Scope word_scope.

(** Linear arithmetic with the wrap-around of the widths spelled out. *)
Ltac word_lia :=
  unfold not8, not32, not64, u8, u16, u32, u64, s32 in *;
  unfold UINT16_MAX, UINT32_MAX, INT32_MAX in *;
  Z.to_euclidean_division_equations; lia.

Lemma u8_range z : 0 <= u8 z < 256.
Proof. word_lia. Qed.

Lemma u32_range z : 0 <= u32 z < 4294967296.
Proof. word_lia. Qed.

Lemma u32_id z : 0 <= z < 4294967296 -> u32 z = z.
Proof. apply Z.mod_small. Qed.

Lemma u64_id z : 0 <= z < 18446744073709551616 -> u64 z = z.
Proof. apply Z.mod_small. Qed.

Lemma u8_id z : 0 <= z < 256 -> u8 z = z.
Proof. apply Z.mod_small. Qed.

Lemma s32_id z : 0 <= z < 2147483648 -> s32 z = z.
Proof. intros. unfold s32. rewrite Z.mod_small; lia. Qed.

(** ** Bit patterns the kernel uses: low masks, shifts and page alignment *)

Lemma land_low_7 z : Z.land z 7 = z mod 8.
Proof. apply (Z.land_ones z 3); lia. Qed.

Lemma land_low_4095 z : Z.land z 4095 = z mod 4096.
Proof. apply (Z.land_ones z 12); lia. Qed.

Lemma land_low_1023 z : Z.land z 1023 = z mod 1024.
Proof. apply (Z.land_ones z 10); lia. Qed.

Lemma shiftr_3 z : Z.shiftr z 3 = z / 8.
Proof. apply (Z.shiftr_div_pow2 z 3); lia. Qed.

Lemma shiftr_12 z : Z.shiftr z 12 = z / 4096.
Proof. apply (Z.shiftr_div_pow2 z 12); lia. Qed.

Lemma shiftr_22 z : Z.shiftr z 22 = z / 4194304.
Proof. apply (Z.shiftr_div_pow2 z 22); lia. Qed.

Lemma shiftl_12 z : Z.shiftl z 12 = z * 4096.
Proof. apply (Z.shiftl_mul_pow2 z 12); lia. Qed.

(** Clearing the [n] low bits of a value below [2 ^ w] with a [w]-bit mask. *)
Lemma land_high_mask n w z :
  0 <= n <= w -> 0 <= z < 2 ^ w ->
  Z.land z (2 ^ w - 2 ^ n) = z / 2 ^ n * 2 ^ n.
Proof.
  intros Hn Hz.
  replace (2 ^ w - 2 ^ n) with (Z.shiftl (Z.ones (w - n)) n).
  2:{ rewrite Z.shiftl_mul_pow2, Z.ones_equiv by lia.
      replace (2 ^ w) with (2 ^ (w - n) * 2 ^ n); [lia|].
      rewrite <-Z.pow_add_r by lia. f_equal. lia. }
  rewrite <-Z.shiftl_mul_pow2, <-Z.shiftr_div_pow2 by lia.
  apply Z.bits_inj'. intros i Hi.
  rewrite Z.land_spec, !Z.shiftl_spec by lia.
  destruct (Z.lt_ge_cases i n).
  - rewrite !(Z.testbit_neg_r _ (i - n)) by lia. apply andb_false_r.
  - rewrite Z.shiftr_spec by lia. replace (i - n + n) with i by lia.
    destruct (Z.lt_ge_cases i w).
    + rewrite Z.ones_spec_low by lia. apply andb_true_r.
    + rewrite Z.ones_spec_high by lia. rewrite andb_false_r.
      symmetry. destruct (decide (z = 0)) as [->|]; [apply Z.bits_0|].
      apply Z.bits_above_log2; [lia|].
      apply Z.log2_lt_pow2; [lia|]. apply Z.lt_le_trans with (2 ^ w); [lia|].
      apply Z.pow_le_mono_r; lia.
Qed.

(** ** Bits of a byte

    [(1U << k)] as a mask: reading, setting and clearing bit [k]. Both the
    physical-memory bitmap and the MiniFS bitmaps go through these. *)

Definition bit_mask (k : Z) : Z := u8 (Z.shiftl 1 k).

Lemma bit_mask_pow k : 0 <= k < 8 -> bit_mask k = 2 ^ k.
Proof.
  intros. unfold bit_mask. rewrite Z.shiftl_1_l. apply u8_id.
  split; [apply Z.pow_nonneg; lia|]. apply (Z.pow_lt_mono_r 2 k 8); lia.
Qed.

Lemma land_bit_mask b k :
  0 <= k < 8 -> negb (Z.land b (bit_mask k) =? 0) = Z.testbit b k.
Proof.
  intros Hk. rewrite bit_mask_pow by done.
  destruct (Z.testbit b k) eqn:E.
  - apply negb_true_iff, Z.eqb_neq. intros H0.
    assert (Z.testbit (Z.land b (2 ^ k)) k = false) as H by (rewrite H0; apply Z.bits_0).
    rewrite Z.land_spec, E, Z.pow2_bits_true in H by lia. done.
  - apply negb_false_iff, Z.eqb_eq. apply Z.bits_inj'. intros i Hi.
    rewrite Z.land_spec, Z.bits_0, Z.pow2_bits_eqb by lia.
    destruct (Z.eqb_spec k i) as [->|]; [by rewrite E|apply andb_false_r].
Qed.

Lemma byte_bits_above b i : 0 <= b < 256 -> 8 <= i -> Z.testbit b i = false.
Proof.
  intros Hb Hi. destruct (decide (b = 0)) as [->|]; [apply Z.bits_0|].
  apply Z.bits_above_log2; [lia|].
  apply Z.lt_le_trans with 8; [|lia]. apply Z.log2_lt_pow2; lia.
Qed.

Lemma byte_of_bits b :
  0 <= b -> (forall i, 8 <= i -> Z.testbit b i = false) -> b < 256.
Proof.
  intros Hb Hi. destruct (Z.lt_ge_cases b 256) as [|Hge]; [done|].
  assert (8 <= Z.log2 b) as Hl.
  { change 8 with (Z.log2 256). apply Z.log2_le_mono. lia. }
  specialize (Hi (Z.log2 b) Hl). rewrite Z.bit_log2 in Hi by lia. done.
Qed.

(** [byte |= mask] and [byte &= (uint8_t)~mask]. *)
Definition byte_set_bit (b k : Z) (value : bool) : Z :=
  if value then Z.lor b (bit_mask k) else Z.land b (not8 (bit_mask k)).

Lemma testbit_not8_mask k i :
  0 <= k < 8 -> 0 <= i < 8 -> Z.testbit (not8 (bit_mask k)) i = negb (k =? i).
Proof.
  intros Hk Hi. unfold not8, u8. rewrite bit_mask_pow by done.
  change 256 with (2 ^ 8). rewrite Z.mod_pow2_bits_low by lia.
  rewrite Z.lnot_spec, Z.pow2_bits_eqb by lia. done.
Qed.

Lemma testbit_byte_set_bit b k v i :
  0 <= k < 8 -> 0 <= i < 8 ->
  Z.testbit (byte_set_bit b k v) i = if k =? i then v else Z.testbit b i.
Proof.
  intros Hk Hi. unfold byte_set_bit. destruct v.
  - rewrite Z.lor_spec, bit_mask_pow, Z.pow2_bits_eqb by lia.
    destruct (k =? i); [apply orb_true_r|apply orb_false_r].
  - rewrite Z.land_spec, testbit_not8_mask by lia.
    destruct (k =? i); [apply andb_false_r|apply andb_true_r].
Qed.

Lemma byte_set_bit_range b k v :
  0 <= k < 8 -> 0 <= b < 256 -> 0 <= byte_set_bit b k v < 256.
Proof.
  intros Hk Hb.
  assert (0 <= bit_mask k < 256) by apply u8_range.
  assert (0 <= not8 (bit_mask k)) by apply u8_range.
  assert (0 <= byte_set_bit b k v).
  { unfold byte_set_bit. destruct v; [apply Z.lor_nonneg; lia|apply Z.land_nonneg; lia]. }
  split; [done|]. apply byte_of_bits; [done|]. intros i Hi.
  unfold byte_set_bit. destruct v.
  - by rewrite Z.lor_spec, !byte_bits_above by lia.
  - by rewrite Z.land_spec, byte_bits_above by lia.
Qed.

(** ** Arrays of machine words

    A C array with static storage. Reading or writing outside [0 .. arr_len)
    is undefined behaviour in C and has no value here: [arr_get] and [arr_set]
    are partial. Only the cells written since the last fill are stored, so that
    a 128 KiB bitmap is as cheap to evaluate as its changed bytes. *)

Record arr := Arr { arr_len : Z; arr_dflt : Z; arr_cells : Zmap Z }.

Definition arr_get (a : arr) (i : Z) : option Z :=
  if (0 <=? i) && (i <? arr_len a) then Some (default (arr_dflt a) (arr_cells a !! i))
  else None.

Definition arr_set (a : arr) (i v : Z) : option arr :=
  if (0 <=? i) && (i <? arr_len a)
  then Some (Arr (arr_len a) (arr_dflt a) (<[i := v]> (arr_cells a))) else None.

(** The loop [for (i = 0; i < len; ++i) a[i] = v]. *)
Definition arr_fill (len v : Z) : arr := Arr len v ∅.

Lemma arr_get_in a i :
  0 <= i < arr_len a -> exists v, arr_get a i = Some v.
Proof.
  intros. unfold arr_get. destruct (0 <=? i) eqn:?, (i <? arr_len a) eqn:?; try lia.
  simpl. eauto.
Qed.

Lemma arr_get_Some_range a i v : arr_get a i = Some v -> 0 <= i < arr_len a.
Proof. unfold arr_get. intros. destruct (0 <=? i) eqn:?, (i <? arr_len a) eqn:?; simplify_eq/=; lia. Qed.

Lemma arr_get_fill len v i : 0 <= i < len -> arr_get (arr_fill len v) i = Some v.
Proof.
  intros. unfold arr_get, arr_fill; simpl.
  destruct (0 <=? i) eqn:?, (i <? len) eqn:?; try lia. simpl. by rewrite lookup_empty.
Qed.

Lemma arr_set_in a i v :
  0 <= i < arr_len a ->
  exists a', arr_set a i v = Some a' /\ arr_len a' = arr_len a /\
    forall j, arr_get a' j = if i =? j then Some v else arr_get a j.
Proof.
  intros Hi. unfold arr_set.
  destruct (0 <=? i) eqn:?, (i <? arr_len a) eqn:?; try lia. simpl.
  eexists; split; [done|]. split; [done|]. intros j. unfold arr_get; simpl.
  destruct (Z.eqb_spec i j) as [<-|Hne].
  - destruct (0 <=? i) eqn:?, (i <? arr_len a) eqn:?; try lia. simpl.
    by rewrite lookup_insert_eq.
  - by rewrite lookup_insert_ne.
Qed.

(** ** Generic lemmas on integer ranges *)

(** Counting the indices of [first .. first + n) that satisfy a test. *)
Fixpoint count_from (p : Z -> bool) (first : Z) (n : nat) : Z :=
  match n with
  | O => 0
  | S n' => (if p first then 1 else 0) + count_from p (first + 1) n'
  end.

Definition count_upto (p : Z -> bool) (limit : Z) : Z := count_from p 0 (Z.to_nat limit).

Lemma count_from_ext p q first n :
  (forall i, first <= i < first + Z.of_nat n -> p i = q i) ->
  count_from p first n = count_from q first n.
Proof.
  revert first. induction n as [|n IH]; intros first H; simpl; [done|].
  rewrite H by lia. f_equal. apply IH. intros. apply H. lia.
Qed.

Lemma count_from_bound p first n : 0 <= count_from p first n <= Z.of_nat n.
Proof.
  revert first. induction n as [|n IH]; intros first; simpl; [lia|].
  specialize (IH (first + 1)). destruct (p first); lia.
Qed.

Lemma count_from_S p first n :
  count_from p first (S n) =
  count_from p first n + (if p (first + Z.of_nat n) then 1 else 0).
Proof.
  revert first. induction n as [|n IH]; intros first.
  - simpl. replace (first + Z.of_nat 0) with first by lia. destruct (p first); lia.
  - change (count_from p first (S (S n))) with
      ((if p first then 1 else 0) + count_from p (first + 1) (S n)).
    rewrite IH. simpl count_from.
    replace (first + 1 + Z.of_nat n) with (first + Z.of_nat (S n)) by lia.
    destruct (p first), (p (first + Z.of_nat (S n))); lia.
Qed.

(** Changing the test at one index changes the count by that index alone. *)
Lemma count_from_update p q first n k :
  first <= k < first + Z.of_nat n ->
  (forall i, i <> k -> p i = q i) ->
  count_from p first n - (if p k then 1 else 0) =
  count_from q first n - (if q k then 1 else 0).
Proof.
  revert first. induction n as [|n IH]; intros first Hk H; [lia|]. simpl.
  destruct (decide (first = k)) as [<-|Hne].
  - rewrite (count_from_ext p q (first + 1) n); [|intros; apply H; lia].
    destruct (p first), (q first); lia.
  - rewrite (H first) by done.
    assert (count_from p (first + 1) n - (if p k then 1 else 0) =
            count_from q (first + 1) n - (if q k then 1 else 0)) as E.
    { apply IH; [lia|done]. }
    destruct (p k), (q k), (q first); lia.
Qed.

Lemma count_upto_update p q limit k :
  0 <= k < limit -> (forall i, i <> k -> p i = q i) ->
  count_upto p limit - (if p k then 1 else 0) =
  count_upto q limit - (if q k then 1 else 0).
Proof. intros. apply count_from_update; [lia|done]. Qed.

Lemma count_upto_pos p limit k :
  0 <= k < limit -> p k = true -> 0 < count_upto p limit.
Proof.
  intros Hk Hp.
  set (q := fun i => if i =? k then false else p i).
  assert (q k = false) as Hq by (unfold q; by rewrite Z.eqb_refl).
  assert (count_upto p limit - 1 = count_upto q limit - 0) as H.
  { pose proof (count_upto_update p q limit k Hk) as H. rewrite Hp, Hq in H.
    apply H. intros i Hi. unfold q. destruct (Z.eqb_spec i k); congruence. }
  pose proof (count_from_bound q 0 (Z.to_nat limit)).
  unfold count_upto in *. lia.
Qed.

(** A test on all integers below a bound, by evaluation. *)
Lemma seqZ_forallb (p : Z -> bool) n :
  forallb p (seqZ 0 n) = true -> forall i, 0 <= i < n -> p i = true.
Proof.
  intros H i Hi. rewrite forallb_forall in H. apply H, list_elem_of_In, elem_of_seqZ. lia.
Qed.
