(* ===== verification/Monad.v ===== *)
(** * The execution monad of the kernel

    Every kernel routine is a function [S -> outcome S A] on an explicit state
    record. [Panic] is a call of [panic] (the machine stops), [Fault] is an
    access the C program may not make (an array index out of range, an invalid
    pointer), [NoFuel] is a loop cut off before it ended. The judgement [wp]
    accepts only [Ret], so a proof of [wp m s Q] shows at once that [m] does
    not panic, does not access memory it must not access, and terminates. *)

From S2P Require Import Prelude.

Inductive outcome (S A : Type) : Type :=
| Ret (a : A) (s : S)
| Panic (message : string)
| Fault
| NoFuel.
Arguments Ret {S A} a s.
Arguments Panic {S A} message.
Arguments Fault {S A}.
Arguments NoFuel {S A}.

Definition M (S A : Type) : Type := S -> outcome S A.

Definition ret {S A} (a : A) : M S A := fun s => Ret a s.

Definition bind {S A B} (m : M S A) (k : A -> M S B) : M S B := fun s =>
  match m s with
  | Ret a s' => k a s'
  | Panic msg => Panic msg
  | Fault => Fault
  | NoFuel => NoFuel
  end.

Definition panic {S A} (message : string) : M S A := fun _ => Panic message.
Definition fault {S A} : M S A := fun _ => Fault.
Definition gets {S A} (f : S -> A) : M S A := fun s => Ret (f s) s.
Definition modify {S} (f : S -> S) : M S unit := fun s => Ret tt (f s).

(** A partial access: the C program has no behaviour when it is [None]. *)
Definition access {S A} (o : option A) : M S A :=
  match o with Some a => ret a | None => fault end.

Declare Scope kernel_scope.
Delimit Scope kernel_scope with kernel.
Notation "'let!' x ':=' m 'in' k" := (bind m (fun x => k))
  (at level 10, x pattern, m at level 100, k at level 200) : kernel_scope.
Notation "m1 ;; m2" := (bind m1 (fun _ => m2))
  (at level 100, m2 at level 200, right associativity) : kernel_scope.
#[global] Open Scope kernel_scope.

(** C's [&&] and [||] on tests with effects: the right operand runs only when
    the left one does not decide. *)
Definition andM {S} (m1 m2 : M S bool) : M S bool :=
  let! b := m1 in if (b : bool) then m2 else ret false.
Definition orM {S} (m1 m2 : M S bool) : M S bool :=
  let! b := m1 in if (b : bool) then ret true else m2.
Definition notM {S} (m : M S bool) : M S bool := let! b := m in ret (negb b).

(** ** Loops *)

Section loops.
  Context {S R : Type}.

  (** [for (i = first; n times; ++i) body], where the body may [return]. *)
Fixpoint for_until (n : nat) (i : Z) (body : Z -> M S (option R)) : M S (option R) :=
    match n with
    | O => ret None
    | Datatypes.S n' =>
        let! r := body i in
        match r with
        | Some x => ret (Some x)
        | None => for_until n' (i + 1) body
        end
    end.

  (** A [while] loop over the local variables [X]: the step continues with new
      values ([inl]) or leaves the loop with a result ([inr]). *)
Fixpoint while_ {X : Type} (fuel : nat) (step : X -> M S (X + R)) (x : X) : M S R :=
    match fuel with
    | O => fun _ => NoFuel
    | Datatypes.S fuel' =>
        let! r := step x in
        match r with
        | inl x' => while_ fuel' step x'
        | inr r => ret r
        end
    end.
End loops.

(** [for (i = first; i < limit; ++i) body] without an early exit. *)
Fixpoint for_range {S} (n : nat) (i : Z) (body : Z -> M S unit) : M S unit :=
  match n with
  | O => ret tt
  | Datatypes.S n' => body i ;; for_range n' (i + 1) body
  end.

(** The same loop updating a local variable. *)
Fixpoint for_acc {S X} (n : nat) (i : Z) (x : X) (body : Z -> X -> M S X) : M S X :=
  match n with
  | O => ret x
  | Datatypes.S n' => let! x' := body i x in for_acc n' (i + 1) x' body
  end.

(** ** Components of a larger state *)

Class Lens (S T : Type) := {
  lget : S -> T;
  lset : T -> S -> S;
  lget_lset : forall t s, lget (lset t s) = t;
  lset_lget : forall s, lset (lget s) s = s;
  lset_lset : forall t t' s, lset t (lset t' s) = lset t s
}.

Definition zoom {S T A} `{Lens S T} (m : M T A) : M S A := fun s =>
  match m (lget s) with
  | Ret a t => Ret a (lset t s)
  | Panic msg => Panic msg
  | Fault => Fault
  | NoFuel => NoFuel
  end.

#[export] Instance lens_refl S : Lens S S | 10.
Proof. by refine {| lget := fun s => s; lset := fun t _ => t |}. Defined.

(** ** Weakest preconditions *)

Definition wp {S A} (m : M S A) (s : S) (Q : A -> S -> Prop) : Prop :=
  match m s with Ret a s' => Q a s' | _ => False end.

Section wp.
  Context {S : Type}.
  Implicit Types s : S.

Lemma wp_ret {A} (a : A) s (Q : A -> S -> Prop) : Q a s -> wp (ret a) s Q.
  Proof. done. Qed.

Lemma wp_bind {A B} (m : M S A) (k : A -> M S B) s Q :
    wp m s (fun a s' => wp (k a) s' Q) -> wp (bind m k) s Q.
  Proof. unfold wp, bind. by destruct (m s). Qed.

Lemma wp_seq3 {A B C D} (m1 : M S A) (m2 : M S B) (m3 : M S C) (k : M S D) s Q :
    wp (m1 ;; m2 ;; m3) s (fun _ s' => wp k s' Q) -> wp (m1 ;; m2 ;; m3 ;; k) s Q.
  Proof.
    unfold wp, bind. destruct (m1 s) as [? s1| | |]; try done.
    destruct (m2 s1) as [? s2| | |]; try done. by destruct (m3 s2).
  Qed.

Lemma wp_mono {A} (m : M S A) s (P Q : A -> S -> Prop) :
    wp m s P -> (forall a s', P a s' -> Q a s') -> wp m s Q.
  Proof. unfold wp. destruct (m s); auto. Qed.

Lemma wp_gets {A} (f : S -> A) s (Q : A -> S -> Prop) : Q (f s) s -> wp (gets f) s Q.
  Proof. done. Qed.

Lemma wp_modify (f : S -> S) s (Q : unit -> S -> Prop) : Q tt (f s) -> wp (modify f) s Q.
  Proof. done. Qed.

Lemma wp_access {A} (o : option A) a s (Q : A -> S -> Prop) :
    o = Some a -> Q a s -> wp (access o) s Q.
  Proof. by intros ->. Qed.

Lemma wp_andM (m1 m2 : M S bool) s Q :
    wp m1 s (fun b s' => if b then wp m2 s' Q else Q false s') -> wp (andM m1 m2) s Q.
  Proof.
    intros H. apply wp_bind. eapply wp_mono; [exact H|]. intros [] s' ?; done.
  Qed.

Lemma wp_orM (m1 m2 : M S bool) s Q :
    wp m1 s (fun b s' => if b then Q true s' else wp m2 s' Q) -> wp (orM m1 m2) s Q.
  Proof.
    intros H. apply wp_bind. eapply wp_mono; [exact H|]. intros [] s' ?; done.
  Qed.

Lemma wp_notM (m : M S bool) s Q :
    wp m s (fun b s' => Q (negb b) s') -> wp (notM m) s Q.
  Proof. intros H. apply wp_bind. eapply wp_mono; [exact H|]. done. Qed.

Lemma wp_zoom {T A} `{Lens S T} (m : M T A) s Q :
    wp m (lget s) (fun a t => Q a (lset t s)) -> wp (zoom m) s Q.
  Proof. unfold wp, zoom. by destruct (m (lget s)). Qed.

  (** A run from the judgement: what a concrete evaluation returns. *)
Lemma wp_run {A} (m : M S A) s Q :
    wp m s Q <-> exists a s', m s = Ret a s' /\ Q a s'.
  Proof.
    unfold wp. split.
    - destruct (m s); [eauto|done..].
    - intros (a & s' & -> & ?). done.
  Qed.

  (** Loop rules. The index invariant is stated before iteration [i]. *)
Lemma wp_for_until {R} (I : Z -> S -> Prop) n first (body : Z -> M S (option R)) s Q :
    I first s ->
    (forall i s', first <= i < first + Z.of_nat n -> I i s' ->
       wp (body i) s' (fun r s'' =>
         match r with None => I (i + 1) s'' | Some x => Q (Some x) s'' end)) ->
    (forall s', I (first + Z.of_nat n) s' -> Q None s') ->
    wp (for_until n first body) s Q.
  Proof.
    revert first s. induction n as [|n IH]; intros first s HI Hbody Hend; simpl.
    - apply wp_ret, Hend. by replace (first + Z.of_nat 0) with first by lia.
    - apply wp_bind. eapply wp_mono; [apply Hbody; [lia|done]|].
      intros [x|] s' Hs'; [by apply wp_ret|].
      apply IH; [done| |].
      + intros i s'' Hi. apply Hbody. lia.
      + intros s'' Hs''. apply Hend.
        by replace (first + Z.of_nat (Datatypes.S n)) with (first + 1 + Z.of_nat n) by lia.
  Qed.

Lemma wp_for_range (I : Z -> S -> Prop) n first (body : Z -> M S unit) s Q :
    I first s ->
    (forall i s', first <= i < first + Z.of_nat n -> I i s' ->
       wp (body i) s' (fun _ s'' => I (i + 1) s'')) ->
    (forall s', I (first + Z.of_nat n) s' -> Q tt s') ->
    wp (for_range n first body) s Q.
  Proof.
    revert first s. induction n as [|n IH]; intros first s HI Hbody Hend; simpl.
    - apply wp_ret, Hend. by replace (first + Z.of_nat 0) with first by lia.
    - apply wp_bind. eapply wp_mono; [apply Hbody; [lia|done]|].
      intros [] s' Hs'. apply IH; [done| |].
      + intros i s'' Hi. apply Hbody. lia.
      + intros s'' Hs''. apply Hend.
        by replace (first + Z.of_nat (Datatypes.S n)) with (first + 1 + Z.of_nat n) by lia.
  Qed.

Lemma wp_for_acc {X} (I : Z -> X -> S -> Prop) n first x (body : Z -> X -> M S X) s Q :
    I first x s ->
    (forall i x' s', first <= i < first + Z.of_nat n -> I i x' s' ->
       wp (body i x') s' (fun x'' s'' => I (i + 1) x'' s'')) ->
    (forall x' s', I (first + Z.of_nat n) x' s' -> Q x' s') ->
    wp (for_acc n first x body) s Q.
  Proof.
    revert first x s. induction n as [|n IH]; intros first x s HI Hbody Hend; simpl.
    - apply wp_ret, Hend. by replace (first + Z.of_nat 0) with first by lia.
    - apply wp_bind. eapply wp_mono; [apply Hbody; [lia|done]|].
      intros x' s' Hs'. apply IH; [done| |].
      + intros i x'' s'' Hi. apply Hbody. lia.
      + intros x'' s'' Hs''. apply Hend.
        by replace (first + Z.of_nat (Datatypes.S n)) with (first + 1 + Z.of_nat n) by lia.
  Qed.

  (** Total correctness of a [while] loop: an invariant and a measure bounded
      by the fuel that every continuing step decreases. *)
Lemma wp_while {X R} (I : X -> S -> Prop) (measure : X -> S -> nat)
      (step : X -> M S (X + R)) fuel x s Q :
    I x s -> (measure x s < fuel)%nat ->
    (forall x' s', I x' s' ->
       wp (step x') s' (fun r s'' =>
         match r with
         | inl x'' => I x'' s'' /\ (measure x'' s'' < measure x' s')%nat
         | inr r => Q r s''
         end)) ->
    wp (while_ fuel step x) s Q.
  Proof.
    intros HI Hm Hstep. revert x s HI Hm.
    induction fuel as [|fuel IH]; intros x s HI Hm; [lia|]. simpl.
    apply wp_bind. eapply wp_mono; [by apply Hstep|].
    intros [x'|r] s' Hs'; [|by apply wp_ret].
    destruct Hs' as [HI' Hlt]. apply IH; [done|lia].
  Qed.

  (** The same rule with the measure carried by the invariant. *)
Lemma wp_while_idx {X R} (I : nat -> X -> S -> Prop)
      (step : X -> M S (X + R)) fuel n x s Q :
    I n x s -> (n < fuel)%nat ->
    (forall n' x' s', I n' x' s' ->
       wp (step x') s' (fun r s'' =>
         match r with
         | inl x'' => exists n'', (n'' < n')%nat /\ I n'' x'' s''
         | inr r => Q r s''
         end)) ->
    wp (while_ fuel step x) s Q.
  Proof.
    intros HI Hm Hstep. revert n x s HI Hm.
    induction fuel as [|fuel IH]; intros n x s HI Hm; [lia|]. simpl.
    apply wp_bind. eapply wp_mono; [by eapply Hstep|].
    intros [x'|r] s' Hs'; [|by apply wp_ret].
    destruct Hs' as (n' & Hlt & HI'). eapply IH; [done|lia].
  Qed.
End wp.

(** Routines that may stop the machine on purpose: every panic carries a
    message accepted by [E]. *)
Definition wpp {S A} (E : string -> Prop) (m : M S A) (s : S) (Q : A -> S -> Prop) : Prop :=
  match m s with Ret a s' => Q a s' | Panic msg => E msg | _ => False end.

Lemma wpp_wp {S A} E (m : M S A) s Q : wp m s Q -> wpp E m s Q.
Proof. unfold wp, wpp. by destruct (m s). Qed.

Lemma wpp_bind {S A B} E (m : M S A) (k : A -> M S B) s Q :
  wpp E m s (fun a s' => wpp E (k a) s' Q) -> wpp E (bind m k) s Q.
Proof. unfold wpp, bind. by destruct (m s). Qed.

Lemma wpp_bind_wp {S A B} E (m : M S A) (k : A -> M S B) s Q :
  wp m s (fun a s' => wpp E (k a) s' Q) -> wpp E (bind m k) s Q.
Proof. intros H. by apply wpp_bind, wpp_wp. Qed.

Lemma wpp_panic {S A} (E : string -> Prop) msg s (Q : A -> S -> Prop) :
  E msg -> wpp E (panic msg) s Q.
Proof. done. Qed.

Lemma wpp_mono {S A} E (m : M S A) s (P Q : A -> S -> Prop) :
  wpp E m s P -> (forall a s', P a s' -> Q a s') -> wpp E m s Q.
Proof. unfold wpp. destruct (m s); auto. Qed.

Lemma wpp_while {S X R} E (I : X -> S -> Prop) (measure : X -> nat)
    (step : X -> M S (X + R)) fuel x s Q :
  I x s -> (measure x < fuel)%nat ->
  (forall x' s', I x' s' ->
     wpp E (step x') s' (fun r s'' =>
       match r with
       | inl x'' => I x'' s'' /\ (measure x'' < measure x')%nat
       | inr r => Q r s''
       end)) ->
  wpp E (while_ fuel step x) s Q.
Proof.
  intros HI Hm Hstep. revert x s HI Hm.
  induction fuel as [|fuel IH]; intros x s HI Hm; [lia|]. simpl.
  apply wpp_bind. eapply wpp_mono; [by apply Hstep|].
  intros [x'|r] s' Hs'; [|done]. destruct Hs' as [HI' Hlt]. apply IH; [done|lia].
Qed.

(** One symbolic step of a routine, on the head of its program. *)
Ltac wp_step :=
  lazymatch goal with
  | |- wp (bind _ _) _ _ => apply wp_bind
  | |- wp (ret _) _ _ => apply wp_ret
  | |- wp (gets _) _ _ => apply wp_gets; cbv beta
  | |- wp (modify _) _ _ => apply wp_modify; cbv beta
  | |- wp (andM _ _) _ _ => apply wp_andM
  | |- wp (orM _ _) _ _ => apply wp_orM
  | |- wp (notM _) _ _ => apply wp_notM
  | |- wp (zoom _) _ _ => apply wp_zoom
  | |- wp (let x := _ in _) _ _ => cbv zeta
  | |- wp (match ?e with _ => _ end) _ _ => destruct e eqn:?
  end.
Ltac wp_steps := repeat wp_step.

(** Use a proved triple for the head call. *)
Tactic Notation "wp_apply" uconstr(t) := eapply wp_mono; [eapply t|cbv beta].

(** Run the deterministic steps up to the next call or branch. *)
Ltac run := repeat first [ progress cbn beta iota delta [negb orb andb] | wp_step; [] ].
