(* ===== verification/Interfaces.v ===== *)
(** * What one kernel component promises to another

    [FrameAllocator] is the contract between the physical memory manager and
    its callers (page tables, heap, loader, scheduler). [PageMapper] is the
    contract of the kernel page tables towards the heap. The clients are proved
    against these classes; Pmm.v and Vmm.v discharge them. *)

From S2P Require Import Prelude Monad.

(** A physical page address the kernel can hold: page aligned, not null. *)
Definition page_address (a : Z) : Prop := 0 < a < 4294967296 /\ a mod 4096 = 0.

Class FrameAllocator (S : Type) := {
  fa_alloc : M S Z;
  fa_free : Z -> M S bool;

  fa_inv : S -> Prop;
  fa_avail : S -> Z -> Prop;   (** the frame at this address is free *)
  fa_held : S -> Z -> Prop;    (** it was handed out and not yet returned *)
  fa_count : S -> Z;           (** how many frames are free *)

  fa_disjoint : forall s a, fa_inv s -> fa_avail s a -> fa_held s a -> False;
  fa_count_nonneg : forall s, fa_inv s -> 0 <= fa_count s;
  fa_avail_page : forall s a, fa_inv s -> fa_avail s a -> page_address a;

  (** Allocation fails only when nothing is free, and then changes nothing. *)
  fa_alloc_ok : forall s, fa_inv s ->
    wp fa_alloc s (fun a s' =>
      fa_inv s' /\
      ((a = 0 /\ s' = s /\ fa_count s = 0 /\ forall b, ~ fa_avail s b) \/
       (fa_avail s a /\ fa_count s' = fa_count s - 1 /\
        (forall b, fa_avail s' b <-> fa_avail s b /\ b <> a) /\
        (forall b, fa_held s' b <-> fa_held s b \/ b = a))));

  (** Release succeeds exactly on held frames. *)
  fa_free_ok : forall s a, fa_inv s -> 0 <= a < 4294967296 ->
    wp (fa_free a) s (fun ok s' =>
      fa_inv s' /\
      if ok : bool then
        fa_held s a /\ fa_count s' = fa_count s + 1 /\
        (forall b, fa_avail s' b <-> fa_avail s b \/ b = a) /\
        (forall b, fa_held s' b <-> fa_held s b /\ b <> a)
      else s' = s /\ ~ fa_held s a)
}.

(** Page flags, include/minios/mm/vmm.h. *)
Definition VMM_WRITABLE : Z := 2.
Definition VMM_USER : Z := 4.

(** The kernel page tables as the heap sees them. [pm_mapped s va] is the frame
    behind the kernel page [va]; [pm_held] are the frames the client owns. *)
Definition page_aligned (a : Z) : Prop := a mod 4096 = 0.

(** Kernel pages a client may map: above the direct-mapped 4 MiB of the kernel
    image and below the recursive page-table window. *)
Definition client_page (va : Z) : Prop :=
  page_aligned va /\ 0xC0400000 <= va < 0xFFC00000.

Class PageMapper (P : Type) := {
  pm_alloc : M P Z;                          (** pmm_alloc *)
  pm_free : Z -> M P bool;                   (** pmm_free *)
  pm_map : Z -> Z -> Z -> M P bool;          (** vmm_map *)
  pm_unmap : Z -> M P (option Z);            (** vmm_unmap: the frame, or false *)

  pm_inv : P -> Prop;
  pm_mapped : P -> Z -> option Z;
  pm_held : P -> Z -> Prop;

  pm_alloc_ok : forall p, pm_inv p ->
    wp pm_alloc p (fun a p' => pm_inv p' /\
      (forall va, pm_mapped p' va = pm_mapped p va) /\
      ((a = 0 /\ forall b, pm_held p' b <-> pm_held p b) \/
       (page_address a /\ ~ pm_held p a /\
        forall b, pm_held p' b <-> pm_held p b \/ b = a)));

  pm_free_ok : forall p a, pm_inv p -> page_address a -> pm_held p a ->
    wp (pm_free a) p (fun ok p' => ok = true /\ pm_inv p' /\
      (forall va, pm_mapped p' va = pm_mapped p va) /\
      (forall b, pm_held p' b <-> pm_held p b /\ b <> a));

  pm_map_ok : forall p va pa, pm_inv p -> client_page va -> page_address pa -> pm_held p pa ->
    pm_mapped p va = None ->
    wp (pm_map va pa VMM_WRITABLE) p (fun ok p' => pm_inv p' /\
      (forall b, pm_held p' b <-> pm_held p b) /\
      (forall vb, client_page vb ->
         pm_mapped p' vb = if ok && (va =? vb) then Some pa else pm_mapped p vb));

  pm_unmap_ok : forall p va pa, pm_inv p -> client_page va -> pm_mapped p va = Some pa ->
    wp (pm_unmap va) p (fun r p' => r = Some pa /\ pm_inv p' /\
      (forall b, pm_held p' b <-> pm_held p b) /\
      (forall vb, client_page vb ->
         pm_mapped p' vb = if va =? vb then None else pm_mapped p vb))
}.

(** ** Port I/O

    The devices behind the x86 port instructions. A read returns a byte; what
    it is, and how the device reacts, is the device's own business. *)
Class Ports (D : Type) := {
  io_in8 : Z -> M D Z;
  io_out8 : Z -> Z -> M D unit;
  io_in8_ok : forall port d, wp (io_in8 port) d (fun v _ => 0 <= v < 256);
  io_out8_ok : forall port v d, wp (io_out8 port v) d (fun _ _ => True)
}.
