(* ===== verification/Cpu.v ===== *)
(** * The interrupt flag, kernel/arch/x86/irq.c

    Kernel routines that touch shared state save EFLAGS, clear IF and restore
    it on every exit. The processor state they see is the EFLAGS register. *)

From S2P Require Import Prelude Monad.

Module Cpu.

Record state := State { eflags : Z }.

Definition EFLAGS_IF : Z := 0x200.

Definition sti : M state unit := modify (fun c => State (Z.lor (eflags c) EFLAGS_IF)).
Definition cli : M state unit := modify (fun c => State (Z.land (eflags c) (not32 EFLAGS_IF))).

Definition irq_enable : M state unit := sti.
Definition irq_read_flags : M state Z := gets eflags.

Definition irq_save_disable : M state Z :=
  let! flags := irq_read_flags in
  cli ;;
  ret flags.

Definition irq_restore (flags : Z) : M state unit :=
  if negb (Z.land flags 0x200 =? 0) then sti else cli.

(** ** Interrupt masking is undone exactly *)

Definition wf (c : state) : Prop := 0 <= eflags c < 4294967296.
Definition masked (c : state) : state := State (Z.land (eflags c) (not32 EFLAGS_IF)).
Definition interrupts_on (c : state) : bool := Z.testbit (eflags c) 9.

Lemma not32_if_bit i : 0 <= i < 32 -> Z.testbit (not32 EFLAGS_IF) i = negb (i =? 9).
Proof.
  intros. unfold not32, u32. change 4294967296 with (2 ^ 32).
  rewrite Z.mod_pow2_bits_low, Z.lnot_spec by lia.
  change EFLAGS_IF with (2 ^ 9). rewrite Z.pow2_bits_eqb by lia. by rewrite Z.eqb_sym.
Qed.

Lemma u32_bits_above z i : 0 <= z < 4294967296 -> 32 <= i -> Z.testbit z i = false.
Proof.
  intros Hz Hi. destruct (decide (z = 0)) as [->|]; [apply Z.bits_0|].
  apply Z.bits_above_log2; [lia|]. apply Z.lt_le_trans with 32; [|lia].
  apply Z.log2_lt_pow2; lia.
Qed.

Lemma flag_test z : negb (Z.land z 0x200 =? 0) = Z.testbit z 9.
Proof.
  change 0x200 with (2 ^ 9). destruct (Z.testbit z 9) eqn:E.
  - apply negb_true_iff, Z.eqb_neq. intros H0.
    assert (Z.testbit (Z.land z (2 ^ 9)) 9 = false) as H by (rewrite H0; apply Z.bits_0).
    by rewrite Z.land_spec, E in H.
  - apply negb_false_iff, Z.eqb_eq, Z.bits_inj'. intros i Hi.
    rewrite Z.land_spec, Z.bits_0, Z.pow2_bits_eqb by lia.
    destruct (Z.eqb_spec 9 i) as [<-|]; [by rewrite E|apply andb_false_r].
Qed.

Lemma masked_off c : interrupts_on (masked c) = false.
Proof.
  change (Z.testbit (Z.land (eflags c) (not32 EFLAGS_IF)) 9 = false).
  rewrite Z.land_spec, not32_if_bit by lia.
  apply andb_false_r.
Qed.

Lemma irq_save_disable_wp c Q : Q (eflags c) (masked c) -> wp irq_save_disable c Q.
Proof. done. Qed.

Lemma sti_masked e :
  0 <= e < 4294967296 -> Z.testbit e 9 = true ->
  Z.lor (Z.land e (not32 EFLAGS_IF)) EFLAGS_IF = e.
Proof.
  intros He E. apply Z.bits_inj'. intros i Hi. rewrite Z.lor_spec, Z.land_spec.
  change EFLAGS_IF with (2 ^ 9) at 2. rewrite Z.pow2_bits_eqb by lia.
  destruct (Z.lt_ge_cases i 32); [|rewrite u32_bits_above by lia; destruct (Z.eqb_spec 9 i); [lia|done]].
  rewrite not32_if_bit by lia.
  destruct (Z.eqb_spec i 9) as [E9|], (Z.eqb_spec 9 i); try lia; simpl; subst.
  - by rewrite E, andb_false_r.
  - by rewrite andb_true_r, orb_false_r.
Qed.

Lemma cli_masked e :
  0 <= e < 4294967296 -> Z.testbit e 9 = false ->
  Z.land (Z.land e (not32 EFLAGS_IF)) (not32 EFLAGS_IF) = e.
Proof.
  intros He E. apply Z.bits_inj'. intros i Hi. rewrite !Z.land_spec.
  destruct (Z.lt_ge_cases i 32); [|by rewrite u32_bits_above by lia].
  rewrite not32_if_bit by lia. destruct (Z.eqb_spec i 9) as [->|]; cbn [negb].
  - by rewrite E.
  - by rewrite !andb_true_r.
Qed.

Lemma masked_wf c : wf c -> wf (masked c).
Proof.
  destruct c as [e]. unfold wf, masked. cbn [eflags]. intros He.
  assert (Z.land e (not32 EFLAGS_IF) = Z.land e (not32 EFLAGS_IF) mod 2 ^ 32) as ->.
  { rewrite <-Z.land_ones, <-Z.land_assoc, (Z.land_comm _ (Z.ones 32)), Z.land_assoc by lia.
    rewrite (Z.land_ones e), (Z.mod_small e) by lia. done. }
  apply Z.mod_pos_bound. lia.
Qed.

(** Restoring the saved flags gives back the processor state that was saved. *)
Lemma irq_restore_wp c (Q : unit -> state -> Prop) :
  wf c -> Q tt c -> wp (irq_restore (eflags c)) (masked c) Q.
Proof.
  intros Hc HQ. destruct c as [e]. unfold wf in Hc. unfold irq_restore. rewrite flag_test.
  cbn [eflags] in *. destruct (Z.testbit e 9) eqn:E; apply wp_modify; unfold masked; cbn [eflags].
  - by rewrite sti_masked.
  - by rewrite cli_masked.
Qed.

End Cpu.
