(* ===== verification/Bytes.v ===== *)
(** * Byte buffers

    The kernel's disk and image formats are read from and written to byte
    arrays at fixed offsets. A buffer is a list of bytes; [slice] is the memory
    behind a pointer [&buffer[offset]], [splice] a copy into it. The
    little-endian accessors of kernel/fs/minifs.c are defined here with their
    round trips. *)

From S2P Require Import Prelude.

Definition bytes (l : list Z) : Prop := Forall (fun x => 0 <= x < 256) l.

(** [source[offset]] of a buffer known to be long enough. *)
Definition byte_at (l : list Z) (o : Z) : Z := default 0 (l !! Z.to_nat o).

Definition slice (l : list Z) (o n : Z) : list Z := take (Z.to_nat n) (drop (Z.to_nat o) l).

(** Copying [src] over [l] at offset [o]. *)
Definition splice (l : list Z) (o : Z) (src : list Z) : list Z :=
  take (Z.to_nat o) l ++ src ++ drop (Z.to_nat o + length src) l.

Definition zlength {A} (l : list A) : Z := Z.of_nat (length l).

Definition clear_bytes (l : list Z) (o n : Z) : list Z := splice l o (replicate (Z.to_nat n) 0).
Definition copy_bytes (l : list Z) (o : Z) (src : list Z) : list Z := splice l o src.

Section slices.
Implicit Types l src : list Z.

Lemma length_splice l o src :
  0 <= o -> o + zlength src <= zlength l -> length (splice l o src) = length l.
Proof. unfold zlength, splice. intros. rewrite !length_app, length_take, length_drop. lia. Qed.

Lemma length_slice l o n : 0 <= o -> 0 <= n -> o + n <= zlength l -> length (slice l o n) = Z.to_nat n.
Proof. unfold zlength, slice. intros. rewrite length_take, length_drop. lia. Qed.

Lemma zlength_slice l o n : 0 <= o -> 0 <= n -> o + n <= zlength l -> zlength (slice l o n) = n.
Proof. intros. unfold zlength at 1. rewrite length_slice; lia. Qed.

Lemma lookup_splice l o src i :
  0 <= o -> o + zlength src <= zlength l ->
  splice l o src !! i = if decide (Z.to_nat o <= i < Z.to_nat o + length src)%nat
                        then src !! (i - Z.to_nat o)%nat else l !! i.
Proof.
  unfold zlength, splice. intros Ho Hb. destruct (decide _) as [Hi|Hi].
  - rewrite lookup_app_r by (rewrite length_take; lia). rewrite length_take.
    rewrite Nat.min_l by lia. rewrite lookup_app_l by lia. done.
  - destruct (decide (i < Z.to_nat o)%nat).
    + rewrite lookup_app_l by (rewrite length_take; lia). by rewrite lookup_take_lt.
    + rewrite lookup_app_r by (rewrite length_take; lia). rewrite length_take, Nat.min_l by lia.
      rewrite lookup_app_r by lia. rewrite lookup_drop. f_equal. lia.
Qed.

Lemma byte_at_splice l o src i :
  0 <= o -> o + zlength src <= zlength l -> 0 <= i ->
  byte_at (splice l o src) i = if (o <=? i) && (i <? o + zlength src) then byte_at src (i - o) else byte_at l i.
Proof.
  intros Ho Hb Hi. unfold byte_at. rewrite lookup_splice by done. unfold zlength in *.
  destruct (Z.leb_spec o i), (Z.ltb_spec i (o + Z.of_nat (length src))); simpl; case_decide; try lia; try done.
  f_equal. f_equal. lia.
Qed.

Lemma slice_splice_same l o src :
  0 <= o -> o + zlength src <= zlength l -> slice (splice l o src) o (zlength src) = src.
Proof.
  unfold zlength, slice, splice. intros. rewrite drop_app_length' by (rewrite length_take; lia).
  by rewrite take_app_length' by lia.
Qed.

Lemma slice_splice_other l o src p n :
  0 <= o -> o + zlength src <= zlength l -> 0 <= p -> 0 <= n -> p + n <= o \/ o + zlength src <= p ->
  slice (splice l o src) p n = slice l p n.
Proof.
  intros Ho Hb Hp Hn Hd. apply list_eq. intros i. unfold slice.
  destruct (decide (i < Z.to_nat n)%nat).
  - rewrite !lookup_take_lt, !lookup_drop by done. rewrite lookup_splice by done.
    rewrite decide_False; [done|]. unfold zlength in *. lia.
  - by rewrite !lookup_take_ge by lia.
Qed.

Lemma byte_at_slice l o n i : 0 <= o -> 0 <= i < n -> byte_at (slice l o n) i = byte_at l (o + i).
Proof.
  intros Ho Hi. unfold byte_at, slice. rewrite lookup_take_lt, lookup_drop by lia. f_equal. f_equal. lia.
Qed.

Lemma bytes_splice l o src : bytes l -> bytes src -> bytes (splice l o src).
Proof.
  intros Hl Hs. unfold bytes, splice. apply Forall_app. split; [by apply Forall_take|].
  apply Forall_app. split; [done|by apply Forall_drop].
Qed.

Lemma bytes_slice l o n : bytes l -> bytes (slice l o n).
Proof. intros. by apply Forall_take, Forall_drop. Qed.

Lemma bytes_replicate n : bytes (replicate n 0).
Proof. apply Forall_replicate. lia. Qed.

Lemma byte_at_range l i : bytes l -> 0 <= byte_at l i < 256.
Proof.
  intros Hl. unfold byte_at. destruct (l !! Z.to_nat i) eqn:E; simpl; [|lia].
  unfold bytes in Hl. rewrite Forall_lookup in Hl. eauto.
Qed.

Lemma splice_splice l o src src' :
  0 <= o -> o + zlength src <= zlength l -> length src' = length src ->
  splice (splice l o src) o src' = splice l o src'.
Proof.
  intros Ho Hb Hlen. assert (zlength src' = zlength src) as Hz by (unfold zlength; lia).
  apply list_eq. intros i. rewrite !lookup_splice; try lia.
  - case_decide; [done|]. rewrite decide_False; [done|lia].
  - unfold zlength in *. rewrite length_splice by (unfold zlength; lia). lia.
Qed.

End slices.

(** ** Little-endian fields, kernel/fs/minifs.c *)

Definition read_le16 (l : list Z) (o : Z) : Z :=
  Z.lor (byte_at l o) (Z.shiftl (byte_at l (o + 1)) 8).

Definition read_le32 (l : list Z) (o : Z) : Z :=
  Z.lor (Z.lor (Z.lor (byte_at l o) (Z.shiftl (byte_at l (o + 1)) 8))
    (Z.shiftl (byte_at l (o + 2)) 16)) (Z.shiftl (byte_at l (o + 3)) 24).

Definition le16 (v : Z) : list Z := [u8 v; u8 (Z.shiftr v 8)].
Definition le32 (v : Z) : list Z := [u8 v; u8 (Z.shiftr v 8); u8 (Z.shiftr v 16); u8 (Z.shiftr v 24)].

Definition write_le16 (l : list Z) (o v : Z) : list Z := splice l o (le16 v).
Definition write_le32 (l : list Z) (o v : Z) : list Z := splice l o (le32 v).

Lemma lor_shiftl a b k : 0 <= k -> 0 <= a < 2 ^ k -> Z.lor a (Z.shiftl b k) = a + b * 2 ^ k.
Proof.
  intros Hk Ha. rewrite <-Z.shiftl_mul_pow2 by done.
  assert (Z.land a (Z.shiftl b k) = 0) as Hl.
  { apply Z.bits_inj'. intros i Hi. rewrite Z.land_spec, Z.bits_0. destruct (Z.lt_ge_cases i k).
    - rewrite Z.shiftl_spec_low by lia. apply andb_false_r.
    - destruct (decide (a = 0)) as [->|]; [by rewrite Z.bits_0|].
      rewrite (Z.bits_above_log2 a i); [done|lia|]. apply Z.lt_le_trans with k; [|done].
      apply Z.log2_lt_pow2; lia. }
  rewrite Z.add_nocarry_lxor by done. symmetry. by apply Z.lxor_lor.
Qed.

Lemma read_le16_sum l o : bytes l -> read_le16 l o = byte_at l o + byte_at l (o + 1) * 256.
Proof. intros Hl. unfold read_le16. rewrite lor_shiftl; [done|lia|]. by apply byte_at_range. Qed.

Lemma read_le32_sum l o : bytes l ->
  read_le32 l o = byte_at l o + byte_at l (o + 1) * 256 + byte_at l (o + 2) * 65536 + byte_at l (o + 3) * 16777216.
Proof.
  intros Hl. unfold read_le32.
  pose proof (byte_at_range l o Hl). pose proof (byte_at_range l (o + 1) Hl). pose proof (byte_at_range l (o + 2) Hl).
  rewrite (lor_shiftl (byte_at l o)) by lia. rewrite (lor_shiftl _ _ 16) by lia. rewrite lor_shiftl by lia. done.
Qed.

Lemma read_le16_range l o : bytes l -> 0 <= read_le16 l o < 65536.
Proof.
  intros Hl. rewrite read_le16_sum by done.
  pose proof (byte_at_range l o Hl). pose proof (byte_at_range l (o + 1) Hl). lia.
Qed.

Lemma read_le32_range l o : bytes l -> 0 <= read_le32 l o < 4294967296.
Proof.
  intros Hl. rewrite read_le32_sum by done. pose proof (byte_at_range l o Hl).
  pose proof (byte_at_range l (o + 1) Hl). pose proof (byte_at_range l (o + 2) Hl). pose proof (byte_at_range l (o + 3) Hl). lia.
Qed.

Lemma bytes_le16 v : bytes (le16 v).
Proof. repeat constructor; apply u8_range. Qed.

Lemma bytes_le32 v : bytes (le32 v).
Proof. repeat constructor; apply u8_range. Qed.

Lemma read_le16_le16 v : 0 <= v < 65536 -> read_le16 (le16 v) 0 = v.
Proof.
  intros Hv. rewrite read_le16_sum by apply bytes_le16.
  change (byte_at (le16 v) 0) with (u8 v). change (byte_at (le16 v) (0 + 1)) with (u8 (Z.shiftr v 8)). rewrite (Z.shiftr_div_pow2 v 8) by lia.
  unfold u8. change (2 ^ 8) with 256. Z.to_euclidean_division_equations. lia.
Qed.

Lemma read_le32_le32 v : 0 <= v < 4294967296 -> read_le32 (le32 v) 0 = v.
Proof.
  intros Hv. rewrite read_le32_sum by apply bytes_le32.
  change (byte_at (le32 v) 0) with (u8 v). change (byte_at (le32 v) (0 + 1)) with (u8 (Z.shiftr v 8)).
  change (byte_at (le32 v) (0 + 2)) with (u8 (Z.shiftr v 16)). change (byte_at (le32 v) (0 + 3)) with (u8 (Z.shiftr v 24)).
  rewrite !Z.shiftr_div_pow2 by lia.
  unfold u8. change (2 ^ 8) with 256. change (2 ^ 16) with 65536. change (2 ^ 24) with 16777216.
  Z.to_euclidean_division_equations. lia.
Qed.

(** A field reads back from the bytes it was written to, and other fields keep
    their value. *)
Lemma read_le32_splice l o src i :
  0 <= o -> o + zlength src <= zlength l -> 0 <= i -> bytes l -> bytes src ->
  o <= i /\ i + 4 <= o + zlength src -> read_le32 (splice l o src) i = read_le32 src (i - o).
Proof.
  intros Ho Hb Hi Hl Hs Hin. unfold read_le32. rewrite !byte_at_splice by lia.
  repeat match goal with |- context [(?a <=? ?b) && (?c <? ?d)] =>
    rewrite (proj2 (Z.leb_le a b)), (proj2 (Z.ltb_lt c d)) by lia; cbn [andb] end.
  repeat f_equal; lia.
Qed.

Lemma read_le32_splice_other l o src i :
  0 <= o -> o + zlength src <= zlength l -> 0 <= i -> i + 4 <= o \/ o + zlength src <= i ->
  read_le32 (splice l o src) i = read_le32 l i.
Proof.
  intros Ho Hb Hi Hd. unfold read_le32. rewrite !byte_at_splice by lia.
  repeat match goal with |- context [(?a <=? ?b) && (?c <? ?d)] =>
    replace ((a <=? b) && (c <? d)) with false by (symmetry; apply andb_false_iff; rewrite Z.leb_gt, Z.ltb_ge; lia) end.
  done.
Qed.

Lemma read_le16_splice_other l o src i :
  0 <= o -> o + zlength src <= zlength l -> 0 <= i -> i + 2 <= o \/ o + zlength src <= i ->
  read_le16 (splice l o src) i = read_le16 l i.
Proof.
  intros Ho Hb Hi Hd. unfold read_le16. rewrite !byte_at_splice by lia.
  repeat match goal with |- context [(?a <=? ?b) && (?c <? ?d)] =>
    replace ((a <=? b) && (c <? d)) with false by (symmetry; apply andb_false_iff; rewrite Z.leb_gt, Z.ltb_ge; lia) end.
  done.
Qed.

Lemma read_le32_write l o v :
  0 <= o -> o + 4 <= zlength l -> bytes l -> 0 <= v < 4294967296 -> read_le32 (write_le32 l o v) o = v.
Proof.
  intros. unfold write_le32. rewrite read_le32_splice; [|done|exact H0|done|done|apply bytes_le32|change (zlength (le32 v)) with 4; lia].
  rewrite Z.sub_diag. by apply read_le32_le32.
Qed.

Lemma read_le16_write l o v :
  0 <= o -> o + 2 <= zlength l -> bytes l -> 0 <= v < 65536 -> read_le16 (write_le16 l o v) o = v.
Proof.
  intros Ho Hb Hl Hv. unfold write_le16, read_le16. rewrite !byte_at_splice by (change (zlength (le16 v)) with 2; lia).
  change (zlength (le16 v)) with 2.
  rewrite (proj2 (Z.leb_le o o)), (proj2 (Z.leb_le o (o + 1))), (proj2 (Z.ltb_lt o (o + 2))),
    (proj2 (Z.ltb_lt (o + 1) (o + 2))) by lia. cbn [andb].
  replace (o - o) with 0 by lia. replace (o + 1 - o) with 1 by lia. by apply read_le16_le16.
Qed.

Lemma read_le32_slice l o n i : 0 <= o -> 0 <= i -> i + 4 <= n -> read_le32 (slice l o n) i = read_le32 l (o + i).
Proof. intros. unfold read_le32. rewrite !byte_at_slice by lia. by rewrite !Z.add_assoc. Qed.

Lemma le16_read l o : bytes l -> le16 (read_le16 l o) = [byte_at l o; byte_at l (o + 1)].
Proof.
  intros Hl. rewrite read_le16_sum by done. unfold le16. rewrite Z.shiftr_div_pow2 by lia. change (2 ^ 8) with 256.
  pose proof (byte_at_range l o Hl). pose proof (byte_at_range l (o + 1) Hl). repeat f_equal; word_lia.
Qed.

Lemma le32_read l o : bytes l ->
  le32 (read_le32 l o) = [byte_at l o; byte_at l (o + 1); byte_at l (o + 2); byte_at l (o + 3)].
Proof.
  intros Hl. rewrite read_le32_sum by done. unfold le32. rewrite !Z.shiftr_div_pow2 by lia.
  change (2 ^ 8) with 256. change (2 ^ 16) with 65536. change (2 ^ 24) with 16777216.
  pose proof (byte_at_range l o Hl). pose proof (byte_at_range l (o + 1) Hl).
  pose proof (byte_at_range l (o + 2) Hl). pose proof (byte_at_range l (o + 3) Hl). repeat f_equal; word_lia.
Qed.
