(* ===== verification/Pmm.v ===== *)
(** * The physical memory manager, kernel/mm/pmm.c

    Two static bitmaps over the 2^20 page frames of the 4 GiB physical address
    space and three counters. [pmm_init] builds them from the E820 map of the
    boot loader; [pmm_alloc] hands out the lowest free frame; [pmm_free] takes
    one back. *)

From S2P Require Import Prelude Monad Interfaces.

Module Pmm.

Definition PAGE_SIZE : Z := 4096.
Definition PAGE_SHIFT : Z := 12.
Definition PMM_MAX_PAGES : Z := 1048576.
Definition PMM_BITMAP_SIZE : Z := PMM_MAX_PAGES / 8.
Definition E820_USABLE : Z := 1.
Definition LOW_MEMORY_RESERVED_END : Z := 0x00100000.
Definition FOUR_GIB : Z := 0x100000000.

Definition BOOT_INFO_MAGIC : Z := 0x534F494D.
Definition BOOT_INFO_VERSION : Z := 1.
Definition BOOT_INFO_MAX_E820_ENTRIES : Z := 128.
Definition sizeof_boot_info : Z := 64.

(** [struct e820_entry] and the fields of [struct boot_info] the memory
    managers read. *)
Record e820_entry := E820 { base : Z; length : Z; type : Z; attributes : Z }.

Record boot_info := BootInfo {
  magic : Z; version : Z; size : Z;
  kernel_physical_start : Z; kernel_physical_end : Z;
  e820_count : Z
}.

Record state := State {
  used_bitmap : arr;
  allocatable_bitmap : arr;
  total_pages : Z;
  free_pages : Z;
  reserved_pages : Z
}.

Definition set_used_bitmap (b : arr) (s : state) : state :=
  State b (allocatable_bitmap s) (total_pages s) (free_pages s) (reserved_pages s).
Definition set_allocatable_bitmap (b : arr) (s : state) : state :=
  State (used_bitmap s) b (total_pages s) (free_pages s) (reserved_pages s).
Definition set_free_pages (n : Z) (s : state) : state :=
  State (used_bitmap s) (allocatable_bitmap s) (total_pages s) n (reserved_pages s).

(** ** Operations *)

Definition bitmap_get (bitmap : arr) (page : Z) : option bool :=
  b ← arr_get bitmap (Z.shiftr page 3);
  Some (negb (Z.land b (u8 (Z.shiftl 1 (Z.land page 7))) =? 0)).

Definition bitmap_set (bitmap : arr) (page : Z) (value : bool) : option arr :=
  let mask := u8 (Z.shiftl 1 (Z.land page 7)) in
  b ← arr_get bitmap (Z.shiftr page 3);
  arr_set bitmap (Z.shiftr page 3)
    (if value then Z.lor b mask else Z.land b (not8 mask)).

Definition get_allocatable (page : Z) : M state bool :=
  fun s => access (bitmap_get (allocatable_bitmap s) page) s.
Definition get_used (page : Z) : M state bool :=
  fun s => access (bitmap_get (used_bitmap s) page) s.
Definition mark_allocatable (page : Z) (value : bool) : M state unit := fun s =>
  (let! b := access (bitmap_set (allocatable_bitmap s) page value) in
   modify (set_allocatable_bitmap b)) s.
Definition mark_used (page : Z) (value : bool) : M state unit := fun s =>
  (let! b := access (bitmap_set (used_bitmap s) page value) in
   modify (set_used_bitmap b)) s.

(** [bool range_to_pages(base, length, &first_page, &limit_page)] *)
Definition range_to_pages (base length : Z) : option (Z * Z) :=
  if (length =? 0) || (FOUR_GIB <=? base) then None else
  let end0 := u64 (base + length) in
  let end1 := if (end0 <? base) || (FOUR_GIB <? end0) then FOUR_GIB else end0 in
  if FOUR_GIB - (PAGE_SIZE - 1) <? base then None else
  let aligned_start := Z.land (u64 (base + (PAGE_SIZE - 1))) (not64 (PAGE_SIZE - 1)) in
  let end2 := Z.land end1 (not64 (PAGE_SIZE - 1)) in
  if end2 <=? aligned_start then None else
  Some (u32 (Z.shiftr aligned_start PAGE_SHIFT), u32 (Z.shiftr end2 PAGE_SHIFT)).

Definition make_range_allocatable (base length : Z) : M state unit :=
  match range_to_pages base length with
  | None => ret tt
  | Some (first, limit) =>
      for_range (Z.to_nat (limit - first)) first (fun page =>
        mark_allocatable page true ;; mark_used page false)
  end.

Definition reserve_range (base length : Z) : M state unit :=
  if (length =? 0) || (FOUR_GIB <=? base) then ret tt else
  let end0 := u64 (base + length) in
  let end1 := if (end0 <? base) || (FOUR_GIB <? end0) then FOUR_GIB else end0 in
  let first := u32 (Z.shiftr base PAGE_SHIFT) in
  let limit := if end1 =? FOUR_GIB then PMM_MAX_PAGES
               else u32 (Z.shiftr (u64 (end1 + (PAGE_SIZE - 1))) PAGE_SHIFT) in
  for_range (Z.to_nat (limit - first)) first (fun page =>
    mark_allocatable page false ;; mark_used page true).

(** The guard of [pmm_init]; a null pointer is [None]. *)
Definition boot_info_valid (bi : option boot_info) : bool :=
  match bi with
  | None => false
  | Some bi =>
      negb (negb (magic bi =? BOOT_INFO_MAGIC) || negb (version bi =? BOOT_INFO_VERSION) ||
            negb (size bi =? sizeof_boot_info) || (e820_count bi =? 0) ||
            (BOOT_INFO_MAX_E820_ENTRIES <? e820_count bi) ||
            (kernel_physical_end bi <=? kernel_physical_start bi))
  end.

Definition page_is_free (page : Z) : M state bool :=
  andM (get_allocatable page) (notM (get_used page)).

(** The three loops of [pmm_init]; [entries] is the array at
    [boot_info->e820_address]. The first returns [maximum_page]. *)
Definition map_usable_entries (count : Z) (entries : list e820_entry) : M state Z :=
  for_acc (Z.to_nat count) 0 0 (fun index maximum_page =>
    let! e := access (entries !! Z.to_nat index) in
    match range_to_pages (base e) (length e) with
    | Some (first, limit) =>
        let maximum_page' := if maximum_page <? limit then limit else maximum_page in
        (if type e =? E820_USABLE
         then make_range_allocatable (base e) (length e) else ret tt) ;;
        ret maximum_page'
    | None => ret maximum_page
    end).

Definition reserve_entries (count : Z) (entries : list e820_entry) : M state unit :=
  for_range (Z.to_nat count) 0 (fun index =>
    let! e := access (entries !! Z.to_nat index) in
    if negb (type e =? E820_USABLE)
    then reserve_range (base e) (length e) else ret tt).

Definition count_free_pages (total : Z) : M state Z :=
  for_acc (Z.to_nat total) 0 0 (fun page free =>
    let! b := page_is_free page in
    ret (if b : bool then free +u 1 else free)).

Definition pmm_init (boot : option boot_info) (entries : list e820_entry) : M state unit :=
  match boot with
  | Some bi =>
    if negb (boot_info_valid boot) then panic "invalid Boot Info for PMM" else
    modify (set_used_bitmap (arr_fill PMM_BITMAP_SIZE 255)) ;;
    modify (set_allocatable_bitmap (arr_fill PMM_BITMAP_SIZE 0)) ;;
    let! maximum_page := map_usable_entries (e820_count bi) entries in
    reserve_entries (e820_count bi) entries ;;
    reserve_range 0 LOW_MEMORY_RESERVED_END ;;
    reserve_range (kernel_physical_start bi)
      (u64 (kernel_physical_end bi - kernel_physical_start bi)) ;;
    let! free := count_free_pages maximum_page in
    modify (fun s => State (used_bitmap s) (allocatable_bitmap s) maximum_page free
                       (maximum_page -u free)) ;;
    if (maximum_page =? 0) || (free =? 0)
    then panic "PMM has no usable pages" else ret tt
  | None => panic "invalid Boot Info for PMM"
  end.

Definition pmm_alloc : M state Z :=
  let! total := gets total_pages in
  let! r := for_until (Z.to_nat total) 0 (fun page =>
    let! free := page_is_free page in
    if free : bool then
      mark_used page true ;;
      modify (fun s => set_free_pages (free_pages s -u 1) s) ;;
      ret (Some (u32 (Z.shiftl page PAGE_SHIFT)))
    else ret None) in
  ret (default 0 r).

Definition pmm_free (physical_address : Z) : M state bool :=
  if negb (Z.land physical_address (PAGE_SIZE - 1) =? 0) then ret false else
  let page := Z.shiftr physical_address PAGE_SHIFT in
  let! total := gets total_pages in
  let! bad := orM (orM (ret (total <=? page)) (notM (get_allocatable page)))
                  (notM (get_used page)) in
  if bad : bool then ret false else
  mark_used page false ;;
  modify (fun s => set_free_pages (free_pages s +u 1) s) ;;
  ret true.

Record pmm_stats := PmmStats { stat_total : Z; stat_free : Z; stat_reserved : Z }.

Definition pmm_get_stats : M state pmm_stats :=
  gets (fun s => PmmStats (total_pages s) (free_pages s) (reserved_pages s)).

Definition pmm_self_test : M state bool :=
  let! initial_free := gets free_pages in
  let! first := pmm_alloc in
  let! second := pmm_alloc in
  if (first =? 0) || (second =? 0) || (first =? second) ||
     negb (Z.land first (PAGE_SIZE - 1) =? 0) ||
     negb (Z.land second (PAGE_SIZE - 1) =? 0)
  then ret false else
  let! freed := pmm_free first in
  if negb freed then ret false else
  let! recycled := pmm_alloc in
  let! bad := orM (orM (ret (negb (recycled =? first))) (notM (pmm_free recycled)))
                  (notM (pmm_free second)) in
  if bad : bool then ret false else
  gets (fun s => free_pages s =? initial_free).

(** ** The bitmaps as sets of frames *)

Definition bit_at (b : arr) (p : Z) : bool := default false (bitmap_get b p).
Definition allocatable (s : state) (p : Z) : bool := bit_at (allocatable_bitmap s) p.
Definition used (s : state) (p : Z) : bool := bit_at (used_bitmap s) p.
Definition frame_free (s : state) (p : Z) : bool := allocatable s p && negb (used s p).

Lemma bitmap_get_in b p :
  arr_len b = PMM_BITMAP_SIZE -> 0 <= p < PMM_MAX_PAGES ->
  bitmap_get b p = Some (bit_at b p).
Proof.
  intros Hlen Hp. unfold bit_at, bitmap_get. rewrite shiftr_3.
  destruct (arr_get_in b (p / 8)) as [v Hv].
  { rewrite Hlen. unfold PMM_BITMAP_SIZE, PMM_MAX_PAGES in *. word_lia. }
  by rewrite Hv.
Qed.

Lemma bit_at_testbit b p v :
  arr_get b (p / 8) = Some v -> bit_at b p = Z.testbit v (p mod 8).
Proof.
  intros Hv. unfold bit_at, bitmap_get. rewrite shiftr_3, Hv, land_low_7. simpl.
  apply land_bit_mask. word_lia.
Qed.

Lemma bit_at_None b p : arr_get b (p / 8) = None -> bit_at b p = false.
Proof. intros Hv. unfold bit_at, bitmap_get. by rewrite shiftr_3, Hv. Qed.

Lemma bitmap_set_in b p v :
  arr_len b = PMM_BITMAP_SIZE -> 0 <= p < PMM_MAX_PAGES ->
  exists b', bitmap_set b p v = Some b' /\ arr_len b' = PMM_BITMAP_SIZE /\ forall q, bit_at b' q = if p =? q then v else bit_at b q.
Proof.
  intros Hlen Hp. unfold bitmap_set. rewrite shiftr_3, land_low_7.
  assert (0 <= p / 8 < arr_len b) as Hr.
  { rewrite Hlen. unfold PMM_BITMAP_SIZE, PMM_MAX_PAGES in *. word_lia. }
  destruct (arr_get_in b _ Hr) as [x Hx]. rewrite Hx. simpl.
  change (if v then _ else _) with (byte_set_bit x (p mod 8) v).
  destruct (arr_set_in b _ (byte_set_bit x (p mod 8) v) Hr) as (b' & -> & Hlen' & Hget).
  exists b'. split; [done|]. split; [congruence|]. intros q.
  specialize (Hget (q / 8)). destruct (Z.eqb_spec (p / 8) (q / 8)) as [E|E].
  - rewrite (bit_at_testbit b' q _ Hget), testbit_byte_set_bit by word_lia.
    rewrite (bit_at_testbit b q x) by congruence.
    destruct (Z.eqb_spec (p mod 8) (q mod 8)), (Z.eqb_spec p q); try done; subst; word_lia.
  - assert (p <> q) by congruence.
    destruct (Z.eqb_spec p q) as [|_]; [done|].
    destruct (arr_get b (q / 8)) as [y|] eqn:Hy.
    + by rewrite (bit_at_testbit b' q y), (bit_at_testbit b q y).
    + by rewrite (bit_at_None b' q), (bit_at_None b q).
Qed.

(** ** Invariant *)

Definition sized (s : state) : Prop :=
  arr_len (used_bitmap s) = PMM_BITMAP_SIZE /\ arr_len (allocatable_bitmap s) = PMM_BITMAP_SIZE.

Record wf (s : state) : Prop := {
  wf_sized : sized s;
  wf_total : 0 <= total_pages s <= PMM_MAX_PAGES;
  wf_low : forall p, p < LOW_MEMORY_RESERVED_END / PAGE_SIZE -> allocatable s p = false;
  wf_free : free_pages s = count_upto (frame_free s) (total_pages s);
  wf_reserved : reserved_pages s = total_pages s - count_upto (allocatable s) (total_pages s)
}.

(** States no operation can tell apart: the bitmaps as sets, the counters. *)
Record equiv_state (s1 s2 : state) : Prop := {
  eq_used : forall p, used s1 p = used s2 p;
  eq_allocatable : forall p, allocatable s1 p = allocatable s2 p;
  eq_total : total_pages s1 = total_pages s2;
  eq_free : free_pages s1 = free_pages s2;
  eq_reserved : reserved_pages s1 = reserved_pages s2
}.
#[export] Instance state_equiv : Equiv state := equiv_state.

#[export] Instance equiv_state_equivalence : Equivalence equiv_state.
Proof.
  split.
  - intros s. by constructor.
  - intros s1 s2 []. by constructor.
  - intros s1 s2 s3 [] []. constructor; congruence.
Qed.

(** [s'] is [s] with the used bit of frame [p] set to [v] and the free counter [n]. *)
Record used_updated (s : state) (p : Z) (v : bool) (n : Z) (s' : state) : Prop := {
  uu_sized : sized s';
  uu_used : forall q, used s' q = if p =? q then v else used s q;
  uu_allocatable : forall q, allocatable s' q = allocatable s q;
  uu_total : total_pages s' = total_pages s;
  uu_free : free_pages s' = n;
  uu_reserved : reserved_pages s' = reserved_pages s
}.

Section triples.
  Implicit Types s : state.

Lemma wp_get_allocatable p s Q :
    sized s -> 0 <= p < PMM_MAX_PAGES -> Q (allocatable s p) s -> wp (get_allocatable p) s Q.
  Proof.
    intros [_ Hs] Hp HQ. unfold wp, get_allocatable, access.
    by rewrite bitmap_get_in.
  Qed.

Lemma wp_get_used p s Q :
    sized s -> 0 <= p < PMM_MAX_PAGES -> Q (used s p) s -> wp (get_used p) s Q.
  Proof.
    intros [Hs _] Hp HQ. unfold wp, get_used, access. by rewrite bitmap_get_in.
  Qed.

Lemma wp_page_is_free p s Q :
    sized s -> 0 <= p < PMM_MAX_PAGES -> Q (frame_free s p) s -> wp (page_is_free p) s Q.
  Proof.
    intros Hs Hp HQ. unfold page_is_free. wp_step. apply wp_get_allocatable; [done..|].
    unfold frame_free in HQ. destruct (allocatable s p); [|done].
    wp_step. by apply wp_get_used.
  Qed.

Lemma wp_mark_used p v s Q :
    sized s -> 0 <= p < PMM_MAX_PAGES ->
    (forall s', used_updated s p v (free_pages s) s' -> Q tt s') ->
    wp (mark_used p v) s Q.
  Proof.
    intros [Hu Ha] Hp HQ. unfold wp, mark_used.
    destruct (bitmap_set_in _ p v Hu Hp) as (b' & Hb & Hlen & Hbit). rewrite Hb.
    apply HQ. by constructor.
  Qed.

Lemma wp_mark_allocatable p v s Q :
    sized s -> 0 <= p < PMM_MAX_PAGES ->
    (forall s', sized s' ->
       (forall q, allocatable s' q = if p =? q then v else allocatable s q) ->
       (forall q, used s' q = used s q) -> Q tt s') ->
    wp (mark_allocatable p v) s Q.
  Proof.
    intros [Hu Ha] Hp HQ. unfold wp, mark_allocatable.
    destruct (bitmap_set_in _ p v Ha Hp) as (b' & Hb & Hlen & Hbit). rewrite Hb.
    by apply HQ.
  Qed.
End triples.

(** Setting the used bit of an allocatable frame keeps the invariant as long
    as the counter follows. *)
Lemma used_updated_wf s p v s' :
  wf s -> 0 <= p < total_pages s -> allocatable s p = true -> used s p = negb v ->
  used_updated s p v (free_pages s + (if v then -1 else 1)) s' -> wf s'.
Proof.
  intros [Hsz Htot Hlow Hfree Hres] Hp Ha Hu [Hsz' Hus Hal Ht Hf Hr].
  constructor; try done.
  - by rewrite Ht.
  - intros q Hq. by rewrite Hal, Hlow.
  - rewrite Hf, Ht, Hfree.
    assert (frame_free s p = v) as H1.
    { unfold frame_free. rewrite Ha, Hu. by rewrite negb_involutive. }
    assert (frame_free s' p = negb v) as H2.
    { unfold frame_free. by rewrite Hal, Ha, Hus, Z.eqb_refl. }
    pose proof (count_upto_update (frame_free s) (frame_free s') (total_pages s) p Hp) as E.
    rewrite H1, H2 in E. assert (forall i, i <> p -> frame_free s i = frame_free s' i) as Hext.
    { intros i Hi. unfold frame_free. rewrite Hal, Hus.
      by destruct (Z.eqb_spec p i); [congruence|]. }
    specialize (E Hext). destruct v; simpl in E; lia.
  - rewrite Hr, Ht, Hres. f_equal. apply count_from_ext. intros. by rewrite Hal.
Qed.

(** ** Allocation and release *)

(** What [pmm_alloc] does: nothing when every frame is taken, otherwise it
    takes the lowest free frame. *)
Definition alloc_post (s : state) (a : Z) (s' : state) : Prop :=
  (a = 0 /\ s' = s /\ forall q, 0 <= q < total_pages s -> frame_free s q = false) \/
  (exists p, a = p * PAGE_SIZE /\
     LOW_MEMORY_RESERVED_END / PAGE_SIZE <= p < total_pages s /\
     frame_free s p = true /\ (forall q, 0 <= q < p -> frame_free s q = false) /\
     used_updated s p true (free_pages s - 1) s' /\ wf s').

Lemma frame_free_low s p :
  wf s -> frame_free s p = true -> LOW_MEMORY_RESERVED_END / PAGE_SIZE <= p.
Proof.
  intros Hwf Hf. destruct (Z.lt_ge_cases p (LOW_MEMORY_RESERVED_END / PAGE_SIZE)) as [Hlt|]; [|done].
  unfold frame_free in Hf. by rewrite (wf_low _ Hwf p Hlt) in Hf.
Qed.

Lemma frame_free_bits s p :
  frame_free s p = true -> allocatable s p = true /\ used s p = false.
Proof. unfold frame_free. rewrite andb_true_iff, negb_true_iff. done. Qed.

Lemma wf_free_range s : wf s -> 0 <= free_pages s <= total_pages s.
Proof.
  intros Hwf. rewrite (wf_free _ Hwf). pose proof (wf_total _ Hwf).
  pose proof (count_from_bound (frame_free s) 0 (Z.to_nat (total_pages s))).
  unfold count_upto. lia.
Qed.

Lemma exists_free s : wf s -> 0 < free_pages s ->
  exists p, 0 <= p < total_pages s /\ frame_free s p = true.
Proof.
  intros Hwf Hpos. rewrite (wf_free _ Hwf) in Hpos. unfold count_upto in Hpos.
  enough (exists p, 0 <= p < 0 + Z.of_nat (Z.to_nat (total_pages s)) /\ frame_free s p = true)
    as (p & Hp & Hf) by (exists p; split; [lia|done]).
  revert Hpos. generalize 0 at 2 3 4 as f. generalize (Z.to_nat (total_pages s)) as n.
  induction n as [|n IH]; intros f Hpos; simpl in Hpos; [lia|].
  destruct (frame_free s f) eqn:Ef; [exists f; split; [lia|done]|].
  destruct (IH (f + 1)) as (p & Hp & Hf); [lia|]. exists p. split; [lia|done].
Qed.


Lemma pmm_alloc_wp s : wf s -> wp pmm_alloc s (alloc_post s).
Proof.
  intros Hwf. pose proof (wf_total _ Hwf) as Ht. unfold PMM_MAX_PAGES in Ht.
  unfold pmm_alloc. do 2 wp_step. wp_step.
  apply (wp_for_until (fun i s0 => s0 = s /\ forall q, 0 <= q < i -> frame_free s q = false)).
  - split; [done|]. lia.
  - intros i s0 Hi [-> Hlow]. wp_step. apply wp_page_is_free; [apply Hwf|unfold PMM_MAX_PAGES; lia|].
    destruct (frame_free s i) eqn:Hf.
    + destruct (frame_free_bits _ _ Hf) as [Ha Hu].
      wp_step. apply wp_mark_used; [apply Hwf|unfold PMM_MAX_PAGES; lia|]. intros s1 [].
      do 4 wp_step. simpl. right. exists i.
      pose proof (frame_free_low _ _ Hwf Hf) as Hlo.
      assert (0 < free_pages s) as Hpos.
      { rewrite (wf_free _ Hwf). apply count_upto_pos with i; [lia|done]. }
      pose proof (wf_free_range _ Hwf).
      assert (used_updated s i true (free_pages s - 1) (set_free_pages (free_pages s1 -u 1) s1)) as Huu.
      { constructor; try done. simpl. rewrite uu_free0, u32_id by lia. done. }
      split; [|split; [lia|split; [done|split; [done|split; [done|]]]]].
      * unfold PAGE_SHIFT. rewrite shiftl_12, u32_id by lia. done.
      * apply (used_updated_wf s i true); [done|lia|done..].
    + wp_step. split; [done|]. intros q Hq. destruct (decide (q = i)) as [->|]; [done|].
      apply Hlow. lia.
  - intros s0 [-> Hlow]. wp_step. left. split; [done|]. split; [done|].
    intros q Hq. apply Hlow. lia.
Qed.

Definition freeable (s : state) (a : Z) : bool :=
  (a mod PAGE_SIZE =? 0) && (a / PAGE_SIZE <? total_pages s) &&
  allocatable s (a / PAGE_SIZE) && used s (a / PAGE_SIZE).

Lemma pmm_free_wp s a :
  wf s -> 0 <= a ->
  wp (pmm_free a) s (fun ok s' =>
    ok = freeable s a /\
    if ok then used_updated s (a / PAGE_SIZE) false (free_pages s + 1) s' /\ wf s'
    else s' = s).
Proof.
  intros Hwf Ha. pose proof (wf_total _ Hwf) as Ht. unfold PMM_MAX_PAGES in Ht.
  unfold pmm_free, freeable, PAGE_SHIFT.
  change (PAGE_SIZE - 1) with 4095. change PAGE_SIZE with 4096.
  rewrite land_low_4095, shiftr_12.
  destruct (Z.eqb_spec (a mod 4096) 0) as [Hal|]; simpl; [|done].
  set (p := a / 4096). assert (0 <= p) by (unfold p; word_lia).
  do 2 wp_step. wp_step. wp_step. wp_step. wp_step.
  destruct (Z.leb_spec (total_pages s) p) as [|Hlt].
  { simpl. wp_step. split; [|done]. destruct (Z.ltb_spec p (total_pages s)); [lia|done]. }
  destruct (Z.ltb_spec p (total_pages s)) as [_|]; [|lia]. simpl.
  wp_step. apply wp_get_allocatable; [apply Hwf|unfold PMM_MAX_PAGES; lia|].
  destruct (allocatable s p) eqn:Hap; simpl; [|wp_step; done].
  wp_step. apply wp_get_used; [apply Hwf|unfold PMM_MAX_PAGES; lia|].
  destruct (used s p) eqn:Hup; simpl; [|wp_step; done].
  wp_step. apply wp_mark_used; [apply Hwf|unfold PMM_MAX_PAGES; lia|]. intros s1 [].
  do 3 wp_step. split; [done|].
  pose proof (wf_free_range _ Hwf).
  assert (used_updated s p false (free_pages s + 1) (set_free_pages (free_pages s1 +u 1) s1)).
  { constructor; try done. simpl. rewrite uu_free0, u32_id by lia. done. }
  split; [done|].
  apply (used_updated_wf s p false); [done|lia|done..].
Qed.

(** ** Reading the E820 map *)

(** Frame [p] lies wholly inside the part of [base .. base + len) below 4 GiB. *)
Definition page_inside (base len p : Z) : bool :=
  (0 <=? p) && (base <=? p * PAGE_SIZE) && ((p + 1) * PAGE_SIZE <=? Z.min (base + len) FOUR_GIB).

(** Frame [p] shares a byte with [base .. base + len). *)
Definition page_touched (base len p : Z) : bool :=
  (0 <=? p) && (0 <? len) && (p * PAGE_SIZE <? Z.min (base + len) FOUR_GIB) &&
  (base <? (p + 1) * PAGE_SIZE).

Definition u64_value (z : Z) : Prop := 0 <= z < 18446744073709551616.
Definition entry_ok (e : e820_entry) : Prop := u64_value (base e) /\ u64_value (length e).

Lemma not64_4095 z : 0 <= z < 18446744073709551616 ->
  Z.land z (not64 4095) = z / 4096 * 4096.
Proof. intros. exact (land_high_mask 12 64 z ltac:(lia) ltac:(lia)). Qed.

(** The clamped end of a range, as both range helpers compute it. *)
Lemma range_end base len :
  u64_value base -> u64_value len -> base < FOUR_GIB ->
  (if (u64 (base + len) <? base) || (FOUR_GIB <? u64 (base + len)) then FOUR_GIB
   else u64 (base + len)) = Z.min (base + len) FOUR_GIB.
Proof.
  unfold u64_value, FOUR_GIB. intros.
  destruct (Z.ltb_spec (u64 (base + len)) base), (Z.ltb_spec 0x100000000 (u64 (base + len)));
    simpl; word_lia.
Qed.

Lemma range_to_pages_spec base len :
  u64_value base -> u64_value len ->
  match range_to_pages base len with
  | Some (first, limit) =>
      0 <= first < limit /\ limit <= PMM_MAX_PAGES /\
      forall p, page_inside base len p = (first <=? p) && (p <? limit)
  | None => forall p, page_inside base len p = false
  end.
Proof.
  intros Hb Hl. unfold range_to_pages.
  destruct (Z.eqb_spec len 0) as [->|Hl0]; simpl.
  { intros p. apply not_true_iff_false. unfold page_inside, PAGE_SIZE. lia. }
  destruct (Z.leb_spec FOUR_GIB base) as [Hge|Hlt].
  { intros p. apply not_true_iff_false. unfold page_inside, PAGE_SIZE, FOUR_GIB in *. lia. }
  rewrite range_end by done.
  change (PAGE_SIZE - 1) with 4095. unfold u64_value, FOUR_GIB, PAGE_SHIFT in *.
  destruct (Z.ltb_spec (0x100000000 - 4095) base) as [Hhi|Hhi].
  { intros p. apply not_true_iff_false. unfold page_inside, PAGE_SIZE, FOUR_GIB in *. lia. }
  rewrite !not64_4095, (u64_id (base + 4095)), !shiftr_12, !Z.div_mul by word_lia.
  set (m := Z.min (base + len) 0x100000000).
  destruct (Z.leb_spec (m / 4096 * 4096) ((base + 4095) / 4096 * 4096)).
  { intros p. apply not_true_iff_false. unfold page_inside, PAGE_SIZE, FOUR_GIB. fold m. word_lia. }
  rewrite !u32_id by (unfold m in *; word_lia).
  split; [unfold m in *; word_lia|]. split; [unfold m, PMM_MAX_PAGES in *; word_lia|].
  intros p. apply eq_true_iff_eq. unfold page_inside, PAGE_SIZE, FOUR_GIB. fold m.
  unfold m in *. word_lia.
Qed.

(** The loop both range helpers run: every frame of [first .. limit) becomes
    allocatable and unused, or reserved and used. *)
Lemma mark_range_wp first limit (v : bool) s :
  sized s -> 0 <= first -> first <= limit -> limit <= PMM_MAX_PAGES ->
  wp (for_range (Z.to_nat (limit - first)) first (fun page =>
        mark_allocatable page v ;; mark_used page (negb v))) s (fun _ s' =>
    sized s' /\
    (forall q, allocatable s' q = if (first <=? q) && (q <? limit) then v else allocatable s q) /\
    (forall q, used s' q = if (first <=? q) && (q <? limit) then negb v else used s q)).
Proof.
  intros Hs Hf Hfl Hl.
  apply (wp_for_range (fun i s' => sized s' /\
    (forall q, allocatable s' q = if (first <=? q) && (q <? i) then v else allocatable s q) /\
    (forall q, used s' q = if (first <=? q) && (q <? i) then negb v else used s q))).
  - split; [done|]. split; intros q; destruct (Z.leb_spec first q), (Z.ltb_spec q first);
      simpl; done || lia.
  - intros i s0 Hi (Hs0 & Ha & Hu). wp_step.
    apply wp_mark_allocatable; [done|lia|]. intros s1 Hs1 Ha1 Hu1.
    apply wp_mark_used; [done|lia|]. intros s2 [Hs2 Hu2 Ha2 _ _ _].
    split; [done|]. split; intros q.
    + rewrite Ha2, Ha1, Ha.
      destruct (Z.eqb_spec i q), (Z.leb_spec first q), (Z.ltb_spec q (i + 1)), (Z.ltb_spec q i);
        simpl; done || lia.
    + rewrite Hu2, Hu1, Hu.
      destruct (Z.eqb_spec i q), (Z.leb_spec first q), (Z.ltb_spec q (i + 1)), (Z.ltb_spec q i);
        simpl; done || lia.
  - intros s0. by replace (first + Z.of_nat (Z.to_nat (limit - first))) with limit by lia.
Qed.

Lemma make_range_allocatable_wp base len s :
  sized s -> u64_value base -> u64_value len ->
  wp (make_range_allocatable base len) s (fun _ s' =>
    sized s' /\
    (forall q, allocatable s' q = page_inside base len q || allocatable s q) /\
    (forall q, used s' q = negb (page_inside base len q) && used s q)).
Proof.
  intros Hs Hb Hl. unfold make_range_allocatable.
  pose proof (range_to_pages_spec base len Hb Hl) as Hr.
  destruct (range_to_pages base len) as [[first limit]|].
  - destruct Hr as (Hf & Hlim & Hin).
    wp_apply (mark_range_wp first limit true); [done|lia..|].
    intros [] s' (Hs' & Ha & Hu). split; [done|].
    split; intros q; rewrite ?Ha, ?Hu, Hin; by destruct (_ && _).
  - wp_step. split; [done|]. split; intros q; by rewrite Hr.
Qed.

Lemma reserve_range_wp base len s :
  sized s -> u64_value base -> u64_value len ->
  wp (reserve_range base len) s (fun _ s' =>
    sized s' /\
    (forall q, allocatable s' q = negb (page_touched base len q) && allocatable s q) /\
    (forall q, used s' q = page_touched base len q || used s q)).
Proof.
  intros Hs Hb Hl. unfold reserve_range.
  assert (forall q, (len = 0 \/ FOUR_GIB <= base) -> page_touched base len q = false) as Hnone.
  { intros q Hq. apply not_true_iff_false. unfold page_touched, PAGE_SIZE, FOUR_GIB in *.
    destruct Hq; lia. }
  destruct (Z.eqb_spec len 0) as [H0|Hl0]; simpl.
  { wp_step. split; [done|]. split; intros q; rewrite Hnone; auto. }
  destruct (Z.leb_spec FOUR_GIB base) as [Hge|Hlt].
  { wp_step. split; [done|]. split; intros q; rewrite Hnone; auto. }
  rewrite range_end by done.
  set (m := Z.min (base + len) FOUR_GIB).
  set (limit := if m =? FOUR_GIB then _ else _).
  change (PAGE_SIZE - 1) with 4095 in *. unfold PAGE_SHIFT in *. rewrite shiftr_12 in *.
  unfold u64_value, FOUR_GIB in *.
  assert (limit = (m + 4095) / 4096) as Hlimit.
  { unfold limit. destruct (Z.eqb_spec m 0x100000000) as [Em|]; [by rewrite Em|].
    rewrite shiftr_12, u64_id, u32_id by (unfold m; word_lia). done. }
  clearbody limit. rewrite u32_id by word_lia.
  wp_apply (mark_range_wp (base / 4096) limit false);
    [done|unfold m in *; word_lia|unfold m in *; word_lia|unfold m, PMM_MAX_PAGES in *; word_lia|].
  intros [] s' (Hs' & Ha & Hu). split; [done|].
  assert (forall q, page_touched base len q = (base / 4096 <=? q) && (q <? limit)) as Hin.
  { intros q. apply eq_true_iff_eq. unfold page_touched, PAGE_SIZE, FOUR_GIB. fold m.
    unfold m in *. word_lia. }
  split; intros q; rewrite ?Ha, ?Hu, Hin; by destruct (_ && _).
Qed.

(** ** Initialisation *)

Definition usable_at (p : Z) (e : e820_entry) : bool :=
  (type e =? E820_USABLE) && page_inside (base e) (length e) p.
Definition reserved_at (p : Z) (e : e820_entry) : bool :=
  negb (type e =? E820_USABLE) && page_touched (base e) (length e) p.

(** The specification of the boot-time memory map: a frame may be handed out
    when some usable entry covers it whole, no other entry, not the first MiB
    and not the kernel image touch it. *)
Definition boot_allocatable (bi : boot_info) (entries : list e820_entry) (p : Z) : bool :=
  existsb (usable_at p) entries && negb (existsb (reserved_at p) entries) &&
  negb (page_touched 0 LOW_MEMORY_RESERVED_END p) &&
  negb (page_touched (kernel_physical_start bi)
          (kernel_physical_end bi - kernel_physical_start bi) p).

(** During initialisation the two bitmaps are complements of each other. *)
Definition mirrored (s : state) : Prop :=
  forall p, 0 <= p < PMM_MAX_PAGES -> used s p = negb (allocatable s p).

Lemma bit_at_fill v p :
  0 <= p < PMM_MAX_PAGES -> bit_at (arr_fill PMM_BITMAP_SIZE v) p = Z.testbit v (p mod 8).
Proof.
  intros. apply bit_at_testbit, arr_get_fill.
  unfold PMM_BITMAP_SIZE, PMM_MAX_PAGES in *. word_lia.
Qed.

Lemma testbit_255 k : 0 <= k < 8 -> Z.testbit 255 k = true.
Proof. intros. change 255 with (Z.ones 8). apply Z.ones_spec_low. lia. Qed.

(** [maximum_page] after the entries read so far. *)
Definition max_limit (entries : list e820_entry) : Z :=
  fold_left (fun m e =>
    match range_to_pages (base e) (length e) with
    | Some (_, limit) => Z.max m limit
    | None => m
    end) entries 0.

Lemma max_limit_snoc l e :
  max_limit (l ++ [e]) =
  match range_to_pages (base e) (length e) with
  | Some (_, limit) => Z.max (max_limit l) limit
  | None => max_limit l
  end.
Proof. unfold max_limit. by rewrite fold_left_app. Qed.

(** The state of the first pass after the entries [l], with its local variable. *)
Record usable_inv (l : list e820_entry) (m : Z) (s : state) : Prop := {
  ui_sized : sized s;
  ui_mirrored : mirrored s;
  ui_max : m = max_limit l;
  ui_range : 0 <= m <= PMM_MAX_PAGES;
  ui_allocatable : forall p, allocatable s p = existsb (usable_at p) l;
  ui_below : forall p, existsb (usable_at p) l = true -> 0 <= p < m
}.

Lemma existsb_snoc {A} (f : A -> bool) l x : existsb f (l ++ [x]) = f x || existsb f l.
Proof. rewrite existsb_app. simpl. rewrite orb_false_r. apply orb_comm. Qed.

Lemma usable_inv_snoc l e m s s' :
  entry_ok e -> usable_inv l m s -> sized s' -> mirrored s' ->
  (forall p, allocatable s' p = usable_at p e || allocatable s p) ->
  usable_inv (l ++ [e])
    (match range_to_pages (base e) (length e) with
     | Some (_, limit) => if m <? limit then limit else m
     | None => m
     end) s'.
Proof.
  intros [Hb Hl] [Hs Hm Hmax Hr Ha Hlt] Hs' Hm' Ha'.
  pose proof (range_to_pages_spec (base e) (length e) Hb Hl) as Hsp.
  constructor; try done.
  - rewrite max_limit_snoc, <-Hmax. destruct (range_to_pages _ _) as [[first limit]|]; [|done].
    destruct (Z.ltb_spec m limit); lia.
  - destruct (range_to_pages _ _) as [[first limit]|]; [|done].
    destruct (Z.ltb_spec m limit); lia.
  - intros p. by rewrite existsb_snoc, Ha', Ha.
  - intros p. rewrite existsb_snoc. intros [Hu|Hu]%orb_true_iff.
    + unfold usable_at in Hu. destruct (range_to_pages _ _) as [[first limit]|].
      * destruct Hsp as (? & ? & Hin). rewrite Hin in Hu. destruct (Z.ltb_spec m limit); lia.
      * rewrite Hsp in Hu. lia.
    + specialize (Hlt p Hu). destruct (range_to_pages _ _) as [[first limit]|]; [|lia].
      destruct (Z.ltb_spec m limit); lia.
Qed.

Lemma map_usable_entries_wp entries s :
  sized s -> Forall entry_ok entries -> mirrored s ->
  (forall p, allocatable s p = false) ->
  wp (map_usable_entries (Z.of_nat (List.length entries)) entries) s (usable_inv entries).
Proof.
  intros Hs Hok Hm Ha. unfold map_usable_entries. rewrite Nat2Z.id.
  apply (wp_for_acc (fun i => usable_inv (take (Z.to_nat i) entries))).
  - by split.
  - intros i m s' Hi Hinv.
    destruct (lookup_lt_is_Some_2 entries (Z.to_nat i)) as [e He]; [lia|].
    wp_step. eapply wp_access; [exact He|].
    pose proof (proj1 (Forall_lookup _ _) Hok _ _ He) as Heok.
    replace (Z.to_nat (i + 1)) with (S (Z.to_nat i)) by lia.
    rewrite (take_S_r entries _ e He).
    pose proof (usable_inv_snoc (take (Z.to_nat i) entries) e m s') as Hsnoc.
    destruct (Heok) as [Hb Hl].
    pose proof (range_to_pages_spec (base e) (length e) Hb Hl) as Hr.
    destruct (range_to_pages (base e) (length e)) as [[first limit]|].
    + cbv zeta. wp_step. destruct (type e =? E820_USABLE) eqn:Ht.
      * wp_apply make_range_allocatable_wp; [apply Hinv|done..|].
        intros [] s'' (Hs'' & Ha'' & Hu''). wp_step. apply Hsnoc; try done.
        -- intros p Hp. rewrite Ha'', Hu'', (ui_mirrored _ _ _ Hinv) by done.
           by destruct (page_inside _ _ _).
        -- intros p. unfold usable_at. by rewrite Ha'', Ht.
      * do 2 wp_step. apply (Hsnoc s'); try done; try apply Hinv.
        intros p. unfold usable_at. by rewrite Ht.
    + wp_step. apply (Hsnoc s'); try done; try apply Hinv.
      intros p. unfold usable_at. by rewrite Hr, andb_false_r.
  - intros m s'. by rewrite Z.add_0_l, Nat2Z.id, firstn_all.
Qed.

Lemma reserve_entries_wp entries s :
  sized s -> Forall entry_ok entries -> mirrored s ->
  wp (reserve_entries (Z.of_nat (List.length entries)) entries) s (fun _ s' =>
    sized s' /\ mirrored s' /\
    (forall p, allocatable s' p = negb (existsb (reserved_at p) entries) && allocatable s p)).
Proof.
  intros Hs Hok Hm. unfold reserve_entries. rewrite Nat2Z.id.
  apply (wp_for_range (fun i s' => sized s' /\ mirrored s' /\
    (forall p, allocatable s' p =
       negb (existsb (reserved_at p) (take (Z.to_nat i) entries)) && allocatable s p))).
  - by simpl.
  - intros i s' Hi (Hs' & Hm' & Ha').
    destruct (lookup_lt_is_Some_2 entries (Z.to_nat i)) as [e He]; [lia|].
    wp_step. eapply wp_access; [exact He|].
    destruct (proj1 (Forall_lookup _ _) Hok _ _ He) as [Hb Hl].
    replace (Z.to_nat (i + 1)) with (S (Z.to_nat i)) by lia.
    destruct (type e =? E820_USABLE) eqn:Ht; simpl.
    + wp_step. split; [done|]. split; [done|]. intros p.
      rewrite (take_S_r entries _ e He), existsb_snoc. unfold reserved_at at 1. by rewrite Ht.
    + wp_apply reserve_range_wp; [done..|]. intros [] s'' (Hs'' & Ha'' & Hu'').
      split; [done|]. split.
      * intros p Hp. rewrite Hu'', Ha'', Hm' by done. by destruct (page_touched _ _ _).
      * intros p. rewrite Ha'', Ha', (take_S_r entries _ e He), existsb_snoc.
        unfold reserved_at at 2. rewrite Ht. simpl. by rewrite negb_orb, andb_assoc.
  - intros s'. by rewrite Z.add_0_l, Nat2Z.id, firstn_all.
Qed.

Lemma count_free_pages_wp total s :
  sized s -> 0 <= total <= PMM_MAX_PAGES ->
  wp (count_free_pages total) s (fun n s' => s' = s /\ n = count_upto (frame_free s) total).
Proof.
  intros Hs Ht. unfold PMM_MAX_PAGES in Ht.
  apply (wp_for_acc (fun i n s' => s' = s /\ n = count_upto (frame_free s) i)).
  - done.
  - intros i n s' Hi [-> ->]. wp_step. apply wp_page_is_free; [done|unfold PMM_MAX_PAGES; lia|].
    wp_step. split; [done|]. unfold count_upto.
    replace (Z.to_nat (i + 1)) with (S (Z.to_nat i)) by lia. rewrite count_from_S.
    replace (0 + Z.of_nat (Z.to_nat i)) with i by lia.
    pose proof (count_from_bound (frame_free s) 0 (Z.to_nat i)).
    destruct (frame_free s i); [apply u32_id|]; lia.
  - intros n s' [-> ->]. split; [done|]. by replace (0 + Z.of_nat (Z.to_nat total)) with total by lia.
Qed.

(** The state [pmm_init] leaves behind. *)
Record init_post (bi : boot_info) (entries : list e820_entry) (s : state) : Prop := {
  ip_wf : wf s;
  ip_total : total_pages s = max_limit entries;
  ip_allocatable : forall p, allocatable s p = boot_allocatable bi entries p;
  ip_used : mirrored s
}.

Definition kernel_image_ok (bi : boot_info) : Prop :=
  0 <= kernel_physical_start bi < 4294967296 /\ 0 <= kernel_physical_end bi < 4294967296.

Lemma boot_info_valid_kernel bi :
  boot_info_valid (Some bi) = true -> kernel_physical_start bi < kernel_physical_end bi.
Proof. unfold boot_info_valid. simpl. lia. Qed.

(** After the four marking passes: the bitmaps describe [boot_allocatable]. *)
Lemma boot_allocatable_below bi entries m s p :
  usable_inv entries m s -> boot_allocatable bi entries p = true -> 0 <= p < m.
Proof.
  intros Hinv Hp. apply (ui_below _ _ _ Hinv). unfold boot_allocatable in Hp.
  by destruct (existsb (usable_at p) entries).
Qed.

Lemma boot_allocatable_low bi entries p :
  p < LOW_MEMORY_RESERVED_END / PAGE_SIZE -> boot_allocatable bi entries p = false.
Proof.
  intros Hp. apply not_true_iff_false. intros Hb.
  assert (page_touched 0 LOW_MEMORY_RESERVED_END p = true \/ p < 0) as [H|H].
  { change (LOW_MEMORY_RESERVED_END / PAGE_SIZE) with 256 in Hp.
    unfold page_touched, LOW_MEMORY_RESERVED_END, PAGE_SIZE, FOUR_GIB. lia. }
  - unfold boot_allocatable in Hb. rewrite H in Hb. simpl in Hb.
    by rewrite andb_false_r in Hb.
  - unfold boot_allocatable in Hb.
    assert (existsb (usable_at p) entries = false) as E.
    { apply not_true_iff_false. intros (e & _ & He)%existsb_exists.
      unfold usable_at, page_inside in He. lia. }
    by rewrite E in Hb.
Qed.

Lemma init_final_wf bi entries m s n :
  sized s -> mirrored s -> 0 <= m <= PMM_MAX_PAGES ->
  (forall p, allocatable s p = boot_allocatable bi entries p) ->
  n = count_upto (frame_free s) m ->
  wf (State (used_bitmap s) (allocatable_bitmap s) m n (m -u n)).
Proof.
  intros Hs Hm Hr Ha Hn.
  pose proof (count_from_bound (frame_free s) 0 (Z.to_nat m)) as Hb.
  constructor; try done.
  - intros p Hp. by rewrite <-(boot_allocatable_low bi entries p Hp), <-Ha.
  - simpl. rewrite u32_id by (unfold count_upto, PMM_MAX_PAGES in *; lia).
    f_equal. rewrite Hn. apply count_from_ext. intros i Hi.
    unfold frame_free. rewrite Hm by (unfold PMM_MAX_PAGES in *; lia).
    rewrite negb_involutive. apply andb_diag.
Qed.

Lemma pmm_init_wp bi entries s0 :
  boot_info_valid (Some bi) = true -> e820_count bi = Z.of_nat (List.length entries) ->
  Forall entry_ok entries -> kernel_image_ok bi ->
  (exists p, boot_allocatable bi entries p = true) ->
  wp (pmm_init (Some bi) entries) s0 (fun _ s => init_post bi entries s).
Proof.
  intros Hv Hc Hok [Hks Hke] [p0 Hp0]. pose proof (boot_info_valid_kernel _ Hv) as Hk.
  unfold pmm_init. rewrite Hv, Hc. simpl negb. cbv iota. do 4 wp_step. wp_step.
  wp_apply map_usable_entries_wp; [done|done| | |].
  { intros p Hp. unfold used, allocatable; simpl.
    rewrite !bit_at_fill by done. rewrite testbit_255 by (clear -Hp; word_lia).
    by rewrite Z.bits_0. }
  { intros p. unfold allocatable; simpl. destruct (decide (0 <= p < PMM_MAX_PAGES)).
    - by rewrite bit_at_fill, Z.bits_0.
    - apply bit_at_None. unfold arr_get; simpl. unfold PMM_BITMAP_SIZE, PMM_MAX_PAGES in *.
      destruct (0 <=? p / 8) eqn:?, (p / 8 <? 1048576 / 8) eqn:?; try done. word_lia. }
  intros m s1 Hinv. wp_step.
  wp_apply reserve_entries_wp; [apply Hinv|done|apply Hinv|]. intros [] s2 (Hs2 & Hm2 & Ha2).
  wp_step. wp_apply reserve_range_wp; [done|split; done..|]. intros [] s3 (Hs3 & Ha3 & Hu3).
  rewrite u64_id by lia.
  wp_step. wp_apply reserve_range_wp; [done|unfold u64_value; lia..|].
  intros [] s4 (Hs4 & Ha4 & Hu4).
  assert (mirrored s4) as Hm4.
  { intros p Hp. rewrite Hu4, Hu3, Hm2, Ha4, Ha3 by done.
    by destruct (page_touched 0 _ p), (page_touched (kernel_physical_start bi) _ p). }
  assert (forall p, allocatable s4 p = boot_allocatable bi entries p) as Ha5.
  { intros p. rewrite Ha4, Ha3, Ha2, (ui_allocatable _ _ _ Hinv). unfold boot_allocatable.
    by destruct (existsb _ _), (existsb _ _), (page_touched 0 _ p), (page_touched _ _ p). }
  pose proof (boot_allocatable_below _ _ _ _ _ Hinv Hp0) as Hp0m.
  wp_step. wp_apply count_free_pages_wp; [done|apply Hinv|]. intros n s5 [-> Hn].
  do 2 wp_step.
  assert (0 < n) as Hpos.
  { rewrite Hn. apply count_upto_pos with p0; [done|].
    unfold frame_free. rewrite Hm4, Ha5, Hp0; [done|]. pose proof (ui_range _ _ _ Hinv). lia. }
  destruct (Z.eqb_spec m 0), (Z.eqb_spec n 0); try lia. simpl. wp_step.
  constructor; [|by simpl; rewrite (ui_max _ _ _ Hinv)|done|done].
  by apply (init_final_wf bi entries); [..|apply Hinv|done|].
Qed.

(** ** The frame-allocator contract *)

Definition addr_avail (s : state) (a : Z) : Prop :=
  a mod PAGE_SIZE = 0 /\ 0 <= a / PAGE_SIZE < total_pages s /\ frame_free s (a / PAGE_SIZE) = true.
Definition addr_held (s : state) (a : Z) : Prop := 0 <= a /\ freeable s a = true.

Lemma frame_free_updated s p v n s' :
  used_updated s p v n s' -> allocatable s p = true ->
  forall q, frame_free s' q = if p =? q then negb v else frame_free s q.
Proof.
  intros [] Ha q. unfold frame_free. rewrite uu_allocatable0, uu_used0.
  destruct (Z.eqb_spec p q) as [->|]; [by rewrite Ha|done].
Qed.

Lemma freeable_updated s p v n s' b :
  used_updated s p v n s' -> allocatable s p = true -> 0 <= p < total_pages s ->
  freeable s' b = if decide (b = p * PAGE_SIZE) then v else freeable s b.
Proof.
  intros [] Ha Hp. unfold freeable. rewrite uu_total0, uu_allocatable0, uu_used0.
  unfold PAGE_SIZE. case_decide as Hb.
  - subst b. rewrite Z.mod_mul, Z.div_mul, !Z.eqb_refl, Ha by lia.
    destruct (Z.ltb_spec p (total_pages s)); [|lia]. done.
  - destruct (Z.eqb_spec (b mod 4096) 0); [|done].
    destruct (Z.eqb_spec p (b / 4096)); [|done]. word_lia.
Qed.

Lemma avail_updated s p v n s' b :
  used_updated s p v n s' -> allocatable s p = true -> 0 <= p < total_pages s ->
  addr_avail s' b <-> if decide (b = p * PAGE_SIZE) then v = false else addr_avail s b.
Proof.
  intros Huu Ha Hp. unfold addr_avail. rewrite (frame_free_updated _ _ _ _ _ Huu Ha).
  rewrite (uu_total _ _ _ _ _ Huu). unfold PAGE_SIZE. case_decide as Hb.
  - subst b. rewrite Z.mod_mul, Z.div_mul, Z.eqb_refl by lia.
    split; [intros (_ & _ & E); by destruct v|intros ->; done].
  - destruct (Z.eqb_spec p (b / 4096)); [|done]. split; intros (? & ? & _); word_lia.
Qed.

Lemma addr_held_page s p :
  0 <= p < total_pages s -> allocatable s p = true ->
  used s p = true -> addr_held s (p * PAGE_SIZE).
Proof.
  intros Hp Ha Hu. unfold addr_held, freeable, PAGE_SIZE.
  rewrite Z.mod_mul, Z.div_mul, Ha, Hu by lia. split; [lia|].
  destruct (Z.ltb_spec p (total_pages s)); [done|lia].
Qed.

#[export] Program Instance pmm_frame_allocator : FrameAllocator state := {|
  fa_alloc := pmm_alloc;
  fa_free := pmm_free;
  fa_inv := wf;
  fa_avail := addr_avail;
  fa_held := addr_held;
  fa_count := free_pages
|}.
Next Obligation.
  intros s a Hwf (_ & _ & Hf) [_ Hh]. destruct (frame_free_bits _ _ Hf) as [_ Hu].
  unfold freeable in Hh. rewrite Hu in Hh. by rewrite andb_false_r in Hh.
Qed.
Next Obligation. intros s Hwf. by apply wf_free_range. Qed.
Next Obligation.
  intros s a Hwf (Hal & Hr & Hf). pose proof (frame_free_low _ _ Hwf Hf) as Hlo.
  pose proof (wf_total _ Hwf). change (LOW_MEMORY_RESERVED_END / PAGE_SIZE) with 256 in Hlo.
  unfold page_address, PAGE_SIZE, PMM_MAX_PAGES in *. word_lia.
Qed.
Next Obligation.
  intros s Hwf. wp_apply pmm_alloc_wp; [done|].
  intros a s' [(-> & -> & Hnone)|(p & -> & Hp & Hf & Hlow & Huu & Hwf')].
  - split; [done|]. left. split; [done|]. split; [done|]. split; [|intros b (_ & Hr & Hb); by rewrite Hnone in Hb].
    pose proof (wf_free_range _ Hwf). destruct (Z.eq_dec (free_pages s) 0) as [|Hne]; [done|].
    destruct (exists_free s Hwf ltac:(lia)) as (p & Hp & Hf). by rewrite Hnone in Hf.
  - split; [done|]. right. destruct (frame_free_bits _ _ Hf) as [Ha Hu].
    change (LOW_MEMORY_RESERVED_END / PAGE_SIZE) with 256 in Hp.
    assert (0 <= p < total_pages s) as Hp' by lia. split; [|split; [apply Huu|split]].
    + unfold addr_avail, PAGE_SIZE. by rewrite Z.mod_mul, Z.div_mul by lia.
    + intros b. rewrite (avail_updated _ _ _ _ _ b Huu Ha Hp'). case_decide; naive_solver.
    + intros b. unfold addr_held. rewrite (freeable_updated _ _ _ _ _ b Huu Ha Hp').
      case_decide; [subst; unfold PAGE_SIZE; intuition lia|naive_solver].
Qed.
Next Obligation.
  intros s a Hwf Hr. wp_apply pmm_free_wp; [done|lia|].
  intros ok s' [Hok H]. destruct ok.
  - destruct H as [Huu Hwf']. split; [done|].
    assert (addr_held s a) as Hheld by (by split; [lia|]).
    unfold freeable in Hok. symmetry in Hok. rewrite !andb_true_iff in Hok.
    destruct Hok as [[[Hal Hlt] Ha] Hu].
    apply Z.eqb_eq in Hal. apply Z.ltb_lt in Hlt. unfold PAGE_SIZE in *.
    assert (0 <= a / 4096 < total_pages s) as Hp by word_lia.
    assert (a = a / 4096 * PAGE_SIZE) as Ea by (unfold PAGE_SIZE; word_lia).
    split; [done|]. split; [apply Huu|]. split; intros b.
    + rewrite (avail_updated _ _ _ _ _ b Huu Ha Hp), <-Ea. case_decide; naive_solver.
    + unfold addr_held. rewrite (freeable_updated _ _ _ _ _ b Huu Ha Hp), <-Ea.
      case_decide; naive_solver.
  - subst s'. split; [done|]. split; [done|]. intros [_ Hh]. congruence.
Qed.

(** ** Self-test *)

(** Undoing an allocation leaves an indistinguishable allocator. *)
Lemma used_updated_undo s p n s1 s2 :
  used_updated s p true n s1 -> used_updated s1 p false (free_pages s) s2 ->
  used s p = false -> equiv_state s2 s.
Proof.
  intros [] [] Hu. constructor; try congruence; intros q.
  - rewrite uu_used1, uu_used0. by destruct (Z.eqb_spec p q) as [->|].
Qed.

(** The frame [pmm_alloc] picks is determined by the set of free frames. *)
Lemma alloc_post_frame s a s' p :
  alloc_post s a s' -> 0 <= p < total_pages s -> frame_free s p = true ->
  (forall q, 0 <= q < p -> frame_free s q = false) ->
  a = p * PAGE_SIZE /\ used_updated s p true (free_pages s - 1) s' /\ wf s'.
Proof.
  intros [(_ & _ & Hnone)|(p' & -> & Hp' & Hf' & Hlow' & Huu & Hwf')] Hp Hf Hlow.
  - by rewrite Hnone in Hf.
  - change (LOW_MEMORY_RESERVED_END / PAGE_SIZE) with 256 in Hp'.
    assert (p = p') as ->; [|done].
    destruct (Z.lt_trichotomy p p') as [Hlt|[->|Hlt]]; [|done|].
    + rewrite Hlow' in Hf by lia. done.
    + rewrite Hlow in Hf' by lia. done.
Qed.

Lemma pmm_alloc_some_wp s : wf s -> 0 < free_pages s ->
  wp pmm_alloc s (fun a s' => exists p, a = p * PAGE_SIZE /\
    256 <= p < total_pages s /\ frame_free s p = true /\
    (forall q, 0 <= q < p -> frame_free s q = false) /\
    used_updated s p true (free_pages s - 1) s' /\ wf s').
Proof.
  intros Hwf Hpos. destruct (exists_free s Hwf Hpos) as (p0 & Hp0 & Hf0).
  wp_apply pmm_alloc_wp; [done|]. intros a s' [(_ & _ & Hnone)|H]; [|done].
  by rewrite Hnone in Hf0.
Qed.

Lemma pmm_free_page_wp s p : wf s -> 0 <= p < total_pages s ->
  allocatable s p = true -> used s p = true ->
  wp (pmm_free (p * PAGE_SIZE)) s (fun ok s' =>
    ok = true /\ used_updated s p false (free_pages s + 1) s' /\ wf s').
Proof.
  intros Hwf Hp Ha Hu. destruct (addr_held_page s p Hp Ha Hu) as [_ Hh].
  wp_apply pmm_free_wp; [done|unfold PAGE_SIZE; lia|].
  intros ok s' [-> H]. rewrite Hh in *. split; [done|].
  unfold PAGE_SIZE in H. by rewrite Z.div_mul in H by lia.
Qed.

Lemma page_test p : 256 <= p < PMM_MAX_PAGES ->
  (p * PAGE_SIZE =? 0) = false /\ (Z.land (p * PAGE_SIZE) (PAGE_SIZE - 1) =? 0) = true.
Proof.
  intros. change (PAGE_SIZE - 1) with 4095. rewrite land_low_4095. unfold PAGE_SIZE.
  rewrite Z.mod_mul by lia. split; [lia|done].
Qed.

(** ** A small machine for the witnesses: 2 MiB of memory, a BIOS hole and a
    kernel image at 1 MiB. *)

Definition demo_boot : boot_info :=
  BootInfo BOOT_INFO_MAGIC BOOT_INFO_VERSION sizeof_boot_info 0x100000 0x110800 3.
Definition demo_entries : list e820_entry :=
  [E820 0 0x9FC00 1 1; E820 0xF0000 0x10000 2 1; E820 0x100000 0x100000 1 1].
Definition blank : state := State (arr_fill PMM_BITMAP_SIZE 0) (arr_fill PMM_BITMAP_SIZE 0) 0 0 0.
Definition demo_state : state :=
  match pmm_init (Some demo_boot) demo_entries blank with Ret _ s => s | _ => blank end.

Lemma demo_entries_ok : Forall entry_ok demo_entries.
Proof. repeat constructor; done. Qed.

Lemma demo_has_frame : exists p, boot_allocatable demo_boot demo_entries p = true.
Proof. by exists 300. Qed.

Lemma demo_state_wf : wf demo_state.
Proof.
  destruct (proj1 (wp_run _ _ _)
    (pmm_init_wp demo_boot demo_entries blank eq_refl eq_refl demo_entries_ok
       ltac:(done) demo_has_frame)) as (u & s & E & Hp).
  unfold demo_state. rewrite E. apply Hp.
Qed.

(** ** Properties *)

(** C31. Boot-time memory map: for every accepted boot-info block, [pmm_init]
    runs without panicking or leaving its arrays, and afterwards the free
    frames are exactly those covered whole by a usable E820 entry and touched
    by no other entry, the first MiB or the kernel image; the counters agree
    with the bitmaps. *)
Theorem pmm_init_memory_map bi entries s0 :
  boot_info_valid (Some bi) = true -> e820_count bi = Z.of_nat (List.length entries) ->
  Forall entry_ok entries -> kernel_image_ok bi ->
  (exists p, boot_allocatable bi entries p = true) ->
  wp (pmm_init (Some bi) entries) s0 (fun _ s =>
    wf s /\ total_pages s = max_limit entries /\
    forall p, frame_free s p = boot_allocatable bi entries p).
Proof.
  intros. wp_apply pmm_init_wp; [done..|]. intros [] s [Hwf Ht Ha Hm].
  split; [done|]. split; [done|]. intros p. unfold frame_free. rewrite Ha.
  destruct (boot_allocatable bi entries p) eqn:E; [|done]. rewrite Hm, Ha, E; [done|].
  unfold boot_allocatable in E. rewrite !andb_true_iff in E. destruct E as [[[E _] _] _].
  apply existsb_exists in E as (e & _ & Ee).
  unfold usable_at, page_inside, PAGE_SIZE, FOUR_GIB, PMM_MAX_PAGES in *. lia.
Qed.

Lemma pmm_init_memory_map_witness :
  wp (pmm_init (Some demo_boot) demo_entries) blank (fun _ s =>
    wf s /\ total_pages s = max_limit demo_entries /\
    forall p, frame_free s p = boot_allocatable demo_boot demo_entries p).
Proof.
  apply (pmm_init_memory_map demo_boot demo_entries blank);
    [reflexivity|reflexivity|exact demo_entries_ok|done|exact demo_has_frame].
Defined.

(** C22. Allocation: from a consistent state [pmm_alloc] returns the lowest free
    frame, marks exactly that frame used and decrements the free counter, or
    returns 0 and changes nothing when no frame is free; the invariant holds
    afterwards, and a returned frame is never below 1 MiB. *)
Theorem pmm_alloc_lowest s : wf s ->
  wp pmm_alloc s (fun a s' => wf s' /\ alloc_post s a s').
Proof.
  intros Hwf. wp_apply pmm_alloc_wp; [done|]. intros a s' Hp. split; [|done].
  destruct Hp as [(_ & -> & _)|(? & _ & _ & _ & _ & _ & ?)]; done.
Qed.

Lemma pmm_alloc_lowest_witness :
  wf demo_state /\ wp pmm_alloc demo_state (fun a s' => wf s' /\ alloc_post demo_state a s').
Proof. split; [exact demo_state_wf|apply pmm_alloc_lowest; exact demo_state_wf]. Defined.

(** Release: [pmm_free] accepts exactly the page-aligned addresses of
    allocatable frames that are in use (so a double free, a reserved frame and
    an unaligned address are refused), and then clears exactly that frame's
    used bit and increments the counter; a refused call changes nothing. *)
Theorem pmm_free_exact s a : wf s -> 0 <= a ->
  wp (pmm_free a) s (fun ok s' =>
    ok = freeable s a /\ wf s' /\
    if ok then used_updated s (a / PAGE_SIZE) false (free_pages s + 1) s' else s' = s).
Proof.
  intros Hwf Ha. wp_apply pmm_free_wp; [done..|].
  intros [] s' [Hok H]; [destruct H|subst]; done.
Qed.

Lemma pmm_free_exact_witness :
  wp (pmm_free 0x111000) demo_state (fun ok s' =>
    ok = freeable demo_state 0x111000 /\ wf s' /\
    if ok then used_updated demo_state (0x111000 / PAGE_SIZE) false (free_pages demo_state + 1) s'
    else s' = demo_state).
Proof. apply pmm_free_exact; [exact demo_state_wf|done]. Defined.

(** The boot self-test: with at least two free frames, [pmm_self_test]
    always reports success and leaves an allocator no caller can tell from the
    one it started with. *)
Theorem pmm_self_test_passes s : wf s -> 2 <= free_pages s ->
  wp pmm_self_test s (fun ok s' => ok = true /\ equiv_state s' s /\ wf s').
Proof.
  intros Hwf Hfree. pose proof (wf_total _ Hwf). unfold pmm_self_test. do 2 wp_step. wp_step.
  wp_apply pmm_alloc_some_wp; [done|lia|].
  intros a1 s1 (p1 & -> & Hp1 & Hf1 & Hlow1 & Hu1 & Hwf1).
  destruct (frame_free_bits _ _ Hf1) as [Ha1 Hn1].
  pose proof (frame_free_updated _ _ _ _ _ Hu1 Ha1) as Hfr1.
  wp_step. wp_apply pmm_alloc_some_wp; [done|rewrite (uu_free _ _ _ _ _ Hu1); lia|].
  intros a2 s2 (p2 & -> & Hp2 & Hf2 & Hlow2 & Hu2 & Hwf2).
  destruct (frame_free_bits _ _ Hf2) as [Ha2 Hn2].
  pose proof (frame_free_updated _ _ _ _ _ Hu2 Ha2) as Hfr2.
  assert (p1 <> p2) as Hne by (intros ->; rewrite Hfr1, Z.eqb_refl in Hf2; done).
  destruct Hu1 as [_ Hus1 Hal1 Ht1 Hfp1 Hr1], Hu2 as [_ Hus2 Hal2 Ht2 Hfp2 Hr2].
  destruct (page_test p1), (page_test p2); [lia..|]. rewrite H0, H1, H2, H3.
  replace (p1 * PAGE_SIZE =? p2 * PAGE_SIZE) with false by (unfold PAGE_SIZE; lia).
  simpl. wp_step.
  wp_apply pmm_free_page_wp; [done|lia|by rewrite Hal2, Hal1| |].
  { rewrite Hus2, Hus1. destruct (Z.eqb_spec p2 p1); [done|]. by rewrite Z.eqb_refl. }
  intros ok s3 (-> & Hu3 & Hwf3). simpl.
  assert (frame_free s3 p1 = true /\ forall q, 0 <= q < p1 -> frame_free s3 q = false) as [Hf3 Hlow3].
  { pose proof (frame_free_updated _ _ _ _ _ Hu3 ltac:(by rewrite Hal2, Hal1)) as Hfr3.
    split; [by rewrite Hfr3, Z.eqb_refl|]. intros q Hq. rewrite Hfr3, Hfr2, Hfr1, Hlow1 by lia.
    destruct (Z.eqb_spec p1 q), (Z.eqb_spec p2 q); lia || done. }
  destruct Hu3 as [_ Hus3 Hal3 Ht3 Hfp3 Hr3].
  wp_step. wp_apply pmm_alloc_wp; [done|]. intros a3 s4 Hpost.
  destruct (alloc_post_frame _ _ _ p1 Hpost) as (-> & Hu4 & Hwf4); [lia|done..|].
  destruct Hu4 as [_ Hus4 Hal4 Ht4 Hfp4 Hr4].
  do 3 wp_step. wp_step. rewrite Z.eqb_refl. simpl. wp_step.
  wp_apply pmm_free_page_wp; [done|lia|by rewrite Hal4, Hal3, Hal2, Hal1| |].
  { by rewrite Hus4, Z.eqb_refl. }
  intros ok s5 (-> & [_ Hus5 Hal5 Ht5 Hfp5 Hr5] & Hwf5). simpl. wp_step.
  wp_apply pmm_free_page_wp; [done|lia|by rewrite Hal5, Hal4, Hal3, Hal2| |].
  { rewrite Hus5, Hus4, Hus3, Hus2, Z.eqb_refl. destruct (Z.eqb_spec p1 p2); done. }
  intros ok s6 (-> & [_ Hus6 Hal6 Ht6 Hfp6 Hr6] & Hwf6). simpl. wp_step.
  assert (free_pages s6 = free_pages s) as E by lia.
  assert (used s p2 = false) as Hn2'.
  { rewrite Hus1 in Hn2. by destruct (Z.eqb_spec p1 p2). }
  split; [lia|]. split; [|done]. constructor; [| |congruence..]; intros q.
  - rewrite Hus6, Hus5, Hus4, Hus3, Hus2, Hus1.
    destruct (Z.eqb_spec p1 q), (Z.eqb_spec p2 q); congruence.
  - congruence.
Qed.

Lemma pmm_self_test_passes_witness :
  wp pmm_self_test demo_state (fun ok s' => ok = true /\ equiv_state s' demo_state /\ wf s').
Proof. apply pmm_self_test_passes; [exact demo_state_wf|by vm_compute]. Defined.

End Pmm.
