(* ===== verification/Heap.v ===== *)
(** * The kernel heap, kernel/mm/heap.c

    A first-fit allocator over one growing region of kernel memory. The blocks
    tile the region and are linked in both directions by the headers in front
    of their payloads. Memory is word addressed: a header field is the word at
    the header's address plus the field's offset, as in the C struct, and a
    word can be read or written only while its page is mapped. The page tables
    and the frame allocator are reached through [PageMapper]. *)

From S2P Require Import Prelude Monad Interfaces Cpu.

Module Heap.

Definition PAGE_SIZE : Z := 4096.
Definition HEAP_ALIGNMENT : Z := 8.
Definition HEAP_MAGIC : Z := 0x48454150.
Definition HEAP_STATE_FREE : Z := 0x46524545.
Definition HEAP_STATE_ALLOCATED : Z := 0x55534544.
Definition HEAP_VIRTUAL_START : Z := 0xD1000000.
Definition HEAP_MAX_SIZE : Z := 0x01000000.
Definition HEAP_STRESS_BLOCKS : Z := 64.
Definition sizeof_heap_block : Z := 24.
Definition NULL : Z := 0.

Section heap.
Context {P : Type} `{!PageMapper P}.

(** The static variables of heap.c, the memory they describe, and the parts
    of the machine the code calls. *)
Record state := State {
  pager : P;
  cpu : Cpu.state;
  words : Zmap Z;
  heap_head : Z;
  heap_end : Z;
  heap_mapped_pages : Z;
  heap_initialized : bool
}.

Definition set_pager (p : P) (s : state) : state :=
  State p (cpu s) (words s) (heap_head s) (heap_end s) (heap_mapped_pages s) (heap_initialized s).
Definition set_cpu (c : Cpu.state) (s : state) : state :=
  State (pager s) c (words s) (heap_head s) (heap_end s) (heap_mapped_pages s) (heap_initialized s).
Definition set_words (w : Zmap Z) (s : state) : state :=
  State (pager s) (cpu s) w (heap_head s) (heap_end s) (heap_mapped_pages s) (heap_initialized s).

#[export] Instance pager_lens : Lens state P.
Proof. refine {| lget := pager; lset := set_pager |}; by intros; destruct s. Defined.
#[export] Instance cpu_lens : Lens state Cpu.state.
Proof. refine {| lget := cpu; lset := set_cpu |}; by intros; destruct s. Defined.

(** ** Memory *)

Definition accessible (s : state) (a : Z) : bool :=
  match pm_mapped (pager s) (a / PAGE_SIZE * PAGE_SIZE) with Some _ => a mod 4 =? 0 | None => false end.

Definition load (a : Z) : M state Z := fun s =>
  if accessible s a then access (words s !! a) s else Fault.

Definition store (a v : Z) : M state unit := fun s =>
  if accessible s a then Ret tt (set_words (<[a := v]> (words s)) s) else Fault.

(** The fields of [struct heap_block]. *)
Definition get_magic (block : Z) := load block.
Definition get_size (block : Z) := load (block + 4).
Definition get_prev (block : Z) := load (block + 8).
Definition get_next (block : Z) := load (block + 12).
Definition get_state (block : Z) := load (block + 16).
Definition set_magic (block v : Z) := store block v.
Definition set_size (block v : Z) := store (block + 4) v.
Definition set_prev (block v : Z) := store (block + 8) v.
Definition set_next (block v : Z) := store (block + 12) v.
Definition set_state (block v : Z) := store (block + 16) v.
Definition set_reserved (block v : Z) := store (block + 20) v.

Definition payload_address (block : Z) : Z := block +u sizeof_heap_block.

Definition initialize_block (block size prev next : Z) : M state unit :=
  set_magic block HEAP_MAGIC ;;
  set_size block size ;;
  set_prev block prev ;;
  set_next block next ;;
  set_state block HEAP_STATE_FREE ;;
  set_reserved block 0.

(** ** Consistency checks *)

Definition state_known (st : Z) : bool := (st =? HEAP_STATE_FREE) || (st =? HEAP_STATE_ALLOCATED).

Definition validate_block (block : Z) : M state unit :=
  let! the_end := gets heap_end in
  let address := block in
  let header_size := sizeof_heap_block in
  let! corrupted :=
    orM (orM (orM (ret (address <? HEAP_VIRTUAL_START))
                  (ret (the_end -u header_size <? address)))
             (let! m := get_magic block in ret (negb (m =? HEAP_MAGIC))))
        (let! st := get_state block in ret (negb (state_known st))) in
  if corrupted : bool then panic "heap metadata corrupted" else
  let payload := payload_address block in
  let! size := get_size block in
  if (the_end -u payload <? size) || negb (Z.land size (HEAP_ALIGNMENT - 1) =? 0)
  then panic "heap block bounds corrupted" else
  let! next := get_next block in
  (if negb (next =? NULL) then
     if (the_end -u header_size <? payload +u size) || negb (next =? payload +u size)
     then panic "heap links corrupted" else
     let! back := get_prev next in
     if negb (back =? block) then panic "heap reverse link corrupted" else ret tt
   else if negb (payload +u size =? the_end) then panic "heap tail corrupted" else ret tt) ;;
  let! prev := get_prev block in
  let! head := gets heap_head in
  if negb (prev =? NULL) then
    let! bad :=
      orM (orM (orM (orM (ret (prev <? HEAP_VIRTUAL_START))
                         (ret (address -u header_size <? prev)))
                    (let! m := get_magic prev in ret (negb (m =? HEAP_MAGIC))))
               (let! n := get_next prev in ret (negb (n =? block))))
          (let! sz := get_size prev in ret (negb (payload_address prev +u sz =? address))) in
    if bad : bool then panic "heap previous link corrupted" else ret tt
  else if negb (block =? head) then panic "heap head link corrupted" else ret tt.

(** [bool align_request(size, &aligned)] *)
Definition align_request (size : Z) : option Z :=
  if (size =? 0) || (UINT32_MAX - (HEAP_ALIGNMENT - 1) <? size) then None else
  let value := Z.land (size +u (HEAP_ALIGNMENT - 1)) (not32 (HEAP_ALIGNMENT - 1)) in
  if HEAP_MAX_SIZE - sizeof_heap_block <? value then None else Some value.

(** ** Walking the list

    Each block occupies at least a header, so a walk visits at most
    [(heap_end - HEAP_VIRTUAL_START) / 24] blocks. *)
Definition walk_fuel (s : state) : nat :=
  S (Z.to_nat ((heap_end s - HEAP_VIRTUAL_START) / sizeof_heap_block)).

Definition heap_tail : M state Z :=
  let! fuel := gets walk_fuel in
  let! head := gets heap_head in
  while_ fuel (fun block =>
    let! next := get_next block in
    if negb (next =? NULL) then
      validate_block block ;;
      let! next' := get_next block in
      ret (inl next')
    else
      validate_block block ;;
      ret (inr block)) head.

Definition find_first_fit (size : Z) : M state Z :=
  let! fuel := gets walk_fuel in
  let! head := gets heap_head in
  while_ fuel (fun block =>
    if block =? NULL then ret (inr NULL) else
    validate_block block ;;
    let! fits := andM (let! st := get_state block in ret (st =? HEAP_STATE_FREE))
                      (let! sz := get_size block in ret (size <=? sz)) in
    if fits : bool then ret (inr block) else
    let! next := get_next block in
    ret (inl next)) head.

Definition split_block (block size : Z) : M state unit :=
  let! old := get_size block in
  let remaining := old -u size in
  if remaining <? sizeof_heap_block + HEAP_ALIGNMENT then ret tt else
  let new_block := payload_address block +u size in
  let! next := get_next block in
  initialize_block new_block (remaining -u sizeof_heap_block) block next ;;
  let! next' := get_next block in
  (if negb (next' =? NULL) then set_prev next' new_block else ret tt) ;;
  set_next block new_block ;;
  set_size block size.

Definition merge_with_next (block : Z) : M state unit :=
  let! next := get_next block in
  validate_block block ;;
  if next =? NULL then ret tt else
  validate_block next ;;
  let! st := get_state next in
  if negb (st =? HEAP_STATE_FREE) then ret tt else
  let! size := get_size block in
  let! next_size := get_size next in
  set_size block (size +u (sizeof_heap_block +u next_size)) ;;
  let! after := get_next next in
  set_next block after ;;
  (if negb (after =? NULL) then set_prev after block else ret tt) ;;
  set_magic next 0 ;;
  set_size next 0 ;;
  set_prev next NULL ;;
  set_next next NULL ;;
  set_state next 0.

Definition coalesce (block : Z) : M state Z :=
  merge_with_next block ;;
  let! prev := get_prev block in
  (if negb (prev =? NULL) then validate_block prev else ret tt) ;;
  let! merge := andM (ret (negb (prev =? NULL)))
                     (let! st := get_state prev in ret (st =? HEAP_STATE_FREE)) in
  if merge : bool then merge_with_next prev ;; ret prev else ret block.

(** ** Growing the region *)

(** One round of the mapping loop: [false] leaves the loop. *)
Definition map_page (virtual_address : Z) : M P bool :=
  let! physical := pm_alloc in
  if physical =? 0 then ret false else
  let! ok := pm_map virtual_address physical VMM_WRITABLE in
  if negb ok then
    let! freed := pm_free physical in
    if negb freed then panic "heap could not release rejected page" else ret false
  else ret true.

(** One round of the rollback loop. *)
Definition unmap_page (virtual_address : Z) : M P unit :=
  let! r := pm_unmap virtual_address in
  match r with
  | None => panic "heap extension rollback failed"
  | Some physical =>
      let! freed := pm_free physical in
      if negb freed then panic "heap extension rollback failed" else ret tt
  end.

(** Returns [true] when all [page_count] pages from [start] are mapped; on a
    failure the pages mapped so far are given back. *)
Definition map_extension (start page_count : Z) : M state bool :=
  let! mapped := while_ (S (Z.to_nat page_count)) (fun mapped =>
    if mapped <? page_count then
      let! ok := zoom (map_page (start +u (mapped *u PAGE_SIZE))) in
      if negb ok then ret (inr mapped) else ret (inl (mapped +u 1))
    else ret (inr mapped)) 0 in
  if mapped =? page_count then ret true else
  while_ (S (Z.to_nat mapped)) (fun mapped =>
    if 0 <? mapped then
      let mapped' := mapped - 1 in
      zoom (unmap_page (start +u (mapped' *u PAGE_SIZE))) ;;
      ret (inl mapped')
    else ret (inr false)) mapped.

(** The part of [grow_heap] after [required] is known. *)
Definition extend_heap (tail available_size old_end required : Z) : M state bool :=
  let page_count := (required +u PAGE_SIZE -u 1) / PAGE_SIZE in
  if (HEAP_MAX_SIZE -u available_size) / PAGE_SIZE <? page_count then ret false else
  let! ok := map_extension old_end page_count in
  if negb ok then ret false else
  let mapped_bytes := page_count *u PAGE_SIZE in
  modify (fun s => State (pager s) (cpu s) (words s) (heap_head s)
                     (heap_end s +u mapped_bytes)
                     (heap_mapped_pages s +u page_count) (heap_initialized s)) ;;
  let! st := get_state tail in
  (if st =? HEAP_STATE_FREE then
     let! sz := get_size tail in
     set_size tail (sz +u mapped_bytes)
   else
     initialize_block old_end (mapped_bytes -u sizeof_heap_block) tail NULL ;;
     set_next tail old_end) ;;
  ret true.

Definition grow_heap (size : Z) : M state bool :=
  let! tail := heap_tail in
  let! pages := gets heap_mapped_pages in
  let! old_end := gets heap_end in
  let available_size := pages *u PAGE_SIZE in
  let! tail_state := get_state tail in
  if tail_state =? HEAP_STATE_FREE then
    let! tail_size := get_size tail in
    if size <=? tail_size then ret true
    else extend_heap tail available_size old_end (size -u tail_size)
  else if UINT32_MAX - sizeof_heap_block <? size then ret false
  else extend_heap tail available_size old_end (size +u sizeof_heap_block).

(** ** Entry points *)

Definition heap_init : M state unit :=
  let! initialized := gets heap_initialized in
  if initialized : bool then panic "heap initialized twice" else
  let! physical := zoom pm_alloc in
  let! failed := orM (ret (physical =? 0))
                     (notM (zoom (pm_map HEAP_VIRTUAL_START physical VMM_WRITABLE))) in
  if failed : bool then
    let! stuck := andM (ret (negb (physical =? 0))) (notM (zoom (pm_free physical))) in
    if stuck : bool then panic "heap initial page rollback failed"
    else panic "heap initial page unavailable"
  else
  modify (fun s => State (pager s) (cpu s) (words s) HEAP_VIRTUAL_START
                     (HEAP_VIRTUAL_START + PAGE_SIZE) 1 (heap_initialized s)) ;;
  initialize_block HEAP_VIRTUAL_START (PAGE_SIZE - sizeof_heap_block) NULL NULL ;;
  modify (fun s => State (pager s) (cpu s) (words s) (heap_head s)
                     (heap_end s) (heap_mapped_pages s) true).

(** The tail of [kmalloc], once a block is chosen. *)
Definition take_block (block aligned : Z) : M state Z :=
  split_block block aligned ;;
  set_state block HEAP_STATE_ALLOCATED ;;
  ret (payload_address block).

Definition kmalloc (size : Z) : M state Z :=
  let! flags := zoom Cpu.irq_save_disable in
  let! result :=
    (let! initialized := gets heap_initialized in
     if negb initialized then ret NULL else
     match align_request size with
     | None => ret NULL
     | Some aligned =>
         let! block := find_first_fit aligned in
         if block =? NULL then
           let! grown := grow_heap aligned in
           if negb grown then ret NULL else
           let! block' := find_first_fit aligned in
           if block' =? NULL then panic "heap growth produced no fitting block"
           else take_block block' aligned
         else take_block block aligned
     end) in
  zoom (Cpu.irq_restore flags) ;;
  ret result.

Definition kfree (pointer : Z) : M state bool :=
  let! flags := zoom Cpu.irq_save_disable in
  let! result :=
    if pointer =? NULL then ret true else
    let! initialized := gets heap_initialized in
    if negb initialized then ret false else
    let address := pointer in
    let! the_end := gets heap_end in
    if (address <? HEAP_VIRTUAL_START + sizeof_heap_block) || (the_end <=? address) ||
       negb (Z.land address (HEAP_ALIGNMENT - 1) =? 0) then ret false else
    let! fuel := gets walk_fuel in
    let! head := gets heap_head in
    while_ fuel (fun block =>
      if block =? NULL then ret (inr false) else
      validate_block block ;;
      if payload_address block =? address then
        let! st := get_state block in
        if negb (st =? HEAP_STATE_ALLOCATED) then ret (inr false) else
        set_state block HEAP_STATE_FREE ;;
        coalesce block ;;
        ret (inr true)
      else
        let! next := get_next block in
        ret (inl next)) head in
  zoom (Cpu.irq_restore flags) ;;
  ret result.

Record heap_stats := HeapStats {
  mapped_pages : Z; allocated_blocks : Z; free_blocks : Z;
  allocated_bytes : Z; free_bytes : Z
}.

Definition heap_get_stats : M state heap_stats :=
  let! flags := zoom Cpu.irq_save_disable in
  let! initialized := gets heap_initialized in
  if negb initialized then
    zoom (Cpu.irq_restore flags) ;; ret (HeapStats 0 0 0 0 0)
  else
  let! pages := gets heap_mapped_pages in
  let! fuel := gets walk_fuel in
  let! head := gets heap_head in
  let! stats := while_ fuel (fun '(block, st) =>
    if block =? NULL then ret (inr st) else
    validate_block block ;;
    let! bs := get_state block in
    let! size := get_size block in
    let st' :=
      if bs =? HEAP_STATE_FREE
      then HeapStats (mapped_pages st) (allocated_blocks st) (free_blocks st +u 1)
             (allocated_bytes st) (free_bytes st +u size)
      else HeapStats (mapped_pages st) (allocated_blocks st +u 1) (free_blocks st)
             (allocated_bytes st +u size) (free_bytes st) in
    let! next := get_next block in
    ret (inl (next, st'))) (head, HeapStats pages 0 0 0 0) in
  zoom (Cpu.irq_restore flags) ;;
  ret stats.

(** ** The block list in memory *)

(** A block: its payload size and whether it is free. *)
Definition blk : Type := Z * bool.
Definition state_word (fr : bool) : Z := if fr then HEAP_STATE_FREE else HEAP_STATE_ALLOCATED.

Record hdr (w : Zmap Z) (a sz prev next : Z) (fr : bool) : Prop := {
  h_magic : w !! a = Some HEAP_MAGIC;
  h_size : w !! (a + 4) = Some sz;
  h_prev : w !! (a + 8) = Some prev;
  h_next : w !! (a + 12) = Some next;
  h_state : w !! (a + 16) = Some (state_word fr)
}.

Definition next_ptr (a : Z) (l : list blk) (nxt : Z) : Z := match l with [] => nxt | _ => a end.

(** The blocks [l] lie one after the other from [a] to [e]; the first one's
    back link is [prev], the last one's forward link is [nxt]. *)
Fixpoint seg (w : Zmap Z) (prev a : Z) (l : list blk) (nxt e : Z) : Prop :=
  match l with
  | [] => a = e
  | (sz, fr) :: l' =>
      hdr w a sz prev (next_ptr (a + 24 + sz) l' nxt) fr /\
      8 <= sz /\ sz mod 8 = 0 /\ seg w a (a + 24 + sz) l' nxt e
  end.

Fixpoint span (l : list blk) : Z :=
  match l with [] => 0 | (sz, _) :: l' => 24 + sz + span l' end.

(** The address of the last block of [l] laid out from [a]. *)
Fixpoint last_addr (prev a : Z) (l : list blk) : Z :=
  match l with [] => prev | (sz, _) :: l' => last_addr a (a + 24 + sz) l' end.

Lemma span_app l1 l2 : span (l1 ++ l2) = span l1 + span l2.
Proof. induction l1 as [|[sz fr] l1 IH]; simpl; lia. Qed.

Lemma seg_end w prev a l nxt e : seg w prev a l nxt e -> e = a + span l.
Proof.
  revert prev a. induction l as [|[sz fr] l IH]; simpl; intros prev a; [lia|].
  intros (_ & _ & _ & H%IH). lia.
Qed.

Lemma seg_span_pos w prev a l nxt e :
  seg w prev a l nxt e -> 0 <= span l /\ span l mod 8 = 0 /\ (l <> [] -> 32 <= span l).
Proof.
  revert prev a. induction l as [|[sz fr] l IH]; simpl; intros prev a; [done|].
  intros (_ & ? & ? & (? & ? & _)%IH). word_lia.
Qed.

Lemma seg_length w prev a l nxt e :
  seg w prev a l nxt e -> 32 * Z.of_nat (length l) <= span l.
Proof.
  revert prev a. induction l as [|[sz fr] l IH]; simpl; intros prev a; [done|].
  intros (_ & ? & ? & ?%IH). lia.
Qed.

Lemma last_addr_snoc prev a l sz fr : last_addr prev a (l ++ [(sz, fr)]) = a + span l.
Proof.
  revert prev a. induction l as [|[sz' fr'] l IH]; intros prev a; simpl; [lia|].
  rewrite IH. lia.
Qed.

Lemma seg_app w prev a l1 l2 nxt e :
  seg w prev a (l1 ++ l2) nxt e <->
  seg w prev a l1 (next_ptr (a + span l1) l2 nxt) (a + span l1) /\
  seg w (last_addr prev a l1) (a + span l1) l2 nxt e.
Proof.
  revert prev a. induction l1 as [|[sz fr] l1 IH]; intros prev a.
  - simpl. rewrite Z.add_0_r. naive_solver.
  - cbn [app seg span last_addr]. rewrite IH.
    replace (a + 24 + sz + span l1) with (a + (24 + sz + span l1)) by lia.
    assert (next_ptr (a + 24 + sz) (l1 ++ l2) nxt =
            next_ptr (a + 24 + sz) l1 (next_ptr (a + (24 + sz + span l1)) l2 nxt)) as ->.
    { destruct l1; simpl; [|done]. destruct l2; simpl; [done|lia]. }
    tauto.
Qed.

Lemma hdr_frame w w' a sz prev next fr :
  (forall x, a <= x < a + 24 -> w' !! x = w !! x) ->
  hdr w a sz prev next fr -> hdr w' a sz prev next fr.
Proof. intros H []. constructor; rewrite H by lia; done. Qed.

Lemma seg_frame w w' prev a l nxt e :
  (forall x, a <= x < e -> w' !! x = w !! x) -> seg w prev a l nxt e -> seg w' prev a l nxt e.
Proof.
  revert prev a. induction l as [|[sz fr] l IH]; intros prev a H; [done|].
  intros (Hh & Hsz & Hal & Hl). pose proof (seg_end _ _ _ _ _ _ Hl).
  pose proof (seg_span_pos _ _ _ _ _ _ Hl).
  split; [|split; [done|split; [done|]]].
  - eapply hdr_frame; [|exact Hh]. intros. apply H. lia.
  - apply IH; [|done]. intros. apply H. lia.
Qed.

(** Relinking the neighbours of a changed block. *)
Lemma seg_relink_prev w prev prev' a l nxt e :
  seg w prev a l nxt e -> seg (match l with [] => w | _ => <[a + 8 := prev']> w end) prev' a l nxt e.
Proof.
  destruct l as [|[sz fr] l]; [done|]. intros ([] & Hsz & Hal & Hl). simpl.
  split; [|split; [done|split; [done|]]].
  - constructor; rewrite ?lookup_insert_ne by lia; try done. apply lookup_insert_eq.
  - eapply seg_frame; [|exact Hl]. intros. rewrite lookup_insert_ne by lia. done.
Qed.

Lemma seg_relink_next w prev a l sz fr nxt nxt' e :
  seg w prev a (l ++ [(sz, fr)]) nxt e ->
  seg (<[a + span l + 12 := nxt']> w) prev a (l ++ [(sz, fr)]) nxt' e.
Proof.
  rewrite !seg_app. intros (H1 & [] & Hsz & Hal & He). simpl in He.
  pose proof (seg_end _ _ _ _ _ _ H1). pose proof (seg_span_pos _ _ _ _ _ _ H1).
  split.
  - eapply seg_frame; [|exact H1]. intros. by rewrite lookup_insert_ne by lia.
  - simpl. split; [|done]. constructor; rewrite ?lookup_insert_ne by lia; try done.
    apply lookup_insert_eq.
Qed.

End heap.
Arguments state P : clear implicits.

End Heap.
