(* ===== verification/HeapProofs.v ===== *)
(** * The heap routines on a block list

    Triples for the internal routines of kernel/mm/heap.c: the checks pass on a
    well-formed list, the walks end and find what they look for, and splitting,
    merging and growing turn one well-formed list into another. *)

From S2P Require Import Prelude Monad Interfaces Cpu Heap.
Import Heap.

Ltac heap_consts :=
  unfold payload_address, HEAP_VIRTUAL_START, HEAP_MAX_SIZE, HEAP_ALIGNMENT, PAGE_SIZE,
    sizeof_heap_block, NULL in *.
Ltac heap_lia := heap_consts; word_lia.
Ltac if_false := rewrite (proj2 (Z.ltb_ge _ _)) by heap_lia.

(** Reading a word through a chain of stores. *)
Ltac lookup_words :=
  repeat first [ rewrite lookup_insert_eq | rewrite lookup_insert_ne by lia ];
  try eassumption; try reflexivity.

Section memory.
Context {P : Type} `{!PageMapper P}.
Implicit Types s : state P.

(** ** Running the code on a block list

    The routines between growths change only the words of the region, so
    their states have the form [set_words w s] for a fixed [s]. *)

Record geo (s : state P) : Prop := {
  geo_head : heap_head s = HEAP_VIRTUAL_START;
  geo_end : HEAP_VIRTUAL_START < heap_end s <= HEAP_VIRTUAL_START + HEAP_MAX_SIZE;
  geo_mapped : forall a, HEAP_VIRTUAL_START <= a < heap_end s -> a mod 4 = 0 -> accessible s a = true
}.

Definition blocks (w : Zmap Z) (s : state P) (l : list blk) : Prop :=
  seg w 0 HEAP_VIRTUAL_START l 0 (heap_end s).

Lemma set_words_words s : set_words (words s) s = s.
Proof. by destruct s. Qed.

Lemma wp_load w s a v (Q : Z -> state P -> Prop) :
  geo s -> HEAP_VIRTUAL_START <= a < heap_end s -> a mod 4 = 0 -> w !! a = Some v ->
  Q v (set_words w s) -> wp (load a) (set_words w s) Q.
Proof.
  intros Hg Ha H4 Hw HQ. unfold wp, load.
  change (accessible (set_words w s) a) with (accessible s a).
  rewrite (geo_mapped _ Hg) by done. simpl. by rewrite Hw.
Qed.

Lemma wp_store w s a v (Q : unit -> state P -> Prop) :
  geo s -> HEAP_VIRTUAL_START <= a < heap_end s -> a mod 4 = 0 ->
  Q tt (set_words (<[a := v]> w) s) -> wp (store a v) (set_words w s) Q.
Proof.
  intros Hg Ha H4 HQ. unfold wp, store.
  change (accessible (set_words w s) a) with (accessible s a).
  by rewrite (geo_mapped _ Hg) by done.
Qed.

End memory.

Ltac ld := eapply wp_load; [done|heap_lia|heap_lia|eassumption|].
Ltac st := eapply wp_store; [done|heap_lia|heap_lia|].
Ltac ldw := eapply wp_load; [done|heap_lia|heap_lia|lookup_words|].

Section routines.
Context {P : Type} `{!PageMapper P}.
Implicit Types s : state P.

(** What the list says about one of its blocks and about its neighbours. *)
Lemma blocks_at w s l1 sz fr l2 :
  blocks w s (l1 ++ (sz, fr) :: l2) ->
  let a := HEAP_VIRTUAL_START + span l1 in
  hdr w a sz (last_addr 0 HEAP_VIRTUAL_START l1) (next_ptr (a + 24 + sz) l2 0) fr /\
  8 <= sz /\ sz mod 8 = 0 /\ 0 <= span l1 /\ span l1 mod 8 = 0 /\
  heap_end s = a + 24 + sz + span l2 /\ 0 <= span l2 /\ span l2 mod 8 = 0.
Proof.
  intros H. apply seg_app in H as (H1 & Hh & Hsz & Hal & H2).
  pose proof (seg_span_pos _ _ _ _ _ _ H1). pose proof (seg_span_pos _ _ _ _ _ _ H2).
  pose proof (seg_end _ _ _ _ _ _ H2). simpl. intuition lia.
Qed.

Lemma state_word_known fr : state_known (state_word fr) = true.
Proof. by destruct fr. Qed.

Lemma state_word_free fr : (state_word fr =? HEAP_STATE_FREE) = fr.
Proof. by destruct fr. Qed.

Lemma state_word_allocated fr : (state_word fr =? HEAP_STATE_ALLOCATED) = negb fr.
Proof. by destruct fr. Qed.

Lemma validate_next_ok w s l1 sz fr l2 (Q : unit -> state P -> Prop) :
  geo s -> blocks w s (l1 ++ (sz, fr) :: l2) ->
  let block := HEAP_VIRTUAL_START + span l1 in
  let next := next_ptr (block + 24 + sz) l2 0 in
  Q tt (set_words w s) ->
  wp (if negb (next =? NULL) then
     if (heap_end s -u sizeof_heap_block <? payload_address block +u sz)
        || negb (next =? payload_address block +u sz)
     then panic "heap links corrupted" else
     let! back := get_prev next in
     if negb (back =? block) then panic "heap reverse link corrupted" else ret tt
   else if negb (payload_address block +u sz =? heap_end s) then panic "heap tail corrupted"
   else ret tt) (set_words w s) Q.
Proof.
  intros Hg Hb block next HQ. pose proof (geo_end _ Hg) as He.
  pose proof (blocks_at _ _ _ _ _ _ Hb) as (Hh & ? & ? & ? & ? & Hend & ? & ?).
  destruct l2 as [|[nsz nfr] l2]; simpl in next; subst next block.
  - simpl in Hend. rewrite Z.eqb_refl. cbn [negb].
    rewrite (proj2 (Z.eqb_eq _ (heap_end s))) by heap_lia. done.
  - rewrite (proj2 (Z.eqb_neq _ NULL)) by heap_lia. cbn [negb].
    replace (l1 ++ (sz, fr) :: (nsz, nfr) :: l2) with ((l1 ++ [(sz, fr)]) ++ (nsz, nfr) :: l2)
      in Hb by (by rewrite <-app_assoc).
    pose proof (blocks_at _ _ _ _ _ _ Hb) as (Hn & ? & ? & ? & ? & Hend2 & ? & ?).
    rewrite last_addr_snoc, span_app in *. simpl in *.
    replace (HEAP_VIRTUAL_START + (span l1 + (24 + sz + 0)))
      with (HEAP_VIRTUAL_START + span l1 + 24 + sz) in * by lia.
    destruct Hn. if_false.
    rewrite (proj2 (Z.eqb_eq _ (payload_address _ +u sz))) by heap_lia. cbn [negb orb].
    apply wp_bind. ld. by rewrite Z.eqb_refl.
Qed.

Lemma validate_block_ok w s l1 sz fr l2 (Q : unit -> state P -> Prop) :
  geo s -> blocks w s (l1 ++ (sz, fr) :: l2) ->
  Q tt (set_words w s) -> wp (validate_block (HEAP_VIRTUAL_START + span l1)) (set_words w s) Q.
Proof.
  intros Hg Hb HQ. pose proof (geo_end _ Hg) as He. pose proof (geo_head _ Hg) as Hhd.
  pose proof (blocks_at _ _ _ _ _ _ Hb) as (Hh & ? & ? & ? & ? & Hend & ? & ?).
  pose proof Hh as []. unfold validate_block.
  run. cbn [heap_end set_words heap_head].
  if_false. run. if_false. run.
  ld. rewrite Z.eqb_refl. run. ld. rewrite state_word_known.
  run. ld. if_false.
  rewrite land_low_7, (proj2 (Z.eqb_eq _ 0)) by done. cbn [orb negb].
  apply wp_bind. ld. apply wp_bind. eapply validate_next_ok; [done..|].
  run. ld. run. cbn [heap_head set_words].
  destruct l1 as [|[psz pfr] l1 _] using rev_ind.
  - rewrite Hhd. done.
  - rewrite <-app_assoc in Hb. simpl in Hb.
    pose proof (blocks_at _ _ _ _ _ _ Hb) as (Hp & ? & ? & ? & ? & Hend2 & ? & ?).
    destruct Hp. rewrite last_addr_snoc, span_app in *. simpl in *.
    rewrite (proj2 (Z.eqb_neq _ NULL)) by heap_lia. cbn [negb].
    run. if_false. run. if_false. run.
    ld. rewrite Z.eqb_refl. run. ld.
    rewrite (proj2 (Z.eqb_eq _ (HEAP_VIRTUAL_START + (span l1 + _)))) by lia.
    run. ld.
    by rewrite (proj2 (Z.eqb_eq _ (HEAP_VIRTUAL_START + (span l1 + _)))) by heap_lia.
Qed.

Lemma walk_fuel_enough w s l :
  blocks w s l -> (length l < walk_fuel (set_words w s))%nat.
Proof.
  intros H. pose proof (seg_length _ _ _ _ _ _ H). pose proof (seg_end _ _ _ _ _ _ H).
  unfold walk_fuel. cbn [heap_end set_words]. unfold sizeof_heap_block.
  assert (Z.of_nat (length l) <= (heap_end s - HEAP_VIRTUAL_START) / 24); [|lia].
  apply Z.div_le_lower_bound; lia.
Qed.

(** A loop over the list from its head: [I l1 x] holds when the blocks [l1] are
    behind, and the loop variable holds the next block's address. *)
Definition cursor (l1 l2 : list blk) : Z := next_ptr (HEAP_VIRTUAL_START + span l1) l2 0.

Lemma cursor_cons l1 sz fr l2 : cursor l1 ((sz, fr) :: l2) = HEAP_VIRTUAL_START + span l1.
Proof. done. Qed.

Lemma cursor_next l1 sz fr l2 :
  next_ptr (HEAP_VIRTUAL_START + span l1 + 24 + sz) l2 0 = cursor (l1 ++ [(sz, fr)]) l2.
Proof. unfold cursor. destruct l2; [done|]. cbn [next_ptr]. rewrite span_app. simpl. lia. Qed.

Lemma app_cons_snoc {A} (l1 : list A) b l2 : l1 ++ b :: l2 = (l1 ++ [b]) ++ l2.
Proof. by rewrite <-app_assoc. Qed.

Lemma wp_walk {X R} (J : list blk -> list blk -> X -> Prop) w s l (step : X -> M (state P) (X + R)) x Q :
  blocks w s l -> J [] l x ->
  (forall l1 l2 x', l = l1 ++ l2 -> J l1 l2 x' ->
     wp (step x') (set_words w s) (fun r s' =>
       match r with
       | inl x'' => s' = set_words w s /\ exists b l2', l2 = b :: l2' /\ J (l1 ++ [b]) l2' x''
       | inr r => Q r s'
       end)) ->
  wp (while_ (walk_fuel (set_words w s)) step x) (set_words w s) Q.
Proof.
  intros Hb HJ Hstep.
  apply (wp_while_idx (fun n x' s' => s' = set_words w s /\
    exists l1 l2, l = l1 ++ l2 /\ n = length l2 /\ J l1 l2 x') _ _ (length l)).
  - split; [done|]. by exists [], l.
  - by apply walk_fuel_enough.
  - intros n x' s' (-> & l1 & l2 & El & -> & HJ'). eapply wp_mono; [by apply (Hstep l1 l2)|].
    intros [x''|r] s'; [|done]. intros (-> & b & l2' & -> & HJ'').
    exists (length l2'). split; [simpl; lia|]. split; [done|].
    exists (l1 ++ [b]), l2'. by rewrite <-app_assoc.
Qed.

Definition fits (size : Z) (b : blk) : bool := b.2 && (size <=? b.1).
Definition too_small (size : Z) (l : list blk) : Prop := Forall (fun b => fits size b = false) l.

Lemma cursor_start s l : geo s -> l <> [] -> heap_head s = cursor [] l.
Proof. intros Hg Hl. rewrite (geo_head _ Hg). by destruct l as [|[]]. Qed.

Lemma find_first_fit_ok w s l size (Q : Z -> state P -> Prop) :
  geo s -> blocks w s l -> l <> [] ->
  (too_small size l -> Q NULL (set_words w s)) ->
  (forall l1 sz l2, l = l1 ++ (sz, true) :: l2 -> too_small size l1 ->
     size <= sz -> Q (HEAP_VIRTUAL_START + span l1) (set_words w s)) ->
  wp (find_first_fit size) (set_words w s) Q.
Proof.
  intros Hg Hb Hne HN HS. pose proof (geo_end _ Hg). unfold find_first_fit. run.
  apply (wp_walk (fun l1 l2 x => x = cursor l1 l2 /\ too_small size l1) w s l); [done| |].
  { cbn [heap_head set_words]. split; [by apply cursor_start|constructor]. }
  intros l1 [|[sz fr] l2] x El [-> Hl1]; rewrite El in Hb.
  { run. apply HN. rewrite El. by rewrite app_nil_r. }
  pose proof (blocks_at _ _ _ _ _ _ Hb) as (Hh & ? & ? & ? & ? & Hend & ? & ?). destruct Hh.
  rewrite cursor_cons, (proj2 (Z.eqb_neq _ _)) by heap_lia. run.
  eapply validate_block_ok; [done..|]. run. ld. rewrite state_word_free. run.
  assert (fr && (size <=? sz) = false -> wp (get_next (HEAP_VIRTUAL_START + span l1)) (set_words w s)
    (fun a s' => s' = set_words w s /\ exists b l2', (sz, fr) :: l2 = b :: l2' /\
       a = cursor (l1 ++ [b]) l2' /\ too_small size (l1 ++ [b]))) as Hgo.
  { intros E. ld. split; [done|]. exists (sz, fr), l2. split; [done|].
    split; [apply cursor_next|]. apply Forall_app. by repeat constructor. }
  destruct fr; run; [|by apply Hgo].
  ld. run. destruct (Z.leb_spec size sz); [run; by eapply HS|run; apply Hgo; simpl; lia].
Qed.

Lemma heap_tail_ok w s l (Q : Z -> state P -> Prop) :
  geo s -> blocks w s l -> l <> [] ->
  (forall l1 sz fr, l = l1 ++ [(sz, fr)] -> Q (HEAP_VIRTUAL_START + span l1) (set_words w s)) ->
  wp heap_tail (set_words w s) Q.
Proof.
  intros Hg Hb Hne HQ. pose proof (geo_end _ Hg). unfold heap_tail. run.
  apply (wp_walk (fun l1 l2 x => x = cursor l1 l2 /\ l2 <> []) w s l); [done| |].
  { cbn [heap_head set_words]. split; [by apply cursor_start|done]. }
  intros l1 [|[sz fr] l2] x El [-> Hl1]; [done|]; rewrite El in Hb.
  pose proof (blocks_at _ _ _ _ _ _ Hb) as (Hh & ? & ? & ? & ? & Hend & ? & ?). destruct Hh.
  rewrite cursor_cons. run. ld. destruct l2 as [|[nsz nfr] l2]; simpl next_ptr in *.
  - change (0 =? NULL) with true. run. eapply validate_block_ok; [done..|]. run. by eapply HQ.
  - rewrite (proj2 (Z.eqb_neq _ _)) by heap_lia. run.
    eapply validate_block_ok; [done..|]. run. ld. split; [done|].
    exists (sz, fr), ((nsz, nfr) :: l2). split; [done|]. split; [|done].
    rewrite <-(cursor_next l1 sz fr). done.
Qed.

(** ** Changing the list *)

(** [x] lies in the payload of an allocated block of [l] laid out from [a]. *)
Fixpoint in_use (a : Z) (l : list blk) (x : Z) : Prop :=
  match l with
  | [] => False
  | (sz, fr) :: l' => (fr = false /\ a + 24 <= x < a + 24 + sz) \/ in_use (a + 24 + sz) l' x
  end.

Lemma in_use_app a l1 l2 x :
  in_use a (l1 ++ l2) x <-> in_use a l1 x \/ in_use (a + span l1) l2 x.
Proof.
  revert a. induction l1 as [|[sz fr] l1 IH]; intros a; simpl.
  - rewrite Z.add_0_r. tauto.
  - rewrite IH. replace (a + 24 + sz + span l1) with (a + (24 + sz + span l1)) by lia. tauto.
Qed.

Lemma in_use_range w prev a l nxt e x : seg w prev a l nxt e -> in_use a l x -> a + 24 <= x < e.
Proof.
  revert prev a. induction l as [|[sz fr] l IH]; simpl; intros prev a; [done|].
  intros (_ & ? & ? & Hl) [[_ Hx]|Hx].
  - pose proof (seg_end _ _ _ _ _ _ Hl). pose proof (seg_span_pos _ _ _ _ _ _ Hl). lia.
  - pose proof (IH _ _ Hl Hx). lia.
Qed.

(** [w'] keeps every word a client owns. *)
Definition same_use (l : list blk) (w w' : Zmap Z) : Prop :=
  forall x, in_use HEAP_VIRTUAL_START l x -> w' !! x = w !! x.

Lemma same_use_refl l w : same_use l w w.
Proof. done. Qed.

(** The list around the block at [l1]: the words below it, its own header, the
    words above it. *)
Lemma blocks_split w s l1 sz fr l2 :
  blocks w s (l1 ++ (sz, fr) :: l2) <->
  let a := HEAP_VIRTUAL_START + span l1 in
  seg w 0 HEAP_VIRTUAL_START l1 a a /\
  hdr w a sz (last_addr 0 HEAP_VIRTUAL_START l1) (next_ptr (a + 24 + sz) l2 0) fr /\
  8 <= sz /\ sz mod 8 = 0 /\
  seg w a (a + 24 + sz) l2 0 (heap_end s).
Proof. unfold blocks. rewrite seg_app. simpl. tauto. Qed.

Lemma set_state_ok w s l1 sz fr fr' l2 (Q : unit -> state P -> Prop) :
  geo s -> blocks w s (l1 ++ (sz, fr) :: l2) ->
  (forall w', blocks w' s (l1 ++ (sz, fr') :: l2) ->
     (forall x, x <> HEAP_VIRTUAL_START + span l1 + 16 -> w' !! x = w !! x) ->
     Q tt (set_words w' s)) ->
  wp (set_state (HEAP_VIRTUAL_START + span l1) (state_word fr')) (set_words w s) Q.
Proof.
  intros Hg Hb HQ. pose proof (geo_end _ Hg).
  pose proof (blocks_at _ _ _ _ _ _ Hb) as (_ & ? & ? & ? & ? & Hend & ? & ?).
  st. apply HQ; [|intros; lookup_words].
  apply blocks_split in Hb as (Hlo & [] & ? & ? & Hhi). apply blocks_split.
  split; [|split; [|split; [done|split; [done|]]]].
  - eapply seg_frame; [|exact Hlo]. intros. lookup_words.
  - constructor; lookup_words.
  - eapply seg_frame; [|exact Hhi]. intros. lookup_words.
Qed.

Definition split_list (sz size : Z) (fr : bool) : list blk :=
  if sz - size <? 32 then [(sz, fr)] else [(size, fr); (sz - size - 24, true)].

(** Replacing one block by two: the words the code writes give the new list. *)
Lemma blocks_cut w w' s l1 sz fr l2 size :
  blocks w s (l1 ++ (sz, fr) :: l2) -> 8 <= size -> size + 32 <= sz -> size mod 8 = 0 ->
  let a := HEAP_VIRTUAL_START + span l1 in
  hdr w' a size (last_addr 0 HEAP_VIRTUAL_START l1) (a + 24 + size) fr ->
  hdr w' (a + 24 + size) (sz - size - 24) a (next_ptr (a + 24 + sz) l2 0) true ->
  (forall x, x < a -> w' !! x = w !! x) ->
  (forall x, a + 24 + sz <= x ->
     w' !! x = (match l2 with [] => w | _ => <[a + 24 + sz + 8 := a + 24 + size]> w end) !! x) ->
  blocks w' s (l1 ++ [(size, fr); (sz - size - 24, true)] ++ l2).
Proof.
  intros Hb Hsz Hle Hal a Ha Hn Hlow Hhigh. pose proof (blocks_at _ _ _ _ _ _ Hb) as Hat.
  simpl in Hat. apply blocks_split in Hb as (Hlo & _ & _ & ? & Hhi). apply blocks_split.
  split; [|split; [|split; [done|split; [done|]]]].
  - eapply seg_frame; [|exact Hlo]. intros. apply Hlow. lia.
  - done.
  - simpl. fold a. replace (a + 24 + size + 24 + (sz - size - 24)) with (a + 24 + sz) by lia.
    split; [done|]. split; [lia|]. split; [word_lia|].
    eapply seg_frame; [|apply (seg_relink_prev _ _ (a + 24 + size) _ _ _ _ Hhi)].
    intros. apply Hhigh. lia.
Qed.

Lemma split_block_ok w s l1 sz fr l2 size (Q : unit -> state P -> Prop) :
  geo s -> blocks w s (l1 ++ (sz, fr) :: l2) -> 8 <= size <= sz -> size mod 8 = 0 ->
  (forall w', blocks w' s (l1 ++ split_list sz size fr ++ l2) ->
     (forall x, x < HEAP_VIRTUAL_START + span l1 -> w' !! x = w !! x) ->
     (forall x, HEAP_VIRTUAL_START + span l1 + 24 + sz + 24 <= x -> w' !! x = w !! x) ->
     Q tt (set_words w' s)) ->
  wp (split_block (HEAP_VIRTUAL_START + span l1) size) (set_words w s) Q.
Proof.
  intros Hg Hb Hsz Hal HQ. pose proof (geo_end _ Hg).
  pose proof (blocks_at _ _ _ _ _ _ Hb) as (Hh & ? & ? & ? & ? & Hend & ? & ?). destruct Hh.
  unfold split_block. run. ld.
  replace (sz -u size) with (sz - size) by heap_lia.
  change (sizeof_heap_block + HEAP_ALIGNMENT) with 32. unfold split_list in HQ.
  destruct (Z.ltb_spec (sz - size) 32) as [Hlt|Hge]; run; [by apply HQ|].
  ld. replace (payload_address (HEAP_VIRTUAL_START + span l1) +u size)
    with (HEAP_VIRTUAL_START + span l1 + 24 + size) by heap_lia.
  replace ((sz - size) -u sizeof_heap_block) with (sz - size - 24) by heap_lia.
  unfold initialize_block. run. do 6 (st; run). ldw.
  pose proof (blocks_cut w) as Hcut. destruct l2 as [|[nsz nfr] l2]; simpl next_ptr in *.
  - change (0 =? NULL) with true. run. st. run. st. apply HQ; [|intros; lookup_words..].
    eapply Hcut; [done|lia|lia|lia|constructor; lookup_words|constructor; lookup_words| |];
      intros; lookup_words.
  - rewrite (proj2 (Z.eqb_neq _ _)) by heap_lia.
    pose proof (seg_span_pos _ _ _ _ _ _ (proj2 (proj2 (proj2 (proj2 (proj1 (blocks_split _ _ _ _ _ _) Hb))))))
      as (_ & _ & Hpos). specialize (Hpos ltac:(done)).
    run. st. run. st. run. st. apply HQ; [|intros; lookup_words..].
    eapply Hcut; [done|lia|lia|lia|constructor; lookup_words|constructor; lookup_words|intros; lookup_words|].
    intros. simpl. destruct (decide (x = HEAP_VIRTUAL_START + span l1 + 24 + sz + 8)) as [->|]; lookup_words.
Qed.

(** Free blocks hold nothing, so a change confined to them and to the header
    behind them is invisible to clients. *)
Lemma in_use_free a l1 lm l2 x :
  Forall (fun b => b.2 = true) lm ->
  in_use a (l1 ++ lm ++ l2) x <-> in_use a l1 x \/ in_use (a + span l1 + span lm) l2 x.
Proof.
  intros Hm. rewrite !in_use_app. enough (forall a', ~ in_use a' lm x) by naive_solver.
  induction Hm as [|[sz fr] lm Hfr Hm IH]; intros a'; simpl; [tauto|].
  simpl in Hfr. intros [[? _]|?]; [congruence|by eapply IH].
Qed.

Lemma same_use_local w w' s l1 lm l2 :
  blocks w s (l1 ++ lm ++ l2) -> Forall (fun b => b.2 = true) lm ->
  (forall x, x < HEAP_VIRTUAL_START + span l1 -> w' !! x = w !! x) ->
  (forall x, HEAP_VIRTUAL_START + span l1 + span lm + 24 <= x -> w' !! x = w !! x) ->
  same_use (l1 ++ lm ++ l2) w w'.
Proof.
  intros Hb Hm Hlow Hhigh x Hx. apply in_use_free in Hx; [|done].
  apply seg_app in Hb as (H1 & H2). apply seg_app in H2 as (_ & H2).
  destruct Hx as [Hx|Hx].
  - apply Hlow. eapply in_use_range in Hx; [|exact H1]. lia.
  - apply Hhigh. eapply in_use_range in Hx; [|exact H2]. lia.
Qed.

Lemma blocks_join w w' s l1 sz fr nsz nfr l2 :
  blocks w s (l1 ++ (sz, fr) :: (nsz, nfr) :: l2) ->
  let a := HEAP_VIRTUAL_START + span l1 in
  let after := a + 24 + sz + 24 + nsz in
  hdr w' a (sz + 24 + nsz) (last_addr 0 HEAP_VIRTUAL_START l1) (next_ptr after l2 0) fr ->
  (forall x, x < a -> w' !! x = w !! x) ->
  (forall x, after <= x ->
     w' !! x = (match l2 with [] => w | _ => <[after + 8 := a]> w end) !! x) ->
  blocks w' s (l1 ++ (sz + 24 + nsz, fr) :: l2).
Proof.
  intros Hb a after Ha Hlow Hhigh. apply blocks_split in Hb as (Hlo & _ & ? & ? & Hhi).
  simpl in Hhi. destruct Hhi as (_ & ? & ? & Hhi). apply blocks_split. cbv zeta.
  replace (HEAP_VIRTUAL_START + span l1 + 24 + (sz + 24 + nsz)) with after by lia.
  split; [|split; [done|split; [lia|split; [word_lia|]]]].
  - eapply seg_frame; [|exact Hlo]. intros. apply Hlow. lia.
  - eapply seg_frame; [|apply (seg_relink_prev _ _ a _ _ _ _ Hhi)].
    intros. apply Hhigh. lia.
Qed.

Definition merge_list (sz : Z) (l2 : list blk) : list blk :=
  match l2 with
  | (nsz, true) :: l3 => (sz + 24 + nsz, true) :: l3
  | _ => (sz, true) :: l2
  end.

Lemma merge_with_next_ok w s l1 sz l2 (Q : unit -> state P -> Prop) :
  geo s -> blocks w s (l1 ++ (sz, true) :: l2) ->
  (forall w', blocks w' s (l1 ++ merge_list sz l2) ->
     same_use (l1 ++ (sz, true) :: l2) w w' -> Q tt (set_words w' s)) ->
  wp (merge_with_next (HEAP_VIRTUAL_START + span l1)) (set_words w s) Q.
Proof.
  intros Hg Hb HQ. pose proof (geo_end _ Hg).
  pose proof (blocks_at _ _ _ _ _ _ Hb) as (Hh & ? & ? & ? & ? & Hend & ? & ?). destruct Hh.
  unfold merge_with_next. run. ld. run. eapply validate_block_ok; [done..|].
  destruct l2 as [|[nsz nfr] l2]; simpl next_ptr in *.
  { change (0 =? NULL) with true. run. by apply HQ. }
  rewrite (proj2 (Z.eqb_neq _ _)) by heap_lia. run.
  pose proof Hb as Hb2. rewrite app_cons_snoc in Hb2.
  pose proof (blocks_at _ _ _ _ _ _ Hb2) as (Hn & ? & ? & ? & ? & Hend2 & ? & ?).
  replace (HEAP_VIRTUAL_START + span l1 + 24 + sz) with
    (HEAP_VIRTUAL_START + span (l1 ++ [(sz, true)])) by (rewrite span_app; simpl; lia).
  eapply validate_block_ok; [done..|]. rewrite span_app in *. cbn [span] in *.
  replace (HEAP_VIRTUAL_START + (span l1 + (24 + sz + 0)))
    with (HEAP_VIRTUAL_START + span l1 + 24 + sz) in * by lia. destruct Hn as [Hm Hs Hp Hx Hst].
  run. ld. rewrite state_word_free. destruct nfr; run; [|by apply HQ].
  ld. run. ld. run. st. run. ldw. run. st. run.
  replace (sz +u (sizeof_heap_block +u nsz)) with (sz + 24 + nsz) by heap_lia.
  assert (forall w', (forall x, x < HEAP_VIRTUAL_START + span l1 -> w' !! x = w !! x) ->
    (forall x, HEAP_VIRTUAL_START + span l1 + (24 + sz + (24 + nsz)) + 24 <= x -> w' !! x = w !! x) ->
    same_use (l1 ++ (sz, true) :: (nsz, true) :: l2) w w') as Hsame.
  { intros w' Hl Hr. apply (same_use_local w w' s l1 [(sz, true); (nsz, true)] l2); simpl;
      [done|by repeat constructor|done|]. intros. apply Hr. lia. }
  destruct l2 as [|[msz mfr] l2]; simpl next_ptr in *.
  - change (0 =? NULL) with true. run. do 4 (st; run). st.
    apply HQ; [|apply Hsame; intros; lookup_words].
    eapply blocks_join; [done|constructor; lookup_words| |]; intros; lookup_words.
  - rewrite (proj2 (Z.eqb_neq _ _)) by heap_lia.
    pose proof (seg_span_pos _ _ _ _ _ _ (proj2 (proj2 (proj2 (proj2 (proj1 (blocks_split _ _ _ _ _ _) Hb2))))))
      as (_ & _ & Hpos). specialize (Hpos ltac:(done)).
    run. do 5 (st; run). st.
    apply HQ; [|apply Hsame; intros; lookup_words].
    eapply blocks_join; [done|constructor; lookup_words|intros; lookup_words|].
    intros. simpl. destruct (decide (x = HEAP_VIRTUAL_START + span l1 + 24 + sz + 24 + nsz + 8))
      as [->|]; lookup_words.
Qed.

(** The reference for coalescing: merge every run of adjacent free blocks. *)
Fixpoint compact (l : list blk) : list blk :=
  match l with
  | [] => []
  | (sz, true) :: l' => merge_list sz (compact l')
  | (sz, false) :: l' => (sz, false) :: compact l'
  end.

Definition head_free (l : list blk) : bool := match l with (_, true) :: _ => true | _ => false end.

(** No two neighbours are both free. *)
Fixpoint packed (l : list blk) : Prop :=
  match l with
  | [] => True
  | (_, fr) :: l' => (fr && head_free l' = false) /\ packed l'
  end.

Lemma merge_list_packed sz l : packed l -> packed (merge_list sz l).
Proof. by destruct l as [|[nsz []] l]; simpl. Qed.

Lemma compact_is_packed l : packed (compact l).
Proof.
  induction l as [|[sz []] l IH]; [done|by apply merge_list_packed|done].
Qed.

Lemma compact_packed l : packed l -> compact l = l.
Proof.
  induction l as [|[sz []] l IH]; simpl; [done| |intros [_ ?]; by rewrite IH].
  intros [Hh ?]. rewrite IH by done. by destruct l as [|[nsz []] l].
Qed.

Lemma packed_app l1 l2 : packed (l1 ++ l2) -> packed l1 /\ packed l2.
Proof.
  induction l1 as [|[sz fr] l1 IH]; simpl; [done|]. intros [Hh [? ?]%IH].
  split; [|done]. split; [|done]. destruct fr; [|done]. by destruct l1 as [|[? []] ?].
Qed.

Lemma span_merge_list sz l : span (merge_list sz l) = 24 + sz + span l.
Proof. destruct l as [|[nsz []] l]; simpl; lia. Qed.

Lemma in_use_merge_list a sz l x : in_use a (merge_list sz l) x <-> in_use a ((sz, true) :: l) x.
Proof.
  destruct l as [|[nsz []] l]; [done| |done]. simpl.
  replace (a + 24 + (sz + 24 + nsz)) with (a + 24 + sz + 24 + nsz) by lia. intuition congruence.
Qed.

(** What the code does instead: merge with the block behind, then with the one
    in front. *)
Fixpoint join_left (l1 m : list blk) : list blk :=
  match l1 with
  | [] => m
  | [(psz, true)] => merge_list psz m
  | b :: l1' => b :: join_left l1' m
  end.

Lemma join_left_snoc l1 psz fr m :
  join_left (l1 ++ [(psz, fr)]) m = l1 ++ if fr then merge_list psz m else (psz, fr) :: m.
Proof.
  induction l1 as [|[x f] l1 IH]; [by destruct fr|]. cbn [app join_left]. rewrite IH.
  by destruct f, l1 as [|[] ?].
Qed.

Lemma join_left_compact l1 sz l2 :
  packed (l1 ++ (sz, false) :: l2) ->
  join_left l1 (merge_list sz l2) = compact (l1 ++ (sz, true) :: l2).
Proof.
  induction l1 as [|[x f] l1 IH]; cbn [app join_left compact packed].
  - intros [_ ?]. by rewrite compact_packed.
  - intros [Hh Hp]. rewrite <-IH by done. destruct f; [|by destruct l1].
    destruct l1 as [|[y []] l1]; [done|done|]. cbn [join_left].
    by destruct l1.
Qed.

Lemma coalesce_ok w s l1 sz l2 (Q : Z -> state P -> Prop) :
  geo s -> blocks w s (l1 ++ (sz, true) :: l2) ->
  (forall r w', blocks w' s (join_left l1 (merge_list sz l2)) ->
     same_use (l1 ++ (sz, true) :: l2) w w' -> Q r (set_words w' s)) ->
  wp (coalesce (HEAP_VIRTUAL_START + span l1)) (set_words w s) Q.
Proof.
  intros Hg Hb HQ. pose proof (geo_end _ Hg). unfold coalesce. run.
  eapply merge_with_next_ok; [done..|]. intros w1 Hb1 Hu1. run.
  assert (exists sz' l3, merge_list sz l2 = (sz', true) :: l3) as (sz' & l3 & Em)
    by (destruct l2 as [|[? []] ?]; simpl; eauto).
  rewrite Em in *. pose proof (blocks_at _ _ _ _ _ _ Hb1) as (Hh & ? & ? & ? & ? & Hend & ? & ?).
  destruct Hh. ld. destruct l1 as [|[psz pfr] l1 _] using rev_ind.
  { simpl last_addr. change (0 =? NULL) with true. run. by apply HQ. }
  rewrite last_addr_snoc, <-?app_assoc, join_left_snoc in *. cbn [app] in *.
  pose proof (blocks_at _ _ _ _ _ _ Hb1) as (Hp & ? & ? & ? & ? & Hend2 & ? & ?). destruct Hp.
  rewrite (proj2 (Z.eqb_neq _ _)) by heap_lia. run.
  eapply validate_block_ok; [done..|]. run. ld. rewrite state_word_free.
  destruct pfr; run; [|by apply HQ].
  eapply merge_with_next_ok; [done..|]. intros w2 Hb2 Hu2. run. apply HQ; [done|].
  intros x Hx. rewrite <-Hu1 by done. apply Hu2. rewrite <-Em.
  change (l1 ++ (psz, true) :: merge_list sz l2) with (l1 ++ [(psz, true)] ++ merge_list sz l2).
  change (l1 ++ (psz, true) :: (sz, true) :: l2) with (l1 ++ [(psz, true)] ++ (sz, true) :: l2) in Hx.
  rewrite !in_use_app in *. by rewrite in_use_merge_list.
Qed.

(** ** Growing the region *)

(** [p] is [p0] with the fresh frames [fs] mapped at the pages from [start]. *)
Record extended (p0 : P) (start : Z) (fs : list Z) (p : P) : Prop := {
  ext_inv : pm_inv p;
  ext_pages : forall i f, fs !! i = Some f ->
    pm_mapped p (start + Z.of_nat i * 4096) = Some f /\ page_address f /\ ~ pm_held p0 f;
  ext_nodup : NoDup fs;
  ext_others : forall va, client_page va ->
    (forall i, (i < length fs)%nat -> va <> start + Z.of_nat i * 4096) ->
    pm_mapped p va = pm_mapped p0 va;
  ext_held : forall b, pm_held p b <-> pm_held p0 b \/ b ∈ fs
}.

Lemma ext_nil p0 start p :
  pm_inv p -> (forall va, client_page va -> pm_mapped p va = pm_mapped p0 va) ->
  (forall b, pm_held p b <-> pm_held p0 b) -> extended p0 start [] p.
Proof.
  intros Hi Hm Hh. split; [done|done|constructor|auto|].
  intros b. rewrite Hh. split; [tauto|]. intros [|[]%elem_of_nil]; done.
Qed.

(** The pages a growth may use. *)
Definition growable (start count : Z) : Prop :=
  start mod 4096 = 0 /\ HEAP_VIRTUAL_START <= start /\ 0 <= count /\
  start + count * 4096 <= HEAP_VIRTUAL_START + HEAP_MAX_SIZE.

Lemma growable_page start count i :
  growable start count -> 0 <= i < count ->
  client_page (start + i * 4096) /\ start +u (i *u PAGE_SIZE) = start + i * 4096.
Proof. unfold growable, client_page, page_aligned. intros. heap_lia. Qed.

Lemma map_page_ok p0 start count fs p (Q : bool -> P -> Prop) :
  growable start count -> Z.of_nat (length fs) < count ->
  (forall i, 0 <= i < count -> pm_mapped p0 (start + i * 4096) = None) ->
  extended p0 start fs p ->
  (forall b, extended p0 start fs b -> Q false b) ->
  (forall f b, extended p0 start (fs ++ [f]) b -> Q true b) ->
  wp (map_page (start + Z.of_nat (length fs) * 4096)) p Q.
Proof.
  intros Hgr Hlen Hfree [Hi Hpg Hnd Hoth Hheld] Hno Hyes.
  pose proof (growable_page _ _ (Z.of_nat (length fs)) Hgr ltac:(lia)) as [Hcl _].
  apply wp_bind. wp_apply (pm_alloc_ok p); [done|].
  intros f p1 (Hi1 & Hm1 & [(-> & Hh1)|(Hf & Hfresh & Hh1)]).
  { run. apply Hno. split; [done| |done| |]; intros.
    - rewrite Hm1. eauto.
    - rewrite Hm1. eauto.
    - rewrite Hh1. eauto. }
  rewrite (proj2 (Z.eqb_neq _ _)) by (destruct Hf; lia). apply wp_bind.
  assert (Hf0 : ~ pm_held p0 f /\ f ∉ fs) by (rewrite Hheld in Hfresh; tauto).
  wp_apply (pm_map_ok p1); [done|done|done|apply Hh1; tauto| |].
  { rewrite Hm1, Hoth, Hfree; [done|lia|done|]. intros. lia. }
  intros ok p2 (Hi2 & Hh2 & Hm2). destruct ok; cbn [negb andb] in *.
  - apply wp_ret, (Hyes f). split; [done| | | |].
    + intros i g [Hl|[Hlt Hl]]%lookup_app_Some.
      * pose proof (lookup_lt_Some _ _ _ Hl).
        pose proof (growable_page _ _ (Z.of_nat i) Hgr ltac:(lia)) as [Hci _].
        rewrite Hm2 by done. rewrite (proj2 (Z.eqb_neq _ _)) by lia. rewrite Hm1. eauto.
      * apply list_lookup_singleton_Some in Hl as [Hi0 <-].
        replace i with (length fs) by lia. rewrite Hm2, Z.eqb_refl by done. tauto.
    + apply NoDup_app. split; [done|]. split; [|apply NoDup_singleton].
      intros x Hx ->%list_elem_of_singleton. tauto.
    + intros va Hva Hne. rewrite length_app in Hne. simpl in Hne. rewrite Hm2 by done.
      rewrite (proj2 (Z.eqb_neq _ _)) by (intros E; apply (Hne (length fs)); lia).
      rewrite Hm1. apply Hoth; [done|]. intros. apply Hne. lia.
    + intros b. rewrite Hh2, Hh1, Hheld, elem_of_app, list_elem_of_singleton. tauto.
  - apply wp_bind. wp_apply (pm_free_ok p2); [done|done|apply Hh2, Hh1; tauto|].
    intros freed p3 (-> & Hi3 & Hm3 & Hh3). apply wp_ret, Hno. split; [done| |done| |].
    + intros i g Hl. pose proof (lookup_lt_Some _ _ _ Hl).
      pose proof (growable_page _ _ (Z.of_nat i) Hgr ltac:(lia)) as [Hci _].
      rewrite Hm3, Hm2, Hm1 by done. eauto.
    + intros va Hva Hne. rewrite Hm3, Hm2, Hm1 by done. eauto.
    + intros b. rewrite Hh3, Hh2, Hh1, Hheld. split; [intuition congruence|].
      intros Hb. split; [tauto|]. intros ->. tauto.
Qed.

Lemma unmap_page_ok p0 start count fs f p (Q : unit -> P -> Prop) :
  growable start count -> Z.of_nat (length fs) < count ->
  pm_mapped p0 (start + Z.of_nat (length fs) * 4096) = None ->
  extended p0 start (fs ++ [f]) p ->
  (forall b, extended p0 start fs b -> Q tt b) ->
  wp (unmap_page (start + Z.of_nat (length fs) * 4096)) p Q.
Proof.
  intros Hgr Hlen Hnone [Hi Hpg Hnd Hoth Hheld] HQ.
  pose proof (growable_page _ _ (Z.of_nat (length fs)) Hgr ltac:(lia)) as [Hcl _].
  destruct (Hpg (length fs) f) as (Hmf & Hpf & Hff); [by rewrite lookup_app_r, Nat.sub_diag|].
  apply NoDup_app in Hnd as (Hnd & Hdis & _).
  apply wp_bind. wp_apply (pm_unmap_ok p _ f); [done..|]. intros r p1 (-> & Hi1 & Hh1 & Hm1).
  apply wp_bind. wp_apply (pm_free_ok p1); [done|done|apply Hh1, Hheld; set_solver|].
  intros freed p2 (-> & Hi2 & Hm2 & Hh2). apply wp_ret, HQ. split; [done| |done| |].
  - intros i g Hl. pose proof (lookup_lt_Some _ _ _ Hl).
    pose proof (growable_page _ _ (Z.of_nat i) Hgr ltac:(lia)) as [Hci _].
    rewrite Hm2, Hm1 by done. rewrite (proj2 (Z.eqb_neq _ _)) by lia.
    apply Hpg. by rewrite lookup_app_l.
  - intros va Hva Hne. rewrite Hm2, Hm1 by done. destruct (Z.eqb_spec (start + Z.of_nat (length fs) * 4096) va) as [<-|Hva'].
    + done.
    + apply Hoth; [done|]. rewrite length_app. simpl. intros i Hlt.
      destruct (decide (i = length fs)) as [->|]; [congruence|]. apply Hne. lia.
  - intros b. rewrite Hh2, Hh1, Hheld, elem_of_app, list_elem_of_singleton.
    split; [tauto|]. intros Hb. split; [tauto|]. intros ->.
    destruct Hb as [|Hb]; [done|]. apply (Hdis f Hb). set_solver.
Qed.

Lemma map_extension_ok s start count (Q : bool -> state P -> Prop) :
  pm_inv (pager s) -> growable start count ->
  (forall i, 0 <= i < count -> pm_mapped (pager s) (start + i * 4096) = None) ->
  (forall p, extended (pager s) start [] p -> Q false (set_pager p s)) ->
  (forall fs p, extended (pager s) start fs p -> Z.of_nat (length fs) = count ->
     Q true (set_pager p s)) ->
  wp (map_extension start count) s Q.
Proof.
  intros Hi Hgr Hnone Hno Hyes. unfold map_extension. apply wp_bind.
  assert (0 <= count < 4294967296) as Hc by (unfold growable in Hgr; heap_lia).
  apply (wp_while
    (fun m s' => exists fs p, s' = set_pager p s /\ m = Z.of_nat (length fs) /\ m <= count /\
       extended (pager s) start fs p) (fun m _ => Z.to_nat (count - m))).
  { exists [], (pager s). split; [by destruct s|]. split; [done|]. split; [lia|]. by apply ext_nil. }
  { lia. }
  intros m s1 (fs & p & -> & -> & Hm & Hext).
  destruct (Z.ltb_spec (Z.of_nat (length fs)) count).
  - run. destruct (growable_page _ _ (Z.of_nat (length fs)) Hgr) as [_ ->]; [lia|].
    eapply map_page_ok; [done|done|done|exact Hext| |].
    + intros p' Hext'. change (lset p' (set_pager p s)) with (set_pager p' s).
      clear p Hext. run. rewrite (proj2 (Z.eqb_neq _ _)) by lia.
      apply (wp_while (fun m s' => exists fs p, s' = set_pager p s /\ m = Z.of_nat (length fs) /\
         m < count /\ extended (pager s) start fs p) (fun m _ => Z.to_nat m)).
      { by exists fs, p'. }
      { lia. }
      clear fs p' Hext' Hm H. intros m s2 (fs & p & -> & -> & Hlt & Hext).
      destruct (Z.ltb_spec 0 (Z.of_nat (length fs))) as [Hpos|Hz].
      * destruct fs as [|f fs _] using rev_ind; [simpl in Hpos; lia|].
        rewrite length_app in *. simpl in *. run.
        replace (Z.of_nat (length fs + 1) - 1) with (Z.of_nat (length fs)) by lia.
        destruct (growable_page _ _ (Z.of_nat (length fs)) Hgr) as [_ ->]; [lia|].
        eapply unmap_page_ok; [exact Hgr|lia|apply Hnone; lia|exact Hext|].
        intros p' Hext'. run. split; [|lia]. exists fs, p'. split; [done|]. split; [done|]. split; [lia|done].
      * destruct fs; [|simpl in Hz; lia]. run. by apply Hno.
    + intros f p' Hext'. run. replace (Z.of_nat (length fs) +u 1) with (Z.of_nat (length (fs ++ [f])))
        by (rewrite length_app; simpl; heap_lia).
      split; [|rewrite length_app; simpl; lia]. exists (fs ++ [f]), p'. split; [done|].
      split; [done|]. rewrite length_app. simpl. split; [lia|done].
  - run. rewrite (proj2 (Z.eqb_eq _ count)) by lia. run. eapply Hyes; [done|lia].
Qed.

End routines.
