(* ===== verification/HeapSpec.v ===== *)
(** * What the kernel heap guarantees

    The invariant of kernel/mm/heap.c between calls, its preservation by
    [heap_init], [kmalloc], [kfree] and [heap_get_stats], and the guarantees
    clients rely on: fresh, aligned, disjoint payloads whose contents survive
    every other call, exact release, and coalescing. *)

From S2P Require Import Prelude Monad Interfaces Cpu Heap HeapProofs.
Import Heap.

Section spec.
Context {P : Type} `{!PageMapper P}.
Implicit Types s : state P.

(** ** The heap invariant *)

Record inv (s : state P) (l : list blk) : Prop := {
  inv_initialized : heap_initialized s = true;
  inv_pager : pm_inv (pager s);
  inv_cpu : Cpu.wf (cpu s);
  inv_head : heap_head s = HEAP_VIRTUAL_START;
  inv_pages : 1 <= heap_mapped_pages s <= 4096;
  inv_end : heap_end s = HEAP_VIRTUAL_START + heap_mapped_pages s * 4096;
  inv_mapped : forall i, 0 <= i < heap_mapped_pages s ->
    is_Some (pm_mapped (pager s) (HEAP_VIRTUAL_START + i * 4096));
  inv_unmapped : forall i, heap_mapped_pages s <= i < 4096 ->
    pm_mapped (pager s) (HEAP_VIRTUAL_START + i * 4096) = None;
  inv_blocks : blocks (words s) s l;
  inv_nonempty : l <> [];
  inv_packed : packed l
}.

Lemma accessible_mapped s a i :
  a mod 4 = 0 -> a / 4096 * 4096 = HEAP_VIRTUAL_START + i * 4096 ->
  is_Some (pm_mapped (pager s) (HEAP_VIRTUAL_START + i * 4096)) -> accessible s a = true.
Proof. intros H4 Hp [f Hf]. unfold accessible, PAGE_SIZE. rewrite Hp, Hf. lia. Qed.

Lemma inv_geo s l : inv s l -> geo s.
Proof.
  intros [_ _ _ Hh Hp He Hm _ _ _ _]. split; [done|heap_lia|]. intros a Ha H4.
  apply (accessible_mapped s a ((a - HEAP_VIRTUAL_START) / 4096)); [done|heap_lia|].
  apply Hm. heap_lia.
Qed.

(** The word changes of the list routines keep everything else. *)
Lemma inv_set_words s l w l' :
  inv s l -> blocks w s l' -> l' <> [] -> packed l' -> inv (set_words w s) l'.
Proof. intros [] ? ? ?. by split. Qed.

Lemma inv_set_cpu s l c : inv s l -> Cpu.wf c -> inv (set_cpu c s) l.
Proof. intros [] ?. by split. Qed.

(** Growing by mapped pages: the last block of the list before and after. *)
Definition grow_list (l : list blk) (n : Z) : list blk :=
  match last l with
  | Some (sz, true) => removelast l ++ [(sz + n * 4096, true)]
  | _ => l ++ [(n * 4096 - 24, true)]
  end.

Lemma grow_list_free l sz n : grow_list (l ++ [(sz, true)]) n = l ++ [(sz + n * 4096, true)].
Proof. unfold grow_list. by rewrite last_snoc, removelast_last. Qed.

Lemma grow_list_used l sz n :
  grow_list (l ++ [(sz, false)]) n = l ++ [(sz, false); (n * 4096 - 24, true)].
Proof. unfold grow_list. rewrite last_snoc. by rewrite <-app_assoc. Qed.

Definition extend_state (p : P) (n : Z) (s : state P) : state P :=
  State p (cpu s) (words s) (heap_head s) (heap_end s + n * 4096)
    (heap_mapped_pages s + n) (heap_initialized s).

Lemma extend_geo s l p fs n :
  inv s l -> extended (pager s) (heap_end s) fs p -> Z.of_nat (length fs) = n ->
  heap_mapped_pages s + n <= 4096 ->
  (forall i, 0 <= i < heap_mapped_pages s + n -> is_Some (pm_mapped p (HEAP_VIRTUAL_START + i * 4096))) /\
  (forall i, heap_mapped_pages s + n <= i < 4096 -> pm_mapped p (HEAP_VIRTUAL_START + i * 4096) = None) /\
  geo (extend_state p n s).
Proof.
  intros Hinv [Hi Hpg _ Hoth _] Hlen Hn.
  pose proof (inv_end _ _ Hinv) as He. pose proof (inv_pages _ _ Hinv) as Hp.
  assert (Hm : forall i, 0 <= i < heap_mapped_pages s + n ->
    is_Some (pm_mapped p (HEAP_VIRTUAL_START + i * 4096))).
  { intros i Hi'. destruct (Z.lt_ge_cases i (heap_mapped_pages s)).
    - rewrite Hoth; [apply (inv_mapped _ _ Hinv); lia| |intros; lia].
      unfold client_page, page_aligned. heap_lia.
    - destruct (lookup_lt_is_Some_2 fs (Z.to_nat (i - heap_mapped_pages s))) as [f Hf]; [lia|].
      exists f. destruct (Hpg _ _ Hf) as [<- _]. f_equal. lia. }
  split; [done|]. split.
  - intros i Hi'. rewrite Hoth; [apply (inv_unmapped _ _ Hinv); lia| |intros; lia].
    unfold client_page, page_aligned. heap_lia.
  - split; simpl; [apply (inv_head _ _ Hinv)|heap_lia|]. intros a Ha H4.
    apply (accessible_mapped (extend_state p n s) a ((a - HEAP_VIRTUAL_START) / 4096)); [done|heap_lia|].
    apply Hm. heap_lia.
Qed.

(** The list after the tail has taken the new pages in. *)
Lemma blocks_grow_free w w' s l1 sz n :
  blocks w s (l1 ++ [(sz, true)]) -> 0 <= n ->
  (forall x, x <> HEAP_VIRTUAL_START + span l1 + 4 -> w' !! x = w !! x) ->
  w' !! (HEAP_VIRTUAL_START + span l1 + 4) = Some (sz + n * 4096) ->
  forall p, blocks w' (extend_state p n s) (l1 ++ [(sz + n * 4096, true)]).
Proof.
  intros Hb Hn Hsame Hsz p. apply blocks_split in Hb as (Hlo & [] & ? & ? & Hhi).
  apply blocks_split. cbv zeta. split; [|split; [|split; [lia|split; [word_lia|]]]].
  - eapply seg_frame; [|exact Hlo]. intros. apply Hsame. lia.
  - constructor; try (rewrite Hsame by lia; done). done.
  - simpl in *. lia.
Qed.

Lemma blocks_grow_used w w' s l1 sz n p :
  blocks w s (l1 ++ [(sz, false)]) -> 1 <= n ->
  let a := HEAP_VIRTUAL_START + span l1 in
  (forall x, x < heap_end s -> x <> a + 12 -> w' !! x = w !! x) ->
  w' !! (a + 12) = Some (heap_end s) ->
  hdr w' (heap_end s) (n * 4096 - 24) a 0 true ->
  blocks w' (extend_state p n s) (l1 ++ [(sz, false); (n * 4096 - 24, true)]).
Proof.
  intros Hb Hn a Hsame Hnext Hnew. pose proof (blocks_at _ _ _ _ _ _ Hb) as Hat.
  simpl in Hat. fold a in Hat.
  apply blocks_split in Hb as (Hlo & [] & ? & ? & Hhi). fold a in Hhi. simpl in Hhi.
  apply blocks_split. cbv zeta. fold a. simpl next_ptr. rewrite Hhi.
  split; [|split; [|split; [lia|split; [word_lia|]]]].
  - eapply seg_frame; [|exact Hlo]. intros. apply Hsame; lia.
  - constructor; try (rewrite Hsame by lia; done). done.
  - simpl. split; [done|]. split; [lia|]. split; [word_lia|]. lia.
Qed.

Definition last_fits (size : Z) (l : list blk) : Prop :=
  exists l1 sz, l = l1 ++ [(sz, true)] /\ size <= sz.

Lemma inv_extend s l p fs n w l' :
  inv s l -> extended (pager s) (heap_end s) fs p -> Z.of_nat (length fs) = n -> 1 <= n ->
  heap_mapped_pages s + n <= 4096 -> blocks w (extend_state p n s) l' -> l' <> [] -> packed l' ->
  inv (set_words w (extend_state p n s)) l'.
Proof.
  intros Hinv Hext Hlen Hn Hmax Hb Hne Hpk.
  destruct (extend_geo s l p fs n) as (Hm & Hu & Hg); [done..|]. destruct Hinv.
  split; simpl; try done; [apply Hext|lia|lia].
Qed.

Lemma packed_resize_last l sz sz' fr : packed (l ++ [(sz, fr)]) -> packed (l ++ [(sz', fr)]).
Proof.
  induction l as [|[x f] l IH]; [done|]. simpl. intros [Hf Hp].
  split; [by destruct f, l as [|[? []] ?]|by apply IH].
Qed.

Lemma packed_grow_used l sz y : packed (l ++ [(sz, false)]) -> packed (l ++ [(sz, false); (y, true)]).
Proof.
  induction l as [|[x f] l IH]; [done|]. simpl. intros [Hf Hp].
  split; [by destruct f, l as [|[? []] ?]|by apply IH].
Qed.

Lemma extend_heap_ok s l1 sz fr required size (Q : bool -> state P -> Prop) :
  inv s (l1 ++ [(sz, fr)]) -> 1 <= required <= HEAP_MAX_SIZE ->
  size <= (if fr then sz + required else required - 24) ->
  (forall p, extended (pager s) (heap_end s) [] p -> Q false (set_pager p s)) ->
  (forall p n w', 1 <= n -> let s' := set_words w' (extend_state p n s) in
     let l' := grow_list (l1 ++ [(sz, fr)]) n in
     inv s' l' -> same_use (l1 ++ [(sz, fr)]) (words s) w' -> last_fits size l' -> Q true s') ->
  wp (extend_heap (HEAP_VIRTUAL_START + span l1) (heap_mapped_pages s *u PAGE_SIZE)
        (heap_end s) required) s Q.
Proof.
  intros Hinv Hreq Hfit Hno Hyes. unfold extend_heap.
  pose proof (inv_pages _ _ Hinv) as Hp. pose proof (inv_end _ _ Hinv) as He.
  replace ((HEAP_MAX_SIZE -u (heap_mapped_pages s *u PAGE_SIZE)) / PAGE_SIZE)
    with (4096 - heap_mapped_pages s) by heap_lia.
  set (n := (required +u PAGE_SIZE -u 1) / PAGE_SIZE).
  assert (1 <= n /\ required <= n * 4096 /\ n <= 4096) as (Hn & Hnreq & Hn2) by (subst n; heap_lia).
  destruct (Z.ltb_spec (4096 - heap_mapped_pages s) n) as [Hlt|Hge]; run.
  { rewrite <-(set_words_words s) at 1.
    apply (Hno (pager s)), ext_nil; [apply Hinv|done|done]. }
  eapply map_extension_ok; [apply Hinv|unfold growable; heap_lia| | |].
  { intros i Hi. replace (heap_end s + i * 4096)
      with (HEAP_VIRTUAL_START + (heap_mapped_pages s + i) * 4096) by lia.
    apply Hinv. lia. }
  { intros p Hext. run. by apply Hno. }
  intros fs p Hext Hlen. run.
  replace (State _ _ _ _ _ _ _) with (set_words (words s) (extend_state p n s)).
  2:{ unfold extend_state, set_words. simpl. f_equal; heap_lia. }
  destruct (extend_geo _ _ _ _ _ Hinv Hext Hlen ltac:(lia)) as (_ & _ & Hg).
  pose proof (geo_end _ Hg) as Hge2. simpl in Hge2.
  pose proof (inv_blocks _ _ Hinv) as Hb.
  pose proof (blocks_at _ _ _ _ _ _ Hb) as (Hh & ? & ? & ? & ? & Hend & _ & _). destruct Hh.
  simpl in Hend. assert (heap_end (extend_state p n s) = heap_end s + n * 4096) as Hend' by done.
  pose proof (inv_packed _ _ Hinv) as Hpk.
  ld. rewrite state_word_free. destruct fr; run.
  - ld. run. st. run. replace (sz +u (n *u PAGE_SIZE)) with (sz + n * 4096) by heap_lia.
    apply Hyes; rewrite ?grow_list_free; [done| | |].
    + eapply inv_extend; [done|done|done|done|lia| |by destruct l1|].
      * eapply blocks_grow_free; [done|lia|intros; lookup_words|lookup_words].
      * by eapply packed_resize_last.
    + apply (same_use_local _ _ s l1 [(sz, true)] []); simpl;
        [done|by repeat constructor|intros; lookup_words..].
    + exists l1, (sz + n * 4096). split; [done|lia].
  - unfold initialize_block. run. do 6 (st; run). st. run.
    replace ((n *u PAGE_SIZE) -u sizeof_heap_block) with (n * 4096 - 24) by heap_lia.
    apply Hyes; rewrite ?grow_list_used; [done| | |].
    + eapply inv_extend; [done|done|done|done|lia| |by destruct l1|].
      * eapply blocks_grow_used; [done|lia|intros; lookup_words|lookup_words|constructor; lookup_words].
      * by apply packed_grow_used.
    + intros x Hx. rewrite in_use_app in Hx. simpl in Hx.
      assert (x <> HEAP_VIRTUAL_START + span l1 + 12 /\ x < heap_end s) as [? ?].
      { apply seg_app in Hb as (Hb1 & _). destruct Hx as [Hx|[[_ Hx]|[]]]; [|lia].
        eapply in_use_range in Hx; [|exact Hb1]. lia. }
      lookup_words.
    + exists (l1 ++ [(sz, false)]), (n * 4096 - 24). rewrite <-app_assoc. split; [done|lia].
Qed.

Lemma last_not_fit size l1 sz : too_small size (l1 ++ [(sz, true)]) -> sz < size.
Proof.
  intros H. apply Forall_app in H as [_ H]. apply Forall_cons_1 in H as [H _].
  unfold fits in H. simpl in H. lia.
Qed.

Lemma grow_heap_ok s l size (Q : bool -> state P -> Prop) :
  inv s l -> too_small size l -> 8 <= size <= HEAP_MAX_SIZE - 24 ->
  (forall p, extended (pager s) (heap_end s) [] p -> Q false (set_pager p s)) ->
  (forall p n w', 1 <= n -> let s' := set_words w' (extend_state p n s) in
     inv s' (grow_list l n) -> same_use l (words s) w' -> last_fits size (grow_list l n) ->
     Q true s') ->
  wp (grow_heap size) s Q.
Proof.
  intros Hinv Hsmall Hsize Hno Hyes. pose proof (inv_geo _ _ Hinv) as Hg.
  pose proof (geo_end _ Hg). pose proof (inv_blocks _ _ Hinv) as Hb.
  unfold grow_heap. run. rewrite <-(set_words_words s).
  eapply heap_tail_ok; [done|exact Hb|apply Hinv|]. intros l1 sz fr ->.
  pose proof (blocks_at _ _ _ _ _ _ Hb) as (Hh & ? & ? & ? & ? & Hend & _ & _). destruct Hh.
  simpl in Hend. run. ld. rewrite state_word_free. destruct fr; run.
  - apply last_not_fit in Hsmall. ld. rewrite (proj2 (Z.leb_gt _ _)) by lia.
    rewrite set_words_words. eapply (extend_heap_ok _ _ _ _ _ size); [done|heap_lia|heap_lia|done|done].
  - if_false. rewrite set_words_words.
    eapply (extend_heap_ok _ _ _ _ _ size); [done|heap_lia|heap_lia|done|done].
Qed.

(** ** Allocation *)

Lemma align_request_some size n :
  0 <= size < 4294967296 -> align_request size = Some n ->
  8 <= n <= HEAP_MAX_SIZE - 24 /\ n mod 8 = 0 /\ size <= n < size + 8.
Proof.
  intros Hs. unfold align_request.
  change (not32 (HEAP_ALIGNMENT - 1)) with (2 ^ 32 - 2 ^ 3).
  rewrite land_high_mask by heap_lia. change (2 ^ 3) with 8.
  change (HEAP_ALIGNMENT - 1) with 7. change (sizeof_heap_block) with 24.
  destruct ((size =? 0) || (UINT32_MAX - 7 <? size)) eqn:E; [done|].
  destruct (HEAP_MAX_SIZE - 24 <? _) eqn:E2; [done|]. intros [= <-]. heap_lia.
Qed.

(** The entry points run their body with interrupts masked. *)
Definition masked_state (s : state P) : state P := set_cpu (Cpu.masked (cpu s)) s.

Lemma locked_ok {A} s (body : M (state P) A) (Q : A -> state P -> Prop) :
  Cpu.wf (cpu s) ->
  wp body (masked_state s) (fun a s' => cpu s' = Cpu.masked (cpu s) /\ Q a (set_cpu (cpu s) s')) ->
  wp (let! flags := zoom Cpu.irq_save_disable in
      let! result := body in zoom (Cpu.irq_restore flags) ;; ret result) s Q.
Proof.
  intros Hc Hbody. apply wp_bind, wp_zoom, Cpu.irq_save_disable_wp. apply wp_bind.
  eapply wp_mono; [exact Hbody|]. intros a s' [Hcpu HQ]. apply wp_bind, wp_zoom. simpl.
  rewrite Hcpu. apply Cpu.irq_restore_wp; [done|]. by apply wp_ret.
Qed.

Lemma packed_split l1 sz n l2 :
  packed (l1 ++ (sz, true) :: l2) -> packed (l1 ++ split_list sz n false ++ l2).
Proof.
  induction l1 as [|[x f] l1 IH]; simpl.
  - intros [Hh Hp]. unfold split_list. destruct (_ <? _); [done|]. simpl in *. done.
  - intros [Hf Hp]. split; [|by apply IH]. destruct l1; simpl in *; [|done].
    destruct f; [done|]. done.
Qed.

(** What [kmalloc] did when it returns a block: [l0] is the list it searched,
    the old one or the old one after a growth. *)
Definition searched (n : Z) (l l0 : list blk) : Prop :=
  l0 = l \/ (too_small n l /\ exists k, 1 <= k /\ l0 = grow_list l k).

Lemma take_block_ok s w l1 sz l2 n (Q : Z -> state P -> Prop) :
  geo s -> blocks w s (l1 ++ (sz, true) :: l2) -> 8 <= n <= sz -> n mod 8 = 0 ->
  (forall w', blocks w' s (l1 ++ split_list sz n false ++ l2) ->
     same_use (l1 ++ (sz, true) :: l2) w w' ->
     Q (HEAP_VIRTUAL_START + span l1 + 24) (set_words w' s)) ->
  wp (take_block (HEAP_VIRTUAL_START + span l1) n) (set_words w s) Q.
Proof.
  intros Hg Hb Hn Hal HQ. pose proof (geo_end _ Hg).
  pose proof (blocks_at _ _ _ _ _ _ Hb) as (_ & ? & ? & ? & ? & Hend & ? & ?). unfold take_block. run.
  eapply split_block_ok; [done|done|done|done|]. intros w1 Hb1 Hl1 Hr1. run.
  change HEAP_STATE_ALLOCATED with (state_word false).
  assert (exists sz1 rest, split_list sz n true = (sz1, true) :: rest /\
    split_list sz n false = (sz1, false) :: rest) as (sz1 & rest & E1 & E2)
    by (unfold split_list; destruct (_ <? _); eauto).
  rewrite E1 in Hb1. rewrite E2 in HQ. simpl in Hb1, HQ.
  eapply set_state_ok; [done|done|]. intros w2 Hb2 Hw2. run.
  replace (payload_address (HEAP_VIRTUAL_START + span l1))
    with (HEAP_VIRTUAL_START + span l1 + 24) by heap_lia.
  apply HQ; [done|].
  apply (same_use_local w w2 s l1 [(sz, true)] l2); simpl;
    [done|by repeat constructor|intros..]; rewrite Hw2 by lia; [apply Hl1|apply Hr1]; lia.
Qed.

Lemma extended_nil_inv s l p start : inv s l -> extended (pager s) start [] p -> inv (set_pager p s) l.
Proof.
  intros Hinv [Hi _ _ Ho _]. pose proof (inv_pages _ _ Hinv). destruct Hinv.
  split; simpl; try done; intros.
  - rewrite Ho; [eauto| |intros; simpl in *; lia]. unfold client_page, page_aligned. heap_lia.
  - rewrite Ho; [eauto| |intros; simpl in *; lia]. unfold client_page, page_aligned. heap_lia.
Qed.

(** The outcome of an allocation of [n] aligned bytes. *)
Definition malloc_post (s : state P) (l : list blk) (n : Z) (p : Z) (s' : state P) : Prop :=
  (p = NULL /\ too_small n l /\ inv s' l /\ words s' = words s /\
   heap_mapped_pages s' = heap_mapped_pages s /\
   forall b, pm_held (pager s') b <-> pm_held (pager s) b) \/
  (exists l0 l1 sz l2, searched n l l0 /\ l0 = l1 ++ (sz, true) :: l2 /\ too_small n l1 /\ n <= sz /\
   p = HEAP_VIRTUAL_START + span l1 + 24 /\
   inv s' (l1 ++ split_list sz n false ++ l2) /\ same_use l (words s) (words s')).

Lemma in_use_grow a l k x : in_use a l x -> in_use a (grow_list l k) x.
Proof.
  destruct l as [|[sz fr] l _] using rev_ind; [done|].
  destruct fr; rewrite ?grow_list_free, ?grow_list_used, !in_use_app; simpl; [|tauto].
  intros [?|[[? _]|[]]]; [tauto|done].
Qed.

Lemma last_fits_not_small size l : last_fits size l -> ~ too_small size l.
Proof. intros (l1 & sz & -> & Hsz) H. apply last_not_fit in H. lia. Qed.

Lemma inv_masked s l : inv s l -> inv (masked_state s) l.
Proof. intros H. apply inv_set_cpu; [done|]. apply Cpu.masked_wf, H. Qed.

Lemma kmalloc_ok s l size :
  inv s l -> 0 <= size < 4294967296 ->
  wp (kmalloc size) s (fun p s' => cpu s' = cpu s /\
    match align_request size with
    | None => p = NULL /\ s' = s
    | Some n => malloc_post s l n p s'
    end).
Proof.
  intros Hinv Hsize. pose proof (inv_cpu _ _ Hinv) as Hcpu. apply locked_ok; [done|].
  apply inv_masked in Hinv. run. rewrite (inv_initialized _ _ Hinv). run.
  destruct (align_request size) as [n|] eqn:Ea.
  2:{ run. split; [done|]. split; [done|]. split; [done|]. by destruct s. }
  apply align_request_some in Ea as (Hn & Hal & _); [|done].
  pose proof (inv_geo _ _ Hinv) as Hg. pose proof (inv_blocks _ _ Hinv) as Hb.
  rewrite <-(set_words_words (masked_state s)). run.
  eapply find_first_fit_ok; [done|done|apply Hinv| |].
  - intros Hsmall. change (NULL =? NULL) with true. run. rewrite set_words_words.
    eapply grow_heap_ok; [done|done|done| |].
    + intros p Hext. run. split; [done|]. split; [done|]. left.
      split; [done|]. split; [done|]. pose proof (extended_nil_inv _ _ _ _ Hinv Hext) as Hinv'.
      split; [by apply inv_set_cpu|]. split; [done|]. split; [done|].
      intros b. rewrite (ext_held _ _ _ _ Hext). simpl.
      split; [|tauto]. by intros [|[]%elem_of_nil].
    + intros p k w' Hk s1 Hinv1 Huse Hlast. run.
      pose proof (inv_geo _ _ Hinv1) as Hg1. pose proof (inv_blocks _ _ Hinv1) as Hb1.
      pose proof (geo_end _ Hg1).
      rewrite <-(set_words_words s1). eapply find_first_fit_ok; [done|done|apply Hinv1| |].
      { intros Hsm. by apply last_fits_not_small in Hlast. }
      intros l1 sz l2 El Hl1 Hsz. rewrite El in Hb1.
      pose proof (blocks_at _ _ _ _ _ _ Hb1) as (_ & ? & ? & ? & ? & _ & _ & _).
      rewrite (proj2 (Z.eqb_neq _ NULL)) by heap_lia.
      eapply take_block_ok; [done|done|lia|done|]. intros w2 Hb2 Huse2.
      split; [done|]. split; [done|]. right. exists (grow_list l k), l1, sz, l2.
      repeat (split; [try done; right; eauto|]). split.
      * apply inv_set_cpu; [|done]. apply (inv_set_words s1 (grow_list l k)); [done|done| |].
        { unfold split_list. by destruct (_ <? _), l1. }
        apply packed_split. rewrite <-El. apply Hinv1.
      * intros x Hx. simpl. rewrite Huse2; [apply Huse; done|]. rewrite <-El.
        by apply in_use_grow.
  - intros l1 sz l2 El Hl1 Hsz. rewrite El in Hb. pose proof (geo_end _ Hg).
    pose proof (blocks_at _ _ _ _ _ _ Hb) as (_ & ? & ? & ? & ? & _ & _ & _).
    rewrite (proj2 (Z.eqb_neq _ NULL)) by heap_lia.
    eapply take_block_ok; [done|done|lia|done|]. intros w2 Hb2 Huse2.
    split; [done|]. split; [done|]. right. exists l, l1, sz, l2.
    repeat (split; [try done; left; eauto|]). split; [|by rewrite El].
    apply inv_set_cpu; [|done]. apply (inv_set_words (masked_state s) l); [done|done| |].
    { unfold split_list. by destruct (_ <? _), l1. }
    apply packed_split. rewrite <-El. apply Hinv.
Qed.

(** ** Release *)

Definition payload_at (l : list blk) (p : Z) : Prop :=
  exists l1 b l2, l = l1 ++ b :: l2 /\ p = HEAP_VIRTUAL_START + span l1 + 24.

(** [p] is what [kmalloc] returned for a block still allocated. *)
Definition allocated_at (l : list blk) (p : Z) : Prop :=
  exists l1 sz l2, l = l1 ++ (sz, false) :: l2 /\ p = HEAP_VIRTUAL_START + span l1 + 24.

Lemma payload_at_snoc l b p :
  payload_at (l ++ [b]) p -> payload_at l p \/ p = HEAP_VIRTUAL_START + span l + 24.
Proof.
  intros (l1 & c & l2 & E & ->). destruct l2 as [|d l2 _] using rev_ind.
  - apply app_inj_tail in E as [-> _]. by right.
  - left. rewrite app_comm_cons, app_assoc in E. apply app_inj_tail in E as [-> _].
    by exists l1, c, l2.
Qed.

Lemma allocated_at_payload l p : allocated_at l p -> payload_at l p.
Proof. intros (l1 & sz & l2 & -> & ->). by exists l1, (sz, false), l2. Qed.

Lemma allocated_at_range w (s : state P) l p :
  blocks w s l -> allocated_at l p ->
  HEAP_VIRTUAL_START + 24 <= p < heap_end s /\ p mod 8 = 0 /\
  w !! (p - 8) = Some HEAP_STATE_ALLOCATED.
Proof.
  intros Hb (l1 & sz & l2 & -> & ->).
  apply blocks_at in Hb as ([] & ? & ? & ? & ? & Hend & ? & ?).
  split; [heap_lia|]. split; [heap_lia|].
  by replace (HEAP_VIRTUAL_START + span l1 + 24 - 8) with (HEAP_VIRTUAL_START + span l1 + 16) by lia.
Qed.

Lemma compact_nonempty l1 sz l2 : compact (l1 ++ (sz, true) :: l2) <> [].
Proof.
  destruct l1 as [|[x []] l1]; simpl; [|destruct (compact _) as [|[? []] ?]; done|done].
  by destruct (compact l2) as [|[? []] ?].
Qed.

(** The outcome of a release. *)
Definition free_post (s : state P) (l : list blk) (p : Z) (ok : bool) (s' : state P) : Prop :=
  if ok then
    exists l1 sz l2, l = l1 ++ (sz, false) :: l2 /\ p = HEAP_VIRTUAL_START + span l1 + 24 /\
      inv s' (compact (l1 ++ (sz, true) :: l2)) /\
      same_use (l1 ++ (sz, true) :: l2) (words s) (words s')
  else s' = s /\ ~ allocated_at l p.

Lemma release_ok {A} (r : A) s w l1 sz l2 (Q : A -> state P -> Prop) :
  geo s -> blocks w s (l1 ++ (sz, false) :: l2) -> packed (l1 ++ (sz, false) :: l2) ->
  (forall w', blocks w' s (compact (l1 ++ (sz, true) :: l2)) ->
     same_use (l1 ++ (sz, true) :: l2) w w' -> Q r (set_words w' s)) ->
  wp (set_state (HEAP_VIRTUAL_START + span l1) HEAP_STATE_FREE ;;
      coalesce (HEAP_VIRTUAL_START + span l1) ;; ret r) (set_words w s) Q.
Proof.
  intros Hg Hb Hpk HQ. run. change HEAP_STATE_FREE with (state_word true).
  eapply set_state_ok; [done|done|]. intros w1 Hb1 Hw1. run.
  eapply coalesce_ok; [done|done|]. intros r' w2 Hb2 Hu2. run.
  rewrite join_left_compact in Hb2 by done. apply HQ; [done|].
  intros x Hx. rewrite Hu2 by done. apply Hw1. intros ->.
  apply (in_use_free _ l1 [(sz, true)] l2) in Hx; [|by repeat constructor]. simpl in Hx.
  apply seg_app in Hb as (Hlo & _ & ? & _ & Hhi). destruct Hx as [Hx|Hx].
  - eapply in_use_range in Hx; [|exact Hlo]. lia.
  - replace (HEAP_VIRTUAL_START + span l1 + (24 + sz + 0))
      with (HEAP_VIRTUAL_START + span l1 + 24 + sz) in Hx by lia.
    eapply in_use_range in Hx; [|exact Hhi]. lia.
Qed.

Lemma kfree_ok s l p :
  inv s l -> 0 <= p < 4294967296 ->
  wp (kfree p) s (fun ok s' => cpu s' = cpu s /\
    if p =? NULL then ok = true /\ s' = s else free_post s l p ok s').
Proof.
  intros Hinv Hp. pose proof (inv_cpu _ _ Hinv) as Hcpu. apply locked_ok; [done|].
  assert (set_cpu (cpu s) (masked_state s) = s) as Hback by (by destruct s).
  apply inv_masked in Hinv. destruct (p =? NULL) eqn:Ep.
  { run. by rewrite Hback. }
  pose proof (inv_blocks _ _ Hinv) as Hb. pose proof (inv_geo _ _ Hinv) as Hg.
  run. rewrite (inv_initialized _ _ Hinv). run.
  destruct (_ || _) eqn:Erange.
  { run. split; [done|]. split; [done|]. rewrite Hback. split; [done|].
    intros Ha. eapply allocated_at_range in Ha as (? & ? & _); [|done].
    change (HEAP_ALIGNMENT - 1) with 7 in Erange. rewrite land_low_7 in Erange. heap_lia. }
  run. rewrite <-(set_words_words (masked_state s)).
  eapply (wp_walk (fun l1 l2 x => x = cursor l1 l2 /\ ~ payload_at l1 p)); [done| |].
  { split; [apply cursor_start; [done|apply Hinv]|]. intros (l1 & b & l2 & E & _). by destruct l1. }
  intros l1 [|[sz fr] l2] x El [-> Hno].
  { run. split; [done|]. split; [done|]. rewrite set_words_words, Hback. split; [done|].
    rewrite El, app_nil_r. by intros ?%allocated_at_payload. }
  rewrite El in Hb. pose proof (geo_end _ Hg).
  pose proof (blocks_at _ _ _ _ _ _ Hb) as (Hh & ? & ? & ? & ? & Hend & ? & ?). destruct Hh.
  rewrite cursor_cons, (proj2 (Z.eqb_neq _ NULL)) by heap_lia. run.
  eapply validate_block_ok; [done..|].
  replace (payload_address (HEAP_VIRTUAL_START + span l1))
    with (HEAP_VIRTUAL_START + span l1 + 24) by heap_lia.
  destruct (Z.eqb_spec (HEAP_VIRTUAL_START + span l1 + 24) p) as [<-|Hne]; run.
  - ld. rewrite state_word_allocated. destruct fr; cbn [negb].
    + run. split; [done|]. split; [done|]. rewrite set_words_words, Hback. split; [done|].
      rewrite El. intros Ha. eapply allocated_at_range in Ha as (_ & _ & Ha); [|done].
      replace (HEAP_VIRTUAL_START + span l1 + 24 - 8) with (HEAP_VIRTUAL_START + span l1 + 16) in Ha by lia.
      by rewrite h_state0 in Ha.
    + pose proof (inv_packed _ _ Hinv) as Hpk. rewrite El in Hpk.
      eapply release_ok; [done..|]. intros w2 Hb2 Hu2. split; [done|]. split; [done|].
      exists l1, sz, l2. split; [done|]. split; [done|]. split; [|done].
      apply inv_set_cpu; [|done]. eapply inv_set_words; [exact Hinv|done| |].
      * apply compact_nonempty.
      * apply compact_is_packed.
  - ld. split; [done|]. exists (sz, fr), l2. split; [done|]. split; [apply cursor_next|].
    intros [?|?]%payload_at_snoc; [done|]. congruence.
Qed.

(** ** Statistics *)

Fixpoint sum_sizes (fr : bool) (l : list blk) : Z :=
  match l with
  | [] => 0
  | (sz, f) :: l' => (if Bool.eqb f fr then sz else 0) + sum_sizes fr l'
  end.
Fixpoint count_blocks (fr : bool) (l : list blk) : Z :=
  match l with
  | [] => 0
  | (_, f) :: l' => (if Bool.eqb f fr then 1 else 0) + count_blocks fr l'
  end.

Definition stats_of (pages : Z) (l : list blk) : heap_stats :=
  HeapStats pages (count_blocks false l) (count_blocks true l) (sum_sizes false l) (sum_sizes true l).

Lemma sum_sizes_snoc fr l sz f :
  sum_sizes fr (l ++ [(sz, f)]) = sum_sizes fr l + if Bool.eqb f fr then sz else 0.
Proof. induction l as [|[x g] l IH]; simpl; [lia|]. rewrite IH. lia. Qed.

Lemma count_blocks_snoc fr l sz f :
  count_blocks fr (l ++ [(sz, f)]) = count_blocks fr l + if Bool.eqb f fr then 1 else 0.
Proof. induction l as [|[x g] l IH]; simpl; [lia|]. rewrite IH. lia. Qed.

Lemma stats_span l :
  24 * count_blocks false l + 24 * count_blocks true l + sum_sizes false l + sum_sizes true l = span l.
Proof. induction l as [|[sz []] l IH]; simpl; lia. Qed.

Lemma stats_nonneg w prev a l nxt e fr :
  seg w prev a l nxt e -> 0 <= sum_sizes fr l /\ 0 <= count_blocks fr l.
Proof.
  revert prev a. induction l as [|[sz f] l IH]; simpl; intros prev a; [done|].
  intros (_ & ? & _ & [? ?]%IH). destruct (Bool.eqb f fr); lia.
Qed.

(** [heap_get_stats] changes nothing, reports the mapped pages and the
    numbers and payload bytes of allocated and free blocks, and with one
    24-byte header per block these add up to the mapped region. *)
Theorem heap_stats_exact s l :
  inv s l ->
  wp heap_get_stats s (fun st s' => s' = s /\ st = stats_of (heap_mapped_pages s) l /\
    mapped_pages st * 4096 = 24 * (allocated_blocks st + free_blocks st) +
      allocated_bytes st + free_bytes st).
Proof.
  intros Hinv.
  assert (heap_mapped_pages s * 4096 = 24 * (count_blocks false l + count_blocks true l) +
    sum_sizes false l + sum_sizes true l) as Htotal.
  { pose proof (stats_span l). pose proof (inv_end _ _ Hinv).
    pose proof (seg_end _ _ _ _ _ _ (inv_blocks _ _ Hinv)). lia. } pose proof (inv_cpu _ _ Hinv) as Hcpu.
  assert (set_cpu (cpu s) (masked_state s) = s) as Hback by (by destruct s).
  apply inv_masked in Hinv. unfold heap_get_stats.
  apply wp_bind, wp_zoom, Cpu.irq_save_disable_wp. fold (masked_state s).
  change (lset (Cpu.masked (lget s)) s) with (masked_state s).
  pose proof (inv_blocks _ _ Hinv) as Hb. pose proof (inv_geo _ _ Hinv) as Hg.
  run. rewrite (inv_initialized _ _ Hinv). run.
  rewrite <-(set_words_words (masked_state s)).
  eapply (wp_walk (fun l1 l2 x => x = (cursor l1 l2, stats_of (heap_mapped_pages s) l1))); [done| |].
  { f_equal. apply (cursor_start (masked_state s)); [done|apply Hinv]. }
  intros l1 [|[sz fr] l2] x El ->.
  { change (cursor l1 [] =? NULL) with true. run. rewrite set_words_words. apply Cpu.irq_restore_wp; [done|]. run.
    rewrite El, app_nil_r in *. done. }
  rewrite El in Hb. pose proof (geo_end _ Hg).
  pose proof (blocks_at _ _ _ _ _ _ Hb) as (Hh & ? & ? & ? & ? & Hend & ? & ?). destruct Hh.
  rewrite cursor_cons, (proj2 (Z.eqb_neq _ NULL)) by heap_lia. run.
  eapply validate_block_ok; [done..|]. run. ld. run. ld. run. ld. rewrite state_word_free.
  split; [done|]. exists (sz, fr), l2. split; [done|]. rewrite <-cursor_next. f_equal.
  apply seg_app in Hb as [Hlo _].
  pose proof (stats_nonneg _ _ _ _ _ _ true Hlo). pose proof (stats_nonneg _ _ _ _ _ _ false Hlo).
  pose proof (stats_span l1).
  unfold stats_of. rewrite !sum_sizes_snoc, !count_blocks_snoc.
  destruct fr; cbn [Bool.eqb]; f_equal; simpl; heap_lia.
Qed.

(** ** Initialisation *)

Lemma hdr_initialized w a sz prev next :
  hdr (<[a + 20 := 0]> (<[a + 16 := HEAP_STATE_FREE]> (<[a + 12 := next]> (<[a + 8 := prev]>
    (<[a + 4 := sz]> (<[a := HEAP_MAGIC]> w)))))) a sz prev next true.
Proof. constructor; lookup_words. Qed.

Definition no_page (msg : string) : Prop := msg = "heap initial page unavailable"%string.

(** On a pager that has none of the heap's pages mapped, [heap_init] sets
    up one page holding a single free block of 4072 bytes, or stops with the
    panic for a missing page; it never faults and maps nothing else. *)
Lemma heap_init_ok s :
  pm_inv (pager s) -> Cpu.wf (cpu s) -> heap_initialized s = false ->
  (forall i, 0 <= i < 4096 -> pm_mapped (pager s) (HEAP_VIRTUAL_START + i * 4096) = None) ->
  wpp no_page heap_init s (fun _ s' =>
    inv s' [(4072, true)] /\ heap_mapped_pages s' = 1 /\ cpu s' = cpu s).
Proof.
  intros Hi Hc Hn Hun. unfold heap_init. apply wpp_bind_wp. run. rewrite Hn.
  apply wpp_bind_wp. run. wp_apply (pm_alloc_ok (pager s)); [done|].
  intros f p1 (Hi1 & Hm1 & Hf). apply wpp_bind_wp. run.
  destruct Hf as [(-> & Hh1)|(Hf & Hfresh & Hh1)]; [done|].
  rewrite (proj2 (Z.eqb_neq f 0)) by (destruct Hf; lia). run.
  assert (client_page HEAP_VIRTUAL_START) as Hcl by (unfold client_page, page_aligned; heap_lia).
  wp_apply (pm_map_ok p1); [done|done|done|apply Hh1; tauto|rewrite Hm1; apply (Hun 0); lia|].
  intros ok p2 (Hi2 & Hh2 & Hm2). destruct ok; cbn [negb].
  2:{ apply wpp_bind_wp. run. wp_apply (pm_free_ok p2); [done|done|apply Hh2, Hh1; tauto|].
      by intros freed p3 (-> & _). }
  apply wpp_wp. run.
  set (s1 := State p2 (cpu s) (words s) HEAP_VIRTUAL_START (HEAP_VIRTUAL_START + 4096) 1 false).
  match goal with |- wp _ ?x _ => replace x with (set_words (words s) s1) end.
  2:{ unfold set_words, s1. simpl. by rewrite Hn. }
  assert (forall i, 0 <= i < 4096 -> pm_mapped p2 (HEAP_VIRTUAL_START + i * 4096) =
    if i =? 0 then Some f else None) as Hmap.
  { intros i Hi'. rewrite Hm2 by (unfold client_page, page_aligned; heap_lia). cbn [andb].
    destruct (Z.eqb_spec i 0) as [->|Hne]; [done|].
    rewrite (proj2 (Z.eqb_neq _ _)) by lia. rewrite Hm1. by apply Hun. }
  assert (geo s1) as Hg.
  { split; [done|simpl; heap_lia|]. simpl. intros a Ha H4.
    apply (accessible_mapped s1 a 0); [done|heap_lia|]. simpl. rewrite (Hmap 0) by lia. by exists f. }
  assert (heap_end s1 = HEAP_VIRTUAL_START + 4096) as Hend by done.
  unfold initialize_block. run. do 6 (st; run). split; [|done].
  split; simpl; try done.
  - intros i Hi'. replace i with 0 by lia. rewrite (Hmap 0) by lia. by exists f.
  - intros i Hi'. rewrite Hmap by lia. by rewrite (proj2 (Z.eqb_neq i 0)) by lia.
  - unfold blocks, seg. split; [apply hdr_initialized|]. done.
Qed.

(** ** Clients *)

(** Headers and payloads do not overlap: a client that writes any word of
    an allocated payload leaves the heap invariant and its block list intact. *)
Theorem client_write_safe s l x v :
  inv s l -> in_use HEAP_VIRTUAL_START l x -> inv (set_words (<[x := v]> (words s)) s) l.
Proof.
  intros Hinv Hx. eapply inv_set_words; [done| |apply Hinv|apply Hinv].
  pose proof (inv_blocks _ _ Hinv) as Hb. unfold blocks in *. revert Hb Hx.
  generalize (heap_end s) as e, HEAP_VIRTUAL_START as a, 0 at 1 3 as prev.
  clear. induction l as [|[sz fr] l IH]; [done|]. intros e a prev (Hh & Hsz & Hal & Hl) Hx.
  pose proof (in_use_range _ _ _ _ _ _ x Hl) as Hr. simpl in Hx.
  split; [|split; [done|split; [done|]]].
  - eapply hdr_frame; [|exact Hh]. intros y Hy. rewrite lookup_insert_ne; [done|].
    destruct Hx as [[_ Hx]|Hx]; [lia|]. specialize (Hr Hx). lia.
  - destruct Hx as [[_ Hx]|Hx]; [|by apply IH]. eapply seg_frame; [|exact Hl].
    intros y Hy. by rewrite lookup_insert_ne by lia.
Qed.

(** ** What clients rely on *)

Lemma in_use_compact a l x : in_use a (compact l) x <-> in_use a l x.
Proof.
  revert a. induction l as [|[sz []] l IH]; intros a; cbn [compact]; [done| |].
  - rewrite in_use_merge_list. simpl. by rewrite IH.
  - simpl. by rewrite IH.
Qed.

(** An allocated block adds its own payload and nothing else. *)
Lemma in_use_block w (s : state P) l1 sz l2 x :
  blocks w s (l1 ++ (sz, false) :: l2) ->
  let p := HEAP_VIRTUAL_START + span l1 + 24 in
  (in_use HEAP_VIRTUAL_START (l1 ++ (sz, false) :: l2) x <->
   in_use HEAP_VIRTUAL_START (l1 ++ (sz, true) :: l2) x \/ p <= x < p + sz) /\
  (in_use HEAP_VIRTUAL_START (l1 ++ (sz, true) :: l2) x -> ~ p <= x < p + sz).
Proof.
  intros Hb p. rewrite !in_use_app. simpl. apply seg_app in Hb as (Hlo & _ & ? & _ & Hhi).
  split; [intuition congruence|]. intros [Hx|[[? _]|Hx]]; [|done|].
  - eapply in_use_range in Hx; [|exact Hlo]. lia.
  - eapply in_use_range in Hx; [|exact Hhi]. lia.
Qed.

Lemma in_use_searched n l l0 x :
  searched n l l0 -> in_use HEAP_VIRTUAL_START l0 x <-> in_use HEAP_VIRTUAL_START l x.
Proof.
  intros [->|(_ & k & _ & ->)]; [done|]. split; [|apply in_use_grow].
  destruct l as [|[sz fr] l _] using rev_ind; [simpl; intuition congruence|].
  destruct fr; rewrite ?grow_list_free, ?grow_list_used, !in_use_app; simpl; intuition congruence.
Qed.

Lemma split_list_head sz n :
  exists sz1 rest, n <= sz -> n <= sz1 /\ split_list sz n false = (sz1, false) :: rest /\
    Forall (fun b => b.2 = true) rest /\ span ((sz1, false) :: rest) = 24 + sz.
Proof.
  unfold split_list. destruct (_ <? _); eexists _, _; intros ?;
    (split; [|split; [done|split; [by repeat constructor|simpl; lia]]]); lia.
Qed.

(** The block [kmalloc] handed out, in the list it leaves behind. *)
Lemma malloc_post_block s l n p s' :
  malloc_post s l n p s' -> p <> NULL ->
  exists l1 sz1 l2, inv s' (l1 ++ (sz1, false) :: l2) /\ n <= sz1 /\
    p = HEAP_VIRTUAL_START + span l1 + 24 /\
    (forall x, in_use HEAP_VIRTUAL_START (l1 ++ (sz1, true) :: l2) x <-> in_use HEAP_VIRTUAL_START l x) /\
    same_use l (words s) (words s').
Proof.
  intros [(-> & _)|(l0 & l1 & sz & l2 & Hse & -> & _ & Hn & -> & Hinv & Hu)] Hp; [done|].
  destruct (split_list_head sz n) as (sz1 & rest & H). destruct (H Hn) as (Hn1 & E & Hr & Hspan).
  rewrite E in Hinv. exists l1, sz1, (rest ++ l2). split; [done|]. split; [done|].
  split; [done|]. split; [|done]. intros x. rewrite <-(in_use_searched _ _ _ _ Hse).
  rewrite app_comm_cons. simpl in Hspan.
  assert (in_use HEAP_VIRTUAL_START (l1 ++ ((sz1, true) :: rest) ++ l2) x <->
          in_use HEAP_VIRTUAL_START (l1 ++ [(sz, true)] ++ l2) x) as ->; [|done].
  rewrite !in_use_free by (by repeat constructor). simpl.
  by replace (24 + sz1 + span rest) with (24 + sz + 0) by lia.
Qed.

(** C10. [kmalloc] keeps the heap well formed, restores the interrupt flag and
    every word of the allocated payloads. A pointer it returns is 8-byte
    aligned, is the payload of an allocated block, and its [size] bytes lie in
    allocated memory that no earlier allocation owns. It never panics. *)
Theorem kmalloc_fresh s l size :
  inv s l -> 0 <= size < 4294967296 ->
  wp (kmalloc size) s (fun p s' => cpu s' = cpu s /\ exists l', inv s' l' /\
    (forall x, in_use HEAP_VIRTUAL_START l x ->
       in_use HEAP_VIRTUAL_START l' x /\ words s' !! x = words s !! x) /\
    (p <> NULL -> p mod 8 = 0 /\ allocated_at l' p /\
       forall x, p <= x < p + size ->
         in_use HEAP_VIRTUAL_START l' x /\ ~ in_use HEAP_VIRTUAL_START l x)).
Proof.
  intros Hinv Hsize. eapply wp_mono; [by eapply kmalloc_ok|]. intros p s' [Hcpu Hpost].
  split; [done|]. destruct (align_request size) as [n|] eqn:Ea.
  2:{ destruct Hpost as [-> ->]. exists l. naive_solver. }
  apply align_request_some in Ea as (Hn & _ & Hsz); [|done].
  destruct (decide (p = NULL)) as [->|Hp].
  { destruct Hpost as [(_ & _ & Hinv' & -> & _)|(l0 & l1 & sz & l2 & _ & _ & _ & _ & E & Hinv' & _)].
    - exists l. naive_solver.
    - pose proof (inv_blocks _ _ Hinv') as Hb. apply seg_app in Hb as [Hb _].
      pose proof (seg_span_pos _ _ _ _ _ _ Hb). heap_lia. }
  destruct (malloc_post_block _ _ _ _ _ Hpost Hp) as (l1 & sz1 & l2 & Hinv' & Hn1 & -> & Hiff & Hu).
  exists (l1 ++ (sz1, false) :: l2). split; [done|].
  pose proof (inv_blocks _ _ Hinv') as Hb.
  pose proof (fun x => in_use_block _ _ _ _ _ x Hb) as Hblk. cbv zeta in Hblk. split.
  - intros x Hx. split; [|by apply Hu]. apply Hblk. left. by apply Hiff.
  - intros _. split; [apply blocks_at in Hb; heap_lia|]. split; [by exists l1, sz1, l2|].
    intros x Hx. rewrite <-Hiff. split; [apply Hblk; lia|]. intros Hx'. apply Hblk in Hx'. lia.
Qed.

(** C29. [kmalloc] is first fit: it takes the first free block that is large
    enough and splits off the rest, growing the region only when no block fits.
    It returns NULL only when no block fits and the growth failed; then the
    blocks, the mapped pages and the frames held are as before. *)
Theorem kmalloc_first_fit s l size n :
  inv s l -> 0 <= size < 4294967296 -> align_request size = Some n ->
  wp (kmalloc size) s (fun p s' =>
    if p =? NULL then
      too_small n l /\ inv s' l /\ words s' = words s /\ heap_mapped_pages s' = heap_mapped_pages s /\
      forall b, pm_held (pager s') b <-> pm_held (pager s) b
    else exists l0 l1 sz l2, searched n l l0 /\ l0 = l1 ++ (sz, true) :: l2 /\
      too_small n l1 /\ n <= sz /\ p = HEAP_VIRTUAL_START + span l1 + 24 /\
      inv s' (l1 ++ split_list sz n false ++ l2)).
Proof.
  intros Hinv Hsize Ea. eapply wp_mono; [by eapply kmalloc_ok|]. rewrite Ea.
  intros p s' [_ [(-> & H)|(l0 & l1 & sz & l2 & Hse & -> & Hsm & Hn & -> & Hinv' & Hu)]]; [done|].
  pose proof (inv_blocks _ _ Hinv') as Hb. apply seg_app in Hb as [Hb _].
  pose proof (seg_span_pos _ _ _ _ _ _ Hb). rewrite (proj2 (Z.eqb_neq _ _)) by heap_lia.
  by exists (l1 ++ (sz, true) :: l2), l1, sz, l2.
Qed.

(** C30. [kfree] accepts exactly the payload addresses of allocated blocks and
    refuses every other pointer (a second release, an interior or foreign
    address) without a change. An accepted block becomes free, every run of
    adjacent free blocks is merged, and the other payloads keep their words. *)
Theorem kfree_exact s l p :
  inv s l -> 0 < p < 4294967296 ->
  wp (kfree p) s (fun ok s' => cpu s' = cpu s /\ (ok = true <-> allocated_at l p) /\
    if ok then
      exists l1 sz l2, l = l1 ++ (sz, false) :: l2 /\ p = HEAP_VIRTUAL_START + span l1 + 24 /\
        inv s' (compact (l1 ++ (sz, true) :: l2)) /\
        (forall x, in_use HEAP_VIRTUAL_START l x -> ~ p <= x < p + sz ->
           in_use HEAP_VIRTUAL_START (compact (l1 ++ (sz, true) :: l2)) x /\
           words s' !! x = words s !! x)
    else s' = s).
Proof.
  intros Hinv Hp. eapply wp_mono; [eapply kfree_ok; [done|lia]|]. intros ok s' [Hcpu Hpost].
  split; [done|]. rewrite (proj2 (Z.eqb_neq p NULL)) in Hpost by heap_lia.
  destruct ok; simpl in Hpost; [|intuition congruence].
  destruct Hpost as (l1 & sz & l2 & -> & -> & Hinv' & Hu).
  split; [split; [by exists l1, sz, l2|done]|]. exists l1, sz, l2.
  split; [done|]. split; [done|]. split; [done|]. intros x Hx Hnx.
  apply (in_use_block _ _ _ _ _ _ (inv_blocks _ _ Hinv)) in Hx as [Hx|Hx]; [|done].
  rewrite in_use_compact. split; [done|by apply Hu].
Qed.

(** An allocation followed by its release succeeds, restores the interrupt
    flag, and leaves exactly the earlier payloads allocated, with their
    contents; so does releasing the NULL of a failed allocation. *)
Theorem kmalloc_kfree_roundtrip s l size :
  inv s l -> 0 <= size < 4294967296 ->
  wp (let! p := kmalloc size in kfree p) s (fun ok s' =>
    ok = true /\ cpu s' = cpu s /\ exists l', inv s' l' /\
    forall x, (in_use HEAP_VIRTUAL_START l' x <-> in_use HEAP_VIRTUAL_START l x) /\
              (in_use HEAP_VIRTUAL_START l x -> words s' !! x = words s !! x)).
Proof.
  intros Hinv Hsize. apply wp_bind. eapply wp_mono; [by eapply kmalloc_ok|].
  intros p s1 [Hc1 Hpost]. destruct (decide (p = NULL)) as [->|Hp].
  { assert (inv s1 l /\ words s1 = words s) as [Hinv1 Hw1].
    { destruct (align_request size) eqn:Ea; [|by destruct Hpost as [_ ->]].
      destruct Hpost as [(_ & _ & ? & ? & _)|(l0 & l1 & sz & l2 & _ & _ & _ & _ & E & Hinv' & _)]; [done|].
      pose proof (inv_blocks _ _ Hinv') as Hb. apply seg_app in Hb as [Hb _].
      pose proof (seg_span_pos _ _ _ _ _ _ Hb). heap_lia. }
    eapply wp_mono; [by eapply kfree_ok|]. simpl. intros ok s2 [Hc2 [-> ->]].
    split; [done|]. split; [done|]. exists l. rewrite Hw1. naive_solver. }
  destruct (align_request size) as [n|]; [|by destruct Hpost].
  destruct (malloc_post_block _ _ _ _ _ Hpost Hp) as (l1 & sz & l2 & Hinv1 & Hn & -> & Hiff & Hu1).
  pose proof (inv_blocks _ _ Hinv1) as Hb.
  pose proof (blocks_at _ _ _ _ _ _ Hb) as (Hh & ? & ? & ? & ? & Hend & ? & ?).
  pose proof (geo_end _ (inv_geo _ _ Hinv1)).
  eapply wp_mono; [eapply kfree_ok; [done|heap_lia]|]. intros ok s2 [Hc2 Hpost2].
  rewrite (proj2 (Z.eqb_neq _ _)) in Hpost2 by done.
  destruct ok; simpl in Hpost2; [|destruct Hpost2 as [_ []]; by exists l1, sz, l2].
  destruct Hpost2 as (k1 & sz2 & k2 & El & Ep & Hinv2 & Hu2).
  split; [done|]. split; [congruence|]. exists (compact (k1 ++ (sz2, true) :: k2)).
  split; [done|]. intros x. rewrite in_use_compact.
  assert (sz2 = sz) as ->.
  { pose proof Hb as Hb2. rewrite El in Hb2. apply blocks_at in Hb2 as ([_ Hs _ _ _] & _).
    replace (HEAP_VIRTUAL_START + span k1) with (HEAP_VIRTUAL_START + span l1) in Hs by lia.
    rewrite (h_size _ _ _ _ _ _ Hh) in Hs. congruence. }
  assert (in_use HEAP_VIRTUAL_START (k1 ++ (sz, true) :: k2) x <-> in_use HEAP_VIRTUAL_START l x) as Hx.
  { rewrite <-Hiff. pose proof (in_use_block _ _ _ _ _ x Hb) as Hi1.
    rewrite El in Hb. pose proof (in_use_block _ _ _ _ _ x Hb) as Hi2.
    rewrite <-El in Hi2. cbv zeta in Hi1, Hi2. rewrite Ep in Hi1. tauto. }
  split; [done|]. intros Hxl. rewrite Hu2 by tauto. by apply Hu1.
Qed.

End spec.

(** ** A pager to run the heap on

    The smallest implementation of [PageMapper]: a list of free frames, the
    frames handed out, and the mapped pages. *)

Module ListPager.

Record t := T { frames : list Z; owned : list Z; pages : Zmap Z }.

Definition alloc : M t Z := fun p =>
  match frames p with
  | [] => Ret 0 p
  | f :: fs => Ret f (T fs (f :: owned p) (pages p))
  end.

Definition release (a : Z) : M t bool := fun p =>
  if decide (a ∈ owned p)
  then Ret true (T (a :: frames p) (filter (fun b => b <> a) (owned p)) (pages p))
  else Ret false p.

Definition map_to (va pa flags : Z) : M t bool := fun p =>
  match pages p !! va with
  | Some _ => Ret false p
  | None => Ret true (T (frames p) (owned p) (<[va := pa]> (pages p)))
  end.

Definition unmap (va : Z) : M t (option Z) := fun p =>
  Ret (pages p !! va) (T (frames p) (owned p) (delete va (pages p))).

Record ok (p : t) : Prop := {
  ok_page : Forall page_address (frames p);
  ok_nodup : NoDup (frames p);
  ok_disjoint : forall a, a ∈ frames p -> a ∈ owned p -> False
}.

#[global] Instance pager : PageMapper t.
Proof.
  refine {| pm_alloc := alloc; pm_free := release; pm_map := map_to; pm_unmap := unmap;
            pm_inv := ok; pm_mapped := fun p va => pages p !! va;
            pm_held := fun p a => a ∈ owned p |}.
  - intros [[|f fs] ow pg] [Hpa Hnd Hd]; unfold wp, alloc; simpl in *; [split; [done|]; naive_solver|].
    apply Forall_cons in Hpa as [? ?]. apply NoDup_cons in Hnd as [? ?].
    split; [split; simpl; [done|done|]|]; [set_solver|]. split; [done|]. right.
    split; [done|]. split; [|set_solver]. intros ?. apply (Hd f); set_solver.
  - intros [fs ow pg] a [Hpa Hnd Hd] Ha Hown. unfold wp, release; simpl in *.
    rewrite decide_True by done. split; [done|]. split; [|split; [done|]].
    + split; simpl; [by constructor| |].
      * apply NoDup_cons. split; [|done]. intros ?. by apply (Hd a).
      * intros b [->|Hb]%elem_of_cons [? ?]%list_elem_of_filter; [done|by apply (Hd b)].
    + intros b. simpl. rewrite list_elem_of_filter. tauto.
  - intros [fs ow pg] va pa [Hpa Hnd Hd] _ _ _ Hva. unfold wp, map_to; simpl in *. rewrite Hva.
    split; [by split|]. split; [done|]. intros vb _. simpl.
    destruct (Z.eqb_spec va vb) as [->|]; [apply lookup_insert_eq|by apply lookup_insert_ne].
  - intros [fs ow pg] va pa [Hpa Hnd Hd] _ Hva. unfold wp, unmap; simpl in *.
    split; [done|]. split; [by split|]. split; [done|]. intros vb _.
    destruct (Z.eqb_spec va vb) as [->|]; [apply lookup_delete_eq|by apply lookup_delete_ne].
Defined.

End ListPager.

(** A heap of one page with one block of 64 bytes allocated; two more frames
    are free. *)
Definition demo_pager : ListPager.t :=
  ListPager.T [0x201000; 0x202000] [0x200000] {[ HEAP_VIRTUAL_START := 0x200000 ]}.

Definition demo_words : Zmap Z :=
  list_to_map [
    (HEAP_VIRTUAL_START, HEAP_MAGIC); (HEAP_VIRTUAL_START + 4, 64); (HEAP_VIRTUAL_START + 8, 0);
    (HEAP_VIRTUAL_START + 12, HEAP_VIRTUAL_START + 88); (HEAP_VIRTUAL_START + 16, HEAP_STATE_ALLOCATED);
    (HEAP_VIRTUAL_START + 24, 7);
    (HEAP_VIRTUAL_START + 88, HEAP_MAGIC); (HEAP_VIRTUAL_START + 92, 3984);
    (HEAP_VIRTUAL_START + 96, HEAP_VIRTUAL_START); (HEAP_VIRTUAL_START + 100, 0);
    (HEAP_VIRTUAL_START + 104, HEAP_STATE_FREE) ].

Definition demo_heap : state ListPager.t :=
  State demo_pager (Cpu.State 0x202) demo_words HEAP_VIRTUAL_START
    (HEAP_VIRTUAL_START + 4096) 1 true.

Lemma demo_pager_ok : ListPager.ok demo_pager.
Proof.
  split; simpl; [repeat constructor; unfold page_address; lia|by apply (bool_decide_unpack _)|].
  intros a Ha Hb. set_solver.
Qed.

Lemma demo_heap_inv : inv demo_heap [(64, false); (3984, true)].
Proof.
  split; try done.
  - apply demo_pager_ok.
  - intros i Hi. assert (i = 0) as -> by (simpl in Hi; lia). by exists 0x200000.
  - intros i Hi. simpl in *. apply lookup_singleton_ne. unfold HEAP_VIRTUAL_START. lia.
Qed.

(** The heap in use: an allocation in the free block, one that grows the
    region, one that the frames cannot satisfy, a release, a double release. *)
Example demo_run :
  match (let! a := kmalloc 100 in
         let! b := kmalloc 5000 in
         let! c := kmalloc 20000 in
         let! f1 := kfree a in
         let! f2 := kfree a in
         let! st := heap_get_stats in
         ret (a, b, c, f1, f2, st)) demo_heap with
  | Ret r _ => r = (HEAP_VIRTUAL_START + 112, HEAP_VIRTUAL_START + 240, 0, true, false,
      HeapStats 2 2 2 5064 3032)
  | _ => False
  end.
Proof. vm_compute. reflexivity. Qed.

(** ** The theorems at the demonstration heap *)

Definition demo_list : list blk := [(64, false); (3984, true)].

Lemma kmalloc_fresh_witness :
  wp (kmalloc 100) demo_heap (fun p s' => p <> NULL -> p mod 8 = 0).
Proof.
  eapply wp_mono; [apply (kmalloc_fresh demo_heap demo_list 100); [apply demo_heap_inv|lia]|].
  intros p s' (_ & l' & _ & _ & Hp) Hne. by apply Hp.
Defined.

Lemma kmalloc_first_fit_witness :
  wp (kmalloc 20000) demo_heap (fun p s' => p = NULL -> too_small 20000 demo_list).
Proof.
  eapply wp_mono;
    [apply (kmalloc_first_fit demo_heap demo_list 20000 20000); [apply demo_heap_inv|lia|reflexivity]|].
  intros p s' Hp ->. apply Hp.
Defined.

Lemma kfree_exact_witness :
  wp (kfree (HEAP_VIRTUAL_START + 112)) demo_heap (fun ok s' => ok = false -> s' = demo_heap).
Proof.
  eapply wp_mono;
    [apply (kfree_exact demo_heap demo_list); [apply demo_heap_inv|unfold HEAP_VIRTUAL_START; lia]|].
  intros ok s' (_ & _ & Hs) ->. exact Hs.
Defined.

Lemma kmalloc_kfree_roundtrip_witness :
  wp (let! p := kmalloc 100 in kfree p) demo_heap (fun ok _ => ok = true).
Proof.
  eapply wp_mono; [apply (kmalloc_kfree_roundtrip demo_heap demo_list 100); [apply demo_heap_inv|lia]|].
  intros ok s' (Hok & _). exact Hok.
Defined.

Lemma heap_stats_exact_witness :
  wp heap_get_stats demo_heap (fun st _ => st = HeapStats 1 1 1 64 3984).
Proof.
  eapply wp_mono; [apply (heap_stats_exact demo_heap demo_list); apply demo_heap_inv|].
  intros st s' (_ & Hst & _). exact Hst.
Defined.

Lemma client_write_safe_witness :
  inv (set_words (<[HEAP_VIRTUAL_START + 24 := 8]> (words demo_heap)) demo_heap) demo_list.
Proof.
  apply (client_write_safe demo_heap demo_list); [apply demo_heap_inv|].
  left. split; [reflexivity|lia].
Defined.
