(* ===== verification/Keyboard.v ===== *)
(** * The PS/2 keyboard, kernel/drivers/keyboard.c

    Controller set-up over polled ports, the scancode decoder run by the
    interrupt handler, and the ring buffer between the handler and readers. *)

From Stdlib Require Import Ascii.
From S2P Require Import Prelude Monad Interfaces.

Module Keyboard.

Definition PS2_DATA_PORT : Z := 0x60.
Definition PS2_STATUS_PORT : Z := 0x64.
Definition PS2_COMMAND_PORT : Z := 0x64.
Definition PS2_STATUS_OUTPUT_FULL : Z := 0x01.
Definition PS2_STATUS_INPUT_FULL : Z := 0x02.
Definition PS2_STATUS_AUXILIARY : Z := 0x20.
Definition PS2_POLL_LIMIT : Z := 0xFFFF.
Definition PS2_DISABLE_FIRST_PORT : Z := 0xAD.
Definition PS2_DISABLE_SECOND_PORT : Z := 0xA7.
Definition PS2_ENABLE_FIRST_PORT : Z := 0xAE.
Definition PS2_READ_CONFIG : Z := 0x20.
Definition PS2_WRITE_CONFIG : Z := 0x60.
Definition PS2_SELF_TEST : Z := 0xAA.
Definition PS2_TEST_FIRST_PORT : Z := 0xAB.
Definition PS2_SELF_TEST_OK : Z := 0x55.
Definition PS2_PORT_TEST_OK : Z := 0x00.
Definition PS2_CONFIG_IRQ1 : Z := 0x01.
Definition PS2_CONFIG_IRQ2 : Z := 0x02.
Definition PS2_CONFIG_FIRST_CLOCK_DISABLED : Z := 0x10.
Definition PS2_CONFIG_TRANSLATION : Z := 0x40.
Definition KEYBOARD_ENABLE_SCANNING : Z := 0xF4.
Definition KEYBOARD_ACK : Z := 0xFA.
Definition SCANCODE_EXTENDED : Z := 0xE0.
Definition SCANCODE_PAUSE : Z := 0xE1.
Definition SCANCODE_RELEASE : Z := 0x80.
Definition SCANCODE_LEFT_SHIFT : Z := 0x2A.
Definition SCANCODE_RIGHT_SHIFT : Z := 0x36.
Definition SCANCODE_CONTROL : Z := 0x1D.
Definition SCANCODE_CAPS_LOCK : Z := 0x3A.
Definition SCANCODE_PAUSE_REMAINING : Z := 5.
Definition KEYBOARD_BUFFER_SIZE : Z := 128.
Definition KEYBOARD_BUFFER_MASK : Z := KEYBOARD_BUFFER_SIZE - 1.

(** include/minios/abi/input.h *)
Definition MINIOS_KEY_DELETE : Z := 0x7F.
Definition MINIOS_KEY_LEFT : Z := 0x80.
Definition MINIOS_KEY_RIGHT : Z := 0x81.
Definition MINIOS_KEY_UP : Z := 0x82.
Definition MINIOS_KEY_DOWN : Z := 0x83.
Definition MINIOS_KEY_HOME : Z := 0x84.
Definition MINIOS_KEY_END : Z := 0x85.

Definition ch (c : ascii) : Z := Z.of_N (N_of_ascii c).
Definition table (entries : list (Z * Z)) : arr := Arr 128 0 (list_to_map entries).

Definition normal_map : arr := table [
  (0x01, 0x1B);
  (0x02, ch "1"); (0x03, ch "2"); (0x04, ch "3"); (0x05, ch "4");
  (0x06, ch "5"); (0x07, ch "6"); (0x08, ch "7"); (0x09, ch "8");
  (0x0A, ch "9"); (0x0B, ch "0"); (0x0C, ch "-"); (0x0D, ch "=");
  (0x0E, 8); (0x0F, 9);
  (0x10, ch "q"); (0x11, ch "w"); (0x12, ch "e"); (0x13, ch "r");
  (0x14, ch "t"); (0x15, ch "y"); (0x16, ch "u"); (0x17, ch "i");
  (0x18, ch "o"); (0x19, ch "p"); (0x1A, ch "["); (0x1B, ch "]");
  (0x1C, 10); (0x1E, ch "a");
  (0x1F, ch "s"); (0x20, ch "d"); (0x21, ch "f"); (0x22, ch "g");
  (0x23, ch "h"); (0x24, ch "j"); (0x25, ch "k"); (0x26, ch "l");
  (0x27, ch ";"); (0x28, ch "'"); (0x29, ch "`"); (0x2B, ch "\");
  (0x2C, ch "z"); (0x2D, ch "x"); (0x2E, ch "c"); (0x2F, ch "v");
  (0x30, ch "b"); (0x31, ch "n"); (0x32, ch "m"); (0x33, ch ",");
  (0x34, ch "."); (0x35, ch "/"); (0x39, ch " ") ].

(** The double quote is written by its code, 34. *)
Definition shifted_map : arr := table [
  (0x02, ch "!"); (0x03, ch "@"); (0x04, ch "#"); (0x05, ch "$");
  (0x06, ch "%"); (0x07, ch "^"); (0x08, ch "&"); (0x09, ch "*");
  (0x0A, ch "("); (0x0B, ch ")"); (0x0C, ch "_"); (0x0D, ch "+");
  (0x1A, ch "{"); (0x1B, ch "}"); (0x27, ch ":"); (0x28, 34);
  (0x29, ch "~"); (0x2B, ch "|"); (0x33, ch "<"); (0x34, ch ">");
  (0x35, ch "?") ].

Section keyboard.
Context {D : Type} `{!Ports D}.

(** The static variables of keyboard.c and the ports. *)
Record state := State {
  device : D;
  input_buffer : arr;
  input_head : Z;
  input_tail : Z;
  left_shift_pressed : bool;
  right_shift_pressed : bool;
  left_ctrl_pressed : bool;
  right_ctrl_pressed : bool;
  caps_lock : bool;
  extended_scancode : bool;
  pause_bytes_remaining : Z
}.

Definition set_device (d : D) (s : state) : state :=
  State d (input_buffer s) (input_head s) (input_tail s) (left_shift_pressed s)
    (right_shift_pressed s) (left_ctrl_pressed s) (right_ctrl_pressed s) (caps_lock s)
    (extended_scancode s) (pause_bytes_remaining s).

#[export] Instance device_lens : Lens state D.
Proof. refine {| lget := device; lset := set_device |}; by intros; destruct s. Defined.

Definition set_ring (b : arr) (head tail : Z) (s : state) : state :=
  State (device s) b head tail (left_shift_pressed s)
    (right_shift_pressed s) (left_ctrl_pressed s) (right_ctrl_pressed s) (caps_lock s)
    (extended_scancode s) (pause_bytes_remaining s).
Definition set_left_shift (b : bool) (s : state) : state :=
  State (device s) (input_buffer s) (input_head s) (input_tail s) b
    (right_shift_pressed s) (left_ctrl_pressed s) (right_ctrl_pressed s) (caps_lock s)
    (extended_scancode s) (pause_bytes_remaining s).
Definition set_right_shift (b : bool) (s : state) : state :=
  State (device s) (input_buffer s) (input_head s) (input_tail s) (left_shift_pressed s)
    b (left_ctrl_pressed s) (right_ctrl_pressed s) (caps_lock s)
    (extended_scancode s) (pause_bytes_remaining s).
Definition set_left_ctrl (b : bool) (s : state) : state :=
  State (device s) (input_buffer s) (input_head s) (input_tail s) (left_shift_pressed s)
    (right_shift_pressed s) b (right_ctrl_pressed s) (caps_lock s)
    (extended_scancode s) (pause_bytes_remaining s).
Definition set_right_ctrl (b : bool) (s : state) : state :=
  State (device s) (input_buffer s) (input_head s) (input_tail s) (left_shift_pressed s)
    (right_shift_pressed s) (left_ctrl_pressed s) b (caps_lock s)
    (extended_scancode s) (pause_bytes_remaining s).
Definition set_caps_lock (b : bool) (s : state) : state :=
  State (device s) (input_buffer s) (input_head s) (input_tail s) (left_shift_pressed s)
    (right_shift_pressed s) (left_ctrl_pressed s) (right_ctrl_pressed s) b
    (extended_scancode s) (pause_bytes_remaining s).
Definition set_extended (b : bool) (s : state) : state :=
  State (device s) (input_buffer s) (input_head s) (input_tail s) (left_shift_pressed s)
    (right_shift_pressed s) (left_ctrl_pressed s) (right_ctrl_pressed s) (caps_lock s)
    b (pause_bytes_remaining s).
Definition set_pause (n : Z) (s : state) : state :=
  State (device s) (input_buffer s) (input_head s) (input_tail s) (left_shift_pressed s)
    (right_shift_pressed s) (left_ctrl_pressed s) (right_ctrl_pressed s) (caps_lock s)
    (extended_scancode s) n.

(** ** The controller *)

Definition poll_fuel : nat := S (Z.to_nat PS2_POLL_LIMIT).

Definition ps2_wait_input_empty : M state unit :=
  while_ poll_fuel (fun remaining =>
    if 0 <? remaining then
      let! status := zoom (io_in8 PS2_STATUS_PORT) in
      if Z.land status PS2_STATUS_INPUT_FULL =? 0 then ret (inr tt)
      else ret (inl (remaining - 1))
    else panic "PS/2 input timeout") PS2_POLL_LIMIT.

Definition ps2_read_data : M state Z :=
  while_ poll_fuel (fun remaining =>
    if 0 <? remaining then
      let! status := zoom (io_in8 PS2_STATUS_PORT) in
      if negb (Z.land status PS2_STATUS_OUTPUT_FULL =? 0) then
        let! data := zoom (io_in8 PS2_DATA_PORT) in
        ret (inr data)
      else ret (inl (remaining - 1))
    else panic "PS/2 output timeout") PS2_POLL_LIMIT.

Definition ps2_write_command (command : Z) : M state unit :=
  ps2_wait_input_empty ;; zoom (io_out8 PS2_COMMAND_PORT command).

Definition ps2_write_data (data : Z) : M state unit :=
  ps2_wait_input_empty ;; zoom (io_out8 PS2_DATA_PORT data).

Definition ps2_write_config (config : Z) : M state unit :=
  ps2_write_command PS2_WRITE_CONFIG ;; ps2_write_data config.

Definition ps2_flush_output : M state unit :=
  while_ poll_fuel (fun remaining =>
    let! full := andM (ret (0 <? remaining))
                      (let! status := zoom (io_in8 PS2_STATUS_PORT) in
                       ret (negb (Z.land status PS2_STATUS_OUTPUT_FULL =? 0))) in
    if full : bool then
      zoom (io_in8 PS2_DATA_PORT) ;; ret (inl (remaining - 1))
    else ret (inr tt)) PS2_POLL_LIMIT.

(** ** Decoding *)

Definition ascii_is_letter (character : Z) : bool := (ch "a" <=? character) && (character <=? ch "z").

Definition keyboard_buffer_push (character : Z) : M state unit :=
  let! head := gets input_head in
  let! tail := gets input_tail in
  let next := u8 (Z.land (head + 1) KEYBOARD_BUFFER_MASK) in
  if next =? tail then ret tt else
  let! buffer := gets input_buffer in
  let! buffer' := access (arr_set buffer head character) in
  modify (fun s => set_ring buffer' next (input_tail s) s).

(** The switch of [keyboard_handle_extended]. *)
Definition extended_character (code : Z) : Z :=
  if code =? 0x1C then 10
  else if code =? 0x35 then ch "/"
  else if code =? 0x47 then MINIOS_KEY_HOME
  else if code =? 0x48 then MINIOS_KEY_UP
  else if code =? 0x4B then MINIOS_KEY_LEFT
  else if code =? 0x4D then MINIOS_KEY_RIGHT
  else if code =? 0x4F then MINIOS_KEY_END
  else if code =? 0x50 then MINIOS_KEY_DOWN
  else if code =? 0x53 then MINIOS_KEY_DELETE
  else 0.

Definition key_code (scancode : Z) : Z := u8 (Z.land scancode (not32 SCANCODE_RELEASE)).
Definition is_press (scancode : Z) : bool := Z.land scancode SCANCODE_RELEASE =? 0.

Definition keyboard_handle_extended (scancode : Z) : M state unit :=
  let code := key_code scancode in
  let pressed := is_press scancode in
  if code =? SCANCODE_CONTROL then modify (set_right_ctrl pressed) else
  if negb pressed || (code =? SCANCODE_LEFT_SHIFT) || (code =? SCANCODE_RIGHT_SHIFT) then ret tt else
  let character := extended_character code in
  if negb (character =? 0) then keyboard_buffer_push character else ret tt.

Definition keyboard_init : M state unit :=
  modify (fun s => State (device s) (input_buffer s) 0 0 false false false false false false 0) ;;
  ps2_write_command PS2_DISABLE_FIRST_PORT ;;
  ps2_write_command PS2_DISABLE_SECOND_PORT ;;
  ps2_flush_output ;;
  ps2_write_command PS2_READ_CONFIG ;;
  let! config0 := ps2_read_data in
  let config := u8 (Z.land config0 (not32 (Z.lor PS2_CONFIG_IRQ1 PS2_CONFIG_IRQ2))) in
  ps2_write_config config ;;
  ps2_write_command PS2_SELF_TEST ;;
  let! self := ps2_read_data in
  if negb (self =? PS2_SELF_TEST_OK) then panic "PS/2 controller self-test failed" else
  ps2_write_command PS2_TEST_FIRST_PORT ;;
  let! port := ps2_read_data in
  if negb (port =? PS2_PORT_TEST_OK) then panic "PS/2 first port test failed" else
  let config := u8 (Z.lor (Z.lor config PS2_CONFIG_IRQ1) PS2_CONFIG_TRANSLATION) in
  let config := u8 (Z.land config (not32 PS2_CONFIG_FIRST_CLOCK_DISABLED)) in
  ps2_write_config config ;;
  ps2_write_command PS2_ENABLE_FIRST_PORT ;;
  ps2_write_data KEYBOARD_ENABLE_SCANNING ;;
  let! ack := ps2_read_data in
  if negb (ack =? KEYBOARD_ACK) then panic "keyboard enable scanning failed" else ret tt.

(** The character of an ordinary key press, 0 when it has none. *)
Definition plain_character (code : Z) : M state Z :=
  let! shift_pressed := gets (fun s => left_shift_pressed s || right_shift_pressed s) in
  let! ctrl_pressed := gets (fun s => left_ctrl_pressed s || right_ctrl_pressed s) in
  let! caps := gets caps_lock in
  let! shifted := access (arr_get shifted_map code) in
  let! normal := access (arr_get normal_map code) in
  let character := if shift_pressed && negb (shifted =? 0) then shifted else normal in
  let character := if ctrl_pressed && ascii_is_letter normal then normal - ch "a" + 1 else character in
  ret (if ascii_is_letter character && negb (Bool.eqb shift_pressed caps)
       then character - ch "a" + ch "A" else character).

(** [keyboard_handle_irq] once the scancode is read. *)
Definition handle_scancode (scancode : Z) : M state unit :=
  let! pause := gets pause_bytes_remaining in
  if 0 <? pause then modify (set_pause (pause - 1)) else
  if scancode =? SCANCODE_PAUSE then
    modify (fun s => set_extended false (set_pause SCANCODE_PAUSE_REMAINING s)) else
  if scancode =? SCANCODE_EXTENDED then modify (set_extended true) else
  let! extended := gets extended_scancode in
  if extended : bool then
    modify (set_extended false) ;; keyboard_handle_extended scancode
  else
  let code := key_code scancode in
  if code =? SCANCODE_LEFT_SHIFT then modify (set_left_shift (is_press scancode)) else
  if code =? SCANCODE_RIGHT_SHIFT then modify (set_right_shift (is_press scancode)) else
  if code =? SCANCODE_CONTROL then modify (set_left_ctrl (is_press scancode)) else
  if negb (is_press scancode) then ret tt else
  if code =? SCANCODE_CAPS_LOCK then modify (fun s => set_caps_lock (negb (caps_lock s)) s) else
  let! character := plain_character code in
  if negb (character =? 0) then keyboard_buffer_push (u8 character) else ret tt.

Definition keyboard_handle_irq : M state unit :=
  let! status := zoom (io_in8 PS2_STATUS_PORT) in
  if Z.land status PS2_STATUS_OUTPUT_FULL =? 0 then ret tt else
  let! scancode := zoom (io_in8 PS2_DATA_PORT) in
  if negb (Z.land status PS2_STATUS_AUXILIARY =? 0) then ret tt else
  handle_scancode scancode.

(** [keyboard_try_read(&c)] with a valid pointer: the byte, or [false]. *)
Definition keyboard_try_read : M state (option Z) :=
  let! head := gets input_head in
  let! tail := gets input_tail in
  if tail =? head then ret None else
  let! buffer := gets input_buffer in
  let! character := access (arr_get buffer tail) in
  modify (fun s => set_ring (input_buffer s) (input_head s)
                     (u8 (Z.land (tail + 1) KEYBOARD_BUFFER_MASK)) s) ;;
  ret (Some character).

(** ** The ring buffer is a bounded queue *)

Record wf (s : state) : Prop := {
  wf_buffer : arr_len (input_buffer s) = 128;
  wf_head : 0 <= input_head s < 128;
  wf_tail : 0 <= input_tail s < 128;
  wf_pause : 0 <= pause_bytes_remaining s <= 5
}.

Definition peek (b : arr) (i : Z) : Z := default 0 (arr_get b i).

Definition pending (s : state) : Z := (input_head s - input_tail s) mod 128.

(** The bytes waiting to be read, oldest first. *)
Definition queue (s : state) : list Z :=
  (fun i => peek (input_buffer s) ((input_tail s + i) mod 128)) <$> seqZ 0 (pending s).

Lemma queue_length s : Z.of_nat (length (queue s)) = pending s.
Proof.
  unfold queue. rewrite length_fmap, length_seqZ. unfold pending. pose proof (Z.mod_pos_bound (input_head s - input_tail s) 128). lia.
Qed.

Lemma ring_next i : 0 <= i < 128 -> u8 (Z.land (i + 1) KEYBOARD_BUFFER_MASK) = (i + 1) mod 128.
Proof.
  intros. unfold KEYBOARD_BUFFER_MASK, KEYBOARD_BUFFER_SIZE.
  change (128 - 1) with (Z.ones 7). rewrite Z.land_ones by lia. change (2 ^ 7) with 128. word_lia.
Qed.

Definition enqueue (q : list Z) (c : Z) : list Z :=
  if Z.of_nat (length q) <? 127 then q ++ [c] else q.

(** Pushing changes the ring alone and appends unless 127 bytes wait. *)
Lemma push_ok s c (Q : unit -> state -> Prop) :
  wf s ->
  (forall b head, let s' := set_ring b head (input_tail s) s in
     wf s' -> queue s' = enqueue (queue s) c -> Q tt s') ->
  wp (keyboard_buffer_push c) s Q.
Proof.
  intros [Hb Hh Ht Hp] HQ. unfold keyboard_buffer_push. run. rewrite ring_next by done.
  unfold enqueue in HQ. rewrite queue_length in HQ. unfold pending in HQ.
  destruct (Z.eqb_spec ((input_head s + 1) mod 128) (input_tail s)) as [E|E].
  - run. specialize (HQ (input_buffer s) (input_head s)). cbv zeta in HQ.
    replace (set_ring (input_buffer s) (input_head s) (input_tail s) s) with s in HQ by (by destruct s).
    apply HQ; [by split|]. rewrite (proj2 (Z.ltb_ge _ _)) by word_lia. done.
  - run. destruct (arr_set_in (input_buffer s) (input_head s) c) as (b' & Es & Hl & Hg); [lia|].
    rewrite Es. run. rewrite (proj2 (Z.ltb_lt _ _)) in HQ by word_lia.
    apply HQ; [split; simpl; word_lia|]. unfold queue, pending. cbn [input_head input_tail input_buffer set_ring].
    replace (((input_head s + 1) mod 128 - input_tail s) mod 128)
      with (pending s + 1) by (unfold pending; word_lia).
    assert (0 <= pending s < 127) as Hpend by (unfold pending; word_lia).
    rewrite seqZ_app by lia. rewrite fmap_app. cbn. f_equal.
    + apply list_fmap_ext. intros i x Hx%lookup_seqZ. unfold peek. rewrite Hg.
      rewrite (proj2 (Z.eqb_neq _ _)); [done|]. unfold pending in *. word_lia.
    + unfold seqZ. simpl. unfold peek. rewrite Hg.
      rewrite (proj2 (Z.eqb_eq _ _)); [done|]. unfold pending in *. word_lia.
Qed.

Lemma try_read_ok s (Q : option Z -> state -> Prop) :
  wf s ->
  (queue s = [] -> Q None s) ->
  (forall c tail, let s' := set_ring (input_buffer s) (input_head s) tail s in
     queue s = c :: queue s' -> wf s' -> Q (Some c) s') ->
  wp keyboard_try_read s Q.
Proof.
  intros [Hb Hh Ht Hp] HN HS. unfold keyboard_try_read. run.
  destruct (Z.eqb_spec (input_tail s) (input_head s)) as [E|E].
  - run. apply HN. unfold queue, pending. rewrite E, Z.sub_diag. done.
  - run. destruct (arr_get_in (input_buffer s) (input_tail s)) as [c Hc]; [lia|].
    rewrite Hc. run. rewrite ring_next by done. apply HS; [|split; simpl; word_lia].
    unfold queue, pending. cbn [input_head input_tail input_buffer set_ring].
    replace ((input_head s - input_tail s) mod 128)
      with (1 + (input_head s - (input_tail s + 1) mod 128) mod 128) by word_lia.
    set (n := (input_head s - (input_tail s + 1) mod 128) mod 128).
    assert (0 <= n < 128) by (subst n; word_lia).
    rewrite seqZ_app by lia. rewrite fmap_app. change (seqZ 0 1) with [0].
    cbn [fmap list_fmap app]. f_equal.
    + unfold peek. replace ((input_tail s + 0) mod 128) with (input_tail s) by word_lia. by rewrite Hc.
    + rewrite <-(fmap_add_seqZ 1 0), <-list_fmap_compose. apply list_fmap_ext.
      intros i x Hx. simpl. f_equal. word_lia.
Qed.

(** ** Decoding *)

Lemma key_code_range sc : 0 <= sc < 256 -> 0 <= key_code sc < 128.
Proof.
  intros Hsc. enough ((0 <=? key_code sc) && (key_code sc <? 128) = true) by lia.
  revert sc Hsc. apply (seqZ_forallb (fun sc => (0 <=? key_code sc) && (key_code sc <? 128))).
  by vm_compute.
Qed.

(** What a key types: letters follow Shift xor Caps Lock and turn into control
    codes under Ctrl; other keys have an optional shifted character. *)
Definition key_char (shift ctrl caps : bool) (code : Z) : Z :=
  let n := peek normal_map code in
  if ascii_is_letter n then
    if ctrl then n - 96 else if xorb shift caps then n - 32 else n
  else if shift && negb (peek shifted_map code =? 0) then peek shifted_map code else n.

Definition shift_down (s : state) : bool := left_shift_pressed s || right_shift_pressed s.
Definition ctrl_down (s : state) : bool := left_ctrl_pressed s || right_ctrl_pressed s.

Lemma table_get t code :
  arr_len t = 128 -> 0 <= code < 128 -> arr_get t code = Some (peek t code).
Proof. intros Hl Hc. unfold peek. destruct (arr_get_in t code) as [v ->]; [lia|done]. Qed.

Definition coded_char (shift ctrl caps : bool) (code : Z) : Z :=
  let shifted := peek shifted_map code in
  let normal := peek normal_map code in
  let character := if shift && negb (shifted =? 0) then shifted else normal in
  let character := if ctrl && ascii_is_letter normal then normal - ch "a" + 1 else character in
  if ascii_is_letter character && negb (Bool.eqb shift caps)
  then character - ch "a" + ch "A" else character.

Lemma coded_char_ok shift ctrl caps code :
  0 <= code < 128 ->
  coded_char shift ctrl caps code = key_char shift ctrl caps code /\
  0 <= key_char shift ctrl caps code < 256.
Proof.
  intros Hc. enough ((coded_char shift ctrl caps code =? key_char shift ctrl caps code) &&
    (0 <=? key_char shift ctrl caps code) && (key_char shift ctrl caps code <? 256) = true) by lia.
  revert code Hc. apply (seqZ_forallb (fun code => (coded_char shift ctrl caps code =? key_char shift ctrl caps code) &&
    (0 <=? key_char shift ctrl caps code) && (key_char shift ctrl caps code <? 256))).
  by destruct shift, ctrl, caps; vm_compute.
Qed.

Lemma plain_character_ok s code (Q : Z -> state -> Prop) :
  0 <= code < 128 -> Q (key_char (shift_down s) (ctrl_down s) (caps_lock s) code) s ->
  wp (plain_character code) s Q.
Proof.
  intros Hc HQ. unfold plain_character. run. rewrite table_get by done. run.
  rewrite table_get by done. run.
  by rewrite <-(proj1 (coded_char_ok _ _ _ _ Hc)) in HQ.
Qed.

Lemma extended_character_range code : 0 <= extended_character code < 256.
Proof. unfold extended_character. repeat case_match; vm_compute; naive_solver. Qed.

(** The effect of the handler on the queue. *)
Definition typed (q q' : list Z) : Prop := q' = q \/ exists c, 0 < c < 256 /\ q' = enqueue q c.

Lemma push_typed s c : wf s -> 0 < c < 256 ->
  wp (keyboard_buffer_push c) s (fun _ s' => wf s' /\ typed (queue s) (queue s')).
Proof. intros Hs Hc. apply push_ok; [done|]. intros b head s' Hw Hq. split; [done|]. right. eauto. Qed.

Lemma handle_extended_ok s sc : wf s ->
  wp (keyboard_handle_extended sc) s (fun _ s' => wf s' /\ typed (queue s) (queue s')).
Proof.
  intros Hs. unfold keyboard_handle_extended. pose proof (extended_character_range (key_code sc)).
  destruct Hs as [? ? ? ?]. wp_steps; try (split; [by split|by left]).
  apply push_typed; [by split|lia].
Qed.

Lemma handle_scancode_ok s sc : wf s -> 0 <= sc < 256 ->
  wp (handle_scancode sc) s (fun _ s' => wf s' /\ typed (queue s) (queue s')).
Proof.
  intros Hs Hsc. pose proof (key_code_range sc Hsc) as Hk. pose proof Hs as [? ? ? ?].
  unfold handle_scancode. wp_steps; try (split; [split; simpl in *; try done; lia|by left]).
  - apply (handle_extended_ok (set_extended false s)). by split.
  - apply plain_character_ok; [done|].
    pose proof (proj2 (coded_char_ok (shift_down s) (ctrl_down s) (caps_lock s) _ Hk)).
    destruct (Z.eqb_spec (key_char (shift_down s) (ctrl_down s) (caps_lock s) (key_code sc)) 0) as [->|].
    + run. split; [done|by left].
    + cbn [negb]. rewrite u8_id by done. apply push_typed; [done|lia].
Qed.

Lemma handle_irq_ok s : wf s ->
  wp keyboard_handle_irq s (fun _ s' => wf s' /\ typed (queue s) (queue s')).
Proof.
  intros Hs. unfold keyboard_handle_irq. run. wp_apply io_in8_ok. intros status d1 Hst.
  assert (forall d, wf (set_device d s)) as Hd by (intros d; destruct Hs; by split).
  destruct (_ =? 0); [run; split; [apply Hd|by left]|].
  run. wp_apply io_in8_ok. intros sc d2 Hsc.
  destruct (negb _); [run; split; [apply Hd|by left]|].
  apply (handle_scancode_ok (set_device d2 s)); [apply Hd|done].
Qed.

(** ** Interrupts and readers in any order *)

Inductive op := Irq | Read.

Definition run_op (o : op) : M state (list Z) :=
  match o with
  | Irq => keyboard_handle_irq ;; ret []
  | Read => let! r := keyboard_try_read in ret (option_list r)
  end.

Fixpoint run_ops (os : list op) : M state (list Z) :=
  match os with
  | [] => ret []
  | o :: os' => let! r := run_op o in let! rs := run_ops os' in ret (r ++ rs)
  end.

(** A queue of at most 127 bytes: an interrupt appends a byte, or none; a read
    takes the oldest. The third argument is what was read. *)
Inductive fifo_step : op -> list Z -> list Z -> list Z -> Prop :=
| fifo_quiet q : fifo_step Irq q [] q
| fifo_push q c : 0 < c < 256 -> fifo_step Irq q [] (enqueue q c)
| fifo_empty : fifo_step Read [] [] []
| fifo_pop c q : fifo_step Read (c :: q) [c] q.

Inductive fifo_run : list op -> list Z -> list Z -> list Z -> Prop :=
| fifo_done q : fifo_run [] q [] q
| fifo_next o os q r q1 rs q2 :
    fifo_step o q r q1 -> fifo_run os q1 rs q2 -> fifo_run (o :: os) q (r ++ rs) q2.

Lemma run_op_ok o s : wf s ->
  wp (run_op o) s (fun r s' => wf s' /\ fifo_step o (queue s) r (queue s')).
Proof.
  intros Hs. destruct o; simpl; apply wp_bind.
  - eapply wp_mono; [by apply handle_irq_ok|]. intros _ s' [Hs' Ht]. run. split; [done|].
    destruct Ht as [->|(c & Hc & ->)]; by constructor.
  - apply try_read_ok; [done|intros E|intros c tail s' E Hs']; run; (split; [done|]); rewrite E; constructor.
Qed.


(** A key press outside a prefix sequence: modifier keys are kept as they
    are, and the byte queued is the key's character under Shift, Ctrl and Caps
    Lock as [key_char] describes it (none when the key has no character). *)
Theorem plain_key_types s sc :
  wf s -> 0 <= sc < 128 -> pause_bytes_remaining s = 0 -> extended_scancode s = false ->
  sc ∉ [SCANCODE_LEFT_SHIFT; SCANCODE_RIGHT_SHIFT; SCANCODE_CONTROL; SCANCODE_CAPS_LOCK] ->
  wp (handle_scancode sc) s (fun _ s' =>
    let c := key_char (shift_down s) (ctrl_down s) (caps_lock s) sc in
    wf s' /\ queue s' = (if c =? 0 then queue s else enqueue (queue s) c) /\
    (exists b head, s' = set_ring b head (input_tail s) s)).
Proof.
  intros Hs Hsc Hp He Hm.
  assert (key_code sc = sc /\ is_press sc = true) as [Hk Hpr].
  { enough ((key_code sc =? sc) && is_press sc = true) by (destruct (is_press sc); lia).
    clear Hm. revert sc Hsc. apply (seqZ_forallb (fun sc => (key_code sc =? sc) && is_press sc)). by vm_compute. }
  unfold handle_scancode. run. rewrite Hp. change (0 <? 0) with false. cbn iota.
  rewrite !(proj2 (Z.eqb_neq sc _)) by (unfold SCANCODE_PAUSE, SCANCODE_EXTENDED; lia). run.
  rewrite He, Hk, Hpr. rewrite !(proj2 (Z.eqb_neq sc _)) by set_solver. run.
  apply plain_character_ok; [done|].
  pose proof (proj2 (coded_char_ok (shift_down s) (ctrl_down s) (caps_lock s) _ Hsc)).
  destruct (Z.eqb_spec (key_char (shift_down s) (ctrl_down s) (caps_lock s) sc) 0) as [E|E]; cbn [negb].
  - run. split; [done|]. split; [done|]. exists (input_buffer s), (input_head s). by destruct s.
  - rewrite u8_id by done. apply push_ok; [done|]. intros b head s' Hs' Hq. eauto.
Qed.

(** ** Controller set-up *)

Definition ps2_panic (msg : string) : Prop :=
  msg ∈ ["PS/2 input timeout"; "PS/2 output timeout"; "PS/2 controller self-test failed";
         "PS/2 first port test failed"; "keyboard enable scanning failed"]%string.

Definition only_device (s s' : state) : Prop := exists d, s' = set_device d s.

Lemma ps2_wait_ok s0 s : only_device s0 s ->
  wpp ps2_panic ps2_wait_input_empty s (fun _ s' => only_device s0 s').
Proof.
  intros Hs. apply (wpp_while _ (fun _ s' => only_device s0 s') (fun r => Z.to_nat r)); [done|unfold poll_fuel; lia|].
  intros r s' [d ->]. destruct (Z.ltb_spec 0 r); [|apply wpp_panic; set_solver].
  apply wpp_bind_wp. run. wp_apply io_in8_ok. intros v d' _.
  destruct (_ =? 0); apply wpp_wp; run; [by exists d'|]. split; [by exists d'|lia].
Qed.

Lemma ps2_read_ok s0 s : only_device s0 s ->
  wpp ps2_panic ps2_read_data s (fun _ s' => only_device s0 s').
Proof.
  intros Hs. apply (wpp_while _ (fun _ s' => only_device s0 s') (fun r => Z.to_nat r)); [done|unfold poll_fuel; lia|].
  intros r s' [d ->]. destruct (Z.ltb_spec 0 r); [|apply wpp_panic; set_solver].
  apply wpp_bind_wp. run. wp_apply io_in8_ok. intros v d' _.
  destruct (negb _).
  - apply wpp_wp. run. wp_apply io_in8_ok. intros v' d'' _. run. by exists d''.
  - apply wpp_wp. run. split; [by exists d'|lia].
Qed.

Lemma ps2_flush_ok s0 s : only_device s0 s ->
  wpp ps2_panic ps2_flush_output s (fun _ s' => only_device s0 s').
Proof.
  intros Hs. apply (wpp_while _ (fun _ s' => only_device s0 s') (fun r => Z.to_nat r)); [done|unfold poll_fuel; lia|].
  intros r s' [d ->]. apply wpp_bind_wp. run. destruct (Z.ltb_spec 0 r); [|apply wpp_wp; run; by exists d].
  run. wp_apply io_in8_ok. intros v d' _. run. destruct (negb _).
  - apply wpp_wp. run. wp_apply io_in8_ok. intros v' d'' _. run. split; [by exists d''|lia].
  - apply wpp_wp. run. by exists d'.
Qed.

Lemma ps2_out_ok port v s0 s : only_device s0 s ->
  wpp ps2_panic (ps2_wait_input_empty ;; zoom (io_out8 port v)) s (fun _ s' => only_device s0 s').
Proof.
  intros Hs. apply wpp_bind. eapply wpp_mono; [by apply ps2_wait_ok|]. intros _ s' [d ->].
  apply wpp_wp. run. wp_apply io_out8_ok. intros _ d' _. by exists d'.
Qed.

Ltac ps2_next := apply wpp_bind; eapply wpp_mono;
  [first [eapply ps2_out_ok | eapply ps2_read_ok | eapply ps2_flush_ok]; eassumption|cbv beta zeta; intros ? ? ?].
Ltac ps2_config := apply wpp_bind; unfold ps2_write_config; apply wpp_bind; eapply wpp_mono;
  [eapply ps2_out_ok; eassumption|cbv beta; intros _ ? ?]; eapply wpp_mono; [eapply ps2_out_ok; eassumption|cbv beta zeta; intros _ ? ?].
Ltac ps2_check := lazymatch goal with |- wpp _ (if ?b then _ else _) _ _ =>
  destruct b; [apply wpp_panic; set_solver|] end.

(** C38. [keyboard_init] ends for every port device: it returns with an empty
    queue, no modifier held and no prefix pending, or it stops with one of the
    five panics of the PS/2 handshake; a silent controller cannot hang it. *)
Theorem keyboard_init_ends s :
  arr_len (input_buffer s) = 128 ->
  wpp ps2_panic keyboard_init s (fun _ s' => wf s' /\ queue s' = [] /\
    shift_down s' = false /\ ctrl_down s' = false /\ caps_lock s' = false /\
    extended_scancode s' = false /\ pause_bytes_remaining s' = 0).
Proof.
  intros Hb. unfold keyboard_init. apply wpp_bind_wp. run.
  set (s0 := State _ _ _ _ _ _ _ _ _ _ _). assert (only_device s0 s0) as H0 by (by exists (device s0)).
  do 5 ps2_next. ps2_config. do 2 ps2_next. ps2_check. do 2 ps2_next. ps2_check.
  ps2_config. do 3 ps2_next. ps2_check. apply wpp_wp. run.
  match goal with H : only_device s0 ?x |- context [wf ?x] => destruct H as [d ->] end.
  split; [by split|]. done.
Qed.

End keyboard.
Arguments state D : clear implicits.

(** ** A controller with scancodes waiting *)

Module Script.

(** The bytes the data port will deliver and the writes seen so far. *)
Record t := T { input : list Z; written : list (Z * Z) }.

Definition in8 (port : Z) : M t Z := fun d =>
  if port =? PS2_STATUS_PORT then Ret (match input d with [] => 0 | _ => 1 end) d
  else match input d with
       | [] => Ret 0 d
       | b :: bs => Ret (u8 b) (T bs (written d))
       end.
Definition out8 (port v : Z) : M t unit := fun d => Ret tt (T (input d) (written d ++ [(port, v)])).

#[global] Instance ports : Ports t.
Proof.
  refine {| io_in8 := in8; io_out8 := out8 |}; [|done].
  intros port [bs ws]. unfold wp, in8. simpl. destruct (_ =? _), bs as [|b bs]; try lia. apply u8_range.
Defined.

End Script.

Definition demo_state (bs : list Z) : state Script.t :=
  State (Script.T bs []) (arr_fill 128 0) 0 0 false false false false false false 0.

Lemma demo_wf bs : wf (demo_state bs).
Proof. split; simpl; lia. Qed.

(** Typing a, Shift-a, Ctrl-c and the up arrow. *)
Example demo_typing :
  match run_ops [Irq; Irq; Irq; Irq; Irq; Irq; Irq; Irq; Irq; Read; Read; Read; Read; Read]
          (demo_state [0x1E; 0x2A; 0x1E; 0xAA; 0x1D; 0x2E; 0x9D; 0xE0; 0x48]) with
  | Ret rs _ => rs = [97; 65; 3; MINIOS_KEY_UP]
  | _ => False
  end.
Proof. vm_compute. reflexivity. Qed.


Lemma plain_key_types_witness :
  wp (handle_scancode 0x1E) (demo_state []) (fun _ s' => queue s' = [97]).
Proof.
  eapply wp_mono;
    [apply (plain_key_types (demo_state []) 0x1E); [apply demo_wf|lia|reflexivity|reflexivity|]|].
  - by apply (bool_decide_unpack _).
  - intros _ s' (_ & Hq & _). exact Hq.
Defined.

Lemma keyboard_init_ends_witness :
  wpp ps2_panic keyboard_init (demo_state []) (fun _ s' => queue s' = []).
Proof.
  eapply wpp_mono; [apply (keyboard_init_ends (demo_state [])); reflexivity|].
  intros _ s' (_ & Hq & _). exact Hq.
Defined.

End Keyboard.
