(* ===== verification/Vmm.v ===== *)
(** * The kernel page tables, kernel/mm/vmm.c

    The two-level page tables live in physical memory and the code edits them
    through the recursive window, so every access below goes through the
    processor's own page walk from CR3. Translations are always looked up in
    memory: the TLB and the invalidation instructions that keep it coherent are
    not part of the state. The frame allocator is reached through
    [FrameAllocator]; the result discharges [PageMapper] for the heap. *)

From S2P Require Import Prelude Monad Interfaces.

Module Vmm.

Definition PAGE_SIZE : Z := 4096.
Definition PAGE_MASK : Z := 0xFFFFF000.
Definition PAGE_ENTRY_COUNT : Z := 1024.
Definition KERNEL_BASE : Z := 0xC0000000.
Definition KERNEL_PDE_INDEX : Z := 768.
Definition VGA_PHYSICAL_ADDRESS : Z := 0xB8000.
Definition SCRATCH_VIRTUAL_ADDRESS : Z := 0xC03FF000.
Definition RECURSIVE_PAGE_TABLES : Z := 0xFFC00000.
Definition RECURSIVE_PAGE_DIRECTORY : Z := 0xFFFFF000.
Definition RECURSIVE_PDE_INDEX : Z := 1023.
Definition PAGE_PRESENT : Z := 1.
Definition PAGE_WRITABLE : Z := VMM_WRITABLE.
Definition PAGE_USER : Z := VMM_USER.
Definition CR0_WRITE_PROTECT : Z := 0x10000.
Definition VMM_TEST_VIRTUAL_ADDRESS : Z := 0xD0000000.
Definition VMM_TEST_VALUE : Z := 0x51A7C0DE.

(** The linker symbols vmm_init uses. *)
Record image := Image {
  boot_page_directory : Z; boot_page_table : Z;
  text_start : Z; text_end : Z; rodata_start : Z; rodata_end : Z
}.

Section vmm.
Context {F : Type} `{!FrameAllocator F}.

Record state := State {
  frames : F;
  phys : Zmap Z;                            (** physical memory, by word address *)
  cr3 : Z;
  cr0 : Z;
  vmm_initialized : bool;
  kernel_page_directory_physical : Z
}.

Definition set_frames (f : F) (s : state) : state :=
  State f (phys s) (cr3 s) (cr0 s) (vmm_initialized s) (kernel_page_directory_physical s).
Definition set_phys (m : Zmap Z) (s : state) : state :=
  State (frames s) m (cr3 s) (cr0 s) (vmm_initialized s) (kernel_page_directory_physical s).
Definition set_cr3 (v : Z) (s : state) : state :=
  State (frames s) (phys s) v (cr0 s) (vmm_initialized s) (kernel_page_directory_physical s).

#[export] Instance frames_lens : Lens state F.
Proof. refine {| lget := frames; lset := set_frames |}; by intros; destruct s. Defined.

(** ** The processor *)

Definition rd (s : state) (a : Z) : Z := default 0 (phys s !! a).

Definition present (e : Z) : bool := negb (Z.land e PAGE_PRESENT =? 0).
Definition writable (e : Z) : bool := negb (Z.land e PAGE_WRITABLE =? 0).

Definition dir_index (va : Z) : Z := Z.shiftr va 22.
Definition table_index (va : Z) : Z := Z.land (Z.shiftr va 12) 0x3FF.
Definition entry_frame (e : Z) : Z := Z.land e PAGE_MASK.

(** The page walk of a supervisor access; a write needs both write bits once
    CR0.WP is set. *)
Definition translate (s : state) (write : bool) (va : Z) : option Z :=
  let pde := rd s (Z.land (cr3 s) PAGE_MASK + 4 * dir_index va) in
  if negb (present pde) then None else
  let pte := rd s (entry_frame pde + 4 * table_index va) in
  if negb (present pte) then None else
  if write && negb (Z.land (cr0 s) CR0_WRITE_PROTECT =? 0) && negb (writable pde && writable pte)
  then None else
  Some (entry_frame pte + Z.land va 0xFFF).

Definition vread (va : Z) : M state Z := fun s =>
  match translate s false va with Some pa => Ret (rd s pa) s | None => Fault end.

Definition vwrite (va v : Z) : M state unit := fun s =>
  match translate s true va with
  | Some pa => Ret tt (set_phys (<[pa := v]> (phys s)) s)
  | None => Fault
  end.

Definition invalidate_page (va : Z) : M state unit := ret tt.
Definition read_cr3 : M state Z := gets cr3.
Definition reload_cr3 (v : Z) : M state unit := modify (set_cr3 v).
Definition enable_write_protect : M state unit :=
  modify (fun s => State (frames s) (phys s) (cr3 s) (Z.lor (cr0 s) CR0_WRITE_PROTECT)
                     (vmm_initialized s) (kernel_page_directory_physical s)).

(** [page_directory[i]] and [page_tables[k]] of the recursive window. *)
Definition pd_at (i : Z) : Z := RECURSIVE_PAGE_DIRECTORY + 4 * i.
Definition pt_at (k : Z) : Z := RECURSIVE_PAGE_TABLES + 4 * k.

Definition page_is_read_only_kernel (img : image) (va : Z) : bool :=
  ((text_start img <=? va) && (va <? text_end img)) ||
  ((rodata_start img <=? va) && (va <? rodata_end img)).

Definition zero_page_through_scratch (physical_address : Z) : M state unit :=
  let scratch_index := KERNEL_PDE_INDEX * PAGE_ENTRY_COUNT + (PAGE_ENTRY_COUNT - 1) in
  let! e := vread (pt_at scratch_index) in
  if negb (Z.land e PAGE_PRESENT =? 0) then panic "VMM scratch mapping is busy" else
  vwrite (pt_at scratch_index) (Z.lor (Z.lor physical_address PAGE_PRESENT) PAGE_WRITABLE) ;;
  invalidate_page SCRATCH_VIRTUAL_ADDRESS ;;
  for_range 1024 0 (fun index => vwrite (SCRATCH_VIRTUAL_ADDRESS + 4 * index) 0) ;;
  vwrite (pt_at scratch_index) 0 ;;
  invalidate_page SCRATCH_VIRTUAL_ADDRESS.

(** [kernel_physical_start] and [kernel_physical_end] are the boot info fields
    the routine reads. *)
Definition vmm_init (img : image) (kernel_physical_start kernel_physical_end : Z) : M state unit :=
  let! c := read_cr3 in
  let directory_physical := Z.land c PAGE_MASK in
  if kernel_physical_end <=? kernel_physical_start then panic "invalid Boot Info for VMM" else
  for_range 1024 0 (fun index =>
    let physical := index *u PAGE_SIZE in
    let virtual_address := KERNEL_BASE +u physical in
    if (physical =? VGA_PHYSICAL_ADDRESS) ||
       ((kernel_physical_start <=? physical) && (physical <? kernel_physical_end)) then
      let flags :=
        if (physical =? VGA_PHYSICAL_ADDRESS) || negb (page_is_read_only_kernel img virtual_address)
        then Z.lor PAGE_PRESENT PAGE_WRITABLE else PAGE_PRESENT in
      vwrite (boot_page_table img + 4 * index) (Z.lor physical flags)
    else vwrite (boot_page_table img + 4 * index) 0) ;;
  vwrite (boot_page_directory img + 4 * KERNEL_PDE_INDEX)
    (Z.lor (Z.lor (boot_page_table img -u KERNEL_BASE) PAGE_PRESENT) PAGE_WRITABLE) ;;
  vwrite (boot_page_directory img + 4 * RECURSIVE_PDE_INDEX)
    (Z.lor (Z.lor directory_physical PAGE_PRESENT) PAGE_WRITABLE) ;;
  vwrite (boot_page_directory img) 0 ;;
  enable_write_protect ;;
  reload_cr3 directory_physical ;;
  modify (fun s => State (frames s) (phys s) (cr3 s) (cr0 s) true directory_physical).

Definition vmm_kernel_page_directory : M state Z :=
  gets (fun s => if vmm_initialized s then kernel_page_directory_physical s else 0).

Definition vmm_current_page_directory : M state Z :=
  gets (fun s => if vmm_initialized s then Z.land (cr3 s) PAGE_MASK else 0).

Definition vmm_activate_page_directory (physical_address : Z) : M state bool :=
  let! initialized := gets vmm_initialized in
  if negb initialized || (physical_address =? 0) || negb (Z.land physical_address (PAGE_SIZE - 1) =? 0)
  then ret false else
  reload_cr3 physical_address ;;
  ret true.

Definition vmm_activate_kernel_address_space : M state bool :=
  let! kernel := gets kernel_page_directory_physical in
  vmm_activate_page_directory kernel.

(** The part of [vmm_map] that provides the page table; [false] when there is
    no frame for it. *)
Definition ensure_table (directory_index pde flags : Z) : M state bool :=
  if Z.land pde PAGE_PRESENT =? 0 then
    let! page_table_physical := zoom fa_alloc in
    if page_table_physical =? 0 then ret false else
    zero_page_through_scratch page_table_physical ;;
    vwrite (pd_at directory_index)
      (Z.lor (Z.lor (Z.lor page_table_physical PAGE_PRESENT) PAGE_WRITABLE) (Z.land flags PAGE_USER)) ;;
    invalidate_page (RECURSIVE_PAGE_TABLES + directory_index * PAGE_SIZE) ;;
    ret true
  else if negb (Z.land flags PAGE_USER =? 0) then
    let! old := vread (pd_at directory_index) in
    vwrite (pd_at directory_index) (Z.lor old PAGE_USER) ;;
    ret true
  else ret true.

Definition vmm_map (virtual_address physical_address flags : Z) : M state bool :=
  let! initialized := gets vmm_initialized in
  if negb initialized ||
     negb (Z.land virtual_address (PAGE_SIZE - 1) =? 0) ||
     negb (Z.land physical_address (PAGE_SIZE - 1) =? 0) ||
     (virtual_address =? SCRATCH_VIRTUAL_ADDRESS) ||
     (RECURSIVE_PAGE_TABLES <=? virtual_address) ||
     (negb (Z.land flags PAGE_USER =? 0) && (KERNEL_BASE <=? virtual_address)) ||
     ((Z.land flags PAGE_USER =? 0) && (virtual_address <? KERNEL_BASE))
  then ret false else
  let directory_index := dir_index virtual_address in
  let table_index := table_index virtual_address in
  let! pde := vread (pd_at directory_index) in
  let! table_ready := ensure_table directory_index pde flags in
  if negb table_ready then ret false else
  let entry_index := directory_index * PAGE_ENTRY_COUNT + table_index in
  let! e := vread (pt_at entry_index) in
  if negb (Z.land e PAGE_PRESENT =? 0) then ret false else
  vwrite (pt_at entry_index)
    (Z.lor (Z.lor physical_address PAGE_PRESENT) (Z.land flags (Z.lor PAGE_WRITABLE PAGE_USER))) ;;
  invalidate_page virtual_address ;;
  ret true.

(** [vmm_unmap(va, &pa)]: the frame that was mapped, or [None] for [false]. *)
Definition vmm_unmap (virtual_address : Z) : M state (option Z) :=
  let! initialized := gets vmm_initialized in
  if negb initialized || negb (Z.land virtual_address (PAGE_SIZE - 1) =? 0) ||
     (RECURSIVE_PAGE_TABLES <=? virtual_address)
  then ret None else
  let directory_index := dir_index virtual_address in
  let table_index := table_index virtual_address in
  let! pde := vread (pd_at directory_index) in
  if Z.land pde PAGE_PRESENT =? 0 then ret None else
  let entry_index := directory_index * PAGE_ENTRY_COUNT + table_index in
  let! entry := vread (pt_at entry_index) in
  if Z.land entry PAGE_PRESENT =? 0 then ret None else
  vwrite (pt_at entry_index) 0 ;;
  invalidate_page virtual_address ;;
  let physical_address := Z.land entry PAGE_MASK in
  if directory_index =? KERNEL_PDE_INDEX then ret (Some physical_address) else
  let! found := for_until 1024 0 (fun index =>
    let! e := vread (pt_at (directory_index * PAGE_ENTRY_COUNT + index)) in
    ret (if negb (Z.land e PAGE_PRESENT =? 0) then Some tt else None)) in
  match found with
  | Some _ => ret (Some physical_address)
  | None =>
      let! pde' := vread (pd_at directory_index) in
      let table_physical := Z.land pde' PAGE_MASK in
      vwrite (pd_at directory_index) 0 ;;
      invalidate_page (RECURSIVE_PAGE_TABLES + directory_index * PAGE_SIZE) ;;
      let! freed := zoom (fa_free table_physical) in
      if negb freed then panic "VMM could not release empty page table"
      else ret (Some physical_address)
  end.

(** [vmm_query(va, &pa, &flags)]: the physical address and the flags. *)
Definition vmm_query (virtual_address : Z) : M state (option (Z * Z)) :=
  let directory_index := dir_index virtual_address in
  let table_index := table_index virtual_address in
  let! initialized := gets vmm_initialized in
  let! absent := orM (ret (negb initialized || (RECURSIVE_PAGE_TABLES <=? virtual_address)))
    (let! pde := vread (pd_at directory_index) in ret (Z.land pde PAGE_PRESENT =? 0)) in
  if absent : bool then ret None else
  let! entry := vread (pt_at (directory_index * PAGE_ENTRY_COUNT + table_index)) in
  if Z.land entry PAGE_PRESENT =? 0 then ret None else
  let physical_address := Z.lor (Z.land entry PAGE_MASK) (Z.land virtual_address (not32 PAGE_MASK)) in
  let flags := Z.land entry (Z.lor PAGE_WRITABLE PAGE_USER) in
  let! pde := vread (pd_at directory_index) in
  let flags := if Z.land pde PAGE_WRITABLE =? 0 then Z.land flags (not32 PAGE_WRITABLE) else flags in
  let flags := if Z.land pde PAGE_USER =? 0 then Z.land flags (not32 PAGE_USER) else flags in
  ret (Some (physical_address, flags)).

End vmm.
Arguments state F : clear implicits.

End Vmm.
