(* ===== verification/VmmSpec.v ===== *)
(** * What the kernel page tables guarantee

    The invariant of the recursive page tables of kernel/mm/vmm.c, the effect of
    [vmm_map], [vmm_unmap] and [vmm_query] on the translation of every page, and
    the [PageMapper] instance that the heap is built on. *)

From S2P Require Import Prelude Monad Interfaces Pmm Vmm.
Import Vmm.

Section vmm.
Context {F : Type} `{!FrameAllocator F}.
Implicit Types s : state F.

(** ** Page-table entries *)

Lemma land_low_mod x m : 0 <= m < 4096 -> Z.land x m = Z.land (x mod 4096) m.
Proof.
  intros Hm. rewrite <-land_low_4095, <-Z.land_assoc. f_equal.
  rewrite Z.land_comm. change 4095 with (Z.ones 12). rewrite Z.land_ones by lia.
  by rewrite Z.mod_small.
Qed.

Lemma lor_aligned p f : 0 <= p -> p mod 4096 = 0 -> 0 <= f < 4096 -> Z.lor p f = p + f.
Proof.
  intros Hp Ha Hf.
  assert (Z.land p f = 0) as H0 by (rewrite land_low_mod by done; by rewrite Ha, Z.land_0_l).
  by rewrite Z.add_nocarry_lxor, Z.lxor_lor.
Qed.

Lemma entry_frame_add p f :
  0 <= p < 4294967296 -> p mod 4096 = 0 -> 0 <= f < 4096 -> entry_frame (p + f) = p.
Proof.
  intros Hp Ha Hf. unfold entry_frame. change PAGE_MASK with (2 ^ 32 - 2 ^ 12).
  rewrite land_high_mask by word_lia. change (2 ^ 12) with 4096. word_lia.
Qed.

Lemma land_aligned_add p f m :
  p mod 4096 = 0 -> 0 <= m < 4096 -> Z.land (p + f) m = Z.land f m.
Proof.
  intros Ha Hm. rewrite land_low_mod by done. rewrite (land_low_mod f m) by done.
  f_equal. word_lia.
Qed.

Definition pde s (d : Z) : Z := rd s (cr3 s + 4 * d).
Definition tbl s (d : Z) : Z := entry_frame (pde s d).
Definition pte s (d t : Z) : Z := rd s (tbl s d + 4 * t).

(** The entry that maps a page, if the page is mapped. *)
Definition walk s (va : Z) : option Z :=
  if present (pde s (dir_index va)) then
    let e := pte s (dir_index va) (table_index va) in if present e then Some e else None
  else None.

(** ** The recursive window *)

(** What the page walk needs for the window to work. *)
Record mmu s : Prop := {
  mmu_cr3 : page_address (cr3 s);
  mmu_self : pde s 1023 = cr3 s + 3;
  mmu_writable : forall d, 0 <= d < 1023 -> present (pde s d) = true -> writable (pde s d) = true
}.

Lemma index_split d i t : 0 <= d < 1024 -> 0 <= i < 1024 -> 0 <= t < 1024 ->
  let va := d * 4194304 + i * 4096 + 4 * t in
  dir_index va = d /\ table_index va = i /\ Z.land va 0xFFF = 4 * t.
Proof.
  intros Hd Hi Ht va. unfold dir_index, table_index.
  rewrite shiftr_22, shiftr_12. change 0x3FF with 1023. change 0xFFF with 4095.
  rewrite land_low_1023, land_low_4095. subst va. word_lia.
Qed.

Lemma cr3_masked s : page_address (cr3 s) -> Z.land (cr3 s) PAGE_MASK = cr3 s.
Proof.
  intros [Hr Ha]. rewrite <-(entry_frame_add (cr3 s) 0) at 2 by lia. by rewrite Z.add_0_r.
Qed.

Lemma translate_entry s w d i t :
  page_address (cr3 s) -> 0 <= d < 1024 -> 0 <= i < 1024 -> 0 <= t < 1024 ->
  present (pde s d) = true -> writable (pde s d) = true ->
  present (pte s d i) = true -> writable (pte s d i) = true ->
  translate s w (d * 4194304 + i * 4096 + 4 * t) = Some (entry_frame (pte s d i) + 4 * t).
Proof.
  intros Hc Hd Hi Ht H1 H2 H3 H4. unfold translate. rewrite cr3_masked by done.
  destruct (index_split d i t Hd Hi Ht) as (-> & -> & ->).
  fold (pde s d). rewrite H1, H2. cbn [negb]. fold (tbl s d) (pte s d i).
  rewrite H3, H4. cbn [negb andb]. by rewrite andb_false_r.
Qed.

Lemma self_flags c : page_address c -> present (c + 3) = true /\ writable (c + 3) = true.
Proof.
  intros [_ Ha]. unfold present, writable. rewrite !land_aligned_add by done. done.
Qed.

Lemma self_table s : mmu s -> tbl s 1023 = cr3 s.
Proof.
  intros [[Hr Ha] Hs _]. unfold tbl. rewrite Hs. apply entry_frame_add; [lia|done|lia].
Qed.

Lemma translate_pd s w d : mmu s -> 0 <= d < 1024 -> translate s w (pd_at d) = Some (cr3 s + 4 * d).
Proof.
  intros Hm Hd. pose proof (self_flags _ (mmu_cr3 _ Hm)) as [Hp Hw].
  assert (pte s 1023 1023 = cr3 s + 3) as Hpte.
  { unfold pte. rewrite self_table by done. apply (mmu_self _ Hm). }
  replace (pd_at d) with (1023 * 4194304 + 1023 * 4096 + 4 * d)
    by (unfold pd_at, RECURSIVE_PAGE_DIRECTORY; lia).
  rewrite translate_entry; rewrite ?Hpte, ?(mmu_self _ Hm); try done; try lia; [|apply Hm].
  rewrite <-(mmu_self _ Hm). fold (tbl s 1023). by rewrite self_table.
Qed.

Lemma translate_pt s w d t :
  mmu s -> 0 <= d < 1023 -> 0 <= t < 1024 -> present (pde s d) = true ->
  translate s w (pt_at (d * 1024 + t)) = Some (tbl s d + 4 * t).
Proof.
  intros Hm Hd Ht Hpr. pose proof (self_flags _ (mmu_cr3 _ Hm)) as [Hp Hw].
  assert (pte s 1023 d = pde s d) as Hpte.
  { unfold pte. by rewrite self_table. }
  replace (pt_at (d * 1024 + t)) with (1023 * 4194304 + d * 4096 + 4 * t)
    by (unfold pt_at, RECURSIVE_PAGE_TABLES; lia).
  rewrite translate_entry; rewrite ?Hpte, ?(mmu_self _ Hm); try done; try lia; [apply Hm|].
  by apply (mmu_writable _ Hm).
Qed.

Lemma wp_read_pd s d (Q : Z -> state F -> Prop) :
  mmu s -> 0 <= d < 1024 -> Q (pde s d) s -> wp (vread (pd_at d)) s Q.
Proof. intros Hm Hd HQ. unfold wp, vread. by rewrite translate_pd. Qed.

Lemma wp_read_pt s d t (Q : Z -> state F -> Prop) :
  mmu s -> 0 <= d < 1023 -> 0 <= t < 1024 -> present (pde s d) = true ->
  Q (pte s d t) s -> wp (vread (pt_at (d * 1024 + t))) s Q.
Proof. intros Hm Hd Ht Hp HQ. unfold wp, vread. by rewrite translate_pt. Qed.

Definition poke (a v : Z) s : state F := set_phys (<[a := v]> (phys s)) s.

Lemma wp_write_pd s d v (Q : unit -> state F -> Prop) :
  mmu s -> 0 <= d < 1024 -> Q tt (poke (cr3 s + 4 * d) v s) -> wp (vwrite (pd_at d) v) s Q.
Proof. intros Hm Hd HQ. unfold wp, vwrite. by rewrite translate_pd. Qed.

Lemma wp_write_pt s d t v (Q : unit -> state F -> Prop) :
  mmu s -> 0 <= d < 1023 -> 0 <= t < 1024 -> present (pde s d) = true ->
  Q tt (poke (tbl s d + 4 * t) v s) -> wp (vwrite (pt_at (d * 1024 + t)) v) s Q.
Proof. intros Hm Hd Ht Hp HQ. unfold wp, vwrite. by rewrite translate_pt. Qed.

Lemma rd_poke s a v x : rd (poke a v s) x = if a =? x then v else rd s x.
Proof.
  unfold rd, poke. simpl. destruct (Z.eqb_spec a x) as [->|]; [by rewrite lookup_insert_eq|].
  by rewrite lookup_insert_ne.
Qed.

(** ** The invariant *)

Record wf s : Prop := {
  wf_init : vmm_initialized s = true;
  wf_fa : fa_inv (frames s);
  wf_mmu : mmu s;
  wf_kernel : present (pde s 768) = true;
  wf_scratch : present (pte s 768 1023) = false;
  wf_table : forall d, 0 <= d < 1023 -> present (pde s d) = true ->
    page_address (tbl s d) /\ tbl s d <> cr3 s /\ ~ fa_avail (frames s) (tbl s d);
  wf_distinct : forall d d', 0 <= d < 1023 -> 0 <= d' < 1023 ->
    present (pde s d) = true -> present (pde s d') = true -> tbl s d = tbl s d' -> d = d';
  wf_cr3 : ~ fa_avail (frames s) (cr3 s);
  wf_held : forall d, 0 <= d < 1023 -> d <> 768 -> present (pde s d) = true ->
    fa_held (frames s) (tbl s d)
}.

(** ** Frame lemmas *)

Lemma page_disjoint a b i j :
  a mod 4096 = 0 -> b mod 4096 = 0 -> a <> b -> 0 <= i < 1024 -> 0 <= j < 1024 -> a + 4 * i <> b + 4 * j.
Proof. intros. word_lia. Qed.

(** [s'] differs from [s] in memory alone, and there only on the words of [P]. *)
Definition agree (P : Z -> Prop) s s' : Prop :=
  (exists m, s' = set_phys m s) /\ forall x, ~ P x -> rd s' x = rd s x.

Definition in_page (p x : Z) : Prop := exists i, 0 <= i < 1024 /\ x = p + 4 * i.

Lemma not_in_page p q i : p mod 4096 = 0 -> q mod 4096 = 0 -> p <> q -> 0 <= i < 1024 ->
  ~ in_page p (q + 4 * i).
Proof. intros ? ? ? ? (j & ? & E). word_lia. Qed.

Lemma agree_pde P s s' d :
  agree P s s' -> ~ P (cr3 s + 4 * d) -> pde s' d = pde s d.
Proof. intros [[m ->] H] Hn. apply (H _ Hn). Qed.

Lemma agree_pte P s s' d t :
  agree P s s' -> pde s' d = pde s d -> ~ P (tbl s d + 4 * t) -> pte s' d t = pte s d t.
Proof. intros [[m ->] H] Hd Hn. unfold pte, tbl in *. rewrite Hd. by apply H. Qed.

Lemma agree_mmu P s s' :
  agree P s s' -> (forall d, 0 <= d < 1024 -> ~ P (cr3 s + 4 * d)) -> mmu s -> mmu s'.
Proof.
  intros Ha HP [Hc Hs Hw]. pose proof (fun d Hd => agree_pde P s s' d Ha (HP d Hd)) as E.
  destruct Ha as [[m ->] _]. split; [done|rewrite E by lia; done|].
  intros d Hd. rewrite E by lia. auto.
Qed.

Lemma wp_write_scratch s f i (Q : unit -> state F -> Prop) :
  mmu s -> present (pde s 768) = true -> page_address f -> pte s 768 1023 = f + 3 ->
  0 <= i < 1024 -> Q tt (poke (f + 4 * i) 0 s) ->
  wp (vwrite (SCRATCH_VIRTUAL_ADDRESS + 4 * i) 0) s Q.
Proof.
  intros Hm Hk Hf Hpte Hi HQ. pose proof (self_flags f Hf) as [Hp Hw].
  replace (SCRATCH_VIRTUAL_ADDRESS + 4 * i) with (768 * 4194304 + 1023 * 4096 + 4 * i)
    by (unfold SCRATCH_VIRTUAL_ADDRESS; lia).
  unfold wp, vwrite. rewrite translate_entry; rewrite ?Hpte; try done; try lia.
  - rewrite entry_frame_add; [done|destruct Hf; lia|apply Hf|lia].
  - apply Hm.
  - apply (mmu_writable _ Hm); [lia|done].
Qed.

Lemma agree_poke P s s' a v : agree P s s' -> P a -> agree P s (poke a v s').
Proof.
  intros [[m ->] H] Ha. split; [by eexists|]. intros x Hx. rewrite rd_poke.
  destruct (Z.eqb_spec a x) as [->|]; [done|by apply H].
Qed.

Definition scratch_slot s : Z := tbl s 768 + 4 * 1023.

Lemma zero_page_ok s f (Q : unit -> state F -> Prop) :
  mmu s -> present (pde s 768) = true -> page_address (tbl s 768) -> tbl s 768 <> cr3 s ->
  present (pte s 768 1023) = false -> page_address f -> f <> cr3 s -> f <> tbl s 768 ->
  (forall s', agree (fun x => in_page f x \/ x = scratch_slot s) s s' ->
     (forall i, 0 <= i < 1024 -> rd s' (f + 4 * i) = 0) -> rd s' (scratch_slot s) = 0 -> Q tt s') ->
  wp (zero_page_through_scratch f) s Q.
Proof.
  intros Hm Hk Ht Htc Hsc Hf Hfc Hft HQ.
  set (P := fun x => in_page f x \/ x = scratch_slot s).
  assert (forall d, 0 <= d < 1024 -> ~ P (cr3 s + 4 * d)) as HPd.
  { intros d Hd [Hx|Hx].
    - revert Hx. apply not_in_page; [apply Hf|apply Hm|done|done].
    - revert Hx. unfold scratch_slot. apply page_disjoint; [apply Hm|apply Ht|done|done|lia]. }
  assert (forall i, 0 <= i < 1024 -> f + 4 * i <> scratch_slot s) as Hslot.
  { intros i Hi. apply page_disjoint; [apply Hf|apply Ht|done|done|lia]. }
  unfold zero_page_through_scratch, invalidate_page.
  change (KERNEL_PDE_INDEX * PAGE_ENTRY_COUNT + (PAGE_ENTRY_COUNT - 1)) with (768 * 1024 + 1023).
  run. apply wp_read_pt; [done|lia|lia|done|]. fold (present (pte s 768 1023)). rewrite Hsc. run.
  apply wp_write_pt; [done|lia|lia|done|]. fold (scratch_slot s). run.
  replace (Z.lor (Z.lor f PAGE_PRESENT) PAGE_WRITABLE) with (f + 3).
  2:{ rewrite <-Z.lor_assoc. symmetry. apply lor_aligned; [destruct Hf; lia|apply Hf|by vm_compute]. }
  apply (wp_for_range (fun i s' => agree P s s' /\ rd s' (scratch_slot s) = f + 3 /\
    forall j, 0 <= j < i -> rd s' (f + 4 * j) = 0)).
  - split; [apply agree_poke; [split; [by exists (phys s); destruct s|done]|by right]|].
    split; [by rewrite rd_poke, Z.eqb_refl|lia].
  - intros i s1 Hi (Ha & Hslot1 & Hz). pose proof (agree_mmu _ _ _ Ha HPd Hm) as Hm1.
    assert (pde s1 768 = pde s 768) as Hk1 by (eapply agree_pde; [done|apply HPd; lia]).
    apply (wp_write_scratch _ f); [done|by rewrite Hk1|done| |lia|].
    { unfold pte, tbl. rewrite Hk1. apply Hslot1. }
    split; [apply agree_poke; [done|left; exists i; split; [lia|done]]|].
    split; [rewrite rd_poke; by rewrite (proj2 (Z.eqb_neq _ _)) by (apply Hslot; lia)|].
    intros j Hj. rewrite rd_poke. destruct (Z.eqb_spec (f + 4 * i) (f + 4 * j)); [done|]. apply Hz. lia.
  - intros s1 (Ha & Hslot1 & Hz). pose proof (agree_mmu _ _ _ Ha HPd Hm) as Hm1. run.
    assert (pde s1 768 = pde s 768) as Hk1 by (eapply agree_pde; [done|apply HPd; lia]).
    apply wp_write_pt; [done|lia|lia|by rewrite Hk1|]. run.
    replace (tbl s1 768 + 4 * 1023) with (scratch_slot s) by (unfold scratch_slot, tbl; by rewrite Hk1).
    apply HQ; [apply agree_poke; [done|by right]| |by rewrite rd_poke, Z.eqb_refl].
    intros i Hi. rewrite rd_poke. rewrite (proj2 (Z.eqb_neq _ _)) by (intros E; by eapply Hslot).
    apply Hz. lia.
Qed.

(** ** Updates that keep the invariant *)

(** The frames a client holds: handed out, and not one of the page tables. *)
Definition client_held s (b : Z) : Prop :=
  fa_held (frames s) b /\ b <> cr3 s /\
  forall d, 0 <= d < 1023 -> present (pde s d) = true -> b <> tbl s d.

Definition below_window (va : Z) : Prop := 0 <= va < RECURSIVE_PAGE_TABLES.

Lemma below_window_index va : below_window va ->
  0 <= dir_index va < 1023 /\ 0 <= table_index va < 1024.
Proof.
  unfold below_window, RECURSIVE_PAGE_TABLES, dir_index, table_index. intros.
  rewrite shiftr_22, shiftr_12. change 0x3FF with 1023. rewrite land_low_1023. word_lia.
Qed.

Lemma page_of_index va vb : below_window va -> below_window vb ->
  va mod 4096 = 0 -> vb mod 4096 = 0 ->
  dir_index va = dir_index vb -> table_index va = table_index vb -> va = vb.
Proof.
  unfold below_window, RECURSIVE_PAGE_TABLES, dir_index, table_index. intros ? ? ? ?.
  rewrite !shiftr_22, !shiftr_12. change 0x3FF with 1023. rewrite !land_low_1023. word_lia.
Qed.

(** Writing one entry of one page table. *)
Lemma poke_pte_facts s d t v :
  wf s -> 0 <= d < 1023 -> 0 <= t < 1024 -> present (pde s d) = true ->
  let s' := poke (tbl s d + 4 * t) v s in
  (forall d', 0 <= d' < 1024 -> pde s' d' = pde s d') /\
  (forall d' t', 0 <= d' < 1023 -> 0 <= t' < 1024 -> present (pde s d') = true ->
     pte s' d' t' = if (d =? d') && (t =? t') then v else pte s d' t') /\
  mmu s' /\ (forall b, client_held s' b <-> client_held s b).
Proof.
  intros Hs Hd Ht Hp s'. pose proof (wf_table _ Hs d Hd Hp) as ([Hr Hal] & Hne & _).
  assert (agree (fun x => x = tbl s d + 4 * t) s s') as Ha.
  { apply agree_poke; [split; [by exists (phys s); destruct s|done]|done]. }
  assert (forall d', 0 <= d' < 1024 -> cr3 s + 4 * d' <> tbl s d + 4 * t) as Hdis.
  { intros d' Hd'. apply page_disjoint; [apply (mmu_cr3 _ (wf_mmu _ Hs))|done|done|done|done]. }
  assert (forall d', 0 <= d' < 1024 -> pde s' d' = pde s d') as Hpde.
  { intros d' Hd'. eapply agree_pde; [exact Ha|by apply Hdis]. }
  split; [done|]. split; [|split].
  - intros d' t' Hd' Ht' Hp'. unfold pte at 1, tbl at 1. rewrite Hpde by lia. fold (tbl s d').
    unfold s'. rewrite rd_poke. pose proof (wf_table _ Hs d' Hd' Hp') as ([_ Hal'] & _ & _).
    destruct (Z.eqb_spec d d') as [<-|Hdd]; cbn [andb].
    + fold (pte s d t'). destruct (Z.eqb_spec t t') as [<-|]; [by rewrite Z.eqb_refl|].
      by rewrite (proj2 (Z.eqb_neq _ _)) by lia.
    + rewrite (proj2 (Z.eqb_neq _ _)); [done|]. apply page_disjoint; try done.
      intros E. apply Hdd. by apply (wf_distinct _ Hs).
  - eapply agree_mmu; [exact Ha|exact Hdis|apply Hs].
  - intros b. unfold client_held, tbl. split; intros (? & ? & H); (split; [done|split; [done|]]);
      intros d' Hd'; [rewrite <-Hpde by lia|rewrite Hpde by lia]; by apply H.
Qed.

Lemma wf_poke_pte s d t v :
  wf s -> 0 <= d < 1023 -> 0 <= t < 1024 -> present (pde s d) = true ->
  (d, t) <> (768, 1023) -> wf (poke (tbl s d + 4 * t) v s).
Proof.
  intros Hs Hd Ht Hp Hns. destruct (poke_pte_facts s d t v Hs Hd Ht Hp) as (Hpde & Hpte & Hm & _).
  set (s' := poke _ v s) in *. pose proof Hs as [].
  assert (forall d', 0 <= d' < 1023 -> tbl s' d' = tbl s d') as Htbl.
  { intros d' Hd'. unfold tbl. by rewrite Hpde by lia. }
  split; try done.
  - by rewrite Hpde by lia.
  - rewrite Hpte by (done || lia). destruct (Z.eqb_spec d 768), (Z.eqb_spec t 1023); simpl; try done. congruence.
  - intros d' Hd'. rewrite Hpde, Htbl by lia. by apply wf_table0.
  - intros d1 d2 H1 H2. rewrite !Hpde, !Htbl by lia. by apply wf_distinct0.
  - intros d' Hd' Hn. rewrite Hpde, Htbl by lia. by apply wf_held0.
Qed.

Lemma walk_poke_pte s d t v va :
  wf s -> 0 <= d < 1023 -> 0 <= t < 1024 -> present (pde s d) = true -> below_window va ->
  walk (poke (tbl s d + 4 * t) v s) va =
  if (d =? dir_index va) && (t =? table_index va) then (if present v then Some v else None)
  else walk s va.
Proof.
  intros Hs Hd Ht Hp Hva. apply below_window_index in Hva as [Hdi Hti].
  destruct (poke_pte_facts s d t v Hs Hd Ht Hp) as (Hpde & Hpte & _ & _).
  unfold walk. rewrite Hpde by lia. destruct (Z.eqb_spec d (dir_index va)) as [<-|]; cbn [andb].
  - rewrite Hp, Hpte by done. rewrite Z.eqb_refl. by destruct (t =? table_index va).
  - destruct (present (pde s (dir_index va))) eqn:E; [|done]. rewrite Hpte by done.
    by rewrite (proj2 (Z.eqb_neq d _)) by done.
Qed.

(** Writing a directory entry. *)
Lemma pde_poke s d v d' :
  0 <= d < 1024 -> 0 <= d' < 1024 ->
  pde (poke (cr3 s + 4 * d) v s) d' = if d =? d' then v else pde s d'.
Proof.
  intros Hd Hd'. unfold pde. rewrite rd_poke. change (cr3 (poke _ v s)) with (cr3 s).
  destruct (Z.eqb_spec d d') as [<-|]; [by rewrite Z.eqb_refl|].
  by rewrite (proj2 (Z.eqb_neq _ _)) by lia.
Qed.

Lemma mmu_frames s fr : mmu s -> mmu (set_frames fr s).
Proof. intros []. by split. Qed.

(** The frames that are free or hold the page table of directory entry [d]. *)
Definition spare s (d : Z) : Z := fa_count (frames s) + if present (pde s d) then 1 else 0.

(** A frame the page tables have no use for: in use and not one of them. *)
Definition untouched s (b : Z) : Prop :=
  b <> cr3 s /\ ~ fa_avail (frames s) b /\ forall d, 0 <= d < 1023 -> present (pde s d) = true -> b <> tbl s d.

Lemma client_untouched s b : wf s -> client_held s b -> untouched s b.
Proof.
  intros Hs (Hh & Hc & Ht). split; [done|]. split; [|done]. intros Ha. by apply (fa_disjoint _ _ (wf_fa _ Hs) Ha).
Qed.

(** What every operation on a page of directory entry [d] leaves alone: the
    registers, the contents of the frames it has no use for, the other entries
    of the directory, and the supply of frames. *)
Record kept s (d : Z) s' : Prop := {
  kept_untouched : forall b, untouched s b -> untouched s' b;
  kept_regs : cr3 s' = cr3 s /\ kernel_page_directory_physical s' = kernel_page_directory_physical s;
  kept_data : forall b i, page_address b -> untouched s b -> 0 <= i < 1024 -> rd s' (b + 4 * i) = rd s (b + 4 * i);
  kept_pde : forall d', 0 <= d' < 1024 -> d' <> d -> pde s' d' = pde s d';
  kept_spare : spare s' d = spare s d
}.

Lemma kept_refl s d : kept s d s.
Proof. by split. Qed.

Lemma kept_trans s d s1 s2 : kept s d s1 -> kept s1 d s2 -> kept s d s2.
Proof.
  intros [Hu [] ? ? ?] [Hu2 [] Hd2 Hp2 ?]. split; [auto|split; congruence| | |congruence].
  - intros b i Hb Hc Hi. rewrite Hd2 by auto. by auto.
  - intros d' Hd' Hne. rewrite Hp2 by done. auto.
Qed.

(** Writing a word of a page-table page, or of the directory at [d]. *)
Lemma kept_poke_pte s d t v : wf s -> 0 <= d < 1023 -> 0 <= t < 1024 -> present (pde s d) = true ->
  kept s d (poke (tbl s d + 4 * t) v s).
Proof.
  intros Hs Hd Ht Hp. destruct (poke_pte_facts s d t v Hs Hd Ht Hp) as (Hpde & _ & _ & _).
  split; [|done| |by intros; apply Hpde|unfold spare; by rewrite Hpde by lia].
  { intros b (? & ? & Hb). split; [done|]. split; [done|]. intros d' Hd'. unfold tbl. rewrite !Hpde by lia. by apply Hb. }
  intros b i [_ Hal] (_ & _ & Hb) Hi. rewrite rd_poke. destruct (wf_table _ Hs d Hd Hp) as ([_ ?] & _).
  specialize (Hb d Hd Hp). by rewrite (proj2 (Z.eqb_neq _ _)) by (apply page_disjoint; done || lia).
Qed.

Lemma client_not_directory s b i d : wf s -> page_address b -> b <> cr3 s -> 0 <= i < 1024 -> 0 <= d < 1024 ->
  cr3 s + 4 * d <> b + 4 * i.
Proof.
  intros Hs [_ ?] ? Hi Hd. destruct (mmu_cr3 _ (wf_mmu _ Hs)). apply page_disjoint; (done || congruence).
Qed.

(** [s'] has a page table for [d] and otherwise the same translations. *)
Record ready s (d : Z) s' : Prop := {
  ready_kept : kept s d s';
  ready_wf : wf s';
  ready_present : present (pde s' d) = true;
  ready_walk : forall va, below_window va -> walk s' va = walk s va;
  ready_held : forall b, client_held s' b <-> client_held s b;
  ready_avail : forall b, fa_avail (frames s') b -> fa_avail (frames s) b
}.

Lemma user_flags f : Z.land f PAGE_USER = 0 \/ Z.land f PAGE_USER = 4.
Proof.
  unfold PAGE_USER, VMM_USER. change 4 with (2 ^ 2). destruct (Z.testbit f 2) eqn:E.
  - right. apply Z.bits_inj'. intros i Hi. rewrite Z.land_spec, Z.pow2_bits_eqb by lia.
    destruct (Z.eqb_spec 2 i) as [<-|]; [by rewrite E|apply andb_false_r].
  - left. apply Z.bits_inj'. intros i Hi. rewrite Z.land_spec, Z.pow2_bits_eqb, Z.bits_0 by lia.
    destruct (Z.eqb_spec 2 i) as [<-|]; [by rewrite E|apply andb_false_r].
Qed.

Lemma fresh_frame s f :
  wf s -> fa_avail (frames s) f -> page_address f /\ f <> cr3 s /\
  forall d, 0 <= d < 1023 -> present (pde s d) = true -> f <> tbl s d.
Proof.
  intros Hs Hav. split; [by apply (fa_avail_page _ _ (wf_fa _ Hs))|].
  split; [intros ->; by apply (wf_cr3 _ Hs)|].
  intros d Hd Hp ->. by apply (wf_table _ Hs d Hd Hp).
Qed.

(** A fresh zeroed frame [f] becomes the table of directory entry [d]: [m] is
    the memory after zeroing, [fr] the allocator after handing out [f]. *)
Section install.
Variables (s : state F) (m : Zmap Z) (fr : F) (d f fl : Z).

Definition zeroed : state F := set_phys m (set_frames fr s).
Definition installed : state F := poke (cr3 s + 4 * d) (f + (fl + 3)) zeroed.

Hypothesis Hs : wf s.
Hypothesis Hd : 0 <= d < 1023.
Hypothesis Hnp : present (pde s d) = false.
Hypothesis Hfa : fa_inv fr.
Hypothesis Hav : fa_avail (frames s) f.
Hypothesis Hav' : forall b, fa_avail fr b <-> fa_avail (frames s) b /\ b <> f.
Hypothesis Hheld' : forall b, fa_held fr b <-> fa_held (frames s) b \/ b = f.
Hypothesis Hcount : fa_count fr = fa_count (frames s) - 1.
Hypothesis Hag : forall x, ~ (in_page f x \/ x = scratch_slot s) -> rd zeroed x = rd s x.
Hypothesis Hz : forall i, 0 <= i < 1024 -> rd zeroed (f + 4 * i) = 0.
Hypothesis Hslot : rd zeroed (scratch_slot s) = 0.
Hypothesis Hfl : 0 <= fl < 4093.
Hypothesis Hpf : present (fl + 3) = true.
Hypothesis Hwf : writable (fl + 3) = true.

Lemma install_frame : page_address f /\ f <> cr3 s /\
  forall d', 0 <= d' < 1023 -> present (pde s d') = true -> f <> tbl s d'.
Proof. by apply fresh_frame. Qed.

Lemma install_pde d' : 0 <= d' < 1024 ->
  pde installed d' = if d =? d' then f + (fl + 3) else pde s d'.
Proof.
  intros Hd'. unfold installed. change (cr3 s) with (cr3 zeroed). rewrite pde_poke by lia.
  destruct (d =? d'); [done|]. destruct install_frame as ([_ Hfal] & Hfc & _).
  pose proof (mmu_cr3 _ (wf_mmu _ Hs)) as [_ Hcal].
  destruct (wf_table _ Hs 768 ltac:(lia) (wf_kernel _ Hs)) as ([_ Hk] & Hkc & _).
  apply Hag. intros [Hx|Hx]; revert Hx; [by apply not_in_page|]. apply page_disjoint; done || lia.
Qed.

Lemma install_table : tbl installed d = f /\ present (pde installed d) = true /\
  writable (pde installed d) = true /\ forall t, 0 <= t < 1024 -> pte installed d t = 0.
Proof.
  destruct install_frame as ([Hfr Hfal] & Hfc & _).
  pose proof (mmu_cr3 _ (wf_mmu _ Hs)) as [_ Hcal].
  assert (tbl installed d = f) as Htd.
  { unfold tbl. rewrite install_pde, Z.eqb_refl by lia. apply entry_frame_add; [lia|done|lia]. }
  rewrite install_pde, Z.eqb_refl by lia. split; [done|].
  unfold present, writable in Hpf, Hwf |- *. rewrite !(land_aligned_add f (fl + 3)) by (done || lia).
  split; [done|]. split; [done|]. intros t Ht. unfold pte. rewrite Htd. unfold installed. rewrite rd_poke.
  rewrite (proj2 (Z.eqb_neq _ _)); [by apply Hz|]. apply page_disjoint; try done; lia.
Qed.

Lemma install_other d' : 0 <= d' < 1023 -> d <> d' ->
  pde installed d' = pde s d' /\ tbl installed d' = tbl s d'.
Proof. intros Hd' Hne. unfold tbl. rewrite install_pde by lia. by rewrite (proj2 (Z.eqb_neq _ _)). Qed.

Lemma install_pte d' t : 0 <= d' < 1023 -> 0 <= t < 1024 -> d <> d' -> present (pde s d') = true ->
  present (pte installed d' t) = present (pte s d' t) /\
  (present (pte s d' t) = true -> pte installed d' t = pte s d' t).
Proof.
  intros Hd' Ht Hne Hp'. destruct (install_other d' Hd' Hne) as [_ Htt].
  destruct install_frame as ([_ Hfal] & _ & Hft). pose proof (mmu_cr3 _ (wf_mmu _ Hs)) as [_ Hcal].
  pose proof (wf_table _ Hs d' Hd' Hp') as ([_ Hal'] & Hc' & _).
  assert (pte installed d' t = rd zeroed (tbl s d' + 4 * t)) as ->.
  { unfold pte. rewrite Htt. unfold installed. rewrite rd_poke.
    by rewrite (proj2 (Z.eqb_neq _ _)) by (apply page_disjoint; done || lia). }
  destruct (decide (tbl s d' + 4 * t = scratch_slot s)) as [E|E].
  - rewrite E, Hslot. assert (pte s d' t = pte s 768 1023) as -> by (unfold pte; by rewrite E).
    by rewrite (wf_scratch _ Hs).
  - rewrite Hag; [done|]. intros [Hx|Hx]; [|done]. revert Hx. apply not_in_page; try done.
    by apply Hft.
Qed.

Lemma install_cases d' : 0 <= d' < 1023 -> present (pde installed d') = true ->
  d' = d \/ (d <> d' /\ present (pde s d') = true /\ tbl installed d' = tbl s d').
Proof.
  intros Hd' Hp'. destruct (decide (d = d')) as [->|Hne]; [by left|]. right.
  destruct (install_other d' Hd' Hne) as [Ep Et]. by rewrite Ep in Hp'.
Qed.

Lemma install_mmu : mmu installed.
Proof.
  pose proof (wf_mmu _ Hs) as Hm.
  split; [apply Hm| |].
  - rewrite install_pde by lia. rewrite (proj2 (Z.eqb_neq _ _)) by lia. apply Hm.
  - intros d' Hd' Hp'. destruct (install_cases d' Hd' Hp') as [->|(Hne & Hps & _)]; [apply install_table|].
    destruct (install_other d' Hd' Hne) as [-> _]. by apply (mmu_writable _ Hm).
Qed.

Lemma install_wf : wf installed.
Proof.
  destruct install_frame as (Hf & Hfc & Hft). destruct install_table as (Htd & Hpd & Hwd & Hptd).
  assert (d <> 768) as Hd768
    by (intros E; pose proof (wf_kernel _ Hs) as Hk; by rewrite <-E, Hnp in Hk).
  split; try done; [apply Hs|apply install_mmu| | | | | |].
  - destruct (install_other 768 ltac:(lia) Hd768) as [-> _]. apply Hs.
  - rewrite (proj1 (install_pte 768 1023 ltac:(lia) ltac:(lia) Hd768 (wf_kernel _ Hs))). apply Hs.
  - intros d' Hd' Hp'. destruct (install_cases d' Hd' Hp') as [->|(Hne & Hps & ->)].
    + rewrite Htd. split; [done|]. split; [done|]. intros Ha. by apply (proj1 (Hav' _) Ha).
    + destruct (wf_table _ Hs d' Hd' Hps) as (? & ? & Hna). split; [done|]. split; [done|].
      intros Ha. apply Hna. by apply (proj1 (Hav' _) Ha).
  - intros d1 d2 H1 H2 Hp1 Hp2.
    destruct (install_cases d1 H1 Hp1) as [->|(Hn1 & Hps1 & ->)],
      (install_cases d2 H2 Hp2) as [->|(Hn2 & Hps2 & ->)]; rewrite ?Htd; [done| | |].
    + intros E. by destruct (Hft d2 H2 Hps2).
    + intros E. by destruct (Hft d1 H1 Hps1).
    + by apply (wf_distinct _ Hs).
  - intros Ha. apply (wf_cr3 _ Hs). by apply (proj1 (Hav' _) Ha).
  - intros d' Hd' Hn' Hp'. apply Hheld'. destruct (install_cases d' Hd' Hp') as [->|(Hne & Hps & ->)].
    + by right.
    + left. by apply (wf_held _ Hs).
Qed.

Lemma install_walk va : below_window va -> walk installed va = walk s va.
Proof.
  intros Hva. apply below_window_index in Hva as [Hdi Hti]. unfold walk.
  destruct install_table as (_ & Hpd & _ & Hptd).
  destruct (decide (d = dir_index va)) as [<-|Hne]; [by rewrite Hpd, Hnp, Hptd|].
  destruct (install_other _ Hdi Hne) as [-> _]. destruct (present (pde s (dir_index va))) eqn:E; [|done].
  destruct (install_pte _ _ Hdi Hti Hne E) as [Ep Ev]. rewrite Ep.
  destruct (present (pte s (dir_index va) (table_index va))); [by rewrite Ev|done].
Qed.

Lemma install_held b : client_held installed b <-> client_held s b.
Proof.
  unfold client_held. change (frames installed) with fr. change (cr3 installed) with (cr3 s).
  destruct install_table as (Htd & Hpd & _). rewrite Hheld'. split.
  - intros ([Hb| ->] & Hc & Ht); [|by destruct (Ht d Hd Hpd)].
    split; [done|]. split; [done|]. intros d' Hd' Hp'.
    destruct (decide (d = d')) as [E|Hne]; [congruence|].
    destruct (install_other d' Hd' Hne) as [Ep Et]. rewrite <-Et. apply Ht; [done|by rewrite Ep].
  - intros (Hb & Hc & Ht). split; [by left|]. split; [done|]. intros d' Hd' Hp'.
    destruct (install_cases d' Hd' Hp') as [->|(Hne & Hps & ->)]; [|by apply Ht].
    rewrite Htd. intros E. subst b. by apply (fa_disjoint _ _ (wf_fa _ Hs) Hav).
Qed.

Lemma install_kept : kept s d installed.
Proof.
  destruct install_frame as ([_ ?] & ? & _). destruct install_table as (_ & Hpd & _).
  split; [|done| | |unfold spare; change (frames installed) with fr; rewrite Hpd, Hnp, Hcount; lia].
  - intros b (Hbc & Hba & Hbt). split; [done|]. split; [by intros [? _]%Hav'|]. intros d' Hd' Hp'.
    destruct (install_cases d' Hd' Hp') as [->|(Hne & Hps & ->)]; [|by apply Hbt].
    destruct install_table as (-> & _). by intros ->.
  - intros b i Hb Hc Hi. unfold installed. rewrite rd_poke.
    rewrite (proj2 (Z.eqb_neq _ _)) by (apply client_not_directory; [done|done|apply Hc|done|lia]).
    apply Hag. destruct Hb as [_ Hbal]. intros [Hx|Hx]; revert Hx.
    + apply not_in_page; try done. intros <-. by destruct Hc as (_ & ? & _).
    + destruct Hc as (_ & _ & Hc). destruct (wf_table _ Hs 768 ltac:(lia) (wf_kernel _ Hs)) as ([_ ?] & _).
      specialize (Hc 768 ltac:(lia) (wf_kernel _ Hs)). apply page_disjoint; done || lia.
  - intros d' Hd' Hne. rewrite install_pde by done. by rewrite (proj2 (Z.eqb_neq _ _)).
Qed.

Lemma install_ready : ready s d installed.
Proof.
  split; [apply install_kept|apply install_wf|apply install_table|apply install_walk|apply install_held|].
  intros b Hb. by apply (proj1 (Hav' _) Hb).
Qed.

End install.

(** Setting the user bit of a directory entry. *)
Lemma user_bit_ready s d :
  wf s -> 0 <= d < 1023 -> present (pde s d) = true ->
  ready s d (poke (cr3 s + 4 * d) (Z.lor (pde s d) PAGE_USER) s).
Proof.
  intros Hs Hd Hp. set (s' := poke _ _ s). pose proof Hs as [].
  assert (forall d', 0 <= d' < 1024 -> entry_frame (pde s' d') = entry_frame (pde s d') /\
    present (pde s' d') = present (pde s d') /\ writable (pde s' d') = writable (pde s d') /\
    (d <> d' -> pde s' d' = pde s d')) as Hpde.
  { intros d' Hd'. unfold s'. rewrite pde_poke by lia.
    destruct (Z.eqb_spec d d') as [<-|]; [|done].
    unfold entry_frame, present, writable. rewrite !Z.land_lor_distr_l.
    change (Z.land PAGE_USER _) with 0. by rewrite !Z.lor_0_r. }
  assert (forall d', 0 <= d' < 1024 -> tbl s' d' = tbl s d') as Htbl by (intros; by apply Hpde).
  assert (forall d', 0 <= d' < 1024 -> present (pde s' d') = present (pde s d')) as Hpr
    by (intros; by apply Hpde).
  assert (forall d' t, 0 <= d' < 1023 -> 0 <= t < 1024 -> present (pde s d') = true ->
    pte s' d' t = pte s d' t) as Hpte.
  { intros d' t Hd' Ht Hp'. unfold pte. rewrite Htbl by lia. unfold s'. rewrite rd_poke.
    pose proof (wf_table0 d' Hd' Hp') as ([_ ?] & ? & _). pose proof (mmu_cr3 _ wf_mmu0) as [_ ?].
    by rewrite (proj2 (Z.eqb_neq _ _)) by (apply page_disjoint; done || lia). }
  split; [|split; try done| | | |done].
  { split; [|done| |by intros; apply Hpde|unfold spare; by rewrite Hpr by lia].
    - intros b (? & ? & Hb). split; [done|]. split; [done|]. intros d' Hd'. rewrite Hpr, Htbl by lia. by apply Hb.
    - intros b i Hb (Hc & _) Hi. unfold s'. rewrite rd_poke. by rewrite (proj2 (Z.eqb_neq _ _)) by (apply client_not_directory; done || lia). }
  - split; [apply wf_mmu0|rewrite (proj2 (proj2 (proj2 (Hpde 1023 ltac:(lia))))) by lia; apply wf_mmu0|].
    intros d' Hd'. destruct (Hpde d' ltac:(lia)) as (_ & -> & -> & _). by apply (mmu_writable _ wf_mmu0).
  - by rewrite Hpr by lia.
  - by rewrite Hpte by (done || lia).
  - intros d' Hd'. rewrite Hpr, Htbl by lia. by apply wf_table0.
  - intros d1 d2 H1 H2. rewrite !Hpr, !Htbl by lia. by apply wf_distinct0.
  - intros d' Hd' Hn. rewrite Hpr, Htbl by lia. by apply wf_held0.
  - by rewrite Hpr by lia.
  - intros va Hva. apply below_window_index in Hva as [Hdi Hti]. unfold walk.
    rewrite Hpr by lia.
    destruct (present (pde s (dir_index va))) eqn:E; [|done]. by rewrite Hpte by done.
  - intros b. unfold client_held. change (cr3 s') with (cr3 s). change (frames s') with (frames s).
    split; intros (? & ? & H); (split; [done|split; [done|]]); intros d' Hd' Hp';
      specialize (H d' Hd'); rewrite Hpr, Htbl in * by lia; auto.
Qed.

Lemma ready_refl s d : wf s -> present (pde s d) = true -> ready s d s.
Proof. by split. Qed.

Lemma ensure_table_ok s d flags (Q : bool -> state F -> Prop) :
  wf s -> 0 <= d < 1023 ->
  (present (pde s d) = false -> fa_count (frames s) = 0 -> (forall b, ~ fa_avail (frames s) b) -> Q false s) ->
  (forall s', ready s d s' -> Q true s') ->
  wp (ensure_table d (pde s d) flags) s Q.
Proof.
  intros Hs Hd Hno Hyes. unfold ensure_table.
  assert (forall e, (Z.land e PAGE_PRESENT =? 0) = negb (present e)) as Hpr
    by (intros e; unfold present; by rewrite negb_involutive).
  rewrite Hpr. destruct (present (pde s d)) eqn:Hp; cbn [negb].
  - destruct (_ =? 0); run; [by apply Hyes, ready_refl|].
    apply wp_read_pd; [apply Hs|lia|]. run. apply wp_write_pd; [apply Hs|lia|]. run.
    by apply Hyes, user_bit_ready.
  - run. wp_apply (fa_alloc_ok (frames s)); [apply Hs|].
    intros f fr (Hfa & [(-> & -> & Hcount & Hnone)|(Hav & Hcount & Hav' & Hheld')]).
    { run. replace (lset (frames s) s) with s by (by destruct s). by apply Hno. }
    pose proof (fa_avail_page _ _ (wf_fa _ Hs) Hav) as Hf.
    rewrite (proj2 (Z.eqb_neq f 0)) by (destruct Hf; lia). run.
    destruct (fresh_frame s f Hs Hav) as (_ & Hfc & Hft).
    pose proof (wf_table _ Hs 768 ltac:(lia) (wf_kernel _ Hs)) as (Hk & Hkc & _).
    change (lset fr s) with (set_frames fr s).
    pose proof (mmu_frames _ fr (wf_mmu _ Hs)) as Hm1.
    apply zero_page_ok; try done; [apply Hs|apply Hs|apply Hft; [lia|apply Hs]|].
    intros s2 [[m ->] Hag] Hz Hslot. run. unfold invalidate_page.
    change (set_phys m (set_frames fr s)) with (zeroed s m fr) in *.
    assert (mmu (zeroed s m fr)) as Hm2.
    { apply (agree_mmu (fun x => in_page f x \/ x = scratch_slot s) (set_frames fr s));
        [split; [by eexists|exact Hag]| |done].
      intros d' Hd' [Hx|Hx]; revert Hx; [apply not_in_page|apply page_disjoint]; try done; try lia;
        try apply Hf; try apply Hk; apply (mmu_cr3 _ (wf_mmu _ Hs)). }
    apply wp_write_pd; [done|lia|]. run. apply Hyes.
    replace (Z.lor _ (Z.land flags PAGE_USER)) with (f + (Z.land flags PAGE_USER + 3)).
    + destruct (user_flags flags) as [-> | ->];
        [apply (install_ready s m fr d f 0)|apply (install_ready s m fr d f 4)]; done || lia.
    + destruct (user_flags flags) as [-> | ->]; rewrite <-!Z.lor_assoc;
        (rewrite lor_aligned; [done|destruct Hf; lia|apply Hf|vm_compute; naive_solver]).
Qed.

(** ** Mapping, unmapping and querying pages *)

Lemma land_rw_user f : Z.land f (Z.lor PAGE_WRITABLE PAGE_USER) ∈ [0; 2; 4; 6].
Proof.
  change (Z.lor PAGE_WRITABLE PAGE_USER) with (Z.land 7 6). rewrite Z.land_assoc, land_low_7.
  assert (f mod 8 = 0 \/ f mod 8 = 1 \/ f mod 8 = 2 \/ f mod 8 = 3 \/ f mod 8 = 4 \/
    f mod 8 = 5 \/ f mod 8 = 6 \/ f mod 8 = 7) as H by word_lia.
  destruct H as [-> |[-> |[-> |[-> |[-> |[-> |[-> | ->]]]]]]]; by apply (bool_decide_unpack _).
Qed.

(** The entry [vmm_map] writes. *)
Definition map_entry (pa flags : Z) : Z := pa + (1 + Z.land flags (Z.lor PAGE_WRITABLE PAGE_USER)).

Lemma map_entry_ok pa flags :
  0 <= pa < 4294967296 -> pa mod 4096 = 0 ->
  Z.lor (Z.lor pa PAGE_PRESENT) (Z.land flags (Z.lor PAGE_WRITABLE PAGE_USER)) = map_entry pa flags /\
  present (map_entry pa flags) = true /\ entry_frame (map_entry pa flags) = pa.
Proof.
  intros Hp Ha. unfold map_entry, present. rewrite <-Z.lor_assoc.
  pose proof (land_rw_user flags) as H. revert H.
  generalize (Z.land flags (Z.lor PAGE_WRITABLE PAGE_USER)). intros x Hx.
  rewrite land_aligned_add by (done || by vm_compute).
  rewrite !elem_of_cons, elem_of_nil in Hx.
  destruct Hx as [-> |[-> |[-> |[-> |[]]]]];
    (split; [rewrite lor_aligned; [done|lia|done|vm_compute; naive_solver]
            |split; [done|apply entry_frame_add; lia]]).
Qed.

(** What [vmm_map] accepts. *)
Definition mappable (va pa flags : Z) : Prop :=
  va mod 4096 = 0 /\ pa mod 4096 = 0 /\ va <> SCRATCH_VIRTUAL_ADDRESS /\ va < RECURSIVE_PAGE_TABLES /\
  (Z.land flags PAGE_USER = 0 <-> KERNEL_BASE <= va).

Lemma map_guard_ok va pa flags :
  0 <= va < 4294967296 ->
  (negb (Z.land va (PAGE_SIZE - 1) =? 0) || negb (Z.land pa (PAGE_SIZE - 1) =? 0) ||
   (va =? SCRATCH_VIRTUAL_ADDRESS) || (RECURSIVE_PAGE_TABLES <=? va) ||
   (negb (Z.land flags PAGE_USER =? 0) && (KERNEL_BASE <=? va)) ||
   ((Z.land flags PAGE_USER =? 0) && (va <? KERNEL_BASE))) = false <-> mappable va pa flags.
Proof.
  intros Hva. change (PAGE_SIZE - 1) with 4095. rewrite !land_low_4095. unfold mappable.
  rewrite !orb_false_iff, !andb_false_iff, !negb_false_iff. lia.
Qed.

Lemma scratch_indices va : below_window va -> va mod 4096 = 0 ->
  va <> SCRATCH_VIRTUAL_ADDRESS -> (dir_index va, table_index va) <> (768, 1023).
Proof.
  intros Hb Ha Hn [= H1 H2]. apply Hn.
  apply page_of_index; unfold below_window, RECURSIVE_PAGE_TABLES, SCRATCH_VIRTUAL_ADDRESS in *; try lia; done.
Qed.

Definition map_post s (va pa flags : Z) (ok : bool) s' : Prop :=
  wf s' /\ (forall b, client_held s' b <-> client_held s b) /\ (below_window va -> kept s (dir_index va) s') /\
  if ok then
    mappable va pa flags /\ walk s va = None /\ walk s' va = Some (map_entry pa flags) /\
    forall vb, below_window vb -> vb mod 4096 = 0 -> vb <> va -> walk s' vb = walk s vb
  else
    (forall vb, below_window vb -> walk s' vb = walk s vb) /\
    (mappable va pa flags -> walk s va <> None \/ spare s (dir_index va) = 0 /\ forall b, ~ fa_avail (frames s) b).

Lemma present_land e : (Z.land e PAGE_PRESENT =? 0) = negb (present e).
Proof. unfold present. by rewrite negb_involutive. Qed.

Lemma vmm_map_ok s va pa flags :
  wf s -> 0 <= va < 4294967296 -> 0 <= pa < 4294967296 ->
  wp (vmm_map va pa flags) s (map_post s va pa flags).
Proof.
  intros Hs Hva Hpa. unfold vmm_map. run. rewrite (wf_init _ Hs). cbn [negb orb].
  destruct (_ || _) eqn:Eg.
  { run. split; [done|]. split; [done|]. split; [intros; apply kept_refl|]. split; [done|]. intros Hm.
    apply (map_guard_ok va pa flags Hva) in Hm. congruence. }
  apply map_guard_ok in Eg as Hmap; [|done]. destruct Hmap as (Hal & Hpal & Hns & Hlt & Huk).
  assert (below_window va) as Hbw by (unfold below_window; lia).
  pose proof (below_window_index va Hbw) as [Hd Ht].
  pose proof (scratch_indices va Hbw Hal Hns) as Hsc. run.
  apply wp_read_pd; [apply Hs|lia|]. run. apply ensure_table_ok; [done|done| |].
  { intros Hnp Hcount Hnone. run. split; [done|]. split; [done|]. split; [intros; apply kept_refl|]. split; [done|].
    intros _. right. split; [|done]. unfold spare. rewrite Hnp. lia. }
  intros s1 [Hk1 Hs1 Hp1 Hw1 Hh1 _]. run. change PAGE_ENTRY_COUNT with 1024.
  apply wp_read_pt; [apply Hs1|done|done|done|]. rewrite present_land, negb_involutive.
  assert (walk s1 va = if present (pte s1 (dir_index va) (table_index va))
    then Some (pte s1 (dir_index va) (table_index va)) else None) as Ew by (unfold walk; by rewrite Hp1).
  destruct (present (pte s1 (dir_index va) (table_index va))) eqn:Epte.
  { run. split; [done|]. split; [done|]. split; [done|]. split; [done|]. intros _. left. by rewrite <-Hw1, Ew. }
  run. apply wp_write_pt; [apply Hs1|done|done|done|]. unfold invalidate_page. run.
  destruct (map_entry_ok pa flags Hpa Hpal) as (-> & Hpe & _).
  split; [by apply wf_poke_pte|]. split.
  { intros b. destruct (poke_pte_facts s1 (dir_index va) (table_index va) (map_entry pa flags))
      as (_ & _ & _ & ->); [done..|apply Hh1]. }
  split; [intros _; eapply kept_trans; [exact Hk1|by apply kept_poke_pte]|].
  split; [done|]. split; [by rewrite <-Hw1, Ew|]. split.
  - rewrite walk_poke_pte, !Z.eqb_refl, Hpe by done. done.
  - intros vb Hvb Halb Hne. rewrite walk_poke_pte, Hw1 by done.
    destruct (Z.eqb_spec (dir_index va) (dir_index vb)), (Z.eqb_spec (table_index va) (table_index vb));
      try done. destruct Hne. by apply page_of_index.
Qed.

(** An empty page table is taken out of the directory and given back. *)
Lemma remove_table_ok s d fr :
  wf s -> 0 <= d < 1023 -> d <> 768 -> present (pde s d) = true ->
  (forall t, 0 <= t < 1024 -> present (pte s d t) = false) ->
  fa_inv fr ->
  (forall b, fa_avail fr b <-> fa_avail (frames s) b \/ b = tbl s d) ->
  (forall b, fa_held fr b <-> fa_held (frames s) b /\ b <> tbl s d) ->
  fa_count fr = fa_count (frames s) + 1 ->
  let s' := set_frames fr (poke (cr3 s + 4 * d) 0 s) in
  wf s' /\ (forall va, below_window va -> walk s' va = walk s va) /\
  (forall b, client_held s' b <-> client_held s b) /\ kept s d s'.
Proof.
  intros Hs Hd Hnk Hp Hempty Hfa Hav Hheld Hcount s'. pose proof Hs as [].
  assert (forall d', 0 <= d' < 1024 -> pde s' d' = if d =? d' then 0 else pde s d') as Hpde.
  { intros d' Hd'. apply (pde_poke s d 0 d'); lia. }
  assert (present (pde s' d) = false) as Hpd by (rewrite Hpde, Z.eqb_refl by lia; done).
  assert (forall d', 0 <= d' < 1023 -> d <> d' -> pde s' d' = pde s d' /\ tbl s' d' = tbl s d') as Hoth.
  { intros d' Hd' Hne. unfold tbl. rewrite Hpde by lia. by rewrite (proj2 (Z.eqb_neq _ _)). }
  assert (forall d', 0 <= d' < 1023 -> present (pde s' d') = true ->
    d <> d' /\ present (pde s d') = true /\ tbl s' d' = tbl s d' /\ tbl s d' <> tbl s d) as Hcase.
  { intros d' Hd' Hp'. destruct (decide (d = d')) as [<-|Hne]; [congruence|].
    destruct (Hoth d' Hd' Hne) as [E Et]. rewrite E in Hp'. split; [done|]. split; [done|]. split; [done|].
    intros E'. apply Hne. symmetry. by apply wf_distinct0. }
  assert (forall d' t, 0 <= d' < 1023 -> 0 <= t < 1024 -> d <> d' -> present (pde s d') = true ->
    pte s' d' t = pte s d' t) as Hpte.
  { intros d' t Hd' Ht Hne Hp'. unfold pte. rewrite (proj2 (Hoth d' Hd' Hne)).
    change (rd s' ?x) with (rd (poke (cr3 s + 4 * d) 0 s) x). rewrite rd_poke.
    pose proof (wf_table0 d' Hd' Hp') as ([_ ?] & ? & _). pose proof (mmu_cr3 _ wf_mmu0) as [_ ?].
    by rewrite (proj2 (Z.eqb_neq _ _)) by (apply page_disjoint; done || lia). }
  split; [|split; [|split]].
  4:{ split; [|done| | |unfold spare; change (frames s') with fr; rewrite Hpd, Hp, Hcount; lia].
      - intros b (? & ? & Hb). split; [done|]. split; [intros [?|E]%Hav; [done|by apply (Hb d)]|].
        intros d' Hd' Hp'. destruct (Hcase d' Hd' Hp') as (_ & ? & -> & _). by apply Hb.
      - intros b i Hb (Hc & _) Hi. change (rd s' ?x) with (rd (poke (cr3 s + 4 * d) 0 s) x). rewrite rd_poke.
        by rewrite (proj2 (Z.eqb_neq _ _)) by (apply client_not_directory; done || lia).
      - intros d' Hd' Hne. rewrite Hpde by lia. by rewrite (proj2 (Z.eqb_neq _ _)). }
  - split; try done.
    + split; [apply wf_mmu0|rewrite Hpde, (proj2 (Z.eqb_neq _ _)) by lia; apply wf_mmu0|].
      intros d' Hd' Hp'. destruct (Hcase d' Hd' Hp') as (Hne & Hps & _).
      rewrite (proj1 (Hoth d' Hd' Hne)). by apply (mmu_writable _ wf_mmu0).
    + by rewrite (proj1 (Hoth 768 ltac:(lia) Hnk)).
    + by rewrite Hpte by (done || lia).
    + intros d' Hd' Hp'. destruct (Hcase d' Hd' Hp') as (Hne & Hps & -> & Htt).
      destruct (wf_table0 d' Hd' Hps) as (? & ? & Hna). split; [done|]. split; [done|].
      intros [?|?]%(proj1 (Hav _)); done.
    + intros d1 d2 H1 H2 Hp1 Hp2. destruct (Hcase d1 H1 Hp1) as (_ & ? & -> & _).
      destruct (Hcase d2 H2 Hp2) as (_ & ? & -> & _). by apply wf_distinct0.
    + destruct (wf_table0 d Hd Hp) as (_ & Htc & _). intros [?|?]%(proj1 (Hav _)); [done|].
      by apply Htc.
    + intros d' Hd' Hn Hp'. destruct (Hcase d' Hd' Hp') as (_ & ? & -> & ?). apply Hheld.
      split; [by apply wf_held0|done].
  - intros va Hva. apply below_window_index in Hva as [Hdi Hti]. unfold walk.
    destruct (decide (d = dir_index va)) as [<-|Hne]; [by rewrite Hpd, Hp, Hempty|].
    rewrite (proj1 (Hoth _ Hdi Hne)). destruct (present (pde s (dir_index va))) eqn:E; [|done].
    by rewrite Hpte.
  - intros b. unfold client_held. change (frames s') with fr. change (cr3 s') with (cr3 s).
    rewrite Hheld. split.
    + intros ((? & Hb) & ? & Ht). split; [done|]. split; [done|]. intros d' Hd' Hp'.
      destruct (decide (d = d')) as [<-|Hne]; [done|]. destruct (Hoth d' Hd' Hne) as [E <-].
      apply Ht; [done|by rewrite E].
    + intros (? & ? & Ht). split; [split; [done|by apply Ht]|]. split; [done|].
      intros d' Hd' Hp'. destruct (Hcase d' Hd' Hp') as (_ & ? & -> & _). by apply Ht.
Qed.

Definition unmap_post s (va : Z) (r : option Z) s' : Prop :=
  wf s' /\ (forall b, client_held s' b <-> client_held s b) /\ kept s (dir_index va) s' /\
  match r with
  | Some pa => exists e, walk s va = Some e /\ pa = entry_frame e /\ walk s' va = None /\
      forall vb, below_window vb -> vb mod 4096 = 0 -> vb <> va -> walk s' vb = walk s vb
  | None => s' = s /\ (below_window va -> va mod 4096 = 0 -> walk s va = None)
  end.

Lemma table_empty_ok s d (Q : option unit -> state F -> Prop) :
  wf s -> 0 <= d < 1023 -> present (pde s d) = true ->
  Q (Some tt) s -> ((forall t, 0 <= t < 1024 -> present (pte s d t) = false) -> Q None s) ->
  wp (for_until 1024 0 (fun index =>
    let! e := vread (pt_at (d * PAGE_ENTRY_COUNT + index)) in
    ret (if negb (Z.land e PAGE_PRESENT =? 0) then Some tt else None))) s Q.
Proof.
  intros Hs Hd Hp Hyes Hno.
  apply (wp_for_until (fun i s' => s' = s /\ forall t, 0 <= t < i -> present (pte s d t) = false)).
  - split; [done|lia].
  - intros i s' Hi [-> Hz]. run. change PAGE_ENTRY_COUNT with 1024.
    apply wp_read_pt; [apply Hs|done|lia|done|]. run. rewrite present_land, negb_involutive.
    destruct (present (pte s d i)) eqn:E; [done|]. split; [done|]. intros t Ht.
    destruct (decide (t = i)) as [->|]; [done|]. apply Hz. lia.
  - intros s' [-> Hz]. apply Hno. intros t Ht. apply Hz. lia.
Qed.

Lemma vmm_unmap_ok s va :
  wf s -> 0 <= va < 4294967296 -> wp (vmm_unmap va) s (unmap_post s va).
Proof.
  intros Hs Hva. unfold vmm_unmap. run. rewrite (wf_init _ Hs). cbn [negb orb].
  change (PAGE_SIZE - 1) with 4095. rewrite land_low_4095.
  assert (unmap_post s va None s <-> (below_window va -> va mod 4096 = 0 -> walk s va = None)) as Hnone
    by (unfold unmap_post; pose proof (kept_refl s (dir_index va)); naive_solver).
  destruct (_ || _) eqn:Eg.
  { run. apply Hnone. unfold below_window. intros. lia. }
  assert (below_window va /\ va mod 4096 = 0) as [Hbw Hal] by (unfold below_window; lia).
  pose proof (below_window_index va Hbw) as [Hd Ht]. run.
  apply wp_read_pd; [apply Hs|lia|]. rewrite present_land.
  destruct (present (pde s (dir_index va))) eqn:Hp; run.
  2:{ apply Hnone. intros _ _. unfold walk. by rewrite Hp. }
  change PAGE_ENTRY_COUNT with 1024. apply wp_read_pt; [apply Hs|done|done|done|]. rewrite present_land.
  set (e := pte s (dir_index va) (table_index va)).
  assert (walk s va = if present e then Some e else None) as Ew by (unfold walk; by rewrite Hp).
  destruct (present e) eqn:He; run; [|by apply Hnone].
  assert ((dir_index va, table_index va) <> (768, 1023)) as Hsc.
  { intros [= E1 E2]. subst e. rewrite E1, E2, (wf_scratch _ Hs) in He. done. }
  apply wp_write_pt; [apply Hs|done|done|done|]. unfold invalidate_page. run.
  set (s1 := poke (tbl s (dir_index va) + 4 * table_index va) 0 s).
  assert (wf s1) as Hs1 by (by apply wf_poke_pte).
  destruct (poke_pte_facts s (dir_index va) (table_index va) 0 Hs Hd Ht Hp) as (Hpde & _ & _ & Hh).
  fold s1 in Hpde, Hh.
  assert (walk s1 va = None /\ forall vb, below_window vb -> vb mod 4096 = 0 -> vb <> va ->
    walk s1 vb = walk s vb) as [Hw1 Hw2].
  { split; [unfold s1; by rewrite walk_poke_pte, !Z.eqb_refl by done|]. intros vb Hvb Halb Hne.
    unfold s1. rewrite walk_poke_pte by done.
    destruct (Z.eqb_spec (dir_index va) (dir_index vb)), (Z.eqb_spec (table_index va) (table_index vb));
      try done. destruct Hne. by apply page_of_index. }
  assert (unmap_post s va (Some (entry_frame e)) s1) as Hdone.
  { split; [done|]. split; [done|]. split; [by apply kept_poke_pte|]. exists e. done. }
  destruct (Z.eqb_spec (dir_index va) KERNEL_PDE_INDEX) as [Ek|Ek]; [by run|]. run.
  assert (present (pde s1 (dir_index va)) = true) as Hp1 by (by rewrite Hpde by lia).
  change 1024 with PAGE_ENTRY_COUNT. apply table_empty_ok; [done|done|done|by run|]. intros Hempty. run.
  apply wp_read_pd; [apply Hs1|lia|]. run. apply wp_write_pd; [apply Hs1|lia|]. run.
  change (Z.land (pde s1 (dir_index va)) PAGE_MASK) with (tbl s1 (dir_index va)).
  destruct (wf_table _ Hs1 _ Hd Hp1) as ([Htr _] & _ & _).
  wp_apply (fa_free_ok (frames s1)); [apply Hs1|lia|]. intros ok fr (Hfa & Hok).
  destruct ok; [|destruct Hok as [_ []]; by apply (wf_held _ Hs1)].
  destruct Hok as (_ & Hcount & Hav & Hheld). run.
  destruct (remove_table_ok s1 (dir_index va) fr) as (Hs2 & Hwalk2 & Hh2 & Hk2); [done..|].
  split; [done|]. split; [intros b; by rewrite Hh2, Hh|].
  split; [eapply kept_trans; [by apply kept_poke_pte|exact Hk2]|]. exists e. split; [done|]. split; [done|].
  split; [by rewrite Hwalk2|]. intros vb Hvb Halb Hne. rewrite Hwalk2 by done. by apply Hw2.
Qed.

Lemma land_mod_8 x m : 0 <= m < 8 -> Z.land x m = Z.land (x mod 8) m.
Proof.
  intros Hm. rewrite <-land_low_7, <-Z.land_assoc. f_equal.
  rewrite Z.land_comm. change 7 with (Z.ones 3). rewrite Z.land_ones by lia. by rewrite Z.mod_small.
Qed.

Definition query_flags (e p : Z) : Z :=
  let flags := Z.land e (Z.lor PAGE_WRITABLE PAGE_USER) in
  let flags := if Z.land p PAGE_WRITABLE =? 0 then Z.land flags (not32 PAGE_WRITABLE) else flags in
  if Z.land p PAGE_USER =? 0 then Z.land flags (not32 PAGE_USER) else flags.

Lemma query_flags_ok e p : query_flags e p = Z.land (Z.land e p) 6.
Proof.
  unfold query_flags. change (Z.lor PAGE_WRITABLE PAGE_USER) with 6.
  rewrite (land_mod_8 (Z.land e p) 6), (land_mod_8 e 6) by lia.
  rewrite (land_mod_8 p PAGE_WRITABLE), (land_mod_8 p PAGE_USER) by (by vm_compute).
  replace (Z.land e p mod 8) with (Z.land (e mod 8) (p mod 8)).
  2:{ rewrite <-!land_low_7. apply Z.bits_inj'. intros i _. rewrite !Z.land_spec.
      by destruct (Z.testbit e i), (Z.testbit p i), (Z.testbit 7 i). }
  assert (forall a, 0 <= a mod 8 < 8) as Hr by (intros; apply Z.mod_pos_bound; lia).
  pose proof (Hr e) as He. pose proof (Hr p) as Hp. revert He Hp.
  generalize (e mod 8) (p mod 8). intros a b Ha Hb.
  assert (a ∈ seqZ 0 8) as Ha' by (apply elem_of_seqZ; lia).
  assert (b ∈ seqZ 0 8) as Hb' by (apply elem_of_seqZ; lia).
  unfold seqZ in Ha', Hb'. simpl in Ha', Hb'. rewrite !elem_of_cons, elem_of_nil in Ha', Hb'.
  destruct Ha' as [-> |[-> |[-> |[-> |[-> |[-> |[-> |[-> |[]]]]]]]]];
    destruct Hb' as [-> |[-> |[-> |[-> |[-> |[-> |[-> |[-> |[]]]]]]]]]; done.
Qed.

Lemma query_address e va : 0 <= va < 4294967296 -> 0 <= entry_frame e -> entry_frame e mod 4096 = 0 ->
  Z.lor (Z.land e PAGE_MASK) (Z.land va (not32 PAGE_MASK)) = entry_frame e + va mod 4096.
Proof.
  intros Hva Hr Ha. change (not32 PAGE_MASK) with 4095. rewrite land_low_4095. apply lor_aligned; [done|done|].
  apply Z.mod_pos_bound. lia.
Qed.

Lemma entry_frame_aligned e : 0 <= entry_frame e /\ entry_frame e mod 4096 = 0.
Proof.
  unfold entry_frame. split; [apply Z.land_nonneg; right; done|].
  rewrite <-land_low_4095, <-Z.land_assoc. change (Z.land PAGE_MASK 4095) with 0. apply Z.land_0_r.
Qed.

(** [vmm_query] changes nothing and reports what the processor's page walk
    would do: the mapped frame plus the offset in the page, and exactly the
    write and user permissions granted by both the directory and the table
    entry; an unmapped page is reported as such. *)
Lemma vmm_query_ok s va : wf s -> below_window va ->
  wp (vmm_query va) s (fun r s' => s' = s /\
    r = match walk s va with
        | Some e => Some (entry_frame e + va mod 4096, Z.land (Z.land e (pde s (dir_index va))) 6)
        | None => None
        end).
Proof.
  intros Hs Hbw. pose proof (below_window_index va Hbw) as [Hd Ht]. unfold vmm_query. run.
  rewrite (wf_init _ Hs). unfold below_window in Hbw. rewrite (proj2 (Z.leb_gt _ _)) by lia. run.
  apply wp_read_pd; [apply Hs|lia|]. run. rewrite present_land. unfold walk in *.
  destruct (present (pde s (dir_index va))) eqn:Hp; run; [|done].
  change PAGE_ENTRY_COUNT with 1024. apply wp_read_pt; [apply Hs|done|done|done|]. rewrite present_land.
  set (e := pte s (dir_index va) (table_index va)) in *.
  destruct (present e) eqn:He; run; [|done].
  apply wp_read_pd; [apply Hs|lia|]. run. split; [done|]. destruct (entry_frame_aligned e).
  rewrite query_address by (unfold RECURSIVE_PAGE_TABLES in *; word_lia).
  do 2 f_equal. apply (query_flags_ok e).
Qed.

(** ** The interface to the heap *)

Lemma client_below_window va : client_page va -> below_window va /\ va mod 4096 = 0 /\ 0 <= va < 4294967296.
Proof. unfold client_page, page_aligned, below_window, RECURSIVE_PAGE_TABLES. lia. Qed.

Lemma client_mappable va pa : client_page va -> page_address pa -> mappable va pa VMM_WRITABLE.
Proof.
  unfold client_page, page_aligned, page_address, mappable, SCRATCH_VIRTUAL_ADDRESS, RECURSIVE_PAGE_TABLES, KERNEL_BASE.
  change (Z.land VMM_WRITABLE PAGE_USER) with 0. lia.
Qed.

Lemma wf_set_frames s fr :
  wf s -> fa_inv fr ->
  (forall d, 0 <= d < 1023 -> present (pde s d) = true -> ~ fa_avail fr (tbl s d)) ->
  ~ fa_avail fr (cr3 s) ->
  (forall d, 0 <= d < 1023 -> d <> 768 -> present (pde s d) = true -> fa_held fr (tbl s d)) ->
  wf (set_frames fr s).
Proof.
  intros [? ? Hm ? ? Ht ? ? ?] ? Hav ? ?. split; try done; [by apply mmu_frames|].
  intros d Hd Hp. destruct (Ht d Hd Hp) as (? & ? & _). split; [done|]. split; [done|]. by apply Hav.
Qed.

Definition vmm_mapped s (va : Z) : option Z := entry_frame <$> walk s va.

Lemma vmm_alloc_ok s : wf s ->
  wp (zoom fa_alloc) s (fun a s' => wf s' /\ (forall va, vmm_mapped s' va = vmm_mapped s va) /\
    ((a = 0 /\ forall b, client_held s' b <-> client_held s b) \/
     (page_address a /\ ~ client_held s a /\ forall b, client_held s' b <-> client_held s b \/ b = a))).
Proof.
  intros Hs. run. wp_apply (fa_alloc_ok (frames s)); [apply Hs|].
  intros f fr (Hfa & [(-> & -> & _ & Hnone)|(Hav & _ & Hav' & Hheld')]).
  { replace (lset (frames s) s) with s by (by destruct s). split; [done|]. split; [done|]. by left. }
  destruct (fresh_frame s f Hs Hav) as (Hf & Hfc & Hft). change (lset fr s) with (set_frames fr s).
  split; [|split; [done|right; split; [done|split]]].
  - apply wf_set_frames; [done|done| | |].
    + intros d Hd Hp Ha. apply (wf_table _ Hs d Hd Hp). by apply Hav'.
    + intros Ha. apply (wf_cr3 _ Hs). by apply Hav'.
    + intros d Hd Hn Hp. apply Hheld'. left. by apply (wf_held _ Hs).
  - intros (Hb & _). by apply (fa_disjoint _ _ (wf_fa _ Hs) Hav).
  - intros b. unfold client_held. change (frames (set_frames fr s)) with fr. rewrite Hheld'.
    change (cr3 (set_frames fr s)) with (cr3 s). split; [tauto|].
    intros [?| ->]; [tauto|]. split; [tauto|]. split; [done|]. exact Hft.
Qed.

Lemma vmm_free_ok s a : wf s -> page_address a -> client_held s a ->
  wp (zoom (fa_free a)) s (fun ok s' => ok = true /\ wf s' /\
    (forall va, vmm_mapped s' va = vmm_mapped s va) /\
    (forall b, client_held s' b <-> client_held s b /\ b <> a)).
Proof.
  intros Hs [Hr Ha] (Hh & Hc & Ht). run. wp_apply (fa_free_ok (frames s)); [apply Hs|lia|].
  intros ok fr (Hfa & Hok). destruct ok; [|by destruct Hok as [_ []]].
  destruct Hok as (_ & _ & Hav & Hheld). split; [done|]. change (lset fr s) with (set_frames fr s).
  split; [|split; [done|]].
  - apply wf_set_frames; [done|done| | |].
    + intros d Hd Hp [?|E]%Hav; [by apply (wf_table _ Hs d Hd Hp)|]. by apply (Ht d Hd Hp).
    + intros [?|E]%Hav; [by apply (wf_cr3 _ Hs)|congruence].
    + intros d Hd Hn Hp. apply Hheld. split; [by apply (wf_held _ Hs)|]. intros E. by apply (Ht d Hd Hp).
  - intros b. unfold client_held. change (frames (set_frames fr s)) with fr. rewrite Hheld.
    change (cr3 (set_frames fr s)) with (cr3 s).
    change (forall d, 0 <= d < 1023 -> present (pde (set_frames fr s) d) = true -> b <> tbl (set_frames fr s) d)
      with (forall d, 0 <= d < 1023 -> present (pde s d) = true -> b <> tbl s d). tauto.
Qed.

#[global] Instance vmm_page_mapper : PageMapper (state F).
Proof.
  refine {| pm_alloc := zoom fa_alloc; pm_free := fun a => zoom (fa_free a);
            pm_map := vmm_map; pm_unmap := vmm_unmap;
            pm_inv := wf; pm_mapped := vmm_mapped; pm_held := client_held |}.
  - exact vmm_alloc_ok.
  - exact vmm_free_ok.
  - intros s va pa Hs Hva Hpa Hh Hnone.
    pose proof (client_mappable _ _ Hva Hpa) as Hmap. destruct (client_below_window va Hva) as (Hbw & Hal & Hr).
    wp_apply (vmm_map_ok s va pa VMM_WRITABLE); [done|done|destruct Hpa; lia|].
    intros ok s' (Hs' & Hheld & _ & Hpost). split; [done|]. split; [done|]. intros vb Hvb.
    destruct (client_below_window vb Hvb) as (Hbwb & Halb & _). unfold vmm_mapped.
    destruct ok; cbn [andb].
    + destruct Hpost as (_ & _ & Hw & Hoth). destruct (Z.eqb_spec va vb) as [<-|Hne].
      * rewrite Hw. simpl. f_equal. apply map_entry_ok; [destruct Hpa; lia|apply Hpa].
      * by rewrite Hoth.
    + destruct Hpost as [Hw _]. by rewrite Hw.
  - intros s va pa Hs Hva Hm. destruct (client_below_window va Hva) as (Hbw & Hal & Hr).
    wp_apply (vmm_unmap_ok s va); [done|done|]. intros r s' (Hs' & Hheld & _ & Hpost).
    unfold vmm_mapped in *. destruct r as [pa'|].
    + destruct Hpost as (e & Hw & -> & Hw' & Hoth). rewrite Hw in Hm. simplify_eq/=.
      split; [done|]. split; [done|]. split; [done|]. intros vb Hvb.
      destruct (client_below_window vb Hvb) as (Hbwb & Halb & _).
      destruct (Z.eqb_spec va vb) as [<-|Hne]; [by rewrite Hw'|by rewrite Hoth].
    + destruct Hpost as [_ Hn]. rewrite Hn in Hm by done. done.
Defined.

(** C12. [vmm_map] keeps the page tables well formed and the client's frames its
    own. When it succeeds the page was acceptable and unmapped and now maps
    exactly the given frame with the given permissions; when it fails no
    translation changes, and an acceptable page fails only because it was mapped
    or no frame is left for a page table. No other page is ever affected. *)
Theorem vmm_map_exact s va pa flags :
  wf s -> 0 <= va < 4294967296 -> 0 <= pa < 4294967296 ->
  wp (vmm_map va pa flags) s (fun ok s' =>
    wf s' /\ (forall b, client_held s' b <-> client_held s b) /\
    (forall vb, below_window vb -> vb mod 4096 = 0 -> vb <> va -> walk s' vb = walk s vb) /\
    if ok then mappable va pa flags /\ walk s va = None /\
      walk s' va = Some (map_entry pa flags) /\ vmm_mapped s' va = Some pa
    else (below_window va -> walk s' va = walk s va) /\
      (mappable va pa flags -> walk s va <> None \/ forall b, ~ fa_avail (frames s) b)).
Proof.
  intros Hs Hva Hpa. wp_apply (vmm_map_ok s va pa flags); [done..|].
  intros ok s' (Hs' & Hh & _ & Hpost). split; [done|]. split; [done|]. destruct ok.
  - destruct Hpost as (Hm & Hn & Hw & Ho). split; [done|]. split; [done|]. split; [done|].
    split; [done|]. unfold vmm_mapped. rewrite Hw. simpl. f_equal. apply map_entry_ok; [done|apply Hm].
  - destruct Hpost as (Hw & Hr). split; [intros; by apply Hw|]. split; [apply Hw|]. intros Hm. destruct (Hr Hm) as [|[_ ?]]; auto.
Qed.

(** Mapping an unmapped page and unmapping it again gives back the frame
    that was mapped and restores the translation of every page below the
    recursive window, whether or not a page table was created on the way. *)
Theorem vmm_map_unmap_roundtrip s va pa flags :
  wf s -> 0 <= va < 4294967296 -> 0 <= pa < 4294967296 ->
  wp (let! ok := vmm_map va pa flags in if ok : bool then vmm_unmap va else ret (Some pa)) s
    (fun r s' => r = Some pa /\ wf s' /\ (forall b, client_held s' b <-> client_held s b) /\
      forall vb, below_window vb -> vb mod 4096 = 0 -> walk s' vb = walk s vb).
Proof.
  intros Hs Hva Hpa. apply wp_bind. wp_apply (vmm_map_ok s va pa flags); [done..|].
  intros [] s1 (Hs1 & Hh1 & _ & Hpost).
  2:{ apply wp_ret. destruct Hpost as [Hw _]. split; [done|]. split; [done|]. split; [done|].
      intros. by apply Hw. }
  destruct Hpost as (Hm & Hn & Hw & Ho). pose proof Hm as (Hal & Hpal & _ & Hlt & _).
  wp_apply (vmm_unmap_ok s1 va); [done..|]. intros r s2 (Hs2 & Hh2 & _ & Hpost).
  destruct r as [pa'|].
  - destruct Hpost as (e & He & -> & Hw2 & Ho2). rewrite Hw in He. simplify_eq.
    split; [f_equal; by apply map_entry_ok|]. split; [done|]. split; [intros b; by rewrite Hh2|].
    intros vb Hvb Halb. destruct (decide (vb = va)) as [->|Hne]; [congruence|].
    rewrite Ho2 by done. by apply Ho.
  - destruct Hpost as [_ Hn2]. rewrite Hn2 in Hw; [done|unfold below_window; lia|done].
Qed.

(** ** Initialisation *)

(** The page tables kernel/arch/x86/entry.asm leaves for [vmm_init]: the first
    4 MiB mapped writable at 0 and at [KERNEL_BASE], nothing else. *)
Definition dir_phys (img : image) : Z := boot_page_directory img - KERNEL_BASE.
Definition tbl_phys (img : image) : Z := boot_page_table img - KERNEL_BASE.

Record boot_tables (img : image) s : Prop := {
  bt_dir : page_address (dir_phys img) /\ dir_phys img < 0x3FF000;
  bt_tbl : page_address (tbl_phys img) /\ tbl_phys img < 0x3FF000;
  bt_distinct : dir_phys img <> tbl_phys img;
  bt_cr3 : cr3 s = dir_phys img;
  bt_pde : forall d, 0 <= d < 1024 ->
    rd s (dir_phys img + 4 * d) = if (d =? 0) || (d =? 768) then tbl_phys img + 3 else 0;
  bt_pte : forall t, 0 <= t < 1024 -> rd s (tbl_phys img + 4 * t) = 4096 * t + 3
}.

(** The kernel image: it holds both tables in writable pages and leaves the
    scratch page alone. *)
Record image_ok (img : image) (kstart kend : Z) : Prop := {
  im_dir : kstart <= dir_phys img < kend /\ page_is_read_only_kernel img (boot_page_directory img) = false;
  im_tbl : kstart <= tbl_phys img < kend /\ page_is_read_only_kernel img (boot_page_table img) = false;
  im_end : kend <= 0x3FF000
}.

(** The entry [vmm_init] writes for page [t] of the first 4 MiB. *)
Definition init_entry (img : image) (kstart kend t : Z) : Z :=
  let physical := t * 4096 in
  if (physical =? VGA_PHYSICAL_ADDRESS) || ((kstart <=? physical) && (physical <? kend)) then
    if (physical =? VGA_PHYSICAL_ADDRESS) || negb (page_is_read_only_kernel img (KERNEL_BASE + physical))
    then physical + 3 else physical + 1
  else 0.

Section init.
Variables (img : image) (kstart kend : Z) (s0 : state F).
Hypothesis Hbt : boot_tables img s0.
Hypothesis Hok : image_ok img kstart kend.

(** The tables after [i] rounds of the loop, with [e] added directory entries. *)
Record progress (i : Z) s : Prop := {
  pr_state : exists m, s = set_phys m s0;
  pr_pde : forall d, 0 <= d < 1024 -> rd s (dir_phys img + 4 * d) = rd s0 (dir_phys img + 4 * d);
  pr_pte : forall t, 0 <= t < 1024 ->
    rd s (tbl_phys img + 4 * t) = if t <? i then init_entry img kstart kend t else 4096 * t + 3
}.

Lemma kept_entry p : page_address p -> p < 0x3FF000 -> kstart <= p < kend ->
  page_is_read_only_kernel img (KERNEL_BASE + p) = false ->
  init_entry img kstart kend (p / 4096) = p + 3.
Proof.
  intros [Hr Ha] Hlt Hk Hro. unfold init_entry. replace (p / 4096 * 4096) with p by word_lia.
  rewrite Hro. rewrite (proj2 (Z.leb_le _ _)), (proj2 (Z.ltb_lt _ _)) by lia.
  by rewrite !orb_true_r.
Qed.

Lemma kernel_page_entry s i p : progress i s -> page_address p -> p < 0x3FF000 -> kstart <= p < kend ->
  page_is_read_only_kernel img (KERNEL_BASE + p) = false ->
  rd s (tbl_phys img + 4 * (p / 4096)) = p + 3.
Proof.
  intros Hp Hpa Hlt Hk Hro. destruct Hpa as [Hr Ha].
  rewrite (pr_pte _ _ Hp) by word_lia. destruct (_ <? i); [by apply kept_entry|word_lia].
Qed.

(** A write to a kernel data page at its high address. *)
Lemma wp_write_high s p t v (Q : unit -> state F -> Prop) :
  cr3 s = dir_phys img -> rd s (dir_phys img + 4 * 768) = tbl_phys img + 3 ->
  rd s (tbl_phys img + 4 * (p / 4096)) = p + 3 -> page_address p -> p < 0x3FF000 -> 0 <= t < 1024 ->
  Q tt (poke (p + 4 * t) v s) -> wp (vwrite (KERNEL_BASE + p + 4 * t) v) s Q.
Proof.
  intros Hc H768 Hpte Hpa Hlt Ht HQ. destruct (bt_dir _ _ Hbt) as [Hd _].
  destruct (bt_tbl _ _ Hbt) as [Htb _]. rewrite <-Hc in H768. fold (pde s 768) in H768.
  assert (tbl s 768 = tbl_phys img) as Htbl.
  { unfold tbl. rewrite H768. apply entry_frame_add; [destruct Htb; lia|apply Htb|lia]. }
  rewrite <-Htbl in Hpte. fold (pte s 768 (p / 4096)) in Hpte.
  pose proof (self_flags _ Htb) as [? ?]. pose proof (self_flags _ Hpa) as [? ?]. destruct Hpa as [Hr Ha].
  unfold wp, vwrite.
  replace (KERNEL_BASE + p + 4 * t) with (768 * 4194304 + p / 4096 * 4096 + 4 * t)
    by (unfold KERNEL_BASE; word_lia).
  rewrite translate_entry; rewrite ?H768, ?Hpte, ?Hc; try done; [|word_lia].
  by rewrite entry_frame_add by lia.
Qed.

Lemma wp_write_kernel s i p t v (Q : unit -> state F -> Prop) :
  progress i s -> page_address p -> p < 0x3FF000 -> kstart <= p < kend ->
  page_is_read_only_kernel img (KERNEL_BASE + p) = false -> 0 <= t < 1024 ->
  Q tt (poke (p + 4 * t) v s) -> wp (vwrite (KERNEL_BASE + p + 4 * t) v) s Q.
Proof.
  intros Hp Hpa Hlt Hk Hro Ht HQ. pose proof Hp as [[m Es] Hpde _].
  apply wp_write_high; try done; [rewrite Es; apply Hbt| |by eapply kernel_page_entry].
  rewrite Hpde by lia. by rewrite (bt_pde _ _ Hbt) by lia.
Qed.

Lemma init_loop_body s i : progress i s -> 0 <= i < 1024 ->
  wp (let physical := i *u PAGE_SIZE in
      let virtual_address := KERNEL_BASE +u physical in
      if (physical =? VGA_PHYSICAL_ADDRESS) || ((kstart <=? physical) && (physical <? kend)) then
        let flags :=
          if (physical =? VGA_PHYSICAL_ADDRESS) || negb (page_is_read_only_kernel img virtual_address)
          then Z.lor PAGE_PRESENT PAGE_WRITABLE else PAGE_PRESENT in
        vwrite (boot_page_table img + 4 * i) (Z.lor physical flags)
      else vwrite (boot_page_table img + 4 * i) 0) s (fun _ s' => progress (i + 1) s').
Proof.
  intros Hp Hi. destruct (bt_tbl _ _ Hbt) as [Htb Htl]. destruct (im_tbl _ _ _ Hok) as [Hk Hro].
  assert (forall v, v = init_entry img kstart kend i ->
    wp (vwrite (boot_page_table img + 4 * i) v) s (fun _ s' => progress (i + 1) s')) as Hw.
  { intros v Hv. replace (boot_page_table img) with (KERNEL_BASE + tbl_phys img)
      in * by (unfold tbl_phys; lia).
    eapply wp_write_kernel; [done..|]. destruct Hp as [[m ->] Hpde Hpte]. split; [by eexists| |].
    - intros d Hd. rewrite rd_poke, (proj2 (Z.eqb_neq _ _)); [by apply Hpde|].
      pose proof (bt_distinct _ _ Hbt). apply page_disjoint; [apply Htb|apply (bt_dir _ _ Hbt)|done|lia|lia].
    - intros t Ht. rewrite rd_poke. destruct (Z.eqb_spec (tbl_phys img + 4 * i) (tbl_phys img + 4 * t)).
      + replace t with i by lia. by rewrite (proj2 (Z.ltb_lt i (i + 1))) by lia.
      + rewrite Hpte by done. destruct (Z.ltb_spec t i), (Z.ltb_spec t (i + 1)); lia || done. }
  cbv zeta. replace (i *u PAGE_SIZE) with (i * 4096) by (unfold PAGE_SIZE; word_lia).
  replace (KERNEL_BASE +u (i * 4096)) with (KERNEL_BASE + i * 4096) by (unfold KERNEL_BASE; word_lia).
  unfold init_entry in Hw. destruct (_ || _); [|by apply Hw]. apply Hw.
  destruct (_ || negb _); rewrite lor_aligned; try done; try word_lia; vm_compute; naive_solver.
Qed.

(** The directory entries after the loop: [vmm_init] sets entries 768 and 1023
    and clears entry 0. *)
Lemma init_directory s : progress 1024 s ->
  wp (vwrite (boot_page_directory img + 4 * KERNEL_PDE_INDEX)
        (Z.lor (Z.lor (boot_page_table img -u KERNEL_BASE) PAGE_PRESENT) PAGE_WRITABLE) ;;
      vwrite (boot_page_directory img + 4 * RECURSIVE_PDE_INDEX)
        (Z.lor (Z.lor (dir_phys img) PAGE_PRESENT) PAGE_WRITABLE) ;;
      vwrite (boot_page_directory img) 0) s (fun _ s' =>
    (exists m, s' = set_phys m s0) /\
    (forall d, 0 <= d < 1024 -> rd s' (dir_phys img + 4 * d) =
       if d =? 768 then tbl_phys img + 3 else if d =? 1023 then dir_phys img + 3 else 0) /\
    (forall t, 0 <= t < 1024 -> rd s' (tbl_phys img + 4 * t) = init_entry img kstart kend t)).
Proof.
  intros Hp. destruct (bt_dir _ _ Hbt) as [Hd Hdl]. destruct (bt_tbl _ _ Hbt) as [Htb Htl].
  destruct (im_dir _ _ _ Hok) as [Hk Hro].
  replace (boot_page_directory img) with (KERNEL_BASE + dir_phys img) in * by (unfold dir_phys; lia).
  replace (boot_page_table img -u KERNEL_BASE) with (tbl_phys img)
    by (unfold tbl_phys in *; destruct Htb; word_lia).
  assert (forall p, page_address p -> Z.lor (Z.lor p PAGE_PRESENT) PAGE_WRITABLE = p + 3) as Hor.
  { intros p [? ?]. rewrite <-Z.lor_assoc. apply lor_aligned; [lia|done|by vm_compute]. }
  rewrite !Hor by done.
  assert (rd s (tbl_phys img + 4 * (dir_phys img / 4096)) = dir_phys img + 3) as Hself
    by (by eapply kernel_page_entry).
  assert (forall d, 0 <= d < 1024 -> rd s (dir_phys img + 4 * d) =
    if (d =? 0) || (d =? 768) then tbl_phys img + 3 else 0) as Hpde.
  { intros d Hd'. rewrite (pr_pde _ _ Hp) by done. by apply Hbt. }
  assert (forall d t, 0 <= d < 1024 -> 0 <= t < 1024 ->
    (dir_phys img + 4 * d =? tbl_phys img + 4 * t) = false) as Hdis.
  { intros d t ? ?. apply Z.eqb_neq. apply page_disjoint; [apply Hd|apply Htb|apply (bt_distinct _ _ Hbt)|done|done]. }
  destruct Hp as [[m ->] _ Hpte]. set (s := set_phys m s0) in *.
  assert (0 <= dir_phys img / 4096 < 1024) as Hdi by (destruct Hd; word_lia).
  assert (cr3 s = dir_phys img) as Hc by apply Hbt.
  unfold KERNEL_PDE_INDEX, RECURSIVE_PDE_INDEX. run.
  apply wp_write_high; try done; [rewrite Hpde by lia; done|]. run.
  apply wp_write_high; try done; [by rewrite rd_poke, Z.eqb_refl|by rewrite rd_poke, Hdis by lia|]. run.
  replace (KERNEL_BASE + dir_phys img) with (KERNEL_BASE + dir_phys img + 4 * 0) by lia.
  apply wp_write_high; try done;
    [rewrite !rd_poke, (proj2 (Z.eqb_neq _ _)), Z.eqb_refl by lia; done|by rewrite !rd_poke, !Hdis by lia|].
  split; [by eexists|]. split.
  - intros d Hd'. rewrite !rd_poke, Hpde by done.
    assert (forall a, (dir_phys img + 4 * a =? dir_phys img + 4 * d) = (d =? a)) as Heq.
    { intros a. clear. destruct (Z.eqb_spec d a) as [->|]; [apply Z.eqb_refl|]. apply Z.eqb_neq. lia. }
    rewrite !Heq. destruct (Z.eqb_spec d 0) as [->|]; [done|].
    destruct (Z.eqb_spec d 1023) as [->|]; [done|]. by destruct (d =? 768).
  - intros t Ht. rewrite !rd_poke, !Hdis by lia. rewrite Hpte by done.
    by rewrite (proj2 (Z.ltb_lt _ _)) by lia.
Qed.

End init.

(** From the tables the entry code builds, [vmm_init] leaves exactly the
    mapping it is meant to: the kernel image and the VGA page at their high
    addresses, text and read-only data without write permission, nothing else
    (the low identity mapping is gone), the recursive entry in place, and the
    invariant the page-table operations need. *)
Lemma vmm_init_ok img kstart kend s :
  boot_tables img s -> image_ok img kstart kend ->
  fa_inv (frames s) -> ~ fa_avail (frames s) (dir_phys img) -> ~ fa_avail (frames s) (tbl_phys img) ->
  wp (vmm_init img kstart kend) s (fun _ s' =>
    wf s' /\ frames s' = frames s /\ kernel_page_directory_physical s' = dir_phys img /\
    forall va, below_window va -> walk s' va =
      let e := init_entry img kstart kend (table_index va) in
      if (dir_index va =? 768) && present e then Some e else None).
Proof.
  intros Hbt Hok Hfa Hnd Hnt. destruct (bt_dir _ _ Hbt) as [Hd Hdl]. destruct (bt_tbl _ _ Hbt) as [Htb Htl].
  unfold vmm_init, read_cr3. run. rewrite (bt_cr3 _ _ Hbt).
  assert (Z.land (dir_phys img) PAGE_MASK = dir_phys img) as ->.
  { pose proof (cr3_masked s) as H. rewrite (bt_cr3 _ _ Hbt) in H. by apply H. }
  destruct (im_dir _ _ _ Hok) as [Hk _]. rewrite (proj2 (Z.leb_gt _ _)) by lia.
  apply wp_bind. apply (wp_for_range (progress img kstart kend s)).
  { split; [by exists (phys s); destruct s|done|]. intros t Ht. rewrite (proj2 (Z.ltb_ge _ _)) by lia.
    by apply Hbt. }
  { intros i s1 Hi Hp. by apply (init_loop_body img kstart kend s Hbt Hok). }
  intros s1 Hp. apply wp_seq3. eapply wp_mono; [by apply (init_directory img kstart kend s Hbt Hok)|].
  clear s1 Hp. intros _ s1 ([m ->] & Hpde & Hpte). unfold enable_write_protect, reload_cr3. run.
  set (s' := State _ _ _ _ true _).
  assert (forall d, 0 <= d < 1024 -> pde s' d = if d =? 768 then tbl_phys img + 3
    else if d =? 1023 then dir_phys img + 3 else 0) as Hpde' by apply Hpde.
  assert (tbl s' 768 = tbl_phys img) as Ht768.
  { unfold tbl. rewrite Hpde' by lia. apply entry_frame_add; [destruct Htb; lia|apply Htb|lia]. }
  assert (forall t, 0 <= t < 1024 -> pte s' 768 t = init_entry img kstart kend t) as Hpte'.
  { intros t Ht. unfold pte. rewrite Ht768. by apply Hpte. }
  assert (forall d, 0 <= d < 1023 -> present (pde s' d) = (d =? 768)) as Hpr.
  { intros d Hd'. rewrite Hpde' by lia. destruct (Z.eqb_spec d 768); [by apply self_flags|].
    by rewrite (proj2 (Z.eqb_neq d 1023)) by lia. }
  split; [|split; [done|split; [done|]]].
  - split; try done; [split| | | | |]; try done.
    + by rewrite Hpde' by lia.
    + intros d Hd' Hpd. rewrite Hpr in Hpd by done. rewrite Hpde', Hpd by lia. by apply self_flags.
    + by rewrite Hpr by lia.
    + rewrite Hpte' by lia. unfold init_entry. pose proof (im_end _ _ _ Hok).
      rewrite (proj2 (Z.ltb_ge _ _)) by lia. by rewrite andb_false_r.
    + intros d Hd' Hpd. rewrite Hpr in Hpd by done. apply Z.eqb_eq in Hpd as ->. rewrite Ht768.
      split; [done|]. split; [|done]. intros E. by apply (bt_distinct _ _ Hbt).
    + intros d d' H1 H2. rewrite !Hpr by done. lia.
    + intros d Hd' Hn. rewrite Hpr by done. lia.
  - intros va Hva. apply below_window_index in Hva as [Hdi Hti]. unfold walk. rewrite Hpr by done.
    destruct (Z.eqb_spec (dir_index va) 768) as [->|]; [|done]. cbn [andb]. by rewrite Hpte'.
Qed.

End vmm.
