(* ===== verification/MemoryBoot.v ===== *)
(** * The memory subsystem at boot

    kernel/core/kernel.c brings memory up in this order: the physical frames,
    the kernel page tables, the heap. Here the three models are put on top of
    each other, each on the real one below it, and the sequence is shown to
    establish all their invariants. *)

From S2P Require Import Prelude Monad Interfaces Cpu Pmm Vmm VmmSpec Heap HeapProofs HeapSpec.
Import Pmm Vmm Heap.

(** The memory state of the kernel: the heap on the page tables on the frames. *)
Definition machine : Type := Heap.state (Vmm.state Pmm.state).

(** [pmm_init(boot_info); vmm_init(boot_info); heap_init();] of [kernel_main]. *)
Definition memory_boot (img : image) (bi : boot_info) (entries : list e820_entry) : M machine unit :=
  zoom (zoom (T := Pmm.state) (pmm_init (Some bi) entries) : M (Vmm.state Pmm.state) unit) ;;
  zoom (vmm_init img (kernel_physical_start bi) (kernel_physical_end bi) : M (Vmm.state Pmm.state) unit) ;;
  heap_init.

Lemma kernel_frame_taken bi entries s p :
  init_post bi entries s -> p mod 4096 = 0 -> 0 <= p < 4294967296 ->
  kernel_physical_start bi <= p < kernel_physical_end bi -> kernel_physical_end bi < 4294967296 ->
  ~ addr_avail s p.
Proof.
  intros Hp Ha Hr Hk He (_ & _ & Hf). apply frame_free_bits in Hf as [Hf _].
  rewrite (ip_allocatable _ _ _ Hp) in Hf. unfold boot_allocatable in Hf.
  rewrite !andb_true_iff, !negb_true_iff in Hf. destruct Hf as [_ Hf].
  unfold page_touched, Pmm.PAGE_SIZE, FOUR_GIB in Hf. word_lia.
Qed.

Lemma boot_tables_frames img (s : Vmm.state Pmm.state) fr :
  boot_tables img s -> boot_tables img (set_frames fr s).
Proof. intros []. by split. Qed.

(** C13. Booting the memory subsystem: from an accepted boot-info block, a memory
    map with a free frame and the entry code's page tables, the three
    initialisers run in order without a fault and either leave a heap of one
    free 4072-byte block over well-formed page tables over a consistent frame
    allocator, or stop with the one panic for a missing heap page. *)
Theorem memory_boot_ok img bi entries (s : machine) :
  boot_info_valid (Some bi) = true -> e820_count bi = Z.of_nat (List.length entries) ->
  Forall entry_ok entries -> kernel_image_ok bi ->
  (exists p, boot_allocatable bi entries p = true) ->
  boot_tables img (Heap.pager s) ->
  image_ok img (kernel_physical_start bi) (kernel_physical_end bi) ->
  Cpu.wf (Heap.cpu s) -> heap_initialized s = false ->
  wpp no_page (memory_boot img bi entries) s (fun _ s' =>
    inv s' [(4072, true)] /\ VmmSpec.wf (Heap.pager s') /\ Pmm.wf (frames (Heap.pager s')) /\
    Heap.cpu s' = Heap.cpu s).
Proof.
  intros Hv Hc Hent Hki Hfree Hbt Hio Hcpu Hni. unfold memory_boot.
  apply wpp_bind_wp, wp_zoom, wp_zoom. wp_apply (pmm_init_wp bi entries); [done..|]. intros _ fr Hpost.
  destruct Hki as [_ Hke]. destruct (bt_dir _ _ Hbt) as [[? ?] _]. destruct (bt_tbl _ _ Hbt) as [[? ?] _].
  apply wpp_bind_wp, wp_zoom.
  wp_apply (vmm_init_ok img (kernel_physical_start bi) (kernel_physical_end bi)).
  { by apply boot_tables_frames. }
  { done. }
  { apply Hpost. }
  { eapply kernel_frame_taken; [exact Hpost|done|lia|apply (im_dir _ _ _ Hio)|lia]. }
  { eapply kernel_frame_taken; [exact Hpost|done|lia|apply (im_tbl _ _ _ Hio)|lia]. }
  intros _ v (Hwf & Hfr & Hk & Hwalk).
  eapply wpp_mono; [apply heap_init_ok; [exact Hwf|exact Hcpu|exact Hni|]|].
  - intros i Hi. simpl. unfold vmm_mapped. rewrite Hwalk by
      (unfold below_window, HEAP_VIRTUAL_START, RECURSIVE_PAGE_TABLES; lia).
    unfold dir_index. rewrite shiftr_22, (proj2 (Z.eqb_neq _ 768)); [done|].
    unfold HEAP_VIRTUAL_START. word_lia.
  - intros _ s' (Hinv & _ & Hcpu'). pose proof (inv_pager _ _ Hinv) as Hwf'.
    split; [done|]. split; [done|]. split; [apply (wf_fa _ Hwf')|done].
Qed.

(** ** A concrete machine

    The 2 MiB machine of Pmm.v with its page directory and page table inside the
    kernel image. *)

Definition demo_image : image :=
  Image 0xC010E000 0xC010F000 0xC0100000 0xC0108000 0xC0108000 0xC010A000.

Definition demo_tables : Zmap Z :=
  list_to_map ([(0x10E000, 0x10F003); (0x10E000 + 4 * 768, 0x10F003)] ++
               ((fun t => (0x10F000 + 4 * t, 4096 * t + 3)) <$> seqZ 0 1024)).

Definition demo_boot_vmm (fr : Pmm.state) : Vmm.state Pmm.state :=
  Vmm.State fr demo_tables 0x10E000 0x80000011 false 0.

Lemma demo_boot_tables fr : boot_tables demo_image (demo_boot_vmm fr).
Proof.
  split; [unfold page_address; vm_compute; naive_solver..|done| |].
  - intros d Hd. apply Z.eqb_eq. revert d Hd.
    apply (seqZ_forallb (fun d => rd (demo_boot_vmm Pmm.blank) (dir_phys demo_image + 4 * d) =?
      (if (d =? 0) || (d =? 768) then tbl_phys demo_image + 3 else 0))). by vm_compute.
  - intros t Ht. apply Z.eqb_eq. revert t Ht.
    apply (seqZ_forallb (fun t => rd (demo_boot_vmm Pmm.blank) (tbl_phys demo_image + 4 * t) =? 4096 * t + 3)).
    by vm_compute.
Qed.

Lemma demo_image_ok : image_ok demo_image (kernel_physical_start demo_boot) (kernel_physical_end demo_boot).
Proof. split; vm_compute; naive_solver. Qed.

Definition demo_vmm : Vmm.state Pmm.state :=
  match vmm_init demo_image 0x100000 0x110800 (demo_boot_vmm Pmm.demo_state) with
  | Ret _ s => s
  | _ => demo_boot_vmm Pmm.demo_state
  end.

Lemma demo_vmm_init fr :
  Pmm.wf fr -> frame_free fr 0x10E = false -> frame_free fr 0x10F = false ->
  wp (vmm_init demo_image 0x100000 0x110800) (demo_boot_vmm fr) (fun _ s => VmmSpec.wf s).
Proof.
  intros Hwf H1 H2. wp_apply (vmm_init_ok demo_image 0x100000 0x110800 (demo_boot_vmm fr)).
  - apply demo_boot_tables.
  - apply demo_image_ok.
  - exact Hwf.
  - intros (_ & _ & Hf). change (frame_free fr 0x10E = true) in Hf. congruence.
  - intros (_ & _ & Hf). change (frame_free fr 0x10F = true) in Hf. congruence.
  - intros _ s (H & _). exact H.
Qed.

Lemma demo_frames_taken :
  frame_free Pmm.demo_state 0x10E = false /\ frame_free Pmm.demo_state 0x10F = false.
Proof. by vm_compute. Qed.

Lemma demo_vmm_wf : VmmSpec.wf demo_vmm.
Proof.
  destruct (proj1 (wp_run _ _ _) (demo_vmm_init Pmm.demo_state Pmm.demo_state_wf
    (proj1 demo_frames_taken) (proj2 demo_frames_taken))) as (u & s & E & Hwf).
  unfold demo_vmm. rewrite E. exact Hwf.
Qed.

Lemma memory_boot_ok_witness :
  wpp no_page (memory_boot demo_image demo_boot demo_entries)
    (Heap.State (demo_boot_vmm Pmm.blank) (Cpu.State 2) ∅ 0 0 0 false)
    (fun _ s' => inv s' [(4072, true)]).
Proof.
  eapply wpp_mono;
    [apply (memory_boot_ok demo_image demo_boot demo_entries);
       [reflexivity|reflexivity|exact demo_entries_ok|done|exact demo_has_frame
       |apply demo_boot_tables|exact demo_image_ok|unfold Cpu.wf; simpl; lia|reflexivity]|].
  intros _ s' (H & _). exact H.
Defined.

(** The booted machine at work: a heap allocation that needs a second page and
    therefore a frame, mapped through the recursive window. *)
Example demo_boot_run :
  match (memory_boot demo_image demo_boot demo_entries ;;
         let! p := kmalloc 5000 in
         let! ok := kfree p in
         let! st := heap_get_stats in
         ret (p, ok, st))
      (Heap.State (demo_boot_vmm Pmm.blank) (Cpu.State 2) ∅ 0 0 0 false) with
  | Ret r s => r = (HEAP_VIRTUAL_START + 24, true, HeapStats 2 0 1 0 8168) /\
      vmm_mapped (Heap.pager s) (HEAP_VIRTUAL_START + 4096) = Some 0x113000
  | _ => False
  end.
Proof. vm_compute. split; reflexivity. Qed.

Lemma vmm_map_exact_witness :
  wp (vmm_map 0xD0000000 0x1F0000 VMM_WRITABLE) demo_vmm (fun ok s' =>
    ok = true -> vmm_mapped s' 0xD0000000 = Some 0x1F0000).
Proof.
  eapply wp_mono;
    [apply (vmm_map_exact demo_vmm 0xD0000000 0x1F0000 VMM_WRITABLE); [apply demo_vmm_wf|lia|lia]|].
  intros ok s' (_ & _ & _ & H) ->. apply H.
Defined.

Lemma vmm_map_unmap_roundtrip_witness :
  wp (let! ok := vmm_map 0xD0000000 0x1F0000 VMM_WRITABLE in
      if ok : bool then vmm_unmap 0xD0000000 else ret (Some 0x1F0000)) demo_vmm
    (fun r _ => r = Some 0x1F0000).
Proof.
  eapply wp_mono;
    [apply (vmm_map_unmap_roundtrip demo_vmm 0xD0000000 0x1F0000 VMM_WRITABLE); [apply demo_vmm_wf|lia|lia]|].
  intros r s' (H & _). exact H.
Defined.

