(* ===== verification/Scheduler.v ===== *)
(** * Processes, kernel/proc/scheduler.c

    The process table and the operations that move processes between their
    states: creation, round-robin choice, sleeping, waiting for children, exit
    and reaping, the timer tick, and the per-process descriptor table and working
    directory. A call of [context_switch] ends the routine of the process that
    is switched away from; what it does when it is resumed is a step of its own. *)

From S2P Require Import Prelude Monad Interfaces Cpu.

(** ** What the scheduler needs from the rest of the kernel

    Kernel stacks come from the heap, address spaces from the page tables, open
    files belong to the file layer. [sv_stack e a] and [sv_space e d] are the
    stacks and spaces the scheduler owns, [sv_active e] the directory in CR3
    (0 for the kernel's own). *)
Class Services (E : Type) := {
  sv_kmalloc : Z -> M E Z;
  sv_kfree : Z -> M E bool;
  sv_store : Z -> Z -> M E unit;
  sv_activate_kernel : M E bool;              (** vmm_activate_kernel_address_space *)
  sv_activate : Z -> M E bool;                (** vmm_address_space_activate *)
  sv_destroy : Z -> M E bool;                 (** vmm_address_space_destroy *)
  sv_set_kernel_stack : Z -> M E unit;        (** gdt_set_kernel_stack *)
  sv_vfs_initialized : M E bool;
  sv_release_file : Z -> M E unit;            (** vfs_close, once the slot is cleared *)

  sv_inv : E -> Prop;
  sv_stack : E -> Z -> Prop;
  sv_space : E -> Z -> Prop;
  sv_active : E -> Z;

  sv_kmalloc_ok : forall n e, sv_inv e -> wp (sv_kmalloc n) e (fun a e' => sv_inv e' /\
    sv_active e' = sv_active e /\ (forall d, sv_space e' d <-> sv_space e d) /\
    ((a = 0 /\ forall b, sv_stack e' b <-> sv_stack e b) \/
     (0 < a /\ a + n < 4294967296 /\ ~ sv_stack e a /\
      forall b, sv_stack e' b <-> sv_stack e b \/ b = a)));
  sv_kfree_ok : forall a e, sv_inv e -> sv_stack e a -> wp (sv_kfree a) e (fun ok e' =>
    ok = true /\ sv_inv e' /\ sv_active e' = sv_active e /\
    (forall d, sv_space e' d <-> sv_space e d) /\
    (forall b, sv_stack e' b <-> sv_stack e b /\ b <> a));
  sv_activate_kernel_ok : forall e, sv_inv e -> wp sv_activate_kernel e (fun ok e' =>
    ok = true /\ sv_inv e' /\ sv_active e' = 0 /\
    (forall d, sv_space e' d <-> sv_space e d) /\ (forall b, sv_stack e' b <-> sv_stack e b));
  sv_activate_ok : forall d e, sv_inv e -> sv_space e d -> wp (sv_activate d) e (fun ok e' =>
    ok = true /\ sv_inv e' /\ sv_active e' = d /\
    (forall d, sv_space e' d <-> sv_space e d) /\ (forall b, sv_stack e' b <-> sv_stack e b));
  sv_destroy_ok : forall d e, sv_inv e -> sv_space e d -> sv_active e <> d ->
    wp (sv_destroy d) e (fun ok e' => ok = true /\ sv_inv e' /\ sv_active e' = sv_active e /\
      (forall d', sv_space e' d' <-> sv_space e d' /\ d' <> d) /\
      (forall b, sv_stack e' b <-> sv_stack e b));
  sv_store_ok : forall a v e, sv_inv e -> wp (sv_store a v) e (fun _ e' => sv_inv e' /\
    sv_active e' = sv_active e /\ (forall d, sv_space e' d <-> sv_space e d) /\
    (forall b, sv_stack e' b <-> sv_stack e b));
  sv_set_kernel_stack_ok : forall a e, sv_inv e -> wp (sv_set_kernel_stack a) e (fun _ e' => sv_inv e' /\
    sv_active e' = sv_active e /\ (forall d, sv_space e' d <-> sv_space e d) /\
    (forall b, sv_stack e' b <-> sv_stack e b));
  sv_vfs_initialized_ok : forall e, sv_inv e -> wp sv_vfs_initialized e (fun _ e' => e' = e);
  sv_release_file_ok : forall h e, sv_inv e -> wp (sv_release_file h) e (fun _ e' => sv_inv e' /\
    sv_active e' = sv_active e /\ (forall d, sv_space e' d <-> sv_space e d) /\
    (forall b, sv_stack e' b <-> sv_stack e b))
}.

Module Scheduler.

Definition PROCESS_LIMIT : Z := 16.
Definition PROCESS_NAME_LENGTH : Z := 32.
Definition PROCESS_FD_LIMIT : Z := 16.
Definition MINIOS_PROCESS_CWD_SIZE : Z := 256.
Definition KERNEL_STACK_SIZE : Z := 16384.
Definition DEFAULT_TIME_SLICE : Z := 5.
Definition EFLAGS_INTERRUPT_ENABLE : Z := 0x200.
Definition PID_MAXIMUM : Z := 0x7FFFFFFF.
Definition SLEEP_MAXIMUM_TICKS : Z := 0x7FFFFFFF.
Definition USER_PRIVILEGE_LEVEL : Z := 3.
Definition MINIOS_ECHILD : Z := 10.
Definition MINIOS_EAGAIN : Z := 11.
Definition MINIOS_EFAULT : Z := 14.
Definition MINIOS_EINVAL : Z := 22.
Definition MINIOS_EMFILE : Z := 24.

Inductive process_state :=
| PROCESS_UNUSED | PROCESS_NEW | PROCESS_READY | PROCESS_RUNNING
| PROCESS_BLOCKED | PROCESS_ZOMBIE | PROCESS_REAPED.

#[export] Instance process_state_eq_dec : EqDecision process_state.
Proof. solve_decision. Defined.

(** Pointers into [process_table] are indices; other pointers are addresses. *)
Record process := Process {
  pid : Z;
  state : process_state;
  name : list Z;
  saved_stack : Z;
  kernel_stack_top : Z;
  user_stack_top : Z;
  page_directory : Z;
  exit_code : Z;
  parent_pid : Z;
  wake_tick : Z;
  time_slice : Z;
  fd_table : list Z;
  current_working_directory : list Z;
  run_node : option Z;
  wait_node : option Z;
  entry : Z;
  argument : Z;
  kernel_stack_allocation : Z;
  initial_eflags : Z;
  user_entry : Z
}.

Definition set_state (v : process_state) (p : process) : process :=
  Process (pid p) v (name p) (saved_stack p) (kernel_stack_top p) (user_stack_top p)
    (page_directory p) (exit_code p) (parent_pid p) (wake_tick p) (time_slice p) (fd_table p)
    (current_working_directory p) (run_node p) (wait_node p) (entry p) (argument p)
    (kernel_stack_allocation p) (initial_eflags p) (user_entry p).
Definition set_saved_stack (v : Z) (p : process) : process :=
  Process (pid p) (state p) (name p) v (kernel_stack_top p) (user_stack_top p) (page_directory
    p) (exit_code p) (parent_pid p) (wake_tick p) (time_slice p) (fd_table p)
    (current_working_directory p) (run_node p) (wait_node p) (entry p) (argument p)
    (kernel_stack_allocation p) (initial_eflags p) (user_entry p).
Definition set_page_directory (v : Z) (p : process) : process :=
  Process (pid p) (state p) (name p) (saved_stack p) (kernel_stack_top p) (user_stack_top p) v
    (exit_code p) (parent_pid p) (wake_tick p) (time_slice p) (fd_table p)
    (current_working_directory p) (run_node p) (wait_node p) (entry p) (argument p)
    (kernel_stack_allocation p) (initial_eflags p) (user_entry p).
Definition set_exit_code (v : Z) (p : process) : process :=
  Process (pid p) (state p) (name p) (saved_stack p) (kernel_stack_top p) (user_stack_top p)
    (page_directory p) v (parent_pid p) (wake_tick p) (time_slice p) (fd_table p)
    (current_working_directory p) (run_node p) (wait_node p) (entry p) (argument p)
    (kernel_stack_allocation p) (initial_eflags p) (user_entry p).
Definition set_wake_tick (v : Z) (p : process) : process :=
  Process (pid p) (state p) (name p) (saved_stack p) (kernel_stack_top p) (user_stack_top p)
    (page_directory p) (exit_code p) (parent_pid p) v (time_slice p) (fd_table p)
    (current_working_directory p) (run_node p) (wait_node p) (entry p) (argument p)
    (kernel_stack_allocation p) (initial_eflags p) (user_entry p).
Definition set_time_slice (v : Z) (p : process) : process :=
  Process (pid p) (state p) (name p) (saved_stack p) (kernel_stack_top p) (user_stack_top p)
    (page_directory p) (exit_code p) (parent_pid p) (wake_tick p) v (fd_table p)
    (current_working_directory p) (run_node p) (wait_node p) (entry p) (argument p)
    (kernel_stack_allocation p) (initial_eflags p) (user_entry p).
Definition set_fd_table (v : list Z) (p : process) : process :=
  Process (pid p) (state p) (name p) (saved_stack p) (kernel_stack_top p) (user_stack_top p)
    (page_directory p) (exit_code p) (parent_pid p) (wake_tick p) (time_slice p) v
    (current_working_directory p) (run_node p) (wait_node p) (entry p) (argument p)
    (kernel_stack_allocation p) (initial_eflags p) (user_entry p).
Definition set_current_working_directory (v : list Z) (p : process) : process :=
  Process (pid p) (state p) (name p) (saved_stack p) (kernel_stack_top p) (user_stack_top p)
    (page_directory p) (exit_code p) (parent_pid p) (wake_tick p) (time_slice p) (fd_table p) v
    (run_node p) (wait_node p) (entry p) (argument p) (kernel_stack_allocation p)
    (initial_eflags p) (user_entry p).
Definition set_wait_node (v : option Z) (p : process) : process :=
  Process (pid p) (state p) (name p) (saved_stack p) (kernel_stack_top p) (user_stack_top p)
    (page_directory p) (exit_code p) (parent_pid p) (wake_tick p) (time_slice p) (fd_table p)
    (current_working_directory p) (run_node p) v (entry p) (argument p) (kernel_stack_allocation
    p) (initial_eflags p) (user_entry p).

(** The code addresses the stack of a new thread is prepared with, and the top
    of the boot stack. *)
Record symbols := Symbols {
  thread_returned : Z; thread_trampoline : Z; user_process_trampoline : Z; boot_stack_top : Z
}.

(** [strcpy]-like copy: at most [n - 1] bytes before the terminator, the rest of
    the buffer [buf] as it was. *)
Fixpoint copy_name (n : nat) (src buf : list Z) : list Z :=
  match n, src, buf with
  | S (S n' as n1), c :: src', b :: buf' => if c =? 0 then 0 :: buf' else c :: copy_name n1 src' buf'
  | S _, [], b :: buf' => 0 :: buf'
  | S O, _, b :: buf' => 0 :: buf'
  | _, _, _ => buf
  end.

Definition name_zero : list Z := replicate 32 0.
Definition fd_zero : list Z := replicate 16 0.
Definition cwd_root : list Z := 47 :: replicate 255 0.

(** [clear_process] gives every field its initial value. *)
Definition clear_process : process :=
  Process 0 PROCESS_UNUSED name_zero 0 0 0 0 0 0 0 0 fd_zero cwd_root None None 0 0 0 0 0.

(** [set_process_name]: the name is a C string without its terminator. *)
Definition set_process_name (nm : list Z) (p : process) : process :=
  Process (pid p) (state p) (copy_name 32 nm (name p)) (saved_stack p) (kernel_stack_top p)
    (user_stack_top p) (page_directory p) (exit_code p) (parent_pid p) (wake_tick p) (time_slice p)
    (fd_table p) (current_working_directory p) (run_node p) (wait_node p) (entry p) (argument p)
    (kernel_stack_allocation p) (initial_eflags p) (user_entry p).

Section scheduler.
Context {E : Type} `{!Services E}.

(** The static variables of scheduler.c, the tick counter of pit.c, the stack
    pointer and the services. [current_process] is an index; it is [None] before
    [scheduler_init]. *)
Record sched := Sched {
  svc : E;
  cpu : Cpu.state;
  esp : Z;
  tick_count : Z;
  process_table : list process;
  current_process : option Z;
  next_pid : Z;
  last_user_fault : Z * Z * Z * Z
}.

Definition set_svc (e : E) (s : sched) : sched :=
  Sched e (cpu s) (esp s) (tick_count s) (process_table s) (current_process s) (next_pid s) (last_user_fault s).
Definition set_cpu (c : Cpu.state) (s : sched) : sched :=
  Sched (svc s) c (esp s) (tick_count s) (process_table s) (current_process s) (next_pid s) (last_user_fault s).
Definition set_esp (v : Z) (s : sched) : sched :=
  Sched (svc s) (cpu s) v (tick_count s) (process_table s) (current_process s) (next_pid s) (last_user_fault s).
Definition set_table (t : list process) (s : sched) : sched :=
  Sched (svc s) (cpu s) (esp s) (tick_count s) t (current_process s) (next_pid s) (last_user_fault s).
Definition set_current (c : option Z) (s : sched) : sched :=
  Sched (svc s) (cpu s) (esp s) (tick_count s) (process_table s) c (next_pid s) (last_user_fault s).
Definition set_next_pid (n : Z) (s : sched) : sched :=
  Sched (svc s) (cpu s) (esp s) (tick_count s) (process_table s) (current_process s) n (last_user_fault s).
Definition set_last_fault (v : Z * Z * Z * Z) (s : sched) : sched :=
  Sched (svc s) (cpu s) (esp s) (tick_count s) (process_table s) (current_process s) (next_pid s) v.

#[export] Instance svc_lens : Lens sched E.
Proof. refine {| lget := svc; lset := set_svc |}; by intros; destruct s. Defined.
#[export] Instance cpu_lens : Lens sched Cpu.state.
Proof. refine {| lget := cpu; lset := set_cpu |}; by intros; destruct s. Defined.

Definition set_tick (v : Z) (s : sched) : sched :=
  Sched (svc s) (cpu s) (esp s) v (process_table s) (current_process s) (next_pid s) (last_user_fault s).

Definition pit_ticks : M sched Z := gets tick_count.

(** kernel/drivers/pit.c, but for the message printed at the fifth tick. *)
Definition pit_handle_irq : M sched unit := modify (fun s => set_tick (tick_count s +u 1) s).

(** ** The table *)

Definition get_process (i : Z) : M sched process :=
  let! t := gets process_table in
  if (0 <=? i) && (i <? PROCESS_LIMIT) then access (t !! Z.to_nat i) else fault.

Definition put_process (i : Z) (p : process) : M sched unit :=
  modify (fun s => set_table (<[Z.to_nat i := p]> (process_table s)) s).

Definition update_process (i : Z) (f : process -> process) : M sched unit :=
  let! p := get_process i in put_process i (f p).

(** Dereferencing [current_process]. *)
Definition current : M sched Z := let! c := gets current_process in access c.

(** [inherit_current_working_directory]: copies up to the terminator. *)
Fixpoint copy_cwd (src dst : list Z) : option (list Z) :=
  match src, dst with
  | c :: src', _ :: dst' => if c =? 0 then Some (0 :: dst') else option_map (cons c) (copy_cwd src' dst')
  | _, _ => None
  end.

Definition inherit_current_working_directory (i : Z) : M sched unit :=
  let! c := gets current_process in
  match c with
  | None => ret tt
  | Some ci =>
      let! cp := get_process ci in
      let! p := get_process i in
      match copy_cwd (current_working_directory cp) (current_working_directory p) with
      | Some cwd => put_process i (set_current_working_directory cwd p)
      | None => panic "process cwd is not terminated"
      end
  end.

Definition find_unused_process : M sched (option Z) :=
  for_until 15 1 (fun index =>
    let! p := get_process index in
    ret (if decide (state p = PROCESS_UNUSED) then Some index else None)).

Definition find_process_by_pid (wanted : Z) : M sched (option Z) :=
  for_until 16 0 (fun index =>
    let! p := get_process index in
    ret (if bool_decide (state p <> PROCESS_UNUSED) && (pid p =? wanted) then Some index else None)).

(** Of the candidates after the counter has run out, one of the first 17 is
    free, because the table has 16 entries. *)
Definition allocate_pid : M sched (option Z) :=
  let! next := gets next_pid in
  if negb (next =? 0) then
    modify (set_next_pid (if next =? PID_MAXIMUM then 0 else next +u 1)) ;;
    ret (Some next)
  else
    while_ 17 (fun candidate =>
      if candidate <=? PID_MAXIMUM then
        let! found := find_process_by_pid candidate in
        match found with
        | None => ret (inr (Some candidate))
        | Some _ => ret (inl (candidate +u 1))
        end
      else ret (inr None)) 1.

Definition find_next_ready (after : Z) : M sched (option Z) :=
  for_until 16 1 (fun offset =>
    let index := (after + offset) mod PROCESS_LIMIT in
    let! p := get_process index in
    ret (if decide (state p = PROCESS_READY) then Some index else None)).

(** The four registers [context_switch] pushes before it stores ESP. *)
Definition context_switch (previous next : Z) : M sched unit :=
  let! sp := gets esp in
  update_process previous (set_saved_stack (sp -u 16)) ;;
  let! np := get_process next in
  modify (set_esp (saved_stack np)).

Definition switch_to (next : Z) : M sched unit :=
  let! previous := current in
  let! np := get_process next in
  (if page_directory np =? 0 then
     let! ok := zoom sv_activate_kernel in
     if negb ok then panic "could not activate kernel address space" else ret tt
   else
     let! ok := zoom (sv_activate (page_directory np)) in
     if negb ok then panic "could not activate process address space" else ret tt) ;;
  modify (set_current (Some next)) ;;
  update_process next (set_state PROCESS_RUNNING) ;;
  update_process next (set_time_slice DEFAULT_TIME_SLICE) ;;
  let! np' := get_process next in
  zoom (sv_set_kernel_stack (kernel_stack_top np')) ;;
  context_switch previous next.

Definition wake_waiting_parent (child : Z) : M sched unit :=
  for_range 16 0 (fun index =>
    let! parent := get_process index in
    let! cp := get_process child in
    if bool_decide (state parent = PROCESS_BLOCKED) && (pid parent =? parent_pid cp) &&
       (bool_decide (wait_node parent = Some child) || bool_decide (wait_node parent = Some index))
    then put_process index (set_state PROCESS_READY (set_wait_node None parent))
    else ret tt).

(** ** Descriptors of the current process *)

Definition scheduler_fd_get (descriptor : Z) : M sched Z :=
  let! c := gets current_process in
  match c with
  | None => ret 0
  | Some ci =>
      if (descriptor <? 3) || (PROCESS_FD_LIMIT <=? descriptor) then ret 0 else
      let! flags := zoom Cpu.irq_save_disable in
      let! p := get_process ci in
      let! handle := access (fd_table p !! Z.to_nat descriptor) in
      zoom (Cpu.irq_restore flags) ;;
      ret handle
  end.

Definition scheduler_fd_remove (descriptor : Z) : M sched Z :=
  let! c := gets current_process in
  match c with
  | None => ret 0
  | Some ci =>
      if (descriptor <? 3) || (PROCESS_FD_LIMIT <=? descriptor) then ret 0 else
      let! flags := zoom Cpu.irq_save_disable in
      let! p := get_process ci in
      let! handle := access (fd_table p !! Z.to_nat descriptor) in
      put_process ci (set_fd_table (<[Z.to_nat descriptor := 0]> (fd_table p)) p) ;;
      zoom (Cpu.irq_restore flags) ;;
      ret handle
  end.

Definition scheduler_fd_install (handle : Z) : M sched Z :=
  let! c := gets current_process in
  match c with
  | None => ret (- MINIOS_EINVAL)
  | Some ci =>
      if handle =? 0 then ret (- MINIOS_EINVAL) else
      let! flags := zoom Cpu.irq_save_disable in
      let! found := for_until 13 3 (fun descriptor =>
        let! p := get_process ci in
        let! h := access (fd_table p !! Z.to_nat descriptor) in
        if h =? 0 then
          put_process ci (set_fd_table (<[Z.to_nat descriptor := handle]> (fd_table p)) p) ;;
          ret (Some descriptor)
        else ret None) in
      zoom (Cpu.irq_restore flags) ;;
      ret (match found with Some d => d | None => - MINIOS_EMFILE end)
  end.

(** [vfs_close] as [vfs_close_all_current] of kernel/fs/vfs.c uses it. *)
Definition close_descriptor (descriptor : Z) : M sched unit :=
  let! handle := scheduler_fd_remove descriptor in
  zoom (sv_release_file handle).

Definition vfs_close_all_current : M sched unit :=
  let! ready := zoom sv_vfs_initialized in
  if negb ready then ret tt else
  for_range 13 3 (fun descriptor =>
    let! handle := scheduler_fd_get descriptor in
    if negb (handle =? 0) then close_descriptor descriptor else ret tt).

(** ** Life and death *)

(** Up to the switch away from the dead process. *)
Definition scheduler_exit_current (code : Z) : M sched unit :=
  zoom Cpu.irq_save_disable ;;
  vfs_close_all_current ;;
  let! ci := current in
  update_process ci (set_exit_code code) ;;
  update_process ci (set_state PROCESS_ZOMBIE) ;;
  wake_waiting_parent ci ;;
  let! next := find_next_ready ci in
  match next with
  | None => panic "last kernel thread exited"
  | Some n => switch_to n
  end.

(** The fields of the trap frame the handler reads: CS and EIP. *)
Definition scheduler_user_page_fault (address error_code frame_cs frame_eip : Z) : M sched bool :=
  let! c := gets current_process in
  match c with
  | None => ret false
  | Some ci =>
      let! p := get_process ci in
      if (page_directory p =? 0) || negb (Z.land frame_cs USER_PRIVILEGE_LEVEL =? USER_PRIVILEGE_LEVEL)
      then ret false else
      modify (set_last_fault (pid p, address, error_code, frame_eip)) ;;
      scheduler_exit_current (- MINIOS_EFAULT) ;;
      ret true
  end.

Definition scheduler_init (sym : symbols) : M sched unit :=
  modify (set_table (replicate 16 clear_process)) ;;
  modify (set_current (Some 0)) ;;
  update_process 0 (set_state PROCESS_RUNNING) ;;
  update_process 0 (set_process_name [98; 111; 111; 116]) ;;
  let! flags := zoom Cpu.irq_read_flags in
  update_process 0 (fun p =>
    Process 0 (state p) (name p) (saved_stack p) (boot_stack_top sym) (user_stack_top p)
      (page_directory p) (exit_code p) (parent_pid p) (wake_tick p) DEFAULT_TIME_SLICE (fd_table p)
      (current_working_directory p) (run_node p) (wait_node p) (entry p) (argument p)
      (kernel_stack_allocation p) flags (user_entry p)) ;;
  modify (set_next_pid 1).

(** The six words a fresh kernel stack starts with. *)
Definition prepare_stack (top returned trampoline : Z) : M sched Z :=
  zoom (sv_store (top -u 4) returned) ;;
  zoom (sv_store (top -u 8) trampoline) ;;
  zoom (sv_store (top -u 12) 0) ;;
  zoom (sv_store (top -u 16) 0) ;;
  zoom (sv_store (top -u 20) 0) ;;
  zoom (sv_store (top -u 24) 0) ;;
  ret (top -u 24).

Definition kernel_thread_create (sym : symbols) (nm : list Z) (entry_point arg : Z) : M sched Z :=
  if match nm with [] => true | c :: _ => c =? 0 end || (entry_point =? 0) then ret (-1) else
  let! flags := zoom Cpu.irq_save_disable in
  let! slot := find_unused_process in
  match slot with
  | None => zoom (Cpu.irq_restore flags) ;; ret (-1)
  | Some i =>
      let! allocation := zoom (sv_kmalloc KERNEL_STACK_SIZE) in
      if allocation =? 0 then zoom (Cpu.irq_restore flags) ;; ret (-1) else
      let! fresh := allocate_pid in
      match fresh with
      | None =>
          let! ok := zoom (sv_kfree allocation) in
          if negb ok then panic "kernel thread PID rollback failed" else
          zoom (Cpu.irq_restore flags) ;; ret (-1)
      | Some new_pid =>
          put_process i clear_process ;;
          inherit_current_working_directory i ;;
          let! ci := current in
          let! cp := get_process ci in
          let top := allocation +u KERNEL_STACK_SIZE in
          update_process i (fun p =>
            set_process_name nm
              (Process new_pid PROCESS_NEW (name p) (saved_stack p) top (user_stack_top p)
                 (page_directory p) (exit_code p) (pid cp) (wake_tick p) DEFAULT_TIME_SLICE
                 (fd_table p) (current_working_directory p) (run_node p) (wait_node p) entry_point arg
                 allocation (Z.land flags EFLAGS_INTERRUPT_ENABLE) (user_entry p))) ;;
          let! stack := prepare_stack top (thread_returned sym) (thread_trampoline sym) in
          update_process i (set_saved_stack stack) ;;
          update_process i (set_state PROCESS_READY) ;;
          zoom (Cpu.irq_restore flags) ;;
          let! p := get_process i in
          ret (s32 (pid p))
      end
  end.

Definition reap_process (i : Z) : M sched bool :=
  let! p := get_process i in
  let! c := gets current_process in
  if bool_decide (state p <> PROCESS_ZOMBIE) || bool_decide (c = Some i) ||
     (kernel_stack_allocation p =? 0) then ret false else
  let! destroyed :=
    (if negb (page_directory p =? 0) then
       let! ok := zoom (sv_destroy (page_directory p)) in
       if negb ok then ret false else update_process i (set_page_directory 0) ;; ret true
     else ret true) in
  if negb destroyed then ret false else
  let! freed := zoom (sv_kfree (kernel_stack_allocation p)) in
  if negb freed then ret false else
  update_process i (set_state PROCESS_REAPED) ;;
  put_process i clear_process ;;
  ret true.

(** ** Giving up the processor

    These routines return [true] when the caller keeps running and [false] when
    another process was switched to; the [irq_restore] after a switch runs when
    the caller is resumed. *)

Definition scheduler_yield : M sched bool :=
  let! flags := zoom Cpu.irq_save_disable in
  let! ci := current in
  update_process ci (set_state PROCESS_READY) ;;
  let! next := find_next_ready ci in
  if bool_decide (next = None) || bool_decide (next = Some ci) then
    update_process ci (set_state PROCESS_RUNNING) ;;
    zoom (Cpu.irq_restore flags) ;;
    ret true
  else
    match next with
    | Some n => switch_to n ;; ret false
    | None => fault
    end.

Definition scheduler_sleep_current (ticks : Z) : M sched (option bool) :=
  if ticks =? 0 then let! kept := scheduler_yield in ret (if kept : bool then Some true else None) else
  if SLEEP_MAXIMUM_TICKS <? ticks then ret (Some false) else
  let! flags := zoom Cpu.irq_save_disable in
  let! ci := current in
  let! next := find_next_ready ci in
  match next with
  | None => zoom (Cpu.irq_restore flags) ;; ret (Some false)
  | Some n =>
      let! now := pit_ticks in
      update_process ci (set_wake_tick (now +u ticks)) ;;
      update_process ci (set_wait_node None) ;;
      update_process ci (set_state PROCESS_BLOCKED) ;;
      switch_to n ;;
      ret None
  end.

Definition find_child (parent requested_pid : Z) (zombie_only : bool) : M sched (option Z) :=
  for_until 15 1 (fun index =>
    let! child := get_process index in
    let! pp := get_process parent in
    ret (if bool_decide (state child = PROCESS_UNUSED) || bool_decide (state child = PROCESS_REAPED) ||
            negb (parent_pid child =? pid pp) ||
            (negb (requested_pid =? -1) && negb (pid child =? u32 requested_pid)) ||
            (zombie_only && bool_decide (state child <> PROCESS_ZOMBIE))
         then None else Some index)).

(** One round of the loop of [scheduler_waitpid]: the value to return and the
    exit status, or [None] when the caller was put to sleep and will run the
    round again when it is resumed. *)
Definition waitpid_round (wanted : Z) : M sched (option (Z * Z)) :=
  let! parent := current in
  let! zombie := find_child parent wanted true in
  match zombie with
  | Some child =>
      let! cp := get_process child in
      let! ok := reap_process child in
      if negb ok then panic "waitpid could not reap child" else
      ret (Some (s32 (pid cp), exit_code cp))
  | None =>
      let! any := find_child parent wanted false in
      match any with
      | None => ret (Some (- MINIOS_ECHILD, 0))
      | Some child =>
          update_process parent (set_state PROCESS_BLOCKED) ;;
          update_process parent (set_wait_node (Some (if wanted =? -1 then parent else child))) ;;
          let! next := find_next_ready parent in
          match next with
          | None =>
              update_process parent (set_wait_node None) ;;
              update_process parent (set_state PROCESS_RUNNING) ;;
              ret (Some (- MINIOS_ECHILD, 0))
          | Some n => switch_to n ;; ret None
          end
      end
  end.

Definition scheduler_waitpid (wanted : Z) : M sched (option (Z * Z)) :=
  if (wanted =? 0) || (wanted <? -1) then ret (Some (- MINIOS_EINVAL, 0)) else
  let! flags := zoom Cpu.irq_save_disable in
  let! r := waitpid_round wanted in
  match r with
  | Some v => zoom (Cpu.irq_restore flags) ;; ret (Some v)
  | None => ret None
  end.

(** ** The timer *)

Definition wake_sleepers (now : Z) : M sched unit :=
  for_range 15 1 (fun index =>
    let! p := get_process index in
    if bool_decide (state p = PROCESS_BLOCKED) && bool_decide (wait_node p = None) &&
       (0 <=? s32 (now -u wake_tick p))
    then put_process index (set_state PROCESS_READY (set_wake_tick 0 p))
    else ret tt).

Definition scheduler_on_tick : M sched unit :=
  let! now := pit_ticks in
  wake_sleepers now ;;
  let! c := gets current_process in
  match c with
  | None => ret tt
  | Some ci =>
      let! p := get_process ci in
      if bool_decide (state p <> PROCESS_RUNNING) then ret tt else
      if 1 <? time_slice p then update_process ci (fun p => set_time_slice (time_slice p - 1) p) else
      update_process ci (set_state PROCESS_READY) ;;
      let! next := find_next_ready ci in
      if bool_decide (next = None) || bool_decide (next = Some ci) then
        update_process ci (set_state PROCESS_RUNNING) ;;
        update_process ci (set_time_slice DEFAULT_TIME_SLICE)
      else
        match next with
        | Some n => switch_to n
        | None => fault
        end
  end.

(** IRQ 0 in [irq_dispatch] of kernel/arch/x86/irq.c; acknowledging the interrupt
    controller between the two calls does not touch this state. *)
Definition timer_irq : M sched unit := pit_handle_irq ;; scheduler_on_tick.

(** ** The working directory *)

Definition scheduler_current_pid : M sched Z :=
  let! c := gets current_process in
  match c with None => ret 0 | Some ci => let! p := get_process ci in ret (pid p) end.

(** Copies the terminated directory to a buffer of [capacity] bytes: the string,
    or [None] for [false]. *)
Fixpoint cwd_to_buffer (n : nat) (capacity : Z) (cwd : list Z) : option (list Z) :=
  match n with
  | O => None
  | S n' =>
      if capacity <=? 0 then None else
      match cwd with
      | [] => None
      | c :: cwd' => if c =? 0 then Some [] else option_map (cons c) (cwd_to_buffer n' (capacity - 1) cwd')
      end
  end.

Definition scheduler_get_current_working_directory (capacity : Z) : M sched (option (list Z)) :=
  let! c := gets current_process in
  match c with
  | None => ret None
  | Some ci =>
      if capacity =? 0 then ret None else
      let! flags := zoom Cpu.irq_save_disable in
      let! p := get_process ci in
      zoom (Cpu.irq_restore flags) ;;
      ret (cwd_to_buffer 256 capacity (current_working_directory p))
  end.

(** [path] is a C string without its terminator. *)
Definition scheduler_set_current_working_directory (path : list Z) : M sched bool :=
  let! c := gets current_process in
  match c, path with
  | Some ci, first :: _ =>
      if negb (first =? 47) then ret false else
      let length := Z.of_nat (List.length path) in
      if MINIOS_PROCESS_CWD_SIZE <=? length then ret false else
      let! flags := zoom Cpu.irq_save_disable in
      update_process ci (fun p => set_current_working_directory
        (path ++ 0 :: drop (S (List.length path)) (current_working_directory p)) p) ;;
      zoom (Cpu.irq_restore flags) ;;
      ret true
  | _, _ => ret false
  end.

(** ** Snapshots *)

Record process_info := ProcessInfo { info_pid : Z; info_parent : Z; info_state : process_state; info_name : list Z }.

Definition scheduler_process_snapshot (capacity : Z) : M sched (list process_info) :=
  let! flags := zoom Cpu.irq_save_disable in
  let! infos := for_acc 16 0 [] (fun source infos =>
    if Z.of_nat (List.length infos) <? capacity then
      let! p := get_process source in
      if bool_decide (state p = PROCESS_UNUSED) || bool_decide (state p = PROCESS_REAPED) then ret infos
      else ret (infos ++ [ProcessInfo (pid p) (parent_pid p) (state p) (name p)])
    else ret infos) in
  zoom (Cpu.irq_restore flags) ;;
  ret infos.

End scheduler.
Arguments sched E : clear implicits.

End Scheduler.
