(* ===== verification/SchedulerInv.v ===== *)
(** * The invariant of the process table

    What holds of scheduler.c between any two steps ([inv]): exactly one running
    process, process numbers unique, every kernel stack and address space owned
    by one process, waiting parents waiting for a child that can still wake them.
    The routines that give up the processor keep it and are fair to the processes
    that are ready. *)

From S2P Require Import Prelude Monad Interfaces Cpu Scheduler.

Module SchedulerInv.
Import Scheduler.

(** Lookups and lengths of an updated table. *)
Ltac tab := cbn [process_table set_table set_svc set_cpu set_current set_esp set_next_pid];
  rewrite ?length_insert; try rewrite list_lookup_insert_eq; done || lia.

Section sched.
Context {E : Type} `{!Services E}.
Implicit Types s : sched E.
Implicit Types (t : list process) (p c : process) (i j : nat).

(** ** The table *)

Definition live p : Prop := state p <> PROCESS_UNUSED.

(** A string of the fixed buffer that holds the working directory. *)
Definition terminated (cwd : list Z) : Prop :=
  exists l r, cwd = l ++ 0 :: r /\ Forall (fun x => x <> 0) l.

(** Process [p] at slot [i] waits for a child: for any of them, or for the one
    in slot [w]. In both cases that child has not finished yet. *)
Definition waiting_ok t i p : Prop :=
  match wait_node p with
  | Some w =>
      if decide (w = Z.of_nat i) then
        forall j c, t !! j = Some c -> (1 <= j)%nat -> state c = PROCESS_ZOMBIE -> parent_pid c <> pid p
      else exists j c, w = Z.of_nat j /\ t !! j = Some c /\ live c /\ state c <> PROCESS_ZOMBIE /\
           parent_pid c = pid p
  | None => True
  end.

(** The process table between two steps; [run] is the running process, if any. *)
Record tok t (run : option nat) : Prop := {
  tok_len : length t = 16%nat;
  tok_running : forall i p, t !! i = Some p -> (state p = PROCESS_RUNNING <-> run = Some i);
  tok_states : forall i p, t !! i = Some p -> state p <> PROCESS_NEW /\ state p <> PROCESS_REAPED;
  tok_boot : exists p, t !! 0%nat = Some p /\ live p /\ pid p = 0;
  tok_pid : forall i p, t !! i = Some p -> live p -> 0 <= pid p <= PID_MAXIMUM /\ (pid p = 0 -> i = 0%nat);
  tok_unique : forall i j p c, t !! i = Some p -> t !! j = Some c -> live p -> live c -> pid p = pid c -> i = j;
  tok_parent : forall i p, t !! i = Some p -> live p -> (1 <= i)%nat -> parent_pid p <> pid p;
  tok_buffers : forall i p, t !! i = Some p -> length (fd_table p) = 16%nat /\
    length (current_working_directory p) = 256%nat /\ terminated (current_working_directory p);
  tok_waiting : forall i p, t !! i = Some p -> state p = PROCESS_BLOCKED -> waiting_ok t i p
}.

(** Every process but the boot process owns a kernel stack, user processes own
    an address space; nothing is shared. *)
Record rok t (e : E) : Prop := {
  rok_inv : sv_inv e;
  rok_stack : forall i p, t !! i = Some p -> live p -> (1 <= i)%nat ->
    kernel_stack_allocation p <> 0 /\ sv_stack e (kernel_stack_allocation p);
  rok_stack_unique : forall i j p c, t !! i = Some p -> t !! j = Some c -> live p -> live c ->
    (1 <= i)%nat -> (1 <= j)%nat -> kernel_stack_allocation p = kernel_stack_allocation c -> i = j;
  rok_space : forall i p, t !! i = Some p -> live p -> page_directory p <> 0 ->
    sv_space e (page_directory p);
  rok_space_unique : forall i j p c, t !! i = Some p -> t !! j = Some c -> live p -> live c ->
    page_directory p <> 0 -> page_directory p = page_directory c -> i = j
}.

(** The next process number is above all in use, until the numbers run out. *)
Definition nok t (next : Z) : Prop :=
  0 <= next <= PID_MAXIMUM /\
  (next <> 0 -> forall i p, t !! i = Some p -> live p -> pid p < next).

(** What a change of a process's scheduling state keeps. *)
Record same_core p p' : Prop := {
  sc_pid : pid p' = pid p;
  sc_parent : parent_pid p' = parent_pid p;
  sc_stack : kernel_stack_allocation p' = kernel_stack_allocation p;
  sc_space : page_directory p' = page_directory p;
  sc_fd : length (fd_table p') = length (fd_table p);
  sc_cwd : length (current_working_directory p') = length (current_working_directory p);
  sc_term : terminated (current_working_directory p) -> terminated (current_working_directory p');
  sc_live : live p' <-> live p
}.

Lemma lookup_insert_cases t i p' j c :
  <[i := p']> t !! j = Some c ->
  (i = j /\ c = p' /\ (i < length t)%nat) \/ (i <> j /\ t !! j = Some c).
Proof. intros [(-> & -> & ?)|[? ?]]%list_lookup_insert_Some; auto. Qed.

Lemma rok_update t e i p p' :
  rok t e -> t !! i = Some p -> same_core p p' -> rok (<[i := p']> t) e.
Proof.
  intros [Hi Hs Hsu Hp Hpu] Ht [? ? ? ? ? ? ? Hl].
  assert (forall j c, <[i := p']> t !! j = Some c -> exists c', t !! j = Some c' /\
    kernel_stack_allocation c = kernel_stack_allocation c' /\ page_directory c = page_directory c' /\
    (live c -> live c')) as Hold.
  { intros j c [(-> & -> & _)|[_ Hc]]%lookup_insert_cases; [exists p|exists c]; naive_solver. }
  split; [done| | | |].
  - intros j c Hc Hlc Hj. destruct (Hold j c Hc) as (c' & Hc' & -> & _ & Hl'). eauto.
  - intros j k c d Hc Hd Hlc Hld Hj Hk. destruct (Hold j c Hc) as (c' & Hc' & -> & _ & Hl').
    destruct (Hold k d Hd) as (d' & Hd' & -> & _ & Hl''). eauto.
  - intros j c Hc Hlc. destruct (Hold j c Hc) as (c' & Hc' & _ & -> & Hl'). eauto.
  - intros j k c d Hc Hd Hlc Hld. destruct (Hold j c Hc) as (c' & Hc' & _ & -> & Hl').
    destruct (Hold k d Hd) as (d' & Hd' & _ & -> & Hl''). eauto.
Qed.

Lemma nok_update t next i p p' :
  nok t next -> t !! i = Some p -> same_core p p' -> nok (<[i := p']> t) next.
Proof.
  intros [Hr Hn] Ht [Hp ? ? ? ? ? ? Hl]. split; [done|]. intros Hne j c.
  intros [(-> & -> & _)|[_ Hc]]%lookup_insert_cases; [|eauto].
  rewrite Hp. rewrite Hl. eauto.
Qed.

(** Nobody waits for process [p] of slot [i] to finish. *)
Definition unawaited t i p : Prop :=
  forall j c, t !! j = Some c -> state c = PROCESS_BLOCKED -> pid c = parent_pid p ->
    wait_node c <> Some (Z.of_nat i) /\ wait_node c <> Some (Z.of_nat j).

(** Changing the state of one process keeps the table in order, provided a new
    waiter has someone to wait for and a new zombie keeps nobody waiting. *)
Lemma tok_update t run run' i p p' :
  tok t run -> t !! i = Some p -> same_core p p' ->
  state p' <> PROCESS_NEW -> state p' <> PROCESS_REAPED ->
  (state p' = PROCESS_ZOMBIE -> state p = PROCESS_ZOMBIE \/ unawaited t i p) ->
  run' = (if decide (state p' = PROCESS_RUNNING) then Some i else
          if decide (state p = PROCESS_RUNNING) then None else run) ->
  (state p' = PROCESS_RUNNING -> run = None \/ run = Some i) ->
  (state p' = PROCESS_BLOCKED -> waiting_ok t i p') ->
  tok (<[i := p']> t) run'.
Proof.
  intros [Hlen Hrun Hst Hboot Hpid Huniq Hpa Hbuf Hwait] Ht [Cp Cpar Cst Csp Cfd Ccwd Cterm Cl] Hnew1 Hnew2 Hzom Hrun' Hone Hw.
  assert (i < length t)%nat as Hilt by (by eapply lookup_lt_Some).
  split.
  - by rewrite length_insert.
  - intros j c [(-> & -> & _)|[Hne Hc]]%lookup_insert_cases.
    + rewrite Hrun'. destruct (decide (state p' = PROCESS_RUNNING)); [naive_solver|].
      split; [done|]. destruct (decide (state p = PROCESS_RUNNING)); [done|].
      intros E'. by apply (Hrun j p Ht) in E'.
    + rewrite (Hrun j c Hc), Hrun'. destruct (decide (state p' = PROCESS_RUNNING)) as [H|H].
      * destruct (Hone H) as [-> | ->]; naive_solver.
      * destruct (decide (state p = PROCESS_RUNNING)) as [Hp|]; [|done].
        apply (Hrun i p Ht) in Hp. subst. naive_solver.
  - intros j c [(-> & -> & _)|[_ Hc]]%lookup_insert_cases; [done|eauto].
  - destruct Hboot as (b & Hb & Hlb & Hpb). destruct (decide (i = 0%nat)) as [->|Hne].
    + exists p'. rewrite list_lookup_insert_eq by done. simplify_eq. rewrite Cl, Cp. done.
    + exists b. by rewrite list_lookup_insert_ne.
  - intros j c [(-> & -> & _)|[_ Hc]]%lookup_insert_cases; [rewrite Cl, Cp; eauto|eauto].
  - assert (forall j c, <[i := p']> t !! j = Some c -> live c -> exists c', t !! j = Some c' /\ live c' /\ pid c = pid c') as Hold.
    { intros j c [(-> & -> & _)|[_ Hc]]%lookup_insert_cases Hlc; [exists p|exists c]; naive_solver. }
    intros j k c d Hc Hd Hlc Hld E'. destruct (Hold j c Hc Hlc) as (c' & ? & ? & ?).
    destruct (Hold k d Hd Hld) as (d' & ? & ? & ?). eapply Huniq; [done..|congruence].
  - intros j c [(-> & -> & _)|[_ Hc]]%lookup_insert_cases; [rewrite Cl, Cp, Cpar; eauto|eauto].
  - intros j c [(-> & -> & _)|[_ Hc]]%lookup_insert_cases; [|eauto].
    destruct (Hbuf j p Ht) as (? & ? & ?). rewrite Cfd, Ccwd. auto.
  - assert (forall j c, (c = p' \/ t !! j = Some c) -> waiting_ok t j c -> state c = PROCESS_BLOCKED ->
      waiting_ok (<[i := p']> t) j c) as Hkeep.
    { intros j c Horig Hc Hb. unfold waiting_ok in *. destruct (wait_node c) as [w|] eqn:Ew; [|done].
      assert (state p' = PROCESS_ZOMBIE -> state p <> PROCESS_ZOMBIE -> parent_pid p = pid c ->
        w <> Z.of_nat i /\ w <> Z.of_nat j) as Hz.
      { intros Hz Hnz Hpar. destruct (Hzom Hz) as [?|Hun]; [done|]. destruct Horig as [->|Ht2]; [congruence|].
        destruct (Hun j c Ht2 Hb (eq_sym Hpar)) as [H1 H2]. rewrite Ew in H1, H2. split; congruence. }
      destruct (decide (w = Z.of_nat j)) as [Ewj|].
      - intros k d [(-> & -> & _)|[_ Hd]]%lookup_insert_cases Hk Hzd; [|eauto]. rewrite Cpar.
        destruct (decide (state p = PROCESS_ZOMBIE)); [by eauto|]. intros E'. by destruct (Hz Hzd).
      - destruct Hc as (k & d & -> & Hd & Hld & Hnz & Hpar). exists k.
        destruct (decide (i = k)) as [->|].
        + exists p'. rewrite list_lookup_insert_eq by done. simplify_eq. rewrite Cl, Cpar.
          split; [done|]. split; [done|]. split; [done|]. split; [|done]. intros Hzd.
          by destruct (Hz Hzd Hnz Hpar).
        + exists d. by rewrite list_lookup_insert_ne. }
    intros j c [(-> & -> & _)|[_ Hc]]%lookup_insert_cases Hb; apply Hkeep; eauto.
Qed.

(** ** Running the code on the table *)

Lemma wp_get s i p (Q : process -> sched E -> Prop) :
  length (process_table s) = 16%nat -> process_table s !! i = Some p -> Q p s ->
  wp (get_process (Z.of_nat i)) s Q.
Proof.
  intros Hl Hp HQ. pose proof (lookup_lt_Some _ _ _ Hp). unfold get_process. run.
  rewrite (proj2 (Z.leb_le 0 _)), (proj2 (Z.ltb_lt _ PROCESS_LIMIT)) by (unfold PROCESS_LIMIT; lia).
  cbn [andb]. rewrite Nat2Z.id, Hp. done.
Qed.

Lemma wp_put s i p (Q : unit -> sched E -> Prop) :
  Q tt (set_table (<[i := p]> (process_table s)) s) -> wp (put_process (Z.of_nat i) p) s Q.
Proof. intros HQ. unfold put_process. run. by rewrite Nat2Z.id. Qed.

Lemma wp_update s i p f (Q : unit -> sched E -> Prop) :
  length (process_table s) = 16%nat -> process_table s !! i = Some p ->
  Q tt (set_table (<[i := f p]> (process_table s)) s) -> wp (update_process (Z.of_nat i) f) s Q.
Proof. intros Hl Hp HQ. unfold update_process. run. eapply wp_get; [done..|]. by apply wp_put. Qed.

Lemma wp_current s i (Q : Z -> sched E -> Prop) :
  current_process s = Some (Z.of_nat i) -> Q (Z.of_nat i) s -> wp current s Q.
Proof. intros Hc HQ. unfold current. run. rewrite Hc. done. Qed.

(** The round-robin choice: the first ready process after [a], cyclically. *)
Definition rotate (a k : nat) : nat := ((a + k) mod 16)%nat.

Definition not_ready t i : Prop := forall p, t !! i = Some p -> state p <> PROCESS_READY.

Lemma find_next_ready_ok s a (Q : option Z -> sched E -> Prop) :
  length (process_table s) = 16%nat -> (a < 16)%nat ->
  ((forall i, not_ready (process_table s) i) -> Q None s) ->
  (forall k p, (1 <= k <= 16)%nat -> process_table s !! rotate a k = Some p ->
     state p = PROCESS_READY -> (forall j, (1 <= j < k)%nat -> not_ready (process_table s) (rotate a j)) ->
     Q (Some (Z.of_nat (rotate a k))) s) ->
  wp (find_next_ready (Z.of_nat a)) s Q.
Proof.
  intros Hl Ha HN HS. unfold find_next_ready.
  apply (wp_for_until (fun k s' => s' = s /\ forall j, (1 <= j)%nat -> Z.of_nat j < k ->
    not_ready (process_table s) (rotate a j))).
  - split; [done|lia].
  - intros k s' Hk [-> Hno]. run.
    assert ((Z.of_nat a + k) mod PROCESS_LIMIT = Z.of_nat (rotate a (Z.to_nat k))) as ->.
    { unfold rotate, PROCESS_LIMIT. rewrite Nat2Z.inj_mod, Nat2Z.inj_add, Z2Nat.id by lia. done. }
    assert (rotate a (Z.to_nat k) < 16)%nat as Hr by (unfold rotate; apply Nat.mod_upper_bound; lia).
    destruct (lookup_lt_is_Some_2 (process_table s) (rotate a (Z.to_nat k))) as [p Hp]; [lia|].
    eapply wp_get; [done..|]. run. destruct (decide (state p = PROCESS_READY)) as [Hrd|Hrd].
    + eapply HS; [lia|done|done|]. intros j Hj. apply Hno; lia.
    + split; [done|]. intros j Hj1 Hj2. destruct (decide (j = Z.to_nat k)) as [->|]; [|apply Hno; lia].
      intros p' Hp'. congruence.
  - intros s' [-> Hno]. apply HN. intros i p Hp Hrd. pose proof (lookup_lt_Some _ _ _ Hp) as Hi.
    assert (exists k, (1 <= k <= 16)%nat /\ rotate a k = i) as (k & Hk & <-).
    { exists (if decide (i <= a)%nat then 16 + i - a else i - a)%nat. unfold rotate.
      destruct (decide (i <= a)%nat).
      - split; [lia|]. replace (a + (16 + i - a))%nat with (i + 1 * 16)%nat by lia.
        rewrite Nat.Div0.mod_add. apply Nat.mod_small. lia.
      - split; [lia|]. replace (a + (i - a))%nat with i by lia. apply Nat.mod_small. lia. }
    eapply Hno; [| |done|done]; lia.
Qed.

(** ** The invariant *)

(** Everything but the running process. *)
Record base s (run : option nat) : Prop := {
  base_tok : tok (process_table s) run;
  base_rok : rok (process_table s) (svc s);
  base_nok : nok (process_table s) (next_pid s);
  base_cpu : Cpu.wf (cpu s)
}.

Record inv s : Prop := {
  inv_current : exists i p, current_process s = Some (Z.of_nat i) /\
    process_table s !! i = Some p /\ base s (Some i) /\ sv_active (svc s) = page_directory p /\
    1 <= time_slice p <= DEFAULT_TIME_SLICE
}.

(** [switch_to] dispatches: the chosen process runs, nothing else changes but
    the stack pointer saved for the one left behind. *)
Definition dispatched s (from n : nat) s' : Prop :=
  inv s' /\ current_process s' = Some (Z.of_nat n) /\ next_pid s' = next_pid s /\
  forall j p, process_table s !! j = Some p -> exists p', process_table s' !! j = Some p' /\
    same_core p p' /\ wait_node p' = wait_node p /\ exit_code p' = exit_code p /\
    wake_tick p' = wake_tick p /\
    state p' = if decide (j = n) then PROCESS_RUNNING else state p.

Lemma same_core_refl p : same_core p p.
Proof. by split. Qed.

Lemma services_rok t e e' :
  rok t e -> sv_inv e' -> (forall d, sv_space e' d <-> sv_space e d) ->
  (forall b, sv_stack e' b <-> sv_stack e b) -> rok t e'.
Proof.
  intros [? Hs ? Hp ?] Hi Hsp Hst. split; [done| |done| |done].
  - intros i p Ht Hl H1. rewrite Hst. eauto.
  - intros i p Ht Hl H1. rewrite Hsp. eauto.
Qed.

Lemma activate_ok s p (Q : unit -> sched E -> Prop) :
  sv_inv (svc s) -> (page_directory p <> 0 -> sv_space (svc s) (page_directory p)) ->
  (forall e, sv_inv e -> sv_active e = page_directory p ->
     (forall d, sv_space e d <-> sv_space (svc s) d) ->
     (forall b, sv_stack e b <-> sv_stack (svc s) b) -> Q tt (set_svc e s)) ->
  wp (if page_directory p =? 0 then
     let! ok := zoom sv_activate_kernel in
     if negb ok then panic "could not activate kernel address space" else ret tt
   else
     let! ok := zoom (sv_activate (page_directory p)) in
     if negb ok then panic "could not activate process address space" else ret tt) s Q.
Proof.
  intros Hi Hsp HQ. destruct (Z.eqb_spec (page_directory p) 0) as [E0|Hne]; run.
  - wp_apply sv_activate_kernel_ok; [done|]. intros ok e (-> & Hi' & Ha & ? & ?). run.
    apply HQ; [done|congruence|done|done].
  - wp_apply sv_activate_ok; [done|by apply Hsp|]. intros ok e (-> & Hi' & Ha & ? & ?). run. by apply HQ.
Qed.

Lemma switch_to_ok s ci n p q :
  current_process s = Some (Z.of_nat ci) -> process_table s !! ci = Some p -> base s None ->
  process_table s !! n = Some q -> state q = PROCESS_READY -> state p <> PROCESS_UNUSED ->
  wp (switch_to (Z.of_nat n)) s (fun _ s' => dispatched s ci n s').
Proof.
  intros Hc Hp [Ht Hr Hn Hcpu] Hq Hrdy Hlp. pose proof (tok_len _ _ Ht) as Hlen.
  assert (live q) as Hlq by (unfold live; congruence).
  unfold switch_to. apply wp_bind. eapply wp_current; [done|]. apply wp_bind. eapply wp_get; [done..|].
  apply wp_bind. apply activate_ok; [apply Hr|by intros; eapply (rok_space _ _ Hr)|].
  intros e Hie Hae Hspe Hste. run.
  eapply wp_update; [done|exact Hq|]. run.
  assert (n < length (process_table s))%nat as Hnl by (by eapply lookup_lt_Some).
  eapply wp_update; [tab|tab|]. simpl.
  rewrite list_insert_insert_eq. set (q' := set_time_slice _ _).
  run. eapply wp_get; [tab|tab|]. run.
  wp_apply sv_set_kernel_stack_ok; [done|]. intros _ e2 (Hie2 & Hae2 & Hspe2 & Hste2).
  unfold context_switch. run. simpl.
  set (t1 := <[n:=q']> (process_table s)).
  assert (length t1 = 16%nat) as Hl1 by (unfold t1; by rewrite length_insert).
  assert (exists p1, t1 !! ci = Some p1 /\ same_core p p1 /\ state p1 = (if decide (ci = n) then PROCESS_RUNNING else state p)
    /\ (ci = n -> time_slice p1 = DEFAULT_TIME_SLICE)
    /\ wait_node p1 = wait_node p /\ exit_code p1 = exit_code p /\ wake_tick p1 = wake_tick p) as (p1 & Hp1 & Hsc1 & Hst1 & Hsl1 & ?).
  { unfold t1. destruct (decide (ci = n)) as [->|Hne].
    - exists q'. rewrite list_lookup_insert_eq by done. simplify_eq. split; [done|]. split; [by split|done].
    - exists p. rewrite list_lookup_insert_ne by done. split; [done|]. split; [apply same_core_refl|done]. }
  eapply wp_update; [exact Hl1|exact Hp1|]. run.
  set (p2 := set_saved_stack _ p1).
  assert (ci < length t1)%nat as Hcl by (by eapply lookup_lt_Some).
  assert (exists q2, <[ci:=p2]> t1 !! n = Some q2 /\ same_core q q2 /\ state q2 = PROCESS_RUNNING /\
    time_slice q2 = DEFAULT_TIME_SLICE /\ wait_node q2 = wait_node q /\ exit_code q2 = exit_code q /\ wake_tick q2 = wake_tick q) as (q2 & Hq2 & Hscq & Hstq & Hslq & ?).
  { destruct (decide (ci = n)) as [->|Hne].
    - exists p2. rewrite list_lookup_insert_eq by done. simplify_eq.
      split; [done|]. split; [destruct Hsc1; by split|]. split; [|split; [by apply Hsl1|done]].
      simpl. rewrite Hst1. by repeat case_decide.
    - exists q'. rewrite list_lookup_insert_ne by done. unfold t1. rewrite list_lookup_insert_eq by done.
      split; [done|]. split; [by split|done]. }
  eapply wp_get; [tab|exact Hq2|]. run.
  assert (tok t1 (Some n)) as Ht1.
  { eapply (tok_update (process_table s) None (Some n) n q q'); try done; try (by split); simpl; by left. }
  assert (same_core p1 p2) as Hsc2 by (by split).
  assert (tok (<[ci:=p2]> t1) (Some n)) as Ht2.
  { eapply (tok_update t1 (Some n) (Some n) ci p1 p2); try done; simpl; try (by apply (tok_states _ _ Ht1 ci p1)).
    - by left.
    - destruct (decide (state p1 = PROCESS_RUNNING)) as [H'|H']; [|done].
      by apply (tok_running _ _ Ht1 ci p1 Hp1) in H'.
    - intros H'. apply (tok_running _ _ Ht1 ci p1 Hp1) in H'. naive_solver.
    - intros H'. apply (tok_waiting _ _ Ht1 ci p1 Hp1 H'). }
  assert (rok (<[ci:=p2]> t1) e2) as Hr2.
  { apply (services_rok _ (svc s)); [|done|intros; by rewrite Hspe2|intros; by rewrite Hste2].
    eapply rok_update; [eapply rok_update; [done|exact Hq|by split]|exact Hp1|done]. }
  assert (nok (<[ci:=p2]> t1) (next_pid s)) as Hn2.
  { eapply nok_update; [eapply nok_update; [done|exact Hq|by split]|exact Hp1|done]. }
  split; [split; exists n, q2; split; [done|]; split; [done|]; split; [by split|]|].
  { split; [|by rewrite Hslq]. etransitivity; [exact Hae2|]. etransitivity; [exact Hae|]. symmetry. apply Hscq. }
  split; [done|]. split; [done|]. intros j c Hj. simpl.
  destruct (decide (j = n)) as [->|Hjn].
  { simplify_eq. exists q2. split; [done|]. split; [done|]. naive_solver. }
  destruct (decide (j = ci)) as [->|Hjc].
  - simplify_eq. exists p2. rewrite list_lookup_insert_eq by done. split; [done|].
    split; [destruct Hsc1; by split|]. simpl. rewrite Hst1. repeat case_decide; naive_solver.
  - exists c. rewrite list_lookup_insert_ne by done. unfold t1. rewrite list_lookup_insert_ne by done.
    split; [done|]. split; [apply same_core_refl|done].
Qed.

(** ** Fairness

    [dist a i] is how many slots the round robin has to go from [a] to [i]. *)
Definition dist (a i : nat) : nat := ((i + 16 - a) mod 16)%nat.

Lemma dist_rotate a i k :
  (a < 16)%nat -> (i < 16)%nat -> (1 <= k <= 16)%nat -> rotate a k <> i -> i <> a ->
  (k < dist a i)%nat -> (dist (rotate a k) i < dist a i)%nat.
Proof.
  intros Ha Hi Hk Hne Hia Hlt. unfold dist, rotate in *.
  pose proof (Nat.Div0.div_mod (a + k) 16) as E1. pose proof (Nat.mod_upper_bound (a + k) 16).
  pose proof (Nat.Div0.div_mod (i + 16 - a) 16) as E2. pose proof (Nat.mod_upper_bound (i + 16 - a) 16).
  pose proof (Nat.Div0.div_mod (i + 16 - (a + k) mod 16) 16) as E3.
  pose proof (Nat.mod_upper_bound (i + 16 - (a + k) mod 16) 16). lia.
Qed.

Lemma rotate_dist a i : (a < 16)%nat -> (i < 16)%nat -> i <> a ->
  (1 <= dist a i <= 15)%nat /\ rotate a (dist a i) = i.
Proof.
  intros Ha Hi Hne. unfold rotate, dist.
  destruct (decide (i < a)%nat).
  - rewrite (Nat.mod_small (i + 16 - a)) by lia. split; [lia|].
    replace (a + (i + 16 - a))%nat with (i + 1 * 16)%nat by lia.
    rewrite Nat.Div0.mod_add. apply Nat.mod_small. lia.
  - replace (i + 16 - a)%nat with ((i - a) + 1 * 16)%nat by lia. rewrite Nat.Div0.mod_add.
    rewrite (Nat.mod_small (i - a)) by lia. split; [lia|].
    replace (a + (i - a))%nat with i by lia. apply Nat.mod_small. lia.
Qed.

Definition at_state s (i : nat) (st : process_state) : Prop :=
  exists p, process_table s !! i = Some p /\ state p = st.

(** The rest of the time slice of the running process. *)
Definition slice_of s : Z :=
  match current_process s with
  | Some i => match process_table s !! Z.to_nat i with Some p => time_slice p | None => 0 end
  | None => 0
  end.

Lemma slice_of_eq s i p :
  current_process s = Some (Z.of_nat i) -> process_table s !! i = Some p -> slice_of s = time_slice p.
Proof. intros Hc Hp. unfold slice_of. by rewrite Hc, Nat2Z.id, Hp. Qed.

(** A step is fair when a ready process is chosen, or stays ready and the turn
    does not move away from it: a switch moves the turn towards it, and who keeps
    the processor does not get a longer slice. *)
Definition fair s s' : Prop :=
  forall a i, current_process s = Some (Z.of_nat a) -> at_state s i PROCESS_READY ->
    current_process s' = Some (Z.of_nat i) \/
    (at_state s' i PROCESS_READY /\ exists b, current_process s' = Some (Z.of_nat b) /\
       ((b = a /\ slice_of s' <= slice_of s) \/ (dist b i < dist a i)%nat)).

(** The choice of [find_next_ready] is fair to every process that was ready. *)
Lemma chosen_fair s t s' a k :
  (a < 16)%nat -> (1 <= k <= 16)%nat -> length t = 16%nat ->
  current_process s = Some (Z.of_nat a) ->
  (forall i, at_state s i PROCESS_READY -> i <> a /\ exists p, t !! i = Some p /\ state p = PROCESS_READY) ->
  (forall j, (1 <= j < k)%nat -> not_ready t (rotate a j)) ->
  current_process s' = Some (Z.of_nat (rotate a k)) ->
  (forall i p, t !! i = Some p -> state p = PROCESS_READY -> i <> rotate a k -> at_state s' i PROCESS_READY) ->
  fair s s'.
Proof.
  intros Ha Hk Hlen Hc Hsub Hbefore Hc' Hstay b i Hb Hi. assert (b = a) as ->.
  { rewrite Hc in Hb. injection Hb. lia. }
  destruct (Hsub i Hi) as (Hia & p & Hp & Hst). pose proof (lookup_lt_Some _ _ _ Hp) as Hlt.
  destruct (decide (rotate a k = i)) as [<-|Hne]; [by left|]. right. split; [by eapply Hstay; eauto|].
  exists (rotate a k). split; [done|]. right. rewrite Hlen in Hlt. apply dist_rotate; try done.
  destruct (rotate_dist a i Ha Hlt Hia) as [Hd Hr].
  destruct (decide (k < dist a i)%nat) as [|Hge]; [done|]. exfalso.
  destruct (decide (k = dist a i)) as [->|]; [congruence|].
  eapply (Hbefore (dist a i)); [lia| |exact Hst]. by rewrite Hr.
Qed.

Lemma inv_cur_lt s i p : tok (process_table s) (Some i) -> process_table s !! i = Some p -> (i < 16)%nat.
Proof. intros Ht Hp. rewrite <-(tok_len _ _ Ht). by eapply lookup_lt_Some. Qed.

(** ** Yielding *)

Lemma set_running_ready p : state p = PROCESS_RUNNING -> set_state PROCESS_RUNNING (set_state PROCESS_READY p) = p.
Proof. destruct p. simpl. by intros ->. Qed.

(** The running process steps back into the queue. *)
Lemma park_ready t i p :
  tok t (Some i) -> t !! i = Some p -> state p = PROCESS_RUNNING ->
  tok (<[i := set_state PROCESS_READY p]> t) None.
Proof.
  intros Ht Hp Hr. eapply (tok_update t (Some i) None i p); try done; [by split; try done; unfold live; rewrite Hr|].
  simpl. by rewrite Hr.
Qed.

Lemma same_core_state st p : live p -> st <> PROCESS_UNUSED -> same_core p (set_state st p).
Proof. intros Hl Hs. by split. Qed.

(** ** Changing several processes at once *)

Definition pointwise (R : nat -> process -> process -> Prop) t t' : Prop :=
  length t' = length t /\ forall j p, t !! j = Some p -> exists p', t' !! j = Some p' /\ R j p p'.

Lemma pointwise_back R t t' j p' :
  pointwise R t t' -> t' !! j = Some p' -> exists p, t !! j = Some p /\ R j p p'.
Proof.
  intros [Hl H] Hp'. pose proof (lookup_lt_Some _ _ _ Hp').
  destruct (lookup_lt_is_Some_2 t j) as [p Hp]; [lia|].
  destruct (H j p Hp) as (p1 & Hp1 & HR). simplify_eq. eauto.
Qed.

Lemma pointwise_mono (R R' : nat -> process -> process -> Prop) t t' :
  (forall j p p', R j p p' -> R' j p p') -> pointwise R t t' -> pointwise R' t t'.
Proof. intros HR [Hl H]. split; [done|]. intros j p Hp. destruct (H j p Hp) as (p' & ? & ?). eauto. Qed.

Lemma rok_map t t' e : rok t e -> pointwise (fun _ => same_core) t t' -> rok t' e.
Proof.
  intros [Hi Hs Hsu Hp Hpu] Hpw.
  assert (forall j c, t' !! j = Some c -> exists c', t !! j = Some c' /\
    kernel_stack_allocation c = kernel_stack_allocation c' /\ page_directory c = page_directory c' /\
    (live c -> live c')) as Hold.
  { intros j c Hc. destruct (pointwise_back _ _ _ _ _ Hpw Hc) as (c' & Hc' & []). exists c'.
    split; [done|]. split; [done|]. split; [done|]. tauto. }
  split; [done| | | |].
  - intros j c Hc Hlc Hj. destruct (Hold j c Hc) as (c' & Hc' & -> & _ & Hl'). eauto.
  - intros j k c d Hc Hd Hlc Hld Hj Hk. destruct (Hold j c Hc) as (c' & Hc' & -> & _ & Hl').
    destruct (Hold k d Hd) as (d' & Hd' & -> & _ & Hl''). eauto.
  - intros j c Hc Hlc. destruct (Hold j c Hc) as (c' & Hc' & _ & -> & Hl'). eauto.
  - intros j k c d Hc Hd Hlc Hld. destruct (Hold j c Hc) as (c' & Hc' & _ & -> & Hl').
    destruct (Hold k d Hd) as (d' & Hd' & _ & -> & Hl''). eauto.
Qed.

Lemma nok_map t t' next : nok t next -> pointwise (fun _ => same_core) t t' -> nok t' next.
Proof.
  intros [Hr Hn] Hpw. split; [done|]. intros Hne j c Hc Hl.
  destruct (pointwise_back _ _ _ _ _ Hpw Hc) as (c' & Hc' & [-> _ _ _ _ _ _ Hcl]).
  apply (Hn Hne j c' Hc'). by apply Hcl.
Qed.

(** Sleepers and waiters that become ready leave the table in order. *)
Definition wakes (j : nat) p p' : Prop :=
  same_core p p' /\ (p' = p \/ (state p = PROCESS_BLOCKED /\ state p' = PROCESS_READY)).

Lemma tok_map t t' run : tok t run -> pointwise wakes t t' -> tok t' run.
Proof.
  intros [Hlen Hrun Hst Hboot Hpid Huniq Hpa Hbuf Hwait] Hpw.
  assert (forall j c, t' !! j = Some c -> exists c', t !! j = Some c' /\ wakes j c' c) as Hold
    by (intros; by eapply pointwise_back).
  split.
  - destruct Hpw. lia.
  - intros j c Hc. destruct (Hold j c Hc) as (c' & Hc' & _ & [->|[Hb Hr]]); [eauto|].
    rewrite <-(Hrun j c' Hc'). rewrite Hb, Hr. done.
  - intros j c Hc. destruct (Hold j c Hc) as (c' & Hc' & _ & [->|[Hb Hr]]); [eauto|]. by rewrite Hr.
  - destruct Hboot as (b & Hb & Hlb & Hpb). destruct Hpw as [_ Hpw].
    destruct (Hpw _ _ Hb) as (b' & Hb' & [Cp _ _ _ _ _ _ Cl] & _). exists b'.
    split; [done|]. split; [by apply Cl|congruence].
  - intros j c Hc Hl. destruct (Hold j c Hc) as (c' & Hc' & [Cp _ _ _ _ _ _ Cl] & _).
    rewrite Cp. apply (Hpid j c' Hc'). by apply Cl.
  - intros j k c d Hc Hd Hlc Hld E'.
    destruct (Hold j c Hc) as (c' & Hc' & [Cp _ _ _ _ _ _ Cl] & _).
    destruct (Hold k d Hd) as (d' & Hd' & [Dp _ _ _ _ _ _ Dl] & _).
    eapply (Huniq j k c' d'); [done|done|by apply Cl|by apply Dl|congruence].
  - intros j c Hc Hl Hj. destruct (Hold j c Hc) as (c' & Hc' & [Cp Cpar _ _ _ _ _ Cl] & _).
    rewrite Cp, Cpar. apply (Hpa j c' Hc'); [by apply Cl|done].
  - intros j c Hc. destruct (Hold j c Hc) as (c' & Hc' & [] & _). destruct (Hbuf j c' Hc') as (? & ? & ?).
    split; [congruence|]. split; [congruence|auto].
  - intros j c Hc Hb. destruct (Hold j c Hc) as (c' & Hc' & _ & [->|[_ Hr]]); [|congruence].
    specialize (Hwait j c' Hc' Hb). unfold waiting_ok in *. destruct (wait_node c') as [w|]; [|done].
    destruct (decide (w = Z.of_nat j)).
    + intros k d Hd Hk Hz. destruct (Hold k d Hd) as (d' & Hd' & [] & [->|[_ Hr]]); [|congruence]. eauto.
    + destruct Hwait as (k & d & -> & Hd & Hld & Hnz & Hpar). destruct Hpw as [_ Hpw].
      destruct (Hpw _ _ Hd) as (d' & Hd' & [Cp Cpar _ _ _ _ _ Cl] & Hw).
      exists k, d'. split; [done|]. split; [done|]. split; [by apply Cl|]. split; [|congruence].
      destruct Hw as [->|[_ ->]]; done.
Qed.

Lemma base_map s t' run :
  base s run -> pointwise wakes (process_table s) t' -> base (set_table t' s) run.
Proof.
  intros [Ht Hr Hn Hc] Hpw.
  assert (pointwise (fun _ => same_core) (process_table s) t') by (eapply pointwise_mono; [|done]; by intros ? ? ? []).
  split; [by eapply tok_map|by eapply rok_map|by eapply nok_map|done].
Qed.

(** A loop over the table that rewrites each entry on its own. *)
Lemma for_table_ok (f : nat -> process -> process) (body : Z -> M (sched E) unit) n first s
    (Q : unit -> sched E -> Prop) :
  (first + n = 16)%nat -> length (process_table s) = 16%nat ->
  (forall i p s', (first <= i < 16)%nat -> process_table s' !! i = Some p ->
     length (process_table s') = 16%nat ->
     pointwise (fun j q q' => q' = q \/ q' = f j q) (process_table s) (process_table s') ->
     wp (body (Z.of_nat i)) s' (fun _ s'' => s'' = set_table (<[i := f i p]> (process_table s')) s')) ->
  (forall t', pointwise (fun j p p' => p' = if decide (first <= j)%nat then f j p else p) (process_table s) t' ->
     Q tt (set_table t' s)) ->
  wp (for_range n (Z.of_nat first) body) s Q.
Proof.
  intros Hn Hlen Hbody HQ.
  apply (wp_for_range (fun k s' => exists t', s' = set_table t' s /\ pointwise (fun j p p' =>
    p' = if decide ((first <= j)%nat /\ Z.of_nat j < k) then f j p else p) (process_table s) t')).
  - exists (process_table s). split; [by destruct s|]. split; [done|]. intros j p Hp. exists p.
    split; [done|]. rewrite decide_False; [done|lia].
  - intros k s' Hk (t' & -> & Hl' & Hpw). replace k with (Z.of_nat (Z.to_nat k)) by lia.
    set (i := Z.to_nat k) in *.
    destruct (lookup_lt_is_Some_2 (process_table s) i) as [p Hp]; [lia|].
    destruct (Hpw i p Hp) as (p' & Hp' & E'). rewrite decide_False in E' by lia. subst p'.
    eapply wp_mono; [apply (Hbody i p); [lia|done|simpl; lia|]|].
    { split; [done|]. intros j q Hq. destruct (Hpw j q Hq) as (q' & ? & ->).
      eexists; split; [done|]. case_decide; auto. }
    cbv beta. intros _ s'' ->. exists (<[i := f i p]> t'). split; [done|].
    split; [by rewrite length_insert|]. intros j q Hq. destruct (decide (i = j)) as [<-|Hne].
    + exists (f i q). simplify_eq. rewrite list_lookup_insert_eq by lia.
      split; [done|]. rewrite decide_True; [done|lia].
    + destruct (Hpw j q Hq) as (q' & Hq' & ->). rewrite list_lookup_insert_ne by done.
      eexists; split; [exact Hq'|]. repeat case_decide; done || lia.
  - intros s' (t' & -> & Hl' & Hpw). apply HQ. split; [done|]. intros j p Hp.
    destruct (Hpw j p Hp) as (p' & Hp' & ->). eexists; split; [exact Hp'|].
    pose proof (lookup_lt_Some _ _ _ Hp). repeat case_decide; done || lia.
Qed.

(** ** Leaving the processor *)

Lemma at_state_table s s' i st : process_table s' = process_table s -> at_state s' i st <-> at_state s i st.
Proof. intros E'. unfold at_state. by rewrite E'. Qed.

(** The switch away from the running process, which was parked in [s1], to the
    first ready process after it. *)
Lemma leave_ok s s1 a k p1 q :
  current_process s = Some (Z.of_nat a) -> current_process s1 = Some (Z.of_nat a) -> (a < 16)%nat ->
  base s1 None -> process_table s1 !! a = Some p1 -> live p1 -> (1 <= k <= 16)%nat ->
  process_table s1 !! rotate a k = Some q -> state q = PROCESS_READY ->
  (forall j, (1 <= j < k)%nat -> not_ready (process_table s1) (rotate a j)) ->
  (forall i, at_state s i PROCESS_READY -> i <> a /\ at_state s1 i PROCESS_READY) ->
  wp (switch_to (Z.of_nat (rotate a k))) s1 (fun _ s' =>
    inv s' /\ fair s s' /\ dispatched s1 a (rotate a k) s').
Proof.
  intros Hc Hc1 Ha Hb Hp1 Hlp Hk Hq Hst Hbefore Hsub.
  eapply wp_mono; [eapply switch_to_ok; eauto|]. cbv beta. intros _ s' Hd.
  pose proof Hd as (Hinv & Hc' & _ & Htab). split; [done|]. split; [|done].
  eapply (chosen_fair s (process_table s1) s' a k); try done; [apply Hb|].
  intros i p Hp Hrd Hne. destruct (Htab i p Hp) as (p' & Hp' & _ & _ & _ & _ & Hs'). exists p'.
  split; [done|]. by rewrite Hs', decide_False.
Qed.

(** ** The timer tick *)

Definition due (now : Z) p : bool :=
  bool_decide (state p = PROCESS_BLOCKED) && bool_decide (wait_node p = None) &&
  (0 <=? s32 (now -u wake_tick p)).

Definition woken (now : Z) (i : nat) p : process :=
  if decide (1 <= i)%nat then
    if due now p then set_state PROCESS_READY (set_wake_tick 0 p) else p
  else p.

Lemma woken_wakes now i p : wakes i p (woken now i p).
Proof.
  unfold woken. destruct (decide (1 <= i)%nat); [|split; [apply same_core_refl|by left]].
  destruct (due now p) eqn:E'; [|split; [apply same_core_refl|by left]].
  apply andb_true_iff in E' as [E' _]. apply andb_true_iff in E' as [E' _].
  apply bool_decide_eq_true in E'. split; [|by right]. split; try done.
  unfold live. simpl. by rewrite E'.
Qed.

Lemma wake_sleepers_ok now s (Q : unit -> sched E -> Prop) :
  length (process_table s) = 16%nat ->
  (forall t', pointwise (fun j p p' => p' = woken now j p) (process_table s) t' -> Q tt (set_table t' s)) ->
  wp (wake_sleepers now) s Q.
Proof.
  intros Hlen HQ. unfold wake_sleepers. change 1 with (Z.of_nat 1).
  apply (for_table_ok (woken now)); [done|done| |].
  - intros i p s' Hi Hp Hl _. run. eapply wp_get; [done..|]. unfold woken. rewrite decide_True by lia.
    fold (due now p). destruct (due now p).
    + by apply wp_put.
    + run. rewrite list_insert_id by done. by destruct s'.
  - intros t' Hpw. apply HQ. eapply pointwise_mono; [|done]. cbv beta. intros j p p' ->.
    unfold woken. by destruct (decide (1 <= j)%nat).
Qed.

Definition ready_after (now : Z) s (i : nat) : Prop :=
  exists p, process_table s !! i = Some p /\ state (woken now i p) = PROCESS_READY.

Lemma slice_ok s i p p' :
  inv s -> current_process s = Some (Z.of_nat i) -> process_table s !! i = Some p ->
  same_core p p' -> state p' = PROCESS_RUNNING -> 1 <= time_slice p' <= DEFAULT_TIME_SLICE ->
  time_slice p' <= time_slice p \/ (forall j, ~ at_state s j PROCESS_READY) ->
  inv (set_table (<[i := p']> (process_table s)) s) /\ fair s (set_table (<[i := p']> (process_table s)) s).
Proof.
  intros [(i' & p0 & Hc & Hp & [Ht Hr Hn Hcpu] & Hact & Hslc)] Hc' Hp' Hsc Hst Hr1 Hr2.
  assert (i' = i) as -> by (rewrite Hc in Hc'; injection Hc'; lia).
  assert (p0 = p) as -> by congruence.
  assert (state p = PROCESS_RUNNING) as Hrun by (by apply (tok_running _ _ Ht i p Hp)).
  pose proof (lookup_lt_Some _ _ _ Hp) as Hi.
  split.
  - split. exists i, p'. split; [done|]. simpl. rewrite list_lookup_insert_eq by done. split; [done|].
    split; [split|].
    + eapply (tok_update _ (Some i) (Some i)); try done; try congruence; rewrite Hst; try done. by right.
    + by eapply rok_update.
    + by eapply nok_update.
    + done.
    + split; [|done]. simpl. rewrite Hact. symmetry. apply Hsc.
  - intros a j Ha (q & Hq & Hqst). destruct Hr2 as [Hle|Hno]; [|by destruct (Hno j); exists q].
    right. split.
    + exists q. simpl. rewrite list_lookup_insert_ne; [done|]. intros ->. congruence.
    + exists a. split; [done|]. left. split; [done|]. rewrite (slice_of_eq s i p) by done.
      rewrite (slice_of_eq _ i p'); [done|done|]. by apply list_lookup_insert_eq.
Qed.

(** ** Going to the back of the queue *)

(** The choice after the running process [i] was parked as ready: itself when
    nobody else is ready, otherwise the first ready process after it. *)
Lemma requeue_ok s i p (Q : option Z -> sched E -> Prop) :
  tok (process_table s) (Some i) -> process_table s !! i = Some p ->
  ((forall j, ~ at_state s j PROCESS_READY) ->
     Q (Some (Z.of_nat i)) (set_table (<[i := set_state PROCESS_READY p]> (process_table s)) s)) ->
  (forall k q, (1 <= k <= 15)%nat -> rotate i k <> i -> process_table s !! rotate i k = Some q ->
     state q = PROCESS_READY -> (forall j, (1 <= j < k)%nat -> ~ at_state s (rotate i j) PROCESS_READY) ->
     Q (Some (Z.of_nat (rotate i k))) (set_table (<[i := set_state PROCESS_READY p]> (process_table s)) s)) ->
  wp (find_next_ready (Z.of_nat i)) (set_table (<[i := set_state PROCESS_READY p]> (process_table s)) s) Q.
Proof.
  intros Ht Hp Hself Hother. pose proof (tok_len _ _ Ht) as Hlen. pose proof (inv_cur_lt s i p Ht Hp) as Hi16.
  assert (state p = PROCESS_RUNNING) as Hrun by (by apply (tok_running _ _ Ht i p Hp)).
  assert (forall j q, process_table s !! j = Some q -> state q = PROCESS_READY ->
    j <> i /\ <[i := set_state PROCESS_READY p]> (process_table s) !! j = Some q) as Hsub.
  { intros j q Hq Hst. assert (j <> i) by (intros ->; congruence). by rewrite list_lookup_insert_ne. }
  apply find_next_ready_ok; cbn [process_table set_table]; [by rewrite length_insert|done| |].
  { intros Hnone. destruct (Hnone i (set_state PROCESS_READY p)); [apply list_lookup_insert_eq; lia|done]. }
  intros k q Hk Hq Hqst Hbefore.
  assert (forall j, (1 <= j < k)%nat -> ~ at_state s (rotate i j) PROCESS_READY) as Hbefore'.
  { intros j Hj (q' & Hq' & Hst'). destruct (Hsub _ _ Hq' Hst') as [_ Hq1]. by apply (Hbefore j Hj q'). }
  destruct (decide (rotate i k = i)) as [Er|Er].
  - rewrite Er. apply Hself. intros j (q' & Hq' & Hst'). destruct (Hsub _ _ Hq' Hst') as [Hji _].
    pose proof (lookup_lt_Some _ _ _ Hq'). destruct (rotate_dist i j) as [Hd Hrd]; [done|lia|done|].
    assert (k = 16%nat) as ->.
    { unfold rotate in Er. pose proof (Nat.Div0.div_mod (i + k) 16). rewrite Er in *. lia. }
    apply (Hbefore' (dist i j)); [lia|]. rewrite Hrd. by exists q'.
  - assert (k <> 16%nat) as Hk16.
    { intros ->. apply Er. unfold rotate. replace (i + 16)%nat with (i + 1 * 16)%nat by lia.
      rewrite Nat.Div0.mod_add. by apply Nat.mod_small. }
    eapply Hother; [lia|done| |done|done]. by rewrite list_lookup_insert_ne in Hq.
Qed.

(** Switching to it. *)
Lemma requeue_switch s s0 i p k q :
  base s (Some i) -> current_process s = Some (Z.of_nat i) -> process_table s !! i = Some p ->
  current_process s0 = Some (Z.of_nat i) ->
  (forall j, at_state s0 j PROCESS_READY -> at_state s j PROCESS_READY) ->
  (1 <= k <= 15)%nat -> rotate i k <> i -> process_table s !! rotate i k = Some q -> state q = PROCESS_READY ->
  (forall j, (1 <= j < k)%nat -> ~ at_state s (rotate i j) PROCESS_READY) ->
  wp (switch_to (Z.of_nat (rotate i k)))
    (set_table (<[i := set_state PROCESS_READY p]> (process_table s)) s)
    (fun _ s' => inv s' /\ fair s0 s' /\ current_process s' = Some (Z.of_nat (rotate i k)) /\
      at_state s' i PROCESS_READY /\
      forall j c, process_table s !! j = Some c -> j <> i -> exists c', process_table s' !! j = Some c' /\
        state c' = if decide (j = rotate i k) then PROCESS_RUNNING else state c).
Proof.
  intros [Ht Hr Hn Hcpu] Hc Hp Hc0 Hsub Hk Hne Hq Hqst Hbefore. pose proof (tok_len _ _ Ht) as Hlen.
  pose proof (inv_cur_lt s i p Ht Hp) as Hi16.
  assert (state p = PROCESS_RUNNING) as Hrun by (by apply (tok_running _ _ Ht i p Hp)).
  assert (live p) as Hlp by (unfold live; congruence).
  assert (forall j, at_state s j PROCESS_READY -> j <> i) as Hni.
  { intros j (c & Hcj & Hst) ->. congruence. }
  eapply wp_mono.
  { eapply (leave_ok s0 _ i k (set_state PROCESS_READY p) q); try done.
    - split; [by apply park_ready| | |done].
      + eapply rok_update; [done|done|by apply same_core_state].
      + eapply nok_update; [done|done|by apply same_core_state].
    - apply list_lookup_insert_eq. lia.
    - lia.
    - simpl. by rewrite list_lookup_insert_ne.
    - intros j Hj c Hcj Hst. cbn [process_table set_table] in Hcj.
      destruct (decide (rotate i j = i)) as [Ej|Ej].
      + unfold rotate in Ej. pose proof (Nat.Div0.div_mod (i + j) 16). rewrite Ej in *. lia.
      + rewrite list_lookup_insert_ne in Hcj by done. apply (Hbefore j Hj). by exists c.
    - intros j Hj. apply Hsub in Hj. specialize (Hni j Hj). split; [done|].
      destruct Hj as (c & Hcj & Hst). exists c. simpl. by rewrite list_lookup_insert_ne. }
  cbv beta. intros _ s' (Hinv & Hfair & _ & Hc' & _ & Htab). split; [done|]. split; [done|]. split; [done|].
  split.
  - destruct (Htab i (set_state PROCESS_READY p)) as (p' & Hp' & _ & _ & _ & _ & Hs').
    { apply list_lookup_insert_eq. lia. }
    exists p'. split; [done|]. by rewrite Hs', decide_False.
  - intros j c Hcj Hji. destruct (Htab j c) as (c' & Hc2 & _ & _ & _ & _ & Hs').
    { simpl. by rewrite list_lookup_insert_ne. }
    by exists c'.
Qed.

Lemma yield_ok s :
  inv s -> wp scheduler_yield s (fun kept s' => inv s' /\ fair s s' /\
    if kept then s' = s /\ (forall i, ~ at_state s i PROCESS_READY)
    else exists a k, current_process s = Some (Z.of_nat a) /\ (1 <= k <= 15)%nat /\
      current_process s' = Some (Z.of_nat (rotate a k)) /\ at_state s (rotate a k) PROCESS_READY /\
      (forall j, (1 <= j < k)%nat -> ~ at_state s (rotate a j) PROCESS_READY) /\
      at_state s' a PROCESS_READY).
Proof.
  intros [(i & p & Hc & Hp & Hbase & Hact & Hslc)]. pose proof Hbase as [Ht Hr Hn Hcpu].
  pose proof (tok_len _ _ Ht) as Hlen. pose proof (inv_cur_lt s i p Ht Hp) as Hi16.
  assert (state p = PROCESS_RUNNING) as Hrun by (by apply (tok_running _ _ Ht i p Hp)).
  unfold scheduler_yield. apply wp_bind, wp_zoom, Cpu.irq_save_disable_wp.
  apply wp_bind. eapply wp_current; [done|]. apply wp_bind. eapply wp_update; [done|exact Hp|]. simpl.
  set (s1 := set_cpu _ s).
  apply wp_bind. apply (requeue_ok s1 i p); [done|done| |].
  - intros Hnone. rewrite bool_decide_eq_false_2, bool_decide_eq_true_2 by done. cbn [orb].
    apply wp_bind. eapply wp_update; [tab|apply list_lookup_insert_eq; simpl; lia|]. simpl.
    rewrite list_insert_insert_eq, set_running_ready, list_insert_id by done.
    apply wp_bind, wp_zoom. simpl. apply Cpu.irq_restore_wp; [done|]. run.
    replace (set_cpu (cpu s) _) with s by (clear; by destruct s).
    split; [by split; exists i, p|]. split; [|done]. intros a j _ Hj. by destruct (Hnone j).
  - intros k q Hk Hne Hq Hqst Hbefore.
    rewrite !bool_decide_eq_false_2 by (intros [=]; lia || done). cbn [orb]. apply wp_bind.
    eapply wp_mono; [eapply (requeue_switch s1 s i p k q); try done|].
    { split; [done|done|done|by apply Cpu.masked_wf]. }
    cbv beta. intros _ s' (Hinv & Hfair & Hc' & Hati & _). run. split; [done|]. split; [done|].
    exists i, k. split; [done|]. split; [done|]. split; [done|]. split; [by exists q|]. done.
Qed.

Lemma fair_same s s' :
  current_process s' = current_process s -> slice_of s' <= slice_of s ->
  (forall i, at_state s i PROCESS_READY -> at_state s' i PROCESS_READY) -> fair s s'.
Proof. intros Hc Hsl Hsub a i Ha Hi. right. split; [auto|]. exists a. split; [congruence|by left]. Qed.

Lemma fair_refl s : fair s s.
Proof. by apply fair_same. Qed.

Lemma fair_trans s s1 s' :
  current_process s1 = current_process s -> slice_of s1 <= slice_of s ->
  (forall i, at_state s i PROCESS_READY -> at_state s1 i PROCESS_READY) -> fair s1 s' -> fair s s'.
Proof.
  intros Hc Hsl Hsub Hf a i Ha Hi. destruct (Hf a i) as [?|(? & b & ? & [[? ?]|?])]; [congruence|auto|auto| |].
  - right. split; [done|]. exists b. split; [done|]. left. split; [done|lia].
  - right. eauto.
Qed.

Lemma woken_running now i p : state p = PROCESS_RUNNING -> woken now i p = p.
Proof. intros Hr. unfold woken, due. rewrite bool_decide_eq_false_2 by congruence. by case_decide. Qed.

Lemma woken_ready now i p : state p = PROCESS_READY -> woken now i p = p.
Proof. intros Hr. unfold woken, due. rewrite bool_decide_eq_false_2 by congruence. by case_decide. Qed.

(** The effect of a timer tick on the others and on the running process. *)
Definition tick_post s s' : Prop :=
  exists a p, current_process s = Some (Z.of_nat a) /\ process_table s !! a = Some p /\
    (forall j q, process_table s !! j = Some q -> j <> a -> exists q', process_table s' !! j = Some q' /\
       (current_process s' = Some (Z.of_nat j) -> state (woken (tick_count s) j q) = PROCESS_READY) /\
       state q' = if decide (current_process s' = Some (Z.of_nat j)) then PROCESS_RUNNING
                  else state (woken (tick_count s) j q)) /\
    if decide (1 < time_slice p) then
      current_process s' = current_process s /\
      exists p', process_table s' !! a = Some p' /\ time_slice p' = time_slice p - 1
    else
      ((forall i, ~ ready_after (tick_count s) s i) -> current_process s' = current_process s) /\
      ((exists i, ready_after (tick_count s) s i) -> current_process s' <> current_process s) /\
      (forall k, (1 <= k <= 15)%nat -> ready_after (tick_count s) s (rotate a k) ->
         (forall j, (1 <= j < k)%nat -> ~ ready_after (tick_count s) s (rotate a j)) ->
         current_process s' = Some (Z.of_nat (rotate a k))).

Lemma tick_ok s : inv s -> wp scheduler_on_tick s (fun _ s' => inv s' /\ fair s s' /\ tick_post s s').
Proof.
  intros [(i & p & Hc & Hp & Hbase & Hact & Hslc)]. pose proof (base_tok _ _ Hbase) as Ht0.
  assert (state p = PROCESS_RUNNING) as Hrun by (by apply (tok_running _ _ Ht0 i p Hp)).
  unfold scheduler_on_tick, pit_ticks. run. apply wake_sleepers_ok; [apply Ht0|].
  intros t1 Hpw. set (s1 := set_table t1 s).
  assert (base s1 (Some i)) as Hb1.
  { apply base_map; [done|]. eapply pointwise_mono; [|done]. intros ? ? ? ->. apply woken_wakes. }
  pose proof (base_tok _ _ Hb1) as Ht1. pose proof (tok_len _ _ Ht1) as Hl1.
  assert (process_table s1 !! i = Some p) as Hp1.
  { destruct Hpw as [_ Hpw]. destruct (Hpw i p Hp) as (p' & Hp' & ->). by rewrite woken_running in Hp'. }
  assert (forall j q, process_table s !! j = Some q -> process_table s1 !! j = Some (woken (tick_count s) j q)) as Htab.
  { destruct Hpw as [_ Hpw]. intros j q Hq. by destruct (Hpw j q Hq) as (q' & Hq' & ->). }
  assert (forall j, at_state s1 j PROCESS_READY <-> ready_after (tick_count s) s j) as Hra.
  { intros j. split.
    - intros (q' & Hq' & Hst). destruct (pointwise_back _ _ _ _ _ Hpw Hq') as (q & Hq & ->). by exists q.
    - intros (q & Hq & Hst). eexists; split; [by apply Htab|done]. }
  assert (forall j, at_state s j PROCESS_READY -> at_state s1 j PROCESS_READY) as Hsub.
  { intros j (q & Hq & Hst). rewrite Hra. exists q. by rewrite woken_ready. }
  assert (inv s1) as Hinv1 by (split; by exists i, p).
  run. change (current_process s1) with (current_process s). rewrite Hc. run. eapply wp_get; [done..|].
  rewrite bool_decide_eq_false_2 by (by intros H'; apply H').
  assert (slice_of s1 <= slice_of s) as Hsls.
  { rewrite (slice_of_eq s i p), (slice_of_eq s1 i p) by done. lia. }
  assert (forall p', same_core p p' -> state p' = PROCESS_RUNNING -> 1 <= time_slice p' <= DEFAULT_TIME_SLICE ->
    time_slice p' <= time_slice p \/ (forall j, ~ at_state s1 j PROCESS_READY) ->
    let s' := set_table (<[i := p']> (process_table s1)) s1 in inv s' /\ fair s s' /\
    forall j q, process_table s !! j = Some q -> j <> i -> exists q', process_table s' !! j = Some q' /\
       (current_process s' = Some (Z.of_nat j) -> state (woken (tick_count s) j q) = PROCESS_READY) /\
       state q' = if decide (current_process s' = Some (Z.of_nat j)) then PROCESS_RUNNING
                  else state (woken (tick_count s) j q)) as Hkeep.
  { intros p' Hsc Hst Hr1 Hr2. destruct (slice_ok s1 i p p') as [Hi' Hf']; try done. split; [done|].
    split; [by apply (fair_trans s s1)|]. intros j q Hq Hji. eexists. cbn [process_table set_table].
    rewrite list_lookup_insert_ne by done. split; [by apply Htab|].
    assert (Some (Z.of_nat i) <> Some (Z.of_nat j)) as Hnij by (intros [= H']; lia). rewrite <-Hc in Hnij.
    split; [done|]. by rewrite decide_False. }
  pose proof (lookup_lt_Some _ _ _ Hp1) as Hilt.
  destruct (Z.ltb_spec 1 (time_slice p)) as [Hsl|Hsl].
  - eapply wp_update; [done|exact Hp1|]. simpl.
    destruct (Hkeep (set_time_slice (time_slice p - 1) p)) as (? & ? & ?); [by split|done|simpl; lia|left; simpl; lia|].
    split; [done|]. split; [done|]. exists i, p. split; [done|]. split; [done|]. split; [done|].
    rewrite decide_True by done. split; [done|]. eexists; split; [by apply list_lookup_insert_eq|done].
  - apply wp_bind. eapply wp_update; [done|exact Hp1|]. apply wp_bind.
    apply (requeue_ok s1 i p); [done|done| |].
    + intros Hnone. rewrite bool_decide_eq_false_2, bool_decide_eq_true_2 by done. cbn [orb].
      apply wp_bind. eapply wp_update; [tab|by apply list_lookup_insert_eq|].
      cbn [process_table set_table]. rewrite list_insert_insert_eq.
      eapply wp_update; [tab|by apply list_lookup_insert_eq|].
      cbn [process_table set_table]. rewrite list_insert_insert_eq.
      destruct (Hkeep (set_time_slice DEFAULT_TIME_SLICE (set_state PROCESS_RUNNING (set_state PROCESS_READY p)))) as (? & ? & ?).
      { split; try done. unfold live. simpl. by rewrite Hrun. }
      { done. }
      { done. }
      { by right. }
      split; [done|]. split; [done|]. exists i, p. split; [done|]. split; [done|]. split; [done|].
      rewrite decide_False by lia. split; [done|]. split.
      * intros (k & Hk). apply Hra in Hk. by destruct (Hnone k).
      * intros k Hk Hra' _. apply Hra in Hra'. by destruct (Hnone (rotate i k)).
    + intros k q Hk Hne Hq Hqst Hbefore.
      rewrite !bool_decide_eq_false_2 by (intros [=]; lia || done). cbn [orb].
      eapply wp_mono; [eapply (requeue_switch s1 s i p k q); try done|].
      cbv beta. intros _ s' (Hinv & Hfair & Hc' & Hati & Hoth). split; [done|]. split; [done|].
      exists i, p. split; [done|]. split; [done|]. split; [|rewrite decide_False by lia; split; [|split]].
      * intros j c Hcj Hji. destruct (Hoth j _ (Htab _ _ Hcj) Hji) as (c' & Hc2 & Hs2).
        exists c'. split; [done|]. rewrite Hs2, Hc'. split.
        { intros [= Ej]. apply Nat2Z.inj in Ej as <-. pose proof (Htab _ _ Hcj). congruence. }
        repeat case_decide; try done; [by subst|].
        exfalso. assert (Z.of_nat (rotate i k) = Z.of_nat j) by congruence. lia.
      * intros Hnone. destruct (Hnone (rotate i k)). apply Hra. by exists q.
      * intros _. rewrite Hc', Hc. intros [= Eq]. lia.
      * intros k' Hk' Hra' Hmin. rewrite Hc'. assert (k' = k) as ->; [|done].
        destruct (Nat.lt_total k k') as [Hlt|[?|Hlt]]; [|done|].
        -- destruct (Hmin k); [lia|]. apply Hra. by exists q.
        -- destruct (Hbefore k'); [lia|]. by apply Hra.
Qed.

(** ** Sleeping *)

(** The wrap-around comparison of tick counts. *)
Lemma wake_time start ticks d :
  0 <= start < 4294967296 -> 1 <= ticks <= SLEEP_MAXIMUM_TICKS -> 0 <= d <= SLEEP_MAXIMUM_TICKS ->
  (0 <=? s32 ((start +u d) -u (start +u ticks))) = bool_decide (ticks <= d).
Proof.
  unfold SLEEP_MAXIMUM_TICKS. intros Ht Hk Hd.
  assert (((start +u d) -u (start +u ticks)) = u32 (d - ticks)) as ->.
  { unfold u32. rewrite Zminus_mod_idemp_l, Zminus_mod_idemp_r. f_equal. lia. }
  destruct (Z.leb_spec 0 (s32 (u32 (d - ticks)))); case_bool_decide; try done; word_lia.
Qed.

Lemma not_ready_insert t i p' j :
  not_ready t j -> state p' <> PROCESS_READY -> not_ready (<[i := p']> t) j.
Proof. intros Hn Hs c [(-> & -> & _)|[_ Hc]]%lookup_insert_cases; [done|eauto]. Qed.

(** Parking the running process in a state that is not ready. *)
Lemma park_switch s i p p' k q :
  base s (Some i) -> current_process s = Some (Z.of_nat i) -> process_table s !! i = Some p ->
  same_core p p' -> base (set_table (<[i := p']> (process_table s)) s) None ->
  state p' <> PROCESS_READY -> (1 <= k <= 16)%nat -> process_table s !! rotate i k = Some q ->
  state q = PROCESS_READY -> (forall j, (1 <= j < k)%nat -> not_ready (process_table s) (rotate i j)) ->
  wp (switch_to (Z.of_nat (rotate i k))) (set_table (<[i := p']> (process_table s)) s)
    (fun _ s' => inv s' /\ fair s s' /\
      dispatched (set_table (<[i := p']> (process_table s)) s) i (rotate i k) s').
Proof.
  intros [Ht Hr Hn Hcpu] Hc Hp Hsc Hb Hnr Hk Hq Hqst Hbefore. pose proof (tok_len _ _ Ht) as Hlen.
  pose proof (inv_cur_lt s i p Ht Hp) as Hi16.
  assert (state p = PROCESS_RUNNING) as Hrun by (by apply (tok_running _ _ Ht i p Hp)).
  assert (rotate i k <> i) as Hne by congruence.
  eapply (leave_ok s _ i k p' q); try done.
  - apply list_lookup_insert_eq. lia.
  - apply Hsc. unfold live. congruence.
  - simpl. by rewrite list_lookup_insert_ne.
  - intros j Hj. apply not_ready_insert; [by apply Hbefore|done].
  - intros j (c & Hcj & Hst). assert (j <> i) by congruence. split; [done|].
    exists c. simpl. by rewrite list_lookup_insert_ne.
Qed.

(** [scheduler_sleep_current]: refuses a span above the maximum and a sleep
    nobody could end; otherwise blocks the caller until its tick. *)
Definition sleep_post (ticks : Z) s (r : option bool) s' : Prop :=
  match r with
  | Some true => ticks = 0 /\ s' = s
  | Some false => s' = s /\ (SLEEP_MAXIMUM_TICKS < ticks \/ forall i, ~ at_state s i PROCESS_READY)
  | None => exists a p', current_process s = Some (Z.of_nat a) /\ process_table s' !! a = Some p' /\
      (ticks = 0 -> state p' = PROCESS_READY) /\
      (ticks <> 0 -> state p' = PROCESS_BLOCKED /\ wait_node p' = None /\ wake_tick p' = tick_count s +u ticks)
  end.

Lemma sleep_ok ticks s :
  0 <= ticks -> inv s -> wp (scheduler_sleep_current ticks) s (fun r s' => inv s' /\ fair s s' /\ sleep_post ticks s r s').
Proof.
  intros Ht0 Hinv. unfold scheduler_sleep_current. destruct (Z.eqb_spec ticks 0) as [->|Hne].
  { apply wp_bind. eapply wp_mono; [by apply yield_ok|]. cbv beta. intros kept s' (Hinv' & Hf & Hpost).
    destruct kept; run; (split; [done|]; split; [done|]).
    - by destruct Hpost.
    - destruct Hpost as (a & k & Hca & _ & _ & _ & _ & p' & Hp' & Hst). exists a, p'. done. }
  destruct (Z.ltb_spec SLEEP_MAXIMUM_TICKS ticks) as [Hmax|Hmax].
  { run. split; [done|]. split; [apply fair_refl|]. split; [done|by left]. }
  pose proof Hinv as [(i & p & Hc & Hp & Hbase & Hact & Hslc)]. pose proof Hbase as [Ht Hr Hn Hcpu].
  pose proof (tok_len _ _ Ht) as Hlen. pose proof (inv_cur_lt s i p Ht Hp) as Hi16.
  assert (state p = PROCESS_RUNNING) as Hrun by (by apply (tok_running _ _ Ht i p Hp)).
  assert (live p) as Hlp by (unfold live; congruence).
  apply wp_bind, wp_zoom, Cpu.irq_save_disable_wp. apply wp_bind. eapply wp_current; [done|].
  apply wp_bind. apply find_next_ready_ok; [done|done| |].
  - intros Hnone. apply wp_bind, wp_zoom. apply Cpu.irq_restore_wp; [done|]. run.
    rewrite lset_lset, lset_lget. split; [done|]. split; [apply fair_refl|].
    split; [done|right]. intros j (q & Hq & Hst). by apply (Hnone j q).
  - intros k q Hk Hq Hqst Hbefore. unfold pit_ticks. apply wp_bind, wp_gets.
    cbn [process_table lset cpu_lens set_cpu] in *.
    set (s1 := set_cpu _ s) in *.
    apply wp_bind. eapply wp_update; [done|exact Hp|].
    pose proof (lookup_lt_Some _ _ _ Hp) as Hil.
    apply wp_bind. eapply wp_update; [tab|apply list_lookup_insert_eq; done|].
    cbn [process_table set_table]. rewrite list_insert_insert_eq.
    apply wp_bind. eapply wp_update; [tab|apply list_lookup_insert_eq; done|].
    cbn [process_table set_table]. rewrite list_insert_insert_eq.
    set (p' := set_state PROCESS_BLOCKED _). apply wp_bind.
    assert (same_core p p') as Hsc by (by split).
    eapply wp_mono; [eapply (park_switch s1 i p p' k q)|]; try done.
    + split; [done|done|done|by apply Cpu.masked_wf].
    + split; [|by eapply rok_update|by eapply nok_update|by apply Cpu.masked_wf].
      eapply (tok_update _ (Some i) None i p); try done. simpl. by rewrite Hrun.
    + cbv beta. intros _ s' (Hinv' & Hf & Hd). run. split; [done|]. split; [done|].
      destruct Hd as (_ & _ & _ & Htab). destruct (Htab i p') as (p2 & Hp2 & _ & Hw & _ & Hwk & Hst).
      { by apply list_lookup_insert_eq. }
      exists i, p2. split; [done|]. split; [done|]. split; [done|]. intros _.
      assert (i <> rotate i k) by congruence. by rewrite Hst, decide_False.
Qed.

(** ** Descriptors *)

Definition fd_range (d : Z) : bool := (3 <=? d) && (d <? 16).

Definition fd_of p (d : Z) : Z := if fd_range d then default 0 (fd_table p !! Z.to_nat d) else 0.

Lemma fd_range_test d : (d <? 3) || (PROCESS_FD_LIMIT <=? d) = negb (fd_range d).
Proof. unfold fd_range, PROCESS_FD_LIMIT. destruct (Z.ltb_spec d 3), (Z.leb_spec 16 d), (Z.leb_spec 3 d), (Z.ltb_spec d 16); done || lia. Qed.

Lemma fd_lookup p d : length (fd_table p) = 16%nat -> fd_range d = true ->
  fd_table p !! Z.to_nat d = Some (fd_of p d).
Proof.
  intros Hl Hd. unfold fd_of. rewrite Hd. unfold fd_range in Hd.
  apply andb_true_iff in Hd as [?%Z.leb_le ?%Z.ltb_lt].
  destruct (lookup_lt_is_Some_2 (fd_table p) (Z.to_nat d)) as [h Hh]; [lia|]. by rewrite Hh.
Qed.

Lemma set_cpu_cpu s : set_cpu (cpu s) s = s.
Proof. by destruct s. Qed.

Lemma set_table_id s : set_table (process_table s) s = s.
Proof. by destruct s. Qed.

Lemma fd_get_ok s i p d (Q : Z -> sched E -> Prop) :
  current_process s = Some (Z.of_nat i) -> process_table s !! i = Some p ->
  length (process_table s) = 16%nat -> length (fd_table p) = 16%nat -> Cpu.wf (cpu s) ->
  Q (fd_of p d) s -> wp (scheduler_fd_get d) s Q.
Proof.
  intros Hc Hp Hl Hfl Hcpu HQ. unfold scheduler_fd_get. run. rewrite Hc, fd_range_test.
  destruct (fd_range d) eqn:Hd; cbn [negb].
  - apply wp_bind, wp_zoom, Cpu.irq_save_disable_wp. apply wp_bind. eapply wp_get; [done..|].
    run. eapply wp_access; [by apply fd_lookup|]. run. apply Cpu.irq_restore_wp; [done|]. run.
    rewrite lset_lset, lset_lget. done.
  - run. unfold fd_of in HQ. by rewrite Hd in HQ.
Qed.

Lemma fd_remove_ok s i p d (Q : Z -> sched E -> Prop) :
  current_process s = Some (Z.of_nat i) -> process_table s !! i = Some p ->
  length (process_table s) = 16%nat -> length (fd_table p) = 16%nat -> Cpu.wf (cpu s) ->
  (fd_range d = true ->
     Q (fd_of p d) (set_table (<[i := set_fd_table (<[Z.to_nat d := 0]> (fd_table p)) p]> (process_table s)) s)) ->
  (fd_range d = false -> Q 0 s) -> wp (scheduler_fd_remove d) s Q.
Proof.
  intros Hc Hp Hl Hfl Hcpu HQ1 HQ2. unfold scheduler_fd_remove. run. rewrite Hc, fd_range_test.
  destruct (fd_range d) eqn:Hd; cbn [negb].
  - apply wp_bind, wp_zoom, Cpu.irq_save_disable_wp. apply wp_bind. eapply wp_get; [done..|].
    run. eapply wp_access; [by apply fd_lookup|]. run. apply wp_put. run. apply Cpu.irq_restore_wp; [done|]. run.
    by apply HQ1.
  - run. by apply HQ2.
Qed.

(** The first free slot from 3 on. *)
Lemma fd_install_ok s i p h (Q : Z -> sched E -> Prop) :
  current_process s = Some (Z.of_nat i) -> process_table s !! i = Some p ->
  length (process_table s) = 16%nat -> length (fd_table p) = 16%nat -> Cpu.wf (cpu s) -> h <> 0 ->
  (forall d, fd_range d = true -> fd_of p d = 0 -> (forall d', 3 <= d' < d -> fd_of p d' <> 0) ->
     Q d (set_table (<[i := set_fd_table (<[Z.to_nat d := h]> (fd_table p)) p]> (process_table s)) s)) ->
  ((forall d, fd_range d = true -> fd_of p d <> 0) -> Q (- MINIOS_EMFILE) s) ->
  wp (scheduler_fd_install h) s Q.
Proof.
  intros Hc Hp Hl Hfl Hcpu Hh HQ1 HQ2. unfold scheduler_fd_install. run. rewrite Hc.
  rewrite (proj2 (Z.eqb_neq h 0)) by done.
  apply wp_bind, wp_zoom, Cpu.irq_save_disable_wp. apply wp_bind.
  apply (wp_for_until (fun k s' => s' = lset (Cpu.masked (cpu s)) s /\ forall d, 3 <= d < k -> fd_of p d <> 0)).
  - split; [done|lia].
  - intros d s' Hd [-> Hno]. assert (fd_range d = true) as Hr.
    { unfold fd_range. apply andb_true_iff. split; [apply Z.leb_le|apply Z.ltb_lt]; lia. }
    run. eapply wp_get; [done..|]. run. eapply wp_access; [by apply fd_lookup|]. run.
    destruct (Z.eqb_spec (fd_of p d) 0) as [E0|En].
    + run. apply wp_put. run. apply Cpu.irq_restore_wp; [done|]. run. by apply HQ1.
    + run. split; [done|]. intros d' Hd'. destruct (decide (d' = d)) as [->|]; [done|]. apply Hno. lia.
  - intros s' [-> Hno]. run. apply Cpu.irq_restore_wp; [done|]. run. rewrite lset_lset, lset_lget.
    apply HQ2. intros d Hd. unfold fd_range in Hd. apply andb_true_iff in Hd as [?%Z.leb_le ?%Z.ltb_lt].
    apply Hno. lia.
Qed.

(** The services after a call that allocates nothing. *)
Definition quiet (e e' : E) : Prop :=
  sv_inv e' /\ sv_active e' = sv_active e /\ (forall d, sv_space e' d <-> sv_space e d) /\
  (forall b, sv_stack e' b <-> sv_stack e b).

Lemma quiet_refl e : sv_inv e -> quiet e e.
Proof. by split. Qed.

Lemma quiet_trans e1 e2 e3 : quiet e1 e2 -> quiet e2 e3 -> quiet e1 e3.
Proof.
  intros (_ & A1 & B1 & C1) (I2 & A2 & B2 & C2). split; [done|]. split; [congruence|].
  split; intros; [by rewrite B2|by rewrite C2].
Qed.

(** Closing every descriptor touches only the table of the current process. *)
Lemma close_all_ok s i p (Q : unit -> sched E -> Prop) :
  current_process s = Some (Z.of_nat i) -> process_table s !! i = Some p ->
  length (process_table s) = 16%nat -> length (fd_table p) = 16%nat -> Cpu.wf (cpu s) -> sv_inv (svc s) ->
  (forall e fds, quiet (svc s) e -> length fds = 16%nat ->
     Q tt (set_svc e (set_table (<[i := set_fd_table fds p]> (process_table s)) s))) ->
  wp vfs_close_all_current s Q.
Proof.
  intros Hc Hp Hl Hfl Hcpu Hi HQ. unfold vfs_close_all_current.
  assert (set_fd_table (fd_table p) p = p) as Hid by (by destruct p).
  pose proof (lookup_lt_Some _ _ _ Hp) as Hil.
  apply wp_bind, wp_zoom. eapply wp_mono; [by apply sv_vfs_initialized_ok|]. cbv beta. intros b e ->.
  rewrite lset_lget. destruct b; cbn [negb].
  2:{ run. specialize (HQ (svc s) (fd_table p)). rewrite Hid, list_insert_id in HQ by done.
      rewrite set_table_id in HQ. replace (set_svc (svc s) s) with s in HQ by (by destruct s).
      apply HQ; [by apply quiet_refl|done]. }
  apply (wp_for_range (fun _ s' => exists e fds, quiet (svc s) e /\ length fds = 16%nat /\
    s' = set_svc e (set_table (<[i := set_fd_table fds p]> (process_table s)) s))).
  - exists (svc s), (fd_table p). split; [by apply quiet_refl|]. split; [done|].
    rewrite Hid, list_insert_id by done. by destruct s.
  - intros d s' Hd (e & fds & Hq & Hfds & ->). apply wp_bind.
    set (s1 := set_svc e _).
    assert (process_table s1 !! i = Some (set_fd_table fds p)) as Hp1 by (by apply list_lookup_insert_eq).
    assert (length (process_table s1) = 16%nat) as Hl1 by (simpl; by rewrite length_insert).
    eapply fd_get_ok; try done. destruct (Z.eqb_spec (fd_of (set_fd_table fds p) d) 0); cbn [negb].
    { run. by exists e, fds. }
    unfold close_descriptor. apply wp_bind.
    assert (sv_inv e) as Hie by apply Hq.
    eapply fd_remove_ok; try done; intros _; apply wp_zoom; (eapply wp_mono; [apply sv_release_file_ok; exact Hie|]);
      cbv beta; intros _ e' Hq'; exists e'.
    + exists (<[Z.to_nat d := 0]> fds). split; [by eapply quiet_trans|].
      split; [by rewrite length_insert|]. unfold s1. simpl. by rewrite list_insert_insert_eq.
    + exists fds. split; [by eapply quiet_trans|]. done.
  - intros s' (e & fds & ? & ? & ->). by apply HQ.
Qed.

End sched.

End SchedulerInv.
