(* ===== verification/SchedulerLife.v ===== *)
(** * Birth, death and waiting

    [scheduler_exit_current], [reap_process], [scheduler_waitpid],
    [kernel_thread_create] and the working directory, against the invariant of
    the process table. *)

From S2P Require Import Prelude Monad Interfaces Cpu Scheduler SchedulerInv.

Module SchedulerLife.
Import Scheduler SchedulerInv.

(** The state after a run of writes to the same slot. *)
Ltac tsimpl := cbn [process_table set_table set_svc set_cpu lset cpu_lens svc_lens current_process svc cpu];
  rewrite ?list_insert_insert_eq.
Ltac tupd := tsimpl; eapply wp_update; [tab|by apply list_lookup_insert_eq|]; tsimpl.

Section sched.
Context {E : Type} `{!Services E}.
Implicit Types s : sched E.
Implicit Types (t : list process) (p c : process) (i j : nat).

(** ** Exit *)

(** A parent in slot [j] that the end of [child] (in slot [i]) wakes. *)
Definition awaits (i : nat) (child : process) (j : nat) p : bool :=
  bool_decide (state p = PROCESS_BLOCKED) && (pid p =? parent_pid child) &&
  (bool_decide (wait_node p = Some (Z.of_nat i)) || bool_decide (wait_node p = Some (Z.of_nat j))).

Definition notified (i : nat) (child : process) (j : nat) p : process :=
  if awaits i child j p then set_state PROCESS_READY (set_wait_node None p) else p.

Lemma awaits_blocked i child j p : awaits i child j p = true -> state p = PROCESS_BLOCKED.
Proof. unfold awaits. rewrite !andb_true_iff, bool_decide_eq_true. tauto. Qed.

Lemma notified_core i child j p : same_core p (notified i child j p).
Proof.
  unfold notified. destruct (awaits i child j p) eqn:Ea; [|apply same_core_refl].
  apply awaits_blocked in Ea. split; try done. unfold live. simpl. by rewrite Ea.
Qed.

Lemma notified_wakes i child j p : wakes j p (notified i child j p).
Proof.
  split; [apply notified_core|]. unfold notified. destruct (awaits i child j p) eqn:Ea; [|by left].
  right. split; [by eapply awaits_blocked|done].
Qed.

Lemma notified_same i child j p : state p <> PROCESS_BLOCKED -> notified i child j p = p.
Proof.
  intros Hs. unfold notified. destruct (awaits i child j p) eqn:Ea; [|done].
  by apply awaits_blocked in Ea.
Qed.

Lemma wake_waiting_parent_ok i child s (Q : unit -> sched E -> Prop) :
  length (process_table s) = 16%nat -> process_table s !! i = Some child -> state child <> PROCESS_BLOCKED ->
  (forall t', pointwise (fun j p p' => p' = notified i child j p) (process_table s) t' -> Q tt (set_table t' s)) ->
  wp (wake_waiting_parent (Z.of_nat i)) s Q.
Proof.
  intros Hlen Hc Hst HQ. unfold wake_waiting_parent. change 0 with (Z.of_nat 0).
  apply (for_table_ok (notified i child)); [done|done| |].
  - intros j p s' Hj Hp Hl [_ Hpw]. destruct (Hpw i child Hc) as (child' & Hc' & Eq).
    rewrite notified_same in Eq by done. assert (child' = child) as -> by tauto.
    run. eapply wp_get; [done|exact Hp|]. run. eapply wp_get; [done|exact Hc'|]. unfold notified.
    fold (awaits i child j p). destruct (awaits i child j p).
    + by apply wp_put.
    + run. rewrite list_insert_id by done. by destruct s'.
  - intros t' Hpw. apply HQ. eapply pointwise_mono; [|done]. cbv beta. intros j p p' ->.
    by rewrite decide_True by lia.
Qed.

(** The running process becomes a zombie and whoever waited for it is ready. *)
Lemma tok_exit t t' i p p' :
  tok t (Some i) -> t !! i = Some p -> same_core p p' -> state p' = PROCESS_ZOMBIE ->
  pointwise (fun j q q' => q' = notified i p' j q) (<[i := p']> t) t' -> tok t' None.
Proof.
  intros Ht Hp Hsc Hz Hpw. pose proof (lookup_lt_Some _ _ _ Hp) as Hil. pose proof Hpw as [Hl Hpt].
  rewrite length_insert in Hl.
  assert (state p = PROCESS_RUNNING) as Hrun by (by apply (tok_running _ _ Ht i p Hp)).
  assert (t' !! i = Some p') as Hi.
  { destruct (Hpt i p') as (x & Hx & ->); [by apply list_lookup_insert_eq|].
    rewrite notified_same in Hx by congruence. done. }
  assert (forall j q, t !! j = Some q -> j <> i -> t' !! j = Some (notified i p' j q)) as Hoth.
  { intros j q Hq Hne. destruct (Hpt j q) as (x & Hx & ->); [by rewrite list_lookup_insert_ne|done]. }
  assert (tok (<[i := p]> t') (Some i)) as Htw.
  { eapply tok_map; [exact Ht|]. split; [by rewrite length_insert|]. intros j q Hq.
    destruct (decide (j = i)) as [->|Hne].
    - exists p. rewrite list_lookup_insert_eq by lia. simplify_eq. split; [done|].
      split; [apply same_core_refl|by left].
    - eexists. rewrite list_lookup_insert_ne by done. split; [by apply Hoth|apply notified_wakes]. }
  replace t' with (<[i := p']> (<[i := p]> t')) by (by rewrite list_insert_insert_eq, list_insert_id).
  eapply (tok_update _ (Some i) None i p p'); try done.
  - apply list_lookup_insert_eq. lia.
  - by rewrite Hz.
  - by rewrite Hz.
  - intros _. right. intros j c Hc Hb Hpar.
    apply lookup_insert_cases in Hc as [(-> & -> & _)|[Hne Hc]]; [congruence|].
    destruct (lookup_lt_is_Some_2 t j) as [q Hq].
    { pose proof (lookup_lt_Some _ _ _ Hc). lia. }
    rewrite (Hoth j q) in Hc by done. simplify_eq. unfold notified in *.
    destruct (awaits i p' j q) eqn:Ea; [done|]. unfold awaits in Ea.
    rewrite bool_decide_eq_true_2 in Ea by done.
    rewrite (proj2 (Z.eqb_eq _ _)) in Ea by (rewrite (sc_parent _ _ Hsc); done). cbn [andb] in Ea.
    apply orb_false_iff in Ea as [?%bool_decide_eq_false ?%bool_decide_eq_false]. done.
  - rewrite Hz, Hrun. done.
  - rewrite Hz. done.
  - rewrite Hz. done.
Qed.

(** After an exit: the status is kept for the parent, and a parent that was
    waiting for this child can run. *)
Definition exit_post (code : Z) s s' : Prop :=
  exists i p p', current_process s = Some (Z.of_nat i) /\ process_table s !! i = Some p /\
    process_table s' !! i = Some p' /\ state p' = PROCESS_ZOMBIE /\ exit_code p' = code /\
    pid p' = pid p /\ parent_pid p' = parent_pid p /\
    forall j c, process_table s !! j = Some c -> j <> i -> exists c', process_table s' !! j = Some c' /\
      state c' = if decide (current_process s' = Some (Z.of_nat j)) then PROCESS_RUNNING
                 else state (notified i p j c).

Definition exit_panic (msg : string) : Prop := msg = "last kernel thread exited"%string.

Lemma exit_ok code s :
  inv s -> wpp exit_panic (scheduler_exit_current code) s (fun _ s' => inv s' /\ fair s s' /\ exit_post code s s').
Proof.
  intros [(i & p & Hc & Hp & Hbase & Hact & Hslc)]. pose proof Hbase as [Ht Hr Hn Hcpu].
  pose proof (tok_len _ _ Ht) as Hlen. pose proof (inv_cur_lt s i p Ht Hp) as Hi16.
  pose proof (lookup_lt_Some _ _ _ Hp) as Hil.
  assert (state p = PROCESS_RUNNING) as Hrun by (by apply (tok_running _ _ Ht i p Hp)).
  unfold scheduler_exit_current. apply wpp_bind_wp, wp_zoom, Cpu.irq_save_disable_wp.
  apply wpp_bind_wp. eapply close_all_ok; try done.
  { apply (tok_buffers _ _ Ht i p Hp). }
  { by apply Cpu.masked_wf. }
  { apply Hr. }
  intros e fds Hq Hfds. cbn [process_table set_cpu lset cpu_lens].
  apply wpp_bind_wp. eapply wp_current; [done|].
  apply wpp_bind_wp. tupd. apply wpp_bind_wp. tupd.
  set (p' := set_state PROCESS_ZOMBIE _).
  assert (same_core p p') as Hsc.
  { split; try done; [by simpl; rewrite Hfds; symmetry; apply (tok_buffers _ _ Ht i p Hp)|].
    unfold live. simpl. by rewrite Hrun. }
  apply wpp_bind_wp. eapply (wake_waiting_parent_ok i p'); [tab|by apply list_lookup_insert_eq|done|].
  intros t' Hpw. cbn [process_table set_table set_svc] in Hpw.
  set (s1 := set_table t' _). 
  assert (length t' = 16%nat) as Hl' by (destruct Hpw as [Hl' _]; by rewrite length_insert in Hl'; lia).
  assert (tok t' None) as Ht' by (by eapply tok_exit).
  assert (pointwise (fun _ => same_core) (process_table s) t') as Hcore.
  { split; [lia|]. intros j q Hq'. destruct Hpw as [_ Hpw]. destruct (decide (j = i)) as [->|Hne].
    - simplify_eq. destruct (Hpw i p') as (x & Hx & ->); [by apply list_lookup_insert_eq|].
      eexists; split; [done|]. rewrite notified_same; done.
    - destruct (Hpw j q) as (x & Hx & ->); [by rewrite list_lookup_insert_ne|].
      eexists; split; [done|apply notified_core]. }
  assert (t' !! i = Some p') as Hi'.
  { destruct Hpw as [_ Hpw]. destruct (Hpw i p') as (x & Hx & ->); [by apply list_lookup_insert_eq|].
    rewrite notified_same in Hx; done. }
  assert (forall j q, process_table s !! j = Some q -> j <> i -> t' !! j = Some (notified i p j q)) as Hoth.
  { intros j q Hq' Hne. destruct Hpw as [_ Hpw].
    destruct (Hpw j q) as (x & Hx & ->); [by rewrite list_lookup_insert_ne|done]. }
  assert (base s1 None) as Hb1.
  { split; [done| |by eapply nok_map|by apply Cpu.masked_wf].
    destruct Hq as (? & ? & ? & ?). eapply rok_map; [|exact Hcore]. eapply services_rok; done. }
  apply wpp_bind_wp. apply find_next_ready_ok; [done|done| |].
  { intros _. by apply wpp_panic. }
  intros k q Hk Hqk Hqst Hbefore. apply wpp_wp.
  eapply wp_mono; [eapply (leave_ok s s1 i k p' q); try done|].
  { intros j (c & Hcj & Hst). assert (j <> i) by congruence. split; [done|].
    eexists; split; [by apply Hoth|]. rewrite notified_same; [done|congruence]. }
  cbv beta. intros _ s' (Hinv & Hfair & _ & Hc' & _ & Htab). split; [done|]. split; [done|].
  destruct (Htab i p' Hi') as (p2 & Hp2 & [P1 P2 _ _ _ _ _ _] & _ & Hec & _ & Hs2).
  exists i, p, p2. split; [done|]. split; [done|]. split; [done|].
  assert (i <> rotate i k) by (intros Er; rewrite <-Er in Hqk; change (t' !! i = Some q) in Hqk; simplify_eq).
  rewrite decide_False in Hs2 by done. split; [done|]. split; [done|]. split; [done|]. split; [done|].
  intros j c Hcj Hji. destruct (Htab j _ (Hoth j c Hcj Hji)) as (c2 & Hc2 & _ & _ & _ & _ & Hs3).
  exists c2. split; [done|]. rewrite Hs3, Hc'. repeat case_decide; try done; [by subst|].
  exfalso. assert (Z.of_nat (rotate i k) = Z.of_nat j) by congruence. lia.
Qed.

(** ** Slots that are filled and emptied *)

Definition buffers_ok p : Prop :=
  length (fd_table p) = 16%nat /\ length (current_working_directory p) = 256%nat /\
  terminated (current_working_directory p).

(** Slot [j], free or holding a zombie, gets a free entry or a new ready process. *)
Lemma tok_replace t run j c c' :
  tok t run -> t !! j = Some c -> (1 <= j)%nat -> state c = PROCESS_UNUSED \/ state c = PROCESS_ZOMBIE ->
  state c' = PROCESS_UNUSED \/ state c' = PROCESS_READY -> buffers_ok c' ->
  (live c' -> 0 < pid c' <= PID_MAXIMUM /\ parent_pid c' <> pid c' /\
     forall k d, t !! k = Some d -> live d -> pid d <> pid c') ->
  tok (<[j := c']> t) run.
Proof.
  intros [Hlen Hrun Hst Hboot Hpid Huniq Hpa Hbuf Hwait] Hc Hj Hcs Hcs' Hb' Hfresh.
  pose proof (lookup_lt_Some _ _ _ Hc) as Hjl. split.
  - by rewrite length_insert.
  - intros k d [(-> & -> & _)|[_ Hd]]%lookup_insert_cases; [|eauto].
    rewrite <-(Hrun k c Hc). destruct Hcs as [-> | ->], Hcs' as [-> | ->]; done.
  - intros k d [(-> & -> & _)|[_ Hd]]%lookup_insert_cases; [|eauto]. destruct Hcs' as [-> | ->]; done.
  - destruct Hboot as (b & Hb & Hlb & Hpb). exists b. rewrite list_lookup_insert_ne by lia. done.
  - intros k d [(-> & -> & _)|[_ Hd]]%lookup_insert_cases Hl; [|eauto]. destruct (Hfresh Hl). lia.
  - intros k l d d' [(-> & -> & _)|[_ Hd]]%lookup_insert_cases [(-> & -> & _)|[_ Hd']]%lookup_insert_cases Hl Hl' Eq.
    + done.
    + destruct (Hfresh Hl) as (_ & _ & Hf). by destruct (Hf l d' Hd' Hl').
    + destruct (Hfresh Hl') as (_ & _ & Hf). by destruct (Hf k d Hd Hl).
    + by eapply Huniq.
  - intros k d [(-> & -> & _)|[_ Hd]]%lookup_insert_cases Hl; [by destruct (Hfresh Hl) as (_ & ? & _)|eauto].
  - intros k d [(-> & -> & _)|[_ Hd]]%lookup_insert_cases; [done|eauto].
  - intros k d [(-> & -> & _)|[_ Hd]]%lookup_insert_cases Hbl; [destruct Hcs'; congruence|].
    specialize (Hwait k d Hd Hbl). unfold waiting_ok in *. destruct (wait_node d) as [w|]; [|done].
    destruct (decide (w = Z.of_nat k)).
    + intros l d' [(-> & -> & _)|[_ Hd']]%lookup_insert_cases Hl Hz; [destruct Hcs'; congruence|eauto].
    + destruct Hwait as (l & d' & -> & Hd' & Hld & Hnz & Hpar). exists l, d'.
      rewrite list_lookup_insert_ne; [done|]. intros ->. simplify_eq. by destruct Hcs.
Qed.

Lemma nok_replace t next j c c' :
  nok t next -> t !! j = Some c -> (next <> 0 -> live c' -> pid c' < next) -> nok (<[j := c']> t) next.
Proof.
  intros [Hr Hn] Hc Hlt. split; [done|]. intros Hne k d [(-> & -> & _)|[_ Hd]]%lookup_insert_cases Hl; eauto.
Qed.

Lemma clear_buffers : buffers_ok clear_process.
Proof. split; [done|]. split; [done|]. exists [47], (replicate 254 0). split; [done|]. by repeat constructor. Qed.

(** Emptying a slot after its stack and its space were given back. *)
Lemma rok_reap t e e' j c :
  rok t e -> t !! j = Some c -> (1 <= j)%nat -> live c -> sv_inv e' ->
  (forall d, sv_space e' d <-> sv_space e d /\ (page_directory c <> 0 -> d <> page_directory c)) ->
  (forall b, sv_stack e' b <-> sv_stack e b /\ b <> kernel_stack_allocation c) ->
  rok (<[j := clear_process]> t) e'.
Proof.
  intros [Hi Hs Hsu Hp Hpu] Hc Hj Hlc Hie Hsp Hst.
  assert (forall k d, <[j := clear_process]> t !! k = Some d -> live d -> k <> j /\ t !! k = Some d) as Hold.
  { intros k d [(-> & -> & _)|[Hne Hd]]%lookup_insert_cases Hl; [by destruct Hl|done]. }
  split; [done| | | |].
  - intros k d Hd Hl Hk. destruct (Hold k d Hd Hl) as [Hkj Hd']. destruct (Hs k d Hd' Hl Hk) as [Hnz Hin].
    split; [done|]. rewrite Hst. split; [done|]. intros Eq. by apply Hkj, (Hsu k j d c).
  - intros k l d d' Hd Hd' Hl Hl' Hk1 Hl1. destruct (Hold k d Hd Hl), (Hold l d' Hd' Hl'). eauto.
  - intros k d Hd Hl Hne. destruct (Hold k d Hd Hl) as [Hkj Hd']. rewrite Hsp. split; [eauto|].
    intros _ Eq. by apply Hkj, (Hpu k j d c).
  - intros k l d d' Hd Hd' Hl Hl' Hne. destruct (Hold k d Hd Hl), (Hold l d' Hd' Hl'). eauto.
Qed.

(** [reap_process] on a zombie always succeeds: the slot is free again, and
    exactly its stack and its address space were given back. *)
Definition reaped (j : nat) c s s' : Prop :=
  process_table s' = <[j := clear_process]> (process_table s) /\
  (forall d, sv_space (svc s') d <-> sv_space (svc s) d /\ (page_directory c <> 0 -> d <> page_directory c)) /\
  (forall b, sv_stack (svc s') b <-> sv_stack (svc s) b /\ b <> kernel_stack_allocation c) /\
  sv_active (svc s') = sv_active (svc s) /\
  current_process s' = current_process s /\ cpu s' = cpu s /\ next_pid s' = next_pid s /\
  tick_count s' = tick_count s /\ esp s' = esp s.

Lemma reap_ok s j c :
  inv s -> process_table s !! j = Some c -> state c = PROCESS_ZOMBIE -> (1 <= j)%nat ->
  wp (reap_process (Z.of_nat j)) s (fun ok s' => ok = true /\ sv_inv (svc s') /\ reaped j c s s').
Proof.
  intros [(i & p & Hc & Hp & [Ht Hr Hn Hcpu] & Hact & Hslc)] Hj Hz H1. pose proof (tok_len _ _ Ht) as Hlen.
  pose proof (lookup_lt_Some _ _ _ Hj) as Hjl.
  assert (state p = PROCESS_RUNNING) as Hrun by (by apply (tok_running _ _ Ht i p Hp)).
  assert (live c) as Hlc by (unfold live; congruence). assert (live p) as Hlp by (unfold live; congruence).
  destruct (rok_stack _ _ Hr j c Hj Hlc H1) as [Hnz Hstk].
  unfold reap_process. run. eapply wp_get; [done..|]. run. rewrite Hc.
  rewrite (bool_decide_eq_false_2 (state c <> _)) by (intros H'; by apply H').
  rewrite bool_decide_eq_false_2 by (intros [= H']; apply Nat2Z.inj in H'; congruence).
  rewrite (proj2 (Z.eqb_neq _ _)) by done. cbn [orb].
  assert (forall s0, (exists e, sv_inv e /\ sv_stack e (kernel_stack_allocation c) /\
      sv_active e = sv_active (svc s) /\ (forall b, sv_stack e b <-> sv_stack (svc s) b) /\
      (forall d, sv_space e d <-> sv_space (svc s) d /\ (page_directory c <> 0 -> d <> page_directory c)) /\
      exists c', s0 = set_svc e (set_table (<[j := c']> (process_table s)) s)) ->
    wp (let! freed := zoom (sv_kfree (kernel_stack_allocation c)) in
        if negb freed then ret false else
        update_process (Z.of_nat j) (set_state PROCESS_REAPED) ;;
        put_process (Z.of_nat j) clear_process ;; ret true) s0
      (fun ok s' => ok = true /\ sv_inv (svc s') /\ reaped j c s s')) as Hfree.
  { intros s0 (e & Hie & Hin & Hae & Hstk' & Hsp & c' & ->). run.
    eapply wp_mono; [by apply sv_kfree_ok|]. cbv beta. intros ok e' (-> & Hie' & Hae' & Hsp' & Hst'). run.
    tupd. run. apply wp_put. run. tsimpl. split; [done|]. split; [done|].
    split; [tsimpl; done|]. cbn [svc set_table set_svc]. split; [intros d; by rewrite Hsp', Hsp|].
    split; [intros b; by rewrite Hst', Hstk'|]. split; [by etransitivity|]. done. }
  destruct (Z.eqb_spec (page_directory c) 0) as [E0|Hpd]; cbn [negb]; apply wp_bind.
  - apply wp_ret. cbn [negb]. apply Hfree. exists (svc s). split; [apply Hr|]. split; [done|]. split; [done|]. split; [done|].
    split; [by intros d; rewrite E0; intuition|]. exists c. rewrite list_insert_id by done. by destruct s.
  - apply wp_bind, wp_zoom. eapply wp_mono; [apply sv_destroy_ok|].
    + apply Hr.
    + by apply (rok_space _ _ Hr j c).
    + simpl. rewrite Hact. intros Eq. assert (j = i) as -> by (by apply (rok_space_unique _ _ Hr j i c p)).
      congruence.
    + cbv beta. intros ok e (-> & Hie & Hae & Hsp & Hst). run.
      eapply wp_update; [done|exact Hj|]. apply wp_ret. cbn [negb]. apply Hfree. exists e. split; [done|]. split; [by apply Hst|].
      split; [done|]. split; [done|]. split; [|eexists; reflexivity].
      intros d. rewrite Hsp. simpl. tauto.
Qed.

Lemma reaped_inv s s' j c :
  inv s -> process_table s !! j = Some c -> state c = PROCESS_ZOMBIE -> (1 <= j)%nat ->
  sv_inv (svc s') -> reaped j c s s' -> inv s' /\ fair s s'.
Proof.
  intros [(i & p & Hc & Hp & [Ht Hr Hn Hcpu] & Hact & Hslc)] Hj Hz H1 Hie (Etab & Hsp & Hst & Hae & Hcur & Hcpu' & Hnp & _ & _).
  assert (state p = PROCESS_RUNNING) as Hrun by (by apply (tok_running _ _ Ht i p Hp)).
  assert (live c) as Hlc by (unfold live; congruence). split.
  - split. exists i, p. rewrite Hcur, Etab, Hae, list_lookup_insert_ne by congruence.
    split; [done|]. split; [done|]. split; [|done]. split; rewrite ?Etab, ?Hnp, ?Hcpu'; try done.
    + eapply tok_replace; try done; [by right|by left|apply clear_buffers].
    + by eapply rok_reap.
    + by eapply nok_replace.
  - assert (process_table s' !! i = Some p) as Hp' by (by rewrite Etab, list_lookup_insert_ne by congruence).
    apply fair_same; [done| |].
    + rewrite (slice_of_eq s i p), (slice_of_eq s' i p); [done|congruence|done..].
    + intros k (q & Hq & Hqst). exists q. rewrite Etab, list_lookup_insert_ne by congruence. done.
Qed.

(** ** Waiting for children *)

(** Child [c] is one [p] may wait for with [waitpid(wanted, ...)]. *)
Definition child_of p (wanted : Z) c : Prop :=
  live c /\ state c <> PROCESS_REAPED /\ parent_pid c = pid p /\ (wanted = -1 \/ pid c = u32 wanted).

Lemma find_child_ok s i p wanted zombie_only (Q : option Z -> sched E -> Prop) :
  length (process_table s) = 16%nat -> process_table s !! i = Some p ->
  (forall j c, (1 <= j < 16)%nat -> process_table s !! j = Some c -> child_of p wanted c ->
     (zombie_only = true -> state c = PROCESS_ZOMBIE) -> Q (Some (Z.of_nat j)) s) ->
  ((forall j c, (1 <= j)%nat -> process_table s !! j = Some c -> child_of p wanted c ->
     zombie_only = true /\ state c <> PROCESS_ZOMBIE) -> Q None s) ->
  wp (find_child (Z.of_nat i) wanted zombie_only) s Q.
Proof.
  intros Hlen Hp HS HN. unfold find_child.
  apply (wp_for_until (fun k s' => s' = s /\ forall j c, (1 <= j)%nat -> Z.of_nat j < k ->
    process_table s !! j = Some c -> child_of p wanted c -> zombie_only = true /\ state c <> PROCESS_ZOMBIE)).
  - split; [done|lia].
  - intros k s' Hk [-> Hno]. replace k with (Z.of_nat (Z.to_nat k)) by lia. set (j := Z.to_nat k) in *.
    destruct (lookup_lt_is_Some_2 (process_table s) j) as [c Hc]; [lia|].
    run. eapply wp_get; [done|exact Hc|]. run. eapply wp_get; [done|exact Hp|]. run.
    match goal with |- context [if ?b then _ else _] => destruct b eqn:Eb end.
    + split; [done|]. intros j' c' Hj1 Hj2 Hc' Hch. destruct (decide (j' = j)) as [->|]; [|apply (Hno j'); done || lia].
      simplify_eq. destruct Hch as (Hl & Hnr & Hpar & Hw). rewrite !orb_true_iff in Eb.
      destruct Eb as [[[[Eb|Eb]|Eb]|Eb]|Eb].
      * by apply bool_decide_eq_true in Eb.
      * by apply bool_decide_eq_true in Eb.
      * apply negb_true_iff, Z.eqb_neq in Eb. done.
      * apply andb_true_iff in Eb as [?%negb_true_iff%Z.eqb_neq ?%negb_true_iff%Z.eqb_neq]. by destruct Hw.
      * apply andb_true_iff in Eb as [? ?%bool_decide_eq_true]. done.
    + rewrite !orb_false_iff in Eb. destruct Eb as [[[[E1 E2] E3] E4] E5].
      apply bool_decide_eq_false in E1, E2. apply negb_false_iff, Z.eqb_eq in E3.
      apply (HS j c); [lia|done| |].
      * split; [done|]. split; [done|]. split; [done|].
        apply andb_false_iff in E4 as [E4|E4]; apply negb_false_iff, Z.eqb_eq in E4; auto.
      * intros ->. simpl in E5. apply bool_decide_eq_false in E5. by destruct (decide (state c = PROCESS_ZOMBIE)).
  - intros s' [-> Hno]. apply HN. intros j c Hj Hc. pose proof (lookup_lt_Some _ _ _ Hc). apply (Hno j c); done || lia.
Qed.

(** The running process after an attempt to wait: only its [wait_node] may differ. *)
Definition still_runs p p2 : Prop :=
  state p2 = PROCESS_RUNNING /\ fd_table p2 = fd_table p /\ current_working_directory p2 = current_working_directory p.

(** What [scheduler_waitpid] does: an argument error, the status of a finished
    child whose resources are given back, no child to wait for (or nobody to
    run meanwhile), or a wait that a child will end. *)
Definition waitpid_post (wanted : Z) s (r : option (Z * Z)) s' : Prop :=
  (r = Some (- MINIOS_EINVAL, 0) /\ (wanted = 0 \/ wanted < -1) /\ s' = s) \/
  (wanted = -1 \/ 0 < wanted) /\
  exists i p, current_process s = Some (Z.of_nat i) /\ process_table s !! i = Some p /\
    ((exists j c, process_table s !! j = Some c /\ child_of p wanted c /\ state c = PROCESS_ZOMBIE /\
        r = Some (pid c, exit_code c) /\ reaped j c s s') \/
     ((forall j c, (1 <= j)%nat -> process_table s !! j = Some c -> child_of p wanted c -> state c <> PROCESS_ZOMBIE) /\
      ((r = Some (- MINIOS_ECHILD, 0) /\ s' = s /\
        forall j c, (1 <= j)%nat -> process_table s !! j = Some c -> ~ child_of p wanted c) \/
       (r = Some (- MINIOS_ECHILD, 0) /\ (forall j, ~ at_state s j PROCESS_READY) /\
        exists p2, still_runs p p2 /\ s' = set_table (<[i := p2]> (process_table s)) s) \/
       (r = None /\ exists p' j c, process_table s' !! i = Some p' /\ state p' = PROCESS_BLOCKED /\
          wait_node p' = Some (Z.of_nat (if wanted =? -1 then i else j)) /\
          process_table s !! j = Some c /\ child_of p wanted c)))).

Lemma wait_waiting_ok t i p p' wanted j c :
  tok t (Some i) -> t !! i = Some p -> same_core p p' -> wait_node p' = Some (Z.of_nat (if wanted =? -1 then i else j)) ->
  t !! j = Some c -> (1 <= j)%nat -> child_of p wanted c ->
  (forall k d, (1 <= k)%nat -> t !! k = Some d -> child_of p wanted d -> state d <> PROCESS_ZOMBIE) ->
  waiting_ok t i p'.
Proof.
  intros Ht Hp Hsc Hw Hc Hj Hch Hnz. unfold waiting_ok. rewrite Hw.
  destruct (Z.eqb_spec wanted (-1)) as [->|Hne].
  - rewrite decide_True by done. intros k d Hd Hk Hz Hpar. rewrite (sc_pid _ _ Hsc) in Hpar.
    apply (Hnz k d Hk Hd); [|done]. split; [unfold live; congruence|]. split; [congruence|]. auto.
  - destruct (decide (Z.of_nat j = Z.of_nat i)) as [Eji|_].
    + apply Nat2Z.inj in Eji as ->. simplify_eq. destruct Hch as (Hl & _ & Hpar & _).
      by destruct (tok_parent _ _ Ht i p Hp Hl Hj).
    + destruct Hch as (Hl & Hnr & Hpar & Hw'). exists j, c. split; [done|]. split; [done|]. split; [done|].
      split; [|by rewrite (sc_pid _ _ Hsc)]. by apply (Hnz j c Hj Hc).
Qed.

Lemma s32_pid z : 0 <= z <= PID_MAXIMUM -> s32 z = z.
Proof. intros. apply s32_id. unfold PID_MAXIMUM in *. lia. Qed.

(** The state with interrupts off keeps the invariant. *)
Lemma sched_inv_masked s : inv s -> inv (lset (Cpu.masked (cpu s)) s).
Proof.
  intros [(i & p & Hc & Hp & [Ht Hr Hn Hcpu] & Hact & Hslc)]. split. exists i, p.
  split; [done|]. split; [done|]. split; [|done]. split; try done. by apply Cpu.masked_wf.
Qed.

Lemma park_child s i p wanted j c :
  base s (Some i) -> process_table s !! i = Some p -> process_table s !! j = Some c -> (1 <= j)%nat ->
  child_of p wanted c ->
  (forall k d, (1 <= k)%nat -> process_table s !! k = Some d -> child_of p wanted d -> state d <> PROCESS_ZOMBIE) ->
  let p' := set_wait_node (Some (Z.of_nat (if wanted =? -1 then i else j))) (set_state PROCESS_BLOCKED p) in
  same_core p p' /\ base (set_table (<[i := p']> (process_table s)) s) None.
Proof.
  intros [Ht Hr Hn Hcpu] Hp Hj Hj1 Hch Hnz p'.
  assert (state p = PROCESS_RUNNING) as Hrun by (by apply (tok_running _ _ Ht i p Hp)).
  assert (same_core p p') as Hsc by (split; try done; unfold live; simpl; by rewrite Hrun).
  split; [done|]. split; [|by eapply rok_update|by eapply nok_update|done].
  eapply (tok_update _ (Some i) None i p); try done; [simpl; by rewrite Hrun|].
  intros _. by eapply wait_waiting_ok.
Qed.

(** The part of a round that blocks the caller on child [c] of slot [j]. *)
Lemma wait_block_ok s i p wanted j c :
  base s (Some i) -> current_process s = Some (Z.of_nat i) -> process_table s !! i = Some p ->
  process_table s !! j = Some c -> (1 <= j)%nat -> child_of p wanted c ->
  (forall k d, (1 <= k)%nat -> process_table s !! k = Some d -> child_of p wanted d -> state d <> PROCESS_ZOMBIE) ->
  wp (update_process (Z.of_nat i) (set_state PROCESS_BLOCKED) ;;
      update_process (Z.of_nat i) (set_wait_node (Some (if wanted =? -1 then Z.of_nat i else Z.of_nat j))) ;;
      let! next := find_next_ready (Z.of_nat i) in
      match next with
      | None =>
          update_process (Z.of_nat i) (set_wait_node None) ;;
          update_process (Z.of_nat i) (set_state PROCESS_RUNNING) ;;
          ret (Some (- MINIOS_ECHILD, 0))
      | Some n => switch_to n ;; ret None
      end) s (fun r s' =>
    match r with
    | Some v => v = (- MINIOS_ECHILD, 0) /\ (forall k, ~ at_state s k PROCESS_READY) /\
        exists p2, same_core p p2 /\ still_runs p p2 /\ time_slice p2 = time_slice p /\
          s' = set_table (<[i := p2]> (process_table s)) s
    | None => inv s' /\ fair s s' /\ exists p', process_table s' !! i = Some p' /\ state p' = PROCESS_BLOCKED /\
        wait_node p' = Some (Z.of_nat (if wanted =? -1 then i else j))
    end).
Proof.
  intros Hbase Hc Hp Hcj Hj Hch Hnz. pose proof (base_tok _ _ Hbase) as Ht.
  pose proof (tok_len _ _ Ht) as Hlen. pose proof (inv_cur_lt s i p Ht Hp) as Hi16.
  pose proof (lookup_lt_Some _ _ _ Hp) as Hil.
  assert (state p = PROCESS_RUNNING) as Hrun by (by apply (tok_running _ _ Ht i p Hp)).
  destruct (park_child s i p wanted j c) as [Hsc Hb1]; try done. set (p' := set_wait_node _ _) in *.
  apply wp_bind. eapply wp_update; [done|exact Hp|]. apply wp_bind. tupd.
  assert ((if wanted =? -1 then Z.of_nat i else Z.of_nat j) = Z.of_nat (if wanted =? -1 then i else j)) as ->
    by (by destruct (wanted =? -1)).
  fold p'. apply wp_bind. apply find_next_ready_ok; [tab|done| |]; tsimpl.
  - intros Hnone. apply wp_bind. tupd. apply wp_bind. tupd. run. split; [done|]. split.
    { intros k (q & Hq & Hst). assert (k <> i) by congruence. apply (Hnone k q); [|done].
      by rewrite list_lookup_insert_ne. }
    eexists. split; [|split; [|split; [|by destruct s]]]; [|done..]. split; try done. unfold live. simpl. by rewrite Hrun.
  - intros k q Hk Hq Hqst Hbefore. apply wp_bind.
    assert (rotate i k <> i) as Hne.
    { intros Er. rewrite Er, list_lookup_insert_eq in Hq by done. by simplify_eq. }
    eapply wp_mono; [eapply (park_switch s i p p' k q); try done|].
    + by rewrite list_lookup_insert_ne in Hq.
    + intros l Hl d Hd Hst. apply (Hbefore l Hl d); [|done].
      rewrite list_lookup_insert_ne; [done|]. intros Er. congruence.
    + cbv beta. intros _ s' (Hinv' & Hf & _ & _ & _ & Htab). run. split; [done|]. split; [done|].
      destruct (Htab i p') as (p2 & Hp2 & _ & Hw & _ & _ & Hs2); [by apply list_lookup_insert_eq|].
      exists p2. rewrite Hs2, decide_False; done.
Qed.

(** The part of a round that collects the zombie [c] of slot [j]. *)
Lemma wait_reap_ok s i p j c :
  inv s -> current_process s = Some (Z.of_nat i) -> process_table s !! i = Some p ->
  process_table s !! j = Some c -> (1 <= j)%nat -> state c = PROCESS_ZOMBIE ->
  wp (let! cp := get_process (Z.of_nat j) in
      let! ok := reap_process (Z.of_nat j) in
      if negb ok then panic "waitpid could not reap child" else
      ret (Some (s32 (pid cp), exit_code cp))) (lset (Cpu.masked (cpu s)) s) (fun r s' =>
    r = Some (pid c, exit_code c) /\ cpu s' = Cpu.masked (cpu s) /\
    let s2 := lset (cpu s) s' in inv s2 /\ fair s s2 /\ reaped j c s s2).
Proof.
  intros Hinv Hc Hp Hcj Hj Hz. pose proof Hinv as [(i0 & p0 & _ & _ & [Ht _ _ _] & _)].
  apply wp_bind. eapply wp_get; [apply Ht|exact Hcj|].
  apply wp_bind. eapply wp_mono; [apply (reap_ok _ j c); [by apply sched_inv_masked|done|done|lia]|]. cbv beta.
  intros ok s2 (-> & Hie & Hreap). cbn [negb]. run.
  pose proof Hreap as (Etab & Hsp & Hst & Hae & Hcur & Hcpu2 & Hnp & Htk & Hesp).
  assert (reaped j c s (lset (cpu s) s2)) as Hreap' by (by unfold reaped; split_and!).
  destruct (reaped_inv s (lset (cpu s) s2) j c) as [Hinv' Hf]; try done.
  split; [|done]. rewrite s32_pid; [done|]. apply (tok_pid _ _ Ht j c Hcj). unfold live. congruence.
Qed.

Lemma waitpid_ok wanted s :
  -2147483648 <= wanted <= 2147483647 -> inv s ->
  wp (scheduler_waitpid wanted) s (fun r s' => inv s' /\ fair s s' /\ waitpid_post wanted s r s').
Proof.
  intros Hrng Hinv. unfold scheduler_waitpid. destruct (Z.eqb_spec wanted 0) as [E0|Hn0]; cbn [orb].
  { run. split; [done|]. split; [apply fair_refl|]. left. auto. }
  destruct (Z.ltb_spec wanted (-1)) as [Hlt|Hge].
  { run. split; [done|]. split; [apply fair_refl|]. left. auto. }
  pose proof Hinv as [(i & p & Hc & Hp & Hbase & Hact & Hslc)]. pose proof Hbase as [Ht Hr Hn Hcpu].
  pose proof (tok_len _ _ Ht) as Hlen.
  apply wp_bind, wp_zoom, Cpu.irq_save_disable_wp. change (lget s) with (cpu s).
  set (s1 := lset (Cpu.masked (cpu s)) s).
  assert (base s1 (Some i)) as Hbase1 by (split; [done|done|done|by apply Cpu.masked_wf]).
  unfold waitpid_round. apply wp_bind, wp_bind. eapply wp_current; [done|]. apply wp_bind.
  eapply find_child_ok; [done|exact Hp| |].
  - intros j c Hj Hcj Hch Hz.
    eapply wp_mono; [apply (wait_reap_ok s i p j c); by auto || lia|]. cbv beta zeta.
    intros r s2 (-> & Hcpu2 & Hinv2 & Hf & Hreap). run.
    change (lget s2) with (cpu s2). change (lget s) with (cpu s).
    rewrite Hcpu2. apply Cpu.irq_restore_wp; [done|]. run.
    split; [done|]. split; [done|]. right. split; [lia|]. exists i, p. split; [done|]. split; [done|].
    left. exists j, c. by auto.
  - intros Hnoz.
    assert (forall k d, (1 <= k)%nat -> process_table s !! k = Some d -> child_of p wanted d -> state d <> PROCESS_ZOMBIE) as Hnz.
    { intros k d Hk Hd Hch. by destruct (Hnoz k d Hk Hd Hch). }
    apply wp_bind. eapply find_child_ok; [done|exact Hp| |].
    + intros j c Hj Hcj Hch _.
      eapply wp_mono; [eapply (wait_block_ok s1 i p wanted j c); done || lia|]. cbv beta.
      intros [v|] s2; run.
      * intros (-> & Hnone & p2 & Hsc & Hst2 & Hsl2 & ->). pose proof (proj1 Hst2). run. apply Cpu.irq_restore_wp; [done|]. run.
        replace (lset _ _) with (set_table (<[i := p2]> (process_table s)) s) by (by unfold s1; destruct s).
        destruct (slice_ok s i p p2) as [Hi' Hf']; try done; [lia|left; lia|].
        split; [done|]. split; [done|]. right. split; [lia|]. exists i, p. split; [done|]. split; [done|].
        right. split; [done|]. right. left. split; [done|]. split; [done|]. by exists p2.
      * intros (Hinv' & Hf & p' & Hp' & Hb & Hw). run. split; [done|]. split; [done|].
        right. split; [lia|]. exists i, p. split; [done|]. split; [done|]. right. split; [done|].
        right. right. split; [done|]. by exists p', j, c.
    + intros Hno. run. apply Cpu.irq_restore_wp; [done|]. run. unfold s1. rewrite lset_lset.
      change (cpu s) with (lget s). rewrite lset_lget. split; [done|]. split; [apply fair_refl|]. right. split; [lia|]. exists i, p. split; [done|].
      split; [done|]. right. split; [done|]. left. split; [done|]. split; [done|].
      intros j c Hj Hcj Hch. by destruct (Hno j c Hj Hcj Hch).
Qed.

(** ** Creation *)

Lemma find_unused_ok s (Q : option Z -> sched E -> Prop) :
  length (process_table s) = 16%nat ->
  (forall j c, (1 <= j < 16)%nat -> process_table s !! j = Some c -> state c = PROCESS_UNUSED ->
     (forall k d, (1 <= k < j)%nat -> process_table s !! k = Some d -> live d) -> Q (Some (Z.of_nat j)) s) ->
  ((forall k d, (1 <= k)%nat -> process_table s !! k = Some d -> live d) -> Q None s) ->
  wp find_unused_process s Q.
Proof.
  intros Hlen HS HN. unfold find_unused_process.
  apply (wp_for_until (fun k s' => s' = s /\ forall j c, (1 <= j)%nat -> Z.of_nat j < k ->
    process_table s !! j = Some c -> live c)).
  - split; [done|lia].
  - intros k s' Hk [-> Hno]. replace k with (Z.of_nat (Z.to_nat k)) by lia. set (j := Z.to_nat k) in *.
    destruct (lookup_lt_is_Some_2 (process_table s) j) as [c Hc]; [lia|].
    run. eapply wp_get; [done|exact Hc|]. run. destruct (decide (state c = PROCESS_UNUSED)) as [Hu|Hu].
    + apply (HS j c); [lia|done|done|]. intros l d Hl Hd. apply (Hno l d); done || lia.
    + split; [done|]. intros l d Hl1 Hl2 Hd. destruct (decide (l = j)) as [->|]; [congruence|].
      apply (Hno l d); done || lia.
  - intros s' [-> Hno]. apply HN. intros k d Hk Hd. pose proof (lookup_lt_Some _ _ _ Hd).
    apply (Hno k d); done || lia.
Qed.

(** Process numbers in use. *)
Definition pid_used t (n : Z) : Prop := exists i p, t !! i = Some p /\ live p /\ pid p = n.

Lemma find_pid_ok s wanted (Q : option Z -> sched E -> Prop) :
  length (process_table s) = 16%nat ->
  (forall slot : Z, pid_used (process_table s) wanted -> Q (Some slot) s) ->
  (~ pid_used (process_table s) wanted -> Q None s) ->
  wp (find_process_by_pid wanted) s Q.
Proof.
  intros Hlen HS HN. unfold find_process_by_pid.
  apply (wp_for_until (fun k s' => s' = s /\ forall j c, Z.of_nat j < k ->
    process_table s !! j = Some c -> live c -> pid c <> wanted)).
  - split; [done|lia].
  - intros k s' Hk [-> Hno]. replace k with (Z.of_nat (Z.to_nat k)) by lia. set (j := Z.to_nat k) in *.
    destruct (lookup_lt_is_Some_2 (process_table s) j) as [c Hc]; [lia|].
    run. eapply wp_get; [done|exact Hc|]. run. case_bool_decide as Hl; cbn [andb].
    + destruct (Z.eqb_spec (pid c) wanted) as [Ew|Ew].
      * apply HS. by exists j, c.
      * split; [done|]. intros l d Hl2 Hd Hld. destruct (decide (l = j)) as [->|]; [congruence|].
        apply (Hno l d); done || lia.
    + split; [done|]. intros l d Hl2 Hd Hld. destruct (decide (l = j)) as [->|]; [unfold live in *; congruence|].
      apply (Hno l d); done || lia.
  - intros s' [-> Hno]. apply HN. intros (i & p & Hp & Hl & Hpid). pose proof (lookup_lt_Some _ _ _ Hp).
    apply (Hno i p); done || lia.
Qed.

(** Sixteen entries cannot use seventeen numbers. *)
Lemma pids_bounded t k :
  length t = 16%nat -> (forall n, 1 <= n <= Z.of_nat k -> pid_used t n) -> (k <= 16)%nat.
Proof.
  intros Hlen Hall. rewrite <-Hlen, <-(length_map pid t).
  replace k with (length (seqZ 1 (Z.of_nat k))) by (rewrite length_seqZ; lia).
  apply NoDup_incl_length; [apply NoDup_ListNoDup, NoDup_seqZ|].
  intros n Hn. apply list_elem_of_In, elem_of_seqZ in Hn. destruct (Hall n) as (i & p & Hp & _ & <-); [lia|].
  apply in_map, list_elem_of_In. by eapply list_elem_of_lookup_2.
Qed.

(** [allocate_pid] never fails and never reuses a number in use. *)
Lemma allocate_pid_ok s (Q : option Z -> sched E -> Prop) :
  length (process_table s) = 16%nat -> nok (process_table s) (next_pid s) ->
  (forall n next, 0 < n <= PID_MAXIMUM -> ~ pid_used (process_table s) n ->
     0 <= next <= PID_MAXIMUM -> nok (process_table s) next -> (next <> 0 -> n < next) ->
     Q (Some n) (set_next_pid next s)) ->
  wp allocate_pid s Q.
Proof.
  intros Hlen [Hr Hn] HQ. unfold allocate_pid. run. destruct (Z.eqb_spec (next_pid s) 0) as [E0|Hne]; cbn [negb].
  - set (step := fun candidate : Z => _).
    apply (wp_while_idx (fun m candidate s' => s' = s /\ exists k, (m = 16 - k)%nat /\ candidate = Z.of_nat k + 1 /\
      forall n, 1 <= n <= Z.of_nat k -> pid_used (process_table s) n) step 17 16).
    + split; [done|]. exists 0%nat. split; [done|]. split; [done|lia].
    + lia.
    + intros m candidate s' (-> & k & -> & -> & Hused). pose proof (pids_bounded _ _ Hlen Hused) as Hk.
      unfold step. rewrite (proj2 (Z.leb_le _ _)) by (unfold PID_MAXIMUM; lia).
      apply wp_bind. apply find_pid_ok; [done| |].
      * intros i Hu. run.
        assert (forall n, 1 <= n <= Z.of_nat (S k) -> pid_used (process_table s) n) as Hused'.
        { intros n Hn'. destruct (decide (n = Z.of_nat k + 1)) as [->|]; [done|]. apply Hused. lia. }
        pose proof (pids_bounded _ _ Hlen Hused').
        exists (16 - S k)%nat. split; [lia|]. split; [done|]. exists (S k). split; [done|]. split; [|done].
        rewrite u32_id; lia.
      * intros Hu. run. replace s with (set_next_pid 0 s) by (destruct s; simpl in *; by subst).
        apply HQ; [unfold PID_MAXIMUM; lia|done|done| |done]. split; [done|done].
  - run. apply HQ; [lia| | | |].
    + intros (i & p & Hp & Hl & Eq). specialize (Hn Hne i p Hp Hl). lia.
    + destruct (Z.eqb_spec (next_pid s) PID_MAXIMUM); [done|].
      unfold PID_MAXIMUM in *. rewrite u32_id; lia.
    + destruct (Z.eqb_spec (next_pid s) PID_MAXIMUM); [by split|].
      unfold PID_MAXIMUM in *. rewrite u32_id by lia. split; [unfold PID_MAXIMUM; lia|].
      intros _ i p Hp Hl. specialize (Hn Hne i p Hp Hl). lia.
    + destruct (Z.eqb_spec (next_pid s) PID_MAXIMUM); [done|]. unfold PID_MAXIMUM in *.
      rewrite u32_id; lia.
Qed.

(** The C string at the start of a buffer. *)
Fixpoint cstring (l : list Z) : list Z :=
  match l with [] => [] | c :: l' => if c =? 0 then [] else c :: cstring l' end.

Lemma cstring_app l r : Forall (fun x => x <> 0) l -> cstring (l ++ 0 :: r) = l.
Proof.
  induction 1 as [|c l Hc Hl IH]; [done|]. simpl. rewrite (proj2 (Z.eqb_neq c 0)) by done. by rewrite IH.
Qed.

Lemma copy_cwd_ok src dst :
  length dst = length src -> terminated src ->
  exists d, copy_cwd src dst = Some d /\ length d = length dst /\ terminated d /\ cstring d = cstring src.
Proof.
  intros Hlen (l & r & -> & Hl). rewrite cstring_app by done.
  exists (l ++ 0 :: drop (S (length l)) dst). rewrite length_app in Hlen. simpl in Hlen.
  split; [|split; [|split]].
  - revert dst Hlen. induction Hl as [|c l Hc Hl IH]; intros dst Hlen; destruct dst as [|x dst]; simpl in *; try lia.
    + by rewrite drop_0.
    + rewrite (proj2 (Z.eqb_neq c 0)) by done. rewrite IH by lia. done.
  - rewrite length_app. simpl. rewrite length_drop. lia.
  - by exists l, (drop (S (length l)) dst).
  - by apply cstring_app.
Qed.

(** Filling a slot with a process that owns the fresh stack [a] and no space. *)
Lemma rok_create t e e' j c c' a :
  rok t e -> t !! j = Some c -> ~ live c -> (1 <= j)%nat -> kernel_stack_allocation c' = a -> a <> 0 ->
  page_directory c' = 0 -> ~ sv_stack e a -> sv_inv e' -> (forall d, sv_space e' d <-> sv_space e d) ->
  (forall b, sv_stack e' b <-> sv_stack e b \/ b = a) -> rok (<[j := c']> t) e'.
Proof.
  intros [Hi Hs Hsu Hp Hpu] Hc Hnl Hj Ea Hnz Hpd Hna Hie Hsp Hst. split; [done| | | |].
  - intros k d [(-> & -> & _)|[_ Hd]]%lookup_insert_cases Hl Hk; rewrite Hst; [split; [congruence|by right]|].
    destruct (Hs k d Hd Hl Hk). auto.
  - intros k l d d' [(-> & -> & _)|[_ Hd]]%lookup_insert_cases [(-> & -> & _)|[_ Hd']]%lookup_insert_cases Hl Hl' Hk Hk' Eq;
      [done| | |by eapply Hsu].
    + destruct (Hs l d' Hd' Hl' Hk') as [_ Hin]. rewrite <-Eq, Ea in Hin. done.
    + destruct (Hs k d Hd Hl Hk) as [_ Hin]. rewrite Eq, Ea in Hin. done.
  - intros k d [(-> & -> & _)|[_ Hd]]%lookup_insert_cases Hl Hk; rewrite Hsp; [done|eauto].
  - intros k l d d' [(-> & -> & _)|[_ Hd]]%lookup_insert_cases [(-> & -> & _)|[_ Hd']]%lookup_insert_cases Hl Hl' Hk Eq;
      [done|congruence|congruence|by eapply Hpu].
Qed.

(** Preparing a stack only writes memory. *)
Lemma prepare_stack_ok s top returned trampoline (Q : Z -> sched E -> Prop) :
  sv_inv (svc s) -> (forall e, quiet (svc s) e -> Q (top -u 24) (set_svc e s)) ->
  wp (prepare_stack top returned trampoline) s Q.
Proof.
  intros Hi HQ. unfold prepare_stack.
  assert (forall {A} a v (k : unit -> M (sched E) A) s0 (R : A -> sched E -> Prop),
    (exists e, quiet (svc s) e /\ s0 = set_svc e s) ->
    (forall s1, (exists e, quiet (svc s) e /\ s1 = set_svc e s) -> wp (k tt) s1 R) ->
    wp (bind (zoom (sv_store a v)) k) s0 R) as Hst.
  { intros A a v k s0 R (e & He & ->) Hk. apply wp_bind, wp_zoom.
    eapply wp_mono; [apply sv_store_ok; apply He|]. cbv beta. intros [] e' He'. apply Hk. exists e'.
    split; [by eapply quiet_trans|done]. }
  apply Hst; [exists (svc s); split; [by apply quiet_refl|by destruct s]|]. intros s1 H1.
  do 5 (apply Hst; [done|]; clear dependent s1; intros s1 H1).
  destruct H1 as (e & He & ->). apply wp_ret. by apply HQ.
Qed.

(** What [kernel_thread_create] builds. *)
Record created (nm : list Z) (entry_point arg : Z) s s' (j : nat) c' : Prop := {
  cr_slot : (1 <= j < 16)%nat /\ (exists c, process_table s !! j = Some c /\ ~ live c) /\
    (forall k d, (1 <= k < j)%nat -> process_table s !! k = Some d -> live d);
  cr_table : process_table s' = <[j := c']> (process_table s);
  cr_state : state c' = PROCESS_READY;
  cr_pid : 0 < pid c' <= PID_MAXIMUM /\ ~ pid_used (process_table s) (pid c');
  cr_parent : exists i p, current_process s = Some (Z.of_nat i) /\ process_table s !! i = Some p /\
    parent_pid c' = pid p /\ cstring (current_working_directory c') = cstring (current_working_directory p);
  cr_entry : entry c' = entry_point /\ argument c' = arg /\ fd_table c' = fd_zero;
  cr_stack : kernel_stack_top c' = kernel_stack_allocation c' + KERNEL_STACK_SIZE /\
    saved_stack c' = kernel_stack_top c' - 24 /\ ~ sv_stack (svc s) (kernel_stack_allocation c') /\
    forall b, sv_stack (svc s') b <-> sv_stack (svc s) b \/ b = kernel_stack_allocation c'
}.

Definition create_post nm entry_point arg s (r : Z) s' : Prop :=
  (r = -1 /\ process_table s' = process_table s /\ quiet (svc s) (svc s') /\ cpu s' = cpu s) \/
  (exists j c', created nm entry_point arg s s' j c' /\ r = pid c' /\ cpu s' = cpu s).

Lemma set_process_name_core nm p : same_core p (set_process_name nm p).
Proof. by split. Qed.

(** The entry [kernel_thread_create] fills in, once a slot, a stack and a number
    were found. *)
Lemma fill_slot_ok {A} sym nm entry_point arg flags s i p j c n a next e (k : M (sched E) A) (Q : A -> sched E -> Prop) :
  inv s -> current_process s = Some (Z.of_nat i) -> process_table s !! i = Some p ->
  (1 <= j < 16)%nat -> process_table s !! j = Some c -> ~ live c ->
  0 < n <= PID_MAXIMUM -> ~ pid_used (process_table s) n ->
  0 < a -> a + KERNEL_STACK_SIZE < 4294967296 -> sv_inv e ->
  (forall e' c', quiet e e' -> state c' = PROCESS_READY -> pid c' = n -> parent_pid c' = pid p -> buffers_ok c' ->
     cstring (current_working_directory c') = cstring (current_working_directory p) ->
     page_directory c' = 0 -> kernel_stack_allocation c' = a ->
     entry c' = entry_point /\ argument c' = arg /\ fd_table c' = fd_zero ->
     kernel_stack_top c' = a + KERNEL_STACK_SIZE /\ saved_stack c' = kernel_stack_top c' - 24 ->
     wp k (set_table (<[j := c']> (process_table s)) (set_next_pid next (set_svc e' (lset (Cpu.masked (cpu s)) s)))) Q) ->
  wp (put_process (Z.of_nat j) clear_process ;;
      inherit_current_working_directory (Z.of_nat j) ;;
      let! ci := current in
      let! cp := get_process ci in
      let top := a +u KERNEL_STACK_SIZE in
      update_process (Z.of_nat j) (fun p =>
        set_process_name nm
          (Process n PROCESS_NEW (name p) (saved_stack p) top (user_stack_top p)
             (page_directory p) (exit_code p) (pid cp) (wake_tick p) DEFAULT_TIME_SLICE
             (fd_table p) (current_working_directory p) (run_node p) (wait_node p) entry_point arg
             a (Z.land flags EFLAGS_INTERRUPT_ENABLE) (user_entry p))) ;;
      let! stack := prepare_stack top (thread_returned sym) (thread_trampoline sym) in
      update_process (Z.of_nat j) (set_saved_stack stack) ;;
      update_process (Z.of_nat j) (set_state PROCESS_READY) ;;
      k)
    (set_next_pid next (set_svc e (lset (Cpu.masked (cpu s)) s))) Q.
Proof.
  intros [(i0 & p0 & Hc0 & Hp0 & [Ht Hr Hn Hcpu] & Hact & Hslc)] Hc Hp Hj Hcj Hnl Hn1 Hfresh Ha0 Ha1 Hie HQ.
  assert (i0 = i) as -> by (rewrite Hc in Hc0; injection Hc0; lia). assert (p0 = p) as -> by congruence.
  pose proof (tok_len _ _ Ht) as Hlen. pose proof (lookup_lt_Some _ _ _ Hcj) as Hjl.
  assert (live p) as Hlp by (unfold live; rewrite (proj2 (tok_running _ _ Ht i p Hp) eq_refl); done).
  assert (i <> j) as Hij by (intros ->; simplify_eq; done).
  apply wp_bind, wp_put. apply wp_bind. unfold inherit_current_working_directory. run.
  change (current_process _) with (current_process s). rewrite Hc.
  apply wp_bind. eapply wp_get; [tab|simpl; by rewrite list_lookup_insert_ne|].
  apply wp_bind. eapply wp_get; [tab|by apply list_lookup_insert_eq|].
  destruct (tok_buffers _ _ Ht i p Hp) as (_ & Hcl & Hterm).
  destruct (copy_cwd_ok (current_working_directory p) (current_working_directory clear_process))
    as (d & -> & Hdl & Hdt & Hdc); [by rewrite Hcl|done|].
  apply wp_put. tsimpl. apply wp_bind. eapply wp_current; [done|].
  apply wp_bind. eapply wp_get; [tab|simpl; by rewrite list_lookup_insert_ne|]. cbv zeta.
  apply wp_bind. tupd. apply wp_bind. apply prepare_stack_ok; [done|]. intros e' Hq.
  apply wp_bind. tupd. apply wp_bind. tupd. unfold KERNEL_STACK_SIZE in *.
  match goal with |- wp k ?st Q => replace st with
    (set_table (process_table st) (set_next_pid next (set_svc e' (lset (Cpu.masked (cpu s)) s)))) by (by destruct s) end.
  tsimpl. apply HQ; try done; simpl; rewrite (u32_id (a + _)) by lia. split; [done|]. rewrite u32_id; lia.
Qed.

Lemma create_ok sym nm entry_point arg s :
  inv s -> wp (kernel_thread_create sym nm entry_point arg) s (fun r s' =>
    inv s' /\ fair s s' /\ create_post nm entry_point arg s r s').
Proof.
  intros Hinv. pose proof Hinv as [(i & p & Hc & Hp & [Ht Hr Hn Hcpu] & Hact & Hslc)].
  pose proof (tok_len _ _ Ht) as Hlen.
  assert (forall r s', r = -1 -> s' = s -> inv s' /\ fair s s' /\ create_post nm entry_point arg s r s') as Hfail.
  { intros r s' -> ->. split; [done|]. split; [apply fair_refl|]. left. split; [done|]. split; [done|].
    split; [|done]. apply quiet_refl, Hr. }
  unfold kernel_thread_create.
  match goal with |- wp (if ?b then _ else _) _ _ => destruct b end; [run; by apply Hfail|].
  apply wp_bind, wp_zoom, Cpu.irq_save_disable_wp. apply wp_bind. apply find_unused_ok; [done| |].
  2:{ intros _. run. apply Cpu.irq_restore_wp; [done|]. run. apply Hfail; [done|]. by rewrite lset_lset, lset_lget. }
  intros j c Hj Hcj Hu Hfirst. change (process_table s !! j = Some c) in Hcj. apply wp_bind, wp_zoom.
  eapply wp_mono; [apply sv_kmalloc_ok; apply Hr|]. cbv beta. intros a e (Hie & Hae & Hsp & Hcase).
  destruct (Z.eqb_spec a 0) as [->|Hane].
  { destruct Hcase as [[_ Hst]|(? & _)]; [|lia]. run. apply Cpu.irq_restore_wp; [done|]. run.
    assert (quiet (svc s) e) as Hq by done.
    split; [split; exists i, p; split; [done|]; split; [done|]; split; [|split; [by etransitivity|done]]|].
    - split; [done| |done|done]. by eapply services_rok.
    - split; [by apply fair_same|]. left. done. }
  destruct Hcase as [[? _]|(Ha0 & Ha1 & Hfresh & Hst)]; [done|].
  apply wp_bind. apply allocate_pid_ok; [done|done|]. intros n next Hn1 Hunused Hnext Hnok Hnext'.
  assert (~ live c) as Hnl by (unfold live; intros H'; by apply H').
  eapply (fill_slot_ok sym nm entry_point arg _ s i p j c n a next e); try done.
  intros e' c' (Hie' & Hae' & Hsp' & Hst') Hcs Hcp Hcpar Hbuf Hcwd Hpd Hstk Hent Htop.
  apply wp_bind, wp_zoom, Cpu.irq_restore_wp; [done|]. run.
  pose proof (lookup_lt_Some _ _ _ Hcj) as Hjl.
  eapply wp_get; [simpl; by rewrite length_insert|by apply list_lookup_insert_eq|]. run.
  assert (live c') as Hlc' by (unfold live; congruence).
  assert (live p) as Hlp by (unfold live; rewrite (proj2 (tok_running _ _ Ht i p Hp) eq_refl); done).
  assert (i <> j) as Hij by (intros ->; simplify_eq; done).
  assert (forall b, sv_stack e' b <-> sv_stack (svc s) b \/ b = a) as Hst2 by (intros b; by rewrite Hst', Hst).
  assert (forall d, sv_space e' d <-> sv_space (svc s) d) as Hsp2 by (intros d; by rewrite Hsp', Hsp).
  split; [|split].
  - split. exists i, p. split; [done|]. split; [simpl; by rewrite list_lookup_insert_ne|]. split.
    + split; [| | |done]; simpl.
      * eapply tok_replace; try done; [lia|by left|by right|]. intros _. rewrite Hcp, Hcpar.
        split; [done|]. split.
        -- intros Eq. apply Hunused. by exists i, p.
        -- intros k d Hd Hl Eq. apply Hunused. by exists k, d.
      * eapply (rok_create _ (svc s) e' j c c' a); try done; lia.
      * eapply nok_replace; [done|done|]. intros Hnz _. rewrite Hcp. auto.
    + split; [|done]. simpl. rewrite Hae'. by rewrite Hae.
  - apply fair_same; [done| |].
    { rewrite (slice_of_eq s i p), (slice_of_eq _ i p); [done|done|simpl; by rewrite list_lookup_insert_ne|done..]. }
    intros k (q & Hq & Hqs). exists q. simpl.
    rewrite list_lookup_insert_ne; [done|]. intros ->. congruence.
  - right. exists j, c'. split; [|split; [by rewrite s32_pid; rewrite ?Hcp; lia|done]].
    split; try done.
    + split; [done|]. split; [by exists c|done].
    + by rewrite Hcp.
    + by exists i, p.
    + rewrite Hstk. destruct Htop as [-> ->]. split; [done|]. split; [lia|]. split; [done|]. exact Hst2.
Qed.

(** ** The working directory *)

(** The buffer a path was stored in reads back as the path when it fits. *)
Lemma cwd_to_buffer_ok n capacity l r :
  Forall (fun x => x <> 0) l -> (length l < n)%nat ->
  cwd_to_buffer n capacity (l ++ 0 :: r) = if Z.of_nat (length l) <? capacity then Some l else None.
Proof.
  intros Hl. revert n capacity. induction Hl as [|c l Hc Hl IH]; intros n capacity Hn; destruct n as [|n];
    cbn [cwd_to_buffer app length] in *; try lia.
  - destruct (Z.leb_spec capacity 0), (Z.ltb_spec (Z.of_nat 0) capacity); done || lia.
  - rewrite (proj2 (Z.eqb_neq c 0)) by done. rewrite IH by lia.
    destruct (Z.leb_spec capacity 0), (Z.ltb_spec (Z.of_nat (length l)) (capacity - 1)),
      (Z.ltb_spec (Z.of_nat (S (length l))) capacity); done || lia.
Qed.

Definition absolute (path : list Z) : Prop := exists rest, path = 47 :: rest.

Lemma chdir_ok path s i p :
  inv s -> current_process s = Some (Z.of_nat i) -> process_table s !! i = Some p ->
  Forall (fun x => x <> 0) path ->
  wp (scheduler_set_current_working_directory path) s (fun ok s' =>
    inv s' /\ fair s s' /\ cpu s' = cpu s /\ current_process s' = current_process s /\
    if ok then absolute path /\ Z.of_nat (length path) < MINIOS_PROCESS_CWD_SIZE /\
      exists cwd, process_table s' !! i = Some (set_current_working_directory cwd p) /\
        cstring cwd = path /\ length cwd = 256%nat /\ (exists r, cwd = path ++ 0 :: r) /\
        process_table s' = <[i := set_current_working_directory cwd p]> (process_table s)
    else s' = s /\ (~ absolute path \/ MINIOS_PROCESS_CWD_SIZE <= Z.of_nat (length path))).
Proof.
  intros Hinv Hc Hp Hpath. pose proof Hinv as [(i0 & p0 & Hc0 & Hp0 & [Ht Hr Hn Hcpu] & Hact & Hslc)].
  assert (i0 = i) as -> by (rewrite Hc in Hc0; injection Hc0; lia). assert (p0 = p) as -> by congruence.
  assert (state p = PROCESS_RUNNING) as Hrun by (by apply (tok_running _ _ Ht i p Hp)).
  unfold scheduler_set_current_working_directory. run. rewrite Hc.
  assert (~ absolute path \/ MINIOS_PROCESS_CWD_SIZE <= Z.of_nat (length path) ->
    inv s /\ fair s s /\ cpu s = cpu s /\ current_process s = Some (Z.of_nat i) /\ s = s /\
    (~ absolute path \/ MINIOS_PROCESS_CWD_SIZE <= Z.of_nat (length path))) as Hfail.
  { intros H'. split; [done|]. split; [apply fair_refl|]. done. }
  destruct path as [|first rest]; [run; apply Hfail; left; by intros [? [=]]|].
  destruct (Z.eqb_spec first 47) as [->|Hf]; cbn [negb]; [|run; apply Hfail; left; by intros [? [=]]].
  set (path := 47 :: rest) in *.
  destruct (Z.leb_spec MINIOS_PROCESS_CWD_SIZE (Z.of_nat (length path))) as [Hlong|Hshort]; [run; apply Hfail; by right|].
  apply wp_bind, wp_zoom, Cpu.irq_save_disable_wp. apply wp_bind.
  eapply wp_update; [apply Ht|exact Hp|]. apply wp_bind, wp_zoom, Cpu.irq_restore_wp; [done|]. run.
  set (cwd := path ++ 0 :: _). set (p' := set_current_working_directory cwd p).
  replace (lset _ _) with (set_table (<[i := p']> (process_table s)) s) by (by destruct s).
  destruct (tok_buffers _ _ Ht i p Hp) as (_ & Hcl & _). unfold MINIOS_PROCESS_CWD_SIZE in *.
  assert (length cwd = 256%nat) as Hlen.
  { unfold cwd. rewrite length_app. cbn [length]. rewrite length_drop, Hcl. lia. }
  assert (same_core p p') as Hsc.
  { split; try done; [by transitivity 256%nat|]. intros _. by exists path, (drop (S (length path)) (current_working_directory p)). }
  destruct (slice_ok s i p p') as [Hi' Hf']; try done; [by left|].
  split; [done|]. split; [done|]. split; [done|]. split; [done|]. split; [by exists rest|]. split; [done|].
  exists cwd. split; [apply list_lookup_insert_eq; by eapply lookup_lt_Some|].
  split; [by apply cstring_app|]. split; [done|]. split; [by eexists|done].
Qed.

(** ** Descriptors, as steps *)

Lemma set_fd_core fds p : length fds = length (fd_table p) -> same_core p (set_fd_table fds p).
Proof. intros Hl. by split. Qed.

Lemma fd_step_ok s i p fds :
  inv s -> current_process s = Some (Z.of_nat i) -> process_table s !! i = Some p ->
  length fds = length (fd_table p) ->
  inv (set_table (<[i := set_fd_table fds p]> (process_table s)) s) /\
  fair s (set_table (<[i := set_fd_table fds p]> (process_table s)) s).
Proof.
  intros Hinv Hc Hp Hl. pose proof Hinv as [(i0 & p0 & Hc0 & Hp0 & [Ht Hr Hn Hcpu] & Hact & Hslc)].
  assert (i0 = i) as -> by (rewrite Hc in Hc0; injection Hc0; lia). assert (p0 = p) as -> by congruence.
  apply (slice_ok s i p); try done; [by apply (tok_running _ _ Ht i p Hp)|by left].
Qed.

(** ** The start *)

(** [scheduler_init] turns the boot thread into process 0. *)
Lemma scheduler_init_ok sym s :
  sv_inv (svc s) -> sv_active (svc s) = 0 -> Cpu.wf (cpu s) ->
  wp (scheduler_init sym) s (fun _ s' => inv s' /\ next_pid s' = 1 /\
    forall i p, process_table s' !! i = Some p -> live p -> i = 0%nat).
Proof.
  intros Hi Ha Hc. unfold scheduler_init. run. change 0 with (Z.of_nat 0).
  eapply wp_update; [done|done|]. tsimpl. run. eapply wp_update; [done|done|]. tsimpl.
  unfold Cpu.irq_read_flags. run. eapply wp_update; [done|done|]. tsimpl. run.
  set (b := Process _ _ _ _ _ _ _ _ _ _ _ _ _ _ _ _ _ _ _ _).
  match goal with |- inv ?st /\ _ => set (s' := st) end.
  assert (process_table s' = b :: replicate 15 clear_process) as Et by done.
  assert (forall i p, process_table s' !! i = Some p -> (i = 0%nat /\ p = b) \/ p = clear_process) as Hcases.
  { intros i p Hip. rewrite Et in Hip. destruct i as [|i]; [injection Hip as <-; by left|]. right.
    change (replicate 15 clear_process !! i = Some p) in Hip. by apply lookup_replicate in Hip as [-> _]. }
  assert (forall i p, process_table s' !! i = Some p -> live p -> i = 0%nat /\ p = b) as Hlive.
  { intros i p Hp Hl. destruct (Hcases i p Hp) as [?| ->]; [done|]. by destruct Hl. }
  split; [|split; [done|intros i p Hp Hl; by apply (Hlive i p)]].
  split. exists 0%nat, b. split; [done|]. split; [done|]. split; [|done]. split; [| | |done].
  - split.
    + done.
    + intros i p Hp. destruct (Hcases i p Hp) as [[-> ->]| ->]; [done|]. split; [done|]. intros [= <-].
      by apply (f_equal (fmap state)) in Hp.
    + intros i p Hp. by destruct (Hcases i p Hp) as [[-> ->]| ->].
    + by exists b.
    + intros i p Hp Hl. by destruct (Hlive i p Hp Hl) as [-> ->].
    + intros i j p q Hp Hq Hl Hl'. destruct (Hlive i p Hp Hl), (Hlive j q Hq Hl'). by subst.
    + intros i p Hp Hl. destruct (Hlive i p Hp Hl). lia.
    + intros i p Hp. destruct clear_buffers as (? & ? & ?). by destruct (Hcases i p Hp) as [[-> ->]| ->].
    + intros i p Hp. by destruct (Hcases i p Hp) as [[-> ->]| ->].
  - split; [done| | | |].
    + intros i p Hp Hl H1. destruct (Hlive i p Hp Hl). lia.
    + intros i j p q Hp Hq Hl Hl' H1. destruct (Hlive i p Hp Hl). lia.
    + intros i p Hp Hl Hne. by destruct (Hlive i p Hp Hl) as [_ ->].
    + intros i j p q Hp Hq Hl Hl' Hne. by destruct (Hlive i p Hp Hl) as [_ ->].
  - split; [done|]. intros _ i p Hp Hl. by destruct (Hlive i p Hp Hl) as [_ ->].
Qed.

End sched.

End SchedulerLife.
