(* ===== verification/SchedulerSpec.v ===== *)
(** * What the scheduler guarantees

    The entry points of scheduler.c as steps of a transition system: every step
    keeps the invariant of the process table and stops the machine only when the
    last process ends; a ready process is dispatched within eighty timer ticks;
    sleepers, waiting parents, new threads, descriptors and the working directory
    behave as their callers expect. *)

From S2P Require Import Prelude Monad Interfaces Cpu Scheduler SchedulerInv SchedulerLife.

Module SchedulerSpec.
Import Scheduler SchedulerInv SchedulerLife.

(** What the running process, or an interrupt, may ask for. *)
Inductive call :=
| Yield
| Sleep (ticks : Z)
| Exit (code : Z)
| Waitpid (wanted : Z)
| CreateThread (nm : list Z) (entry_point arg : Z)
| Timer
| UserPageFault (address error_code cs eip : Z)
| InstallFd (handle : Z)
| RemoveFd (descriptor : Z)
| Chdir (path : list Z).

(** Arguments in the range of their C types; paths are C strings. *)
Definition valid_call (c : call) : Prop :=
  match c with
  | Sleep ticks => 0 <= ticks
  | Waitpid wanted => -2147483648 <= wanted <= 2147483647
  | InstallFd handle => handle <> 0
  | Chdir path => Forall (fun x => x <> 0) path
  | _ => True
  end.

Definition is_timer (c : call) : bool := match c with Timer => true | _ => false end.

Section sched.
Context {E : Type} `{!Services E}.
Context (sym : symbols).
Implicit Types s : sched E.
Implicit Types (p : process) (i j : nat).

Definition discard {A} (m : M (sched E) A) : M (sched E) unit := m ;; ret tt.

Definition exec (c : call) : M (sched E) unit :=
  match c with
  | Yield => discard scheduler_yield
  | Sleep ticks => discard (scheduler_sleep_current ticks)
  | Exit code => scheduler_exit_current code
  | Waitpid wanted => discard (scheduler_waitpid wanted)
  | CreateThread nm entry_point arg => discard (kernel_thread_create sym nm entry_point arg)
  | Timer => timer_irq
  | UserPageFault address error_code cs eip => discard (scheduler_user_page_fault address error_code cs eip)
  | InstallFd handle => discard (scheduler_fd_install handle)
  | RemoveFd descriptor => discard (scheduler_fd_remove descriptor)
  | Chdir path => discard (scheduler_set_current_working_directory path)
  end.

(** ** Every step is safe and fair *)

(** One timer tick moves the turn on, or uses up a part of the slice. *)
Definition ticks_on s s' : Prop :=
  (exists i, at_state s i PROCESS_READY) -> current_process s' = current_process s -> slice_of s' < slice_of s.

Lemma discard_ok {A} Ex (m : M (sched E) A) s (Q : sched E -> Prop) :
  wpp Ex m s (fun _ s' => Q s') -> wpp Ex (discard m) s (fun _ s' => Q s').
Proof. intros H. apply wpp_bind. by eapply wpp_mono. Qed.

Lemma inv_tick s n : inv s -> inv (set_tick n s).
Proof.
  intros [(i & p & Hc & Hp & [Ht Hr Hn Hcpu] & Hact)]. split. exists i, p.
  split; [done|]. split; [done|]. by split.
Qed.

Lemma timer_ok s : inv s -> wp timer_irq s (fun _ s' => inv s' /\ fair s s' /\ ticks_on s s').
Proof.
  intros Hinv. unfold timer_irq, pit_handle_irq. run. set (s1 := set_tick _ s).
  eapply wp_mono; [apply tick_ok; by apply inv_tick|]. cbv beta.
  intros _ s' (Hinv' & Hf & Hpost). split; [done|]. split; [by apply (fair_trans s s1)|].
  intros (i & q & Hq & Hst) Hsame. destruct Hpost as (a & p & Hc & Hp & _ & Hpost).
  rewrite (slice_of_eq s a p) by done. destruct (decide (1 < time_slice p)).
  - destruct Hpost as (Hcur & p' & Hp' & Hsl). rewrite (slice_of_eq s' a p'); [lia|congruence|done].
  - destruct Hpost as (_ & Hmove & _). destruct Hmove; [|by rewrite Hsame].
    exists i, q. split; [done|]. by rewrite woken_ready.
Qed.

Lemma user_fault_ok address error_code cs eip s :
  inv s -> wpp exit_panic (scheduler_user_page_fault address error_code cs eip) s (fun _ s' => inv s' /\ fair s s').
Proof.
  intros Hinv. pose proof Hinv as [(i & p & Hc & Hp & [Ht Hr Hn Hcpu] & Hact)].
  unfold scheduler_user_page_fault. apply wpp_bind_wp, wp_gets. rewrite Hc.
  apply wpp_bind_wp. eapply wp_get; [apply Ht|exact Hp|].
  destruct (_ || _); [apply wpp_wp, wp_ret; split; [done|apply fair_refl]|].
  apply wpp_bind_wp, wp_modify. set (s1 := set_last_fault _ s).
  assert (inv s1) as Hinv1 by (split; exists i, p; split; [done|]; split; [done|]; by split).
  apply wpp_bind. eapply wpp_mono; [by apply exit_ok|]. cbv beta. intros _ s' (Hi' & Hf & _).
  apply wpp_wp, wp_ret. split; [done|]. by apply (fair_trans s s1).
Qed.

Lemma install_ok handle s :
  inv s -> handle <> 0 -> wp (scheduler_fd_install handle) s (fun _ s' => inv s' /\ fair s s').
Proof.
  intros Hinv Hh. pose proof Hinv as [(i & p & Hc & Hp & [Ht Hr Hn Hcpu] & Hact)].
  destruct (tok_buffers _ _ Ht i p Hp) as (Hfl & _). pose proof (tok_len _ _ Ht).
  eapply fd_install_ok; try done.
  - intros d Hd _ _. apply fd_step_ok; try done. by rewrite length_insert.
  - intros _. split; [done|apply fair_refl].
Qed.

Lemma remove_ok d s : inv s -> wp (scheduler_fd_remove d) s (fun _ s' => inv s' /\ fair s s').
Proof.
  intros Hinv. pose proof Hinv as [(i & p & Hc & Hp & [Ht Hr Hn Hcpu] & Hact)].
  destruct (tok_buffers _ _ Ht i p Hp) as (Hfl & _). pose proof (tok_len _ _ Ht).
  eapply fd_remove_ok; try done.
  - intros Hd. apply fd_step_ok; try done. by rewrite length_insert.
  - intros _. split; [done|apply fair_refl].
Qed.

Lemma exec_ok c s :
  valid_call c -> inv s ->
  wpp exit_panic (exec c) s (fun _ s' => inv s' /\ fair s s' /\ (is_timer c = true -> ticks_on s s')).
Proof.
  intros Hv Hinv. assert (forall A (m : M (sched E) A) (R : A -> sched E -> Prop), is_timer c = false ->
    wp m s (fun a s' => inv s' /\ fair s s' /\ R a s') ->
    wpp exit_panic (discard m) s (fun _ s' => inv s' /\ fair s s' /\ (is_timer c = true -> ticks_on s s'))) as Hlift.
  { intros A m R Ht Hm. apply discard_ok, wpp_wp. eapply wp_mono; [exact Hm|].
    intros a s' (? & ? & _). split; [done|]. split; [done|]. by rewrite Ht. }
  destruct c; simpl in Hv |- *.
  - eapply Hlift; [done|by apply yield_ok].
  - eapply Hlift; [done|by apply sleep_ok].
  - eapply wpp_mono; [by apply exit_ok|]. cbv beta. intros _ s' (? & ? & _). done.
  - eapply Hlift; [done|by apply waitpid_ok].
  - eapply Hlift; [done|by apply create_ok].
  - apply wpp_wp. eapply wp_mono; [by apply timer_ok|]. cbv beta. intros _ s' (? & ? & ?). done.
  - apply discard_ok. eapply wpp_mono; [by apply user_fault_ok|]. cbv beta. intros _ s' (? & ?). done.
  - apply discard_ok, wpp_wp. eapply wp_mono; [by apply install_ok|]. cbv beta. intros _ s' (? & ?). done.
  - apply discard_ok, wpp_wp. eapply wp_mono; [by apply remove_ok|]. cbv beta. intros _ s' (? & ?). done.
  - destruct Hinv as [(i & p & Hc & Hp & Hb)].
    apply discard_ok, wpp_wp. eapply wp_mono; [by eapply chdir_ok; [split; exists i, p|..]|].
    cbv beta. intros _ s' (? & ? & _). done.
Qed.


(** ** Bounded waiting *)

(** A history: the calls made from [s], with the state after each. *)
Inductive history : sched E -> list (call * sched E) -> Prop :=
| history_nil s : history s []
| history_step s c s' l : valid_call c -> exec c s = Ret tt s' -> history s' l -> history s ((c, s') :: l).

Definition timer_ticks (l : list (call * sched E)) : Z :=
  Z.of_nat (length (List.filter (fun x => is_timer (fst x)) l)).

(** How far the turn is from process [i], in ticks. *)
Definition weight s i : Z :=
  match current_process s with
  | Some a => 5 * Z.of_nat (dist (Z.to_nat a) i) + slice_of s
  | None => 0
  end.

Lemma inv_slice s : inv s -> 1 <= slice_of s <= 5.
Proof.
  intros [(i & p & Hc & Hp & _ & _ & Hsl)]. by rewrite (slice_of_eq s i p).
Qed.

Lemma weight_step c s s' i :
  valid_call c -> inv s -> exec c s = Ret tt s' -> at_state s i PROCESS_READY ->
  inv s' /\ (current_process s' = Some (Z.of_nat i) \/
    (at_state s' i PROCESS_READY /\ weight s' i <= weight s i - if is_timer c then 1 else 0)).
Proof.
  intros Hv Hinv He Hi. pose proof (exec_ok c s Hv Hinv) as H. unfold wpp in H. rewrite He in H.
  destruct H as (Hinv' & Hf & Htick). split; [done|].
  pose proof Hinv as [(a & p & Hc & Hp & _)]. destruct (Hf a i Hc Hi) as [?|(Hi' & b & Hb & Hcase)]; [by left|].
  right. split; [done|]. unfold weight. rewrite Hc, Hb, !Nat2Z.id.
  pose proof (inv_slice s Hinv). pose proof (inv_slice s' Hinv').
  destruct Hcase as [[-> Hle]|Hlt]; [|destruct (is_timer c); lia].
  destruct (is_timer c); [|lia]. specialize (Htick eq_refl (ex_intro _ i Hi)). rewrite Hc, Hb in Htick.
  specialize (Htick eq_refl). lia.
Qed.

Lemma history_progress s l i :
  inv s -> history s l -> at_state s i PROCESS_READY ->
  Exists (fun x => current_process (snd x) = Some (Z.of_nat i)) l \/ timer_ticks l <= weight s i - 1.
Proof.
  intros Hinv Hl. revert Hinv. induction Hl as [s|s c s' l Hv He Hl IH]; intros Hinv Hi.
  - right. unfold timer_ticks, weight. simpl. pose proof (inv_slice s Hinv).
    pose proof Hinv as [(a & p & -> & _)]. lia.
  - destruct (weight_step c s s' i Hv Hinv He Hi) as [Hinv' [Hcur|[Hi' Hw]]]; [left; by left|].
    destruct (IH Hinv' Hi') as [Hex|Hle]; [left; by right|]. right.
    assert (timer_ticks ((c, s') :: l) = timer_ticks l + if is_timer c then 1 else 0) as ->.
    { unfold timer_ticks. simpl. destruct (is_timer c); simpl length; lia. }
    lia.
Qed.

Lemma weight_bound s i : inv s -> (i < 16)%nat -> weight s i <= 80.
Proof.
  intros Hinv Hi. pose proof (inv_slice s Hinv). unfold weight. destruct Hinv as [(a & p & -> & _)].
  rewrite Nat2Z.id. unfold dist. pose proof (Nat.mod_upper_bound (i + 16 - a) 16). lia.
Qed.

(** C11. No starvation: a process that is ready is dispatched before eighty timer
    ticks have passed, whatever the other processes call in between. *)
Theorem scheduler_bounded_waiting s l i :
  inv s -> history s l -> at_state s i PROCESS_READY -> 80 <= timer_ticks l ->
  Exists (fun x => current_process (snd x) = Some (Z.of_nat i)) l.
Proof.
  intros Hinv Hl Hi Ht. destruct (history_progress s l i Hinv Hl Hi) as [?|Hle]; [done|].
  assert (i < 16)%nat as H16.
  { destruct Hinv as [(a & p & _ & _ & [Htok _ _ _] & _)]. destruct Hi as (q & Hq & _).
    rewrite <-(tok_len _ _ Htok). by eapply lookup_lt_Some. }
  pose proof (weight_bound s i Hinv H16). lia.
Qed.

(** ** Sleeping *)

(** C35. A process (other than the boot thread) that sleeps for [ticks] is woken by
    the tick interrupt that comes [ticks] ticks later and by no earlier one, also
    when the 32-bit tick counter wraps around in between. *)
Theorem sleep_wakes_on_time ticks s s1 a :
  inv s -> 1 <= ticks <= SLEEP_MAXIMUM_TICKS -> 0 <= tick_count s < 4294967296 ->
  current_process s = Some (Z.of_nat a) -> (1 <= a)%nat ->
  scheduler_sleep_current ticks s = Ret None s1 ->
  exists p1, process_table s1 !! a = Some p1 /\ state p1 = PROCESS_BLOCKED /\
    forall s2 d, inv s2 -> process_table s2 !! a = Some p1 -> 0 <= d <= SLEEP_MAXIMUM_TICKS ->
      tick_count s2 = tick_count s +u d ->
      wp scheduler_on_tick s2 (fun _ s3 => exists p3, process_table s3 !! a = Some p3 /\
        if decide (ticks <= d) then state p3 = PROCESS_READY \/ state p3 = PROCESS_RUNNING
        else state p3 = PROCESS_BLOCKED).
Proof.
  intros Hinv Ht Hr Hc Ha He. pose proof (sleep_ok ticks s ltac:(lia) Hinv) as H. unfold wp in H. rewrite He in H.
  destruct H as (Hinv1 & _ & a' & p1 & Hc' & Hp1 & _ & Hb). rewrite Hc in Hc'.
  assert (a' = a) as -> by (injection Hc'; lia). destruct Hb as (Hbl & Hw & Hwt); [lia|]. exists p1. split; [done|]. split; [done|].
  intros s2 d Hinv2 Hp2 Hd Htk. eapply wp_mono; [by apply tick_ok|]. cbv beta.
  intros _ s3 (Hinv3 & _ & b & q & Hcb & Hq & Hoth & _).
  assert (a <> b) as Hab.
  { intros ->. destruct Hinv2 as [(b' & q' & Hcb' & Hq' & [Htok _ _ _] & _)]. rewrite Hcb in Hcb'.
    assert (b' = b) as -> by (injection Hcb'; lia). pose proof (proj2 (tok_running _ _ Htok b p1 Hp2) eq_refl). congruence. }
  destruct (Hoth a p1 Hp2 Hab) as (p3 & Hp3 & Hrd & Hst). exists p3. split; [done|].
  assert (state (woken (tick_count s2) a p1) = if decide (ticks <= d) then PROCESS_READY else PROCESS_BLOCKED) as Hwk.
  { unfold woken, due. rewrite decide_True by done. rewrite !bool_decide_eq_true_2 by done. cbn [andb].
    rewrite Hwt, Htk, wake_time by done. repeat case_bool_decide; repeat case_decide; done. }
  rewrite Hwk in Hrd, Hst. destruct (decide (ticks <= d)); [case_decide; auto|].
  rewrite decide_False in Hst; [done|]. intros Hcur. by specialize (Hrd Hcur).
Qed.

(** ** Children *)



(** kernel_thread_create either fails with -1, leaving the table and the heap
    as they were, or makes a ready child of the caller in the first free slot,
    with an unused number, a stack of its own, no open files and the caller's
    working directory. *)
Theorem kernel_thread_create_exact nm entry_point arg s :
  inv s -> wp (kernel_thread_create sym nm entry_point arg) s (fun r s' =>
    inv s' /\
    ((r = -1 /\ process_table s' = process_table s /\ forall b, sv_stack (svc s') b <-> sv_stack (svc s) b) \/
     exists j c', created nm entry_point arg s s' j c' /\ r = pid c')).
Proof.
  intros Hinv. eapply wp_mono; [by apply create_ok|]. cbv beta.
  intros r s' (Hinv' & _ & [(-> & ? & (_ & _ & _ & ?) & _)|(j & c' & ? & ? & _)]); split; eauto.
Qed.

(** ** Descriptors and the working directory *)

(** A descriptor that was installed is the lowest free one from 3 on, reads
    back as the handle, and removing it returns the handle and restores the
    table; with all 13 in use the call fails and changes nothing. *)
Theorem fd_roundtrip handle s i p :
  inv s -> handle <> 0 -> current_process s = Some (Z.of_nat i) -> process_table s !! i = Some p ->
  wp (scheduler_fd_install handle) s (fun d s1 =>
    (d = - MINIOS_EMFILE /\ s1 = s /\ forall d', 3 <= d' < 16 -> fd_of p d' <> 0) \/
    (3 <= d < 16 /\ fd_of p d = 0 /\ (forall d', 3 <= d' < d -> fd_of p d' <> 0) /\
     wp (let! h := scheduler_fd_get d in let! h' := scheduler_fd_remove d in ret (h, h')) s1 (fun r s2 =>
       r = (handle, handle) /\ s2 = s))).
Proof.
  intros Hinv Hh Hc Hp. pose proof Hinv as [(i0 & p0 & Hc0 & Hp0 & [Ht Hr Hn Hcpu] & Hact)].
  destruct (tok_buffers _ _ Ht i p Hp) as (Hfl & _). pose proof (tok_len _ _ Ht) as Hlen.
  pose proof (lookup_lt_Some _ _ _ Hp) as Hil.
  assert (forall d, fd_range d = true <-> 3 <= d < 16) as Hrng.
  { intros d. unfold fd_range. rewrite andb_true_iff, Z.leb_le, Z.ltb_lt. lia. }
  apply (fd_install_ok s i p); try done.
  2:{ intros Hall. left. split; [done|]. split; [done|]. intros d' Hd'. by apply Hall, Hrng. }
  intros d Hd H0 Hlow. right. split; [by apply Hrng|]. split; [done|]. split; [done|].
  set (p' := set_fd_table _ p). set (s1 := set_table _ s).
  assert (process_table s1 !! i = Some p') as Hp1 by (by apply list_lookup_insert_eq).
  assert (length (fd_table p') = 16%nat) as Hfl' by (simpl; by rewrite length_insert).
  assert (length (process_table s1) = 16%nat) as Hl1 by (simpl; by rewrite length_insert).
  assert (fd_of p' d = handle) as Hget.
  { unfold fd_of. rewrite Hd. simpl. rewrite list_lookup_insert_eq; [done|]. apply Hrng in Hd. lia. }
  apply wp_bind. apply (fd_get_ok s1 i p'); try done.
  apply wp_bind. apply (fd_remove_ok s1 i p'); try done; [|congruence].
  intros _. run. rewrite Hget. split; [done|]. unfold s1, p'. tsimpl. simpl.
  rewrite !list_insert_insert_eq.
  assert (<[Z.to_nat d := 0]> (fd_table p) = fd_table p) as ->.
  { apply list_insert_id. by rewrite (fd_lookup p d), H0. }
  replace (set_fd_table (fd_table p) _) with p by (by destruct p).
  rewrite list_insert_id by done. by destruct s.
Qed.

(** chdir stores an absolute path of less than 256 bytes and nothing else;
    getcwd then returns it exactly when the buffer has room for the terminator. *)
Theorem cwd_roundtrip path capacity s i p :
  inv s -> current_process s = Some (Z.of_nat i) -> process_table s !! i = Some p ->
  Forall (fun x => x <> 0) path -> 0 < capacity ->
  wp (scheduler_set_current_working_directory path) s (fun ok s1 =>
    inv s1 /\ (ok = true <-> absolute path /\ Z.of_nat (length path) < 256) /\ (ok = false -> s1 = s) /\
    (ok = true -> wp (scheduler_get_current_working_directory capacity) s1 (fun r s2 =>
       s2 = s1 /\ r = if Z.of_nat (length path) <? capacity then Some path else None))).
Proof.
  intros Hinv Hc Hp Hpath Hcap. eapply wp_mono; [by eapply chdir_ok|]. cbv beta.
  intros ok s1 (Hinv1 & _ & Hcpu & Hcur & Hcase). split; [done|]. unfold MINIOS_PROCESS_CWD_SIZE in Hcase.
  destruct ok.
  2:{ destruct Hcase as [-> Hwhy]. split; [|done]. split; [done|]. intros [? ?]. destruct Hwhy; [done|lia]. }
  destruct Hcase as (Habs & Hlen & cwd & Hp1 & _ & _ & [r Hcwd] & _). split; [done|]. split; [done|]. intros _.
  unfold scheduler_get_current_working_directory. run. rewrite Hcur, Hc.
  rewrite (proj2 (Z.eqb_neq capacity 0)) by lia.
  destruct Hinv1 as [(i1 & p1 & _ & _ & [Ht1 _ _ Hc1] & _)].
  apply wp_bind, wp_zoom, Cpu.irq_save_disable_wp. apply wp_bind. eapply wp_get; [apply Ht1|exact Hp1|].
  apply wp_bind, wp_zoom, Cpu.irq_restore_wp; [done|]. run.
  split; [by rewrite lset_lset, lset_lget|].
  cbn [current_working_directory set_current_working_directory]. rewrite Hcwd. apply cwd_to_buffer_ok; [done|lia].
Qed.

End sched.

End SchedulerSpec.
