(* ===== verification/SchedulerDemo.v ===== *)
(** * A run of the scheduler

    A small implementation of the services the scheduler calls (a bump allocator
    for stacks, a list of address spaces) discharges the class [Services]; the
    theorems are then applied to the states of a concrete run: boot, two threads,
    a wait, an exit. *)

From S2P Require Import Prelude Monad Interfaces Cpu Scheduler SchedulerInv SchedulerLife SchedulerSpec.

Module SchedulerDemo.
Import Scheduler SchedulerInv SchedulerLife SchedulerSpec.

Record toy := Toy { brk : Z; stacks : list Z; spaces : list Z; active : Z; stores : list (Z * Z); closed : list Z }.

Definition toy_kmalloc (n : Z) : M toy Z := fun t =>
  if (1 <=? n) && (brk t + n <? 4294967296)
  then Ret (brk t) (Toy (brk t + n) (brk t :: stacks t) (spaces t) (active t) (stores t) (closed t))
  else Ret 0 t.

Definition toy_kfree (a : Z) : M toy bool := fun t =>
  if decide (a ∈ stacks t)
  then Ret true (Toy (brk t) (filter (fun b => b <> a) (stacks t)) (spaces t) (active t) (stores t) (closed t))
  else Ret false t.

Definition toy_activate (d : Z) : M toy bool := fun t =>
  if decide (d ∈ spaces t) then Ret true (Toy (brk t) (stacks t) (spaces t) d (stores t) (closed t)) else Ret false t.

Definition toy_destroy (d : Z) : M toy bool := fun t =>
  if decide (d ∈ spaces t)
  then Ret true (Toy (brk t) (stacks t) (filter (fun b => b <> d) (spaces t)) (active t) (stores t) (closed t))
  else Ret false t.

Definition toy_inv (t : toy) : Prop := 0 < brk t /\ Forall (fun a => a < brk t) (stacks t).

#[export] Program Instance toy_services : Services toy := {|
  sv_kmalloc := toy_kmalloc;
  sv_kfree := toy_kfree;
  sv_store := fun a v t => Ret tt (Toy (brk t) (stacks t) (spaces t) (active t) ((a, v) :: stores t) (closed t));
  sv_activate_kernel := fun t => Ret true (Toy (brk t) (stacks t) (spaces t) 0 (stores t) (closed t));
  sv_activate := toy_activate;
  sv_destroy := toy_destroy;
  sv_set_kernel_stack := fun _ => ret tt;
  sv_vfs_initialized := ret true;
  sv_release_file := fun h t => Ret tt (Toy (brk t) (stacks t) (spaces t) (active t) (stores t) (h :: closed t));
  sv_inv := toy_inv;
  sv_stack := fun t a => a ∈ stacks t;
  sv_space := fun t d => d ∈ spaces t;
  sv_active := active
|}.
Next Obligation.
  intros n t [Hb Hall]. unfold wp, toy_kmalloc.
  destruct (Z.leb_spec 1 n), (Z.ltb_spec (brk t + n) 4294967296); simpl; try by (split; [|eauto]).
  split; [split; [simpl; lia|]|].
  - constructor; [simpl; lia|]. eapply Forall_impl; [done|]. simpl. intros; lia.
  - split; [done|]. split; [done|]. right. split; [lia|]. split; [lia|]. split.
    + intros Hin. rewrite Forall_forall in Hall. specialize (Hall _ Hin). lia.
    + intros b. simpl. rewrite elem_of_cons. tauto.
Qed.
Next Obligation.
  intros a t [Hb Hall] Hin. unfold wp, toy_kfree. rewrite decide_True by done. split; [done|].
  split; [split; [done|]|].
  - rewrite Forall_forall in Hall |- *. intros b [_ ?]%list_elem_of_filter. auto.
  - split; [done|]. split; [done|]. intros b. simpl. rewrite list_elem_of_filter. tauto.
Qed.
Next Obligation. done. Qed.
Next Obligation. intros d t Ht Hd. unfold wp, toy_activate. by rewrite decide_True. Qed.
Next Obligation.
  intros d t Ht Hd _. unfold wp, toy_destroy. rewrite decide_True by done. split; [done|]. split; [done|].
  split; [done|]. split; [|done]. intros d'. simpl. rewrite list_elem_of_filter. tauto.
Qed.
Next Obligation. done. Qed.
Next Obligation. done. Qed.
Next Obligation. done. Qed.
Next Obligation. done. Qed.

(** ** The run *)

(** The state a routine leaves behind. *)
Definition after {S A} (m : M S A) (s : S) : S := match m s with Ret _ s' => s' | _ => s end.

Lemma after_wp {S A} (m : M S A) s (P : S -> Prop) : wp m s (fun _ s' => P s') -> P (after m s).
Proof. unfold wp, after. by destruct (m s). Qed.

Definition returns {S A} (m : M S A) (s : S) : bool := match m s with Ret _ _ => true | _ => false end.

Lemma after_wpp {S A} Ex (m : M S A) s (P : S -> Prop) :
  wpp Ex m s (fun _ s' => P s') -> returns m s = true -> P (after m s).
Proof. unfold wpp, after, returns. by destruct (m s). Qed.

Definition demo_symbols : symbols := Symbols 0xC0101000 0xC0101100 0xC0101200 0xC0120000.

(** Six ticks before the counter wraps around. *)
Definition demo_cold : sched toy :=
  Sched (Toy 0xD0000000 [] [] 0 [] []) (Cpu.State 0x202) 0xC011FF00 4294967290 [] None 0 (0, 0, 0, 0).

Definition demo_boot : sched toy := after (scheduler_init demo_symbols) demo_cold.
Definition demo_one : sched toy := after (kernel_thread_create demo_symbols [97] 0xC0102000 7) demo_boot.
Definition demo_two : sched toy := after (kernel_thread_create demo_symbols [98] 0xC0102000 8) demo_one.
(** The boot thread waits for any child; thread 1 runs. *)
Definition demo_wait : sched toy := after (scheduler_waitpid (-1)) demo_two.
(** Thread 1 has ended with status 7 and thread 2 runs; then the boot thread. *)
Definition demo_exit : sched toy := after (scheduler_exit_current 7) demo_wait.
Definition demo_back : sched toy := after scheduler_yield demo_exit.

Lemma demo_boot_inv : inv demo_boot.
Proof.
  apply (after_wp (scheduler_init demo_symbols) demo_cold inv).
  eapply wp_mono; [apply scheduler_init_ok; [by split|done|done]|]. by intros _ s' (? & _).
Qed.

Lemma create_keeps nm e a (s : sched toy) : inv s -> inv (after (kernel_thread_create demo_symbols nm e a) s).
Proof.
  intros Hs. apply (after_wp _ s inv). eapply wp_mono; [by apply create_ok|]. by intros r s' (? & _).
Qed.

Lemma demo_two_inv : inv demo_two.
Proof. by apply create_keeps, create_keeps, demo_boot_inv. Qed.

Lemma demo_wait_inv : inv demo_wait.
Proof.
  apply (after_wp _ demo_two inv). eapply wp_mono; [apply waitpid_ok; [lia|apply demo_two_inv]|].
  by intros r s' (? & _).
Qed.

Lemma demo_exit_inv : inv demo_exit.
Proof.
  apply (after_wpp exit_panic _ demo_wait inv); [|by vm_compute].
  eapply wpp_mono; [apply exit_ok, demo_wait_inv|]. by intros r s' (? & _).
Qed.

Lemma demo_back_inv : inv demo_back.
Proof.
  apply (after_wp _ demo_exit inv). eapply wp_mono; [apply yield_ok, demo_exit_inv|]. by intros r s' (? & _).
Qed.

(** What evaluation says about a slot. *)
Definition slot_is (s : sched toy) (i : nat) (test : process -> bool) : bool :=
  match process_table s !! i with Some p => test p | None => false end.

Lemma slot_is_true s i test :
  slot_is s i test = true -> exists p, process_table s !! i = Some p /\ test p = true.
Proof. unfold slot_is. destruct (process_table s !! i); [eauto|done]. Qed.

Definition waits_for_any (q : process) : bool :=
  bool_decide (state q = PROCESS_BLOCKED) && (pid q =? 0) && bool_decide (wait_node q = Some 0).
Definition ended_child (z : process) : bool :=
  bool_decide (state z = PROCESS_ZOMBIE) && (pid z =? 1) && (exit_code z =? 7) && (parent_pid z =? 0).

(** ** The theorems on these states *)


(** Only timer interrupts. *)
Fixpoint timers (n : nat) (s : sched toy) : list (call * sched toy) :=
  match n with
  | O => []
  | S n' => let s' := after timer_irq s in (Timer, s') :: timers n' s'
  end.

Lemma timers_history n (s : sched toy) : inv s -> history demo_symbols s (timers n s).
Proof.
  revert s. induction n as [|n IH]; intros s Hs; simpl; [constructor|].
  pose proof (timer_ok s Hs) as H. unfold wp, after in *. destruct (timer_irq s) as [[] s'| | |] eqn:Es; [|done..].
  constructor; [done|exact Es|]. apply IH, H.
Qed.

Lemma timers_ticks n (s : sched toy) : timer_ticks (timers n s) = Z.of_nat n.
Proof.
  unfold timer_ticks. f_equal. revert s. induction n as [|n IH]; intros s; simpl; [done|]. by rewrite IH.
Qed.

Lemma scheduler_bounded_waiting_witness :
  Exists (fun x => current_process (snd x) = Some 2) (timers 80 demo_two).
Proof.
  apply (scheduler_bounded_waiting demo_symbols demo_two (timers 80 demo_two) 2 demo_two_inv).
  - apply timers_history, demo_two_inv.
  - eexists. split; [vm_compute; reflexivity|reflexivity].
  - rewrite timers_ticks. lia.
Defined.

Lemma sleep_wakes_on_time_witness :
  exists p1, process_table (after (scheduler_sleep_current 10) demo_wait) !! 1%nat = Some p1 /\
    state p1 = PROCESS_BLOCKED /\
    forall s2 d, inv s2 -> process_table s2 !! 1%nat = Some p1 -> 0 <= d <= SLEEP_MAXIMUM_TICKS ->
      tick_count s2 = tick_count demo_wait +u d ->
      wp scheduler_on_tick s2 (fun _ s3 => exists p3, process_table s3 !! 1%nat = Some p3 /\
        if decide (10 <= d) then state p3 = PROCESS_READY \/ state p3 = PROCESS_RUNNING
        else state p3 = PROCESS_BLOCKED).
Proof.
  apply (sleep_wakes_on_time 10 demo_wait (after (scheduler_sleep_current 10) demo_wait) 1).
  - apply demo_wait_inv.
  - unfold SLEEP_MAXIMUM_TICKS. lia.
  - vm_compute. split; [discriminate|reflexivity].
  - vm_compute. reflexivity.
  - lia.
  - vm_compute. reflexivity.
Defined.



Lemma kernel_thread_create_exact_witness :
  exists r s', kernel_thread_create demo_symbols [99] 0xC0102000 9 demo_two = Ret r s' /\ inv s'.
Proof.
  assert (forall s : sched toy, inv s -> exists r s',
    kernel_thread_create demo_symbols [99] 0xC0102000 9 s = Ret r s' /\ inv s') as Hgen.
  { intros s Hs. pose proof (kernel_thread_create_exact demo_symbols [99] 0xC0102000 9 s Hs) as H.
    unfold wp in H. destruct (kernel_thread_create demo_symbols [99] 0xC0102000 9 s) as [r s'| | |]; [|done..].
    exists r, s'. split; [done|]. apply H. }
  apply Hgen. exact demo_two_inv.
Defined.

Definition install_test (s : sched toy) : bool :=
  match scheduler_fd_install 0xD0004000 s with Ret d _ => d =? 3 | _ => false end.

Lemma fd_roundtrip_witness :
  exists s1, scheduler_fd_install 0xD0004000 demo_two = Ret 3 s1 /\
    wp (let! h := scheduler_fd_get 3 in let! h' := scheduler_fd_remove 3 in ret (h, h')) s1 (fun r s2 =>
      r = (0xD0004000, 0xD0004000) /\ s2 = demo_two).
Proof.
  assert (forall s : sched toy, inv s -> current_process s = Some (Z.of_nat 0) -> slot_is s 0 (fun _ => true) = true ->
    install_test s = true -> exists s1, scheduler_fd_install 0xD0004000 s = Ret 3 s1 /\
    wp (let! h := scheduler_fd_get 3 in let! h' := scheduler_fd_remove 3 in ret (h, h')) s1 (fun r s2 =>
      r = (0xD0004000, 0xD0004000) /\ s2 = s)) as Hgen.
  { intros s Hinv Hc (p & Hp & _)%slot_is_true Ht.
    pose proof (fd_roundtrip 0xD0004000 s 0 p Hinv ltac:(lia) Hc Hp) as H.
    unfold wp in H at 1. unfold install_test in Ht.
    destruct (scheduler_fd_install 0xD0004000 s) as [d s1| | |]; [|done..]. apply Z.eqb_eq in Ht as ->.
    exists s1. split; [done|]. destruct H as [(? & _)|(_ & _ & _ & H)]; [done|exact H]. }
  apply Hgen; [exact demo_two_inv|vm_compute; reflexivity..].
Defined.

Lemma cwd_roundtrip_witness :
  exists s1, scheduler_set_current_working_directory [47; 98; 105; 110] demo_two = Ret true s1 /\
    wp (scheduler_get_current_working_directory 5) s1 (fun r s2 => s2 = s1 /\ r = Some [47; 98; 105; 110]).
Proof.
  assert (forall s : sched toy, inv s -> current_process s = Some (Z.of_nat 0) -> slot_is s 0 (fun _ => true) = true ->
    exists s1, scheduler_set_current_working_directory [47; 98; 105; 110] s = Ret true s1 /\
    wp (scheduler_get_current_working_directory 5) s1 (fun r s2 => s2 = s1 /\ r = Some [47; 98; 105; 110])) as Hgen.
  { intros s Hinv Hc (p & Hp & _)%slot_is_true.
    pose proof (cwd_roundtrip [47; 98; 105; 110] 5 s 0 p Hinv Hc Hp ltac:(by repeat constructor) ltac:(lia)) as H.
    unfold wp in H at 1.
    destruct (scheduler_set_current_working_directory [47; 98; 105; 110] s) as [ok s1| | |]; [|done..].
    destruct H as (_ & Hok & _ & Hget). assert (ok = true) as ->.
    { apply Hok. split; [by eexists|cbn [length]; lia]. }
    exists s1. split; [done|]. exact (Hget eq_refl). }
  apply Hgen; [exact demo_two_inv|vm_compute; reflexivity..].
Defined.

End SchedulerDemo.
