(* ===== verification/Block.v ===== *)
(** * The block layer, kernel/block/block.c

    4 KiB blocks made of eight sectors of the disk driver. [Sectors] is what the
    driver promises, [BlockDevice] what the file system needs; block.c discharges
    the second from the first. *)

From S2P Require Import Prelude Monad Interfaces Bytes.

Definition MINIOS_EIO : Z := 5.
Definition EINVAL : Z := 22.

(** The disk driver: reads fill the buffer they are given, and may leave it
    partly filled when they fail; a failing write may have written a part. *)
Class Sectors (D : Type) := {
  sec_count : M D Z;                               (** ata_sector_count *)
  sec_read : Z -> Z -> list Z -> M D (Z * list Z); (** ata_read_sectors: status and buffer *)
  sec_write : Z -> Z -> list Z -> M D Z;           (** ata_write_sectors *)

  sec_inv : D -> Prop;
  sec_healthy : D -> Prop;     (** requests in range succeed *)
  sec_total : D -> Z;
  sec_data : D -> Z -> list Z -> Prop;  (** [sec_data d lba l]: the sectors from [lba] on hold [l] *)

  sec_total_range : forall d, sec_inv d -> 0 <= sec_total d < 4294967296;
  sec_data_exists : forall d lba n, sec_inv d -> 0 <= lba -> 0 <= n -> lba + n <= sec_total d ->
    exists l, zlength l = n * 512 /\ bytes l /\ sec_data d lba l;
  sec_data_unique : forall d lba l l', sec_data d lba l -> sec_data d lba l' -> length l = length l' -> l = l';
  sec_count_ok : forall d, sec_inv d -> wp sec_count d (fun n d' => d' = d /\ n = sec_total d);
  sec_read_ok : forall lba n buf d, sec_inv d -> 0 <= lba -> 1 <= n <= 255 -> lba + n <= sec_total d ->
    zlength buf = n * 512 -> bytes buf ->
    wp (sec_read lba n buf) d (fun r d' => sec_inv d' /\ sec_total d' = sec_total d /\
      (sec_healthy d -> sec_healthy d' /\ fst r = 0) /\
      (forall k l, sec_data d k l -> sec_data d' k l) /\
      zlength (snd r) = n * 512 /\ bytes (snd r) /\ fst r <= 0 /\ (fst r = 0 -> sec_data d lba (snd r)));
  sec_write_ok : forall lba n data d, sec_inv d -> 0 <= lba -> 1 <= n <= 255 -> lba + n <= sec_total d ->
    zlength data = n * 512 -> bytes data ->
    wp (sec_write lba n data) d (fun st d' => sec_inv d' /\ sec_total d' = sec_total d /\
      (sec_healthy d -> sec_healthy d' /\ st = 0) /\ st <= 0 /\
      (forall k l, sec_data d k l -> k + zlength l / 512 <= lba \/ lba + n <= k -> sec_data d' k l) /\
      (st = 0 -> sec_data d' lba data))
}.

Class BlockDevice (E : Type) := {
  bd_count : M E Z;                         (** block_count *)
  bd_read : Z -> list Z -> M E (Z * list Z); (** block_read(n, 1, buffer): status and buffer *)
  bd_write : Z -> list Z -> M E Z;          (** block_write(n, 1, buffer) *)

  bd_inv : E -> Prop;
  bd_healthy : E -> Prop;
  bd_total : E -> Z;
  bd_block : E -> Z -> list Z -> Prop;      (** block [n] of the device holds these bytes *)

  bd_total_range : forall e, bd_inv e -> 0 <= bd_total e < 4294967296;
  bd_block_exists : forall e n, bd_inv e -> 0 <= n < bd_total e ->
    exists l, zlength l = 4096 /\ bytes l /\ bd_block e n l;
  bd_block_unique : forall e n l l', bd_inv e -> bd_block e n l -> bd_block e n l' ->
    zlength l = 4096 -> zlength l' = 4096 -> l = l';
  bd_count_ok : forall e, bd_inv e -> wp bd_count e (fun n e' => e' = e /\ n = bd_total e);
  bd_read_ok : forall n buf e, bd_inv e -> 0 <= n < 4294967296 -> zlength buf = 4096 -> bytes buf ->
    wp (bd_read n buf) e (fun r e' => bd_inv e' /\ bd_total e' = bd_total e /\
      (bd_healthy e -> bd_healthy e' /\ (n < bd_total e -> fst r = 0)) /\
      (forall k l, zlength l = 4096 -> bd_block e k l -> bd_block e' k l) /\
      zlength (snd r) = 4096 /\ bytes (snd r) /\ fst r <= 0 /\
      (fst r = 0 -> n < bd_total e /\ bd_block e n (snd r)));
  bd_write_ok : forall n data e, bd_inv e -> 0 <= n < 4294967296 -> zlength data = 4096 -> bytes data ->
    wp (bd_write n data) e (fun st e' => bd_inv e' /\ bd_total e' = bd_total e /\
      (bd_healthy e -> bd_healthy e' /\ (n < bd_total e -> st = 0)) /\ st <= 0 /\
      (forall k l, k <> n -> zlength l = 4096 -> bd_block e k l -> bd_block e' k l) /\
      (st = 0 -> n < bd_total e /\ bd_block e' n data))
}.

Module Block.

Definition SECTORS_PER_BLOCK : Z := 8.
Definition BLOCK_SIZE : Z := 4096.
Definition SIZE_MAX : Z := 4294967295.

Section block.
Context {D : Type} `{!Sectors D}.

Record state := State { disk : D; device_block_count : Z }.

#[export] Instance disk_lens : Lens state D.
Proof.
  refine {| lget := disk; lset := fun d s => State d (device_block_count s) |}; by intros; destruct s.
Defined.

Definition block_request_valid (s : state) (block_number count : Z) : bool :=
  negb (device_block_count s =? 0) && (0 <? count) && (count <=? SIZE_MAX / BLOCK_SIZE) &&
  (count <=? device_block_count s) && (block_number <=? device_block_count s - count).

Definition block_init : M state Z :=
  let! sectors := zoom sec_count in
  if sectors <? SECTORS_PER_BLOCK then
    modify (fun s => State (disk s) 0) ;; ret (- MINIOS_EIO)
  else
    modify (fun s => State (disk s) (sectors / SECTORS_PER_BLOCK)) ;; ret 0.

Definition block_count : M state Z := gets device_block_count.

(** The buffer holds [count] blocks; each round passes a pointer into it. *)
Definition block_read (block_number count : Z) (buffer : list Z) : M state (Z * list Z) :=
  let! ok := gets (fun s => block_request_valid s block_number count) in
  if negb ok then ret (- EINVAL, buffer) else
  while_ (S (Z.to_nat count)) (fun '(index, buf) =>
    if index <? count then
      let! r := zoom (sec_read ((block_number +u index) *u SECTORS_PER_BLOCK) SECTORS_PER_BLOCK
                        (slice buf (index * BLOCK_SIZE) BLOCK_SIZE)) in
      let buf' := splice buf (index * BLOCK_SIZE) (snd r) in
      if fst r <? 0 then ret (inr (fst r, buf')) else ret (inl (index + 1, buf'))
    else ret (inr (0, buf))) (0, buffer).

Definition block_write (block_number count : Z) (buffer : list Z) : M state Z :=
  let! ok := gets (fun s => block_request_valid s block_number count) in
  if negb ok then ret (- EINVAL) else
  while_ (S (Z.to_nat count)) (fun index =>
    if index <? count then
      let! result := zoom (sec_write ((block_number +u index) *u SECTORS_PER_BLOCK) SECTORS_PER_BLOCK
                             (slice buffer (index * BLOCK_SIZE) BLOCK_SIZE)) in
      if result <? 0 then ret (inr result) else ret (inl (index + 1))
    else ret (inr 0)) 0.

(** ** Correctness *)

Definition wf (s : state) : Prop :=
  sec_inv (disk s) /\ device_block_count s = sec_total (disk s) / 8.

Lemma request_one s n :
  wf s -> 0 <= n -> block_request_valid s n 1 = (n <? device_block_count s).
Proof.
  intros [Hi Hc] Hn. unfold block_request_valid. pose proof (sec_total_range _ Hi).
  assert (0 <= device_block_count s) by (rewrite Hc; apply Z.div_pos; lia).
  destruct (Z.ltb_spec n (device_block_count s)), (Z.eqb_spec (device_block_count s) 0),
    (Z.leb_spec 1 (device_block_count s)), (Z.leb_spec n (device_block_count s - 1)); try done; lia.
Qed.

Lemma slice_whole l : zlength l = 4096 -> slice l 0 4096 = l.
Proof. intros Hl. unfold slice, zlength in *. simpl. rewrite drop_0. apply take_ge. lia. Qed.

Lemma splice_whole l src : zlength l = 4096 -> zlength src = 4096 -> splice l 0 src = src.
Proof.
  intros Hl Hs. unfold splice, zlength in *. change (Z.to_nat 0) with 0%nat. rewrite drop_ge by lia. apply app_nil_r.
Qed.

Lemma block_lba s n :
  wf s -> 0 <= n < device_block_count s -> (n +u 0) *u 8 = n * 8 /\ n * 8 + 8 <= sec_total (disk s).
Proof.
  intros [Hi Hc] Hn. pose proof (sec_total_range _ Hi).
  assert (n * 8 + 8 <= sec_total (disk s)).
  { pose proof (Z.mul_div_le (sec_total (disk s)) 8). lia. }
  split; [|done]. rewrite !Z.add_0_r, !u32_id; rewrite ?u32_id; lia.
Qed.

(** Block [n] is the eight sectors from [8 n] on. *)
Definition block_is (s : state) (n : Z) (l : list Z) : Prop := sec_data (disk s) (n * 8) l.

Lemma block_read_one n buf s :
  wf s -> 0 <= n < 4294967296 -> zlength buf = 4096 -> bytes buf ->
  wp (block_read n 1 buf) s (fun r s' => wf s' /\ device_block_count s' = device_block_count s /\
    (sec_healthy (disk s) -> sec_healthy (disk s') /\ (n < device_block_count s -> fst r = 0)) /\
    (forall k l, block_is s k l -> block_is s' k l) /\
    zlength (snd r) = 4096 /\ bytes (snd r) /\ fst r <= 0 /\
    (fst r = 0 -> n < device_block_count s /\ block_is s n (snd r))).
Proof.
  intros Hwf Hn Hl Hb. unfold block_read. run. rewrite request_one by (done || lia).
  destruct (Z.ltb_spec n (device_block_count s)) as [Hlt|Hge]; cbn [negb].
  2:{ run. split; [done|]. split; [done|]. split; [by intros; split; [done|lia]|]. done. }
  destruct (block_lba s n Hwf) as [E1 E2]; [lia|].
  change (Z.to_nat 1) with 1%nat. cbn [while_]. change SECTORS_PER_BLOCK with 8. rewrite E1. cbn [Z.ltb Z.compare].
  run. change (0 * BLOCK_SIZE) with 0. change BLOCK_SIZE with 4096. rewrite slice_whole by done.
  destruct Hwf as [Hi Hc].
  eapply wp_mono; [apply sec_read_ok; [done|lia|unfold SECTORS_PER_BLOCK; lia|exact E2|done|done]|].
  cbv beta. intros r d' (Hi' & Ht' & Hh & Hd & Hlr & Hbr & Hst & Hok).
  assert (wf (lset d' s)) as Hwf' by (split; [done|]; simpl; by rewrite Ht').
  rewrite splice_whole by (done || (rewrite Hlr; done)).
  destruct (Z.ltb_spec (fst r) 0) as [Hneg|Hpos]; run.
  - split; [done|]. split; [done|]. split; [intros H'; destruct (Hh H'); split; [done|lia]|].
    split; [intros k l; apply Hd|]. split; [done|]. split; [done|]. split; [done|simpl; intros; lia].
  - replace (0 + 1 <? 1) with false by done. run. assert (fst r = 0) as Er by lia.
    split; [done|]. split; [done|]. split; [intros H'; by destruct (Hh H')|].
    split; [intros k l; apply Hd|]. split; [done|]. split; [done|]. split; [done|]. intros _. split; [done|]. by apply Hok.
Qed.

Lemma block_write_one n data s :
  wf s -> 0 <= n < 4294967296 -> zlength data = 4096 -> bytes data ->
  wp (block_write n 1 data) s (fun st s' => wf s' /\ device_block_count s' = device_block_count s /\
    (sec_healthy (disk s) -> sec_healthy (disk s') /\ (n < device_block_count s -> st = 0)) /\ st <= 0 /\
    (forall k l, k <> n -> zlength l = 4096 -> block_is s k l -> block_is s' k l) /\
    (st = 0 -> n < device_block_count s /\ block_is s' n data)).
Proof.
  intros Hwf Hn Hl Hb. unfold block_write. run. rewrite request_one by (done || lia).
  destruct (Z.ltb_spec n (device_block_count s)) as [Hlt|Hge]; cbn [negb].
  2:{ run. split; [done|]. split; [done|]. split; [by intros; split; [done|lia]|]. done. }
  destruct (block_lba s n Hwf) as [E1 E2]; [lia|].
  change (Z.to_nat 1) with 1%nat. cbn [while_]. change SECTORS_PER_BLOCK with 8. rewrite E1. cbn [Z.ltb Z.compare].
  run. change (0 * BLOCK_SIZE) with 0. change BLOCK_SIZE with 4096. rewrite slice_whole by done.
  destruct Hwf as [Hi Hc].
  eapply wp_mono; [apply sec_write_ok; [done|lia|unfold SECTORS_PER_BLOCK; lia|exact E2|done|done]|].
  cbv beta. intros st d' (Hi' & Ht' & Hh & Hst & Hd & Hok).
  assert (wf (lset d' s)) as Hwf' by (split; [done|]; simpl; by rewrite Ht').
  assert (forall k l, k <> n -> zlength l = 4096 -> block_is s k l -> block_is (lset d' s) k l) as Hoth.
  { intros k l Hk Hkl Hkb. apply Hd; [done|]. rewrite Hkl. change (4096 / 512) with 8.
    unfold SECTORS_PER_BLOCK. lia. }
  destruct (Z.ltb_spec st 0) as [Hneg|Hpos]; run.
  - split; [done|]. split; [done|]. split; [intros H'; destruct (Hh H'); split; [done|lia]|]. split; [done|].
    split; [done|intros; lia].
  - replace (0 + 1 <? 1) with false by done. run. assert (st = 0) as Er by lia.
    split; [done|]. split; [done|]. split; [intros H'; by destruct (Hh H')|]. split; [done|].
    split; [done|]. intros _. split; [done|]. by apply Hok.
Qed.

(** block.c is a block device. *)
#[export] Program Instance block_device : BlockDevice state := {|
  bd_count := block_count;
  bd_read := fun n buf => block_read n 1 buf;
  bd_write := fun n data => block_write n 1 data;
  bd_inv := wf;
  bd_healthy := fun s => sec_healthy (disk s);
  bd_total := device_block_count;
  bd_block := block_is
|}.
Next Obligation.
  intros s [Hi ->]. pose proof (sec_total_range _ Hi). split; [apply Z.div_pos; lia|].
  apply Z.div_lt_upper_bound; lia.
Qed.
Next Obligation.
  intros s n Hwf Hn. destruct (block_lba s n Hwf Hn) as [_ Hb]. destruct Hwf as [Hi _].
  destruct (sec_data_exists (disk s) (n * 8) 8) as (l & Hl & Hbl & Hd); [done|lia..|]. by exists l.
Qed.
Next Obligation. intros s n l l' _ H1 H2 Hl Hl'. eapply sec_data_unique; [done..|]. unfold zlength in *. lia. Qed.
Next Obligation. done. Qed.
Next Obligation.
  intros n buf s Hwf Hn Hl Hb. eapply wp_mono; [by apply block_read_one|]. cbv beta.
  intros r s' (? & ? & ? & Hk & ?). split; [done|]. split; [done|]. split; [done|]. split; [|done]. auto.
Qed.
Next Obligation. intros n data s Hwf Hn Hl Hb. by apply block_write_one. Qed.

(** [block_init] sets the geometry up. *)
Lemma block_init_ok s :
  sec_inv (disk s) -> wp block_init s (fun r s' =>
    disk s' = disk s /\ (r = 0 /\ wf s' /\ 0 < device_block_count s' \/ r = - MINIOS_EIO /\ sec_total (disk s) < 8)).
Proof.
  intros Hi. unfold block_init. run. eapply wp_mono; [by apply sec_count_ok|]. cbv beta.
  intros n d' (-> & ->). rewrite lset_lget. change (lget s) with (disk s).
  destruct (Z.ltb_spec (sec_total (disk s)) SECTORS_PER_BLOCK) as [Hlt|Hge];
    unfold SECTORS_PER_BLOCK in *; run; (split; [done|]).
  - by right.
  - left. split; [done|]. split; [done|]. simpl. apply Z.div_str_pos. lia.
Qed.

End block.
Arguments state D : clear implicits.

End Block.
