(* ===== verification/Ata.v ===== *)
(** * The disk driver, kernel/drivers/ata.c

    Sectors are read and written word by word through the ports of an ATA drive.
    [AtaPorts] are the port instructions; [AtaDrive] is what the driver relies on
    of the drive behind them, in the terms of the ATA standard: a drive has a
    job, it is ready for a word of it when it has shown DRQ, and it ends a job
    with success or an error. The class and the proofs are in AtaSpec.v. *)

From S2P Require Import Prelude Monad Interfaces Bytes Cpu Block.

Module Ata.
Import Block.

Definition ATA_DATA_PORT : Z := 0x1F0.
Definition ATA_SECTOR_COUNT_PORT : Z := 0x1F2.
Definition ATA_LBA_LOW_PORT : Z := 0x1F3.
Definition ATA_LBA_MID_PORT : Z := 0x1F4.
Definition ATA_LBA_HIGH_PORT : Z := 0x1F5.
Definition ATA_DRIVE_PORT : Z := 0x1F6.
Definition ATA_STATUS_COMMAND_PORT : Z := 0x1F7.
Definition ATA_ALT_STATUS_PORT : Z := 0x3F6.
Definition ATA_COMMAND_READ_SECTORS : Z := 0x20.
Definition ATA_COMMAND_WRITE_SECTORS : Z := 0x30.
Definition ATA_COMMAND_CACHE_FLUSH : Z := 0xE7.
Definition ATA_COMMAND_IDENTIFY : Z := 0xEC.
Definition ATA_STATUS_ERROR : Z := 0x01.
Definition ATA_STATUS_DRQ : Z := 0x08.
Definition ATA_STATUS_DEVICE_FAULT : Z := 0x20.
Definition ATA_STATUS_BUSY : Z := 0x80.
Definition ATA_DRIVE_MASTER : Z := 0xE0.
Definition ATA_IDENTIFY_MASTER : Z := 0xA0.
Definition ATA_POLL_LIMIT : Z := 0x100000.
Definition ATA_WORDS_PER_SECTOR : Z := 256.
Definition ATA_MAX_COMMAND_SECTORS : Z := 255.
Definition ATA_LBA28_MAX : Z := 0x0FFFFFFF.
Definition ATA_IDENTIFY_CAPABILITIES : Z := 49.
Definition ATA_CAPABILITY_LBA : Z := 0x200.
Definition ATA_IDENTIFY_CAPACITY_LOW : Z := 60.
Definition ATA_IDENTIFY_CAPACITY_HIGH : Z := 61.
Definition EAGAIN : Z := 11.

Class AtaPorts (D : Type) := {
  at_in8 : Z -> M D Z;
  at_out8 : Z -> Z -> M D unit;
  at_in16 : Z -> M D Z;
  at_out16 : Z -> Z -> M D unit
}.

(** ** The driver *)

Section ata.
Context {D : Type} `{!AtaPorts D}.

Record state := State {
  disk : D;
  cpu : Cpu.state;
  device_sector_count : Z;
  device_ready : bool;
  operation_busy : bool
}.

Definition set_disk (d : D) (s : state) : state := State d (cpu s) (device_sector_count s) (device_ready s) (operation_busy s).
Definition set_cpu (c : Cpu.state) (s : state) : state := State (disk s) c (device_sector_count s) (device_ready s) (operation_busy s).
Definition set_device (count : Z) (ready : bool) (s : state) : state := State (disk s) (cpu s) count ready (operation_busy s).
Definition set_busy (b : bool) (s : state) : state := State (disk s) (cpu s) (device_sector_count s) (device_ready s) b.

#[export] Instance drive_lens : Lens state D.
Proof. refine {| lget := disk; lset := set_disk |}; by intros; destruct s. Defined.
#[export] Instance flag_lens : Lens state Cpu.state.
Proof. refine {| lget := cpu; lset := set_cpu |}; by intros; destruct s. Defined.

Definition ata_delay_400ns : M state unit :=
  let! _ := zoom (at_in8 ATA_ALT_STATUS_PORT) in
  let! _ := zoom (at_in8 ATA_ALT_STATUS_PORT) in
  let! _ := zoom (at_in8 ATA_ALT_STATUS_PORT) in
  let! _ := zoom (at_in8 ATA_ALT_STATUS_PORT) in
  ret tt.

Definition poll_fuel : nat := S (Z.to_nat ATA_POLL_LIMIT).

Definition ata_wait (require_drq : bool) : M state bool :=
  while_ poll_fuel (fun remaining =>
    if negb (0 <? remaining) then ret (inr false) else
    let! status := zoom (at_in8 ATA_STATUS_COMMAND_PORT) in
    if status =? 0 then ret (inr false) else
    if (Z.land status ATA_STATUS_BUSY =? 0) &&
       negb (Z.land status (Z.lor ATA_STATUS_ERROR ATA_STATUS_DEVICE_FAULT) =? 0) then ret (inr false) else
    if (Z.land status ATA_STATUS_BUSY =? 0) &&
       (negb require_drq || negb (Z.land status ATA_STATUS_DRQ =? 0)) then ret (inr true) else
    ret (inl (remaining - 1))) ATA_POLL_LIMIT.

(** The callers pass the address of a local variable, which receives the flags. *)
Definition ata_acquire : M state (option Z) :=
  let! flags := zoom Cpu.irq_save_disable in
  let! busy := gets operation_busy in
  if busy then zoom (Cpu.irq_restore flags) ;; ret None else
  modify (set_busy true) ;;
  ret (Some flags).

Definition ata_release (irq_flags : Z) : M state unit :=
  modify (set_busy false) ;;
  zoom (Cpu.irq_restore irq_flags).

(** [present]: the buffer is not the null pointer. *)
Definition ata_request_valid (s : state) (lba count : Z) (present : bool) : bool :=
  device_ready s && present && (0 <? count) &&
  (count <=? ATA_MAX_COMMAND_SECTORS) && (lba <=? ATA_LBA28_MAX) &&
  (count <=? device_sector_count s) && (lba <=? device_sector_count s -u count) &&
  (count -u 1 <=? ATA_LBA28_MAX -u lba).

Definition ata_issue_lba28 (lba count command : Z) : M state unit :=
  zoom (at_out8 ATA_DRIVE_PORT (u8 (Z.lor ATA_DRIVE_MASTER (Z.land (Z.shiftr lba 24) 0x0F)))) ;;
  ata_delay_400ns ;;
  zoom (at_out8 ATA_SECTOR_COUNT_PORT (u8 count)) ;;
  zoom (at_out8 ATA_LBA_LOW_PORT (u8 lba)) ;;
  zoom (at_out8 ATA_LBA_MID_PORT (u8 (Z.shiftr lba 8))) ;;
  zoom (at_out8 ATA_LBA_HIGH_PORT (u8 (Z.shiftr lba 16))) ;;
  zoom (at_out8 ATA_STATUS_COMMAND_PORT command) ;;
  ata_delay_400ns.

(** [identify[0..255]]. *)
Definition read_identify : M state (list Z) :=
  for_acc (Z.to_nat ATA_WORDS_PER_SECTOR) 0 [] (fun _ identify =>
    let! value := zoom (at_in16 ATA_DATA_PORT) in ret (identify ++ [value])).

Definition ata_init : M state Z :=
  modify (set_device 0 false) ;;
  modify (set_busy false) ;;
  let! acquired := ata_acquire in
  match acquired with
  | None => ret (- MINIOS_EIO)
  | Some irq_flags =>
      zoom (at_out8 ATA_DRIVE_PORT ATA_IDENTIFY_MASTER) ;;
      ata_delay_400ns ;;
      zoom (at_out8 ATA_SECTOR_COUNT_PORT 0) ;;
      zoom (at_out8 ATA_LBA_LOW_PORT 0) ;;
      zoom (at_out8 ATA_LBA_MID_PORT 0) ;;
      zoom (at_out8 ATA_LBA_HIGH_PORT 0) ;;
      zoom (at_out8 ATA_STATUS_COMMAND_PORT ATA_COMMAND_IDENTIFY) ;;
      ata_delay_400ns ;;
      let! ready := ata_wait true in
      if negb ready then ata_release irq_flags ;; ret (- MINIOS_EIO) else
      let! identify := read_identify in
      let! low := access (identify !! Z.to_nat ATA_IDENTIFY_CAPACITY_LOW) in
      let! high := access (identify !! Z.to_nat ATA_IDENTIFY_CAPACITY_HIGH) in
      let! capabilities := access (identify !! Z.to_nat ATA_IDENTIFY_CAPABILITIES) in
      let count := Z.lor low (u32 (Z.shiftl high 16)) in
      modify (set_device count false) ;;
      if (Z.land capabilities ATA_CAPABILITY_LBA =? 0) || (count =? 0) then
        ata_release irq_flags ;; ret (- MINIOS_EIO)
      else
        modify (fun s => set_device (if ATA_LBA28_MAX + 1 <? count then ATA_LBA28_MAX + 1 else count) true s) ;;
        ata_release irq_flags ;;
        ret 0
  end.

Definition ata_sector_count : M state Z := gets (fun s => if device_ready s then device_sector_count s else 0).

(** [bytes[offset] = value]. *)
Definition put_byte (buffer : list Z) (offset value : Z) : M state (list Z) :=
  if (0 <=? offset) && (offset <? zlength buffer) then ret (<[Z.to_nat offset := value]> buffer) else fault.

Definition read_word (sector word : Z) (buffer : list Z) : M state (list Z) :=
  let! value := zoom (at_in16 ATA_DATA_PORT) in
  let offset := (sector *u ATA_WORDS_PER_SECTOR +u word) *u 2 in
  let! buffer := put_byte buffer offset (u8 value) in
  put_byte buffer (offset +u 1) (u8 (Z.shiftr value 8)).

(** The loop over the sectors: 0, or the error, and the buffer. *)
Definition read_sectors (count : Z) (buffer : list Z) : M state (Z * list Z) :=
  while_ (S (Z.to_nat count)) (fun '(sector, buffer) =>
    if negb (sector <? count) then ret (inr (0, buffer)) else
    let! ready := ata_wait true in
    if negb ready then ret (inr (- MINIOS_EIO, buffer)) else
    let! buffer := for_acc (Z.to_nat ATA_WORDS_PER_SECTOR) 0 buffer (read_word sector) in
    ret (inl (sector + 1, buffer))) (0, buffer).

Definition ata_read_sectors (lba count : Z) (present : bool) (buffer : list Z) : M state (Z * list Z) :=
  let! valid := gets (fun s => ata_request_valid s lba count present) in
  if negb valid then ret (- EINVAL, buffer) else
  let! acquired := ata_acquire in
  match acquired with
  | None => ret (- EAGAIN, buffer)
  | Some irq_flags =>
      let! ready := ata_wait false in
      if negb ready then ata_release irq_flags ;; ret (- MINIOS_EIO, buffer) else
      ata_issue_lba28 lba count ATA_COMMAND_READ_SECTORS ;;
      let! r := read_sectors count buffer in
      ata_release irq_flags ;;
      ret r
  end.

Definition write_word (buffer : list Z) (sector word : Z) : M state unit :=
  let offset := (sector *u ATA_WORDS_PER_SECTOR +u word) *u 2 in
  let! low := access (buffer !! Z.to_nat offset) in
  let! high := access (buffer !! Z.to_nat (offset +u 1)) in
  zoom (at_out16 ATA_DATA_PORT (Z.lor low (u16 (Z.shiftl high 8)))).

Definition write_sectors (count : Z) (buffer : list Z) : M state Z :=
  while_ (S (Z.to_nat count)) (fun sector =>
    if negb (sector <? count) then ret (inr 0) else
    let! ready := ata_wait true in
    if negb ready then ret (inr (- MINIOS_EIO)) else
    for_range (Z.to_nat ATA_WORDS_PER_SECTOR) 0 (write_word buffer sector) ;;
    ret (inl (sector + 1))) 0.

Definition ata_write_sectors (lba count : Z) (present : bool) (buffer : list Z) : M state Z :=
  let! valid := gets (fun s => ata_request_valid s lba count present) in
  if negb valid then ret (- EINVAL) else
  let! acquired := ata_acquire in
  match acquired with
  | None => ret (- EAGAIN)
  | Some irq_flags =>
      let! ready := ata_wait false in
      if negb ready then ata_release irq_flags ;; ret (- MINIOS_EIO) else
      ata_issue_lba28 lba count ATA_COMMAND_WRITE_SECTORS ;;
      let! r := write_sectors count buffer in
      if negb (r =? 0) then ata_release irq_flags ;; ret r else
      let! ready := ata_wait false in
      if negb ready then ata_release irq_flags ;; ret (- MINIOS_EIO) else
      zoom (at_out8 ATA_STATUS_COMMAND_PORT ATA_COMMAND_CACHE_FLUSH) ;;
      ata_delay_400ns ;;
      let! ready := ata_wait false in
      if negb ready then ata_release irq_flags ;; ret (- MINIOS_EIO) else
      ata_release irq_flags ;;
      ret 0
  end.

End ata.
Arguments state D : clear implicits.

End Ata.
