(* ===== verification/AtaSpec.v ===== *)
(** * The disk driver transfers sectors

    [AtaDrive] is the protocol of a drive; on such a drive the routines of
    ata.c read and write exactly the sectors asked for, or report an error, and
    so they are the [Sectors] the block layer is built on. *)

From S2P Require Import Prelude Monad Interfaces Bytes Cpu Block Ata.

Module AtaSpec.
Import Block Ata.

(** ** What a drive does *)

(** The command in progress: the words still to be read, or the first sector,
    the number of sectors and the words received so far. *)
Inductive transfer := Idle | Incoming (ws : list Z) | Outgoing (lba n : Z) (ws : list Z).

Record registers := Registers { r_drive : Z; r_count : Z; r_low : Z; r_mid : Z; r_high : Z }.

(** [drq]: the drive has asked for the words of the sector that is now being
    transferred. [polls]: how often in a row the status was read without an
    answer. *)
Record view := View { regs : registers; job : transfer; drq : bool; polls : Z }.

Definition addressed (r : registers) : Z :=
  (r_drive r mod 16) * 16777216 + r_high r * 65536 + r_mid r * 256 + r_low r.

Definition write_register (port v : Z) (r : registers) : registers :=
  let '(Registers drive count low mid high) := r in
  if port =? ATA_DRIVE_PORT then Registers v count low mid high else
  if port =? ATA_SECTOR_COUNT_PORT then Registers drive v low mid high else
  if port =? ATA_LBA_LOW_PORT then Registers drive count v mid high else
  if port =? ATA_LBA_MID_PORT then Registers drive count low v high else
  if port =? ATA_LBA_HIGH_PORT then Registers drive count low mid v else r.

Definition register_port (port : Z) : Prop :=
  port = ATA_DRIVE_PORT \/ port = ATA_SECTOR_COUNT_PORT \/ port = ATA_LBA_LOW_PORT \/ port = ATA_LBA_MID_PORT \/ port = ATA_LBA_HIGH_PORT.

(** A status: still busy; ended with success; asking for data. *)
Definition busy (v : Z) : bool := negb (v =? 0) && negb (Z.land v ATA_STATUS_BUSY =? 0).
Definition accepted (v : Z) : bool :=
  negb (v =? 0) && (Z.land v ATA_STATUS_BUSY =? 0) && (Z.land v (Z.lor ATA_STATUS_ERROR ATA_STATUS_DEVICE_FAULT) =? 0).
Definition asks (v : Z) : bool := negb (Z.land v ATA_STATUS_DRQ =? 0).

(** The sectors a status can find changed. *)
Definition reach (w : view) (k : Z) : Prop :=
  polls w < ATA_POLL_LIMIT /\ match job w with Outgoing lba n _ => lba <= k < lba + n | _ => False end.

(** No word is left to transfer. *)
Definition complete (j : transfer) : bool :=
  match j with Idle => true | Incoming _ => false | Outgoing _ n ws => zlength ws =? n * 256 end.

(** What a status tells about the job. A drive that has left [ATA_POLL_LIMIT]
    polls in a row without an answer has gone and does not come back. An error
    ends the job. *)
Definition answered (v : Z) (w w' : view) : Prop :=
  regs w' = regs w /\
  if ATA_POLL_LIMIT <=? polls w then ATA_POLL_LIMIT <= polls w' /\ accepted v = false
  else if accepted v then
    if complete (job w) then job w' = Idle /\ polls w' = 0
    else job w' = job w /\ if asks v then drq w' = true /\ polls w' = 0 else drq w' = drq w /\ polls w' = polls w + 1
  else if busy v then job w' = job w /\ drq w' = drq w /\ polls w' = polls w + 1
  else job w' = Idle /\ 0 <= polls w'.

Definition incoming (ws : list Z) : transfer := match ws with [] => Idle | _ => Incoming ws end.

Class AtaDrive (D : Type) `{!AtaPorts D} := {
  dv_inv : D -> Prop;
  dv_healthy : D -> Prop;             (** the drive answers in time and without errors *)
  dv_view : D -> view;
  dv_total : D -> Z;
  dv_sector : D -> Z -> list Z;       (** the words a read would return *)
  dv_identify : D -> list Z;

  dv_total_range : forall d, dv_inv d -> 0 <= dv_total d < 4294967296;
  dv_polls_range : forall d, dv_inv d -> 0 <= polls (dv_view d);
  dv_sector_words : forall d k, dv_inv d -> 0 <= k < dv_total d ->
    zlength (dv_sector d k) = 256 /\ Forall (fun w => 0 <= w < 65536) (dv_sector d k);
  (** words 60 and 61: the number of addressable sectors *)
  dv_identify_words : forall d, dv_inv d -> zlength (dv_identify d) = 256 /\ Forall (fun w => 0 <= w < 65536) (dv_identify d) /\
    byte_at (dv_identify d) 60 + 65536 * byte_at (dv_identify d) 61 <= dv_total d;
  dv_healthy_polls : forall d, dv_inv d -> dv_healthy d -> polls (dv_view d) < ATA_POLL_LIMIT;

  dv_alternate_ok : forall d, dv_inv d -> wp (at_in8 ATA_ALT_STATUS_PORT) d (fun v d' =>
    dv_inv d' /\ dv_total d' = dv_total d /\ dv_identify d' = dv_identify d /\ (dv_healthy d -> dv_healthy d') /\
    (forall k, dv_sector d' k = dv_sector d k) /\ dv_view d' = dv_view d);
  dv_status_ok : forall d, dv_inv d -> wp (at_in8 ATA_STATUS_COMMAND_PORT) d (fun v d' =>
    dv_inv d' /\ dv_total d' = dv_total d /\ dv_identify d' = dv_identify d /\
    (dv_healthy d -> dv_healthy d' /\ accepted v || busy v = true) /\
    (forall k, ~ reach (dv_view d) k -> dv_sector d' k = dv_sector d k) /\
    answered v (dv_view d) (dv_view d') /\
    (forall lba n ws, job (dv_view d) = Outgoing lba n ws -> zlength ws = n * 256 -> accepted v = true ->
      forall i, 0 <= i < n -> dv_sector d' (lba + i) = slice ws (i * 256) 256));
  dv_register_ok : forall port v d, dv_inv d -> register_port port -> 0 <= v < 256 -> wp (at_out8 port v) d (fun _ d' =>
    dv_inv d' /\ dv_total d' = dv_total d /\ dv_identify d' = dv_identify d /\ (dv_healthy d -> dv_healthy d') /\
    (forall k, dv_sector d' k = dv_sector d k) /\
    dv_view d' = View (write_register port v (regs (dv_view d))) (job (dv_view d)) (drq (dv_view d)) (polls (dv_view d)));
  (** a command is given to a drive that has answered and has no job *)
  dv_command_ok : forall c d, dv_inv d -> job (dv_view d) = Idle -> polls (dv_view d) = 0 ->
    let r := regs (dv_view d) in
    (c = ATA_COMMAND_READ_SECTORS \/ c = ATA_COMMAND_WRITE_SECTORS -> 1 <= r_count r <= 255 /\ addressed r + r_count r <= dv_total d) ->
    c = ATA_COMMAND_READ_SECTORS \/ c = ATA_COMMAND_WRITE_SECTORS \/ c = ATA_COMMAND_CACHE_FLUSH \/ c = ATA_COMMAND_IDENTIFY ->
    wp (at_out8 ATA_STATUS_COMMAND_PORT c) d (fun _ d' =>
    dv_inv d' /\ dv_total d' = dv_total d /\ dv_identify d' = dv_identify d /\ (dv_healthy d -> dv_healthy d') /\
    (forall k, dv_sector d' k = dv_sector d k) /\
    dv_view d' = View r
      (if c =? ATA_COMMAND_READ_SECTORS then Incoming (concat (map (dv_sector d) (seqZ (addressed r) (r_count r))))
       else if c =? ATA_COMMAND_WRITE_SECTORS then Outgoing (addressed r) (r_count r) []
       else if c =? ATA_COMMAND_IDENTIFY then Incoming (dv_identify d) else Idle) false 0);
  dv_in16_ok : forall d w ws, dv_inv d -> drq (dv_view d) = true -> job (dv_view d) = Incoming (w :: ws) ->
    wp (at_in16 ATA_DATA_PORT) d (fun v d' =>
    dv_inv d' /\ dv_total d' = dv_total d /\ dv_identify d' = dv_identify d /\ (dv_healthy d -> dv_healthy d') /\
    (forall k, dv_sector d' k = dv_sector d k) /\ v = w /\
    dv_view d' = View (regs (dv_view d)) (incoming ws) (negb (zlength ws mod 256 =? 0)) (polls (dv_view d)));
  dv_out16_ok : forall d v lba n ws, dv_inv d -> drq (dv_view d) = true -> job (dv_view d) = Outgoing lba n ws ->
    zlength ws < n * 256 -> 0 <= v < 65536 ->
    wp (at_out16 ATA_DATA_PORT v) d (fun _ d' =>
    dv_inv d' /\ dv_total d' = dv_total d /\ dv_identify d' = dv_identify d /\ (dv_healthy d -> dv_healthy d') /\
    (forall k, ~ lba <= k < lba + n -> dv_sector d' k = dv_sector d k) /\
    dv_view d' = View (regs (dv_view d)) (Outgoing lba n (ws ++ [v])) (negb ((zlength ws + 1) mod 256 =? 0)) (polls (dv_view d)))
}.

Section spec.
Context {D : Type} `{!AtaPorts D} `{!AtaDrive D}.
Implicit Types (s : state D) (d : D).

(** [d'] is [d] after steps that change no sector outside [P]. *)
Record kept (P : Z -> Prop) d d' : Prop := {
  k_inv : dv_inv d';
  k_total : dv_total d' = dv_total d;
  k_identify : dv_identify d' = dv_identify d;
  k_healthy : dv_healthy d -> dv_healthy d';
  k_sectors : forall k, ~ P k -> dv_sector d' k = dv_sector d k
}.

Definition none (k : Z) : Prop := False.

Lemma drive_kept_refl P d : dv_inv d -> kept P d d.
Proof. by split. Qed.

Lemma drive_kept_trans P d1 d2 d3 : kept P d1 d2 -> kept P d2 d3 -> kept P d1 d3.
Proof. intros [A1 A2 A3 A4 A5] [B1 B2 B3 B4 B5]. split; [done|congruence|congruence|auto|]. intros k Hk. rewrite B5, A5; done. Qed.

Lemma kept_weaken (P Q : Z -> Prop) d d' : kept P d d' -> (forall k, P k -> Q k) -> kept Q d d'.
Proof. intros [A1 A2 A3 A4 A5] H. split; auto. Qed.

Lemma kept_none P d d' : kept none d d' -> kept P d d'.
Proof. intros H. by eapply kept_weaken. Qed.

Definition gone d : Prop := ATA_POLL_LIMIT <= polls (dv_view d).

(** ** Waiting *)

(** [ata_wait] on a job [j]: the answer it waited for, or the end of the job. *)
Lemma ata_wait_ok require s :
  dv_inv (disk s) -> gone (disk s) \/ (complete (job (dv_view (disk s))) = negb require) ->
  wp (ata_wait require) s (fun ok s' => exists d', s' = set_disk d' s /\ kept (reach (dv_view (disk s))) (disk s) d' /\
    if ok : bool then ~ gone (disk s) /\ regs (dv_view d') = regs (dv_view (disk s)) /\ polls (dv_view d') = 0 /\
      (if require then job (dv_view d') = job (dv_view (disk s)) /\ drq (dv_view d') = true else job (dv_view d') = Idle /\
        forall lba n ws, job (dv_view (disk s)) = Outgoing lba n ws -> forall i, 0 <= i < n -> dv_sector d' (lba + i) = slice ws (i * 256) 256)
    else ~ dv_healthy (disk s) /\ (gone d' \/ job (dv_view d') = Idle)).
Proof.
  intros Hi Hj. set (d0 := disk s) in *. unfold ata_wait.
  apply (wp_while (fun r s1 => exists d1, s1 = set_disk d1 s /\ kept (reach (dv_view d0)) d0 d1 /\ 0 <= r <= ATA_POLL_LIMIT /\
    (gone d1 \/ complete (job (dv_view d0)) = negb require /\ job (dv_view d1) = job (dv_view d0) /\ regs (dv_view d1) = regs (dv_view d0) /\
      ~ gone d0 /\ ATA_POLL_LIMIT - r <= polls (dv_view d1)))
    (fun r _ => Z.to_nat r)).
  - exists d0. split; [by destruct s|]. split; [by apply drive_kept_refl|]. split; [unfold ATA_POLL_LIMIT; lia|].
    destruct (decide (ATA_POLL_LIMIT <= polls (dv_view d0))) as [|Hg]; [by left|]. destruct Hj as [|Hj]; [by left|right].
    pose proof (dv_polls_range d0 Hi). split; [done|]. split; [done|]. split; [done|]. split; [done|]. lia.
  - unfold poll_fuel. lia.
  - intros r s1 (d1 & -> & Hk & Hr & Hs). destruct (Z.ltb_spec 0 r) as [Hp|Hp]; cbn [negb].
    2:{ apply wp_ret. exists d1. split; [done|]. split; [done|]. assert (gone d1) as Hg.
        { destruct Hs as [|(_ & _ & _ & _ & Hs)]; [done|]. unfold gone. lia. }
        split; [|by left]. intros Hh. pose proof (dv_healthy_polls d1 (k_inv _ _ _ Hk) (k_healthy _ _ _ Hk Hh)). unfold gone in Hg. lia. }
    apply wp_bind, wp_zoom. eapply wp_mono; [apply (dv_status_ok d1), Hk|]. cbv beta. intros v d2 (I2 & T2 & N2 & H2 & S2 & A2 & W2).
    assert (kept (reach (dv_view d0)) d0 d2) as Hk2.
    { apply (drive_kept_trans _ _ d1); [done|]. split; [done|done|done|by apply H2|]. intros k Hn. apply S2. intros [Hp1 Hr1]. apply Hn.
      destruct Hs as [Hg|(_ & Ej & _ & Hg & _)]; [unfold gone in Hg; lia|]. split; [unfold gone in Hg; lia|]. by rewrite <-Ej. }
    assert (dv_healthy d0 -> accepted v || busy v = true) as Hh by (intros Hh; by apply H2, Hk).
    change (lset d2 (set_disk d1 s)) with (set_disk d2 s).
    destruct A2 as [Er A2]. fold (gone d1) in *.
    destruct (Z.eqb_spec v 0) as [->|Hv].
    { apply wp_ret. exists d2. split; [done|]. split; [done|]. split; [intros Hd; by specialize (Hh Hd)|]. revert A2.
      destruct (Z.leb_spec ATA_POLL_LIMIT (polls (dv_view d1))); [intros [? _]; by left|]. cbn. intros [? _]. by right. }
    unfold accepted, busy, asks in *. rewrite (proj2 (Z.eqb_neq v 0) Hv) in *. cbn [negb andb] in *.
    destruct (Z.leb_spec ATA_POLL_LIMIT (polls (dv_view d1))) as [Hg|Hg].
    { destruct A2 as [Hg' Hna]. destruct (Z.land v ATA_STATUS_BUSY =? 0) eqn:Eb; cbn [andb orb negb] in *.
      - rewrite Hna. cbn [negb]. apply wp_ret. exists d2. split; [done|]. split; [done|]. split; [|by left].
        intros Hd. specialize (Hh Hd). by rewrite Hna in Hh.
      - apply wp_ret. split; [|lia]. exists d2. split; [done|]. split; [done|]. split; [lia|by left]. }
    destruct Hs as [Hs|(Ec & Ej & Ereg & Hg0 & Hpoll)]; [unfold gone in Hs; lia|]. rewrite Ej, Ec in A2.
    destruct (Z.land v ATA_STATUS_BUSY =? 0) eqn:Eb; cbn [andb orb negb] in *.
    2:{ apply wp_ret. split; [|lia]. exists d2. split; [done|]. split; [done|]. split; [lia|]. right. destruct A2 as (Ej2 & _ & Ep).
        split; [done|]. split; [done|]. split; [congruence|]. split; [done|lia]. }
    destruct (Z.land v (Z.lor ATA_STATUS_ERROR ATA_STATUS_DEVICE_FAULT) =? 0) eqn:Ee; cbn [negb] in *.
    2:{ apply wp_ret. exists d2. split; [done|]. split; [done|]. split; [intros Hd; by specialize (Hh Hd)|]. right. apply A2. }
    destruct require; cbn [negb orb] in *.
    + destruct A2 as [Ej2 A2]. destruct (Z.land v ATA_STATUS_DRQ =? 0); cbn [negb] in *; apply wp_ret.
      * split; [|lia]. exists d2. split; [done|]. split; [done|]. split; [lia|]. right. split; [done|]. split; [done|]. split; [congruence|]. split; [done|lia].
      * exists d2. split; [done|]. split; [done|]. split; [done|]. split; [congruence|]. split; [apply A2|]. split; [done|apply A2].
    + apply wp_ret. exists d2. split; [done|]. split; [done|]. split; [done|]. split; [congruence|]. split; [apply A2|]. split; [apply A2|].
      intros lba n ws Ew i Hn. rewrite Ew in Ec. cbn in Ec. apply (W2 lba n ws); [congruence|by apply Z.eqb_eq|done|done].
Qed.

(** ** Commands *)

Lemma ata_delay_ok s : dv_inv (disk s) ->
  wp ata_delay_400ns s (fun _ s' => exists d', s' = set_disk d' s /\ kept none (disk s) d' /\ dv_view d' = dv_view (disk s)).
Proof.
  intros Hi. unfold ata_delay_400ns.
  assert (forall d1 (Q : Z -> state D -> Prop), kept none (disk s) d1 -> dv_view d1 = dv_view (disk s) ->
    (forall v d2, kept none (disk s) d2 -> dv_view d2 = dv_view (disk s) -> Q v (set_disk d2 s)) ->
    wp (zoom (at_in8 ATA_ALT_STATUS_PORT)) (set_disk d1 s) Q) as Hstep.
  { intros d1 Q Hk Ev HQ. apply wp_zoom. eapply wp_mono; [apply (dv_alternate_ok d1), Hk|]. cbv beta.
    intros v d2 (I2 & T2 & N2 & H2 & S2 & V2). change (lset d2 (set_disk d1 s)) with (set_disk d2 s). apply HQ; [|congruence].
    apply (drive_kept_trans _ _ d1); [done|by split]. }
  assert (s = set_disk (disk s) s) as -> by (by destruct s). change (disk (set_disk (disk s) s)) with (disk s).
  apply wp_bind, Hstep; [by apply drive_kept_refl|done|]. intros _ d1 K1 V1.
  apply wp_bind, Hstep; [done|done|]. intros _ d2 K2 V2.
  apply wp_bind, Hstep; [done|done|]. intros _ d3 K3 V3.
  apply wp_bind, Hstep; [done|done|]. intros _ d4 K4 V4. apply wp_ret. by exists d4.
Qed.

Lemma register_step port v d0 s (Q : unit -> state D -> Prop) : register_port port -> 0 <= v < 256 -> kept none d0 (disk s) ->
  (forall d', kept none d0 d' ->
    dv_view d' = View (write_register port v (regs (dv_view (disk s)))) (job (dv_view (disk s))) (drq (dv_view (disk s))) (polls (dv_view (disk s))) ->
    Q tt (set_disk d' s)) ->
  wp (zoom (at_out8 port v)) s Q.
Proof.
  intros Hp Hv Hk HQ. apply wp_zoom. eapply wp_mono; [apply (dv_register_ok port v (disk s)); [apply Hk|done|done]|]. cbv beta.
  intros [] d' (I2 & T2 & N2 & H2 & S2 & V2). apply HQ; [|done]. apply (drive_kept_trans _ _ (disk s)); [done|by split].
Qed.

Lemma delay_step d0 s (Q : unit -> state D -> Prop) : kept none d0 (disk s) ->
  (forall d', kept none d0 d' -> dv_view d' = dv_view (disk s) -> Q tt (set_disk d' s)) ->
  wp ata_delay_400ns s Q.
Proof.
  intros Hk HQ. eapply wp_mono; [apply ata_delay_ok, Hk|]. cbv beta. intros [] s' (d' & -> & Hk' & Hv).
  apply HQ; [|done]. by apply (drive_kept_trans _ _ (disk s)).
Qed.

Lemma set_disk_twice d1 d2 s : set_disk d2 (set_disk d1 s) = set_disk d2 s.
Proof. done. Qed.

Lemma drive_head h : 0 <= h < 16 -> 0 <= u8 (Z.lor ATA_DRIVE_MASTER h) < 256 /\ u8 (Z.lor ATA_DRIVE_MASTER h) mod 16 = h.
Proof.
  intros Hh. split; [apply u8_range|]. apply Z.eqb_eq.
  by apply (seqZ_forallb (fun h => u8 (Z.lor ATA_DRIVE_MASTER h) mod 16 =? h) 16).
Qed.

Lemma address_split lba : 0 <= lba < 0x10000000 ->
  Z.land (Z.shiftr lba 24) 0x0F = lba / 16777216 /\ 0 <= lba / 16777216 < 16 /\
  lba / 16777216 * 16777216 + u8 (Z.shiftr lba 16) * 65536 + u8 (Z.shiftr lba 8) * 256 + u8 lba = lba.
Proof.
  intros Hl. rewrite !Z.shiftr_div_pow2 by lia. unfold u8. change (2 ^ 24) with 16777216. change (2 ^ 16) with 65536. change (2 ^ 8) with 256.
  assert (0 <= lba / 16777216 < 16) as Hb by (split; [apply Z.div_pos; lia|apply Z.div_lt_upper_bound; lia]).
  split; [change 0x0F with (Z.ones 4); rewrite Z.land_ones by lia; apply Z.mod_small; lia|]. split; [done|].
  pose proof (Z.div_mod lba 256). pose proof (Z.div_mod (lba / 256) 256). pose proof (Z.div_mod (lba / 65536) 256).
  rewrite Z.div_div in * by lia. change (256 * 256) with 65536 in *. change (65536 * 256) with 16777216 in *. lia.
Qed.

(** The registers hold the request, and the drive has the job. *)
Lemma ata_issue_ok lba n c s : dv_inv (disk s) -> job (dv_view (disk s)) = Idle -> polls (dv_view (disk s)) = 0 ->
  0 <= lba < 0x10000000 -> 1 <= n <= 255 -> lba + n <= dv_total (disk s) ->
  c = ATA_COMMAND_READ_SECTORS \/ c = ATA_COMMAND_WRITE_SECTORS ->
  wp (ata_issue_lba28 lba n c) s (fun _ s' => exists d', s' = set_disk d' s /\ kept none (disk s) d' /\ polls (dv_view d') = 0 /\
    job (dv_view d') = if c =? ATA_COMMAND_READ_SECTORS then Incoming (concat (map (dv_sector (disk s)) (seqZ lba n))) else Outgoing lba n []).
Proof.
  intros Hi Hj Hp Hlba Hn Htot Hc. unfold ata_issue_lba28. set (d0 := disk s) in *.
  destruct (address_split lba Hlba) as (-> & Hh & Haddr). destruct (drive_head _ Hh) as [Hd1 Hd2].
  assert (0 <= u8 n < 256) as Hu by apply u8_range.
  apply wp_bind, (register_step _ _ d0); [by left|done|by apply drive_kept_refl|]. intros d1 K1 V1.
  apply wp_bind, (delay_step d0); [done|]. cbn [disk set_disk]. intros d2 K2 V2. rewrite set_disk_twice.
  apply wp_bind, (register_step _ _ d0); [by right; left|done|done|]. cbn [disk set_disk]. intros d3 K3 V3. rewrite set_disk_twice.
  apply wp_bind, (register_step _ _ d0); [by right; right; left|apply u8_range|done|]. cbn [disk set_disk]. intros d4 K4 V4. rewrite set_disk_twice.
  apply wp_bind, (register_step _ _ d0); [by right; right; right; left|apply u8_range|done|]. cbn [disk set_disk]. intros d5 K5 V5. rewrite set_disk_twice.
  apply wp_bind, (register_step _ _ d0); [by right; right; right; right|apply u8_range|done|]. cbn [disk set_disk]. intros d6 K6 V6. rewrite set_disk_twice.
  rewrite V5, V4, V3, V2, V1 in V6. cbn [regs job drq polls] in V6.
  destruct (regs (dv_view (disk s))) as [x1 x2 x3 x4 x5] eqn:Er. cbn in V6. fold d0 in V6. rewrite Hj, Hp in V6.
  set (r := Registers _ _ _ _ _) in V6. assert (addressed r = lba) as Ea by (unfold addressed; cbn; rewrite Hd2; exact Haddr).
  assert (r_count r = n) as En by (cbn; apply u8_id; lia).
  apply wp_bind, wp_zoom. cbn [disk set_disk]. eapply wp_mono; [apply (dv_command_ok c d6); rewrite ?V6; cbn [regs job polls]|].
  { apply K6. } { done. } { done. } { intros _. rewrite Ea, En, (k_total _ _ _ K6). done. } { tauto. }
  cbv beta. intros [] d7 (I7 & T7 & N7 & H7 & S7 & V7). rewrite V6 in V7. cbn [regs] in V7. rewrite Ea, En in V7.
  assert (kept none d0 d7) as K7 by (apply (drive_kept_trans _ _ d6); [done|by split]).
  apply (delay_step d0); [done|]. intros d8 K8 V8. exists d8. split; [done|]. split; [done|]. change (lset d7 _) with (set_disk d7 s) in V8. cbn [disk set_disk] in V8.
  rewrite V8, V7. cbn [polls job]. split; [done|]. destruct Hc as [-> | ->]; [|done]. cbn. f_equal. f_equal. apply map_ext_in. intros k _. apply (k_sectors _ _ _ K6). by intros [].
Qed.

(** ** Words and bytes *)

Definition words_bytes (ws : list Z) : list Z := flat_map le16 ws.

Lemma words_bytes_app l1 l2 : words_bytes (l1 ++ l2) = words_bytes l1 ++ words_bytes l2.
Proof. apply flat_map_app. Qed.

Lemma zlength_words_bytes ws : zlength (words_bytes ws) = 2 * zlength ws.
Proof. unfold zlength. induction ws as [|w ws IH]; [done|]. cbn [words_bytes flat_map]. rewrite length_app. cbn [length le16]. unfold words_bytes in IH. lia. Qed.

Lemma bytes_words_bytes ws : bytes (words_bytes ws).
Proof. induction ws as [|w ws IH]; [constructor|]. apply Forall_app. split; [apply bytes_le16|done]. Qed.

Lemma zlength_app {A} (l1 l2 : list A) : zlength (l1 ++ l2) = zlength l1 + zlength l2.
Proof. unfold zlength. rewrite length_app. lia. Qed.

Lemma splice_nothing b o : splice b o [] = b.
Proof. unfold splice. cbn [length app]. rewrite Nat.add_0_r. apply take_drop. Qed.

Lemma splice_snoc b o l x : 0 <= o -> o + zlength l < zlength b ->
  <[Z.to_nat (o + zlength l) := x]> (splice b o l) = splice b o (l ++ [x]).
Proof.
  intros Ho Hl. unfold zlength in *. assert (Z.to_nat (o + Z.of_nat (length l)) = Z.to_nat o + length l)%nat as -> by lia. unfold splice.
  destruct (drop (Z.to_nat o + length l) b) as [|c r] eqn:Ed.
  { assert (length (drop (Z.to_nat o + length l) b) = 0%nat) as H by (by rewrite Ed). rewrite length_drop in H. lia. }
  rewrite insert_app_r_alt by (rewrite length_take; lia). rewrite length_take.
  replace (Z.to_nat o + length l - Z.to_nat o `min` length b)%nat with (length l + 0)%nat by lia. rewrite insert_app_r. cbn [list_insert].
  f_equal. rewrite <-app_assoc. cbn [app]. f_equal. rewrite length_app. cbn [length].
  replace (Z.to_nat o + (length l + 1))%nat with ((Z.to_nat o + length l) + 1)%nat by lia. rewrite <-drop_drop, Ed. done.
Qed.

Lemma put_byte_ok b o l x s (Q : list Z -> state D -> Prop) : 0 <= o -> o + zlength l < zlength b ->
  Q (splice b o (l ++ [x])) s -> wp (put_byte (splice b o l) (o + zlength l) x) s Q.
Proof.
  intros Ho Hl HQ. unfold put_byte. assert (zlength (splice b o l) = zlength b) as E by (unfold zlength; by rewrite length_splice by lia).
  rewrite E. rewrite (proj2 (Z.leb_le 0 _)), (proj2 (Z.ltb_lt _ _)) by (unfold zlength in *; lia). cbn [andb]. apply wp_ret.
  by rewrite splice_snoc.
Qed.

Lemma incoming_cons w ws : incoming (w :: ws) = Incoming (w :: ws).
Proof. done. Qed.

(** One word of the current sector. *)
Lemma read_word_ok sector i b w ws l d0 s : 0 <= sector < 255 -> 0 <= i < 256 -> zlength l = 2 * i ->
  (sector + 1) * 512 <= zlength b -> 0 <= w < 65536 ->
  kept none d0 (disk s) -> drq (dv_view (disk s)) = true -> job (dv_view (disk s)) = Incoming (w :: ws) ->
  wp (read_word sector i (splice b (sector * 512) l)) s (fun b' s' => exists d', s' = set_disk d' s /\ kept none d0 d' /\
    dv_view d' = View (regs (dv_view (disk s))) (incoming ws) (negb (zlength ws mod 256 =? 0)) (polls (dv_view (disk s))) /\
    b' = splice b (sector * 512) (l ++ le16 w)).
Proof.
  intros Hs Hi Hl Hb Hw Hk Hdrq Hj. unfold read_word. apply wp_bind, wp_zoom.
  eapply wp_mono; [apply (dv_in16_ok (disk s) w ws); [apply Hk|done|done]|]. cbv beta. intros v d' (I & T & N & H & S & -> & V).
  unfold ATA_WORDS_PER_SECTOR. rewrite (u32_id (sector * 256)), (u32_id (sector * 256 + i)), (u32_id ((sector * 256 + i) * 2)) by lia.
  rewrite (u32_id ((sector * 256 + i) * 2 + 1)) by lia.
  replace ((sector * 256 + i) * 2) with (sector * 512 + zlength l) by lia.
  apply wp_bind, put_byte_ok; [lia|lia|]. replace (sector * 512 + zlength l + 1) with (sector * 512 + zlength (l ++ [u8 w])) by (rewrite zlength_app; change (zlength [u8 w]) with 1; lia).
  apply put_byte_ok; [lia|rewrite zlength_app; change (zlength [u8 w]) with 1; lia|]. exists d'. split; [done|].
  split; [apply (drive_kept_trans _ _ (disk s)); [done|by split]|]. split; [done|]. by rewrite <-app_assoc.
Qed.

Lemma read_one_sector sector b W rest d0 s : 0 <= sector < 255 -> zlength W = 256 -> Forall (fun w => 0 <= w < 65536) W ->
  zlength rest mod 256 = 0 -> (sector + 1) * 512 <= zlength b ->
  kept none d0 (disk s) -> drq (dv_view (disk s)) = true -> job (dv_view (disk s)) = Incoming (W ++ rest) ->
  wp (for_acc (Z.to_nat ATA_WORDS_PER_SECTOR) 0 b (read_word sector)) s (fun b' s' => exists d', s' = set_disk d' s /\ kept none d0 d' /\
    polls (dv_view d') = polls (dv_view (disk s)) /\ job (dv_view d') = incoming rest /\ b' = splice b (sector * 512) (words_bytes W)).
Proof.
  intros Hs HW HF Hrest Hb Hk Hdrq Hj.
  apply (wp_for_acc (fun i b' s' => exists d', s' = set_disk d' s /\ kept none d0 d' /\ polls (dv_view d') = polls (dv_view (disk s)) /\
    job (dv_view d') = incoming (drop (Z.to_nat i) W ++ rest) /\ (i < 256 -> drq (dv_view d') = true) /\
    b' = splice b (sector * 512) (words_bytes (take (Z.to_nat i) W)))).
  - exists (disk s). split; [by destruct s|]. split; [done|]. split; [done|]. cbn [drop take Z.to_nat]. split; [|split; [done|]].
    + rewrite Hj. destruct W; done.
    + by rewrite splice_nothing.
  - intros i b' s' Hi (d' & -> & Hk' & Hp & Hj' & Hq & ->). change (0 + Z.of_nat (Z.to_nat ATA_WORDS_PER_SECTOR)) with 256 in Hi.
    destruct (lookup_lt_is_Some_2 W (Z.to_nat i)) as [w Hw]; [unfold zlength in HW; lia|].
    rewrite (drop_S W w _ Hw) in Hj'. cbn [app] in Hj'. rewrite incoming_cons in Hj'.
    assert (0 <= w < 65536) as Hwr by (by eapply (Forall_lookup_1 _ _ _ _ HF)).
    eapply wp_mono; [apply (read_word_ok sector i b w (drop (S (Z.to_nat i)) W ++ rest) _ d0); try done|].
    + rewrite zlength_words_bytes. unfold zlength in *. rewrite length_take. lia.
    + apply Hq. lia.
    + cbv beta. intros b2 s2 (d2 & -> & K2 & V2 & ->). rewrite set_disk_twice. cbn [disk set_disk] in V2. exists d2. split; [done|]. split; [done|].
      rewrite V2. cbn [polls job drq]. split; [done|]. replace (Z.to_nat (i + 1)) with (S (Z.to_nat i)) by lia. split; [done|]. split.
      * intros Hlt. apply negb_true_iff, Z.eqb_neq. rewrite zlength_app. assert (zlength (drop (S (Z.to_nat i)) W) = 255 - i) as -> by (unfold zlength in *; rewrite length_drop; lia).
        rewrite Z.add_mod, Hrest, Z.add_0_r, Z.mod_mod by lia. rewrite Z.mod_small; lia.
      * rewrite (take_S_r W _ w Hw), words_bytes_app. cbn [words_bytes flat_map]. by rewrite app_nil_r.
  - change (0 + Z.of_nat (Z.to_nat ATA_WORDS_PER_SECTOR)) with 256. intros b' s' (d' & -> & Hk' & Hp & Hj' & _ & ->). exists d'.
    split; [done|]. split; [done|]. split; [done|]. rewrite drop_ge in Hj' by (unfold zlength in HW; lia). rewrite take_ge by (unfold zlength in HW; lia). done.
Qed.

(** ** Reading *)

(** The bytes of [n] sectors from [lba] on. *)
Definition sectors d (lba n : Z) : list Z := words_bytes (concat (map (dv_sector d) (seqZ lba n))).

Lemma concat_sectors d lba n : dv_inv d -> 0 <= lba -> 0 <= n -> lba + n <= dv_total d ->
  zlength (concat (map (dv_sector d) (seqZ lba n))) = n * 256.
Proof.
  intros Hi Hl Hn. revert lba Hl. pattern n. apply natlike_ind; [done| |done]. intros m Hm IH lba Hl Ht.
  rewrite seqZ_cons by lia. cbn [map concat]. rewrite zlength_app, Z.pred_succ.
  rewrite IH by lia. destruct (dv_sector_words d lba Hi) as [-> _]; lia.
Qed.

Lemma zlength_sectors d lba n : dv_inv d -> 0 <= lba -> 0 <= n -> lba + n <= dv_total d -> zlength (sectors d lba n) = n * 512.
Proof. intros. unfold sectors. rewrite zlength_words_bytes, concat_sectors by done. lia. Qed.

Lemma sectors_snoc d lba n : 0 <= n -> sectors d lba (n + 1) = sectors d lba n ++ words_bytes (dv_sector d (lba + n)).
Proof.
  intros Hn. unfold sectors. rewrite seqZ_app by lia. rewrite map_app, concat_app, words_bytes_app. f_equal. cbn [seqZ]. rewrite seqZ_cons by lia. cbn [map concat Z.pred]. rewrite app_nil_r. by rewrite Z.add_0_r || done.
Qed.

Lemma splice_app b l1 l2 : zlength l1 + zlength l2 <= zlength b ->
  splice (splice b 0 l1) (zlength l1) l2 = splice b 0 (l1 ++ l2).
Proof.
  intros Hl. unfold splice, zlength in *. rewrite Nat2Z.id. change (take (Z.to_nat 0) b) with (@nil Z). cbn [app]. change (Z.to_nat 0 + ?n)%nat with n.
  rewrite take_app_length, drop_app_ge by lia. rewrite drop_drop, length_app, <-app_assoc. do 3 f_equal. lia.
Qed.

Lemma splice_all b l : length l = length b -> splice b 0 l = l.
Proof. intros H. unfold splice. cbn. rewrite drop_ge by lia. apply app_nil_r. Qed.

Lemma read_sectors_ok n lba b s : 1 <= n <= 255 -> 0 <= lba -> lba + n <= dv_total (disk s) -> zlength b = n * 512 -> bytes b ->
  dv_inv (disk s) -> polls (dv_view (disk s)) = 0 -> job (dv_view (disk s)) = Incoming (concat (map (dv_sector (disk s)) (seqZ lba n))) ->
  wp (read_sectors n b) s (fun '(r, b') s' => exists d', s' = set_disk d' s /\ kept none (disk s) d' /\
    zlength b' = n * 512 /\ bytes b' /\
    (r = 0 /\ job (dv_view d') = Idle /\ b' = sectors (disk s) lba n \/
     r = - MINIOS_EIO /\ ~ dv_healthy (disk s) /\ (gone d' \/ job (dv_view d') = Idle))).
Proof.
  intros Hn Hlba Ht Hb Hbb Hi Hp Hj. set (d0 := disk s) in *. unfold read_sectors.
  assert (forall k, 0 <= k <= n -> zlength (splice b 0 (sectors d0 lba k)) = n * 512 /\ bytes (splice b 0 (sectors d0 lba k))) as Hsp.
  { intros k Hk. split; [|apply bytes_splice; [done|apply bytes_words_bytes]]. unfold zlength. rewrite length_splice; [exact Hb|lia|].
    rewrite zlength_sectors by (done || lia). lia. }
  apply (wp_while (fun '(k, b') s' => exists d', s' = set_disk d' s /\ kept none d0 d' /\ 0 <= k <= n /\ polls (dv_view d') = 0 /\
    job (dv_view d') = incoming (concat (map (dv_sector d0) (seqZ (lba + k) (n - k)))) /\ b' = splice b 0 (sectors d0 lba k))
    (fun '(k, _) _ => Z.to_nat (n - k))).
  - exists d0. split; [by destruct s|]. split; [by apply drive_kept_refl|]. split; [lia|]. split; [done|]. rewrite Z.add_0_r, Z.sub_0_r. split; [|symmetry; apply splice_nothing].
    rewrite Hj. unfold incoming. pose proof (concat_sectors d0 lba n Hi ltac:(lia) ltac:(lia) Ht) as Hz. destruct (concat _); [unfold zlength in Hz; cbn in Hz; lia|done].
  - lia.
  - intros [k b'] s' (d' & -> & Hk & Hkr & Hp' & Hj' & ->). destruct (Z.ltb_spec k n) as [Hlt|Hge]; cbn [negb].
    2:{ apply wp_ret. assert (k = n) as -> by lia. exists d'. split; [done|]. split; [done|]. destruct (Hsp n ltac:(lia)) as [? ?]. split; [done|]. split; [done|]. left.
        split; [done|]. rewrite Z.sub_diag in Hj'. split; [exact Hj'|]. apply splice_all. pose proof (zlength_sectors d0 lba n Hi ltac:(lia) ltac:(lia) Ht). unfold zlength in *. lia. }
    rewrite seqZ_cons in Hj' by lia. cbn [map concat] in Hj'. replace (Z.succ (lba + k)) with (lba + (k + 1)) in Hj' by lia. replace (Z.pred (n - k)) with (n - (k + 1)) in Hj' by lia.
    destruct (dv_sector_words d0 (lba + k) Hi) as [HW HF]; [lia|].
    assert (job (dv_view d') = Incoming (dv_sector d0 (lba + k) ++ concat (map (dv_sector d0) (seqZ (lba + (k + 1)) (n - (k + 1)))))) as Ej.
    { rewrite Hj'. destruct (dv_sector d0 (lba + k)); [done|done]. }
    assert (gone d' -> False) as Hng by (unfold gone; rewrite Hp'; unfold ATA_POLL_LIMIT; lia).
    apply wp_bind. eapply wp_mono; [apply (ata_wait_ok true (set_disk d' s)); [apply Hk|right; cbn [disk set_disk]; by rewrite Ej]|].
    cbv beta. cbn [disk set_disk]. intros ok s2 (d2 & -> & K2 & Hok). rewrite set_disk_twice in *.
    assert (kept none d0 d2) as K02.
    { apply (drive_kept_trans _ _ d'); [done|]. eapply kept_weaken; [exact K2|]. intros z [_ Hr]. by rewrite Ej in Hr. }
    destruct ok; cbn [negb].
    2:{ apply wp_ret. exists d2. split; [done|]. split; [done|]. destruct (Hsp k ltac:(lia)) as [? ?]. split; [done|]. split; [done|]. right. split; [done|].
        destruct Hok as [Hnh Hg]. split; [|done]. intros Hh. by apply Hnh, Hk. }
    destruct Hok as (_ & _ & Hp2 & Hj2 & Hq2). rewrite Ej in Hj2. apply wp_bind.
    eapply wp_mono; [apply (read_one_sector k _ (dv_sector d0 (lba + k)) (concat (map (dv_sector d0) (seqZ (lba + (k + 1)) (n - (k + 1))))) d0 (set_disk d2 s)); try done|].
    + lia.
    + rewrite concat_sectors by (done || lia). apply Z.mod_mul. lia.
    + rewrite (proj1 (Hsp k ltac:(lia))). lia.
    + cbv beta. cbn [disk set_disk]. intros b3 s3 (d3 & -> & K3 & Hp3 & Hj3 & ->). rewrite set_disk_twice. apply wp_ret. split; [|lia].
      exists d3. split; [done|]. split; [done|]. split; [lia|]. split; [congruence|]. split; [done|]. rewrite sectors_snoc by lia.
      rewrite <-splice_app; [do 2 f_equal; rewrite zlength_sectors by (done || lia); done|].
      rewrite zlength_sectors by (done || lia). rewrite zlength_words_bytes, HW, Hb. lia.
Qed.

(** ** Requests *)

(** Between requests: no job, unless the drive is gone. *)
Record wf s : Prop := {
  wf_cpu : Cpu.wf (cpu s);
  wf_inv : dv_inv (disk s);
  wf_quiet : gone (disk s) \/ job (dv_view (disk s)) = Idle;
  wf_count : device_ready s = true -> 0 <= device_sector_count s <= dv_total (disk s) /\ device_sector_count s <= 0x10000000
}.

Definition in_range s (lba n : Z) : Prop := device_ready s = true /\ 1 <= n <= 255 /\ lba + n <= device_sector_count s.

Lemma request_valid_iff s lba n : wf s -> 0 <= lba < 4294967296 -> 0 <= n < 4294967296 ->
  ata_request_valid s lba n true = true <-> in_range s lba n.
Proof.
  intros Hwf Hl Hn. unfold ata_request_valid, in_range, ATA_MAX_COMMAND_SECTORS, ATA_LBA28_MAX. destruct (device_ready s) eqn:Er; [|by split; [|intros []]].
  destruct (wf_count s Hwf Er) as [Hc1 Hc2]. cbn [andb]. rewrite !andb_true_iff, !Z.leb_le, Z.ltb_lt. split.
  - intros (((((H1 & H2) & H3) & H4) & H5) & H6). rewrite (u32_id (device_sector_count s - n)) in H5 by lia. split; [done|lia].
  - intros (_ & H1 & H2). rewrite (u32_id (device_sector_count s - n)), (u32_id (n - 1)), (u32_id (268435455 - lba)) by lia. lia.
Qed.

Definition taken s : state D := set_busy true (set_cpu (Cpu.masked (cpu s)) s).

Lemma ata_acquire_ok s (Q : option Z -> state D -> Prop) : Cpu.wf (cpu s) ->
  (operation_busy s = true -> Q None s) -> (operation_busy s = false -> Q (Some (Cpu.eflags (cpu s))) (taken s)) -> wp ata_acquire s Q.
Proof.
  intros Hc H1 H2. unfold ata_acquire. apply wp_bind, wp_zoom, Cpu.irq_save_disable_wp. apply wp_bind, wp_gets. cbn [operation_busy lset flag_lens set_cpu].
  destruct (operation_busy s) eqn:Eb; cbn.
  - apply wp_bind, wp_zoom, Cpu.irq_restore_wp; [done|]. apply wp_ret. change (Q None (set_cpu (cpu s) (set_cpu (Cpu.masked (cpu s)) s))).
    replace (set_cpu (cpu s) (set_cpu (Cpu.masked (cpu s)) s)) with s by (by destruct s). auto.
  - by apply H2.
Qed.

Lemma ata_release_ok d s (Q : unit -> state D -> Prop) : Cpu.wf (cpu s) -> operation_busy s = false ->
  Q tt (set_disk d s) -> wp (ata_release (Cpu.eflags (cpu s))) (set_disk d (taken s)) Q.
Proof.
  intros Hc Hb HQ. unfold ata_release. apply wp_bind, wp_modify, wp_zoom, Cpu.irq_restore_wp; [done|].
  replace (lset _ _) with (set_disk d s) by (destruct s; cbn in *; by subst). done.
Qed.

Lemma wf_after s d : wf s -> kept none (disk s) d -> gone d \/ job (dv_view d) = Idle -> wf (set_disk d s).
Proof. intros [H1 H2 H3 H4] Hk Hq. split; [done|apply Hk|done|]. cbn. rewrite (k_total _ _ _ Hk). done. Qed.

(** The start of a request that was admitted. *)
Lemma request_begin_ok {A} s lba n c (fail rest : M (state D) A) Q :
  wf s -> in_range s lba n -> 0 <= lba -> c = ATA_COMMAND_READ_SECTORS \/ c = ATA_COMMAND_WRITE_SECTORS ->
  (forall d', kept none (disk s) d' -> gone d' \/ job (dv_view d') = Idle -> ~ dv_healthy (disk s) -> wp fail (set_disk d' (taken s)) Q) ->
  (forall d', kept none (disk s) d' -> polls (dv_view d') = 0 ->
    job (dv_view d') = (if c =? ATA_COMMAND_READ_SECTORS then Incoming (concat (map (dv_sector d') (seqZ lba n))) else Outgoing lba n []) ->
    wp rest (set_disk d' (taken s)) Q) ->
  wp (let! ready := ata_wait false in if negb ready then fail else (ata_issue_lba28 lba n c ;; rest)) (taken s) Q.
Proof.
  intros Hwf (Er & Hn1 & Ht) Hl Hc Hfail Hrest. destruct (wf_count s Hwf Er) as [Hc1 Hc2].
  apply wp_bind. eapply wp_mono; [apply (ata_wait_ok false (taken s)); [apply Hwf|]|].
  { cbn. destruct (wf_quiet s Hwf) as [|E]; [by left|right]. by rewrite E. }
  cbv beta. cbn [disk taken set_busy set_cpu]. intros ok s1 (d1 & -> & K1 & Hok).
  assert (kept none (disk s) d1) as K01.
  { eapply kept_weaken; [exact K1|]. intros k [Hg Hr]. destruct (wf_quiet s Hwf) as [Hg'|E]; [unfold gone in Hg'; lia|by rewrite E in Hr]. }
  destruct ok; cbn [negb]; [|by apply Hfail; [|apply Hok..]].
  destruct Hok as (_ & _ & Hp1 & Hj1 & _). apply wp_bind.
  eapply wp_mono; [apply (ata_issue_ok lba n c (set_disk d1 (taken s))); cbn [disk set_disk]; try done; [apply K1|lia|]|].
  { rewrite (k_total _ _ _ K01). lia. }
  cbv beta. cbn [disk set_disk]. intros [] s2 (d2 & -> & K2 & Hp2 & Hj2). rewrite set_disk_twice.
  apply Hrest; [by apply (drive_kept_trans _ _ d1)|done|]. rewrite Hj2. destruct (c =? _); [|done]. do 2 f_equal. apply map_ext_in. intros k _.
  symmetry. apply (k_sectors _ _ _ K2). by intros [].
Qed.

(** How a read ends: refused outside the disk, refused during another request,
    or with the sectors or an error of the drive. *)
Definition read_done s (lba n : Z) (b : list Z) (x : Z * list Z) s' : Prop :=
  let '(r, b') := x in wf s' /\
    (~ in_range s lba n /\ r = - EINVAL /\ b' = b /\ s' = s \/
     in_range s lba n /\ operation_busy s = true /\ r = - EAGAIN /\ b' = b /\ s' = s \/
     in_range s lba n /\ operation_busy s = false /\ zlength b' = n * 512 /\ bytes b' /\
     (exists d', s' = set_disk d' s /\ kept none (disk s) d') /\
     (r = 0 /\ b' = sectors (disk s) lba n \/ r = - MINIOS_EIO /\ ~ dv_healthy (disk s))).

Lemma ata_read_ok s lba n b :
  wf s -> 0 <= lba < 4294967296 -> 0 <= n < 4294967296 -> zlength b = n * 512 -> bytes b ->
  wp (ata_read_sectors lba n true b) s (read_done s lba n b).
Proof.
  intros Hwf Hl Hn Hb Hbb. unfold ata_read_sectors. apply wp_bind, wp_gets. pose proof (request_valid_iff s lba n Hwf Hl Hn) as Hv.
  destruct (ata_request_valid s lba n true); cbn [negb].
  2:{ apply wp_ret. split; [done|]. left. split; [|done]. intros H. by apply Hv in H. }
  assert (in_range s lba n) as Hin by (by apply Hv). clear Hv. pose proof Hin as (Er & Hn1 & Ht). destruct (wf_count s Hwf Er) as [Hc1 Hc2].
  apply wp_bind, ata_acquire_ok; [apply Hwf|..]; intros Ebusy; [apply wp_ret; split; [done|]; right; by left|].
  assert (dv_inv (disk s)) as Hi by apply Hwf.
  assert (forall d' r b', kept none (disk s) d' -> gone d' \/ job (dv_view d') = Idle -> zlength b' = n * 512 -> bytes b' ->
    (r = 0 /\ b' = sectors (disk s) lba n \/ r = - MINIOS_EIO /\ ~ dv_healthy (disk s)) ->
    wp (ata_release (Cpu.eflags (cpu s)) ;; ret (r, b')) (set_disk d' (taken s)) (read_done s lba n b)) as Hend.
  { intros d' r b' Hk Hq Hz Hbz Hr. apply wp_bind, ata_release_ok; [apply Hwf|done|]. apply wp_ret. split; [by apply wf_after|]. right. right.
    split; [done|]. split; [done|]. split; [done|]. split; [done|]. split; [by exists d'|done]. }
  apply request_begin_ok; [done|done|lia|by left|intros d1 K1 Hq Hnh; apply Hend; try done; by right|].
  intros d2 K2 Hp2 Hj2. assert (forall d k, kept none (disk s) d -> dv_sector d k = dv_sector (disk s) k) as Hsame by (intros d k Hk; apply Hk; by intros []).
  apply wp_bind. eapply wp_mono; [apply (read_sectors_ok n lba b (set_disk d2 (taken s))); cbn [disk set_disk]; try done; [lia| |apply K2]|].
  { rewrite (k_total _ _ _ K2). lia. }
  cbv beta. cbn [disk set_disk]. intros [r b'] s3 (d3 & -> & K3 & Hz & Hbz & Hr). rewrite set_disk_twice.
  apply Hend; try done.
  - by apply (drive_kept_trans _ _ d2).
  - destruct Hr as [(_ & E & _)|(_ & _ & ?)]; [by right|done].
  - destruct Hr as [(-> & _ & ->)|(-> & Hnh & _)]; [left; split; [done|]|right; split; [done|]; intros Hh; by apply Hnh, K2].
    unfold sectors. do 2 f_equal. apply map_ext_in. intros k _. by apply Hsame.
Qed.


(** ** Writing *)

Definition words_of (b : list Z) : list Z := map (fun i => read_le16 b (2 * i)) (seqZ 0 (zlength b / 2)).

Lemma words_prefix b m : bytes b -> 0 <= m -> 2 * m <= zlength b ->
  words_bytes (map (fun i => read_le16 b (2 * i)) (seqZ 0 m)) = take (Z.to_nat (2 * m)) b.
Proof.
  intros Hb Hm. pattern m. apply natlike_ind; [done| |done]. intros k Hk IH Hl.
  rewrite <-Z.add_1_r, seqZ_app, map_app, words_bytes_app, IH by lia. change (map ?f (seqZ (0 + k) 1)) with [f (0 + k)].
  rewrite Z.add_0_l. cbn [words_bytes flat_map]. rewrite app_nil_r, le16_read by done. replace (Z.to_nat (2 * (k + 1))) with (S (S (Z.to_nat (2 * k)))) by lia.
  unfold zlength in Hl.
  destruct (lookup_lt_is_Some_2 b (Z.to_nat (2 * k))) as [x Hx]; [lia|]. destruct (lookup_lt_is_Some_2 b (S (Z.to_nat (2 * k)))) as [y Hy]; [lia|].
  rewrite (take_S_r b _ y Hy), (take_S_r b _ x Hx), <-app_assoc. cbn [app]. unfold byte_at. replace (Z.to_nat (2 * k + 1)) with (S (Z.to_nat (2 * k))) by lia.
  by rewrite Hx, Hy.
Qed.

Lemma zlength_words_of b m : zlength b = 2 * m -> zlength (words_of b) = m.
Proof. intros H. unfold words_of, zlength in *. rewrite length_map, length_seqZ, H. rewrite Z.mul_comm, Z.div_mul by lia. lia. Qed.

Lemma words_bytes_of b m : bytes b -> zlength b = 2 * m -> words_bytes (words_of b) = b.
Proof.
  intros Hb H. assert (0 <= m) by (unfold zlength in H; lia). unfold words_of. rewrite H, Z.mul_comm, Z.div_mul by lia.
  rewrite words_prefix by (done || lia). apply take_ge. unfold zlength in H. lia.
Qed.

Lemma words_of_lookup b i m : zlength b = 2 * m -> 0 <= i < m -> words_of b !! Z.to_nat i = Some (read_le16 b (2 * i)).
Proof.
  intros H Hi. unfold words_of. rewrite H, Z.mul_comm, Z.div_mul by lia. rewrite list_lookup_fmap, lookup_seqZ_lt by lia. cbn. do 2 f_equal. lia.
Qed.

Lemma byte_lookup (b : list Z) o : 0 <= o < zlength b -> b !! Z.to_nat o = Some (byte_at b o).
Proof. intros Ho. unfold byte_at, zlength in *. destruct (lookup_lt_is_Some_2 b (Z.to_nat o)) as [x ->]; [lia|done]. Qed.

Definition within_sectors (lba n k : Z) : Prop := lba <= k < lba + n.

Lemma write_word_ok b lba n sector i ws d0 s : bytes b -> zlength b = n * 512 -> 0 <= sector < n -> n <= 255 -> 0 <= i < 256 ->
  kept (within_sectors lba n) d0 (disk s) -> drq (dv_view (disk s)) = true -> job (dv_view (disk s)) = Outgoing lba n ws -> zlength ws = sector * 256 + i ->
  wp (write_word b sector i) s (fun _ s' => exists d', s' = set_disk d' s /\ kept (within_sectors lba n) d0 d' /\
    dv_view d' = View (regs (dv_view (disk s))) (Outgoing lba n (ws ++ [read_le16 b (2 * (sector * 256 + i))])) (negb ((zlength ws + 1) mod 256 =? 0)) (polls (dv_view (disk s)))).
Proof.
  intros Hb Hz Hs Hn Hi Hk Hq Hj Hw. unfold write_word, ATA_WORDS_PER_SECTOR.
  rewrite (u32_id (sector * 256)), (u32_id (sector * 256 + i)), (u32_id ((sector * 256 + i) * 2)), (u32_id ((sector * 256 + i) * 2 + 1)) by lia.
  replace ((sector * 256 + i) * 2) with (2 * (sector * 256 + i)) by lia. set (o := 2 * (sector * 256 + i)). assert (0 <= o /\ o + 1 < zlength b) as Ho by (unfold o; lia).
  rewrite (byte_lookup b o), (byte_lookup b (o + 1)) by lia. apply wp_bind, wp_ret, wp_bind, wp_ret.
  assert (u16 (Z.shiftl (byte_at b (o + 1)) 8) = Z.shiftl (byte_at b (o + 1)) 8) as ->.
  { unfold u16. apply Z.mod_small. rewrite Z.shiftl_mul_pow2 by lia. pose proof (byte_at_range b (o + 1) Hb). lia. }
  change (Z.lor (byte_at b o) (Z.shiftl (byte_at b (o + 1)) 8)) with (read_le16 b o). apply wp_zoom.
  eapply wp_mono; [apply (dv_out16_ok (disk s) (read_le16 b o) lba n ws); [apply Hk|done|done|lia|by apply read_le16_range]|].
  cbv beta. intros [] d' (I & T & N & H & S & V). exists d'. split; [done|]. split; [apply (drive_kept_trans _ _ (disk s)); [done|by split]|]. done.
Qed.

(** The words sent so far. *)
Definition sent (b : list Z) (k : Z) : list Z := take (Z.to_nat k) (words_of b).

Lemma zlength_sent b m k : zlength b = 2 * m -> 0 <= k <= m -> zlength (sent b k) = k.
Proof. intros H Hk. pose proof (zlength_words_of b m H). unfold sent, zlength in *. rewrite length_take. lia. Qed.

Lemma sent_snoc b m k : zlength b = 2 * m -> 0 <= k < m -> sent b (k + 1) = sent b k ++ [read_le16 b (2 * k)].
Proof.
  intros H Hk. unfold sent. replace (Z.to_nat (k + 1)) with (S (Z.to_nat k)) by lia. apply take_S_r. by apply (words_of_lookup b k m).
Qed.

Lemma write_one_sector b lba n sector d0 s : bytes b -> zlength b = n * 512 -> 0 <= sector < n -> n <= 255 ->
  kept (within_sectors lba n) d0 (disk s) -> drq (dv_view (disk s)) = true -> job (dv_view (disk s)) = Outgoing lba n (sent b (sector * 256)) ->
  wp (for_range (Z.to_nat ATA_WORDS_PER_SECTOR) 0 (write_word b sector)) s (fun _ s' => exists d', s' = set_disk d' s /\ kept (within_sectors lba n) d0 d' /\
    polls (dv_view d') = polls (dv_view (disk s)) /\ job (dv_view d') = Outgoing lba n (sent b ((sector + 1) * 256))).
Proof.
  intros Hb Hz Hs Hn Hk Hq Hj. assert (zlength b = 2 * (n * 256)) as Hz2 by lia.
  apply (wp_for_range (fun i s' => exists d', s' = set_disk d' s /\ kept (within_sectors lba n) d0 d' /\ polls (dv_view d') = polls (dv_view (disk s)) /\
    job (dv_view d') = Outgoing lba n (sent b (sector * 256 + i)) /\ (i < 256 -> drq (dv_view d') = true))).
  - exists (disk s). split; [by destruct s|]. rewrite Z.add_0_r. done.
  - intros i s' Hi (d' & -> & Hk' & Hp & Hj' & Hq'). change (0 + Z.of_nat (Z.to_nat ATA_WORDS_PER_SECTOR)) with 256 in Hi.
    assert (zlength (sent b (sector * 256 + i)) = sector * 256 + i) as Hl by (apply (zlength_sent b (n * 256)); [done|lia]).
    eapply wp_mono; [apply (write_word_ok b lba n sector i (sent b (sector * 256 + i)) d0); try done; [apply Hq'; lia]|].
    cbv beta. cbn [disk set_disk]. intros [] s2 (d2 & -> & K2 & V2). rewrite set_disk_twice. exists d2. split; [done|]. split; [done|].
    rewrite V2, Hl. cbn [polls job drq]. split; [done|]. split; [by rewrite Z.add_assoc, (sent_snoc b (n * 256)) by lia|].
    intros Hlt. apply negb_true_iff, Z.eqb_neq. rewrite <-Z.add_assoc, Z.add_comm, Z.mod_add, Z.mod_small by lia. lia.
  - change (0 + Z.of_nat (Z.to_nat ATA_WORDS_PER_SECTOR)) with 256. intros s' (d' & -> & Hk' & Hp & Hj' & _). exists d'.
    replace ((sector + 1) * 256) with (sector * 256 + 256) by lia. done.
Qed.

Lemma write_sectors_ok b lba n s : bytes b -> zlength b = n * 512 -> 1 <= n <= 255 ->
  dv_inv (disk s) -> polls (dv_view (disk s)) = 0 -> job (dv_view (disk s)) = Outgoing lba n [] ->
  wp (write_sectors n b) s (fun r s' => exists d', s' = set_disk d' s /\ kept (within_sectors lba n) (disk s) d' /\
    (r = 0 /\ polls (dv_view d') = 0 /\ job (dv_view d') = Outgoing lba n (words_of b) \/
     r = - MINIOS_EIO /\ ~ dv_healthy (disk s) /\ (gone d' \/ job (dv_view d') = Idle))).
Proof.
  intros Hb Hz Hn Hi Hp Hj. set (d0 := disk s) in *. assert (zlength b = 2 * (n * 256)) as Hz2 by lia. unfold write_sectors.
  apply (wp_while (fun k s' => exists d', s' = set_disk d' s /\ kept (within_sectors lba n) d0 d' /\ 0 <= k <= n /\ polls (dv_view d') = 0 /\
    job (dv_view d') = Outgoing lba n (sent b (k * 256))) (fun k _ => Z.to_nat (n - k))).
  - exists d0. split; [by destruct s|]. split; [by apply drive_kept_refl|]. split; [lia|]. done.
  - lia.
  - intros k s' (d' & -> & Hk & Hkr & Hp' & Hj'). destruct (Z.ltb_spec k n) as [Hlt|Hge]; cbn [negb].
    2:{ apply wp_ret. assert (k = n) as -> by lia. exists d'. split; [done|]. split; [done|]. left. split; [done|]. split; [done|]. rewrite Hj'. f_equal.
        apply take_ge. pose proof (zlength_words_of b _ Hz2). unfold zlength in *. lia. }
    apply wp_bind. eapply wp_mono; [apply (ata_wait_ok true (set_disk d' s)); [apply Hk|right; cbn [disk set_disk]; rewrite Hj'; cbn]|].
    { rewrite (zlength_sent b (n * 256)) by lia. apply Z.eqb_neq. lia. }
    cbv beta. cbn [disk set_disk]. intros ok s2 (d2 & -> & K2 & Hok). rewrite set_disk_twice in *.
    assert (kept (within_sectors lba n) d0 d2) as K02.
    { apply (drive_kept_trans _ _ d'); [done|]. eapply kept_weaken; [exact K2|]. intros z [_ Hr]. by rewrite Hj' in Hr. }
    destruct ok; cbn [negb].
    2:{ apply wp_ret. exists d2. split; [done|]. split; [done|]. right. split; [done|]. destruct Hok as [Hnh Hg]. split; [|done]. intros Hh. by apply Hnh, Hk. }
    destruct Hok as (_ & _ & Hp2 & Hj2 & Hq2). apply wp_bind.
    eapply wp_mono; [apply (write_one_sector b lba n k d0 (set_disk d2 s)); cbn [disk set_disk]; try done; [lia|lia|congruence]|].
    cbv beta. cbn [disk set_disk]. intros [] s3 (d3 & -> & K3 & Hp3 & Hj3). rewrite set_disk_twice. apply wp_ret. split; [|lia].
    exists d3. split; [done|]. split; [done|]. split; [lia|]. split; [congruence|done].
Qed.

(** How a write ends: refused, or with the sectors written, or with an error
    after which the sectors asked for may have any contents. *)
Definition write_done s (lba n : Z) (b : list Z) (r : Z) s' : Prop :=
  wf s' /\
  (~ in_range s lba n /\ r = - EINVAL /\ s' = s \/
   in_range s lba n /\ operation_busy s = true /\ r = - EAGAIN /\ s' = s \/
   in_range s lba n /\ operation_busy s = false /\
   (exists d', s' = set_disk d' s /\ kept (within_sectors lba n) (disk s) d') /\
   (r = 0 /\ sectors (disk s') lba n = b \/ r = - MINIOS_EIO /\ ~ dv_healthy (disk s))).

Lemma concat_slices d lba n ws : 0 <= n -> zlength ws = n * 256 ->
  (forall i, 0 <= i < n -> dv_sector d (lba + i) = slice ws (i * 256) 256) -> concat (map (dv_sector d) (seqZ lba n)) = ws.
Proof.
  intros Hn. revert lba ws. pattern n. apply natlike_ind; [|intros m Hm IH|done].
  { intros lba ws Hw _. unfold zlength in Hw. by destruct ws. }
  intros lba ws Hw Hs. rewrite seqZ_cons by lia. cbn [map concat]. rewrite Z.pred_succ.
  rewrite (IH (Z.succ lba) (drop 256 ws)).
  - replace lba with (lba + 0) at 1 by lia. rewrite Hs by lia. unfold slice. apply take_drop.
  - unfold zlength in *. rewrite length_drop. lia.
  - intros i Hi. replace (Z.succ lba + i) with (lba + (i + 1)) by lia. rewrite Hs by lia. unfold slice. rewrite drop_drop. do 2 f_equal. lia.
Qed.

(** The end of a write: its completion and the flush of the cache. *)
Lemma write_finish_ok {A} s lba n b (fail rest : M (state D) A) Q :
  bytes b -> zlength b = n * 512 -> 1 <= n -> dv_inv (disk s) -> polls (dv_view (disk s)) = 0 -> job (dv_view (disk s)) = Outgoing lba n (words_of b) ->
  (forall d', kept (within_sectors lba n) (disk s) d' -> gone d' \/ job (dv_view d') = Idle -> ~ dv_healthy (disk s) -> wp fail (set_disk d' s) Q) ->
  (forall d', kept (within_sectors lba n) (disk s) d' -> job (dv_view d') = Idle -> sectors d' lba n = b -> wp rest (set_disk d' s) Q) ->
  wp (let! ready := ata_wait false in
      if negb ready then fail else
      zoom (at_out8 ATA_STATUS_COMMAND_PORT ATA_COMMAND_CACHE_FLUSH) ;;
      ata_delay_400ns ;;
      let! ready := ata_wait false in
      if negb ready then fail else rest) s Q.
Proof.
  intros Hb Hz Hn Hi Hp Hj Hfail Hrest. assert (zlength (words_of b) = n * 256) as Hw by (apply zlength_words_of; lia).
  apply wp_bind. eapply wp_mono; [apply (ata_wait_ok false s); [done|right; rewrite Hj; cbn; by apply Z.eqb_eq]|].
  cbv beta. intros ok s1 (d1 & -> & K1 & Hok).
  assert (kept (within_sectors lba n) (disk s) d1) as K01 by (eapply kept_weaken; [exact K1|]; intros k [_ Hk]; by rewrite Hj in Hk).
  destruct ok; cbn [negb]; [|by apply Hfail; [|apply Hok..]].
  destruct Hok as (_ & _ & Hp1 & Hj1 & Hs1). apply wp_bind, wp_zoom. cbn [disk set_disk].
  eapply wp_mono; [apply (dv_command_ok ATA_COMMAND_CACHE_FLUSH d1); [apply K1|done|done|by intros [?|?]|by right; right; left]|].
  cbv beta. intros [] d2 (I2 & T2 & N2 & H2 & S2 & V2). change (lset d2 (set_disk d1 s)) with (set_disk d2 s).
  assert (kept none d1 d2) as K2 by (by split). apply wp_bind, (delay_step d1); [done|]. intros d3 K3 V3. rewrite set_disk_twice.
  apply wp_bind. cbn [disk set_disk] in V3. rewrite V2 in V3. cbn in V3.
  eapply wp_mono; [apply (ata_wait_ok false (set_disk d3 s)); [apply K3|right; cbn [disk set_disk]; by rewrite V3]|].
  cbv beta. cbn [disk set_disk]. intros ok s4 (d4 & -> & K4 & Hok). rewrite set_disk_twice.
  assert (kept none d1 d4) as K14 by (apply (drive_kept_trans _ _ d3); [done|]; eapply kept_weaken; [exact K4|]; intros k [_ Hk]; by rewrite V3 in Hk).
  assert (kept (within_sectors lba n) (disk s) d4) as K04 by (apply (drive_kept_trans _ _ d1); [done|by apply kept_none]).
  destruct ok; cbn [negb]; [|apply Hfail; [done|apply Hok|intros Hh; by apply (proj1 Hok), K3, K01]].
  apply Hrest; [done|apply Hok|]. unfold sectors. rewrite (concat_slices d4 lba n (words_of b)); [apply (words_bytes_of b (n * 256)); [done|lia]|lia|done|].
  intros i Hin. rewrite (k_sectors _ _ _ K14) by (by intros []). by apply (Hs1 lba n (words_of b)).
Qed.

Lemma ata_write_ok s lba n b :
  wf s -> 0 <= lba < 4294967296 -> 0 <= n < 4294967296 -> zlength b = n * 512 -> bytes b ->
  wp (ata_write_sectors lba n true b) s (write_done s lba n b).
Proof.
  intros Hwf Hl Hn Hb Hbb. unfold ata_write_sectors. apply wp_bind, wp_gets. pose proof (request_valid_iff s lba n Hwf Hl Hn) as Hv.
  destruct (ata_request_valid s lba n true); cbn [negb].
  2:{ apply wp_ret. split; [done|]. left. split; [|done]. intros H. by apply Hv in H. }
  assert (in_range s lba n) as Hin by (by apply Hv). clear Hv. pose proof Hin as (Er & Hn1 & Ht). destruct (wf_count s Hwf Er) as [Hc1 Hc2].
  apply wp_bind, ata_acquire_ok; [apply Hwf|..]; intros Ebusy; [apply wp_ret; split; [done|]; right; by left|].
  assert (forall d' r, kept (within_sectors lba n) (disk s) d' -> gone d' \/ job (dv_view d') = Idle ->
    (r = 0 /\ sectors d' lba n = b \/ r = - MINIOS_EIO /\ ~ dv_healthy (disk s)) ->
    wp (ata_release (Cpu.eflags (cpu s)) ;; ret r) (set_disk d' (taken s)) (write_done s lba n b)) as Hend.
  { intros d' r Hk Hq Hr. apply wp_bind, ata_release_ok; [apply Hwf|done|]. apply wp_ret.
    split; [destruct Hwf as [H1 H2 H3 H4]; split; [done|apply Hk|done|]; cbn; by rewrite (k_total _ _ _ Hk)|]. right. right.
    split; [done|]. split; [done|]. split; [by exists d'|done]. }
  apply request_begin_ok; [done|done|lia|by right|intros d1 K1 Hq Hnh; apply Hend; [by apply kept_none|done|by right]|].
  intros d2 K2 Hp2 Hj2. assert (kept (within_sectors lba n) (disk s) d2) as K02 by (by apply kept_none).
  apply wp_bind. eapply wp_mono; [apply (write_sectors_ok b lba n (set_disk d2 (taken s))); try done; apply K2|].
  cbv beta. cbn [disk set_disk]. intros r s3 (d3 & -> & K3 & Hr). rewrite set_disk_twice.
  assert (kept (within_sectors lba n) (disk s) d3) as K03 by (by apply (drive_kept_trans _ _ d2)).
  destruct Hr as [(-> & Hp3 & Hj3)|(-> & Hnh & Hq)]; cbn [negb Z.eqb Z.opp MINIOS_EIO].
  2:{ apply Hend; [done|done|]. right. split; [done|]. intros Hh. by apply Hnh, K02. }
  apply (write_finish_ok (set_disk d3 (taken s)) lba n b); try done; [lia|apply K3|..]; cbn [disk set_disk].
  - intros d4 K4 Hq Hnh. rewrite set_disk_twice. apply Hend; [by apply (drive_kept_trans _ _ d3)|done|]. right. split; [done|]. intros Hh. by apply Hnh, K03.
  - intros d4 K4 Hj4 Hs4. rewrite set_disk_twice. apply Hend; [by apply (drive_kept_trans _ _ d3)|by right|by left].
Qed.


(** ** Start-up *)

Lemma read_identify_ok W d0 s : zlength W = 256 -> kept none d0 (disk s) -> drq (dv_view (disk s)) = true -> job (dv_view (disk s)) = Incoming W ->
  wp read_identify s (fun l s' => l = W /\ exists d', s' = set_disk d' s /\ kept none d0 d' /\ job (dv_view d') = Idle).
Proof.
  intros HW Hk Hq Hj. unfold read_identify.
  apply (wp_for_acc (fun i l s' => l = take (Z.to_nat i) W /\ exists d', s' = set_disk d' s /\ kept none d0 d' /\
    job (dv_view d') = incoming (drop (Z.to_nat i) W) /\ (i < 256 -> drq (dv_view d') = true))).
  - split; [done|]. exists (disk s). split; [by destruct s|]. split; [done|]. split; [|done]. rewrite Hj. by destruct W.
  - intros i l s' Hi (-> & d' & -> & Hk' & Hj' & Hq'). change (0 + Z.of_nat (Z.to_nat ATA_WORDS_PER_SECTOR)) with 256 in Hi.
    destruct (lookup_lt_is_Some_2 W (Z.to_nat i)) as [w Hw]; [unfold zlength in HW; lia|]. rewrite (drop_S W w _ Hw), incoming_cons in Hj'.
    apply wp_bind, wp_zoom. eapply wp_mono; [apply (dv_in16_ok d' w (drop (S (Z.to_nat i)) W)); [apply Hk'|apply Hq'; lia|done]|].
    cbv beta. intros v d2 (I & T & N & H & S2 & -> & V). apply wp_ret. replace (Z.to_nat (i + 1)) with (S (Z.to_nat i)) by lia.
    split; [by rewrite (take_S_r W _ w Hw)|]. exists d2. split; [done|]. split; [apply (drive_kept_trans _ _ d'); [done|by split]|]. rewrite V. cbn [job drq].
    split; [done|]. intros Hlt. apply negb_true_iff, Z.eqb_neq. unfold zlength in *. rewrite length_drop, Z.mod_small by lia. lia.
  - change (0 + Z.of_nat (Z.to_nat ATA_WORDS_PER_SECTOR)) with 256. intros l s' (-> & d' & -> & Hk' & Hj' & _).
    split; [apply take_ge; unfold zlength in HW; lia|]. exists d'. split; [done|]. split; [done|]. by rewrite drop_ge in Hj' by (unfold zlength in HW; lia).
Qed.

(** The number of sectors a drive announces. *)
Definition capacity d : Z := byte_at (dv_identify d) 60 + 65536 * byte_at (dv_identify d) 61.

Lemma capacity_lor W : zlength W = 256 -> Forall (fun w => 0 <= w < 65536) W ->
  0 <= byte_at W 60 < 65536 /\ 0 <= byte_at W 61 /\ Z.lor (byte_at W 60) (u32 (Z.shiftl (byte_at W 61) 16)) = byte_at W 60 + 65536 * byte_at W 61.
Proof.
  intros HW HF. assert (forall i, 0 <= i < 256 -> 0 <= byte_at W i < 65536) as Hr.
  { intros i Hi. pose proof (byte_lookup W i ltac:(lia)) as E. by apply (Forall_lookup_1 _ _ _ _ HF E). }
  pose proof (Hr 60 ltac:(lia)). pose proof (Hr 61 ltac:(lia)). split; [done|]. split; [lia|].
  rewrite u32_id by (rewrite Z.shiftl_mul_pow2 by lia; lia). rewrite lor_shiftl by lia. lia.
Qed.

(** The IDENTIFY command of [ata_init]. *)
Lemma identify_ok {A} (rest : M (state D) A) s Q : dv_inv (disk s) -> job (dv_view (disk s)) = Idle -> polls (dv_view (disk s)) = 0 ->
  (forall d', kept none (disk s) d' -> job (dv_view d') = Incoming (dv_identify (disk s)) -> polls (dv_view d') = 0 -> wp rest (set_disk d' s) Q) ->
  wp (zoom (at_out8 ATA_DRIVE_PORT ATA_IDENTIFY_MASTER) ;;
      ata_delay_400ns ;;
      zoom (at_out8 ATA_SECTOR_COUNT_PORT 0) ;;
      zoom (at_out8 ATA_LBA_LOW_PORT 0) ;;
      zoom (at_out8 ATA_LBA_MID_PORT 0) ;;
      zoom (at_out8 ATA_LBA_HIGH_PORT 0) ;;
      zoom (at_out8 ATA_STATUS_COMMAND_PORT ATA_COMMAND_IDENTIFY) ;;
      ata_delay_400ns ;;
      rest) s Q.
Proof.
  intros Hi Hj Hp Hrest. set (d0 := disk s) in *.
  apply wp_bind, (register_step _ _ d0); [by left|unfold ATA_IDENTIFY_MASTER; lia|by apply drive_kept_refl|]. intros d1 K1 V1.
  apply wp_bind, (delay_step d0); [done|]. cbn [disk set_disk]. intros d2 K2 V2. rewrite set_disk_twice.
  apply wp_bind, (register_step _ _ d0); [by right; left|lia|done|]. cbn [disk set_disk]. intros d3 K3 V3. rewrite set_disk_twice.
  apply wp_bind, (register_step _ _ d0); [by right; right; left|lia|done|]. cbn [disk set_disk]. intros d4 K4 V4. rewrite set_disk_twice.
  apply wp_bind, (register_step _ _ d0); [by right; right; right; left|lia|done|]. cbn [disk set_disk]. intros d5 K5 V5. rewrite set_disk_twice.
  apply wp_bind, (register_step _ _ d0); [by right; right; right; right|lia|done|]. cbn [disk set_disk]. intros d6 K6 V6. rewrite set_disk_twice.
  rewrite V5, V4, V3, V2, V1 in V6. cbn [regs job drq polls] in V6. fold d0 in V6. rewrite Hj, Hp in V6.
  apply wp_bind, wp_zoom. cbn [disk set_disk]. eapply wp_mono; [apply (dv_command_ok ATA_COMMAND_IDENTIFY d6); rewrite ?V6; [apply K6|done|done|by intros [?|?]|by right; right; right]|].
  cbv beta. intros [] d7 (I7 & T7 & N7 & H7 & S7 & V7). change (lset d7 _) with (set_disk d7 s).
  assert (kept none d0 d7) as K7 by (apply (drive_kept_trans _ _ d6); [done|by split]). cbn in V7. rewrite (k_identify _ _ _ K6) in V7.
  apply wp_bind, (delay_step d0); [done|]. cbn [disk set_disk]. intros d8 K8 V8. rewrite set_disk_twice. apply Hrest; [done|by rewrite V8, V7..].
Qed.

(** From a drive that has just been switched on, the driver gets ready for the
    sectors it announces, or stays off. *)
Lemma ata_init_ok s : Cpu.wf (cpu s) -> dv_inv (disk s) -> job (dv_view (disk s)) = Idle -> polls (dv_view (disk s)) = 0 ->
  wp ata_init s (fun r s' => wf s' /\ operation_busy s' = false /\ cpu s' = cpu s /\ kept none (disk s) (disk s') /\
    (r = 0 /\ device_ready s' = true /\ device_sector_count s' = Z.min (capacity (disk s)) 0x10000000 /\ 0 < capacity (disk s) \/
     r = - MINIOS_EIO /\ device_ready s' = false)).
Proof.
  intros Hc Hi Hj Hp. set (d0 := disk s). unfold ata_init. apply wp_bind, wp_modify, wp_bind, wp_modify.
  set (s0 := set_busy false (set_device 0 false s)). apply wp_bind, ata_acquire_ok; [done|done|]. intros _.
  assert (forall count ready d r, kept none d0 d -> gone d \/ job (dv_view d) = Idle ->
    (ready = true -> 0 <= count <= dv_total d0 /\ count <= 0x10000000) ->
    (r = 0 /\ ready = true /\ count = Z.min (capacity d0) 0x10000000 /\ 0 < capacity d0 \/ r = - MINIOS_EIO /\ ready = false) ->
    wp (ata_release (Cpu.eflags (cpu s0)) ;; ret r) (set_disk d (taken (set_device count ready s0))) (fun r s' => wf s' /\ operation_busy s' = false /\ cpu s' = cpu s /\ kept none d0 (disk s') /\
    (r = 0 /\ device_ready s' = true /\ device_sector_count s' = Z.min (capacity d0) 0x10000000 /\ 0 < capacity d0 \/
     r = - MINIOS_EIO /\ device_ready s' = false))) as Hend.
  { intros count ready d r Hk Hq Hcnt Hr. apply wp_bind, (ata_release_ok d (set_device count ready s0)); [done|done|]. apply wp_ret.
    split; [split; [done|apply Hk|done|]; cbn; intros ->; rewrite (k_total _ _ _ Hk); by apply Hcnt|]. done. }
  apply (identify_ok _ (taken s0)); [done|done|done|]. intros d1 K1 Hj1 Hp1. change (disk (taken s0)) with d0 in *.
  destruct (dv_identify_words d0 Hi) as (HW & HF & Hcap). destruct (capacity_lor _ HW HF) as (Hlow & Hhigh & Ecap). fold (capacity d0) in *.
  apply wp_bind. eapply wp_mono; [apply (ata_wait_ok true (set_disk d1 (taken s0))); [apply K1|right; cbn [disk set_disk]; by rewrite Hj1]|].
  cbv beta. cbn [disk set_disk]. intros ok s2 (d2 & -> & K2 & Hok). rewrite set_disk_twice.
  assert (kept none d0 d2) as K02 by (apply (drive_kept_trans _ _ d1); [done|]; eapply kept_weaken; [exact K2|]; intros k [_ Hk]; by rewrite Hj1 in Hk).
  destruct ok; cbn [negb]; [|by apply (Hend 0 false); [|apply Hok| |right]].
  destruct Hok as (_ & _ & _ & Hj2 & Hq2). apply wp_bind.
  eapply wp_mono; [apply (read_identify_ok (dv_identify d0) d0 (set_disk d2 (taken s0))); [done|done|done|cbn [disk set_disk]; congruence]|].
  cbv beta. intros l s3 (-> & d3 & -> & K3 & Hj3). rewrite set_disk_twice. unfold ATA_IDENTIFY_CAPACITY_LOW, ATA_IDENTIFY_CAPACITY_HIGH, ATA_IDENTIFY_CAPABILITIES.
  rewrite (byte_lookup _ 60), (byte_lookup _ 61), (byte_lookup _ 49) by lia. apply wp_bind, wp_ret, wp_bind, wp_ret, wp_bind, wp_ret. rewrite Ecap.
  apply wp_bind, wp_modify. destruct (_ || _) eqn:Ebad; [by apply (Hend (capacity d0) false); [|by right| |right]|].
  apply orb_false_iff in Ebad as [_ Ez]. apply Z.eqb_neq in Ez.
  assert (0 <= capacity d0) by (unfold capacity; lia).
  apply wp_bind, wp_modify. change (ATA_LBA28_MAX + 1) with 0x10000000.
  assert ((if 0x10000000 <? capacity d0 then 0x10000000 else capacity d0) = Z.min (capacity d0) 0x10000000) as -> by (destruct (Z.ltb_spec 0x10000000 (capacity d0)); lia).
  apply (Hend (Z.min (capacity d0) 0x10000000) true); [done|by right|intros _; lia|]. left. split; [done|]. split; [done|]. split; [done|lia].
Qed.

(** ** The driver under the block layer *)

Definition free s : Prop := wf s /\ operation_busy s = false.
Definition total s : Z := if device_ready s then device_sector_count s else 0.
Definition holds s (lba : Z) (l : list Z) : Prop := l = sectors (disk s) lba (zlength l / 512).

Lemma sectors_same d d' lba n : (forall k, lba <= k < lba + n -> dv_sector d' k = dv_sector d k) -> sectors d' lba n = sectors d lba n.
Proof. intros H. unfold sectors. do 2 f_equal. apply map_ext_in. intros k Hk. apply H. by apply list_elem_of_In, elem_of_seqZ in Hk. Qed.

Lemma total_range s lba n : wf s -> 0 <= n -> lba + n <= total s -> 0 <= lba -> lba + n <= dv_total (disk s) /\ lba + n <= 0x10000000.
Proof.
  intros Hwf Hn. unfold total. destruct (device_ready s) eqn:E; [destruct (wf_count s Hwf E); lia|].
  pose proof (dv_total_range _ (wf_inv s Hwf)). lia.
Qed.

Lemma total_in_range s lba n : 1 <= n <= 255 -> 0 <= lba -> lba + n <= total s -> in_range s lba n.
Proof. unfold total, in_range. destruct (device_ready s); [done|lia]. Qed.

#[local] Obligation Tactic := idtac.

#[export] Program Instance ata_sectors : Sectors (state D) := {|
  sec_count := ata_sector_count;
  sec_read lba n buffer := ata_read_sectors lba n true buffer;
  sec_write lba n buffer := ata_write_sectors lba n true buffer;
  sec_inv := free;
  sec_healthy s := dv_healthy (disk s);
  sec_total := total;
  sec_data := holds
|}.
Next Obligation.
  intros s [Hwf _]. unfold total. destruct (device_ready s) eqn:E; [|lia]. destruct (wf_count s Hwf E). lia.
Qed.
Next Obligation.
  intros s lba n [Hwf _] Hl Hn Ht. destruct (total_range s lba n) as [Hd _]; [done..|]. exists (sectors (disk s) lba n).
  pose proof (zlength_sectors (disk s) lba n (wf_inv s Hwf) Hl Hn Hd) as Hz. split; [done|]. split; [apply bytes_words_bytes|].
  unfold holds. by rewrite Hz, Z.div_mul by lia.
Qed.
Next Obligation. intros s lba l l' H1 H2 Hl. unfold holds, zlength in *. rewrite Hl in H1. congruence. Qed.
Next Obligation. intros s _. by apply wp_gets. Qed.
Next Obligation.
  intros lba n b s [Hwf Hbusy] Hl Hn Ht Hz Hb. destruct (total_range s lba n) as [Hd Hm]; [done|lia|done|done|].
  pose proof (total_in_range s lba n Hn Hl Ht) as Hin.
  eapply wp_mono; [apply (ata_read_ok s lba n b); [done|lia|lia|done|done]|].
  intros [r b'] s' [Hwf' [(? & _)|[(_ & ? & _)|(_ & _ & Hz' & Hb' & (d' & -> & K) & Hr)]]]; [done|congruence|]. cbn [fst snd].
  split; [by split|]. split; [done|]. split; [intros Hh; split; [by apply K|]; by destruct Hr as [[? _]|[_ ?]]|].
  split; [|split; [done|split; [done|split; [destruct Hr as [[-> _]|[-> _]]; done|]]]].
  - intros k l El. unfold holds in *. rewrite El at 1. symmetry. apply sectors_same. intros j _. apply (k_sectors _ _ _ K). by intros [].
  - intros ->. destruct Hr as [[_ ->]|[? _]]; [|done]. unfold holds. rewrite zlength_sectors, Z.div_mul by (done || lia || apply Hwf). done.
Qed.
Next Obligation.
  intros lba n b s [Hwf Hbusy] Hl Hn Ht Hz Hb. destruct (total_range s lba n) as [Hd Hm]; [done|lia|done|done|].
  pose proof (total_in_range s lba n Hn Hl Ht) as Hin.
  eapply wp_mono; [apply (ata_write_ok s lba n b); [done|lia|lia|done|done]|].
  intros r s' [Hwf' [(? & _)|[(_ & ? & _)|(_ & _ & (d' & -> & K) & Hr)]]]; [done|congruence|].
  split; [by split|]. split; [done|]. split; [intros Hh; split; [by apply K|]; by destruct Hr as [[? _]|[_ ?]]|].
  split; [destruct Hr as [[-> _]|[-> _]]; done|]. split.
  - intros k l El Hdis. unfold holds in *. rewrite El at 1. symmetry. apply sectors_same. intros j Hj. apply (k_sectors _ _ _ K). unfold within_sectors. lia.
  - intros ->. destruct Hr as [[_ E]|[? _]]; [|done]. unfold holds. rewrite Hz, Z.div_mul by lia. done.
Qed.

End spec.

End AtaSpec.
