(* ===== verification/AtaDemo.v ===== *)
(** * A drive of 64 sectors

    A drive that answers every poll at once; it obeys [AtaDrive], so the driver
    and the block layer work on it. *)

From S2P Require Import Prelude Monad Interfaces Bytes Cpu Block Ata AtaSpec.

Module AtaDemo.
Import Block Ata AtaSpec.

Record drive := Drive { d_view : view; d_data : gmap Z (list Z) }.

Definition empty_sector : list Z := replicate 256 0.
Definition sector_of (m : gmap Z (list Z)) (k : Z) : list Z := default empty_sector (m !! k).

(** Word 49 announces LBA, words 60 and 61 the capacity. *)
Definition identity : list Z := <[60%nat := 64]> (<[49%nat := ATA_CAPABILITY_LBA]> (replicate 256 0)).

Definition store_sectors (lba n : Z) (ws : list Z) (m : gmap Z (list Z)) : gmap Z (list Z) :=
  foldr (fun i m => <[lba + i := slice ws (i * 256) 256]> m) m (seqZ 0 n).

Definition demo_in8 (port : Z) : M drive Z := fun d =>
  let w := d_view d in
  if negb (port =? ATA_STATUS_COMMAND_PORT) then Ret 0x50 d else
  if complete (job w) then
    Ret 0x50 (Drive (View (regs w) Idle false 0)
      (match job w with Outgoing lba n ws => store_sectors lba n ws (d_data d) | _ => d_data d end))
  else Ret 0x58 (Drive (View (regs w) (job w) true 0) (d_data d)).

Definition demo_out8 (port v : Z) : M drive unit := fun d =>
  let w := d_view d in let r := regs w in
  Ret tt (Drive (if port =? ATA_STATUS_COMMAND_PORT then
    View r (if v =? ATA_COMMAND_READ_SECTORS then Incoming (concat (map (sector_of (d_data d)) (seqZ (addressed r) (r_count r))))
       else if v =? ATA_COMMAND_WRITE_SECTORS then Outgoing (addressed r) (r_count r) []
       else if v =? ATA_COMMAND_IDENTIFY then Incoming identity else Idle) false 0
    else View (write_register port v r) (job w) (drq w) (polls w)) (d_data d)).

Definition demo_in16 (port : Z) : M drive Z := fun d =>
  let w := d_view d in
  match job w with
  | Incoming (x :: xs) => Ret x (Drive (View (regs w) (incoming xs) (negb (zlength xs mod 256 =? 0)) (polls w)) (d_data d))
  | _ => Ret 0 d
  end.

Definition demo_out16 (port v : Z) : M drive unit := fun d =>
  let w := d_view d in
  match job w with
  | Outgoing lba n ws =>
      Ret tt (Drive (View (regs w) (Outgoing lba n (ws ++ [v])) (negb ((zlength ws + 1) mod 256 =? 0)) (polls w)) (d_data d))
  | _ => Ret tt d
  end.

#[export] Instance demo_ports : AtaPorts drive := {| at_in8 := demo_in8; at_out8 := demo_out8; at_in16 := demo_in16; at_out16 := demo_out16 |}.

Definition word16 (w : Z) : Prop := 0 <= w < 65536.
Definition sector_ok (l : list Z) : Prop := zlength l = 256 /\ Forall word16 l.
Definition drive_inv (d : drive) : Prop :=
  polls (d_view d) = 0 /\ map_Forall (fun _ => sector_ok) (d_data d) /\
  match job (d_view d) with Outgoing _ _ ws => Forall word16 ws | _ => True end.

Lemma sector_of_ok m k : map_Forall (fun _ => sector_ok) m -> sector_ok (sector_of m k).
Proof.
  intros H. unfold sector_of. destruct (m !! k) eqn:E; [by apply (H k)|]. split; [done|]. apply Forall_replicate. unfold word16. lia.
Qed.

Lemma stored_ok lba n ws m : map_Forall (fun _ => sector_ok) m -> Forall word16 ws -> zlength ws = n * 256 ->
  map_Forall (fun _ => sector_ok) (store_sectors lba n ws m) /\
  (forall k, ~ lba <= k < lba + n -> sector_of (store_sectors lba n ws m) k = sector_of m k) /\
  (forall i, 0 <= i < n -> sector_of (store_sectors lba n ws m) (lba + i) = slice ws (i * 256) 256).
Proof.
  intros Hm Hw Hl. unfold store_sectors.
  assert (forall l, (forall i, i ∈ l -> 0 <= i < n) -> NoDup l ->
    let m' := foldr (fun i m => <[lba + i := slice ws (i * 256) 256]> m) m l in
    map_Forall (fun _ => sector_ok) m' /\ (forall k, (k - lba) ∉ l -> sector_of m' k = sector_of m k) /\
    (forall i, i ∈ l -> sector_of m' (lba + i) = slice ws (i * 256) 256)) as H.
  { intros l. induction l as [|j l IH]; intros Hin Hnd; cbn [foldr].
    - split; [done|]. split; [done|]. intros i Hi. by apply not_elem_of_nil in Hi.
    - apply NoDup_cons in Hnd as [Hnj Hnd]. destruct IH as (I1 & I2 & I3); [intros i Hi; apply Hin; by right|done|].
      assert (0 <= j < n) as Hj by (apply Hin; by left). split; [|split].
      + apply map_Forall_insert_2; [|done]. split; [apply zlength_slice; lia|]. by apply Forall_take, Forall_drop.
      + intros k Hk. apply not_elem_of_cons in Hk as [Hkj Hk]. unfold sector_of. rewrite lookup_insert_ne by lia. by apply I2.
      + intros i Hi. unfold sector_of. destruct (decide (i = j)) as [->|Hij]; [by rewrite lookup_insert_eq|].
        rewrite lookup_insert_ne by lia. apply I3. by apply elem_of_cons in Hi as [?|?]. }
  destruct (H (seqZ 0 n)) as (H1 & H2 & H3); [intros i Hi; apply elem_of_seqZ in Hi; lia|apply NoDup_seqZ|].
  split; [done|]. split; [intros k Hk; apply H2; rewrite elem_of_seqZ; lia|]. intros i Hi. apply H3. rewrite elem_of_seqZ. lia.
Qed.

#[local] Obligation Tactic := idtac.

#[export] Program Instance demo_drive : AtaDrive drive := {|
  dv_inv := drive_inv;
  dv_healthy _ := True;
  dv_view := d_view;
  dv_total _ := 64;
  dv_sector d k := sector_of (d_data d) k;
  dv_identify _ := identity
|}.
Next Obligation. intros. cbn. lia. Qed.
Next Obligation. intros d (Hp & _). cbn. lia. Qed.
Next Obligation. intros d k (_ & Hm & _) _. by apply sector_of_ok. Qed.
Next Obligation.
  intros d _. split; [done|]. split; [|vm_compute; intros H; discriminate H].
  apply Forall_insert; [apply Forall_insert; [apply Forall_replicate; lia|unfold ATA_CAPABILITY_LBA; lia]|lia].
Qed.
Next Obligation. intros d (-> & _) _. unfold ATA_POLL_LIMIT. lia. Qed.
Next Obligation. intros d Hd. unfold wp. cbn. split; [exact Hd|done]. Qed.
Next Obligation.
  intros [[r j q p] m] (Hp & Hm & Hj). cbn in Hp, Hm, Hj. subst p. unfold wp. cbn [at_in8 demo_ports]. unfold demo_in8.
  rewrite Z.eqb_refl. cbn [negb d_view d_data job regs]. destruct (complete j) eqn:Ec.
  - destruct j as [|xs|lba n ws]; [|done|].
    { split; [by split|]. split; [done|]. split; [done|]. split; [done|]. split; [done|]. split; [done|]. by intros. }
    apply Z.eqb_eq in Ec. destruct (stored_ok lba n ws m Hm Hj Ec) as (S1 & S2 & S3).
    split; [by split|]. split; [done|]. split; [done|]. split; [done|]. split; [|split].
    + intros k Hk. apply S2. intros Hr. by apply Hk.
    + unfold answered. cbn. rewrite Ec, Z.eqb_refl. by split.
    + cbn. intros ? ? ? [= <- <- <-] _ _. exact S3.
  - split; [by split|]. split; [done|]. split; [done|]. split; [done|]. split; [done|]. split.
    + unfold answered. cbn [d_view regs job polls drq]. rewrite Ec. by split.
    + cbn. intros lba n ws -> Hl. cbn in Ec. rewrite Hl, Z.eqb_refl in Ec. done.
Qed.
Next Obligation.
  intros port v [w m] (Hp & Hm & Hj) Hport Hv. unfold wp. cbn. unfold demo_out8.
  assert ((port =? ATA_STATUS_COMMAND_PORT) = false) as ->.
  { apply Z.eqb_neq. destruct Hport as [->|[->|[->|[->| ->]]]]; done. }
  split; [by split|done].
Qed.
Next Obligation.
  intros c [w m] (Hp & Hm & Hj) Hidle _ r _ Hc. unfold wp. cbn [at_out8 demo_ports]. unfold demo_out8. rewrite Z.eqb_refl. cbn [d_view d_data].
  split; [|done]. split; [done|]. split; [done|]. cbn. destruct (c =? _); [done|]. destruct (c =? _); [constructor|]. by destruct (c =? _).
Qed.
Next Obligation.
  intros [v m] w ws (Hp & Hm & Hj) Hq Ej. unfold wp. cbn in *. unfold demo_in16. cbn. rewrite Ej. split; [|done]. split; [done|]. split; [done|]. cbn. by destruct ws.
Qed.
Next Obligation.
  intros [w m] v lba n ws (Hp & Hm & Hj) Hq Ej Hl Hv. unfold wp. cbn in *. unfold demo_out16. cbn. rewrite Ej in *. split; [|done].
  split; [done|]. split; [done|]. cbn. apply Forall_app. split; [done|]. apply Forall_singleton. exact Hv.
Qed.

(** ** Requests *)

Definition power_on : state drive := State (Drive (View (Registers 0 0 0 0 0) Idle false 0) ∅) (Cpu.State 0x202) 0 false false.
Definition ready : state drive := State (Drive (View (Registers 0 0 0 0 0) Idle false 0) ∅) (Cpu.State 0x202) 64 true false.

Lemma ready_wf : wf ready.
Proof. split; [done|by split|by right|]. intros _. cbn. lia. Qed.

Definition pattern : list Z := replicate 512 0xA5.

Lemma pattern_bytes : bytes pattern.
Proof. apply Forall_replicate. lia. Qed.



(** Start-up, a write and a read; the last sector and the one behind it. *)
Example sectors_travel :
  match (let! i := ata_init in
         let! w := ata_write_sectors 63 1 true pattern in
         let! r := ata_read_sectors 63 1 true (replicate 512 0) in
         let! e := ata_read_sectors 63 2 true (replicate 1024 0) in
         let! n := ata_sector_count in ret (i, w, r, fst e, n)) power_on with
  | Ret x _ => x = (0, 0, (0, pattern), - EINVAL, 64)
  | _ => False
  end.
Proof. vm_compute. reflexivity. Qed.

(** The block layer runs on the driver. *)
Definition blocks : BlockDevice (Block.state (Ata.state drive)) := Block.block_device.

End AtaDemo.
