(* ===== verification/MiniFs.v ===== *)
(** * MiniFS, kernel/fs/minifs.c

    The file system: superblock and its checksum, block and inode bitmaps, the
    inode table, files with ten direct blocks and one indirect block,
    directories of 64-byte entries, paths, and the locked entry points. The disk
    is reached through [BlockDevice]; the place and size of the volume come from
    a generated header and are section variables. Numbers returned by the C
    functions are kept: a negative [Z] is an error code. *)

From S2P Require Import Prelude Monad Interfaces Bytes Cpu Block.

Module MiniFs.

Definition ENOENT : Z := 2.
Definition EAGAIN : Z := 11.
Definition EEXIST : Z := 17.
Definition ENOTDIR : Z := 20.
Definition EISDIR : Z := 21.
Definition ENOSPC : Z := 28.
Definition ENOTEMPTY : Z := 39.
Definition EIO : Z := MINIOS_EIO.

Definition MINIFS_MAGIC : Z := 0x3153464D.
Definition MINIFS_VERSION : Z := 1.
Definition MINIFS_BLOCK_SIZE : Z := 4096.
Definition MINIFS_INODE_SIZE : Z := 64.
Definition MINIFS_DIRECTORY_ENTRY_SIZE : Z := 64.
Definition MINIFS_DIRECT_COUNT : Z := 10.
Definition MINIFS_INDIRECT_COUNT : Z := 1024.
Definition MINIFS_NAME_MAX : Z := 58.
Definition MINIFS_DIRECTORY_NAME_BYTES : Z := 59.
Definition MINIFS_PATH_MAX : Z := 256.
Definition MINIFS_MODE_REGULAR : Z := 1.
Definition MINIFS_MODE_DIRECTORY : Z := 2.
Definition MINIFS_ENTRY_UNUSED : Z := 0.
Definition MINIFS_ENTRY_REGULAR : Z := 1.
Definition MINIFS_ENTRY_DIRECTORY : Z := 2.
Definition MINIFS_CRC32_POLYNOMIAL : Z := 0xEDB88320.
Definition MINIFS_BITMAP_BITS_PER_BLOCK : Z := 32768.
Definition MINIFS_INODES_PER_BLOCK : Z := 64.
Definition MINIFS_ENTRIES_PER_BLOCK : Z := 64.
Definition MINIFS_MAX_FILE_BLOCKS : Z := 1034.
Definition MINIFS_MAX_FILE_SIZE : Z := MINIFS_MAX_FILE_BLOCKS * MINIFS_BLOCK_SIZE.

(** An out parameter that is set only on success. *)
Inductive result (A : Type) := Err (status : Z) | Ok (a : A).
Arguments Err {A} status.
Arguments Ok {A} a.

Record superblock := Superblock {
  total_blocks : Z; total_inodes : Z;
  block_bitmap_start : Z; block_bitmap_blocks : Z;
  inode_bitmap_start : Z; inode_bitmap_blocks : Z;
  inode_table_start : Z; inode_table_blocks : Z;
  data_start : Z; root_inode : Z
}.

Record inode := Inode {
  mode : Z; link_count : Z; size : Z; direct : list Z; indirect : Z;
  created_tick : Z; modified_tick : Z
}.

Record directory_record := DirectoryRecord {
  rec_inode : Z; rec_offset : Z; rec_type : Z; rec_name : list Z
}.

Record minifs_stat := Stat { st_inode : Z; st_mode : Z; st_link_count : Z; st_size : Z }.

Record minifs_dirent := Dirent { de_inode : Z; de_mode : Z; de_name_length : Z; de_name : list Z }.

Definition set_link_count (v : Z) (i : inode) : inode :=
  Inode (mode i) v (size i) (direct i) (indirect i) (created_tick i) (modified_tick i).
Definition set_size (v : Z) (i : inode) : inode :=
  Inode (mode i) (link_count i) v (direct i) (indirect i) (created_tick i) (modified_tick i).
Definition set_direct (k v : Z) (i : inode) : inode :=
  Inode (mode i) (link_count i) (size i) (<[Z.to_nat k := v]> (direct i)) (indirect i) (created_tick i) (modified_tick i).
Definition set_indirect (v : Z) (i : inode) : inode :=
  Inode (mode i) (link_count i) (size i) (direct i) v (created_tick i) (modified_tick i).
Definition direct_at (i : inode) (k : Z) : Z := default 0 (direct i !! Z.to_nat k).

(** ** Encodings *)

Definition divide_round_up (value divisor : Z) : Z :=
  if value =? 0 then 0 else (value - 1) / divisor + 1.

(** One byte of the checksum: eight shifts of the reflected polynomial. *)
Definition crc_bit (crc : Z) : Z :=
  let mask := 0 -u Z.land crc 1 in
  Z.lxor (Z.shiftr crc 1) (Z.land MINIFS_CRC32_POLYNOMIAL mask).
Definition crc_byte (crc value : Z) : Z := Nat.iter 8 crc_bit (Z.lxor crc value).

Fixpoint crc_from (index : Z) (block : list Z) (crc : Z) : Z :=
  match block with
  | [] => crc
  | b :: block' =>
      let value := if (52 <=? index) && (index <? 52 + 4) then 0 else b in
      crc_from (index + 1) block' (crc_byte crc value)
  end.

Definition superblock_crc32 (block : list Z) : Z := not32 (crc_from 0 block UINT32_MAX).

Definition superblock_reserved_zero (block : list Z) : bool :=
  forallb (fun b => b =? 0) (drop 56 block).

Definition decode_inode (source : list Z) : option inode :=
  let reserved := read_le32 source 60 in
  let i := Inode (read_le16 source 0) (read_le16 source 2) (read_le32 source 4)
             (map (fun k => read_le32 source (8 + Z.of_nat k * 4)) (seq 0 10))
             (read_le32 source 48) (read_le32 source 52) (read_le32 source 56) in
  if (negb (mode i =? MINIFS_MODE_REGULAR) && negb (mode i =? MINIFS_MODE_DIRECTORY)) ||
     (link_count i =? 0) || (MINIFS_MAX_FILE_SIZE <? size i) || negb (reserved =? 0) ||
     ((mode i =? MINIFS_MODE_DIRECTORY) &&
      ((size i =? 0) || negb (size i mod MINIFS_DIRECTORY_ENTRY_SIZE =? 0)))
  then None else Some i.

(** The 64 bytes [encode_inode] leaves behind. *)
Definition encode_direct (i : inode) (record : list Z) : list Z :=
  fold_left (fun r k => write_le32 r (8 + Z.of_nat k * 4) (direct_at i (Z.of_nat k))) (seq 0 10) record.

Definition encode_inode (i : inode) : list Z :=
  let r := replicate 64 0 in
  let r := write_le16 r 0 (mode i) in
  let r := write_le16 r 2 (link_count i) in
  let r := write_le32 r 4 (size i) in
  let r := encode_direct i r in
  let r := write_le32 r 48 (indirect i) in
  let r := write_le32 r 52 (created_tick i) in
  write_le32 r 56 (modified_tick i).

Definition clear_inode : inode := Inode MINIFS_MODE_REGULAR 1 0 (replicate 10 0) 0 0 0.

Definition inode_pointer_shape_valid (i : inode) : bool :=
  let required_blocks := divide_round_up (size i) MINIFS_BLOCK_SIZE in
  let direct_required := if MINIFS_DIRECT_COUNT <? required_blocks then MINIFS_DIRECT_COUNT else required_blocks in
  forallb (fun index =>
    negb (((index <? direct_required) && (direct_at i index =? 0)) ||
          ((direct_required <=? index) && negb (direct_at i index =? 0)))) (seqZ 0 10) &&
  (((MINIFS_DIRECT_COUNT <? required_blocks) && negb (indirect i =? 0)) ||
   ((required_blocks <=? MINIFS_DIRECT_COUNT) && (indirect i =? 0))).

Fixpoint name_bytes_valid (index : Z) (terminated : bool) (name : list Z) : bool :=
  match name with
  | [] => terminated
  | value :: name' =>
      if negb terminated then
        if value =? 0 then (if index =? 0 then false else name_bytes_valid (index + 1) true name')
        else if (0x7F <? value) || (value =? 47) then false
        else name_bytes_valid (index + 1) false name'
      else if negb (value =? 0) then false
      else name_bytes_valid (index + 1) true name'
  end.

Definition directory_name_valid (name : list Z) : bool := name_bytes_valid 0 false name.

Definition directory_name_equal (entry_name component : list Z) : bool :=
  let length := zlength component in
  if (MINIFS_NAME_MAX <? length) || negb (byte_at entry_name length =? 0) then false
  else forallb (fun index => byte_at entry_name index =? byte_at component index) (seqZ 0 length).

Definition directory_entry_unused (entry : list Z) : bool := forallb (fun b => b =? 0) entry.

Definition encode_directory_entry (child_number entry_type : Z) (name : list Z) : list Z :=
  let e := replicate 64 0 in
  let e := write_le32 e 0 child_number in
  let e := splice e 4 [entry_type] in
  splice e 5 name.

(** ** Paths *)

Definition bounded_path_length (path : list Z) : result Z :=
  if negb (byte_at path 0 =? 47) then Err (- EINVAL)
  else if MINIFS_PATH_MAX <=? zlength path then Err (- EINVAL)
  else if zlength path =? 0 then Err (- EINVAL) else Ok (zlength path).

(** [while (index < path_length && path[index] == '/') ++index]. *)
Fixpoint skip_slashes (n : nat) (path : list Z) (index : Z) : Z :=
  match n with
  | O => index
  | S n' => if (index <? zlength path) && (byte_at path index =? 47) then skip_slashes n' path (index + 1) else index
  end.

(** The end of the component at [index], or [None] for a byte above 0x7F. *)
Fixpoint scan_component (n : nat) (path : list Z) (index : Z) : option Z :=
  match n with
  | O => Some index
  | S n' =>
      if (index <? zlength path) && negb (byte_at path index =? 47) then
        if 0x7F <? byte_at path index then None else scan_component n' path (index + 1)
      else Some index
  end.

Definition is_dot (component : list Z) : bool := (zlength component =? 1) && (byte_at component 0 =? 46).
Definition is_dot_dot (component : list Z) : bool :=
  (zlength component =? 2) && (byte_at component 0 =? 46) && (byte_at component 1 =? 46).

(** The name up to its terminator, at most [n] bytes. *)
Fixpoint until_zero (n : nat) (name : list Z) : list Z :=
  match n, name with
  | S n', c :: name' => if c =? 0 then [] else c :: until_zero n' name'
  | _, _ => []
  end.

Section minifs.
Context {E : Type} `{!BlockDevice E}.
Context (MINIFS_VOLUME_START_BLOCK MINIFS_VOLUME_BLOCK_COUNT : Z).

Record fs := Fs {
  dev : E;
  cpu : Cpu.state;
  mounted_superblock : superblock;
  io_block : list Z;
  auxiliary_block : list Z;
  compare_buffer : list Z;
  mounted : bool;
  operation_busy : bool
}.

Definition set_dev (e : E) (s : fs) : fs :=
  Fs e (cpu s) (mounted_superblock s) (io_block s) (auxiliary_block s) (compare_buffer s) (mounted s) (operation_busy s).
Definition set_cpu (c : Cpu.state) (s : fs) : fs :=
  Fs (dev s) c (mounted_superblock s) (io_block s) (auxiliary_block s) (compare_buffer s) (mounted s) (operation_busy s).
Definition set_superblock (b : superblock) (s : fs) : fs :=
  Fs (dev s) (cpu s) b (io_block s) (auxiliary_block s) (compare_buffer s) (mounted s) (operation_busy s).
Definition set_io (b : list Z) (s : fs) : fs :=
  Fs (dev s) (cpu s) (mounted_superblock s) b (auxiliary_block s) (compare_buffer s) (mounted s) (operation_busy s).
Definition set_auxiliary (b : list Z) (s : fs) : fs :=
  Fs (dev s) (cpu s) (mounted_superblock s) (io_block s) b (compare_buffer s) (mounted s) (operation_busy s).
Definition set_compare (b : list Z) (s : fs) : fs :=
  Fs (dev s) (cpu s) (mounted_superblock s) (io_block s) (auxiliary_block s) b (mounted s) (operation_busy s).
Definition set_mounted (b : bool) (s : fs) : fs :=
  Fs (dev s) (cpu s) (mounted_superblock s) (io_block s) (auxiliary_block s) (compare_buffer s) b (operation_busy s).
Definition set_busy (b : bool) (s : fs) : fs :=
  Fs (dev s) (cpu s) (mounted_superblock s) (io_block s) (auxiliary_block s) (compare_buffer s) (mounted s) b.

#[export] Instance dev_lens : Lens fs E.
Proof. refine {| lget := dev; lset := set_dev |}; by intros; destruct s. Defined.
#[export] Instance cpu_lens : Lens fs Cpu.state.
Proof. refine {| lget := cpu; lset := set_cpu |}; by intros; destruct s. Defined.

Definition sb : M fs superblock := gets mounted_superblock.

(** The [n] bytes at [&block[offset]]; a pointer past the buffer has none. *)
Definition at_offset (block : list Z) (offset n : Z) : M fs (list Z) :=
  if (0 <=? offset) && (offset + n <=? zlength block) then ret (slice block offset n) else fault.

(** Writing [src] to [&io_block[offset]]. *)
Definition write_io (offset : Z) (src : list Z) : M fs unit :=
  let! io := gets io_block in
  if (0 <=? offset) && (offset + zlength src <=? zlength io)
  then modify (set_io (splice io offset src)) else fault.

Definition write_auxiliary (offset : Z) (src : list Z) : M fs unit :=
  let! a := gets auxiliary_block in
  if (0 <=? offset) && (offset + zlength src <=? zlength a)
  then modify (set_auxiliary (splice a offset src)) else fault.

(** ** The lock *)

Definition minifs_acquire : M fs (option Z) :=
  let! flags := zoom Cpu.irq_save_disable in
  let! busy := gets operation_busy in
  if busy : bool then zoom (Cpu.irq_restore flags) ;; ret None
  else modify (set_busy true) ;; ret (Some flags).

Definition minifs_release (irq_flags : Z) : M fs unit :=
  modify (set_busy false) ;; zoom (Cpu.irq_restore irq_flags).

Definition clear_superblock : M fs unit := modify (set_superblock (Superblock 0 0 0 0 0 0 0 0 0 0)).

(** ** Blocks of the volume *)

Definition read_volume_block_into (relative_block : Z) (buffer : list Z) : M fs (Z * list Z) :=
  let! b := sb in
  if (total_blocks b <=? relative_block) || (MINIFS_VOLUME_BLOCK_COUNT <=? relative_block)
  then ret (- EIO, buffer)
  else zoom (bd_read (MINIFS_VOLUME_START_BLOCK +u relative_block) buffer).

Definition read_volume_block (relative_block : Z) : M fs Z :=
  let! buffer := gets io_block in
  let! r := read_volume_block_into relative_block buffer in
  modify (set_io (snd r)) ;; ret (fst r).

Definition read_volume_block_auxiliary (relative_block : Z) : M fs Z :=
  let! buffer := gets auxiliary_block in
  let! r := read_volume_block_into relative_block buffer in
  modify (set_auxiliary (snd r)) ;; ret (fst r).

Definition read_volume_block_compare (relative_block : Z) : M fs Z :=
  let! buffer := gets compare_buffer in
  let! r := read_volume_block_into relative_block buffer in
  modify (set_compare (snd r)) ;; ret (fst r).

Definition write_volume_block_from (relative_block : Z) (buffer : list Z) : M fs Z :=
  let! b := sb in
  if (total_blocks b <=? relative_block) || (MINIFS_VOLUME_BLOCK_COUNT <=? relative_block)
  then ret (- EIO)
  else zoom (bd_write (MINIFS_VOLUME_START_BLOCK +u relative_block) buffer).

Definition write_io_block (relative_block : Z) : M fs Z :=
  let! io := gets io_block in write_volume_block_from relative_block io.
Definition write_auxiliary_block (relative_block : Z) : M fs Z :=
  let! a := gets auxiliary_block in write_volume_block_from relative_block a.

(** ** The superblock *)

Definition decode_superblock (block : list Z) : option superblock :=
  if negb (read_le32 block 0 =? MINIFS_MAGIC) || negb (read_le32 block 4 =? MINIFS_VERSION) ||
     negb (read_le32 block 8 =? MINIFS_BLOCK_SIZE) || negb (read_le32 block 52 =? superblock_crc32 block) ||
     negb (superblock_reserved_zero block) then None else
  let blocks := read_le32 block 12 in
  let inodes := read_le32 block 16 in
  if negb (blocks =? MINIFS_VOLUME_BLOCK_COUNT) || (inodes =? 0) || (UINT32_MAX / MINIFS_INODE_SIZE <? inodes)
  then None else
  let bitmap_blocks := divide_round_up blocks MINIFS_BITMAP_BITS_PER_BLOCK in
  let ibitmap_blocks := divide_round_up inodes MINIFS_BITMAP_BITS_PER_BLOCK in
  let inode_bytes := inodes *u MINIFS_INODE_SIZE in
  let table_blocks := divide_round_up inode_bytes MINIFS_BLOCK_SIZE in
  let expected_inode_bitmap_start := 1 +u bitmap_blocks in
  if expected_inode_bitmap_start <? bitmap_blocks then None else
  let expected_inode_table_start := expected_inode_bitmap_start +u ibitmap_blocks in
  if expected_inode_table_start <? expected_inode_bitmap_start then None else
  let expected_data_start := expected_inode_table_start +u table_blocks in
  if (expected_data_start <? expected_inode_table_start) || (blocks <=? expected_data_start) ||
     negb (read_le32 block 20 =? 1) || negb (read_le32 block 24 =? bitmap_blocks) ||
     negb (read_le32 block 28 =? expected_inode_bitmap_start) || negb (read_le32 block 32 =? ibitmap_blocks) ||
     negb (read_le32 block 36 =? expected_inode_table_start) || negb (read_le32 block 40 =? table_blocks) ||
     negb (read_le32 block 44 =? expected_data_start) || (inodes <=? read_le32 block 48)
  then None
  else Some (Superblock blocks inodes 1 bitmap_blocks expected_inode_bitmap_start ibitmap_blocks
               expected_inode_table_start table_blocks expected_data_start (read_le32 block 48)).

(** ** Bitmaps *)

Definition bitmap_bit_set (start_block block_count_value bit : Z) : M fs bool :=
  let bitmap_block := bit / MINIFS_BITMAP_BITS_PER_BLOCK in
  let within_block := bit mod MINIFS_BITMAP_BITS_PER_BLOCK in
  if block_count_value <=? bitmap_block then ret false else
  let! r := read_volume_block (start_block +u bitmap_block) in
  if negb (r =? 0) then ret false else
  let! io := gets io_block in
  let! byte := access (io !! Z.to_nat (within_block / 8)) in
  ret (negb (Z.land byte (bit_mask (within_block mod 8)) =? 0)).

Definition bitmap_update (start_block block_count_value bit : Z) (value : bool) : M fs Z :=
  let bitmap_block := bit / MINIFS_BITMAP_BITS_PER_BLOCK in
  let within_block := bit mod MINIFS_BITMAP_BITS_PER_BLOCK in
  if block_count_value <=? bitmap_block then ret (- EIO) else
  let! r := read_volume_block (start_block +u bitmap_block) in
  if negb (r =? 0) then ret (- EIO) else
  let! io := gets io_block in
  let! byte := access (io !! Z.to_nat (within_block / 8)) in
  modify (set_io (<[Z.to_nat (within_block / 8) := byte_set_bit byte (within_block mod 8) value]> io)) ;;
  write_io_block (start_block +u bitmap_block).

(** The scan keeps the bitmap block it is in loaded in [io_block]. *)
Definition allocate_step (start_block block_count_value limit : Z) (x : Z * Z) : M fs (Z * Z + result Z) :=
  let '(bit, loaded_block) := x in
  if negb (bit <? limit) then ret (inr (Err (- ENOSPC))) else
  let bitmap_block := bit / MINIFS_BITMAP_BITS_PER_BLOCK in
  let within_block := bit mod MINIFS_BITMAP_BITS_PER_BLOCK in
  if block_count_value <=? bitmap_block then ret (inr (Err (- EIO))) else
  let! r := (if negb (bitmap_block =? loaded_block) then read_volume_block (start_block +u bitmap_block) else ret 0) in
  if negb (r =? 0) then ret (inr (Err (- EIO))) else
  let! io := gets io_block in
  let! byte := access (io !! Z.to_nat (within_block / 8)) in
  if Z.land byte (bit_mask (within_block mod 8)) =? 0 then
    modify (set_io (<[Z.to_nat (within_block / 8) := byte_set_bit byte (within_block mod 8) true]> io)) ;;
    let! w := write_io_block (start_block +u bitmap_block) in
    if negb (w =? 0) then ret (inr (Err (- EIO))) else ret (inr (Ok bit))
  else ret (inl (bit + 1, bitmap_block)).

Definition allocate_bitmap_bit (start_block block_count_value first limit : Z) : M fs (result Z) :=
  if limit <=? first then ret (Err (- EINVAL)) else
  while_ (S (Z.to_nat (limit - first))) (allocate_step start_block block_count_value limit) (first, UINT32_MAX).

(** ** Inodes *)

Definition read_inode_internal (number : Z) : M fs (result inode) :=
  let! b := sb in
  if total_inodes b <=? number then ret (Err (- EINVAL)) else
  let! used := bitmap_bit_set (inode_bitmap_start b) (inode_bitmap_blocks b) number in
  if negb used then ret (Err (- EIO)) else
  let table_block := number / MINIFS_INODES_PER_BLOCK in
  let inode_index := number mod MINIFS_INODES_PER_BLOCK in
  if inode_table_blocks b <=? table_block then ret (Err (- EIO)) else
  let! r := read_volume_block (inode_table_start b +u table_block) in
  if negb (r =? 0) then ret (Err (- EIO)) else
  let! io := gets io_block in
  let! record := at_offset io (inode_index * MINIFS_INODE_SIZE) MINIFS_INODE_SIZE in
  match decode_inode record with
  | Some i => if inode_pointer_shape_valid i then ret (Ok i) else ret (Err (- EIO))
  | None => ret (Err (- EIO))
  end.

(** The table block of an inode, changed by [record]. *)
Definition write_inode_record (number : Z) (record : list Z) : M fs Z :=
  let! b := sb in
  let table_block := number / MINIFS_INODES_PER_BLOCK in
  let inode_index := number mod MINIFS_INODES_PER_BLOCK in
  if inode_table_blocks b <=? table_block then ret (- EIO) else
  let! r := read_volume_block (inode_table_start b +u table_block) in
  if negb (r =? 0) then ret (- EIO) else
  write_io (inode_index * MINIFS_INODE_SIZE) record ;;
  write_io_block (inode_table_start b +u table_block).

Definition write_inode_internal (number : Z) (i : inode) : M fs Z :=
  let! b := sb in
  if (total_inodes b <=? number) || negb (inode_pointer_shape_valid i) then ret (- EINVAL) else
  write_inode_record number (encode_inode i).

Definition allocate_inode : M fs (result Z) :=
  let! b := sb in
  allocate_bitmap_bit (inode_bitmap_start b) (inode_bitmap_blocks b) 1 (total_inodes b).

Definition free_inode (inode_number : Z) : M fs Z :=
  let! b := sb in
  if (inode_number =? root_inode b) || (total_inodes b <=? inode_number) then ret (- EINVAL) else
  bitmap_update (inode_bitmap_start b) (inode_bitmap_blocks b) inode_number false.

Definition clear_inode_record (inode_number : Z) : M fs Z :=
  let! b := sb in
  if (inode_number =? root_inode b) || (total_inodes b <=? inode_number) then ret (- EINVAL) else
  write_inode_record inode_number (replicate 64 0).

(** ** Data blocks *)

Definition data_block_valid (b : superblock) (block : Z) : bool :=
  (data_start b <=? block) && (block <? total_blocks b).

Definition data_block_allocated (block : Z) : M fs bool :=
  let! b := sb in
  if data_block_valid b block then bitmap_bit_set (block_bitmap_start b) (block_bitmap_blocks b) block
  else ret false.

Definition allocate_block : M fs (result Z) :=
  let! b := sb in
  let! r := allocate_bitmap_bit (block_bitmap_start b) (block_bitmap_blocks b) (data_start b) (total_blocks b) in
  match r with
  | Err status => ret (Err status)
  | Ok block =>
      modify (set_auxiliary (replicate 4096 0)) ;;
      let! w := write_auxiliary_block block in
      if negb (w =? 0) then
        bitmap_update (block_bitmap_start b) (block_bitmap_blocks b) block false ;;
        ret (Err (- EIO))
      else ret (Ok block)
  end.

Definition free_block (block : Z) : M fs Z :=
  let! b := sb in
  if negb (data_block_valid b block) then ret (- EINVAL) else
  bitmap_update (block_bitmap_start b) (block_bitmap_blocks b) block false.

(** The pointer to [file_block], from the inode or its indirect block. *)
Definition block_pointer (i : inode) (file_block : Z) : M fs (result Z) :=
  if file_block <? MINIFS_DIRECT_COUNT then ret (Ok (direct_at i file_block)) else
  let indirect_index := file_block - MINIFS_DIRECT_COUNT in
  let! used := data_block_allocated (indirect i) in
  if negb used then ret (Err (- EIO)) else
  if MINIFS_INDIRECT_COUNT <=? indirect_index then ret (Err (- EIO)) else
  let! r := read_volume_block (indirect i) in
  if negb (r =? 0) then ret (Err (- EIO)) else
  let! io := gets io_block in
  let! word := at_offset io (indirect_index * 4) 4 in
  ret (Ok (read_le32 word 0)).

Definition inode_block_at (i : inode) (file_block : Z) : M fs (result Z) :=
  let required_blocks := divide_round_up (size i) MINIFS_BLOCK_SIZE in
  if required_blocks <=? file_block then ret (Err (- EINVAL)) else
  let! p := block_pointer i file_block in
  match p with
  | Err status => ret (Err status)
  | Ok block =>
      let! used := data_block_allocated block in
      if negb used then ret (Err (- EIO)) else ret (Ok block)
  end.

(** [inode_block_at] and then the block itself, as the callers chain them. *)
Definition load_file_block (i : inode) (file_block : Z) : M fs (option Z) :=
  let! p := inode_block_at i file_block in
  match p with
  | Err _ => ret None
  | Ok disk_block =>
      let! r := read_volume_block disk_block in
      if negb (r =? 0) then ret None else ret (Some disk_block)
  end.

(** ** Directories *)

(** One entry of a directory block: [None] to go on with the next one. *)
Definition find_in_entry (component : list Z) (file_block index : Z) : M fs (option (result directory_record)) :=
  let! b := sb in
  let! io := gets io_block in
  let! entry := at_offset io (index * MINIFS_DIRECTORY_ENTRY_SIZE) MINIFS_DIRECTORY_ENTRY_SIZE in
  let child := read_le32 entry 0 in
  let entry_type := byte_at entry 4 in
  let name := slice entry 5 MINIFS_DIRECTORY_NAME_BYTES in
  if entry_type =? MINIFS_ENTRY_UNUSED then
    (if negb (directory_entry_unused entry) then ret (Some (Err (- EIO))) else ret None)
  else if (negb (entry_type =? MINIFS_ENTRY_REGULAR) && negb (entry_type =? MINIFS_ENTRY_DIRECTORY)) ||
          (total_inodes b <=? child) || negb (directory_name_valid name) then ret (Some (Err (- EIO)))
  else if directory_name_equal name component then
    let! c := read_inode_internal child in
    match c with
    | Err _ => ret (Some (Err (- EIO)))
    | Ok child_inode =>
        if ((entry_type =? MINIFS_ENTRY_DIRECTORY) && negb (mode child_inode =? MINIFS_MODE_DIRECTORY)) ||
           ((entry_type =? MINIFS_ENTRY_REGULAR) && negb (mode child_inode =? MINIFS_MODE_REGULAR))
        then ret (Some (Err (- EIO)))
        else ret (Some (Ok (DirectoryRecord child
               (file_block *u MINIFS_BLOCK_SIZE +u index *u MINIFS_DIRECTORY_ENTRY_SIZE) entry_type name)))
    end
  else ret None.

Definition find_in_block (directory : inode) (component : list Z) (x : Z * Z)
    : M fs (Z * Z + result directory_record) :=
  let '(remaining_entries, file_block) := x in
  if negb (0 <? remaining_entries) then ret (inr (Err (- ENOENT))) else
  let! p := load_file_block directory file_block in
  match p with
  | None => ret (inr (Err (- EIO)))
  | Some _ =>
      let entries := Z.min remaining_entries MINIFS_ENTRIES_PER_BLOCK in
      let! found := for_until (Z.to_nat entries) 0 (find_in_entry component file_block) in
      match found with
      | Some r => ret (inr r)
      | None => ret (inl (remaining_entries - entries, file_block + 1))
      end
  end.

Definition directory_find_internal (directory : inode) (component : list Z) : M fs (result directory_record) :=
  if negb (mode directory =? MINIFS_MODE_DIRECTORY) || (zlength component =? 0) ||
     (MINIFS_NAME_MAX <? zlength component) then ret (Err (- EINVAL)) else
  let remaining_entries := size directory / MINIFS_DIRECTORY_ENTRY_SIZE in
  while_ (S (Z.to_nat remaining_entries)) (find_in_block directory component) (remaining_entries, 0).

Definition directory_find (directory : inode) (component : list Z) : M fs (result Z) :=
  let! r := directory_find_internal directory component in
  ret (match r with Err status => Err status | Ok record => Ok (rec_inode record) end).

(** One component of a path walk from directory [current]: where it leads. *)
Definition lookup_step (path : list Z) (x : Z * Z) : M fs (Z * Z + result Z) :=
  let '(current, index) := x in
  let path_length := zlength path in
  if negb (index <? path_length) then ret (inr (Ok current)) else
  let component_start := skip_slashes (length path) path index in
  if component_start =? path_length then ret (inr (Ok current)) else
  match scan_component (length path) path component_start with
  | None => ret (inr (Err (- EINVAL)))
  | Some next =>
      let component := slice path component_start (next - component_start) in
      if (zlength component =? 0) || (MINIFS_NAME_MAX <? zlength component) then ret (inr (Err (- EINVAL))) else
      let! d := read_inode_internal current in
      match d with
      | Err status => ret (inr (Err status))
      | Ok directory =>
          if negb (mode directory =? MINIFS_MODE_DIRECTORY) then ret (inr (Err (- ENOTDIR))) else
          if is_dot component then ret (inl (current, next)) else
          let! r := directory_find directory component in
          match r with
          | Err status => ret (inr (Err status))
          | Ok child => ret (inl (child, next))
          end
      end
  end.

Definition lookup_locked (path : list Z) : M fs (result minifs_stat) :=
  match bounded_path_length path with
  | Err status => ret (Err status)
  | Ok path_length =>
      let! b := sb in
      let trailing_slash := (1 <? path_length) && (byte_at path (path_length - 1) =? 47) in
      let! r := while_ (S (length path)) (lookup_step path) (root_inode b, 1) in
      match r with
      | Err status => ret (Err status)
      | Ok current =>
          let! n := read_inode_internal current in
          match n with
          | Err status => ret (Err status)
          | Ok i =>
              if trailing_slash && negb (mode i =? MINIFS_MODE_DIRECTORY) then ret (Err (- ENOTDIR))
              else ret (Ok (Stat current (mode i) (link_count i) (size i)))
          end
      end
  end.

(** The parent directory, its inode, and the last component. *)
Definition resolve_step (path : list Z) (x : Z * Z) : M fs (Z * Z + result (Z * inode * list Z)) :=
  let '(current, index) := x in
  let path_length := zlength path in
  if negb (index <? path_length) then ret (inr (Err (- EINVAL))) else
  let component_start := skip_slashes (length path) path index in
  if component_start =? path_length then ret (inr (Err (- EINVAL))) else
  match scan_component (length path) path component_start with
  | None => ret (inr (Err (- EINVAL)))
  | Some component_end =>
      let component := slice path component_start (component_end - component_start) in
      if (zlength component =? 0) || (MINIFS_NAME_MAX <? zlength component) then ret (inr (Err (- EINVAL))) else
      let next := skip_slashes (length path) path component_end in
      let! d := read_inode_internal current in
      match d with
      | Err status => ret (inr (Err status))
      | Ok directory =>
          if negb (mode directory =? MINIFS_MODE_DIRECTORY) then ret (inr (Err (- ENOTDIR))) else
          if next =? path_length then
            (if is_dot component || is_dot_dot component then ret (inr (Err (- EINVAL)))
             else ret (inr (Ok (current, directory, component))))
          else if negb (is_dot component) then
            let! r := directory_find directory component in
            match r with
            | Err status => ret (inr (Err status))
            | Ok child => ret (inl (child, next))
            end
          else ret (inl (current, next))
      end
  end.

Definition resolve_parent_locked (path : list Z) : M fs (result (Z * inode * list Z)) :=
  match bounded_path_length path with
  | Err status => ret (Err status)
  | Ok path_length =>
      if (path_length <=? 1) || (byte_at path (path_length - 1) =? 47) then ret (Err (- EINVAL)) else
      let! b := sb in
      while_ (S (length path)) (resolve_step path) (root_inode b, 1)
  end.

(** ** Writing *)

(** Undoing a half-done extension: the new data block and the new indirect
    block, if one was taken (0 stands for none), are freed again. *)
Definition rollback_blocks (disk_block new_indirect : Z) : M fs unit :=
  free_block disk_block ;;
  if negb (new_indirect =? 0) then free_block new_indirect ;; ret tt else ret tt.

(** The part of [write_chunk_locked] inside the blocks the file has. *)
Definition overwrite_chunk (inode_number : Z) (i : inode) (offset : Z) (source : list Z) : M fs (Z * inode) :=
  let file_block := offset / MINIFS_BLOCK_SIZE in
  let block_offset := offset mod MINIFS_BLOCK_SIZE in
  let end_ := offset +u zlength source in
  let! p := load_file_block i file_block in
  match p with
  | None => ret (- EIO, i)
  | Some disk_block =>
      write_io block_offset source ;;
      let! w := write_io_block disk_block in
      if negb (w =? 0) then ret (- EIO, i) else
      if size i <? end_ then
        let! w2 := write_inode_internal inode_number (set_size end_ i) in
        if negb (w2 =? 0) then ret (- EIO, i) else ret (0, set_size end_ i)
      else ret (0, i)
  end.

(** Entering the pointer to a new block in the inode or its indirect block. *)
Definition link_block (i : inode) (file_block disk_block : Z) : M fs (option inode) :=
  if file_block <? MINIFS_DIRECT_COUNT then ret (Some (set_direct file_block disk_block i)) else
  let indirect_index := file_block - MINIFS_DIRECT_COUNT in
  if MINIFS_INDIRECT_COUNT <=? indirect_index then ret None else
  let! r := read_volume_block_auxiliary (indirect i) in
  if negb (r =? 0) then ret None else
  write_auxiliary (indirect_index * 4) (le32 disk_block) ;;
  let! w := write_auxiliary_block (indirect i) in
  if negb (w =? 0) then ret None else ret (Some i).

(** The part that adds a block at the end of the file. *)
Definition append_chunk (inode_number : Z) (i : inode) (offset : Z) (source : list Z) : M fs (Z * inode) :=
  let file_block := offset / MINIFS_BLOCK_SIZE in
  let block_offset := offset mod MINIFS_BLOCK_SIZE in
  let end_ := offset +u zlength source in
  let! ind := (if (MINIFS_DIRECT_COUNT <=? file_block) && (indirect i =? 0) then allocate_block else ret (Ok 0)) in
  match ind with
  | Err status => ret (status, i)
  | Ok new_indirect =>
      let i1 := if negb (new_indirect =? 0) then set_indirect new_indirect i else i in
      let! d := allocate_block in
      match d with
      | Err status =>
          (if negb (new_indirect =? 0) then free_block new_indirect ;; ret tt else ret tt) ;;
          ret (status, i)
      | Ok disk_block =>
          modify (set_io (replicate 4096 0)) ;;
          write_io block_offset source ;;
          let! w := write_io_block disk_block in
          if negb (w =? 0) then rollback_blocks disk_block new_indirect ;; ret (- EIO, i) else
          let! linked := link_block i1 file_block disk_block in
          match linked with
          | None => rollback_blocks disk_block new_indirect ;; ret (- EIO, i)
          | Some i2 =>
              let! w2 := write_inode_internal inode_number (set_size end_ i2) in
              if negb (w2 =? 0) then
                (if negb (file_block <? MINIFS_DIRECT_COUNT) && (new_indirect =? 0) then
                   write_auxiliary ((file_block - MINIFS_DIRECT_COUNT) * 4) (le32 0) ;;
                   write_auxiliary_block (indirect i2) ;; ret tt
                 else ret tt) ;;
                rollback_blocks disk_block new_indirect ;;
                ret (- EIO, if file_block <? MINIFS_DIRECT_COUNT then set_direct file_block 0 i else i)
              else ret (0, set_size end_ i2)
          end
      end
  end.

Definition write_chunk_locked (inode_number : Z) (i : inode) (offset : Z) (source : list Z) : M fs (Z * inode) :=
  let file_block := offset / MINIFS_BLOCK_SIZE in
  let allocated_blocks := divide_round_up (size i) MINIFS_BLOCK_SIZE in
  if file_block <? allocated_blocks then overwrite_chunk inode_number i offset source else
  if negb (file_block =? allocated_blocks) then ret (- EINVAL, i) else
  append_chunk inode_number i offset source.

(** ** Directory changes *)

(** The offset of the first unused entry, or the end. *)
Definition free_entry_step (directory : inode) (offset : Z) : M fs (Z + result Z) :=
  if negb (offset <? size directory) then ret (inr (Ok offset)) else
  let! p := load_file_block directory (offset / MINIFS_BLOCK_SIZE) in
  match p with
  | None => ret (inr (Err (- EIO)))
  | Some _ =>
      let! io := gets io_block in
      let! entry := at_offset io (offset mod MINIFS_BLOCK_SIZE) MINIFS_DIRECTORY_ENTRY_SIZE in
      if directory_entry_unused entry then ret (inr (Ok offset))
      else ret (inl (offset + MINIFS_DIRECTORY_ENTRY_SIZE))
  end.

Definition directory_append_locked (directory_number : Z) (directory : inode) (child_number entry_type : Z)
    (name : list Z) : M fs Z :=
  if (zlength name =? 0) || (MINIFS_NAME_MAX <? zlength name) ||
     (negb (entry_type =? MINIFS_ENTRY_REGULAR) && negb (entry_type =? MINIFS_ENTRY_DIRECTORY)) ||
     (MINIFS_MAX_FILE_SIZE - MINIFS_DIRECTORY_ENTRY_SIZE <? size directory) then ret (- EINVAL) else
  let entry := encode_directory_entry child_number entry_type name in
  let! f := while_ (S (S (Z.to_nat (size directory / MINIFS_DIRECTORY_ENTRY_SIZE)))) (free_entry_step directory) 0 in
  match f with
  | Err status => ret status
  | Ok offset =>
      let appended := offset =? size directory in
      if (entry_type =? MINIFS_ENTRY_DIRECTORY) && (link_count directory =? UINT16_MAX) then ret (- ENOSPC) else
      let directory1 :=
        if entry_type =? MINIFS_ENTRY_DIRECTORY then set_link_count (link_count directory + 1) directory else directory in
      let! w := write_chunk_locked directory_number directory1 offset entry in
      if fst w <? 0 then ret (fst w) else
      if negb appended && (entry_type =? MINIFS_ENTRY_DIRECTORY) then
        let! w2 := write_inode_internal directory_number (snd w) in
        if negb (w2 =? 0) then
          write_chunk_locked directory_number (snd w) offset (replicate 64 0) ;;
          ret (- EIO)
        else ret 0
      else ret 0
  end.

Definition rollback_created_inode (inode_number : Z) : M fs unit :=
  clear_inode_record inode_number ;; free_inode inode_number ;; ret tt.

Definition create_locked (path : list Z) : M fs (result minifs_stat) :=
  let! p := resolve_parent_locked path in
  match p with
  | Err status => ret (Err status)
  | Ok (parent_number, parent, name) =>
      let! existing := directory_find parent name in
      match existing with
      | Ok _ => ret (Err (- EEXIST))
      | Err status =>
          if negb (status =? - ENOENT) then ret (Err status) else
          let! n := allocate_inode in
          match n with
          | Err status => ret (Err status)
          | Ok inode_number =>
              let! w := write_inode_internal inode_number clear_inode in
              if negb (w =? 0) then rollback_created_inode inode_number ;; ret (Err (- EIO)) else
              let! a := directory_append_locked parent_number parent inode_number MINIFS_ENTRY_REGULAR name in
              if a <? 0 then rollback_created_inode inode_number ;; ret (Err a)
              else ret (Ok (Stat inode_number (mode clear_inode) (link_count clear_inode) (size clear_inode)))
          end
      end
  end.

Definition directory_empty_step (directory : inode) (offset : Z) : M fs (Z + Z) :=
  if negb (offset <? size directory) then ret (inr 0) else
  let! p := load_file_block directory (offset / MINIFS_BLOCK_SIZE) in
  match p with
  | None => ret (inr (- EIO))
  | Some _ =>
      let! io := gets io_block in
      let! entry := at_offset io (offset mod MINIFS_BLOCK_SIZE) MINIFS_DIRECTORY_ENTRY_SIZE in
      let type := byte_at entry 4 in
      let name := slice entry 5 MINIFS_DIRECTORY_NAME_BYTES in
      if type =? MINIFS_ENTRY_UNUSED then
        (if negb (directory_entry_unused entry) then ret (inr (- EIO))
         else ret (inl (offset + MINIFS_DIRECTORY_ENTRY_SIZE)))
      else if (negb (type =? MINIFS_ENTRY_REGULAR) && negb (type =? MINIFS_ENTRY_DIRECTORY)) ||
              negb (directory_name_valid name) then ret (inr (- EIO))
      else if negb (directory_name_equal name [46]) && negb (directory_name_equal name [46; 46])
      then ret (inr (- ENOTEMPTY))
      else ret (inl (offset + MINIFS_DIRECTORY_ENTRY_SIZE))
  end.

Definition directory_empty_locked (directory : inode) : M fs Z :=
  if negb (mode directory =? MINIFS_MODE_DIRECTORY) then ret (- ENOTDIR) else
  while_ (S (S (Z.to_nat (size directory / MINIFS_DIRECTORY_ENTRY_SIZE)))) (directory_empty_step directory) 0.

(** [if (free_block(block) != 0) return -EIO] inside a loop. *)
Definition free_or_fail (block : Z) : M fs (option Z) :=
  let! f := free_block block in
  if negb (f =? 0) then ret (Some (- EIO)) else ret None.

Definition release_inode_locked (inode_number : Z) (i : inode) : M fs Z :=
  let blocks := divide_round_up (size i) MINIFS_BLOCK_SIZE in
  let! r := (if MINIFS_DIRECT_COUNT <? blocks then read_volume_block_compare (indirect i) else ret 0) in
  if negb (r =? 0) then ret (- EIO) else
  let! f1 := for_until (Z.to_nat (Z.min blocks MINIFS_DIRECT_COUNT)) 0 (fun index => free_or_fail (direct_at i index)) in
  match f1 with
  | Some status => ret status
  | None =>
      let! f2 := for_until (Z.to_nat (blocks - MINIFS_DIRECT_COUNT)) MINIFS_DIRECT_COUNT (fun index =>
        let! c := gets compare_buffer in
        let! word := at_offset c ((index - MINIFS_DIRECT_COUNT) * 4) 4 in
        free_or_fail (read_le32 word 0)) in
      match f2 with
      | Some status => ret status
      | None =>
          let! f3 := (if negb (indirect i =? 0) then free_block (indirect i) else ret 0) in
          if negb (f3 =? 0) then ret (- EIO) else
          let! c := clear_inode_record inode_number in
          if negb (c =? 0) then ret (- EIO) else
          let! f := free_inode inode_number in
          if negb (f =? 0) then ret (- EIO) else ret 0
      end
  end.

Definition new_directory (data_block : Z) : inode :=
  Inode MINIFS_MODE_DIRECTORY 2 (2 * MINIFS_DIRECTORY_ENTRY_SIZE) (<[0%nat := data_block]> (replicate 10 0)) 0 0 0.

Definition mkdir_locked (path : list Z) : M fs Z :=
  let! p := resolve_parent_locked path in
  match p with
  | Err status => ret status
  | Ok (parent_number, parent, name) =>
      let! existing := directory_find parent name in
      match existing with
      | Ok _ => ret (- EEXIST)
      | Err status =>
          if negb (status =? - ENOENT) then ret status else
          let! n := allocate_inode in
          match n with
          | Err status => ret status
          | Ok inode_number =>
              let! d := allocate_block in
              match d with
              | Err status => free_inode inode_number ;; ret status
              | Ok data_block =>
                  modify (set_io (replicate 4096 0)) ;;
                  write_io 0 (encode_directory_entry inode_number MINIFS_ENTRY_DIRECTORY [46]) ;;
                  write_io MINIFS_DIRECTORY_ENTRY_SIZE (encode_directory_entry parent_number MINIFS_ENTRY_DIRECTORY [46; 46]) ;;
                  let! w := write_io_block data_block in
                  let! w2 := (if w =? 0 then write_inode_internal inode_number (new_directory data_block) else ret w) in
                  if negb (w2 =? 0) then
                    free_block data_block ;; rollback_created_inode inode_number ;; ret (- EIO)
                  else
                  let! a := directory_append_locked parent_number parent inode_number MINIFS_ENTRY_DIRECTORY name in
                  if a <? 0 then free_block data_block ;; rollback_created_inode inode_number ;; ret a
                  else ret 0
              end
          end
      end
  end.

Definition unlink_locked (path : list Z) : M fs Z :=
  let! p := resolve_parent_locked path in
  match p with
  | Err status => ret status
  | Ok (parent_number, parent, name) =>
      let! f := directory_find_internal parent name in
      match f with
      | Err status => ret status
      | Ok record =>
          let! b := sb in
          if rec_inode record =? root_inode b then ret (- EIO) else
          let! n := read_inode_internal (rec_inode record) in
          match n with
          | Err _ => ret (- EIO)
          | Ok i =>
              let! empty := (if mode i =? MINIFS_MODE_DIRECTORY then directory_empty_locked i else ret 0) in
              if empty <? 0 then ret empty else
              if (mode i =? MINIFS_MODE_DIRECTORY) && (link_count parent =? 0) then ret (- EIO) else
              let block_offset := rec_offset record mod MINIFS_BLOCK_SIZE in
              let! l := load_file_block parent (rec_offset record / MINIFS_BLOCK_SIZE) in
              match l with
              | None => ret (- EIO)
              | Some disk_block =>
                  let! io := gets io_block in
                  let! saved := at_offset io block_offset MINIFS_DIRECTORY_ENTRY_SIZE in
                  write_auxiliary 0 saved ;;
                  write_io block_offset (replicate 64 0) ;;
                  let! w := write_io_block disk_block in
                  if negb (w =? 0) then ret (- EIO) else
                  let! w2 := (if mode i =? MINIFS_MODE_DIRECTORY then
                                write_inode_internal parent_number (set_link_count (link_count parent - 1) parent)
                              else ret 0) in
                  if negb (w2 =? 0) then
                    let! r := read_volume_block disk_block in
                    (if r =? 0 then
                       let! a := gets auxiliary_block in
                       let! old := at_offset a 0 MINIFS_DIRECTORY_ENTRY_SIZE in
                       write_io block_offset old ;; write_io_block disk_block ;; ret tt
                     else ret tt) ;;
                    ret (- EIO)
                  else release_inode_locked (rec_inode record) i
              end
          end
      end
  end.

(** ** Truncation *)

Definition truncate_locked (inode_number new_size : Z) : M fs Z :=
  let! n := read_inode_internal inode_number in
  match n with
  | Err _ => ret (- EIO)
  | Ok old_inode =>
      if mode old_inode =? MINIFS_MODE_DIRECTORY then ret (- EISDIR) else
      if size old_inode <? new_size then ret (- EINVAL) else
      if new_size =? size old_inode then ret 0 else
      let old_blocks := divide_round_up (size old_inode) MINIFS_BLOCK_SIZE in
      let new_blocks := divide_round_up new_size MINIFS_BLOCK_SIZE in
      let! r := (if negb (indirect old_inode =? 0) then
                   let! r := read_volume_block_auxiliary (indirect old_inode) in
                   if negb (r =? 0) then ret r else
                   let! a := gets auxiliary_block in
                   modify (set_compare a) ;; ret 0
                 else ret 0) in
      if negb (r =? 0) then ret (- EIO) else
      let! r2 := (if MINIFS_DIRECT_COUNT <? new_blocks then
                    let first := new_blocks - MINIFS_DIRECT_COUNT in
                    let count := old_blocks - MINIFS_DIRECT_COUNT in
                    for_range (Z.to_nat (count - first)) first (fun index => write_auxiliary (index * 4) (le32 0)) ;;
                    write_auxiliary_block (indirect old_inode)
                  else ret 0) in
      if negb (r2 =? 0) then ret (- EIO) else
      let last := Z.min old_blocks MINIFS_DIRECT_COUNT in
      let i1 := if MINIFS_DIRECT_COUNT <? new_blocks then old_inode else set_indirect 0 old_inode in
      let i2 := fold_left (fun i k => set_direct k 0 i) (seqZ new_blocks (last - new_blocks)) i1 in
      let! w := write_inode_internal inode_number (set_size new_size i2) in
      if negb (w =? 0) then
        (if MINIFS_DIRECT_COUNT <? new_blocks then
           let! c := gets compare_buffer in write_volume_block_from (indirect old_inode) c ;; ret tt
         else ret tt) ;;
        ret (- EIO)
      else
      let! f1 := for_until (Z.to_nat (last - new_blocks)) new_blocks (fun index => free_or_fail (direct_at old_inode index)) in
      match f1 with
      | Some status => ret status
      | None =>
          if MINIFS_DIRECT_COUNT <? old_blocks then
            let first := Z.max new_blocks MINIFS_DIRECT_COUNT in
            let! f2 := for_until (Z.to_nat (old_blocks - first)) first (fun index =>
              let! c := gets compare_buffer in
              let! word := at_offset c ((index - MINIFS_DIRECT_COUNT) * 4) 4 in
              free_or_fail (read_le32 word 0)) in
            match f2 with
            | Some status => ret status
            | None =>
                if new_blocks <=? MINIFS_DIRECT_COUNT then
                  let! f := free_block (indirect old_inode) in
                  if negb (f =? 0) then ret (- EIO) else ret 0
                else ret 0
            end
          else ret 0
      end
  end.

(** ** The entry points *)

(** [if (!mounted) return -EIO; if (!minifs_acquire(...)) return -EAGAIN; ...]. *)
Definition locked {A} (refuse : Z -> A) (body : M fs A) : M fs A :=
  let! flags := minifs_acquire in
  match flags with
  | None => ret (refuse (- EAGAIN))
  | Some irq_flags =>
      let! r := body in
      minifs_release irq_flags ;; ret r
  end.

Definition minifs_lookup (path : list Z) : M fs (result minifs_stat) :=
  let! m := gets mounted in
  if negb m then ret (Err (- EIO)) else locked Err (lookup_locked path).

Definition minifs_create (path : list Z) : M fs (result minifs_stat) :=
  let! m := gets mounted in
  if negb m then ret (Err (- EIO)) else locked Err (create_locked path).

Definition minifs_mkdir (path : list Z) : M fs Z :=
  let! m := gets mounted in
  if negb m then ret (- EIO) else locked id (mkdir_locked path).

Definition minifs_unlink (path : list Z) : M fs Z :=
  let! m := gets mounted in
  if negb m then ret (- EIO) else locked id (unlink_locked path).

Definition minifs_stat_inode (inode_number : Z) : M fs (result minifs_stat) :=
  let! m := gets mounted in
  if negb m then ret (Err (- EIO)) else
  locked Err (
    let! r := read_inode_internal inode_number in
    ret (match r with
         | Err status => Err status
         | Ok i => Ok (Stat inode_number (mode i) (link_count i) (size i))
         end)).

Definition minifs_truncate (inode_number new_size : Z) : M fs Z :=
  let! m := gets mounted in
  if negb m || (MINIFS_MAX_FILE_SIZE <? new_size) then ret (- EINVAL) else
  locked id (truncate_locked inode_number new_size).

(** One round of the copy loop of [minifs_read]: [completed] bytes and the part
    of the buffer they fill. *)
Definition read_step (i : inode) (offset length : Z) (x : Z * list Z) : M fs (Z * list Z + Z * list Z) :=
  let '(completed, destination) := x in
  if negb (completed <? length) then ret (inr (completed, destination)) else
  let position := offset +u completed in
  let file_block := position / MINIFS_BLOCK_SIZE in
  let block_offset := position mod MINIFS_BLOCK_SIZE in
  let chunk := Z.min (MINIFS_BLOCK_SIZE - block_offset) (length - completed) in
  let! p := load_file_block i file_block in
  match p with
  | None => ret (inr (- EIO, destination))
  | Some _ =>
      let! io := gets io_block in
      let! part := at_offset io block_offset chunk in
      ret (inl (completed + chunk, destination ++ part))
  end.

(** The result and the bytes stored from the start of the buffer. *)
Definition minifs_read (inode_number offset length : Z) : M fs (Z * list Z) :=
  let! m := gets mounted in
  if negb m then ret (- EINVAL, []) else
  locked (fun status => (status, [])) (
    let! r := read_inode_internal inode_number in
    match r with
    | Err status => ret (status, [])
    | Ok i =>
        if mode i =? MINIFS_MODE_DIRECTORY then ret (- EISDIR, []) else
        if (size i <=? offset) || (length =? 0) then ret (0, []) else
        let length' := Z.min length (size i - offset) in
        while_ (S (Z.to_nat length')) (read_step i offset length') (0, [])
    end).

Definition write_step (inode_number offset : Z) (source : list Z) (x : Z * inode) : M fs (Z * inode + Z) :=
  let '(completed, i) := x in
  let length := zlength source in
  if negb (completed <? length) then ret (inr completed) else
  let position := offset +u completed in
  let block_offset := position mod MINIFS_BLOCK_SIZE in
  let chunk := Z.min (MINIFS_BLOCK_SIZE - block_offset) (length - completed) in
  let! w := write_chunk_locked inode_number i position (slice source completed chunk) in
  if fst w <? 0 then ret (inr (if 0 <? completed then completed else fst w))
  else ret (inl (completed + chunk, snd w)).

Definition minifs_write (inode_number offset : Z) (source : list Z) : M fs Z :=
  let! m := gets mounted in
  if negb m || (INT32_MAX <? zlength source) || (MINIFS_MAX_FILE_SIZE <? offset) ||
     (MINIFS_MAX_FILE_SIZE - offset <? zlength source) then ret (- EINVAL) else
  locked id (
    let! r := read_inode_internal inode_number in
    match r with
    | Err status => ret status
    | Ok i =>
        if mode i =? MINIFS_MODE_DIRECTORY then ret (- EISDIR) else
        if size i <? offset then ret (- EINVAL) else
        while_ (S (length source)) (write_step inode_number offset source) (0, i)
    end).

(** Result, the new offset, and the entry when the result is 1. *)
Definition readdir_step (directory : inode) (cursor : Z) : M fs (Z + Z * option Z * option minifs_dirent) :=
  if negb (cursor <? size directory) then ret (inr (0, Some cursor, None)) else
  let! p := load_file_block directory (cursor / MINIFS_BLOCK_SIZE) in
  match p with
  | None => ret (inr (- EIO, None, None))
  | Some _ =>
      let! io := gets io_block in
      let! entry := at_offset io (cursor mod MINIFS_BLOCK_SIZE) MINIFS_DIRECTORY_ENTRY_SIZE in
      let cursor' := cursor +u MINIFS_DIRECTORY_ENTRY_SIZE in
      let type := byte_at entry 4 in
      let name := slice entry 5 MINIFS_DIRECTORY_NAME_BYTES in
      if type =? MINIFS_ENTRY_UNUSED then
        (if negb (directory_entry_unused entry) then ret (inr (- EIO, None, None)) else ret (inl cursor'))
      else if (negb (type =? MINIFS_ENTRY_REGULAR) && negb (type =? MINIFS_ENTRY_DIRECTORY)) ||
              negb (directory_name_valid name) then ret (inr (- EIO, None, None)) else
      let child_number := read_le32 entry 0 in
      let! c := read_inode_internal child_number in
      match c with
      | Err _ => ret (inr (- EIO, None, None))
      | Ok child =>
          if ((type =? MINIFS_ENTRY_DIRECTORY) && negb (mode child =? MINIFS_MODE_DIRECTORY)) ||
             ((type =? MINIFS_ENTRY_REGULAR) && negb (mode child =? MINIFS_MODE_REGULAR))
          then ret (inr (- EIO, None, None))
          else
            let text := until_zero 58 name in
            ret (inr (1, Some cursor', Some (Dirent child_number (mode child) (zlength text) text)))
      end
  end.

(** The result, the offset left behind, and the entry. *)
Definition minifs_readdir (inode_number offset : Z) : M fs (Z * Z * option minifs_dirent) :=
  let! m := gets mounted in
  if negb m || negb (offset mod MINIFS_DIRECTORY_ENTRY_SIZE =? 0) then ret (- EINVAL, offset, None) else
  locked (fun status => (status, offset, None)) (
    let! r := read_inode_internal inode_number in
    match r with
    | Err status => ret (status, offset, None)
    | Ok directory =>
        if negb (mode directory =? MINIFS_MODE_DIRECTORY) then ret (- ENOTDIR, offset, None) else
        let! x := while_ (S (S (Z.to_nat (size directory / MINIFS_DIRECTORY_ENTRY_SIZE)))) (readdir_step directory) offset in
        let '(result, cursor, entry) := x in
        ret (result, default offset cursor, entry)
    end).

Definition minifs_total_blocks : M fs Z :=
  let! m := gets mounted in let! b := sb in ret (if m : bool then total_blocks b else 0).
Definition minifs_total_inodes : M fs Z :=
  let! m := gets mounted in let! b := sb in ret (if m : bool then total_inodes b else 0).

(** What [minifs_mount] checks after the superblock: every metadata block is
    marked used, and the root is an allocated directory. *)
Definition check_mounted (b : superblock) : M fs bool :=
  let! bad := for_until (Z.to_nat (data_start b)) 0 (fun block =>
    let! used := bitmap_bit_set (block_bitmap_start b) (block_bitmap_blocks b) block in
    ret (if used : bool then None else Some tt)) in
  match bad with
  | Some _ => ret false
  | None =>
      let! used := bitmap_bit_set (inode_bitmap_start b) (inode_bitmap_blocks b) (root_inode b) in
      if negb used then ret false else
      let! r := read_inode_internal (root_inode b) in
      match r with
      | Err _ => ret false
      | Ok root => ret (mode root =? MINIFS_MODE_DIRECTORY)
      end
  end.

(** The superblock found on the volume, if the device has the volume at all. *)
Definition read_candidate : M fs (option superblock) :=
  let! count := zoom bd_count in
  let! buffer := gets io_block in
  if (count <? MINIFS_VOLUME_START_BLOCK) || (count - MINIFS_VOLUME_START_BLOCK <? MINIFS_VOLUME_BLOCK_COUNT)
  then ret None else
  let! r := zoom (bd_read MINIFS_VOLUME_START_BLOCK buffer) in
  modify (set_io (snd r)) ;;
  ret (if negb (fst r =? 0) then None else decode_superblock (snd r)).

Definition minifs_mount : M fs Z :=
  let! flags := minifs_acquire in
  match flags with
  | None => ret (- EAGAIN)
  | Some irq_flags =>
      modify (set_mounted false) ;;
      clear_superblock ;;
      let! candidate := read_candidate in
      match candidate with
      | None => minifs_release irq_flags ;; ret (- EIO)
      | Some b =>
          modify (set_superblock b) ;;
          let! ok := check_mounted b in
          if ok : bool then modify (set_mounted true) ;; minifs_release irq_flags ;; ret 0
          else clear_superblock ;; minifs_release irq_flags ;; ret (- EIO)
      end
  end.

End minifs.
Arguments fs E : clear implicits.

End MiniFs.
