(* ===== verification/MiniFsSafe.v ===== *)
(** * MiniFS is robust

    Whatever is on the disk, and whatever the device answers, no routine of
    minifs.c accesses a buffer out of range or loops for ever, and every entry
    point gives the lock and the interrupt flag back. The judgement [safe P m]
    says this of [m], with [P] a property of its result; the lemmas below are its
    rules and one lemma per routine. *)

From S2P Require Import Prelude Monad Interfaces Bytes Cpu Block MiniFs.

Module MiniFsSafe.
Import MiniFs.

(** A disk block in memory. *)
Definition blk (b : list Z) : Prop := zlength b = 4096 /\ bytes b.

(** Error codes are negative. *)
Definition res {A} (P : A -> Prop) (r : result A) : Prop := match r with Err status => status < 0 | Ok a => P a end.

(** An inode as [read_inode_internal] returns it. *)
Record inode_ok (i : inode) : Prop := {
  inode_mode : mode i = MINIFS_MODE_REGULAR \/ mode i = MINIFS_MODE_DIRECTORY;
  inode_size : 0 <= size i <= MINIFS_MAX_FILE_SIZE;
  inode_links : 0 < link_count i < 65536;
  inode_direct : length (direct i) = 10%nat /\ Forall (fun b => 0 <= b < 4294967296) (direct i);
  inode_words : 0 <= indirect i < 4294967296 /\ 0 <= created_tick i < 4294967296 /\ 0 <= modified_tick i < 4294967296;
  inode_dir : mode i = MINIFS_MODE_DIRECTORY -> 0 < size i /\ size i mod 64 = 0
}.

Create HintDb safe.

Section safe.
Context {E : Type} `{!BlockDevice E}.
Implicit Types s : fs E.

Record ok s : Prop := {
  ok_dev : bd_inv (dev s);
  ok_cpu : Cpu.wf (cpu s);
  ok_io : blk (io_block s);
  ok_auxiliary : blk (auxiliary_block s);
  ok_compare : blk (compare_buffer s)
}.

(** What the routines under the lock leave alone. *)
Record frame s s' : Prop := {
  frame_ok : ok s';
  frame_cpu : cpu s' = cpu s;
  frame_superblock : mounted_superblock s' = mounted_superblock s;
  frame_mounted : mounted s' = mounted s;
  frame_busy : operation_busy s' = operation_busy s
}.

Lemma frame_refl s : ok s -> frame s s.
Proof. by split. Qed.

Lemma frame_trans s1 s2 s3 : frame s1 s2 -> frame s2 s3 -> frame s1 s3.
Proof. intros [] []. split; congruence. Qed.

Definition safe {A} (P : A -> Prop) (m : M (fs E) A) : Prop :=
  forall s, ok s -> wp m s (fun a s' => frame s s' /\ P a).

Lemma safe_ret {A} (P : A -> Prop) a : P a -> safe P (ret a).
Proof. intros HP s Hs. apply wp_ret. split; [by apply frame_refl|done]. Qed.

Lemma safe_bind {A B} (R : A -> Prop) (P : B -> Prop) (m : M (fs E) A) (k : A -> M (fs E) B) :
  safe R m -> (forall a, R a -> safe P (k a)) -> safe P (bind m k).
Proof.
  intros Hm Hk s Hs. apply wp_bind. eapply wp_mono; [by apply Hm|]. cbv beta. intros a s1 [Hf Ha].
  eapply wp_mono; [apply (Hk a Ha), Hf|]. cbv beta. intros b s2 [Hf2 Hb]. split; [by eapply frame_trans|done].
Qed.

Lemma safe_mono {A} (R P : A -> Prop) (m : M (fs E) A) : (forall a, R a -> P a) -> safe R m -> safe P m.
Proof. intros HRP Hm s Hs. eapply wp_mono; [by apply Hm|]. cbv beta. intros a s' [? ?]. auto. Qed.

Lemma safe_true {A} (P : A -> Prop) (m : M (fs E) A) : safe P m -> safe (fun _ => True) m.
Proof. by apply safe_mono. Qed.

Lemma safe_gets {A} (P : A -> Prop) (f : fs E -> A) : (forall s, ok s -> P (f s)) -> safe P (gets f).
Proof. intros Hf s Hs. apply wp_gets. split; [by apply frame_refl|auto]. Qed.

Lemma safe_sb : safe (fun _ => True) sb.
Proof. by apply safe_gets. Qed.

Lemma safe_access {A} (P : A -> Prop) (o : option A) a : o = Some a -> P a -> safe P (access o).
Proof. intros -> HP. by apply safe_ret. Qed.

Lemma safe_set_io b : blk b -> safe (fun _ => True) (modify (set_io b)).
Proof. intros Hb s []. apply wp_modify. split; [by split; [split|..]|done]. Qed.

Lemma safe_set_auxiliary b : blk b -> safe (fun _ => True) (modify (set_auxiliary b)).
Proof. intros Hb s []. apply wp_modify. split; [by split; [split|..]|done]. Qed.

Lemma safe_set_compare b : blk b -> safe (fun _ => True) (modify (set_compare b)).
Proof. intros Hb s []. apply wp_modify. split; [by split; [split|..]|done]. Qed.

Lemma safe_for_until {R} (P : R -> Prop) n first (body : Z -> M (fs E) (option R)) :
  (forall i, first <= i < first + Z.of_nat n -> safe (fun r => forall x, r = Some x -> P x) (body i)) ->
  safe (fun r => forall x, r = Some x -> P x) (for_until n first body).
Proof.
  intros Hb s Hs. apply (wp_for_until (fun _ s' => frame s s')).
  - by apply frame_refl.
  - intros i s' Hi Hf. eapply wp_mono; [by apply (Hb i Hi), Hf|]. cbv beta. intros [x|] s2 [Hf2 Hx].
    + split; [by eapply frame_trans|]. intros y [= <-]. auto.
    + by eapply frame_trans.
  - intros s' Hf. by split.
Qed.

Lemma safe_for_range n first (body : Z -> M (fs E) unit) :
  (forall i, first <= i < first + Z.of_nat n -> safe (fun _ => True) (body i)) ->
  safe (fun _ => True) (for_range n first body).
Proof.
  intros Hb s Hs. apply (wp_for_range (fun _ s' => frame s s')).
  - by apply frame_refl.
  - intros i s' Hi Hf. eapply wp_mono; [by apply (Hb i Hi), Hf|]. cbv beta. intros _ s2 [Hf2 _].
    by eapply frame_trans.
  - intros s' Hf. by split.
Qed.

Lemma safe_while {X R} (I : X -> Prop) (P : R -> Prop) (measure : X -> nat) (step : X -> M (fs E) (X + R)) fuel x :
  I x -> (measure x < fuel)%nat ->
  (forall y, I y -> safe (fun r => match r with inl z => I z /\ (measure z < measure y)%nat | inr v => P v end) (step y)) ->
  safe P (while_ fuel step x).
Proof.
  intros HI Hm Hstep s Hs. apply (wp_while (fun y s' => I y /\ frame s s') (fun y _ => measure y)).
  - split; [done|by apply frame_refl].
  - done.
  - intros y s' [Hy Hf]. eapply wp_mono; [by apply (Hstep y Hy), Hf|]. cbv beta.
    intros [z|v] s2 [Hf2 Hr]; [destruct Hr; split; [|done]|]; (split; [done|by eapply frame_trans]) || idtac.
    split; [by eapply frame_trans|done].
Qed.

(** ** Blocks *)

Lemma blk_zero : blk (replicate 4096 0).
Proof. split; [unfold zlength; by rewrite length_replicate|apply bytes_replicate]. Qed.

Lemma safe_read_into start count n b :
  blk b -> safe (fun r => blk (snd r) /\ fst r <= 0) (read_volume_block_into start count n b).
Proof.
  intros [Hl Hb]. unfold read_volume_block_into. eapply safe_bind; [apply safe_sb|]. intros sp _.
  destruct (_ || _); [by apply safe_ret|]. intros s Hs. apply wp_zoom.
  eapply wp_mono; [apply bd_read_ok; [apply Hs|apply u32_range|done|done]|]. cbv beta.
  intros r e (Hi & _ & _ & _ & Hrl & Hrb & Hst & _). destruct Hs. split; [by split; [split|..]|done].
Qed.

Lemma safe_read_volume start count n : safe (fun r => r <= 0) (read_volume_block start count n).
Proof.
  unfold read_volume_block. eapply safe_bind; [by apply (safe_gets blk), ok_io|]. intros b Hb.
  eapply safe_bind; [by apply safe_read_into|]. intros r [Hr Hst].
  eapply safe_bind; [by apply safe_set_io|]. intros _ _. by apply safe_ret.
Qed.

Lemma safe_read_auxiliary start count n : safe (fun r => r <= 0) (read_volume_block_auxiliary start count n).
Proof.
  unfold read_volume_block_auxiliary. eapply safe_bind; [by apply (safe_gets blk), ok_auxiliary|]. intros b Hb.
  eapply safe_bind; [by apply safe_read_into|]. intros r [Hr Hst].
  eapply safe_bind; [by apply safe_set_auxiliary|]. intros _ _. by apply safe_ret.
Qed.

Lemma safe_read_compare start count n : safe (fun r => r <= 0) (read_volume_block_compare start count n).
Proof.
  unfold read_volume_block_compare. eapply safe_bind; [by apply (safe_gets blk), ok_compare|]. intros b Hb.
  eapply safe_bind; [by apply safe_read_into|]. intros r [Hr Hst].
  eapply safe_bind; [by apply safe_set_compare|]. intros _ _. by apply safe_ret.
Qed.

Lemma safe_write_from start count n b : blk b -> safe (fun r => r <= 0) (write_volume_block_from start count n b).
Proof.
  intros [Hl Hb]. unfold write_volume_block_from. eapply safe_bind; [apply safe_sb|]. intros sp _.
  destruct (_ || _); [by apply safe_ret|]. intros s Hs. apply wp_zoom.
  eapply wp_mono; [apply bd_write_ok; [apply Hs|apply u32_range|done|done]|]. cbv beta.
  intros r e (Hi & _ & _ & Hst & _). destruct Hs. split; [by split; [split|..]|done].
Qed.

Lemma safe_write_io_block start count n : safe (fun r => r <= 0) (write_io_block start count n).
Proof.
  unfold write_io_block. eapply safe_bind; [by apply (safe_gets blk), ok_io|]. intros b Hb. by apply safe_write_from.
Qed.

Lemma safe_write_auxiliary_block start count n : safe (fun r => r <= 0) (write_auxiliary_block start count n).
Proof.
  unfold write_auxiliary_block. eapply safe_bind; [by apply (safe_gets blk), ok_auxiliary|]. intros b Hb.
  by apply safe_write_from.
Qed.

Lemma blk_splice b o src : blk b -> bytes src -> 0 <= o -> o + zlength src <= 4096 -> blk (splice b o src).
Proof.
  intros [Hl Hb] Hs Ho Hle. split; [|by apply bytes_splice].
  unfold zlength in *. rewrite length_splice; [done|done|unfold zlength; lia].
Qed.

Lemma blk_insert b i v : blk b -> 0 <= v < 256 -> blk (<[i := v]> b).
Proof.
  intros [Hl Hb] Hv. split; [unfold zlength in *; by rewrite length_insert|]. by apply Forall_insert.
Qed.

Lemma safe_at_offset b o n :
  blk b -> 0 <= o -> 0 <= n -> o + n <= 4096 -> safe (fun l => zlength l = n /\ bytes l) (@at_offset E b o n).
Proof.
  intros [Hl Hb] Ho Hn Hle. unfold at_offset.
  rewrite (proj2 (Z.leb_le 0 o)), (proj2 (Z.leb_le _ _)) by lia. apply safe_ret. split; [|by apply bytes_slice].
  unfold zlength at 1. rewrite length_slice; lia.
Qed.

Lemma safe_write_io o src :
  bytes src -> 0 <= o -> o + zlength src <= 4096 -> safe (fun _ => True) (@write_io E o src).
Proof.
  intros Hs Ho Hle. unfold write_io. eapply safe_bind; [by apply (safe_gets blk), ok_io|]. intros b Hb.
  rewrite (proj2 (Z.leb_le 0 o)), (proj2 (Z.leb_le _ _)) by (destruct Hb; lia).
  by apply safe_set_io, blk_splice.
Qed.

Lemma safe_write_auxiliary o src :
  bytes src -> 0 <= o -> o + zlength src <= 4096 -> safe (fun _ => True) (@write_auxiliary E o src).
Proof.
  intros Hs Ho Hle. unfold write_auxiliary. eapply safe_bind; [by apply (safe_gets blk), ok_auxiliary|]. intros b Hb.
  rewrite (proj2 (Z.leb_le 0 o)), (proj2 (Z.leb_le _ _)) by (destruct Hb; lia).
  by apply safe_set_auxiliary, blk_splice.
Qed.

(** ** Proof steps *)

Hint Resolve safe_sb safe_set_io safe_set_auxiliary safe_set_compare safe_read_volume safe_read_auxiliary
  safe_read_compare safe_write_io_block safe_write_auxiliary_block safe_write_from blk_zero : safe.

Ltac sstep :=
  lazymatch goal with
  | |- safe _ (bind (gets io_block) _) => eapply safe_bind; [apply (safe_gets blk), ok_io|intros ? ?]
  | |- safe _ (bind (gets auxiliary_block) _) => eapply safe_bind; [apply (safe_gets blk), ok_auxiliary|intros ? ?]
  | |- safe _ (bind (gets compare_buffer) _) => eapply safe_bind; [apply (safe_gets blk), ok_compare|intros ? ?]
  | |- safe _ (bind (if _ then _ else _) _) => fail
  | |- safe _ (bind _ _) => eapply safe_bind; [solve [eauto with safe]|intros ? ?]
  | |- safe _ (let x := _ in _) => cbv zeta
  | |- safe _ (if ?b then _ else _) => destruct b eqn:?
  | |- safe _ (match ?r with Err _ => _ | Ok _ => _ end) => destruct r; cbn [res] in *
  | |- safe _ (match ?r with None => _ | Some _ => _ end) => destruct r
  | |- safe _ (ret _) => apply safe_ret
  end.
Ltac ssteps := repeat sstep.
Tactic Notation "scase" ident(H) := lazymatch goal with |- safe _ (if ?b then _ else _) => destruct b eqn:H end.

(** A call that is made only under a condition, and answers 0 otherwise. *)
Lemma safe_cond {B} (P : B -> Prop) (b : bool) (m : M (fs E) Z) (k : Z -> M (fs E) B) :
  (b = true -> safe (fun r => r <= 0) m) -> (forall r, r <= 0 -> safe P (k r)) ->
  safe P (let! r := (if b then m else ret 0) in k r).
Proof. intros Hm Hk. eapply safe_bind; [|exact Hk]. destruct b; [auto|by apply safe_ret]. Qed.

(** A clean-up whose result is ignored. *)
Lemma safe_seq {A B} (R : A -> Prop) (P : B -> Prop) (m : M (fs E) A) (k : M (fs E) B) :
  safe R m -> safe P k -> safe P (m ;; k).
Proof. intros Hm Hk. by eapply safe_bind. Qed.

(** ** Bitmaps *)

Lemma within_byte b bit : blk b -> exists v, b !! Z.to_nat (bit mod 32768 / 8) = Some v /\ 0 <= v < 256.
Proof.
  intros [Hl Hb]. pose proof (Z.mod_pos_bound bit 32768).
  assert (0 <= bit mod 32768 / 8 < 4096) by (split; [apply Z.div_pos; lia|apply Z.div_lt_upper_bound; lia]).
  destruct (lookup_lt_is_Some_2 b (Z.to_nat (bit mod 32768 / 8))) as [v Hv]; [unfold zlength in Hl; lia|].
  exists v. split; [done|]. unfold bytes in Hb. rewrite Forall_lookup in Hb. eauto.
Qed.

Lemma safe_bit_byte {A} (P : A -> Prop) b bit (k : Z -> M (fs E) A) :
  blk b -> (forall v, 0 <= v < 256 -> safe P (k v)) ->
  safe P (let! byte := access (b !! Z.to_nat (bit mod MINIFS_BITMAP_BITS_PER_BLOCK / 8)) in k byte).
Proof.
  intros Hb Hk. destruct (within_byte b bit Hb) as (v & Hv & Hr).
  eapply safe_bind; [by eapply (safe_access (fun v => 0 <= v < 256))|auto].
Qed.

Lemma mod8_range z : 0 <= z mod 8 < 8.
Proof. apply Z.mod_pos_bound. lia. Qed.

Lemma safe_bitmap_bit_set start count sblk n bit : safe (fun _ => True) (bitmap_bit_set start count sblk n bit).
Proof. unfold bitmap_bit_set. ssteps; try done. apply safe_bit_byte; [done|]. intros v Hv. by ssteps. Qed.

Lemma safe_bitmap_update start count sblk n bit v : safe (fun r => r <= 0) (bitmap_update start count sblk n bit v).
Proof.
  unfold bitmap_update. ssteps; try done. apply safe_bit_byte; [done|]. intros w Hw.
  eapply safe_bind; [apply safe_set_io, blk_insert; [done|]; apply byte_set_bit_range; [apply mod8_range|done]|].
  intros _ _. apply safe_write_io_block.
Qed.
Hint Resolve safe_bitmap_bit_set safe_bitmap_update : safe.

Lemma safe_allocate_bitmap_bit start count sblk n first limit :
  safe (res (fun b => first <= b < limit)) (allocate_bitmap_bit start count sblk n first limit).
Proof.
  unfold allocate_bitmap_bit. ssteps; [done|].
  apply (safe_while (fun x => first <= fst x) _ (fun x => Z.to_nat (limit - fst x))); [simpl; lia|simpl; lia|].
  intros [bit loaded] Hb. simpl in Hb. unfold allocate_step.
  destruct (Z.ltb_spec bit limit); cbn [negb]; [|by ssteps].
  ssteps; [done|]. eapply (safe_bind (fun r => r <= 0)); [destruct (negb _); [eauto with safe|by apply safe_ret]|].
  intros r Hr. ssteps; [done|]. apply safe_bit_byte; [done|]. intros v Hv. ssteps.
  - eapply safe_bind; [apply safe_set_io, blk_insert; [done|]; apply byte_set_bit_range; [apply mod8_range|done]|].
    intros _ _. ssteps; simpl; [done|lia].
  - simpl. lia.
Qed.

(** ** Inodes *)

Lemma decode_inode_ok l i : zlength l = 64 -> bytes l -> decode_inode l = Some i -> inode_ok i.
Proof.
  intros Hl Hb. unfold decode_inode. destruct (_ || _) eqn:Eb; [done|]. intros [= <-].
  rewrite !orb_false_iff in Eb. destruct Eb as [[[[E1 E2] E3] E4] E5]. cbn [mode link_count size] in *.
  pose proof (read_le16_range l 0 Hb). pose proof (read_le16_range l 2 Hb). pose proof (read_le32_range l 4 Hb).
  split; cbn [mode size link_count direct indirect created_tick modified_tick].
  - apply andb_false_iff in E1 as [E1|E1]; apply negb_false_iff, Z.eqb_eq in E1; auto.
  - apply Z.ltb_ge in E3. lia.
  - apply Z.eqb_neq in E2. lia.
  - split; [done|]. simpl. repeat constructor; by apply read_le32_range.
  - split; [by apply read_le32_range|]. split; by apply read_le32_range.
  - intros Em. rewrite (proj2 (Z.eqb_eq _ _) Em) in E5. cbn [andb] in E5.
    apply orb_false_iff in E5 as [E5%Z.eqb_neq E6%negb_false_iff]. apply Z.eqb_eq in E6.
    change MINIFS_DIRECTORY_ENTRY_SIZE with 64 in E6. lia.
Qed.

Lemma mod64_offset n : 0 <= n mod MINIFS_INODES_PER_BLOCK * MINIFS_INODE_SIZE /\
  n mod MINIFS_INODES_PER_BLOCK * MINIFS_INODE_SIZE + 64 <= 4096.
Proof.
  unfold MINIFS_INODES_PER_BLOCK, MINIFS_INODE_SIZE. pose proof (Z.mod_pos_bound n 64). lia.
Qed.

Lemma safe_read_inode start count n : safe (res inode_ok) (read_inode_internal start count n).
Proof.
  unfold read_inode_internal. destruct (mod64_offset n). ssteps; try done.
  eapply safe_bind; [apply (safe_at_offset a2); done || unfold MINIFS_INODE_SIZE in *; lia|]. intros record [Hl Hb].
  destruct (decode_inode record) as [i|] eqn:Ed; [|by ssteps]. ssteps; [|done]. by eapply decode_inode_ok.
Qed.

Lemma safe_write_record start count n record :
  zlength record = 64 -> bytes record -> safe (fun r => r <= 0) (write_inode_record start count n record).
Proof.
  intros Hl Hb. unfold write_inode_record. destruct (mod64_offset n). ssteps; try done.
  eapply safe_bind; [apply safe_write_io; done || lia|]. intros _ _. apply safe_write_io_block.
Qed.

Lemma zlength_write16 l o v : 0 <= o -> o + 2 <= zlength l -> zlength (write_le16 l o v) = zlength l.
Proof. intros. unfold zlength, write_le16. rewrite length_splice; [done|done|done]. Qed.

Lemma zlength_write32 l o v : 0 <= o -> o + 4 <= zlength l -> zlength (write_le32 l o v) = zlength l.
Proof. intros. unfold zlength, write_le32. rewrite length_splice; [done|done|done]. Qed.

Lemma bytes_write16 l o v : bytes l -> bytes (write_le16 l o v).
Proof. intros. apply bytes_splice; [done|apply bytes_le16]. Qed.

Lemma bytes_write32 l o v : bytes l -> bytes (write_le32 l o v).
Proof. intros. apply bytes_splice; [done|apply bytes_le32]. Qed.

Lemma encode_direct_ok i l : zlength l = 64 -> bytes l -> zlength (encode_direct i l) = 64 /\ bytes (encode_direct i l).
Proof.
  unfold encode_direct. intros Hl Hb.
  assert (forall ks, Forall (fun k => (k < 10)%nat) ks -> forall r, zlength r = 64 -> bytes r ->
    let r' := fold_left (fun r k => write_le32 r (8 + Z.of_nat k * 4) (direct_at i (Z.of_nat k))) ks r in
    zlength r' = 64 /\ bytes r') as H.
  { induction 1 as [|k ks Hk Hks IH]; intros r Hr Hbr; [done|]. simpl. apply IH.
    - rewrite zlength_write32; lia.
    - by apply bytes_write32. }
  apply H; [|done|done]. repeat constructor.
Qed.

Lemma encode_inode_ok i : zlength (encode_inode i) = 64 /\ bytes (encode_inode i).
Proof.
  unfold encode_inode. cbv zeta.
  set (r0 := write_le32 (write_le16 (write_le16 (replicate 64 0) 0 (mode i)) 2 (link_count i)) 4 (size i)).
  assert (zlength r0 = 64 /\ bytes r0) as [H0 Hb0].
  { split; [done|]. by apply bytes_write32, bytes_write16, bytes_write16, bytes_replicate. }
  destruct (encode_direct_ok i r0 H0 Hb0) as [H1 Hb1]. split.
  - rewrite !zlength_write32; rewrite ?zlength_write32; rewrite ?zlength_write32; lia.
  - by apply bytes_write32, bytes_write32, bytes_write32.
Qed.

Lemma safe_write_inode start count n i : safe (fun r => r <= 0) (write_inode_internal start count n i).
Proof.
  unfold write_inode_internal. destruct (encode_inode_ok i). ssteps; [done|]. by apply safe_write_record.
Qed.

Lemma safe_allocate_inode start count : safe (res (fun n => 1 <= n)) (allocate_inode start count).
Proof.
  unfold allocate_inode. ssteps. eapply safe_mono; [|apply safe_allocate_bitmap_bit].
  intros [st|b]; simpl; [done|lia].
Qed.

Lemma safe_free_inode start count n : safe (fun r => r <= 0) (free_inode start count n).
Proof. unfold free_inode. ssteps; [done|]. apply safe_bitmap_update. Qed.

Lemma safe_clear_record start count n : safe (fun r => r <= 0) (clear_inode_record start count n).
Proof. unfold clear_inode_record. ssteps; [done|]. apply safe_write_record; [done|apply bytes_replicate]. Qed.

Hint Resolve safe_read_inode safe_write_inode safe_allocate_inode safe_free_inode safe_clear_record : safe.

(** ** Data blocks *)

Lemma safe_data_allocated start count b : safe (fun _ => True) (data_block_allocated start count b).
Proof. unfold data_block_allocated. ssteps; [|done]. apply safe_bitmap_bit_set. Qed.

Lemma safe_free_block start count b : safe (fun r => r <= 0) (free_block start count b).
Proof. unfold free_block. ssteps; [done|]. apply safe_bitmap_update. Qed.
Hint Resolve safe_data_allocated safe_free_block : safe.

Lemma safe_allocate_block start count : safe (res (fun _ => True)) (allocate_block start count).
Proof.
  unfold allocate_block. eapply safe_bind; [apply safe_sb|]. intros b _.
  eapply safe_bind; [by apply safe_allocate_bitmap_bit|]. intros r Hr. by ssteps.
Qed.
Hint Resolve safe_allocate_block : safe.

Lemma safe_block_pointer start count i n : safe (res (fun _ => True)) (block_pointer start count i n).
Proof.
  unfold block_pointer. ssteps; try done.
  eapply safe_bind; [apply (safe_at_offset a1); [done|..]|]; unfold MINIFS_DIRECT_COUNT, MINIFS_INDIRECT_COUNT in *; [lia..|].
  intros word _. by ssteps.
Qed.
Hint Resolve safe_block_pointer : safe.

Lemma safe_block_at start count i n : safe (res (fun _ => True)) (inode_block_at start count i n).
Proof. unfold inode_block_at. by ssteps. Qed.
Hint Resolve safe_block_at : safe.

Lemma safe_load start count i n : safe (fun _ => True) (load_file_block start count i n).
Proof. unfold load_file_block. by ssteps. Qed.
Hint Resolve safe_load : safe.

(** ** Directories *)

(** An entry of the directory block in [io_block]. *)
Lemma safe_entry {A} (P : A -> Prop) b o (k : list Z -> M (fs E) A) :
  blk b -> 0 <= o -> o + 64 <= 4096 -> (forall e, zlength e = 64 -> bytes e -> safe P (k e)) ->
  safe P (let! e := at_offset b o MINIFS_DIRECTORY_ENTRY_SIZE in k e).
Proof.
  intros Hb Ho Hle Hk. eapply safe_bind; [by apply (safe_at_offset b o 64)|]. intros e [Hl He]. auto.
Qed.

Lemma safe_find_in_entry start count component file_block index :
  0 <= index < 64 ->
  safe (fun r => forall x, r = Some x -> res (fun d => rec_offset d mod 64 = 0 /\ 0 <= rec_offset d) x)
    (find_in_entry start count component file_block index).
Proof.
  intros Hi. unfold find_in_entry. do 2 sstep.
  apply safe_entry; [done|unfold MINIFS_DIRECTORY_ENTRY_SIZE; lia..|]. intros e Hl He. cbv zeta.
  ssteps; intros x [= <-]; try done.
  cbn [res rec_offset]. split; [|apply u32_range].
  unfold MINIFS_BLOCK_SIZE, MINIFS_DIRECTORY_ENTRY_SIZE. word_lia.
Qed.

Lemma safe_directory_find_internal start count d c :
  safe (res (fun d => rec_offset d mod 64 = 0 /\ 0 <= rec_offset d)) (directory_find_internal start count d c).
Proof.
  unfold directory_find_internal. ssteps; [done|].
  apply (safe_while (fun _ => True) _ (fun x => Z.to_nat (fst x))); [done|simpl; lia|].
  intros [remaining file_block] _. unfold find_in_block. destruct (Z.ltb_spec 0 remaining); cbn [negb]; [|by ssteps].
  ssteps; try done. cbv zeta. eapply safe_bind.
  { apply (safe_for_until (res (fun d => rec_offset d mod 64 = 0 /\ 0 <= rec_offset d))). intros i Hi.
    apply safe_find_in_entry. unfold MINIFS_ENTRIES_PER_BLOCK in *. lia. }
  intros [r|] Hr; apply safe_ret; [by apply Hr|]. unfold MINIFS_ENTRIES_PER_BLOCK. simpl. lia.
Qed.
Hint Resolve safe_directory_find_internal : safe.

Lemma safe_directory_find start count d c : safe (res (fun _ => True)) (directory_find start count d c).
Proof. unfold directory_find. ssteps. by destruct a. Qed.
Hint Resolve safe_directory_find : safe.

(** ** Paths *)

Lemma skip_slashes_range n path i : i <= zlength path -> i <= skip_slashes n path i <= zlength path.
Proof.
  revert i. induction n as [|n IH]; intros i Hi; simpl; [lia|].
  destruct (Z.ltb_spec i (zlength path)); simpl; [|lia]. destruct (_ =? 47); [|lia].
  specialize (IH (i + 1)). lia.
Qed.

Lemma scan_component_range n path i j :
  i <= zlength path -> scan_component n path i = Some j -> i <= j <= zlength path.
Proof.
  revert i. induction n as [|n IH]; intros i Hi; simpl; [intros [= <-]; lia|].
  destruct (Z.ltb_spec i (zlength path)); simpl; [|intros [= <-]; lia].
  destruct (negb _); [|intros [= <-]; lia]. destruct (_ <? byte_at _ _); [done|]. intros E1.
  specialize (IH (i + 1)). apply IH in E1; lia.
Qed.

Lemma slice_nonempty l o n : zlength (slice l o n) <> 0 -> 0 < n.
Proof. unfold zlength, slice. rewrite length_take. lia. Qed.

Lemma bounded_path_res path : res (fun n => n = zlength path /\ 1 <= n < 256) (bounded_path_length path).
Proof.
  unfold bounded_path_length, MINIFS_PATH_MAX. destruct (negb _); [done|].
  destruct (Z.leb_spec 256 (zlength path)); [done|]. destruct (Z.eqb_spec (zlength path) 0); [done|].
  cbn [res]. unfold zlength in *. lia.
Qed.

Lemma safe_lookup_locked start count path :
  safe (res (fun st => 0 <= st_size st <= MINIFS_MAX_FILE_SIZE)) (lookup_locked start count path).
Proof.
  unfold lookup_locked. pose proof (bounded_path_res path) as Hp.
  destruct (bounded_path_length path) as [st|n]; cbn [res] in Hp; [by apply safe_ret|]. destruct Hp as [-> Hp].
  sstep. eapply (safe_bind (res (fun _ => True))); [|intros [st|current] Hr; [by ssteps|]; ssteps; by try apply inode_size].
  apply (safe_while (fun x => snd x <= zlength path) _ (fun x => Z.to_nat (zlength path - snd x))); cbn [snd];
    [lia|unfold zlength; lia|].
  intros [current index] Hi. cbn [snd] in *. unfold lookup_step.
  destruct (Z.ltb_spec index (zlength path)) as [Hlt|]; cbn [negb]; [|by ssteps]. cbv zeta.
  pose proof (skip_slashes_range (length path) path index Hi). sstep; [by ssteps|].
  destruct (scan_component _ _ _) as [next|] eqn:Es; [|by ssteps]. apply scan_component_range in Es; [|lia].
  scase Eo; [by ssteps|]. apply orb_false_iff in Eo as [Eo%Z.eqb_neq _].
  apply slice_nonempty in Eo. ssteps; try done; cbn [snd]; lia.
Qed.

Lemma safe_resolve start count path :
  bytes path -> safe (res (fun r => inode_ok (snd (fst r)) /\ bytes (snd r))) (resolve_parent_locked start count path).
Proof.
  intros Hb. unfold resolve_parent_locked. pose proof (bounded_path_res path) as Hp.
  destruct (bounded_path_length path) as [st|n]; cbn [res] in Hp; [by apply safe_ret|]. destruct Hp as [-> Hp].
  sstep; [by ssteps|]. sstep.
  apply (safe_while (fun x => snd x <= zlength path) _ (fun x => Z.to_nat (zlength path - snd x))); cbn [snd];
    [lia|unfold zlength; lia|].
  intros [current index] Hi. cbn [snd] in *. unfold resolve_step.
  destruct (Z.ltb_spec index (zlength path)) as [Hlt|]; cbn [negb]; [|by ssteps]. cbv zeta.
  pose proof (skip_slashes_range (length path) path index Hi). sstep; [by ssteps|].
  destruct (scan_component _ _ _) as [next|] eqn:Es; [|by ssteps]. apply scan_component_range in Es; [|lia].
  scase Eo; [by ssteps|]. apply orb_false_iff in Eo as [Eo%Z.eqb_neq _].
  apply slice_nonempty in Eo. pose proof (skip_slashes_range (length path) path next ltac:(lia)).
  ssteps; try done; cbn [snd]; try lia. split; [done|by apply bytes_slice].
Qed.

(** ** Writing *)

(** The source of a chunk fits in the block it goes to. *)
Definition chunk_ok (offset : Z) (source : list Z) : Prop :=
  0 <= offset /\ bytes source /\ offset mod 4096 + zlength source <= 4096.

Lemma mod4096_nonneg o : 0 <= o mod MINIFS_BLOCK_SIZE.
Proof. apply Z.mod_pos_bound. done. Qed.

Lemma safe_write_chunk_io offset source :
  chunk_ok offset source -> safe (fun _ => True) (@write_io E (offset mod MINIFS_BLOCK_SIZE) source).
Proof. intros (Ho & Hb & Hl). apply safe_write_io; [done|apply mod4096_nonneg|done]. Qed.
Hint Resolve safe_write_chunk_io : safe.

Lemma safe_overwrite start count n i offset source :
  chunk_ok offset source -> safe (fun r => fst r <= 0) (overwrite_chunk start count n i offset source).
Proof. intros Hc. unfold overwrite_chunk. by ssteps. Qed.

Lemma safe_link_block start count i file_block b :
  safe (fun r => is_Some r -> file_block < 1034) (link_block start count i file_block b).
Proof.
  unfold link_block, MINIFS_DIRECT_COUNT, MINIFS_INDIRECT_COUNT. ssteps; try (by intros []); [intros _; lia|].
  eapply safe_seq; [apply safe_write_auxiliary; [apply bytes_le32|lia|change (zlength (le32 b)) with 4; lia]|].
  ssteps; try (by intros []). intros _. lia.
Qed.
Hint Resolve safe_link_block : safe.

Lemma safe_rollback_blocks start count b ib : safe (fun _ => True) (rollback_blocks start count b ib).
Proof. unfold rollback_blocks. by ssteps. Qed.
Hint Resolve safe_rollback_blocks : safe.

Lemma safe_append start count n i offset source :
  chunk_ok offset source -> safe (fun r => fst r <= 0) (append_chunk start count n i offset source).
Proof.
  intros Hc. unfold append_chunk. cbv zeta.
  eapply (safe_bind (res (fun _ => True))); [destruct (_ && _); [apply safe_allocate_block|by apply safe_ret]|].
  intros ind Hind. ssteps; [cbn [fst]; lia|..].
  { eapply safe_seq; [|apply safe_ret; cbn [fst]; lia]. instantiate (1 := fun _ => True). by ssteps. }
  1,3,4: done.
  eapply (safe_bind (fun _ => True)); [|by intros; ssteps].
  destruct (_ && _) eqn:Ef; [|by apply safe_ret]. apply andb_true_iff in Ef as [Ef%negb_true_iff _].
  assert (offset / MINIFS_BLOCK_SIZE < 1034) by auto. unfold MINIFS_DIRECT_COUNT in *.
  eapply safe_seq; [apply safe_write_auxiliary; [apply bytes_le32|lia|change (zlength (le32 0)) with 4; lia]|].
  by ssteps.
Qed.

Lemma safe_write_chunk start count n i offset source :
  chunk_ok offset source -> safe (fun r => fst r <= 0) (write_chunk_locked start count n i offset source).
Proof.
  intros Hc. unfold write_chunk_locked. ssteps; [by apply safe_overwrite|done|by apply safe_append].
Qed.
Hint Resolve safe_write_chunk : safe.

(** ** Directory changes *)

(** A scan of a directory by entries, from any entry boundary. *)
Definition entry_offset (offset : Z) : Prop := 0 <= offset /\ offset mod 64 = 0.
Definition entries_left (d : inode) (offset : Z) : nat := Z.to_nat ((size d - offset + 63) / 64).

Lemma entry_next offset : entry_offset offset -> entry_offset (offset + MINIFS_DIRECTORY_ENTRY_SIZE).
Proof. unfold entry_offset, MINIFS_DIRECTORY_ENTRY_SIZE. intros []. split; [lia|word_lia]. Qed.

Lemma entries_left_next d offset :
  offset < size d -> (entries_left d (offset + MINIFS_DIRECTORY_ENTRY_SIZE) < entries_left d offset)%nat.
Proof.
  unfold entries_left, MINIFS_DIRECTORY_ENTRY_SIZE. intros.
  replace (size d - (offset + 64) + 63) with (size d - offset + 63 + (-1) * 64) by lia.
  rewrite Z.div_add by lia. pose proof (Z.div_str_pos (size d - offset + 63) 64). lia.
Qed.

Lemma entries_left_fuel d offset :
  0 <= offset -> (entries_left d offset < S (S (Z.to_nat (size d / MINIFS_DIRECTORY_ENTRY_SIZE))))%nat.
Proof. unfold entries_left, MINIFS_DIRECTORY_ENTRY_SIZE. intros. word_lia. Qed.

Lemma entry_in_block offset :
  entry_offset offset -> 0 <= offset mod MINIFS_BLOCK_SIZE /\ offset mod MINIFS_BLOCK_SIZE + 64 <= 4096.
Proof. unfold entry_offset, MINIFS_BLOCK_SIZE. intros []. word_lia. Qed.

Lemma safe_free_entry start count d :
  safe (res entry_offset)
    (while_ (S (S (Z.to_nat (size d / MINIFS_DIRECTORY_ENTRY_SIZE)))) (free_entry_step start count d) 0).
Proof.
  apply (safe_while entry_offset _ (entries_left d)); [done|by apply entries_left_fuel|].
  intros o Ho. unfold free_entry_step. destruct (Z.ltb_spec o (size d)); cbn [negb]; [|by ssteps].
  ssteps; try done. apply safe_entry; [done|by apply entry_in_block..|]. intros e He Hb.
  ssteps; [done|]. split; [by apply entry_next|by apply entries_left_next].
Qed.
Hint Resolve safe_free_entry : safe.

Lemma encode_entry_ok child type name :
  0 <= type < 256 -> bytes name -> zlength name <= 58 ->
  zlength (encode_directory_entry child type name) = 64 /\ bytes (encode_directory_entry child type name).
Proof.
  intros Ht Hb Hl. unfold encode_directory_entry. cbv zeta.
  assert (zlength (splice (write_le32 (replicate 64 0) 0 child) 4 [type]) = 64) as H1 by done.
  split.
  - unfold zlength at 1. rewrite length_splice; [done|lia|]. rewrite H1. lia.
  - apply bytes_splice; [|done]. apply bytes_splice; [apply bytes_write32, bytes_replicate|by apply Forall_singleton].
Qed.

Lemma chunk_entry offset e : entry_offset offset -> zlength e = 64 -> bytes e -> chunk_ok offset e.
Proof. intros Ho Hl Hb. pose proof (entry_in_block offset Ho). destruct Ho. split; [done|]. split; [done|]. rewrite Hl. tauto. Qed.

Lemma safe_directory_append start count n d child type name :
  0 <= type < 256 -> bytes name -> safe (fun r => r <= 0) (directory_append_locked start count n d child type name).
Proof.
  intros Ht Hb. unfold directory_append_locked. scase Eg; [by ssteps|]. cbv zeta.
  assert (zlength name <= 58).
  { rewrite !orb_false_iff in Eg. destruct Eg as [[[_ Eg] _] _]. unfold MINIFS_NAME_MAX in Eg. lia. }
  destruct (encode_entry_ok child type name Ht Hb) as [Hel Heb]; [done|].
  sstep. sstep; [apply safe_ret; lia|]. sstep; [by ssteps|].
  eapply safe_bind; [apply safe_write_chunk, chunk_entry; done|]. intros w Hw. ssteps; try done; try lia.
  eapply safe_seq; [apply safe_write_chunk, chunk_entry; [done|done|apply bytes_replicate]|by ssteps].
Qed.

Lemma safe_rollback_created start count n : safe (fun _ => True) (rollback_created_inode start count n).
Proof. unfold rollback_created_inode. by ssteps. Qed.
Hint Resolve safe_rollback_created : safe.

Lemma safe_create start count path : bytes path -> safe (res (fun _ => True)) (create_locked start count path).
Proof.
  intros Hb. unfold create_locked. eapply safe_bind; [by apply safe_resolve|]. intros [st|[[pn parent] name]] Hp; [by ssteps|].
  cbn [res fst snd] in Hp. destruct Hp as [Hi Hn].
  ssteps; try done. eapply safe_bind; [by apply safe_directory_append|]. intros r Hr. ssteps; try done. cbn [res]. lia.
Qed.

Lemma safe_directory_empty start count d : safe (fun r => r <= 0) (directory_empty_locked start count d).
Proof.
  unfold directory_empty_locked. sstep; [by ssteps|].
  apply (safe_while entry_offset _ (entries_left d)); [done|by apply entries_left_fuel|].
  intros o Ho. unfold directory_empty_step. destruct (Z.ltb_spec o (size d)); cbn [negb]; [|by ssteps].
  ssteps; try done. apply safe_entry; [done|by apply entry_in_block..|]. intros e He Hb. cbv zeta.
  ssteps; try done; (split; [by apply entry_next|by apply entries_left_next]).
Qed.
Hint Resolve safe_directory_empty : safe.

Lemma safe_free_or_fail start count b :
  safe (fun r => forall x, r = Some x -> x <= 0) (free_or_fail start count b).
Proof. unfold free_or_fail. ssteps; intros x; [by intros [= <-]|done]. Qed.
Hint Resolve safe_free_or_fail : safe.

Lemma blocks_range i : inode_ok i -> 0 <= divide_round_up (size i) MINIFS_BLOCK_SIZE <= 1034.
Proof.
  intros []. unfold divide_round_up, MINIFS_MAX_FILE_SIZE, MINIFS_MAX_FILE_BLOCKS, MINIFS_BLOCK_SIZE in *.
  destruct (Z.eqb_spec (size i) 0); [lia|]. word_lia.
Qed.

(** The loops that free the blocks listed in [compare_buffer]. *)
Lemma safe_free_indirect start count first n :
  10 <= first -> first + Z.of_nat n <= 1034 ->
  safe (fun r => forall x, r = Some x -> x <= 0) (for_until n first (fun index =>
    let! c := gets compare_buffer in
    let! word := at_offset c ((index - MINIFS_DIRECT_COUNT) * 4) 4 in
    free_or_fail start count (read_le32 word 0))).
Proof.
  intros Hf Hn. apply (safe_for_until (fun x => x <= 0)). intros i Hi. sstep.
  eapply safe_bind; [apply (safe_at_offset a); [done|..]|]; unfold MINIFS_DIRECT_COUNT; [lia..|].
  intros w _. apply safe_free_or_fail.
Qed.

Lemma safe_free_direct start count first n i :
  safe (fun r => forall x, r = Some x -> x <= 0)
    (for_until n first (fun index => free_or_fail start count (direct_at i index))).
Proof. apply (safe_for_until (fun x => x <= 0)). intros k _. apply safe_free_or_fail. Qed.
Hint Resolve safe_free_direct : safe.

Lemma safe_release start count n i : inode_ok i -> safe (fun r => r <= 0) (release_inode_locked start count n i).
Proof.
  intros Hi. pose proof (blocks_range i Hi). unfold release_inode_locked. cbv zeta.
  apply safe_cond; [intros _; apply safe_read_compare|]. intros r Hr. sstep; [by ssteps|]. sstep. destruct a as [st|].
  { apply safe_ret. by apply H0. }
  eapply safe_bind; [apply safe_free_indirect; unfold MINIFS_DIRECT_COUNT; lia|]. intros [st|] Hf.
  { apply safe_ret. by apply Hf. }
  apply safe_cond; [intros _; apply safe_free_block|]. intros r' Hr'. by ssteps.
Qed.

Lemma safe_mkdir start count path : bytes path -> safe (fun r => r <= 0) (mkdir_locked start count path).
Proof.
  intros Hb. unfold mkdir_locked. eapply safe_bind; [by apply safe_resolve|].
  intros [st|[[pn parent] name]] Hp; [apply safe_ret; cbn [res] in Hp; lia|].
  cbn [res fst snd] in Hp. destruct Hp as [Hi Hn]. ssteps; try done; try lia.
  assert (forall c, zlength (encode_directory_entry c MINIFS_ENTRY_DIRECTORY [46]) = 64 /\
    bytes (encode_directory_entry c MINIFS_ENTRY_DIRECTORY [46])) as Hd by (intros; apply encode_entry_ok; [done|by repeat apply Forall_cons_2|done]).
  assert (forall c, zlength (encode_directory_entry c MINIFS_ENTRY_DIRECTORY [46; 46]) = 64 /\
    bytes (encode_directory_entry c MINIFS_ENTRY_DIRECTORY [46; 46])) as Hdd by (intros; apply encode_entry_ok; [done|by repeat apply Forall_cons_2|done]).
  eapply safe_seq; [apply safe_write_io; [apply Hd|done|by rewrite (proj1 (Hd a))]|].
  eapply safe_seq; [apply safe_write_io; [apply Hdd|done|by rewrite (proj1 (Hdd pn))]|].
  sstep. eapply (safe_bind (fun r => r <= 0)); [destruct (_ =? 0); [apply safe_write_inode|by apply safe_ret]|].
  intros w2 Hw2. ssteps; try done. eapply safe_bind; [by apply safe_directory_append|]. intros r Hr. by ssteps.
Qed.

Lemma safe_unlink start count path : bytes path -> safe (fun r => r <= 0) (unlink_locked start count path).
Proof.
  intros Hb. unfold unlink_locked. eapply safe_bind; [by apply safe_resolve|].
  intros [st|[[pn parent] name]] Hp; [apply safe_ret; cbn [res] in Hp; lia|].
  cbn [res fst snd] in Hp. destruct Hp as [Hi Hn]. sstep. sstep; [apply safe_ret; lia|].
  do 2 sstep; [by ssteps|]. sstep. sstep; [by ssteps|].
  apply safe_cond; [intros _; apply safe_directory_empty|]. intros r Hr. sstep; [by ssteps|]. sstep; [by ssteps|]. cbv zeta.
  sstep. sstep; [|by ssteps]. destruct (entry_in_block (rec_offset a)) as [Ho1 Ho2]; [by destruct H|].
  sstep. apply safe_entry; [done..|]. intros e He Heb.
  eapply safe_seq; [apply safe_write_auxiliary; [done|done|by rewrite He]|].
  eapply safe_seq; [apply safe_write_io; [apply bytes_replicate|done|done]|].
  sstep. sstep; [by ssteps|]. apply safe_cond; [intros _; apply safe_write_inode|]. intros w Hw. sstep; [|by apply safe_release].
  sstep. eapply (safe_bind (fun _ => True)); [|by intros; ssteps]. sstep; [|by ssteps].
  sstep. apply safe_entry; [done..|]. intros e' He' Heb'.
  eapply safe_seq; [apply safe_write_io; [done|done|by rewrite He']|]. by ssteps.
Qed.

(** ** Truncation *)

Lemma divide_round_up_mono a b : 0 <= a <= b -> 0 <= divide_round_up a 4096 <= divide_round_up b 4096.
Proof. intros. unfold divide_round_up. destruct (Z.eqb_spec a 0), (Z.eqb_spec b 0); word_lia. Qed.

Lemma safe_truncate start count n new_size :
  0 <= new_size -> safe (fun r => r <= 0) (truncate_locked start count n new_size).
Proof.
  intros Hns. unfold truncate_locked. sstep. sstep; [by ssteps|]. rename a into i.
  sstep; [by ssteps|]. sstep; [by ssteps|]. sstep; [by ssteps|]. cbv zeta.
  pose proof (blocks_range i H) as Hbr. pose proof (divide_round_up_mono new_size (size i) ltac:(lia)) as Hmono.
  change MINIFS_BLOCK_SIZE with 4096 in *.
  apply safe_cond; [intros _; by ssteps|]. intros r Hr. sstep; [by ssteps|].
  change MINIFS_DIRECT_COUNT with 10 in *.
  apply safe_cond.
  { intros Hnb. eapply safe_seq; [|apply safe_write_auxiliary_block]. apply safe_for_range. intros k Hk.
    apply safe_write_auxiliary; [apply bytes_le32|lia|change (zlength (le32 0)) with 4; lia]. }
  intros r2 Hr2. sstep; [by ssteps|]. sstep. sstep.
  { eapply (safe_bind (fun _ => True)); [by ssteps|]. by intros; ssteps. }
  sstep. destruct a0 as [st|]; [apply safe_ret; by apply H1|]. sstep; [|by ssteps].
  eapply safe_bind; [apply (safe_free_indirect start count); lia|]. intros [st|] Hf.
  { apply safe_ret. by apply Hf. }
  by ssteps.
Qed.

(** ** Reading *)

(** The result of a read of [n] bytes and what it stored. *)
Definition filled (n : Z) (r : Z * list Z) : Prop :=
  bytes (snd r) /\ zlength (snd r) <= Z.max 0 n /\ (0 <= fst r -> zlength (snd r) = fst r).

Lemma safe_read_loop start count i offset length' :
  safe (filled length')
    (while_ (S (Z.to_nat length')) (read_step start count i offset length') (0, [])).
Proof.
  apply (safe_while (fun x => bytes (snd x) /\ zlength (snd x) = fst x /\ fst x <= Z.max 0 length') _ (fun x => Z.to_nat (length' - fst x)));
    [split; [apply Forall_nil_2|cbn; split; [done|lia]]|simpl; lia|].
  intros [completed dest] (Hd & Hz & Hle). cbn [fst snd] in *. unfold read_step.
  destruct (Z.ltb_spec completed length'); cbn [negb]; [|ssteps; split; [done|]; split; [cbn; lia|done]].
  cbv zeta. ssteps; [|by split; [|split; [cbn; lia|]]].
  pose proof (Z.mod_pos_bound (offset +u completed) 4096 ltac:(lia)). unfold MINIFS_BLOCK_SIZE.
  eapply safe_bind; [apply (safe_at_offset a0); [done|lia..]|]. intros part [Hpl Hpb]. apply safe_ret. cbn [fst snd].
  split; [|lia]. split; [by apply Forall_app|]. unfold zlength in *. rewrite length_app. lia.
Qed.

Lemma safe_write_loop start count n offset source i :
  bytes source -> safe (fun _ => True)
    (while_ (S (length source)) (write_step start count n offset source) (0, i)).
Proof.
  intros Hb. apply (safe_while (fun x => 0 <= fst x) _ (fun x => Z.to_nat (zlength source - fst x)));
    [done|unfold zlength; simpl; lia|].
  intros [completed i'] Hc. cbn [fst] in *. unfold write_step.
  destruct (Z.ltb_spec completed (zlength source)); cbn [negb]; [|by ssteps]. cbv zeta.
  pose proof (Z.mod_pos_bound (offset +u completed) 4096 ltac:(lia)). unfold MINIFS_BLOCK_SIZE.
  eapply safe_bind.
  { apply safe_write_chunk. split; [apply u32_range|]. split; [by apply bytes_slice|].
    rewrite zlength_slice; lia. }
  intros w Hw. ssteps; [done|]. cbn [fst]. lia.
Qed.

(** The cursor stays a 32-bit number, and an entry comes with every result 1. *)
Definition cursor_in (offset o : Z) : Prop := 0 <= o /\ (offset < 4294967296 -> o < 4294967296).
Definition scan_result (offset : Z) (r : Z * option Z * option minifs_dirent) : Prop :=
  (fst (fst r) = 1 -> snd r <> None) /\ forall c, snd (fst r) = Some c -> cursor_in offset c.

Lemma safe_readdir_loop start count d offset :
  inode_ok d -> entry_offset offset -> safe (scan_result offset)
    (while_ (S (S (Z.to_nat (size d / MINIFS_DIRECTORY_ENTRY_SIZE)))) (readdir_step start count d) offset).
Proof.
  intros Hd Ho. apply (safe_while (fun o => entry_offset o /\ cursor_in offset o) _ (entries_left d));
    [by destruct Ho|apply entries_left_fuel; apply Ho|].
  intros o [Ho' Hc]. unfold readdir_step.
  assert (scan_result offset (- EIO, None, None)) as Hbad by done.
  assert (forall v e, v <> 1 \/ e <> None -> forall c, cursor_in offset c -> scan_result offset (v, Some c, e)) as Hok.
  { intros v e He c Hcur. split; cbn; [naive_solver|]. by intros ? [= <-]. }
  destruct (Z.ltb_spec o (size d)); cbn [negb]; [|apply safe_ret, Hok; auto].
  ssteps; try done. apply safe_entry; [done|by apply entry_in_block..|]. intros e He Hb. cbv zeta.
  assert (o +u MINIFS_DIRECTORY_ENTRY_SIZE = o + MINIFS_DIRECTORY_ENTRY_SIZE) as ->.
  { apply u32_id. destruct Hd, Ho'. unfold MINIFS_MAX_FILE_SIZE, MINIFS_MAX_FILE_BLOCKS, MINIFS_BLOCK_SIZE,
      MINIFS_DIRECTORY_ENTRY_SIZE in *. lia. }
  assert (cursor_in offset (o + MINIFS_DIRECTORY_ENTRY_SIZE)) as Hnext.
  { destruct Hd, Ho'. unfold cursor_in, MINIFS_MAX_FILE_SIZE, MINIFS_MAX_FILE_BLOCKS, MINIFS_BLOCK_SIZE,
      MINIFS_DIRECTORY_ENTRY_SIZE in *. lia. }
  ssteps; try done; [split; [split; [by apply entry_next|done]|by apply entries_left_next]|apply Hok; auto].
Qed.

(** ** The lock *)

Lemma frame_set_busy s s' b : frame s s' -> frame (set_busy b s) (set_busy b s').
Proof. intros [[] ? ? ? ?]. split; [by split|done..]. Qed.

Lemma wp_acquire s (Q : option Z -> fs E -> Prop) :
  ok s -> (operation_busy s = true -> Q None s) ->
  (operation_busy s = false -> ok (set_cpu (Cpu.masked (cpu s)) (set_busy true s)) ->
    Q (Some (Cpu.eflags (cpu s))) (set_cpu (Cpu.masked (cpu s)) (set_busy true s))) ->
  wp minifs_acquire s Q.
Proof.
  intros Hs Hbusy Hfree. unfold minifs_acquire. run. apply Cpu.irq_save_disable_wp. run.
  change (operation_busy (lset _ s)) with (operation_busy s). destruct (operation_busy s) eqn:Eb.
  - run. apply (Cpu.irq_restore_wp (cpu s)); [apply Hs|]. run. destruct s. by apply Hbusy.
  - run. destruct s as [d c sup io aux cmp m b], Hs. cbn in Eb. subst b. apply Hfree; [done|].
    split; [done|by apply Cpu.masked_wf|done..].
Qed.

Lemma wp_release c s (Q : unit -> fs E -> Prop) :
  Cpu.wf c -> cpu s = Cpu.masked c -> Q tt (set_cpu c (set_busy false s)) -> wp (minifs_release (Cpu.eflags c)) s Q.
Proof.
  intros Hc Hcpu HQ. unfold minifs_release. run. change (lget (set_busy false s)) with (cpu s). rewrite Hcpu.
  by apply Cpu.irq_restore_wp.
Qed.

(** A locked operation: refused with no change when the lock is taken, run
    with interrupts off otherwise. *)
Lemma wp_locked {A} (P : A -> Prop) (refuse : Z -> A) (body : M (fs E) A) s :
  ok s -> safe P body ->
  wp (locked refuse body) s (fun r s' => frame s s' /\
    if operation_busy s then s' = s /\ r = refuse (- EAGAIN) else P r).
Proof.
  intros Hs Hbody. unfold locked. apply wp_bind, wp_acquire; [done|..].
  - intros Eb. run. rewrite Eb. by split; [apply frame_refl|].
  - intros Eb Hok. cbv beta iota. apply wp_bind. eapply wp_mono; [by apply Hbody|]. cbv beta. intros r s' [[] Hr].
    run. apply wp_release; [apply Hs|done|]. run. rewrite Eb. split; [|done]. destruct frame_ok0, Hs.
    split; [by split|done..].
Qed.

(** ** Requests *)

Section requests.
Variables start count : Z.

(** The entry points of the file system. *)
Inductive request :=
| Mount
| Lookup (path : list Z) | Create (path : list Z) | Mkdir (path : list Z) | Unlink (path : list Z)
| StatInode (inode_number : Z)
| Truncate (inode_number new_size : Z)
| Read (inode_number offset length : Z)
| Write (inode_number offset : Z) (source : list Z)
| Readdir (inode_number offset : Z).

Definition status_of {A} (r : result A) : Z := match r with Err status => status | Ok _ => 0 end.

Definition serve (r : request) : M (fs E) Z :=
  match r with
  | Mount => minifs_mount start count
  | Lookup path => let! r := minifs_lookup start count path in ret (status_of r)
  | Create path => let! r := minifs_create start count path in ret (status_of r)
  | Mkdir path => minifs_mkdir start count path
  | Unlink path => minifs_unlink start count path
  | StatInode n => let! r := minifs_stat_inode start count n in ret (status_of r)
  | Truncate n new_size => minifs_truncate start count n new_size
  | Read n offset length => let! r := minifs_read start count n offset length in ret (fst r)
  | Write n offset source => minifs_write start count n offset source
  | Readdir n offset => let! r := minifs_readdir start count n offset in ret (fst (fst r))
  end.

(** The arguments are C values: bytes and [uint32_t]s. *)
Definition request_ok (r : request) : Prop :=
  match r with
  | Mount | StatInode _ | Read _ _ _ => True
  | Lookup path | Create path | Mkdir path | Unlink path => bytes path
  | Truncate _ new_size => 0 <= new_size
  | Write _ _ source => bytes source
  | Readdir _ offset => 0 <= offset
  end.

Definition refusals (st : Z) : Prop := st = - EIO \/ st = - EINVAL \/ st = - EAGAIN.

(** What every request but [Mount] promises. *)
Definition promise (s : fs E) (st : Z) (s' : fs E) : Prop :=
  frame s s' /\ (mounted s = false \/ operation_busy s = true -> s' = s /\ refusals st).

Lemma refuse_early s st : ok s -> refusals st -> promise s st s.
Proof. intros Hs Hst. split; [by apply frame_refl|done]. Qed.

Lemma wp_guarded {A} (P : A -> Prop) (status : A -> Z) (refuse : Z -> A) (body : M (fs E) A) s :
  ok s -> mounted s = true -> (forall z, status (refuse z) = z) -> safe P body ->
  wp (locked refuse body) s (fun r s' => promise s (status r) s').
Proof.
  intros Hs Hm Hst Hb. eapply wp_mono; [by eapply wp_locked|]. cbv beta. intros r s' [Hf Hr]. split; [done|].
  intros [?|Eb]; [congruence|]. rewrite Eb in Hr. destruct Hr as [-> ->]. rewrite Hst. split; [done|by right; right].
Qed.

(** The bodies under the lock. *)
Lemma safe_stat n : safe (fun _ => True) (
    let! r := read_inode_internal start count n in
    ret (match r with
         | Err status => Err status
         | Ok i => Ok (Stat n (mode i) (link_count i) (size i))
         end)).
Proof. by ssteps. Qed.

Lemma safe_read n offset length' : safe (filled length') (
    let! r := read_inode_internal start count n in
    match r with
    | Err status => ret (status, [])
    | Ok i =>
        if mode i =? MINIFS_MODE_DIRECTORY then ret (- EISDIR, []) else
        if (size i <=? offset) || (length' =? 0) then ret (0, []) else
        let l := Z.min length' (size i - offset) in
        while_ (S (Z.to_nat l)) (read_step start count i offset l) (0, [])
    end).
Proof.
  assert (forall st, st <= 0 -> filled length' (st, [])) as He by (intros st Hst; split; [apply Forall_nil_2|unfold zlength; cbn; lia]).
  ssteps; try (apply He; unfold EISDIR in *; lia).
  eapply safe_mono; [|apply safe_read_loop; lia]. intros r (? & ? & ?). split; [done|]. split; [lia|done].
Qed.

Lemma safe_write n offset source : bytes source -> safe (fun _ => True) (
    let! r := read_inode_internal start count n in
    match r with
    | Err status => ret status
    | Ok i =>
        if mode i =? MINIFS_MODE_DIRECTORY then ret (- EISDIR) else
        if size i <? offset then ret (- EINVAL) else
        while_ (S (length source)) (write_step start count n offset source) (0, i)
    end).
Proof. intros Hb. ssteps; try done. by apply safe_write_loop. Qed.

Lemma safe_readdir n offset : entry_offset offset -> safe (fun r => (fst (fst r) = 1 -> snd r <> None) /\ cursor_in offset (snd (fst r))) (
    let! r := read_inode_internal start count n in
    match r with
    | Err status => ret (status, offset, None)
    | Ok directory =>
        if negb (mode directory =? MINIFS_MODE_DIRECTORY) then ret (- ENOTDIR, offset, None) else
        let! x := while_ (S (S (Z.to_nat (size directory / MINIFS_DIRECTORY_ENTRY_SIZE))))
                    (readdir_step start count directory) offset in
        let '(result, cursor, entry) := x in
        ret (result, default offset cursor, entry)
    end).
Proof.
  intros Ho. assert (cursor_in offset offset) as Hc by (by destruct Ho).
  ssteps; cbn [res] in *; try by (split; [cbn; unfold ENOTDIR; lia|]). eapply safe_bind; [by apply safe_readdir_loop|].
  intros [[st c] e] [He Hr]. apply safe_ret. split; [done|]. destruct c; cbn; auto.
Qed.

Lemma serve_ok r s : ok s -> request_ok r -> r <> Mount -> wp (serve r) s (promise s).
Proof.
  intros Hs Hr Hne.
  assert (forall A (P : A -> Prop) (status : A -> Z) (refuse : Z -> A) body, mounted s = true ->
    (forall z, status (refuse z) = z) -> safe P body ->
    wp (locked refuse body) s (fun r s' => wp (ret (status r)) s' (promise s))) as Hlk.
  { intros. eapply wp_mono; [by eapply (wp_guarded P status)|]. done. }
  destruct r; [done|..]; cbn [serve request_ok] in *; run;
    unfold minifs_lookup, minifs_create, minifs_mkdir, minifs_unlink, minifs_stat_inode, minifs_truncate, minifs_read,
      minifs_write, minifs_readdir; run; destruct (mounted s) eqn:Em; cbn [negb orb];
    try (run; apply refuse_early; [done|first [by left|by right; left]]).
  - eapply (Hlk _ _ status_of); [done|done|apply safe_lookup_locked].
  - eapply (Hlk _ _ status_of); [done|done|by apply safe_create].
  - eapply (wp_guarded _ id); [done..|by apply safe_mkdir].
  - eapply (wp_guarded _ id); [done..|by apply safe_unlink].
  - eapply (Hlk _ _ status_of); [done|done|apply safe_stat].
  - destruct (MINIFS_MAX_FILE_SIZE <? new_size); [run; by apply refuse_early; [|right; left]|].
    eapply (wp_guarded _ id); [done..|by apply safe_truncate].
  - eapply (Hlk _ _ fst); [done|done|apply safe_read].
  - destruct (_ || _ || _); [run; by apply refuse_early; [|right; left]|].
    eapply (wp_guarded _ id); [done..|by apply safe_write].
  - destruct (Z.eqb_spec (offset mod MINIFS_DIRECTORY_ENTRY_SIZE) 0) as [Eo|]; cbn [negb];
      [|run; by apply refuse_early; [|right; left]].
    eapply (Hlk _ _ (fun r => fst (fst r))); [done|done|by apply safe_readdir].
Qed.

End requests.
End safe.

End MiniFsSafe.
