(* ===== verification/MiniFsSpec.v ===== *)
(** * MiniFS: mounting and the on-disk formats

    The superblock and inode encodings as an abstract description of what they
    store, and the safety of every sequence of requests, mounting included. *)

From S2P Require Import Prelude Monad Interfaces Bytes Cpu Block MiniFs MiniFsSafe.

Module MiniFsSpec.
Import MiniFs MiniFsSafe.

(** ** The superblock *)

(** [n] blocks hold [items] items of which [per] fit in a block, with no block to spare. *)
Definition just_holds (n per items : Z) : Prop := (n - 1) * per < items <= n * per.

(** A volume laid out as superblock, block bitmap, inode bitmap, inode table
    and data, one after the other and inside the volume. *)
Record geometry (count : Z) (b : superblock) : Prop := {
  geo_total : total_blocks b = count;
  geo_inodes : 0 < total_inodes b <= 67108863;
  geo_block_bitmap : block_bitmap_start b = 1 /\ just_holds (block_bitmap_blocks b) 32768 (total_blocks b);
  geo_inode_bitmap : inode_bitmap_start b = block_bitmap_start b + block_bitmap_blocks b /\
    just_holds (inode_bitmap_blocks b) 32768 (total_inodes b);
  geo_inode_table : inode_table_start b = inode_bitmap_start b + inode_bitmap_blocks b /\
    just_holds (inode_table_blocks b) 64 (total_inodes b);
  geo_data : data_start b = inode_table_start b + inode_table_blocks b /\ data_start b < total_blocks b;
  geo_root : 0 <= root_inode b < total_inodes b
}.

(** The fields of [b] are what the block stores. *)
Record stored (block : list Z) (b : superblock) : Prop := {
  stored_magic : read_le32 block 0 = MINIFS_MAGIC /\ read_le32 block 4 = 1 /\ read_le32 block 8 = 4096;
  stored_totals : read_le32 block 12 = total_blocks b /\ read_le32 block 16 = total_inodes b;
  stored_bitmaps : read_le32 block 20 = block_bitmap_start b /\ read_le32 block 24 = block_bitmap_blocks b /\
    read_le32 block 28 = inode_bitmap_start b /\ read_le32 block 32 = inode_bitmap_blocks b;
  stored_table : read_le32 block 36 = inode_table_start b /\ read_le32 block 40 = inode_table_blocks b;
  stored_data : read_le32 block 44 = data_start b /\ read_le32 block 48 = root_inode b;
  stored_crc : read_le32 block 52 = superblock_crc32 block;
  stored_reserved : superblock_reserved_zero block = true
}.

Lemma divide_round_up_holds items per n :
  0 < per -> 0 < items -> divide_round_up items per = n <-> just_holds n per items.
Proof.
  intros Hp Hi. unfold divide_round_up, just_holds. destruct (Z.eqb_spec items 0); [lia|].
  split; [intros <-|intros H]; Z.to_euclidean_division_equations; nia.
Qed.

Lemma decode_inode_bytes n : 0 < n <= 67108863 -> n *u MINIFS_INODE_SIZE = n * 64.
Proof. intros. apply u32_id. unfold MINIFS_INODE_SIZE. lia. Qed.

Lemma table_holds n t : just_holds t 4096 (n * 64) <-> just_holds t 64 n.
Proof. unfold just_holds. lia. Qed.

Tactic Notation "ifcase" ident(H) :=
  lazymatch goal with |- (if ?b then _ else _) = _ -> _ => destruct b eqn:H; [done|] end.

(** The sums of region sizes stay far below 2^32. *)
Lemma region_sums blocks inodes n m t :
  0 < blocks < 4294967296 -> 0 < inodes <= 67108863 ->
  just_holds n 32768 blocks -> just_holds m 32768 inodes -> just_holds t 64 inodes ->
  0 < n /\ 0 < m /\ 0 < t /\ 1 +u n = 1 + n /\ (1 + n) +u m = 1 + n + m /\ (1 + n + m) +u t = 1 + n + m + t.
Proof. unfold just_holds. intros. rewrite !u32_id by lia. lia. Qed.

Lemma decode_superblock_sound count block b :
  0 <= count < 4294967296 -> bytes block ->
  decode_superblock count block = Some b -> stored block b /\ geometry count b.
Proof.
  intros Hc Hb. unfold decode_superblock.
  pose proof (read_le32_range block 12 Hb) as Hr1. pose proof (read_le32_range block 16 Hb) as Hr2.
  pose proof (read_le32_range block 48 Hb) as Hr3.
  ifcase E1. cbv zeta. ifcase E2.
  rewrite !orb_false_iff, !negb_false_iff, !Z.eqb_eq in E1. rewrite !orb_false_iff, negb_false_iff, Z.eqb_eq in E2.
  destruct E2 as [[E2 E3%Z.eqb_neq] E4%Z.ltb_ge]. change (UINT32_MAX / MINIFS_INODE_SIZE) with 67108863 in E4.
  rewrite decode_inode_bytes by lia. set (blocks := read_le32 block 12) in *. set (inodes := read_le32 block 16) in *.
  unfold MINIFS_BITMAP_BITS_PER_BLOCK, MINIFS_BLOCK_SIZE.
  set (n := divide_round_up blocks 32768). set (m := divide_round_up inodes 32768).
  set (t := divide_round_up (inodes * 64) 4096).
  assert (just_holds m 32768 inodes) as Hm by (apply divide_round_up_holds; [lia|lia|done]).
  assert (just_holds t 64 inodes) as Ht by (apply table_holds, divide_round_up_holds; [lia|lia|done]).
  destruct (decide (blocks = 0)) as [E0|].
  { unfold n. rewrite E0. repeat case_match; try done. rewrite !orb_false_iff in *. word_lia. }
  assert (just_holds n 32768 blocks) as Hn by (apply divide_round_up_holds; [lia|lia|done]).
  destruct (region_sums blocks inodes n m t) as (Pn & Pm & Pt & -> & -> & ->); [lia|lia|done..|].
  ifcase E6. ifcase E7. ifcase E5. intros [= <-].
  rewrite !orb_false_iff, !negb_false_iff, !Z.eqb_eq in E5.
  split; split; cbn; try tauto; try lia.
Qed.

Lemma decode_superblock_complete count block b :
  0 <= count < 4294967296 -> bytes block ->
  stored block b -> geometry count b -> decode_superblock count block = Some b.
Proof.
  intros Hc Hb [(M1 & M2 & M3) [T1 T2] (B1 & B2 & B3 & B4) [I1 I2] [D1 D2] Hcrc Hres] [G1 G2 [G3 G4] [G5 G6] [G7 G8] [G9 G10] G11].
  destruct b as [blocks inodes bbs bbb ibs ibb its itb ds root]; cbn in *.
  unfold decode_superblock, MINIFS_VERSION. rewrite M1, M2, M3, Hcrc, Hres, T1, T2, B1, B2, B3, B4, I1, I2, D1, D2, !Z.eqb_refl.
  cbn [negb orb]. cbv zeta. rewrite decode_inode_bytes by lia.
  unfold MINIFS_BITMAP_BITS_PER_BLOCK, MINIFS_BLOCK_SIZE.
  destruct (region_sums blocks inodes bbb ibb itb) as (Pn & Pm & Pt & S1 & S2 & S3);
    [unfold just_holds in *; lia|done..|].
  apply divide_round_up_holds in G4, G6; [|lia..]. apply table_holds, divide_round_up_holds in G8; [|lia..].
  rewrite G4, G6, G8, S1, S2, S3. change (UINT32_MAX / MINIFS_INODE_SIZE) with 67108863. rewrite G9, G7, G5, G3, G1.
  rewrite !Z.eqb_refl. rewrite (proj2 (Z.eqb_neq inodes 0)), (proj2 (Z.ltb_ge 67108863 inodes)) by lia. cbn [negb orb].
  rewrite (proj2 (Z.ltb_ge (1 + bbb) bbb)), (proj2 (Z.ltb_ge (1 + bbb + ibb) (1 + bbb))),
    (proj2 (Z.ltb_ge (1 + bbb + ibb + itb) (1 + bbb + ibb))), (proj2 (Z.leb_gt count (1 + bbb + ibb + itb))),
    (proj2 (Z.leb_gt inodes root)) by lia. done.
Qed.

(** C16. [decode_superblock] accepts a block exactly when it stores, with a
    correct checksum and cleared reserved bytes, a superblock whose regions
    follow each other, are just large enough for the blocks and inodes they
    describe, and end inside the volume; it then returns that superblock. None
    of the 32-bit sums it forms can wrap. *)
Theorem decode_superblock_exact count block b :
  0 <= count < 4294967296 -> bytes block ->
  decode_superblock count block = Some b <-> stored block b /\ geometry count b.
Proof.
  intros Hc Hb. split; [by apply decode_superblock_sound|]. intros []. by apply decode_superblock_complete.
Qed.

(** ** Inodes *)

(** The record of an inode, field after field. *)
Lemma encode_inode_fields m lc sz d0 d1 d2 d3 d4 d5 d6 d7 d8 d9 ind ct mt :
  encode_inode (Inode m lc sz [d0; d1; d2; d3; d4; d5; d6; d7; d8; d9] ind ct mt) =
  le16 m ++ le16 lc ++ le32 sz ++ le32 d0 ++ le32 d1 ++ le32 d2 ++ le32 d3 ++ le32 d4 ++ le32 d5 ++ le32 d6 ++
  le32 d7 ++ le32 d8 ++ le32 d9 ++ le32 ind ++ le32 ct ++ le32 mt ++ [0; 0; 0; 0].
Proof. reflexivity. Qed.

Lemma decode_encode i : inode_ok i -> decode_inode (encode_inode i) = Some i.
Proof.
  destruct i as [m lc sz d ind ct mt]. intros [Hm Hs Hl [Hdl Hd] (Hi & Hct & Hmt) Hdir]. cbn in *.
  do 10 (destruct d as [|? d]; [done|]). destruct d; [|done]. repeat rewrite Forall_cons in Hd. destruct_and! Hd.
  rewrite encode_inode_fields. unfold decode_inode. cbn [map seq].
  set (l := le16 m ++ _). cbv zeta.
  change (read_le32 l 60) with 0.
  change (read_le16 l 0) with (read_le16 (le16 m) 0). change (read_le16 l 2) with (read_le16 (le16 lc) 0).
  change (read_le32 l 4) with (read_le32 (le32 sz) 0). change (read_le32 l 48) with (read_le32 (le32 ind) 0).
  change (read_le32 l 52) with (read_le32 (le32 ct) 0). change (read_le32 l 56) with (read_le32 (le32 mt) 0).
  match goal with |- context [Inode _ _ _ ?ds] =>
    change ds with (map (fun v => read_le32 (le32 v) 0) [z; z0; z1; z2; z3; z4; z5; z6; z7; z8]) end.
  cbn [map]. unfold MINIFS_MAX_FILE_SIZE, MINIFS_MAX_FILE_BLOCKS, MINIFS_BLOCK_SIZE in *.
  rewrite !read_le32_le32, !read_le16_le16 by (unfold MINIFS_MODE_REGULAR, MINIFS_MODE_DIRECTORY in *; lia).
  cbn [mode link_count size]. rewrite (proj2 (Z.eqb_neq lc 0)), (proj2 (Z.ltb_ge _ sz)) by lia. cbn [negb Z.eqb].
  destruct Hm as [-> | ->]; cbn [negb andb orb Z.eqb Pos.eqb MINIFS_MODE_REGULAR MINIFS_MODE_DIRECTORY]; [done|].
  destruct (Hdir eq_refl) as [Hpos H64]. unfold MINIFS_DIRECTORY_ENTRY_SIZE. rewrite H64.
  by rewrite (proj2 (Z.eqb_neq sz 0)) by lia.
Qed.

Lemma encode_decode l i : zlength l = 64 -> bytes l -> decode_inode l = Some i -> encode_inode i = l.
Proof.
  intros Hl Hb. unfold decode_inode. ifcase Ed. intros [= <-]. rewrite !orb_false_iff, negb_false_iff, Z.eqb_eq in Ed.
  destruct Ed as [[_ Hz] _]. cbn [map seq]. rewrite encode_inode_fields.
  rewrite !le16_read, !le32_read by done. pose proof (le32_read l 60 Hb) as Hr. rewrite Hz in Hr.
  change (le32 0) with [0; 0; 0; 0] in Hr. rewrite Hr.
  unfold zlength in Hl. clear - Hl. do 64 (destruct l as [|? l]; [done|]). destruct l; [reflexivity|simpl in Hl; lia].
Qed.

(** Inodes round-trip through their 64-byte disk records: an inode within
    the limits of the format is decoded to itself, and a record that
    [decode_inode] accepts is exactly what [encode_inode] writes for the inode
    it was decoded to, byte for byte. *)
Theorem inode_roundtrip :
  (forall i, inode_ok i -> decode_inode (encode_inode i) = Some i) /\
  (forall l i, zlength l = 64 -> bytes l -> decode_inode l = Some i -> inode_ok i /\ encode_inode i = l).
Proof.
  split; [apply decode_encode|]. intros l i Hl Hb Hd. split; [by eapply decode_inode_ok|by apply encode_decode].
Qed.

(** ** Mounting *)

Section mount.
Context {E : Type} `{!BlockDevice E}.
Variables start count : Z.
Hypothesis start_range : 0 <= start < 4294967296.
Hypothesis count_range : 0 <= count < 4294967296.

(** The state of the file system between two requests. *)
Definition fs_inv (s : fs E) : Prop :=
  ok s /\ (mounted s = true -> geometry count (mounted_superblock s)).

Lemma safe_check_mounted b : safe (fun _ => True) (@check_mounted E _ start count b).
Proof.
  unfold check_mounted. eapply safe_bind.
  { apply (safe_for_until (fun _ => True)). intros n _. eapply safe_bind; [apply safe_bitmap_bit_set|]. intros u _.
    by apply safe_ret. }
  intros [?|] _; [by apply safe_ret|]. eapply safe_bind; [apply safe_bitmap_bit_set|]. intros u _.
  destruct (negb u); [by apply safe_ret|]. eapply safe_bind; [apply safe_read_inode|]. intros [?|i] _; by apply safe_ret.
Qed.

(** Reading the candidate superblock. *)
Lemma wp_candidate s :
  ok s -> wp (read_candidate start count) s
    (fun c s' => frame s s' /\ forall b, c = Some b -> geometry count b).
Proof.
  intros Hs. unfold read_candidate. run. eapply wp_mono; [apply bd_count_ok, Hs|]. cbv beta. intros n e [-> ->]. rewrite lset_lget. run.
  destruct (_ || _); [run; split; [by apply frame_refl|done]|]. run.
  destruct (ok_io s Hs) as [Hl Hb]. eapply wp_mono; [apply bd_read_ok; [apply Hs|done|done|done]|]. cbv beta.
  intros [st buf] e' (Hi & _ & _ & _ & Hrl & Hrb & _). run. cbn [fst snd] in *. destruct Hs.
  split; [by split; [split|..]|]. intros b. destruct (negb _); [done|]. intros Hd.
  by apply decode_superblock_sound in Hd as [].
Qed.

Lemma ok_set_superblock b s : ok s -> ok (set_superblock b s).
Proof. intros []. by split. Qed.

Lemma ok_set_mounted m s : ok s -> ok (set_mounted m s).
Proof. intros []. by split. Qed.

(** What mounting leaves: the lock free, the processor as it was, and the
    volume mounted exactly when the result is 0. *)
Definition mounted_or_not (s : fs E) (st : Z) (s' : fs E) : Prop :=
  fs_inv s' /\ cpu s' = cpu s /\ operation_busy s' = false /\ (st = 0 /\ mounted s' = true \/ st = - EIO /\ mounted s' = false).

(** Leaving the critical section of [minifs_mount]. *)
Lemma wp_leave s s' st m b :
  ok s -> ok s' -> cpu s' = Cpu.masked (cpu s) -> (m = true -> geometry count b) ->
  (st = 0 /\ m = true \/ st = - EIO /\ m = false) -> mounted s' = m -> mounted_superblock s' = b ->
  wp (minifs_release (Cpu.eflags (cpu s))) s' (fun _ s'' => wp (ret st) s'' (fun r s3 => mounted_or_not s r s3)).
Proof.
  intros Hs Hs' Hcpu Hgeo Hst Hm Hb. apply wp_release; [apply Hs|done|]. run.
  split; [|split; [done|]; split; [done|]; cbn; by rewrite Hm]. destruct Hs', Hs.
  split; [by split|]. cbn. rewrite Hm, Hb. done.
Qed.

Lemma mount_ok s :
  ok s -> wp (minifs_mount start count) s (fun st s' =>
    if operation_busy s then s' = s /\ st = - EAGAIN else mounted_or_not s st s').
Proof.
  intros Hs. unfold minifs_mount. apply wp_bind, wp_acquire; [done|intros Eb; run; by rewrite Eb|].
  intros Eb Hok. rewrite Eb. unfold clear_superblock. run. cbn beta iota.
  set (s1 := set_superblock _ (set_mounted false _)). assert (ok s1) as H1 by by apply ok_set_superblock, ok_set_mounted.
  eapply wp_mono; [by apply wp_candidate|]. cbv beta. intros c s2 [Hf Hc].
  destruct Hf as [H2 C2 S2 M2 B2], c as [b|].
  2:{ run. by eapply (wp_leave s _ _ false); auto. }
  run.
  assert (ok (set_superblock b s2)) as H3 by by apply ok_set_superblock.
  eapply wp_mono; [by apply safe_check_mounted|]. cbv beta. intros good s4 [[H4 C4 S4 M4 B4] _]. destruct good; run.
  - apply (wp_leave s (set_mounted true s4) 0 true b); [done|by apply ok_set_mounted|exact (eq_trans C4 C2)| |by left|done|exact S4].
    auto.
  - eapply (wp_leave s _ _ false); [done|by apply ok_set_superblock|exact (eq_trans C4 C2)|done|by right|exact (eq_trans M4 M2)|done].
Qed.

(** ** Sequences of requests *)

Fixpoint serve_all (rs : list request) : M (fs E) (list Z) :=
  match rs with
  | [] => ret []
  | r :: rs' =>
      let! st := serve start count r in
      let! sts := serve_all rs' in
      ret (st :: sts)
  end.

(** One request: the invariant, the processor and the lock are kept, and a
    request made while the lock is held, or before the volume is mounted, is
    refused without an effect. *)
Definition served (s : fs E) (r : request) (st : Z) (s' : fs E) : Prop :=
  fs_inv s' /\ cpu s' = cpu s /\ operation_busy s' = operation_busy s /\
  (operation_busy s = true \/ mounted s = false /\ r <> Mount -> s' = s /\ refusals st).

Lemma serve_served r s : fs_inv s -> request_ok r -> wp (serve start count r) s (served s r).
Proof.
  intros [Hs Hgeo] Hr. assert ({r = Mount} + {r <> Mount}) as [-> | Hne] by (destruct r; (by left) || by right).
  - eapply wp_mono; [by apply mount_ok|]. cbv beta. intros st s' Hp. destruct (operation_busy s) eqn:Eb.
    + destruct Hp as [-> ->]. split; [done|]. split; [done|]. split; [done|]. intros _. split; [done|by right; right].
    + destruct Hp as (Hi & Hc & Hb & _). split; [done|]. split; [done|]. split; [congruence|]. intros [?|[? ?]]; congruence.
  - eapply wp_mono; [by apply serve_ok|]. cbv beta. intros st s' [[H1 H2 H3 H4 H5] Hp]. split; [split; [done|]|].
    + rewrite H3, H4. done.
    + split; [done|]. split; [done|]. intros [?|[? ?]]; apply Hp; auto.
Qed.

(** C5. MiniFS is robust. For every block device that obeys the contract of
    the block layer, in particular one that fails at any point and one whose
    blocks hold arbitrary bytes, every sequence of requests ends: no routine of
    the file system accesses a buffer out of range or loops for ever, and after
    every request the interrupt flag and the lock are as they were and a
    mounted superblock describes a layout inside the volume. While the lock is
    held, and while nothing is mounted, requests change nothing and are
    refused. *)
Theorem minifs_requests_safe s rs :
  fs_inv s -> Forall request_ok rs ->
  wp (serve_all rs) s (fun sts s' =>
    fs_inv s' /\ cpu s' = cpu s /\ operation_busy s' = operation_busy s /\ length sts = length rs /\
    (operation_busy s = true \/ mounted s = false /\ Mount ∉ rs -> s' = s /\ Forall refusals sts)).
Proof.
  intros Hs Hrs. revert s Hs. induction Hrs as [|r rs Hr Hrs IH]; intros s Hs; cbn [serve_all].
  { run. done. }
  apply wp_bind. eapply wp_mono; [by apply serve_served|]. cbv beta. intros st s1 (H1 & C1 & B1 & R1).
  run. eapply wp_mono; [by apply IH|]. cbv beta. intros sts s2 (H2 & C2 & B2 & L2 & R2). run.
  split; [done|]. split; [congruence|]. split; [congruence|]. split; [simpl; lia|]. intros Hc.
  assert (operation_busy s = true \/ mounted s = false /\ r <> Mount /\ Mount ∉ rs) as Hc'.
  { destruct Hc as [?|[? Hn]]; [by left|right]. apply not_elem_of_cons in Hn as [? ?]. done. }
  destruct R1 as [-> Hst]; [destruct Hc' as [?|(? & ? & ?)]; [by left|by right]|].
  destruct R2 as [-> Hsts]; [destruct Hc' as [?|(? & ? & ?)]; [by left|by right]|]. by split; [|constructor].
Qed.

End mount.

End MiniFsSpec.
