(* ===== verification/MiniFsDisk.v ===== *)
(** * MiniFS over a disk image

    On a device that does not fail, the routines of minifs.c are functions of
    the disk image. [on_disk s d] says that the volume behind [s] holds the
    blocks [d]; the lemmas below give, for the bitmap, inode and block routines,
    the value they return and the image they leave. *)

From S2P Require Import Prelude Monad Interfaces Bytes Cpu Block MiniFs MiniFsSafe MiniFsSpec.

Module MiniFsDisk.
Import MiniFs MiniFsSafe MiniFsSpec.

(** The blocks of a volume. *)
Definition disk : Type := Z -> list Z.

Definition upd (d : disk) (n : Z) (l : list Z) : disk := fun k => if k =? n then l else d k.

Lemma upd_eq d n l : upd d n l n = l.
Proof. unfold upd. by rewrite Z.eqb_refl. Qed.

Lemma upd_ne d n l k : k <> n -> upd d n l k = d k.
Proof. unfold upd. intros. by destruct (Z.eqb_spec k n). Qed.

(** ** Bits *)

Definition bit_at (d : disk) (start_block bit : Z) : bool :=
  Z.testbit (byte_at (d (start_block + bit / 32768)) (bit mod 32768 / 8)) (bit mod 32768 mod 8).

Definition set_bit (d : disk) (start_block bit : Z) (v : bool) : disk :=
  let n := start_block + bit / 32768 in
  let o := bit mod 32768 / 8 in
  upd d n (<[Z.to_nat o := byte_set_bit (byte_at (d n) o) (bit mod 32768 mod 8) v]> (d n)).

Lemma bit_position bit bit' :
  bit / 32768 = bit' / 32768 -> bit mod 32768 / 8 = bit' mod 32768 / 8 ->
  bit mod 32768 mod 8 = bit' mod 32768 mod 8 -> bit = bit'.
Proof. intros. Z.to_euclidean_division_equations. lia. Qed.

Lemma byte_index_range bit : 0 <= bit mod 32768 / 8 < 4096.
Proof. Z.to_euclidean_division_equations. lia. Qed.

Lemma byte_at_insert l i j v :
  0 <= i -> 0 <= j < zlength l -> byte_at (<[Z.to_nat j := v]> l) i = if i =? j then v else byte_at l i.
Proof.
  intros Hi Hj. unfold byte_at, zlength in *. destruct (Z.eqb_spec i j) as [->|].
  - rewrite list_lookup_insert_eq by lia. done.
  - rewrite list_lookup_insert_ne by lia. done.
Qed.

Lemma bit_at_set_bit d start_block bit v bit' :
  blk (d (start_block + bit / 32768)) ->
  bit_at (set_bit d start_block bit v) start_block bit' = if bit' =? bit then v else bit_at d start_block bit'.
Proof.
  intros [Hl _].
  pose proof (byte_index_range bit). pose proof (byte_index_range bit').
  pose proof (mod8_range (bit mod 32768)). pose proof (mod8_range (bit' mod 32768)).
  unfold bit_at, set_bit. cbv zeta. destruct (Z.eqb_spec bit' bit) as [->|Hne].
  { rewrite upd_eq, byte_at_insert, Z.eqb_refl, testbit_byte_set_bit, Z.eqb_refl by lia. done. }
  destruct (decide (bit' / 32768 = bit / 32768)) as [Eb|]; [|by rewrite upd_ne by lia].
  rewrite Eb, upd_eq, byte_at_insert by lia.
  destruct (Z.eqb_spec (bit' mod 32768 / 8) (bit mod 32768 / 8)) as [Eo|]; [|done].
  rewrite testbit_byte_set_bit by lia. rewrite Eo.
  destruct (Z.eqb_spec (bit mod 32768 mod 8) (bit' mod 32768 mod 8)) as [Em|]; [|done].
  by destruct Hne; apply bit_position.
Qed.

Lemma blk_set_bit d start_block bit v n : blk (d n) -> blk (set_bit d start_block bit v n).
Proof.
  intros Hb. unfold set_bit. cbv zeta. destruct (decide (n = start_block + bit / 32768)) as [->|].
  - rewrite upd_eq. apply blk_insert; [done|]. apply byte_set_bit_range; [apply mod8_range|]. apply byte_at_range, Hb.
  - by rewrite upd_ne.
Qed.

Lemma set_bit_other d start_block bit v n : n <> start_block + bit / 32768 -> set_bit d start_block bit v n = d n.
Proof. intros. unfold set_bit. by rewrite upd_ne. Qed.

(** ** The image behind a state *)

Section disk.
Context {E : Type} `{!BlockDevice E}.
Variables start count : Z.
Variable b : superblock.
Hypothesis volume_range : 0 <= start /\ 0 <= count /\ start + count < 4294967296.
Hypothesis geo : geometry count b.
Implicit Types (s : fs E) (d : disk).

Record on_disk s d : Prop := {
  od_ok : ok s;
  od_superblock : mounted_superblock s = b;
  od_healthy : bd_healthy (dev s);
  od_room : start + count <= bd_total (dev s);
  od_blk : forall n, 0 <= n < count -> blk (d n);
  od_block : forall n, 0 <= n < count -> bd_block (dev s) (start + n) (d n)
}.

(** [leaves s d a r s']: the routine answered [a] and the image is now [d]. *)
Definition leaves {A} s d (a : A) (r : A) s' : Prop := r = a /\ on_disk s' d /\ frame s s'.

(** A routine that only reads. *)
Definition query {A} d (m : M (fs E) A) (a : A) : Prop := forall s, on_disk s d -> wp m s (leaves s d a).

Lemma on_disk_frame s s' d :
  on_disk s d -> frame s s' -> dev s' = dev s -> on_disk s' d.
Proof. intros [] [] Hd. split; try done; try congruence; rewrite Hd; done. Qed.

Lemma query_ret {A} d (a : A) : query d (ret a) a.
Proof. intros s Hs. apply wp_ret. split; [done|]. split; [done|]. apply frame_refl, Hs. Qed.

Lemma query_bind {A B} d (m : M (fs E) A) (k : A -> M (fs E) B) a c :
  query d m a -> query d (k a) c -> query d (bind m k) c.
Proof.
  intros Hm Hk s Hs. apply wp_bind. eapply wp_mono; [by apply Hm|]. cbv beta. intros r s1 (-> & H1 & F1).
  eapply wp_mono; [by apply Hk|]. cbv beta. intros r s2 (-> & H2 & F2). split; [done|]. split; [done|].
  by eapply frame_trans.
Qed.

Lemma query_sb d : query d sb b.
Proof. intros s Hs. apply wp_gets. split; [apply Hs|]. split; [done|]. apply frame_refl, Hs. Qed.

Lemma volume_block n : 0 <= n < count -> start +u n = start + n /\
  (total_blocks b <=? n) || (count <=? n) = false.
Proof. intros Hn. destruct geo. split; [apply u32_id; lia|]. apply orb_false_iff. rewrite !Z.leb_gt. lia. Qed.

Lemma read_into_disk n buf d s :
  on_disk s d -> 0 <= n < count -> blk buf ->
  wp (read_volume_block_into start count n buf) s (fun r s' =>
    leaves s d (0, d n) r s' /\ (io_block s' = io_block s /\ auxiliary_block s' = auxiliary_block s /\ compare_buffer s' = compare_buffer s)).
Proof.
  intros Hs Hn [Hl Hb]. destruct (volume_block n Hn) as [En Ec]. unfold read_volume_block_into, sb. run.
  rewrite (od_superblock s d Hs), Ec, En. apply wp_zoom. destruct Hs as [Hok Hsb Hh Hr Hbk Hbl].
  eapply wp_mono; [apply bd_read_ok; [apply Hok|lia|done|done]|]. cbv beta.
  intros [st buf'] e (Hi & Ht & Hhe & Hk & Hrl & Hrb & _ & Hdata). cbn [fst snd] in *.
  change (lget s) with (dev s) in *. destruct (Hhe Hh) as [Hh' Hst]. assert (st = 0) as -> by (apply Hst; lia).
  destruct (Hdata eq_refl) as [_ Hbb]. destruct (Hbk n Hn) as [Hdl _].
  split; [|done]. split.
  { f_equal. by eapply (bd_block_unique (dev s) (start + n)); [apply Hok|done|apply Hbl|done|done]. }
  destruct Hok. split; [split|]; try done.
  - cbn. by rewrite Ht.
  - intros m Hm. cbn. apply Hk; [apply Hbk; lia|]. apply Hbl; lia.
Qed.

(** The three buffers a block can be read into. *)
Lemma read_disk n d s :
  on_disk s d -> 0 <= n < count ->
  wp (read_volume_block start count n) s (fun r s' => leaves s d 0 r s' /\ io_block s' = d n /\
    auxiliary_block s' = auxiliary_block s /\ compare_buffer s' = compare_buffer s).
Proof.
  intros Hs Hn. unfold read_volume_block. run. eapply wp_mono; [apply read_into_disk; [done|done|apply Hs]|].
  cbv beta. intros r s' ((-> & H1 & F1) & Ei & Ea & Ec). run. cbn [fst snd].
  assert (frame s (set_io (d n) s')) as F2.
  { destruct F1 as [[] ? ? ? ?]. split; [split; try done|done..]. by apply (od_blk s d Hs). }
  split; [|done]. split; [done|]. split; [|done]. destruct H1. split; try done. apply F2.
Qed.

Lemma read_auxiliary_disk n d s :
  on_disk s d -> 0 <= n < count ->
  wp (read_volume_block_auxiliary start count n) s (fun r s' => leaves s d 0 r s' /\ auxiliary_block s' = d n).
Proof.
  intros Hs Hn. unfold read_volume_block_auxiliary. run. eapply wp_mono; [apply read_into_disk; [done|done|apply Hs]|].
  cbv beta. intros r s' ((-> & H1 & F1) & _). run. cbn [fst snd].
  assert (frame s (set_auxiliary (d n) s')) as F2.
  { destruct F1 as [[] ? ? ? ?]. split; [split; try done|done..]. by apply (od_blk s d Hs). }
  split; [|done]. split; [done|]. split; [|done]. destruct H1. split; try done. apply F2.
Qed.

Lemma write_disk n data d s :
  on_disk s d -> 0 <= n < count -> blk data ->
  wp (write_volume_block_from start count n data) s (fun r s' => leaves s (upd d n data) 0 r s' /\
    io_block s' = io_block s /\ auxiliary_block s' = auxiliary_block s /\ compare_buffer s' = compare_buffer s).
Proof.
  intros Hs Hn Hd. destruct (volume_block n Hn) as [En Ec]. unfold write_volume_block_from, sb. run.
  rewrite (od_superblock s d Hs), Ec, En. apply wp_zoom. destruct Hs as [Hok Hsb Hh Hr Hbk Hbl].
  eapply wp_mono; [apply bd_write_ok; [apply Hok|lia|apply Hd|apply Hd]|]. cbv beta.
  intros st e (Hi & Ht & Hhe & _ & Hk & Hdata). change (lget s) with (dev s) in *.
  destruct (Hhe Hh) as [Hh' Hst]. assert (st = 0) as -> by (apply Hst; lia). destruct (Hdata eq_refl) as [_ Hbb].
  destruct Hok. split; [|done]. split; [done|]. split; [split; try done|by split].
  - cbn. by rewrite Ht.
  - intros m Hm. destruct (decide (m = n)) as [->|]; [by rewrite upd_eq|rewrite upd_ne by done; auto].
  - intros m Hm. cbn. destruct (decide (m = n)) as [->|]; [by rewrite upd_eq|rewrite upd_ne by done].
    apply Hk; [lia|apply Hbk; lia|apply Hbl; lia].
Qed.

Lemma write_io_disk n d s :
  on_disk s d -> 0 <= n < count ->
  wp (write_io_block start count n) s (fun r s' => leaves s (upd d n (io_block s)) 0 r s' /\
    io_block s' = io_block s /\ auxiliary_block s' = auxiliary_block s /\ compare_buffer s' = compare_buffer s).
Proof. intros Hs Hn. unfold write_io_block. run. apply write_disk; [done|done|apply Hs]. Qed.

(** Reading a block and looking at it. *)
Lemma query_read {A} n d (k : list Z -> M (fs E) A) (c a : A) :
  0 <= n < count -> query d (k (d n)) a ->
  query d (let! r := read_volume_block start count n in
           if negb (r =? 0) then ret c else let! io := gets io_block in k io) a.
Proof.
  intros Hn Hk s Hs. run. eapply wp_mono; [by apply read_disk|]. cbv beta. intros r s1 ((-> & H1 & F1) & Eio & _).
  rewrite Z.eqb_refl. run. rewrite Eio. eapply wp_mono; [by apply Hk|]. cbv beta. intros r s2 (-> & H2 & F2).
  split; [done|]. split; [done|]. by eapply frame_trans.
Qed.

(** Setting a buffer leaves the image alone. *)
Lemma set_io_disk l s d : on_disk s d -> blk l -> on_disk (set_io l s) d /\ frame s (set_io l s).
Proof.
  intros Hs Hl. assert (frame s (set_io l s)) as F by (destruct (od_ok s d Hs); by split; [split|..]).
  split; [by eapply on_disk_frame|done].
Qed.

Lemma set_auxiliary_disk l s d : on_disk s d -> blk l -> on_disk (set_auxiliary l s) d /\ frame s (set_auxiliary l s).
Proof.
  intros Hs Hl. assert (frame s (set_auxiliary l s)) as F by (destruct (od_ok s d Hs); by split; [split|..]).
  split; [by eapply on_disk_frame|done].
Qed.

(** A byte of a block with one of its bits changed. *)
Lemma blk_flip l bit v : blk l -> blk (<[Z.to_nat (bit mod 32768 / 8) := byte_set_bit (byte_at l (bit mod 32768 / 8)) (bit mod 32768 mod 8) v]> l).
Proof.
  intros Hl. apply blk_insert; [done|]. apply byte_set_bit_range; [apply mod8_range|]. apply byte_at_range, Hl.
Qed.

(** ** Bitmaps *)

(** A bitmap of [n] blocks that lies inside the volume. *)
Definition bitmap_region (start_block n : Z) : Prop := 0 <= start_block /\ start_block + n <= count.

Lemma bitmap_block_range start_block n bit :
  bitmap_region start_block n -> 0 <= bit < n * 32768 ->
  0 <= start_block + bit / 32768 < count /\ bit / 32768 < n /\ start_block +u bit / 32768 = start_block + bit / 32768.
Proof.
  intros [H1 H2] Hb. assert (0 <= bit / 32768 < n) by (split; [apply Z.div_pos; lia|apply Z.div_lt_upper_bound; lia]).
  split; [lia|]. split; [lia|]. apply u32_id. lia.
Qed.

Lemma lookup_byte l bit : blk l -> l !! Z.to_nat (bit mod 32768 / 8) = Some (byte_at l (bit mod 32768 / 8)).
Proof.
  intros [Hl _]. pose proof (byte_index_range bit). unfold byte_at, zlength in *.
  destruct (lookup_lt_is_Some_2 l (Z.to_nat (bit mod 32768 / 8))) as [x Hx]; [lia|]. by rewrite Hx.
Qed.

Lemma query_bit start_block n bit d :
  (forall k, 0 <= k < count -> blk (d k)) -> bitmap_region start_block n -> 0 <= bit < n * 32768 ->
  query d (bitmap_bit_set start count start_block n bit) (bit_at d start_block bit).
Proof.
  intros Hd Hr Hb. destruct (bitmap_block_range start_block n bit Hr Hb) as (H1 & H2 & H3).
  unfold bitmap_bit_set, MINIFS_BITMAP_BITS_PER_BLOCK. cbv zeta. rewrite (proj2 (Z.leb_gt n _)), H3 by lia.
  apply query_read; [done|]. rewrite lookup_byte by auto. apply (query_bind d _ _ _ _ (query_ret d _)). cbv beta.
  rewrite land_bit_mask by apply mod8_range. apply query_ret.
Qed.

Lemma update_bit start_block n bit v d s :
  on_disk s d -> bitmap_region start_block n -> 0 <= bit < n * 32768 ->
  wp (bitmap_update start count start_block n bit v) s (leaves s (set_bit d start_block bit v) 0).
Proof.
  intros Hs Hr Hb. destruct (bitmap_block_range start_block n bit Hr Hb) as (H1 & H2 & H3).
  unfold bitmap_update, MINIFS_BITMAP_BITS_PER_BLOCK. cbv zeta. rewrite (proj2 (Z.leb_gt n _)), H3 by lia. run.
  eapply wp_mono; [by apply read_disk|]. cbv beta. intros r s1 ((-> & Hs1 & F1) & Eio & _). rewrite Z.eqb_refl. run.
  rewrite Eio, lookup_byte by by apply (od_blk s d Hs). cbn [access]. run.
  set (l := <[_ := _]> (d _)). destruct (set_io_disk l s1 d) as [Hs2 F2]; [done|by apply blk_flip, (od_blk s d Hs)|].
  eapply wp_mono; [by apply (write_io_disk _ d)|]. cbv beta. intros r s3 ((-> & Hs3 & F3) & _).
  split; [done|]. split; [done|]. eapply frame_trans; [done|]. by eapply frame_trans.
Qed.

(** The result and image of an allocation: the lowest clear bit, now set, or
    an error when every bit is set. *)
Definition allocated d start_block first limit (r : result Z) d' : Prop :=
  (exists bit, r = Ok bit /\ first <= bit < limit /\ bit_at d start_block bit = false /\
    (forall k, first <= k < bit -> bit_at d start_block k = true) /\ d' = set_bit d start_block bit true) \/
  (r = Err (- ENOSPC) /\ (forall k, first <= k < limit -> bit_at d start_block k = true) /\ d' = d).

Lemma allocate_bit start_block n first limit d s :
  on_disk s d -> bitmap_region start_block n -> 0 <= first < limit -> limit <= n * 32768 -> n < 4294967295 ->
  wp (allocate_bitmap_bit start count start_block n first limit) s (fun r s' =>
    exists d', allocated d start_block first limit r d' /\ on_disk s' d' /\ frame s s').
Proof.
  intros Hs Hr Hf Hl Hn. unfold allocate_bitmap_bit. rewrite (proj2 (Z.leb_gt _ _)) by lia.
  apply (wp_while (fun '(bit, loaded) s' => on_disk s' d /\ frame s s' /\ first <= bit <= limit /\
      (forall k, first <= k < bit -> bit_at d start_block k = true) /\
      (loaded = UINT32_MAX \/ io_block s' = d (start_block + loaded)))
    (fun '(bit, _) _ => Z.to_nat (limit - bit))).
  - split; [done|]. split; [apply frame_refl, Hs|]. split; [lia|]. split; [intros; lia|by left].
  - lia.
  - intros [bit loaded] s1 (Hs1 & F1 & Hbit & Hset & Hload). unfold allocate_step.
    destruct (Z.ltb_spec bit limit) as [Hlt|Hge]; cbn [negb].
    2:{ run. exists d. split; [|done]. right. split; [done|]. split; [intros; apply Hset; lia|done]. }
    destruct (bitmap_block_range start_block n bit Hr ltac:(lia)) as (H1 & H2 & H3).
    unfold MINIFS_BITMAP_BITS_PER_BLOCK. cbv zeta. rewrite (proj2 (Z.leb_gt n _)), H3 by lia. apply wp_bind.
    apply (wp_mono _ _ (fun r s2 => r = 0 /\ on_disk s2 d /\ frame s s2 /\ io_block s2 = d (start_block + bit / 32768))).
    { destruct (Z.eqb_spec (bit / 32768) loaded) as [El|]; cbn [negb]; run.
      - split; [done|]. split; [done|]. split; [done|]. destruct Hload as [Hload|Hload]; [|by rewrite Hload, El].
        unfold UINT32_MAX in *. pose proof (Z.div_pos bit 32768). lia.
      - eapply wp_mono; [by apply read_disk|]. cbv beta. intros r s2 ((-> & Hs2 & F2) & Eio & _).
        split; [done|]. split; [done|]. split; [by eapply frame_trans|done]. }
    intros r s2 (-> & Hs2 & F2 & Eio). rewrite Z.eqb_refl. run. rewrite Eio, lookup_byte by by apply (od_blk s d Hs).
    cbn [access]. run. rewrite <-(negb_involutive (_ =? 0)), land_bit_mask by apply mod8_range.
    change (Z.testbit _ _) with (bit_at d start_block bit). destruct (bit_at d start_block bit) eqn:Eb; cbn [negb].
    + run. split; [|lia]. split; [done|]. split; [done|]. split; [lia|].
      split; [|by right]. intros k Hk. destruct (decide (k = bit)) as [->|]; [done|apply Hset; lia].
    + run. set (l := <[_ := _]> (d _)). destruct (set_io_disk l s2 d) as [Hs3 F3]; [done|by apply blk_flip, (od_blk s d Hs)|].
      eapply wp_mono; [by apply (write_io_disk _ d)|]. cbv beta. intros r s4 ((-> & Hs4 & F4) & _).
      rewrite Z.eqb_refl. run. exists (set_bit d start_block bit true). split; [left; exists bit; by repeat split; auto; lia|].
      split; [done|]. eapply frame_trans; [done|]. by eapply frame_trans.
Qed.

(** ** The layout *)

Lemma layout :
  bitmap_region (block_bitmap_start b) (block_bitmap_blocks b) /\ total_blocks b <= block_bitmap_blocks b * 32768 /\
  bitmap_region (inode_bitmap_start b) (inode_bitmap_blocks b) /\ total_inodes b <= inode_bitmap_blocks b * 32768 /\
  total_inodes b <= inode_table_blocks b * 64 /\ total_blocks b = count /\
  block_bitmap_start b = 1 /\ 0 < block_bitmap_blocks b < 4294967295 /\
  inode_bitmap_start b = 1 + block_bitmap_blocks b /\ 0 < inode_bitmap_blocks b < 4294967295 /\
  inode_table_start b = inode_bitmap_start b + inode_bitmap_blocks b /\ 0 < inode_table_blocks b /\
  data_start b = inode_table_start b + inode_table_blocks b /\ data_start b < count /\ 0 < total_inodes b.
Proof.
  destruct geo as [G1 G2 [G3 G4] [G5 G6] [G7 G8] [G9 G10] G11]. unfold bitmap_region, just_holds in *. lia.
Qed.

(** ** Inodes *)

Definition inode_used d (n : Z) : bool := bit_at d (inode_bitmap_start b) n.
Definition inode_table_block (n : Z) : Z := inode_table_start b + n / 64.
Definition inode_record d (n : Z) : list Z := slice (d (inode_table_block n)) (n mod 64 * 64) 64.

(** What [read_inode_internal] returns, as a function of the image. *)
Definition inode_at d (n : Z) : result inode :=
  if total_inodes b <=? n then Err (- EINVAL) else
  if negb (inode_used d n) then Err (- EIO) else
  match decode_inode (inode_record d n) with
  | Some i => if inode_pointer_shape_valid i then Ok i else Err (- EIO)
  | None => Err (- EIO)
  end.

Definition put_record d (n : Z) (record : list Z) : disk :=
  upd d (inode_table_block n) (splice (d (inode_table_block n)) (n mod 64 * 64) record).

Lemma inode_block_range n : 0 <= n < total_inodes b ->
  0 <= inode_table_block n < count /\ inode_table_start b <= inode_table_block n < data_start b /\
  n / 64 < inode_table_blocks b /\ inode_table_start b +u n / 64 = inode_table_block n.
Proof.
  intros Hn. pose proof layout as L. destruct_and! L. unfold bitmap_region in *. unfold inode_table_block.
  assert (0 <= n / 64 < inode_table_blocks b) by (split; [apply Z.div_pos; lia|apply Z.div_lt_upper_bound; lia]).
  rewrite u32_id by lia. lia.
Qed.

Lemma record_offset n : 0 <= n mod 64 * 64 /\ n mod 64 * 64 + 64 <= 4096.
Proof. pose proof (Z.mod_pos_bound n 64). lia. Qed.

Lemma query_inode n d :
  (forall k, 0 <= k < count -> blk (d k)) -> 0 <= n -> query d (read_inode_internal start count n) (inode_at d n).
Proof.
  intros Hd Hn. unfold read_inode_internal, inode_at. apply (query_bind d _ _ _ _ (query_sb d)). cbv beta.
  destruct (Z.leb_spec (total_inodes b) n) as [|Hlt]; [apply query_ret|].
  pose proof layout as L. destruct_and! L. destruct (inode_block_range n) as (H1' & H2' & H3' & H4'); [lia|].
  eapply query_bind; [apply query_bit; [done|done|lia]|]. cbv beta.
  change (bit_at d (inode_bitmap_start b) n) with (inode_used d n). destruct (inode_used d n); cbn [negb]; [|apply query_ret].
  unfold MINIFS_INODES_PER_BLOCK, MINIFS_INODE_SIZE. cbv zeta. rewrite (proj2 (Z.leb_gt (inode_table_blocks b) _)), H4' by lia.
  apply query_read; [done|]. cbv beta. destruct (record_offset n). destruct (Hd _ H1') as [Hl _].
  unfold at_offset. rewrite (proj2 (Z.leb_le 0 _)), (proj2 (Z.leb_le _ (zlength _))) by lia. cbn [andb].
  apply (query_bind d _ _ _ _ (query_ret d _)). cbv beta. change (slice _ _ _) with (inode_record d n).
  destruct (decode_inode _) as [i|]; [|apply query_ret]. destruct (inode_pointer_shape_valid i); apply query_ret.
Qed.

Lemma inode_at_ok n d i : (forall k, 0 <= k < count -> blk (d k)) -> 0 <= n -> inode_at d n = Ok i ->
  inode_ok i /\ inode_pointer_shape_valid i = true /\ n < total_inodes b /\ inode_used d n = true.
Proof.
  intros Hd Hn. unfold inode_at. destruct (Z.leb_spec (total_inodes b) n); [done|]. destruct (inode_used d n); [|done].
  cbn [negb]. destruct (decode_inode _) as [j|] eqn:Ej; [|done]. destruct (inode_pointer_shape_valid j) eqn:Es; [|done].
  intros [= <-]. split; [|done]. destruct (inode_block_range n) as (H1 & _); [lia|]. destruct (record_offset n).
  destruct (Hd _ H1). eapply decode_inode_ok; [| |exact Ej]; [apply zlength_slice; lia|by apply bytes_slice].
Qed.

Lemma write_record_disk n record d s :
  on_disk s d -> 0 <= n < total_inodes b -> zlength record = 64 -> bytes record ->
  wp (write_inode_record start count n record) s (leaves s (put_record d n record) 0).
Proof.
  intros Hs Hn Hl Hb. destruct (inode_block_range n Hn) as (H1 & H2 & H3 & H4). destruct (record_offset n) as [O1 O2].
  unfold write_inode_record, sb, MINIFS_INODES_PER_BLOCK, MINIFS_INODE_SIZE. run. rewrite (od_superblock s d Hs).
  rewrite (proj2 (Z.leb_gt (inode_table_blocks b) _)), H4 by lia. run. eapply wp_mono; [by apply read_disk|]. cbv beta.
  intros r s1 ((-> & Hs1 & F1) & Eio & _). rewrite Z.eqb_refl. run. unfold write_io. run. rewrite Eio.
  destruct (od_blk s d Hs _ H1) as [Hdl Hdb]. rewrite (proj2 (Z.leb_le 0 _)), (proj2 (Z.leb_le _ (zlength (d _)))) by lia. run.
  set (l := splice _ _ record). destruct (set_io_disk l s1 d) as [Hs2 F2]; [done|by apply blk_splice; [split|..]; try lia|].
  eapply wp_mono; [by apply (write_io_disk _ d)|]. cbv beta. intros r s3 ((-> & Hs3 & F3) & _).
  split; [done|]. split; [done|]. eapply frame_trans; [done|]. by eapply frame_trans.
Qed.

Lemma write_inode_disk n i d s :
  on_disk s d -> 0 <= n < total_inodes b -> inode_pointer_shape_valid i = true ->
  wp (write_inode_internal start count n i) s (leaves s (put_record d n (encode_inode i)) 0).
Proof.
  intros Hs Hn Hi. destruct (encode_inode_ok i). unfold write_inode_internal, sb. run. rewrite (od_superblock s d Hs), Hi.
  rewrite (proj2 (Z.leb_gt _ n)) by lia. cbn [orb negb]. by apply write_record_disk.
Qed.

Lemma inode_record_put d n record m :
  (forall k, 0 <= k < count -> blk (d k)) -> 0 <= n < total_inodes b -> 0 <= m < total_inodes b -> zlength record = 64 ->
  inode_record (put_record d n record) m = if m =? n then record else inode_record d m.
Proof.
  intros Hd Hn Hm Hl. destruct (inode_block_range n Hn) as (H1 & _). destruct (Hd _ H1) as [Hdl _].
  destruct (record_offset n), (record_offset m). unfold inode_record, put_record.
  destruct (Z.eqb_spec m n) as [->|Hne].
  { rewrite upd_eq. pose proof (slice_splice_same (d (inode_table_block n)) (n mod 64 * 64) record) as Hss.
    rewrite Hl in Hss. apply Hss; lia. }
  destruct (decide (inode_table_block m = inode_table_block n)) as [Eb|]; [|by rewrite upd_ne].
  rewrite Eb, upd_eq. apply slice_splice_other; try lia. unfold inode_table_block in Eb.
  Z.to_euclidean_division_equations. lia.
Qed.

(** Which blocks the inodes depend on. *)
Lemma inode_at_ext d d' n :
  0 <= n -> (forall k, inode_bitmap_start b <= k < data_start b -> d' k = d k) -> inode_at d' n = inode_at d n.
Proof.
  intros Hn Hk. unfold inode_at. destruct (Z.leb_spec (total_inodes b) n); [done|].
  pose proof layout as L. destruct_and! L. destruct (inode_block_range n) as (H1' & H2' & _); [lia|].
  assert (0 <= n / 32768 < inode_bitmap_blocks b) by (split; [apply Z.div_pos; lia|apply Z.div_lt_upper_bound; lia]).
  unfold inode_used, bit_at, inode_record. rewrite !Hk by lia. done.
Qed.

Lemma inode_at_put d n i m :
  (forall k, 0 <= k < count -> blk (d k)) -> 0 <= n < total_inodes b -> 0 <= m -> inode_used d n = true ->
  inode_ok i -> inode_pointer_shape_valid i = true ->
  inode_at (put_record d n (encode_inode i)) m = if m =? n then Ok i else inode_at d m.
Proof.
  intros Hd Hn Hm Hu Hi Hs. destruct (encode_inode_ok i) as [Hl _]. unfold inode_at.
  destruct (Z.leb_spec (total_inodes b) m). { destruct (Z.eqb_spec m n); [lia|done]. }
  rewrite inode_record_put by (done || lia).
  assert (inode_used (put_record d n (encode_inode i)) m = inode_used d m) as ->.
  { unfold inode_used, bit_at, put_record. rewrite upd_ne; [done|]. pose proof layout as L. destruct_and! L.
    destruct (inode_block_range n Hn) as (_ & ? & _). pose proof (Z.div_lt_upper_bound m 32768 (inode_bitmap_blocks b)). lia. }
  destruct (Z.eqb_spec m n) as [->|]; [|done]. rewrite Hu. cbn [negb]. by rewrite decode_encode, Hs.
Qed.

(** ** Data blocks *)

Definition block_used d (p : Z) : bool := bit_at d (block_bitmap_start b) p.
Definition data_block (p : Z) : Prop := data_start b <= p < total_blocks b.

Lemma data_block_valid_spec p : data_block_valid b p = true <-> data_block p.
Proof. unfold data_block_valid, data_block. rewrite andb_true_iff. lia. Qed.

Lemma query_allocated p d :
  (forall k, 0 <= k < count -> blk (d k)) ->
  query d (data_block_allocated start count p) (data_block_valid b p && block_used d p).
Proof.
  intros Hd. unfold data_block_allocated. apply (query_bind d _ _ _ _ (query_sb d)). cbv beta.
  destruct (data_block_valid b p) eqn:Ev; [|apply query_ret]. apply data_block_valid_spec in Ev as [].
  pose proof layout as L. destruct_and! L. unfold bitmap_region in *. apply query_bit; [done|done|lia].
Qed.

Lemma free_block_disk p d s :
  on_disk s d -> data_block p -> wp (free_block start count p) s (leaves s (set_bit d (block_bitmap_start b) p false) 0).
Proof.
  intros Hs Hp. unfold free_block, sb. run. rewrite (od_superblock s d Hs), (proj2 (data_block_valid_spec p) Hp).
  cbn [negb]. destruct Hp. pose proof layout as L. destruct_and! L. unfold bitmap_region in *. apply update_bit; [done|done|lia].
Qed.

(** The image after taking data block [p]: marked used and filled with zeros. *)
Definition take_block d (p : Z) : disk := upd (set_bit d (block_bitmap_start b) p true) p (replicate 4096 0).

(** The lowest free data block, or none. *)
Definition took d (r : result Z) d' : Prop :=
  (exists p, r = Ok p /\ data_block p /\ block_used d p = false /\
    (forall q, data_start b <= q < p -> block_used d q = true) /\ d' = take_block d p) \/
  (r = Err (- ENOSPC) /\ (forall q, data_block q -> block_used d q = true) /\ d' = d).

Lemma allocate_block_disk d s :
  on_disk s d -> wp (allocate_block start count) s (fun r s' => exists d', took d r d' /\ on_disk s' d' /\ frame s s').
Proof.
  intros Hs. pose proof layout as L. destruct_and! L. unfold bitmap_region in *. unfold allocate_block, sb. run.
  rewrite (od_superblock s d Hs). eapply wp_mono; [apply (allocate_bit _ _ _ _ d); [done|done|lia..]|]. cbv beta.
  intros r s1 (d1 & [(p & -> & Hp & Hf & Hl & ->)|(-> & Hall & ->)] & Hs1 & F1); cbn.
  2:{ run. exists d. split; [by right|done]. }
  run. destruct (set_auxiliary_disk (replicate 4096 0) s1 _ Hs1 blk_zero) as [Hs2 F2].
  unfold write_auxiliary_block. run. eapply wp_mono; [apply (write_disk p); [exact Hs2|lia|apply blk_zero]|]. cbv beta.
  intros r s3 ((-> & Hs3 & F3) & _). rewrite Z.eqb_refl. run. exists (take_block d p).
  split; [left; exists p; by repeat split; try lia|]. split; [done|]. eapply frame_trans; [done|]. by eapply frame_trans.
Qed.

End disk.

End MiniFsDisk.
