(* ===== verification/MiniFsFiles.v ===== *)
(** * Files of MiniFS

    A file is the byte sequence [content d i] that its inode [i] describes on
    the image [d]. An image is [consistent] when every block a file uses is an
    allocated data block and no two uses share a block. Reading returns the
    content; writing changes the content of one file by the bytes written and of
    no other file, and keeps the image consistent. *)

From S2P Require Import Prelude Monad Interfaces Bytes Cpu Block MiniFs MiniFsSafe MiniFsSpec MiniFsDisk.

Module MiniFsFiles.
Import MiniFs MiniFsSafe MiniFsSpec MiniFsDisk.

Definition blocks (i : inode) : Z := divide_round_up (size i) 4096.

(** The block behind block [k] of the file. *)
Definition pointer_at (d : disk) (i : inode) (k : Z) : Z :=
  if k <? 10 then direct_at i k else read_le32 (d (indirect i)) ((k - 10) * 4).

Definition file_byte (d : disk) (i : inode) (o : Z) : Z := byte_at (d (pointer_at d i (o / 4096))) (o mod 4096).
Definition content (d : disk) (i : inode) : list Z := map (file_byte d i) (seqZ 0 (size i)).

(** The blocks a file uses: its data and its indirect block. *)
Definition owned (d : disk) (i : inode) (p : Z) : Prop :=
  (exists k, 0 <= k < blocks i /\ pointer_at d i k = p) \/ (10 < blocks i /\ p = indirect i).

(** ** The shape of an inode *)

Lemma blocks_spec i : 0 <= size i -> 0 <= blocks i /\ (blocks i - 1) * 4096 < size i <= blocks i * 4096 \/ size i = 0 /\ blocks i = 0.
Proof. intros. unfold blocks, divide_round_up. destruct (Z.eqb_spec (size i) 0); [by right|left]. word_lia. Qed.

Lemma offset_block i o : 0 <= o < size i -> 0 <= o / 4096 < blocks i.
Proof.
  intros Ho. destruct (blocks_spec i) as [[? ?]|[? ?]]; [lia| |lia]. split; [apply Z.div_pos; lia|].
  apply Z.div_lt_upper_bound; lia.
Qed.

Lemma shape_spec i :
  0 <= size i ->
  inode_pointer_shape_valid i = true <->
  (forall k, 0 <= k < 10 -> (k < blocks i -> direct_at i k <> 0) /\ (blocks i <= k -> direct_at i k = 0)) /\
  (10 < blocks i -> indirect i <> 0) /\ (blocks i <= 10 -> indirect i = 0).
Proof.
  intros Hs. unfold inode_pointer_shape_valid, MINIFS_BLOCK_SIZE, MINIFS_DIRECT_COUNT. cbv zeta. fold (blocks i).
  rewrite andb_true_iff, orb_true_iff, !andb_true_iff, negb_true_iff, !Z.eqb_eq, Z.eqb_neq, Z.ltb_lt, Z.leb_le.
  assert ((if 10 <? blocks i then 10 else blocks i) = Z.min (blocks i) 10) as -> by (destruct (Z.ltb_spec 10 (blocks i)); lia).
  rewrite forallb_forall. setoid_rewrite <-list_elem_of_In. setoid_rewrite elem_of_seqZ.
  assert (forall k, negb ((k <? Z.min (blocks i) 10) && (direct_at i k =? 0) ||
    (Z.min (blocks i) 10 <=? k) && negb (direct_at i k =? 0)) = true <->
    (k < Z.min (blocks i) 10 -> direct_at i k <> 0) /\ (Z.min (blocks i) 10 <= k -> direct_at i k = 0)) as Hk.
  { intros k. destruct (Z.ltb_spec k (Z.min (blocks i) 10)), (Z.leb_spec (Z.min (blocks i) 10) k),
      (Z.eqb_spec (direct_at i k) 0); simpl; split; try done; try lia; naive_solver lia. }
  setoid_rewrite Hk. split.
  - intros [H1 H2]. split; [|lia]. intros k Hk'. specialize (H1 k ltac:(lia)). lia.
  - intros (H1 & H2 & H3). split; [|lia]. intros k Hk'. specialize (H1 k ltac:(lia)). lia.
Qed.

Section files.
Context {E : Type} `{!BlockDevice E}.
Variables start count : Z.
Variable b : superblock.
Hypothesis volume_range : 0 <= start /\ 0 <= count /\ start + count < 4294967296.
Hypothesis geo : geometry count b.
Implicit Types (s : fs E) (d : disk) (i : inode).

Abbreviation on_disk := (on_disk start count b).
Abbreviation leaves := (leaves start count b).
Abbreviation query := (query start count b).
Abbreviation inode_at := (inode_at b).
Abbreviation block_used := (block_used b).
Abbreviation data_block := (data_block b).

(** The blocks of one file are allocated, and all different. *)
Record file_ok d i : Prop := {
  fo_used : forall p, owned d i p -> data_block p /\ block_used d p = true;
  fo_distinct : forall k1 k2, 0 <= k1 < blocks i -> 0 <= k2 < blocks i -> pointer_at d i k1 = pointer_at d i k2 -> k1 = k2;
  fo_indirect : 10 < blocks i -> forall k, 0 <= k < blocks i -> pointer_at d i k <> indirect i
}.

Record consistent d : Prop := {
  con_file : forall n i, 0 <= n -> inode_at d n = Ok i -> file_ok d i;
  con_owner : forall n1 n2 i1 i2 p, 0 <= n1 -> 0 <= n2 -> inode_at d n1 = Ok i1 -> inode_at d n2 = Ok i2 ->
    owned d i1 p -> owned d i2 p -> n1 = n2
}.

(** ** Loading a block of a file *)

Lemma data_block_range p : data_block p -> 0 <= p < count.
Proof. intros []. pose proof (layout start count b volume_range geo) as L. destruct_and! L. unfold bitmap_region in *. lia. Qed.

Lemma query_pointer d i k :
  (forall n, 0 <= n < count -> blk (d n)) -> inode_ok i -> file_ok d i -> 0 <= k < blocks i ->
  query d (block_pointer start count i k) (Ok (pointer_at d i k)).
Proof.
  intros Hd Hi Hf Hk. pose proof (blocks_range i Hi) as Hr. change (divide_round_up _ _) with (blocks i) in Hr.
  unfold block_pointer, pointer_at, MINIFS_DIRECT_COUNT, MINIFS_INDIRECT_COUNT.
  destruct (Z.ltb_spec k 10); [apply query_ret|]. cbv zeta.
  destruct (fo_used d i Hf (indirect i)) as [Hv Hu]; [right; lia|]. pose proof (data_block_range _ Hv) as Hrange.
  eapply query_bind; [by apply query_allocated|]. cbv beta. rewrite (proj2 (data_block_valid_spec b _) Hv), Hu. cbn [negb andb].
  rewrite (proj2 (Z.leb_gt 1024 _)) by lia. apply query_read; [done..|]. destruct (Hd _ Hrange) as [Hl _]. cbv beta.
  unfold at_offset. rewrite (proj2 (Z.leb_le 0 _)), (proj2 (Z.leb_le _ (zlength _))) by lia. cbn [andb].
  eapply query_bind; [apply query_ret|]. cbv beta. rewrite read_le32_slice by lia. rewrite Z.add_0_r. apply query_ret.
Qed.

Lemma load_disk i k d s :
  on_disk s d -> inode_ok i -> file_ok d i -> 0 <= k < blocks i ->
  wp (load_file_block start count i k) s (fun r s' => leaves s d (Some (pointer_at d i k)) r s' /\
    io_block s' = d (pointer_at d i k)).
Proof.
  intros Hs Hi Hf Hk. pose proof (od_blk _ _ _ s d Hs) as Hd.
  destruct (fo_used d i Hf (pointer_at d i k)) as [Hv Hu]; [left; by exists k|].
  assert (query d (inode_block_at start count i k) (Ok (pointer_at d i k))) as Hq.
  { unfold inode_block_at. change (divide_round_up _ _) with (blocks i). cbv zeta.
    rewrite (proj2 (Z.leb_gt (blocks i) k)) by lia. eapply query_bind; [by apply query_pointer|]. cbv beta iota.
    eapply query_bind; [by apply query_allocated|]. cbv beta. rewrite (proj2 (data_block_valid_spec b _) Hv), Hu.
    apply query_ret. }
  unfold load_file_block. apply wp_bind. eapply wp_mono; [by apply Hq|]. cbv beta. intros r s1 (-> & Hs1 & F1).
  run. eapply wp_mono; [apply (read_disk start count b); [done..|by apply data_block_range]|]. cbv beta.
  intros r s2 ((-> & Hs2 & F2) & Eio & _). rewrite Z.eqb_refl. run. split; [|done]. split; [done|]. split; [done|].
  by eapply frame_trans.
Qed.

(** ** Reading *)

Lemma slice_content d i p o n :
  (forall k, 0 <= k < count -> blk (d k)) -> file_ok d i -> 0 <= o -> 0 <= n -> o mod 4096 + n <= 4096 -> o + n <= size i ->
  p = pointer_at d i (o / 4096) -> 0 < n -> slice (d p) (o mod 4096) n = map (file_byte d i) (seqZ o n).
Proof.
  intros Hd Hf Ho Hn Hfit Hsz -> Hpos. pose proof (Z.mod_pos_bound o 4096).
  assert (blk (d (pointer_at d i (o / 4096)))) as [Hl _].
  { apply Hd, data_block_range. eapply fo_used; [done|]. left. exists (o / 4096). split; [apply offset_block; lia|done]. }
  apply list_eq. intros j. destruct (decide (Z.of_nat j < n)) as [Hj|].
  2:{ rewrite !lookup_ge_None_2; [done| |].
      - rewrite length_map, length_seqZ. lia.
      - rewrite length_slice; lia. }
  rewrite list_lookup_fmap, lookup_seqZ_lt by lia. cbn. unfold slice. rewrite lookup_take_lt, lookup_drop by lia.
  assert ((o + Z.of_nat j) / 4096 = o / 4096 /\ (o + Z.of_nat j) mod 4096 = o mod 4096 + Z.of_nat j) as [E1 E2] by word_lia.
  unfold file_byte, byte_at. rewrite E1, E2.
  destruct (lookup_lt_is_Some_2 (d (pointer_at d i (o / 4096))) (Z.to_nat (o mod 4096) + j)) as [x Hx]; [unfold zlength in Hl; lia|].
  replace (Z.to_nat (o mod 4096 + Z.of_nat j)) with (Z.to_nat (o mod 4096) + j)%nat by lia. by rewrite Hx.
Qed.

Lemma on_disk_same s s' d :
  on_disk s d -> ok s' -> dev s' = dev s -> mounted_superblock s' = mounted_superblock s -> on_disk s' d.
Proof. intros [] Hok Hd Hsb. split; try done; try congruence; by rewrite Hd. Qed.

(** Running under the lock. *)
Lemma wp_locked_disk {A} (Q : A -> disk -> Prop) (refuse : Z -> A) (body : M (fs E) A) s d :
  on_disk s d -> operation_busy s = false ->
  (forall s1, on_disk s1 d -> wp body s1 (fun r s2 => exists d', Q r d' /\ on_disk s2 d' /\ frame s1 s2)) ->
  wp (locked refuse body) s (fun r s' => exists d', Q r d' /\ on_disk s' d' /\ frame s s').
Proof.
  intros Hs Hb Hbody. pose proof (od_ok _ _ _ s d Hs) as Hok. unfold locked.
  apply wp_bind, wp_acquire; [done|congruence|]. intros _ Hok1. cbv beta iota. apply wp_bind.
  eapply wp_mono; [apply Hbody; by eapply on_disk_same|]. cbv beta. intros r s2 (d' & HQ & Hs2 & F2). run.
  apply wp_release; [apply Hok|apply F2|]. run. exists d'. split; [done|].
  assert (ok (set_cpu (cpu s) (set_busy false s2))) as Hok3 by (destruct (od_ok _ _ _ s2 d' Hs2), Hok; by split).
  split; [by eapply on_disk_same|]. destruct F2. by split.
Qed.

Lemma read_loop d i offset len s :
  on_disk s d -> inode_ok i -> file_ok d i -> 0 <= offset -> 0 <= len -> offset + len <= size i ->
  wp (while_ (S (Z.to_nat len)) (read_step start count i offset len) (0, [])) s
    (leaves s d (len, map (file_byte d i) (seqZ offset len))).
Proof.
  intros Hs Hi Hf Ho Hl Hsz. pose proof (inode_size i Hi) as Hmax.
  unfold MINIFS_MAX_FILE_SIZE, MINIFS_MAX_FILE_BLOCKS, MINIFS_BLOCK_SIZE in Hmax.
  apply (wp_while (fun '(c, dest) s' => on_disk s' d /\ frame s s' /\ 0 <= c <= len /\ dest = map (file_byte d i) (seqZ offset c))
    (fun '(c, _) _ => Z.to_nat (len - c))).
  - split; [done|]. split; [apply frame_refl, Hs|]. done.
  - lia.
  - intros [c dest] s1 (Hs1 & F1 & Hc & ->). unfold read_step. destruct (Z.ltb_spec c len) as [Hlt|]; cbn [negb].
    2:{ run. assert (c = len) as -> by lia. done. }
    unfold MINIFS_BLOCK_SIZE. cbv zeta. rewrite u32_id by lia. pose proof (Z.mod_pos_bound (offset + c) 4096 ltac:(lia)).
    set (chunk := Z.min _ _). run. eapply wp_mono; [apply load_disk; [done..|apply offset_block; lia]|]. cbv beta.
    intros r s2 ((-> & Hs2 & F2) & Eio). run. rewrite Eio. unfold at_offset.
    assert (blk (d (pointer_at d i ((offset + c) / 4096)))) as [Hbl _] by (rewrite <-Eio; apply (od_ok _ _ _ s2 d Hs2)).
    rewrite (proj2 (Z.leb_le 0 _)), (proj2 (Z.leb_le _ (zlength _))) by lia. run.
    rewrite (slice_content d i) by (done || lia || by apply (od_blk _ _ _ s d Hs)).
    split; [|lia]. split; [done|]. split; [by eapply frame_trans|]. split; [lia|].
    rewrite seqZ_app, fmap_app by lia. done.
Qed.

Lemma slice_map_seqZ (f : Z -> Z) n o l :
  0 <= o -> 0 <= l -> slice (map f (seqZ 0 n)) o l = map f (seqZ o (Z.min l (n - o))).
Proof.
  intros Ho Hl. apply list_eq. intros j. unfold slice. destruct (decide (Z.of_nat j < Z.min l (n - o))) as [Hj|Hj].
  - rewrite lookup_take_lt, lookup_drop, !list_lookup_fmap, !lookup_seqZ_lt by lia. cbn. f_equal. f_equal. lia.
  - rewrite (lookup_ge_None_2 (map f (seqZ o _))) by (rewrite length_map, length_seqZ; lia).
    apply lookup_ge_None_2. rewrite length_take, length_drop, length_map, length_seqZ. lia.
Qed.

Lemma zlength_content d i : 0 <= size i -> zlength (content d i) = size i.
Proof. intros. unfold zlength, content. rewrite length_map, length_seqZ. lia. Qed.

(** The part of a file a read covers. *)
Lemma read_body n offset len i d s :
  on_disk s d -> 0 <= n -> inode_at d n = Ok i -> mode i = MINIFS_MODE_REGULAR -> file_ok d i -> 0 <= offset -> 0 <= len ->
  wp (let! r := read_inode_internal start count n in
      match r with
      | Err status => ret (status, [])
      | Ok i =>
          if mode i =? MINIFS_MODE_DIRECTORY then ret (- EISDIR, []) else
          if (size i <=? offset) || (len =? 0) then ret (0, []) else
          let length' := Z.min len (size i - offset) in
          while_ (S (Z.to_nat length')) (read_step start count i offset length') (0, [])
      end) s (leaves s d (zlength (slice (content d i) offset len), slice (content d i) offset len)).
Proof.
  intros Hs Hn Hi Hm Hf Ho Hl. pose proof (od_blk _ _ _ s d Hs) as Hd.
  destruct (inode_at_ok start count b volume_range geo n d i) as (Hok & _); [done..|].
  apply wp_bind. eapply wp_mono; [by apply (query_inode start count b volume_range geo n d)|]. cbv beta.
  rewrite Hi. intros r s1 (-> & Hs1 & F1). rewrite Hm. cbn [Z.eqb Pos.eqb MINIFS_MODE_REGULAR MINIFS_MODE_DIRECTORY].
  unfold content. rewrite slice_map_seqZ by done. pose proof (inode_size i Hok) as Hsz.
  destruct ((size i <=? offset) || (len =? 0)) eqn:Ee.
  - apply orb_true_iff in Ee. run. rewrite seqZ_nil by lia. done.
  - apply orb_false_iff in Ee. cbv zeta. eapply wp_mono; [apply (read_loop d); [done..|lia|lia]|]. cbv beta.
    intros r s2 (-> & Hs2 & F2). split; [|split; [done|by eapply frame_trans]].
    f_equal. unfold zlength. rewrite length_map, length_seqZ. lia.
Qed.

Lemma read_disk_file n offset len i d s :
  on_disk s d -> mounted s = true -> operation_busy s = false -> 0 <= n ->
  inode_at d n = Ok i -> mode i = MINIFS_MODE_REGULAR -> file_ok d i -> 0 <= offset -> 0 <= len ->
  wp (minifs_read start count n offset len) s
    (leaves s d (zlength (slice (content d i) offset len), slice (content d i) offset len)).
Proof.
  intros Hs Hmt Hb Hn Hi Hm Hf Ho Hl. unfold minifs_read. run. rewrite Hmt. cbn [negb].
  eapply wp_mono; [apply (wp_locked_disk (fun r d' => d' = d /\
    r = (zlength (slice (content d i) offset len), slice (content d i) offset len)) _ _ s d); [done..|]|].
  - intros s1 Hs1. eapply wp_mono; [by apply (read_body n offset len i d)|]. cbv beta. intros r s2 (-> & ? & ?). eauto.
  - cbv beta. intros r s' (d' & [-> ->] & ? & ?). done.
Qed.

(** C32. [minifs_read] returns exactly the bytes of the file that the request
    covers: as many as the request asks for or the file has left, read through
    the direct pointers and the indirect block, and it changes nothing on the
    disk. *)
Theorem minifs_read_content n offset len i d s :
  on_disk s d -> mounted s = true -> operation_busy s = false -> 0 <= n ->
  inode_at d n = Ok i -> mode i = MINIFS_MODE_REGULAR -> file_ok d i -> 0 <= offset -> 0 <= len ->
  wp (minifs_read start count n offset len) s (fun r s' =>
    r = (zlength (slice (content d i) offset len), slice (content d i) offset len) /\ on_disk s' d /\ frame s s').
Proof. intros. by apply read_disk_file. Qed.

End files.

End MiniFsFiles.
