(* ===== verification/MiniFsWrite.v ===== *)
(** * Writing files of MiniFS

    What a change of the disk image does to the files on it, the effect of one
    chunk on the image, and [minifs_write] as an update of one file. *)

From S2P Require Import Prelude Monad Interfaces Bytes Cpu Block MiniFs MiniFsSafe MiniFsSpec MiniFsDisk MiniFsFiles.

Module MiniFsWrite.
Import MiniFs MiniFsSafe MiniFsSpec MiniFsDisk MiniFsFiles.

Section images.
Variables start count : Z.
Variable b : superblock.
Hypothesis volume_range : 0 <= start /\ 0 <= count /\ start + count < 4294967296.
Hypothesis geo : geometry count b.
Implicit Types (d : disk) (i j : inode).

Abbreviation inode_at := (inode_at b).
Abbreviation block_used := (block_used b).
Abbreviation data_block := (data_block b).
Abbreviation file_ok := (file_ok b).
Abbreviation consistent := (consistent b).

(** ** Files that a change does not touch *)

Lemma pointer_at_ext d d' j k :
  0 <= k < blocks j -> (10 < blocks j -> d' (indirect j) = d (indirect j)) -> pointer_at d' j k = pointer_at d j k.
Proof. intros Hk Hi. unfold pointer_at. destruct (Z.ltb_spec k 10); [done|]. by rewrite Hi by lia. Qed.

Section same.
Variables (d d' : disk) (j : inode).
Hypothesis same : forall p, owned d j p -> d' p = d p.

Lemma same_pointer k : 0 <= k < blocks j -> pointer_at d' j k = pointer_at d j k.
Proof. intros Hk. apply pointer_at_ext; [done|]. intros Hb. apply same. by right. Qed.

Lemma same_owned p : owned d' j p <-> owned d j p.
Proof.
  unfold owned. split; (intros [(k & Hk & Hp)|?]; [left; exists k; split; [done|]|by right]).
  - by rewrite <-same_pointer.
  - by rewrite same_pointer.
Qed.

Lemma same_content : content d' j = content d j.
Proof.
  unfold content. apply list_fmap_ext. intros n o Ho. apply lookup_seqZ in Ho as [-> Hn]. unfold file_byte.
  assert (0 <= (0 + Z.of_nat n) / 4096 < blocks j) by (apply offset_block; lia).
  rewrite same_pointer, same by (done || left; eauto). done.
Qed.

Lemma same_file_ok : file_ok d j -> (forall p, owned d j p -> block_used d' p = true) -> file_ok d' j.
Proof.
  intros [H1 H2 H3] Hu. split.
  - intros p Hp. apply same_owned in Hp. split; [by apply H1|by apply Hu].
  - intros k1 k2 Hk1 Hk2. rewrite !same_pointer by done. by apply H2.
  - intros Hb k Hk. rewrite same_pointer by done. by apply H3.
Qed.
End same.

(** Changing one file. The blocks of every other file are kept and not taken. *)
Definition others_kept d d' (n : Z) i' : Prop :=
  forall m j, 0 <= m -> m <> n -> inode_at d m = Ok j -> forall p, owned d j p ->
    d' p = d p /\ block_used d' p = true /\ ~ owned d' i' p.

Lemma change_one_file d d' n i' :
  consistent d -> (forall m, 0 <= m -> m <> n -> inode_at d' m = inode_at d m) ->
  inode_at d' n = Ok i' -> file_ok d' i' -> others_kept d d' n i' ->
  consistent d' /\ forall m j, 0 <= m -> m <> n -> inode_at d m = Ok j -> content d' j = content d j.
Proof.
  intros [Hf Ho] Hsame Hn Hi' Hk. split; [split|].
  - intros m j Hm Hj. destruct (decide (m = n)) as [->|Hne]; [rewrite Hn in Hj; by injection Hj as <-|]. rewrite Hsame in Hj by done.
    apply (same_file_ok d); [intros p Hp; by eapply Hk|by eapply Hf|intros p Hp; by eapply Hk].
  - assert (forall m j p, 0 <= m -> m <> n -> inode_at d' m = Ok j -> owned d' j p -> inode_at d m = Ok j /\ owned d j p) as Hback.
    { intros m j p Hm Hne Hj Hp. rewrite Hsame in Hj by done. split; [done|].
      apply (same_owned d d'); [intros q Hq; by eapply Hk|done]. }
    intros m1 m2 j1 j2 p Hm1 Hm2 Hj1 Hj2 Hp1 Hp2. destruct (decide (m1 = n)) as [->|N1], (decide (m2 = n)) as [->|N2]; [done| | |].
    + destruct (Hback m2 j2 p) as [? ?]; [done..|]. rewrite Hn in Hj1. injection Hj1 as <-. destruct (Hk m2 j2) with p; tauto.
    + destruct (Hback m1 j1 p) as [? ?]; [done..|]. rewrite Hn in Hj2. injection Hj2 as <-. destruct (Hk m1 j1) with p; tauto.
    + destruct (Hback m1 j1 p) as [? ?]; [done..|]. destruct (Hback m2 j2 p) as [? ?]; [done..|]. by eapply Ho.
  - intros m j Hm Hne Hj. apply same_content. intros p Hp. by eapply Hk.
Qed.

(** The content after a change of some bytes. *)
Lemma content_splice d d' i i' offset src :
  0 <= offset <= size i -> size i' = Z.max (size i) (offset + zlength src) ->
  (forall o, 0 <= o < size i' -> file_byte d' i' o =
     if (offset <=? o) && (o <? offset + zlength src) then byte_at src (o - offset) else file_byte d i o) ->
  content d' i' = splice (content d i) offset src.
Proof.
  intros Ho Hs Hb. apply list_eq. intros k. unfold content, splice.
  destruct (decide (Z.of_nat k < size i')) as [Hk|Hk].
  2:{ rewrite !lookup_ge_None_2; [done| |]; rewrite ?length_app, ?length_take, ?length_drop, ?length_map, ?length_seqZ;
        unfold zlength in *; lia. }
  rewrite list_lookup_fmap, lookup_seqZ_lt by lia. cbn. rewrite Hb by lia.
  destruct (Z.leb_spec offset (0 + Z.of_nat k)), (Z.ltb_spec (0 + Z.of_nat k) (offset + zlength src)); cbn [andb]; unfold zlength in *.
  - rewrite lookup_app_r by (rewrite length_take, length_map, length_seqZ; lia).
    rewrite length_take, length_map, length_seqZ, lookup_app_l by lia. unfold byte_at.
    destruct (lookup_lt_is_Some_2 src (k - Z.to_nat offset)) as [x Hx]; [lia|].
    replace (Z.to_nat (0 + Z.of_nat k - offset)) with (k - Z.to_nat offset)%nat by lia.
    replace (k - Z.to_nat offset `min` Z.to_nat (size i))%nat with (k - Z.to_nat offset)%nat by lia. by rewrite Hx.
  - rewrite lookup_app_r by (rewrite length_take, length_map, length_seqZ; lia).
    rewrite length_take, length_map, length_seqZ, lookup_app_r by lia. rewrite lookup_drop, list_lookup_fmap.
    rewrite lookup_seqZ_lt by lia. cbn. f_equal. f_equal. lia.
  - rewrite lookup_app_l by (rewrite length_take, length_map, length_seqZ; lia).
    rewrite lookup_take_lt, list_lookup_fmap, lookup_seqZ_lt by lia. done.
  - lia.
Qed.

(** ** What the single updates of an image change *)

Lemma meta_below_data p : data_block p ->
  block_bitmap_start b = 1 /\ inode_bitmap_start b = 1 + block_bitmap_blocks b /\ 0 < p < count /\ data_start b <= p /\
  0 <= p / 32768 < block_bitmap_blocks b /\ inode_bitmap_start b < data_start b.
Proof.
  intros []. pose proof (layout start count b volume_range geo) as L. destruct_and! L. unfold bitmap_region in *.
  assert (0 <= p / 32768 < block_bitmap_blocks b) by (split; [apply Z.div_pos; lia|apply Z.div_lt_upper_bound; lia]). lia.
Qed.

(** A data block. *)
Lemma upd_data_used d p l x : data_block p -> data_block x -> block_used (upd d p l) x = block_used d x.
Proof.
  intros Hp Hx. apply meta_below_data in Hp, Hx. unfold MiniFsDisk.block_used, bit_at. rewrite upd_ne; [done|lia].
Qed.

Lemma upd_data_inode d p l m : data_block p -> 0 <= m -> inode_at (upd d p l) m = inode_at d m.
Proof.
  intros Hp Hm. apply meta_below_data in Hp. apply (inode_at_ext start count b); [done..|]. intros k Hk. apply upd_ne. lia.
Qed.

(** A bit of the block bitmap. *)
Lemma set_bit_used d p v x :
  (forall k, 0 <= k < count -> blk (d k)) -> data_block p ->
  block_used (set_bit d (block_bitmap_start b) p v) x = if x =? p then v else block_used d x.
Proof.
  intros Hd Hp. apply meta_below_data in Hp. pose proof (layout start count b volume_range geo) as L. destruct_and! L.
  apply bit_at_set_bit, Hd. unfold bitmap_region in *. lia.
Qed.

Lemma set_bit_data d p v x : data_block p -> data_block x -> set_bit d (block_bitmap_start b) p v x = d x.
Proof. intros Hp Hx. apply meta_below_data in Hp, Hx. apply set_bit_other. lia. Qed.

Lemma set_bit_inode d p v m : data_block p -> 0 <= m -> inode_at (set_bit d (block_bitmap_start b) p v) m = inode_at d m.
Proof.
  intros Hp Hm. apply meta_below_data in Hp. apply (inode_at_ext start count b); [done..|]. intros k Hk.
  apply set_bit_other. lia.
Qed.

(** An inode record. *)
Lemma put_record_data d n record x : 0 <= n < total_inodes b -> data_block x -> put_record b d n record x = d x.
Proof.
  intros Hn Hx. destruct (inode_block_range start count b volume_range geo n Hn) as (_ & ? & _).
  apply meta_below_data in Hx. apply upd_ne. lia.
Qed.

Lemma put_record_used d n record x : 0 <= n < total_inodes b -> data_block x -> block_used (put_record b d n record) x = block_used d x.
Proof.
  intros Hn Hx. destruct (inode_block_range start count b volume_range geo n Hn) as (_ & ? & _).
  pose proof (layout start count b volume_range geo) as L. destruct_and! L. apply meta_below_data in Hx.
  unfold MiniFsDisk.block_used, bit_at. unfold put_record. rewrite upd_ne; [done|lia].
Qed.

Lemma owned_data d i p : file_ok d i -> owned d i p -> data_block p.
Proof. intros Hf Hp. by apply (fo_used _ _ _ Hf). Qed.

(** What a chunk written to file [n] does to the image. *)
Record chunk_done d n i offset src d' i' : Prop := {
  cd_consistent : consistent d';
  cd_inode : inode_at d' n = Ok i';
  cd_mode : mode i' = mode i /\ link_count i' = link_count i;
  cd_others : forall m, 0 <= m -> m <> n -> inode_at d' m = inode_at d m;
  cd_contents : forall m j, 0 <= m -> m <> n -> inode_at d m = Ok j -> content d' j = content d j;
  cd_content : content d' i' = splice (content d i) offset src
}.

(** ** Overwriting inside the last block *)

Lemma blocks_set_size i v : (blocks i - 1) * 4096 < v <= blocks i * 4096 -> size i <> 0 -> 0 <= size i -> blocks (set_size v i) = blocks i.
Proof.
  intros Hv Hne H0. destruct (blocks_spec i H0) as [[? ?]|[? ?]]; [|lia]. unfold blocks at 1, divide_round_up. cbn [size set_size].
  destruct (Z.eqb_spec v 0); word_lia.
Qed.

Lemma overwritten d n i offset src i' d' p :
  (forall k, 0 <= k < count -> blk (d k)) -> consistent d -> 0 <= n -> inode_at d n = Ok i ->
  chunk_ok offset src -> 0 < zlength src -> 0 <= offset <= size i -> offset / 4096 < blocks i ->
  p = pointer_at d i (offset / 4096) ->
  i' = set_size (Z.max (size i) (offset + zlength src)) i -> inode_at d' n = Ok i' ->
  (forall m, 0 <= m -> m <> n -> inode_at d' m = inode_at d m) ->
  (forall x, data_block x -> d' x = upd d p (splice (d p) (offset mod 4096) src) x) ->
  (forall x, data_block x -> block_used d' x = block_used d x) ->
  chunk_done d n i offset src d' i'.
Proof.
  intros Hd Hc Hn Hi (_ & Hsb & Hfit) Hpos Ho Hk Hp Hi' Hn' Hsame Hdata Hused.
  destruct (inode_at_ok start count b volume_range geo n d i Hd Hn Hi) as (Hok & _ & Hlt & _).
  pose proof (con_file _ _ Hc n i Hn Hi) as Hf. pose proof (inode_size i Hok).
  assert (0 <= offset / 4096) by (apply Z.div_pos; lia).
  assert (owned d i p) as Hpo by (left; exists (offset / 4096); auto).
  assert (blocks i' = blocks i) as Hblk.
  { destruct (blocks_spec i) as [[? ?]|[? ?]]; [lia| |lia]. subst i'. apply blocks_set_size; [|lia|lia]. split; [lia|].
    apply Z.max_lub; [lia|]. word_lia. }
  assert (indirect i' = indirect i /\ forall k, direct_at i' k = direct_at i k) as [Hind Hdir] by (subst i'; done).
  assert (forall k, 0 <= k < blocks i -> pointer_at d' i' k = pointer_at d i k) as Hptr.
  { intros k Hkb. unfold pointer_at. rewrite Hdir, Hind. destruct (Z.ltb_spec k 10); [done|]. f_equal.
    assert (owned d i (indirect i)) as Hio by (right; split; [lia|done]).
    rewrite Hdata by (by eapply owned_data). apply upd_ne. intros Heq. eapply (fo_indirect _ _ _ Hf); [|split; [done|exact Hk]|]; [lia|congruence]. }
  assert (forall x, owned d' i' x <-> owned d i x) as Hown.
  { intros x. unfold owned. rewrite Hblk, Hind. split; (intros [(k & ? & ?)|?]; [left; exists k; split; [done|]|by right]);
      [by rewrite <-Hptr|by rewrite Hptr]. }
  assert (file_ok d' i') as Hf'.
  { split.
    - intros x Hx. apply Hown in Hx. destruct (fo_used _ _ _ Hf x Hx) as [Hdx ?]. split; [done|]. by rewrite Hused.
    - rewrite Hblk. intros k1 k2 ? ?. rewrite !Hptr by done. by apply (fo_distinct _ _ _ Hf).
    - rewrite Hblk, Hind. intros ? k ?. rewrite Hptr by done. by apply (fo_indirect _ _ _ Hf). }
  destruct (change_one_file d d' n i') as [Hc' Hcont]; [done..| |].
  { intros m j Hm Hne Hj x Hx. pose proof (con_file _ _ Hc m j Hm Hj) as Hfj. destruct (fo_used _ _ _ Hfj x Hx) as [Hdx Hux].
    assert (~ owned d i x) as Hno by (intros Hix; by destruct Hne; eapply (con_owner _ _ Hc)).
    split; [|split].
    - rewrite Hdata by done. apply upd_ne. congruence.
    - by rewrite Hused.
    - by rewrite Hown. }
  split; [done|done|by subst i'|done|done|]. apply content_splice; [done|by subst i'|].
  intros o Hos. assert (0 <= o / 4096 < blocks i) as Hob by (rewrite <-Hblk; apply offset_block; lia).
  pose proof (Z.mod_pos_bound o 4096). pose proof (Z.mod_pos_bound offset 4096).
  assert (data_block (pointer_at d i (o / 4096))) as Hdo by (apply (owned_data d i); [done|left; by exists (o / 4096)]).
  pose proof (owned_data d i p Hf Hpo) as Hdp. destruct (Hd p) as [Hpl _]; [apply meta_below_data in Hdp; lia|].
  unfold file_byte. rewrite Hptr, Hdata by done. destruct (decide (o / 4096 = offset / 4096)) as [E1|E1].
  - rewrite E1, <-Hp, upd_eq, byte_at_splice by lia.
    assert (o - offset = o mod 4096 - offset mod 4096) as Hdiff by word_lia. rewrite <-Hdiff.
    destruct (Z.leb_spec (offset mod 4096) (o mod 4096)), (Z.leb_spec offset o),
      (Z.ltb_spec (o mod 4096) (offset mod 4096 + zlength src)), (Z.ltb_spec o (offset + zlength src)); try lia; try done.
  - rewrite upd_ne. 2:{ rewrite Hp. intros Heq. apply E1. by eapply (fo_distinct _ _ _ Hf). }
    replace ((offset <=? o) && (o <? offset + zlength src)) with false; [done|]. symmetry. apply andb_false_iff.
    rewrite Z.leb_gt, Z.ltb_ge. word_lia.
Qed.

Lemma inode_ok_set_size i v :
  inode_ok i -> 0 <= v <= MINIFS_MAX_FILE_SIZE -> (mode i = MINIFS_MODE_DIRECTORY -> 0 < v /\ v mod 64 = 0) ->
  inode_ok (set_size v i).
Proof. intros [] Hv Hdir. by split. Qed.

Lemma set_size_same i : set_size (size i) i = i.
Proof. by destruct i. Qed.

(** A shape is kept by inodes with the same pointers and block count. *)
Lemma shape_set_size i v :
  inode_pointer_shape_valid i = true -> 0 <= size i -> 0 <= v -> blocks (set_size v i) = blocks i ->
  inode_pointer_shape_valid (set_size v i) = true.
Proof. intros Hs H0 Hv Hb. apply shape_spec in Hs; [|done]. apply shape_spec; [done|]. by rewrite Hb. Qed.

(** ** Adding a block at the end *)

(** The image after block [p] was added to file [n], with [q] the indirect
    block when the file has one. *)
Record appended d n i src p q d' i' : Prop := {
  ap_size : size i' = size i + zlength src;
  ap_mode : mode i' = mode i /\ link_count i' = link_count i;
  ap_block : data_block p /\ block_used d p = false;
  ap_indirect : 10 <= blocks i -> indirect i' = q /\ data_block q /\ q <> p /\
    (blocks i = 10 -> block_used d q = false) /\ (10 < blocks i -> q = indirect i);
  ap_old : forall k, 0 <= k < blocks i -> pointer_at d' i' k = pointer_at d i k;
  ap_new : pointer_at d' i' (blocks i) = p;
  ap_kept : forall x, data_block x -> x <> p -> ~ (10 <= blocks i /\ x = q) -> d' x = d x;
  ap_data : forall o, 0 <= o < zlength src -> byte_at (d' p) o = byte_at src o;
  ap_used : forall x, data_block x -> block_used d' x = true <-> block_used d x = true \/ x = p \/ 10 <= blocks i /\ x = q;
  ap_inode : inode_at d' n = Ok i';
  ap_others : forall m, 0 <= m -> m <> n -> inode_at d' m = inode_at d m
}.

Lemma blocks_appended i i' len :
  0 <= size i -> size i = blocks i * 4096 -> 0 < len <= 4096 -> size i' = size i + len -> blocks i' = blocks i + 1.
Proof.
  intros H0 Hs Hl Hs'. unfold blocks at 1, divide_round_up. rewrite Hs', Hs. pose proof (blocks_spec i H0).
  destruct (Z.eqb_spec (blocks i * 4096 + len) 0); word_lia.
Qed.

Section append.
Variables (d d' : disk) (n : Z) (i i' : inode) (src : list Z) (p q : Z).
Hypothesis Hc : consistent d.
Hypothesis Hn : 0 <= n.
Hypothesis Hi : inode_at d n = Ok i.
Hypothesis Hsz : 0 <= size i /\ size i = blocks i * 4096.
Hypothesis Hlen : 0 < zlength src <= 4096.
Hypothesis Ha : appended d n i src p q d' i'.

Lemma append_blocks : blocks i' = blocks i + 1.
Proof. eapply blocks_appended; [lia|lia|exact Hlen|apply Ha]. Qed.

Lemma append_owned x : owned d' i' x -> owned d i x \/ x = p \/ 10 <= blocks i /\ x = q.
Proof.
  pose proof append_blocks as Hb. intros [(k & Hk & <-)|[Hb' ->]].
  - destruct (decide (k = blocks i)) as [->|]; [right; left; apply Ha|]. left. left. exists k. split; [lia|].
    symmetry. apply (ap_old _ _ _ _ _ _ _ _ Ha). lia.
  - right. right. split; [lia|]. apply (ap_indirect _ _ _ _ _ _ _ _ Ha). lia.
Qed.

Lemma append_fresh x : owned d i x -> x <> p /\ (blocks i = 10 -> x <> q).
Proof.
  intros Hx. destruct (fo_used _ _ _ (con_file _ _ Hc n i Hn Hi) x Hx) as [_ Hu]. destruct Ha as [_ _ [_ Hp] Hq _ _ _ _ _ _ _].
  split; [intros ->; congruence|]. intros Hb ->. destruct Hq as (_ & _ & _ & Hq & _); [lia|]. rewrite Hq in Hu; [done|lia].
Qed.

(** The pointers of the old file are neither the new block nor the indirect one. *)
Lemma append_old_pointer k : 0 <= k < blocks i ->
  data_block (pointer_at d i k) /\ pointer_at d i k <> p /\ ~ (10 <= blocks i /\ pointer_at d i k = q).
Proof.
  intros Hk. pose proof (con_file _ _ Hc n i Hn Hi) as Hf. assert (owned d i (pointer_at d i k)) as Ho by (left; eauto).
  destruct (append_fresh _ Ho) as [Hp Hq]. split; [by eapply owned_data|]. split; [done|]. intros [Hb Heq].
  destruct (decide (blocks i = 10)); [by apply Hq|].
  destruct (ap_indirect _ _ _ _ _ _ _ _ Ha) as (_ & _ & _ & _ & Hqi); [lia|].
  apply (fo_indirect _ _ _ Hf) in Hk; [|lia]. rewrite Heq, Hqi in Hk; [done|lia].
Qed.

Lemma append_file_ok : file_ok d' i'.
Proof.
  pose proof append_blocks as Hb. pose proof (con_file _ _ Hc n i Hn Hi) as Hf. destruct Ha as [_ _ [Hpd Hpu] Hq Hold Hnew _ _ Hused _ _]. split.
  - intros x Hx. apply append_owned in Hx.
    assert (data_block x) as Hdx.
    { destruct Hx as [Hx| [-> | [? ->]]]; [by eapply owned_data|done|by apply Hq]. }
    split; [done|]. apply Hused; [done|]. destruct Hx as [Hx|Hx]; [left; by apply (fo_used _ _ _ Hf)|by right].
  - rewrite Hb. intros k1 k2 H1 H2. destruct (decide (k1 = blocks i)) as [->|], (decide (k2 = blocks i)) as [->|]; [done|..].
    + rewrite Hnew, Hold by lia. intros Heq. destruct (append_old_pointer k2) as (_ & Hne & _); [lia|congruence].
    + rewrite Hnew, Hold by lia. intros Heq. destruct (append_old_pointer k1) as (_ & Hne & _); [lia|congruence].
    + rewrite !Hold by lia. apply (fo_distinct _ _ _ Hf); lia.
  - rewrite Hb. intros H10 k Hk. destruct Hq as (-> & _ & Hqp & _); [lia|]. destruct (decide (k = blocks i)) as [->|]; [congruence|].
    rewrite Hold by lia. destruct (append_old_pointer k) as (_ & _ & Hne); [lia|]. intros Heq. apply Hne. split; [lia|done].
Qed.

Lemma append_others : others_kept d d' n i'.
Proof.
  intros m j Hm Hne Hj x Hx. pose proof (con_file _ _ Hc m j Hm Hj) as Hfj. destruct (fo_used _ _ _ Hfj x Hx) as [Hdx Hux].
  assert (~ owned d i x) as Hno by (intros Hix; by destruct Hne; eapply (con_owner _ _ Hc)).
  destruct Ha as [_ _ [Hpd Hpu] Hq _ _ Hkept _ Hused _ _]. assert (x <> p) by (intros ->; congruence).
  assert (~ (10 <= blocks i /\ x = q)) as Hxq.
  { intros [H10 ->]. destruct Hq as (_ & _ & _ & Hq1 & Hq2); [done|]. destruct (decide (blocks i = 10)) as [E|].
    - rewrite Hq1 in Hux by done. done.
    - apply Hno. right. split; [lia|apply Hq2; lia]. }
  split; [by apply Hkept|]. split; [apply Hused; auto|]. intros Hx'. apply append_owned in Hx'. tauto.
Qed.

Lemma append_done : chunk_done d n i (size i) src d' i'.
Proof.
  destruct (change_one_file d d' n i') as [Hc' Hcont]; [done|apply Ha|apply Ha|apply append_file_ok|apply append_others|].
  split; [done|apply Ha|apply Ha|apply Ha|done|]. pose proof append_blocks as Hb.
  destruct Ha as [Hs _ _ Hq Hold Hnew Hkept Hbyte _ _ _]. apply content_splice; [lia|lia|]. intros o Ho.
  assert (0 <= o / 4096 < blocks i') as Hob by (apply offset_block; lia). unfold file_byte.
  destruct (Z.leb_spec (size i) o); cbn [andb].
  - assert (o / 4096 = blocks i /\ o mod 4096 = o - size i) as [-> ->] by word_lia.
    rewrite (proj2 (Z.ltb_lt o _)), Hnew by lia. apply Hbyte. lia.
  - assert (o / 4096 < blocks i) by word_lia. rewrite Hold by lia. destruct (append_old_pointer (o / 4096)) as (? & ? & ?); [lia|].
    by rewrite Hkept.
Qed.
End append.

End images.

(** Rewriting the inode of a file. *)
Lemma inode_at_rewrite start count b d n i0 i m :
  0 <= start /\ 0 <= count /\ start + count < 4294967296 -> geometry count b ->
  (forall k, 0 <= k < count -> blk (d k)) -> 0 <= n -> 0 <= m -> inode_at b d n = Ok i0 ->
  inode_ok i -> inode_pointer_shape_valid i = true ->
  inode_at b (put_record b d n (encode_inode i)) m = if m =? n then Ok i else inode_at b d m.
Proof.
  intros Hr Hg Hd Hn Hm H0 Hi Hs. destruct (inode_at_ok start count b Hr Hg n d i0 Hd Hn H0) as (_ & _ & Hlt & Hu).
  by apply (inode_at_put start count b).
Qed.

Section writes.
Context {E : Type} `{!BlockDevice E}.
Variables start count : Z.
Variable b : superblock.
Hypothesis volume_range : 0 <= start /\ 0 <= count /\ start + count < 4294967296.
Hypothesis geo : geometry count b.
Implicit Types (s : fs E) (d : disk) (i j : inode).

Abbreviation on_disk := (on_disk start count b).
Abbreviation leaves := (leaves start count b).
Abbreviation inode_at := (inode_at b).
Abbreviation block_used := (block_used b).
Abbreviation data_block := (data_block b).
Abbreviation consistent := (consistent b).
Abbreviation chunk_done := (chunk_done b).

(** A chunk that may be written to file [n] at [offset]. *)
Record writable d (n : Z) i (offset : Z) (src : list Z) : Prop := {
  wr_consistent : consistent d;
  wr_number : 0 <= n;
  wr_inode : inode_at d n = Ok i;
  wr_chunk : chunk_ok offset src;
  wr_nonempty : 0 < zlength src;
  wr_offset : 0 <= offset <= size i;
  wr_limit : offset + zlength src <= MINIFS_MAX_FILE_SIZE;
  wr_directory : mode i = MINIFS_MODE_DIRECTORY -> (offset + zlength src) mod 64 = 0
}.

Lemma write_io_chunk l offset src s d :
  on_disk s d -> io_block s = l -> chunk_ok offset src ->
  wp (write_io (offset mod MINIFS_BLOCK_SIZE) src) s (fun _ s' =>
    on_disk s' d /\ frame s s' /\ io_block s' = splice l (offset mod 4096) src /\ blk (io_block s')).
Proof.
  intros Hs <- (Ho & Hb & Hl). unfold write_io, MINIFS_BLOCK_SIZE. run. pose proof (Z.mod_pos_bound offset 4096 ltac:(lia)).
  destruct (ok_io s (od_ok _ _ _ s d Hs)) as [Hil Hib].
  rewrite (proj2 (Z.leb_le 0 _)), (proj2 (Z.leb_le _ (zlength _))) by lia. run.
  assert (blk (splice (io_block s) (offset mod 4096) src)) as Hblk by (apply blk_splice; [by split|done|lia|lia]).
  destruct (set_io_disk start count b (splice (io_block s) (offset mod 4096) src) s d); [done..|]. done.
Qed.

Lemma overwrite_disk d n i offset src s :
  on_disk s d -> writable d n i offset src -> offset / 4096 < blocks i ->
  wp (overwrite_chunk start count n i offset src) s (fun r s' => exists d' i',
    r = (0, i') /\ chunk_done d n i offset src d' i' /\ on_disk s' d' /\ frame s s').
Proof.
  intros Hs Hw Hk. destruct Hw as [Hc Hn Hi Hck Hpos Ho Hlim Hdir]. pose proof (od_blk _ _ _ s d Hs) as Hd.
  destruct (inode_at_ok start count b volume_range geo n d i Hd Hn Hi) as (Hok & Hsh & Hlt & Hu).
  pose proof (con_file _ _ Hc n i Hn Hi) as Hf. pose proof (inode_size i Hok) as Hsz.
  assert (0 <= offset / 4096) by (apply Z.div_pos; lia). set (p := pointer_at d i (offset / 4096)).
  assert (data_block p) as Hp by (apply (fo_used _ _ _ Hf); left; by exists (offset / 4096)).
  unfold overwrite_chunk. cbv zeta. change MINIFS_BLOCK_SIZE with 4096 at 1. apply wp_bind.
  eapply wp_mono; [by apply (load_disk start count b volume_range geo i _ d)|]. cbv beta. fold p.
  intros r s1 ((-> & Hs1 & F1) & Eio). apply wp_bind. eapply wp_mono; [by apply (write_io_chunk (d p) _ _ s1 d)|].
  cbv beta. intros _ s2 (Hs2 & F2 & Eio2 & _). apply wp_bind.
  eapply wp_mono; [apply (write_io_disk start count b volume_range geo p d); [done|by apply (data_block_range start count b)]|].
  cbv beta. rewrite Eio2. set (d1 := upd d p _). intros r s3 ((-> & Hs3 & F3) & _). rewrite Z.eqb_refl. cbn [negb].
  assert (frame s s3) as F by (eapply frame_trans; [done|]; by eapply frame_trans).
  unfold MINIFS_MAX_FILE_SIZE, MINIFS_MAX_FILE_BLOCKS, MINIFS_BLOCK_SIZE in Hlim, Hsz.
  rewrite u32_id by lia. destruct (Z.ltb_spec (size i) (offset + zlength src)).
  - assert (inode_pointer_shape_valid (set_size (offset + zlength src) i) = true) as Hsh'.
    { apply shape_set_size; [done|lia|lia|]. destruct (blocks_spec i) as [[? ?]|[? ?]]; [lia| |lia].
      apply blocks_set_size; [|lia|lia]. destruct Hck as (_ & _ & Hfit). split; [lia|word_lia]. }
    apply wp_bind. eapply wp_mono; [by apply (write_inode_disk start count b volume_range geo n _ d1)|]. cbv beta.
    intros r s4 (-> & Hs4 & F4). rewrite Z.eqb_refl. run. eexists _, _. split; [done|]. split; [|split; [done|by eapply frame_trans]].
    assert (forall m, 0 <= m -> inode_at (put_record b d1 n (encode_inode (set_size (offset + zlength src) i))) m =
      if m =? n then Ok (set_size (offset + zlength src) i) else inode_at d m) as Hput.
    { intros m Hm. rewrite (inode_at_rewrite start count b d1 n i).
      - unfold d1; by rewrite (upd_data_inode start count b volume_range geo).
      - done.
      - done.
      - by apply (od_blk start count b s3 d1).
      - done.
      - done.
      - unfold d1; by rewrite (upd_data_inode start count b volume_range geo).
      - apply inode_ok_set_size; [done| |intros; split; [lia|auto]].
        unfold MINIFS_MAX_FILE_SIZE, MINIFS_MAX_FILE_BLOCKS, MINIFS_BLOCK_SIZE. lia.
      - done. }
    eapply (overwritten start count b volume_range geo d n i offset src _ _ p); try done.
    + by rewrite Z.max_r by lia.
    + by rewrite Hput, Z.eqb_refl by done.
    + intros m Hm Hne. rewrite Hput by done. by destruct (Z.eqb_spec m n).
    + intros x Hx. by apply (put_record_data start count b).
    + intros x Hx. rewrite (put_record_used start count b) by done. by apply (upd_data_used start count b).
  - run. exists d1, i. split; [done|]. split; [|done].
    eapply (overwritten start count b volume_range geo d n i offset src _ _ p); try done.
    + rewrite Z.max_l by lia. by rewrite set_size_same.
    + unfold d1; by rewrite (upd_data_inode start count b volume_range geo).
    + intros m Hm Hne. unfold d1; by rewrite (upd_data_inode start count b volume_range geo).
    + intros x Hx. by apply (upd_data_used start count b).
Qed.

(** ** Running out of space *)

(** Nothing that was in use has changed. *)
Record unchanged d d' : Prop := {
  un_inode : forall m, 0 <= m -> inode_at d' m = inode_at d m;
  un_block : forall x, data_block x -> block_used d x = true -> d' x = d x /\ block_used d' x = true
}.

(** At most one data block is free. *)
Definition nearly_full d : Prop := exists q, forall x, data_block x -> block_used d x = false -> x = q.

Lemma unchanged_consistent d d' :
  consistent d -> unchanged d d' -> consistent d' /\ forall m j, 0 <= m -> inode_at d m = Ok j -> content d' j = content d j.
Proof.
  intros Hc [Hi Hb].
  assert (forall m j, 0 <= m -> inode_at d m = Ok j -> forall p, owned d j p -> d' p = d p /\ block_used d' p = true) as Hk.
  { intros m j Hm Hj p Hp. destruct (fo_used _ _ _ (con_file _ _ Hc m j Hm Hj) p Hp). by apply Hb. }
  split; [split|].
  - intros m j Hm Hj. rewrite Hi in Hj by done.
    apply (same_file_ok b d); [intros p Hp; by eapply Hk|by eapply (con_file _ _ Hc)|intros p Hp; by eapply Hk].
  - intros m1 m2 j1 j2 p Hm1 Hm2 Hj1 Hj2 Hp1 Hp2. rewrite Hi in Hj1, Hj2 by done.
    apply (same_owned d d') in Hp1; [|intros x Hx; apply (Hk m1 j1 Hm1 Hj1 x Hx)].
    apply (same_owned d d') in Hp2; [|intros x Hx; apply (Hk m2 j2 Hm2 Hj2 x Hx)].
    by eapply (con_owner _ _ Hc).
  - intros m j Hm Hj. apply same_content. intros p Hp. by eapply Hk.
Qed.

Lemma unchanged_refl d : unchanged d d.
Proof. by split. Qed.

(** Taking a block and giving it back. *)
Lemma take_free_unchanged d q :
  (forall k, 0 <= k < count -> blk (d k)) -> data_block q -> block_used d q = false ->
  unchanged d (set_bit (take_block b d q) (block_bitmap_start b) q false).
Proof.
  intros Hd Hq Hu. assert (forall k, 0 <= k < count -> blk (take_block b d q k)) as Hd1.
  { intros k Hk. unfold take_block. destruct (decide (k = q)) as [->|]; [rewrite upd_eq; apply blk_zero|].
    rewrite upd_ne by done. by apply blk_set_bit, Hd. }
  split.
  - intros m Hm. rewrite (set_bit_inode start count b volume_range geo) by done. unfold take_block.
    by rewrite (upd_data_inode start count b volume_range geo), (set_bit_inode start count b volume_range geo).
  - intros x Hx Hux. assert (x <> q) by congruence. rewrite (set_bit_data start count b volume_range geo) by done.
    rewrite (set_bit_used start count b volume_range geo) by done. destruct (Z.eqb_spec x q); [done|]. unfold take_block.
    rewrite (upd_data_used start count b volume_range geo) by done. rewrite upd_ne by done.
    rewrite (set_bit_used start count b volume_range geo), (set_bit_data start count b volume_range geo) by done.
    by destruct (Z.eqb_spec x q).
Qed.

(** ** The blocks of an appended chunk *)

Lemma take_block_used d p x :
  (forall k, 0 <= k < count -> blk (d k)) -> data_block p -> data_block x ->
  block_used (take_block b d p) x = if x =? p then true else block_used d x.
Proof.
  intros Hd Hp Hx. unfold take_block. rewrite (upd_data_used start count b volume_range geo) by done.
  by apply (set_bit_used start count b volume_range geo).
Qed.

Lemma take_block_data d p x : data_block p -> data_block x -> x <> p -> take_block b d p x = d x.
Proof. intros Hp Hx Hne. unfold take_block. rewrite upd_ne by done. by apply (set_bit_data start count b). Qed.

Lemma take_block_inode d p m : data_block p -> 0 <= m -> inode_at (take_block b d p) m = inode_at d m.
Proof.
  intros Hp Hm. unfold take_block.
  by rewrite (upd_data_inode start count b volume_range geo), (set_bit_inode start count b volume_range geo).
Qed.

(** [allocate_block] hands out the lowest free data block: it is marked
    used and filled with zeros, every other data block keeps its bit and its
    bytes and every inode stays as it was. It reports ENOSPC exactly when every
    data block is in use, and then changes nothing. *)
Theorem allocate_block_exact d s :
  on_disk s d ->
  wp (allocate_block start count) s (fun r s' => exists d', on_disk s' d' /\ frame s s' /\
    match r with
    | Ok p => data_block p /\ block_used d p = false /\ (forall q, data_start b <= q < p -> block_used d q = true) /\
        block_used d' p = true /\ d' p = replicate 4096 0 /\
        (forall q, data_block q -> q <> p -> block_used d' q = block_used d q /\ d' q = d q) /\
        (forall m, 0 <= m -> inode_at d' m = inode_at d m)
    | Err st => st = - ENOSPC /\ d' = d /\ forall q, data_block q -> block_used d q = true
    end).
Proof.
  intros Hs. pose proof (od_blk _ _ _ s d Hs) as Hd.
  eapply wp_mono; [by apply (allocate_block_disk start count b volume_range geo d)|]. cbv beta.
  intros r s' (d' & [(p & -> & Hp & Hu & Hl & ->)|(-> & Hall & ->)] & Hs' & F'); eexists; (split; [done|split; [done|]]); [|done].
  do 3 (split; [done|]). split; [rewrite take_block_used by done; by rewrite Z.eqb_refl|].
  split; [apply upd_eq|]. split; [|intros; by apply take_block_inode].
  intros q Hq Hne. rewrite take_block_used by done. split; [by destruct (Z.eqb_spec q p)|by apply take_block_data].
Qed.

(** Before the data block is taken: the file has its indirect block, new when
    this is the first block behind the ten direct ones. *)
Record prepared d i q d1 i1 : Prop := {
  pr_inode : i1 = if blocks i =? 10 then set_indirect q i else i;
  pr_indirect : 10 <= blocks i -> indirect i1 = q /\ data_block q /\ block_used d1 q = true /\
    (blocks i = 10 -> block_used d q = false) /\ (10 < blocks i -> q = indirect i);
  pr_data : forall x, data_block x -> ~ (blocks i = 10 /\ x = q) -> d1 x = d x;
  pr_used : forall x, data_block x -> block_used d1 x = true <-> block_used d x = true \/ blocks i = 10 /\ x = q;
  pr_inodes : forall m, 0 <= m -> inode_at d1 m = inode_at d m
}.

(** Entering block [p] as block [k] of the file. *)
Definition link_disk d i k p : disk :=
  if k <? 10 then d else upd d (indirect i) (splice (d (indirect i)) ((k - 10) * 4) (le32 p)).
Definition link_inode i k p : inode := if k <? 10 then set_direct k p i else i.

Lemma direct_at_set_direct i k p k' :
  length (direct i) = 10%nat -> 0 <= k < 10 -> 0 <= k' -> direct_at (set_direct k p i) k' = if k' =? k then p else direct_at i k'.
Proof.
  intros Hl Hk Hj. unfold direct_at. cbn [direct set_direct]. destruct (Z.eqb_spec k' k) as [->|].
  - by rewrite list_lookup_insert_eq by lia.
  - by rewrite list_lookup_insert_ne by lia.
Qed.

Section link.
Variables (d d1 : disk) (n : Z) (i i1 : inode) (src data : list Z) (p q : Z).
Hypothesis Hd : forall k, 0 <= k < count -> blk (d1 k).
Hypothesis Hn : 0 <= n.
Hypothesis Hi : inode_at d n = Ok i.
Hypothesis Hok : inode_ok i.
Hypothesis Hshape : inode_pointer_shape_valid i = true.
Hypothesis Hsz : size i = blocks i * 4096.
Hypothesis Hk : 0 <= blocks i < 1034.
Hypothesis Hlen : 0 < zlength src <= 4096.
Hypothesis Hdir : mode i = MINIFS_MODE_DIRECTORY -> (size i + zlength src) mod 64 = 0.
Hypothesis Hpre : prepared d i q d1 i1.
Hypothesis Hp : data_block p.
Hypothesis Hfree : block_used d1 p = false.
Hypothesis Hdata : blk data.
Hypothesis Hsrc : forall o, 0 <= o < zlength src -> byte_at data o = byte_at src o.

Let d3 : disk := upd (take_block b d1 p) p data.
Let d4 : disk := link_disk d3 i1 (blocks i) p.
Let i' : inode := set_size (size i + zlength src) (link_inode i1 (blocks i) p).

Lemma link_indirect : 10 <= blocks i -> q <> p /\ data_block q.
Proof. intros H10. destruct (pr_indirect _ _ _ _ _ Hpre H10) as (_ & ? & ? & _). split; [congruence|done]. Qed.

Lemma link_same_fields : mode i' = mode i /\ link_count i' = link_count i /\
  (forall k, 0 <= k < 10 -> direct_at i' k = if k =? blocks i then p else direct_at i k) /\
  indirect i' = (if blocks i =? 10 then q else indirect i) /\ size i' = size i + zlength src.
Proof.
  unfold i', link_inode. rewrite (pr_inode _ _ _ _ _ Hpre). pose proof (inode_direct i Hok) as [Hl _].
  destruct (Z.ltb_spec (blocks i) 10), (Z.eqb_spec (blocks i) 10); try lia; cbn [mode link_count set_size set_direct set_indirect indirect size];
    (split; [done|]; split; [done|]; split; [|done]); intros k Hk10.
  - change (direct_at (set_direct (blocks i) p i) k = if k =? blocks i then p else direct_at i k). apply direct_at_set_direct; lia.
  - destruct (Z.eqb_spec k (blocks i)); [lia|done].
  - destruct (Z.eqb_spec k (blocks i)); [lia|done].
Qed.

Lemma link_blocks : blocks i' = blocks i + 1.
Proof. eapply (blocks_appended i); [apply inode_size, Hok|done|exact Hlen|apply link_same_fields]. Qed.

Lemma link_inode_ok : inode_ok i' /\ inode_pointer_shape_valid i' = true.
Proof.
  destruct link_same_fields as (Hm & Hlc & Hdt & Hin & Hs). pose proof link_blocks as Hb.
  pose proof (meta_below_data start count b volume_range geo p Hp) as Hpr. pose proof Hok as [O1 O2 O3 [O4 O5] (O6 & O7 & O8) O9].
  assert (10 <= blocks i -> 0 <= q < count) as Hqr.
  { intros H10. destruct (link_indirect H10) as [_ Hq]. pose proof (meta_below_data start count b volume_range geo q Hq). lia. }
  split.
  - split.
    + by rewrite Hm.
    + rewrite Hs. unfold MINIFS_MAX_FILE_SIZE, MINIFS_MAX_FILE_BLOCKS, MINIFS_BLOCK_SIZE. lia.
    + by rewrite Hlc.
    + unfold i', link_inode. rewrite (pr_inode _ _ _ _ _ Hpre). destruct (blocks i <? 10), (blocks i =? 10); cbn;
        rewrite ?length_insert; (split; [done|]); try done; apply Forall_insert; try done; lia.
    + rewrite Hin. split; [destruct (Z.eqb_spec (blocks i) 10); [lia|done]|].
      unfold i', link_inode. rewrite (pr_inode _ _ _ _ _ Hpre). by destruct (blocks i <? 10), (blocks i =? 10).
    + rewrite Hm, Hs. intros Hd'. split; [lia|auto].
  - apply shape_spec; [lia|]. pose proof Hshape as Hsh. apply shape_spec in Hsh as (S1 & S2 & S3); [|lia]. rewrite Hb. split; [|split].
    + intros k Hk10. rewrite Hdt by done. specialize (S1 k Hk10). destruct (Z.eqb_spec k (blocks i)); lia.
    + rewrite Hin. intros H11. destruct (Z.eqb_spec (blocks i) 10); [|apply S2; lia].
      destruct link_indirect as [_ Hq]; [lia|]. pose proof (meta_below_data start count b volume_range geo q Hq). lia.
    + rewrite Hin. intros H10. destruct (Z.eqb_spec (blocks i) 10); [lia|apply S3; lia].
Qed.

(** The data blocks of the new image. *)
Lemma link_block_at x : data_block x ->
  d4 x = if decide (10 <= blocks i /\ x = q) then splice (d1 q) ((blocks i - 10) * 4) (le32 p)
         else if x =? p then data else d1 x.
Proof.
  intros Hx. unfold d4, link_disk. destruct (Z.ltb_spec (blocks i) 10).
  - rewrite decide_False by lia. unfold d3. destruct (Z.eqb_spec x p) as [->|]; [apply upd_eq|]. rewrite upd_ne by done.
    by apply take_block_data.
  - destruct (pr_indirect _ _ _ _ _ Hpre) as (-> & _); [lia|]. destruct link_indirect as [Hqp Hq]; [lia|].
    assert (d3 q = d1 q) as -> by (unfold d3; rewrite upd_ne by done; by apply take_block_data).
    destruct (decide (x = q)) as [->|]; [rewrite decide_True by done; apply upd_eq|]. rewrite decide_False by tauto.
    rewrite upd_ne by done. unfold d3. destruct (Z.eqb_spec x p) as [->|]; [apply upd_eq|]. rewrite upd_ne by done. by apply take_block_data.
Qed.

Lemma link_used x : data_block x -> block_used d4 x = if x =? p then true else block_used d1 x.
Proof.
  intros Hx. assert (block_used d3 x = if x =? p then true else block_used d1 x) as H3.
  { unfold d3. rewrite (upd_data_used start count b volume_range geo) by done. by apply take_block_used. }
  unfold d4, link_disk. destruct (Z.ltb_spec (blocks i) 10); [done|].
  destruct (pr_indirect _ _ _ _ _ Hpre) as (-> & ? & _); [lia|]. by rewrite (upd_data_used start count b volume_range geo).
Qed.

Lemma link_inodes m : 0 <= m -> inode_at d4 m = inode_at d m.
Proof.
  intros Hm. assert (inode_at d3 m = inode_at d m) as H3.
  { unfold d3. rewrite (upd_data_inode start count b volume_range geo), take_block_inode by done. by apply Hpre. }
  unfold d4, link_disk. destruct (Z.ltb_spec (blocks i) 10); [done|].
  destruct (pr_indirect _ _ _ _ _ Hpre) as (-> & ? & _); [lia|]. by rewrite (upd_data_inode start count b volume_range geo).
Qed.

(** The finished image: the inode written as well. *)
Let d5 : disk := put_record b d4 n (encode_inode i').

Lemma link_number : 0 <= n < total_inodes b.
Proof.
  assert (inode_at d1 n = Ok i) as H1 by (rewrite (pr_inodes _ _ _ _ _ Hpre) by done; done).
  destruct (inode_at_ok start count b volume_range geo n d1 i Hd Hn H1) as (_ & _ & ? & _). done.
Qed.

Lemma link_blk k : 0 <= k < count -> blk (d4 k).
Proof.
  intros Hk'. assert (blk (d3 k)) as H3.
  { unfold d3. destruct (decide (k = p)) as [->|]; [by rewrite upd_eq|]. rewrite upd_ne by done. unfold take_block.
    rewrite upd_ne by done. by apply blk_set_bit, Hd. }
  unfold d4, link_disk. destruct (Z.ltb_spec (blocks i) 10); [done|]. destruct (decide (k = indirect i1)) as [->|]; [|by rewrite upd_ne].
  rewrite upd_eq. apply blk_splice; [done|apply bytes_le32|lia|]. change (zlength (le32 p)) with 4. lia.
Qed.

Lemma link_pointer k : 0 <= k <= blocks i -> pointer_at d5 i' k = if k =? blocks i then p else pointer_at d i k.
Proof.
  intros Hk'. destruct link_same_fields as (_ & _ & Hdt & Hin & _). unfold pointer_at.
  destruct (Z.ltb_spec k 10) as [Hk10|Hk10]; [apply Hdt; lia|].
  destruct (pr_indirect _ _ _ _ _ Hpre) as (Hq1 & Hq & _ & _ & Hqi); [lia|].
  assert (indirect i' = q) as ->.
  { rewrite Hin. destruct (Z.eqb_spec (blocks i) 10); [done|]. symmetry. apply Hqi. lia. }
  unfold d5. rewrite (put_record_data start count b volume_range geo) by (done || apply link_number).
  rewrite link_block_at, decide_True by (done || lia). pose proof (meta_below_data start count b volume_range geo q Hq).
  destruct (Hd q) as [Hql Hqb]; [lia|]. pose proof (meta_below_data start count b volume_range geo p Hp).
  destruct (Z.eqb_spec k (blocks i)) as [->|Hne].
  - rewrite read_le32_splice by (done || lia || apply bytes_le32 || (change (zlength (le32 p)) with 4; lia)).
    rewrite Z.sub_diag. apply read_le32_le32. lia.
  - rewrite read_le32_splice_other by (lia || (change (zlength (le32 p)) with 4; lia)).
    assert (q = indirect i) as <- by (apply Hqi; lia). rewrite (pr_data _ _ _ _ _ Hpre) by (done || lia). done.
Qed.

Lemma link_appended : appended b d n i src p q d5 i'.
Proof.
  destruct link_same_fields as (Hm & Hlc & _ & Hin & Hs). destruct link_inode_ok as [Hok' Hsh'].
  assert (forall m, 0 <= m -> inode_at d5 m = if m =? n then Ok i' else inode_at d m) as Hput.
  { intros m Hm'. unfold d5. rewrite (inode_at_rewrite start count b d4 n i) by (done || apply link_blk || by rewrite link_inodes).
    by rewrite link_inodes. }
  assert (block_used d p = false) as Hpu.
  { destruct (block_used d p) eqn:E1; [|done]. rewrite (proj2 (pr_used _ _ _ _ _ Hpre p Hp)) in Hfree; [done|by left]. }
  split.
  - done.
  - done.
  - done.
  - intros H10. destruct (link_indirect H10) as [Hqp Hq]. destruct (pr_indirect _ _ _ _ _ Hpre H10) as (_ & _ & _ & Hq1 & Hq2).
    split; [|done]. rewrite Hin. destruct (Z.eqb_spec (blocks i) 10); [done|]. symmetry. apply Hq2. lia.
  - intros k Hk'. rewrite link_pointer by lia. by destruct (Z.eqb_spec k (blocks i)); [lia|].
  - rewrite link_pointer by lia. by rewrite Z.eqb_refl.
  - intros x Hx Hxp Hxq. unfold d5. rewrite (put_record_data start count b volume_range geo) by (done || apply link_number).
    rewrite link_block_at, decide_False by done. destruct (Z.eqb_spec x p); [done|]. apply (pr_data _ _ _ _ _ Hpre); [done|].
    intros [? ->]. apply Hxq. split; [lia|done].
  - intros o Ho. unfold d5. rewrite (put_record_data start count b volume_range geo) by (done || apply link_number).
    rewrite link_block_at by done. rewrite decide_False, Z.eqb_refl; [by apply Hsrc|]. intros [H10 Hpq]. destruct (link_indirect H10). congruence.
  - intros x Hx. unfold d5. rewrite (put_record_used start count b volume_range geo) by (done || apply link_number).
    rewrite link_used by done. destruct (Z.eqb_spec x p) as [->|Hne]; [naive_solver|]. rewrite (pr_used _ _ _ _ _ Hpre) by done.
    split; [intros [?|[? ?]]; [by left|right; right; split; [lia|done]]|]. intros [?|[?|[H10 ->]]]; [by left|done|].
    apply (pr_used _ _ _ _ _ Hpre); [done|]. by apply (pr_indirect _ _ _ _ _ Hpre).
  - by rewrite Hput, Z.eqb_refl.
  - intros m Hm' Hne. rewrite Hput by done. by destruct (Z.eqb_spec m n).
Qed.

End link.

(** ** Running an append *)

Lemma prepare_disk d i s :
  on_disk s d -> inode_ok i -> inode_pointer_shape_valid i = true -> file_ok b d i ->
  wp (if (MINIFS_DIRECT_COUNT <=? blocks i) && (indirect i =? 0) then allocate_block start count else ret (Ok 0)) s
    (fun r s' => exists d1, on_disk s' d1 /\ frame s s' /\
      match r with
      | Ok v => exists q, prepared d i q d1 (if negb (v =? 0) then set_indirect v i else i) /\
          (if blocks i =? 10 then v = q /\ v <> 0 /\ d1 = take_block b d q else v = 0 /\ d1 = d)
      | Err st => st = - ENOSPC /\ d1 = d /\ nearly_full d
      end).
Proof.
  intros Hs Hok Hsh Hf. apply shape_spec in Hsh as (_ & S2 & S3); [|apply inode_size, Hok]. unfold MINIFS_DIRECT_COUNT.
  destruct (decide (blocks i = 10)) as [E10|N10].
  - rewrite E10, S3 by lia. cbn [Z.leb Z.compare Z.eqb Pos.compare Pos.compare_cont andb].
    eapply wp_mono; [by apply (allocate_block_disk start count b volume_range geo d)|]. cbv beta.
    intros r s1 (d1 & [(q & -> & Hq & Hu & _ & ->)|(-> & Hall & ->)] & Hs1 & F1).
    2:{ exists d. split; [done|]. split; [done|]. split; [done|]. split; [done|]. exists 0. intros x Hx Hux. by rewrite (Hall x Hx) in Hux. }
    pose proof (meta_below_data start count b volume_range geo q Hq) as Hqr. pose proof (od_blk _ _ _ s d Hs) as Hd.
    exists (take_block b d q). split; [done|]. split; [done|]. exists q. rewrite (proj2 (Z.eqb_neq q 0)) by lia. cbn [negb].
    split; [|cbn; split; [done|]; split; [lia|done]]. split.
    + by rewrite E10.
    + intros _. split; [done|]. split; [done|]. split; [rewrite take_block_used by done; by rewrite Z.eqb_refl|]. split; [done|lia].
    + intros x Hx Hne. apply take_block_data; [done|done|]. tauto.
    + intros x Hx. rewrite take_block_used by done. destruct (Z.eqb_spec x q); naive_solver.
    + intros m Hm. by apply take_block_inode.
  - assert ((10 <=? blocks i) && (indirect i =? 0) = false) as ->.
    { destruct (Z.leb_spec 10 (blocks i)); [|done]. apply Z.eqb_neq, S2. lia. }
    run. exists d. split; [done|]. split; [apply frame_refl, Hs|]. exists (indirect i). rewrite (proj2 (Z.eqb_neq (blocks i) 10)) by done.
    split; [|done]. split.
    + by rewrite (proj2 (Z.eqb_neq (blocks i) 10)) by done.
    + intros H10. destruct (fo_used _ _ _ Hf (indirect i)) as [? ?]; [right; split; [lia|done]|]. do 3 (split; [done|]). split; [done|by intros].
    + done.
    + naive_solver.
    + done.
Qed.

Lemma link_block_disk d i k p s :
  on_disk s d -> 0 <= k < 1034 -> (10 <= k -> data_block (indirect i)) ->
  wp (link_block start count i k p) s (leaves s (link_disk d i k p) (Some (link_inode i k p))).
Proof.
  intros Hs Hk Hq. unfold link_block, link_disk, link_inode, MINIFS_DIRECT_COUNT, MINIFS_INDIRECT_COUNT.
  destruct (Z.ltb_spec k 10). { run. split; [done|]. split; [done|]. apply frame_refl, Hs. }
  cbv zeta. rewrite (proj2 (Z.leb_gt 1024 _)) by lia. assert (0 <= indirect i < count) as Hr by (apply (data_block_range start count b); auto).
  run. eapply wp_mono; [by apply (read_auxiliary_disk start count b volume_range geo _ d)|]. cbv beta.
  intros r s1 ((-> & Hs1 & F1) & Ea). rewrite Z.eqb_refl. run. unfold write_auxiliary. run. rewrite Ea.
  destruct (od_blk _ _ _ s d Hs _ Hr) as [Hl Hb]. change (zlength (le32 p)) with 4.
  rewrite (proj2 (Z.leb_le 0 _)), (proj2 (Z.leb_le _ (zlength _))) by lia. run.
  set (l := splice _ _ _). assert (blk l) as Hlb.
  { apply blk_splice; [by split|apply bytes_le32|lia|change (zlength (le32 p)) with 4; lia]. }
  destruct (set_auxiliary_disk start count b l s1 d) as [Hs2 F2]; [done..|].
  unfold write_auxiliary_block. run. eapply wp_mono; [by apply (write_disk start count b volume_range geo (indirect i) l d)|].
  cbv beta. intros r s3 ((-> & Hs3 & F3) & _). rewrite Z.eqb_refl. run. split; [done|]. split; [done|].
  eapply frame_trans; [done|]. by eapply frame_trans.
Qed.

(** The two ways a chunk ends on a device that does not fail. *)
Definition chunk_result d n i offset src (r : Z * inode) d' : Prop :=
  (exists i', r = (0, i') /\ chunk_done d n i offset src d' i') \/
  (r = (- ENOSPC, i) /\ unchanged d d' /\ nearly_full d').

Lemma data_of_chunk offset src : chunk_ok offset src -> offset mod 4096 = 0 ->
  blk (splice (replicate 4096 0) (offset mod 4096) src) /\
  forall o, 0 <= o < zlength src -> byte_at (splice (replicate 4096 0) (offset mod 4096) src) o = byte_at src o.
Proof.
  intros (_ & Hb & Hl) Hm. rewrite Hm in Hl |- *. assert (zlength (replicate 4096 0) = 4096) as Hz by (unfold zlength; by rewrite length_replicate).
  split; [apply blk_splice; [apply blk_zero|done|lia|lia]|]. intros o Ho. rewrite byte_at_splice by lia.
  rewrite (proj2 (Z.leb_le 0 o)), (proj2 (Z.ltb_lt o _)) by lia. cbn [andb]. by rewrite Z.sub_0_r.
Qed.

Lemma append_disk d n i offset src s :
  on_disk s d -> writable d n i offset src -> offset / 4096 = blocks i ->
  wp (append_chunk start count n i offset src) s (fun r s' => exists d',
    chunk_result d n i offset src r d' /\ on_disk s' d' /\ frame s s').
Proof.
  intros Hs [Hc Hn Hi Hck Hpos Ho Hlim Hdir] Hk. pose proof (od_blk _ _ _ s d Hs) as Hd.
  destruct (inode_at_ok start count b volume_range geo n d i Hd Hn Hi) as (Hok & Hsh & Hlt & Hu).
  pose proof (con_file _ _ Hc n i Hn Hi) as Hf. pose proof (inode_size i Hok) as Hsz.
  unfold MINIFS_MAX_FILE_SIZE, MINIFS_MAX_FILE_BLOCKS, MINIFS_BLOCK_SIZE in Hlim, Hsz.
  assert (offset = size i /\ size i = blocks i * 4096 /\ offset mod 4096 = 0 /\ 0 <= blocks i < 1034) as (-> & Hsz4 & Hmod & Hbk).
  { destruct (blocks_spec i (proj1 Hsz)) as [[? ?]|[? ?]]; word_lia. }
  assert (0 < zlength src <= 4096) as Hlen by (destruct Hck as (_ & _ & ?); lia).
  destruct (data_of_chunk (size i) src Hck Hmod) as [Hdb Hdsrc].
  unfold append_chunk. change MINIFS_BLOCK_SIZE with 4096 at 1 3 4 5 6. rewrite Hk. rewrite u32_id by lia. apply wp_bind.
  eapply wp_mono; [by apply (prepare_disk d)|]. cbv beta. intros r1 s1 (d1 & Hs1 & F1 & Hr1). destruct r1 as [st|v].
  { destruct Hr1 as (-> & -> & Hfull). run. exists d. split; [|done]. right. split; [done|]. split; [apply unchanged_refl|done]. }
  destruct Hr1 as (q & Hpre & Hv). set (i1 := if negb (v =? 0) then set_indirect v i else i) in *.
  apply wp_bind. eapply wp_mono; [by apply (allocate_block_disk start count b volume_range geo d1)|]. cbv beta.
  intros r2 s2 (d2 & [(p & -> & Hp & Hfree & _ & ->)|(-> & Hall & ->)] & Hs2 & F2); cbv beta iota.
  2:{ apply wp_bind. destruct (Z.eqb_spec (blocks i) 10) as [E10|].
      - destruct Hv as (-> & Hv0 & ->). rewrite (proj2 (Z.eqb_neq q 0)) by done. cbn [negb]. run.
        destruct (pr_indirect _ _ _ _ _ Hpre) as (_ & Hq & _ & Hqu & _); [lia|].
        eapply wp_mono; [by apply (free_block_disk start count b volume_range geo q (take_block b d q))|]. cbv beta.
        intros r3 s3 (-> & Hs3 & F3). run. eexists. split; [|split; [done|eapply frame_trans; [done|]; by eapply frame_trans]].
        right. split; [done|]. split; [apply take_free_unchanged; auto|]. exists q. intros x Hx Hux.
        rewrite (set_bit_used start count b volume_range geo) in Hux by (done || by apply (od_blk _ _ _ s2 _ Hs2)).
        destruct (Z.eqb_spec x q); [done|]. by rewrite (Hall x Hx) in Hux.
      - destruct Hv as [-> ->]. cbn [negb Z.eqb]. run. exists d. split; [|split; [done|by eapply frame_trans]]. right.
        split; [done|]. split; [apply unchanged_refl|]. exists 0. intros x Hx Hux. by rewrite (Hall x Hx) in Hux. }
  run. destruct (set_io_disk start count b (replicate 4096 0) s2 _ Hs2 blk_zero) as [Hs3 F3].
  eapply wp_mono; [by apply (write_io_chunk (replicate 4096 0) _ _ _ (take_block b d1 p))|]. cbv beta.
  intros _ s4 (Hs4 & F4 & Eio & _). run.
  eapply wp_mono; [apply (write_io_disk start count b volume_range geo p (take_block b d1 p)); [done|by apply (data_block_range start count b)]|].
  cbv beta. rewrite Eio. set (data := splice (replicate 4096 0) _ src) in *. set (d3 := upd _ p data).
  intros r5 s5 ((-> & Hs5 & F5) & _). rewrite Z.eqb_refl. run.
  eapply wp_mono; [apply (link_block_disk d3 i1 (blocks i) p); [done|lia|]|].
  { intros H10. destruct (pr_indirect _ _ _ _ _ Hpre H10) as (-> & ? & _). done. }
  cbv beta. intros r6 s6 (-> & Hs6 & F6). run.
  destruct (link_inode_ok d d1 i i1 src p q Hok Hsh Hsz4 Hbk Hlen Hdir Hpre Hp Hfree) as [_ Hsh'].
  eapply wp_mono; [by apply (write_inode_disk start count b volume_range geo n _ (link_disk d3 i1 (blocks i) p))|]. cbv beta.
  intros r7 s7 (-> & Hs7 & F7). rewrite Z.eqb_refl. run. eexists. split; [|split; [done|]].
  - left. eexists. split; [done|]. eapply (append_done start count b volume_range); [done|done|done|lia|done|].
    eapply (link_appended d d1 n i i1 src data p q); try done. by apply (od_blk _ _ _ s1 d1 Hs1).
  - repeat (eapply frame_trans; [eassumption|]). apply frame_refl, Hs7.
Qed.

Lemma write_chunk_disk d n i offset src s :
  on_disk s d -> writable d n i offset src ->
  wp (write_chunk_locked start count n i offset src) s (fun r s' => exists d',
    chunk_result d n i offset src r d' /\ on_disk s' d' /\ frame s s').
Proof.
  intros Hs Hw. pose proof Hw as [_ Hn Hi _ _ Ho _ _].
  unfold write_chunk_locked. change (divide_round_up _ _) with (blocks i). unfold MINIFS_BLOCK_SIZE. cbv zeta.
  destruct (Z.ltb_spec (offset / 4096) (blocks i)) as [Hlt|Hge].
  - eapply wp_mono; [by apply (overwrite_disk d)|]. cbv beta. intros r s' (d' & i' & -> & ? & ? & ?). exists d'. split; [left; eauto|done].
  - assert (offset / 4096 = blocks i) as Hk.
    { destruct (blocks_spec i) as [[? ?]|[? ?]]; [lia|word_lia..]. }
    rewrite (proj2 (Z.eqb_eq _ _) Hk). cbn [negb]. by apply append_disk.
Qed.

(** ** Sequences of chunks *)

Lemma splice_extend (l s1 s2 : list Z) o : 0 <= o <= zlength l ->
  splice (splice l o s1) (o + zlength s1) s2 = splice l o (s1 ++ s2).
Proof.
  unfold splice, zlength. intros Ho. set (A := take (Z.to_nat o) l).
  assert (length A = Z.to_nat o) as HA by (unfold A; rewrite length_take; lia).
  replace (Z.to_nat (o + Z.of_nat (length s1))) with (length (A ++ s1)) by (rewrite length_app; lia).
  rewrite (app_assoc A s1 (drop _ l)), take_app_length, drop_app_ge by lia.
  rewrite drop_drop, <-!app_assoc. do 3 f_equal. rewrite !length_app. f_equal. lia.
Qed.

Lemma splice_nil (l : list Z) o : splice l o [] = l.
Proof. unfold splice. simpl. rewrite Nat.add_0_r. apply take_drop. Qed.

Lemma chunk_done_nil d n i offset : consistent d -> inode_at d n = Ok i -> chunk_done d n i offset [] d i.
Proof. intros. split; try done. by rewrite splice_nil. Qed.

Lemma chunk_done_app d n i offset l1 d1 i1 l2 d2 i2 :
  0 <= size i -> 0 <= offset <= size i -> chunk_done d n i offset l1 d1 i1 -> chunk_done d1 n i1 (offset + zlength l1) l2 d2 i2 ->
  chunk_done d n i offset (l1 ++ l2) d2 i2.
Proof.
  intros H0 Ho [A1 A2 [A3 A3'] A4 A5 A6] [B1 B2 [B3 B3'] B4 B5 B6]. split; [done|done|split; congruence| | |].
  - intros m Hm Hne. by rewrite B4, A4.
  - intros m j Hm Hne Hj. rewrite (B5 m) by (done || by rewrite A4). by eapply A5.
  - rewrite B6, A6. apply splice_extend. rewrite zlength_content; lia.
Qed.

Lemma chunk_done_unchanged d n i offset src d1 i1 d2 :
  0 <= n -> chunk_done d n i offset src d1 i1 -> unchanged d1 d2 -> chunk_done d n i offset src d2 i1.
Proof.
  intros Hn [A1 A2 A3 A4 A5 A6] Hun. destruct (unchanged_consistent d1 d2 A1 Hun) as [Hc Hcont]. pose proof (un_inode _ _ Hun) as Hi.
  split; [done|by rewrite Hi|done| | |].
  - intros m Hm Hne. by rewrite Hi, A4.
  - intros m j Hm Hne Hj. rewrite (Hcont m) by (done || by rewrite A4). by eapply A5.
  - by rewrite (Hcont n).
Qed.

Lemma chunk_done_size d n i offset src d1 i1 :
  0 <= size i -> 0 <= size i1 -> 0 <= offset <= size i -> chunk_done d n i offset src d1 i1 -> offset + zlength src <= size i1.
Proof.
  intros H0 H1 Ho [_ _ _ _ _ Hc]. rewrite <-(zlength_content d1 i1) by done. rewrite Hc.
  assert (length (content d i) = Z.to_nat (size i)) by (unfold content; by rewrite length_map, length_seqZ).
  unfold zlength, splice. rewrite !length_app, length_take. lia.
Qed.

Lemma take_slice (source : list Z) c chunk : 0 <= c -> 0 <= chunk ->
  take (Z.to_nat c) source ++ slice source c chunk = take (Z.to_nat (c + chunk)) source.
Proof. intros. unfold slice. rewrite take_take_drop. f_equal. lia. Qed.

(** ** minifs_write *)

(** What is left after [k] bytes of [source] were written. *)
Definition write_result d n i offset source (r : Z) d' : Prop := exists k i',
  0 <= k <= zlength source /\ chunk_done d n i offset (take (Z.to_nat k) source) d' i' /\
  (r = k /\ (k < zlength source -> 0 < k) \/ r = - ENOSPC /\ k = 0) /\
  (r < zlength source -> nearly_full d').

Lemma write_loop d n i offset source s :
  on_disk s d -> consistent d -> 0 <= n -> inode_at d n = Ok i -> mode i = MINIFS_MODE_REGULAR -> bytes source ->
  0 <= offset <= size i -> offset + zlength source <= MINIFS_MAX_FILE_SIZE ->
  wp (while_ (S (length source)) (write_step start count n offset source) (0, i)) s (fun r s' => exists d',
    write_result d n i offset source r d' /\ on_disk s' d' /\ frame s s').
Proof.
  intros Hs Hc Hn Hi Hm Hb Ho Hlim. pose proof (od_blk _ _ _ s d Hs) as Hd.
  destruct (inode_at_ok start count b volume_range geo n d i Hd Hn Hi) as (Hok & _). pose proof (inode_size i Hok) as Hsz.
  apply (wp_while (fun '(c, ic) s' => exists dc, on_disk s' dc /\ frame s s' /\ 0 <= c <= zlength source /\
      chunk_done d n i offset (take (Z.to_nat c) source) dc ic) (fun '(c, _) _ => Z.to_nat (zlength source - c))).
  - exists d. split; [done|]. split; [apply frame_refl, Hs|]. split; [unfold zlength; lia|]. by apply chunk_done_nil.
  - unfold zlength. lia.
  - intros [c ic] s1 (dc & Hs1 & F1 & Hcr & Hcd). unfold write_step.
    destruct (Z.ltb_spec c (zlength source)) as [Hlt|Hge]; cbn [negb].
    2:{ run. exists dc. split; [|done]. assert (c = zlength source) as -> by lia. exists (zlength source), ic.
        split; [lia|]. split; [done|]. split; [by left; split; [|lia]|lia]. }
    unfold MINIFS_MAX_FILE_SIZE, MINIFS_MAX_FILE_BLOCKS, MINIFS_BLOCK_SIZE in *. cbv zeta. rewrite u32_id by lia.
    pose proof (Z.mod_pos_bound (offset + c) 4096 ltac:(lia)). set (chunk := Z.min _ _).
    pose proof (cd_inode _ _ _ _ _ _ _ _ Hcd) as Hic.
    destruct (inode_at_ok start count b volume_range geo n dc ic (od_blk _ _ _ s1 dc Hs1) Hn Hic) as (Hokc & _).
    pose proof (inode_size ic Hokc) as Hszc.
    assert (zlength (take (Z.to_nat c) source) = c) as Hlc by (unfold zlength in *; rewrite length_take; lia).
    assert (offset + c <= size ic) as Hoc.
    { rewrite <-Hlc. eapply (chunk_done_size d n i); [lia|lia|done|done]. }
    assert (zlength (slice source c chunk) = chunk) as Hls by (apply zlength_slice; lia).
    apply wp_bind. eapply wp_mono; [apply (write_chunk_disk dc); [done|]|].
    { split; try done.
      - apply Hcd.
      - split; [lia|]. split; [by apply bytes_slice|]. rewrite Hls. lia.
      - rewrite Hls. lia.
      - lia.
      - rewrite Hls. unfold MINIFS_MAX_FILE_SIZE, MINIFS_MAX_FILE_BLOCKS, MINIFS_BLOCK_SIZE. lia.
      - intros Hdir. destruct (cd_mode _ _ _ _ _ _ _ _ Hcd) as [Hmc _]. rewrite Hmc, Hm in Hdir. done. }
    cbv beta. intros r s2 (d2 & [(i2 & -> & Hdone)|(-> & Hun & Hfull)] & Hs2 & F2).
    + run. split; [|lia]. exists d2. split; [done|]. split; [by eapply frame_trans|]. split; [lia|]. cbn [snd].
      rewrite <-take_slice by lia. eapply chunk_done_app; [lia|done|done|]. by rewrite Hlc.
    + run. exists d2. split; [|split; [done|by eapply frame_trans]]. exists c, ic. split; [lia|].
      split; [by eapply chunk_done_unchanged|]. split; [|done]. destruct (Z.ltb_spec 0 c); [by left|]. right. split; [done|lia].
Qed.

Lemma write_disk_file n offset source i d s :
  on_disk s d -> mounted s = true -> operation_busy s = false -> consistent d -> 0 <= n ->
  inode_at d n = Ok i -> mode i = MINIFS_MODE_REGULAR -> bytes source ->
  0 <= offset <= size i -> offset + zlength source <= MINIFS_MAX_FILE_SIZE ->
  wp (minifs_write start count n offset source) s (fun r s' => exists d',
    write_result d n i offset source r d' /\ on_disk s' d' /\ frame s s').
Proof.
  intros Hs Hmt Hb Hc Hn Hi Hm Hsb Ho Hlim. unfold minifs_write. run. rewrite Hmt. cbn [negb orb].
  unfold INT32_MAX, MINIFS_MAX_FILE_SIZE, MINIFS_MAX_FILE_BLOCKS, MINIFS_BLOCK_SIZE in *.
  assert (0 <= zlength source) by (unfold zlength; lia).
  rewrite (proj2 (Z.ltb_ge _ (zlength source))), (proj2 (Z.ltb_ge _ offset)), (proj2 (Z.ltb_ge _ (zlength source))) by lia. cbn [orb].
  apply (wp_locked_disk start count b (write_result d n i offset source) _ _ s d); [done..|].
  intros s1 Hs1. apply wp_bind. eapply wp_mono; [apply (query_inode start count b volume_range geo n d); [by apply (od_blk start count b s1)|done|done]|].
  cbv beta. rewrite Hi. intros r s2 (-> & Hs2 & F2). rewrite Hm. cbn [Z.eqb Pos.eqb MINIFS_MODE_REGULAR MINIFS_MODE_DIRECTORY].
  rewrite (proj2 (Z.ltb_ge (size i) offset)) by lia. eapply wp_mono; [by apply (write_loop d n i)|]. cbv beta.
  intros r s3 (d' & Hr & Hs3 & F3). exists d'. split; [done|]. split; [done|]. by eapply frame_trans.
Qed.

(** C2. [minifs_write] is an update of one file. On a consistent volume whose
    device does not fail it writes a prefix of the bytes it is given, all of
    them unless the volume runs out of data blocks: the file then holds its old
    content with that prefix over it, longer than before when the prefix
    reaches past the end; its result is the length of the prefix, or the error
    code when the very first block is missing. Every other file keeps its inode
    and its content, and the volume stays consistent: no block is used twice. *)
Theorem minifs_write_content n offset source i d s :
  on_disk s d -> mounted s = true -> operation_busy s = false -> consistent d -> 0 <= n ->
  inode_at d n = Ok i -> mode i = MINIFS_MODE_REGULAR -> bytes source ->
  0 <= offset <= size i -> offset + zlength source <= MINIFS_MAX_FILE_SIZE ->
  wp (minifs_write start count n offset source) s (fun r s' => exists d' k i',
    on_disk s' d' /\ frame s s' /\ consistent d' /\ inode_at d' n = Ok i' /\ mode i' = MINIFS_MODE_REGULAR /\
    0 <= k <= zlength source /\ content d' i' = splice (content d i) offset (take (Z.to_nat k) source) /\
    (r = k /\ (k < zlength source -> 0 < k) \/ r = - ENOSPC /\ k = 0) /\ (r < zlength source -> nearly_full d') /\
    (forall m j, 0 <= m -> m <> n -> inode_at d m = Ok j -> inode_at d' m = Ok j /\ content d' j = content d j)).
Proof.
  intros Hs Hmt Hb Hc Hn Hi Hm Hsb Ho Hlim. eapply wp_mono; [by apply (write_disk_file n offset source i d)|]. cbv beta.
  intros r s' (d' & (k & i' & Hk & [A1 A2 [A3 _] A4 A5 A6] & Hr & Hf) & Hs' & F').
  exists d', k, i'. do 4 (split; [done|]). split; [congruence|]. do 4 (split; [done|]).
  intros m j Hm' Hne Hj. split; [by rewrite A4|by eapply A5].
Qed.

Lemma slice_splice_written (l src : list Z) o : 0 <= o <= zlength l -> slice (splice l o src) o (zlength src) = src.
Proof.
  unfold zlength, slice, splice. intros Ho. rewrite drop_app_length' by (rewrite length_take; lia).
  by rewrite take_app_length' by lia.
Qed.

(** The bytes a write put into a file are the ones found there. *)
Lemma written_slice n offset source i d s k i1 d1 :
  on_disk s d -> 0 <= n -> inode_at d n = Ok i -> 0 <= offset <= size i -> 0 <= k <= zlength source ->
  chunk_done d n i offset (take (Z.to_nat k) source) d1 i1 ->
  slice (content d1 i1) offset k = take (Z.to_nat k) source /\ zlength (take (Z.to_nat k) source) = k.
Proof.
  intros Hs Hn Hi Ho Hk [A1 A2 A3 A4 A5 A6].
  destruct (inode_at_ok start count b volume_range geo n d i (od_blk _ _ _ s d Hs) Hn Hi) as (Hok & _).
  assert (zlength (take (Z.to_nat k) source) = k) as Hl by (unfold zlength in *; rewrite length_take; lia).
  split; [|done]. rewrite A6. rewrite <-Hl at 2. apply slice_splice_written.
  rewrite zlength_content; [done|apply inode_size, Hok].
Qed.

(** What is written is read back: after [minifs_write] reports [w] bytes,
    [minifs_read] of the same range returns [w] and exactly the first [w] bytes
    of the data written, also when the write extended the file or ran out of
    space half-way. *)
Theorem write_read_roundtrip n offset source i d s :
  on_disk s d -> mounted s = true -> operation_busy s = false -> consistent d -> 0 <= n ->
  inode_at d n = Ok i -> mode i = MINIFS_MODE_REGULAR -> bytes source ->
  0 <= offset <= size i -> offset + zlength source <= MINIFS_MAX_FILE_SIZE ->
  wp (let! w := minifs_write start count n offset source in
      if w <? 0 then ret (w, (0, [])) else
      let! r := minifs_read start count n offset w in ret (w, r)) s (fun '(w, r) s' =>
    frame s s' /\ (w = - ENOSPC /\ r = (0, []) \/
      0 <= w <= zlength source /\ r = (w, take (Z.to_nat w) source))).
Proof.
  intros Hs Hmt Hb Hc Hn Hi Hm Hsb Ho Hlim. apply wp_bind. eapply wp_mono; [by apply (write_disk_file n offset source i d)|].
  cbv beta. intros w s1 (d1 & (k & i1 & Hk & Hdone & Hr & _) & Hs1 & F1).
  destruct Hr as [[-> Hr]|[-> ->]]; [|by run; split; [|left]]. rewrite (proj2 (Z.ltb_ge k 0)) by lia. apply wp_bind.
  destruct (written_slice n offset source i d s k i1 d1) as [Hsl Hl]; [done..|].
  destruct F1 as [F1 F2 F3 F4 F5], Hdone as [A1 A2 [A3 _] _ _ A6].
  eapply wp_mono; [apply (read_disk_file start count b volume_range geo n offset k i1 d1); try done; try congruence; try lia|].
  { by eapply (con_file _ _ A1 n). }
  cbv beta. intros r s2 (-> & Hs2 & F'). run. split; [by eapply frame_trans; [split|]|]. right. split; [lia|].
  by rewrite Hsl, Hl.
Qed.

End writes.

End MiniFsWrite.
