(* ===== verification/MiniFsDemo.v ===== *)
(** * MiniFS on a RAM disk

    A block device kept in memory, with the laws of [BlockDevice], and a freshly
    made volume of 16 blocks on it. The theorems about the file system are
    instantiated here. *)

From S2P Require Import Prelude Monad Interfaces Bytes Cpu Block MiniFs MiniFsSafe MiniFsSpec MiniFsDisk MiniFsFiles MiniFsWrite.

Module MiniFsDemo.
Import MiniFs MiniFsSafe MiniFsSpec MiniFsDisk MiniFsFiles MiniFsWrite.

Record ram := Ram { ram_blocks : gmap Z (list Z) }.

Definition ram_total : Z := 20.
Definition ram_get (e : ram) (n : Z) : list Z := default (replicate 4096 0) (ram_blocks e !! n).
Definition ram_has (n : Z) : bool := (0 <=? n) && (n <? ram_total).

Definition ram_read (n : Z) (buf : list Z) : M ram (Z * list Z) := fun e =>
  if ram_has n then Ret (0, ram_get e n) e else Ret (- EINVAL, buf) e.
Definition ram_write (n : Z) (data : list Z) : M ram Z := fun e =>
  if ram_has n then Ret 0 (Ram (<[n := data]> (ram_blocks e))) else Ret (- EINVAL) e.

Definition ram_inv (e : ram) : Prop := map_Forall (fun _ => blk) (ram_blocks e).

Lemma ram_get_blk e n : ram_inv e -> blk (ram_get e n).
Proof.
  intros He. unfold ram_get. destruct (ram_blocks e !! n) eqn:En; [by apply (He n)|apply blk_zero].
Qed.

Lemma ram_has_true n : 0 <= n -> n < ram_total -> ram_has n = true.
Proof. unfold ram_has, ram_total. intros. lia. Qed.

#[export] Program Instance ram_device : BlockDevice ram := {|
  bd_count := ret ram_total;
  bd_read := ram_read;
  bd_write := ram_write;
  bd_inv := ram_inv;
  bd_healthy := fun _ => True;
  bd_total := fun _ => ram_total;
  bd_block := fun e n l => ram_get e n = l
|}.
Next Obligation. done. Qed.
Next Obligation. intros e n He Hn. exists (ram_get e n). destruct (ram_get_blk e n He). done. Qed.
Next Obligation. intros e n l l' _ H1 H2 _ _. cbn in *. congruence. Qed.
Next Obligation. done. Qed.
Next Obligation.
  intros n buf e He Hn Hl Hb. unfold ram_read, wp. destruct (ram_has n) eqn:Eh.
  - unfold ram_has in Eh. destruct (ram_get_blk e n He). cbn [fst snd]. do 7 (split; [done|]). intros _. split; [lia|done].
  - cbn [fst snd]. split; [done|]. split; [done|].
    split; [split; [done|]; intros; rewrite ram_has_true in Eh; [done|lia|done]|]. by repeat split.
Qed.
Next Obligation.
  intros n data e He Hn Hl Hb. unfold ram_write, wp. destruct (ram_has n) eqn:Eh.
  - unfold ram_has in Eh. split; [by apply map_Forall_insert_2|]. split; [done|]. split; [done|]. split; [done|].
    split.
    + intros k l Hk _ <-. unfold ram_get. cbn. by rewrite lookup_insert_ne.
    + intros _. split; [lia|]. unfold ram_get. cbn. by rewrite lookup_insert_eq.
  - split; [done|]. split; [done|]. split; [split; [done|]; intros; rewrite ram_has_true in Eh; [done|lia|done]|].
    split; [done|]. split; [auto|done].
Qed.

(** ** A fresh volume: blocks 2 to 17 of the device, with an empty root *)

Definition zero_block : list Z := replicate 4096 0.
Definition fields (l : list (Z * Z)) (b : list Z) : list Z :=
  fold_left (fun b x => write_le32 b (fst x) (snd x)) l b.

Definition blank_superblock : list Z :=
  fields [(0, MINIFS_MAGIC); (4, 1); (8, 4096); (12, 16); (16, 64); (20, 1); (24, 1); (28, 2); (32, 1);
    (36, 3); (40, 1); (44, 4); (48, 0)] zero_block.
Definition superblock_crc : Z := Eval vm_compute in superblock_crc32 blank_superblock.
Definition superblock_block : list Z := write_le32 blank_superblock 52 superblock_crc.

Definition root_inode_record : inode := Inode MINIFS_MODE_DIRECTORY 2 128 (4 :: replicate 9 0) 0 0 0.
Definition root_directory : list Z :=
  splice (splice zero_block 0 (encode_directory_entry 0 2 [46])) 64 (encode_directory_entry 0 2 [46; 46]).

Definition volume : gmap Z (list Z) :=
  <[2 := superblock_block]> (<[3 := splice zero_block 0 [31]]> (<[4 := splice zero_block 0 [1]]>
  (<[5 := splice zero_block 0 (encode_inode root_inode_record)]> (<[6 := root_directory]> ∅)))).

Definition boot : fs ram :=
  Fs (Ram volume) (Cpu.State 0x202) (Superblock 0 0 0 0 0 0 0 0 0 0) zero_block zero_block zero_block false false.

Definition blk_check (b : list Z) : bool := (zlength b =? 4096) && forallb (fun x => (0 <=? x) && (x <? 256)) b.

Lemma blk_by_check b : blk_check b = true -> blk b.
Proof.
  unfold blk_check. intros [H1%Z.eqb_eq H2]%andb_true_iff. split; [done|]. apply Forall_forall. intros x Hx.
  rewrite forallb_forall in H2. specialize (H2 x (proj1 (list_elem_of_In _ _) Hx)). lia.
Qed.

Lemma volume_inv : ram_inv (Ram volume).
Proof.
  unfold ram_inv. cbn [ram_blocks]. unfold volume.
  repeat apply map_Forall_insert_2; [apply blk_by_check; vm_compute; reflexivity..|apply map_Forall_empty].
Qed.

Lemma boot_ok : ok boot.
Proof. split; [apply volume_inv|done|apply blk_zero..]. Qed.

Lemma boot_inv : fs_inv 16 boot.
Proof. split; [apply boot_ok|done]. Qed.

(** The checks of the superblock run on the fresh volume. *)
Lemma decode_superblock_exact_witness :
  decode_superblock 16 superblock_block = Some (Superblock 16 64 1 1 2 1 3 1 4 0) /\
  geometry 16 (Superblock 16 64 1 1 2 1 3 1 4 0).
Proof.
  assert (decode_superblock 16 superblock_block = Some (Superblock 16 64 1 1 2 1 3 1 4 0)) as H
    by (vm_compute; reflexivity).
  split; [exact H|]. apply (decode_superblock_exact 16 superblock_block); [lia| |exact H].
  exact (proj2 (blk_by_check superblock_block ltac:(vm_compute; reflexivity))).
Defined.

Lemma inode_roundtrip_witness : decode_inode (encode_inode root_inode_record) = Some root_inode_record.
Proof.
  apply (proj1 inode_roundtrip). apply (decode_inode_ok (encode_inode root_inode_record)).
  - apply encode_inode_ok.
  - apply encode_inode_ok.
  - vm_compute. reflexivity.
Defined.

(** Mounting the volume, making a directory and a file in it, and writing. *)
Definition session : list request :=
  [Mount; Mkdir [47; 98]; Create [47; 98; 47; 99]; Write 2 0 [1; 2; 3]; Read 2 0 10; Readdir 0 128; Unlink [47; 98]].

Lemma session_ok : Forall request_ok session.
Proof. repeat apply Forall_cons_2; cbn; try done; repeat apply Forall_cons_2; try lia; apply Forall_nil_2. Qed.

Lemma minifs_requests_safe_witness :
  exists sts s', serve_all 2 16 session boot = Ret sts s' /\ fs_inv 16 s' /\ cpu s' = Cpu.State 0x202 /\
    sts = [0; 0; 0; 3; 3; 1; - ENOTEMPTY].
Proof.
  assert (match serve_all 2 16 session boot with Ret sts _ => sts = [0; 0; 0; 3; 3; 1; - ENOTEMPTY] | _ => False end) as Hrun
    by (vm_compute; reflexivity).
  pose proof (minifs_requests_safe 2 16 ltac:(lia) ltac:(lia) boot session boot_inv session_ok) as H. unfold wp in H.
  destruct (serve_all 2 16 session boot) as [sts s' | | |]; [|done..]. destruct H as (Hi & Hc & _).
  exists sts, s'. split; [reflexivity|]. split; [exact Hi|]. split; [exact Hc|exact Hrun].
Defined.

(** ** A volume with one file

    Inode 1 is the file /f of three bytes, in block 5 of the volume. *)

Definition layout16 : superblock := Superblock 16 64 1 1 2 1 3 1 4 0.
Definition root_with_file : inode := Inode MINIFS_MODE_DIRECTORY 2 192 (4 :: replicate 9 0) 0 0 0.
Definition file_inode : inode := Inode MINIFS_MODE_REGULAR 1 3 (5 :: replicate 9 0) 0 0 0.

Definition volume_with_file : gmap Z (list Z) :=
  <[2 := superblock_block]> (<[3 := splice zero_block 0 [63]]> (<[4 := splice zero_block 0 [3]]>
  (<[5 := splice (splice zero_block 0 (encode_inode root_with_file)) 64 (encode_inode file_inode)]>
  (<[6 := splice root_directory 128 (encode_directory_entry 1 1 [102])]> (<[7 := splice zero_block 0 [10; 20; 30]]> ∅))))).

Definition running : fs ram :=
  Fs (Ram volume_with_file) (Cpu.State 0x202) layout16 zero_block zero_block zero_block true false.

Definition image (n : Z) : list Z := ram_get (Ram volume_with_file) (2 + n).

Lemma running_inv : ram_inv (Ram volume_with_file).
Proof.
  unfold ram_inv. cbn [ram_blocks]. unfold volume_with_file.
  repeat apply map_Forall_insert_2; [apply blk_by_check; vm_compute; reflexivity..|apply map_Forall_empty].
Qed.

Lemma layout16_geometry : geometry 16 layout16.
Proof. split; unfold just_holds; cbn; lia. Qed.

Lemma running_on_disk : on_disk 2 16 layout16 running image.
Proof.
  split; [split; [apply running_inv|done|apply blk_zero..]|done|done|done| |done].
  intros n _. apply ram_get_blk, running_inv.
Qed.

(** The inodes of the volume, by evaluation of all 64 records. *)
Definition known_inode (n : Z) : bool :=
  match inode_at layout16 image n with
  | Ok i => (n =? 0) && (size i =? 192) && (direct_at i 0 =? 4) || (n =? 1) && (size i =? 3) && (direct_at i 0 =? 5)
  | Err _ => true
  end.

Lemma inodes_known : forallb known_inode (seqZ 0 64) = true.
Proof. vm_compute. reflexivity. Qed.

Lemma image_inode n i : 0 <= n -> inode_at layout16 image n = Ok i ->
  blocks i = 1 /\ pointer_at image i 0 = 4 + n /\ (n = 0 \/ n = 1).
Proof.
  intros Hn Hi. assert (n < 64) as Hlt.
  { unfold MiniFsDisk.inode_at in Hi. change (total_inodes layout16) with 64 in Hi. destruct (Z.leb_spec 64 n); [done|lia]. }
  pose proof (seqZ_forallb _ _ inodes_known n ltac:(lia)) as Hk. unfold known_inode in Hk. rewrite Hi in Hk.
  unfold blocks, pointer_at. cbn [Z.ltb Z.compare]. apply orb_true_iff in Hk. rewrite !andb_true_iff, !Z.eqb_eq in Hk.
  destruct Hk as [[[-> ->] ->]|[[-> ->] ->]]; (split; [reflexivity|]); (split; [reflexivity|lia]).
Qed.

Lemma image_owned n i p : 0 <= n -> inode_at layout16 image n = Ok i -> owned image i p -> p = 4 + n /\ (n = 0 \/ n = 1).
Proof.
  intros Hn Hi. destruct (image_inode n i Hn Hi) as (Hb & Hp & Hc). intros [(k & Hk & <-)|[Hk ->]]; [|lia].
  assert (k = 0) as -> by lia. done.
Qed.

Lemma image_consistent : consistent layout16 image.
Proof.
  split.
  - intros n i Hn Hi. destruct (image_inode n i Hn Hi) as (Hb & Hp & Hc). split.
    + intros p Hpo. destruct (image_owned n i p Hn Hi Hpo) as [-> _].
      destruct Hc as [-> | ->]; (split; [unfold data_block; cbn; lia|vm_compute; reflexivity]).
    + intros k1 k2. rewrite Hb. lia.
    + lia.
  - intros n1 n2 i1 i2 p H1 H2 E1 E2 O1 O2. apply (image_owned n1) in O1; [|done..]. apply (image_owned n2) in O2; [|done..]. lia.
Qed.

Lemma running_file : inode_at layout16 image 1 = Ok file_inode.
Proof. vm_compute. reflexivity. Qed.

Lemma running_content : content image file_inode = [10; 20; 30].
Proof. vm_compute. reflexivity. Qed.

Lemma volume16_range : 0 <= 2 /\ 0 <= 16 /\ 2 + 16 < 4294967296.
Proof. lia. Qed.

Lemma minifs_read_content_witness :
  wp (minifs_read 2 16 1 1 10) running (fun r _ => r = (2, [20; 30])).
Proof.
  eapply wp_mono.
  - apply (minifs_read_content 2 16 layout16 volume16_range layout16_geometry 1 1 10 file_inode image running);
      [exact running_on_disk|reflexivity|reflexivity|lia|exact running_file|reflexivity| |lia|lia].
    exact (con_file layout16 image image_consistent 1 file_inode ltac:(lia) running_file).
  - cbv beta. intros r s' (-> & _). rewrite running_content. reflexivity.
Defined.

Lemma minifs_write_content_witness :
  wp (minifs_write 2 16 1 2 [7; 8; 9]) running (fun r _ => r = 3) /\
  wp (minifs_write 2 16 1 2 [7; 8; 9]) running (fun r s' => exists d' k i', on_disk 2 16 layout16 s' d' /\
    inode_at layout16 d' 1 = Ok i' /\ content d' i' = splice [10; 20; 30] 2 (take (Z.to_nat k) [7; 8; 9])).
Proof.
  split; [vm_compute; reflexivity|]. eapply wp_mono.
  - apply (minifs_write_content 2 16 layout16 volume16_range layout16_geometry 1 2 [7; 8; 9] file_inode image running);
      [exact running_on_disk|reflexivity|reflexivity|exact image_consistent|lia|exact running_file|reflexivity| |cbn; lia|].
    + repeat apply Forall_cons_2; try lia. apply Forall_nil_2.
    + vm_compute. intros H. discriminate H.
  - cbv beta. intros r s' (d' & k & i' & H1 & _ & _ & H2 & _ & _ & H3 & _). exists d', k, i'.
    rewrite running_content in H3. split; [exact H1|split; [exact H2|exact H3]].
Defined.

Lemma write_read_roundtrip_witness :
  wp (let! w := minifs_write 2 16 1 2 [7; 8; 9] in
      if w <? 0 then ret (w, (0, [])) else
      let! r := minifs_read 2 16 1 2 w in ret (w, r)) running (fun '(w, r) s' => frame running s' /\
    (w = - ENOSPC /\ r = (0, []) \/ 0 <= w <= 3 /\ r = (w, take (Z.to_nat w) [7; 8; 9]))).
Proof.
  apply (write_read_roundtrip 2 16 layout16 volume16_range layout16_geometry 1 2 [7; 8; 9] file_inode image running);
    [exact running_on_disk|reflexivity|reflexivity|exact image_consistent|lia|exact running_file|reflexivity| |cbn; lia|].
  - repeat apply Forall_cons_2; try lia. apply Forall_nil_2.
  - vm_compute. intros H. discriminate H.
Defined.

Lemma allocate_block_exact_witness :
  wp (allocate_block 2 16) running (fun r s' => exists d', on_disk 2 16 layout16 s' d' /\ r = Ok 6).
Proof.
  assert (match allocate_block 2 16 running with Ret r _ => r = Ok 6 | _ => False end) as Hrun by (vm_compute; reflexivity).
  pose proof (allocate_block_exact 2 16 layout16 volume16_range layout16_geometry image running running_on_disk) as H.
  unfold wp in *. destruct (allocate_block 2 16 running) as [r s' | | |]; [|done..]. destruct H as (d' & H & _).
  exists d'. split; [exact H|exact Hrun].
Defined.

End MiniFsDemo.
