(* ===== verification/Path.v ===== *)
(** * Path names of system calls, kernel/core/syscall.c

    [normalize_path] turns a path relative to the working directory into an
    absolute one without empty, [.] and [..] components, in a buffer of 256
    bytes. C strings are the lists of their bytes without the terminator: the
    byte at the end of the list reads as 0.

    [resolve_path] is the reference: it works on lists of components and never
    touches a buffer. [normalize_path_exact] equates the two for every input,
    the errors included; [normalize_path_idempotent] says the result is a
    normal form. *)

From S2P Require Import Prelude Monad Bytes.

Module Path.

Definition SYSCALL_PATH_MAX : Z := 256.
Definition EIO : Z := 5.
Definition EINVAL : Z := 22.
Definition slash : Z := 47.
Definition dot : Z := 46.

(** The caller's [char path[SYSCALL_PATH_MAX]] and [path_length]. *)
Record buffer := Buffer { path : list Z; path_length : Z }.

Definition put (index value : Z) : M buffer unit :=
  let! p := gets path in
  if (0 <=? index) && (index <? zlength p)
  then modify (fun b => Buffer (<[Z.to_nat index := value]> p) (path_length b)) else fault.
Definition get (index : Z) : M buffer Z :=
  let! p := gets path in access (if 0 <=? index then p !! Z.to_nat index else None).
Definition set_length (n : Z) : M buffer unit := modify (fun b => Buffer (path b) n).

(** [while ( *length > 1U && path[*length - 1U] != '/') --*length]. *)
Definition remove_step (_ : unit) : M buffer (unit + unit) :=
  let! n := gets path_length in
  let! more := andM (ret (1 <? n)) (let! c := get (n - 1) in ret (negb (c =? slash))) in
  if more : bool then set_length (n - 1) ;; ret (inl tt) else ret (inr tt).

Definition remove_last_path_component : M buffer unit :=
  while_ 256 remove_step tt ;;
  let! n := gets path_length in
  (if 1 <? n then set_length (n - 1) else ret tt) ;;
  let! n' := gets path_length in
  put n' 0.

Fixpoint skip_slashes (n : nat) (source : list Z) (cursor : Z) : Z :=
  match n with
  | O => cursor
  | S n' => if byte_at source cursor =? slash then skip_slashes n' source (cursor + 1) else cursor
  end.

Fixpoint skip_component (n : nat) (source : list Z) (cursor : Z) : Z :=
  match n with
  | O => cursor
  | S n' =>
      if negb (byte_at source cursor =? 0) && negb (byte_at source cursor =? slash)
      then skip_component n' source (cursor + 1) else cursor
  end.

(** The end of the loop body: the component goes behind a separator. *)
Definition append_component (source : list Z) (component_start component_length : Z) : M buffer Z :=
  let! n := gets path_length in
  let separator := if 1 <? n then 1 else 0 in
  if (SYSCALL_PATH_MAX <=? component_length) || (SYSCALL_PATH_MAX - n <=? separator + component_length)
  then ret (- EINVAL) else
  (if negb (separator =? 0) then put n slash ;; set_length (n + 1) else ret tt) ;;
  let! n' := gets path_length in
  for_range (Z.to_nat component_length) 0 (fun index =>
    put (n' + index) (byte_at source (component_start + index))) ;;
  set_length (n' + component_length) ;;
  put (n' + component_length) 0 ;;
  ret 0.

(** One round of the loop over [source]; it returns from the function with an
    error or goes on behind the component. *)
Definition append_step (source : list Z) (cursor : Z) : M buffer (Z + Z) :=
  if byte_at source cursor =? 0 then ret (inr 0) else
  let component_start := skip_slashes (length source) source cursor in
  if byte_at source component_start =? 0 then ret (inr 0) else
  let cursor' := skip_component (length source) source component_start in
  let component_length := cursor' - component_start in
  if (component_length =? 1) && (byte_at source component_start =? dot) then ret (inl cursor') else
  if (component_length =? 2) && (byte_at source component_start =? dot) && (byte_at source (component_start + 1) =? dot)
  then remove_last_path_component ;; ret (inl cursor') else
  let! r := append_component source component_start component_length in
  if r <? 0 then ret (inr r) else ret (inl cursor').

Definition append_path_components (source : list Z) : M buffer Z :=
  while_ (S (length source)) (append_step source) 0.

(** [cwd] is what [scheduler_get_current_working_directory] delivers: the
    directory, or [None] when the call fails. *)
Definition normalize_path (cwd : option (list Z)) (input : list Z) : M buffer Z :=
  let input_length := zlength input in
  set_length 1 ;;
  put 0 slash ;;
  put 1 0 ;;
  let! r := (if negb (byte_at input 0 =? slash) then
               match cwd with
               | None => ret (- EIO)
               | Some directory => append_path_components directory
               end
             else ret 0) in
  if r <? 0 then ret r else
  let! r2 := append_path_components input in
  if r2 <? 0 then ret r2 else
  let! n := gets path_length in
  if (1 <? input_length) && (byte_at input (input_length - 1) =? slash) && (1 <? n) then
    (if SYSCALL_PATH_MAX <=? n + 1 then ret (- EINVAL)
     else put n slash ;; put (n + 1) 0 ;; ret 0)
  else ret 0.

(** The C string in the buffer. *)
Fixpoint c_string (l : list Z) : list Z :=
  match l with [] => [] | c :: l' => if c =? 0 then [] else c :: c_string l' end.

Definition run_normalize (cwd : option (list Z)) (input : list Z) (b : buffer) : option (Z * list Z) :=
  match normalize_path cwd input b with Ret r b' => Some (r, c_string (path b')) | _ => None end.

(** ** The reference: lists of components *)

(** The text between slashes, and the components: its non-empty pieces. *)
Fixpoint segments (l : list Z) : list (list Z) :=
  match l with
  | [] => [[]]
  | c :: l' =>
      if c =? slash then [] :: segments l'
      else match segments l' with [] => [[c]] | s :: r => (c :: s) :: r end
  end.
Definition components (l : list Z) : list (list Z) := filter (fun c => c <> []) (segments l).

Definition joined (cs : list (list Z)) : list Z := flat_map (fun c => slash :: c) cs.
Definition render (cs : list (list Z)) : list Z := match cs with [] => [slash] | _ => joined cs end.

(** One component applied to a directory; [None] when the path is too long. *)
Definition resolve (cs : list (list Z)) (c : list Z) : option (list (list Z)) :=
  if decide (c = [dot]) then Some cs
  else if decide (c = [dot; dot]) then Some (removelast cs)
  else if zlength (render (cs ++ [c])) <? SYSCALL_PATH_MAX then Some (cs ++ [c]) else None.

Fixpoint resolve_all (cs : list (list Z)) (l : list (list Z)) : option (list (list Z)) :=
  match l with
  | [] => Some cs
  | c :: l' => match resolve cs c with Some cs' => resolve_all cs' l' | None => None end
  end.

(** A slash at the end of the input is kept behind the last component. *)
Definition finish (input : list Z) (cs : list (list Z)) : Z + list Z :=
  if bool_decide (1 < length input)%nat && bool_decide (last input = Some slash) && bool_decide (cs <> []) then
    (if zlength (render cs) + 1 <? SYSCALL_PATH_MAX then inr (render cs ++ [slash]) else inl EINVAL)
  else inr (render cs).

Definition resolve_path (cwd : option (list Z)) (input : list Z) : Z + list Z :=
  let base := if decide (head input = Some slash) then inr []
              else match cwd with
                   | None => inl EIO
                   | Some d => match resolve_all [] (components d) with Some cs => inr cs | None => inl EINVAL end
                   end in
  match base with
  | inl e => inl e
  | inr cs => match resolve_all cs (components input) with Some cs' => finish input cs' | None => inl EINVAL end
  end.

Definition c_str (l : list Z) : Prop := Forall (fun c => c <> 0) l.

(** ** Components of a string *)

Lemma segments_nil l : segments l <> [].
Proof. destruct l as [|c l]; simpl; [done|]. destruct (c =? slash); [done|]. by destruct (segments l). Qed.

Lemma segments_app c l :
  Forall (fun x => x <> slash) c -> segments (c ++ slash :: l) = c :: segments l.
Proof.
  induction 1 as [|x c Hx Hc IH]; simpl; [done|].
  rewrite (proj2 (Z.eqb_neq x slash)) by done. by rewrite IH.
Qed.

Lemma segments_one c : Forall (fun x => x <> slash) c -> segments c = [c].
Proof. induction 1 as [|x c Hx Hc IH]; simpl; [done|]. rewrite (proj2 (Z.eqb_neq x slash)) by done. by rewrite IH. Qed.

Lemma components_slash l : components (slash :: l) = components l.
Proof. unfold components; simpl. by rewrite filter_cons_False by auto. Qed.

(** What follows a component: the end, or a slash. *)
Definition ends (l : list Z) : Prop := l = [] \/ head l = Some slash.

Lemma components_cons c l :
  Forall (fun x => x <> slash) c -> c <> [] -> ends l -> components (c ++ l) = c :: components l.
Proof.
  intros Hc Hne [-> | Hl].
  - rewrite app_nil_r. unfold components. rewrite segments_one by done.
    rewrite filter_cons_True by done. f_equal.
  - destruct l as [|x l]; simplify_eq/=. rewrite components_slash. unfold components.
    rewrite segments_app by done. by rewrite filter_cons_True.
Qed.

Lemma byte_at_drop l c : 0 <= c -> byte_at l c = default 0 (head (drop (Z.to_nat c) l)).
Proof. intros Hc. unfold byte_at. by rewrite head_lookup, lookup_drop, Nat.add_0_r. Qed.

Lemma drop_cursor (l : list Z) cursor x r :
  0 <= cursor -> drop (Z.to_nat cursor) l = x :: r -> drop (Z.to_nat (cursor + 1)) l = r.
Proof.
  intros Hc E. replace (Z.to_nat (cursor + 1)) with (Z.to_nat cursor + 1)%nat by lia.
  by rewrite <-drop_drop, E.
Qed.

Lemma skip_slashes_spec n source cursor :
  0 <= cursor -> (length (drop (Z.to_nat cursor) source) <= n)%nat ->
  let cursor' := skip_slashes n source cursor in
  cursor <= cursor' /\ head (drop (Z.to_nat cursor') source) <> Some slash /\
  components (drop (Z.to_nat cursor) source) = components (drop (Z.to_nat cursor') source).
Proof.
  revert cursor. induction n as [|n IH]; intros cursor Hc Hn; cbn [skip_slashes].
  - split; [lia|]. split; [|done]. by rewrite (nil_length_inv (drop (Z.to_nat cursor) source)) by lia.
  - rewrite byte_at_drop by done. destruct (drop (Z.to_nat cursor) source) as [|x r] eqn:E; simpl.
    { rewrite E. split; [lia|]. done. }
    destruct (Z.eqb_spec x slash) as [->|Hx]; [|rewrite E; simpl; split; [lia|]; split; [congruence|done]].
    pose proof (drop_cursor _ _ _ _ Hc E) as E'. simpl in Hn.
    destruct (IH (cursor + 1)) as (H1 & H2 & H3); [lia|rewrite E'; lia|].
    split; [lia|]. split; [done|]. by rewrite components_slash, <-H3, E'.
Qed.

Lemma skip_component_spec n source cursor :
  0 <= cursor -> (length (drop (Z.to_nat cursor) source) <= n)%nat -> c_str source ->
  exists c, let cursor' := skip_component n source cursor in
  cursor' = cursor + zlength c /\ drop (Z.to_nat cursor) source = c ++ drop (Z.to_nat cursor') source /\
  Forall (fun x => x <> slash) c /\ ends (drop (Z.to_nat cursor') source).
Proof.
  intros Hc Hn Hs. revert cursor Hc Hn. induction n as [|n IH]; intros cursor Hc Hn; cbn [skip_component].
  - exists []. cbv zeta. unfold zlength; cbn [length]. split; [lia|]. split; [done|]. split; [done|]. left. apply nil_length_inv. lia.
  - rewrite byte_at_drop by done. destruct (drop (Z.to_nat cursor) source) as [|x r] eqn:E; simpl.
    { exists []. cbv zeta. unfold zlength; cbn [length]. rewrite E. split; [lia|]. split; [done|]. split; [done|]. by left. }
    assert (x <> 0) as Hx0.
    { apply (Forall_drop _ (Z.to_nat cursor)) in Hs. rewrite E in Hs. by inversion Hs. }
    rewrite (proj2 (Z.eqb_neq x 0)) by done. simpl.
    destruct (Z.eqb_spec x slash) as [->|Hx]; simpl.
    { exists []. cbv zeta. unfold zlength; cbn [length]. rewrite E. split; [lia|]. split; [done|]. split; [done|]. by right. }
    pose proof (drop_cursor _ _ _ _ Hc E) as E'. simpl in Hn.
    destruct (IH (cursor + 1)) as (c & H1 & H2 & H3 & H4); [lia|rewrite E'; lia|].
    exists (x :: c). cbn zeta in *. rewrite H1 in *. unfold zlength in *. simpl.
    split; [lia|]. split; [by rewrite <-H2, E'|]. split; [by constructor|done].
Qed.

(** ** The buffer and the components it holds *)

(** A component of a normal form. *)
Definition normal (c : list Z) : Prop :=
  c <> [] /\ Forall (fun x => x <> slash /\ x <> 0) c /\ c <> [dot] /\ c <> [dot; dot].

Definition holds (b : buffer) (cs : list (list Z)) : Prop :=
  length (path b) = 256%nat /\ path_length b = zlength (render cs) /\ Forall normal cs /\
  exists tail, path b = render cs ++ 0 :: tail.

Lemma put_app (pre : list Z) (x : Z) tail v n :
  wp (put (zlength pre) v) (Buffer (pre ++ x :: tail) n) (fun _ b' => b' = Buffer (pre ++ v :: tail) n).
Proof.
  unfold put. run. cbn [path]. unfold zlength. rewrite length_app. cbn [length].
  rewrite (proj2 (Z.leb_le _ _)), (proj2 (Z.ltb_lt _ _)) by lia. run. cbn. f_equal.
  rewrite Nat2Z.id. rewrite <-(Nat.add_0_r (length pre)). by rewrite insert_app_r.
Qed.

Lemma get_app (pre : list Z) x tail n Q :
  Q x (Buffer (pre ++ x :: tail) n) -> wp (get (zlength pre)) (Buffer (pre ++ x :: tail) n) Q.
Proof.
  intros H. unfold get. run. cbn [path]. rewrite (proj2 (Z.leb_le _ _)) by (unfold zlength; lia).
  eapply wp_access; [|done]. unfold zlength. by rewrite Nat2Z.id, list_lookup_middle.
Qed.

Lemma joined_app cs c : joined (cs ++ [c]) = joined cs ++ slash :: c.
Proof. unfold joined. rewrite flat_map_app. simpl. by rewrite app_nil_r. Qed.

Lemma render_joined cs : cs <> [] -> render cs = joined cs.
Proof. by destruct cs. Qed.

(** Stepping back over a component: the loop ends behind the slash before it. *)
Lemma remove_loop (pre c tail : list Z) :
  Forall (fun x => x <> slash /\ x <> 0) c -> (length (slash :: c) < 256)%nat ->
  let whole := pre ++ slash :: c ++ tail in
  wp (while_ 256 remove_step tt) (Buffer whole (zlength (pre ++ slash :: c)))
     (fun _ b => b = Buffer whole (zlength pre + 1)).
Proof.
  intros Hc Hl whole.
  apply (wp_while (fun _ b => exists k, (k <= length c)%nat /\ b = Buffer whole (zlength pre + 1 + Z.of_nat k))
           (fun _ b => Z.to_nat (path_length b - zlength pre - 1))).
  - exists (length c). split; [lia|]. f_equal. unfold zlength. rewrite length_app. simpl. lia.
  - cbn [path_length]. unfold zlength. rewrite length_app. simpl in *. lia.
  - intros [] b (k & Hk & ->). unfold remove_step. run. cbn [path_length].
    destruct (Z.ltb_spec 1 (zlength pre + 1 + Z.of_nat k)) as [Hlt|Hge]; run.
    + destruct k as [|k].
      * replace (zlength pre + 1 + Z.of_nat 0 - 1) with (zlength pre) by lia. apply get_app. run.
        rewrite Z.eqb_refl. run. f_equal. lia.
      * destruct (lookup_lt_is_Some_2 c k) as [x Hx]; [lia|].
        assert (whole = (pre ++ slash :: take k c) ++ x :: drop (S k) c ++ tail) as Hw.
        { unfold whole. rewrite <-(take_drop_middle c k x Hx) at 1. by rewrite <-?app_assoc; simpl; rewrite <-?app_assoc. }
        replace (zlength pre + 1 + Z.of_nat (S k) - 1) with (zlength (pre ++ slash :: take k c))
          by (unfold zlength; rewrite length_app; cbn [length]; rewrite length_take; lia).
        rewrite Hw. apply get_app. run.
        rewrite (proj2 (Z.eqb_neq x slash)) by (apply (Forall_lookup_1 _ _ _ _ Hc Hx)). run.
        cbn [path path_length]. split.
        -- exists k. split; [lia|]. f_equal. unfold zlength. rewrite length_app. cbn [length]. rewrite length_take. lia.
        -- cbn. unfold zlength. rewrite length_app. cbn [length]. rewrite length_take. lia.
    + assert (k = 0%nat) as -> by (unfold zlength in *; lia). f_equal. lia.
Qed.

Lemma render_length_pos cs : 0 < zlength (render cs).
Proof. destruct cs as [|c cs]; unfold zlength; simpl; lia. Qed.

Lemma remove_last_path_component_ok b cs :
  holds b cs -> wp remove_last_path_component b (fun _ b' => holds b' (removelast cs)).
Proof.
  destruct b as [p n]. intros (Hlen & Hn & Hcs & tail & Hp). cbn [path path_length] in *. subst n.
  destruct cs as [|c0 cs0 _] using rev_ind.
  - subst p. unfold remove_last_path_component. run.
    unfold wp, while_, remove_step, bind, gets, andM; simpl.
    change (wp (put (zlength [slash]) 0) (Buffer ([slash] ++ 0 :: tail) (zlength [slash])) (fun _ s => holds s [])).
    eapply wp_mono; [apply put_app|]. intros [] b ->.
    split; [done|]. split; [done|]. split; [done|]. by exists tail.
  - rewrite removelast_last. rewrite render_joined in * by (by destruct cs0).
    rewrite joined_app in *. apply Forall_app in Hcs as [Hcs Hc]. inversion Hc as [|? ? Hnc]; subst.
    destruct Hnc as (Hne & Hall & _). unfold remove_last_path_component, set_length. run.
    rewrite <-app_assoc, <-app_comm_cons in *.
    eapply wp_mono; [apply remove_loop; [done|]|].
    { rewrite !length_app in Hlen. simpl in *. rewrite length_app in Hlen. simpl in Hlen. lia. }
    intros [] b ->. run. cbn [path path_length].
    destruct (Z.ltb_spec 1 (zlength (joined cs0) + 1)) as [Hlt|Hge]; run; cbn [path path_length].
    + replace (zlength (joined cs0) + 1 - 1) with (zlength (joined cs0)) by lia.
      eapply wp_mono; [apply put_app|]. intros [] b ->.
      assert (cs0 <> []) by (intros ->; unfold zlength in Hlt; simpl in Hlt; lia).
      split; [|split; [|split; [done|]]]; cbn [path path_length].
      * rewrite <-Hlen, !length_app. done.
      * by rewrite render_joined.
      * rewrite render_joined by done. by eexists.
    + destruct cs0 as [|c cs0]; [|unfold zlength in Hge; simpl in Hge; lia].
      destruct c0 as [|x c0]; [done|]. simpl.
      eapply wp_mono; [apply (put_app [slash])|]. intros [] b ->.
      split; [|split; [|split; [done|]]]; cbn [path path_length]; [done|done|]. by eexists.
Qed.

Lemma copy_loop source start (c pre t : list Z) n :
  0 <= start -> (length c <= length t)%nat ->
  (forall i, (i < length c)%nat -> c !! i = Some (byte_at source (start + Z.of_nat i))) ->
  wp (for_range (length c) 0 (fun i => put (zlength pre + i) (byte_at source (start + i))))
     (Buffer (pre ++ t) n) (fun _ b => b = Buffer (pre ++ c ++ drop (length c) t) n).
Proof.
  intros Hs Hl Hc.
  apply (wp_for_range (fun i b => b = Buffer (pre ++ take (Z.to_nat i) c ++ drop (Z.to_nat i) t) n)).
  - by rewrite take_0, drop_0.
  - intros i b Hi ->. destruct (lookup_lt_is_Some_2 t (Z.to_nat i)) as [x Hx]; [lia|].
    rewrite (drop_S _ _ _ Hx). rewrite app_assoc.
    replace (zlength pre + i) with (zlength (pre ++ take (Z.to_nat i) c))
      by (unfold zlength; rewrite length_app, length_take; lia).
    eapply wp_mono; [apply put_app|]. intros [] b ->.
    replace (Z.to_nat (i + 1)) with (S (Z.to_nat i)) by lia.
    rewrite (take_S_r c (Z.to_nat i) (byte_at source (start + i))).
    + by rewrite <-!app_assoc.
    + rewrite Hc by lia. do 2 f_equal. lia.
  - intros b ->. rewrite Z.add_0_l, Nat2Z.id, firstn_all. done.
Qed.

Lemma render_cases cs : Forall normal cs ->
  cs = [] /\ zlength (render cs) = 1 \/ cs <> [] /\ 1 < zlength (render cs).
Proof.
  intros Hcs. destruct Hcs as [|c cs Hc Hcs]; [by left|]. right. split; [done|].
  destruct Hc as [Hne _]. unfold zlength, render, joined. simpl. rewrite length_app.
  destruct c; [done|]. simpl. lia.
Qed.

(** The copy and the terminator, from the position behind the separator. *)
Lemma write_component_ok source start (c pre t : list Z) Q :
  0 <= start -> (length c < length t)%nat ->
  (forall i, (i < length c)%nat -> c !! i = Some (byte_at source (start + Z.of_nat i))) ->
  Q 0 (Buffer ((pre ++ c) ++ 0 :: drop (S (length c)) t) (zlength (pre ++ c))) ->
  wp (let! n' := gets path_length in
      for_range (Z.to_nat (zlength c)) 0 (fun index => put (n' + index) (byte_at source (start + index))) ;;
      set_length (n' + zlength c) ;; put (n' + zlength c) 0 ;; ret 0) (Buffer (pre ++ t) (zlength pre)) Q.
Proof.
  intros Hs Hl Hsrc HQ. run. cbn [path_length]. unfold zlength at 1. rewrite Nat2Z.id.
  eapply wp_mono; [by apply copy_loop; [|lia|]|]. intros [] b ->. unfold set_length. run. cbn [path path_length].
  destruct (lookup_lt_is_Some_2 t (length c)) as [x Hx]; [lia|].
  rewrite (drop_S _ _ _ Hx), app_assoc.
  replace (zlength pre + zlength c) with (zlength (pre ++ c)) by (unfold zlength; rewrite length_app; lia).
  eapply wp_mono; [apply put_app|]. intros [] b ->. by run.
Qed.

Lemma append_component_ok source start b cs c :
  holds b cs -> normal c -> 0 <= start ->
  (forall i, (i < length c)%nat -> c !! i = Some (byte_at source (start + Z.of_nat i))) ->
  wp (append_component source start (zlength c)) b (fun r b' =>
    if zlength (render (cs ++ [c])) <? SYSCALL_PATH_MAX then r = 0 /\ holds b' (cs ++ [c])
    else r = - EINVAL /\ length (path b') = 256%nat).
Proof.
  destruct b as [p n]. intros (Hlen & Hn & Hcs & tail & Hp) Hc Hs Hsrc. cbn [path path_length] in *. subst p n.
  assert (Forall normal (cs ++ [c])) as Hall by (apply Forall_app; auto).
  pose proof Hlen as Hlen'. rewrite length_app in Hlen'. cbn [length] in Hlen'. unfold append_component. run. cbn [path_length].
  destruct (render_cases cs Hcs) as [[-> H1] | [Hne H1]].
  - rewrite H1. change (1 <? 1) with false. run. rewrite Z.add_0_l. change (render ([] ++ [c])) with (slash :: c ++ []).
    rewrite app_nil_r. unfold SYSCALL_PATH_MAX. replace (zlength (slash :: c)) with (1 + zlength c) by (unfold zlength; simpl; lia).
    destruct (Z.leb_spec 256 (zlength c)); [run; rewrite (proj2 (Z.ltb_ge _ _)) by lia; done|].
    destruct (Z.leb_spec (256 - 1) (zlength c)); [run; rewrite (proj2 (Z.ltb_ge _ _)) by lia; done|].
    run. rewrite (proj2 (Z.ltb_lt _ _)) by lia.
    apply (write_component_ok source start c [slash] (0 :: tail)); [done|unfold zlength in *; cbn in *; lia|done|].
    split; [done|]. split; [|split; [|split; [done|]]]; cbn [path path_length].
    + cbn in *. rewrite length_app. cbn. rewrite length_drop. unfold zlength in *. lia.
    + cbn. by rewrite app_nil_r.
    + cbn. rewrite app_nil_r. by eexists.
  - rewrite (proj2 (Z.ltb_lt 1 _)) by done. rewrite (render_joined (cs ++ [c])) by (by destruct cs).
    rewrite joined_app, <-(render_joined cs) by done.
    replace (zlength (render cs ++ slash :: c)) with (zlength (render cs) + 1 + zlength c)
      by (unfold zlength; rewrite length_app; simpl; lia).
    unfold SYSCALL_PATH_MAX. run.
    assert (zlength (render cs) < 256) by (unfold zlength; lia).
    destruct (Z.leb_spec 256 (zlength c)); [run; rewrite (proj2 (Z.ltb_ge _ _)) by lia; done|].
    destruct (Z.leb_spec (256 - zlength (render cs)) (1 + zlength c));
      [run; rewrite (proj2 (Z.ltb_ge _ _)) by lia; done|].
    run. rewrite (proj2 (Z.ltb_lt _ _)) by lia. change (negb (1 =? 0)) with true. cbv iota. run.
    eapply wp_mono; [apply put_app|]. intros [] b ->. unfold set_length at 1. apply wp_modify. cbn [path path_length].
    rewrite (cons_middle slash), app_assoc.
    replace (zlength (render cs) + 1) with (zlength (render cs ++ [slash])) by (unfold zlength; rewrite length_app; simpl; lia).
    apply (write_component_ok source start c (render cs ++ [slash]) tail); [done|unfold zlength in *; lia|done|].
    rewrite <-app_assoc. split; [done|].
    split; [|split; [|split; [done|]]]; cbn [path path_length];
      rewrite ?(render_joined (cs ++ [c])) by (by destruct cs); rewrite ?joined_app, <-?(render_joined cs) by done.
    + rewrite ?length_app; cbn [length app]; rewrite ?length_app; cbn [length app]; rewrite length_drop. unfold zlength in *. lia.
    + by rewrite <-app_assoc.
    + eexists. by rewrite <-?app_assoc; simpl; rewrite <-?app_assoc.
Qed.

(** The two special names, as the code tests them. *)
Lemma is_dot_test (source c : list Z) start :
  (forall i, (i < length c)%nat -> c !! i = Some (byte_at source (start + Z.of_nat i))) ->
  (zlength c =? 1) && (byte_at source start =? dot) = bool_decide (c = [dot]).
Proof.
  intros Hc. destruct c as [|x [|y c]]; [done| |].
  - specialize (Hc 0%nat ltac:(simpl; lia)). rewrite Z.add_0_r in Hc. simpl in Hc. simplify_eq.
    change (zlength [byte_at source start] =? 1) with true. simpl.
    destruct (Z.eqb_spec (byte_at source start) dot) as [->|Hne]; [done|]. rewrite bool_decide_false; congruence.
  - rewrite (proj2 (Z.eqb_neq _ _)) by (unfold zlength; simpl; lia). by rewrite bool_decide_false.
Qed.

Lemma is_dot_dot_test (source c : list Z) start :
  (forall i, (i < length c)%nat -> c !! i = Some (byte_at source (start + Z.of_nat i))) ->
  (zlength c =? 2) && (byte_at source start =? dot) && (byte_at source (start + 1) =? dot) = bool_decide (c = [dot; dot]).
Proof.
  intros Hc. destruct c as [|x [|y [|z c]]]; [done|by rewrite bool_decide_false| |].
  - pose proof (Hc 0%nat ltac:(simpl; lia)) as H0. specialize (Hc 1%nat ltac:(simpl; lia)).
    rewrite Z.add_0_r in H0. change (Z.of_nat 1) with 1 in Hc. simpl in H0, Hc. simplify_eq. change (zlength _ =? 2) with true. cbn [andb].
    destruct (Z.eqb_spec (byte_at source start) dot) as [->|Hne]; cbn [andb]; [|rewrite bool_decide_false; congruence].
    destruct (Z.eqb_spec (byte_at source (start + 1)) dot) as [->|Hne]; [done|]. rewrite bool_decide_false; congruence.
  - rewrite (proj2 (Z.eqb_neq _ _)) by (unfold zlength; simpl; lia). by rewrite bool_decide_false.
Qed.

(** What a call that appends [l] to a path [cs] ends with. *)
Definition appended (cs l : list (list Z)) (r : Z) (b : buffer) : Prop :=
  match resolve_all cs l with
  | Some cs' => r = 0 /\ holds b cs'
  | None => r = - EINVAL /\ length (path b) = 256%nat
  end.

(** The component at a position, read off the source. *)
Lemma component_bytes source start (c rest : list Z) :
  0 <= start -> drop (Z.to_nat start) source = c ++ rest ->
  forall i, (i < length c)%nat -> c !! i = Some (byte_at source (start + Z.of_nat i)).
Proof.
  intros Hs E i Hi. destruct (lookup_lt_is_Some_2 c i Hi) as [x Hx]. rewrite Hx. f_equal.
  assert ((c ++ rest) !! i = Some x) as H by (by rewrite lookup_app_l).
  rewrite <-E, lookup_drop in H. unfold byte_at.
  replace (Z.to_nat (start + Z.of_nat i)) with (Z.to_nat start + i)%nat by lia. by rewrite H.
Qed.

Lemma append_step_ok source cursor b cs :
  c_str source -> 0 <= cursor -> holds b cs ->
  wp (append_step source cursor) b (fun r b' =>
    match r with
    | inl cursor' => exists cs', holds b' cs' /\ 0 <= cursor' /\
        (length (drop (Z.to_nat cursor') source) < length (drop (Z.to_nat cursor) source))%nat /\
        resolve_all cs' (components (drop (Z.to_nat cursor') source)) =
        resolve_all cs (components (drop (Z.to_nat cursor) source))
    | inr r => appended cs (components (drop (Z.to_nat cursor) source)) r b'
    end).
Proof.
  intros Hs Hc Hb. unfold append_step. rewrite byte_at_drop by done.
  destruct (drop (Z.to_nat cursor) source) as [|x0 rest0] eqn:E0; [simpl; by run|].
  assert (x0 <> 0) as Hx0.
  { pose proof (Forall_drop _ (Z.to_nat cursor) _ Hs) as H. rewrite E0 in H. by inversion H. }
  simpl default. rewrite (proj2 (Z.eqb_neq x0 0)) by done. rewrite <-E0. clear Hx0. cbv zeta.
  destruct (skip_slashes_spec (length source) source cursor) as (H1 & H2 & H3); [done|rewrite length_drop; lia|].
  set (start := skip_slashes (length source) source cursor) in *. cbv zeta in *. rewrite H3. clearbody start.
  pose proof (byte_at_drop source start ltac:(lia)) as Hb0.
  destruct (drop (Z.to_nat start) source) as [|x rest] eqn:E; simpl in Hb0; [rewrite Hb0; by run|].
  assert (x <> 0) as Hx.
  { pose proof (Forall_drop _ (Z.to_nat start) _ Hs) as H. rewrite E in H. by inversion H. }
  rewrite (proj2 (Z.eqb_neq (byte_at source start) 0)) by (by rewrite Hb0).
  destruct (skip_component_spec (length source) source start) as (c & Hcur & Hdrop & Hns & Hend); [lia|rewrite length_drop; lia|done|].
  cbv zeta in *. rewrite Hcur in *. replace (start + zlength c - start) with (zlength c) by lia.
  pose proof (component_bytes source start c _ ltac:(lia) Hdrop) as Hbytes.
  rewrite (is_dot_test source c start Hbytes), (is_dot_dot_test source c start Hbytes).
  rewrite E in Hdrop.
  assert (c <> []) as Hne.
  { intros ->. simpl in Hdrop. rewrite <-Hdrop in Hend. destruct Hend; congruence. }
  assert (Forall (fun x => x <> slash /\ x <> 0) c) as Hchars.
  { pose proof (Forall_drop _ (Z.to_nat start) _ Hs) as H. rewrite E, Hdrop in H.
    apply Forall_app in H as [H _]. apply Forall_and. done. }
  assert (components (x :: rest) = c :: components (drop (Z.to_nat (start + zlength c)) source)) as Hcomp.
  { rewrite Hdrop. by apply components_cons. }
  assert (length (drop (Z.to_nat (start + zlength c)) source) < length (drop (Z.to_nat cursor) source))%nat as Hshort.
  { rewrite !length_drop. assert (0 < length c)%nat by (destruct c; simpl; [done|lia]).
    assert (length (x :: rest) = length source - Z.to_nat start)%nat as Hl by (by rewrite <-E, length_drop).
    simpl in Hl. unfold zlength. lia. }
  rewrite Hcomp. unfold appended. cbn [resolve_all]. unfold resolve.
  case_bool_decide as Hd1; [run; rewrite decide_True by done; exists cs; split; [done|]; split; [unfold zlength; lia|]; done|].
  rewrite (decide_False (P := c = [dot])) by done.
  case_bool_decide as Hd2.
  { rewrite decide_True by done. run. eapply wp_mono; [by apply remove_last_path_component_ok|].
    intros [] b' Hb'. run. eexists. split; [done|]. split; [unfold zlength; lia|]. done. }
  rewrite (decide_False (P := c = [dot; dot])) by done. run.
  eapply wp_mono; [apply append_component_ok; [done|by repeat split|lia|done]|].
  intros r b'. cbv beta. destruct (_ <? SYSCALL_PATH_MAX).
  - intros [-> Hb']. change (0 <? 0) with false. run. eexists. split; [done|]. split; [unfold zlength; lia|]. done.
  - intros [-> Hb']. change (- EINVAL <? 0) with true. by run.
Qed.

Lemma append_path_components_ok source b cs :
  c_str source -> holds b cs ->
  wp (append_path_components source) b (appended cs (components source)).
Proof.
  intros Hs Hb.
  apply (wp_while_idx (fun n cursor b' => exists cs', holds b' cs' /\ 0 <= cursor /\
           n = length (drop (Z.to_nat cursor) source) /\
           resolve_all cs' (components (drop (Z.to_nat cursor) source)) = resolve_all cs (components source))
           _ _ (length source)).
  - exists cs. by rewrite drop_0.
  - lia.
  - intros n cursor b' (cs' & Hb' & Hc & -> & Hr).
    eapply wp_mono; [by apply append_step_ok|]. intros [cursor'|r] b''; cbv beta iota.
    + intros (cs'' & H1 & H2 & H3 & H4). eexists. split; [exact H3|]. exists cs''. by rewrite H4.
    + unfold appended. by rewrite Hr.
Qed.

Lemma holds_root tail : length tail = 254%nat -> holds (Buffer (slash :: 0 :: tail) 1) [].
Proof. intros H. split; [by simpl; rewrite H|]. split; [done|]. split; [done|]. by exists tail. Qed.

Lemma c_string_app l tail : c_str l -> c_string (l ++ 0 :: tail) = l.
Proof.
  induction 1 as [|x l Hx Hl IH]; simpl; [done|]. rewrite (proj2 (Z.eqb_neq x 0)) by done. by rewrite IH.
Qed.

Lemma render_c_str cs : Forall normal cs -> c_str (render cs).
Proof.
  intros Hcs. assert (c_str (joined cs)) as Hj.
  { induction Hcs as [|c cs Hc Hcs IH]; [by constructor|]. unfold joined. simpl. constructor; [done|].
    apply Forall_app. split; [|exact IH]. destruct Hc as (_ & Hc & _). eapply Forall_impl; [exact Hc|]. by intros ? []. }
  destruct cs; [by repeat constructor|done].
Qed.

Lemma first_byte input : (byte_at input 0 =? slash) = bool_decide (head input = Some slash).
Proof.
  destruct input as [|x l]; [done|]. unfold byte_at. simpl.
  destruct (Z.eqb_spec x slash) as [->|]; [done|]. rewrite bool_decide_false; congruence.
Qed.

Lemma last_byte input : (1 < length input)%nat ->
  (byte_at input (zlength input - 1) =? slash) = bool_decide (last input = Some slash).
Proof.
  intros Hl. unfold byte_at, zlength. rewrite last_lookup.
  replace (Z.to_nat (Z.of_nat (length input) - 1)) with (pred (length input)) by lia.
  destruct (lookup_lt_is_Some_2 input (pred (length input))) as [x Hx]; [lia|]. rewrite Hx. simpl.
  destruct (Z.eqb_spec x slash) as [->|]; [by rewrite bool_decide_true|]. rewrite bool_decide_false; congruence.
Qed.

(** The end of [normalize_path]: the slash the input ends with. *)
Lemma finish_ok input b cs :
  holds b cs ->
  wp (let! n := gets path_length in
      if (1 <? zlength input) && (byte_at input (zlength input - 1) =? slash) && (1 <? n) then
        (if SYSCALL_PATH_MAX <=? n + 1 then ret (- EINVAL) else put n slash ;; put (n + 1) 0 ;; ret 0)
      else ret 0) b (fun r b' => length (path b') = 256%nat /\
    match finish input cs with inl e => r = - e | inr p => r = 0 /\ c_string (path b') = p end).
Proof.
  destruct b as [p n]. intros (Hlen & Hn & Hcs & tail & Hp). cbn [path path_length] in *. subst p n.
  run. cbn [path_length]. unfold finish.
  assert ((1 <? zlength input) = bool_decide (1 < length input)%nat) as ->.
  { unfold zlength. destruct (Z.ltb_spec 1 (Z.of_nat (length input))); [rewrite bool_decide_true|rewrite bool_decide_false]; done || lia. }
  assert ((1 <? zlength (render cs)) = bool_decide (cs <> [])) as ->.
  { destruct (render_cases cs Hcs) as [[-> H] | [Hne H]]; [done|]. rewrite bool_decide_true by done. by apply Z.ltb_lt. }
  pose proof (render_c_str cs Hcs) as Hstr.
  destruct (bool_decide (1 < length input)%nat) eqn:E1; cbn [andb];
    [|run; split; [done|]; split; [done|]; by apply c_string_app].
  apply bool_decide_eq_true in E1. rewrite last_byte by done.
  destruct (bool_decide (last input = Some slash)); cbn [andb];
    [|run; split; [done|]; split; [done|]; by apply c_string_app].
  destruct (bool_decide (cs <> [])); cbn [andb];
    [|run; split; [done|]; split; [done|]; by apply c_string_app].
  unfold SYSCALL_PATH_MAX.
  destruct (Z.leb_spec 256 (zlength (render cs) + 1)) as [Hge|Hlt].
  { run. split; [done|]. by rewrite (proj2 (Z.ltb_ge _ _)) by lia. }
  run. rewrite (proj2 (Z.ltb_lt _ _)) by lia. pose proof Hlen as Hlen'. rewrite length_app in Hlen'. simpl in Hlen'.
  destruct tail as [|y tail]; [unfold zlength in Hlt; simpl in Hlen'; lia|].
  eapply wp_mono; [apply put_app|]. intros [] b ->. run.
  rewrite (cons_middle slash), app_assoc.
  replace (zlength (render cs) + 1) with (zlength (render cs ++ [slash])) by (unfold zlength; rewrite length_app; simpl; lia).
  eapply wp_mono; [apply put_app|]. intros [] b ->. run. cbn [path]. split.
  - rewrite <-Hlen, !length_app. simpl. lia.
  - split; [done|]. apply c_string_app. apply Forall_app. split; [done|]. by repeat constructor.
Qed.

Lemma normalize_path_wp cwd input b :
  length (path b) = 256%nat -> c_str input -> (forall d, cwd = Some d -> c_str d) ->
  wp (normalize_path cwd input) b (fun r b' => length (path b') = 256%nat /\
    match resolve_path cwd input with
    | inl e => r = - e
    | inr p => r = 0 /\ c_string (path b') = p
    end).
Proof.
  destruct b as [p n]. cbn [path]. intros Hp Hi Hcwd. unfold normalize_path, set_length. run. cbn [path].
  destruct p as [|x [|y tail]]; [done|done|]. simpl in Hp.
  eapply wp_mono; [apply (put_app [] x)|]. intros [] b ->. run.
  eapply wp_mono; [apply (put_app [slash] y)|]. intros [] b ->. cbn [app].
  pose proof (holds_root tail ltac:(lia)) as Hb. unfold resolve_path. cbv zeta.
  (* the start of the path, then the input, then the slash at the end *)
  assert (forall b cs, holds b cs ->
    wp (let! r2 := append_path_components input in
        if r2 <? 0 then ret r2 else
        let! n := gets path_length in
        if (1 <? zlength input) && (byte_at input (zlength input - 1) =? slash) && (1 <? n) then
          (if SYSCALL_PATH_MAX <=? n + 1 then ret (- EINVAL) else put n slash ;; put (n + 1) 0 ;; ret 0)
        else ret 0) b (fun r b' => length (path b') = 256%nat /\
      match match resolve_all cs (components input) with Some cs' => finish input cs' | None => inl EINVAL end with
      | inl e => r = - e
      | inr p => r = 0 /\ c_string (path b') = p
      end)) as Htail.
  { intros b cs Hbc. apply wp_bind. eapply wp_mono; [by apply append_path_components_ok|].
    intros r b'. unfold appended. destruct (resolve_all cs (components input)) as [cs'|].
    - intros [-> Hb']. change (0 <? 0) with false. cbv iota. by apply finish_ok.
    - intros [-> Hb']. change (- EINVAL <? 0) with true. by run. }
  apply wp_bind. rewrite first_byte.
  case_bool_decide as Hh; cbn [negb].
  { rewrite decide_True by done. run. change (0 <? 0) with false. cbv iota. by apply Htail. }
  rewrite decide_False by done. destruct cwd as [d|]; [|by run].
  eapply wp_mono; [apply append_path_components_ok; [by apply Hcwd|done]|].
  intros r b'. unfold appended. destruct (resolve_all [] (components d)) as [cs|].
  - intros [-> Hb']. change (0 <? 0) with false. cbv iota. by apply Htail.
  - intros [-> Hb']. change (- EINVAL <? 0) with true. by run.
Qed.

(** A path consists of characters of the input and the directory. *)
Section chars.
Context (P : Z -> Prop) (HP : P slash).

Lemma components_all l : Forall P l -> Forall (Forall P) (components l).
Proof.
  intros Hl. unfold components. assert (Forall (Forall P) (segments l)) as H.
  2:{ apply Forall_forall. intros c [_ Hc]%list_elem_of_filter. rewrite Forall_forall in H. by apply H. }
  induction Hl as [|x l Hx Hl IH]; [by repeat constructor|]. simpl. destruct (x =? slash); [by constructor|].
  destruct IH as [|c cs Hc IH]; by repeat constructor.
Qed.

Lemma resolve_all_all l : Forall (Forall P) l -> forall cs cs', Forall (Forall P) cs -> resolve_all cs l = Some cs' -> Forall (Forall P) cs'.
Proof.
  induction 1 as [|c l Hc Hl IH]; intros cs cs' Hcs Hr; simpl in Hr; [by simplify_eq|].
  destruct (resolve cs c) as [cs1|] eqn:E; [|done]. eapply IH; [|exact Hr]. unfold resolve in E.
  repeat case_decide; simplify_eq; [done| |].
  - destruct cs as [|c0 cs0 _] using rev_ind; [done|]. rewrite removelast_last. by apply Forall_app in Hcs as [? _].
  - destruct (_ <? _); simplify_eq. apply Forall_app. by repeat constructor.
Qed.

Lemma render_all cs : Forall (Forall P) cs -> Forall P (render cs).
Proof.
  intros Hcs. assert (Forall P (joined cs)) as Hj.
  { induction Hcs as [|c cs Hc Hcs IH]; [by constructor|]. unfold joined. simpl. constructor; [done|]. by apply Forall_app. }
  destruct cs; [by repeat constructor|done].
Qed.

Lemma resolve_path_all cwd input p : Forall P input -> (forall d, cwd = Some d -> Forall P d) ->
  resolve_path cwd input = inr p -> Forall P p.
Proof.
  intros Hi Hd Hr. unfold resolve_path in Hr.
  assert (forall cs, Forall (Forall P) cs ->
    match resolve_all cs (components input) with Some cs' => finish input cs' | None => inl EINVAL end = inr p -> Forall P p) as Hfin.
  { intros cs Hcs H. destruct (resolve_all cs (components input)) as [cs'|] eqn:Er; [|done].
    assert (Forall P (render cs')) by (eapply render_all, resolve_all_all; [by apply components_all| |done]; done).
    unfold finish in H. destruct (_ && _ && _); [destruct (_ <? _)|]; simplify_eq; [|done]. apply Forall_app. by repeat constructor. }
  case_decide; [by apply (Hfin [])|]. destruct cwd as [d|]; [|done].
  destruct (resolve_all [] (components d)) as [cs|] eqn:Ed; [|done].
  apply (Hfin cs); [|done]. eapply resolve_all_all; [apply components_all; by apply Hd| |exact Ed]. done.
Qed.
End chars.

(** ** Normal forms *)

Lemma components_chars l :
  c_str l -> Forall (fun c => c <> [] /\ Forall (fun x => x <> slash /\ x <> 0) c) (components l).
Proof.
  intros Hl. assert (Forall (Forall (fun x => x <> slash /\ x <> 0)) (segments l)) as H.
  { induction Hl as [|x l Hx Hl IH]; [by repeat constructor|]. simpl.
    destruct (Z.eqb_spec x slash); [by constructor|]. destruct IH as [|c cs Hc IH]; by repeat constructor. }
  unfold components. apply Forall_forall. intros c. rewrite list_elem_of_filter. intros [Hne Hin].
  split; [done|]. rewrite Forall_forall in H. by apply H.
Qed.

Definition fits (cs : list (list Z)) : Prop := zlength (render cs) < SYSCALL_PATH_MAX.

Lemma fits_prefix cs l : Forall normal (cs ++ l) -> fits (cs ++ l) -> fits cs.
Proof.
  intros Hn H. unfold fits in *. destruct cs as [|c cs]; [done|].
  rewrite render_joined in * by done. unfold joined, zlength in *. rewrite flat_map_app, length_app in H. lia.
Qed.

Lemma resolve_all_normal l : Forall (fun c => c <> [] /\ Forall (fun x => x <> slash /\ x <> 0) c) l ->
  forall cs cs', Forall normal cs -> fits cs -> resolve_all cs l = Some cs' -> Forall normal cs' /\ fits cs'.
Proof.
  induction 1 as [|c l [Hne Hc] Hl IH]; intros cs cs' Hn Hf Hr; simpl in Hr; [by simplify_eq|].
  destruct (resolve cs c) as [cs1|] eqn:E; [|done]. eapply IH; [| |exact Hr]; unfold resolve in E;
    repeat case_decide; simplify_eq; try done.
  - destruct cs as [|c0 cs0 _] using rev_ind; [done|]. rewrite removelast_last. by apply Forall_app in Hn as [? _].
  - destruct (Z.ltb_spec (zlength (render (cs ++ [c]))) SYSCALL_PATH_MAX); simplify_eq.
    apply Forall_app. split; [done|]. by repeat constructor.
  - destruct cs as [|c0 cs0 _] using rev_ind; [done|]. rewrite removelast_last. by eapply fits_prefix.
  - destruct (Z.ltb_spec (zlength (render (cs ++ [c]))) SYSCALL_PATH_MAX); by simplify_eq.
Qed.

(** A path in normal form resolves to itself. *)
Lemma resolve_all_normal_form l cs : Forall normal (cs ++ l) -> fits (cs ++ l) -> resolve_all cs l = Some (cs ++ l).
Proof.
  revert cs. induction l as [|c l IH]; intros cs Hn Hf; simpl; [by rewrite app_nil_r|].
  assert (normal c) as (_ & _ & H1 & H2).
  { apply Forall_app in Hn as [_ Hn]. by inversion Hn. }
  rewrite (cons_middle c cs l), app_assoc in *.
  unfold resolve. rewrite !decide_False by done.
  rewrite (proj2 (Z.ltb_lt _ _)) by (by eapply fits_prefix). by apply IH.
Qed.

Lemma components_joined cs l : Forall normal cs -> ends l -> components (joined cs ++ l) = cs ++ components l.
Proof.
  intros Hcs Hl. induction Hcs as [|c cs (Hne & Hc & _) Hcs IH]; [done|].
  unfold joined in *. simpl. rewrite components_slash, <-app_assoc. rewrite components_cons; [by rewrite IH| |done|].
  - eapply Forall_impl; [exact Hc|]. by intros ? [].
  - destruct cs as [|c' cs]; [done|]. by right.
Qed.

Lemma components_render cs l : Forall normal cs -> l = [] \/ l = [slash] -> components (render cs ++ l) = cs.
Proof.
  intros Hcs Hl. assert (components l = []) as Hl0 by (by destruct Hl as [-> | ->]).
  destruct cs as [|c cs]; [by destruct Hl as [-> | ->]|]. rewrite render_joined by done.
  rewrite components_joined; [by rewrite Hl0, app_nil_r|done|]. destruct Hl as [-> | ->]; [by left|by right].
Qed.

Lemma head_render cs l : head (render cs ++ l) = Some slash.
Proof. by destruct cs. Qed.

Lemma last_render cs : Forall normal cs -> cs <> [] -> last (render cs) <> Some slash.
Proof.
  intros Hcs Hne. rewrite render_joined by done. destruct cs as [|c cs _] using rev_ind; [done|].
  rewrite joined_app. apply Forall_app in Hcs as [_ Hc]. inversion Hc as [|? ? (Hc0 & Hall & _) _]; subst.
  destruct c as [|x c _] using rev_ind; [done|]. apply Forall_app in Hall as [_ Hx]. inversion Hx as [|? ? [Hx' _] _]; subst.
  rewrite app_comm_cons, app_assoc, last_snoc. congruence.
Qed.

Lemma finish_normal cs input p cwd : Forall normal cs -> fits cs ->
  finish input cs = inr p -> resolve_path cwd p = inr p.
Proof.
  intros Hcs Hf Hp. unfold finish in Hp.
  assert (p = render cs \/ (p = render cs ++ [slash] /\ cs <> [] /\ zlength (render cs) + 1 < SYSCALL_PATH_MAX)) as Hcase.
  { destruct (bool_decide (1 < length input)%nat); simpl in Hp; [|simplify_eq; by left].
    destruct (bool_decide (last input = Some slash)); simpl in Hp; [|simplify_eq; by left].
    case_bool_decide; simpl in Hp; [|simplify_eq; by left].
    destruct (Z.ltb_spec (zlength (render cs) + 1) SYSCALL_PATH_MAX); simplify_eq. by right. }
  unfold resolve_path. destruct Hcase as [-> | (-> & Hne & Hlt)].
  - rewrite <-(app_nil_r (render cs)). rewrite decide_True by apply head_render. cbv zeta.
    rewrite components_render by auto. rewrite (resolve_all_normal_form cs []) by done. simpl. rewrite app_nil_r.
    unfold finish. destruct (render_cases cs Hcs) as [[-> H] | [Hne H]]; [done|].
    rewrite (bool_decide_false (last (render cs) = _)) by (by apply last_render). by rewrite andb_false_r.
  - rewrite decide_True by apply head_render. cbv zeta.
    rewrite components_render by auto. rewrite (resolve_all_normal_form cs []) by done. simpl.
    unfold finish. rewrite last_snoc, !bool_decide_true; [|done..|].
    + simpl. by rewrite (proj2 (Z.ltb_lt _ _)) by lia.
    + rewrite length_app. simpl. pose proof (render_length_pos cs). unfold zlength in *. lia.
Qed.

Lemma resolve_path_cases cwd input r : c_str input -> (forall d, cwd = Some d -> c_str d) ->
  resolve_path cwd input = r ->
  match r with inl e => e = EIO \/ e = EINVAL | inr p => exists cs, Forall normal cs /\ fits cs /\ finish input cs = inr p end.
Proof.
  intros Hi Hcwd Hr. unfold resolve_path in Hr. cbv zeta in Hr.
  set (base := if decide _ then _ else _) in Hr.
  assert (match base with inl e => e = EIO \/ e = EINVAL | inr cs => Forall normal cs /\ fits cs end) as Hbase.
  { unfold base. case_decide; [done|]. destruct cwd as [d|]; [|by left].
    destruct (resolve_all [] (components d)) as [cs|] eqn:E; [|by right].
    eapply resolve_all_normal; [by apply components_chars, Hcwd| | |exact E]; done. }
  destruct base as [e|cs]; [by subst r|]. destruct Hbase as [Hn Hf].
  destruct (resolve_all cs (components input)) as [cs'|] eqn:E; [|subst r; by right].
  destruct (resolve_all_normal _ (components_chars _ Hi) _ _ Hn Hf E) as [Hn' Hf'].
  destruct r as [e|p]; [|by exists cs']. unfold finish in Hr.
  repeat case_match; simplify_eq. by right.
Qed.

Lemma finish_c_str input cs p : Forall normal cs -> finish input cs = inr p -> c_str p.
Proof.
  intros Hcs Hp. pose proof (render_c_str cs Hcs). unfold finish in Hp. repeat case_match; simplify_eq; [|done].
  apply Forall_app. split; [done|]. by repeat constructor.
Qed.

(** C17. [normalize_path] computes [resolve_path]: it never writes outside its
    buffer of 256 bytes and it terminates for every input and working directory;
    it fails with EIO exactly when a relative path has no working directory, with
    EINVAL exactly when some intermediate path does not fit, and otherwise leaves
    the resolved path as the C string in the buffer. *)
Theorem normalize_path_exact cwd input b :
  length (path b) = 256%nat -> c_str input -> (forall d, cwd = Some d -> c_str d) ->
  wp (normalize_path cwd input) b (fun r b' => length (path b') = 256%nat /\
    match resolve_path cwd input with
    | inl e => r = - e
    | inr p => r = 0 /\ c_string (path b') = p
    end).
Proof. apply normalize_path_wp. Qed.

(** A path [normalize_path] returned is a normal form: normalising it again
    succeeds and gives the same path, whatever the working directory is then. *)
Theorem normalize_path_idempotent cwd cwd' input b b' p :
  length (path b) = 256%nat -> length (path b') = 256%nat -> c_str input ->
  (forall d, cwd = Some d \/ cwd' = Some d -> c_str d) ->
  run_normalize cwd input b = Some (0, p) -> run_normalize cwd' p b' = Some (0, p).
Proof.
  intros Hb Hb' Hi Hcwd Hrun.
  pose proof (normalize_path_wp cwd input b Hb Hi ltac:(eauto)) as H1. apply wp_run in H1 as (r & b1 & E1 & _ & H1).
  unfold run_normalize in Hrun. rewrite E1 in Hrun. simplify_eq.
  destruct (resolve_path cwd input) as [e|p] eqn:E.
  { apply resolve_path_cases in E; eauto. destruct E as [-> | ->]; by apply (f_equal Z.opp) in H1. }
  destruct H1 as [_ Hp]. apply resolve_path_cases in E as (cs & Hn & Hf & Hfin); [|done|eauto].
  assert (c_str p) as Hstr by (by eapply finish_c_str).
  rewrite Hp. pose proof (normalize_path_wp cwd' p b' Hb' Hstr ltac:(eauto)) as H2.
  rewrite (finish_normal cs input p cwd' Hn Hf Hfin) in H2. apply wp_run in H2 as (r & b2 & E2 & _ & -> & H2).
  unfold run_normalize. by rewrite E2, H2.
Qed.

(** ["/usr/./lib//../bin/"] from ["/home"], and a relative path. *)
Definition text (s : string) : list Z := map (fun c => Z.of_nat (Ascii.nat_of_ascii c)) (String.list_ascii_of_string s).
Definition fresh : buffer := Buffer (replicate 256 0) 0.

Lemma normalize_path_exact_witness :
  resolve_path (Some (text "/home/a")) (text "../b/./c//") = inr (text "/home/b/c/") /\
  wp (normalize_path (Some (text "/home/a")) (text "../b/./c//")) fresh (fun r b' =>
    length (path b') = 256%nat /\ r = 0 /\ c_string (path b') = text "/home/b/c/").
Proof.
  split; [by vm_compute|].
  apply (normalize_path_exact (Some (text "/home/a")) (text "../b/./c//") fresh).
  - done.
  - by repeat constructor.
  - intros d [= <-]. by repeat constructor.
Defined.

Lemma normalize_path_idempotent_witness :
  run_normalize None (text "//usr/./lib/../bin/") fresh = Some (0, text "/usr/bin/") /\
  run_normalize (Some (text "/home")) (text "/usr/bin/") fresh = Some (0, text "/usr/bin/").
Proof.
  split; [by vm_compute|].
  apply (normalize_path_idempotent None (Some (text "/home")) (text "//usr/./lib/../bin/") fresh fresh (text "/usr/bin/")).
  - done.
  - done.
  - by repeat constructor.
  - intros d [[=] | [= <-]]. by repeat constructor.
  - by vm_compute.
Defined.

End Path.
