(* ===== verification/Vfs.v ===== *)
(** * The virtual file system layer, kernel/fs/vfs.c

    Open files: a table of 32 entries with an offset each, reached from the
    descriptors of the processes through handles, which are the addresses of
    the entries. The file system and the descriptor tables are reached through
    the classes [FileSystem] and [Descriptors]; both run on the shared interrupt
    flag. The proofs about this layer are in VfsSpec.v. *)

From S2P Require Import Prelude Monad Interfaces Bytes Cpu Block MiniFs.
Import Block MiniFs.

(** What a read of [n] bytes delivers: no more than it was asked for, and as
    much as it says. *)
Definition filled (n : Z) (r : Z * list Z) : Prop :=
  bytes (snd r) /\ zlength (snd r) <= Z.max 0 n /\ (0 <= fst r -> zlength (snd r) = fst r).

(** The calls of MiniFS the layer makes: lookup, create, mkdir, unlink, and the
    [read], [write] and [stat] of [struct vfs_file_ops]. A call ends, leaves the
    interrupt flag as it was, and reports errors as negative numbers. *)
Class FileSystem (F : Type) := {
  fso_lookup : list Z -> M (Cpu.state * F) (result minifs_stat);
  fso_create : list Z -> M (Cpu.state * F) (result minifs_stat);
  fso_mkdir : list Z -> M (Cpu.state * F) Z;
  fso_unlink : list Z -> M (Cpu.state * F) Z;
  fso_stat : Z -> M (Cpu.state * F) (result minifs_stat);
  fso_truncate : Z -> Z -> M (Cpu.state * F) Z;
  fso_read : Z -> Z -> Z -> M (Cpu.state * F) (Z * list Z);
  fso_write : Z -> Z -> list Z -> M (Cpu.state * F) Z;
  fso_readdir : Z -> Z -> M (Cpu.state * F) (Z * Z * option minifs_dirent);

  fso_inv : F -> Prop;

  fso_lookup_ok : forall path c f, Cpu.wf c -> fso_inv f -> bytes path ->
    wp (fso_lookup path) (c, f) (fun r '(c', f') => c' = c /\ fso_inv f' /\
      match r with Err st => st < 0 | Ok status => 0 <= st_size status <= INT32_MAX end);
  fso_create_ok : forall path c f, Cpu.wf c -> fso_inv f -> bytes path ->
    wp (fso_create path) (c, f) (fun r '(c', f') => c' = c /\ fso_inv f' /\ forall st, r = Err st -> st < 0);
  fso_mkdir_ok : forall path c f, Cpu.wf c -> fso_inv f -> bytes path ->
    wp (fso_mkdir path) (c, f) (fun _ '(c', f') => c' = c /\ fso_inv f');
  fso_unlink_ok : forall path c f, Cpu.wf c -> fso_inv f -> bytes path ->
    wp (fso_unlink path) (c, f) (fun _ '(c', f') => c' = c /\ fso_inv f');
  fso_stat_ok : forall n c f, Cpu.wf c -> fso_inv f ->
    wp (fso_stat n) (c, f) (fun r '(c', f') => c' = c /\ fso_inv f' /\ forall st, r = Err st -> st < 0);
  fso_truncate_ok : forall n size c f, Cpu.wf c -> fso_inv f -> 0 <= size ->
    wp (fso_truncate n size) (c, f) (fun _ '(c', f') => c' = c /\ fso_inv f');
  fso_read_ok : forall n offset length c f, Cpu.wf c -> fso_inv f ->
    wp (fso_read n offset length) (c, f) (fun r '(c', f') => c' = c /\ fso_inv f' /\ filled length r);
  fso_write_ok : forall n offset source c f, Cpu.wf c -> fso_inv f -> bytes source ->
    wp (fso_write n offset source) (c, f) (fun _ '(c', f') => c' = c /\ fso_inv f');
  fso_readdir_ok : forall n offset c f, Cpu.wf c -> fso_inv f -> 0 <= offset < 4294967296 ->
    wp (fso_readdir n offset) (c, f) (fun r '(c', f') => c' = c /\ fso_inv f' /\
      (fst (fst r) = 1 -> snd r <> None) /\ 0 <= snd (fst r) < 4294967296)
}.

(** The descriptor table of the process that runs. *)
Class DescriptorOps (P : Type) := {
  fdt_install : Z -> M (Cpu.state * P) Z;     (** scheduler_fd_install *)
  fdt_get : Z -> M (Cpu.state * P) Z;         (** scheduler_fd_get *)
  fdt_remove : Z -> M (Cpu.state * P) Z       (** scheduler_fd_remove *)
}.

(** What they promise: [fdt_slot p i d] is the handle of descriptor [d] of
    process [i], 0 for none. *)
Class Descriptors (P : Type) `{!DescriptorOps P} := {
  fdt_inv : P -> Prop;
  fdt_current : P -> nat;
  fdt_slot : P -> nat -> Z -> Z;

  fdt_slot_range : forall p i d, fdt_inv p -> fdt_slot p i d <> 0 -> 3 <= d < 16;
  fdt_get_ok : forall d c p, Cpu.wf c -> fdt_inv p ->
    wp (fdt_get d) (c, p) (fun h '(c', p') => c' = c /\ p' = p /\ h = fdt_slot p (fdt_current p) d);
  fdt_remove_ok : forall d c p, Cpu.wf c -> fdt_inv p ->
    wp (fdt_remove d) (c, p) (fun h '(c', p') => c' = c /\ fdt_inv p' /\ fdt_current p' = fdt_current p /\
      h = fdt_slot p (fdt_current p) d /\
      forall i e, fdt_slot p' i e = if bool_decide (i = fdt_current p /\ e = d) then 0 else fdt_slot p i e);
  fdt_install_ok : forall h c p, Cpu.wf c -> fdt_inv p -> h <> 0 ->
    wp (fdt_install h) (c, p) (fun r '(c', p') => c' = c /\ fdt_inv p' /\ fdt_current p' = fdt_current p /\
      ((3 <= r < 16 /\ fdt_slot p (fdt_current p) r = 0 /\
        forall i e, fdt_slot p' i e = if bool_decide (i = fdt_current p /\ e = r) then h else fdt_slot p i e) \/
       (r < 0 /\ forall i e, fdt_slot p' i e = fdt_slot p i e)))
}.

Module Vfs.

Definition VFS_FILE_LIMIT : Z := 32.
Definition VFS_FILE_SIZE : Z := 32.          (** sizeof(struct vfs_file) *)
Definition MINIOS_O_RDONLY : Z := 0.
Definition MINIOS_O_WRONLY : Z := 1.
Definition MINIOS_O_RDWR : Z := 2.
Definition MINIOS_O_ACCMODE : Z := 3.
Definition MINIOS_O_CREAT : Z := 0x100.
Definition MINIOS_O_TRUNC : Z := 0x200.
Definition VFS_ALLOWED_FLAGS : Z := 0x303.
Definition MINIOS_SEEK_SET : Z := 0.
Definition MINIOS_SEEK_CUR : Z := 1.
Definition MINIOS_SEEK_END : Z := 2.
Definition EBADF : Z := 9.
Definition EBUSY : Z := 16.
Definition ENFILE : Z := 23.

Inductive vfs_file_type := VFS_FILE_MINIFS.

(** [const struct vfs_file_ops *]: the one table there is; a null pointer is [None]. *)
Inductive vfs_file_ops := minifs_file_ops.

Record vfs_file := VfsFile {
  used : bool;
  refcount : Z;
  type : vfs_file_type;
  ops : option vfs_file_ops;
  inode_number : Z;
  offset : Z;
  flags : Z;
  file_mode : Z
}.

Definition set_offset (v : Z) (f : vfs_file) : vfs_file :=
  VfsFile (used f) (refcount f) (type f) (ops f) (inode_number f) v (flags f) (file_mode f).
Definition set_refcount (v : Z) (f : vfs_file) : vfs_file :=
  VfsFile (used f) v (type f) (ops f) (inode_number f) (offset f) (flags f) (file_mode f).

(** What [clear_file] leaves. *)
Definition cleared : vfs_file := VfsFile false 0 VFS_FILE_MINIFS None 0 0 0 0.

Record minios_stat := MiniosStat { ms_inode : Z; ms_mode : Z; ms_link_count : Z; ms_size : Z }.
Record minios_dirent := MiniosDirent {
  me_inode : Z; me_mode : Z; me_name_length : Z; me_name : list Z; me_reserved : Z
}.

Definition flags_valid (flags : Z) : bool :=
  let access := Z.land flags MINIOS_O_ACCMODE in
  (Z.land flags (not32 VFS_ALLOWED_FLAGS) =? 0) && (access <=? MINIOS_O_RDWR) &&
  ((Z.land flags MINIOS_O_TRUNC =? 0) || negb (access =? MINIOS_O_RDONLY)).

Definition file_readable (f : vfs_file) : bool := negb (Z.land (flags f) MINIOS_O_ACCMODE =? MINIOS_O_WRONLY).
Definition file_writable (f : vfs_file) : bool := negb (Z.land (flags f) MINIOS_O_ACCMODE =? MINIOS_O_RDONLY).

(** The entry handed to the caller: the name with its terminator, as much of it
    as fits, and zeros behind it. *)
Definition export_entry (e : minifs_dirent) : minios_dirent :=
  let copy_length := Z.min (de_name_length e + 1) 59 in
  MiniosDirent (de_inode e) (de_mode e) (de_name_length e)
    (map (fun i => if i <? copy_length then byte_at (de_name e) i else 0) (seqZ 0 59)) 0.

Section vfs.
Context {F : Type} `{!FileSystem F} {P : Type} `{!DescriptorOps P}.

(** Address of [file_table]. *)
Context (FILE_TABLE : Z).

Record vfs := State {
  file_table : list vfs_file;
  vfs_initialized : bool;
  vfs_busy : bool;
  cpu : Cpu.state;
  fsys : F;
  procs : P
}.

Definition set_files (v : list vfs_file) (s : vfs) : vfs :=
  State v (vfs_initialized s) (vfs_busy s) (cpu s) (fsys s) (procs s).
Definition set_initialized (v : bool) (s : vfs) : vfs :=
  State (file_table s) v (vfs_busy s) (cpu s) (fsys s) (procs s).
Definition set_busy (v : bool) (s : vfs) : vfs :=
  State (file_table s) (vfs_initialized s) v (cpu s) (fsys s) (procs s).
Definition set_cpu (v : Cpu.state) (s : vfs) : vfs :=
  State (file_table s) (vfs_initialized s) (vfs_busy s) v (fsys s) (procs s).
Definition set_fsys (v : Cpu.state * F) (s : vfs) : vfs :=
  State (file_table s) (vfs_initialized s) (vfs_busy s) (fst v) (snd v) (procs s).
Definition set_procs (v : Cpu.state * P) (s : vfs) : vfs :=
  State (file_table s) (vfs_initialized s) (vfs_busy s) (fst v) (fsys s) (snd v).

#[export] Instance cpu_lens : Lens vfs Cpu.state.
Proof. refine {| lget := cpu; lset := set_cpu |}; by intros; destruct s. Defined.
#[export] Instance fsys_lens : Lens vfs (Cpu.state * F).
Proof. by refine {| lget := fun s => (cpu s, fsys s); lset := set_fsys |}; intros; destruct s; try destruct t. Defined.
#[export] Instance procs_lens : Lens vfs (Cpu.state * P).
Proof. by refine {| lget := fun s => (cpu s, procs s); lset := set_procs |}; intros; destruct s; try destruct t. Defined.

(** ** The lock and the table *)

Definition vfs_acquire : M vfs (option Z) :=
  let! flags := zoom Cpu.irq_save_disable in
  let! busy := gets vfs_busy in
  if busy : bool then zoom (Cpu.irq_restore flags) ;; ret None
  else modify (set_busy true) ;; ret (Some flags).

Definition vfs_release (irq_flags : Z) : M vfs unit :=
  modify (set_busy false) ;; zoom (Cpu.irq_restore irq_flags).

Definition get_file (index : Z) : M vfs vfs_file :=
  let! t := gets file_table in access (if 0 <=? index then t !! Z.to_nat index else None).

Definition put_file (index : Z) (f : vfs_file) : M vfs unit :=
  let! t := gets file_table in
  if (0 <=? index) && (index <? zlength t) then modify (set_files (<[Z.to_nat index := f]> t)) else fault.

Definition clear_file (index : Z) : M vfs unit := put_file index cleared.

(** The first unused entry; pointers into the table are indices. *)
Definition allocate_file : M vfs (option Z) :=
  for_until 32 0 (fun index =>
    let! f := get_file index in
    if negb (used f) then
      clear_file index ;;
      put_file index (VfsFile true 1 VFS_FILE_MINIFS None 0 0 0 0) ;;
      ret (Some index)
    else ret None).

Definition handle_of (index : Z) : Z := FILE_TABLE + index * VFS_FILE_SIZE.

Definition file_from_handle (handle : Z) : M vfs (option Z) :=
  if (handle <? FILE_TABLE) || (handle_of VFS_FILE_LIMIT <=? handle) then ret None else
  let offset := handle - FILE_TABLE in
  if negb (offset mod VFS_FILE_SIZE =? 0) then ret None else
  let index := offset / VFS_FILE_SIZE in
  let! f := get_file index in
  ret (if used f && (0 <? refcount f) && bool_decide (ops f <> None) then Some index else None).

(** ** Operations *)

Definition vfs_init : M vfs unit :=
  let! flags := zoom Cpu.irq_save_disable in
  for_range 32 0 clear_file ;;
  modify (set_busy false) ;;
  modify (set_initialized true) ;;
  zoom (Cpu.irq_restore flags).

(** Between acquiring and releasing the lock; [EAGAIN] while it is taken. *)
Definition locked {A} (refuse : Z -> A) (body : M vfs A) : M vfs A :=
  let! a := vfs_acquire in
  match a with
  | None => ret (refuse (- EAGAIN))
  | Some irq_flags => let! result := body in vfs_release irq_flags ;; ret result
  end.

Definition lookup_or_create (path : list Z) (flags : Z) : M vfs (result minifs_stat) :=
  let! l := zoom (fso_lookup path) in
  match l with
  | Err st => if (st =? - ENOENT) && negb (Z.land flags MINIOS_O_CREAT =? 0) then zoom (fso_create path) else ret l
  | Ok _ => ret l
  end.

(** From the entry [index] taken for the file to the new descriptor. A result
    that is not an error comes with a status. *)
Definition open_entry (index : Z) (path : list Z) (flags : Z) : M vfs Z :=
  let! l := lookup_or_create path flags in
  match l with
  | Err result => if result <? 0 then clear_file index ;; ret result else fault
  | Ok status =>
      if (st_mode status =? MINIFS_MODE_DIRECTORY) &&
         (negb (Z.land flags MINIOS_O_ACCMODE =? MINIOS_O_RDONLY) || negb (Z.land flags MINIOS_O_TRUNC =? 0))
      then clear_file index ;; ret (- EISDIR) else
      let! truncated := (if negb (Z.land flags MINIOS_O_TRUNC =? 0) then zoom (fso_truncate (st_inode status) 0) else ret 0) in
      if truncated <? 0 then clear_file index ;; ret truncated else
      let! f := get_file index in
      put_file index (VfsFile (used f) (refcount f) VFS_FILE_MINIFS (Some minifs_file_ops) (st_inode status) 0 flags (st_mode status)) ;;
      let! result := zoom (fdt_install (handle_of index)) in
      (if result <? 0 then clear_file index else ret tt) ;;
      ret result
  end.

Definition open_locked (path : list Z) (flags : Z) : M vfs Z :=
  let! fo := allocate_file in
  match fo with
  | None => ret (- ENFILE)
  | Some index => open_entry index path flags
  end.

Definition vfs_open (path : list Z) (flags : Z) : M vfs Z :=
  let! ready := gets vfs_initialized in
  if negb ready || negb (flags_valid flags) then ret (- EINVAL) else locked id (open_locked path flags).

Definition close_locked (descriptor : Z) : M vfs Z :=
  let! handle := zoom (fdt_remove descriptor) in
  let! fo := file_from_handle handle in
  match fo with
  | None => ret (- EBADF)
  | Some index =>
      let! f := get_file index in
      let count := refcount f -u 1 in
      put_file index (set_refcount count f) ;;
      (if count =? 0 then clear_file index else ret tt) ;;
      ret 0
  end.

Definition vfs_close (descriptor : Z) : M vfs Z :=
  let! ready := gets vfs_initialized in
  if negb ready then ret (- EIO) else locked id (close_locked descriptor).

(** The file behind a descriptor of the current process. *)
Definition file_of (descriptor : Z) : M vfs (option Z) :=
  let! handle := zoom (fdt_get descriptor) in
  file_from_handle handle.

(** [file->ops->read(file->inode, file->offset, buffer, length)]; the pointer
    was checked by [file_from_handle]. *)
Definition ops_read (f : vfs_file) (length : Z) : M vfs (Z * list Z) :=
  match ops f with
  | Some minifs_file_ops => zoom (fso_read (inode_number f) (offset f) length)
  | None => fault
  end.
Definition ops_write (f : vfs_file) (source : list Z) : M vfs Z :=
  match ops f with
  | Some minifs_file_ops => zoom (fso_write (inode_number f) (offset f) source)
  | None => fault
  end.
Definition ops_stat (f : vfs_file) : M vfs (result minifs_stat) :=
  match ops f with
  | Some minifs_file_ops => zoom (fso_stat (inode_number f))
  | None => fault
  end.

(** [file->offset += (uint32_t)result] after a transfer. *)
Definition advance (index : Z) (result : Z) : M vfs unit :=
  if 0 <? result then let! f := get_file index in put_file index (set_offset (offset f +u result) f) else ret tt.

(** The count or error and the bytes put into the caller's buffer. *)
Definition read_locked (descriptor length : Z) : M vfs (Z * list Z) :=
  let! fo := file_of descriptor in
  match fo with
  | None => ret (- EBADF, [])
  | Some index =>
      let! f := get_file index in
      if negb (file_readable f) then ret (- EBADF, []) else
      if file_mode f =? MINIFS_MODE_DIRECTORY then ret (- EISDIR, []) else
      let! r := ops_read f length in
      advance index (fst r) ;;
      ret r
  end.

(** [buffer] says whether the caller's pointer is not null. *)
Definition vfs_read (descriptor : Z) (buffer : bool) (length : Z) : M vfs (Z * list Z) :=
  let! ready := gets vfs_initialized in
  if negb ready || (negb buffer && negb (length =? 0)) then ret (- EINVAL, []) else
  locked (fun st => (st, [])) (read_locked descriptor length).

Definition write_locked (descriptor : Z) (source : list Z) : M vfs Z :=
  let! fo := file_of descriptor in
  match fo with
  | None => ret (- EBADF)
  | Some index =>
      let! f := get_file index in
      if negb (file_writable f) then ret (- EBADF) else
      if file_mode f =? MINIFS_MODE_DIRECTORY then ret (- EISDIR) else
      let! r := ops_write f source in
      advance index r ;;
      ret r
  end.

Definition vfs_write (descriptor : Z) (buffer : bool) (source : list Z) : M vfs Z :=
  let! ready := gets vfs_initialized in
  if negb ready || (negb buffer && negb (zlength source =? 0)) then ret (- EINVAL) else
  locked id (write_locked descriptor source).

(** The [base] of a seek, or the error. *)
Definition seek_base (f : vfs_file) (whence : Z) : M vfs (result Z) :=
  if whence =? MINIOS_SEEK_SET then ret (Ok 0) else
  if whence =? MINIOS_SEEK_CUR then ret (Ok (offset f)) else
  if whence =? MINIOS_SEEK_END then
    let! st := ops_stat f in
    match st with
    | Err result => if result <? 0 then ret (Err result) else fault
    | Ok status => ret (Ok (st_size status))
    end
  else ret (Err (- EINVAL)).

Definition lseek_locked (descriptor delta whence : Z) : M vfs Z :=
  let! fo := file_of descriptor in
  match fo with
  | None => ret (- EBADF)
  | Some index =>
      let! f := get_file index in
      let! base := seek_base f whence in
      match base with
      | Err result => ret result
      | Ok base =>
          let target := base + delta in
          if (target <? 0) || (INT32_MAX <? target) then ret (- EINVAL) else
          let! f' := get_file index in
          put_file index (set_offset target f') ;;
          ret target
      end
  end.

Definition vfs_lseek (descriptor delta whence : Z) : M vfs Z :=
  let! ready := gets vfs_initialized in
  if negb ready then ret (- EIO) else locked id (lseek_locked descriptor delta whence).

(** Without the lock. [status] says whether the pointer is not null. *)
Definition vfs_stat (path : list Z) (status : bool) : M vfs (result minios_stat) :=
  let! ready := gets vfs_initialized in
  if negb ready || negb status then ret (Err (- EINVAL)) else
  let! l := zoom (fso_lookup path) in
  match l with
  | Err result => if result <? 0 then ret (Err result) else fault
  | Ok st => ret (Ok (MiniosStat (st_inode st) (st_mode st) (st_link_count st) (st_size st)))
  end.

Definition vfs_mkdir (path : list Z) : M vfs Z :=
  let! ready := gets vfs_initialized in
  if negb ready then ret (- EIO) else locked id (zoom (fso_mkdir path)).

Definition unlink_locked (path : list Z) : M vfs Z :=
  let! l := zoom (fso_lookup path) in
  match l with
  | Err result => if result <? 0 then ret result else fault
  | Ok status =>
      let! busy := for_until 32 0 (fun index =>
        let! f := get_file index in
        ret (if used f && (inode_number f =? st_inode status) then Some tt else None)) in
      match busy with
      | Some _ => ret (- EBUSY)
      | None => zoom (fso_unlink path)
      end
  end.

Definition vfs_unlink (path : list Z) : M vfs Z :=
  let! ready := gets vfs_initialized in
  if negb ready then ret (- EIO) else locked id (unlink_locked path).

Definition readdir_locked (descriptor : Z) : M vfs (Z * option minios_dirent) :=
  let! fo := file_of descriptor in
  match fo with
  | None => ret (- EBADF, None)
  | Some index =>
      let! f := get_file index in
      if negb (file_readable f) then ret (- EBADF, None) else
      if negb (file_mode f =? MINIFS_MODE_DIRECTORY) then ret (- ENOTDIR, None) else
      let! r := zoom (fso_readdir (inode_number f) (offset f)) in
      let '(result, cursor, entry) := r in
      let! f' := get_file index in
      put_file index (set_offset cursor f') ;;
      if result =? 1 then
        let! e := access entry in ret (result, Some (export_entry e))
      else ret (result, None)
  end.

(** [entry] says whether the pointer is not null. *)
Definition vfs_readdir (descriptor : Z) (entry : bool) : M vfs (Z * option minios_dirent) :=
  let! ready := gets vfs_initialized in
  if negb ready || negb entry then ret (- EINVAL, None) else
  locked (fun st => (st, None)) (readdir_locked descriptor).

Definition vfs_close_all_current : M vfs unit :=
  let! ready := gets vfs_initialized in
  if negb ready then ret tt else
  for_range 13 3 (fun descriptor =>
    let! handle := zoom (fdt_get descriptor) in
    if negb (handle =? 0) then let! _ := vfs_close descriptor in ret tt else ret tt).

End vfs.

Arguments vfs : clear implicits.

End Vfs.
