(* ===== verification/VfsSpec.v ===== *)
(** * The virtual file system layer: open files and descriptors

    [vfs_inv] is the invariant of the open-file table: every descriptor of every
    process names a used entry, no two name the same one, and every used entry
    is named by a descriptor, so that the reference count is exact and nothing
    leaks. It is proved for every call, and for every interleaving of calls of
    several processes. *)

From stdpp Require Import relations.
From S2P Require Import Prelude Monad Interfaces Bytes Cpu Block MiniFs Vfs.

Module VfsSpec.
Import Block MiniFs Vfs.

Section spec.
Context {F : Type} `{!FileSystem F} {P : Type} `{!DescriptorOps P} `{!Descriptors P}.
Context (FILE_TABLE : Z) (table_address : 0 < FILE_TABLE).
Implicit Types (s : vfs F P) (t : list vfs_file) (p : P) (k : nat).

Let handle k := handle_of FILE_TABLE (Z.of_nat k).

(** ** The invariant *)

Record open_file (f : vfs_file) : Prop := {
  open_used : used f = true;
  open_count : refcount f = 1;
  open_ops : ops f = Some minifs_file_ops;
  open_offset : 0 <= offset f < 4294967296;
  open_flags : flags_valid (flags f) = true
}.

Definition entry_ok (f : vfs_file) : Prop := open_file f \/ f = cleared.

(** The table and the descriptors agree; the entry [ex], if any, is being
    opened or closed and belongs to nobody. *)
Record table_ok (ex : option nat) t p : Prop := {
  tab_length : length t = 32%nat;
  tab_entry : forall k f, t !! k = Some f -> ex <> Some k -> entry_ok f;
  tab_live : forall i d, fdt_slot p i d <> 0 ->
    exists k f, fdt_slot p i d = handle k /\ ex <> Some k /\ t !! k = Some f /\ open_file f;
  tab_unique : forall i d i' d', fdt_slot p i d <> 0 -> fdt_slot p i d = fdt_slot p i' d' -> i = i' /\ d = d';
  tab_owned : forall k f, t !! k = Some f -> ex <> Some k -> used f = true -> exists i d, fdt_slot p i d = handle k
}.

Record vfs_inv s : Prop := {
  vi_ready : vfs_initialized s = true;
  vi_idle : vfs_busy s = false;
  vi_cpu : Cpu.wf (cpu s);
  vi_fsys : fso_inv (fsys s);
  vi_procs : fdt_inv (procs s);
  vi_table : table_ok None (file_table s) (procs s)
}.

(** The same while the lock is held, [c] being the processor state outside. *)
Record held (c : Cpu.state) (ex : option nat) s : Prop := {
  he_ready : vfs_initialized s = true;
  he_busy : vfs_busy s = true;
  he_cpu : cpu s = Cpu.masked c;
  he_wf : Cpu.wf (Cpu.masked c);
  he_fsys : fso_inv (fsys s);
  he_procs : fdt_inv (procs s);
  he_table : table_ok ex (file_table s) (procs s)
}.

Lemma handle_inj k k' : handle k = handle k' -> k = k'.
Proof. unfold handle, handle_of, VFS_FILE_SIZE. lia. Qed.

Lemma handle_pos k : handle k <> 0.
Proof. unfold handle, handle_of, VFS_FILE_SIZE. lia. Qed.

(** ** Stepping through the calls *)

Lemma wp_get_file s k f (Q : vfs_file -> vfs F P -> Prop) :
  file_table s !! k = Some f -> Q f s -> wp (get_file (Z.of_nat k)) s Q.
Proof.
  intros Hf HQ. unfold get_file. run. rewrite (proj2 (Z.leb_le _ _)) by lia. eapply wp_access; [|exact HQ].
  by rewrite Nat2Z.id.
Qed.

Lemma wp_put_file s k f (Q : unit -> vfs F P -> Prop) :
  (k < length (file_table s))%nat -> Q tt (set_files (<[k := f]> (file_table s)) s) -> wp (put_file (Z.of_nat k) f) s Q.
Proof.
  intros Hk HQ. unfold put_file. run. unfold zlength.
  rewrite (proj2 (Z.leb_le _ _)), (proj2 (Z.ltb_lt _ _)) by lia. run. by rewrite Nat2Z.id.
Qed.

Definition enter s : vfs F P := set_busy true (set_cpu (Cpu.masked (cpu s)) s).
Definition leave (c : Cpu.state) s : vfs F P := set_busy false (set_cpu c s).

Lemma held_enter s : vfs_inv s -> held (cpu s) None (enter s).
Proof. intros []. split; try done. by apply Cpu.masked_wf. Qed.

Lemma inv_leave c s : Cpu.wf c -> held c None s -> vfs_inv (leave c s).
Proof. intros Hc []. by split. Qed.

Lemma wp_vfs_locked {A} (refuse : Z -> A) (body : M (vfs F P) A) s (Q : A -> vfs F P -> Prop) :
  vfs_inv s ->
  wp body (enter s) (fun r s' => cpu s' = Cpu.masked (cpu s) /\ Q r (leave (cpu s) s')) -> wp (locked refuse body) s Q.
Proof.
  intros Hs Hb. unfold locked, vfs_acquire. run. apply Cpu.irq_save_disable_wp. run.
  change (vfs_busy (lset _ s)) with (vfs_busy s). rewrite (vi_idle s Hs). run.
  change (set_busy true (lset (Cpu.masked (lget s)) s)) with (enter s).
  eapply wp_mono; [exact Hb|]. cbv beta. intros r s' [Hc HQ]. unfold vfs_release. run.
  change (lget (set_busy false s')) with (cpu s'). rewrite Hc.
  apply Cpu.irq_restore_wp; [apply Hs|]. run. exact HQ.
Qed.

(** A call of the file system, or of the descriptor tables, under the lock. *)
Lemma wp_fs {A} (m : M (Cpu.state * F) A) (R : A -> Prop) c ex s (Q : A -> vfs F P -> Prop) :
  held c ex s ->
  wp m (Cpu.masked c, fsys s) (fun r '(c', f') => c' = Cpu.masked c /\ fso_inv f' /\ R r) ->
  (forall r f', R r -> held c ex (set_fsys (Cpu.masked c, f') s) -> Q r (set_fsys (Cpu.masked c, f') s)) ->
  wp (zoom m) s Q.
Proof.
  intros [] Hm HQ. apply wp_zoom. change (lget s) with (cpu s, fsys s). rewrite he_cpu0.
  eapply wp_mono; [exact Hm|]. cbv beta. intros r [c' f'] (-> & Hf & HR). by apply HQ; [|split].
Qed.

Lemma wp_fd {A} (m : M (Cpu.state * P) A) (R : A -> P -> Prop) c ex s (Q : A -> vfs F P -> Prop) :
  held c ex s ->
  wp m (Cpu.masked c, procs s) (fun r '(c', p') => c' = Cpu.masked c /\ R r p') ->
  (forall r p', R r p' -> Q r (set_procs (Cpu.masked c, p') s)) ->
  wp (zoom m) s Q.
Proof.
  intros [] Hm HQ. apply wp_zoom. change (lget s) with (cpu s, procs s). rewrite he_cpu0.
  eapply wp_mono; [exact Hm|]. cbv beta. intros r [c' p'] [-> HR]. by apply HQ.
Qed.

(** ** Entries of the table *)

Definition fresh : vfs_file := VfsFile true 1 VFS_FILE_MINIFS None 0 0 0 0.

Lemma table_exempt t p k f : table_ok None t p -> t !! k = Some cleared -> table_ok (Some k) (<[k := f]> t) p.
Proof.
  intros [Hl He Hv Hu Ho] Hk. assert (k < length t)%nat by (by eapply lookup_lt_Some). split.
  - by rewrite length_insert.
  - intros k' f' Hk' Hne. rewrite list_lookup_insert_ne in Hk' by congruence. by apply (He k').
  - intros i d Hs. destruct (Hv i d Hs) as (k' & f' & E & _ & Hk' & Hf').
    assert (k' <> k) as Hne by (intros ->; rewrite Hk in Hk'; simplify_eq; by destruct Hf').
    exists k', f'. split; [done|]. split; [congruence|]. split; [by rewrite list_lookup_insert_ne|done].
  - done.
  - intros k' f' Hk' Hne. rewrite list_lookup_insert_ne in Hk' by congruence. by apply Ho.
Qed.

(** Clearing the entry in transit. *)
Lemma table_clear t p k : table_ok (Some k) t p -> table_ok None (<[k := cleared]> t) p.
Proof.
  intros [Hl He Hv Hu Ho]. split; [by rewrite length_insert| | |done|].
  - intros k' f' Hk' _. apply list_lookup_insert_Some in Hk' as [(<- & <- & _) | [Hne Hk']]; [by right|].
    apply (He k'); congruence.
  - intros i d Hs. destruct (Hv i d Hs) as (k' & f' & E & Hne & Hk' & Hf').
    exists k', f'. split; [done|]. split; [done|]. split; [by rewrite list_lookup_insert_ne by congruence|done].
  - intros k' f' Hk' _ Hf'. apply list_lookup_insert_Some in Hk' as [(<- & <- & _) | [Hne Hk']]; [done|].
    apply (Ho k' f'); congruence.
Qed.

(** A change of an open entry that keeps it open. *)
Lemma table_update ex t p k f : table_ok ex t p -> ex <> Some k -> open_file f ->
  (exists f0, t !! k = Some f0 /\ open_file f0) -> table_ok ex (<[k := f]> t) p.
Proof.
  intros [Hl He Hv Hu Ho] Hex Hf (f0 & Hk & Hf0). split; [by rewrite length_insert| | |done|].
  - intros k' f' Hk' Hne. apply list_lookup_insert_Some in Hk' as [(<- & <- & _) | [Hne' Hk']]; [by left|]. by apply (He k').
  - intros i d Hs. destruct (Hv i d Hs) as (k' & f' & E & Hne & Hk' & Hf').
    destruct (decide (k = k')) as [<-|Hkk].
    + exists k, f. split; [done|]. split; [done|]. split; [|done]. apply list_lookup_insert_eq. by eapply lookup_lt_Some.
    + exists k', f'. split; [done|]. split; [done|]. split; [by rewrite list_lookup_insert_ne|done].
  - intros k' f' Hk' Hne Hu'. apply list_lookup_insert_Some in Hk' as [(<- & <- & _) | [Hne' Hk']]; [|by apply (Ho k' f')].
    apply (Ho k f0); [done..|apply Hf0].
Qed.

(** A new descriptor for the entry in transit. *)
Lemma table_install t p p' k f i0 d0 : table_ok (Some k) t p -> (k < length t)%nat -> open_file f ->
  fdt_slot p i0 d0 = 0 ->
  (forall i d, fdt_slot p' i d = if bool_decide (i = i0 /\ d = d0) then handle k else fdt_slot p i d) ->
  table_ok None (<[k := f]> t) p'.
Proof.
  intros [Hl He Hv Hu Ho] Hk Hf H0 Hp'. split; [by rewrite length_insert| | | |].
  - intros k' f' Hk' _. apply list_lookup_insert_Some in Hk' as [(<- & <- & _) | [Hne Hk']]; [by left|].
    apply (He k'); congruence.
  - intros i d. rewrite Hp'. case_bool_decide as Hid.
    + intros _. exists k, f. split; [done|]. split; [done|]. split; [by apply list_lookup_insert_eq|done].
    + intros Hs. destruct (Hv i d Hs) as (k' & f' & E & Hne & Hk' & Hf').
      exists k', f'. split; [done|]. split; [done|]. split; [by rewrite list_lookup_insert_ne by congruence|done].
  - assert (forall i d, fdt_slot p i d <> handle k) as Hnot.
    { intros i d E. destruct (Hv i d) as (k' & f' & E' & Hne & _); [rewrite E; apply handle_pos|].
      apply Hne. f_equal. apply handle_inj. congruence. }
    intros i d i' d'. rewrite !Hp'. do 2 case_bool_decide; intros Hs E; try naive_solver.
  - intros k' f' Hk' _ Hu'. apply list_lookup_insert_Some in Hk' as [(<- & <- & _) | [Hne Hk']].
    + exists i0, d0. rewrite Hp'. by rewrite bool_decide_true.
    + destruct (Ho k' f') as (i & d & E); [done|congruence|done|]. exists i, d. rewrite Hp'.
      rewrite bool_decide_false; [done|]. intros [-> ->]. rewrite H0 in E. by apply (handle_pos k').
Qed.

(** Removing a descriptor puts its entry in transit. *)
Lemma table_remove t p p' i0 d0 k : table_ok None t p -> fdt_slot p i0 d0 = handle k ->
  (forall i d, fdt_slot p' i d = if bool_decide (i = i0 /\ d = d0) then 0 else fdt_slot p i d) ->
  table_ok (Some k) t p'.
Proof.
  intros [Hl He Hv Hu Ho] H0 Hp'. split; [done| | | |].
  - intros k' f' Hk' _. by apply (He k').
  - intros i d. rewrite Hp'. case_bool_decide as Hid; [done|]. intros Hs.
    destruct (Hv i d Hs) as (k' & f' & E & _ & Hk' & Hf'). exists k', f'. split; [done|]. split; [|done].
    intros [= ->]. apply Hid. apply Hu; [done|congruence].
  - intros i d i' d'. rewrite !Hp'. do 2 case_bool_decide; try done; intros Hs E; try congruence; by apply Hu.
  - intros k' f' Hk' Hne Hu'. destruct (Ho k' f') as (i & d & E); [done..|]. exists i, d. rewrite Hp'.
    rewrite bool_decide_false; [done|]. intros [-> ->]. apply Hne. f_equal. apply handle_inj. congruence.
Qed.

Lemma table_same_slots ex t p p' : table_ok ex t p -> (forall i d, fdt_slot p' i d = fdt_slot p i d) -> table_ok ex t p'.
Proof.
  intros [Hl He Hv Hu Ho] Hp'. split; [done|done| | |].
  - intros i d. rewrite Hp'. apply Hv.
  - intros i d i' d'. rewrite !Hp'. apply Hu.
  - intros k f Hk Hne Hu'. destruct (Ho k f) as (i & d & E); [done..|]. exists i, d. by rewrite Hp'.
Qed.

(** ** The helpers under the lock *)

Lemma held_files c ex ex' s t : held c ex s -> table_ok ex' t (procs s) -> held c ex' (set_files t s).
Proof. intros [] Ht. by split. Qed.

Lemma held_procs c ex ex' s p : held c ex s -> fdt_inv p -> table_ok ex' (file_table s) p ->
  held c ex' (set_procs (Cpu.masked c, p) s).
Proof. intros [] Hp Ht. by split. Qed.

Lemma wp_clear_file c k s (Q : unit -> vfs F P -> Prop) :
  held c (Some k) s -> (k < 32)%nat ->
  (held c None (set_files (<[k := cleared]> (file_table s)) s) -> Q tt (set_files (<[k := cleared]> (file_table s)) s)) ->
  wp (clear_file (Z.of_nat k)) s Q.
Proof.
  intros Hs Hk HQ. apply wp_put_file; [rewrite (tab_length _ _ _ (he_table _ _ _ Hs)); lia|].
  apply HQ. eapply held_files; [done|]. apply table_clear, Hs.
Qed.

Lemma wp_allocate_file c s (Q : option Z -> vfs F P -> Prop) :
  held c None s -> Q None s ->
  (forall k, (k < 32)%nat -> file_table s !! k = Some cleared ->
     held c (Some k) (set_files (<[k := fresh]> (file_table s)) s) ->
     Q (Some (Z.of_nat k)) (set_files (<[k := fresh]> (file_table s)) s)) ->
  wp allocate_file s Q.
Proof.
  intros Hs Hnone HQ. pose proof (he_table _ _ _ Hs) as Ht. pose proof (tab_length _ _ _ Ht) as Hl.
  apply (wp_for_until (fun _ s' => s' = s)); [done| |by intros ? ->].
  intros j s' Hj ->. destruct (lookup_lt_is_Some_2 (file_table s) (Z.to_nat j)) as [f Hf]; [lia|].
  replace j with (Z.of_nat (Z.to_nat j)) by lia. set (k := Z.to_nat j) in *.
  apply wp_bind. eapply wp_get_file; [done|]. destruct (used f) eqn:Eu; cbn [negb]; [by run|].
  assert (f = cleared) as ->.
  { destruct (tab_entry _ _ _ Ht k f Hf) as [[]|]; [done|congruence|done]. }
  run. apply wp_put_file; [lia|]. run. apply wp_put_file; [simpl; rewrite length_insert; lia|]. run.
  cbn [file_table set_files]. rewrite list_insert_insert_eq.
  change (set_files ?a (set_files ?b s)) with (set_files a s).
  apply HQ; [lia|done|]. eapply held_files; [done|]. by apply table_exempt.
Qed.

Lemma wp_file_from_handle s h (Q : option Z -> vfs F P -> Prop) :
  (h = 0 -> Q None s) ->
  (forall k f, h = handle k -> file_table s !! k = Some f -> (k < 32)%nat -> open_file f -> Q (Some (Z.of_nat k)) s) ->
  (h = 0 \/ exists k f, h = handle k /\ file_table s !! k = Some f /\ (k < 32)%nat /\ open_file f) ->
  wp (file_from_handle FILE_TABLE h) s Q.
Proof.
  intros H0 H1 Hh. unfold file_from_handle, handle_of, VFS_FILE_LIMIT, VFS_FILE_SIZE.
  destruct Hh as [-> | (k & f & -> & Hf & Hk & Ho)].
  - rewrite (proj2 (Z.ltb_lt _ _)) by lia. by run; apply H0.
  - unfold handle at 1 2, handle_of, VFS_FILE_SIZE. rewrite (proj2 (Z.ltb_ge _ _)), (proj2 (Z.leb_gt _ _)) by lia. cbn [orb].
    unfold handle, handle_of, VFS_FILE_SIZE. replace (FILE_TABLE + Z.of_nat k * 32 - FILE_TABLE) with (Z.of_nat k * 32) by lia.
    rewrite Z_mod_mult, Z_div_mult by lia. cbn [Z.eqb negb]. apply wp_bind. eapply wp_get_file; [done|]. run. pose proof Ho as [-> -> -> ? ?].
    cbn. eapply H1; [done|done|done|done].
Qed.

(** The file of a descriptor: none, or an open entry. *)
Lemma wp_file_of c s d (Q : option Z -> vfs F P -> Prop) :
  held c None s ->
  (fdt_slot (procs s) (fdt_current (procs s)) d = 0 -> Q None s) ->
  (forall k f, fdt_slot (procs s) (fdt_current (procs s)) d = handle k -> file_table s !! k = Some f ->
     (k < 32)%nat -> open_file f -> Q (Some (Z.of_nat k)) s) ->
  wp (file_of FILE_TABLE d) s Q.
Proof.
  intros Hs H0 H1. unfold file_of. apply wp_bind.
  eapply (wp_fd _ (fun h p' => p' = procs s /\ h = fdt_slot (procs s) (fdt_current (procs s)) d)); [done| |].
  { eapply wp_mono; [apply fdt_get_ok; [apply Hs|apply Hs]|]. by intros h [c' p'] (-> & -> & ->). }
  intros h p' [-> ->]. rewrite <-(he_cpu _ _ _ Hs). replace (set_procs _ s) with s by (by destruct s).
  apply wp_file_from_handle; [done|done|].
  destruct (decide (fdt_slot (procs s) (fdt_current (procs s)) d = 0)) as [|Hne]; [by left|right].
  destruct (tab_live _ _ _ (he_table _ _ _ Hs) _ _ Hne) as (k & f & E & _ & Hk & Hf). exists k, f.
  split; [done|]. split; [done|]. split; [|done]. rewrite <-(tab_length _ _ _ (he_table _ _ _ Hs)). by eapply lookup_lt_Some.
Qed.

(** ** The calls under the lock *)

Lemma wp_truncated c ex s (b : bool) n (Q : Z -> vfs F P -> Prop) :
  held c ex s ->
  (forall r f', held c ex (set_fsys (Cpu.masked c, f') s) -> Q r (set_fsys (Cpu.masked c, f') s)) ->
  wp (if b then zoom (fso_truncate n 0) else ret 0) s Q.
Proof.
  intros Hs HQ. destruct b.
  - eapply (wp_fs _ (fun _ => True)); [done| |intros r f' _; apply HQ].
    eapply wp_mono; [apply fso_truncate_ok; [apply Hs|apply Hs|done]|]. by intros r [c' f'] [-> ?].
  - apply wp_ret. specialize (HQ 0 (fsys s)). rewrite <-(he_cpu _ _ _ Hs) in HQ. destruct s. by apply HQ.
Qed.

Lemma wp_lookup_or_create c ex s path fl (Q : result minifs_stat -> vfs F P -> Prop) :
  held c ex s -> bytes path ->
  (forall r f', (forall st, r = Err st -> st < 0) -> held c ex (set_fsys (Cpu.masked c, f') s) ->
     Q r (set_fsys (Cpu.masked c, f') s)) ->
  wp (lookup_or_create path fl) s Q.
Proof.
  intros Hs Hp HQ. unfold lookup_or_create. apply wp_bind.
  eapply (wp_fs _ (fun r => forall st, r = Err st -> st < 0)); [done| |].
  { eapply wp_mono; [apply fso_lookup_ok; [apply Hs|apply Hs|done]|]. cbv beta. intros r [c' f'] (? & ? & Hr). split; [done|]. split; [done|]. by intros st ->. }
  intros [st|stat] f' Hr Hs'; [|apply wp_ret; auto]. destruct (_ && _); [|apply wp_ret; auto].
  eapply (wp_fs _ (fun r => forall st, r = Err st -> st < 0)); [done| |].
  { eapply wp_mono; [apply fso_create_ok; [apply Hs|apply Hs'|done]|]. by intros r [c' f''] ?. }
  intros r f'' Hr' Hs''. by apply HQ.
Qed.

(** After opening the table is consistent again, whether the call succeeded or
    failed half-way; a descriptor it returned names a fresh entry. *)
Lemma open_entry_held c k s path fl :
  held c (Some k) s -> (k < 32)%nat -> file_table s !! k = Some fresh -> bytes path -> flags_valid fl = true ->
  wp (open_entry FILE_TABLE (Z.of_nat k) path fl) s (fun r s' => held c None s').
Proof.
  intros Hs Hk Hf Hp Hfl. unfold open_entry. apply wp_bind. eapply wp_lookup_or_create; [done|done|].
  intros r f' Hr Hs1. set (s1 := set_fsys _ s) in *.
  destruct r as [st|status].
  { specialize (Hr st eq_refl). rewrite (proj2 (Z.ltb_lt _ _)) by lia. run. eapply wp_clear_file; [done|done|]. intros ?. by run. }
  destruct (_ && _).
  { run. eapply wp_clear_file; [done|done|]. intros ?. by run. }
  apply wp_bind. eapply wp_truncated; [done|]. intros r f'' Hs2. set (s2 := set_fsys _ s1) in *.
  destruct (r <? 0).
  { run. eapply wp_clear_file; [done|done|]. intros ?. by run. }
  run. eapply wp_get_file; [exact Hf|]. run.
  apply wp_put_file; [rewrite (tab_length _ _ _ (he_table _ _ _ Hs2)); lia|]. apply wp_bind.
  set (f := VfsFile _ _ _ _ _ _ _ _). set (s3 := set_files _ s2).
  assert (open_file f) as Hopen by (by split).
  assert (held c (Some k) s3) as Hs3.
  { eapply held_files; [done|]. destruct (he_table _ _ _ Hs2) as [Hl He Hv Hu Ho]. split.
    - by rewrite length_insert.
    - intros k' f0 Hk' Hne. rewrite list_lookup_insert_ne in Hk' by congruence. by apply (He k').
    - intros i d Hsl. destruct (Hv i d Hsl) as (k' & f0 & ? & ? & ? & ?). exists k', f0.
      rewrite list_lookup_insert_ne by congruence. done.
    - done.
    - intros k' f0 Hk' Hne. rewrite list_lookup_insert_ne in Hk' by congruence. by apply Ho. }
  eapply (wp_fd _ (fun r p' => fdt_inv p' /\ ((3 <= r < 16 /\ table_ok None (file_table s3) p') \/
                               (r < 0 /\ table_ok (Some k) (file_table s3) p')))); [done| |].
  { eapply wp_mono; [apply fdt_install_ok; [apply Hs|apply Hs|apply handle_pos]|].
    intros r' [c' p'] (-> & Hi & _ & [(Hr' & H0 & Hsl) | [Hr' Hsl]]); (split; [done|]); split; try done; [left|right]; split; try done.
    - eapply table_install; [apply Hs2| |done|done|done]. rewrite (tab_length _ _ _ (he_table _ _ _ Hs2)). lia.
    - eapply table_same_slots; [apply Hs3|done]. }
  intros r' p' [Hi [[Hr' Ht] | [Hr' Ht]]].
  - rewrite (proj2 (Z.ltb_ge _ _)) by lia. run. by eapply held_procs.
  - rewrite (proj2 (Z.ltb_lt _ _)) by lia. apply wp_bind. eapply wp_clear_file; [by eapply held_procs|done|]. intros ?. by run.
Qed.

Lemma open_locked_held c s path fl :
  held c None s -> bytes path -> flags_valid fl = true ->
  wp (open_locked FILE_TABLE path fl) s (fun r s' => held c None s').
Proof.
  intros Hs Hp Hfl. unfold open_locked. apply wp_bind. eapply wp_allocate_file; [done|by run|].
  intros k Hk Hkf Hs'. apply open_entry_held; try done. apply list_lookup_insert_eq. by eapply lookup_lt_Some.
Qed.

(** Closing: the descriptor is free afterwards and its entry is cleared. *)
Lemma close_locked_held c s d :
  held c None s ->
  wp (close_locked FILE_TABLE d) s (fun r s' => held c None s' /\
    r = (if decide (fdt_slot (procs s) (fdt_current (procs s)) d = 0) then - EBADF else 0) /\
    fdt_current (procs s') = fdt_current (procs s) /\
    forall i e, fdt_slot (procs s') i e =
      if bool_decide (i = fdt_current (procs s) /\ e = d) then 0 else fdt_slot (procs s) i e).
Proof.
  intros Hs. unfold close_locked. apply wp_bind.
  eapply (wp_fd _ (fun h p' => fdt_inv p' /\ fdt_current p' = fdt_current (procs s) /\
    h = fdt_slot (procs s) (fdt_current (procs s)) d /\
    forall i e, fdt_slot p' i e = if bool_decide (i = fdt_current (procs s) /\ e = d) then 0 else fdt_slot (procs s) i e)); [done| |].
  { eapply wp_mono; [apply fdt_remove_ok; [apply Hs|apply Hs]|]. intros h [c' p'] (-> & ?). done. }
  intros h p' (Hi & Hc & -> & Hsl). set (s1 := set_procs _ s). apply wp_bind. pose proof (he_table _ _ _ Hs) as Ht.
  apply wp_file_from_handle.
  - intros E. rewrite decide_True by done. run. split; [|done]. eapply held_procs; [done|done|].
    eapply table_same_slots; [done|]. intros i e. rewrite Hsl. case_bool_decide as Hb; [|done]. destruct Hb as [-> ->]. done.
  - intros k f E Hf Hk Ho. rewrite decide_False by (rewrite E; apply handle_pos).
    run. eapply wp_get_file; [done|]. run. rewrite (open_count f Ho). change (1 -u 1) with 0. cbn [Z.eqb].
    assert (length (file_table s1) = 32%nat) as Hl by apply (tab_length _ _ _ Ht).
    apply wp_put_file; [lia|]. run. apply wp_put_file; [cbn in *; rewrite length_insert; lia|]. run. cbn [file_table set_files].
    rewrite list_insert_insert_eq. split; [|done].
    change (held c None (set_files (<[k := cleared]> (file_table s1)) s1)).
    eapply (held_files c (Some k)); [eapply held_procs; [done|done|]|apply table_clear]; by eapply table_remove.
  - destruct (decide (fdt_slot (procs s) (fdt_current (procs s)) d = 0)) as [|Hne]; [by left|right].
    destruct (tab_live _ _ _ Ht _ _ Hne) as (k & f & E & _ & Hk & Hf). exists k, f.
    split; [done|]. split; [done|]. split; [|done]. rewrite <-(tab_length _ _ _ Ht). by eapply lookup_lt_Some.
Qed.

(** A new offset for an open entry. *)
Definition moved k (f : vfs_file) (v : Z) s : vfs F P := set_files (<[k := set_offset v f]> (file_table s)) s.

Lemma open_set_offset f v : open_file f -> 0 <= v < 4294967296 -> open_file (set_offset v f).
Proof. intros [] Hv. by split. Qed.

Lemma held_moved c k f v s : held c None s -> file_table s !! k = Some f -> open_file f -> 0 <= v < 4294967296 ->
  held c None (moved k f v s).
Proof.
  intros Hs Hk Hf Hv. eapply held_files; [done|]. apply table_update; [apply Hs|done|by apply open_set_offset|eauto].
Qed.

Lemma wp_advance k f r s (Q : unit -> vfs F P -> Prop) :
  file_table s !! k = Some f ->
  Q tt (if 0 <? r then moved k f (offset f +u r) s else s) -> wp (advance (Z.of_nat k) r) s Q.
Proof.
  intros Hk HQ. unfold advance. destruct (0 <? r); [|by run].
  run. eapply wp_get_file; [done|]. apply wp_put_file; [by eapply lookup_lt_Some|done].
Qed.

Lemma held_advanced c k f r s : held c None s -> file_table s !! k = Some f -> open_file f ->
  held c None (if 0 <? r then moved k f (offset f +u r) s else s).
Proof. intros. destruct (0 <? r); [|done]. apply held_moved; try done. apply u32_range. Qed.

(** Transfers: refused without an effect, or exactly the file system's read or
    write at the offset of the open file, which moves behind the bytes. *)
Lemma wp_read_locked c s d n (Q : Z * list Z -> vfs F P -> Prop) :
  held c None s ->
  (fdt_slot (procs s) (fdt_current (procs s)) d = 0 -> Q (- EBADF, []) s) ->
  (forall k f, fdt_slot (procs s) (fdt_current (procs s)) d = handle k -> file_table s !! k = Some f -> open_file f ->
     if negb (file_readable f) then Q (- EBADF, []) s else
     if file_mode f =? MINIFS_MODE_DIRECTORY then Q (- EISDIR, []) s else
     wp (fso_read (inode_number f) (offset f) n) (Cpu.masked c, fsys s) (fun r '(c', f') => c' = Cpu.masked c /\
       Q r (if 0 <? fst r then moved k f (offset f +u fst r) (set_fsys (c', f') s) else set_fsys (c', f') s))) ->
  wp (read_locked FILE_TABLE d n) s Q.
Proof.
  intros Hs H0 H1. unfold read_locked. apply wp_bind. eapply wp_file_of; [done|intros E; run; auto|].
  intros k f E Hk Hlt Hf. specialize (H1 k f E Hk Hf). apply wp_bind. eapply wp_get_file; [done|].
  destruct (negb (file_readable f)); [by run|]. destruct (_ =? _); [by run|].
  unfold ops_read. rewrite (open_ops f Hf). apply wp_bind, wp_zoom.
  change (lget s) with (cpu s, fsys s). rewrite (he_cpu _ _ _ Hs). eapply wp_mono; [exact H1|]. cbv beta.
  intros r [c' f'] [-> HQ]. apply wp_bind. apply (wp_advance k f); [done|]. apply wp_ret. exact HQ.
Qed.

Lemma wp_write_locked c s d source (Q : Z -> vfs F P -> Prop) :
  held c None s ->
  (fdt_slot (procs s) (fdt_current (procs s)) d = 0 -> Q (- EBADF) s) ->
  (forall k f, fdt_slot (procs s) (fdt_current (procs s)) d = handle k -> file_table s !! k = Some f -> open_file f ->
     if negb (file_writable f) then Q (- EBADF) s else
     if file_mode f =? MINIFS_MODE_DIRECTORY then Q (- EISDIR) s else
     wp (fso_write (inode_number f) (offset f) source) (Cpu.masked c, fsys s) (fun r '(c', f') => c' = Cpu.masked c /\
       Q r (if 0 <? r then moved k f (offset f +u r) (set_fsys (c', f') s) else set_fsys (c', f') s))) ->
  wp (write_locked FILE_TABLE d source) s Q.
Proof.
  intros Hs H0 H1. unfold write_locked. apply wp_bind. eapply wp_file_of; [done|intros E; run; auto|].
  intros k f E Hk Hlt Hf. specialize (H1 k f E Hk Hf). apply wp_bind. eapply wp_get_file; [done|].
  destruct (negb (file_writable f)); [by run|]. destruct (_ =? _); [by run|].
  unfold ops_write. rewrite (open_ops f Hf). apply wp_bind, wp_zoom.
  change (lget s) with (cpu s, fsys s). rewrite (he_cpu _ _ _ Hs). eapply wp_mono; [exact H1|]. cbv beta.
  intros r [c' f'] [-> HQ]. apply wp_bind. apply (wp_advance k f); [done|]. apply wp_ret. exact HQ.
Qed.

Lemma held_fsys c ex s f : held c ex s -> fso_inv f -> held c ex (set_fsys (Cpu.masked c, f) s).
Proof. intros [] Hf. by split. Qed.

Lemma filled_error n st : st < 0 -> filled n (st, []).
Proof. intros Hst. split; [apply Forall_nil_2|]. unfold zlength. cbn. lia. Qed.

Lemma read_locked_held c s d n : held c None s ->
  wp (read_locked FILE_TABLE d n) s (fun r s' => held c None s' /\ filled n r).
Proof.
  assert (forall st, st < 0 -> held c None s -> held c None s /\ filled n (st, [])) as He by (by auto using filled_error).
  intros Hs. eapply wp_read_locked; [done|intros _; by apply He|]. intros k f _ Hk Hf.
  destruct (negb _); [by apply He|]. destruct (_ =? _); [by apply He|].
  eapply wp_mono; [apply fso_read_ok; apply Hs|]. cbv beta. intros r [c' f'] (-> & Hf' & Hr). split; [done|]. split; [|done].
  apply held_advanced; [by apply held_fsys|done|done].
Qed.

Lemma write_locked_held c s d source : held c None s -> bytes source ->
  wp (write_locked FILE_TABLE d source) s (fun _ s' => held c None s').
Proof.
  intros Hs Hb. eapply wp_write_locked; [done|done|]. intros k f _ Hk Hf.
  destruct (negb _); [done|]. destruct (_ =? _); [done|].
  eapply wp_mono; [apply fso_write_ok; [apply Hs|apply Hs|done]|]. cbv beta. intros r [c' f'] [-> Hf']. split; [done|].
  apply held_advanced; [by apply held_fsys|done|done].
Qed.

(** Seeking from the start or from the current offset. *)
Lemma wp_lseek_locked c s d delta whence (Q : Z -> vfs F P -> Prop) :
  held c None s -> whence = MINIOS_SEEK_SET \/ whence = MINIOS_SEEK_CUR ->
  (fdt_slot (procs s) (fdt_current (procs s)) d = 0 -> Q (- EBADF) s) ->
  (forall k f, fdt_slot (procs s) (fdt_current (procs s)) d = handle k -> file_table s !! k = Some f -> open_file f ->
     let target := (if whence =? MINIOS_SEEK_SET then 0 else offset f) + delta in
     if (target <? 0) || (INT32_MAX <? target) then Q (- EINVAL) s else Q target (moved k f target s)) ->
  wp (lseek_locked FILE_TABLE d delta whence) s Q.
Proof.
  intros Hs Hw H0 H1. unfold lseek_locked. apply wp_bind. eapply wp_file_of; [done|intros E; run; auto|].
  intros k f E Hk Hlt Hf. specialize (H1 k f E Hk Hf). apply wp_bind. eapply wp_get_file; [done|].
  unfold seek_base. destruct Hw as [-> | ->]; cbn in H1 |- *; apply wp_bind, wp_ret; cbv beta iota zeta;
    (destruct (_ || _); [by apply wp_ret|]); apply wp_bind; (eapply wp_get_file; [done|]); apply wp_bind;
    (apply wp_put_file; [by eapply lookup_lt_Some|]); by apply wp_ret.
Qed.

Lemma lseek_locked_held c s d delta whence : held c None s ->
  wp (lseek_locked FILE_TABLE d delta whence) s (fun _ s' => held c None s').
Proof.
  intros Hs. unfold lseek_locked. apply wp_bind. eapply wp_file_of; [done|intros E; by run|].
  intros k f _ Hk Hlt Hf. apply wp_bind. eapply wp_get_file; [done|]. apply wp_bind.
  assert (forall f', held c None (set_fsys (Cpu.masked c, f') s) -> forall base,
    wp (match base with
        | Err result => ret result
        | Ok base => let target := base + delta in
            if (target <? 0) || (INT32_MAX <? target) then ret (- EINVAL) else
            let! f' := get_file (Z.of_nat k) in put_file (Z.of_nat k) (set_offset target f') ;; ret target
        end) (set_fsys (Cpu.masked c, f') s) (fun _ s' => held c None s')) as Htail.
  { intros f' Hs' [st|base]; [by run|]. cbv zeta. destruct (Z.ltb_spec (base + delta) 0); [by run|].
    destruct (Z.ltb_spec INT32_MAX (base + delta)); [by run|]. cbn [orb]. apply wp_bind. eapply wp_get_file; [exact Hk|].
    apply wp_bind, wp_put_file; [by eapply lookup_lt_Some|]. apply wp_ret. apply held_moved; try done.
    unfold INT32_MAX in *. lia. }
  assert (set_fsys (Cpu.masked c, fsys s) s = s) as Hid by (rewrite <-(he_cpu _ _ _ Hs); by destruct s).
  unfold seek_base. pose proof (Htail (fsys s)) as Hh. rewrite Hid in Hh.
  destruct (whence =? MINIOS_SEEK_SET); [apply wp_ret, (Hh Hs (Ok 0))|].
  destruct (whence =? MINIOS_SEEK_CUR); [apply wp_ret, (Hh Hs (Ok (offset f)))|].
  destruct (whence =? MINIOS_SEEK_END); [|apply wp_ret, (Hh Hs (Err (- EINVAL)))].
  unfold ops_stat. rewrite (open_ops f Hf). apply wp_bind.
  eapply (wp_fs _ (fun r => forall st, r = Err st -> st < 0)); [done| |].
  { eapply wp_mono; [apply fso_stat_ok; apply Hs|]. by intros r [c' f'] ?. }
  intros [st|status] f' Hr Hs'; [|apply wp_ret, (Htail f' Hs' (Ok (st_size status)))].
  rewrite (proj2 (Z.ltb_lt _ _)) by auto. apply wp_ret, (Htail f' Hs' (Err st)).
Qed.

Lemma readdir_locked_held c s d : held c None s -> wp (readdir_locked FILE_TABLE d) s (fun r s' =>
  held c None s' /\ (fst r = 1 -> exists e, snd r = Some (export_entry e))).
Proof.
  intros Hs. unfold readdir_locked. apply wp_bind. eapply wp_file_of; [done|intros E; by run|].
  intros k f _ Hk Hlt Hf. apply wp_bind. eapply wp_get_file; [done|].
  destruct (negb (file_readable f)); [by run|]. destruct (negb (file_mode f =? _)); [by run|]. apply wp_bind.
  eapply (wp_fs _ (fun r => (fst (fst r) = 1 -> snd r <> None) /\ 0 <= snd (fst r) < 4294967296)); [done| |].
  { eapply wp_mono; [apply fso_readdir_ok; [apply Hs..|apply Hf]|]. by intros r [c' f'] ?. }
  intros [[r cursor] entry] f' [He Hcur] Hs'. cbn [fst snd] in *. apply wp_bind. eapply wp_get_file; [exact Hk|].
  apply wp_bind, wp_put_file; [by eapply lookup_lt_Some|].
  assert (held c None (moved k f cursor (set_fsys (Cpu.masked c, f') s))) as Hs2 by (by apply held_moved).
  destruct (Z.eqb_spec r 1) as [->|]; [|by run]. destruct entry as [e|]; [|by destruct (He eq_refl)].
  run. split; [done|]. intros _. by exists e.
Qed.

(** [vfs_unlink] of a file that is open fails with EBUSY and leaves the file
    system as the lookup left it; otherwise the file system decides. *)
Definition is_open s (n : Z) : Prop := exists k f, file_table s !! k = Some f /\ used f = true /\ inode_number f = n.

Lemma wp_unlink_locked c s path (Q : Z -> vfs F P -> Prop) :
  held c None s -> bytes path ->
  wp (fso_lookup path) (Cpu.masked c, fsys s) (fun l '(c', f') =>
    c' = Cpu.masked c /\ fso_inv f' /\
    match l with
    | Err st => st < 0 /\ Q st (set_fsys (c', f') s)
    | Ok st =>
        (is_open s (st_inode st) -> Q (- EBUSY) (set_fsys (c', f') s)) /\
        (~ is_open s (st_inode st) ->
           wp (fso_unlink path) (c', f') (fun r '(c'', f'') => Q r (set_fsys (c'', f'') s)))
    end) ->
  wp (unlink_locked path) s Q.
Proof.
  intros Hs Hp Hl. unfold unlink_locked. apply wp_bind, wp_zoom. change (lget s) with (cpu s, fsys s).
  rewrite (he_cpu _ _ _ Hs). eapply wp_mono; [exact Hl|]. cbv beta. intros l [c' f'] (-> & Hf & Hm).
  destruct l as [st|st]; [destruct Hm as [Hst HQ]; rewrite (proj2 (Z.ltb_lt _ _)) by done; by run|].
  destruct Hm as [Hbusy Hfree]. apply wp_bind.
  pose proof (tab_length _ _ _ (he_table _ _ _ Hs)) as Hlen.
  eapply (wp_for_until (fun j s' => s' = set_fsys (Cpu.masked c, f') s /\
    forall k f, Z.of_nat k < j -> file_table s !! k = Some f -> used f && (inode_number f =? st_inode st) = false)).
  - split; [done|]. lia.
  - intros j s' Hj [-> Hno]. destruct (lookup_lt_is_Some_2 (file_table s) (Z.to_nat j)) as [f Hk]; [lia|].
    replace j with (Z.of_nat (Z.to_nat j)) by lia. set (k := Z.to_nat j) in *.
    apply wp_bind. eapply wp_get_file; [exact Hk|]. apply wp_ret.
    destruct (used f && (inode_number f =? st_inode st)) eqn:E.
    + cbv beta iota. apply wp_ret, Hbusy. apply andb_true_iff in E as [Eu En%Z.eqb_eq]. by exists k, f.
    + split; [done|]. intros k' f0 Hk' Hf0. destruct (decide (k' = k)) as [->|]; [by simplify_eq|]. apply (Hno k'); [lia|done].
  - intros s' [-> Hno]. cbv beta iota. apply wp_zoom. change (lget (set_fsys _ s)) with (Cpu.masked c, f').
    eapply wp_mono; [apply Hfree|].
    { intros (k & f & Hk & Hu & Hn). assert (k < length (file_table s))%nat by (by eapply lookup_lt_Some).
      specialize (Hno k f ltac:(lia) Hk). by rewrite Hu, Hn, Z.eqb_refl in Hno. }
    cbv beta. by intros r [c'' f''] HQ.
Qed.

Lemma unlink_locked_held c s path : held c None s -> bytes path ->
  wp (unlink_locked path) s (fun _ s' => held c None s').
Proof.
  intros Hs Hp. apply (wp_unlink_locked c); [done|done|].
  eapply wp_mono; [apply fso_lookup_ok; [apply Hs..|done]|]. cbv beta. intros l [c' f'] (-> & Hf & Hl).
  split; [done|]. split; [done|]. destruct l as [st|st]; [split; [auto|by apply held_fsys]|].
  split; [intros _; by apply held_fsys|]. intros _.
  eapply wp_mono; [apply fso_unlink_ok; [apply Hs|done|done]|]. cbv beta. intros r [c'' f''] [-> ?]. by apply held_fsys.
Qed.

(** ** The calls *)

(** The invariant holds again after a call, and the interrupt flag is restored. *)
Definition kept {A} s (_ : A) s' : Prop := vfs_inv s' /\ cpu s' = cpu s.

Lemma wp_call {A} (refuse : Z -> A) (body : M (vfs F P) A) s :
  vfs_inv s -> wp body (enter s) (fun _ s' => held (cpu s) None s') -> wp (locked refuse body) s (kept s).
Proof.
  intros Hs Hb. apply wp_vfs_locked; [done|]. eapply wp_mono; [exact Hb|]. cbv beta. intros r s' Hs'.
  split; [apply Hs'|]. split; [|done]. apply inv_leave; [apply Hs|done].
Qed.

Lemma wp_call_result {A} (R : A -> Prop) (refuse : Z -> A) (body : M (vfs F P) A) s :
  vfs_inv s -> wp body (enter s) (fun r s' => held (cpu s) None s' /\ R r) ->
  wp (locked refuse body) s (fun r s' => kept s r s' /\ R r).
Proof.
  intros Hs Hb. apply wp_vfs_locked; [done|]. eapply wp_mono; [exact Hb|]. cbv beta. intros r s' [Hs' HR].
  split; [apply Hs'|]. split; [|done]. split; [|done]. apply inv_leave; [apply Hs|done].
Qed.

Lemma vfs_read_ok s d n : vfs_inv s -> wp (vfs_read FILE_TABLE d true n) s (fun r s' => kept s r s' /\ filled n r).
Proof.
  intros Hs. unfold vfs_read. run. rewrite (vi_ready s Hs). cbn [negb andb orb].
  apply wp_call_result; [done|]. by apply read_locked_held, held_enter.
Qed.

Lemma vfs_readdir_ok s d : vfs_inv s -> wp (vfs_readdir FILE_TABLE d true) s (fun r s' =>
  kept s r s' /\ (fst r = 1 -> exists e, snd r = Some (export_entry e))).
Proof.
  intros Hs. unfold vfs_readdir. run. rewrite (vi_ready s Hs). cbn [negb orb].
  apply wp_call_result; [done|]. by apply readdir_locked_held, held_enter.
Qed.

Lemma vfs_stat_ok s path : vfs_inv s -> bytes path -> wp (vfs_stat path true) s (fun r s' => kept s r s' /\
  match r with Err st => st < 0 | Ok st => 0 <= ms_size st <= INT32_MAX end).
Proof.
  intros Hs Hp. unfold vfs_stat. run. rewrite (vi_ready s Hs). cbn [negb orb]. apply wp_bind, wp_zoom.
  change (lget s) with (cpu s, fsys s). eapply wp_mono; [apply fso_lookup_ok; [apply Hs..|done]|]. cbv beta.
  intros r [c' f'] (-> & Hf & Hr). assert (forall B (b : B), kept s b (lset (cpu s, f') s)) as Hk by (intros; destruct Hs; by split).
  destruct r as [st|st]; [rewrite (proj2 (Z.ltb_lt _ _)) by done|]; run; (split; [apply Hk|done]).
Qed.

Lemma vfs_close_ok s d : vfs_inv s ->
  wp (vfs_close FILE_TABLE d) s (fun r s' => kept s r s' /\
    r = (if decide (fdt_slot (procs s) (fdt_current (procs s)) d = 0) then - EBADF else 0) /\
    fdt_current (procs s') = fdt_current (procs s) /\
    forall i e, fdt_slot (procs s') i e =
      if bool_decide (i = fdt_current (procs s) /\ e = d) then 0 else fdt_slot (procs s) i e).
Proof.
  intros Hs. unfold vfs_close. run. rewrite (vi_ready s Hs). cbn [negb].
  apply wp_vfs_locked; [done|]. eapply wp_mono; [by apply close_locked_held, held_enter|]. cbv beta.
  intros r s' [Hs' Hr]. split; [apply Hs'|]. split; [|done]. split; [|done]. apply inv_leave; [apply Hs|done].
Qed.

(** A process that closes everything has no descriptor left; the others keep
    theirs. *)
Lemma vfs_close_all_ok s : vfs_inv s ->
  wp (vfs_close_all_current FILE_TABLE) s (fun r s' => kept s r s' /\ fdt_current (procs s') = fdt_current (procs s) /\
    forall i e, fdt_slot (procs s') i e = if decide (i = fdt_current (procs s)) then 0 else fdt_slot (procs s) i e).
Proof.
  intros Hs. unfold vfs_close_all_current. run. rewrite (vi_ready s Hs). cbn [negb].
  set (cur := fdt_current (procs s)).
  apply (wp_for_range (fun j s' => kept s tt s' /\ fdt_current (procs s') = cur /\
    forall i e, fdt_slot (procs s') i e = if decide (i = cur /\ e < j) then 0 else fdt_slot (procs s) i e)).
  - split; [done|]. split; [done|]. intros i e. case_decide as Hd; [|done]. destruct Hd as [_ Hd].
    destruct (decide (fdt_slot (procs s) i e = 0)) as [|Hne]; [done|]. apply fdt_slot_range in Hne; [lia|apply Hs].
  - intros j s' Hj ([Hs' Hc] & Hcur & Hsl). apply wp_bind, wp_zoom. change (lget s') with (cpu s', procs s').
    eapply wp_mono; [apply fdt_get_ok; apply Hs'|]. cbv beta. intros h [c' p'] (-> & -> & ->).
    replace (lset _ s') with s' by (by destruct s'). rewrite Hcur.
    assert (forall i e, (if decide (i = cur /\ e < j + 1) then 0 else fdt_slot (procs s) i e) =
      if bool_decide (i = cur /\ e = j) then 0 else fdt_slot (procs s') i e) as Hstep.
    { intros i e. rewrite Hsl. case_bool_decide as Hb; [destruct Hb as [-> ->]; rewrite decide_True by lia; done|].
      destruct (decide (i = cur /\ e < j)) as [[-> ?]|Hn]; [by rewrite decide_True by lia|].
      rewrite decide_False; [done|]. intros [-> He]. destruct (decide (e = j)); [by apply Hb|]. apply Hn. split; [done|lia]. }
    destruct (Z.eqb_spec (fdt_slot (procs s') cur j) 0) as [E0|Hne]; cbn [negb].
    + run. split; [by split|]. split; [done|]. intros i e. rewrite Hstep. case_bool_decide as Hb; [|done]. by destruct Hb as [-> ->].
    + apply wp_bind. eapply wp_mono; [by apply vfs_close_ok|]. cbv beta. intros r s'' ([Hs'' Hc''] & _ & Hcur'' & Hsl''). run.
      split; [split; [done|congruence]|]. split; [congruence|]. intros i e. rewrite Hstep, Hsl''. by rewrite Hcur.
  - intros s' ([Hs' Hc] & Hcur & Hsl). split; [done|]. split; [done|]. intros i e. rewrite Hsl.
    destruct (decide (i = cur)) as [->|Hn]; [|by rewrite decide_False by tauto].
    case_decide as Hd; [done|]. destruct (decide (fdt_slot (procs s) cur e = 0)) as [|Hne]; [done|].
    apply fdt_slot_range in Hne; [|apply Hs]. exfalso. apply Hd. split; [done|lia].
Qed.

(** The entry points, with what they return reduced to the status. *)
Inductive call :=
| Open (path : list Z) (fl : Z) | Close (descriptor : Z)
| Read (descriptor : Z) (buffer : bool) (length : Z) | Write (descriptor : Z) (buffer : bool) (source : list Z)
| Lseek (descriptor delta whence : Z) | Stat (path : list Z) (status : bool)
| Mkdir (path : list Z) | Unlink (path : list Z) | Readdir (descriptor : Z) (entry : bool) | CloseAll.

Definition perform (c : call) : M (vfs F P) Z :=
  match c with
  | Open path flags => vfs_open FILE_TABLE path flags
  | Close d => vfs_close FILE_TABLE d
  | Read d buffer n => let! r := vfs_read FILE_TABLE d buffer n in ret (fst r)
  | Write d buffer source => vfs_write FILE_TABLE d buffer source
  | Lseek d delta whence => vfs_lseek FILE_TABLE d delta whence
  | Stat path status => let! r := vfs_stat path status in ret (match r with Err e => e | Ok _ => 0 end)
  | Mkdir path => vfs_mkdir path
  | Unlink path => vfs_unlink path
  | Readdir d entry => let! r := vfs_readdir FILE_TABLE d entry in ret (fst r)
  | CloseAll => vfs_close_all_current FILE_TABLE ;; ret 0
  end.

Definition call_ok (c : call) : Prop :=
  match c with
  | Open path _ | Stat path _ | Mkdir path | Unlink path => bytes path
  | Write _ _ source => bytes source
  | _ => True
  end.

Lemma perform_ok c s : vfs_inv s -> call_ok c -> wp (perform c) s (kept s).
Proof.
  intros Hs Hc. assert (kept s tt s) as Hk by done. pose proof (held_enter s Hs) as He.
  assert (forall A B (m : M (vfs F P) A) (g : A -> B), wp m s (kept s) -> wp (let! r := m in ret (g r)) s (kept s)) as Hmap.
  { intros A B m g Hm. apply wp_bind. eapply wp_mono; [exact Hm|]. done. }
  destruct c; cbn [perform call_ok] in *; try apply Hmap;
    unfold vfs_open, vfs_read, vfs_write, vfs_lseek, vfs_mkdir, vfs_unlink, vfs_readdir;
    try (match goal with |- wp (bind (gets _) _) _ _ => apply wp_bind, wp_gets; rewrite (vi_ready s Hs); cbn [negb orb] end).
  - destruct (flags_valid fl) eqn:Ef; cbn [negb]; [|by run]. apply wp_call; [done|]. by apply open_locked_held.
  - eapply wp_mono; [by apply vfs_close_ok|]. by intros r s' [? _].
  - destruct (_ && _); [by run|]. apply wp_call; [done|]. eapply wp_mono; [by apply read_locked_held|]. by intros r s' [? _].
  - destruct (_ && _); [by run|]. apply wp_call; [done|]. by apply write_locked_held.
  - apply wp_call; [done|]. by apply lseek_locked_held.
  - destruct status; [eapply wp_mono; [by apply vfs_stat_ok|]; by intros r s' [? _]|].
    unfold vfs_stat. run. by rewrite orb_true_r.
  - apply wp_call; [done|]. eapply (wp_fs _ (fun _ => True)); [exact He| |by intros].
    eapply wp_mono; [apply fso_mkdir_ok; [apply He..|done]|]. by intros r [c' f'] [-> ?].
  - apply wp_call; [done|]. by apply unlink_locked_held.
  - destruct entry; cbn [negb]; [|by run]. apply wp_call; [done|]. eapply wp_mono; [by apply readdir_locked_held|]. by intros r s' [? _].
  - eapply wp_mono; [by apply vfs_close_all_ok|]. by intros r s' [? _].
Qed.

(** The system runs: a process makes a call, or the kernel does something else
    that leaves all descriptors as they are, such as switching processes. *)
Inductive vfs_step : vfs F P -> vfs F P -> Prop :=
| step_call c r s s' : call_ok c -> perform c s = Ret r s' -> vfs_step s s'
| step_kernel s f p : fso_inv f -> fdt_inv p -> (forall i d, fdt_slot p i d = fdt_slot (procs s) i d) ->
    vfs_step s (State (file_table s) (vfs_initialized s) (vfs_busy s) (cpu s) f p).

Lemma step_inv s s' : vfs_inv s -> vfs_step s s' -> vfs_inv s'.
Proof.
  intros Hs Hst. destruct Hst as [c r s s' Hc Hr|s f p Hf Hp Hsl].
  - pose proof (perform_ok c s Hs Hc) as H. unfold wp in H. rewrite Hr in H. apply H.
  - destruct Hs. split; try done. by eapply table_same_slots.
Qed.

Record boot_state s : Prop := {
  boot_table : length (file_table s) = 32%nat;
  boot_cpu : Cpu.wf (cpu s);
  boot_fsys : fso_inv (fsys s);
  boot_procs : fdt_inv (procs s);
  boot_slots : forall i d, fdt_slot (procs s) i d = 0
}.

Lemma vfs_init_ok s : boot_state s -> wp vfs_init s (fun _ s' => vfs_inv s').
Proof.
  intros [Hl Hc Hf Hp Hs]. unfold vfs_init. run. apply Cpu.irq_save_disable_wp. apply wp_bind.
  apply (wp_for_range (fun j s' => exists t, s' = set_cpu (Cpu.masked (cpu s)) (set_files t s) /\ length t = 32%nat /\
    forall k f, Z.of_nat k < j -> t !! k = Some f -> f = cleared)).
  - exists (file_table s). split; [by destruct s|]. split; [done|]. lia.
  - intros j s' Hj (t & -> & Ht & Hcl). replace j with (Z.of_nat (Z.to_nat j)) by lia. set (k := Z.to_nat j).
    apply wp_put_file; [cbn; lia|]. exists (<[k := cleared]> t). split; [done|]. split; [by rewrite length_insert|].
    intros k' f Hk' Hf'. apply list_lookup_insert_Some in Hf' as [(<- & <- & _) | [Hne Hf']]; [done|].
    apply (Hcl k' f); [|done]. subst k. lia.
  - intros s' (t & -> & Ht & Hcl). run. apply (Cpu.irq_restore_wp (cpu s)); [done|]. run.
    assert (forall k f, t !! k = Some f -> f = cleared) as Hall.
    { intros k f Hk. apply (Hcl k); [|done]. assert (k < length t)%nat by (by eapply lookup_lt_Some). lia. }
    split; try done. cbn. split; [done| | | |].
    + intros k f Hk _. right. by eapply Hall.
    + intros i d. by rewrite Hs.
    + intros i d i' d'. by rewrite Hs.
    + intros k f Hk _ Hu. by rewrite (Hall k f Hk) in Hu.
Qed.

(** C7. After [vfs_init], and after any sequence of VFS calls by any processes
    interleaved with other kernel activity, the open-file table is consistent:
    every descriptor of every process names an open entry of its own with
    reference count one, every open entry is named by a descriptor (nothing
    leaks, also on the error paths of [vfs_open]) and free entries are cleared.
    In every such state every call returns: none dereferences a bad handle, and
    the interrupt flag is as before. *)
Theorem vfs_descriptors_exact s0 :
  boot_state s0 ->
  wp vfs_init s0 (fun _ s => forall s', rtc vfs_step s s' ->
    vfs_inv s' /\
    forall c, call_ok c -> exists r s'', perform c s' = Ret r s'' /\ vfs_inv s'' /\ cpu s'' = cpu s').
Proof.
  intros Hb. eapply wp_mono; [by apply vfs_init_ok|]. cbv beta. intros _ s Hs s' Hst.
  assert (vfs_inv s') as Hs'. { induction Hst as [|x y z Hxy _ IH]; [done|]. by apply IH, (step_inv x). }
  split; [done|]. intros c Hc. pose proof (perform_ok c s' Hs' Hc) as H. apply wp_run in H as (r & s'' & E & [? ?]).
  by exists r, s''.
Qed.

(** C39. [vfs_unlink] refuses with EBUSY exactly the files some process has open
    at that moment, and then the volume is only read; in all other cases it
    returns the lookup's error or what the file system's unlink returns. The
    open files are never touched. *)
Theorem vfs_unlink_open s path :
  vfs_inv s -> bytes path ->
  wp (vfs_unlink path) s (fun r s' => vfs_inv s' /\ file_table s' = file_table s /\ procs s' = procs s /\
    exists l f1, fso_lookup path (Cpu.masked (cpu s), fsys s) = Ret l (Cpu.masked (cpu s), f1) /\
      match l with
      | Err st => r = st /\ fsys s' = f1
      | Ok st =>
          (is_open s (st_inode st) -> r = - EBUSY /\ fsys s' = f1) /\
          (~ is_open s (st_inode st) -> fso_unlink path (Cpu.masked (cpu s), f1) = Ret r (Cpu.masked (cpu s), fsys s'))
      end).
Proof.
  intros Hs Hp. unfold vfs_unlink. run. rewrite (vi_ready s Hs). cbn [negb]. pose proof (held_enter s Hs) as He.
  apply wp_vfs_locked; [done|]. eapply wp_unlink_locked; [done|done|].
  pose proof (fso_lookup_ok path _ _ (he_wf _ _ _ He) (vi_fsys s Hs) Hp) as Hl.
  apply wp_run in Hl as (l & [c1 f1] & E1 & -> & Hf1 & Hl).
  assert (forall f, fso_inv f -> vfs_inv (leave (cpu s) (set_fsys (Cpu.masked (cpu s), f) (enter s)))) as Hinv.
  { intros f Hf. apply inv_leave; [apply Hs|]. by apply held_fsys. }
  unfold wp at 1. change (fsys (enter s)) with (fsys s). rewrite E1. split; [done|]. split; [done|]. destruct l as [st|st].
  - split; [by apply Hl|]. split; [done|]. split; [by apply Hinv|]. split; [done|]. split; [done|]. by exists (Err st), f1.
  - change (is_open (enter s)) with (is_open s). split; intros Ho.
    + split; [done|]. split; [by apply Hinv|]. split; [done|]. split; [done|]. exists (Ok st), f1. split; [done|]. by split.
    + pose proof (fso_unlink_ok path _ _ (he_wf _ _ _ He) Hf1 Hp) as Hu.
      apply wp_run in Hu as (r & [c2 f2] & E2 & -> & Hf2). unfold wp. rewrite E2.
      split; [done|]. split; [by apply Hinv|]. split; [done|]. split; [done|]. exists (Ok st), f1. split; [done|]. by split.
Qed.

End spec.
End VfsSpec.
