(* ===== verification/VfsRoundtrip.v ===== *)
(** * Bytes through a descriptor

    What a process writes to an open file, seeks back over and reads again, down
    to the blocks of the MiniFS volume. *)

From S2P Require Import Prelude Monad Interfaces Bytes Cpu Block MiniFs MiniFsSafe MiniFsSpec MiniFsDisk MiniFsFiles MiniFsWrite Vfs VfsSpec VfsKernel.

Module VfsRoundtrip.
Import MiniFs MiniFsSafe MiniFsSpec MiniFsDisk MiniFsFiles MiniFsWrite Vfs VfsSpec VfsKernel.

Section roundtrip.
Context {E : Type} `{!BlockDevice E} {P : Type} `{!DescriptorOps P} `{!Descriptors P}.
Context (start count : Z) (b : superblock) (FILE_TABLE : Z).
Hypothesis volume_range : 0 <= start /\ 0 <= count /\ start + count < 4294967296.
Hypothesis geo : geometry count b.
Hypothesis table_address : 0 < FILE_TABLE.
Implicit Types (s : vfs (fs E) P) (d : disk) (f : vfs_file) (k : nat).

#[local] Existing Instance minifs_system.
#[local] Instance system : FileSystem (fs E) := minifs_system start count.

(** A mounted volume with the image [d] and nobody in it. *)
Record volume (v : fs E) d : Prop := {
  vol_disk : on_disk start count b v d;
  vol_mounted : mounted v = true;
  vol_free : MiniFs.operation_busy v = false
}.

Lemma with_cpu_volume {A} (m : M (fs E) A) (R : A -> disk -> Prop) c v d :
  Cpu.wf c -> volume v d ->
  (forall v0, volume v0 d -> wp m v0 (fun r v' => exists d', R r d' /\ on_disk start count b v' d' /\ frame v0 v')) ->
  wp (with_cpu m) (c, v) (fun r '(c', v') => c' = c /\ exists d', R r d' /\ volume v' d').
Proof.
  intros Hc [Hd Hm Hf] Hw. apply wp_lifted. cbn [fst snd].
  assert (forall c' v0 d0, Cpu.wf c' -> on_disk start count b v0 d0 -> on_disk start count b (MiniFs.set_cpu c' v0) d0) as Hset.
  { intros c' v0 d0 Hc' [[] ? ? ? ? ?]. by split; [split|..]. }
  eapply wp_mono; [apply Hw; split; [by apply Hset|done|done]|]. cbv beta. intros r v' (d' & HR & Hd' & Hfr).
  split; [apply Hfr|]. exists d'. split; [done|]. split; [apply Hset; [apply Hd|done]|..]; cbn.
  - rewrite (frame_mounted _ _ Hfr). done.
  - rewrite (frame_busy _ _ Hfr). done.
Qed.

(** A descriptor of the running process on an open regular file. *)
Record reads_and_writes s (descriptor : Z) k f : Prop := {
  rw_slot : fdt_slot (procs s) (fdt_current (procs s)) descriptor = handle_of FILE_TABLE (Z.of_nat k);
  rw_entry : file_table s !! k = Some f;
  rw_flags : Z.land (flags f) MINIOS_O_ACCMODE = MINIOS_O_RDWR;
  rw_mode : file_mode f = MINIFS_MODE_REGULAR
}.

Lemma same_entry s descriptor k k' f f' :
  reads_and_writes s descriptor k f ->
  fdt_slot (procs s) (fdt_current (procs s)) descriptor = handle_of FILE_TABLE (Z.of_nat k') ->
  file_table s !! k' = Some f' -> k' = k /\ f' = f.
Proof.
  intros [Hs Hk _ _] Hs' Hk'. assert (k' = k) as ->; [|by simplify_eq].
  rewrite Hs in Hs'. unfold handle_of, VFS_FILE_SIZE in Hs'. lia.
Qed.

Lemma may_transfer s descriptor k f : reads_and_writes s descriptor k f ->
  file_readable f = true /\ file_writable f = true /\ (file_mode f =? MINIFS_MODE_DIRECTORY) = false.
Proof. intros [_ _ Hf Hm]. unfold file_readable, file_writable. by rewrite Hf, Hm. Qed.

(** The state a call leaves: the offset of the entry and the volume. *)
Definition now s k f (v : fs E) (o : Z) : vfs (fs E) P :=
  set_files (<[k := set_offset o f]> (file_table s)) (set_fsys (cpu s, v) s).

Lemma now_inv s descriptor k f v o : vfs_inv FILE_TABLE s -> reads_and_writes s descriptor k f -> ok v -> 0 <= o < 4294967296 ->
  vfs_inv FILE_TABLE (now s k f v o) /\ reads_and_writes (now s k f v o) descriptor k (set_offset o f).
Proof.
  intros Hs Hrw Hv Ho. destruct Hrw as [Hsl Hk Hf Hm].
  assert (open_file f) as Hopen.
  { destruct (tab_entry _ _ _ _ (vi_table _ _ Hs) k f Hk) as [?| ->]; [done|done|]. by cbn in Hf. }
  split.
  - destruct Hs. split; try done. eapply table_update; [done|done|by apply open_set_offset|eauto].
  - split; [done| |done|done]. apply list_lookup_insert_eq. by eapply lookup_lt_Some.
Qed.

Definition behind f (r : Z) : Z := if 0 <? r then offset f +u r else offset f.

Lemma now_same s descriptor k f v : reads_and_writes s descriptor k f -> set_fsys (cpu s, v) s = now s k f v (offset f).
Proof.
  intros [_ Hk _ _]. unfold now. replace (set_offset (offset f) f) with f by (by destruct f).
  cbn [file_table set_fsys]. rewrite list_insert_id by done. by destruct s.
Qed.

Lemma leave_advanced s descriptor k f v r : reads_and_writes s descriptor k f ->
  leave (cpu s) (if 0 <? r then moved k f (offset f +u r) (set_fsys (Cpu.masked (cpu s), v) (enter s))
                 else set_fsys (Cpu.masked (cpu s), v) (enter s)) = now s k f v (behind f r) \/
  vfs_busy s = true.
Proof.
  intros Hrw. destruct (vfs_busy s) eqn:Eb; [by right|left]. unfold behind. destruct (0 <? r).
  - destruct s. cbn in *. by subst.
  - rewrite <-(now_same s descriptor k f v Hrw). destruct s. cbn in *. by subst.
Qed.

Lemma vfs_write_volume s descriptor k f i d source :
  vfs_inv FILE_TABLE s -> reads_and_writes s descriptor k f -> volume (fsys s) d -> consistent b d ->
  0 <= inode_number f -> inode_at b d (inode_number f) = Ok i -> mode i = MINIFS_MODE_REGULAR -> bytes source ->
  0 <= offset f <= size i -> offset f + zlength source <= MINIFS_MAX_FILE_SIZE ->
  wp (vfs_write FILE_TABLE descriptor true source) s (fun r s' => exists d' v,
    write_result b d (inode_number f) i (offset f) source r d' /\ volume v d' /\ s' = now s k f v (behind f r)).
Proof.
  intros Hs Hrw Hv Hc Hn Hi Hm Hb Ho Hlim. destruct (may_transfer s descriptor k f Hrw) as (Hr & Hw & Hnd).
  unfold vfs_write. apply wp_bind, wp_gets. rewrite (vi_ready _ _ Hs). cbn [negb orb andb].
  apply (wp_vfs_locked FILE_TABLE); [done|]. apply (wp_write_locked FILE_TABLE table_address (cpu s) (enter s) descriptor source); [by apply held_enter|..].
  { intros E0. change (fdt_slot (procs s) (fdt_current (procs s)) descriptor = 0) in E0.
    rewrite (rw_slot _ _ _ _ Hrw) in E0. unfold handle_of, VFS_FILE_SIZE in E0. lia. }
  intros k' f' Hsl Hk' _. destruct (same_entry s descriptor k k' f f' Hrw Hsl Hk') as [-> ->].
  rewrite Hw, Hnd. cbn [negb].
  eapply wp_mono; [apply (with_cpu_volume _ (write_result b d (inode_number f) i (offset f) source) _ (fsys s) d); [apply Cpu.masked_wf, Hs|exact Hv|]|].
  { intros v0 [Hd0 Hm0 Hf0]. apply (write_disk_file start count b volume_range geo); done || lia. }
  cbv beta. intros r [c' v'] (-> & d' & HR & Hv'). split; [done|]. split; [by destruct (0 <? r)|].
  exists d', v'. split; [done|]. split; [done|].
  destruct (leave_advanced s descriptor k f v' r Hrw) as [?|Hbusy]; [done|]. by rewrite (vi_idle _ _ Hs) in Hbusy.
Qed.

Lemma vfs_lseek_back s descriptor k f w :
  vfs_inv FILE_TABLE s -> reads_and_writes s descriptor k f -> 0 <= offset f - w <= INT32_MAX ->
  wp (vfs_lseek FILE_TABLE descriptor (- w) MINIOS_SEEK_CUR) s (fun r s' =>
    r = offset f - w /\ s' = now s k f (fsys s) (offset f - w)).
Proof.
  intros Hs Hrw Hw. unfold vfs_lseek. apply wp_bind, wp_gets. rewrite (vi_ready _ _ Hs). cbn [negb].
  apply (wp_vfs_locked FILE_TABLE); [done|].
  apply (wp_lseek_locked FILE_TABLE table_address (cpu s) (enter s) descriptor); [by apply held_enter|by right|..].
  { intros E0. change (fdt_slot (procs s) (fdt_current (procs s)) descriptor = 0) in E0.
    rewrite (rw_slot _ _ _ _ Hrw) in E0. unfold handle_of, VFS_FILE_SIZE in E0. lia. }
  intros k' f' Hsl Hk' _. destruct (same_entry s descriptor k k' f f' Hrw Hsl Hk') as [-> ->]. cbv zeta. cbn [Z.eqb MINIOS_SEEK_CUR MINIOS_SEEK_SET].
  replace (offset f + - w) with (offset f - w) by lia. rewrite (proj2 (Z.ltb_ge _ _)), (proj2 (Z.ltb_ge INT32_MAX _)) by lia. cbn [orb].
  split; [done|]. split; [done|]. pose proof (vi_idle _ _ Hs) as Eb. destruct s. cbn in Eb. by subst.
Qed.

Lemma vfs_read_volume s descriptor k f i d n :
  vfs_inv FILE_TABLE s -> reads_and_writes s descriptor k f -> volume (fsys s) d -> file_ok b d i ->
  0 <= inode_number f -> inode_at b d (inode_number f) = Ok i -> mode i = MINIFS_MODE_REGULAR -> 0 <= offset f -> 0 <= n ->
  wp (vfs_read FILE_TABLE descriptor true n) s (fun r s' => exists v,
    r = (zlength (slice (content d i) (offset f) n), slice (content d i) (offset f) n) /\
    volume v d /\ s' = now s k f v (behind f (fst r))).
Proof.
  intros Hs Hrw Hv Hfo Hn Hi Hm Ho Hlen. destruct (may_transfer s descriptor k f Hrw) as (Hr & Hw & Hnd).
  unfold vfs_read. apply wp_bind, wp_gets. rewrite (vi_ready _ _ Hs). cbn [negb orb andb].
  apply (wp_vfs_locked FILE_TABLE); [done|]. apply (wp_read_locked FILE_TABLE table_address (cpu s) (enter s) descriptor n); [by apply held_enter|..].
  { intros E0. change (fdt_slot (procs s) (fdt_current (procs s)) descriptor = 0) in E0.
    rewrite (rw_slot _ _ _ _ Hrw) in E0. unfold handle_of, VFS_FILE_SIZE in E0. lia. }
  intros k' f' Hsl Hk' _. destruct (same_entry s descriptor k k' f f' Hrw Hsl Hk') as [-> ->].
  rewrite Hr, Hnd. cbn [negb].
  eapply wp_mono; [apply (with_cpu_volume _ (fun r d' => d' = d /\
    r = (zlength (slice (content d i) (offset f) n), slice (content d i) (offset f) n)) _ (fsys s) d); [apply Cpu.masked_wf, Hs|exact Hv|]|].
  { intros v0 [Hd0 Hm0 Hf0].
    eapply wp_mono; [apply (read_disk_file start count b volume_range geo (inode_number f) (offset f) n i d); done|].
    cbv beta. intros r v' (-> & Hd' & Hfr). by exists d. }
  cbv beta. intros r [c' v'] (-> & d' & [-> Er] & Hv'). split; [done|]. split; [by destruct (0 <? fst r)|].
  exists v'. split; [done|]. split; [done|].
  destruct (leave_advanced s descriptor k f v' (fst r) Hrw) as [?|Hbusy]; [done|]. by rewrite (vi_idle _ _ Hs) in Hbusy.
Qed.

Lemma behind_id f r : 0 <= offset f -> 0 <= r -> offset f + r <= MINIFS_MAX_FILE_SIZE -> behind f r = offset f + r.
Proof.
  unfold behind, MINIFS_MAX_FILE_SIZE, MINIFS_MAX_FILE_BLOCKS, MINIFS_BLOCK_SIZE. intros.
  destruct (Z.ltb_spec 0 r); [apply u32_id; lia|lia].
Qed.

(** What a process writes through a descriptor it reads back: after
    [vfs_write] returned [w], seeking back by [w] and reading [w] bytes returns
    exactly the first [w] bytes of the data, through the open-file table, the
    lock and MiniFS down to the blocks of the volume; when the volume is full the
    write says ENOSPC. The offset ends behind the bytes and the table invariant
    holds. *)
Theorem vfs_write_read_roundtrip s descriptor k f i d source :
  vfs_inv FILE_TABLE s -> reads_and_writes s descriptor k f -> volume (fsys s) d -> consistent b d ->
  0 <= inode_number f -> inode_at b d (inode_number f) = Ok i -> mode i = MINIFS_MODE_REGULAR -> bytes source ->
  0 <= offset f <= size i -> offset f + zlength source <= MINIFS_MAX_FILE_SIZE ->
  wp (let! w := vfs_write FILE_TABLE descriptor true source in
      if w <? 0 then ret (w, (0, [])) else
      let! _ := vfs_lseek FILE_TABLE descriptor (- w) MINIOS_SEEK_CUR in
      let! r := vfs_read FILE_TABLE descriptor true w in ret (w, r)) s (fun '(w, r) s' =>
    vfs_inv FILE_TABLE s' /\
    (w = - ENOSPC /\ r = (0, []) \/
     0 <= w <= zlength source /\ r = (w, take (Z.to_nat w) source) /\
     reads_and_writes s' descriptor k (set_offset (offset f + w) f))).
Proof.
  intros Hs Hrw Hv Hc Hn Hi Hm Hb Ho Hlim. assert (0 <= zlength source) by (unfold zlength; lia). apply wp_bind.
  eapply wp_mono; [by apply (vfs_write_volume s descriptor k f i d source)|]. cbv beta.
  intros w s1 (d1 & v1 & (j & i1 & Hj & Hdone & Hr & _) & Hv1 & ->).
  assert (ok v1) as Hok1 by apply (vol_disk _ _ Hv1).
  assert (forall o, 0 <= o <= MINIFS_MAX_FILE_SIZE -> 0 <= o < 4294967296) as Hrange
    by (unfold MINIFS_MAX_FILE_SIZE, MINIFS_MAX_FILE_BLOCKS, MINIFS_BLOCK_SIZE; lia).
  destruct Hr as [[-> Hr] | [-> ->]].
  2:{ change (- ENOSPC <? 0) with true. run. split; [|by left].
      apply (now_inv s descriptor k f); [done..|unfold behind; change (0 <? - ENOSPC) with false; apply Hrange; lia]. }
  rewrite (proj2 (Z.ltb_ge j 0)) by lia. rewrite behind_id by lia.
  destruct (now_inv s descriptor k f v1 (offset f + j)) as [Hs1 Hrw1]; [done..|apply Hrange; lia|].
  set (s1 := now s k f v1 (offset f + j)) in *. set (f1 := set_offset (offset f + j) f) in *.
  apply wp_bind. eapply wp_mono; [apply (vfs_lseek_back s1 descriptor k f1 j Hs1 Hrw1)|].
  { cbn. unfold INT32_MAX, MINIFS_MAX_FILE_SIZE, MINIFS_MAX_FILE_BLOCKS, MINIFS_BLOCK_SIZE in *. lia. }
  cbv beta. intros t s2 [_ ->]. replace (offset f1 - j) with (offset f) by (cbn; lia).
  destruct (now_inv s1 descriptor k f1 v1 (offset f)) as [Hs2 Hrw2]; [done..|apply Hrange; lia|].
  change (fsys s1) with v1. set (s2 := now s1 k f1 v1 (offset f)) in *. set (f2 := set_offset (offset f) f1) in *.
  destruct (written_slice start count b volume_range geo (inode_number f) (offset f) source i d (fsys s) j i1 d1) as [Hsl Hl];
    [apply Hv|done..|].
  destruct Hdone as [A1 A2 [A3 _] _ _ A6].
  apply wp_bind. eapply wp_mono; [apply (vfs_read_volume s2 descriptor k f2 i1 d1 j Hs2 Hrw2 Hv1); try done; try lia|].
  { by eapply (con_file _ _ A1 (inode_number f)). } { cbn. lia. }
  cbv beta. intros r s3 (v3 & -> & Hv3 & ->). run. cbn [fst].
  change (offset f2) with (offset f). rewrite Hsl, Hl. rewrite behind_id by (cbn; lia).
  destruct (now_inv s2 descriptor k f2 v3 (offset f2 + j)) as [Hs3 Hrw3]; [done..|apply Hv3|apply Hrange; cbn; lia|].
  split; [done|]. right. split; [lia|]. split; [done|]. exact Hrw3.
Qed.

End roundtrip.
End VfsRoundtrip.
