(* ===== verification/VfsDemo.v ===== *)
(** * A running system with one open file

    The RAM volume of MiniFsDemo.v and the process table of SchedulerDemo.v
    under one VFS layer: the system before [vfs_init], and with /f open for
    reading and writing as descriptor 3 of the running process. *)

From stdpp Require Import relations.
From S2P Require Import Prelude Monad Interfaces Bytes Cpu Block MiniFs MiniFsSafe MiniFsSpec MiniFsDisk MiniFsFiles MiniFsDemo Scheduler SchedulerInv SchedulerDemo Vfs VfsSpec VfsKernel VfsRoundtrip.

Module VfsDemo.
Import SchedulerDemo MiniFsDemo VfsKernel VfsSpec Vfs.

#[local] Instance demo_system : FileSystem (MiniFs.fs ram) := minifs_system 2 16.

Definition FILE_TABLE : Z := 0xC0200000.
Abbreviation processes := SchedulerDemo.demo_two.

Definition cold : vfs (MiniFs.fs ram) (Scheduler.sched SchedulerDemo.toy) :=
  State (replicate 32 cleared) false false (Cpu.State 0x202) MiniFsDemo.running processes.

(** No process has a file open. *)
Definition no_files (t : list Scheduler.process) : bool :=
  forallb (fun p => bool_decide (Scheduler.fd_table p = Scheduler.fd_zero)) t.

Lemma processes_no_files : no_files (Scheduler.process_table processes) = true.
Proof. vm_compute. reflexivity. Qed.

Lemma processes_fds i p : Scheduler.process_table processes !! i = Some p -> Scheduler.fd_table p = Scheduler.fd_zero.
Proof.
  intros Hp. pose proof processes_no_files as H. unfold no_files in H. rewrite forallb_forall in H.
  specialize (H p). apply list_elem_of_lookup_2, list_elem_of_In in Hp. apply H in Hp. by apply bool_decide_eq_true in Hp.
Qed.

Lemma processes_slots i d : slot processes i d = 0.
Proof.
  unfold slot. destruct (Scheduler.process_table processes !! i) as [p|] eqn:E; [|done].
  unfold SchedulerInv.fd_of. rewrite (processes_fds i p E). destruct (SchedulerInv.fd_range d); [|done].
  unfold Scheduler.fd_zero. destruct (replicate 16 0 !! Z.to_nat d) eqn:Er; [|done]. by apply lookup_replicate in Er as [-> _].
Qed.

Lemma processes_ok : tables_ok processes.
Proof.
  apply scheduler_tables; [apply SchedulerDemo.demo_two_inv|]. intros i p Hp. by rewrite (processes_fds i p Hp).
Qed.

Lemma cold_boot : boot_state cold.
Proof. split; [done|done|apply running_on_disk|apply processes_ok|apply processes_slots]. Qed.

(** Two runs from a cold start: opening /f twice and closing it once leaves one
    descriptor. *)
Lemma vfs_descriptors_exact_witness :
  wp vfs_init cold (fun _ s => forall s', rtc (vfs_step FILE_TABLE) s s' ->
    vfs_inv FILE_TABLE s' /\
    forall c, call_ok c -> exists r s'', perform FILE_TABLE c s' = Ret r s'' /\ vfs_inv FILE_TABLE s'' /\ cpu s'' = cpu s').
Proof. apply (vfs_descriptors_exact FILE_TABLE); [unfold FILE_TABLE; lia|exact cold_boot]. Defined.

(** ** One open file *)

Definition the_file : vfs_file := VfsFile true 1 VFS_FILE_MINIFS (Some minifs_file_ops) 1 2 MINIOS_O_RDWR MiniFs.MINIFS_MODE_REGULAR.
Definition boot_process : Scheduler.process := default Scheduler.clear_process (Scheduler.process_table processes !! running processes).

Definition with_file : Scheduler.sched SchedulerDemo.toy :=
  Scheduler.set_table (<[running processes := Scheduler.set_fd_table (<[Z.to_nat 3 := FILE_TABLE]>
    (Scheduler.fd_table boot_process)) boot_process]> (Scheduler.process_table processes)) processes.

Definition opened : vfs (MiniFs.fs ram) (Scheduler.sched SchedulerDemo.toy) :=
  State (<[0%nat := the_file]> (replicate 32 cleared)) true false (Cpu.State 0x202) MiniFsDemo.running with_file.

Lemma boot_process_at : Scheduler.process_table processes !! VfsKernel.running processes = Some boot_process.
Proof. vm_compute. reflexivity. Qed.

Lemma the_file_open : open_file the_file.
Proof. by split. Qed.

Lemma closed_table : table_ok FILE_TABLE None (replicate 32 cleared) processes.
Proof.
  split; [done| | | |].
  - intros k f Hk _. right. by apply lookup_replicate in Hk as [-> _].
  - intros i d H. by destruct (H (processes_slots i d)).
  - intros i d i' d' H. by destruct (H (processes_slots i d)).
  - intros k f Hk _ Hu. by apply lookup_replicate in Hk as [-> _].
Qed.

Lemma opened_inv : vfs_inv FILE_TABLE opened.
Proof.
  destruct (slot_insert processes boot_process 3 FILE_TABLE processes_ok boot_process_at eq_refl) as (Ht & _ & Hsl).
  split; [done|done|done|apply running_on_disk|exact Ht|].
  change (file_table opened) with (<[0%nat := the_file]> (<[0%nat := fresh]> (replicate 32 cleared))).
  eapply (table_install FILE_TABLE ltac:(unfold FILE_TABLE; lia) (<[0%nat := fresh]> (replicate 32 cleared)) processes _ 0%nat the_file (VfsKernel.running processes) 3).
  - apply table_exempt; [exact closed_table|done].
  - rewrite length_insert. cbn. lia.
  - apply the_file_open.
  - apply processes_slots.
  - exact Hsl.
Qed.

Lemma vfs_unlink_open_witness :
  match vfs_unlink [47; 102] opened with Ret r _ => r = - EBUSY | _ => False end /\
  wp (vfs_unlink [47; 102]) opened (fun r s' => vfs_inv FILE_TABLE s' /\ file_table s' = file_table opened).
Proof.
  split; [vm_compute; reflexivity|]. eapply wp_mono.
  - apply (vfs_unlink_open FILE_TABLE); [exact opened_inv|]. repeat apply Forall_cons_2; try lia. apply Forall_nil_2.
  - cbv beta. intros r s' (H1 & H2 & _). by split.
Defined.

Lemma vfs_write_read_roundtrip_witness :
  wp (let! w := vfs_write FILE_TABLE 3 true [7; 8; 9] in
      if w <? 0 then ret (w, (0, [])) else
      let! _ := vfs_lseek FILE_TABLE 3 (- w) MINIOS_SEEK_CUR in
      let! r := vfs_read FILE_TABLE 3 true w in ret (w, r)) opened (fun '(w, r) s' =>
    vfs_inv FILE_TABLE s' /\
    (w = - MiniFs.ENOSPC /\ r = (0, []) \/
     0 <= w <= 3 /\ r = (w, take (Z.to_nat w) [7; 8; 9]) /\
     VfsRoundtrip.reads_and_writes FILE_TABLE s' 3 0 (set_offset (2 + w) the_file))).
Proof.
  apply (VfsRoundtrip.vfs_write_read_roundtrip 2 16 layout16 FILE_TABLE volume16_range layout16_geometry
    ltac:(unfold FILE_TABLE; lia) opened 3 0%nat the_file file_inode image [7; 8; 9]).
  - exact opened_inv.
  - split; [vm_compute; reflexivity|reflexivity|reflexivity|reflexivity].
  - split; [exact running_on_disk|reflexivity|reflexivity].
  - exact image_consistent.
  - cbn. lia.
  - exact running_file.
  - reflexivity.
  - repeat apply Forall_cons_2; try lia. apply Forall_nil_2.
  - cbn. lia.
  - vm_compute. intros H. discriminate H.
Defined.

End VfsDemo.
