(* ===== verification/Elf.v ===== *)
(** * The ELF loader, kernel/proc/elf.c

    [validate_image] decides whether a file is a program the kernel will run;
    [elf_load_image] maps its segments into a fresh address space and copies
    them. The image is a list of bytes; a read past its end faults. The address
    space and the frames are reached through [UserPages]; a frame is filled
    through the page [ELF_LOAD_WINDOW]. Proofs are in ElfSpec.v. *)

From S2P Require Import Prelude Monad Interfaces Bytes Block MiniFs.
Import MiniFs(result(..), EIO).

(** The routines the loader calls. *)
Class UserPageOps (V : Type) := {
  up_query : Z -> M V (option (Z * Z));       (** vmm_address_space_query: address and flags *)
  up_protect : Z -> Z -> M V bool;            (** vmm_address_space_protect *)
  up_map : Z -> Z -> Z -> M V bool;           (** vmm_address_space_map *)
  up_alloc : M V Z;                           (** pmm_alloc *)
  up_free : Z -> M V bool;                    (** pmm_free *)
  up_window_map : Z -> M V bool;              (** vmm_map(ELF_LOAD_WINDOW, frame, VMM_WRITABLE) *)
  up_window_unmap : M V (option Z);           (** vmm_unmap(ELF_LOAD_WINDOW, &frame) *)
  up_store : Z -> Z -> M V unit               (** a byte of the window *)
}.

(** The address space being filled, as the proofs see it:
    [up_page v p] is the frame and the flags of the user page [p], [up_byte v f o]
    byte [o] of the frame [f], [up_window v] the frame behind the load window.
    The frames in [up_held] belong to the loader. [up_room v] is the number of
    frames that can still be had, negative when the paging structures may fail. *)
Class UserPageView (V : Type) := {
  up_inv : V -> Prop;
  up_page : V -> Z -> option (Z * Z);
  up_byte : V -> Z -> Z -> Z;
  up_window : V -> option Z;
  up_held : V -> Z -> Prop;
  up_room : V -> Z
}.

Section observations.
Context {V : Type} `{!UserPageView V}.
Implicit Types v : V.

Definition owned v (f : Z) : Prop := up_held v f \/ exists p fl, up_page v p = Some (f, fl).
Definition same_pages v v' : Prop := forall p, up_page v' p = up_page v p.
Definition same_held v v' : Prop := forall f, up_held v' f <-> up_held v f.
Definition same_bytes v v' : Prop := forall f o, owned v f -> up_byte v' f o = up_byte v f o.
End observations.

(** What the routines promise. A query that fails tells nothing when the paging
    structures are not reliable. *)
Class UserPages (V : Type) `{!UserPageOps V} `{!UserPageView V} := {
  up_page_frame : forall v p f fl, up_inv v -> up_page v p = Some (f, fl) -> page_address f /\ ~ up_held v f;
  up_page_inj : forall v p q f fl fl', up_inv v -> up_page v p = Some (f, fl) -> up_page v q = Some (f, fl') -> p = q;

  up_query_ok : forall a v, up_inv v -> 0 <= a < 0xC0000000 ->
    wp (up_query a) v (fun r v' => up_inv v' /\ up_room v' = up_room v /\ same_pages v v' /\ same_held v v' /\
      same_bytes v v' /\ up_window v' = up_window v /\
      match r with
      | Some (pa, fl) => exists f, up_page v (a / 4096 * 4096) = Some (f, fl) /\ pa = f + a mod 4096
      | None => 0 <= up_room v -> up_page v (a / 4096 * 4096) = None
      end);
  up_protect_ok : forall p f fl0 v, up_inv v -> 0 <= p < 0xC0000000 -> page_aligned p ->
    up_page v p = Some (f, fl0) ->
    wp (up_protect p VMM_WRITABLE) v (fun ok v' => up_inv v' /\ up_room v' = up_room v /\ same_held v v' /\
      same_bytes v v' /\ up_window v' = up_window v /\ (0 <= up_room v -> ok = true) /\
      forall q, up_page v' q = if ok && (q =? p) then Some (f, Z.lor VMM_USER VMM_WRITABLE) else up_page v q);
  up_map_ok : forall p f fl v, up_inv v -> 0 <= p < 0xC0000000 -> page_aligned p -> up_held v f ->
    fl = 0 \/ fl = VMM_WRITABLE ->
    wp (up_map p f fl) v (fun ok v' => up_inv v' /\ (0 <= up_room v -> up_room v - 1 <= up_room v') /\
      same_bytes v v' /\ up_window v' = up_window v /\ (1 <= up_room v -> up_page v p = None -> ok = true) /\
      if ok : bool then
        up_page v p = None /\ (forall g, up_held v' g <-> up_held v g /\ g <> f) /\
        forall q, up_page v' q = if q =? p then Some (f, Z.lor VMM_USER fl) else up_page v q
      else same_held v v' /\ same_pages v v');
  up_alloc_ok : forall v, up_inv v ->
    wp up_alloc v (fun f v' => up_inv v' /\ (1 <= up_room v -> f <> 0) /\ (0 <= up_room v -> up_room v - 1 <= up_room v') /\
      up_window v' = up_window v /\ same_bytes v v' /\ same_pages v v' /\
      (f = 0 /\ same_held v v' \/
       page_address f /\ ~ owned v f /\ (forall g, up_held v' g <-> up_held v g \/ g = f)));
  up_free_ok : forall f v, up_inv v -> up_held v f -> up_window v = None ->
    wp (up_free f) v (fun ok v' => ok = true /\ up_inv v' /\ same_bytes v v' /\ same_pages v v' /\
      up_window v' = None /\ (0 <= up_room v -> up_room v <= up_room v') /\
      (forall g, up_held v' g <-> up_held v g /\ g <> f));
  up_window_map_ok : forall f v, up_inv v -> up_window v = None -> owned v f ->
    wp (up_window_map f) v (fun ok v' => up_inv v' /\ (0 <= up_room v -> ok = true) /\ up_room v' = up_room v /\
      same_bytes v v' /\ same_pages v v' /\ same_held v v' /\ up_window v' = if ok : bool then Some f else None);
  up_window_unmap_ok : forall f v, up_inv v -> up_window v = Some f ->
    wp up_window_unmap v (fun r v' => r = Some f /\ up_inv v' /\ up_room v' = up_room v /\
      same_bytes v v' /\ same_pages v v' /\ same_held v v' /\ up_window v' = None);
  up_store_ok : forall f o b v, up_inv v -> up_window v = Some f -> 0 <= o < 4096 -> 0 <= b < 256 ->
    wp (up_store o b) v (fun _ v' => up_inv v' /\ up_room v' = up_room v /\
      same_pages v v' /\ same_held v v' /\ up_window v' = up_window v /\
      forall g o', owned v g -> up_byte v' g o' = if (g =? f) && (o' =? o) then b else up_byte v g o')
}.

Module Elf.

Definition ELF_CLASS_32 : Z := 1.
Definition ELF_DATA_LITTLE_ENDIAN : Z := 1.
Definition ELF_VERSION_CURRENT : Z := 1.
Definition ELF_TYPE_EXECUTABLE : Z := 2.
Definition ELF_MACHINE_I386 : Z := 3.
Definition ELF_PROGRAM_LOAD : Z := 1.
Definition ELF_PROGRAM_EXECUTABLE : Z := 1.
Definition ELF_PROGRAM_WRITABLE : Z := 2.
Definition ELF_PROGRAM_READABLE : Z := 4.
Definition ELF_PROGRAM_FLAGS : Z := 7.
Definition ELF_PROGRAM_LIMIT : Z := 32.
Definition HEADER_SIZE : Z := 52.            (** sizeof(struct elf_header) *)
Definition PROGRAM_SIZE : Z := 32.           (** sizeof(struct elf_program_header) *)
Definition PAGE_SIZE : Z := 4096.
Definition PAGE_MASK : Z := 0xFFFFF000.
Definition KERNEL_BASE : Z := 0xC0000000.
Definition ENOEXEC : Z := 8.
Definition ENOMEM : Z := 12.

(** The fields of [struct elf_header] the loader reads. *)
Record elf_header := ElfHeader {
  ident : list Z;
  eh_type : Z; machine : Z; version : Z; eh_entry : Z; program_offset : Z;
  header_size : Z; program_entry_size : Z; program_count : Z
}.

Record elf_program_header := ProgramHeader {
  p_type : Z; file_offset : Z; virtual_address : Z; physical_address : Z;
  file_size : Z; memory_size : Z; p_flags : Z; alignment : Z
}.

(** The packed structures at their offsets. *)
Definition header_of (image : list Z) : elf_header :=
  ElfHeader (slice image 0 16) (read_le16 image 16) (read_le16 image 18) (read_le32 image 20) (read_le32 image 24)
    (read_le32 image 28) (read_le16 image 40) (read_le16 image 42) (read_le16 image 44).

Definition program_of (image : list Z) (o : Z) : elf_program_header :=
  ProgramHeader (read_le32 image o) (read_le32 image (o + 4)) (read_le32 image (o + 8)) (read_le32 image (o + 12))
    (read_le32 image (o + 16)) (read_le32 image (o + 20)) (read_le32 image (o + 24)) (read_le32 image (o + 28)).

Definition range_within (limit offset length : Z) : bool := (offset <=? limit) && (length <=? limit - offset).

Definition program_range_valid (program : elf_program_header) (image_size : Z) : bool :=
  if negb (p_type program =? ELF_PROGRAM_LOAD) then true else
  if memory_size program =? 0 then file_size program =? 0 else
  if (memory_size program <? file_size program) ||
     negb (range_within image_size (file_offset program) (file_size program)) ||
     (virtual_address program <? PAGE_SIZE) || (KERNEL_BASE <=? virtual_address program) ||
     (KERNEL_BASE - virtual_address program <? memory_size program) ||
     negb (Z.land (p_flags program) (not32 ELF_PROGRAM_FLAGS) =? 0) then false else
  let memory_end := virtual_address program +u memory_size program in
  if (KERNEL_BASE <? memory_end) ||
     (Z.land (p_flags program) (Z.lor ELF_PROGRAM_READABLE ELF_PROGRAM_EXECUTABLE) =? 0) then false else
  if (1 <? alignment program) &&
     (negb (Z.land (alignment program) (alignment program -u 1) =? 0) ||
      negb (Z.land (virtual_address program -u file_offset program) (alignment program -u 1) =? 0)) then false
  else true.

Definition load_ranges_overlap (left right : elf_program_header) : bool :=
  if negb (p_type left =? ELF_PROGRAM_LOAD) || negb (p_type right =? ELF_PROGRAM_LOAD) then false else
  let left_end := virtual_address left +u memory_size left in
  let right_end := virtual_address right +u memory_size right in
  (virtual_address left <? right_end) && (virtual_address right <? left_end).

Section elf.
Context {V : Type}.

(** Reading through a pointer into the image. *)
Definition image_header (image : list Z) : M V elf_header :=
  if HEADER_SIZE <=? zlength image then ret (header_of image) else fault.

Definition program_header_at (image : list Z) (header : elf_header) (index : Z) : M V elf_program_header :=
  let offset := program_offset header +u index *u PROGRAM_SIZE in
  if offset + PROGRAM_SIZE <=? zlength image then ret (program_of image offset) else fault.

Definition header_valid (header : elf_header) (image_size : Z) : bool :=
  negb (negb (byte_at (ident header) 0 =? 0x7F) || negb (byte_at (ident header) 1 =? 69) ||
    negb (byte_at (ident header) 2 =? 76) || negb (byte_at (ident header) 3 =? 70) ||
    negb (byte_at (ident header) 4 =? ELF_CLASS_32) || negb (byte_at (ident header) 5 =? ELF_DATA_LITTLE_ENDIAN) ||
    negb (byte_at (ident header) 6 =? ELF_VERSION_CURRENT) || negb (eh_type header =? ELF_TYPE_EXECUTABLE) ||
    negb (machine header =? ELF_MACHINE_I386) || negb (version header =? ELF_VERSION_CURRENT) ||
    negb (header_size header =? HEADER_SIZE) || negb (program_entry_size header =? PROGRAM_SIZE) ||
    (program_count header =? 0) || (ELF_PROGRAM_LIMIT <? program_count header) ||
    negb (range_within image_size (program_offset header) (program_count header *u PROGRAM_SIZE))).

(** [has_load] and [entry_is_executable] *)
Definition found : Type := bool * bool.

(** One program header; [None] when the image is refused. *)
Definition validate_program (image : list Z) (header : elf_header) (index : Z) (x : found) : M V (option found) :=
  let! program := program_header_at image header index in
  if negb (program_range_valid program (zlength image)) then ret None else
  if negb (p_type program =? ELF_PROGRAM_LOAD) then ret (Some x) else
  if memory_size program =? 0 then ret (Some x) else
  let entry_is_executable :=
    snd x || (negb (Z.land (p_flags program) ELF_PROGRAM_EXECUTABLE =? 0) &&
              (virtual_address program <=? eh_entry header) &&
              (eh_entry header -u virtual_address program <? memory_size program)) in
  let! overlap := for_until (Z.to_nat index) 0 (fun previous =>
    let! earlier := program_header_at image header previous in
    ret (if load_ranges_overlap program earlier then Some tt else None)) in
  ret (match overlap with Some _ => None | None => Some (true, entry_is_executable) end).

(** The loop over the program headers. *)
Fixpoint validate_programs (n : nat) (image : list Z) (header : elf_header) (index : Z) (x : found) : M V (option found) :=
  match n with
  | O => ret (Some x)
  | S n' =>
      let! r := validate_program image header index x in
      match r with
      | None => ret None
      | Some x' => validate_programs n' image header (index + 1) x'
      end
  end.

(** The entry point, or [None] for false. [pointers] says that neither argument
    is null. *)
Definition validate_image (pointers : bool) (image : list Z) : M V (option Z) :=
  if negb pointers || (zlength image <? HEADER_SIZE) then ret None else
  let! header := image_header image in
  if negb (header_valid header (zlength image)) then ret None else
  let! r := validate_programs (Z.to_nat (program_count header)) image header 0 (false, false) in
  match r with
  | None => ret None
  | Some (has_load, entry_is_executable) =>
      ret (if negb has_load || negb entry_is_executable then None else Some (eh_entry header))
  end.

(** The self test: fields of the copy are written at their offsets. *)
Definition accepts (image : list Z) : M V bool :=
  let! r := validate_image true image in ret (match r with Some _ => true | None => false end).

Definition ELF_SELF_TEST_BYTES : Z := HEADER_SIZE + PROGRAM_SIZE.

Definition elf_loader_validation_self_test (image : list Z) : M V bool :=
  let! original := accepts image in
  if negb original || (zlength image <? ELF_SELF_TEST_BYTES) then ret false else
  let malformed := take (Z.to_nat ELF_SELF_TEST_BYTES) image in
  let malformed := write_le32 malformed 28 HEADER_SIZE in
  let malformed := write_le16 malformed 44 1 in
  let malformed := write_le32 malformed 24 0x00400000 in
  let malformed := write_le32 malformed 52 ELF_PROGRAM_LOAD in
  let malformed := write_le32 malformed 56 0 in
  let malformed := write_le32 malformed 60 0x00400000 in
  let malformed := write_le32 malformed 68 0 in
  let malformed := write_le32 malformed 72 PAGE_SIZE in
  let malformed := write_le32 malformed 76 (Z.lor ELF_PROGRAM_READABLE ELF_PROGRAM_EXECUTABLE) in
  let malformed := write_le32 malformed 80 PAGE_SIZE in
  let! first := accepts malformed in
  if negb first then ret false else
  let malformed := write_le16 malformed 16 3 in
  let! second := accepts malformed in
  if second : bool then ret false else
  let malformed := write_le16 malformed 16 ELF_TYPE_EXECUTABLE in
  let malformed := write_le32 malformed 72 0 in
  let malformed := write_le32 malformed 68 1 in
  let! third := accepts malformed in
  if third : bool then ret false else
  let malformed := write_le32 malformed 68 0 in
  let malformed := write_le32 malformed 72 PAGE_SIZE in
  let malformed := write_le32 malformed 60 KERNEL_BASE in
  let malformed := write_le32 malformed 24 KERNEL_BASE in
  notM (accepts malformed).

(** ** Loading *)

Context `{!UserPageOps V}.

Definition release_window (frame : Z) (message : string) : M V unit :=
  let! r := up_window_unmap in
  match r with
  | Some unmapped => if unmapped =? frame then ret tt else panic message
  | None => panic message
  end.

Definition zero_physical_page (frame : Z) : M V bool :=
  let! ok := up_window_map frame in
  if negb ok then ret false else
  for_range 4096 0 (fun index => up_store index 0) ;;
  release_window frame "ELF load window invariant failed" ;;
  ret true.

(** The frame of the page, or the error. *)
Definition ensure_user_page (page : Z) (writable : bool) : M V (result Z) :=
  let! q := up_query page in
  match q with
  | Some (physical, flags) =>
      let! ok := (if writable && (Z.land flags VMM_WRITABLE =? 0) then up_protect page VMM_WRITABLE else ret true) in
      ret (if ok : bool then Ok (Z.land physical PAGE_MASK) else Err (- EIO))
  | None =>
      let! physical := up_alloc in
      if physical =? 0 then ret (Err (- ENOMEM)) else
      let! ok := andM (zero_physical_page physical) (up_map page physical (if writable then VMM_WRITABLE else 0)) in
      if ok : bool then ret (Ok physical) else
      let! freed := up_free physical in
      if negb freed then panic "ELF page rollback failed" else ret (Err (- ENOMEM))
  end.

(** [source] is [length] bytes of the image. *)
Definition copy_to_physical (frame page_offset : Z) (source : list Z) : M V bool :=
  if (PAGE_SIZE <? page_offset) || (PAGE_SIZE - page_offset <? zlength source) then ret false else
  let! ok := up_window_map frame in
  if negb ok then ret false else
  for_range (length source) 0 (fun index => up_store (page_offset + index) (byte_at source index)) ;;
  release_window frame "ELF copy window invariant failed" ;;
  ret true.

(** [&image[file_cursor]] and the [n] bytes behind it. *)
Definition image_bytes (image : list Z) (file_cursor n : Z) : M V (list Z) :=
  if (0 <=? file_cursor) && (file_cursor + n <=? zlength image) then ret (slice image file_cursor n) else fault.

(** The loop that gives every page of the segment a frame. *)
Definition map_step (last_page : Z) (writable : bool) (page : Z) : M V (Z + Z) :=
  let! r := ensure_user_page page writable in
  match r with
  | Err result => if result <? 0 then ret (inr result) else fault
  | Ok _ => if page =? last_page then ret (inr 0) else ret (inl (page +u PAGE_SIZE))
  end.

(** The loop that copies the bytes of the file; the variables are
    [virtual_cursor], [file_cursor] and [remaining]. *)
Definition copy_step (image : list Z) (x : Z * Z * Z) : M V (Z * Z * Z + Z) :=
  let '(virtual_cursor, file_cursor, remaining) := x in
  if remaining =? 0 then ret (inr 0) else
  let page_base := Z.land virtual_cursor PAGE_MASK in
  let page_offset := Z.land virtual_cursor (PAGE_SIZE - 1) in
  let chunk := Z.min (PAGE_SIZE - page_offset) remaining in
  let! q := up_query page_base in
  match q with
  | None => ret (inr (- EIO))
  | Some (physical, _) =>
      let! source := image_bytes image file_cursor chunk in
      let! ok := copy_to_physical (Z.land physical PAGE_MASK) page_offset source in
      if negb ok then ret (inr (- EIO)) else
      ret (inl (virtual_cursor +u chunk, file_cursor +u chunk, remaining -u chunk))
  end.

Definition load_program (image : list Z) (program : elf_program_header) : M V Z :=
  let first_page := Z.land (virtual_address program) PAGE_MASK in
  let last_page := Z.land (virtual_address program +u memory_size program -u 1) PAGE_MASK in
  let writable := negb (Z.land (p_flags program) ELF_PROGRAM_WRITABLE =? 0) in
  let! mapped := while_ (S (Z.to_nat (memory_size program))) (map_step last_page writable) first_page in
  if mapped <? 0 then ret mapped else
  while_ (S (Z.to_nat (file_size program))) (copy_step image)
    (virtual_address program, file_offset program, file_size program).

(** [space] says that the address space exists. The entry point, or the error. *)
Definition elf_load_image (space pointers : bool) (image : list Z) : M V (result Z) :=
  let! e := (if negb space then ret None else validate_image pointers image) in
  match e with
  | None => ret (Err (- ENOEXEC))
  | Some validated_entry =>
      let! header := image_header image in
      let! failed := for_until (Z.to_nat (program_count header)) 0 (fun index =>
        let! program := program_header_at image header index in
        if negb (p_type program =? ELF_PROGRAM_LOAD) || (memory_size program =? 0) then ret None else
        let! result := load_program image program in
        ret (if result <? 0 then Some result else None)) in
      match failed with
      | Some result => ret (Err result)
      | None => ret (Ok validated_entry)
      end
  end.

End elf.

End Elf.
