(* ===== verification/ElfSpec.v ===== *)
(** * The ELF loader: what it accepts and what it builds

    [image_ok] describes the executables the kernel runs; [validate_image]
    decides it. [segment_byte] is the memory such a file asks for;
    [elf_load_image] builds exactly that memory out of frames, page by page. *)

From S2P Require Import Prelude Monad Interfaces Bytes Block MiniFs Elf.
Import MiniFs(result(..), EIO).

Module ElfSpec.
Import Elf.

(** ** Executables *)

Definition is_load (p : elf_program_header) : Prop := p_type p = ELF_PROGRAM_LOAD /\ memory_size p <> 0.
Definition executable (p : elf_program_header) : Prop := Z.testbit (p_flags p) 0 = true.
Definition writable (p : elf_program_header) : bool := Z.testbit (p_flags p) 1.
Definition readable (p : elf_program_header) : Prop := Z.testbit (p_flags p) 2 = true.

Definition memory_end (p : elf_program_header) : Z := virtual_address p + memory_size p.

(** A segment: inside the file and inside user memory above the first page,
    accessible, and placed congruently to its alignment. *)
Record segment_ok (size : Z) (p : elf_program_header) : Prop := {
  seg_file : file_size p <= memory_size p;
  seg_within : file_offset p + file_size p <= size;
  seg_low : PAGE_SIZE <= virtual_address p;
  seg_high : memory_end p <= KERNEL_BASE;
  seg_flags : 0 <= p_flags p < 8;
  seg_access : readable p \/ executable p;
  seg_aligned : alignment p <= 1 \/
    exists k, 0 <= k < 32 /\ alignment p = 2 ^ k /\ (virtual_address p - file_offset p) mod 2 ^ k = 0
}.

Definition apart (p q : elf_program_header) : Prop := memory_end p <= virtual_address q \/ memory_end q <= virtual_address p.

Definition program_at (image : list Z) (i : Z) : elf_program_header :=
  program_of image (program_offset (header_of image) + i * PROGRAM_SIZE).

Definition count_of (image : list Z) : Z := program_count (header_of image).
Definition entry_of (image : list Z) : Z := eh_entry (header_of image).

Record header_ok (image : list Z) : Prop := {
  ho_size : HEADER_SIZE <= zlength image;
  ho_ident : slice image 0 7 = [0x7F; 69; 76; 70; 1; 1; 1];
  ho_type : eh_type (header_of image) = ELF_TYPE_EXECUTABLE;
  ho_machine : machine (header_of image) = ELF_MACHINE_I386;
  ho_version : version (header_of image) = ELF_VERSION_CURRENT;
  ho_header_size : header_size (header_of image) = HEADER_SIZE;
  ho_entry_size : program_entry_size (header_of image) = PROGRAM_SIZE;
  ho_count : 1 <= count_of image <= ELF_PROGRAM_LIMIT;
  ho_table : program_offset (header_of image) + count_of image * PROGRAM_SIZE <= zlength image
}.

(** The program header [i]: an empty load segment has nothing to copy; a proper
    one is in order and apart from every load segment before it. *)
Definition program_ok (image : list Z) (i : Z) : Prop :=
  let p := program_at image i in
  (p_type p = ELF_PROGRAM_LOAD -> memory_size p = 0 -> file_size p = 0) /\
  (is_load p -> segment_ok (zlength image) p /\
     forall j, 0 <= j < i -> p_type (program_at image j) = ELF_PROGRAM_LOAD -> apart p (program_at image j)).

Definition starts_in (image : list Z) (p : elf_program_header) : Prop :=
  is_load p /\ executable p /\ virtual_address p <= entry_of image < memory_end p.

Record image_ok (image : list Z) : Prop := {
  io_header : header_ok image;
  io_programs : forall i, 0 <= i < count_of image -> program_ok image i;
  io_entry : exists i, 0 <= i < count_of image /\ starts_in image (program_at image i)
}.

(** ** Bit tests *)

Lemma land_pow2 z k : 0 <= k -> (Z.land z (2 ^ k) =? 0) = negb (Z.testbit z k).
Proof.
  intros Hk. destruct (Z.testbit z k) eqn:E; cbn [negb].
  - apply Z.eqb_neq. intros H. assert (Z.testbit (Z.land z (2 ^ k)) k = false) as H0 by (rewrite H; apply Z.bits_0).
    by rewrite Z.land_spec, E, Z.pow2_bits_true in H0 by lia.
  - apply Z.eqb_eq. apply Z.bits_inj'. intros i Hi. rewrite Z.land_spec, Z.bits_0, Z.pow2_bits_eqb by lia.
    destruct (Z.eqb_spec k i) as [->|]; [by rewrite E|apply andb_false_r].
Qed.

Lemma land_not32_low z k : 0 <= k <= 32 -> 0 <= z < 4294967296 ->
  Z.land z (not32 (2 ^ k - 1)) = 0 <-> z < 2 ^ k.
Proof.
  intros Hk Hz. assert (not32 (2 ^ k - 1) = 2 ^ 32 - 2 ^ k) as ->.
  { unfold not32, u32. unfold Z.lnot.
    assert (0 < 2 ^ k <= 2 ^ 32) by (split; [apply Z.pow_pos_nonneg; lia|apply Z.pow_le_mono_r; lia]).
    replace (Z.pred (- (2 ^ k - 1))) with (- 2 ^ k) by lia. change 4294967296 with (2 ^ 32) in *.
    rewrite <-(Z.mod_add _ 1) by lia. rewrite Z.mod_small; lia. }
  rewrite land_high_mask by (change (2 ^ 32) with 4294967296; lia).
  assert (0 < 2 ^ k) by (apply Z.pow_pos_nonneg; lia).
  split; intros H1.
  - pose proof (Z.mod_pos_bound z (2 ^ k)). pose proof (Z.div_mod z (2 ^ k)). nia.
  - rewrite Z.div_small by lia. lia.
Qed.

(** The test [(a & (a - 1)) == 0] recognises powers of two. *)
Lemma pow2_test a : 1 < a < 4294967296 -> Z.land a (a -u 1) = 0 <-> exists k, 0 <= k < 32 /\ a = 2 ^ k.
Proof.
  intros Ha. rewrite u32_id by lia. split.
  - intros H. exists (Z.log2 a). pose proof (Z.log2_spec a ltac:(lia)) as [H1 H2]. pose proof (Z.log2_nonneg a).
    split; [split; [done|]; apply Z.log2_lt_pow2; lia|]. destruct (Z.eq_dec a (2 ^ Z.log2 a)) as [|Hne]; [done|]. exfalso.
    assert (Z.log2 (a - 1) = Z.log2 a) as Hl by (apply Z.log2_unique; lia).
    assert (Z.testbit (Z.land a (a - 1)) (Z.log2 a) = true) as Hb.
    { rewrite Z.land_spec, Z.bit_log2 by lia. rewrite <-Hl, Z.bit_log2; [done|].
      assert (1 < 2 ^ Z.log2 a \/ a = 1); [|lia]. destruct (Z.eq_dec (Z.log2 a) 0) as [E|]; [rewrite E in *; cbn in *; lia|].
      left. apply (Z.pow_gt_1 2); lia. }
    by rewrite H, Z.bits_0 in Hb.
  - intros (k & Hk & ->). apply Z.bits_inj'. intros i Hi. rewrite Z.land_spec, Z.bits_0, Z.pow2_bits_eqb by lia.
    destruct (Z.eqb_spec k i) as [<-|]; [|done].
    replace (2 ^ k - 1) with (Z.ones k) by (rewrite Z.ones_equiv; lia). by rewrite Z.ones_spec_high by lia.
Qed.

Lemma congruence_test a x k : 0 <= k < 32 -> a = 2 ^ k -> 1 < a -> Z.land (u32 x) (a -u 1) = 0 <-> x mod 2 ^ k = 0.
Proof.
  intros Hk -> Ha. assert (2 ^ k < 4294967296) by (apply (Z.pow_lt_mono_r 2 k 32); lia).
  rewrite (u32_id (2 ^ k - 1)) by lia. replace (2 ^ k - 1) with (Z.ones k) by (rewrite Z.ones_equiv; lia).
  rewrite Z.land_ones by lia. unfold u32. rewrite Z.mod_mod_divide; [done|].
  exists (2 ^ (32 - k)). rewrite <-Z.pow_add_r by lia. by replace (32 - k + k) with 32 by lia.
Qed.

(** ** Program headers *)

Definition word (z : Z) : Prop := 0 <= z < 4294967296.
Record words (p : elf_program_header) : Prop := {
  w_offset : word (file_offset p); w_address : word (virtual_address p); w_file : word (file_size p);
  w_memory : word (memory_size p); w_flags : word (p_flags p); w_alignment : word (alignment p)
}.

Lemma program_of_words image o : bytes image -> words (program_of image o).
Proof. intros Hb. split; by apply read_le32_range. Qed.

Lemma flags_test p : words p -> p_flags p < 8 ->
  (Z.land (p_flags p) (Z.lor ELF_PROGRAM_READABLE ELF_PROGRAM_EXECUTABLE) =? 0) = false <-> readable p \/ executable p.
Proof.
  intros Hw Hf. unfold readable, executable. destruct Hw. unfold word in *.
  assert (forallb (fun z => Bool.eqb (Z.land z 5 =? 0) (negb (Z.testbit z 2 || Z.testbit z 0))) (seqZ 0 8) = true) as H by done.
  pose proof (seqZ_forallb _ _ H (p_flags p) ltac:(lia)) as H0. apply Bool.eqb_prop in H0.
  change (Z.lor ELF_PROGRAM_READABLE ELF_PROGRAM_EXECUTABLE) with 5. rewrite H0, negb_false_iff, orb_true_iff. done.
Qed.

Lemma alignment_test p : words p ->
  ((1 <? alignment p) && (negb (Z.land (alignment p) (alignment p -u 1) =? 0) ||
    negb (Z.land (virtual_address p -u file_offset p) (alignment p -u 1) =? 0))) = false <->
  alignment p <= 1 \/ exists k, 0 <= k < 32 /\ alignment p = 2 ^ k /\ (virtual_address p - file_offset p) mod 2 ^ k = 0.
Proof.
  intros Hw. pose proof (w_alignment p Hw) as Ha. unfold word in Ha.
  destruct (Z.ltb_spec 1 (alignment p)) as [H1|H1]; cbn [andb]; [|naive_solver].
  rewrite orb_false_iff, !negb_false_iff, !Z.eqb_eq, pow2_test by lia. split.
  - intros [(k & Hk & E) H2]. right. exists k. split; [done|]. split; [done|]. by eapply congruence_test in H2.
  - intros [H|(k & Hk & E & H2)]; [lia|]. split; [by exists k|]. by eapply congruence_test.
Qed.

Lemma program_range_exact p size : words p -> 0 <= size ->
  program_range_valid p size = true <->
  (p_type p = ELF_PROGRAM_LOAD -> memory_size p = 0 -> file_size p = 0) /\ (is_load p -> segment_ok size p).
Proof.
  intros Hw Hsz. unfold program_range_valid, is_load.
  destruct (Z.eqb_spec (p_type p) ELF_PROGRAM_LOAD) as [Ht|Ht]; cbn [negb]; [|naive_solver].
  destruct (Z.eqb_spec (memory_size p) 0) as [Hm|Hm]; [rewrite Z.eqb_eq; naive_solver|].
  pose proof Hw as []. unfold word in *.
  pose proof (land_not32_low (p_flags p) 3 ltac:(lia) ltac:(lia)) as Hfl. change (2 ^ 3 - 1) with ELF_PROGRAM_FLAGS in Hfl.
  pose proof (flags_test p Hw) as Hacc. pose proof (alignment_test p Hw) as Hal. unfold range_within.
  transitivity (segment_ok size p); [|naive_solver]. split.
  - lazymatch goal with |- (if ?b then _ else _) = _ -> _ => destruct b eqn:E1; [intros [=]|] end. cbv zeta. rewrite !orb_false_iff, !negb_false_iff, andb_true_iff in E1.
    destruct E1 as [[[[[A1 [A2 A3]] A4] A5] A6] A7]. apply Z.eqb_eq, Hfl in A7.
    lazymatch goal with |- (if ?b then _ else _) = _ -> _ => destruct b eqn:E2; [intros [=]|] end. rewrite orb_false_iff in E2. destruct E2 as [B1 B2].
    lazymatch goal with |- (if ?b then _ else _) = _ -> _ => destruct b eqn:E3; [intros [=]|] end. intros _. unfold PAGE_SIZE, KERNEL_BASE, memory_end in *.
    split; unfold memory_end, PAGE_SIZE, KERNEL_BASE in *; try lia; [by apply Hacc|by apply Hal].
  - intros [S1 S2 S3 S4 S5 S6 S7]. unfold memory_end, PAGE_SIZE, KERNEL_BASE in *.
    assert (Z.land (p_flags p) (not32 ELF_PROGRAM_FLAGS) = 0) as E7 by (apply Hfl; lia).
    rewrite (proj2 (Z.ltb_ge (memory_size p) _)), (proj2 (Z.leb_le (file_offset p) _)), (proj2 (Z.leb_le (file_size p) _)),
      (proj2 (Z.ltb_ge (virtual_address p) _)), (proj2 (Z.leb_gt _ (virtual_address p))), (proj2 (Z.ltb_ge _ (memory_size p))), E7 by lia.
    cbn [orb andb negb Z.eqb]. rewrite (u32_id (virtual_address p + _)) by lia.
    rewrite (proj2 (Z.ltb_ge _ (virtual_address p + _))) by lia. cbn [orb].
    rewrite (proj2 (Hacc ltac:(lia)) S6), (proj2 Hal S7). done.
Qed.

(** No overlap is being apart, for a segment in order and any load segment
    that is empty or in order. *)
Lemma overlap_exact p q size : words p -> words q -> is_load p -> segment_ok size p -> p_type q = ELF_PROGRAM_LOAD ->
  memory_end q < 4294967296 -> load_ranges_overlap p q = false <-> apart p q.
Proof.
  intros Hp Hq [Ht _] Hs Hqt Hqe. unfold load_ranges_overlap. rewrite Ht, Hqt, Z.eqb_refl. cbn [negb orb].
  destruct Hp, Hq, Hs. unfold word, memory_end, apart, KERNEL_BASE in *. rewrite !u32_id by lia.
  rewrite andb_false_iff, !Z.ltb_ge. unfold memory_end. lia.
Qed.

(** ** Validation *)

Lemma ident_bytes (l : list Z) : HEADER_SIZE <= zlength l ->
  slice l 0 7 = map (byte_at (ident (header_of l))) (seqZ 0 7).
Proof.
  intros Hl. unfold HEADER_SIZE in Hl. do 16 (destruct l as [|? l]; [unfold zlength in Hl; simpl in Hl; lia|]). done.
Qed.

Section validation.
Context {V : Type} (image : list Z).
Hypothesis image_bytes_ok : bytes image.
Hypothesis image_size : zlength image < 4294967296.
Implicit Types v : V.

Definition table_within : Prop := program_offset (header_of image) + count_of image * PROGRAM_SIZE <= zlength image.

Lemma wp_program_header_at i v (Q : elf_program_header -> V -> Prop) :
  table_within -> 0 <= i < count_of image -> Q (program_at image i) v -> wp (program_header_at image (header_of image) i) v Q.
Proof.
  intros Ht Hi HQ. unfold program_header_at, table_within in *.
  assert (0 <= program_offset (header_of image)) by (by apply read_le32_range).
  unfold PROGRAM_SIZE in *. rewrite (u32_id (i * 32)), u32_id by lia. cbv zeta. rewrite (proj2 (Z.leb_le _ _)) by lia.
  by apply wp_ret.
Qed.

Lemma program_at_words i : words (program_at image i).
Proof. by apply program_of_words. Qed.

(** A load segment in order or empty ends inside the 32-bit space. *)
Lemma memory_end_word i : program_ok image i -> p_type (program_at image i) = ELF_PROGRAM_LOAD ->
  memory_end (program_at image i) < 4294967296.
Proof.
  intros [_ Hs] Ht. destruct (program_at_words i). unfold word in *.
  destruct (Z.eq_dec (memory_size (program_at image i)) 0) as [E|Hne]; [unfold memory_end; lia|].
  destruct Hs as [[] _]; [by split|]. unfold KERNEL_BASE in *. lia.
Qed.

Lemma entry_test p : words p -> is_load p -> segment_ok (zlength image) p ->
  negb (Z.land (p_flags p) ELF_PROGRAM_EXECUTABLE =? 0) && (virtual_address p <=? entry_of image) &&
    (entry_of image -u virtual_address p <? memory_size p) = true <-> starts_in image p.
Proof.
  intros Hw Hl Hs. change ELF_PROGRAM_EXECUTABLE with (2 ^ 0). rewrite land_pow2, negb_involutive by lia.
  assert (0 <= entry_of image < 4294967296) by (by apply read_le32_range). destruct Hw. unfold word in *.
  unfold starts_in, executable, memory_end. rewrite !andb_true_iff, Z.leb_le, Z.ltb_lt. split.
  - intros [[? ?] Hin]. rewrite u32_id in Hin by lia. split; [done|]. split; [done|]. lia.
  - intros (_ & ? & ?). rewrite u32_id by lia. split; [split; [done|lia]|lia].
Qed.

(** What the two flags of the loop say after the headers below [n]. *)
Definition seen (n : Z) (x : found) : Prop :=
  (fst x = true <-> exists i, 0 <= i < n /\ is_load (program_at image i)) /\
  (snd x = true <-> exists i, 0 <= i < n /\ starts_in image (program_at image i)).

Lemma seen_same n x : 0 <= n -> seen n x -> ~ is_load (program_at image n) -> seen (n + 1) x.
Proof.
  intros Hn [H1 H2] Hno. split; [rewrite H1|rewrite H2]; split; intros (i & Hi & Hp).
  - exists i. split; [lia|done].
  - exists i. split; [|done]. destruct (decide (i = n)) as [->|]; [done|lia].
  - exists i. split; [lia|done].
  - exists i. split; [|done]. destruct (decide (i = n)) as [->|]; [by destruct Hp|lia].
Qed.

Lemma seen_load n x e : 0 <= n -> seen n x -> is_load (program_at image n) ->
  (e = true <-> starts_in image (program_at image n)) -> seen (n + 1) (true, snd x || e).
Proof.
  intros Hn [H1 H2] Hl He. split; cbn.
  - split; [intros _; exists n; split; [lia|done]|done].
  - rewrite orb_true_iff, H2, He. split.
    + intros [(i & Hi & Hp)|Hp]; [exists i; split; [lia|done]|exists n; split; [lia|done]].
    + intros (i & Hi & Hp). destruct (decide (i = n)) as [->|]; [by right|left]. exists i. split; [lia|done].
Qed.

Lemma validate_program_ok i x v :
  table_within -> 0 <= i < count_of image -> (forall j, 0 <= j < i -> program_ok image j) -> seen i x ->
  wp (validate_program image (header_of image) i x) v (fun r v' => v' = v /\
    match r with Some x' => program_ok image i /\ seen (i + 1) x' | None => ~ program_ok image i end).
Proof.
  intros Ht Hi Hprev Hx. unfold validate_program. apply wp_bind, wp_program_header_at; [done|done|].
  pose proof (program_at_words i) as Hw. assert (0 <= zlength image) by (unfold zlength; lia).
  pose proof (program_range_exact (program_at image i) (zlength image) Hw ltac:(lia)) as Hr.
  destruct (program_range_valid _ _) eqn:Er; cbn [negb].
  2:{ run. split; [done|]. intros [H1 H2]. enough (false = true) by done. apply Hr. split; [done|]. intros Hl. by apply H2. }
  destruct (proj1 Hr eq_refl) as [He Hs].
  destruct (Z.eqb_spec (p_type (program_at image i)) ELF_PROGRAM_LOAD) as [El|El]; cbn [negb].
  2:{ assert (~ is_load (program_at image i)) by (by intros [? _]). run. split; [done|]. split; [|by apply seen_same; [lia|..]]. by split. }
  destruct (Z.eqb_spec (memory_size (program_at image i)) 0) as [Em|Em].
  { assert (~ is_load (program_at image i)) by (by intros [_ ?]). run. split; [done|]. split; [|by apply seen_same; [lia|..]]. by split. }
  assert (is_load (program_at image i)) as Hl by done. specialize (Hs Hl). cbv zeta. apply wp_bind.
  apply (wp_for_until (fun n v' => v' = v /\ forall j, 0 <= j < n -> p_type (program_at image j) = ELF_PROGRAM_LOAD ->
    apart (program_at image i) (program_at image j))).
  - split; [done|lia].
  - intros j v' Hj [-> Hap]. apply wp_bind, wp_program_header_at; [done|lia|]. apply wp_ret.
    destruct (load_ranges_overlap (program_at image i) (program_at image j)) eqn:Eo.
    + cbv beta iota. apply wp_ret. split; [done|]. intros [_ H2]. destruct (H2 Hl) as [_ Hap'].
      assert (p_type (program_at image j) = ELF_PROGRAM_LOAD) as Hjt.
      { unfold load_ranges_overlap in Eo. destruct (Z.eqb_spec (p_type (program_at image j)) ELF_PROGRAM_LOAD); [done|]. by rewrite orb_true_r in Eo. }
      enough (true = false) by done. rewrite <-Eo. eapply overlap_exact; [done|apply program_at_words|done|done|done| |by apply Hap'; [lia|]].
      apply memory_end_word; [apply Hprev; lia|done].
    + split; [done|]. intros k Hk Hkt. destruct (decide (k = j)) as [->|]; [|apply Hap; [lia|done]].
      eapply overlap_exact; [done|apply program_at_words|done|exact Hs|done| |done]. apply memory_end_word; [apply Hprev; lia|done].
  - intros v' [-> Hap]. cbv beta iota. apply wp_ret. split; [done|]. split.
    + split; [done|]. intros _. split; [done|]. intros j Hj. apply Hap. lia.
    + apply seen_load; [lia|done|done|]. by apply entry_test.
Qed.

Lemma validate_programs_ok n i x v :
  table_within -> 0 <= i -> i + Z.of_nat n = count_of image -> (forall j, 0 <= j < i -> program_ok image j) -> seen i x ->
  wp (validate_programs n image (header_of image) i x) v (fun r v' => v' = v /\
    match r with
    | Some x' => (forall j, 0 <= j < count_of image -> program_ok image j) /\ seen (count_of image) x'
    | None => ~ forall j, 0 <= j < count_of image -> program_ok image j
    end).
Proof.
  revert i x. induction n as [|n IH]; intros i x Ht Hi Hn Hprev Hx; cbn [validate_programs].
  - run. split; [done|]. replace (count_of image) with i by lia. done.
  - apply wp_bind. eapply wp_mono; [apply validate_program_ok; [done|lia|done|done]|]. cbv beta.
    intros [x'|] v' [-> Hr].
    + destruct Hr as [Hp Hx']. apply IH; [done|lia|lia| |done].
      intros j Hj. destruct (decide (j = i)) as [->|]; [done|]. apply Hprev. lia.
    + run. split; [done|]. intros Hall. apply Hr, Hall. lia.
Qed.

Lemma header_valid_exact : HEADER_SIZE <= zlength image ->
  header_valid (header_of image) (zlength image) = true <-> header_ok image.
Proof.
  intros Hl. pose proof (ident_bytes image Hl) as Hid. unfold header_valid, range_within.
  assert (0 <= program_offset (header_of image)) by (by apply read_le32_range).
  assert (0 <= program_count (header_of image) < 65536) by (by apply read_le16_range).
  unfold PROGRAM_SIZE. rewrite u32_id by lia.
  rewrite negb_true_iff, !orb_false_iff, !negb_false_iff, andb_true_iff, !Z.eqb_eq, Z.eqb_neq, Z.ltb_ge, !Z.leb_le. split.
  - intros [[[[[[[[[[[[[[B0 B1] B2] B3] B4] B5] B6] T1] T2] T3] T4] T5] T6] T7] [T8 T9]].
    split; try done; [|unfold count_of; lia|unfold count_of, PROGRAM_SIZE; lia].
    rewrite Hid. change (seqZ 0 7) with [0; 1; 2; 3; 4; 5; 6]. cbn [map]. by rewrite B0, B1, B2, B3, B4, B5, B6.
  - intros [S1 S2 S3 S4 S5 S6 S7 S8 S9]. rewrite Hid in S2. change (seqZ 0 7) with [0; 1; 2; 3; 4; 5; 6] in S2. cbn [map] in S2.
    injection S2 as ? ? ? ? ? ? ?. unfold count_of, PROGRAM_SIZE in *. repeat split; try done; lia.
Qed.

(** The validation decides [image_ok] and changes nothing. *)
Lemma validate_image_wp v :
  wp (validate_image true image) v (fun r v' => v' = v /\
    match r with Some e => image_ok image /\ e = entry_of image | None => ~ image_ok image end).
Proof.
  unfold validate_image. cbn [negb orb].
  destruct (Z.ltb_spec (zlength image) HEADER_SIZE) as [Hs|Hs].
  { run. split; [done|]. intros [[]]. lia. }
  unfold image_header. rewrite (proj2 (Z.leb_le _ _)) by done. apply wp_bind, wp_ret.
  pose proof (header_valid_exact Hs) as Hh. destruct (header_valid _ _) eqn:Eh; cbn [negb].
  2:{ run. split; [done|]. intros []. enough (false = true) by done. by apply Hh. }
  assert (header_ok image) as Hok by (by apply Hh). apply wp_bind.
  eapply wp_mono; [apply validate_programs_ok; [apply Hok|lia| |lia|]|].
  { pose proof (ho_count image Hok). unfold count_of in *. lia. }
  { split; split; try done; intros (i & Hi & _); lia. }
  cbv beta. intros [[h e]|] v' [-> Hr].
  - destruct Hr as [Hall [H1 H2]]. cbn [fst snd] in *. run. split; [done|].
    destruct e; [|rewrite orb_true_r; intros [_ _ Hen]; by apply H2 in Hen].
    destruct (proj1 H2 eq_refl) as (i & Hi & Hst). assert (h = true) as -> by (apply H1; exists i; split; [done|apply Hst]).
    cbn [negb orb]. split; [split; eauto|done].
  - run. split; [done|]. by intros [].
Qed.

(** C18. [validate_image] decides [image_ok]: for every byte string it answers
    without reading outside it, it accepts exactly the 32-bit little-endian i386
    executables whose segments lie inside the file and inside user memory (above
    the null page, below the kernel), are accessible, congruent to their
    alignment and apart from each other, and whose entry point is in an
    executable segment, and it returns that entry point. *)
Theorem validate_image_exact v :
  wp (validate_image true image) v (fun r v' => v' = v /\
    match r with Some e => image_ok image /\ e = entry_of image | None => ~ image_ok image end).
Proof. apply validate_image_wp. Qed.

End validation.

End ElfSpec.
