(* ===== verification/ElfLoad.v ===== *)
(** * The ELF loader: the memory it builds

    A user address space is described by the pages it has, which of them are
    writable, and the bytes in them ([building]). Every step of the loader is an
    update of that description; at the end it is the one the program headers
    ask for. *)

From S2P Require Import Prelude Monad Interfaces Bytes Block MiniFs Elf ElfSpec.
Import MiniFs(result(..), EIO).

Module ElfLoad.
Import Elf ElfSpec.

Section load.
Context {V : Type} `{!UserPageOps V} `{!UserPageView V} `{!UserPages V}.
Implicit Types (v : V) (dom wr : Z -> bool) (m : Z -> Z).

Definition user_page (p : Z) : Prop := 0 <= p < KERNEL_BASE /\ page_aligned p.

(** The pages in [dom] exist, the ones in [wr] are writable, and their bytes are
    [m]; [held] are the frames the caller had before. *)
Record building (held : Z -> Prop) v dom wr m : Prop := {
  bu_inv : up_inv v;
  bu_window : up_window v = None;
  bu_held : forall f, up_held v f <-> held f;
  bu_mapped : forall p, user_page p -> dom p = true ->
    exists f, up_page v p = Some (f, if wr p then 6 else 4) /\ forall o, 0 <= o < 4096 -> up_byte v f o = m (p + o);
  bu_absent : forall p, user_page p -> dom p = false ->
    up_page v p = None /\ wr p = false /\ forall o, 0 <= o < 4096 -> m (p + o) = 0
}.

Lemma page_start p : page_aligned p -> p / 4096 * 4096 = p /\ p mod 4096 = 0.
Proof. unfold page_aligned. intros H. split; [|done]. pose proof (Z.div_mod p 4096). lia. Qed.

Lemma mask_frame f : page_address f -> Z.land f PAGE_MASK = f.
Proof.
  intros [H1 H2]. change PAGE_MASK with (2 ^ 32 - 2 ^ 12). rewrite land_high_mask by (change (2 ^ 32) with 4294967296; lia).
  change (2 ^ 12) with 4096. pose proof (Z.div_mod f 4096). lia.
Qed.

Lemma mask_page a : 0 <= a < 4294967296 -> Z.land a PAGE_MASK = a / 4096 * 4096.
Proof. intros Ha. change PAGE_MASK with (2 ^ 32 - 2 ^ 12). by rewrite land_high_mask by (change (2 ^ 32) with 4294967296; lia). Qed.

(** ** Filling a frame through the window *)

Lemma store_loop f off (g : Z -> Z) n (body : Z -> M V unit) v :
  up_inv v -> up_window v = Some f -> 0 <= off -> off + Z.of_nat n <= 4096 -> (forall i, 0 <= g i < 256) ->
  (forall i, body i = up_store (off + i) (g i)) ->
  wp (for_range n 0 body) v (fun _ v' => up_inv v' /\ up_room v' = up_room v /\ same_pages v v' /\ same_held v v' /\
    up_window v' = Some f /\ forall h o, owned v h -> up_byte v' h o =
      if (h =? f) && ((off <=? o) && (o <? off + Z.of_nat n)) then g (o - off) else up_byte v h o).
Proof.
  intros Hi Hw Ho Hn Hg Hb.
  apply (wp_for_range (fun k v' => up_inv v' /\ up_room v' = up_room v /\ same_pages v v' /\ same_held v v' /\
    up_window v' = Some f /\ forall h o, owned v h -> up_byte v' h o =
      if (h =? f) && ((off <=? o) && (o <? off + k)) then g (o - off) else up_byte v h o)).
  - split; [done|]. split; [done|]. split; [done|]. split; [done|]. split; [done|]. intros h o _.
    destruct (Z.leb_spec off o), (Z.ltb_spec o (off + 0)); try lia; by rewrite ?andb_false_r.
  - intros k v' Hk (H1 & H2 & H3 & H4 & H5 & H6). rewrite Hb.
    eapply wp_mono; [apply (up_store_ok f); [done|done|lia|done]|]. cbv beta.
    intros _ v'' (G1 & G2 & G3 & G4 & G5 & G6).
    assert (forall h, owned v h -> owned v' h) as Hown.
    { intros h [Hh|(p & fl & Hp)]; [left; by apply H4|right; exists p, fl; by rewrite H3]. }
    unfold same_pages, same_held in *.
    split; [done|]. split; [congruence|]. split; [intros p; by rewrite G3, H3|]. split; [intros h; by rewrite G4, H4|].
    split; [congruence|]. intros h o Hh. rewrite G6 by auto. rewrite H6 by done.
    destruct (Z.eqb_spec h f), (Z.eqb_spec o (off + k)), (Z.leb_spec off o), (Z.ltb_spec o (off + k)), (Z.ltb_spec o (off + (k + 1)));
      cbn; try lia; try done. f_equal. lia.
  - intros v' H. done.
Qed.

(** Map the window, write, unmap: [g] at the offsets [off ..) of the frame. *)
Lemma window_write f off (g : Z -> Z) n (body : Z -> M V unit) message v :
  up_inv v -> up_window v = None -> owned v f -> 0 <= off -> off + Z.of_nat n <= 4096 -> (forall i, 0 <= g i < 256) ->
  (forall i, body i = up_store (off + i) (g i)) ->
  wp (let! ok := up_window_map f in
      if negb ok then ret false else for_range n 0 body ;; release_window f message ;; ret true) v (fun ok v' =>
    up_inv v' /\ up_window v' = None /\ up_room v' = up_room v /\ same_pages v v' /\ same_held v v' /\
    (0 <= up_room v -> ok = true) /\ forall h o, owned v h -> up_byte v' h o =
      if ok && (h =? f) && ((off <=? o) && (o <? off + Z.of_nat n)) then g (o - off) else up_byte v h o).
Proof.
  intros Hi Hw Hf Ho Hn Hg Hb. apply wp_bind. eapply wp_mono; [by apply up_window_map_ok|]. cbv beta.
  intros ok v1 (A1 & A2 & A3 & A4 & A5 & A6 & A7). destruct ok; cbn [negb].
  2:{ run. do 6 (split; [done|]). intros h o Hh. cbn. by apply A4. }
  apply wp_bind. eapply wp_mono; [by apply (store_loop f off g)|]. cbv beta. intros _ v2 (B1 & B2 & B3 & B4 & B5 & B6).
  unfold release_window. apply wp_bind, wp_bind. eapply wp_mono; [by apply (up_window_unmap_ok f)|]. cbv beta.
  intros r v3 (-> & C1 & C2 & C3 & C4 & C5 & C6). rewrite Z.eqb_refl. run.
  assert (forall h, owned v h -> owned v1 h) as Hown1.
  { intros h [Hh|(p & fl & Hp)]; [left; by apply A6|right; exists p, fl; by rewrite A5]. }
  assert (forall h, owned v h -> owned v2 h) as Hown2.
  { intros h [Hh|(p & fl & Hp)]; [left; by apply B4, A6|right; exists p, fl; by rewrite B3, A5]. }
  unfold same_pages, same_held, same_bytes in *.
  split; [done|]. split; [done|]. split; [congruence|]. split; [intros p; by rewrite C4, B3, A5|].
  split; [intros h; by rewrite C5, B4, A6|]. split; [done|]. intros h o Hh. cbn [andb].
  rewrite C3, B6, A4 by auto. done.
Qed.

(** ** Giving a page a frame *)

Lemma building_same held v v' dom wr m : building held v dom wr m ->
  up_inv v' -> up_window v' = None -> same_pages v v' -> same_held v v' -> same_bytes v v' -> building held v' dom wr m.
Proof.
  intros [Hi Hw Hh Hm Ha] Hi' Hw' Hp Hh' Hb. unfold same_pages, same_held, same_bytes in *. split; [done|done| | |].
  - intros f. by rewrite Hh', Hh.
  - intros p Hpu Hd. destruct (Hm p Hpu Hd) as (f & Ef & Hf). exists f. rewrite Hp. split; [done|].
    intros o Ho. rewrite Hb; [by apply Hf|]. right. by eexists _, _.
  - intros p Hpu Hd. rewrite Hp. by apply Ha.
Qed.

(** Making the page writable. *)
Lemma building_protect held v v' dom wr m p f fl :
  building held v dom wr m -> user_page p -> dom p = true -> up_page v p = Some (f, fl) ->
  up_inv v' -> up_window v' = up_window v -> same_held v v' -> same_bytes v v' ->
  (forall q, up_page v' q = if q =? p then Some (f, 6) else up_page v q) ->
  building held v' dom (fun q => wr q || (q =? p)) m.
Proof.
  intros [Hi Hw Hh Hm Ha] Hpu Hd Hp Hi' Hw' Hh' Hb Hq. unfold same_held, same_bytes in *. split; [done|congruence| | |].
  - intros g. by rewrite Hh', Hh.
  - intros q Hqu Hdq. destruct (Hm q Hqu Hdq) as (g & Eg & Hg). exists g. rewrite Hq. destruct (Z.eqb_spec q p) as [->|].
    + rewrite orb_true_r. rewrite Hp in Eg. injection Eg as -> _. split; [done|].
      intros o Ho. rewrite Hb; [by apply Hg|]. right. by eexists _, _.
    + rewrite orb_false_r. split; [done|]. intros o Ho. rewrite Hb; [by apply Hg|]. right. by eexists _, _.
  - intros q Hqu Hdq. rewrite Hq. destruct (Z.eqb_spec q p) as [->|]; [congruence|]. rewrite orb_false_r. by apply Ha.
Qed.

(** A new page of zeros. *)
Lemma building_new held v v' dom wr m p f (w : bool) :
  building held v dom wr m -> user_page p -> dom p = false -> ~ owned v f ->
  up_inv v' -> up_window v' = None -> (forall g, up_held v' g <-> up_held v g) ->
  (forall g o, owned v g -> up_byte v' g o = up_byte v g o) -> (forall o, 0 <= o < 4096 -> up_byte v' f o = 0) ->
  (forall q, up_page v' q = if q =? p then Some (f, if w then 6 else 4) else up_page v q) ->
  building held v' (fun q => dom q || (q =? p)) (fun q => wr q || (w && (q =? p))) m.
Proof.
  intros [Hi Hw Hh Hm Ha] Hpu Hd Hf Hi' Hw' Hh' Hb H0 Hq. destruct (Ha p Hpu Hd) as (_ & Hwp & Hm0). split; [done|done| | |].
  - intros g. by rewrite Hh', Hh.
  - intros q Hqu Hdq. rewrite Hq. destruct (Z.eqb_spec q p) as [->|Hne].
    + exists f. rewrite Hwp, andb_true_r. cbn [orb]. split; [by destruct w|]. intros o Ho. by rewrite H0, Hm0.
    + rewrite orb_false_r in Hdq. destruct (Hm q Hqu Hdq) as (g & Eg & Hg). exists g. rewrite andb_false_r, orb_false_r.
      split; [done|]. intros o Ho. rewrite Hb; [by apply Hg|]. right. by eexists _, _.
  - intros q Hqu Hdq. apply orb_false_iff in Hdq as [Hdq Hne]. rewrite Hq, Hne, andb_false_r, orb_false_r. by apply Ha.
Qed.

Lemma building_ext held v dom dom' wr wr' m m' : building held v dom wr m ->
  (forall p, user_page p -> dom' p = dom p) -> (forall p, user_page p -> wr' p = wr p) ->
  (forall p o, user_page p -> 0 <= o < 4096 -> m' (p + o) = m (p + o)) -> building held v dom' wr' m'.
Proof.
  intros [Hi Hw Hh Hm Ha] Hd Hwr Hmm. split; [done..| |].
  - intros p Hp Hdp. rewrite Hd in Hdp by done. destruct (Hm p Hp Hdp) as (f & Ef & Hf). exists f. rewrite Hwr by done.
    split; [done|]. intros o Ho. rewrite Hmm by done. by apply Hf.
  - intros p Hp Hdp. rewrite Hd in Hdp by done. destruct (Ha p Hp Hdp) as (E & Hwp & H0). rewrite Hwr by done.
    split; [done|]. split; [done|]. intros o Ho. rewrite Hmm by done. by apply H0.
Qed.

Definition with_page (p : Z) dom : Z -> bool := fun q => dom q || (q =? p).
Definition with_write (w : bool) (p : Z) wr : Z -> bool := fun q => wr q || (w && (q =? p)).

(** A page that is there already. *)
Lemma ensure_mapped held v dom wr m p f (w : bool) :
  building held v dom wr m -> user_page p -> dom p = true -> up_page v p = Some (f, if wr p then 6 else 4) ->
  wp (let! ok := (if w && (Z.land (if wr p then 6 else 4) VMM_WRITABLE =? 0) then up_protect p VMM_WRITABLE else ret true) in
      ret (if ok : bool then Ok (Z.land f PAGE_MASK) else Err (- EIO))) v (fun r v' =>
    up_room v' = up_room v /\
    match r with
    | Ok _ => building held v' (with_page p dom) (with_write w p wr) m
    | Err e => e < 0 /\ up_room v < 0 /\ building held v' dom wr m
    end).
Proof.
  intros Hb Hp Hd Ef. pose proof Hb as [Hi Hw Hh Hm Ha].
  assert (forall wr', (forall q, user_page q -> with_write w p wr q = wr' q) -> forall v', building held v' dom wr' m ->
    building held v' (with_page p dom) (with_write w p wr) m) as Hext.
  { intros wr' Hwr' v' Hb'. eapply building_ext; [exact Hb'| |done|done].
    intros q _. unfold with_page. destruct (Z.eqb_spec q p) as [->|]; [by rewrite Hd|apply orb_false_r]. }
  destruct w; cbn [andb].
  - destruct (wr p) eqn:Ew; cbn [VMM_WRITABLE Z.land Z.eqb Pos.land Pos.eqb].
    + run. split; [done|]. apply (Hext wr); [|done]. intros q _. unfold with_write. cbn [andb].
      destruct (Z.eqb_spec q p) as [->|]; [by rewrite Ew|apply orb_false_r].
    + change (Z.land 4 2 =? 0) with true. cbv iota. apply wp_bind.
      eapply wp_mono; [apply (up_protect_ok p f 4); [done|apply Hp|apply Hp|done]|]. cbv beta.
      intros ok v' (A1 & A2 & A3 & A4 & A5 & A6 & A7). run. split; [done|]. destruct ok.
      * apply (Hext (fun q => wr q || (q =? p))); [done|]. by eapply building_protect.
      * split; [done|]. split; [destruct (Z.lt_ge_cases (up_room v) 0); [done|]; by specialize (A6 ltac:(lia))|].
        eapply building_same; [done|done|congruence|intros q; by rewrite A7|done|done].
  - run. split; [done|]. apply (Hext wr); [|done]. intros q _. unfold with_write. by rewrite orb_false_r.
Qed.

(** A page that gets a new frame; whatever fails, the frame goes back. *)
Lemma ensure_new held v dom wr m p (w : bool) :
  building held v dom wr m -> user_page p -> (0 <= up_room v -> dom p = false) ->
  wp (let! physical := up_alloc in
      if physical =? 0 then ret (Err (- ENOMEM)) else
      let! ok := andM (zero_physical_page physical) (up_map p physical (if w then VMM_WRITABLE else 0)) in
      if ok : bool then ret (Ok physical) else
      let! freed := up_free physical in
      if negb freed then panic "ELF page rollback failed" else ret (Err (- ENOMEM))) v (fun r v' =>
    (2 <= up_room v -> up_room v - 2 <= up_room v') /\
    match r with
    | Ok _ => building held v' (with_page p dom) (with_write w p wr) m
    | Err e => e < 0 /\ up_room v < 2 /\ building held v' dom wr m
    end).
Proof.
  intros Hb Hp Hd. pose proof Hb as [Hi Hw Hh Hm Ha]. apply wp_bind. eapply wp_mono; [by apply up_alloc_ok|]. cbv beta.
  intros f v1 (A1 & A2 & A3 & A4 & A5 & A6 & A7).
  destruct A7 as [[-> Hs1] | (Hf & Hno & Hs1)].
  { cbn [Z.eqb]. run. split; [lia|]. split; [done|]. split; [lia|]. eapply building_same; [done|done|congruence|done|done|done]. }
  rewrite (proj2 (Z.eqb_neq f 0)) by (destruct Hf; lia). unfold same_pages, same_bytes in *.
  assert (forall h, owned v h -> owned v1 h /\ h <> f) as Hown.
  { intros h Hh'. split; [|by intros ->]. destruct Hh' as [Hh'|(q & fl & Hq)]; [left; apply Hs1; by left|right; exists q, fl; by rewrite A6]. }
  assert (owned v1 f) as Hf1 by (left; apply Hs1; by right).
  apply wp_bind, wp_andM. unfold zero_physical_page.
  eapply wp_mono; [apply (window_write f 0 (fun _ => 0) 4096); [done|congruence|done|lia|lia|lia|intros i; by rewrite Z.add_0_l]|]. cbv beta.
  intros ok v2 (B1 & B2 & B3 & B4 & B5 & B6 & B7). unfold same_pages, same_held in *.
  assert (forall h o, owned v h -> up_byte v2 h o = up_byte v h o) as Hb2.
  { intros h o Hh'. destruct (Hown h Hh') as [Ho Hne]. rewrite B7 by done.
    rewrite (proj2 (Z.eqb_neq h f)), andb_false_r by done. cbn. by apply A5. }
  assert (forall h, owned v h -> owned v2 h) as Hown2.
  { intros h Hh'. destruct (Hown h Hh') as [[Hx|(q & fl & Hq)] _]; [left; by apply B5|right; exists q, fl; by rewrite B4]. }
  assert (up_held v2 f) as Hheld2 by (apply B5, Hs1; by right).
  assert (forall v3, up_inv v3 -> up_window v3 = None -> (forall g, up_held v3 g <-> up_held v2 g) -> (forall q, up_page v3 q = up_page v2 q) ->
    (forall h o, owned v2 h -> up_byte v3 h o = up_byte v2 h o) -> up_room v < 2 ->
    wp (let! freed := up_free f in if negb freed then panic "ELF page rollback failed" else ret (@Err Z (- ENOMEM))) v3 (fun r v' =>
      (2 <= up_room v -> up_room v - 2 <= up_room v') /\
      match r with
      | Ok _ => building held v' (with_page p dom) (with_write w p wr) m
      | Err e => e < 0 /\ up_room v < 2 /\ building held v' dom wr m
      end)) as Hfail.
  { intros v3 C1 C2 C3 C4 C5 C6. apply wp_bind. eapply wp_mono; [apply up_free_ok; [done|by apply C3|done]|]. cbv beta.
    intros b v4 (-> & D1 & D2 & D3 & D4 & D5 & D6). run. unfold same_pages, same_bytes in *. split; [lia|]. split; [done|]. split; [done|].
    eapply building_same; [done|done|done| | |].
    - intros q. by rewrite D3, C4, B4, A6.
    - intros g. rewrite D6, C3, B5, Hs1. split; [naive_solver|]. intros Hg. split; [by left|]. intros ->. apply Hno. by left.
    - intros h o Hh'. rewrite D2, C5, Hb2; auto. destruct (Hown2 h Hh') as [Hx|(q & fl & Hq)]; [left; by apply C3|right; exists q, fl; by rewrite C4]. }
  destruct ok; cbv iota beta.
  2:{ assert (up_room v < 2). { destruct (Z.lt_ge_cases (up_room v) 2); [done|]. by specialize (B6 ltac:(lia)). }
      by apply Hfail. }
  eapply wp_mono; [apply (up_map_ok p f); [done|apply Hp|apply Hp|done|destruct w; [by right|by left]]|]. cbv beta.
  intros ok v3 (C1 & C2 & C3 & C4 & C5 & C6). unfold same_bytes in *. destruct ok.
  - destruct C6 as (Cn & Ch & Cp). apply wp_ret. split; [lia|].
    assert (dom p = false) as Hdp.
    { destruct (dom p) eqn:E; [|done]. destruct (Hm p Hp E) as (g & Eg & _). rewrite B4, A6 in Cn. congruence. }
    eapply (building_new held v v3 dom wr m p f w); [done|done|done|done|done|congruence| | | |].
    + intros g. rewrite Ch, B5, Hs1. split; [naive_solver|]. intros Hg. split; [by left|]. intros ->. apply Hno. by left.
    + intros h o Hh'. rewrite C3 by auto. by apply Hb2.
    + intros o Ho. rewrite C3 by (by left). rewrite B7 by done. rewrite Z.eqb_refl. cbn [andb].
      rewrite (proj2 (Z.leb_le _ _)), (proj2 (Z.ltb_lt _ _)) by lia. done.
    + intros q. rewrite Cp, B4, A6. destruct w; done.
  - destruct C6 as [Ch Cp]. apply Hfail; try done; [congruence|].
    destruct (Z.lt_ge_cases (up_room v) 2); [done|]. assert (false = true); [|done]. apply C5; [lia|].
    rewrite B4, A6. apply Ha; [done|]. apply Hd. lia.
Qed.

Lemma ensure_user_page_ok held v dom wr m p (w : bool) :
  building held v dom wr m -> user_page p ->
  wp (ensure_user_page p w) v (fun r v' =>
    (2 <= up_room v -> up_room v - 2 <= up_room v') /\
    match r with
    | Ok _ => building held v' (with_page p dom) (with_write w p wr) m
    | Err e => e < 0 /\ up_room v < 2 /\ building held v' dom wr m
    end).
Proof.
  intros Hb Hp. pose proof Hb as [Hi Hw Hh Hm Ha]. unfold ensure_user_page. apply wp_bind.
  destruct (page_start p) as [Ep Em]; [apply Hp|].
  eapply wp_mono; [apply up_query_ok; [done|apply Hp]|]. cbv beta. rewrite Ep.
  intros r v1 (A1 & A2 & A3 & A4 & A5 & A6 & A7).
  assert (building held v1 dom wr m) as Hb1 by (eapply building_same; [done|done|congruence|done|done|done]).
  destruct r as [[pa fl]|].
  - destruct A7 as (f & Ef & ->). rewrite Em, Z.add_0_r.
    destruct (dom p) eqn:Ed; [|destruct (Ha p Hp Ed); congruence].
    destruct (Hm p Hp Ed) as (g & Eg & _). assert (g = f /\ fl = if wr p then 6 else 4) as [-> ->] by (split; congruence).
    eapply wp_mono; [apply (ensure_mapped held v1 dom wr m); [done|done|done|by rewrite A3]|]. cbv beta.
    intros r v' [Hr H]. split; [lia|]. destruct r; [|done]. destruct H as (? & ? & ?). split; [done|]. split; [lia|done].
  - eapply wp_mono; [apply (ensure_new held v1 dom wr m); [done|done|]|].
    { intros Hroom. destruct (dom p) eqn:Ed; [|done]. destruct (Hm p Hp Ed) as (g & Eg & _). specialize (A7 ltac:(lia)). congruence. }
    cbv beta. by rewrite A2.
Qed.

(** ** The pages of a segment *)

Definition between (first last q : Z) : bool := (first <=? q) && (q <=? last).

Lemma user_page_step first k K : user_page first -> user_page (first + 4096 * K) -> 0 <= k <= K -> user_page (first + 4096 * k).
Proof.
  intros [H1 H2] [H3 _] Hk. split; [lia|]. unfold page_aligned in *.
  by rewrite (Z.mul_comm 4096), Z.mod_add by lia.
Qed.

Lemma between_step first k q : user_page first -> user_page q -> 0 <= k ->
  between first (first + 4096 * k) q = between first (first + 4096 * (k - 1)) q || (q =? first + 4096 * k).
Proof.
  intros [_ Hf] [_ Hq] Hk. unfold page_aligned, between in *.
  assert (exists a, first = 4096 * a) as [a ->] by (exists (first / 4096); pose proof (Z.div_mod first 4096); lia).
  assert (exists c, q = 4096 * c) as [c ->] by (exists (q / 4096); pose proof (Z.div_mod q 4096); lia).
  destruct (Z.leb_spec (4096 * a) (4096 * c)), (Z.leb_spec (4096 * c) (4096 * a + 4096 * k)),
    (Z.leb_spec (4096 * c) (4096 * a + 4096 * (k - 1))), (Z.eqb_spec (4096 * c) (4096 * a + 4096 * k)); cbn; lia || done.
Qed.

Lemma map_loop held v dom wr m first K (w : bool) fuel :
  building held v dom wr m -> user_page first -> user_page (first + 4096 * K) -> 0 <= K -> (Z.to_nat K < fuel)%nat ->
  wp (while_ fuel (map_step (first + 4096 * K) w) first) v (fun r v' => exists dom' wr',
    building held v' dom' wr' m /\
    (r = 0 /\ (forall q, user_page q -> dom' q = dom q || between first (first + 4096 * K) q) /\
     (forall q, user_page q -> wr' q = wr q || (w && between first (first + 4096 * K) q)) /\
     (2 * (K + 1) <= up_room v -> up_room v - 2 * (K + 1) <= up_room v') \/
     r < 0 /\ up_room v < 2 * (K + 1))).
Proof.
  intros Hb Hf Hl HK Hfuel.
  apply (wp_while_idx (fun n page v' => exists k dom' wr', 0 <= k <= K /\ page = first + 4096 * k /\ n = Z.to_nat (K - k) /\
    building held v' dom' wr' m /\
    (forall q, user_page q -> dom' q = dom q || between first (first + 4096 * (k - 1)) q) /\
    (forall q, user_page q -> wr' q = wr q || (w && between first (first + 4096 * (k - 1)) q)) /\
    (2 * (K + 1) <= up_room v -> up_room v - 2 * k <= up_room v')) _ _ (Z.to_nat K)).
  - exists 0, dom, wr. split; [lia|]. split; [lia|]. split; [f_equal; lia|]. split; [done|].
    assert (forall q, between first (first + 4096 * (0 - 1)) q = false) as E.
    { intros q. unfold between. destruct (Z.leb_spec first q), (Z.leb_spec q (first + 4096 * (0 - 1))); try done; lia. }
    split; [intros q _; by rewrite E, orb_false_r|]. split; [intros q _; by rewrite E, andb_false_r, orb_false_r|lia].
  - done.
  - intros n page v' (k & dom' & wr' & Hk & -> & -> & Hb' & Hd & Hw & Hr). unfold map_step. apply wp_bind.
    pose proof (user_page_step first k K Hf Hl Hk) as Hp.
    eapply wp_mono; [by apply ensure_user_page_ok|]. cbv beta. intros [e|f] v'' [Hroom Hres].
    + destruct Hres as (He & Hlow & Hb''). rewrite (proj2 (Z.ltb_lt _ _)) by done. apply wp_ret.
      exists dom', wr'. split; [done|]. right. split; [done|]. lia.
    + assert (forall q, user_page q -> with_page (first + 4096 * k) dom' q = dom q || between first (first + 4096 * k) q) as Hd'.
      { intros q Hq. unfold with_page. rewrite Hd, <-orb_assoc, <-between_step by (done || lia). done. }
      assert (forall q, user_page q -> with_write w (first + 4096 * k) wr' q = wr q || (w && between first (first + 4096 * k) q)) as Hw'.
      { intros q Hq. unfold with_write. rewrite Hw, <-orb_assoc, <-andb_orb_distrib_r, <-between_step by (done || lia). done. }
      destruct (Z.eqb_spec (first + 4096 * k) (first + 4096 * K)) as [E|Hne].
      * apply wp_ret. assert (k = K) as -> by lia. eexists _, _. split; [exact Hres|]. left. split; [done|]. split; [done|]. split; [done|]. lia.
      * apply wp_ret. exists (Z.to_nat (K - (k + 1))). split; [lia|].
        exists (k + 1), (with_page (first + 4096 * k) dom'), (with_write w (first + 4096 * k) wr').
        split; [lia|]. split.
        { unfold PAGE_SIZE. rewrite u32_id; [lia|]. destruct Hf, Hl. unfold KERNEL_BASE in *. lia. }
        split; [done|]. split; [done|]. replace (k + 1 - 1) with k by lia. split; [done|]. split; [done|]. lia.
Qed.

(** ** Copying the bytes of the file *)

Definition overlay (image : list Z) (va fo n : Z) m : Z -> Z :=
  fun a => if (va <=? a) && (a <? va + n) then byte_at image (fo + (a - va)) else m a.

Lemma page_split a : 0 <= a < KERNEL_BASE -> user_page (a / 4096 * 4096) /\ a = a / 4096 * 4096 + a mod 4096 /\ 0 <= a mod 4096 < 4096.
Proof.
  intros Ha. pose proof (Z.div_mod a 4096). pose proof (Z.mod_pos_bound a 4096 ltac:(lia)).
  split; [split; [lia|]|split; [lia|done]]. unfold page_aligned. by rewrite Z.mod_mul by lia.
Qed.

(** One chunk inside a page: the description changes at its bytes only. *)
Lemma building_write held v v' dom wr m p f fl off n (g : Z -> Z) :
  building held v dom wr m -> user_page p -> dom p = true -> up_page v p = Some (f, fl) -> 0 <= off -> off + n <= 4096 ->
  up_inv v' -> up_window v' = None -> same_pages v v' -> same_held v v' ->
  (forall h o, owned v h -> up_byte v' h o = if (h =? f) && ((off <=? o) && (o <? off + n)) then g (o - off) else up_byte v h o) ->
  building held v' dom wr (fun a => if (p + off <=? a) && (a <? p + off + n) then g (a - (p + off)) else m a).
Proof.
  intros Hb Hp Hd Ef Ho Hn Hi Hw Hsp Hsh Hbytes. pose proof Hb as [Hi0 Hw0 Hh Hm Ha]. unfold same_pages, same_held in *. split; [done|done| | |].
  - intros h. by rewrite Hsh, Hh.
  - intros q Hq Hdq. destruct (Hm q Hq Hdq) as (h & Eh & Hbh). exists h. rewrite Hsp. split; [done|]. intros o Hoo.
    rewrite Hbytes by (right; by eexists _, _). rewrite Hbh by done. destruct (Z.eqb_spec h f) as [->|Hne].
    + assert (q = p) as -> by (by eapply up_page_inj). cbn [andb].
      destruct (Z.leb_spec off o), (Z.leb_spec (p + off) (p + o)), (Z.ltb_spec o (off + n)), (Z.ltb_spec (p + o) (p + off + n));
        cbn; try lia; try done. f_equal. lia.
    + cbn [andb]. assert (q <> p) as Hqp by (intros ->; congruence).
      rewrite (proj2 (andb_false_iff _ _)); [done|]. rewrite Z.leb_gt, Z.ltb_ge.
      destruct Hp as [_ Hp], Hq as [_ Hq]. unfold page_aligned in *. pose proof (Z.div_mod p 4096). pose proof (Z.div_mod q 4096). lia.
  - intros q Hq Hdq. rewrite Hsp. destruct (Ha q Hq Hdq) as (E & Hwq & H0). split; [done|]. split; [done|]. intros o Hoo.
    assert (q <> p) as Hqp by (intros ->; congruence). rewrite (proj2 (andb_false_iff _ _)); [by apply H0|]. rewrite Z.leb_gt, Z.ltb_ge.
    destruct Hp as [_ Hp], Hq as [_ Hq]. unfold page_aligned in *. pose proof (Z.div_mod p 4096). pose proof (Z.div_mod q 4096). lia.
Qed.

Lemma copy_to_physical_ok held v dom wr m p f fl off source :
  building held v dom wr m -> user_page p -> dom p = true -> up_page v p = Some (f, fl) ->
  0 <= off -> off + zlength source <= 4096 -> bytes source ->
  wp (copy_to_physical f off source) v (fun ok v' => up_room v' = up_room v /\ (0 <= up_room v -> ok = true) /\
    building held v' dom wr (if ok : bool
      then fun a => if (p + off <=? a) && (a <? p + off + zlength source) then byte_at source (a - (p + off)) else m a else m)).
Proof.
  intros Hb Hp Hd Ef Ho Hn Hbs. unfold copy_to_physical, PAGE_SIZE. assert (0 <= zlength source) by (unfold zlength; lia).
  rewrite (proj2 (Z.ltb_ge _ off)), (proj2 (Z.ltb_ge _ (zlength source))) by lia. cbn [orb].
  eapply wp_mono; [apply (window_write f off (byte_at source) (length source)); [apply Hb|apply Hb| |done|done| |done]|].
  { right. by eexists _, _. } { intros i. by apply byte_at_range. }
  cbv beta. intros ok v' (A1 & A2 & A3 & A4 & A5 & A6 & A7). split; [done|]. split; [done|]. destruct ok; cbn [andb] in A7.
  - by apply (building_write held v v' dom wr m p f fl off (zlength source) (byte_at source)).
  - by apply (building_same held v).
Qed.

Section copy.
Context (image : list Z) (va fo fs : Z).
Hypothesis image_bytes_ok : bytes image.
Hypothesis image_size : zlength image < 4294967296.
Hypothesis range : 0 <= va /\ 0 <= fo /\ va + fs <= KERNEL_BASE /\ fo + fs <= zlength image.

Lemma copy_step_ok held v dom wr m d :
  building held v dom wr (overlay image va fo d m) -> 0 <= d < fs ->
  (forall a, va <= a < va + fs -> dom (a / 4096 * 4096) = true) ->
  wp (copy_step image (va + d, fo + d, fs - d)) v (fun r v' => up_room v' = up_room v /\
    match r with
    | inl x => exists d', d < d' <= fs /\ x = (va + d', fo + d', fs - d') /\ building held v' dom wr (overlay image va fo d' m)
    | inr e => e < 0 /\ up_room v < 0 /\ exists m', building held v' dom wr m'
    end).
Proof.
  intros Hb Hd Hdom. unfold copy_step. rewrite (proj2 (Z.eqb_neq (fs - d) 0)) by lia. cbv zeta.
  assert (0 <= va + d < KERNEL_BASE) as Hva by lia.
  destruct (page_split (va + d) Hva) as (Hp & Ea & Ho). unfold KERNEL_BASE in *.
  rewrite mask_page by lia. change (PAGE_SIZE - 1) with 4095. rewrite land_low_4095. unfold PAGE_SIZE.
  set (p := (va + d) / 4096 * 4096) in *. set (off := (va + d) mod 4096) in *.
  set (chunk := Z.min (4096 - off) (fs - d)). assert (0 < chunk <= fs - d /\ off + chunk <= 4096) as [Hc1 Hc2] by lia.
  assert (dom p = true) as Hdp by (apply Hdom; lia).
  apply wp_bind. eapply wp_mono; [apply up_query_ok; [apply Hb|apply Hp]|]. cbv beta.
  destruct (page_start p ltac:(apply Hp)) as [Ep Em]. rewrite Ep, Em. intros q v1 (A1 & A2 & A3 & A4 & A5 & A6 & A7).
  assert (building held v1 dom wr (overlay image va fo d m)) as Hb1.
  { eapply building_same; [exact Hb|done|rewrite A6; apply Hb|done|done|done]. }
  destruct (bu_mapped _ _ _ _ _ Hb p Hp Hdp) as (f & Ef & _).
  destruct q as [[pa fl]|].
  2:{ apply wp_ret. split; [done|]. split; [done|]. split; [|by eexists].
      destruct (Z.lt_ge_cases (up_room v) 0); [done|]. specialize (A7 ltac:(lia)). congruence. }
  destruct A7 as (f' & Ef' & ->). rewrite Ef in Ef'. injection Ef' as <- <-. rewrite Z.add_0_r.
  rewrite mask_frame by (apply (up_page_frame v p f _ (bu_inv _ _ _ _ _ Hb) Ef)).
  unfold image_bytes. rewrite (proj2 (Z.leb_le 0 _)), (proj2 (Z.leb_le (fo + d + chunk) _)) by lia. cbn [andb]. apply wp_bind, wp_ret.
  assert (zlength (slice image (fo + d) chunk) = chunk) as Hl by (apply zlength_slice; lia).
  apply wp_bind. eapply wp_mono; [apply (copy_to_physical_ok held v1 dom wr (overlay image va fo d m) p f (if wr p then 6 else 4) off)|].
  { done. } { done. } { done. } { by rewrite A3. } { lia. } { lia. } { by apply bytes_slice. }
  cbv beta. rewrite Hl. intros ok v2 (B1 & B2 & B3). destruct ok; cbn [negb].
  2:{ apply wp_ret. split; [lia|]. split; [done|]. split; [|by eexists].
      destruct (Z.lt_ge_cases (up_room v) 0); [done|]. specialize (B2 ltac:(lia)). done. }
  apply wp_ret. split; [lia|]. exists (d + chunk). split; [lia|]. split.
  { rewrite !u32_id by lia. f_equal; [f_equal|]; lia. }
  eapply building_ext; [exact B3|done|done|]. intros q o _ _. unfold overlay. replace (p + off) with (va + d) by lia.
  destruct (Z.leb_spec (va + d) (q + o)), (Z.ltb_spec (q + o) (va + d + chunk)), (Z.leb_spec va (q + o)),
    (Z.ltb_spec (q + o) (va + (d + chunk))), (Z.ltb_spec (q + o) (va + d)); cbn; try lia; try done.
  rewrite byte_at_slice by lia. f_equal. lia.
Qed.

Lemma copy_loop_ok held v dom wr m :
  building held v dom wr m -> 0 <= fs -> (forall a, va <= a < va + fs -> dom (a / 4096 * 4096) = true) ->
  wp (while_ (S (Z.to_nat fs)) (copy_step image) (va, fo, fs)) v (fun r v' => up_room v' = up_room v /\
    (r = 0 /\ building held v' dom wr (overlay image va fo fs m) \/
     r < 0 /\ up_room v < 0 /\ exists m', building held v' dom wr m')).
Proof.
  intros Hb Hfs Hdom.
  apply (wp_while_idx (fun n x v' => exists d, 0 <= d <= fs /\ x = (va + d, fo + d, fs - d) /\ n = Z.to_nat (fs - d) /\
    up_room v' = up_room v /\ building held v' dom wr (overlay image va fo d m)) _ _ (Z.to_nat fs)).
  - exists 0. split; [lia|]. split; [f_equal; [f_equal|]; lia|]. split; [f_equal; lia|]. split; [done|].
    eapply building_ext; [exact Hb|done|done|]. intros q o _ _. unfold overlay.
    destruct (Z.leb_spec va (q + o)), (Z.ltb_spec (q + o) (va + 0)); try lia; done.
  - lia.
  - intros n x v' (d & Hd & -> & -> & Hr & Hb'). destruct (decide (d = fs)) as [->|Hne].
    + unfold copy_step. rewrite Z.sub_diag. cbn [Z.eqb]. apply wp_ret. split; [done|]. by left.
    + eapply wp_mono; [apply (copy_step_ok held v' dom wr m d); [done|lia|done]|]. cbv beta.
      intros [x|e] v'' [Hr' H].
      * destruct H as (d' & Hd' & -> & Hb''). exists (Z.to_nat (fs - d')). split; [lia|]. exists d'.
        split; [lia|]. split; [done|]. split; [done|]. split; [congruence|done].
      * destruct H as (He & Hlow & Hm). split; [congruence|]. right. split; [done|]. split; [lia|done].
Qed.

End copy.

(** ** A segment *)

Definition first_page (p : elf_program_header) : Z := virtual_address p / 4096 * 4096.
Definition last_page (p : elf_program_header) : Z := (memory_end p - 1) / 4096 * 4096.
Definition pages (p : elf_program_header) : Z := (memory_end p - 1) / 4096 - virtual_address p / 4096 + 1.
Definition touches (p : elf_program_header) (q : Z) : bool := between (first_page p) (last_page p) q.

Lemma load_program_ok image held v dom wr m p :
  bytes image -> zlength image < 4294967296 -> words p -> is_load p -> segment_ok (zlength image) p ->
  building held v dom wr m ->
  wp (load_program image p) v (fun r v' =>
    r = 0 /\ (2 * pages p <= up_room v -> up_room v - 2 * pages p <= up_room v') /\
      building held v' (fun q => dom q || touches p q) (fun q => wr q || (writable p && touches p q))
        (overlay image (virtual_address p) (file_offset p) (file_size p) m) \/
    r < 0 /\ up_room v < 2 * pages p /\ exists dom' wr' m', building held v' dom' wr' m').
Proof.
  intros Hib His Hw [_ Hne] Hs Hb. destruct Hw, Hs. unfold word, memory_end, KERNEL_BASE, PAGE_SIZE in *.
  assert (0 < memory_size p) as Hpos by lia.
  unfold load_program. cbv zeta. rewrite (u32_id (virtual_address p + _)), u32_id by lia. rewrite !mask_page by lia.
  change ELF_PROGRAM_WRITABLE with (2 ^ 1). rewrite land_pow2, negb_involutive by lia. fold (writable p).
  set (va := virtual_address p) in *. set (mem := memory_size p) in *.
  set (K := (va + mem - 1) / 4096 - va / 4096).
  assert (0 <= K <= mem) as HK by (unfold K; word_lia).
  replace ((va + mem - 1) / 4096 * 4096) with (va / 4096 * 4096 + 4096 * K) by (unfold K; lia).
  assert (user_page (va / 4096 * 4096)) as Hf by (apply page_split; unfold KERNEL_BASE; lia).
  assert (user_page (va / 4096 * 4096 + 4096 * K)) as Hl.
  { replace (va / 4096 * 4096 + 4096 * K) with ((va + mem - 1) / 4096 * 4096) by (unfold K; lia). apply page_split. unfold KERNEL_BASE. lia. }
  assert (forall q, between (va / 4096 * 4096) (va / 4096 * 4096 + 4096 * K) q = touches p q) as Ht.
  { intros q. unfold touches, first_page, last_page, memory_end. fold va mem. do 2 f_equal. unfold K. lia. }
  assert (pages p = K + 1) as Hpg by done.
  apply wp_bind. eapply wp_mono; [apply (map_loop held v dom wr m (va / 4096 * 4096) K (writable p)); [done|done|done|lia|lia]|]. cbv beta.
  intros r v1 (dom1 & wr1 & Hb1 & [(-> & Hd1 & Hw1 & Hr1) | [Hr Hlow]]).
  2:{ rewrite (proj2 (Z.ltb_lt _ _)) by done. run. right. split; [done|]. split; [lia|]. by exists dom1, wr1, m. }
  cbn [Z.ltb Z.compare].
  assert (building held v1 (fun q => dom q || touches p q) (fun q => wr q || (writable p && touches p q)) m) as Hb1'.
  { eapply building_ext; [exact Hb1| | |done].
    - intros q Hq. by rewrite Hd1, Ht by done.
    - intros q Hq. by rewrite Hw1, Ht by done. }
  eapply wp_mono; [apply (copy_loop_ok image va (file_offset p) (file_size p)); [done|done| |exact Hb1'|lia|]|].
  { unfold KERNEL_BASE. lia. }
  { intros a Ha. apply orb_true_iff. right. unfold touches, between, first_page, last_page, memory_end. fold va mem.
    apply andb_true_iff. rewrite !Z.leb_le. split; apply Z.mul_le_mono_nonneg_r; try lia; apply Z.div_le_mono; lia. }
  cbv beta. intros r v2 [Hr2 [[-> Hb2] | (Hr & Hlow & m' & Hb2)]].
  - left. split; [done|]. split; [lia|done].
  - right. split; [done|]. split; [|by eexists _, _, m'].
    assert (0 <= K + 1) by lia. destruct (Z.lt_ge_cases (up_room v) (2 * (K + 1))); [lia|]. specialize (Hr1 ltac:(lia)). lia.
Qed.

(** ** The whole file *)

Section file.
Context (image : list Z).
Hypothesis image_bytes_ok : bytes image.
Hypothesis image_size : zlength image < 4294967296.
Hypothesis accepted : image_ok image.

Definition loads (i : Z) : bool := (p_type (program_at image i) =? ELF_PROGRAM_LOAD) && negb (memory_size (program_at image i) =? 0).

Lemma loads_is_load i : loads i = true <-> is_load (program_at image i).
Proof. unfold loads, is_load. by rewrite andb_true_iff, negb_true_iff, Z.eqb_eq, Z.eqb_neq. Qed.

(** The description asked for by the first [n] program headers. *)
Fixpoint dom_of (n : nat) (q : Z) : bool :=
  match n with
  | O => false
  | S n' => if loads (Z.of_nat n') then dom_of n' q || touches (program_at image (Z.of_nat n')) q else dom_of n' q
  end.
Fixpoint wr_of (n : nat) (q : Z) : bool :=
  match n with
  | O => false
  | S n' =>
      if loads (Z.of_nat n')
      then wr_of n' q || (writable (program_at image (Z.of_nat n')) && touches (program_at image (Z.of_nat n')) q)
      else wr_of n' q
  end.
Fixpoint bytes_of (n : nat) : Z -> Z :=
  match n with
  | O => fun _ => 0
  | S n' =>
      let p := program_at image (Z.of_nat n') in
      if loads (Z.of_nat n') then overlay image (virtual_address p) (file_offset p) (file_size p) (bytes_of n') else bytes_of n'
  end.
Fixpoint need_of (n : nat) : Z :=
  match n with
  | O => 0
  | S n' => need_of n' + (if loads (Z.of_nat n') then pages (program_at image (Z.of_nat n')) else 0)
  end.

Lemma pages_nonneg i : 0 <= i < count_of image -> loads i = true -> 0 <= pages (program_at image i).
Proof.
  intros Hi Hl. apply loads_is_load in Hl. destruct (io_programs image accepted i Hi) as [_ Hs]. destruct (Hs Hl) as [Hseg _].
  destruct (program_of_words image (program_offset (header_of image) + i * PROGRAM_SIZE) image_bytes_ok) as [? ? ? ? ? ?].
  fold (program_at image i) in *. destruct Hl. unfold word, pages, memory_end in *.
  assert (virtual_address (program_at image i) / 4096 <= (virtual_address (program_at image i) + memory_size (program_at image i) - 1) / 4096)
    by (apply Z.div_le_mono; lia). lia.
Qed.

Lemma need_mono n n' : (n <= n')%nat -> Z.of_nat n' <= count_of image -> need_of n <= need_of n'.
Proof.
  induction 1 as [|n' Hn IH]; intros Hc; [lia|]. cbn [need_of]. specialize (IH ltac:(lia)).
  destruct (loads (Z.of_nat n')) eqn:E; [|lia]. pose proof (pages_nonneg (Z.of_nat n') ltac:(lia) E). lia.
Qed.

Definition needed : Z := need_of (Z.to_nat (count_of image)).

Lemma load_programs_ok held v :
  building held v (dom_of 0) (wr_of 0) (bytes_of 0) ->
  wp (for_until (Z.to_nat (count_of image)) 0 (fun index =>
        let! program := program_header_at image (header_of image) index in
        if negb (p_type program =? ELF_PROGRAM_LOAD) || (memory_size program =? 0) then ret None else
        let! result := load_program image program in
        ret (if result <? 0 then Some result else None))) v (fun r v' =>
    match r with
    | None => let n := Z.to_nat (count_of image) in building held v' (dom_of n) (wr_of n) (bytes_of n)
    | Some e => e < 0 /\ up_room v < 2 * needed /\ exists dom wr m, building held v' dom wr m
    end).
Proof.
  intros Hb. pose proof (ho_count image (io_header image accepted)) as Hc.
  apply (wp_for_until (fun i v' => building held v' (dom_of (Z.to_nat i)) (wr_of (Z.to_nat i)) (bytes_of (Z.to_nat i)) /\
    (2 * needed <= up_room v -> up_room v - 2 * need_of (Z.to_nat i) <= up_room v'))).
  - split; [done|]. intros _. change (need_of (Z.to_nat 0)) with 0. lia.
  - intros i v' Hi [Hb' Hr]. assert (0 <= i < count_of image) as Hi' by lia.
    apply wp_bind, wp_program_header_at; [done|done|apply accepted|done|].
    replace (Z.to_nat (i + 1)) with (S (Z.to_nat i)) by lia.
    assert (need_of (S (Z.to_nat i)) <= needed) as Hneed by (apply need_mono; lia).
    cbn [dom_of wr_of bytes_of need_of] in *. replace (Z.of_nat (Z.to_nat i)) with i in * by lia.
    destruct (loads i) eqn:El.
    + unfold loads in El. apply andb_true_iff in El as [E1 E2]. apply negb_true_iff in E2.
      rewrite E1, E2. cbn [negb orb]. apply Z.eqb_eq in E1. apply Z.eqb_neq in E2.
      destruct (io_programs image accepted i Hi') as [_ Hs]. destruct (Hs (conj E1 E2)) as [Hseg _].
      apply wp_bind. eapply wp_mono; [apply (load_program_ok image held v'); [done|done|by apply program_of_words|done|done|exact Hb']|].
      cbv beta. intros r v'' [(-> & Hr2 & Hb2) | (Hr2 & Hlow & Hb2)].
      * run. split; [done|]. lia.
      * rewrite (proj2 (Z.ltb_lt _ _)) by done. run. split; [done|]. split; [|done].
        destruct (Z.lt_ge_cases (up_room v) (2 * needed)); [done|]. specialize (Hr ltac:(lia)). lia.
    + assert (negb (p_type (program_at image i) =? ELF_PROGRAM_LOAD) || (memory_size (program_at image i) =? 0) = true) as ->.
      { unfold loads in El. destruct (_ =? ELF_PROGRAM_LOAD), (_ =? 0); done. }
      run. split; [done|]. lia.
  - intros v' [Hb' _]. cbv zeta. by replace (Z.to_nat (count_of image)) with (Z.to_nat (0 + Z.of_nat (Z.to_nat (count_of image)))) by lia.
Qed.

(** ** The memory as the program sees it *)

Definition page_of (a : Z) : Z := a / 4096 * 4096.
Definition user_read v (a : Z) : option Z :=
  match up_page v (page_of a) with Some (f, _) => Some (up_byte v f (a mod 4096)) | None => None end.
Definition user_can_write v (a : Z) : bool :=
  match up_page v (page_of a) with Some (_, flags) => Z.testbit flags 1 | None => false end.

(** [a] is on a page of the load segment [i]. *)
Definition on_page (i a : Z) : Prop :=
  0 <= i < count_of image /\ is_load (program_at image i) /\ touches (program_at image i) (page_of a) = true.

(** The file's bytes at the start of every segment, zeros everywhere else on
    its pages, no other page, and writing where a writable segment is: what
    [read] shows and where [can_write] allows it. *)
Record program_memory (read : Z -> option Z) (can_write : Z -> bool) : Prop := {
  pm_segment : forall i d, 0 <= i < count_of image -> is_load (program_at image i) ->
    0 <= d < memory_size (program_at image i) ->
    read (virtual_address (program_at image i) + d) =
      Some (if d <? file_size (program_at image i) then byte_at image (file_offset (program_at image i) + d) else 0);
  pm_between : forall a, 0 <= a < KERNEL_BASE ->
    (forall i, 0 <= i < count_of image -> is_load (program_at image i) ->
       ~ virtual_address (program_at image i) <= a < memory_end (program_at image i)) ->
    read a = None \/ read a = Some 0;
  pm_mapped : forall a, 0 <= a < KERNEL_BASE -> is_Some (read a) <-> exists i, on_page i a;
  pm_writable : forall a, 0 <= a < KERNEL_BASE ->
    can_write a = true <-> exists i, on_page i a /\ writable (program_at image i) = true
}.

Lemma exists_below n (P : Z -> Prop) :
  (exists i, 0 <= i < Z.of_nat (S n) /\ P i) <-> (exists i, 0 <= i < Z.of_nat n /\ P i) \/ P (Z.of_nat n).
Proof.
  split.
  - intros (i & Hi & HP). destruct (decide (i = Z.of_nat n)) as [->|]; [by right|left]. exists i. split; [lia|done].
  - intros [(i & Hi & HP)|HP]; [exists i|exists (Z.of_nat n)]; (split; [lia|done]).
Qed.

Lemma dom_of_spec n q : dom_of n q = true <->
  exists i, 0 <= i < Z.of_nat n /\ is_load (program_at image i) /\ touches (program_at image i) q = true.
Proof.
  induction n as [|n IH]; [split; [done|intros (i & ? & _); lia]|]. rewrite exists_below, <-IH, <-loads_is_load.
  cbn [dom_of]. destruct (loads (Z.of_nat n)); rewrite ?orb_true_iff; naive_solver.
Qed.

Lemma wr_of_spec n q : wr_of n q = true <->
  exists i, 0 <= i < Z.of_nat n /\ (is_load (program_at image i) /\ touches (program_at image i) q = true) /\
    writable (program_at image i) = true.
Proof.
  induction n as [|n IH]; [split; [done|intros (i & ? & _); lia]|]. rewrite exists_below, <-IH, <-loads_is_load.
  cbn [wr_of]. destruct (loads (Z.of_nat n)); rewrite ?orb_true_iff, ?andb_true_iff; naive_solver.
Qed.

(** Outside the file parts of the segments the bytes are zero. *)
Lemma bytes_of_outside n a :
  (forall i, 0 <= i < Z.of_nat n -> is_load (program_at image i) ->
     ~ virtual_address (program_at image i) <= a < virtual_address (program_at image i) + file_size (program_at image i)) ->
  bytes_of n a = 0.
Proof.
  induction n as [|n IH]; intros H; [done|]. cbn [bytes_of]. cbv zeta.
  assert (bytes_of n a = 0) as E by (apply IH; intros i Hi; apply H; lia).
  destruct (loads (Z.of_nat n)) eqn:El; [|done]. unfold overlay. rewrite E.
  apply loads_is_load in El. specialize (H (Z.of_nat n) ltac:(lia) El).
  destruct (Z.leb_spec (virtual_address (program_at image (Z.of_nat n))) a), (Z.ltb_spec a (virtual_address (program_at image (Z.of_nat n)) + file_size (program_at image (Z.of_nat n)))); try done. lia.
Qed.

Lemma load_parts i : 0 <= i < count_of image -> is_load (program_at image i) ->
  segment_ok (zlength image) (program_at image i) /\ words (program_at image i).
Proof.
  intros Hi Hl. split; [by apply (proj2 (io_programs image accepted i Hi))|by apply program_of_words].
Qed.

(** Two load segments share no address. *)
Lemma loads_apart i j a : 0 <= i < count_of image -> 0 <= j < count_of image ->
  is_load (program_at image i) -> is_load (program_at image j) ->
  virtual_address (program_at image i) <= a < memory_end (program_at image i) ->
  virtual_address (program_at image j) <= a < memory_end (program_at image j) -> i = j.
Proof.
  intros Hi Hj Li Lj Ai Aj. destruct (Z.lt_trichotomy i j) as [H|[H|H]]; [exfalso|done|exfalso].
  - destruct (proj2 (io_programs image accepted j Hj) Lj) as [_ Hap].
    destruct (Hap i ltac:(lia) (proj1 Li)); lia.
  - destruct (proj2 (io_programs image accepted i Hi) Li) as [_ Hap].
    destruct (Hap j ltac:(lia) (proj1 Lj)); lia.
Qed.

(** Inside a segment they are those of the file, then zeros. *)
Lemma bytes_of_inside n i d : Z.of_nat n <= count_of image -> 0 <= i < Z.of_nat n -> is_load (program_at image i) ->
  0 <= d < memory_size (program_at image i) ->
  bytes_of n (virtual_address (program_at image i) + d) =
    if d <? file_size (program_at image i) then byte_at image (file_offset (program_at image i) + d) else 0.
Proof.
  set (p := program_at image i). intros Hn Hi Hl Hd. set (a := virtual_address p + d).
  assert (forall j, 0 <= j < Z.of_nat n -> is_load (program_at image j) ->
    virtual_address (program_at image j) <= a < virtual_address (program_at image j) + file_size (program_at image j) -> j = i) as Hu.
  { intros j Hj Lj Aj. destruct (load_parts j ltac:(lia) Lj) as [[Hf _ _ _ _ _ _] _].
    apply (loads_apart j i a); [lia|lia|done|done| |]; unfold memory_end; [lia|]. unfold a. fold p. lia. }
  destruct (Z.ltb_spec d (file_size p)) as [Hf|Hf].
  2:{ apply bytes_of_outside. intros j Hj Lj Aj. assert (j = i) as -> by auto. fold p in Aj. unfold a in Aj. lia. }
  apply proj1 in Hd as Hd0. clear Hd. revert Hn Hi Hu. induction n as [|n IH]; [lia|]. intros Hn Hi Hu. cbn [bytes_of]. cbv zeta.
  destruct (decide (i = Z.of_nat n)) as [E|].
  - rewrite <-E. fold p. rewrite (proj2 (loads_is_load i) Hl). unfold overlay, a.
    rewrite (proj2 (Z.leb_le _ _)), (proj2 (Z.ltb_lt _ _)) by lia. cbn [andb]. f_equal. lia.
  - assert (bytes_of n a = byte_at image (file_offset p + d)) as IH'.
    { apply IH; [lia|lia|]. intros j Hj. apply Hu. lia. }
    destruct (loads (Z.of_nat n)) eqn:El; [|done]. apply loads_is_load in El. unfold overlay. rewrite IH'.
    specialize (Hu (Z.of_nat n) ltac:(lia) El).
    destruct (Z.leb_spec (virtual_address (program_at image (Z.of_nat n))) a), (Z.ltb_spec a (virtual_address (program_at image (Z.of_nat n)) + file_size (program_at image (Z.of_nat n)))); try done. lia.
Qed.

Lemma touches_own i d : 0 <= i < count_of image -> is_load (program_at image i) -> 0 <= d < memory_size (program_at image i) ->
  0 <= virtual_address (program_at image i) + d < KERNEL_BASE /\ on_page i (virtual_address (program_at image i) + d).
Proof.
  intros Hi Hl Hd. destruct (load_parts i Hi Hl) as [[] []]. unfold word, memory_end, PAGE_SIZE in *.
  split; [lia|]. split; [done|]. split; [done|]. unfold touches, between, first_page, last_page, page_of, memory_end.
  apply andb_true_iff. rewrite !Z.leb_le. split; apply Z.mul_le_mono_nonneg_r; try lia; apply Z.div_le_mono; lia.
Qed.

Lemma building_program_memory held v :
  let n := Z.to_nat (count_of image) in building held v (dom_of n) (wr_of n) (bytes_of n) ->
  program_memory (user_read v) (user_can_write v).
Proof.
  intros n [_ _ _ Hm Ha]. pose proof (ho_count image (io_header image accepted)) as Hc.
  assert (Z.of_nat n = count_of image) as En by (unfold n; lia).
  assert (forall a, 0 <= a < KERNEL_BASE -> dom_of n (page_of a) = true ->
    exists f, up_page v (page_of a) = Some (f, if wr_of n (page_of a) then 6 else 4) /\ up_byte v f (a mod 4096) = bytes_of n a) as Hin.
  { intros a Hua Hd. destruct (page_split a Hua) as (Hp & Ea & Ho). destruct (Hm _ Hp Hd) as (f & Ef & Hb).
    exists f. split; [done|]. rewrite Hb by done. f_equal. unfold page_of. lia. }
  assert (forall a, dom_of n (page_of a) = true <-> exists i, on_page i a) as Hdom.
  { intros a. rewrite dom_of_spec, En. done. }
  split.
  - intros i d Hi Hl Hd. destruct (touches_own i d Hi Hl Hd) as [Hua Hon].
    destruct (Hin _ Hua) as (f & Ef & Hb); [apply Hdom; by exists i|]. unfold user_read. rewrite Ef, Hb.
    f_equal. apply bytes_of_inside; (done || lia).
  - intros a Hua Hno. unfold user_read. destruct (dom_of n (page_of a)) eqn:Ed.
    + destruct (Hin _ Hua Ed) as (f & Ef & Hb). rewrite Ef, Hb. right. f_equal. apply bytes_of_outside.
      intros i Hi Hl Hai. apply (Hno i ltac:(lia) Hl). destruct (load_parts i ltac:(lia) Hl) as [[] _]. unfold memory_end. lia.
    + destruct (page_split a Hua) as (Hp & _ & _). destruct (Ha _ Hp Ed) as [E _]. unfold page_of. rewrite E. by left.
  - intros a Hua. rewrite <-Hdom. unfold user_read. destruct (dom_of n (page_of a)) eqn:Ed.
    + destruct (Hin _ Hua Ed) as (f & Ef & Hb). rewrite Ef. naive_solver.
    + destruct (page_split a Hua) as (Hp & _ & _). destruct (Ha _ Hp Ed) as [E _]. unfold page_of. rewrite E.
      split; [by intros [? [=]]|done].
  - intros a Hua. transitivity (wr_of n (page_of a) = true).
    2:{ rewrite wr_of_spec, En. unfold on_page. naive_solver. }
    unfold user_can_write. destruct (dom_of n (page_of a)) eqn:Ed.
    + destruct (Hin _ Hua Ed) as (f & Ef & _). rewrite Ef. by destruct (wr_of n (page_of a)).
    + destruct (page_split a Hua) as (Hp & _ & _). destruct (Ha _ Hp Ed) as (E & E' & _). unfold page_of in *. by rewrite E, E'.
Qed.

Lemma program_memory_ext read read' can_write can_write' :
  (forall a, 0 <= a < KERNEL_BASE -> read' a = read a /\ can_write' a = can_write a) ->
  program_memory read can_write -> program_memory read' can_write'.
Proof.
  intros Hext [Hs Hb Hm Hw]. split.
  - intros i d Hi Hl Hd. destruct (touches_own i d Hi Hl Hd) as [Ha _]. rewrite (proj1 (Hext _ Ha)). by apply Hs.
  - intros a Ha. rewrite (proj1 (Hext a Ha)). by apply Hb.
  - intros a Ha. rewrite (proj1 (Hext a Ha)). by apply Hm.
  - intros a Ha. rewrite (proj2 (Hext a Ha)). by apply Hw.
Qed.

End file.

(** An address space with no user page, the window closed. *)
Record fresh_space v : Prop := {
  fs_inv : up_inv v;
  fs_window : up_window v = None;
  fs_empty : forall p, user_page p -> up_page v p = None
}.

(** What a load leaves behind in every case: the window closed, the caller's
    frames his own. *)
Record settled v v' : Prop := {
  st_inv : up_inv v';
  st_window : up_window v' = None;
  st_held : same_held v v'
}.

Lemma building_settled held v v' dom wr m :
  (forall f, up_held v f <-> held f) -> building held v' dom wr m -> settled v v'.
Proof. intros Hh [Hi Hw Hh' _ _]. split; [done|done|]. intros f. by rewrite Hh', Hh. Qed.

Lemma elf_load_image_wp image v :
  bytes image -> zlength image < 4294967296 -> fresh_space v ->
  wp (elf_load_image true true image) v (fun r v' => settled v v' /\
    match r with
    | Ok e => image_ok image /\ e = entry_of image /\ program_memory image (user_read v') (user_can_write v')
    | Err e => ~ image_ok image /\ e = - ENOEXEC /\ v' = v \/ image_ok image /\ e < 0 /\ up_room v < 2 * needed image
    end).
Proof.
  intros Hib His [Hi Hw He]. unfold elf_load_image. cbn [negb]. apply wp_bind.
  eapply wp_mono; [by apply validate_image_wp|]. cbv beta. intros [e|] v0 [-> Hr].
  2:{ run. split; [split; [done|done|by intros f]|]. by left. }
  destruct Hr as [Hok ->]. unfold image_header. rewrite (proj2 (Z.leb_le _ _)) by apply Hok. apply wp_bind, wp_ret.
  assert (building (up_held v) v (dom_of image 0) (wr_of image 0) (bytes_of image 0)) as Hb.
  { split; [done|done|done|done|]. intros p Hp _. split; [by apply He|]. split; [done|]. done. }
  apply wp_bind. eapply wp_mono; [apply (load_programs_ok image Hib His Hok (up_held v) v Hb)|]. cbv beta.
  intros [r|] v' Hr.
  - destruct Hr as (Hneg & Hlow & dom & wr & m & Hb'). run. split; [by eapply building_settled|]. by right.
  - run. split; [by eapply building_settled|]. split; [done|]. split; [done|]. by eapply building_program_memory.
Qed.

(** C19. [elf_load_image] builds exactly the program's memory: started on an
    address space with no user page, for every byte string it returns, with the
    load window closed and the caller's frames still his own. It succeeds only on
    a valid executable ([image_ok]) and then returns its entry point, every
    segment holds the bytes of the file followed by zeros, the pages of the
    segments are the only user pages and show nothing else, and a page is
    writable exactly where a writable segment lies on it. An invalid file is
    refused with -ENOEXEC before anything is touched; a valid one fails only when
    there is not enough memory. *)
Theorem elf_load_image_exact image v :
  bytes image -> zlength image < 4294967296 -> fresh_space v ->
  wp (elf_load_image true true image) v (fun r v' => settled v v' /\
    match r with
    | Ok e => image_ok image /\ e = entry_of image /\ program_memory image (user_read v') (user_can_write v')
    | Err e => ~ image_ok image /\ e = - ENOEXEC /\ v' = v \/ image_ok image /\ e < 0 /\ up_room v < 2 * needed image
    end).
Proof. apply elf_load_image_wp. Qed.

End load.
End ElfLoad.
