(* ===== verification/ElfDemo.v ===== *)
(** * A small executable and a machine that loads it

    A [UserPages] over a table of pages, a store of bytes by frame and offset and
    a supply of fresh frames, and an executable with one code segment and one
    writable data segment that share a page. *)

From S2P Require Import Prelude Monad Interfaces Bytes Block MiniFs Elf ElfSpec ElfLoad.
Import MiniFs(result(..), EIO).

Module ElfDemo.
Import Elf ElfSpec ElfLoad.

(** ** The machine *)

Record machine := Machine {
  pages : Zmap (Z * Z);
  cells : gmap (Z * Z) Z;
  window : option Z;
  held : gset Z;
  next : Z
}.

Definition frame_limit : Z := 0x100000.

#[export] Instance machine_ops : UserPageOps machine := {|
  up_query a := gets (fun s =>
    match pages s !! (a / 4096 * 4096) with Some (f, fl) => Some (f + a mod 4096, fl) | None => None end);
  up_protect p fl := fun s =>
    match pages s !! p with
    | Some (f, _) => Ret true (Machine (<[p := (f, Z.lor VMM_USER fl)]> (pages s)) (cells s) (window s) (held s) (next s))
    | None => Ret false s
    end;
  up_map p f fl := fun s =>
    match pages s !! p with
    | Some _ => Ret false s
    | None => Ret true (Machine (<[p := (f, Z.lor VMM_USER fl)]> (pages s)) (cells s) (window s) (held s ∖ {[f]}) (next s))
    end;
  up_alloc := fun s =>
    if next s <? frame_limit
    then Ret (next s) (Machine (pages s) (cells s) (window s) ({[next s]} ∪ held s) (next s + 4096))
    else Ret 0 s;
  up_free f := fun s => Ret true (Machine (pages s) (cells s) (window s) (held s ∖ {[f]}) (next s));
  up_window_map f := fun s => Ret true (Machine (pages s) (cells s) (Some f) (held s) (next s));
  up_window_unmap := fun s => Ret (window s) (Machine (pages s) (cells s) None (held s) (next s));
  up_store o b := fun s =>
    match window s with
    | Some f => Ret tt (Machine (pages s) (<[(f, o) := b]> (cells s)) (window s) (held s) (next s))
    | None => Fault
    end
|}.

#[export] Instance machine_view : UserPageView machine := {|
  up_inv s := page_address (next s) /\ next s <= frame_limit /\
    (forall f, f ∈ held s -> page_address f /\ f < next s) /\
    (forall p f fl, pages s !! p = Some (f, fl) -> page_address f /\ f < next s /\ f ∉ held s) /\
    (forall p q f fl fl', pages s !! p = Some (f, fl) -> pages s !! q = Some (f, fl') -> p = q);
  up_page s p := pages s !! p;
  up_byte s f o := default 0 (cells s !! (f, o));
  up_window s := window s;
  up_held s f := f ∈ held s;
  up_room s := (frame_limit - next s) / 4096
|}.

Lemma lookup_insert_eqb {A} (m : Zmap A) (p q : Z) x : <[p := x]> m !! q = if q =? p then Some x else m !! q.
Proof. destruct (Z.eqb_spec q p) as [->|]; [by rewrite lookup_insert_eq|by rewrite lookup_insert_ne]. Qed.

(** Replacing the flags, or adding a page on a frame of its own. *)
Lemma pages_insert (m : Zmap (Z * Z)) p f fl :
  (forall q q' g fl fl', m !! q = Some (g, fl) -> m !! q' = Some (g, fl') -> q = q') ->
  (forall q fl, m !! q = Some (f, fl) -> q = p) ->
  forall q q' g fl1 fl2, <[p := (f, fl)]> m !! q = Some (g, fl1) -> <[p := (f, fl)]> m !! q' = Some (g, fl2) -> q = q'.
Proof.
  intros Hinj Hf q q' g fl1 fl2. rewrite !lookup_insert_eqb.
  destruct (Z.eqb_spec q p), (Z.eqb_spec q' p); intros H1 H2; simplify_eq; eauto; symmetry; eauto.
Qed.

#[export] Instance machine_pages : UserPages machine.
Proof.
  split; unfold same_pages, same_held, same_bytes, owned; cbn.
  - intros v p f fl (_ & _ & _ & H & _) Hp. destruct (H _ _ _ Hp) as (? & ? & ?). done.
  - intros v p q f fl fl' (_ & _ & _ & _ & H). apply H.
  - intros a v Hv Ha. unfold wp, gets. do 6 (split; [done|]). destruct (pages v !! _) as [[f fl]|] eqn:E; eauto.
  - intros p f fl0 v (H1 & H2 & H3 & H4 & H5) Hp Hal E. unfold wp. rewrite E. cbn. split; [|split; [done|split; [done|split; [done|split; [done|split; [done|]]]]]].
    + do 3 (split; [done|]). split.
      * intros q g fl. rewrite lookup_insert_eqb. destruct (Z.eqb_spec q p); intros [=]; subst; eauto.
      * apply pages_insert; [done|]. intros q fl Hq. by eapply H5.
    + intros q. apply lookup_insert_eqb.
  - intros p f fl v (H1 & H2 & H3 & H4 & H5) Hp Hal Hf Hfl. unfold wp. destruct (pages v !! p) as [[g fl']|] eqn:E; cbn.
    + split; [done|]. split; [lia|]. do 2 (split; [done|]). split; [done|]. done.
    + destruct (H3 _ Hf) as [Hf1 Hf2]. split; [|split; [lia|split; [done|split; [done|split; [done|split; [done|]]]]]].
      * do 2 (split; [done|]). split; [intros g Hg; apply H3; set_solver|]. split.
        -- intros q g fl'. rewrite lookup_insert_eqb. destruct (Z.eqb_spec q p); intros Hg; simplify_eq; [set_solver|].
           destruct (H4 _ _ _ Hg) as (? & ? & ?). set_solver.
        -- apply pages_insert; [done|]. intros q fl' Hq. destruct (H4 _ _ _ Hq) as (_ & _ & []). done.
      * split; [set_solver|]. intros q. apply lookup_insert_eqb.
  - intros v (H1 & H2 & H3 & H4 & H5). unfold wp. destruct (Z.ltb_spec (next v) frame_limit) as [Hl|Hl]; cbn.
    + assert (next v + 4096 <= frame_limit) by (destruct H1; unfold frame_limit in *; word_lia).
      split; [|split; [intros _; destruct H1; lia|split; [intros _; word_lia|do 3 (split; [done|])]]].
      * split; [destruct H1; unfold frame_limit in *; split; [lia|word_lia]|]. split; [done|]. split; [|split; [|done]].
        -- intros f [Hf|Hf]%elem_of_union; [apply elem_of_singleton in Hf as ->; split; [done|lia]|]. destruct (H3 _ Hf). split; [done|lia].
        -- intros p f fl Hp. destruct (H4 _ _ _ Hp) as (? & ? & ?). split; [done|]. split; [lia|].
           rewrite not_elem_of_union, not_elem_of_singleton. split; [lia|done].
      * right. split; [done|]. split; [|set_solver].
        intros [Hf|(p & fl & Hp)]; [destruct (H3 _ Hf); lia|destruct (H4 _ _ _ Hp) as (? & ? & ?); lia].
    + split; [done|]. split; [intros Hr; word_lia|]. split; [lia|]. do 3 (split; [done|]). by left.
  - intros f v (H1 & H2 & H3 & H4 & H5) Hf Hw. unfold wp. cbn. split; [done|]. split.
    + do 2 (split; [done|]). split; [intros g Hg; apply H3, (proj1 (proj1 (elem_of_difference _ _ _) Hg))|]. split; [|done].
      intros p g fl Hp. destruct (H4 _ _ _ Hp) as (? & ? & Hg). do 2 (split; [done|]). intros Hin. by apply elem_of_difference in Hin as [? _].
    + do 2 (split; [done|]). split; [done|]. split; [lia|]. intros g. by rewrite elem_of_difference, not_elem_of_singleton.
  - intros f v Hv Hw Hf. unfold wp. cbn. done.
  - intros f v Hv Hw. unfold wp. cbn. done.
  - intros f o b v Hv Hw Ho Hb. unfold wp. rewrite Hw. cbn. do 5 (split; [done|]). intros g o' _.
    destruct (Z.eqb_spec g f) as [->|]; [|by rewrite lookup_insert_ne by congruence].
    destruct (Z.eqb_spec o' o) as [->|]; [by rewrite lookup_insert_eq|by rewrite lookup_insert_ne by congruence].
Qed.

(** ** The executable *)

Definition program (offset va filesz memsz flags align : Z) : list Z :=
  le32 1 ++ le32 offset ++ le32 va ++ le32 0 ++ le32 filesz ++ le32 memsz ++ le32 flags ++ le32 align.

(** Three bytes of code at 0x400074, two bytes of data and eight of bss behind
    them. *)
Definition tiny : list Z :=
  [0x7F; 69; 76; 70; 1; 1; 1] ++ replicate 9 0 ++ le16 2 ++ le16 3 ++ le32 1 ++ le32 0x400074 ++ le32 52 ++ le32 0 ++ le32 0 ++
  le16 52 ++ le16 32 ++ le16 2 ++ le16 0 ++ le16 0 ++ le16 0 ++
  program 116 0x400074 3 3 5 4 ++ program 119 0x400077 2 10 6 1 ++ [0xCD; 0x30; 0xF4; 17; 18].

Lemma tiny_bytes : bytes tiny.
Proof. apply (bool_decide_unpack _). vm_compute. exact I. Qed.

Definition blank : machine := Machine ∅ ∅ None ∅ 4096.

Lemma blank_fresh : fresh_space blank.
Proof.
  split; [|done|].
  - split; [done|]. split; [done|]. split; [intros f Hf; by apply elem_of_empty in Hf|]. split; cbn; intros p; intros *; by rewrite lookup_empty.
  - intros p _. apply lookup_empty.
Qed.

(** The executable is accepted with its entry point; cut short by one byte it
    is refused. *)
Lemma validate_image_exact_witness :
  wp (validate_image true tiny) tt (fun r v' => v' = tt /\
    match r with Some e => image_ok tiny /\ e = entry_of tiny | None => ~ image_ok tiny end) /\
  validate_image true tiny tt = Ret (Some 0x400074) tt /\ validate_image true (removelast tiny) tt = Ret None tt.
Proof.
  split; [apply (validate_image_exact tiny); [exact tiny_bytes|done]|]. split; vm_compute; reflexivity.
Defined.

(** The self test the kernel runs on its first program passes on this one. *)
Example self_test_passes : elf_loader_validation_self_test tiny tt = Ret true tt.
Proof. vm_compute. reflexivity. Qed.

(** There is memory enough for it, it is loaded, and its data segment starts
    with the file's bytes on a writable page. *)
Lemma elf_load_image_exact_witness :
  wp (elf_load_image true true tiny) blank (fun r v' => settled blank v' /\
    match r with
    | Ok e => image_ok tiny /\ e = entry_of tiny /\ program_memory tiny (user_read v') (user_can_write v')
    | Err e => ~ image_ok tiny /\ e = - ENOEXEC /\ v' = blank \/ image_ok tiny /\ e < 0 /\ up_room blank < 2 * needed tiny
    end) /\
  2 * needed tiny <= up_room blank /\
  match elf_load_image true true tiny blank with
  | Ret (Ok e) v' => e = 0x400074 /\ map (user_read v') [0x400073; 0x400074; 0x400077; 0x400078; 0x400079; 0x401000] =
      [Some 0; Some 0xCD; Some 17; Some 18; Some 0; None] /\ user_can_write v' 0x400077 = true
  | _ => False
  end.
Proof.
  split; [apply (elf_load_image_exact tiny blank); [exact tiny_bytes|done|exact blank_fresh]|].
  split; [vm_compute; done|]. vm_compute. done.
Defined.

End ElfDemo.
