(* ===== verification/AddressSpace.v ===== *)
(** * User address spaces, kernel/mm/address_space.c

    A user address space is a page directory of its own. Its directory and its
    page tables are edited through two kernel pages, the directory window and
    the table window, which are mapped for the length of one call with
    interrupts off. The pages themselves are mapped by the model of vmm.c, so
    every access below is a page walk. A [struct vmm_address_space *] is [None]
    for the null pointer and [Some d] for a space whose field
    [page_directory_physical] is [d]. Proofs are in AddressSpaceSpec.v. *)

From S2P Require Import Prelude Monad Interfaces Cpu Vmm.

Module AddressSpace.
Import Vmm.

Definition ADDRESS_SPACE_DIRECTORY_WINDOW : Z := 0xD0800000.
Definition ADDRESS_SPACE_TABLE_WINDOW : Z := 0xD0801000.
Definition ADDRESS_SPACE_WINDOW_PDE : Z := Z.shiftr ADDRESS_SPACE_DIRECTORY_WINDOW 22.
Definition ADDRESS_SPACE_TEST_VIRTUAL : Z := 0x00400000.
Definition ADDRESS_SPACE_TEST_VALUE : Z := 0xA55A13C7.

Section spaces.
Context {F : Type} `{!FrameAllocator F}.

Record spaces := Spaces {
  vmm : Vmm.state F;
  address_space_window_busy : bool;
  address_space_window_irq_flags : Z;
  cpu : Cpu.state
}.

Definition set_vmm (s : Vmm.state F) (v : spaces) : spaces :=
  Spaces s (address_space_window_busy v) (address_space_window_irq_flags v) (cpu v).
Definition set_cpu (c : Cpu.state) (v : spaces) : spaces :=
  Spaces (vmm v) (address_space_window_busy v) (address_space_window_irq_flags v) c.
Definition set_window (busy : bool) (flags : Z) (v : spaces) : spaces := Spaces (vmm v) busy flags (cpu v).

#[export] Instance vmm_lens : Lens spaces (Vmm.state F).
Proof. refine {| lget := vmm; lset := set_vmm |}; by intros; destruct s. Defined.
#[export] Instance cpu_lens : Lens spaces Cpu.state.
Proof. refine {| lget := cpu; lset := set_cpu |}; by intros; destruct s. Defined.

Definition pmm_alloc : M spaces Z := zoom (T := Vmm.state F) (zoom fa_alloc).
Definition pmm_free (frame : Z) : M spaces bool := zoom (T := Vmm.state F) (zoom (fa_free frame)).

(** [page[index]] for a page of words mapped at [page]. *)
Definition load (page index : Z) : M spaces Z := zoom (T := Vmm.state F) (vread (page + 4 * index)).
Definition store (page index value : Z) : M spaces unit := zoom (T := Vmm.state F) (vwrite (page + 4 * index) value).

(** [space->page_directory_physical] *)
Definition directory_of (space : option Z) : Z := default 0 space.

Definition valid_space (space : option Z) : bool :=
  match space with
  | None => false
  | Some directory => negb (directory =? 0) && (Z.land directory (PAGE_SIZE - 1) =? 0)
  end.

Definition acquire_window : M spaces bool :=
  let! flags := zoom Cpu.irq_save_disable in
  let! busy := gets address_space_window_busy in
  if busy : bool then zoom (Cpu.irq_restore flags) ;; ret false else
  modify (set_window true flags) ;;
  ret true.

Definition release_window : M spaces unit :=
  let! flags := gets address_space_window_irq_flags in
  modify (fun v => set_window false (address_space_window_irq_flags v) v) ;;
  zoom (Cpu.irq_restore flags).

Definition map_window (virtual_address physical_address : Z) : M spaces bool :=
  zoom (vmm_map virtual_address physical_address VMM_WRITABLE).

Definition unmap_window (virtual_address expected_physical : Z) : M spaces unit :=
  let! r := zoom (vmm_unmap virtual_address) in
  match r with
  | Some physical => if physical =? expected_physical then ret tt else panic "address-space window invariant failed"
  | None => panic "address-space window invariant failed"
  end.

Definition zero_page (page : Z) : M spaces unit := for_range 1024 0 (fun index => store page index 0).

Definition refresh_active_translation (directory : Z) : M spaces unit :=
  let! current := zoom vmm_current_page_directory in
  if current =? directory then
    let! ok := zoom (vmm_activate_page_directory directory) in
    if negb ok then panic "address-space TLB refresh failed" else ret tt
  else ret tt.

(** The statements that every exit after the directory window was mapped, and
    after the table window was mapped, ends with. *)
Definition leave_directory (directory : Z) : M spaces unit :=
  unmap_window ADDRESS_SPACE_DIRECTORY_WINDOW directory ;;
  release_window.

Definition leave_table (directory table_physical : Z) : M spaces unit :=
  unmap_window ADDRESS_SPACE_TABLE_WINDOW table_physical ;;
  leave_directory directory.

(** The loop that copies the kernel's part of the directory. *)
Definition copy_kernel_directory : M spaces unit :=
  for_range (Z.to_nat (RECURSIVE_PDE_INDEX - KERNEL_PDE_INDEX)) KERNEL_PDE_INDEX (fun index =>
    if negb (index =? ADDRESS_SPACE_WINDOW_PDE) then
      let! entry := load ADDRESS_SPACE_TABLE_WINDOW index in
      store ADDRESS_SPACE_DIRECTORY_WINDOW index entry
    else ret tt).

Definition rollback_directory (physical : Z) : M spaces (option Z) :=
  let! freed := pmm_free physical in
  if negb freed then panic "address-space directory rollback failed" else
  release_window ;; ret None.

(** The new [page_directory_physical] when it returns true. *)
Definition vmm_address_space_create (space : option Z) : M spaces (option Z) :=
  let! kernel_physical := zoom vmm_kernel_page_directory in
  let! refused := orM (ret (match space with None => true | Some directory => negb (directory =? 0) end ||
                            (kernel_physical =? 0))) (notM acquire_window) in
  if refused : bool then ret None else
  let! physical := pmm_alloc in
  if physical =? 0 then release_window ;; ret None else
  let! mapped := map_window ADDRESS_SPACE_DIRECTORY_WINDOW physical in
  if negb mapped then rollback_directory physical else
  let! mapped := map_window ADDRESS_SPACE_TABLE_WINDOW kernel_physical in
  if negb mapped then
    unmap_window ADDRESS_SPACE_DIRECTORY_WINDOW physical ;; rollback_directory physical
  else
  zero_page ADDRESS_SPACE_DIRECTORY_WINDOW ;;
  copy_kernel_directory ;;
  store ADDRESS_SPACE_DIRECTORY_WINDOW RECURSIVE_PDE_INDEX (Z.lor (Z.lor physical PAGE_PRESENT) PAGE_WRITABLE) ;;
  unmap_window ADDRESS_SPACE_TABLE_WINDOW kernel_physical ;;
  unmap_window ADDRESS_SPACE_DIRECTORY_WINDOW physical ;;
  release_window ;;
  ret (Some physical).

(** The page table for [vmm_address_space_map]: its frame and whether it is a
    new one; [None] when there is no frame for it. *)
Definition find_table (directory_index : Z) : M spaces (option (Z * bool)) :=
  let! entry := load ADDRESS_SPACE_DIRECTORY_WINDOW directory_index in
  if Z.land entry PAGE_PRESENT =? 0 then
    let! table_physical := pmm_alloc in
    if table_physical =? 0 then ret None else ret (Some (table_physical, true))
  else ret (Some (Z.land entry PAGE_MASK, false)).

Definition vmm_address_space_map (space : option Z) (virtual_address physical_address flags : Z) : M spaces bool :=
  let directory := directory_of space in
  let! refused := orM (ret (negb (valid_space space) || (KERNEL_BASE <=? virtual_address) ||
      negb (Z.land virtual_address (PAGE_SIZE - 1) =? 0) || negb (Z.land physical_address (PAGE_SIZE - 1) =? 0) ||
      (physical_address =? 0))) (notM acquire_window) in
  if refused : bool then ret false else
  let! mapped := map_window ADDRESS_SPACE_DIRECTORY_WINDOW directory in
  if negb mapped then release_window ;; ret false else
  let directory_index := dir_index virtual_address in
  let table_index := table_index virtual_address in
  let! t := find_table directory_index in
  match t with
  | None => leave_directory directory ;; ret false
  | Some (table_physical, new_table) =>
      let! mapped := map_window ADDRESS_SPACE_TABLE_WINDOW table_physical in
      if negb mapped then
        let! stuck := (if new_table : bool then notM (pmm_free table_physical) else ret false) in
        if stuck : bool then panic "address-space page-table rollback failed" else
        leave_directory directory ;; ret false
      else
      (if new_table : bool then
         zero_page ADDRESS_SPACE_TABLE_WINDOW ;;
         store ADDRESS_SPACE_DIRECTORY_WINDOW directory_index
           (Z.lor (Z.lor (Z.lor table_physical PAGE_PRESENT) PAGE_WRITABLE) PAGE_USER)
       else ret tt) ;;
      let! entry := load ADDRESS_SPACE_TABLE_WINDOW table_index in
      if negb (Z.land entry PAGE_PRESENT =? 0) then
        (if new_table : bool then store ADDRESS_SPACE_DIRECTORY_WINDOW directory_index 0 else ret tt) ;;
        unmap_window ADDRESS_SPACE_TABLE_WINDOW table_physical ;;
        unmap_window ADDRESS_SPACE_DIRECTORY_WINDOW directory ;;
        let! stuck := (if new_table : bool then notM (pmm_free table_physical) else ret false) in
        if stuck : bool then panic "address-space empty table rollback failed" else
        release_window ;; ret false
      else
      store ADDRESS_SPACE_TABLE_WINDOW table_index
        (Z.lor (Z.lor (Z.lor physical_address PAGE_PRESENT) PAGE_USER) (Z.land flags PAGE_WRITABLE)) ;;
      unmap_window ADDRESS_SPACE_TABLE_WINDOW table_physical ;;
      unmap_window ADDRESS_SPACE_DIRECTORY_WINDOW directory ;;
      refresh_active_translation directory ;;
      release_window ;;
      ret true
  end.

(** The part that protect, unmap and query begin with: both windows mapped and
    the frame of the page table, or [None] with everything released again. *)
Definition enter_table (directory directory_index : Z) : M spaces (option Z) :=
  let! mapped := map_window ADDRESS_SPACE_DIRECTORY_WINDOW directory in
  if negb mapped then release_window ;; ret None else
  let! entry := load ADDRESS_SPACE_DIRECTORY_WINDOW directory_index in
  if Z.land entry PAGE_PRESENT =? 0 then leave_directory directory ;; ret None else
  let table_physical := Z.land entry PAGE_MASK in
  let! mapped := map_window ADDRESS_SPACE_TABLE_WINDOW table_physical in
  if negb mapped then leave_directory directory ;; ret None else
  ret (Some table_physical).

Definition vmm_address_space_protect (space : option Z) (virtual_address flags : Z) : M spaces bool :=
  let directory := directory_of space in
  let! refused := orM (ret (negb (valid_space space) || (KERNEL_BASE <=? virtual_address) ||
      negb (Z.land virtual_address (PAGE_SIZE - 1) =? 0) || negb (Z.land flags (not32 VMM_WRITABLE) =? 0)))
      (notM acquire_window) in
  if refused : bool then ret false else
  let table_index := table_index virtual_address in
  let! t := enter_table directory (dir_index virtual_address) in
  match t with
  | None => ret false
  | Some table_physical =>
      let! entry := load ADDRESS_SPACE_TABLE_WINDOW table_index in
      if Z.land entry PAGE_PRESENT =? 0 then leave_table directory table_physical ;; ret false else
      store ADDRESS_SPACE_TABLE_WINDOW table_index
        (Z.lor (Z.lor (Z.lor (Z.land entry PAGE_MASK) PAGE_PRESENT) PAGE_USER) (Z.land flags PAGE_WRITABLE)) ;;
      unmap_window ADDRESS_SPACE_TABLE_WINDOW table_physical ;;
      unmap_window ADDRESS_SPACE_DIRECTORY_WINDOW directory ;;
      refresh_active_translation directory ;;
      release_window ;;
      ret true
  end.

(** [vmm_address_space_unmap(space, va, &pa)]: the frame that was mapped. *)
Definition vmm_address_space_unmap (space : option Z) (virtual_address : Z) : M spaces (option Z) :=
  let directory := directory_of space in
  let! refused := orM (ret (negb (valid_space space) || (KERNEL_BASE <=? virtual_address) ||
      negb (Z.land virtual_address (PAGE_SIZE - 1) =? 0))) (notM acquire_window) in
  if refused : bool then ret None else
  let directory_index := dir_index virtual_address in
  let table_index := table_index virtual_address in
  let! t := enter_table directory directory_index in
  match t with
  | None => ret None
  | Some table_physical =>
      let! entry := load ADDRESS_SPACE_TABLE_WINDOW table_index in
      if Z.land entry PAGE_PRESENT =? 0 then leave_table directory table_physical ;; ret None else
      store ADDRESS_SPACE_TABLE_WINDOW table_index 0 ;;
      let! used := for_until 1024 0 (fun index =>
        let! e := load ADDRESS_SPACE_TABLE_WINDOW index in
        ret (if negb (Z.land e PAGE_PRESENT =? 0) then Some tt else None)) in
      unmap_window ADDRESS_SPACE_TABLE_WINDOW table_physical ;;
      (match used with
       | Some _ => ret tt
       | None =>
           store ADDRESS_SPACE_DIRECTORY_WINDOW directory_index 0 ;;
           let! freed := pmm_free table_physical in
           if negb freed then panic "address-space could not release empty page table" else ret tt
       end) ;;
      unmap_window ADDRESS_SPACE_DIRECTORY_WINDOW directory ;;
      refresh_active_translation directory ;;
      release_window ;;
      ret (Some (Z.land entry PAGE_MASK))
  end.

(** [vmm_address_space_query(space, va, &pa, &flags)]: the address and the flags. *)
Definition vmm_address_space_query (space : option Z) (virtual_address : Z) : M spaces (option (Z * Z)) :=
  let directory := directory_of space in
  let! refused := orM (ret (negb (valid_space space) || (KERNEL_BASE <=? virtual_address))) (notM acquire_window) in
  if refused : bool then ret None else
  let directory_index := dir_index virtual_address in
  let! t := enter_table directory directory_index in
  match t with
  | None => ret None
  | Some table_physical =>
      let! entry := load ADDRESS_SPACE_TABLE_WINDOW (table_index virtual_address) in
      let! result :=
        (if negb (Z.land entry PAGE_PRESENT =? 0) then
           let physical_address := Z.lor (Z.land entry PAGE_MASK) (Z.land virtual_address (PAGE_SIZE - 1)) in
           let flags := Z.land entry (Z.lor PAGE_WRITABLE PAGE_USER) in
           let! pde := load ADDRESS_SPACE_DIRECTORY_WINDOW directory_index in
           let flags := if Z.land pde PAGE_WRITABLE =? 0 then Z.land flags (not32 PAGE_WRITABLE) else flags in
           let flags := if Z.land pde PAGE_USER =? 0 then Z.land flags (not32 PAGE_USER) else flags in
           ret (Some (physical_address, flags))
         else ret None) in
      leave_table directory table_physical ;;
      ret result
  end.

Definition vmm_address_space_activate (space : option Z) : M spaces bool :=
  let directory := directory_of space in
  let! kernel_physical := zoom vmm_kernel_page_directory in
  let! refused := orM (ret (negb (valid_space space) || (kernel_physical =? 0))) (notM acquire_window) in
  if refused : bool then ret false else
  let! mapped := map_window ADDRESS_SPACE_DIRECTORY_WINDOW directory in
  if negb mapped then release_window ;; ret false else
  let! mapped := map_window ADDRESS_SPACE_TABLE_WINDOW kernel_physical in
  if negb mapped then leave_directory directory ;; ret false else
  copy_kernel_directory ;;
  unmap_window ADDRESS_SPACE_TABLE_WINDOW kernel_physical ;;
  unmap_window ADDRESS_SPACE_DIRECTORY_WINDOW directory ;;
  let! ok := zoom (vmm_activate_page_directory directory) in
  release_window ;;
  ret ok.

(** The inner loop of destroy: the pages of one table. *)
Definition release_page (table_index : Z) : M spaces unit :=
  let! entry := load ADDRESS_SPACE_TABLE_WINDOW table_index in
  if negb (Z.land entry PAGE_PRESENT =? 0) then
    store ADDRESS_SPACE_TABLE_WINDOW table_index 0 ;;
    let! freed := pmm_free (Z.land entry PAGE_MASK) in
    if negb freed then panic "address-space destroy found invalid user page" else ret tt
  else ret tt.

(** The outer loop: one entry of the directory. *)
Definition release_table (directory_index : Z) : M spaces unit :=
  let! entry := load ADDRESS_SPACE_DIRECTORY_WINDOW directory_index in
  if Z.land entry PAGE_PRESENT =? 0 then ret tt else
  let table_physical := Z.land entry PAGE_MASK in
  let! mapped := map_window ADDRESS_SPACE_TABLE_WINDOW table_physical in
  if negb mapped then panic "address-space destroy could not map page table" else
  for_range 1024 0 release_page ;;
  unmap_window ADDRESS_SPACE_TABLE_WINDOW table_physical ;;
  store ADDRESS_SPACE_DIRECTORY_WINDOW directory_index 0 ;;
  let! freed := pmm_free table_physical in
  if negb freed then panic "address-space destroy found invalid page table" else ret tt.

(** When it returns true, [page_directory_physical] is zero. *)
Definition vmm_address_space_destroy (space : option Z) : M spaces bool :=
  let directory := directory_of space in
  let! refused := orM (ret (negb (valid_space space))) (notM acquire_window) in
  if refused : bool then ret false else
  let! current := zoom vmm_current_page_directory in
  if current =? directory then release_window ;; ret false else
  let! mapped := map_window ADDRESS_SPACE_DIRECTORY_WINDOW directory in
  if negb mapped then release_window ;; ret false else
  for_range (Z.to_nat KERNEL_PDE_INDEX) 0 release_table ;;
  unmap_window ADDRESS_SPACE_DIRECTORY_WINDOW directory ;;
  let! freed := pmm_free directory in
  if negb freed then panic "address-space destroy found invalid directory" else
  release_window ;;
  ret true.

(** ** The self test *)

Definition pmm_free_pages : M spaces Z := gets (fun v => fa_count (frames (vmm v))).

(** [query(space, va, &queried, &flags) && queried == pa && flags == fl]; the
    test leaves the address out where it passes NULL. *)
Definition query_is (q : option (Z * Z)) (address : option Z) (flags : Z) : bool :=
  match q with
  | None => false
  | Some (queried, fl) => match address with Some pa => queried =? pa | None => true end && (fl =? flags)
  end.

Definition queries (space : option Z) (virtual_address : Z) (address : option Z) (flags : Z) : M spaces bool :=
  let! q := vmm_address_space_query space virtual_address in ret (query_is q address flags).

(** The part before the switch; [first] and [second] are the frames. *)
Definition self_test_map (space : option Z) (first second : Z) : M spaces bool :=
  andM (ret (negb (first =? 0) && negb (second =? 0)))
  (andM (vmm_address_space_map space ADDRESS_SPACE_TEST_VIRTUAL first VMM_WRITABLE)
  (andM (vmm_address_space_map space (ADDRESS_SPACE_TEST_VIRTUAL +u PAGE_SIZE) second 0)
  (andM (notM (vmm_address_space_map space ADDRESS_SPACE_TEST_VIRTUAL first VMM_WRITABLE))
  (andM (queries space (ADDRESS_SPACE_TEST_VIRTUAL +u 17) (Some (first +u 17)) (Z.lor VMM_USER VMM_WRITABLE))
  (andM (vmm_address_space_protect space ADDRESS_SPACE_TEST_VIRTUAL 0)
  (andM (queries space ADDRESS_SPACE_TEST_VIRTUAL None VMM_USER)
  (andM (vmm_address_space_protect space ADDRESS_SPACE_TEST_VIRTUAL VMM_WRITABLE)
  (andM (notM (vmm_address_space_protect space KERNEL_BASE VMM_WRITABLE))
  (andM (notM (vmm_address_space_map space KERNEL_BASE first VMM_WRITABLE))
  (vmm_address_space_activate space)))))))))).

(** The part while the space is active: [active_checks]. *)
Definition self_test_active (space : option Z) (first : Z) : M spaces bool :=
  let! seen := andM (let! c := zoom vmm_current_page_directory in ret (c =? directory_of space))
    (let! q := zoom (vmm_query (F := F) (ADDRESS_SPACE_TEST_VIRTUAL +u 17)) in
     ret (query_is q (Some (first +u 17)) (Z.lor VMM_USER VMM_WRITABLE))) in
  zoom (T := Vmm.state F) (vwrite ADDRESS_SPACE_TEST_VIRTUAL ADDRESS_SPACE_TEST_VALUE) ;;
  andM (ret seen)
  (andM (let! x := zoom (T := Vmm.state F) (vread ADDRESS_SPACE_TEST_VIRTUAL) in ret (x =? ADDRESS_SPACE_TEST_VALUE))
        (notM (vmm_address_space_destroy space))).

Definition vmm_address_space_self_test : M spaces bool :=
  let! before := pmm_free_pages in
  let! kernel_physical := zoom vmm_kernel_page_directory in
  let! current := zoom vmm_current_page_directory in
  if (kernel_physical =? 0) || negb (current =? kernel_physical) then ret false else
  let! space := vmm_address_space_create (Some 0) in
  match space with
  | None => ret false
  | Some _ =>
      let! first := pmm_alloc in
      let! second := pmm_alloc in
      let! ready := self_test_map space first second in
      if negb ready then ret false else
      let! active_checks := self_test_active space first in
      let! ok :=
        andM (zoom vmm_activate_kernel_address_space)
        (andM (let! c := zoom vmm_current_page_directory in ret ((c =? kernel_physical) && active_checks))
        (andM (let! unmapped := vmm_address_space_unmap space ADDRESS_SPACE_TEST_VIRTUAL in
               ret (match unmapped with Some u => u =? first | None => false end))
        (andM (pmm_free first) (vmm_address_space_destroy space)))) in
      if negb ok then ret false else
      let! after := pmm_free_pages in
      ret (after =? before)
  end.

End spaces.
Arguments spaces F : clear implicits.

End AddressSpace.
