(* ===== verification/AddressSpaceWindow.v ===== *)
(** * Editing a page directory through the windows

    What the primitives of kernel/mm/address_space.c do to the kernel: mapping
    and unmapping a window, reading and writing a word through it, taking and
    returning frames. [view] describes the kernel in the middle of a call, with
    the frames its client holds, their contents and what the windows show; every
    primitive is a step from one view to another. *)

From S2P Require Import Prelude Monad Interfaces Cpu Vmm VmmSpec AddressSpace.

Module AddressSpaceWindow.
Import Vmm AddressSpace.

Abbreviation DW := ADDRESS_SPACE_DIRECTORY_WINDOW.
Abbreviation TW := ADDRESS_SPACE_TABLE_WINDOW.
Definition EW : Z := 0xD0C00000.             (** ELF_LOAD_WINDOW of kernel/proc/elf.c *)

Definition upd (m : Z -> Z) (a x : Z) : Z -> Z := fun y => if y =? a then x else m y.

Section windows.
Context {F : Type} `{!FrameAllocator F}.
Implicit Types (s k : Vmm.state F) (v : spaces F).

(** The frames that can still be had when one is set aside for the page table
    of each of the two window regions. *)
Definition present_bit (e : Z) : Z := if present e then 1 else 0.
Definition room s : Z := fa_count (frames s) + present_bit (pde s 834) + present_bit (pde s 835) - 2.

Lemma kept_room s d s' : d = 834 \/ d = 835 -> kept s d s' -> room s' = room s.
Proof.
  intros Hd [_ _ _ Hp Hs]. unfold room, present_bit, spare in *.
  destruct Hd as [-> | ->]; [rewrite (Hp 835) by lia|rewrite (Hp 834) by lia]; lia.
Qed.

(** ** A page of words mapped in the kernel *)

Lemma page_split_indices va i : below_window va -> va mod 4096 = 0 -> 0 <= i < 1024 ->
  va + 4 * i = dir_index va * 4194304 + table_index va * 4096 + 4 * i.
Proof.
  unfold below_window, RECURSIVE_PAGE_TABLES, dir_index, table_index. intros Hb Ha Hi.
  rewrite shiftr_22, shiftr_12. change 0x3FF with 1023. rewrite land_low_1023. word_lia.
Qed.

Lemma translate_mapped s w va f i :
  wf s -> below_window va -> va mod 4096 = 0 -> page_address f -> walk s va = Some (f + 3) -> 0 <= i < 1024 ->
  translate s w (va + 4 * i) = Some (f + 4 * i).
Proof.
  intros Hs Hb Ha [Hr Hf] Hw Hi. rewrite (page_split_indices va i) by done.
  destruct (below_window_index va Hb) as [Hd Ht]. unfold walk in Hw.
  destruct (present (pde s (dir_index va))) eqn:Ep; [|done].
  destruct (present (pte s (dir_index va) (table_index va))) eqn:Et; [|done]. injection Hw as Hw.
  destruct (self_flags f) as [_ Hwr]; [done|].
  rewrite translate_entry; try done; try lia; rewrite ?Hw; try done.
  - f_equal. f_equal. apply entry_frame_add; lia.
  - apply Hs.
  - by apply (mmu_writable _ (wf_mmu _ Hs)).
Qed.

(** Writing a word of a frame the client holds changes nothing else. *)
Lemma poke_client s b i x : wf s -> page_address b -> client_held s b -> 0 <= i < 1024 ->
  let s' := poke (b + 4 * i) x s in
  wf s' /\ (forall va, below_window va -> walk s' va = walk s va) /\ (forall d, 0 <= d < 1024 -> pde s' d = pde s d) /\
  (forall c, client_held s' c <-> client_held s c).
Proof.
  intros Hs Hb Hc Hi s'. pose proof Hb as [_ Hbal]. pose proof Hs as [Hi0 Hfa0 Hmmu Hk0 Hsc0 Htable Hdist Hc0 Hheld].
  assert (forall d, 0 <= d < 1024 -> pde s' d = pde s d) as Hpde.
  { intros d Hd. unfold pde. change (cr3 s') with (cr3 s). unfold s'. rewrite rd_poke.
    rewrite (proj2 (Z.eqb_neq _ _)); [done|]. intros E. symmetry in E. revert E. apply client_not_directory; try done. apply Hc. }
  assert (forall d t, 0 <= d < 1023 -> 0 <= t < 1024 -> present (pde s d) = true -> pte s' d t = pte s d t) as Hpte.
  { intros d t Hd Ht Hp. unfold pte, tbl. rewrite Hpde by lia. unfold s'. rewrite rd_poke.
    destruct (Htable d Hd Hp) as ([_ ?] & _). destruct Hc as (_ & _ & Hc).
    rewrite (proj2 (Z.eqb_neq _ _)); [done|]. apply page_disjoint; try done. by apply Hc. }
  assert (forall d, 0 <= d < 1023 -> tbl s' d = tbl s d) as Htbl by (intros; unfold tbl; by rewrite Hpde by lia).
  split; [|split; [|split; [done|]]].
  - split; try done.
    + split; [apply Hmmu|rewrite Hpde by lia; apply Hmmu|].
      intros d Hd. rewrite Hpde by lia. by apply (mmu_writable _ Hmmu).
    + by rewrite Hpde by lia.
    + by rewrite Hpte by (done || lia).
    + intros d Hd. rewrite Hpde, Htbl by lia. by apply Htable.
    + intros d d' Hd Hd'. rewrite !Hpde, !Htbl by lia. by apply Hdist.
    + intros d Hd Hn. rewrite Hpde, Htbl by lia. by apply Hheld.
  - intros va Hva. apply below_window_index in Hva as [Hdi Hti]. unfold walk. rewrite Hpde by lia.
    destruct (present (pde s (dir_index va))) eqn:E; [|done]. by rewrite Hpte.
  - intros c. unfold client_held. change (frames s') with (frames s). change (cr3 s') with (cr3 s).
    split; intros (? & ? & H); (split; [done|split; [done|]]); intros d Hd Hp; specialize (H d Hd);
      rewrite Hpde, Htbl in * by lia; auto.
Qed.

(** ** The windows *)

Definition window (va : Z) : Prop := va = DW \/ va = TW \/ va = EW.

Lemma window_facts va : window va ->
  below_window va /\ va mod 4096 = 0 /\ 0 <= va < 4294967296 /\ (dir_index va = 834 \/ dir_index va = 835) /\
  forall f, page_address f -> mappable va f VMM_WRITABLE.
Proof.
  unfold window, mappable, below_window, page_address. intros [-> |[-> | ->]];
    (split; [vm_compute; naive_solver|]; split; [done|]; split; [vm_compute; naive_solver|]; split; [vm_compute; auto|];
     intros f [Hf Ha]; split; [done|]; split; [done|]; split; [done|]; split; [done|]; by vm_compute).
Qed.

Lemma window_entry f : map_entry f VMM_WRITABLE = f + 3.
Proof. done. Qed.

Definition others_same s s' va : Prop :=
  forall vb, below_window vb -> vb mod 4096 = 0 -> vb <> va -> walk s' vb = walk s vb.

Lemma window_map s va f : wf s -> window va -> page_address f -> walk s va = None ->
  wp (vmm_map va f VMM_WRITABLE) s (fun ok s' => wf s' /\ (forall b, client_held s' b <-> client_held s b) /\
    kept s (dir_index va) s' /\ others_same s s' va /\
    if ok : bool then walk s' va = Some (f + 3) else walk s' va = None /\ spare s (dir_index va) = 0).
Proof.
  intros Hs Hw Hf Hn. destruct (window_facts va Hw) as (Hb & Ha & Hr & _ & Hm). pose proof Hf as [? _].
  wp_apply (vmm_map_ok s va f VMM_WRITABLE); [done|done|lia|]. intros ok s' (Hs' & Hh & Hk & Hpost).
  split; [done|]. split; [done|]. split; [by apply Hk|]. destruct ok.
  - destruct Hpost as (_ & _ & Hw' & Ho). done.
  - destruct Hpost as (Hw' & Hlow). split; [intros vb ? ? ?; by apply Hw'|]. split; [by rewrite Hw'|].
    by destruct (Hlow (Hm f Hf)) as [Hc|[Hsp _]].
Qed.

Lemma window_unmap s va f : wf s -> window va -> page_address f -> walk s va = Some (f + 3) ->
  wp (vmm_unmap va) s (fun r s' => r = Some f /\ wf s' /\ (forall b, client_held s' b <-> client_held s b) /\
    kept s (dir_index va) s' /\ others_same s s' va /\ walk s' va = None).
Proof.
  intros Hs Hw [Hf Hal] Hn. destruct (window_facts va Hw) as (Hb & Ha & Hr & _ & _).
  wp_apply (vmm_unmap_ok s va); [done|done|]. intros r s' (Hs' & Hh & Hk & Hpost). destruct r as [pa|].
  - destruct Hpost as (e & He & -> & Hw' & Ho). rewrite Hn in He. injection He as <-.
    rewrite entry_frame_add by lia. done.
  - destruct Hpost as [_ Hno]. by rewrite Hno in Hn.
Qed.

(** ** The kernel in the middle of a call *)

(** Neither the client's nor of use to the page tables: the kernel's static
    memory. *)
Definition bystander s (b : Z) : Prop := page_address b /\ untouched s b /\ ~ client_held s b.

(** [k] and [c] are the kernel and the processor before the call. *)
Record view k (c : Cpu.state) (H : Z -> Prop) (r : Z) (m : Z -> Z) (dw tw : option Z) v : Prop := {
  vw_wf : wf (vmm v);
  vw_cr3 : cr3 (vmm v) = cr3 k;
  vw_kernel : kernel_page_directory_physical (vmm v) = kernel_page_directory_physical k;
  vw_held : forall b, client_held (vmm v) b <-> H b;
  vw_room : room (vmm v) = r;
  vw_data : forall b i, page_address b -> H b -> 0 <= i < 1024 -> rd (vmm v) (b + 4 * i) = m (b + 4 * i);
  vw_by : forall b, bystander k b -> untouched (vmm v) b /\ ~ H b /\ forall i, 0 <= i < 1024 -> rd (vmm v) (b + 4 * i) = rd k (b + 4 * i);
  vw_pde : forall d, 0 <= d < 1024 -> d <> 834 -> pde (vmm v) d = pde k d;
  vw_dw : walk (vmm v) DW = (fun f => f + 3) <$> dw;
  vw_tw : walk (vmm v) TW = (fun f => f + 3) <$> tw;
  vw_walk : forall va, below_window va -> va mod 4096 = 0 -> va <> DW -> va <> TW -> walk (vmm v) va = walk k va;
  vw_busy : address_space_window_busy v = true;
  vw_flags : address_space_window_irq_flags v = Cpu.eflags c;
  vw_cpu : cpu v = Cpu.masked c
}.

Lemma view_ext k c H H' r m m' dw tw v :
  (forall b, H b <-> H' b) -> (forall b i, page_address b -> H b -> 0 <= i < 1024 -> m' (b + 4 * i) = m (b + 4 * i)) ->
  view k c H r m dw tw v -> view k c H' r m' dw tw v.
Proof.
  intros HH Hm []. split; try done.
  - intros b. by rewrite vw_held0.
  - intros b i Hb Hh Hi. rewrite vw_data0, Hm; try done; by apply HH.
  - intros b Hb. rewrite <-HH. by apply vw_by0.
Qed.

(** A step of the page tables that only concerns the windows. *)
Lemma view_kept k c H r m dw tw v s' dw' tw' :
  view k c H r m dw tw v -> wf s' -> (forall b, client_held s' b <-> client_held (vmm v) b) -> kept (vmm v) 834 s' ->
  walk s' DW = (fun f => f + 3) <$> dw' -> walk s' TW = (fun f => f + 3) <$> tw' ->
  (forall vb, below_window vb -> vb mod 4096 = 0 -> vb <> DW -> vb <> TW -> walk s' vb = walk (vmm v) vb) ->
  view k c H r m dw' tw' (set_vmm s' v).
Proof.
  intros [] Hs' Hh Hk Hd Ht Hw. pose proof (kept_room _ _ _ ltac:(by left) Hk) as Hr. destruct Hk as [Hu [? ?] Hda Hpd _].
  split; try done; cbn [vmm set_vmm].
  - by rewrite H0.
  - by rewrite H1.
  - intros b. by rewrite Hh.
  - by rewrite Hr.
  - intros b i Hb HH Hi. rewrite Hda by (done || by apply client_untouched, vw_held0). auto.
  - intros b Hb. destruct (vw_by0 b Hb) as (? & ? & Hrd). split; [auto|]. split; [done|]. intros i Hi. rewrite Hda by (done || apply Hb). auto.
  - intros d Hd1 Hd2. rewrite Hpd by done. auto.
  - intros va ? ? ? ?. rewrite Hw by done. auto.
Qed.

Lemma window_not_self : DW <> TW. Proof. done. Qed.

(** A failure means that not even the page table of the windows can be had. *)
Lemma view_map_dw k c H r m tw v f : view k c H r m None tw v -> page_address f ->
  wp (map_window DW f) v (fun ok v' => view k c H r m (if ok : bool then Some f else None) tw v' /\ (0 <= r -> ok = true)).
Proof.
  intros Hv Hf. unfold map_window. apply wp_zoom.
  wp_apply (window_map (vmm v) DW f); [apply Hv|by left|done|apply (vw_dw _ _ _ _ _ _ _ _ Hv)|].
  intros ok s' (Hs' & Hh & Hk & Ho & Hw). split.
  - eapply view_kept; try done.
    + destruct ok; [done|apply Hw].
    + rewrite (Ho TW); [apply Hv|vm_compute; naive_solver|done|done].
    + intros vb ? ? ? ?. by apply Ho.
  - destruct ok; [done|]. destruct Hw as [_ Hsp]. rewrite <-(vw_room _ _ _ _ _ _ _ _ Hv). unfold room, spare in *.
    change (dir_index DW) with 834 in Hsp. unfold present_bit. intros Hr.
    pose proof (fa_count_nonneg _ (wf_fa _ (vw_wf _ _ _ _ _ _ _ _ Hv))).
    destruct (present (pde (vmm v) 834)), (present (pde (vmm v) 835)); lia.
Qed.

(** With the directory window open the table window can always be mapped. *)
Lemma view_map_tw k c H r m d v f : view k c H r m (Some d) None v -> page_address f ->
  wp (map_window TW f) v (fun ok v' => ok = true /\ view k c H r m (Some d) (Some f) v').
Proof.
  intros Hv Hf. unfold map_window. apply wp_zoom.
  wp_apply (window_map (vmm v) TW f); [apply Hv|by right; left|done|apply (vw_tw _ _ _ _ _ _ _ _ Hv)|].
  intros ok s' (Hs' & Hh & Hk & Ho & Hw). assert (ok = true) as ->.
  { destruct ok; [done|]. destruct Hw as [_ Hsp]. change (dir_index TW) with 834 in Hsp. unfold spare in Hsp.
    pose proof (fa_count_nonneg _ (wf_fa _ (vw_wf _ _ _ _ _ _ _ _ Hv))). pose proof (vw_dw _ _ _ _ _ _ _ _ Hv) as Hd.
    unfold walk in Hd. change (dir_index DW) with 834 in Hd. destruct (present (pde (vmm v) 834)); [lia|done]. }
  split; [done|]. eapply view_kept; try done.
  - rewrite (Ho DW); [apply Hv|vm_compute; naive_solver|done|done].
  - intros vb ? ? ? ?. by apply Ho.
Qed.

Lemma view_unmap_dw k c H r m tw v f (Q : unit -> spaces F -> Prop) : view k c H r m (Some f) tw v -> page_address f ->
  (forall v', view k c H r m None tw v' -> Q tt v') -> wp (unmap_window DW f) v Q.
Proof.
  intros Hv Hf HQ. unfold unmap_window. apply wp_bind, wp_zoom.
  wp_apply (window_unmap (vmm v) DW f); [apply Hv|by left|done|apply (vw_dw _ _ _ _ _ _ _ _ Hv)|].
  intros x s' (-> & Hs' & Hh & Hk & Ho & Hw). rewrite Z.eqb_refl. apply wp_ret, HQ. eapply view_kept; try done.
  - rewrite (Ho TW); [apply Hv|vm_compute; naive_solver|done|done].
  - intros vb ? ? ? ?. by apply Ho.
Qed.

Lemma view_unmap_tw k c H r m dw v f (Q : unit -> spaces F -> Prop) : view k c H r m dw (Some f) v -> page_address f ->
  (forall v', view k c H r m dw None v' -> Q tt v') -> wp (unmap_window TW f) v Q.
Proof.
  intros Hv Hf HQ. unfold unmap_window. apply wp_bind, wp_zoom.
  wp_apply (window_unmap (vmm v) TW f); [apply Hv|by right; left|done|apply (vw_tw _ _ _ _ _ _ _ _ Hv)|].
  intros x s' (-> & Hs' & Hh & Hk & Ho & Hw). rewrite Z.eqb_refl. apply wp_ret, HQ. eapply view_kept; try done.
  - rewrite (Ho DW); [apply Hv|vm_compute; naive_solver|done|done].
  - intros vb ? ? ? ?. by apply Ho.
Qed.

(** ** Words *)

Lemma wp_load_mapped v va f i (Q : Z -> spaces F -> Prop) :
  wf (vmm v) -> window va -> page_address f -> walk (vmm v) va = Some (f + 3) -> 0 <= i < 1024 ->
  Q (rd (vmm v) (f + 4 * i)) v -> wp (load va i) v Q.
Proof.
  intros Hs Hw Hf Hm Hi HQ. destruct (window_facts va Hw) as (Hb & Ha & _). unfold load. apply wp_zoom. unfold wp, vread.
  change (lget v) with (vmm v). rewrite (translate_mapped (vmm v) false va f i) by done. by destruct v.
Qed.

Lemma wp_store_mapped v va f i x (Q : unit -> spaces F -> Prop) :
  wf (vmm v) -> window va -> page_address f -> walk (vmm v) va = Some (f + 3) -> 0 <= i < 1024 ->
  Q tt (set_vmm (poke (f + 4 * i) x (vmm v)) v) -> wp (store va i x) v Q.
Proof.
  intros Hs Hw Hf Hm Hi HQ. destruct (window_facts va Hw) as (Hb & Ha & _). unfold store. apply wp_zoom. unfold wp, vwrite.
  change (lget v) with (vmm v). by rewrite (translate_mapped (vmm v) true va f i) by done.
Qed.

Lemma word_inj a b i j : a mod 4096 = 0 -> b mod 4096 = 0 -> 0 <= i < 1024 -> 0 <= j < 1024 ->
  a + 4 * i = b + 4 * j -> a = b /\ i = j.
Proof. intros. word_lia. Qed.

Lemma view_poke k c H r m dw tw v f i x : view k c H r m dw tw v -> page_address f -> H f -> 0 <= i < 1024 ->
  view k c H r (upd m (f + 4 * i) x) dw tw (set_vmm (poke (f + 4 * i) x (vmm v)) v).
Proof.
  intros [Hs ? ? Hh Hr Hd Hby Hp ? ? Hw ? ? ?] Hf HH Hi.
  destruct (poke_client (vmm v) f i x Hs Hf (proj2 (Hh f) HH) Hi) as (Hs' & Hw' & Hp' & Hh').
  split; try done; cbn [vmm set_vmm].
  - intros b. by rewrite Hh'.
  - unfold room. rewrite !Hp' by lia. exact Hr.
  - intros b j Hb HHb Hj. rewrite rd_poke. unfold upd. rewrite Z.eqb_sym.
    destruct (b + 4 * j =? f + 4 * i); [done|]. by apply Hd.
  - intros b Hb. destruct (Hby b Hb) as ((? & ? & Hbt) & Hn & Hrd). split; [|split; [done|]].
    + split; [done|]. split; [done|]. intros d Hd1. unfold tbl. rewrite Hp' by lia. by apply Hbt.
    + intros j Hj. rewrite rd_poke. destruct Hb as ([_ ?] & _), Hf as [_ ?].
      rewrite (proj2 (Z.eqb_neq _ _)); [by apply Hrd|]. apply page_disjoint; try done. by intros ->.
  - intros d Hd1 Hd2. rewrite Hp' by done. by apply Hp.
  - rewrite Hw' by (vm_compute; naive_solver). done.
  - rewrite Hw' by (vm_compute; naive_solver). done.
  - intros va Hva Hal Hn1 Hn2. rewrite Hw' by done. by apply Hw.
Qed.

Lemma view_load_dw k c H r m tw v f i (Q : Z -> spaces F -> Prop) : view k c H r m (Some f) tw v -> page_address f -> H f ->
  0 <= i < 1024 -> Q (m (f + 4 * i)) v -> wp (load DW i) v Q.
Proof.
  intros Hv Hf HH Hi HQ. apply (wp_load_mapped v DW f); [apply Hv|by left|done|apply (vw_dw _ _ _ _ _ _ _ _ Hv)|done|].
  by rewrite (vw_data _ _ _ _ _ _ _ _ Hv).
Qed.

Lemma view_load_tw k c H r m dw v f i (Q : Z -> spaces F -> Prop) : view k c H r m dw (Some f) v -> page_address f -> H f ->
  0 <= i < 1024 -> Q (m (f + 4 * i)) v -> wp (load TW i) v Q.
Proof.
  intros Hv Hf HH Hi HQ. apply (wp_load_mapped v TW f); [apply Hv|by right; left|done|apply (vw_tw _ _ _ _ _ _ _ _ Hv)|done|].
  by rewrite (vw_data _ _ _ _ _ _ _ _ Hv).
Qed.

Lemma view_store_dw k c H r m tw v f i x (Q : unit -> spaces F -> Prop) :
  view k c H r m (Some f) tw v -> page_address f -> H f -> 0 <= i < 1024 ->
  (forall v', view k c H r (upd m (f + 4 * i) x) (Some f) tw v' -> Q tt v') -> wp (store DW i x) v Q.
Proof.
  intros Hv Hf HH Hi HQ. apply (wp_store_mapped v DW f); [apply Hv|by left|done|apply (vw_dw _ _ _ _ _ _ _ _ Hv)|done|].
  apply HQ. by apply view_poke.
Qed.

Lemma view_store_tw k c H r m dw v f i x (Q : unit -> spaces F -> Prop) :
  view k c H r m dw (Some f) v -> page_address f -> H f -> 0 <= i < 1024 ->
  (forall v', view k c H r (upd m (f + 4 * i) x) dw (Some f) v' -> Q tt v') -> wp (store TW i x) v Q.
Proof.
  intros Hv Hf HH Hi HQ. apply (wp_store_mapped v TW f); [apply Hv|by right; left|done|apply (vw_tw _ _ _ _ _ _ _ _ Hv)|done|].
  apply HQ. by apply view_poke.
Qed.

(** [m] with the page [f] cleared up to the word [n]. *)
Definition cleared (m : Z -> Z) (f n : Z) : Z -> Z := fun a => if (f <=? a) && (a <? f + 4 * n) then 0 else m a.

Lemma cleared_step m f n b i : page_address f -> page_address b -> 0 <= n < 1024 -> 0 <= i < 1024 ->
  upd (cleared m f n) (f + 4 * n) 0 (b + 4 * i) = cleared m f (n + 1) (b + 4 * i).
Proof.
  intros [_ Hf] [_ Hb] Hn Hi. unfold upd, cleared.
  destruct (Z.eqb_spec (b + 4 * i) (f + 4 * n)), (Z.leb_spec f (b + 4 * i)), (Z.ltb_spec (b + 4 * i) (f + 4 * n)),
    (Z.ltb_spec (b + 4 * i) (f + 4 * (n + 1))); cbn; try done; word_lia.
Qed.

(** Clearing the page a window shows. *)
Lemma view_zero (sel : bool) k c H r m d t v f (Q : unit -> spaces F -> Prop) :
  view k c H r m d t v -> (if sel then d else t) = Some f -> page_address f -> H f ->
  (forall v', view k c H r (cleared m f 1024) d t v' -> Q tt v') ->
  wp (zero_page (if sel then DW else TW)) v Q.
Proof.
  intros Hv Hsel Hf HH HQ. unfold zero_page.
  apply (wp_for_range (fun n v' => view k c H r (cleared m f n) d t v')).
  - eapply view_ext; [| |exact Hv]; [done|]. intros b i _ _ _. unfold cleared.
    destruct (Z.leb_spec f (b + 4 * i)), (Z.ltb_spec (b + 4 * i) (f + 4 * 0)); try done. lia.
  - intros n v' Hn Hv'. assert (forall v'', view k c H r (upd (cleared m f n) (f + 4 * n) 0) d t v'' ->
      view k c H r (cleared m f (n + 1)) d t v'') as Hext.
    { intros v''. apply view_ext; [done|]. intros b i Hb _ Hi. symmetry. apply cleared_step; (done || lia). }
    destruct sel; subst; [eapply view_store_dw|eapply view_store_tw]; try done; try lia; apply Hext.
  - intros v' Hv'. by apply HQ.
Qed.

(** ** Frames *)

Lemma walk_set_frames s fr va : walk (set_frames fr s) va = walk s va.
Proof. done. Qed.

(** Only the allocator changes. *)
Record frames_changed s s' : Prop := {
  fc_wf : wf s';
  fc_phys : phys s' = phys s;
  fc_cr3 : cr3 s' = cr3 s;
  fc_kernel : kernel_page_directory_physical s' = kernel_page_directory_physical s
}.

Lemma frames_changed_same s s' : frames_changed s s' ->
  (forall a, rd s' a = rd s a) /\ (forall d, pde s' d = pde s d) /\ (forall va, walk s' va = walk s va).
Proof.
  intros [_ Hp Hc _]. assert (forall a, rd s' a = rd s a) as Hrd by (intros; unfold rd; by rewrite Hp).
  assert (forall d, pde s' d = pde s d) as Hpde by (intros; unfold pde; by rewrite Hc, Hrd). split; [done|]. split; [done|].
  intros va. unfold walk, pte, tbl. by rewrite !Hpde, !Hrd.
Qed.

Lemma take_frame s : wf s ->
  wp (zoom fa_alloc) s (fun f s' =>
    f = 0 /\ room s <= 0 /\ s' = s \/
    page_address f /\ fa_avail (frames s) f /\ ~ client_held s f /\ frames_changed s s' /\ room s' = room s - 1 /\
      (forall b, client_held s' b <-> client_held s b \/ b = f) /\ (forall b, untouched s b -> untouched s' b)).
Proof.
  intros Hs. apply wp_zoom. change (lget s) with (frames s). wp_apply (fa_alloc_ok (frames s)); [apply Hs|].
  intros f fr (Hfa & [(-> & -> & Hcount & Hnone)|(Hav & Hcount & Hav' & Hheld')]).
  - left. split; [done|]. split; [|by destruct s]. unfold room, present_bit.
    destruct (present (pde s 834)), (present (pde s 835)); lia.
  - right. destruct (fresh_frame s f Hs Hav) as (Hf & Hfc & Hft). split; [done|]. split; [done|].
    split; [intros [Hx _]; by apply (fa_disjoint _ _ (wf_fa _ Hs) Hav)|]. change (lset fr s) with (set_frames fr s).
    split; [|split; [|split]].
    + split; try done. apply wf_set_frames; [done|done| | |].
      * intros d Hd1 Hd2 Ha. apply (wf_table _ Hs d Hd1 Hd2). by apply Hav'.
      * intros Ha. apply (wf_cr3 _ Hs). by apply Hav'.
      * intros d Hd1 Hn Hd2. apply Hheld'. left. by apply (wf_held _ Hs).
    + unfold room. change (frames (set_frames fr s)) with fr. rewrite Hcount. change (pde (set_frames fr s)) with (pde s). lia.
    + intros b. unfold client_held. change (frames (set_frames fr s)) with fr. rewrite Hheld'.
      change (cr3 (set_frames fr s)) with (cr3 s).
      split; [tauto|]. intros [?| ->]; [tauto|]. split; [tauto|]. split; [done|]. exact Hft.
    + intros b (? & Hna & ?). split; [done|]. split; [|done]. intros Ha. apply Hna. by apply Hav'.
Qed.

Lemma return_frame s f : wf s -> page_address f -> client_held s f ->
  wp (zoom (fa_free f)) s (fun ok s' => ok = true /\ frames_changed s s' /\ room s' = room s + 1 /\
    (forall b, client_held s' b <-> client_held s b /\ b <> f) /\ (forall b, untouched s b -> b <> f -> untouched s' b)).
Proof.
  intros Hs [Hf Hal] (Hheld & Hc & Ht). apply wp_zoom. change (lget s) with (frames s).
  wp_apply (fa_free_ok (frames s)); [apply Hs|lia|].
  intros ok fr (Hfa & Hok). destruct ok; [|by destruct Hok as [_ []]]. destruct Hok as (_ & Hcount & Hav & Hheld').
  split; [done|]. change (lset fr s) with (set_frames fr s). split; [|split; [|split]].
  - split; try done. apply wf_set_frames; [done|done| | |].
    + intros d Hd1 Hd2 [?|E]%Hav; [by apply (wf_table _ Hs d Hd1 Hd2)|]. by apply (Ht d Hd1 Hd2).
    + intros [?|E]%Hav; [by apply (wf_cr3 _ Hs)|congruence].
    + intros d Hd1 Hn Hd2. apply Hheld'. split; [by apply (wf_held _ Hs)|]. intros E. by apply (Ht d Hd1 Hd2).
  - unfold room. change (frames (set_frames fr s)) with fr. rewrite Hcount. change (pde (set_frames fr s)) with (pde s). lia.
  - intros b. unfold client_held. change (frames (set_frames fr s)) with fr. rewrite Hheld'.
    change (cr3 (set_frames fr s)) with (cr3 s).
    change (forall d, 0 <= d < 1023 -> present (pde (set_frames fr s) d) = true -> b <> tbl (set_frames fr s) d)
      with (forall d, 0 <= d < 1023 -> present (pde s d) = true -> b <> tbl s d). tauto.
  - intros b (? & Hna & ?) Hne. split; [done|]. split; [|done]. by intros [Ha| ->]%Hav.
Qed.

Lemma view_frames k c H r m dw tw v s' H' r' m' : view k c H r m dw tw v -> frames_changed (vmm v) s' -> room s' = r' ->
  (forall b, client_held s' b <-> H' b) ->
  (forall b i, page_address b -> H' b -> 0 <= i < 1024 -> rd (vmm v) (b + 4 * i) = m' (b + 4 * i)) ->
  (forall b, bystander k b -> untouched (vmm v) b -> ~ H b -> untouched s' b /\ ~ H' b) ->
  view k c H' r' m' dw tw (set_vmm s' v).
Proof.
  intros [] Hf Hr Hh Hm Hb. destruct (frames_changed_same _ _ Hf) as (Hrd & Hpde & Hwk). destruct Hf.
  split; try done; cbn [vmm set_vmm].
  - by rewrite fc_cr4.
  - by rewrite fc_kernel0.
  - intros b i Hb' HH Hi. rewrite Hrd. by apply Hm.
  - intros b Hby. destruct (vw_by0 b Hby) as (? & ? & Hd). destruct (Hb b) as [? ?]; [done..|].
    split; [done|]. split; [done|]. intros i Hi. rewrite Hrd. auto.
  - intros d Hd1 Hd2. rewrite Hpde. auto.
  - by rewrite Hwk.
  - by rewrite Hwk.
  - intros va ? ? ? ?. rewrite Hwk. auto.
Qed.

Lemma view_alloc k c H r m dw tw v : view k c H r m dw tw v ->
  wp pmm_alloc v (fun f v' =>
    f = 0 /\ r <= 0 /\ v' = v \/
    page_address f /\ ~ H f /\ exists m', (forall b i, page_address b -> H b -> 0 <= i < 1024 -> m' (b + 4 * i) = m (b + 4 * i)) /\
      view k c (fun b => H b \/ b = f) (r - 1) m' dw tw v').
Proof.
  intros Hv. pose proof Hv as []. unfold pmm_alloc. apply wp_zoom. change (lget v) with (vmm v). eapply wp_mono; [by apply take_frame|]. cbv beta.
  intros f s' [(-> & Hr & ->)|(Hf & Hav & Hnf & Hfc & Hr & Hh & Hu)].
  - left. split; [done|]. split; [lia|by destruct v].
  - right. split; [done|]. split; [by rewrite <-vw_held0|]. exists (rd (vmm v)). split; [by apply vw_data0|].
    eapply view_frames; [exact Hv|done|lia| |done|].
    + intros b. by rewrite Hh, vw_held0.
    + intros b Hb Hub Hn. split; [by apply Hu|]. intros [?| ->]; [done|]. by destruct Hub as (_ & ? & _).
Qed.

Lemma view_free k c H r m dw tw v f : view k c H r m dw tw v -> page_address f -> H f ->
  wp (pmm_free f) v (fun ok v' => ok = true /\ view k c (fun b => H b /\ b <> f) (r + 1) m dw tw v').
Proof.
  intros Hv Hf HH. pose proof Hv as []. unfold pmm_free. apply wp_zoom. change (lget v) with (vmm v).
  eapply wp_mono; [apply return_frame; [done|done|by apply vw_held0]|].
  cbv beta. intros ok s' (-> & Hfc & Hr & Hh & Hu). split; [done|]. eapply view_frames; [exact Hv|done|lia| | |].
  - intros b. by rewrite Hh, vw_held0.
  - intros b i Hb [? _] Hi. by apply vw_data0.
  - intros b Hb Hub Hn. split; [|by intros [? _]]. apply Hu; [done|]. by intros ->.
Qed.

(** ** The lock *)

(** No call is in progress and the windows are closed. *)
Record idle v : Prop := {
  id_wf : wf (vmm v);
  id_cpu : Cpu.wf (cpu v);
  id_busy : address_space_window_busy v = false;
  id_dw : walk (vmm v) DW = None;
  id_tw : walk (vmm v) TW = None
}.

Lemma acquire_ok v (Q : bool -> spaces F -> Prop) : idle v ->
  (forall v', view (vmm v) (cpu v) (client_held (vmm v)) (room (vmm v)) (rd (vmm v)) None None v' -> Q true v') ->
  wp acquire_window v Q.
Proof.
  intros [] HQ. unfold acquire_window. apply wp_bind, wp_zoom, Cpu.irq_save_disable_wp. apply wp_bind, wp_gets.
  cbn [lset cpu_lens set_cpu address_space_window_busy]. rewrite id_busy0. apply wp_bind, wp_modify, wp_ret, HQ.
  split; try done. by intros b (_ & ? & ?).
Qed.

(** What a finished call leaves: the lock free, the processor as it was. *)
Record finished k (c : Cpu.state) (H : Z -> Prop) (r : Z) (m : Z -> Z) v : Prop := {
  dn_idle : idle v;
  dn_cpu : cpu v = c;
  dn_cr3 : cr3 (vmm v) = cr3 k;
  dn_kernel : kernel_page_directory_physical (vmm v) = kernel_page_directory_physical k;
  dn_held : forall b, client_held (vmm v) b <-> H b;
  dn_room : room (vmm v) = r;
  dn_data : forall b i, page_address b -> H b -> 0 <= i < 1024 -> rd (vmm v) (b + 4 * i) = m (b + 4 * i);
  dn_walk : forall va, below_window va -> va mod 4096 = 0 -> va <> DW -> va <> TW -> walk (vmm v) va = walk k va
}.

Lemma release_window_ok k c H r m v (Q : unit -> spaces F -> Prop) : Cpu.wf c -> view k c H r m None None v ->
  (forall v', finished k c H r m v' -> Q tt v') -> wp release_window v Q.
Proof.
  intros Hc [] HQ. unfold release_window. apply wp_bind, wp_gets, wp_bind, wp_modify. rewrite vw_flags0.
  apply wp_zoom. cbn [lget cpu_lens set_window cpu]. rewrite vw_cpu0.
  apply Cpu.irq_restore_wp; [done|]. apply HQ. split; try done.
Qed.

End windows.
End AddressSpaceWindow.
