(* ===== verification/AddressSpaceTables.v ===== *)
(** * The page tables of a user address space

    The directory and the page tables of an address space as a structure in
    physical memory: which frames it is made of ([part]), when it is well formed
    ([space_ok]), and what writing one entry, adding a table or removing one
    does to it. *)

From S2P Require Import Prelude Monad Interfaces Vmm VmmSpec AddressSpaceWindow.

Module AddressSpaceTables.
Import Vmm AddressSpaceWindow.

(** Words of different pages, or different words of a page. *)
Ltac word_ne := let E := fresh "E" in intros E; apply word_inj in E; [naive_solver lia|done || lia ..].

Implicit Types (m : Z -> Z) (D d t f : Z) (H : Z -> Prop).

(** The page table of directory entry [d], and the frame and the flags of the
    page at [(d, t)]. *)
Definition tab m D d : option Z :=
  let e := m (D + 4 * d) in if present e then Some (entry_frame e) else None.
Definition ent m D d t : option (Z * Z) :=
  match tab m D d with
  | Some T => let e := m (T + 4 * t) in if present e then Some (entry_frame e, Z.land e 6) else None
  | None => None
  end.

(** The frames of the space by what they are used for. *)
Inductive label := LDir | LTab (d : Z) | LPage (d t : Z).
#[export] Instance label_eq_dec : EqDecision label.
Proof. solve_decision. Defined.

Inductive part m D : label -> Z -> Prop :=
  | part_dir : part m D LDir D
  | part_tab d T : 0 <= d < 768 -> tab m D d = Some T -> part m D (LTab d) T
  | part_page d t f fl : 0 <= d < 768 -> 0 <= t < 1024 -> ent m D d t = Some (f, fl) -> part m D (LPage d t) f.

(** [H] are the frames the space may be made of. *)
Record space_ok H m D : Prop := {
  so_frame : forall l f, part m D l f -> page_address f /\ H f;
  so_inj : forall l l' f, part m D l f -> part m D l' f -> l = l';
  so_pde : forall d T, 0 <= d < 768 -> tab m D d = Some T -> m (D + 4 * d) = T + 7;
  so_pte : forall d t f fl, 0 <= d < 768 -> 0 <= t < 1024 -> ent m D d t = Some (f, fl) -> fl = 4 \/ fl = 6;
  so_window : present (m (D + 4 * 834)) = false;      (** the windows are private to the active directory *)
  so_self : m (D + 4 * 1023) = D + 3                   (** the recursive entry *)
}.

(** Memory that shows the same tables. *)
Definition same_tables m m' D : Prop :=
  (forall d, 0 <= d < 1024 -> m' (D + 4 * d) = m (D + 4 * d)) /\
  (forall d T t, 0 <= d < 768 -> 0 <= t < 1024 -> tab m D d = Some T -> m' (T + 4 * t) = m (T + 4 * t)).

Lemma same_tab m m' D d : same_tables m m' D -> 0 <= d < 768 -> tab m' D d = tab m D d.
Proof. intros [Hd _] Hr. unfold tab. by rewrite Hd by lia. Qed.

Lemma same_ent m m' D d t : same_tables m m' D -> 0 <= d < 768 -> 0 <= t < 1024 -> ent m' D d t = ent m D d t.
Proof.
  intros Hs Hd Ht. unfold ent. rewrite (same_tab m m') by done. destruct (tab m D d) as [T|] eqn:E; [|done].
  destruct Hs as [_ Hs]. by rewrite (Hs d T t).
Qed.

Lemma same_part m m' D l f : same_tables m m' D -> part m' D l f <-> part m D l f.
Proof.
  intros Hs. split; intros Hp; inversion Hp; subst.
  - apply part_dir.
  - apply part_tab; [done|]. by rewrite <-(same_tab m m').
  - eapply part_page; [done|done|]. by erewrite <-(same_ent m m').
  - apply part_dir.
  - apply part_tab; [done|]. by rewrite (same_tab m m').
  - eapply part_page; [done|done|]. by erewrite (same_ent m m').
Qed.

Lemma space_same H H' m m' D : space_ok H m D -> same_tables m m' D -> (forall l f, part m D l f -> H' f) -> space_ok H' m' D.
Proof.
  intros [Hf Hi Hp Ht Hw Hsf] Hs HH. split.
  - intros l f Hl. apply (same_part m m') in Hl; [|done]. split; [by eapply Hf|by eapply HH].
  - intros l l' f. rewrite !(same_part m m') by done. apply Hi.
  - intros d T Hd. rewrite (same_tab m m') by done. destruct Hs as [Hs _]. rewrite Hs by lia. by apply Hp.
  - intros d t f fl Hd Hr. rewrite (same_ent m m') by done. by apply Ht.
  - destruct Hs as [Hs _]. by rewrite Hs by lia.
  - destruct Hs as [Hs _]. by rewrite Hs by lia.
Qed.

Section tables.
Context (H : Z -> Prop) (m : Z -> Z) (D : Z).
Hypothesis Hok : space_ok H m D.

Lemma dir_page : page_address D /\ H D.
Proof. apply (so_frame _ _ _ Hok LDir). apply part_dir. Qed.

Lemma tab_page d T : 0 <= d < 768 -> tab m D d = Some T -> page_address T /\ H T /\ T <> D.
Proof.
  intros Hd Ht. pose proof (part_tab m D d T Hd Ht) as Hp. destruct (so_frame _ _ _ Hok _ _ Hp). split; [done|].
  split; [done|]. intros ->. by pose proof (so_inj _ _ _ Hok _ _ _ Hp (part_dir m D)).
Qed.

Lemma tab_inj d d' T : 0 <= d < 768 -> 0 <= d' < 768 -> tab m D d = Some T -> tab m D d' = Some T -> d = d'.
Proof.
  intros Hd Hd' H1 H2. by injection (so_inj _ _ _ Hok _ _ _ (part_tab m D d T Hd H1) (part_tab m D d' T Hd' H2)).
Qed.

(** Words of the held frames alone matter. *)
Lemma data_same_tables m' :
  (forall b i, page_address b -> H b -> 0 <= i < 1024 -> m' (b + 4 * i) = m (b + 4 * i)) -> same_tables m m' D.
Proof.
  intros Hm. destruct dir_page. split; [intros d Hd; apply Hm; (done || lia)|].
  intros d T t Hd Ht E. destruct (tab_page d T Hd E) as (? & ? & _). by apply Hm.
Qed.

(** Writing a frame that is neither the directory nor a table. *)
Lemma other_same_tables f i x : page_address f -> 0 <= i < 1024 -> f <> D -> (forall d, 0 <= d < 768 -> tab m D d <> Some f) ->
  same_tables m (upd m (f + 4 * i) x) D.
Proof.
  intros [_ Hf] Hi HD HT. destruct dir_page as [[_ HDa] _]. unfold upd. split.
  - intros d Hd. rewrite (proj2 (Z.eqb_neq _ _)); [done|]. word_ne.
  - intros d T t Hd Ht E. destruct (tab_page d T Hd E) as ([_ ?] & _). rewrite (proj2 (Z.eqb_neq _ _)); [done|].
    intros E'. apply word_inj in E' as [-> _]; try done. by apply (HT d).
Qed.

(** ** Writing an entry of a table *)

Definition decode (e : Z) : option (Z * Z) := if present e then Some (entry_frame e, Z.land e 6) else None.

Section pte.
Context (d t T e : Z).
Hypothesis Hd : 0 <= d < 768.
Hypothesis Ht : 0 <= t < 1024.
Hypothesis HT : tab m D d = Some T.

Definition wrote : Z -> Z := upd m (T + 4 * t) e.

Lemma wrote_dir d' : 0 <= d' < 1024 -> wrote (D + 4 * d') = m (D + 4 * d').
Proof.
  intros Hd'. unfold wrote, upd. destruct (tab_page d T Hd HT) as ([_ ?] & _ & Hne). destruct dir_page as [[_ ?] _].
  rewrite (proj2 (Z.eqb_neq _ _)); [done|]. word_ne.
Qed.

Lemma wrote_tab d' : 0 <= d' < 768 -> tab wrote D d' = tab m D d'.
Proof. intros Hd'. unfold tab. by rewrite wrote_dir by lia. Qed.

Lemma wrote_ent d' t' : 0 <= d' < 768 -> 0 <= t' < 1024 ->
  ent wrote D d' t' = if (d' =? d) && (t' =? t) then decode e else ent m D d' t'.
Proof.
  intros Hd' Ht'. unfold ent. rewrite wrote_tab by done. destruct (tab m D d') as [T'|] eqn:E.
  2:{ destruct (Z.eqb_spec d' d) as [->|]; [congruence|done]. }
  destruct (tab_page d T Hd HT) as ([_ ?] & _ & _). destruct (tab_page d' T' Hd' E) as ([_ ?] & _ & _).
  unfold wrote, upd. destruct (Z.eqb_spec (T' + 4 * t') (T + 4 * t)) as [Ew|Ew].
  - apply word_inj in Ew as [-> ->]; try done. assert (d' = d) as -> by (by eapply tab_inj). by rewrite !Z.eqb_refl.
  - destruct (Z.eqb_spec d' d) as [->|]; [|done]. assert (T' = T) as -> by congruence.
    destruct (Z.eqb_spec t' t) as [->|]; done.
Qed.

Lemma wrote_part l f : part wrote D l f <->
  part m D l f /\ l <> LPage d t \/ l = LPage d t /\ exists fl, decode e = Some (f, fl).
Proof.
  split.
  - intros Hp. inversion Hp as [|d' T' Hd' E|d' t' f' fl Hd' Ht' E]; subst.
    + left. split; [apply part_dir|done].
    + left. split; [|done]. apply part_tab; [done|]. by rewrite <-wrote_tab.
    + rewrite wrote_ent in E by done. destruct (Z.eqb_spec d' d) as [->|]; [destruct (Z.eqb_spec t' t) as [->|]|]; cbn in E.
      * right. split; [done|]. by exists fl.
      * left. split; [by eapply part_page|congruence].
      * left. split; [by eapply part_page|congruence].
  - intros [[Hp Hne]|[-> [fl E]]].
    2:{ eapply part_page; [done|done|]. rewrite wrote_ent, !Z.eqb_refl by done. exact E. }
    inversion Hp as [|d' T' Hd' E|d' t' f' fl Hd' Ht' E]; subst.
    + apply part_dir.
    + apply part_tab; [done|]. by rewrite wrote_tab.
    + eapply part_page; [done|done|]. rewrite wrote_ent by done.
      destruct (Z.eqb_spec d' d) as [->|]; [destruct (Z.eqb_spec t' t) as [->|]|]; [by destruct Hne|exact E..].
Qed.

Lemma wrote_ok : (forall f fl, decode e = Some (f, fl) -> page_address f /\ H f /\ (fl = 4 \/ fl = 6) /\
    forall l, part m D l f -> l = LPage d t) -> space_ok H wrote D.
Proof.
  intros He. split.
  - intros l f [[Hp' _]|[_ [fl E]]]%wrote_part; [by eapply so_frame|]. by destruct (He f fl E) as (? & ? & _).
  - intros l l' f [[H1 _]|[-> [fl E]]]%wrote_part [[H2 _]|[-> [fl' E']]]%wrote_part.
    + by eapply so_inj.
    + destruct (He f fl' E') as (_ & _ & _ & Hu). by apply Hu.
    + destruct (He f fl E) as (_ & _ & _ & Hu). symmetry. by apply Hu.
    + done.
  - intros d' T' Hd'. rewrite wrote_tab, wrote_dir by lia. by apply (so_pde _ _ _ Hok).
  - intros d' t' f fl Hd' Ht'. rewrite wrote_ent by done. destruct (_ && _); [|by eapply so_pte].
    intros E. by destruct (He f fl E) as (_ & _ & ? & _).
  - rewrite wrote_dir by lia. apply Hok.
  - rewrite wrote_dir by lia. apply Hok.
Qed.

End pte.

(** ** Adding and removing a table *)

Section install.
Context (d T : Z).
Hypothesis Hd : 0 <= d < 768.
Hypothesis Hnone : tab m D d = None.
Hypothesis HT : page_address T.
Hypothesis Hfresh : ~ H T.

Definition added : Z -> Z := upd (cleared m T 1024) (D + 4 * d) (T + 7).

Lemma added_other b i : page_address b -> 0 <= i < 1024 -> b <> T -> ~ (b = D /\ i = d) -> added (b + 4 * i) = m (b + 4 * i).
Proof.
  intros [_ Hb] Hi HbT Hne. destruct HT as [_ ?]. destruct dir_page as [[_ ?] _]. unfold added, upd, cleared.
  rewrite (proj2 (Z.eqb_neq _ _)) by word_ne.
  destruct (Z.leb_spec T (b + 4 * i)), (Z.ltb_spec (b + 4 * i) (T + 4 * 1024)); try done. exfalso. apply HbT. word_lia.
Qed.

Lemma added_tab d' : 0 <= d' < 768 -> tab added D d' = if d' =? d then Some T else tab m D d'.
Proof.
  intros Hd'. destruct dir_page as [HDp HD]. unfold tab. destruct (Z.eqb_spec d' d) as [->|Hne].
  - unfold added, upd. rewrite Z.eqb_refl. destruct HT as [? Hal].
    assert (present (T + 7) = true) as -> by (unfold present; by rewrite land_aligned_add).
    by rewrite entry_frame_add by lia.
  - rewrite added_other; [done|done|lia|by intros ->|by intros [_ ?]].
Qed.

Lemma added_ent d' t : 0 <= d' < 768 -> 0 <= t < 1024 -> ent added D d' t = ent m D d' t.
Proof.
  intros Hd' Ht. unfold ent. rewrite added_tab by done. destruct (Z.eqb_spec d' d) as [->|Hne].
  - rewrite Hnone. unfold added, upd, cleared. destruct dir_page as [[_ ?] HD]. destruct HT as [_ ?].
    rewrite (proj2 (Z.eqb_neq _ _)) by word_ne.
    destruct (Z.leb_spec T (T + 4 * t)), (Z.ltb_spec (T + 4 * t) (T + 4 * 1024)); try lia. done.
  - destruct (tab m D d') as [T'|] eqn:E; [|done]. destruct (tab_page d' T' Hd' E) as (? & ? & ?).
    rewrite added_other; [done|done|done|by intros ->|by intros [? _]].
Qed.

Lemma added_part l f : part added D l f <-> part m D l f \/ l = LTab d /\ f = T.
Proof.
  split.
  - intros Hp. inversion Hp as [|d' T' Hd' E|d' t' f' fl Hd' Ht' E]; subst.
    + left. apply part_dir.
    + rewrite added_tab in E by done. destruct (Z.eqb_spec d' d) as [->|]; [right; split; [done|congruence]|left]. by apply part_tab.
    + left. rewrite added_ent in E by done. by eapply part_page.
  - intros [Hp|[-> ->]]; [|apply part_tab; [done|]; by rewrite added_tab, Z.eqb_refl].
    inversion Hp as [|d' T' Hd' E|d' t' f' fl Hd' Ht' E]; subst.
    + apply part_dir.
    + apply part_tab; [done|]. rewrite added_tab by done. destruct (Z.eqb_spec d' d) as [->|]; [congruence|done].
    + eapply part_page; [done|done|]. by erewrite added_ent.
Qed.

Lemma added_ok : space_ok (fun b => H b \/ b = T) added D.
Proof.
  split.
  - intros l f [Hp|[_ ->]]%added_part; [|by auto]. destruct (so_frame _ _ _ Hok l f Hp). by auto.
  - assert (forall l, ~ part m D l T) as Hno by (intros l Hp; by destruct (so_frame _ _ _ Hok l T Hp)).
    intros l l' f [H1|[-> ->]]%added_part [H2|[-> E]]%added_part; subst; try done; [by eapply so_inj|exfalso; by eapply Hno|exfalso; by eapply Hno].
  - intros d' T' Hd'. rewrite added_tab by done. destruct (Z.eqb_spec d' d) as [->|Hne].
    + intros E. injection E as <-. unfold added, upd. by rewrite Z.eqb_refl.
    + intros E. destruct dir_page as [? ?]. rewrite added_other; [by apply (so_pde _ _ _ Hok)|done|lia|by intros ->|by intros [_ ?]].
  - intros d' t f fl Hd' Ht. rewrite added_ent by done. by apply (so_pte _ _ _ Hok).
  - destruct dir_page as [? ?]. rewrite added_other; [apply Hok|done|lia|by intros ->|lia].
  - destruct dir_page as [? ?]. rewrite added_other; [apply Hok|done|lia|by intros ->|lia].
Qed.

End install.

Section remove.
Context (d T : Z).
Hypothesis Hd : 0 <= d < 768.
Hypothesis HT : tab m D d = Some T.
Hypothesis Hempty : forall t, 0 <= t < 1024 -> ent m D d t = None.

Definition removed : Z -> Z := upd m (D + 4 * d) 0.

Lemma removed_other b i : page_address b -> 0 <= i < 1024 -> ~ (b = D /\ i = d) -> removed (b + 4 * i) = m (b + 4 * i).
Proof.
  intros [_ Hb] Hi Hne. destruct dir_page as [[_ ?] _]. unfold removed, upd.
  by rewrite (proj2 (Z.eqb_neq _ _)) by word_ne.
Qed.

Lemma removed_tab d' : 0 <= d' < 768 -> tab removed D d' = if d' =? d then None else tab m D d'.
Proof.
  intros Hd'. destruct dir_page as [HDp HD]. unfold tab. destruct (Z.eqb_spec d' d) as [->|Hne].
  - unfold removed, upd. by rewrite Z.eqb_refl.
  - rewrite removed_other; [done|done|lia|by intros [_ ?]].
Qed.

Lemma removed_ent d' t : 0 <= d' < 768 -> 0 <= t < 1024 -> ent removed D d' t = ent m D d' t.
Proof.
  intros Hd' Ht. destruct (Z.eqb_spec d' d) as [->|Hne].
  - rewrite Hempty by done. unfold ent. by rewrite removed_tab, Z.eqb_refl.
  - unfold ent. rewrite removed_tab by done. rewrite (proj2 (Z.eqb_neq _ _)) by done.
    destruct (tab m D d') as [T'|] eqn:E; [|done]. destruct (tab_page d' T' Hd' E) as (? & ? & ?).
    rewrite removed_other; [done|done|done|by intros [? _]].
Qed.

Lemma removed_part l f : part removed D l f <-> part m D l f /\ l <> LTab d.
Proof.
  split.
  - intros Hp. inversion Hp as [|d' T' Hd' E|d' t' f' fl Hd' Ht' E]; subst.
    + split; [apply part_dir|done].
    + rewrite removed_tab in E by done. destruct (Z.eqb_spec d' d) as [->|Hne]; [done|]. split; [by apply part_tab|congruence].
    + rewrite removed_ent in E by done. split; [by eapply part_page|done].
  - intros [Hp Hne]. inversion Hp as [|d' T' Hd' E|d' t' f' fl Hd' Ht' E]; subst.
    + apply part_dir.
    + apply part_tab; [done|]. rewrite removed_tab by done. destruct (Z.eqb_spec d' d) as [->|]; [by destruct Hne|done].
    + eapply part_page; [done|done|]. by erewrite removed_ent.
Qed.

Lemma removed_ok : space_ok (fun b => H b /\ b <> T) removed D.
Proof.
  split.
  - intros l f [Hp Hne]%removed_part. destruct (so_frame _ _ _ Hok l f Hp). split; [done|]. split; [done|].
    intros ->. apply Hne. by eapply so_inj; [|exact Hp|by apply part_tab].
  - intros l l' f [H1 _]%removed_part [H2 _]%removed_part. by eapply so_inj.
  - intros d' T' Hd'. rewrite removed_tab by done. destruct (Z.eqb_spec d' d) as [->|Hne]; [done|].
    intros E. destruct dir_page as [? ?]. rewrite removed_other; [by apply (so_pde _ _ _ Hok)|done|lia|by intros [_ ?]].
  - intros d' t f fl Hd' Ht. rewrite removed_ent by done. by apply (so_pte _ _ _ Hok).
  - destruct dir_page as [? ?]. rewrite removed_other; [apply Hok|done|lia|lia].
  - destruct dir_page as [? ?]. rewrite removed_other; [apply Hok|done|lia|lia].
Qed.

End remove.

End tables.
End AddressSpaceTables.
