(* ===== verification/AddressSpaceSpec.v ===== *)
(** * What user address spaces guarantee

    An address space is a finite map from pages to frames with flags. The calls
    of kernel/mm/address_space.c on a space that is not the active one are
    operations on that map: none disturbs another page, the contents of any page,
    or a mapping of the kernel, and no frame is lost on any path. *)

From S2P Require Import Prelude Monad Interfaces Cpu Vmm VmmSpec AddressSpace AddressSpaceWindow AddressSpaceTables.

Module AddressSpaceSpec.
Import Vmm AddressSpace AddressSpaceWindow AddressSpaceTables.

Section spec.
Context {F : Type} `{!FrameAllocator F}.
Implicit Types (k : Vmm.state F) (v : spaces F) (H : Z -> Prop) (m : Z -> Z).

(** ** What a call leaves behind *)

Definition space v (D : Z) : Prop := space_ok (client_held (vmm v)) (rd (vmm v)) D.
Definition page_at v (D p : Z) : option (Z * Z) := ent (rd (vmm v)) D (dir_index p) (table_index p).

(** Held by the client and not part of the space. *)
Definition loose v (D f : Z) : Prop := client_held (vmm v) f /\ forall l, ~ part (rd (vmm v)) D l f.
(** Neither directory nor table: what the frame holds is data. *)
Definition content v (D f : Z) : Prop :=
  client_held (vmm v) f /\ f <> D /\ forall d, 0 <= d < 768 -> tab (rd (vmm v)) D d <> Some f.

Record common v (D : Z) v' : Prop := {
  cm_idle : idle v';
  cm_space : space v' D;
  cm_cpu : cpu v' = cpu v;
  cm_cr3 : cr3 (vmm v') = cr3 (vmm v);
  cm_kernel : kernel_page_directory_physical (vmm v') = kernel_page_directory_physical (vmm v);
  cm_walk : forall va, below_window va -> va mod 4096 = 0 -> va <> DW -> va <> TW -> walk (vmm v') va = walk (vmm v) va;
  cm_data : forall f i, page_address f -> content v D f -> 0 <= i < 1024 -> rd (vmm v') (f + 4 * i) = rd (vmm v) (f + 4 * i)
}.

Definition user_va (p : Z) : Prop := 0 <= p < KERNEL_BASE.

Lemma user_index p : user_va p -> 0 <= dir_index p < 768 /\ 0 <= table_index p < 1024.
Proof.
  unfold user_va, KERNEL_BASE, dir_index, table_index. intros.
  rewrite shiftr_22, shiftr_12. change 0x3FF with 1023. rewrite land_low_1023. word_lia.
Qed.

Lemma user_page_inj p q : user_va p -> user_va q -> p mod 4096 = 0 -> q mod 4096 = 0 ->
  dir_index p = dir_index q -> table_index p = table_index q -> p = q.
Proof.
  unfold user_va, KERNEL_BASE, dir_index, table_index. intros ? ? ? ?.
  rewrite !shiftr_22, !shiftr_12. change 0x3FF with 1023. rewrite !land_low_1023. word_lia.
Qed.

Lemma content_page v D d t f fl : space v D -> 0 <= d < 768 -> 0 <= t < 1024 -> ent (rd (vmm v)) D d t = Some (f, fl) -> content v D f.
Proof.
  intros Hs Hd Ht E. pose proof (part_page _ _ _ _ _ _ Hd Ht E) as Hp. destruct (so_frame _ _ _ Hs _ _ Hp) as [_ Hh].
  split; [done|]. split; [intros ->; by pose proof (so_inj _ _ _ Hs _ _ _ Hp (part_dir _ _))|].
  intros d' Hd' E'. by pose proof (so_inj _ _ _ Hs _ _ _ Hp (part_tab _ _ _ _ Hd' E')).
Qed.

Lemma content_loose v D f : loose v D f -> content v D f.
Proof.
  intros [Hh Hn]. split; [done|]. split; [intros ->; by apply (Hn LDir), part_dir|].
  intros d Hd E. by apply (Hn (LTab d)), part_tab.
Qed.

(** A finished call whose memory shows a well-formed space. *)
Lemma finished_common v D H' r m' v' :
  finished (vmm v) (cpu v) H' r m' v' -> space_ok H' m' D ->
  (forall f i, page_address f -> content v D f -> 0 <= i < 1024 -> H' f /\ m' (f + 4 * i) = rd (vmm v) (f + 4 * i)) ->
  common v D v' /\ (forall d t, 0 <= d < 768 -> 0 <= t < 1024 -> ent (rd (vmm v')) D d t = ent m' D d t) /\
  (forall f, loose v' D f <-> H' f /\ forall l, ~ part m' D l f).
Proof.
  intros [Hi Hc Hcr Hk Hh Hr Hd Hw] Hs Hdata.
  assert (same_tables m' (rd (vmm v')) D) as Hst by (eapply data_same_tables; [exact Hs|exact Hd]). split; [|split].
  - split; try done.
    + eapply space_same; [exact Hs|done|]. intros l f Hp. by apply Hh, (so_frame _ _ _ Hs l f).
    + intros f i Hf Hct Hi'. destruct (Hdata f i Hf Hct Hi') as [HH <-]. by apply Hd.
  - intros d t Hd1 Ht. by apply same_ent.
  - intros f. unfold loose. rewrite Hh. split; intros [HH Hn]; (split; [done|]); intros l Hp; apply (Hn l);
      [by apply (same_part m')|by apply (same_part m') in Hp].
Qed.

(** A call that did not change the tables. *)
Record unchanged v (D : Z) v' : Prop := {
  un_common : common v D v';
  un_room : room (vmm v') = room (vmm v);
  un_ent : forall d t, 0 <= d < 768 -> 0 <= t < 1024 -> ent (rd (vmm v')) D d t = ent (rd (vmm v)) D d t;
  un_loose : forall f, loose v' D f <-> loose v D f
}.

Lemma finished_same v D v' : space v D -> finished (vmm v) (cpu v) (client_held (vmm v)) (room (vmm v)) (rd (vmm v)) v' ->
  unchanged v D v'.
Proof.
  intros Hs Hf. destruct (finished_common v D _ _ _ v' Hf Hs) as (Hc & He & Hl); [by intros f i _ [? _] _|].
  split; [done|apply (dn_room _ _ _ _ _ _ Hf)|done|done].
Qed.

(** ** Entering and leaving *)

Lemma refused_ok {A} v g (X K : M (spaces F) A) (Q : A -> spaces F -> Prop) : idle v -> g = false ->
  (forall v', view (vmm v) (cpu v) (client_held (vmm v)) (room (vmm v)) (rd (vmm v)) None None v' -> wp K v' Q) ->
  wp (let! refused := orM (ret g) (notM acquire_window) in if refused : bool then X else K) v Q.
Proof.
  intros Hi -> HK. apply wp_bind, wp_orM, wp_ret, wp_notM, acquire_ok; [done|]. intros v' Hv. cbn [negb]. by apply HK.
Qed.

Lemma valid_ok D : page_address D -> valid_space (Some D) = true.
Proof.
  intros [Hr Ha]. unfold valid_space. change (PAGE_SIZE - 1) with 4095. rewrite land_low_4095, Ha.
  by rewrite (proj2 (Z.eqb_neq _ _)) by lia.
Qed.

Section call.
Context (k : Vmm.state F) (c : Cpu.state) (H : Z -> Prop) (r : Z) (m : Z -> Z) (D : Z).
Hypothesis Hc : Cpu.wf c.
Hypothesis HD : page_address D.

Lemma leave_directory_ok v (Q : unit -> spaces F -> Prop) : view k c H r m (Some D) None v ->
  (forall v', finished k c H r m v' -> Q tt v') -> wp (leave_directory D) v Q.
Proof.
  intros Hv HQ. unfold leave_directory. apply wp_bind. eapply view_unmap_dw; [done|done|]. intros v' Hv'. by eapply release_window_ok.
Qed.

Lemma leave_table_ok v T (Q : unit -> spaces F -> Prop) : page_address T -> view k c H r m (Some D) (Some T) v ->
  (forall v', finished k c H r m v' -> Q tt v') -> wp (leave_table D T) v Q.
Proof.
  intros HT Hv HQ. unfold leave_table. apply wp_bind. eapply view_unmap_tw; [done|done|]. intros v' Hv'. by eapply leave_directory_ok.
Qed.

Lemma refresh_ok v dw tw (Q : unit -> spaces F -> Prop) : view k c H r m dw tw v -> H D -> Q tt v -> wp (refresh_active_translation D) v Q.
Proof.
  intros Hv HH HQ. unfold refresh_active_translation, vmm_current_page_directory. apply wp_bind, wp_zoom, wp_gets.
  change (lget v) with (vmm v). rewrite (wf_init _ (vw_wf _ _ _ _ _ _ _ _ Hv)).
  rewrite cr3_masked by apply (wf_mmu _ (vw_wf _ _ _ _ _ _ _ _ Hv)).
  rewrite (proj2 (Z.eqb_neq _ _)).
  - replace (lset (vmm v) v) with v by (by destruct v). by apply wp_ret.
  - apply (vw_held _ _ _ _ _ _ _ _ Hv) in HH as (_ & ? & _). congruence.
Qed.

(** The end of a call that succeeded. *)
Lemma close_ok {A} v (x : A) (Q : A -> spaces F -> Prop) : view k c H r m (Some D) None v -> H D ->
  (forall v', finished k c H r m v' -> Q x v') ->
  wp (unmap_window DW D ;; refresh_active_translation D ;; release_window ;; ret x) v Q.
Proof.
  intros Hv HH HQ. apply wp_bind. eapply view_unmap_dw; [done|done|]. intros v1 Hv1.
  apply wp_bind. eapply refresh_ok; [done|done|]. apply wp_bind. eapply release_window_ok; [done|done|]. intros v2 Hv2. apply wp_ret. by apply HQ.
Qed.

Lemma enter_table_ok v d : view k c H r m None None v -> space_ok H m D -> 0 <= d < 768 ->
  wp (enter_table D d) v (fun o v' =>
    match o with
    | None => finished k c H r m v' /\ (0 <= r -> tab m D d = None)
    | Some T => tab m D d = Some T /\ view k c H r m (Some D) (Some T) v'
    end).
Proof.
  intros Hv Hs Hd. destruct (dir_page _ _ _ Hs) as [_ HH]. unfold enter_table. apply wp_bind.
  eapply wp_mono; [by apply view_map_dw|]. cbv beta. intros [] v1 [Hv1 Hr]; cbn [negb].
  2:{ apply wp_bind. eapply release_window_ok; [done|done|]. intros v2 Hv2. apply wp_ret. split; [done|]. intros Hr0. by specialize (Hr Hr0). }
  apply wp_bind. eapply view_load_dw; [done|done|done|lia|]. rewrite present_land.
  assert (tab m D d = if present (m (D + 4 * d)) then Some (entry_frame (m (D + 4 * d))) else None) as Et by done.
  destruct (present (m (D + 4 * d))) eqn:Ep; cbn [negb].
  2:{ apply wp_bind. eapply leave_directory_ok; [done|]. intros v2 Hv2. by apply wp_ret. }
  fold (entry_frame (m (D + 4 * d))). destruct (tab_page _ _ _ Hs d _ Hd Et) as (HT & HHT & _).
  apply wp_bind. eapply wp_mono; [by apply view_map_tw|]. cbv beta. intros ok v2 [-> Hv2]. cbn [negb]. by apply wp_ret.
Qed.

End call.

(** ** Query *)

Lemma decode_ent m D d t T : tab m D d = Some T -> ent m D d t = decode (m (T + 4 * t)).
Proof. intros E. unfold ent. by rewrite E. Qed.

Lemma query_ok v D p : idle v -> space v D -> user_va p ->
  wp (vmm_address_space_query (Some D) p) v (fun q v' => unchanged v D v' /\
    match q with
    | Some (pa, fl) => exists f, page_at v D p = Some (f, fl) /\ pa = f + p mod 4096
    | None => 0 <= room (vmm v) -> page_at v D p = None
    end).
Proof.
  intros Hi Hs Hp. destruct (dir_page _ _ _ Hs) as [HD HH]. destruct (user_index p Hp) as [Hd Ht].
  unfold vmm_address_space_query. cbv zeta. apply refused_ok; [done| |].
  { rewrite valid_ok by done. unfold user_va, KERNEL_BASE in *. cbn [negb orb]. lia. }
  intros v1 Hv1. change (directory_of (Some D)) with D. apply wp_bind.
  eapply wp_mono; [apply enter_table_ok; [apply Hi|done|done|done|done]|]. cbv beta. intros [T|] v2.
  2:{ intros [Hf Hn]. apply wp_ret. split; [by apply finished_same|]. intros Hr. unfold page_at, ent. by rewrite Hn. }
  intros [HT Hv2]. destruct (tab_page _ _ _ Hs _ T Hd HT) as (HTp & HHT & _).
  apply wp_bind. eapply view_load_tw; [done|done|done|done|]. rewrite present_land, negb_involutive.
  pose proof (decode_ent _ _ _ (table_index p) _ HT) as He. fold (page_at v D p) in He.
  set (e := rd (vmm v) (T + 4 * table_index p)) in *. unfold decode in He. destruct (present e) eqn:Ep.
  - apply wp_bind, wp_bind. eapply view_load_dw; [done|done|done|lia|]. rewrite (so_pde _ _ _ Hs _ T Hd HT). apply wp_ret.
    apply wp_bind. eapply leave_table_ok; [apply Hi|done|done|done|]. intros v3 Hf. apply wp_ret. split; [by apply finished_same|].
    exists (entry_frame e). destruct HTp as [_ HTa].
    assert (part (rd (vmm v)) D (LPage (dir_index p) (table_index p)) (entry_frame e)) as Hpart by (by eapply part_page).
    destruct (so_frame _ _ _ Hs _ _ Hpart) as [[? Hal] _]. change (PAGE_SIZE - 1) with 4095.
    rewrite !(land_aligned_add T 7) by (done || by vm_compute). cbn -[entry_frame]. split; [done|].
    change (Z.land e PAGE_MASK) with (entry_frame e). rewrite land_low_4095, lor_aligned; [done|lia|done|].
    apply Z.mod_pos_bound. lia.
  - apply wp_bind, wp_ret, wp_bind. eapply leave_table_ok; [apply Hi|done|done|done|]. intros v3 Hf. apply wp_ret.
    split; [by apply finished_same|done].
Qed.

(** ** The entries that are written *)

Lemma write_flag flags : Z.land flags PAGE_WRITABLE = 0 \/ Z.land flags PAGE_WRITABLE = 2.
Proof.
  unfold PAGE_WRITABLE, VMM_WRITABLE. change 2 with (2 ^ 1). destruct (Z.testbit flags 1) eqn:E.
  - right. apply Z.bits_inj'. intros i Hi. rewrite Z.land_spec, Z.pow2_bits_eqb by lia.
    destruct (Z.eqb_spec 1 i) as [<-|]; [by rewrite E|apply andb_false_r].
  - left. apply Z.bits_inj'. intros i Hi. rewrite Z.land_spec, Z.pow2_bits_eqb, Z.bits_0 by lia.
    destruct (Z.eqb_spec 1 i) as [<-|]; [by rewrite E|apply andb_false_r].
Qed.

Definition user_entry (f flags : Z) : Z := f + (5 + Z.land flags PAGE_WRITABLE).

Lemma user_entry_ok f flags : page_address f ->
  Z.lor (Z.lor (Z.lor f PAGE_PRESENT) PAGE_USER) (Z.land flags PAGE_WRITABLE) = user_entry f flags /\
  decode (user_entry f flags) = Some (f, 4 + Z.land flags PAGE_WRITABLE).
Proof.
  intros [Hr Ha]. unfold user_entry, decode, present. rewrite <-!Z.lor_assoc.
  destruct (write_flag flags) as [-> | ->]; rewrite !land_aligned_add by (done || by vm_compute);
    (split; [rewrite lor_aligned; [done|lia|done|vm_compute; naive_solver]|]);
    rewrite entry_frame_add, (land_aligned_add f _ 6) by (done || lia); done.
Qed.

Lemma at_indices p q d t : d = dir_index p -> t = table_index p -> user_va p -> user_va q -> p mod 4096 = 0 -> q mod 4096 = 0 ->
  (dir_index q =? d) && (table_index q =? t) = (q =? p).
Proof.
  intros -> -> Hp Hq Ha Hb. destruct (Z.eqb_spec q p) as [->|Hne]; [by rewrite !Z.eqb_refl|].
  destruct (Z.eqb_spec (dir_index q) (dir_index p)), (Z.eqb_spec (table_index q) (table_index p)); try done.
  destruct Hne. by apply user_page_inj.
Qed.

(** The pages after one of them was written. *)
Definition pages_set v (D p : Z) (x : option (Z * Z)) v' : Prop :=
  forall q, user_va q -> q mod 4096 = 0 -> page_at v' D q = if q =? p then x else page_at v D q.

(** ** Protect *)

Lemma protect_ok v D p flags : idle v -> space v D -> user_va p -> p mod 4096 = 0 -> flags = 0 \/ flags = VMM_WRITABLE ->
  wp (vmm_address_space_protect (Some D) p flags) v (fun ok v' =>
    if ok : bool then common v D v' /\ room (vmm v') = room (vmm v) /\ (forall f, loose v' D f <-> loose v D f) /\
      exists f fl, page_at v D p = Some (f, fl) /\ pages_set v D p (Some (f, 4 + flags)) v'
    else unchanged v D v' /\ (0 <= room (vmm v) -> page_at v D p = None)).
Proof.
  intros Hi Hs Hp Ha Hfl. destruct (dir_page _ _ _ Hs) as [HD HH]. destruct (user_index p Hp) as [Hd Ht].
  unfold vmm_address_space_protect. cbv zeta. apply refused_ok; [done| |].
  { rewrite valid_ok by done. unfold user_va, KERNEL_BASE in *. change (PAGE_SIZE - 1) with 4095. rewrite land_low_4095, Ha.
    rewrite (proj2 (Z.leb_gt _ _)) by lia. by destruct Hfl as [-> | ->]. }
  intros v1 Hv1. change (directory_of (Some D)) with D. apply wp_bind.
  eapply wp_mono; [apply enter_table_ok; [apply Hi|done|done|done|done]|]. cbv beta. intros [T|] v2.
  2:{ intros [Hf Hn]. apply wp_ret. split; [by apply finished_same|]. intros Hr. unfold page_at, ent. by rewrite Hn. }
  intros [HT Hv2]. destruct (tab_page _ _ _ Hs _ T Hd HT) as (HTp & HHT & _).
  apply wp_bind. eapply view_load_tw; [done|done|done|done|]. rewrite present_land.
  pose proof (decode_ent _ _ _ (table_index p) _ HT) as He. fold (page_at v D p) in He.
  set (e := rd (vmm v) (T + 4 * table_index p)) in *. unfold decode in He. destruct (present e) eqn:Ep; cbn [negb].
  2:{ apply wp_bind. eapply leave_table_ok; [apply Hi|done|done|done|]. intros v3 Hf. apply wp_ret. split; [by apply finished_same|done]. }
  assert (part (rd (vmm v)) D (LPage (dir_index p) (table_index p)) (entry_frame e)) as Hpart by (by eapply part_page).
  destruct (so_frame _ _ _ Hs _ _ Hpart) as [Hep Heh]. change (Z.land e PAGE_MASK) with (entry_frame e).
  destruct (user_entry_ok (entry_frame e) flags Hep) as [-> Hdec].
  assert (Z.land flags PAGE_WRITABLE = flags) as Ef by (by destruct Hfl as [-> | ->]). rewrite Ef in Hdec.
  apply wp_bind. eapply view_store_tw; [done|done|done|done|]. intros v3 Hv3. fold (wrote (rd (vmm v)) (table_index p) T (user_entry (entry_frame e) flags)) in Hv3.
  apply wp_bind. eapply view_unmap_tw; [done|done|]. intros v4 Hv4. eapply close_ok; [apply Hi|done|done|done|]. intros v5 Hf.
  destruct (finished_common v D _ _ _ v5 Hf) as (Hcm & Hent & Hl).
  - eapply wrote_ok; [done|done|done|done|]. intros f fl E. rewrite Hdec in E. injection E as <- <-. split; [done|]. split; [done|].
    split; [by destruct Hfl as [-> | ->]; auto|]. intros l Hl. by eapply so_inj.
  - intros f i [_ Hfa] (Hfh & _ & Hft) Hr. split; [done|]. unfold wrote, upd. destruct HTp as [_ ?].
    rewrite (proj2 (Z.eqb_neq _ _)); [done|]. specialize (Hft (dir_index p) Hd). word_ne.
  - split; [done|]. split; [apply (dn_room _ _ _ _ _ _ Hf)|]. split.
    + intros f. rewrite Hl. unfold loose. split; intros [Hh Hn]; (split; [done|]); intros l Hpl; apply (Hn l).
      * apply (wrote_part _ _ _ Hs _ _ _ _ Hd Ht HT). destruct (decide (l = LPage (dir_index p) (table_index p))) as [->|]; [|by left].
        right. split; [done|]. exists (4 + flags). rewrite Hdec. inversion Hpl as [|?|? ? ? ? ? ? E]; subst. unfold page_at in He. congruence.
      * apply (wrote_part _ _ _ Hs _ _ _ _ Hd Ht HT) in Hpl as [[? _]|[-> [fl E]]]; [done|]. rewrite Hdec in E. injection E as <- _. done.
    + exists (entry_frame e), (Z.land e 6). split; [done|]. intros q Hq Hqa. unfold page_at. destruct (user_index q Hq).
      rewrite Hent, (wrote_ent _ _ _ Hs _ _ _ _ Hd Ht HT), Hdec by done. by rewrite (at_indices p q).
Qed.

(** ** Map *)

Definition mapped v (D p f flags : Z) v' : Prop :=
  common v D v' /\ page_at v D p = None /\ pages_set v D p (Some (f, 4 + Z.land flags PAGE_WRITABLE)) v' /\
  (forall g, loose v' D g <-> loose v D g /\ g <> f).

Section map.
Context (v : spaces F) (D p f flags : Z).
Hypothesis Hi : idle v.
Hypothesis Hs : space v D.
Hypothesis Hp : user_va p.
Hypothesis Ha : p mod 4096 = 0.
Hypothesis Hf : page_address f.
Hypothesis Hl : loose v D f.

Abbreviation di := (dir_index p).
Abbreviation ti := (table_index p).

(** The memory [m1] has a table [T] for the page and otherwise shows the space
    as it was. *)
Record prepared (H1 : Z -> Prop) (m1 : Z -> Z) (T : Z) : Prop := {
  pr_ok : space_ok H1 m1 D;
  pr_tab : tab m1 D di = Some T;
  pr_ent : forall d t, 0 <= d < 768 -> 0 <= t < 1024 -> ent m1 D d t = ent (rd (vmm v)) D d t;
  pr_loose : forall g, (H1 g /\ forall l, ~ part m1 D l g) <-> loose v D g;
  pr_content : forall g i, page_address g -> content v D g -> 0 <= i < 1024 -> H1 g /\ m1 (g + 4 * i) = rd (vmm v) (g + 4 * i);
  pr_table : forall g, content v D g -> g <> T
}.

Lemma prepared_old T : tab (rd (vmm v)) D di = Some T -> prepared (client_held (vmm v)) (rd (vmm v)) T.
Proof.
  intros HT. destruct (user_index p Hp) as [Hd _]. split; try done.
  - by intros g i _ [? _] _.
  - intros g (_ & _ & Hg) ->. by apply (Hg di).
Qed.

Lemma prepared_new T m' : tab (rd (vmm v)) D di = None -> page_address T -> ~ client_held (vmm v) T ->
  (forall b i, page_address b -> client_held (vmm v) b -> 0 <= i < 1024 -> m' (b + 4 * i) = rd (vmm v) (b + 4 * i)) ->
  prepared (fun b => client_held (vmm v) b \/ b = T) (added m' D di T) T.
Proof.
  intros Hn HT HnT Hm. destruct (user_index p Hp) as [Hd _].
  assert (same_tables (rd (vmm v)) m' D) as Hst by (by eapply data_same_tables).
  assert (space_ok (client_held (vmm v)) m' D) as Hs'.
  { eapply space_same; [exact Hs|done|]. intros l g Hg. by eapply so_frame. }
  assert (tab m' D di = None) as Hn' by (by rewrite (same_tab _ _ _ _ Hst)).
  split.
  - by apply added_ok.
  - erewrite added_tab, Z.eqb_refl; done.
  - intros d t Hd' Ht'. erewrite added_ent by done. by apply same_ent.
  - intros g. unfold loose. split.
    + intros [Hg Hno]. assert (g <> T) as HgT.
      { intros ->. apply (Hno (LTab di)). eapply added_part; try done. by right. }
      split; [by destruct Hg|]. intros l Hlp. apply (Hno l). eapply added_part; try done. left. by apply (same_part _ _ _ _ _ Hst).
    + intros [Hg Hno]. split; [by left|]. intros l Hlp. eapply added_part in Hlp as [Hlp|[_ ->]]; try done.
      apply (Hno l). by apply (same_part _ _ _ _ _ Hst).
  - intros g i Hga (Hg & HgD & _) Hr. split; [by left|]. erewrite added_other; try done; [by apply Hm|by intros ->|by intros [? _]].
  - by intros g [Hg _] ->.
Qed.

Lemma map_tail_ok v1 H1 r1 m1 T : prepared H1 m1 T -> page_at v D p = None ->
  view (vmm v) (cpu v) H1 r1 m1 (Some D) (Some T) v1 ->
  wp (store TW ti (Z.lor (Z.lor (Z.lor f PAGE_PRESENT) PAGE_USER) (Z.land flags PAGE_WRITABLE)) ;;
      unmap_window TW T ;; unmap_window DW D ;; refresh_active_translation D ;; release_window ;; ret true) v1
    (fun ok v' => ok = true /\ mapped v D p f flags v' /\ room (vmm v') = r1).
Proof.
  intros [Hs1 HT Hent Hlo Hct Hne] Hn Hv. destruct (dir_page _ _ _ Hs1) as [HD HHD]. destruct (user_index p Hp) as [Hd Ht].
  destruct (tab_page _ _ _ Hs1 _ T Hd HT) as (HTp & HHT & _). destruct (user_entry_ok f flags Hf) as [-> Hdec].
  apply wp_bind. eapply view_store_tw; [done|done|done|done|]. intros v2 Hv2. fold (wrote m1 ti T (user_entry f flags)) in Hv2.
  apply wp_bind. eapply view_unmap_tw; [done|done|]. intros v3 Hv3. eapply close_ok; [apply Hi|done|done|done|]. intros v4 Hfin.
  destruct (proj2 (Hlo f) Hl) as [HHf Hnf].
  destruct (finished_common v D _ _ _ v4 Hfin) as (Hcm & Hent' & Hl').
  - eapply wrote_ok; [done|done|done|done|]. intros g fl E. rewrite Hdec in E. injection E as <- <-. split; [done|]. split; [done|].
    split; [by destruct (write_flag flags) as [-> | ->]; auto|]. intros l Hlp. by destruct (Hnf l).
  - intros g i Hg Hgc Hr. destruct (Hct g i Hg Hgc Hr) as [HHg Em]. split; [done|]. rewrite <-Em. unfold wrote, upd.
    destruct HTp as [_ ?], Hg as [_ ?]. specialize (Hne g Hgc). rewrite (proj2 (Z.eqb_neq _ _)); [done|]. word_ne.
  - split; [done|]. split; [|apply (dn_room _ _ _ _ _ _ Hfin)]. split; [done|]. split; [done|]. split.
    + intros q Hq Hqa. unfold page_at. destruct (user_index q Hq).
      rewrite Hent', (wrote_ent _ _ _ Hs1 _ _ _ _ Hd Ht HT), Hdec, Hent by done. by rewrite (at_indices p q).
    + intros g. rewrite Hl', <-Hlo. split.
      * intros [Hg Hno]. assert (g <> f) as Hgf.
        { intros ->. apply (Hno (LPage di ti)). apply (wrote_part _ _ _ Hs1 _ _ _ _ Hd Ht HT). right. rewrite Hdec. split; [done|by eexists]. }
        split; [|done]. split; [done|]. intros l Hlp. apply (Hno l). apply (wrote_part _ _ _ Hs1 _ _ _ _ Hd Ht HT). left. split; [done|].
        intros ->. inversion Hlp as [|?|? ? ? ? ? ? E]; subst. rewrite Hent in E by done. unfold page_at in Hn. congruence.
      * intros [[Hg Hno] Hgf]. split; [done|]. intros l Hlp.
        apply (wrote_part _ _ _ Hs1 _ _ _ _ Hd Ht HT) in Hlp as [[Hlp _]|[-> [fl E]]]; [by apply (Hno l)|]. rewrite Hdec in E. congruence.
Qed.

Lemma find_table_ok v1 r :
  view (vmm v) (cpu v) (client_held (vmm v)) r (rd (vmm v)) (Some D) None v1 ->
  wp (find_table di) v1 (fun o v2 =>
    match o with
    | None => r <= 0 /\ view (vmm v) (cpu v) (client_held (vmm v)) r (rd (vmm v)) (Some D) None v2
    | Some (T, false) => tab (rd (vmm v)) D di = Some T /\ view (vmm v) (cpu v) (client_held (vmm v)) r (rd (vmm v)) (Some D) None v2
    | Some (T, true) => tab (rd (vmm v)) D di = None /\ page_address T /\ ~ client_held (vmm v) T /\
        exists m', (forall b i, page_address b -> client_held (vmm v) b -> 0 <= i < 1024 -> m' (b + 4 * i) = rd (vmm v) (b + 4 * i)) /\
          view (vmm v) (cpu v) (fun b => client_held (vmm v) b \/ b = T) (r - 1) m' (Some D) None v2
    end).
Proof.
  intros Hv. destruct (dir_page _ _ _ Hs) as [HD HHD]. destruct (user_index p Hp) as [Hd _]. unfold find_table.
  apply wp_bind. eapply view_load_dw; [done|done|done|lia|]. rewrite present_land.
  assert (tab (rd (vmm v)) D di = if present (rd (vmm v) (D + 4 * di)) then Some (entry_frame (rd (vmm v) (D + 4 * di))) else None) as Et by done.
  destruct (present (rd (vmm v) (D + 4 * di))); cbn [negb]; [by apply wp_ret|].
  apply wp_bind. eapply wp_mono; [by apply view_alloc|]. cbv beta. intros T v2 [(-> & Hr & ->)|(HT & HnT & m' & Hm & Hv2)].
  - by apply wp_ret.
  - rewrite (proj2 (Z.eqb_neq T 0)) by (destruct HT; lia). apply wp_ret. split; [done|]. split; [done|]. split; [done|]. by exists m'.
Qed.

Lemma map_ok : wp (vmm_address_space_map (Some D) p f flags) v (fun ok v' =>
    if ok : bool then mapped v D p f flags v' /\ room (vmm v) - 1 <= room (vmm v') <= room (vmm v)
    else unchanged v D v' /\ (1 <= room (vmm v) -> page_at v D p <> None)).
Proof.
  destruct (dir_page _ _ _ Hs) as [HD HHD]. destruct (user_index p Hp) as [Hd Ht]. pose proof Hf as [Hfr Hfa].
  unfold vmm_address_space_map. cbv zeta. apply refused_ok; [done| |].
  { rewrite valid_ok by done. unfold user_va, KERNEL_BASE in *. change (PAGE_SIZE - 1) with 4095. rewrite !land_low_4095, Ha, Hfa.
    rewrite (proj2 (Z.leb_gt _ _)), (proj2 (Z.eqb_neq f 0)) by lia. done. }
  intros v1 Hv1. change (directory_of (Some D)) with D. apply wp_bind.
  eapply wp_mono; [by apply view_map_dw|]. cbv beta. intros [] v2 [Hv2 Hr]; cbn [negb].
  2:{ apply wp_bind. eapply release_window_ok; [apply Hi|done|]. intros v3 Hf3. apply wp_ret. split; [by apply finished_same|].
      intros H1. by specialize (Hr ltac:(lia)). }
  apply wp_bind. eapply wp_mono; [by apply find_table_ok|]. cbv beta. intros [[T []]|] v3.
  - intros (Hn & HT & HnT & m' & Hm & Hv3). pose proof (prepared_new T m' Hn HT HnT Hm) as Hpr.
    apply wp_bind. eapply wp_mono; [by apply view_map_tw|]. cbv beta. intros ok v4 [-> Hv4]. cbn [negb].
    assert (page_at v D p = None) as Hpn by (unfold page_at, ent; by rewrite Hn).
    apply wp_bind, wp_bind. eapply (view_zero false); [exact Hv4|done|done|by right|]. intros v5 Hv5.
    eapply view_store_dw; [exact Hv5|done|by left|lia|]. intros v6 Hv6.
    replace (Z.lor (Z.lor (Z.lor T PAGE_PRESENT) PAGE_WRITABLE) PAGE_USER) with (T + 7) in Hv6.
    2:{ rewrite <-!Z.lor_assoc, lor_aligned; [done|destruct HT; lia|apply HT|by vm_compute]. }
    fold (added m' D di T) in Hv6. apply wp_bind. eapply view_load_tw; [exact Hv6|done|by right|done|].
    pose proof (pr_ent _ _ _ Hpr di ti Hd Ht) as He. rewrite (decode_ent _ _ _ _ _ (pr_tab _ _ _ Hpr)) in He.
    fold (page_at v D p) in He. rewrite Hpn in He. unfold decode in He. rewrite present_land.
    destruct (present (added m' D di T (T + 4 * ti))); [done|]. cbn [negb].
    eapply wp_mono; [eapply map_tail_ok; [exact Hpr|done|exact Hv6]|]. cbv beta. intros ok v7 (-> & Hmp & Hrm). split; [done|]. lia.
  - intros [HT Hv3]. pose proof (prepared_old T HT) as Hpr. destruct (tab_page _ _ _ Hs _ T Hd HT) as (HTp & HHT & _).
    apply wp_bind. eapply wp_mono; [by apply view_map_tw|]. cbv beta. intros ok v4 [-> Hv4]. cbn [negb].
    apply wp_bind, wp_ret, wp_bind. eapply view_load_tw; [done|done|done|done|]. rewrite present_land, negb_involutive.
    pose proof (decode_ent _ _ _ ti _ HT) as He. fold (page_at v D p) in He. unfold decode in He.
    destruct (present (rd (vmm v) (T + 4 * ti))).
    + apply wp_bind, wp_ret, wp_bind. eapply view_unmap_tw; [done|done|]. intros v5 Hv5. apply wp_bind. eapply view_unmap_dw; [done|done|].
      intros v6 Hv6. apply wp_bind, wp_ret, wp_bind. eapply release_window_ok; [apply Hi|done|]. intros v7 Hf7. apply wp_ret.
      split; [by apply finished_same|]. intros _. by rewrite He.
    + eapply wp_mono; [eapply map_tail_ok; [exact Hpr|done|exact Hv4]|]. cbv beta. intros ok v7 (-> & Hmp & Hrm). split; [done|]. lia.
  - intros [Hr0 Hv3]. apply wp_bind. eapply leave_directory_ok; [apply Hi|done|done|]. intros v4 Hf4. apply wp_ret.
    split; [by apply finished_same|]. lia.
Qed.

End map.

(** ** Unmap *)

Lemma table_scan_ok k c H r m D d T v : view k c H r m (Some D) (Some T) v -> space_ok H m D -> 0 <= d < 768 -> tab m D d = Some T ->
  wp (for_until 1024 0 (fun index =>
        let! e := load TW index in
        ret (if negb (Z.land e PAGE_PRESENT =? 0) then Some tt else None))) v (fun u v' =>
    v' = v /\ match u with Some _ => True | None => forall t, 0 <= t < 1024 -> ent m D d t = None end).
Proof.
  intros Hv Hs Hd HT. destruct (tab_page _ _ _ Hs d T Hd HT) as (HTp & HHT & _).
  apply (wp_for_until (fun n v' => v' = v /\ forall t, 0 <= t < n -> ent m D d t = None)).
  - split; [done|lia].
  - intros n v' Hn [-> Hz]. apply wp_bind. eapply view_load_tw; [done|done|done|lia|]. rewrite present_land, negb_involutive. apply wp_ret.
    destruct (present (m (T + 4 * n))) eqn:Ep; [done|]. split; [done|]. intros t Ht.
    destruct (decide (t = n)) as [->|]; [|apply Hz; lia]. rewrite (decode_ent _ _ _ _ _ HT). unfold decode. by rewrite Ep.
  - intros v' [-> Hz]. split; [done|]. intros t Ht. apply Hz. lia.
Qed.

Definition unmapped v (D p f : Z) v' : Prop :=
  common v D v' /\ (exists fl, page_at v D p = Some (f, fl)) /\ pages_set v D p None v' /\
  (forall g, loose v' D g <-> loose v D g \/ g = f).

Lemma unmap_ok v D p : idle v -> space v D -> user_va p -> p mod 4096 = 0 ->
  wp (vmm_address_space_unmap (Some D) p) v (fun q v' =>
    match q with
    | Some f => unmapped v D p f v' /\ room (vmm v) <= room (vmm v')
    | None => unchanged v D v' /\ (0 <= room (vmm v) -> page_at v D p = None)
    end).
Proof.
  intros Hi Hs Hp Ha. destruct (dir_page _ _ _ Hs) as [HD HH]. destruct (user_index p Hp) as [Hd Ht].
  unfold vmm_address_space_unmap. cbv zeta. apply refused_ok; [done| |].
  { rewrite valid_ok by done. unfold user_va, KERNEL_BASE in *. change (PAGE_SIZE - 1) with 4095. rewrite land_low_4095, Ha.
    by rewrite (proj2 (Z.leb_gt _ _)) by lia. }
  intros v1 Hv1. change (directory_of (Some D)) with D. apply wp_bind.
  eapply wp_mono; [apply enter_table_ok; [apply Hi|done|done|done|done]|]. cbv beta. intros [T|] v2.
  2:{ intros [Hf Hn]. apply wp_ret. split; [by apply finished_same|]. intros Hr. unfold page_at, ent. by rewrite Hn. }
  intros [HT Hv2]. destruct (tab_page _ _ _ Hs _ T Hd HT) as (HTp & HHT & HTD).
  apply wp_bind. eapply view_load_tw; [done|done|done|done|]. rewrite present_land.
  pose proof (decode_ent _ _ _ (table_index p) _ HT) as He. fold (page_at v D p) in He.
  set (e := rd (vmm v) (T + 4 * table_index p)) in *. unfold decode in He. destruct (present e) eqn:Ep; cbn [negb].
  2:{ apply wp_bind. eapply leave_table_ok; [apply Hi|done|done|done|]. intros v3 Hf. apply wp_ret. split; [by apply finished_same|done]. }
  apply wp_bind. eapply view_store_tw; [done|done|done|done|]. intros v3 Hv3. set (m1 := wrote (rd (vmm v)) (table_index p) T 0).
  change (upd _ _ 0) with m1 in Hv3. change (Z.land e PAGE_MASK) with (entry_frame e).
  assert (part (rd (vmm v)) D (LPage (dir_index p) (table_index p)) (entry_frame e)) as Hpart by (by eapply part_page).
  assert (space_ok (client_held (vmm v)) m1 D) as Hs1 by (by eapply wrote_ok; [..|intros f fl [=]]).
  assert (tab m1 D (dir_index p) = Some T) as HT1 by (unfold m1; by erewrite wrote_tab).
  pose proof (wrote_ent _ _ _ Hs (dir_index p) (table_index p) T 0 Hd Ht HT) as Hent1. fold m1 in Hent1.
  pose proof (wrote_part _ _ _ Hs (dir_index p) (table_index p) T 0 Hd Ht HT) as Hpart1. fold m1 in Hpart1.
  assert (forall l f, part m1 D l f <-> part (rd (vmm v)) D l f /\ l <> LPage (dir_index p) (table_index p)) as Hp1.
  { intros l f. rewrite Hpart1. split; [intros [?|[_ [fl [=]]]]; done|by left]. }
  assert (forall f i, page_address f -> content v D f -> 0 <= i < 1024 -> f <> T /\ m1 (f + 4 * i) = rd (vmm v) (f + 4 * i)) as Hdata.
  { intros f i [_ ?] (_ & _ & Hft) Hr. specialize (Hft _ Hd). assert (f <> T) by congruence. split; [done|]. unfold m1, wrote, upd.
    destruct HTp as [_ ?]. rewrite (proj2 (Z.eqb_neq _ _)); [done|]. word_ne. }
  assert (forall H' r' m' v', finished (vmm v) (cpu v) H' r' m' v' -> space_ok H' m' D ->
    (forall f i, page_address f -> content v D f -> 0 <= i < 1024 -> H' f /\ m' (f + 4 * i) = rd (vmm v) (f + 4 * i)) ->
    (forall d t, 0 <= d < 768 -> 0 <= t < 1024 -> ent m' D d t = ent m1 D d t) ->
    (forall g, (H' g /\ forall l, ~ part m' D l g) <-> client_held (vmm v) g /\ forall l, ~ part m1 D l g) ->
    unmapped v D p (entry_frame e) v') as Hend.
  { intros H' r' m' v' Hf Hsp Hct Het Hlo. destruct (finished_common v D _ _ _ v' Hf Hsp Hct) as (Hcm & Hent & Hl).
    split; [done|]. split; [by eexists|]. split.
    - intros q Hq Hqa. unfold page_at. destruct (user_index q Hq). rewrite Hent, Het, Hent1 by done. by rewrite (at_indices p q).
    - intros g. rewrite Hl, Hlo. split.
      + intros [Hg Hno]. destruct (Z.eqb_spec g (entry_frame e)); [by right|left]. split; [done|]. intros l Hlp.
        apply (Hno l), Hp1. split; [done|]. intros ->. inversion Hlp as [|?|? ? ? ? ? ? E]; subst. unfold page_at in He. congruence.
      + intros [[Hg Hno]| ->]; [split; [done|]; intros l [Hlp _]%Hp1; by apply (Hno l)|].
        split; [by apply (so_frame _ _ _ Hs _ _ Hpart)|]. intros l [Hlp Hne]%Hp1. apply Hne. by apply (so_inj _ _ _ Hs l _ (entry_frame e)). }
  apply wp_bind. eapply wp_mono; [by eapply table_scan_ok|]. cbv beta. intros u v4 [-> Hu].
  apply wp_bind. eapply view_unmap_tw; [done|done|]. intros v5 Hv5. apply wp_bind. destruct u as [[]|].
  - apply wp_ret. eapply close_ok; [apply Hi|done|done|done|]. intros v6 Hf. split; [|by rewrite (dn_room _ _ _ _ _ _ Hf)].
    eapply Hend; try done. intros f i Hfa Hfc Hr. split; [apply Hfc|by apply Hdata].
  - apply wp_bind. eapply view_store_dw; [done|done|done|lia|]. intros v6 Hv6. fold (removed m1 D (dir_index p)) in Hv6.
    apply wp_bind. eapply wp_mono; [by apply view_free|]. cbv beta. intros ok v7 [-> Hv7]. cbn [negb]. apply wp_ret.
    eapply close_ok; [apply Hi|done|done|by split; [|by intros ->]|]. intros v8 Hf.
    split; [|rewrite (dn_room _ _ _ _ _ _ Hf); lia]. eapply Hend; [exact Hf|by eapply removed_ok| | |].
    + intros f i Hfa Hfc Hr. destruct (Hdata f i Hfa Hfc Hr) as [HfT Hfm]. split; [by split; [apply Hfc|]|].
      erewrite removed_other; try done. intros [-> _]. by destruct Hfc as (_ & ? & _).
    + intros d t Hd' Ht'. by eapply removed_ent.
    + intros g. split.
      * intros [[Hg HgT] Hno]. split; [done|]. intros l Hlp. apply (Hno l). eapply removed_part; try done. split; [done|]. intros ->.
        inversion Hlp as [|? ? ? E|]; subst. congruence.
      * intros [Hg Hno]. split.
        -- split; [done|]. intros ->. apply (Hno (LTab (dir_index p))). by apply part_tab.
        -- intros l Hlp. eapply removed_part in Hlp as [Hlp _]; try done. by apply (Hno l).
Qed.

End spec.
End AddressSpaceSpec.
