(* ===== verification/AddressSpaceLife.v ===== *)
(** * Creating, activating and destroying an address space

    A new space is empty and shares the kernel's part of the directory;
    activating one makes its pages the user pages of the processor and leaves the
    kernel's mappings as they were; destroying one returns every frame it was
    made of, each exactly once. *)

From S2P Require Import Prelude Monad Interfaces Cpu Vmm VmmSpec AddressSpace AddressSpaceWindow AddressSpaceTables AddressSpaceSpec.

Module AddressSpaceLife.
Import Vmm AddressSpace AddressSpaceWindow AddressSpaceTables AddressSpaceSpec.

Section life.
Context {F : Type} `{!FrameAllocator F}.
Implicit Types (v : spaces F) (G : label -> Prop).

(** ** Destroying *)

Lemma part_fun m D l f f' : part m D l f -> part m D l f' -> f = f'.
Proof. intros H1 H2. inversion H1; subst; inversion H2; subst; congruence. Qed.

Section destroy.
Context (v : spaces F) (D : Z).
Hypothesis Hi : idle v.
Hypothesis Hs : space v D.

Abbreviation was := (part (rd (vmm v)) D).

(** The parts in [G] have been given back; [H] and [m] are what is left. *)
Record dismantled G (H : Z -> Prop) (m : Z -> Z) : Prop := {
  di_ok : space_ok H m D;
  di_part : forall l f, part m D l f <-> was l f /\ ~ G l;
  di_held : forall f, H f <-> client_held (vmm v) f /\ forall l, G l -> ~ was l f;
  di_data : forall f i, page_address f -> content v D f -> 0 <= i < 1024 -> m (f + 4 * i) = rd (vmm v) (f + 4 * i)
}.

Definition with_label G (l0 : label) : label -> Prop := fun l => G l \/ l = l0.

Lemma dismantled_ext G G' H m : (forall l f, was l f -> G l <-> G' l) -> dismantled G H m -> dismantled G' H m.
Proof.
  intros HG [Hok Hp Hh Hd]. split; [done| | |done].
  - intros l f. rewrite Hp. split; intros [? Hn]; (split; [done|]); by rewrite (HG l f) in *.
  - intros f. rewrite Hh. split; intros [? Hn]; (split; [done|]); intros l Hl Hw; (eapply Hn; [|exact Hw]); by eapply HG.
Qed.

(** A label nothing has can be counted as given back. *)
Lemma dismantled_absent G H m l0 : dismantled G H m -> (forall f, ~ part m D l0 f) -> dismantled (with_label G l0) H m.
Proof.
  intros [Hok Hp Hh Hd] Hno. assert (forall f, was l0 f -> ~ G l0 -> False) as Hn by (intros f Hw Hg; by apply (Hno f), Hp).
  split; [done| | |done].
  - intros l f. rewrite Hp. split; intros [Hw Hg]; (split; [done|]).
    + intros [?| ->]; [done|]. by eapply Hn.
    + intros ?. apply Hg. by left.
  - intros f. rewrite Hh. split; intros [Hf Hg]; (split; [done|]); intros l Hl Hw.
    + destruct Hl as [Hl| ->]; [by apply (Hg l)|]. eapply (Hn f Hw). intros Hl. by apply (Hg l0).
    + apply (Hg l); [by left|done].
Qed.

(** Taking one part out of the structure and returning its frame. *)
Lemma dismantled_step G H m m' l0 f0 :
  dismantled G H m -> part m D l0 f0 -> l0 <> LDir ->
  space_ok H m' D -> (forall l f, part m' D l f <-> part m D l f /\ l <> l0) ->
  (forall f i, page_address f -> content v D f -> 0 <= i < 1024 -> m' (f + 4 * i) = m (f + 4 * i)) ->
  dismantled (with_label G l0) (fun f => H f /\ f <> f0) m'.
Proof.
  intros [Hok Hp Hh Hd] H0 Hnd Hok' Hp' Hd'. pose proof (proj1 (Hp l0 f0) H0) as [Hw0 Hg0]. split.
  - eapply space_same; [exact Hok'|by split|]. intros l f Hl. split; [by eapply so_frame|]. intros ->.
    apply Hp' in Hl as [Hl Hne]. by apply Hne, (so_inj _ _ _ Hok _ _ f0).
  - intros l f. rewrite Hp', Hp. unfold with_label. naive_solver.
  - intros f. rewrite Hh. split.
    + intros [[Hf Hg] Hne]. split; [done|]. intros l [Hl| ->] Hw; [by apply (Hg l)|]. by apply Hne, (part_fun _ _ _ _ _ Hw).
    + intros [Hf Hg]. split; [split; [done|]; intros l Hl; apply Hg; by left|]. intros ->. by apply (Hg l0); [right|].
  - intros f i Hf Hc Hr. rewrite Hd' by done. by apply Hd.
Qed.

Lemma dismantled_none : dismantled (fun _ => False) (client_held (vmm v)) (rd (vmm v)).
Proof. split; try done; [intros l f; naive_solver|intros f; naive_solver]. Qed.

Abbreviation V H r m := (view (vmm v) (cpu v) H r m (Some D)).

(** Before the entry [j] of table [n]. *)
Definition gone (n j : Z) (l : label) : Prop :=
  match l with LDir => False | LTab d => d < n | LPage d t => d < n \/ d = n /\ t < j end.

Lemma content_table G H m d T f : dismantled G H m -> 0 <= d < 768 -> tab m D d = Some T -> content v D f -> f <> T.
Proof.
  intros Hdi Hd HT (_ & _ & Hc) ->. apply (Hc d Hd). pose proof (part_tab m D d T Hd HT) as Hp.
  apply (di_part _ _ _ Hdi) in Hp as [Hp _]. by inversion Hp.
Qed.

Lemma release_page_ok v1 H r m n j T : 0 <= n < 768 -> 0 <= j < 1024 -> dismantled (gone n j) H m -> tab m D n = Some T ->
  V H r m (Some T) v1 ->
  wp (release_page j) v1 (fun _ v2 => exists H' r' m', r <= r' /\ dismantled (gone n (j + 1)) H' m' /\ tab m' D n = Some T /\ V H' r' m' (Some T) v2).
Proof.
  intros Hn Hj Hdi HT Hv. pose proof (di_ok _ _ _ Hdi) as Hok. destruct (tab_page _ _ _ Hok n T Hn HT) as (HTp & HHT & _).
  assert (forall l f, was l f -> with_label (gone n j) (LPage n j) l <-> gone n (j + 1) l) as Hext.
  { intros l f Hw. unfold with_label, gone. destruct l as [|d|d t]; split; intros; try naive_solver lia.
    destruct (decide (d = n /\ t = j)) as [[-> ->]|]; [by right|left; lia]. }
  unfold release_page. apply wp_bind. eapply view_load_tw; [done|done|done|done|]. rewrite present_land, negb_involutive.
  pose proof (decode_ent _ _ _ j _ HT) as He. unfold decode in He. set (e := m (T + 4 * j)) in *.
  destruct (present e) eqn:Ep.
  - assert (part m D (LPage n j) (entry_frame e)) as Hpart by (by eapply part_page).
    destruct (so_frame _ _ _ Hok _ _ Hpart) as [Hf HHf].
    apply wp_bind. eapply view_store_tw; [done|done|done|done|]. intros v2 Hv2. fold (wrote m j T 0) in Hv2.
    apply wp_bind. change (Z.land e PAGE_MASK) with (entry_frame e). eapply wp_mono; [by apply view_free|]. cbv beta.
    intros ok v3 [-> Hv3]. cbn [negb]. apply wp_ret. exists (fun b => H b /\ b <> entry_frame e), (r + 1), (wrote m j T 0).
    split; [lia|]. split; [|split; [by erewrite wrote_tab|done]]. eapply dismantled_ext; [exact Hext|].
    eapply dismantled_step; [exact Hdi|exact Hpart|done|by eapply wrote_ok; [..|intros ? ? [=]]| |].
    + intros l f. rewrite (wrote_part _ _ _ Hok n j T 0 Hn Hj HT). split; [intros [?|[_ [fl [=]]]]; done|by left].
    + intros f i [_ ?] Hc Hr. pose proof (content_table _ _ _ _ _ _ Hdi Hn HT Hc). destruct HTp as [_ ?]. unfold wrote, upd.
      rewrite (proj2 (Z.eqb_neq _ _)); [done|]. word_ne.
  - apply wp_ret. exists H, r, m. split; [lia|]. split; [|done]. eapply dismantled_ext; [exact Hext|].
    apply dismantled_absent; [done|]. intros f Hp. inversion Hp; subst. congruence.
Qed.

Lemma release_table_ok v1 H r m n : 0 <= n < 768 -> dismantled (gone n 0) H m -> V H r m None v1 ->
  wp (release_table n) v1 (fun _ v2 => exists H' r' m', r <= r' /\ dismantled (gone (n + 1) 0) H' m' /\ V H' r' m' None v2).
Proof.
  intros Hn Hdi Hv. pose proof (di_ok _ _ _ Hdi) as Hok. destruct (dir_page _ _ _ Hok) as [HD HHD].
  unfold release_table. apply wp_bind. eapply view_load_dw; [done|done|done|lia|]. rewrite present_land.
  assert (tab m D n = if present (m (D + 4 * n)) then Some (entry_frame (m (D + 4 * n))) else None) as Et by done.
  destruct (present (m (D + 4 * n))) eqn:Ep; cbn [negb].
  2:{ apply wp_ret. exists H, r, m. split; [lia|]. split; [|done]. eapply dismantled_ext; [|exact Hdi]. intros l f Hw.
      assert (tab (rd (vmm v)) D n = None) as Etw.
      { destruct (tab (rd (vmm v)) D n) as [T|] eqn:E; [|done]. pose proof (part_tab _ _ _ _ Hn E) as Hp.
        assert (part m D (LTab n) T) as Hpm by (apply (di_part _ _ _ Hdi); split; [done|]; cbn; lia). inversion Hpm; congruence. }
      unfold gone. destruct l as [|d|d t]; [done|..].
      - split; [lia|]. intros Hl. inversion Hw; subst. destruct (decide (d = n)) as [->|]; [congruence|lia].
      - inversion Hw as [|?|? ? ? ? Hdr Htr E]; subst. destruct (decide (d = n)) as [->|]; [unfold ent in E; by rewrite Etw in E|]. lia. }
  change (Z.land (m (D + 4 * n)) PAGE_MASK) with (entry_frame (m (D + 4 * n))). set (T := entry_frame (m (D + 4 * n))) in *.
  destruct (tab_page _ _ _ Hok n T Hn Et) as (HTp & HHT & HTD).
  apply wp_bind. eapply wp_mono; [by apply view_map_tw|]. cbv beta. intros ok v2 [-> Hv2]. cbn [negb]. apply wp_bind.
  apply (wp_for_range (fun j v' => exists H' r' m', r <= r' /\ dismantled (gone n j) H' m' /\ tab m' D n = Some T /\ V H' r' m' (Some T) v')).
  - by exists H, r, m.
  - intros j v3 Hj (H' & r' & m' & Hr & Hdi' & HT' & Hv3). eapply wp_mono; [eapply release_page_ok; try done; lia|]. cbv beta.
    intros _ v4 (H2 & r2 & m2 & ? & ? & ? & ?). exists H2, r2, m2. split; [lia|done].
  - change (0 + Z.of_nat 1024) with 1024. intros v3 (H' & r' & m' & Hr & Hdi' & HT' & Hv3). pose proof (di_ok _ _ _ Hdi') as Hok'.
    destruct (tab_page _ _ _ Hok' n T Hn HT') as (_ & HHT' & _). destruct (dir_page _ _ _ Hok') as [_ HHD'].
    assert (forall t, 0 <= t < 1024 -> ent m' D n t = None) as Hempty.
    { intros t Ht. destruct (ent m' D n t) as [[f fl]|] eqn:E; [|done]. pose proof (part_page _ _ _ _ _ _ Hn Ht E) as Hp.
      apply (di_part _ _ _ Hdi') in Hp as [_ Hp]. exfalso. apply Hp. cbn. lia. }
    apply wp_bind. eapply view_unmap_tw; [done|done|]. intros v4 Hv4.
    apply wp_bind. eapply view_store_dw; [done|done|done|lia|]. intros v5 Hv5. fold (removed m' D n) in Hv5.
    apply wp_bind. eapply wp_mono; [by apply view_free|]. cbv beta. intros ok v6 [-> Hv6]. cbn [negb]. apply wp_ret.
    exists (fun b => H' b /\ b <> T), (r' + 1), (removed m' D n). split; [lia|]. split; [|done].
    apply (dismantled_ext (with_label (gone n 1024) (LTab n))).
    { intros l f Hw. unfold with_label, gone. destruct l as [|d|d t].
      - split; [by intros [?|?]|done].
      - split; [intros [?|E]; [lia|injection E; lia]|]. intros Hl. destruct (decide (d = n)) as [->|]; [by right|left; lia].
      - inversion Hw; subst. split; [intros [?|E]; [lia|done]|intros ?; left; lia]. }
    eapply dismantled_step; [exact Hdi'|by apply part_tab|done| |by eapply removed_part|].
    + eapply space_same; [by eapply removed_ok|by split|]. intros l f Hl. eapply removed_part in Hl as [Hl _]; try done. by eapply so_frame.
    + intros f i Hf (_ & HfD & _) Hr'. erewrite removed_other; try done. by intros [? _].
Qed.

(** Everything that is not part of the space stays, with its contents. *)
Record destroyed v' : Prop := {
  de_idle : idle v';
  de_cpu : cpu v' = cpu v;
  de_cr3 : cr3 (vmm v') = cr3 (vmm v);
  de_kernel : kernel_page_directory_physical (vmm v') = kernel_page_directory_physical (vmm v);
  de_walk : forall va, below_window va -> va mod 4096 = 0 -> va <> DW -> va <> TW -> walk (vmm v') va = walk (vmm v) va;
  de_held : forall f, client_held (vmm v') f <-> loose v D f;
  de_data : forall f i, page_address f -> loose v D f -> 0 <= i < 1024 -> rd (vmm v') (f + 4 * i) = rd (vmm v) (f + 4 * i);
  de_room : room (vmm v) < room (vmm v')
}.

Lemma destroy_ok : wp (vmm_address_space_destroy (Some D)) v (fun ok v' =>
    if ok : bool then destroyed v' else unchanged v D v' /\ room (vmm v) < 0).
Proof.
  destruct (dir_page _ _ _ Hs) as [HD HHD]. unfold vmm_address_space_destroy. cbv zeta. apply refused_ok; [done|by rewrite valid_ok|].
  intros v1 Hv1. change (directory_of (Some D)) with D. unfold vmm_current_page_directory. apply wp_bind, wp_zoom, wp_gets.
  change (lget v1) with (vmm v1). rewrite (wf_init _ (vw_wf _ _ _ _ _ _ _ _ Hv1)), cr3_masked by apply (wf_mmu _ (vw_wf _ _ _ _ _ _ _ _ Hv1)).
  replace (lset (vmm v1) v1) with v1 by (by destruct v1).
  rewrite (proj2 (Z.eqb_neq _ _)) by (rewrite (vw_cr3 _ _ _ _ _ _ _ _ Hv1); by destruct HHD as (_ & ? & _)).
  apply wp_bind. eapply wp_mono; [by apply view_map_dw|]. cbv beta. intros [] v2 [Hv2 Hr]; cbn [negb].
  2:{ apply wp_bind. eapply release_window_ok; [apply Hi|done|]. intros v3 Hf. apply wp_ret. split; [by apply finished_same|].
      destruct (Z.lt_ge_cases (room (vmm v)) 0); [done|]. by specialize (Hr ltac:(lia)). }
  apply wp_bind.
  apply (wp_for_range (fun n v' => exists H r m, room (vmm v) <= r /\ dismantled (gone n 0) H m /\ V H r m None v')).
  - exists (client_held (vmm v)), (room (vmm v)), (rd (vmm v)). split; [lia|]. split; [|done].
    eapply dismantled_ext; [|apply dismantled_none]. intros l f Hw. inversion Hw; cbn; lia.
  - intros n v3 Hn (H & r & m & Hr0 & Hdi & Hv3). eapply wp_mono; [eapply release_table_ok; try done; change (Z.of_nat _) with 768 in Hn; lia|].
    cbv beta. intros _ v4 (H' & r' & m' & ? & ? & ?). exists H', r', m'. split; [lia|done].
  - change (0 + Z.of_nat (Z.to_nat KERNEL_PDE_INDEX)) with 768. intros v3 (H & r & m & Hr0 & Hdi & Hv3).
    destruct (dir_page _ _ _ (di_ok _ _ _ Hdi)) as [_ HHD'].
    apply wp_bind. eapply view_unmap_dw; [done|done|]. intros v4 Hv4.
    apply wp_bind. eapply wp_mono; [by apply view_free|]. cbv beta. intros ok v5 [-> Hv5]. cbn [negb].
    apply wp_bind. eapply release_window_ok; [apply Hi|done|]. intros v6 [Hid Hcpu Hcr Hk Hh Hrm Hd Hw]. apply wp_ret.
    assert (forall f, (H f /\ f <> D) <-> loose v D f) as Hlo.
    { intros f. rewrite (di_held _ _ _ Hdi). split.
      - intros [[Hf Hg] Hne]. split; [done|]. intros l Hp. inversion Hp; subst; [done|..]; (eapply Hg; [|exact Hp]); cbn; lia.
      - intros [Hf Hno]. split; [split; [done|]; intros l _; apply Hno|]. intros ->. apply (Hno LDir), part_dir. }
    split; try done.
    + intros f. by rewrite Hh, Hlo.
    + intros f i Hf Hl Hr'. rewrite Hd; [|done|by apply Hlo|done]. apply (di_data _ _ _ Hdi); [done|by apply content_loose|done].
    + lia.
Qed.

End destroy.

(** C20. Destroying an address space that is not active gives back every frame
    it was made of (directory, page tables and pages, each exactly once, so that
    no [pmm_free] fails) and nothing else: the frames its owner holds besides it,
    their contents and the kernel's mappings stay, the lock is free and the
    interrupt flag restored. It fails, changing nothing, only when there is not
    even a frame for the page table of the windows. *)
Theorem address_space_destroy_exact v D : idle v -> space v D ->
  wp (vmm_address_space_destroy (Some D)) v (fun ok v' =>
    if ok : bool then destroyed v D v' else unchanged v D v' /\ room (vmm v) < 0).
Proof. apply destroy_ok. Qed.

End life.
End AddressSpaceLife.
