(* ===== verification/AddressSpaceSwitch.v ===== *)
(** * Creating and activating an address space

    Both copy the kernel's part of the directory from the kernel's own one. A
    new space has no user page; after a switch the user pages of the processor
    are those of the space and the kernel's mappings are what they were. *)

From S2P Require Import Prelude Monad Interfaces Cpu Vmm VmmSpec AddressSpace AddressSpaceWindow AddressSpaceTables AddressSpaceSpec.

Module AddressSpaceSwitch.
Import Vmm AddressSpace AddressSpaceWindow AddressSpaceTables AddressSpaceSpec.

Section switch.
Context {F : Type} `{!FrameAllocator F}.
Implicit Types (k : Vmm.state F) (v : spaces F) (m : Z -> Z).

(** The kernel's directory is the active one or static memory. *)
Definition kernel_directory k (K : Z) : Prop :=
  K = kernel_page_directory_physical k /\ page_address K /\ (K = cr3 k \/ bystander k K).

(** The entries that are copied. *)
Definition shared (i : Z) : bool := (768 <=? i) && (i <? 1023) && negb (i =? 834).

(** [m] with the shared entries below [n] of the directory [D] copied from [K]. *)
Definition copied k (K D : Z) m (n : Z) : Z -> Z := fun a =>
  let i := (a - D) / 4 in
  if (D <=? a) && (a <? D + 4 * n) && shared i then rd k (K + 4 * i) else m a.

Lemma copied_word k K D m n b i : page_address D -> page_address b -> 0 <= n <= 1023 -> 0 <= i < 1024 ->
  copied k K D m n (b + 4 * i) = if (b =? D) && (i <? n) && shared i then rd k (K + 4 * i) else m (b + 4 * i).
Proof.
  intros [_ HD] [_ Hb] Hn Hi. unfold copied. destruct (Z.eqb_spec b D) as [->|Hne]; cbn [andb].
  - replace ((D + 4 * i - D) / 4) with i by word_lia.
    destruct (Z.leb_spec D (D + 4 * i)), (Z.ltb_spec (D + 4 * i) (D + 4 * n)), (Z.ltb_spec i n); try lia; done.
  - destruct (Z.leb_spec D (b + 4 * i)), (Z.ltb_spec (b + 4 * i) (D + 4 * n)); try done. exfalso. apply Hne. word_lia.
Qed.

(** What the table window shows while it is on the kernel's directory. *)
Lemma load_kernel_ok k c H r m dw v K i (Q : Z -> spaces F -> Prop) : view k c H r m dw (Some K) v -> kernel_directory k K ->
  0 <= i < 1024 -> i <> 834 -> Q (rd k (K + 4 * i)) v -> wp (load TW i) v Q.
Proof.
  intros Hv (_ & HK & Hk) Hi Hne HQ. apply (wp_load_mapped v TW K); [apply Hv|by right; left|done|apply (vw_tw _ _ _ _ _ _ _ _ Hv)|done|].
  destruct Hk as [-> |Hk].
  - rewrite <-(vw_cr3 _ _ _ _ _ _ _ _ Hv). change (Q (pde (vmm v) i) v). by rewrite (vw_pde _ _ _ _ _ _ _ _ Hv).
  - destruct (vw_by _ _ _ _ _ _ _ _ Hv K Hk) as (_ & _ & Hrd). by rewrite Hrd.
Qed.

Lemma copy_kernel_ok k c H r m v K D (Q : unit -> spaces F -> Prop) :
  view k c H r m (Some D) (Some K) v -> kernel_directory k K -> page_address D -> H D ->
  (forall v', view k c H r (copied k K D m 1023) (Some D) (Some K) v' -> Q tt v') -> wp copy_kernel_directory v Q.
Proof.
  intros Hv HK HD HH HQ. unfold copy_kernel_directory.
  apply (wp_for_range (fun n v' => 768 <= n <= 1023 /\ view k c H r (copied k K D m n) (Some D) (Some K) v')).
  - split; [done|]. eapply view_ext; [| |exact Hv]; [done|]. intros b i Hb _ Hi. change KERNEL_PDE_INDEX with 768.
    rewrite copied_word by (done || lia). destruct (Z.ltb_spec i 768); [|by rewrite andb_false_r]. unfold shared.
    rewrite (proj2 (Z.leb_gt 768 i)) by lia. by rewrite andb_false_r.
  - change (KERNEL_PDE_INDEX + Z.of_nat (Z.to_nat (RECURSIVE_PDE_INDEX - KERNEL_PDE_INDEX))) with 1023.
    change KERNEL_PDE_INDEX with 768. change ADDRESS_SPACE_WINDOW_PDE with 834.
    intros n v' Hn [_ Hv']. destruct (Z.eqb_spec n 834) as [->|Hne]; cbn [negb].
    + apply wp_ret. split; [lia|]. eapply view_ext; [| |exact Hv']; [done|]. intros b i Hb _ Hi. rewrite !copied_word by (done || lia).
      destruct (b =? D); [|done]. unfold shared. destruct (Z.ltb_spec i 834), (Z.ltb_spec i (834 + 1)), (Z.eqb_spec i 834); try lia; done || by rewrite !andb_false_r.
    + apply wp_bind. eapply load_kernel_ok; [done|done|lia|done|]. eapply view_store_dw; [done|done|done|lia|]. intros v2 Hv2.
      split; [lia|]. eapply view_ext; [| |exact Hv2]; [done|]. intros b i Hb _ Hi. unfold upd. rewrite !copied_word by (done || lia).
      destruct (Z.eqb_spec (b + 4 * i) (D + 4 * n)) as [E|E].
      * apply word_inj in E as [-> ->]; [|apply Hb|apply HD|lia|lia]. rewrite Z.eqb_refl, (proj2 (Z.ltb_lt n (n + 1))) by lia. unfold shared.
        by rewrite (proj2 (Z.leb_le 768 n)), (proj2 (Z.ltb_lt n 1023)), (proj2 (Z.eqb_neq n 834)) by lia.
      * destruct (Z.eqb_spec b D) as [->|]; [|done]. cbn [andb].
        destruct (Z.ltb_spec i n), (Z.ltb_spec i (n + 1)); try done; lia.
  - intros v' [_ Hv']. by apply HQ.
Qed.

(** The space after the copy. *)
Lemma copied_dir k K D m d : page_address D -> 0 <= d < 1024 ->
  copied k K D m 1023 (D + 4 * d) = if shared d then rd k (K + 4 * d) else m (D + 4 * d).
Proof.
  intros HD Hd. rewrite copied_word, Z.eqb_refl by done. cbn [andb]. unfold shared. destruct (Z.ltb_spec d 1023); [done|].
  by rewrite andb_false_r.
Qed.

Lemma copied_other k K D m b i : page_address D -> page_address b -> b <> D -> 0 <= i < 1024 ->
  copied k K D m 1023 (b + 4 * i) = m (b + 4 * i).
Proof. intros HD Hb Hne Hi. rewrite copied_word by done. by rewrite (proj2 (Z.eqb_neq b D)). Qed.

Lemma shared_user d : 0 <= d < 768 -> shared d = false.
Proof. intros Hd. unfold shared. by rewrite (proj2 (Z.leb_gt 768 d)) by lia. Qed.

Section copied.
Context (k : Vmm.state F) (K D : Z) (H : Z -> Prop) (m : Z -> Z).
Hypothesis Hok : space_ok H m D.

Lemma copied_tab d : 0 <= d < 768 -> tab (copied k K D m 1023) D d = tab m D d.
Proof. intros Hd. destruct (dir_page _ _ _ Hok). unfold tab. by rewrite copied_dir, shared_user by (done || lia). Qed.

Lemma copied_ent d t : 0 <= d < 768 -> 0 <= t < 1024 -> ent (copied k K D m 1023) D d t = ent m D d t.
Proof.
  intros Hd Ht. destruct (dir_page _ _ _ Hok). unfold ent. rewrite copied_tab by done. destruct (tab m D d) as [T|] eqn:E; [|done].
  destruct (tab_page _ _ _ Hok d T Hd E) as (? & _ & ?). by rewrite copied_other.
Qed.

Lemma copied_part l f : part (copied k K D m 1023) D l f -> part m D l f.
Proof.
  intros Hp. inversion Hp as [|d T Hd E|d t f' fl Hd Ht E]; subst; [apply part_dir|..].
  - apply part_tab; [done|]. by rewrite <-copied_tab.
  - eapply part_page; [done|done|]. by rewrite <-copied_ent.
Qed.

Lemma copied_ok (H' : Z -> Prop) : (forall b, H b -> H' b) -> space_ok H' (copied k K D m 1023) D.
Proof.
  intros HH. destruct (dir_page _ _ _ Hok) as [HD _]. split.
  - intros l f Hp%copied_part. destruct (so_frame _ _ _ Hok l f Hp). auto.
  - intros l l' f H1%copied_part H2%copied_part. by apply (so_inj _ _ _ Hok l l' f).
  - intros d T Hd. rewrite copied_tab, copied_dir, shared_user by (done || lia). by apply (so_pde _ _ _ Hok).
  - intros d t f fl Hd Ht. rewrite copied_ent by done. by apply (so_pte _ _ _ Hok).
  - rewrite copied_dir by done. apply (so_window _ _ _ Hok).
  - rewrite copied_dir by done. apply (so_self _ _ _ Hok).
Qed.

End copied.

(** ** Creating *)

(** The directory of a new space. *)
Definition fresh_word k (K D i : Z) : Z :=
  if shared i then rd k (K + 4 * i) else if i =? 1023 then D + 3 else 0.

Record created v (D : Z) v' : Prop := {
  cr_idle : idle v';
  cr_cpu : cpu v' = cpu v;
  cr_cr3 : cr3 (vmm v') = cr3 (vmm v);
  cr_kernel : kernel_page_directory_physical (vmm v') = kernel_page_directory_physical (vmm v);
  cr_walk : forall va, below_window va -> va mod 4096 = 0 -> va <> DW -> va <> TW -> walk (vmm v') va = walk (vmm v) va;
  cr_page : page_address D;
  cr_fresh : ~ client_held (vmm v) D;
  cr_held : forall f, client_held (vmm v') f <-> client_held (vmm v) f \/ f = D;
  cr_room : room (vmm v') = room (vmm v) - 1;
  cr_data : forall f i, page_address f -> client_held (vmm v) f -> 0 <= i < 1024 -> rd (vmm v') (f + 4 * i) = rd (vmm v) (f + 4 * i);
  cr_directory : forall i, 0 <= i < 1024 -> rd (vmm v') (D + 4 * i) = fresh_word (vmm v) (kernel_page_directory_physical (vmm v)) D i
}.

Lemma created_tab v D v' d : created v D v' -> 0 <= d < 768 -> tab (rd (vmm v')) D d = None.
Proof.
  intros Hc Hd. unfold tab. rewrite (cr_directory _ _ _ Hc) by lia. unfold fresh_word, shared.
  rewrite (proj2 (Z.leb_gt 768 d)), (proj2 (Z.eqb_neq d 1023)) by lia. done.
Qed.

(** It is a space without pages. *)
Lemma created_space v D v' : created v D v' -> space v' D /\ (forall p, user_va p -> page_at v' D p = None) /\
  (forall f, loose v' D f <-> client_held (vmm v) f).
Proof.
  intros Hc. assert (forall l f, part (rd (vmm v')) D l f -> l = LDir /\ f = D) as Hp.
  { intros l f Hp. inversion Hp as [|d T Hd E|d t f' fl Hd Ht E]; subst; [done|..].
    - by rewrite (created_tab v D v' d Hc Hd) in E.
    - unfold ent in E. by rewrite (created_tab v D v' d Hc Hd) in E. }
  split; [split|split].
  - intros l f [_ ->]%Hp. split; [apply Hc|]. apply (cr_held _ _ _ Hc). by right.
  - intros l l' f [-> _]%Hp [-> _]%Hp. done.
  - intros d T Hd. by rewrite (created_tab v D v' d Hc Hd).
  - intros d t f fl Hd Ht. unfold ent. by rewrite (created_tab v D v' d Hc Hd).
  - by rewrite (cr_directory _ _ _ Hc) by lia.
  - by rewrite (cr_directory _ _ _ Hc) by lia.
  - intros p Hu. unfold page_at, ent. destruct (user_index p Hu). by rewrite (created_tab v D v' _ Hc).
  - intros f. unfold loose. rewrite (cr_held _ _ _ Hc). split.
    + intros [[?| ->] Hn]; [done|]. by destruct (Hn LDir (part_dir _ _)).
    + intros Hf. split; [by left|]. intros l [_ ->]%Hp. by apply (cr_fresh _ _ _ Hc).
Qed.

Lemma kernel_page v : wf (vmm v) -> page_address (kernel_page_directory_physical (vmm v)) ->
  wp (zoom vmm_kernel_page_directory) v (fun K v' => K = kernel_page_directory_physical (vmm v) /\ K <> 0 /\ v' = v).
Proof.
  intros Hs [? _]. unfold vmm_kernel_page_directory. apply wp_zoom, wp_gets. change (lget v) with (vmm v). rewrite (wf_init _ Hs).
  split; [done|]. split; [lia|]. by destruct v.
Qed.

Lemma space_create_ok v : idle v -> kernel_directory (vmm v) (kernel_page_directory_physical (vmm v)) ->
  wp (vmm_address_space_create (Some 0)) v (fun o v' =>
    match o with
    | Some D => created v D v'
    | None => finished (vmm v) (cpu v) (client_held (vmm v)) (room (vmm v)) (rd (vmm v)) v' /\ room (vmm v) < 1
    end).
Proof.
  set (K := kernel_page_directory_physical (vmm v)). intros Hi HK. pose proof HK as (_ & HKp & _).
  unfold vmm_address_space_create. apply wp_bind. eapply wp_mono; [by apply kernel_page; [apply Hi|]|]. cbv beta.
  intros K' v0 (-> & HK0 & ->). fold K. fold K in HK0. apply refused_ok; [done|by rewrite (proj2 (Z.eqb_neq K 0))|].
  intros v1 Hv1. apply wp_bind. eapply wp_mono; [by apply view_alloc|]. cbv beta. intros D v2 [(-> & Hr & ->)|(HD & HnD & m' & Hm & Hv2)].
  { rewrite Z.eqb_refl. apply wp_bind. eapply release_window_ok; [apply Hi|done|]. intros v3 Hf. apply wp_ret. split; [done|lia]. }
  rewrite (proj2 (Z.eqb_neq D 0)) by (destruct HD; lia).
  apply wp_bind. eapply wp_mono; [by apply view_map_dw|]. cbv beta. intros [] v3 [Hv3 Hr]; cbn [negb].
  2:{ unfold rollback_directory. apply wp_bind. eapply wp_mono; [by eapply view_free; [exact Hv3|done|right]|]. cbv beta.
      intros ok v4 [-> Hv4]. cbn [negb]. apply wp_bind.
      assert (view (vmm v) (cpu v) (client_held (vmm v)) (room (vmm v)) (rd (vmm v)) None None v4) as Hv4'.
      { replace (room (vmm v)) with (room (vmm v) - 1 + 1) by lia. eapply view_ext; [| |exact Hv4].
        - intros b. split; [by intros [[?| ->] ?]|]. intros Hb. split; [by left|]. by intros ->.
        - intros b i Hb [[Hh| ->] Hne] Hr'; [symmetry; by apply Hm|done]. }
      eapply release_window_ok; [apply Hi|exact Hv4'|]. intros v5 Hf. apply wp_ret. split; [done|].
      destruct (Z.lt_ge_cases (room (vmm v)) 1); [done|]. by specialize (Hr ltac:(lia)). }
  apply wp_bind. eapply wp_mono; [by apply view_map_tw|]. cbv beta. intros ok v4 [-> Hv4]. cbn [negb].
  apply wp_bind. eapply (view_zero true); [exact Hv4|done|done|by right|]. intros v5 Hv5.
  apply wp_bind. eapply copy_kernel_ok; [exact Hv5|done|done|by right|]. intros v6 Hv6.
  apply wp_bind. eapply view_store_dw; [exact Hv6|done|by right|done|]. intros v7 Hv7.
  apply wp_bind. eapply view_unmap_tw; [done|done|]. intros v8 Hv8. apply wp_bind. eapply view_unmap_dw; [done|done|]. intros v9 Hv9.
  apply wp_bind. eapply release_window_ok; [apply Hi|done|]. intros v10 [Hid Hcpu Hcr Hk Hh Hrm Hd Hw]. apply wp_ret. split; try done.
  - intros f i Hf Hfh Hi'. rewrite Hd by (done || by left). unfold upd.
    assert (f <> D) as HfD by (by intros ->). destruct HD as [? HDa], Hf as [? Hfa].
    rewrite (proj2 (Z.eqb_neq _ _)) by word_ne. rewrite copied_word by done.
    rewrite (proj2 (Z.eqb_neq f D)) by done. cbn [andb]. unfold cleared.
    destruct (Z.leb_spec D (f + 4 * i)), (Z.ltb_spec (f + 4 * i) (D + 4 * 1024)); cbn [andb]; try (by apply Hm); exfalso; apply HfD; word_lia.
  - intros i Hi'. rewrite Hd by (done || by right). unfold upd, fresh_word. change RECURSIVE_PDE_INDEX with 1023.
    destruct (Z.eqb_spec i 1023) as [->|Hne].
    + rewrite Z.eqb_refl. cbn. rewrite <-Z.lor_assoc, lor_aligned; [done|destruct HD; lia|apply HD|by vm_compute].
    + rewrite (proj2 (Z.eqb_neq _ _)) by lia. rewrite copied_word, Z.eqb_refl by done. cbn [andb].
      rewrite (proj2 (Z.ltb_lt i 1023)) by lia. destruct (shared i); [done|]. cbn [andb]. unfold cleared.
      by rewrite (proj2 (Z.leb_le D _)), (proj2 (Z.ltb_lt (D + 4 * i) _)) by lia.
Qed.

(** ** Activating *)

(** The active directory shows the kernel's mappings: its shared entries are
    those of the kernel's directory. *)
Definition in_step k (K : Z) : Prop := forall d, 0 <= d < 1024 -> shared d = true -> pde k d = rd k (K + 4 * d).

Lemma in_step_self k : in_step k (cr3 k).
Proof. done. Qed.

Section active.
Context (s : Vmm.state F) (D : Z) (m : Z -> Z).
Hypothesis Hs : wf s.
Hypothesis Hok : space_ok (client_held s) m D.
Hypothesis Hmem : forall b i, page_address b -> client_held s b -> 0 <= i < 1024 -> rd s (b + 4 * i) = m (b + 4 * i).
Hypothesis Hshared : forall d, 0 <= d < 1024 -> shared d = true -> m (D + 4 * d) = pde s d.

Definition switched : Vmm.state F := set_cr3 D s.

Lemma switched_pde d : 0 <= d < 1024 -> pde switched d = m (D + 4 * d).
Proof. intros Hd. destruct (dir_page _ _ _ Hok). by apply Hmem. Qed.

Lemma switched_user d : 0 <= d < 768 -> present (pde switched d) = true ->
  exists T, tab m D d = Some T /\ tbl switched d = T /\ pde switched d = T + 7 /\ page_address T /\ client_held s T /\ T <> D.
Proof.
  intros Hd. rewrite switched_pde by lia. intros Hp. assert (tab m D d = Some (entry_frame (m (D + 4 * d)))) as HT by (unfold tab; by rewrite Hp).
  exists (entry_frame (m (D + 4 * d))). split; [done|]. unfold tbl. rewrite switched_pde by lia. split; [done|].
  split; [by apply (so_pde _ _ _ Hok)|]. by apply (tab_page _ _ _ Hok d).
Qed.

Lemma switched_kernel d : shared d = true -> 0 <= d < 1024 ->
  pde switched d = pde s d /\ tbl switched d = tbl s d /\ forall t, pte switched d t = pte s d t.
Proof.
  intros Hsh Hd. assert (pde switched d = pde s d) as E by (rewrite switched_pde by lia; by apply Hshared).
  split; [done|]. assert (tbl switched d = tbl s d) as Et by (unfold tbl; by rewrite E). split; [done|].
  intros t. unfold pte. by rewrite Et.
Qed.

(** An entry of the new directory is a user table or one of the kernel's. *)
Lemma switched_cases d : 0 <= d < 1023 -> present (pde switched d) = true ->
  0 <= d < 768 \/ shared d = true /\ present (pde s d) = true.
Proof.
  intros Hd Hp. destruct (Z.lt_ge_cases d 768); [left; lia|right]. destruct (Z.eqb_spec d 834) as [->|Hne].
  { rewrite switched_pde in Hp by lia. by rewrite (so_window _ _ _ Hok) in Hp. }
  assert (shared d = true) as Hsh.
  { unfold shared. by rewrite (proj2 (Z.leb_le 768 d)), (proj2 (Z.ltb_lt d 1023)), (proj2 (Z.eqb_neq d 834)) by lia. }
  split; [done|]. destruct (switched_kernel d Hsh ltac:(lia)) as (<- & _). done.
Qed.

Lemma switched_wf : wf switched.
Proof.
  destruct (dir_page _ _ _ Hok) as [HD HHD]. pose proof HHD as (HDh & HDc & HDt).
  assert (forall f, client_held s f -> ~ fa_avail (frames s) f) as Hna by (intros f Hf; by apply (client_untouched s f)).
  assert (present (pde switched 768) = true) as Hk by (rewrite (proj1 (switched_kernel 768 eq_refl ltac:(lia))); apply Hs).
  split; try done; [apply Hs|apply Hs| | | | | |].
  - split; [done|rewrite switched_pde by lia; apply Hok|]. intros d Hd Hp.
    destruct (switched_cases d Hd Hp) as [Hu|[Hsh Hps]].
    + destruct (switched_user d Hu Hp) as (T & _ & _ & -> & [_ HTa] & _). unfold writable. by rewrite land_aligned_add.
    + destruct (switched_kernel d Hsh ltac:(lia)) as (-> & _). by apply (mmu_writable _ (wf_mmu _ Hs)).
  - destruct (switched_kernel 768 eq_refl ltac:(lia)) as (_ & _ & ->). apply Hs.
  - intros d Hd Hp. destruct (switched_cases d Hd Hp) as [Hu|[Hsh Hps]].
    + destruct (switched_user d Hu Hp) as (T & _ & -> & _ & HT & HTh & HTD). split; [done|]. split; [done|by apply Hna].
    + destruct (switched_kernel d Hsh ltac:(lia)) as (_ & -> & _). destruct (wf_table _ Hs d Hd Hps) as (? & _ & ?).
      split; [done|]. split; [|done]. intros E. by apply (HDt d Hd Hps).
  - intros d d' Hd Hd' Hp Hp'.
    destruct (switched_cases d Hd Hp) as [Hu|[Hsh Hps]], (switched_cases d' Hd' Hp') as [Hu'|[Hsh' Hps']].
    + destruct (switched_user d Hu Hp) as (T & HT & -> & _), (switched_user d' Hu' Hp') as (T' & HT' & -> & _). intros ->.
      by apply (tab_inj _ _ _ Hok d d' T').
    + destruct (switched_user d Hu Hp) as (T & _ & -> & _ & _ & (_ & _ & HTt) & _).
      destruct (switched_kernel d' Hsh' ltac:(lia)) as (_ & -> & _). intros E. by destruct (HTt d' Hd' Hps').
    + destruct (switched_user d' Hu' Hp') as (T & _ & -> & _ & _ & (_ & _ & HTt) & _).
      destruct (switched_kernel d Hsh ltac:(lia)) as (_ & -> & _). intros E. by destruct (HTt d Hd Hps).
    + destruct (switched_kernel d Hsh ltac:(lia)) as (_ & -> & _), (switched_kernel d' Hsh' ltac:(lia)) as (_ & -> & _).
      by apply (wf_distinct _ Hs).
  - by apply Hna.
  - intros d Hd Hn Hp. destruct (switched_cases d Hd Hp) as [Hu|[Hsh Hps]].
    + destruct (switched_user d Hu Hp) as (T & _ & -> & _ & _ & (HTh & _) & _). done.
    + destruct (switched_kernel d Hsh ltac:(lia)) as (_ & -> & _). by apply (wf_held _ Hs).
Qed.

(** The user part shows the pages of the space, the kernel part what it showed. *)
Lemma switched_walk_user p : user_va p ->
  (fun e => (entry_frame e, Z.land e 6)) <$> walk switched p = ent m D (dir_index p) (table_index p).
Proof.
  intros Hp. destruct (user_index p Hp) as [Hd Ht]. unfold walk, ent. destruct (present (pde switched (dir_index p))) eqn:Ep.
  - destruct (switched_user _ Hd Ep) as (T & HT & Htb & _ & HTp & HTh & _). rewrite HT. unfold pte. rewrite Htb.
    change (rd switched (T + 4 * table_index p)) with (rd s (T + 4 * table_index p)). rewrite Hmem by done.
    by destruct (present (m (T + 4 * table_index p))).
  - unfold tab. rewrite switched_pde in Ep by lia. by rewrite Ep.
Qed.

Lemma switched_walk_kernel va : below_window va -> KERNEL_BASE <= va -> dir_index va <> 834 -> walk switched va = walk s va.
Proof.
  intros Hb Hk Hne. destruct (below_window_index va Hb) as [Hd Ht].
  assert (768 <= dir_index va) as H768 by (unfold dir_index, KERNEL_BASE in *; rewrite shiftr_22; word_lia).
  assert (shared (dir_index va) = true) as Hsh.
  { unfold shared. by rewrite (proj2 (Z.leb_le 768 _)), (proj2 (Z.ltb_lt _ 1023)), (proj2 (Z.eqb_neq _ 834)) by lia. }
  destruct (switched_kernel _ Hsh ltac:(lia)) as (E & _ & Ep). unfold walk. by rewrite E, Ep.
Qed.

End active.

Record activated v (D : Z) v' : Prop := {
  ac_idle : idle v';
  ac_cpu : cpu v' = cpu v;
  ac_cr3 : cr3 (vmm v') = D;
  ac_kernel : kernel_page_directory_physical (vmm v') = kernel_page_directory_physical (vmm v);
  ac_user : forall p, user_va p -> (fun e => (entry_frame e, Z.land e 6)) <$> walk (vmm v') p = page_at v D p;
  ac_walk : forall va, below_window va -> va mod 4096 = 0 -> KERNEL_BASE <= va -> dir_index va <> 834 -> walk (vmm v') va = walk (vmm v) va;
  ac_data : forall f i, page_address f -> content v D f -> 0 <= i < 1024 -> rd (vmm v') (f + 4 * i) = rd (vmm v) (f + 4 * i);
  ac_held : forall f, content v D f -> client_held (vmm v') f;
  ac_entry : forall p e, user_va p -> walk (vmm v') p = Some e -> Z.land (pde (vmm v') (dir_index p)) 6 = 6
}.

Lemma release_raw v c (Q : unit -> spaces F -> Prop) : Cpu.wf c -> address_space_window_irq_flags v = Cpu.eflags c -> cpu v = Cpu.masked c ->
  Q tt (Spaces (vmm v) false (Cpu.eflags c) c) -> wp release_window v Q.
Proof.
  intros Hc Hf Hm HQ. unfold release_window. apply wp_bind, wp_gets, wp_bind, wp_modify. rewrite Hf.
  apply wp_zoom. cbn [lget cpu_lens set_window cpu]. rewrite Hm. by apply Cpu.irq_restore_wp.
Qed.

Lemma space_activate_ok v D : idle v -> space v D -> kernel_directory (vmm v) (kernel_page_directory_physical (vmm v)) ->
  in_step (vmm v) (kernel_page_directory_physical (vmm v)) ->
  wp (vmm_address_space_activate (Some D)) v (fun ok v' =>
    if ok : bool then activated v D v' else unchanged v D v' /\ room (vmm v) < 0).
Proof.
  set (K := kernel_page_directory_physical (vmm v)). intros Hi Hs HK Hin. pose proof HK as (_ & HKp & _). destruct (dir_page _ _ _ Hs) as [HD HHD].
  unfold vmm_address_space_activate. apply wp_bind. eapply wp_mono; [by apply kernel_page; [apply Hi|]|]. cbv beta.
  intros K' v0 (-> & HK0 & ->). fold K. fold K in HK0. cbv zeta. apply refused_ok; [done|by rewrite valid_ok, (proj2 (Z.eqb_neq K 0))|].
  intros v1 Hv1. change (directory_of (Some D)) with D. apply wp_bind.
  eapply wp_mono; [by apply view_map_dw|]. cbv beta. intros [] v2 [Hv2 Hr]; cbn [negb].
  2:{ apply wp_bind. eapply release_window_ok; [apply Hi|done|]. intros v3 Hf. apply wp_ret. split; [by apply finished_same|].
      destruct (Z.lt_ge_cases (room (vmm v)) 0); [done|]. by specialize (Hr ltac:(lia)). }
  apply wp_bind. eapply wp_mono; [by apply view_map_tw|]. cbv beta. intros ok v3 [-> Hv3]. cbn [negb].
  apply wp_bind. eapply copy_kernel_ok; [exact Hv3|done|done|done|]. intros v4 Hv4. set (m := copied (vmm v) K D (rd (vmm v)) 1023) in Hv4.
  apply wp_bind. eapply view_unmap_tw; [done|done|]. intros v5 Hv5. apply wp_bind. eapply view_unmap_dw; [done|done|]. intros v6 Hv6.
  assert (forall b, client_held (vmm v) b -> client_held (vmm v6) b) as Hh6 by (intros b; apply (vw_held _ _ _ _ _ _ _ _ Hv6)).
  pose proof (copied_ok (vmm v) K D _ _ Hs _ Hh6) as Hs6. pose proof (copied_tab (vmm v) K D _ _ Hs) as Htab.
  pose proof (copied_ent (vmm v) K D _ _ Hs) as Hent. pose proof (fun d => copied_dir (vmm v) K D (rd (vmm v)) d HD) as Hmd.
  pose proof (fun b i => copied_other (vmm v) K D (rd (vmm v)) b i HD) as Hmo. fold m in Hs6, Htab, Hent, Hmd, Hmo.
  pose proof (vw_wf _ _ _ _ _ _ _ _ Hv6) as Hwf6.
  assert (forall b i, page_address b -> client_held (vmm v6) b -> 0 <= i < 1024 -> rd (vmm v6) (b + 4 * i) = m (b + 4 * i)) as Hmem6.
  { intros b i Hb Hh Hi'. apply (vw_data _ _ _ _ _ _ _ _ Hv6); [done|by apply (vw_held _ _ _ _ _ _ _ _ Hv6)|done]. }
  assert (forall d, 0 <= d < 1024 -> shared d = true -> m (D + 4 * d) = pde (vmm v6) d) as Hsh6.
  { intros d Hd Hsh. rewrite Hmd, Hsh by done. rewrite <-(Hin d Hd Hsh). symmetry. apply (vw_pde _ _ _ _ _ _ _ _ Hv6); [done|]. by intros ->. }
  unfold vmm_activate_page_directory, reload_cr3. destruct HD as [HDr HDa].
  apply wp_bind, wp_zoom. apply wp_bind, wp_gets. change (lget v6) with (vmm v6). rewrite (wf_init _ Hwf6). change (PAGE_SIZE - 1) with 4095.
  rewrite land_low_4095, HDa, (proj2 (Z.eqb_neq D 0)) by lia. cbn [negb orb Z.eqb]. apply wp_bind, wp_modify, wp_ret.
  change (lset (set_cr3 D (vmm v6)) v6) with (set_vmm (switched (vmm v6) D) v6). apply wp_bind.
  eapply release_raw; [apply Hi|apply (vw_flags _ _ _ _ _ _ _ _ Hv6)|apply (vw_cpu _ _ _ _ _ _ _ _ Hv6)|]. apply wp_ret.
  cbn [set_vmm vmm]. assert (present (pde (switched (vmm v6) D) 834) = false) as H834.
  { erewrite switched_pde by done. apply Hs6. }
  split; cbn [vmm cpu].
  - split; cbn; [by eapply switched_wf|apply Hi|done|..]; unfold walk.
    + change (dir_index DW) with 834. by rewrite H834.
    + change (dir_index TW) with 834. by rewrite H834.
  - done.
  - done.
  - apply (vw_kernel _ _ _ _ _ _ _ _ Hv6).
  - intros p Hp. rewrite (switched_walk_user _ _ m) by done. destruct (user_index p Hp). by apply Hent.
  - intros va Hb Ha Hk Hne. rewrite (switched_walk_kernel _ _ m) by done.
    apply (vw_walk _ _ _ _ _ _ _ _ Hv6); [done|done|..]; intros ->; by apply Hne.
  - intros f i Hf (Hfh & HfD & _) Hi'. change (rd (switched (vmm v6) D) (f + 4 * i)) with (rd (vmm v6) (f + 4 * i)).
    rewrite (vw_data _ _ _ _ _ _ _ _ Hv6) by done. by apply Hmo.
  - intros f (Hf & HfD & Hno). apply (vw_held _ _ _ _ _ _ _ _ Hv6) in Hf as Hf6. destruct Hf6 as (Hfh & _ & Hft).
    split; [done|]. split; [done|]. intros d Hd Hp.
    destruct (switched_cases _ _ m Hs6 Hmem6 Hsh6 d Hd Hp) as [Hu|[Hsh Hps]].
    + destruct (switched_user _ _ m Hs6 Hmem6 d Hu Hp) as (T & HT & -> & _). intros ->.
      apply (Hno d); [done|]. by rewrite <-Htab.
    + destruct (switched_kernel _ _ m Hs6 Hmem6 Hsh6 d Hsh ltac:(lia)) as (_ & -> & _). by apply Hft.
  - intros p e Hp Hw. destruct (user_index p Hp) as [Hd _]. unfold walk in Hw.
    destruct (present (pde (switched (vmm v6) D) (dir_index p))) eqn:Ep; [|done].
    destruct (switched_user _ _ m Hs6 Hmem6 _ Hd Ep) as (T & _ & _ & -> & [_ HTa] & _). by rewrite land_aligned_add.
Qed.

(** With no free frame and no page table for the windows the switch is refused. *)
Lemma activate_starved v D : idle v -> space v D -> kernel_directory (vmm v) (kernel_page_directory_physical (vmm v)) ->
  spare (vmm v) 834 = 0 -> wp (vmm_address_space_activate (Some D)) v (fun ok v' => ok = false /\ unchanged v D v').
Proof.
  intros Hi Hs (_ & HKp & _) Hsp. destruct (dir_page _ _ _ Hs) as [HD _].
  unfold vmm_address_space_activate. apply wp_bind. eapply wp_mono; [by apply kernel_page; [apply Hi|]|]. cbv beta.
  intros K' v0 (-> & HK0 & ->). cbv zeta. apply refused_ok; [done|by rewrite valid_ok, (proj2 (Z.eqb_neq _ 0))|].
  intros v1 Hv1. change (directory_of (Some D)) with D. apply wp_bind.
  assert (spare (vmm v1) 834 = 0) as Hsp1.
  { pose proof (vw_room _ _ _ _ _ _ _ _ Hv1) as Hr. pose proof (vw_pde _ _ _ _ _ _ _ _ Hv1 835 ltac:(lia) ltac:(lia)) as E5.
    unfold room, present_bit, spare in *. rewrite E5 in Hr. pose proof (fa_count_nonneg _ (wf_fa _ (id_wf _ Hi))).
    pose proof (fa_count_nonneg _ (wf_fa _ (vw_wf _ _ _ _ _ _ _ _ Hv1))).
    destruct (present (pde (vmm v) 834)), (present (pde (vmm v1) 834)), (present (pde (vmm v) 835)); lia. }
  unfold map_window. apply wp_zoom. change (lget v1) with (vmm v1).
  wp_apply (window_map (vmm v1) DW D); [apply Hv1|by left|done|apply (vw_dw _ _ _ _ _ _ _ _ Hv1)|]. intros ok s' (Hs' & Hh & Hk & Ho & Hw).
  assert (ok = false) as ->.
  { destruct ok; [|done]. pose proof (kept_spare _ _ _ Hk) as E. change (dir_index DW) with 834 in E. rewrite Hsp1 in E.
    unfold walk in Hw. change (dir_index DW) with 834 in Hw. unfold spare in E. pose proof (fa_count_nonneg _ (wf_fa _ Hs')).
    destruct (present (pde s' 834)); [lia|done]. }
  cbn [negb]. apply wp_bind. change (lset s' v1) with (set_vmm s' v1).
  eapply release_window_ok; [apply Hi|eapply view_kept; [exact Hv1|done|done|exact Hk|apply Hw| |]|].
  - rewrite (Ho TW); [apply (vw_tw _ _ _ _ _ _ _ _ Hv1)|vm_compute; naive_solver|done|done].
  - intros vb ? ? ? ?. by apply Ho.
  - intros v2 Hf. apply wp_ret. split; [done|by apply finished_same].
Qed.


End switch.
End AddressSpaceSwitch.
