(* ===== verification/AddressSpaceRefine.v ===== *)
(** * Address spaces as finite maps

    The specification of kernel/mm/address_space.c: an address space is a map
    from page addresses to a frame and its flags, its owner holds a set of
    frames, and each call is a function on the two. *)

From S2P Require Import Prelude Monad Interfaces Cpu Vmm VmmSpec AddressSpace AddressSpaceWindow AddressSpaceTables AddressSpaceSpec.

Module AddressSpaceRefine.
Import Vmm AddressSpace AddressSpaceWindow AddressSpaceTables AddressSpaceSpec.

Inductive call := CMap (p f flags : Z) | CProtect (p flags : Z) | CUnmap (p : Z) | CQuery (a : Z).
Inductive reply := RBool (b : bool) | RFrame (f : option Z) | RQuery (q : option (Z * Z)).

(** ** The specification *)

Definition pages := Z -> option (Z * Z).
Definition page_base (a : Z) : Z := a / 4096 * 4096.
Definition set_page (P : pages) (p : Z) (x : option (Z * Z)) : pages := fun q => if q =? p then x else P q.

Definition spec_reply (c : call) (P : pages) : reply :=
  match c with
  | CMap p _ _ => RBool (bool_decide (P p = None))
  | CProtect p _ => RBool (bool_decide (P p <> None))
  | CUnmap p => RFrame (fst <$> P p)
  | CQuery a => RQuery ((fun x => (fst x + a mod 4096, snd x)) <$> P (page_base a))
  end.

Definition spec_pages (c : call) (P : pages) : pages :=
  match c with
  | CMap p f flags => match P p with None => set_page P p (Some (f, 4 + Z.land flags PAGE_WRITABLE)) | Some _ => P end
  | CProtect p flags => match P p with Some (f, _) => set_page P p (Some (f, 4 + flags)) | None => P end
  | CUnmap p => set_page P p None
  | CQuery _ => P
  end.

(** The frames the owner holds besides the space. *)
Definition spec_frames (c : call) (P : pages) (O : Z -> Prop) : Z -> Prop := fun g =>
  match c with
  | CMap p f _ => O g /\ (P p = None -> g <> f)
  | CUnmap p => O g \/ exists fl, P p = Some (g, fl)
  | _ => O g
  end.

Definition refusal (c : call) : reply :=
  match c with CMap _ _ _ | CProtect _ _ => RBool false | CUnmap _ => RFrame None | CQuery _ => RQuery None end.

Section refine.
Context {F : Type} `{!FrameAllocator F} (D : Z).
Implicit Types v : spaces F.

Definition perform (c : call) : M (spaces F) reply :=
  match c with
  | CMap p f flags => let! b := vmm_address_space_map (Some D) p f flags in ret (RBool b)
  | CProtect p flags => let! b := vmm_address_space_protect (Some D) p flags in ret (RBool b)
  | CUnmap p => let! o := vmm_address_space_unmap (Some D) p in ret (RFrame o)
  | CQuery a => let! o := vmm_address_space_query (Some D) a in ret (RQuery o)
  end.

Definition pages_of v : pages := fun p => if (0 <=? p) && (p <? KERNEL_BASE) && (p mod 4096 =? 0) then page_at v D p else None.
Definition frames_of v : Z -> Prop := loose v D.

(** Addresses in user memory, aligned where a page is meant; a frame to be
    mapped is the owner's. *)
Definition call_ok v (c : call) : Prop :=
  match c with
  | CMap p f _ => user_va p /\ p mod 4096 = 0 /\ page_address f /\ loose v D f
  | CProtect p flags => user_va p /\ p mod 4096 = 0 /\ (flags = 0 \/ flags = VMM_WRITABLE)
  | CUnmap p => user_va p /\ p mod 4096 = 0
  | CQuery a => user_va a
  end.

Lemma pages_of_at v p : user_va p -> p mod 4096 = 0 -> pages_of v p = page_at v D p.
Proof.
  unfold user_va, pages_of. intros [? ?] Ha. by rewrite (proj2 (Z.leb_le 0 p)), (proj2 (Z.ltb_lt p _)), Ha by lia.
Qed.

Lemma pages_of_same v v' : unchanged v D v' -> forall q, pages_of v' q = pages_of v q.
Proof.
  intros Hun q. unfold pages_of. destruct (_ && _ && _) eqn:E; [|done].
  assert (user_va q) as Hq by (unfold user_va; rewrite !andb_true_iff, Z.leb_le, Z.ltb_lt in E; tauto).
  destruct (user_index q Hq). by apply (un_ent _ _ _ Hun).
Qed.

Lemma pages_of_set v v' p x q : user_va p -> p mod 4096 = 0 -> pages_set v D p x v' -> pages_of v' q = set_page (pages_of v) p x q.
Proof.
  intros Hp Ha Hset. unfold set_page. destruct ((0 <=? q) && (q <? KERNEL_BASE) && (q mod 4096 =? 0)) eqn:E.
  - assert (user_va q /\ q mod 4096 = 0) as [Hq Hqa] by (unfold user_va; rewrite !andb_true_iff, Z.leb_le, Z.ltb_lt, Z.eqb_eq in E; tauto).
    rewrite !pages_of_at by done. by apply Hset.
  - destruct (Z.eqb_spec q p) as [->|]; [|unfold pages_of; by rewrite E].
    unfold user_va in Hp. rewrite (proj2 (Z.leb_le 0 p)), (proj2 (Z.ltb_lt p _)), Ha in E by lia. done.
Qed.

Lemma query_page v a : user_va a -> pages_of v (page_base a) = page_at v D a.
Proof.
  intros Ha. unfold page_base. rewrite pages_of_at; [|unfold user_va, KERNEL_BASE in *; word_lia|word_lia].
  unfold page_at, dir_index, table_index. rewrite !shiftr_22, !shiftr_12. change 0x3FF with 1023. rewrite !land_low_1023.
  unfold user_va in Ha. f_equal; word_lia.
Qed.

(** The outcome the specification gives, or a refusal for lack of memory. *)
Definition outcome v (c : call) (r : reply) v' : Prop :=
  r = spec_reply c (pages_of v) /\ (forall q, pages_of v' q = spec_pages c (pages_of v) q) /\
    (forall g, frames_of v' g <-> spec_frames c (pages_of v) (frames_of v) g) \/
  room (vmm v) < 1 /\ r = refusal c /\ (forall q, pages_of v' q = pages_of v q) /\ (forall g, frames_of v' g <-> frames_of v g).

Lemma space_perform_ok v c : idle v -> space v D -> call_ok v c ->
  wp (perform c) v (fun r v' => common v D v' /\ outcome v c r v').
Proof.
  intros Hi Hs Hc. destruct c as [p f flags|p flags|p|a]; cbn [perform]; apply wp_bind.
  - destruct Hc as (Hp & Ha & Hf & Hl). eapply wp_mono; [by apply map_ok|]. cbv beta. pose proof (pages_of_at v p Hp Ha) as Ep.
    intros [] v' Hpost; apply wp_ret; unfold outcome, spec_reply, spec_pages, spec_frames, refusal, frames_of; rewrite Ep.
    + destruct Hpost as ((Hcm & Hn & Hset & Hlo) & _). split; [done|]. left. rewrite Hn. split; [done|].
      split; [intros q; by apply pages_of_set|]. intros g. rewrite Hlo. naive_solver.
    + destruct Hpost as (Hun & Hno). split; [apply Hun|]. pose proof (pages_of_same v v' Hun) as Hpg.
      destruct (page_at v D p) as [x|] eqn:E; [left|right].
      * split; [done|]. split; [done|]. intros g. rewrite (un_loose _ _ _ Hun). naive_solver.
      * split; [|split; [done|]; split; [done|apply Hun]]. destruct (Z.lt_ge_cases (room (vmm v)) 1); [done|]. by destruct (Hno ltac:(lia)).
  - destruct Hc as (Hp & Ha & Hfl). eapply wp_mono; [by apply protect_ok|]. cbv beta. pose proof (pages_of_at v p Hp Ha) as Ep.
    intros [] v' Hpost; apply wp_ret; unfold outcome, spec_reply, spec_pages, spec_frames, refusal, frames_of; rewrite Ep.
    + destruct Hpost as (Hcm & _ & Hlo & f & fl & Hpf & Hset). split; [done|]. left. rewrite Hpf. split; [done|].
      split; [intros q; by apply pages_of_set|done].
    + destruct Hpost as (Hun & Hno). split; [apply Hun|]. pose proof (pages_of_same v v' Hun) as Hpg.
      destruct (page_at v D p) as [[f fl]|] eqn:E; [right|left].
      * split; [|split; [done|]; split; [done|apply Hun]]. destruct (Z.lt_ge_cases (room (vmm v)) 1); [done|]. by specialize (Hno ltac:(lia)).
      * split; [done|]. split; [done|apply Hun].
  - destruct Hc as (Hp & Ha). eapply wp_mono; [by apply unmap_ok|]. cbv beta. pose proof (pages_of_at v p Hp Ha) as Ep.
    intros [f|] v' Hpost; apply wp_ret; unfold outcome, spec_reply, spec_pages, spec_frames, refusal, frames_of; rewrite Ep.
    + destruct Hpost as ((Hcm & [fl Hpf] & Hset & Hlo) & _). split; [done|]. left. rewrite Hpf. split; [done|].
      split; [intros q; by apply pages_of_set|]. intros g. rewrite Hlo. naive_solver.
    + destruct Hpost as (Hun & Hno). split; [apply Hun|]. pose proof (pages_of_same v v' Hun) as Hpg.
      destruct (page_at v D p) as [[f fl]|] eqn:E; [right|left].
      * split; [|split; [done|]; split; [done|apply Hun]]. destruct (Z.lt_ge_cases (room (vmm v)) 1); [done|]. by specialize (Hno ltac:(lia)).
      * split; [done|]. split; [|intros g; rewrite (un_loose _ _ _ Hun); naive_solver].
        intros q. rewrite Hpg. unfold set_page. destruct (Z.eqb_spec q p) as [->|]; [congruence|done].
  - eapply wp_mono; [by apply query_ok|]. cbv beta. pose proof (query_page v a Hc) as Ep.
    intros r v' [Hun Hr]. apply wp_ret. split; [apply Hun|]. pose proof (pages_of_same v v' Hun) as Hpg.
    unfold outcome, spec_reply, spec_pages, spec_frames, refusal, frames_of. rewrite Ep.
    destruct r as [[pa fl]|].
    + destruct Hr as (f & -> & ->). left. split; [done|]. split; [done|apply Hun].
    + destruct (page_at v D a) as [[f fl]|] eqn:E; [right|left].
      * split; [|split; [done|]; split; [done|apply Hun]]. destruct (Z.lt_ge_cases (room (vmm v)) 1); [done|]. by specialize (Hr ltac:(lia)).
      * split; [done|]. split; [done|apply Hun].
Qed.

(** C9. Refinement: every call on an address space that is not active (map,
    protect, unmap, query) does to the page tables in memory what the
    specification does to a finite map from pages to frames and flags, with the
    reply it gives, or is refused for lack of memory and changes nothing. In both
    cases the space stays well formed, no page's contents and no kernel mapping
    change, and the lock and the interrupt flag are as before. *)
Theorem address_space_refines_map v c : idle v -> space v D -> call_ok v c ->
  wp (perform c) v (fun r v' => common v D v' /\ outcome v c r v').
Proof. apply space_perform_ok. Qed.

End refine.
End AddressSpaceRefine.
