(* ===== verification/AddressSpaceUser.v ===== *)
(** * The address space under the ELF loader

    The routines kernel/proc/elf.c calls, out of the models of address_space.c,
    vmm.c and the frame allocator, and the proof that they keep the promises of
    [UserPages]: loading an executable works on the real page tables. *)

From S2P Require Import Prelude Monad Interfaces Bytes Cpu Vmm VmmSpec Block MiniFs Elf AddressSpace AddressSpaceWindow AddressSpaceTables AddressSpaceSpec.

Module AddressSpaceUser.
Import Vmm AddressSpace AddressSpaceWindow AddressSpaceTables AddressSpaceSpec.

(** ** Bytes of a word *)

Definition byte_of (w k : Z) : Z := Z.land (Z.shiftr w (8 * k)) 255.
Definition with_byte (w k b : Z) : Z := Z.lor (Z.land w (not32 (Z.shiftl 255 (8 * k)))) (Z.shiftl b (8 * k)).

Lemma byte_bits w k i : 0 <= k -> 0 <= i -> Z.testbit (byte_of w k) i = Z.testbit w (i + 8 * k) && (i <? 8).
Proof.
  intros Hk Hi. unfold byte_of. change 255 with (Z.ones 8). rewrite Z.land_spec, Z.shiftr_spec by done. f_equal.
  destruct (Z.ltb_spec i 8); [by apply Z.ones_spec_low|by apply Z.ones_spec_high].
Qed.

Lemma with_byte_bits w k b i : 0 <= k < 4 -> 0 <= b < 256 -> 0 <= i < 32 ->
  Z.testbit (with_byte w k b) i = if (8 * k <=? i) && (i <? 8 * k + 8) then Z.testbit b (i - 8 * k) else Z.testbit w i.
Proof.
  intros Hk Hb Hi. unfold with_byte, not32, u32. change 4294967296 with (2 ^ 32).
  rewrite Z.lor_spec, Z.land_spec, Z.mod_pow2_bits_low, Z.lnot_spec, !Z.shiftl_spec by lia.
  change 255 with (Z.ones 8). destruct (Z.leb_spec (8 * k) i); cbn [andb].
  2:{ rewrite !(Z.testbit_neg_r _ (i - 8 * k)) by lia. cbn. by rewrite andb_true_r, orb_false_r. }
  destruct (Z.ltb_spec i (8 * k + 8)).
  - rewrite Z.ones_spec_low by lia. cbn. by rewrite andb_false_r.
  - rewrite Z.ones_spec_high by lia. assert (Z.testbit b (i - 8 * k) = false) as ->.
    { destruct (Z.eq_dec b 0) as [->|]; [apply Z.bits_0|]. apply Z.bits_above_log2; [lia|].
      apply Z.lt_le_trans with 8; [|lia]. apply Z.log2_lt_pow2; lia. }
    cbn. by rewrite andb_true_r, orb_false_r.
Qed.

Lemma byte_of_with w k b j : 0 <= k < 4 -> 0 <= b < 256 -> 0 <= j < 4 ->
  byte_of (with_byte w k b) j = if j =? k then b else byte_of w j.
Proof.
  intros Hk Hb Hj. apply Z.bits_inj'. intros i Hi. rewrite byte_bits by lia. destruct (Z.ltb_spec i 8) as [H8|H8].
  - rewrite with_byte_bits, andb_true_r by lia. destruct (Z.eqb_spec j k) as [->|Hne].
    + rewrite (proj2 (Z.leb_le _ _)), (proj2 (Z.ltb_lt _ _)) by lia. cbn [andb]. f_equal. lia.
    + rewrite byte_bits, (proj2 (Z.ltb_lt i 8)), andb_true_r by lia.
      destruct (Z.leb_spec (8 * k) (i + 8 * j)), (Z.ltb_spec (i + 8 * j) (8 * k + 8)); try done. lia.
  - rewrite andb_false_r. destruct (j =? k); [|by rewrite byte_bits, (proj2 (Z.ltb_ge i 8)), andb_false_r by lia].
    symmetry. destruct (Z.eq_dec b 0) as [->|]; [apply Z.bits_0|]. apply Z.bits_above_log2; [lia|].
    apply Z.lt_le_trans with 8; [|lia]. apply Z.log2_lt_pow2; lia.
Qed.

Definition user_pageb (p : Z) : bool := (0 <=? p) && (p <? KERNEL_BASE) && (p mod 4096 =? 0).

Lemma user_pageb_spec p : user_pageb p = true <-> user_va p /\ p mod 4096 = 0.
Proof. unfold user_pageb, user_va. rewrite !andb_true_iff, Z.leb_le, Z.ltb_lt, Z.eqb_eq. tauto. Qed.


Section user.
Context {F : Type} `{!FrameAllocator F} (D : Z) (active : Z * Z).
Implicit Types (s : Vmm.state F) (v : spaces F).

(** A byte store through the page walk. *)
Definition store_byte (va b : Z) : M (Vmm.state F) unit := fun s =>
  match translate s true va with
  | Some pa => Ret tt (poke (pa / 4 * 4) (with_byte (rd s (pa / 4 * 4)) (pa mod 4) b) s)
  | None => Fault
  end.

Lemma translate_byte s w va f o : wf s -> below_window va -> va mod 4096 = 0 -> page_address f -> walk s va = Some (f + 3) -> 0 <= o < 4096 ->
  translate s w (va + o) = Some (f + o).
Proof.
  intros Hs Hb Ha Hf Hw Ho. pose proof (translate_mapped s w va f (o / 4) Hs Hb Ha Hf Hw ltac:(word_lia)) as H. revert H. unfold translate.
  assert (dir_index (va + o) = dir_index (va + 4 * (o / 4)) /\ table_index (va + o) = table_index (va + 4 * (o / 4))) as [-> ->].
  { unfold dir_index, table_index. rewrite !shiftr_22, !shiftr_12. change 0x3FF with 1023. rewrite !land_low_1023.
    unfold below_window, RECURSIVE_PAGE_TABLES in Hb. split; word_lia. }
  change 0xFFF with 4095. rewrite !land_low_4095. destruct (negb _); [done|]. destruct (negb _); [done|]. destruct (_ && _); [done|].
  intros H. injection H as H. f_equal. assert ((va + 4 * (o / 4)) mod 4096 = 4 * (o / 4)) as E by word_lia.
  assert ((va + o) mod 4096 = o) as -> by word_lia. lia.
Qed.

Definition frame_of_page v (p f fl : Z) : Prop := user_pageb p = true /\ page_at v D p = Some (f, fl).
(** What the load window may show: a frame of the loader or of a user page. *)
Definition showable v (f : Z) : Prop := page_address f /\ (loose v D f \/ exists p fl, frame_of_page v p f fl).

(** The active directory and the kernel's. *)
Definition directories v : Z * Z := (cr3 (vmm v), kernel_page_directory_physical (vmm v)).

#[local] Instance space_ops : UserPageOps (spaces F) := {|
  up_query a := vmm_address_space_query (Some D) a;
  up_protect p fl := vmm_address_space_protect (Some D) p fl;
  up_map p f fl := vmm_address_space_map (Some D) p f fl;
  up_alloc := pmm_alloc;
  up_free f := pmm_free f;
  up_window_map f := zoom (vmm_map EW f VMM_WRITABLE);
  up_window_unmap := zoom (vmm_unmap EW);
  up_store o b := zoom (store_byte (EW + o) b)
|}.

#[local] Instance space_view : UserPageView (spaces F) := {|
  up_inv v := idle v /\ space v D /\ (walk (vmm v) EW = None \/ exists f, walk (vmm v) EW = Some (f + 3) /\ showable v f) /\ directories v = active;
  up_page v p := if user_pageb p then page_at v D p else None;
  up_byte v f o := if (0 <=? o) && (o <? 4096) then byte_of (rd (vmm v) (f + 4 * (o / 4))) (o mod 4) else 0;
  up_window v := entry_frame <$> walk (vmm v) EW;
  up_held v f := page_address f /\ loose v D f;
  up_room v := room (vmm v)
|}.

(** ** Steps that leave the tables alone *)

Lemma step_same v s' : idle v -> space v D -> wf s' -> walk s' DW = None -> walk s' TW = None ->
  same_tables (rd (vmm v)) (rd s') D -> (forall l f, part (rd (vmm v)) D l f -> client_held s' f) ->
  let v' := set_vmm s' v in idle v' /\ space v' D /\ (forall p, user_va p -> page_at v' D p = page_at v D p) /\
  (forall l f, part (rd (vmm v')) D l f <-> part (rd (vmm v)) D l f).
Proof.
  intros [] Hs Hw Hdw Htw Hst Hp v'. split; [by split|]. split; [|split].
  - eapply space_same; [exact Hs|done|exact Hp].
  - intros p Hu. destruct (user_index p Hu). by apply same_ent.
  - intros l f. by apply same_part.
Qed.

Lemma content_words v f i : page_address f -> content v D f -> 0 <= i < 1024 -> space v D ->
  forall x, same_tables (rd (vmm v)) (upd (rd (vmm v)) (f + 4 * i) x) D.
Proof. intros Hf (_ & HfD & Hft) Hi Hs x. by eapply other_same_tables. Qed.

Lemma showable_content v f : space v D -> showable v f -> page_address f /\ content v D f.
Proof.
  intros Hs [Hf [Hl|(p & fl & Hp & E)]]; (split; [done|]); [by apply content_loose|].
  apply user_pageb_spec in Hp as [Hp _]. destruct (user_index p Hp). by eapply content_page.
Qed.

Lemma owned_showable v f : up_inv v -> owned v f -> showable v f.
Proof.
  intros (_ & Hs & _) [Hh|(p & fl & Hp)].
  - destruct Hh. split; [done|by left].
  - cbn in Hp. destruct (user_pageb p) eqn:E; [|done]. split; [|right; by exists p, fl].
    apply user_pageb_spec in E as [Hu _]. destruct (user_index p Hu) as [Hd Ht].
    by eapply (so_frame _ _ _ Hs), part_page.
Qed.

Lemma entry3 f : page_address f -> entry_frame (f + 3) = f.
Proof. intros [? ?]. apply entry_frame_add; lia. Qed.

(** The window shows nothing, or a frame it may show. *)
Lemma window_state v : up_inv v -> (up_window v = None /\ walk (vmm v) EW = None) \/
  exists f, up_window v = Some f /\ walk (vmm v) EW = Some (f + 3) /\ showable v f.
Proof.
  intros (_ & _ & [E|(f & E & Hf)] & _); [left|right; exists f]; cbn; rewrite E; [done|]. cbn. by rewrite entry3 by apply Hf.
Qed.

Lemma byte_same v v' f o : (forall i, 0 <= i < 1024 -> rd (vmm v') (f + 4 * i) = rd (vmm v) (f + 4 * i)) -> up_byte v' f o = up_byte v f o.
Proof.
  intros H. cbn. destruct (Z.leb_spec 0 o), (Z.ltb_spec o 4096); try done. cbn [andb]. by rewrite H by word_lia.
Qed.

(** ** After a call on the address space *)

Lemma common_walk v v' : common v D v' -> walk (vmm v') EW = walk (vmm v) EW.
Proof. intros Hc. apply (cm_walk _ _ _ Hc); [vm_compute; naive_solver|done|done|done]. Qed.

Lemma common_inv v v' : up_inv v -> common v D v' -> (forall f, showable v f -> showable v' f) ->
  up_inv v' /\ same_bytes v v' /\ up_window v' = up_window v.
Proof.
  intros Hv Hc Hsh. pose proof (common_walk v v' Hc) as Hw. split; [|split].
  - destruct Hv as (_ & _ & Hwin & Hdir). split; [apply Hc|]. split; [apply Hc|]. rewrite Hw.
    split; [|rewrite <-Hdir; unfold directories; by rewrite (cm_cr3 _ _ _ Hc), (cm_kernel _ _ _ Hc)].
    destruct Hwin as [?|(f & ? & Hf)]; [by left|right]. exists f. auto.
  - intros f o Hf. apply (owned_showable _ _ Hv) in Hf. destruct Hv as (_ & Hs & _). destruct (showable_content v f Hs Hf).
    apply byte_same. intros i Hi. by apply (cm_data _ _ _ Hc).
  - cbn. by rewrite Hw.
Qed.

Lemma unchanged_pages v v' : unchanged v D v' -> same_pages v v' /\ same_held v v' /\ (forall f, showable v f -> showable v' f).
Proof.
  intros [Hc Hr He Hl]. assert (forall p, user_pageb p = true -> page_at v' D p = page_at v D p) as Hp.
  { intros p [Hu _]%user_pageb_spec. destruct (user_index p Hu). by apply He. }
  split; [|split].
  - intros p. cbn. destruct (user_pageb p) eqn:E; [by apply Hp|done].
  - intros f. cbn. by rewrite Hl.
  - intros f [Hf [Hlo|(p & fl & Hb & E)]]; (split; [done|]); [left; by apply Hl|right]. exists p, fl. split; [done|]. by rewrite Hp.
Qed.

Lemma space_query_ok a v : up_inv v -> 0 <= a < 0xC0000000 ->
  wp (up_query a) v (fun r v' => up_inv v' /\ up_room v' = up_room v /\ same_pages v v' /\ same_held v v' /\
    same_bytes v v' /\ up_window v' = up_window v /\
    match r with
    | Some (pa, fl) => exists f, up_page v (a / 4096 * 4096) = Some (f, fl) /\ pa = f + a mod 4096
    | None => 0 <= up_room v -> up_page v (a / 4096 * 4096) = None
    end).
Proof.
  intros Hv Ha. pose proof Hv as (Hi & Hs & _). change (up_query a) with (vmm_address_space_query (F := F) (Some D) a).
  eapply wp_mono; [by apply query_ok|]. cbv beta. intros r v' [Hun Hr].
  destruct (unchanged_pages v v' Hun) as (Hp & Hh & Hsh). destruct (common_inv v v' Hv (un_common _ _ _ Hun) Hsh) as (Hv' & Hb & Hw).
  refine (conj Hv' (conj (un_room _ _ _ Hun) (conj Hp (conj Hh (conj Hb (conj Hw _)))))).
  cbn [up_page up_room space_view]. assert (user_pageb (a / 4096 * 4096) = true) as -> by (apply user_pageb_spec; unfold user_va, KERNEL_BASE; word_lia).
  assert (page_at v D (a / 4096 * 4096) = page_at v D a) as ->; [|done].
  unfold page_at, dir_index, table_index. rewrite !shiftr_22, !shiftr_12. change 0x3FF with 1023. rewrite !land_low_1023. f_equal; word_lia.
Qed.

(** A page whose entry was written, the others as they were. *)
Lemma pages_set_up v p x v' q : user_pageb p = true -> pages_set v D p x v' ->
  up_page v' q = if q =? p then x else up_page v q.
Proof.
  intros Hp Hset. cbn. destruct (user_pageb q) eqn:E.
  - apply user_pageb_spec in E as [Hu Ha]. by apply Hset.
  - destruct (Z.eqb_spec q p) as [->|]; [congruence|done].
Qed.

Lemma space_protect_ok p f fl0 v : up_inv v -> 0 <= p < 0xC0000000 -> page_aligned p -> up_page v p = Some (f, fl0) ->
  wp (up_protect p VMM_WRITABLE) v (fun ok v' => up_inv v' /\ up_room v' = up_room v /\ same_held v v' /\
    same_bytes v v' /\ up_window v' = up_window v /\ (0 <= up_room v -> ok = true) /\
    forall q, up_page v' q = if ok && (q =? p) then Some (f, Z.lor VMM_USER VMM_WRITABLE) else up_page v q).
Proof.
  intros Hv Hr Ha Hp. pose proof Hv as (Hi & Hs & _). assert (user_pageb p = true) as Hpb by (by apply user_pageb_spec).
  assert (page_at v D p = Some (f, fl0)) as Hpa by (cbn in Hp; by rewrite Hpb in Hp).
  change (up_protect p VMM_WRITABLE) with (vmm_address_space_protect (F := F) (Some D) p VMM_WRITABLE).
  eapply wp_mono; [apply protect_ok; [done|done|done|done|by right]|]. cbv beta. intros [] v' Hpost.
  - destruct Hpost as (Hc & Hrm & Hl & f' & fl & E & Hset). rewrite Hpa in E. injection E as <- <-.
    destruct (common_inv v v' Hv Hc) as (Hv' & Hb & Hw).
    { intros g [Hg [Hlo|(q & gl & Hq & E)]]; (split; [done|]); [left; by apply Hl|right]. pose proof Hq as [Hu Hqa]%user_pageb_spec.
      destruct (Z.eq_dec q p) as [->|Hne]; [exists p, 6|exists q, gl]; (split; [done|]); rewrite Hset by done.
      - rewrite Z.eqb_refl. rewrite E in Hpa. injection Hpa as -> _. done.
      - by rewrite (proj2 (Z.eqb_neq q p)). }
    split; [done|]. split; [done|]. split; [intros g; cbn; by rewrite Hl|]. do 3 (split; [done|]). intros q. cbn [andb]. by apply pages_set_up.
  - destruct Hpost as (Hun & Hno). destruct (unchanged_pages v v' Hun) as (Hpg & Hh & Hsh).
    destruct (common_inv v v' Hv (un_common _ _ _ Hun) Hsh) as (Hv' & Hb & Hw).
    split; [done|]. split; [exact (un_room _ _ _ Hun)|]. do 3 (split; [done|]). split; [|done]. intros H0. rewrite (Hno H0) in Hpa. done.
Qed.

Lemma space_map_ok p f fl v : up_inv v -> 0 <= p < 0xC0000000 -> page_aligned p -> up_held v f -> fl = 0 \/ fl = VMM_WRITABLE ->
  wp (up_map p f fl) v (fun ok v' => up_inv v' /\ (0 <= up_room v -> up_room v - 1 <= up_room v') /\
    same_bytes v v' /\ up_window v' = up_window v /\ (1 <= up_room v -> up_page v p = None -> ok = true) /\
    if ok : bool then
      up_page v p = None /\ (forall g, up_held v' g <-> up_held v g /\ g <> f) /\
      forall q, up_page v' q = if q =? p then Some (f, Z.lor VMM_USER fl) else up_page v q
    else same_held v v' /\ same_pages v v').
Proof.
  intros Hv Hr Ha [Hf Hl] Hfl. pose proof Hv as (Hi & Hs & _). assert (user_pageb p = true) as Hpb by (by apply user_pageb_spec).
  assert (up_page v p = page_at v D p) as Hpa by (cbn; by rewrite Hpb).
  assert (4 + Z.land fl PAGE_WRITABLE = Z.lor VMM_USER fl) as Ef by (by destruct Hfl as [-> | ->]).
  change (up_map p f fl) with (vmm_address_space_map (F := F) (Some D) p f fl).
  eapply wp_mono; [by apply map_ok|]. cbv beta. intros [] v' Hpost.
  - destruct Hpost as ((Hc & Hn & Hset & Hl') & Hrm). rewrite Ef in Hset.
    assert (forall g, showable v g -> showable v' g) as Hsh.
    { intros g [Hg [Hlo|(q & gl & Hq & E)]]; (split; [done|]).
      - destruct (Z.eq_dec g f) as [->|Hne]; [right|left; by apply Hl'].
        exists p, (Z.lor VMM_USER fl). split; [done|]. rewrite Hset by done. by rewrite Z.eqb_refl.
      - right. exists q, gl. split; [done|]. apply user_pageb_spec in Hq as [? ?]. rewrite Hset by done.
        destruct (Z.eqb_spec q p) as [->|]; [congruence|done]. }
    destruct (common_inv v v' Hv Hc Hsh) as (Hv' & Hb & Hw). split; [done|]. split; [intros _; exact (proj1 Hrm)|]. do 2 (split; [done|]). split; [done|].
    split; [by rewrite Hpa|]. split; [intros g; cbn; rewrite Hl'; tauto|]. intros q. by apply pages_set_up.
  - destruct Hpost as (Hun & Hno). destruct (unchanged_pages v v' Hun) as (Hpg & Hh & Hsh).
    destruct (common_inv v v' Hv (un_common _ _ _ Hun) Hsh) as (Hv' & Hb & Hw).
    assert (up_room v' = up_room v) as -> by exact (un_room _ _ _ Hun). split; [done|]. split; [lia|]. do 2 (split; [done|]). split; [|done].
    intros H1 H2. rewrite Hpa in H2. by destruct (Hno H1).
Qed.

(** ** Frames *)

(** A step of the kernel that shows the client the same memory. *)
Lemma quiet_step v s' : up_inv v -> wf s' -> walk s' DW = None -> walk s' TW = None ->
  (forall b i, page_address b -> client_held (vmm v) b -> 0 <= i < 1024 -> rd s' (b + 4 * i) = rd (vmm v) (b + 4 * i)) ->
  (forall l f, part (rd (vmm v)) D l f -> client_held s' f) ->
  let v' := set_vmm s' v in
  idle v' /\ space v' D /\ same_pages v v' /\ same_bytes v v' /\ (forall f, loose v' D f <-> client_held s' f /\ forall l, ~ part (rd (vmm v)) D l f).
Proof.
  intros Hv Hs' Hdw Htw Hd Hh v'. pose proof Hv as (Hi & Hs & _).
  destruct (step_same v s' Hi Hs Hs' Hdw Htw) as (Hi' & Hsp' & Hp & Hpart); [by eapply data_same_tables|done|].
  fold v' in Hi', Hsp', Hp, Hpart. split; [done|]. split; [done|]. split; [|split].
  - intros p. cbn [up_page space_view]. destruct (user_pageb p) eqn:E; [|done]. apply Hp. by apply user_pageb_spec.
  - intros f o Hf. apply owned_showable in Hf; [|done]. destruct (showable_content v f Hs Hf) as [? [? _]].
    apply byte_same. intros i Hr. by apply Hd.
  - intros f. unfold loose. split; intros [H1 H2]; (split; [done|]); intros l Hl; apply (H2 l); by apply Hpart.
Qed.

Lemma showable_step v v' : same_pages v v' -> (forall f, loose v D f -> loose v' D f) -> forall f, showable v f -> showable v' f.
Proof.
  intros Hp Hl f [Hf [?|(p & fl & Hb & E)]]; (split; [done|]); [left; auto|right]. exists p, fl. split; [done|].
  specialize (Hp p). cbn [up_page space_view] in Hp. rewrite Hb in Hp. congruence.
Qed.

Lemma window_inv v v' : up_inv v -> idle v' -> space v' D -> directories v' = directories v -> walk (vmm v') EW = walk (vmm v) EW -> (forall f, showable v f -> showable v' f) ->
  up_inv v' /\ up_window v' = up_window v.
Proof.
  intros (_ & _ & Hw & Hdir) Hi Hs Hd E Hsh. split; [|cbn; by rewrite E]. split; [done|]. split; [done|]. rewrite E.
  split; [|congruence].
  destruct Hw as [?|(f & ? & ?)]; [by left|right; exists f; auto].
Qed.

Lemma frames_directories v s' : frames_changed (vmm v) s' -> directories (set_vmm s' v) = directories v.
Proof. intros [_ _ Hc Hk]. unfold directories. cbn. by rewrite Hc, Hk. Qed.

Lemma space_alloc_ok v : up_inv v ->
  wp up_alloc v (fun f v' => up_inv v' /\ (1 <= up_room v -> f <> 0) /\ (0 <= up_room v -> up_room v - 1 <= up_room v') /\
    up_window v' = up_window v /\ same_bytes v v' /\ same_pages v v' /\
    (f = 0 /\ same_held v v' \/
     page_address f /\ ~ owned v f /\ (forall g, up_held v' g <-> up_held v g \/ g = f))).
Proof.
  intros Hv. pose proof Hv as (Hi & Hs & _). change up_alloc with (pmm_alloc (F := F)). unfold pmm_alloc. apply wp_zoom.
  change (lget v) with (vmm v). eapply wp_mono; [apply take_frame, Hi|]. cbv beta.
  intros f s' [(-> & Hr & ->)|(Hf & Hav & Hnf & Hfc & Hr & Hh & _)].
  - replace (lset (vmm v) v) with v by (by destruct v). change (up_room v) with (room (vmm v)). split; [done|]. split; [lia|]. split; [lia|].
    do 3 (split; [done|]). by left.
  - change (lset s' v) with (set_vmm s' v). destruct (frames_changed_same _ _ Hfc) as (Hrd & _ & Hwk).
    destruct (quiet_step v s' Hv (fc_wf _ _ Hfc)) as (Hi' & Hs' & Hp & Hb & Hl).
    { rewrite Hwk. apply Hi. } { rewrite Hwk. apply Hi. } { intros; apply Hrd. } { intros l g Hg. apply Hh. left. by eapply so_frame. }
    assert (forall g, loose (set_vmm s' v) D g <-> loose v D g \/ g = f) as Hlo.
    { intros g. rewrite Hl, Hh. unfold loose. split; [intros [[?| ->] ?]; auto|]. intros [[? ?]| ->]; [auto|].
      split; [by right|]. intros l Hp'. by destruct (so_frame _ _ _ Hs l f Hp'). }
    destruct (window_inv v (set_vmm s' v) Hv Hi' Hs') as [Hv' Hw]; [by apply frames_directories|apply Hwk|apply showable_step; [done|]; intros g ?; apply Hlo; by left|].
    split; [done|]. split; [intros _; destruct Hf; lia|]. split; [intros _; change (up_room (set_vmm s' v)) with (room s'); change (up_room v) with (room (vmm v)); lia|].
    do 3 (split; [done|]). right. split; [done|]. split.
    + intros Ho. apply owned_showable in Ho; [|done]. by destruct (showable_content v f Hs Ho) as [_ [? _]].
    + intros g. cbn [up_held space_view]. rewrite Hlo. naive_solver.
Qed.

Lemma space_free_ok f v : up_inv v -> up_held v f -> up_window v = None ->
  wp (up_free f) v (fun ok v' => ok = true /\ up_inv v' /\ same_bytes v v' /\ same_pages v v' /\
    up_window v' = None /\ (0 <= up_room v -> up_room v <= up_room v') /\
    (forall g, up_held v' g <-> up_held v g /\ g <> f)).
Proof.
  intros Hv [Hf Hlf] Hwin. pose proof Hv as (Hi & Hs & _). destruct (window_state v Hv) as [[_ Hwn]|(? & E & _)]; [|congruence].
  change (up_free f) with (pmm_free (F := F) f). unfold pmm_free. apply wp_zoom.
  change (lget v) with (vmm v). eapply wp_mono; [apply return_frame; [apply Hi|done|apply Hlf]|]. cbv beta.
  intros ok s' (-> & Hfc & Hr & Hh & _). split; [done|]. change (lset s' v) with (set_vmm s' v).
  destruct (frames_changed_same _ _ Hfc) as (Hrd & _ & Hwk).
  destruct (quiet_step v s' Hv (fc_wf _ _ Hfc)) as (Hi' & Hs' & Hp & Hb & Hl).
  { rewrite Hwk. apply Hi. } { rewrite Hwk. apply Hi. } { intros; apply Hrd. }
  { intros l g Hg. apply Hh. split; [by eapply so_frame|]. intros ->. by destruct Hlf as [_ Hn]; apply (Hn l). }
  split; [split; [done|]; split; [done|]; split; [left; cbn; by rewrite Hwk|]; rewrite frames_directories by done; apply Hv|]. split; [done|]. split; [done|].
  split; [cbn; by rewrite Hwk, Hwn|]. split; [intros _; change (up_room (set_vmm s' v)) with (room s'); change (up_room v) with (room (vmm v)); lia|].
  intros g. cbn [up_held space_view]. rewrite Hl, Hh. unfold loose. tauto.
Qed.

(** ** The load window *)

Lemma kept_quiet v s' : up_inv v -> wf s' -> (forall b, client_held s' b <-> client_held (vmm v) b) -> kept (vmm v) 835 s' ->
  others_same (vmm v) s' EW ->
  let v' := set_vmm s' v in
  idle v' /\ space v' D /\ same_pages v v' /\ same_bytes v v' /\ same_held v v' /\ up_room v' = up_room v /\ directories v' = active.
Proof.
  intros Hv Hs' Hh Hk Ho v'. pose proof Hv as (Hi & Hs & _).
  destruct (quiet_step v s' Hv Hs') as (Hi' & Hsp' & Hp & Hb & Hl).
  { rewrite Ho; [apply Hi|vm_compute; naive_solver|done|done]. } { rewrite Ho; [apply Hi|vm_compute; naive_solver|done|done]. }
  { intros b i Hb Hc Hr. apply (kept_data _ _ _ Hk); [done|by apply client_untouched; [apply Hi|]|done]. }
  { intros l f Hf. apply Hh. by eapply so_frame. }
  do 4 (split; [done|]). split; [|split; [exact (kept_room _ _ _ ltac:(by right) Hk)|]].
  2:{ destruct Hv as (_ & _ & _ & <-). destruct (kept_regs _ _ _ Hk) as [Hc Hkd]. unfold directories, v'. cbn. by rewrite Hc, Hkd. }
  intros f. cbn [up_held space_view]. fold v' in Hl. rewrite Hl, Hh. done.
Qed.

Lemma showable_same v v' f : same_pages v v' -> same_held v v' -> showable v f -> showable v' f.
Proof.
  intros Hp Hh [Hf [Hl|(p & fl & Hb & E)]]; (split; [done|]); [left; by apply (Hh f)|right]. exists p, fl. split; [done|].
  specialize (Hp p). cbn [up_page space_view] in Hp. rewrite Hb in Hp. congruence.
Qed.

Lemma space_window_map_ok f v : up_inv v -> up_window v = None -> owned v f ->
  wp (up_window_map f) v (fun ok v' => up_inv v' /\ (0 <= up_room v -> ok = true) /\ up_room v' = up_room v /\
    same_bytes v v' /\ same_pages v v' /\ same_held v v' /\ up_window v' = if ok : bool then Some f else None).
Proof.
  intros Hv Hwin Hown. pose proof Hv as (Hi & Hs & _). destruct (window_state v Hv) as [[_ Hwn]|(? & E & _)]; [|congruence].
  apply owned_showable in Hown as Hsh; [|done]. pose proof Hsh as [Hf _].
  change (up_window_map f) with (zoom (S := spaces F) (vmm_map (F := F) EW f VMM_WRITABLE)). apply wp_zoom. change (lget v) with (vmm v).
  wp_apply (window_map (vmm v) EW f); [apply Hi|by right; right|done|done|]. intros ok s' (Hs' & Hh & Hk & Ho & Hw).
  change (lset s' v) with (set_vmm s' v). destruct (kept_quiet v s' Hv Hs' Hh Hk Ho) as (Hi' & Hsp' & Hp & Hb & Hhl & Hr & Hdir).
  split; [|split; [|split; [done|split; [done|split; [done|split; [done|]]]]]].
  - split; [done|]. split; [done|]. split; [|done]. cbn [vmm set_vmm]. destruct ok; [right|left; apply Hw]. exists f. split; [done|]. by eapply showable_same.
  - destruct ok; [done|]. destruct Hw as [_ Hsp]. change (up_room v) with (room (vmm v)). unfold room, spare in *. change (dir_index EW) with 835 in Hsp.
    unfold present_bit. pose proof (fa_count_nonneg _ (wf_fa _ (id_wf _ Hi))). intros Hr0.
    destruct (present (pde (vmm v) 835)), (present (pde (vmm v) 834)); lia.
  - cbn [up_window space_view vmm set_vmm]. destruct ok; [rewrite Hw; cbn; by rewrite entry3|destruct Hw as [-> _]; done].
Qed.

Lemma space_window_unmap_ok f v : up_inv v -> up_window v = Some f ->
  wp up_window_unmap v (fun r v' => r = Some f /\ up_inv v' /\ up_room v' = up_room v /\
    same_bytes v v' /\ same_pages v v' /\ same_held v v' /\ up_window v' = None).
Proof.
  intros Hv Hwin. pose proof Hv as (Hi & Hs & _). destruct (window_state v Hv) as [[E _]|(g & E & Hwn & Hsh)]; [congruence|].
  assert (g = f) as -> by congruence. pose proof Hsh as [Hf _].
  change up_window_unmap with (zoom (S := spaces F) (vmm_unmap (F := F) EW)). apply wp_zoom. change (lget v) with (vmm v).
  wp_apply (window_unmap (vmm v) EW f); [apply Hi|by right; right|done|done|]. intros r s' (-> & Hs' & Hh & Hk & Ho & Hw).
  change (lset s' v) with (set_vmm s' v). destruct (kept_quiet v s' Hv Hs' Hh Hk Ho) as (Hi' & Hsp' & Hp & Hb & Hhl & Hr & Hdir).
  split; [done|]. split; [split; [done|]; split; [done|]; split; [by left|done]|]. do 4 (split; [done|]). cbn [up_window space_view vmm set_vmm]. by rewrite Hw.
Qed.

Lemma space_store_ok f o b v : up_inv v -> up_window v = Some f -> 0 <= o < 4096 -> 0 <= b < 256 ->
  wp (up_store o b) v (fun _ v' => up_inv v' /\ up_room v' = up_room v /\
    same_pages v v' /\ same_held v v' /\ up_window v' = up_window v /\
    forall g o', owned v g -> up_byte v' g o' = if (g =? f) && (o' =? o) then b else up_byte v g o').
Proof.
  intros Hv Hwin Hor Hbr. pose proof Hv as (Hi & Hs & _). destruct (window_state v Hv) as [[E _]|(g & E & Hwn & Hsh)]; [congruence|].
  assert (g = f) as -> by congruence. destruct (showable_content v f Hs Hsh) as [Hf Hct]. pose proof Hct as (Hfh & _ & _).
  change (up_store o b) with (zoom (S := spaces F) (store_byte (EW + o) b)). apply wp_zoom. change (lget v) with (vmm v).
  unfold wp, store_byte. rewrite (translate_byte (vmm v) true EW f o); [|apply Hi|vm_compute; naive_solver|done|done|done|done].
  pose proof Hf as [Hfr Hfa]. replace ((f + o) / 4 * 4) with (f + 4 * (o / 4)) by word_lia. replace ((f + o) mod 4) with (o mod 4) by word_lia.
  assert (0 <= o / 4 < 1024) as Hw4 by word_lia. set (w := with_byte (rd (vmm v) (f + 4 * (o / 4))) (o mod 4) b).
  destruct (poke_client (vmm v) f (o / 4) w (id_wf _ Hi) Hf Hfh Hw4) as (Hs' & Hwk & Hpde & Hh). set (s' := poke (f + 4 * (o / 4)) w (vmm v)) in *.
  change (lset s' v) with (set_vmm s' v).
  assert (same_tables (rd (vmm v)) (rd s') D) as Hst.
  { pose proof (content_words v f (o / 4) Hf Hct Hw4 Hs w) as Hst. unfold same_tables in *. destruct Hst as [H1 H2]. unfold s'. split.
    - intros d Hd. rewrite rd_poke, Z.eqb_sym. apply (H1 d Hd).
    - intros d T t Hd Ht HT. rewrite rd_poke, Z.eqb_sym. by apply (H2 d T t). }
  destruct (step_same v s' Hi Hs Hs') as (Hi' & Hsp' & Hp & Hpart).
  { rewrite Hwk by (vm_compute; naive_solver). apply Hi. } { rewrite Hwk by (vm_compute; naive_solver). apply Hi. } { done. }
  { intros l g Hg. apply Hh. by eapply so_frame. }
  assert (same_pages v (set_vmm s' v)) as Hpg.
  { intros p. cbn [up_page space_view]. destruct (user_pageb p) eqn:E'; [|done]. apply Hp. by apply user_pageb_spec. }
  assert (same_held v (set_vmm s' v)) as Hhl.
  { intros g. cbn [up_held space_view]. unfold loose. cbn [vmm set_vmm]. rewrite Hh.
    split; intros (? & ? & Hn); (split; [done|]); (split; [done|]); intros l Hl; apply (Hn l); by apply Hpart. }
  destruct (window_inv v (set_vmm s' v) Hv Hi' Hsp') as [Hv' Hw]; [done|..].
  { apply Hwk. vm_compute. naive_solver. } { intros g. by apply showable_same. }
  split; [done|]. split; [change (up_room ?x) with (room (vmm x)); unfold room; cbn [vmm set_vmm]; by rewrite !Hpde by lia|].
  do 3 (split; [done|]). intros g o' Hg. apply owned_showable in Hg; [|done]. destruct (showable_content v g Hs Hg) as [[_ Hga] _].
  cbn [up_byte space_view vmm set_vmm]. destruct (Z.leb_spec 0 o'), (Z.ltb_spec o' 4096); cbn [andb];
    try (destruct (Z.eqb_spec o' o); [lia|by rewrite andb_false_r]).
  unfold s'. rewrite rd_poke. destruct (Z.eqb_spec (f + 4 * (o / 4)) (g + 4 * (o' / 4))) as [Ew|Ew].
  - apply word_inj in Ew as [<- Ew]; [|done|done|done|word_lia]. rewrite Z.eqb_refl. cbn [andb]. unfold w.
    rewrite byte_of_with by word_lia. rewrite <-Ew. destruct (Z.eqb_spec (o' mod 4) (o mod 4)), (Z.eqb_spec o' o); try done; word_lia.
  - destruct (Z.eqb_spec g f) as [->|]; [|done]. destruct (Z.eqb_spec o' o) as [->|]; [by destruct Ew|done].
Qed.

#[local] Instance space_pages : UserPages (spaces F).
Proof.
  split.
  - intros v p f fl (_ & Hs & _) Hp. cbn [up_page space_view] in Hp. destruct (user_pageb p) eqn:E; [|done].
    apply user_pageb_spec in E as [Hu _]. destruct (user_index p Hu) as [Hd Ht]. pose proof (part_page _ _ _ _ _ _ Hd Ht Hp) as Hpt.
    split; [by apply (so_frame _ _ _ Hs _ _ Hpt)|]. intros [_ [_ Hn]]. by apply (Hn (LPage (dir_index p) (table_index p))).
  - intros v p q f fl fl' (_ & Hs & _) Hp Hq. cbn [up_page space_view] in Hp, Hq. destruct (user_pageb p) eqn:Ep; [|done]. destruct (user_pageb q) eqn:Eq; [|done].
    apply user_pageb_spec in Ep as [Hu Ha], Eq as [Hu' Ha']. destruct (user_index p Hu) as [Hd Ht], (user_index q Hu') as [Hd' Ht'].
    pose proof (so_inj _ _ _ Hs _ _ _ (part_page _ _ _ _ _ _ Hd Ht Hp) (part_page _ _ _ _ _ _ Hd' Ht' Hq)) as E. injection E as E1 E2.
    by apply user_page_inj.
  - exact space_query_ok.
  - exact space_protect_ok.
  - exact space_map_ok.
  - exact space_alloc_ok.
  - exact space_free_ok.
  - exact space_window_map_ok.
  - exact space_window_unmap_ok.
  - exact space_store_ok.
Qed.

End user.
End AddressSpaceUser.
