(* ===== verification/AddressSpaceExec.v ===== *)
(** * A program in memory

    The loader of kernel/proc/elf.c on top of the address spaces, and the switch
    to the space it filled: what the processor then sees is the program. *)

From S2P Require Import Prelude Monad Interfaces Bytes Cpu Vmm VmmSpec Block MiniFs Elf ElfSpec ElfLoad AddressSpace AddressSpaceWindow AddressSpaceTables AddressSpaceSpec AddressSpaceSwitch AddressSpaceUser.
Import MiniFs(result(..), EIO).

Module AddressSpaceExec.
Import Vmm AddressSpace AddressSpaceWindow AddressSpaceTables AddressSpaceSpec AddressSpaceSwitch AddressSpaceUser.

Section exec.
Context {F : Type} `{!FrameAllocator F}.
Implicit Types v : spaces F.

(** User memory through the processor's page walk. *)
Definition cpu_read v (a : Z) : option Z :=
  match walk (vmm v) (ElfLoad.page_of a) with
  | Some e => let o := a mod 4096 in Some (byte_of (rd (vmm v) (entry_frame e + 4 * (o / 4))) (o mod 4))
  | None => None
  end.
Definition cpu_can_write v (a : Z) : bool :=
  match walk (vmm v) (ElfLoad.page_of a) with Some e => Z.testbit e 1 | None => false end.

Section space.
Context (D : Z) (active : Z * Z).
#[local] Instance ops : UserPageOps (spaces F) := space_ops D.
#[local] Instance view : UserPageView (spaces F) := space_view D active.
#[local] Instance laws : UserPages (spaces F) := space_pages D active.

(** The switch shows the processor the memory the loader wrote. *)
Lemma activated_memory v v' : up_inv v -> activated v D v' -> forall a, 0 <= a < Elf.KERNEL_BASE ->
  cpu_read v' a = ElfLoad.user_read v a /\ cpu_can_write v' a = ElfLoad.user_can_write v a.
Proof.
  intros (_ & Hs & _) Hac a Ha. unfold cpu_read, cpu_can_write, ElfLoad.user_read, ElfLoad.user_can_write, ElfLoad.page_of.
  assert (user_va (a / 4096 * 4096)) as Hp by (unfold user_va, KERNEL_BASE; unfold Elf.KERNEL_BASE in Ha; word_lia).
  set (p := a / 4096 * 4096) in *.
  assert (up_page v p = page_at v D p) as ->.
  { cbn. assert (user_pageb p = true) as ->; [|done]. apply user_pageb_spec. split; [done|]. unfold p. by apply Z.mod_mul. }
  pose proof (ac_user _ _ _ Hac p Hp) as E. destruct (walk (vmm v') p) as [e|]; [|rewrite <-E; done].
  apply eq_sym in E. change (page_at v D p = Some (entry_frame e, Z.land e 6)) in E. rewrite E.
  destruct (user_index p Hp) as [Hd Ht].
  split.
  - assert (0 <= a mod 4096 < 4096) as Ho by (apply Z.mod_pos_bound; lia).
    cbn [up_byte view space_view]. rewrite (proj2 (Z.leb_le 0 _)), (proj2 (Z.ltb_lt _ 4096)) by lia. cbn [andb]. f_equal. f_equal.
    apply (ac_data _ _ _ Hac); [|by eapply content_page|word_lia].
    by apply (so_frame _ _ _ Hs _ _ (part_page _ _ _ _ _ _ Hd Ht E)).
  - by rewrite Z.land_spec, andb_true_r.
Qed.

(** A space without pages, in the context of the kernel. *)
Record ready_to_load v : Prop := {
  rl_idle : idle v;
  rl_space : space v D;
  rl_empty : forall p, user_va p -> page_at v D p = None;
  rl_window : walk (vmm v) EW = None;
  rl_directories : active = (cr3 (vmm v), cr3 (vmm v)) /\ kernel_page_directory_physical (vmm v) = cr3 (vmm v)
}.

Lemma ready_fresh v : ready_to_load v -> ElfLoad.fresh_space v.
Proof.
  intros [Hi Hs He Hw [Ha Hk]]. split.
  - split; [done|]. split; [done|]. split; [by left|]. unfold directories. by rewrite Hk, Ha.
  - cbn. by rewrite Hw.
  - intros p [Hu _]. cbn. destruct (user_pageb p); [by apply He|done].
Qed.

Lemma kernel_context v : idle v -> kernel_page_directory_physical (vmm v) = cr3 (vmm v) ->
  kernel_directory (vmm v) (kernel_page_directory_physical (vmm v)) /\ in_step (vmm v) (kernel_page_directory_physical (vmm v)).
Proof.
  intros [Hs _ _ _ _] E. split; [|rewrite E; apply in_step_self]. split; [done|]. rewrite E. split; [apply Hs|by left].
Qed.


End space.
End exec.
End AddressSpaceExec.
