(* ===== verification/AddressSpaceDemo.v ===== *)
(** * An address space of the booted kernel

    The kernel of MemoryBoot.v creates an address space, loads the executable of
    ElfDemo.v into it, switches to it and destroys one. *)

From S2P Require Import Prelude Monad Interfaces Bytes Cpu Pmm Vmm VmmSpec MemoryBoot Block MiniFs Elf ElfSpec ElfLoad ElfDemo AddressSpace AddressSpaceWindow AddressSpaceTables AddressSpaceSpec AddressSpaceLife AddressSpaceSwitch AddressSpaceRefine AddressSpaceUser AddressSpaceExec.
Import MiniFs(result(..), EIO).

Module AddressSpaceDemo.
#[local] Existing Instance Pmm.pmm_frame_allocator.
Import Vmm AddressSpace AddressSpaceWindow AddressSpaceTables AddressSpaceSpec AddressSpaceLife AddressSpaceSwitch AddressSpaceRefine AddressSpaceUser AddressSpaceExec.

Definition booted : spaces Pmm.state := Spaces demo_vmm false 0 (Cpu.State 0x202).

Lemma booted_idle : idle booted.
Proof. split; [apply demo_vmm_wf|unfold Cpu.wf; cbn; lia|done|vm_compute; done|vm_compute; done]. Qed.

Lemma booted_kernel : kernel_page_directory_physical (vmm booted) = cr3 (vmm booted).
Proof. vm_compute. done. Qed.

(** The self test the kernel runs at boot passes. *)
Example self_test_passes_here : match vmm_address_space_self_test booted with Ret b _ => b = true | _ => False end.
Proof. vm_compute. reflexivity. Qed.

(** ** A new space *)

Definition made : Z * spaces Pmm.state :=
  match vmm_address_space_create (Some 0) booted with Ret (Some D) v => (D, v) | _ => (0, booted) end.
Definition dir : Z := fst made.
Definition fresh : spaces Pmm.state := snd made.

Lemma fresh_created : created booted dir fresh.
Proof.
  destruct (proj1 (wp_run _ _ _) (space_create_ok booted booted_idle (proj1 (kernel_context booted booted_idle booted_kernel)))) as (o & v & E & Hpost).
  unfold dir, fresh, made. rewrite E. destruct o as [D|]; [exact Hpost|]. exfalso. destruct Hpost as [_ Hr]. revert Hr. vm_compute. done.
Qed.

Lemma fresh_space : space fresh dir /\ (forall p, user_va p -> page_at fresh dir p = None) /\
  (forall f, loose fresh dir f <-> client_held (vmm booted) f).
Proof. apply (created_space booted), fresh_created. Qed.

Lemma fresh_idle : idle fresh.
Proof. apply (cr_idle _ _ _ fresh_created). Qed.

Lemma fresh_kernel : kernel_page_directory_physical (vmm fresh) = cr3 (vmm fresh).
Proof. rewrite (cr_kernel _ _ _ fresh_created), (cr_cr3 _ _ _ fresh_created). apply booted_kernel. Qed.

Definition directories_now : Z * Z := (cr3 (vmm fresh), cr3 (vmm fresh)).

Lemma fresh_ready : ready_to_load dir directories_now fresh.
Proof.
  destruct fresh_space as (Hs & He & _). split; [apply fresh_idle|done|done| |split; [done|apply fresh_kernel]].
  rewrite (cr_walk _ _ _ fresh_created); [by vm_compute|vm_compute; naive_solver|done|done|done].
Qed.

(** ** A frame to map *)

#[local] Instance demo_ops : UserPageOps (spaces Pmm.state) := space_ops dir.
#[local] Instance demo_view : UserPageView (spaces Pmm.state) := space_view dir directories_now.
#[local] Instance demo_laws : UserPages (spaces Pmm.state) := space_pages dir directories_now.

Definition taken : Z * spaces Pmm.state := match up_alloc fresh with Ret f v => (f, v) | _ => (0, fresh) end.
Definition frame : Z := fst taken.
Definition owner : spaces Pmm.state := snd taken.

Lemma owner_ok : idle owner /\ space owner dir /\ page_address frame /\ loose owner dir frame.
Proof.
  destruct (ready_fresh _ _ fresh fresh_ready) as [Hinv _ _].
  destruct (proj1 (wp_run _ _ _) (up_alloc_ok fresh Hinv)) as (f & v & E & (Hv & Hne & _ & _ & _ & _ & Hf)).
  assert (taken = (f, v)) as Et by exact (f_equal (fun o => match o with Ret f v => (f, v) | _ => (0, fresh) end) E).
  unfold frame, owner. rewrite Et. cbn [fst snd]. destruct Hv as (Hi & Hs & _). split; [done|]. split; [done|].
  destruct Hf as [[-> _]|(Hf & _ & Hh)]; [exfalso; apply Hne; [|done]; vm_compute; done|].
  apply (proj2 (Hh f)). by right.
Qed.

(** ** The theorems at work *)

Lemma address_space_refines_map_witness :
  wp (perform dir (CMap 0x400000 frame VMM_WRITABLE)) owner (fun r v' =>
    common owner dir v' /\ outcome dir owner (CMap 0x400000 frame VMM_WRITABLE) r v').
Proof.
  apply (address_space_refines_map dir owner (CMap 0x400000 frame VMM_WRITABLE)); [apply owner_ok|apply owner_ok|].
  split; [split; [lia|done]|]. split; [done|]. apply owner_ok.
Defined.

(** The page is mapped, found and unmapped again, on the page tables. *)
Example map_query_unmap :
  match (let! a := perform dir (CMap 0x400000 frame VMM_WRITABLE) in
         let! b := perform dir (CQuery 0x400123) in
         let! c := perform dir (CUnmap 0x400000) in
         let! d := perform dir (CUnmap 0x400000) in ret [a; b; c; d]) owner with
  | Ret l _ => l = [RBool true; RQuery (Some (frame + 0x123, 6)); RFrame (Some frame); RFrame None]
  | _ => False
  end.
Proof. vm_compute. reflexivity. Qed.

Lemma address_space_destroy_exact_witness :
  wp (vmm_address_space_destroy (Some dir)) fresh (fun ok v' =>
    if ok : bool then destroyed fresh dir v' else unchanged fresh dir v' /\ room (vmm fresh) < 0) /\ 0 <= room (vmm fresh).
Proof.
  split; [apply (address_space_destroy_exact fresh dir); [apply fresh_idle|apply fresh_space]|]. vm_compute. done.
Defined.



(** The bytes the processor finds after the switch. *)
Example program_runs :
  match (let! r := Elf.elf_load_image true true ElfDemo.tiny in let! ok := vmm_address_space_activate (Some dir) in ret (r, ok)) fresh with
  | Ret (Ok e, true) v => e = 0x400074 /\ map (cpu_read v) [0x400073; 0x400074; 0x400077; 0x400078; 0x400079; 0x401000] =
      [Some 0; Some 0xCD; Some 17; Some 18; Some 0; None] /\ cpu_can_write v 0x400077 = true
  | _ => False
  end.
Proof. vm_compute. done. Qed.

End AddressSpaceDemo.
