(* ===== verification/Usercopy.v ===== *)
(** * Access to user memory, kernel/mm/usercopy.c

    The routines through which system calls read and write the memory of the
    process that runs. A range is checked page by page with [vmm_query] and then
    accessed byte by byte through the processor's page walk: a byte the walk
    refuses is a [Fault]. A buffer of the kernel is a list of bytes; the routines
    that fill one return their result and what they stored from its start on.
    The proofs are in UsercopySpec.v. *)

From S2P Require Import Prelude Monad Interfaces Bytes Vmm VmmSpec AddressSpaceUser.

Module Usercopy.
Import Vmm AddressSpaceUser.

Definition USERCOPY_TEST_VIRTUAL : Z := 0x00800000.
Definition EFAULT : Z := 14.

Inductive user_access := USER_ACCESS_READ | USER_ACCESS_WRITE.

#[export] Instance user_access_eq_dec : EqDecision user_access.
Proof. solve_decision. Defined.

Section usercopy.
Context {F : Type} `{!FrameAllocator F}.

(** A byte load through the page walk. *)
Definition load_byte (va : Z) : M (Vmm.state F) Z := fun s =>
  match translate s false va with
  | Some pa => Ret (byte_of (rd s (pa / 4 * 4)) (pa mod 4)) s
  | None => Fault
  end.

Definition access_refused (access : user_access) (r : option (Z * Z)) : bool :=
  match r with
  | None => true
  | Some (_, flags) =>
      (Z.land flags VMM_USER =? 0) ||
      (bool_decide (access = USER_ACCESS_WRITE) && (Z.land flags VMM_WRITABLE =? 0))
  end.

(** The loop visits at most one page more than the range has whole ones. *)
Definition validate_user_range (user_pointer length : Z) (access : user_access) : M (Vmm.state F) bool :=
  let start := user_pointer in
  if length =? 0 then ret true else
  if (KERNEL_BASE <=? start) || (KERNEL_BASE - start <? length) then ret false else
  let end_ := start +u length -u 1 in
  while_ (Z.to_nat (length / PAGE_SIZE + 2)) (fun page =>
    let! r := vmm_query page in
    if access_refused access r then ret (inr false) else
    if page =? Z.land end_ PAGE_MASK then ret (inr true) else
    ret (inl (page +u PAGE_SIZE))) (Z.land start PAGE_MASK).

(** [destination] tells whether the pointer of the caller is not null. *)
Definition copy_from_user (destination : bool) (user_source length : Z) : M (Vmm.state F) (Z * list Z) :=
  if length =? 0 then ret (0, []) else
  let! refused := orM (ret (negb destination)) (notM (validate_user_range user_source length USER_ACCESS_READ)) in
  if refused : bool then ret (- EFAULT, []) else
  let! copied := for_acc (Z.to_nat length) 0 [] (fun index copied =>
    let! value := load_byte (user_source +u index) in ret (copied ++ [value])) in
  ret (0, copied).

(** [kernel_source] is the buffer of the caller, [None] a null pointer. *)
Definition copy_to_user (user_destination : Z) (kernel_source : option (list Z)) (length : Z) : M (Vmm.state F) Z :=
  if length =? 0 then ret 0 else
  match kernel_source with
  | None => ret (- EFAULT)
  | Some source =>
      let! valid := validate_user_range user_destination length USER_ACCESS_WRITE in
      if negb valid then ret (- EFAULT) else
      for_range (Z.to_nat length) 0 (fun index =>
        let! value := access (source !! Z.to_nat index) in
        store_byte (user_destination +u index) value) ;;
      ret 0
  end.

(** One byte of a chunk; [inr true] is the terminator. *)
Definition string_byte (current_address chunk : Z) (x : Z * list Z) : M (Vmm.state F) ((Z * list Z) + (bool * list Z)) :=
  let '(local, copied) := x in
  if negb (local <? chunk) then ret (inr (false, copied)) else
  let! value := load_byte (current_address +u local) in
  if value =? 0 then ret (inr (true, copied ++ [value])) else
  ret (inl (local + 1, copied ++ [value])).

(** One chunk: up to the end of a page. *)
Definition string_chunk (start remaining_user maximum_length : Z) (x : Z * list Z)
    : M (Vmm.state F) ((Z * list Z) + (Z * list Z)) :=
  let '(index, copied) := x in
  if negb (index <? maximum_length) then ret (inr (- EFAULT, copied)) else
  let current_address := start +u index in
  let page_offset := Z.land current_address (PAGE_SIZE - 1) in
  let chunk := PAGE_SIZE - page_offset in
  if remaining_user <=? index then ret (inr (- EFAULT, copied)) else
  let chunk := if maximum_length - index <? chunk then maximum_length - index else chunk in
  let chunk := if remaining_user - index <? chunk then remaining_user - index else chunk in
  let! valid := validate_user_range current_address chunk USER_ACCESS_READ in
  if negb valid then ret (inr (- EFAULT, copied)) else
  let! r := while_ (Z.to_nat chunk + 1) (string_byte current_address chunk) (0, copied) in
  if fst r : bool then ret (inr (0, snd r)) else ret (inl (index + chunk, snd r)).

Definition copy_user_string (destination : bool) (user_source maximum_length : Z) : M (Vmm.state F) (Z * list Z) :=
  let start := user_source in
  if negb destination || (maximum_length =? 0) || (KERNEL_BASE <=? start) then ret (- EFAULT, []) else
  let remaining_user := KERNEL_BASE - start in
  while_ (Z.to_nat (maximum_length + 1)) (string_chunk start remaining_user maximum_length) (0, []).

(** ** The self test *)

Definition T : Z := USERCOPY_TEST_VIRTUAL.
Definition BOUNDARY : Z := KERNEL_BASE - PAGE_SIZE.

(** A call whose result is compared with 0 and whose buffer is then inspected. *)
Definition fills (m : M (Vmm.state F) (Z * list Z)) (expected : list (Z * Z)) : M (Vmm.state F) bool :=
  let! r := m in
  ret ((fst r =? 0) && forallb (fun '(i, c) => byte_at (snd r) i =? c) expected).
Definition gives (m : M (Vmm.state F) Z) (v : Z) : M (Vmm.state F) bool := let! r := m in ret (r =? v).
Definition shows (a c : Z) : M (Vmm.state F) bool := let! v := load_byte a in ret (v =? c).

Definition self_test_maps (w w2 ro bd : Z) : M (Vmm.state F) bool :=
  andM (ret (negb ((w =? 0) || (w2 =? 0) || (ro =? 0) || (bd =? 0))))
    (andM (vmm_map T w (Z.lor VMM_USER VMM_WRITABLE))
    (andM (vmm_map (T + PAGE_SIZE) w2 (Z.lor VMM_USER VMM_WRITABLE))
    (andM (vmm_map (T + 3 * PAGE_SIZE) ro VMM_USER)
          (vmm_map BOUNDARY bd (Z.lor VMM_USER VMM_WRITABLE))))).

(** "orange" and the bytes at the page ends; 79, 83, 0 is "OS". *)
Definition self_test_fill : M (Vmm.state F) unit :=
  store_byte T 111 ;; store_byte (T + 1) 114 ;; store_byte (T + 2) 97 ;; store_byte (T + 3) 110 ;;
  store_byte (T + 4) 103 ;; store_byte (T + 5) 101 ;; store_byte (T + 6) 0 ;;
  store_byte (T + PAGE_SIZE - 2) 65 ;; store_byte (T + PAGE_SIZE - 1) 66 ;;
  store_byte (T + PAGE_SIZE) 67 ;; store_byte (T + PAGE_SIZE + 1) 68 ;;
  store_byte (T + 2 * PAGE_SIZE - 1) 0 ;;
  store_byte (BOUNDARY + PAGE_SIZE - 1) 0.

Definition self_test_source : list Z := [79; 83; 0].

Definition self_test_copies : M (Vmm.state F) bool :=
  andM (fills (copy_from_user true T 7) [(0, 111); (5, 101); (6, 0)])
  (andM (gives (copy_to_user (T + 16) (Some self_test_source) 3) 0)
  (andM (shows (T + 16) 79) (andM (shows (T + 17) 83)
  (andM (fills (copy_user_string true T 8) [(0, 111); (6, 0)])
  (andM (fills (copy_from_user true (T + PAGE_SIZE - 2) 4) [(0, 65); (1, 66); (2, 67); (3, 68)])
  (andM (gives (copy_to_user (T + PAGE_SIZE - 1) (Some self_test_source) 3) 0)
  (andM (shows (T + PAGE_SIZE - 1) 79) (andM (shows (T + PAGE_SIZE) 83) (andM (shows (T + PAGE_SIZE + 1) 0)
  (andM (fills (copy_user_string true (T + 2 * PAGE_SIZE - 1) 8) [(0, 0)])
  (andM (fills (copy_user_string true (KERNEL_BASE - 1) 8) [(0, 0)])
  (andM (gives (copy_to_user (T + 3 * PAGE_SIZE) (Some self_test_source) 3) (- EFAULT))
  (andM (let! r := copy_from_user true (T + 4 * PAGE_SIZE) 1 in ret (fst r =? - EFAULT))
  (andM (notM (validate_user_range 0xBFFFFFF0 32 USER_ACCESS_READ))
        (let! r := copy_from_user false 0 0 in ret (fst r =? 0)))))))))))))))).

Definition self_test_release (va physical : Z) : M (Vmm.state F) bool :=
  let! unmapped := vmm_unmap va in
  match unmapped with
  | None => ret false
  | Some f => andM (ret (f =? physical)) (zoom (fa_free physical))
  end.

Definition usercopy_self_test : M (Vmm.state F) bool :=
  let! before := gets (fun s => fa_count (frames s)) in
  let! writable_physical := zoom fa_alloc in
  let! writable_second_physical := zoom fa_alloc in
  let! readonly_physical := zoom fa_alloc in
  let! boundary_physical := zoom fa_alloc in
  let! mapped := self_test_maps writable_physical writable_second_physical readonly_physical boundary_physical in
  if negb mapped then ret false else
  self_test_fill ;;
  let! passed := self_test_copies in
  let! released := andM (self_test_release T writable_physical)
    (andM (self_test_release (T + PAGE_SIZE) writable_second_physical)
    (andM (self_test_release (T + 3 * PAGE_SIZE) readonly_physical)
          (self_test_release BOUNDARY boundary_physical))) in
  if negb released then ret false else
  let! after := gets (fun s => fa_count (frames s)) in
  ret (passed && (after =? before)).

End usercopy.
End Usercopy.
