(* ===== verification/UsercopySpec.v ===== *)
(** * Access to user memory: what the checks guarantee

    [user_can s access a]: the running process may access the byte at [a]. The
    checks of usercopy.c decide exactly this for every byte of a range, the
    copies read and write exactly the bytes they were asked for, and no byte
    outside the writable pages of the process is ever changed. *)

From S2P Require Import Prelude Monad Interfaces Bytes Cpu Vmm VmmSpec AddressSpace AddressSpaceWindow AddressSpaceTables AddressSpaceSpec AddressSpaceSwitch AddressSpaceUser Usercopy.

Module UsercopySpec.
Import Vmm AddressSpaceWindow AddressSpaceTables AddressSpaceSpec AddressSpaceUser Usercopy.

Section spec.
Context {F : Type} `{!FrameAllocator F}.
Implicit Types s : Vmm.state F.

(** ** The memory of the process *)

Definition flags_at s (a : Z) : Z :=
  match walk s a with Some e => Z.land (Z.land e (pde s (dir_index a))) 6 | None => 0 end.
Definition user_can s (access : user_access) (a : Z) : Prop :=
  user_va a /\ Z.testbit (flags_at s a) 2 = true /\ (access = USER_ACCESS_WRITE -> Z.testbit (flags_at s a) 1 = true).
Definition user_byte s (a : Z) : Z :=
  match walk s a with
  | Some e => let pa := entry_frame e + a mod 4096 in byte_of (rd s (pa / 4 * 4)) (pa mod 4)
  | None => 0
  end.
Definition user_range s (access : user_access) (p n : Z) : Prop :=
  n = 0 \/ forall a, p <= a < p + n -> user_can s access a.

(** The pages of the process are frames of its own, each mapped once. *)
Record user_ok s : Prop := {
  uo_wf : wf s;
  uo_frame : forall a e, user_va a -> walk s a = Some e -> page_address (entry_frame e) /\ client_held s (entry_frame e);
  uo_inj : forall a b e e', user_va a -> user_va b -> walk s a = Some e -> walk s b = Some e' ->
    entry_frame e = entry_frame e' -> a / 4096 = b / 4096
}.

Lemma same_page a b : a / 4096 = b / 4096 -> dir_index a = dir_index b /\ table_index a = table_index b.
Proof.
  intros E. unfold dir_index, table_index. rewrite !shiftr_22, !shiftr_12, E. split; [|done].
  change 4194304 with (4096 * 1024). by rewrite <-!Z.div_div, E by lia.
Qed.

Lemma walk_same_page s a b : a / 4096 = b / 4096 -> walk s a = walk s b.
Proof. intros E. destruct (same_page a b E) as [E1 E2]. unfold walk. by rewrite E1, E2. Qed.

Lemma flags_same_page s a b : a / 4096 = b / 4096 -> flags_at s a = flags_at s b.
Proof. intros E. unfold flags_at. by rewrite (walk_same_page s a b E), (proj1 (same_page a b E)). Qed.

Lemma can_same_page s access a b : a / 4096 = b / 4096 -> user_va b -> user_can s access a -> user_can s access b.
Proof. intros E Hb (_ & ? & ?). split; [done|]. by rewrite <-(flags_same_page s a b E). Qed.

Lemma can_walk s access a : user_can s access a -> exists e, walk s a = Some e /\
  Z.testbit e 2 = true /\ (access = USER_ACCESS_WRITE -> Z.testbit e 1 = true).
Proof.
  intros (_ & H2 & H1). unfold flags_at in *. destruct (walk s a) as [e|]; [|by rewrite Z.testbit_0_l in H2].
  exists e. rewrite !Z.land_spec in *. split; [done|]. split; [by destruct (Z.testbit e 2)|].
  intros E. specialize (H1 E). by destruct (Z.testbit e 1).
Qed.

Lemma can_read s access a : user_can s access a -> user_can s USER_ACCESS_READ a.
Proof. by intros (? & ? & _). Qed.

Lemma user_below a : user_va a -> below_window a.
Proof. unfold user_va, below_window, KERNEL_BASE, RECURSIVE_PAGE_TABLES. lia. Qed.

Lemma bit_land e k : 0 <= k -> negb (Z.land e (2 ^ k) =? 0) = Z.testbit e k.
Proof.
  intros Hk. destruct (Z.testbit e k) eqn:E.
  - apply negb_true_iff, Z.eqb_neq. intros H0. assert (Z.testbit (Z.land e (2 ^ k)) k = false) as H by (rewrite H0; apply Z.bits_0).
    by rewrite Z.land_spec, E, Z.pow2_bits_true in H.
  - apply negb_false_iff, Z.eqb_eq, Z.bits_inj'. intros i Hi. rewrite Z.land_spec, Z.bits_0, Z.pow2_bits_eqb by lia.
    destruct (Z.eqb_spec k i) as [<-|]; [by rewrite E|apply andb_false_r].
Qed.

Lemma translate_user s w a e : wf s -> user_va a -> walk s a = Some e -> (w = true -> Z.testbit e 1 = true) ->
  translate s w a = Some (entry_frame e + a mod 4096).
Proof.
  intros Hs Ha Hw Hwr. destruct (user_index a Ha) as [Hd Ht]. unfold walk in Hw. unfold translate.
  rewrite cr3_masked by apply Hs. fold (pde s (dir_index a)). destruct (present (pde s (dir_index a))) eqn:Ep; [|done].
  fold (tbl s (dir_index a)). fold (pte s (dir_index a) (table_index a)). cbn [negb].
  destruct (present (pte s (dir_index a) (table_index a))) eqn:Et; [|done]. injection Hw as ->. cbn [negb].
  rewrite (mmu_writable _ (wf_mmu _ Hs)) by (done || lia). change 0xFFF with 4095. rewrite land_low_4095.
  destruct w; [|done]. assert (writable e = true) as ->; [|cbn; by rewrite andb_false_r].
  unfold writable. change PAGE_WRITABLE with (2 ^ 1). rewrite bit_land by lia. by apply Hwr.
Qed.

Lemma load_ok s a (Q : Z -> Vmm.state F -> Prop) : user_ok s -> user_can s USER_ACCESS_READ a ->
  Q (user_byte s a) s -> wp (load_byte a) s Q.
Proof.
  intros Hs Hc HQ. destruct (can_walk _ _ _ Hc) as (e & Hw & _). unfold wp, load_byte.
  rewrite (translate_user s false a e); [|apply Hs|apply Hc|done|done]. unfold user_byte in HQ. by rewrite Hw in HQ.
Qed.

Lemma user_byte_range s a : 0 <= user_byte s a < 256.
Proof.
  unfold user_byte. destruct (walk s a); [|lia]. unfold byte_of. change 255 with (Z.ones 8). rewrite Z.land_ones by lia.
  by apply Z.mod_pos_bound.
Qed.

(** ** Storing *)

(** What a store may touch: words of the pages the process may write. *)
Definition writable_word s (x : Z) : Prop :=
  exists a e, user_can s USER_ACCESS_WRITE a /\ walk s a = Some e /\ in_page (entry_frame e) x.

(** [s'] is [s] with other contents in writable pages of the process. *)
Record user_step s s' : Prop := {
  us_ok : user_ok s';
  us_agree : agree (writable_word s) s s';
  us_walk : forall va, below_window va -> walk s' va = walk s va;
  us_pde : forall d, 0 <= d < 1024 -> pde s' d = pde s d;
  us_held : forall f, client_held s' f <-> client_held s f
}.

Lemma agree_refl P s : agree P s s.
Proof. split; [exists (phys s); by destruct s|done]. Qed.

Lemma agree_trans P s1 s2 s3 : agree P s1 s2 -> agree P s2 s3 -> agree P s1 s3.
Proof. intros [[m ->] H1] [[m' ->] H2]. split; [by exists m'|]. intros x Hx. by rewrite H2, H1. Qed.

Lemma user_step_refl s : user_ok s -> user_step s s.
Proof. intros Hs. split; [done|apply agree_refl|done|done|done]. Qed.

Lemma step_flags s s' a : user_step s s' -> user_va a -> flags_at s' a = flags_at s a.
Proof.
  intros Hs Ha. unfold flags_at. rewrite (us_walk _ _ Hs) by by apply user_below.
  destruct (user_index a Ha). by rewrite (us_pde _ _ Hs) by lia.
Qed.

Lemma step_can s s' access a : user_step s s' -> user_can s' access a <-> user_can s access a.
Proof. intros Hs. unfold user_can. split; intros (Ha & H); (split; [done|]); by rewrite (step_flags s s') in *. Qed.

Lemma step_writable s s' x : user_step s s' -> writable_word s' x <-> writable_word s x.
Proof.
  intros Hs. unfold writable_word. split; intros (a & e & Hc & Hw & Hx); exists a, e.
  - apply (step_can s s' _ _ Hs) in Hc. rewrite (us_walk _ _ Hs) in Hw by (by apply user_below, Hc). done.
  - split; [by apply (step_can s s' _ _ Hs)|]. rewrite (us_walk _ _ Hs) by (by apply user_below, Hc). done.
Qed.

Lemma user_step_trans s1 s2 s3 : user_step s1 s2 -> user_step s2 s3 -> user_step s1 s3.
Proof.
  intros H1 H2. split; [apply H2| | | |].
  - destruct (us_agree _ _ H1) as [[m1 E1] A1], (us_agree _ _ H2) as [[m2 E2] A2]. split; [exists m2; by rewrite E2, E1|].
    intros x Hx. rewrite A2, A1; [done|done|]. by rewrite (step_writable s1 s2).
  - intros va Hva. by rewrite (us_walk _ _ H2), (us_walk _ _ H1).
  - intros d Hd. by rewrite (us_pde _ _ H2), (us_pde _ _ H1).
  - intros f. by rewrite (us_held _ _ H2), (us_held _ _ H1).
Qed.

Lemma store_ok s a b (Q : unit -> Vmm.state F -> Prop) : user_ok s -> user_can s USER_ACCESS_WRITE a -> 0 <= b < 256 ->
  (forall s', user_step s s' -> (forall c, user_can s USER_ACCESS_READ c -> user_byte s' c = if c =? a then b else user_byte s c) -> Q tt s') ->
  wp (store_byte a b) s Q.
Proof.
  intros Hs Hc Hb HQ. destruct (can_walk _ _ _ Hc) as (e & Hw & _ & Hwr). destruct Hc as (Ha & Hc2 & Hc1).
  destruct (uo_frame _ Hs a e Ha Hw) as [Hf Hh]. unfold wp, store_byte.
  rewrite (translate_user s true a e); [|apply Hs|done|done|intros _; by apply Hwr].
  set (pa := entry_frame e + a mod 4096). set (i := a mod 4096 / 4).
  assert (0 <= i < 1024) as Hi by (unfold i; word_lia).
  assert (pa / 4 * 4 = entry_frame e + 4 * i /\ pa mod 4 = a mod 4) as [Epa Epm] by (destruct Hf; unfold pa, i; split; word_lia).
  rewrite Epa, Epm. destruct (poke_client s (entry_frame e) i (with_byte (rd s (entry_frame e + 4 * i)) (a mod 4) b) (uo_wf _ Hs) Hf Hh Hi)
    as (Hwf' & Hwalk & Hpde & Hheld).
  set (s' := poke _ _ _) in *. apply HQ.
  - split; try done.
    + split; [done| |].
      * intros a' e' Ha'. rewrite Hwalk by by apply user_below. rewrite Hheld. by apply (uo_frame _ Hs).
      * intros a' b' e1 e2 Ha' Hb'. rewrite !Hwalk by by apply user_below. by apply (uo_inj _ Hs).
    + apply agree_poke; [apply agree_refl|]. exists a, e. split; [done|]. split; [done|]. by exists i.
  - intros c (Hcu & Hcc & _). unfold user_byte. rewrite Hwalk by by apply user_below.
    assert (exists e', walk s c = Some e') as [e' Hw'].
    { unfold flags_at in Hcc. destruct (walk s c); [eauto|by rewrite Z.testbit_0_l in Hcc]. }
    rewrite Hw'. destruct (uo_frame _ Hs c e' Hcu Hw') as [Hf' _]. cbv zeta. unfold s'. rewrite rd_poke.
    set (j := c mod 4096 / 4). assert (0 <= j < 1024) as Hj by (unfold j; word_lia).
    assert ((entry_frame e' + c mod 4096) / 4 * 4 = entry_frame e' + 4 * j /\ (entry_frame e' + c mod 4096) mod 4 = c mod 4) as [-> ->]
      by (destruct Hf'; unfold j; split; word_lia).
    destruct (Z.eqb_spec (entry_frame e + 4 * i) (entry_frame e' + 4 * j)) as [E|E].
    + assert (entry_frame e = entry_frame e') as Ee by (destruct Hf, Hf'; word_lia).
      pose proof (uo_inj _ Hs a c e e' Ha Hcu Hw Hw' Ee) as Ep. rewrite byte_of_with by word_lia. rewrite <-E.
      assert (i = j) as Hij by lia. destruct (Z.eqb_spec c a) as [->|Hne]; [by rewrite Z.eqb_refl|].
      rewrite (proj2 (Z.eqb_neq _ _)); [done|]. intros Em. apply Hne. unfold i, j in Hij. unfold user_va in *. word_lia.
    + rewrite (proj2 (Z.eqb_neq c a)); [done|]. intros ->. rewrite Hw in Hw'. injection Hw' as <-. done.
Qed.

(** ** The check of a range *)

Lemma refused_spec s access page : user_va page ->
  access_refused access (match walk s page with
        | Some e => Some (entry_frame e + page mod 4096, Z.land (Z.land e (pde s (dir_index page))) 6)
        | None => None end) = false <-> user_can s access page.
Proof.
  intros Hp. unfold user_can, flags_at. destruct (walk s page) as [e|]; cbn [access_refused].
  2:{ split; [done|]. intros (_ & H & _). by rewrite Z.testbit_0_l in H. }
  rewrite orb_false_iff, andb_false_iff, bool_decide_eq_false. set (fl := Z.land _ 6).
  rewrite <-(negb_involutive (Z.land fl VMM_USER =? 0)), <-(negb_involutive (Z.land fl VMM_WRITABLE =? 0)).
  change VMM_USER with (2 ^ 2). change VMM_WRITABLE with (2 ^ 1). rewrite !bit_land, !negb_false_iff by lia.
  destruct access; split; intros; naive_solver.
Qed.

Lemma mask_user_page a : 0 <= a < 4294967296 -> Z.land a PAGE_MASK = a / 4096 * 4096.
Proof. intros. change PAGE_MASK with (2 ^ 32 - 2 ^ 12). by rewrite land_high_mask by lia. Qed.

Lemma validate_ok s p n access : user_ok s -> 0 <= p < 4294967296 -> 0 <= n < 4294967296 ->
  wp (validate_user_range p n access) s (fun b s' => s' = s /\ (b = true <-> user_range s access p n)).
Proof.
  intros Hs Hp Hn. unfold validate_user_range. destruct (Z.eqb_spec n 0) as [->|Hn0]; [run; split; [done|]; split; [by left|done]|].
  destruct ((KERNEL_BASE <=? p) || (KERNEL_BASE - p <? n)) eqn:Eb.
  { run. split; [done|]. split; [done|]. intros [->|H]; [done|]. exfalso. apply orb_true_iff in Eb. rewrite Z.leb_le, Z.ltb_lt in Eb.
    destruct (H (p + n - 1)) as [[_ ?] _]; [lia|]. destruct (H p) as [[_ ?] _]; [lia|]. lia. }
  apply orb_false_iff in Eb as [Hb1%Z.leb_gt Hb2%Z.ltb_ge]. unfold KERNEL_BASE in *. rewrite (u32_id (p + n)), u32_id by lia.
  rewrite !mask_user_page by lia.
  apply (wp_while_idx (fun k page s' => s' = s /\ page mod 4096 = 0 /\ page <= p + n - 1 /\ p / 4096 * 4096 <= page /\
    Z.of_nat k = (p + n - 1 - page) / 4096 /\ forall a, p <= a < page -> user_can s access a) _ _ (Z.to_nat ((p + n - 1 - p / 4096 * 4096) / 4096))).
  - split; [done|]. split; [by apply Z.mod_mul|]. split; [word_lia|]. split; [lia|]. split; [rewrite Z2Nat.id; word_lia|]. intros a Ha. word_lia.
  - change PAGE_SIZE with 4096. apply Z2Nat.inj_lt; word_lia.
  - intros k page s' (-> & Hal & Hle & Hge & Hk & Hacc). assert (user_va page) as Hu by (unfold user_va, KERNEL_BASE; word_lia).
    run. wp_apply (vmm_query_ok s page (uo_wf _ Hs) (user_below page Hu)). intros r s' [-> ->].
    destruct (access_refused access _) eqn:Er; run.
    + split; [done|]. split; [done|]. intros [?|H]; [done|]. exfalso.
      assert (user_can s access page) as Hc.
      { apply (can_same_page s access (Z.max p page)); [word_lia|done|]. apply H. lia. }
      apply (refused_spec s access page Hu) in Hc. congruence.
    + apply (refused_spec s access page Hu) in Er.
      assert (forall a, p <= a < page + 4096 -> a < p + n -> user_can s access a) as Hacc'.
      { intros a Ha Ha'. destruct (Z.lt_ge_cases a page); [apply Hacc; lia|].
        apply (can_same_page s access page); [word_lia|unfold user_va, KERNEL_BASE; lia|done]. }
      destruct (Z.eqb_spec page ((p + n - 1) / 4096 * 4096)) as [E|E]; run.
      * split; [done|]. split; [|done]. intros _. right. intros a Ha. apply Hacc'; word_lia.
      * exists (k - 1)%nat. change PAGE_SIZE with 4096. rewrite u32_id by word_lia.
        assert (page + 4096 <= p + n - 1) by word_lia. split; [word_lia|].
        split; [done|]. split; [word_lia|]. split; [done|]. split; [lia|]. split; [word_lia|]. intros a Ha. apply Hacc'; lia.
Qed.

(** ** The copies *)

Definition user_bytes s (p n : Z) : list Z := map (fun i => user_byte s (p + i)) (seqZ 0 n).

Lemma user_bytes_snoc s p n : 0 <= n -> user_bytes s p (n + 1) = user_bytes s p n ++ [user_byte s (p + n)].
Proof. intros Hn. unfold user_bytes. rewrite seqZ_app, map_app by lia. done. Qed.

Lemma zlength_user_bytes s p n : 0 <= n -> zlength (user_bytes s p n) = n.
Proof. intros Hn. unfold zlength, user_bytes. rewrite length_map, length_seqZ. lia. Qed.

Lemma bytes_user_bytes s p n : bytes (user_bytes s p n).
Proof. apply Forall_map, Forall_true. intros. apply user_byte_range. Qed.

Lemma range_bounds s access p n : user_range s access p n -> 0 < n -> 0 <= p /\ p + n <= KERNEL_BASE.
Proof. intros [->|H] Hn; [lia|]. destruct (H p) as [[? _] _]; [lia|]. destruct (H (p + n - 1)) as [[_ ?] _]; lia. Qed.

Lemma copy_from_ok s d p n : user_ok s -> 0 <= p < 4294967296 -> 0 <= n < 4294967296 ->
  wp (copy_from_user d p n) s (fun r s' => s' = s /\
    (n = 0 \/ d = true /\ user_range s USER_ACCESS_READ p n -> r = (0, user_bytes s p n)) /\
    (~ (n = 0 \/ d = true /\ user_range s USER_ACCESS_READ p n) -> r = (- EFAULT, []))).
Proof.
  intros Hs Hp Hn. unfold copy_from_user. destruct (Z.eqb_spec n 0) as [->|Hn0]; [run; split; [done|]; split; [done|naive_solver]|].
  run. destruct d; run; [|split; [done|]; split; [naive_solver|done]].
  wp_apply (validate_ok s p n USER_ACCESS_READ Hs Hp Hn). intros v s' [-> Hv]. cbn beta. destruct v; run.
  2:{ split; [done|]. split; [|done]. intros [?|[_ Hr]]; [done|]. by apply Hv in Hr. }
  pose proof (proj1 Hv eq_refl) as Hr. destruct (range_bounds _ _ _ _ Hr ltac:(lia)) as [_ Hb]. unfold KERNEL_BASE in Hb.
  eapply (wp_for_acc (fun i l s' => s' = s /\ l = user_bytes s p i)); [done| |].
  - intros i l s' Hi [-> ->]. run. rewrite u32_id by lia. apply load_ok; [done| |].
    + destruct Hr as [?|Hr]; [done|]. apply Hr. lia.
    + run. split; [done|]. by rewrite user_bytes_snoc by lia.
  - intros l s' [-> ->]. run. replace (0 + Z.of_nat (Z.to_nat n)) with n by lia. split; [done|]. split; [done|naive_solver].
Qed.

(** [s'] is [s] with the bytes of [l] at [p]. *)
Definition wrote s (p : Z) (l : list Z) s' : Prop :=
  user_step s s' /\ forall a, user_can s USER_ACCESS_READ a ->
    user_byte s' a = if (p <=? a) && (a <? p + zlength l) then byte_at l (a - p) else user_byte s a.

Lemma wrote_nil s p : user_ok s -> wrote s p [] s.
Proof.
  intros Hs. split; [by apply user_step_refl|]. intros a _. change (zlength []) with 0.
  destruct (Z.leb_spec p a), (Z.ltb_spec a (p + 0)); cbn [andb]; (done || lia).
Qed.

Lemma wrote_snoc s p l b s1 (Q : unit -> Vmm.state F -> Prop) : wrote s p l s1 -> user_can s USER_ACCESS_WRITE (p + zlength l) -> 0 <= b < 256 ->
  (forall s2, wrote s p (l ++ [b]) s2 -> Q tt s2) -> wp (store_byte (p + zlength l) b) s1 Q.
Proof.
  intros [Hst Hby] Hc Hb HQ. apply store_ok; [apply Hst|by apply (step_can s s1 _ _ Hst)|done|]. intros s2 Hst2 Hby2. apply HQ.
  split; [by eapply user_step_trans|]. intros a Ha. rewrite Hby2 by (by apply (step_can s s1 _ _ Hst)). rewrite Hby by done.
  unfold zlength, byte_at. rewrite length_app. cbn [length]. destruct (Z.eqb_spec a (p + Z.of_nat (length l))) as [->|Hne].
  - rewrite (proj2 (Z.leb_le _ _)), (proj2 (Z.ltb_lt _ _)) by lia. cbn [andb].
    replace (Z.to_nat _) with (length l) by lia. by rewrite lookup_app_r, Nat.sub_diag by lia.
  - destruct (Z.leb_spec p a); [|done]. destruct (Z.ltb_spec a (p + Z.of_nat (length l))); cbn [andb].
    + rewrite (proj2 (Z.ltb_lt _ _)) by lia. by rewrite lookup_app_l by lia.
    + by rewrite (proj2 (Z.ltb_ge _ _)) by lia.
Qed.

Lemma copy_to_ok s p l : user_ok s -> 0 <= p < 4294967296 -> zlength l < 4294967296 -> bytes l ->
  wp (copy_to_user p (Some l) (zlength l)) s (fun r s' =>
    (r = 0 /\ user_range s USER_ACCESS_WRITE p (zlength l) /\ wrote s p l s') \/
    (r = - EFAULT /\ s' = s /\ ~ user_range s USER_ACCESS_WRITE p (zlength l))).
Proof.
  intros Hs Hp Hn Hl. unfold copy_to_user. destruct (Z.eqb_spec (zlength l) 0) as [E0|Hn0].
  { run. left. split; [done|]. rewrite E0. split; [by left|]. destruct l; [by apply wrote_nil|done]. }
  run. wp_apply (validate_ok s p (zlength l) USER_ACCESS_WRITE Hs Hp); [unfold zlength in *; lia|]. intros v s' [-> Hv]. destruct v; run.
  2:{ right. split; [done|]. split; [done|]. intros Hr. by apply Hv in Hr. }
  pose proof (proj1 Hv eq_refl) as Hr. destruct (range_bounds _ _ _ _ Hr) as [_ Hb]; [unfold zlength in *; lia|]. unfold KERNEL_BASE in Hb.
  destruct Hr as [?|Hr]; [done|].
  apply (wp_for_range (fun i s' => wrote s p (take (Z.to_nat i) l) s')); [by apply wrote_nil| |].
  - intros i s' Hi Hw. destruct (lookup_lt_is_Some_2 l (Z.to_nat i)) as [b Eb]; [unfold zlength in *; lia|].
    assert (zlength (take (Z.to_nat i) l) = i) as Ei by (unfold zlength in *; rewrite length_take; lia).
    run. apply (wp_access _ b); [done|]. rewrite u32_id by (unfold zlength in *; lia). rewrite <-Ei at 1.
    eapply wrote_snoc; [done|rewrite Ei; apply Hr; unfold zlength in *; lia|unfold bytes in Hl; rewrite Forall_lookup in Hl; by eapply Hl|].
    intros s2 Hw2. replace (Z.to_nat (i + 1)) with (S (Z.to_nat i)) by lia. by rewrite (take_S_r _ _ b).
  - intros s' Hw. run. left. split; [done|]. split; [by right|].
    rewrite take_ge in Hw by (unfold zlength; lia). done.
Qed.

(** [l] is the string at [p], its terminator included. *)
Definition string_at s (p : Z) (l : list Z) : Prop :=
  exists n, 0 <= n /\ l = user_bytes s p (n + 1) /\ user_byte s (p + n) = 0 /\
    (forall i, 0 <= i < n -> user_byte s (p + i) <> 0) /\ forall i, 0 <= i <= n -> user_can s USER_ACCESS_READ (p + i).

Lemma string_at_unique s p l l' : string_at s p l -> string_at s p l' -> l = l'.
Proof.
  intros (n & Hn & -> & H0 & Hi & _) (n' & Hn' & -> & H0' & Hi' & _). f_equal. f_equal.
  destruct (Z.lt_trichotomy n n') as [H|[H|H]]; [by destruct (Hi' n)|done|by destruct (Hi n')].
Qed.

(** The first [n] bytes at [p] are readable and none is the terminator. *)
Definition no_end s (p n : Z) : Prop :=
  forall i, 0 <= i < n -> user_can s USER_ACCESS_READ (p + i) /\ user_byte s (p + i) <> 0.

Lemma no_end_string s p n l : 0 <= n -> no_end s p n -> string_at s p l -> n < zlength l /\ user_can s USER_ACCESS_READ (p + n).
Proof.
  intros Hn0 Hne (m & Hm & -> & H0 & _ & Hc). rewrite zlength_user_bytes by lia.
  destruct (Z.lt_ge_cases m n) as [H|H]; [by destruct (Hne m)|]. split; [lia|]. apply Hc. lia.
Qed.

Lemma string_byte_ok s p index chunk (Q : (bool * list Z) -> Vmm.state F -> Prop) :
  user_ok s -> 0 <= p -> 0 <= index -> 0 <= chunk -> p + index + chunk < 4294967296 -> no_end s p index ->
  (forall a, p + index <= a < p + index + chunk -> user_can s USER_ACCESS_READ a) ->
  (forall l, string_at s p l -> zlength l <= index + chunk -> Q (true, l) s) ->
  (no_end s p (index + chunk) -> Q (false, user_bytes s p (index + chunk)) s) ->
  wp (while_ (Z.to_nat chunk + 1) (string_byte (p + index) chunk) (0, user_bytes s p index)) s Q.
Proof.
  intros Hs Hp Hix Hch Hbd Hne Hacc Hend Hcont.
  apply (wp_while_idx (fun k x s' => s' = s /\ 0 <= fst x <= chunk /\ Z.of_nat k = chunk - fst x /\
    snd x = user_bytes s p (index + fst x) /\ no_end s p (index + fst x)) _ _ (Z.to_nat chunk)).
  - cbn [fst snd]. rewrite Z.add_0_r. repeat split; try done; try lia; by apply Hne.
  - lia.
  - intros k [local copied] s' (-> & Hl & Hk & E & Hn). cbn [fst snd] in *. subst copied. unfold string_byte.
    destruct (Z.ltb_spec local chunk); run.
    + rewrite u32_id by lia. rewrite <-Z.add_assoc. set (b := user_byte s (p + (index + local))).
      apply load_ok; [done|apply Hacc; lia|]. fold b. rewrite <-user_bytes_snoc by lia.
      destruct (Z.eqb_spec b 0) as [E0|E0]; run.
      * apply Hend; [|rewrite zlength_user_bytes; lia]. exists (index + local). split; [lia|]. split; [done|]. split; [done|].
        split; [intros i Hi; by apply Hn|]. intros i Hi. destruct (Z.eq_dec i (index + local)) as [->|]; [apply Hacc; lia|apply Hn; lia].
      * exists (k - 1)%nat. cbn [fst snd]. replace (index + (local + 1)) with (index + local + 1) by lia.
        split; [lia|]. split; [done|]. split; [lia|]. split; [lia|]. split; [done|]. intros i Hi.
        destruct (Z.eq_dec i (index + local)) as [->|]; [split; [apply Hacc; lia|done]|apply Hn; lia].
    + assert (local = chunk) as -> by lia. by apply Hcont.
Qed.

Lemma copy_string_ok s p max : user_ok s -> 0 <= p < 4294967296 -> 0 <= max < 4294967296 ->
  wp (copy_user_string true p max) s (fun r s' => s' = s /\
    ((exists l, r = (0, l) /\ string_at s p l /\ zlength l <= max) \/
     (fst r = - EFAULT /\ forall l, string_at s p l -> max < zlength l))).
Proof.
  intros Hs Hp Hmax. unfold copy_user_string. cbn [negb orb].
  destruct (Z.eqb_spec max 0) as [->|Hm0]; cbn [orb].
  { run. split; [done|]. right. split; [done|]. intros l (n & ? & -> & _). rewrite zlength_user_bytes; lia. }
  destruct (Z.leb_spec KERNEL_BASE p).
  { run. split; [done|]. right. split; [done|]. intros l (n & Hn & _ & _ & _ & Hc). destruct (Hc 0) as [[_ ?] _]; lia. }
  apply (wp_while_idx (fun k x s' => s' = s /\ 0 <= fst x <= max /\ p + fst x <= KERNEL_BASE /\ Z.of_nat k = max - fst x /\
    snd x = user_bytes s p (fst x) /\ no_end s p (fst x)) _ _ (Z.to_nat max)).
  - cbn. unfold no_end. repeat split; try done; try lia; intros; lia.
  - lia.
  - intros k [index copied] s' (-> & Hix & Hkb & Hk & E & Hn). cbn [fst snd] in *. subst copied. unfold string_chunk.
    destruct (Z.ltb_spec index max); run.
    2:{ split; [done|]. right. split; [done|]. intros l Hl. destruct (no_end_string s p index l); [lia|done|done|lia]. }
    unfold KERNEL_BASE in *. rewrite u32_id by lia. set (a := p + index).
    change (PAGE_SIZE - 1) with 4095. rewrite land_low_4095. change PAGE_SIZE with 4096.
    destruct (Z.leb_spec (3221225472 - p) index); run.
    { split; [done|]. right. split; [done|]. intros l Hl. destruct (no_end_string s p index l) as [_ [[_ ?] _]]; try done; [lia|].
      unfold KERNEL_BASE in *. lia. }
    set (c1 := if max - index <? 4096 - a mod 4096 then max - index else 4096 - a mod 4096).
    set (chunk := if 3221225472 - p - index <? c1 then 3221225472 - p - index else c1).
    assert (1 <= chunk <= 4096 - a mod 4096 /\ chunk <= max - index /\ p + index + chunk <= 3221225472) as (Hc1 & Hc2 & Hc3).
    { unfold chunk, c1. destruct (Z.ltb_spec (max - index) (4096 - a mod 4096)), (Z.ltb_spec (3221225472 - p - index) (max - index)),
        (Z.ltb_spec (3221225472 - p - index) (4096 - a mod 4096)); unfold a in *; word_lia. }
    wp_apply (validate_ok s a chunk USER_ACCESS_READ Hs); [unfold a; lia|lia|]. intros v s' [-> Hv]. destruct v; run.
    + destruct (proj1 Hv eq_refl) as [?|Hr]; [lia|]. unfold a. apply string_byte_ok; try done; try lia.
      * intros l Hl Hlen. run. split; [done|]. left. exists l. split; [done|]. split; [done|lia].
      * intros Hne. run. exists (k - Z.to_nat chunk)%nat. cbn [fst snd]. split; [lia|]. split; [done|]. split; [lia|]. split; [lia|].
        split; [lia|]. done.
    + split; [done|]. right. split; [done|]. intros l Hl. exfalso. destruct (no_end_string s p index l) as [_ Hc]; try done; [lia|].
      assert (user_range s USER_ACCESS_READ a chunk) as Hr%Hv; [|done]. right. intros b Hb.
      apply (can_same_page s _ a); [word_lia|unfold user_va, KERNEL_BASE, a in *; lia|done].
Qed.

(** ** The properties *)

(** C15. [validate_user_range] decides exactly whether the running process may
    access every byte of a range: it accepts an empty range and a range that
    lies below the kernel and whose every page is mapped for the user, writable
    if a write is asked for; a range that would wrap around or reach the kernel
    is refused. It changes nothing and terminates for every length. *)
Theorem validate_user_range_exact s p n access : user_ok s -> 0 <= p < 4294967296 -> 0 <= n < 4294967296 ->
  wp (validate_user_range p n access) s (fun b s' => s' = s /\ (b = true <-> user_range s access p n)).
Proof. apply validate_ok. Qed.

(** C14. Copying to a process and back. [copy_to_user] stores the bytes when the
    process may write them all and says EFAULT, changing nothing, when it may
    not. In either case no word of memory outside the pages the process may
    write changes, so neither does any kernel data nor any page table, and the
    other bytes of the process keep their value; what was stored is what
    [copy_from_user] then reads. *)
Theorem copy_to_user_confined s p l : user_ok s -> 0 <= p < 4294967296 -> zlength l < 4294967296 -> bytes l ->
  wp (let! r := copy_to_user p (Some l) (zlength l) in
      let! back := copy_from_user true p (zlength l) in ret (r, back)) s (fun '(r, back) s' =>
    user_ok s' /\ agree (writable_word s) s s' /\ (forall va, below_window va -> walk s' va = walk s va) /\
    ((r = 0 /\ user_range s USER_ACCESS_WRITE p (zlength l) /\ back = (0, l) /\
      forall a, user_can s USER_ACCESS_READ a -> ~ (p <= a < p + zlength l) -> user_byte s' a = user_byte s a) \/
     (r = - EFAULT /\ ~ user_range s USER_ACCESS_WRITE p (zlength l) /\ s' = s))).
Proof.
  intros Hs Hp Hn Hl. run. wp_apply (copy_to_ok s p l Hs Hp Hn Hl). intros r s1 Hr. run.
  assert (user_step s s1) as Hst.
  { destruct Hr as [(_ & _ & Hst & _)|(_ & -> & _)]; [done|by apply user_step_refl]. }
  wp_apply (copy_from_ok s1 true p (zlength l) (us_ok _ _ Hst) Hp); [unfold zlength in *; lia|]. intros back s2 (-> & Hb & _). run.
  split; [apply Hst|]. split; [apply Hst|]. split; [apply Hst|]. destruct Hr as [(-> & Hr & _ & Hby)|(-> & -> & Hr)]; [left|by right].
  split; [done|]. split; [done|]. split.
  - rewrite Hb.
    + f_equal. apply list_eq_same_length with (length l); [done|unfold user_bytes, zlength; rewrite length_map, length_seqZ; lia|].
      intros i x y Hi Hx Hy. unfold user_bytes in Hx. rewrite list_lookup_fmap in Hx. apply fmap_Some in Hx as (j & Hj & ->).
      apply lookup_seqZ in Hj as [-> Hj]. destruct Hr as [E|Hr]; [unfold zlength in E; lia|].
      rewrite Hby by (eapply can_read, Hr; lia). rewrite (proj2 (Z.leb_le _ _)), (proj2 (Z.ltb_lt _ _)) by lia. cbn [andb].
      unfold byte_at. replace (Z.to_nat _) with i by lia. by rewrite Hy.
    + destruct Hr as [E|Hr]; [by left|]. right. split; [done|]. right. intros a Ha. apply (step_can s s1 _ _ Hst). eapply can_read, Hr. lia.
  - intros a Ha Hna. rewrite Hby by done. destruct (Z.leb_spec p a), (Z.ltb_spec a (p + zlength l)); cbn [andb]; (done || lia).
Qed.

(** C25. [copy_user_string] fetches a C string of the process: it succeeds
    exactly when the bytes from the given address to the first zero byte are all
    readable by the process and fit the buffer, and then the buffer holds the
    string and its terminator; otherwise it says EFAULT. No byte behind the page
    of the terminator is touched, and nothing changes. *)
Theorem copy_user_string_exact s p max : user_ok s -> 0 <= p < 4294967296 -> 0 <= max < 4294967296 ->
  wp (copy_user_string true p max) s (fun r s' => s' = s /\
    (fst r = 0 \/ fst r = - EFAULT) /\
    (forall l, string_at s p l -> zlength l <= max -> r = (0, l)) /\
    (fst r = 0 -> string_at s p (snd r) /\ zlength (snd r) <= max)).
Proof.
  intros Hs Hp Hm. wp_apply (copy_string_ok s p max Hs Hp Hm). intros r s' [-> Hr]. split; [done|].
  destruct Hr as [(l & -> & Hl & Hlen)|[E Hno]].
  - split; [by left|]. split; [|done]. intros l' Hl' _. by rewrite (string_at_unique s p l' l Hl' Hl).
  - split; [by right|]. split; [|rewrite E; done]. intros l Hl Hlen. specialize (Hno l Hl). lia.
Qed.

(** ** After a switch *)

(** The memory of the process that was switched to satisfies the invariant. *)
Lemma activated_user_ok (v v' : AddressSpace.spaces F) D : space v D -> AddressSpaceSwitch.activated v D v' -> user_ok (AddressSpace.vmm v').
Proof.
  intros Hs Hac. pose proof (AddressSpaceSwitch.ac_user _ _ _ Hac) as Hu.
  assert (forall a e, user_va a -> walk (AddressSpace.vmm v') a = Some e -> page_at v D a = Some (entry_frame e, Z.land e 6)) as Hpa.
  { intros a e Ha Hw. by rewrite <-(Hu a Ha), Hw. }
  split; [apply (AddressSpaceSwitch.ac_idle _ _ _ Hac)| |].
  - intros a e Ha Hw. destruct (user_index a Ha) as [Hd Ht]. pose proof (Hpa a e Ha Hw) as Hp. split.
    + by apply (so_frame _ _ _ Hs _ _ (part_page _ _ _ _ _ _ Hd Ht Hp)).
    + apply (AddressSpaceSwitch.ac_held _ _ _ Hac). by eapply content_page.
  - intros a b e e' Ha Hb Hwa Hwb E. destruct (user_index a Ha) as [Hda Hta], (user_index b Hb) as [Hdb Htb].
    pose proof (Hpa a e Ha Hwa) as Pa. pose proof (Hpa b e' Hb Hwb) as Pb. rewrite E in Pa.
    pose proof (so_inj _ _ _ Hs _ _ _ (part_page _ _ _ _ _ _ Hda Hta Pa) (part_page _ _ _ _ _ _ Hdb Htb Pb)) as El.
    injection El as E1 E2. unfold dir_index, table_index in *. rewrite !shiftr_22, !shiftr_12 in *. change 0x3FF with 1023 in E2.
    rewrite !land_low_1023 in E2. unfold user_va in *. word_lia.
Qed.

End spec.
End UsercopySpec.
