(* ===== verification/UsercopyDemo.v ===== *)
(** * User memory of a running program

    The program of ElfDemo.v is loaded and switched to as in AddressSpaceDemo.v;
    the kernel then reads and writes its memory. *)

From S2P Require Import Prelude Monad Interfaces Bytes Cpu Pmm Vmm VmmSpec MemoryBoot Block MiniFs Elf ElfSpec ElfLoad ElfDemo AddressSpace AddressSpaceWindow AddressSpaceTables AddressSpaceSpec AddressSpaceSwitch AddressSpaceUser AddressSpaceExec AddressSpaceDemo Usercopy UsercopySpec.
Import MiniFs(result(..), EIO).

Module UsercopyDemo.
#[local] Existing Instance Pmm.pmm_frame_allocator.
Import Vmm AddressSpace AddressSpaceWindow AddressSpaceSpec AddressSpaceSwitch AddressSpaceUser AddressSpaceExec AddressSpaceDemo Usercopy UsercopySpec.
#[local] Instance demo_ops : UserPageOps (spaces Pmm.state) := space_ops dir.
#[local] Instance demo_view : UserPageView (spaces Pmm.state) := space_view dir directories_now.
#[local] Instance demo_laws : UserPages (spaces Pmm.state) := space_pages dir directories_now.

#[local] Opaque made.

(** The self test the kernel runs at boot passes on the booted page tables. *)
Example usercopy_self_test_passes : match usercopy_self_test demo_vmm with Ret b _ => b = true | _ => False end.
Proof. vm_compute. reflexivity. Qed.

(** The state a routine leaves. *)
Definition final {S A} (s : S) (o : Monad.outcome S A) : S := match o with Ret _ s' => s' | _ => s end.

Lemma wp_final {S A} (m : M S A) s Q : wp m s Q -> exists a, Q a (final s (m s)).
Proof. unfold wp. destruct (m s); [by exists a|done..]. Qed.

Definition load : M (spaces Pmm.state) (result Z) := Elf.elf_load_image true true ElfDemo.tiny.
Definition switch : M (spaces Pmm.state) bool := vmm_address_space_activate (F := Pmm.state) (Some dir).
Definition loaded : spaces Pmm.state := final fresh (load fresh).
Definition running : spaces Pmm.state := final loaded (switch loaded).

Lemma loaded_inv : up_inv loaded.
Proof.
  pose proof (ElfLoad.elf_load_image_wp ElfDemo.tiny fresh ElfDemo.tiny_bytes eq_refl (ready_fresh _ _ _ fresh_ready)) as H.
  destruct (wp_final load fresh _ H) as (r & Hst & _). exact (ElfLoad.st_inv _ _ Hst).
Qed.

Lemma same_components {A} (x : A * A) (a : A) : x = (a, a) -> snd x = fst x.
Proof. by intros ->. Qed.

Lemma kernel_directory_active (v : spaces Pmm.state) : up_inv v -> kernel_page_directory_physical (vmm v) = cr3 (vmm v).
Proof. intros (_ & _ & _ & Hd). exact (same_components _ _ Hd). Qed.

Lemma running_user_ok : user_ok (vmm running).
Proof.
  pose proof loaded_inv as Hinv. destruct (kernel_context loaded (proj1 Hinv) (kernel_directory_active loaded Hinv)) as [HK Hin].
  destruct Hinv as (Hi & Hs & _).
  destruct (wp_final switch loaded _ (space_activate_ok loaded dir Hi Hs HK Hin)) as ([] & Hp); [exact (activated_user_ok _ _ _ Hs Hp)|].
  exfalso. destruct Hp as [_ Hr]. revert Hr. vm_compute. done.
Qed.

Lemma validate_user_range_exact_witness :
  wp (validate_user_range 0x400074 4 USER_ACCESS_WRITE) (vmm running) (fun b s' =>
    s' = vmm running /\ (b = true <-> user_range (vmm running) USER_ACCESS_WRITE 0x400074 4)).
Proof. apply (validate_user_range_exact (vmm running) 0x400074 4 USER_ACCESS_WRITE); [exact running_user_ok|lia|lia]. Defined.

(** The last bytes of the page are the program's, those behind it nobody's. *)
Example ranges_here :
  match (let! a := validate_user_range 0x400FFC 4 USER_ACCESS_WRITE in
         let! b := validate_user_range 0x400FFC 5 USER_ACCESS_READ in
         let! c := validate_user_range 0xBFFFFFF0 0xFFFFFFFF USER_ACCESS_READ in
         let! d := validate_user_range 0xC0000000 0 USER_ACCESS_READ in ret [a; b; c; d]) (vmm running) with
  | Ret l _ => l = [true; false; false; true]
  | _ => False
  end.
Proof. vm_compute. reflexivity. Qed.

Lemma copy_to_user_confined_witness :
  wp (let! r := copy_to_user 0x400100 (Some [1; 2; 3]) (zlength [1; 2; 3]) in
      let! back := copy_from_user true 0x400100 (zlength [1; 2; 3]) in ret (r, back)) (vmm running) (fun '(r, back) s' =>
    user_ok s' /\ agree (writable_word (vmm running)) (vmm running) s' /\ (forall va, below_window va -> walk s' va = walk (vmm running) va) /\
    ((r = 0 /\ user_range (vmm running) USER_ACCESS_WRITE 0x400100 (zlength [1; 2; 3]) /\ back = (0, [1; 2; 3]) /\
      forall a, user_can (vmm running) USER_ACCESS_READ a -> ~ (0x400100 <= a < 0x400100 + zlength [1; 2; 3]) ->
        user_byte s' a = user_byte (vmm running) a) \/
     (r = - EFAULT /\ ~ user_range (vmm running) USER_ACCESS_WRITE 0x400100 (zlength [1; 2; 3]) /\ s' = vmm running))).
Proof.
  apply (copy_to_user_confined (vmm running) 0x400100 [1; 2; 3]); [exact running_user_ok|lia|done|repeat constructor; lia].
Defined.

Lemma copy_user_string_exact_witness :
  wp (copy_user_string true 0x400074 16) (vmm running) (fun r s' => s' = vmm running /\
    (fst r = 0 \/ fst r = - EFAULT) /\
    (forall l, string_at (vmm running) 0x400074 l -> zlength l <= 16 -> r = (0, l)) /\
    (fst r = 0 -> string_at (vmm running) 0x400074 (snd r) /\ zlength (snd r) <= 16)).
Proof. apply (copy_user_string_exact (vmm running) 0x400074 16); [exact running_user_ok|lia|lia]. Defined.

Example string_here :
  match copy_user_string true 0x400074 16 (vmm running) with
  | Ret r _ => fst r = 0 /\ byte_at (snd r) 0 = 0xCD /\ byte_at (snd r) (zlength (snd r) - 1) = 0
  | _ => False
  end.
Proof. vm_compute. done. Qed.

End UsercopyDemo.
