(* ===== verification/UserStack.v ===== *)
(** * The first stack of a process, kernel/proc/scheduler.c

    [initialize_user_page] fills a frame that becomes a page of a process;
    [initialize_user_stack] lays out the arguments of a program in the frame of
    its stack: the strings at the top, below them the word-aligned block with
    the count, the addresses of the strings and a null word. The frame is
    written through USER_PAGE_LOAD_WINDOW, which is the page the ELF loader also
    uses, so the routines run on [UserPageOps].

    [argument_block] says what the program finds at its stack pointer. *)

From S2P Require Import Prelude Monad Interfaces Bytes Block MiniFs Path Elf ElfSpec ElfLoad.
Import MiniFs(result(..)).

Module UserStack.
Import Elf.

Definition USER_STACK_VIRTUAL : Z := 0xBFFFF000.
Definition USER_STACK_TOP : Z := 0xC0000000.
Definition USER_ARGUMENT_LIMIT : Z := 16.
Definition USER_ARGUMENT_LENGTH_LIMIT : Z := 256.

(** The index of the terminator, looked for in [n] bytes from [index] on. *)
Fixpoint find_terminator (n : nat) (index : Z) (value : list Z) : option Z :=
  match n with
  | O => None
  | S n' => if byte_at value index =? 0 then Some index else find_terminator n' (index + 1) value
  end.

(** [value] is a C string without its terminator; a null pointer is [None]. *)
Definition bounded_string_length (value : option (list Z)) : option Z :=
  match value with
  | None => None
  | Some value => find_terminator (Z.to_nat USER_ARGUMENT_LENGTH_LIMIT) 0 value
  end.

(** The loop over [argv], a list where C has an array ended by a null pointer:
    the strings with their lengths and the bytes they take, or [None] when the
    routine gives up. *)
Fixpoint measure_arguments (argument_count string_bytes : Z) (argv : list (list Z)) : option (list (list Z * Z) * Z) :=
  match argv with
  | [] => Some ([], string_bytes)
  | argument :: argv' =>
      if USER_ARGUMENT_LIMIT <=? argument_count then None else
      match bounded_string_length (Some argument) with
      | None => None
      | Some length =>
          if PAGE_SIZE - string_bytes <? length + 1 then None else
          match measure_arguments (argument_count + 1) (string_bytes + (length + 1)) argv' with
          | Some (measured, total) => Some ((argument, length) :: measured, total)
          | None => None
          end
      end
  end.

Section stack.
Context {V : Type} `{!UserPageOps V}.

Definition initialize_user_page (physical_address : Z) (source : list Z) : M V bool :=
  if PAGE_SIZE <? zlength source then ret false else
  let! ok := up_window_map physical_address in
  if negb ok then ret false else
  for_range 4096 0 (fun index => up_store index 0) ;;
  for_range (length source) 0 (fun index => up_store index (byte_at source index)) ;;
  release_window physical_address "user page load window invariant failed" ;;
  ret true.

(** The strings, the last one first: the lowest byte used and the addresses. *)
Fixpoint place_arguments (measured : list (list Z * Z)) : M V (Z * list Z) :=
  match measured with
  | [] => ret (PAGE_SIZE, [])
  | (argument, argument_length) :: measured' =>
      let! r := place_arguments measured' in
      let length := argument_length + 1 in
      let cursor := fst r - length in
      for_range (Z.to_nat length) 0 (fun character => up_store (cursor + character) (byte_at argument character)) ;;
      ret (cursor, USER_STACK_VIRTUAL +u cursor :: snd r)
  end.

(** A 32-bit store, little endian. *)
Definition store_word (offset value : Z) : M V unit :=
  for_range 4 0 (fun i => up_store (offset + i) (byte_at (le32 value) i)).

(** [argv] is [None] for a null pointer; the result is the stack pointer, or
    [None] for [false]. *)
Definition initialize_user_stack (physical_address : Z) (argv : option (list (list Z))) : M V (option Z) :=
  match argv with
  | None | Some [] => ret None
  | Some argv =>
      match measure_arguments 0 0 argv with
      | None => ret None
      | Some (measured, string_bytes) =>
          let argument_count := zlength measured in
          if PAGE_SIZE <? string_bytes + (argument_count + 2) * 4 + 3 then ret None else
          let! ok := up_window_map physical_address in
          if negb ok then ret None else
          for_range 4096 0 (fun index => up_store index 0) ;;
          let! r := place_arguments measured in
          let '(cursor, argument_addresses) := r in
          let cursor := Z.land cursor (not32 3) in
          let cursor := cursor - (argument_count + 2) * 4 in
          store_word cursor argument_count ;;
          for_range (length measured) 0 (fun index =>
            let! address := access (argument_addresses !! Z.to_nat index) in
            store_word (cursor + (index + 1) * 4) address) ;;
          store_word (cursor + (argument_count + 1) * 4) 0 ;;
          release_window physical_address "user stack load window invariant failed" ;;
          ret (Some (USER_STACK_VIRTUAL +u cursor))
      end
  end.

End stack.

(** ** What the program finds *)

(** The 32-bit word at [o] of a page with the bytes [g]. *)
Definition word_at (g : Z -> Z) (o : Z) : Z := g o + g (o + 1) * 256 + g (o + 2) * 65536 + g (o + 3) * 16777216.

(** [sp] is a user address, [g] the bytes of the stack page. *)
Record argument_block (g : Z -> Z) (sp : Z) (argv : list (list Z)) : Prop := {
  ab_aligned : sp mod 4 = 0;
  ab_range : USER_STACK_VIRTUAL <= sp /\ sp + 4 * (zlength argv + 2) <= USER_STACK_TOP;
  ab_argc : word_at g (sp - USER_STACK_VIRTUAL) = zlength argv;
  ab_argv : forall i a, argv !! i = Some a ->
    let p := word_at g (sp - USER_STACK_VIRTUAL + 4 + 4 * Z.of_nat i) in
    sp + 4 * (zlength argv + 2) <= p /\ p + zlength a + 1 <= USER_STACK_TOP /\
    forall j, 0 <= j <= zlength a -> g (p - USER_STACK_VIRTUAL + j) = byte_at a j;
  ab_null : word_at g (sp - USER_STACK_VIRTUAL + 4 + 4 * zlength argv) = 0
}.

Fixpoint total_bytes (argv : list (list Z)) : Z :=
  match argv with [] => 0 | a :: argv' => zlength a + 1 + total_bytes argv' end.

(** The arguments the stack page has room for. *)
Definition arguments_fit (argv : list (list Z)) : Prop :=
  argv <> [] /\ zlength argv <= 16 /\ Forall (fun a => zlength a < 256) argv /\
  total_bytes argv + (zlength argv + 2) * 4 + 3 <= 4096.

End UserStack.
