(* ===== verification/UserStackSpec.v ===== *)
(** * The first stack of a process: the layout is the one programs expect *)

From S2P Require Import Prelude Monad Interfaces Bytes Block MiniFs Path Elf ElfSpec ElfLoad UserStack.
Import MiniFs(result(..)).

Module UserStackSpec.
Import Elf UserStack.

(** ** Measuring *)

Lemma byte_at_string a i : Path.c_str a -> 0 <= i -> (byte_at a i =? 0) = (zlength a <=? i).
Proof.
  intros Ha Hi. unfold byte_at, zlength. destruct (a !! Z.to_nat i) as [x|] eqn:E; cbn.
  - unfold Path.c_str in Ha. rewrite Forall_lookup in Ha. specialize (Ha _ _ E). apply lookup_lt_Some in E.
    rewrite (proj2 (Z.eqb_neq x 0)) by done. symmetry. apply Z.leb_gt. lia.
  - apply lookup_ge_None in E. symmetry. apply Z.leb_le. lia.
Qed.

Lemma find_terminator_ok n i a : Path.c_str a -> 0 <= i <= zlength a ->
  find_terminator n i a = if zlength a <? i + Z.of_nat n then Some (zlength a) else None.
Proof.
  intros Ha. revert i. induction n as [|n IH]; intros i Hi; cbn [find_terminator].
  - destruct (Z.ltb_spec (zlength a) (i + Z.of_nat 0)); [lia|done].
  - rewrite byte_at_string by (done || lia). destruct (Z.leb_spec (zlength a) i).
    + rewrite (proj2 (Z.ltb_lt _ _)) by lia. f_equal. lia.
    + rewrite IH by lia. by replace (i + 1 + Z.of_nat n) with (i + Z.of_nat (S n)) by lia.
Qed.

Definition measured_of (argv : list (list Z)) : list (list Z * Z) := map (fun a => (a, zlength a)) argv.

Lemma total_bytes_nonneg argv : 0 <= total_bytes argv.
Proof. induction argv; cbn; unfold zlength in *; lia. Qed.

Lemma measure_ok argv c b : Forall Path.c_str argv -> 0 <= c -> 0 <= b ->
  (c + zlength argv <= 16 \/ argv = [] -> Forall (fun a => zlength a < 256) argv -> b + total_bytes argv <= 4096 ->
     measure_arguments c b argv = Some (measured_of argv, b + total_bytes argv)) /\
  forall m t, measure_arguments c b argv = Some (m, t) ->
    (c + zlength argv <= 16 \/ argv = []) /\ Forall (fun a => zlength a < 256) argv /\ m = measured_of argv /\ t = b + total_bytes argv.
Proof.
  intros Hs. revert c b. induction Hs as [|a argv Ha Hs IH]; intros c b Hc Hb.
  - cbn [total_bytes]. rewrite !Z.add_0_r. split; [done|]. intros m t [= <- <-]. split; [by right|]. done.
  - cbn [measure_arguments bounded_string_length total_bytes measured_of map]. fold (measured_of argv).
    assert (0 <= zlength a) by (unfold zlength; lia). assert (zlength (a :: argv) = zlength argv + 1) as -> by (unfold zlength; cbn; lia).
    assert (0 <= zlength argv) by (unfold zlength; lia). pose proof (total_bytes_nonneg argv).
    rewrite find_terminator_ok by (done || lia). change (0 + Z.of_nat (Z.to_nat USER_ARGUMENT_LENGTH_LIMIT)) with 256.
    unfold USER_ARGUMENT_LIMIT, PAGE_SIZE. destruct (IH (c + 1) (b + (zlength a + 1)) ltac:(lia) ltac:(lia)) as [IH1 IH2].
    split.
    + intros [Hcnt|?] Hl Ht; [|done]. apply Forall_cons in Hl as [Hla Hl].
      rewrite (proj2 (Z.leb_gt _ _)), (proj2 (Z.ltb_lt _ _)), (proj2 (Z.ltb_ge _ _)) by lia.
      rewrite IH1 by (done || lia). do 2 f_equal. lia.
    + intros m t. destruct (Z.leb_spec 16 c); [done|]. destruct (Z.ltb_spec (zlength a) 256); [|done].
      destruct (Z.ltb_spec (4096 - b) (zlength a + 1)); [done|].
      destruct (measure_arguments (c + 1) (b + (zlength a + 1)) argv) as [[m' t']|] eqn:E; [|done].
      intros [= <- <-]. destruct (IH2 _ _ eq_refl) as (Hcnt & Hl & -> & ->).
      split; [left; destruct Hcnt as [?| ->]; [lia|unfold zlength; cbn; lia]|].
      split; [by constructor|]. split; [done|lia].
Qed.

(** ** A frame being filled *)

Section spec.
Context {V : Type} `{!UserPageOps V} `{!UserPageView V} `{!UserPages V}.
Implicit Types (v : V) (g : Z -> Z).

(** The window shows the frame [f] with the bytes [g]; the rest is as in [v0]. *)
Record filling v0 (f : Z) g v : Prop := {
  fi_inv : up_inv v;
  fi_window : up_window v = Some f;
  fi_room : up_room v = up_room v0;
  fi_pages : same_pages v0 v;
  fi_held : same_held v0 v;
  fi_bytes : forall h o, owned v0 h -> 0 <= o < 4096 -> up_byte v h o = if h =? f then g o else up_byte v0 h o
}.

Lemma filling_owned v0 f g v h : filling v0 f g v -> owned v0 h -> owned v h.
Proof. intros Hf [Hh|(p & fl & Hp)]; [left; by apply (fi_held _ _ _ _ Hf)|right; exists p, fl; by rewrite (fi_pages _ _ _ _ Hf)]. Qed.

Lemma filling_ext v0 f g g' v : (forall o, 0 <= o < 4096 -> g' o = g o) -> filling v0 f g v -> filling v0 f g' v.
Proof. intros E []. split; try done. intros h o Hh Ho. rewrite E by done. auto. Qed.

Definition overlay g (off n : Z) (l : Z -> Z) : Z -> Z := fun o => if (off <=? o) && (o <? off + n) then l (o - off) else g o.

(** A run of stores. *)
Lemma fill_run v0 f g v off n (l : Z -> Z) (body : Z -> M V unit) (Q : unit -> V -> Prop) :
  filling v0 f g v -> 0 <= off -> off + Z.of_nat n <= 4096 -> (forall i, 0 <= l i < 256) ->
  (forall i, body i = up_store (off + i) (l i)) ->
  (forall v', filling v0 f (overlay g off (Z.of_nat n) l) v' -> Q tt v') -> wp (for_range n 0 body) v Q.
Proof.
  intros Hf Ho Hn Hl Hb HQ. wp_apply (ElfLoad.store_loop f off l n body v); try done; [apply Hf..|].
  intros [] v' (A1 & A2 & A3 & A4 & A5 & A6). apply HQ. pose proof Hf as [B1 B2 B3 B4 B5 B6]. unfold same_pages, same_held in *.
  split; [done|done|congruence|intros p; by rewrite A3, B4|intros h; by rewrite A4, B5|].
  intros h o Hh Ho'. rewrite A6 by (by eapply filling_owned). rewrite B6 by done. unfold overlay. by destruct (h =? f).
Qed.

Lemma le32_range x i : 0 <= byte_at (le32 x) i < 256.
Proof. apply byte_at_range, bytes_le32. Qed.

Lemma fill_word v0 f g v off x (Q : unit -> V -> Prop) : filling v0 f g v -> 0 <= off -> off + 4 <= 4096 ->
  (forall v', filling v0 f (overlay g off 4 (byte_at (le32 x))) v' -> Q tt v') -> wp (store_word off x) v Q.
Proof. intros Hf H0 H4 HQ. unfold store_word. eapply fill_run; [done|done|done|apply le32_range|done|done]. Qed.

Lemma word_overlay g off x : 0 <= x < 4294967296 -> word_at (overlay g off 4 (byte_at (le32 x))) off = x.
Proof.
  intros Hx. unfold word_at, overlay.
  repeat match goal with |- context [(?a <=? ?b) && (?c <? ?d)] =>
    rewrite (proj2 (Z.leb_le a b)), (proj2 (Z.ltb_lt c d)) by lia; cbn [andb] end.
  replace (off - off) with 0 by lia. replace (off + 1 - off) with (0 + 1) by lia. replace (off + 2 - off) with (0 + 2) by lia.
  replace (off + 3 - off) with (0 + 3) by lia. rewrite <-read_le32_sum by apply bytes_le32. by apply read_le32_le32.
Qed.

Lemma overlay_out g off n l o : o < off \/ off + n <= o -> overlay g off n l o = g o.
Proof. unfold overlay. intros H. destruct (Z.leb_spec off o), (Z.ltb_spec o (off + n)); cbn [andb]; (done || lia). Qed.

Lemma overlay_in g off n l o : off <= o < off + n -> overlay g off n l o = l (o - off).
Proof. unfold overlay. intros H. by rewrite (proj2 (Z.leb_le _ _)), (proj2 (Z.ltb_lt _ _)) by lia. Qed.

Lemma word_out g off n l o : o + 4 <= off \/ off + n <= o -> word_at (overlay g off n l) o = word_at g o.
Proof. intros H. unfold word_at. by rewrite !overlay_out by lia. Qed.

(** ** The strings *)

(** From [c] on the page holds the strings at the given addresses. *)
Definition strings_at g (c : Z) (argv : list (list Z)) (addresses : list Z) : Prop :=
  Forall2 (fun a p => USER_STACK_VIRTUAL + c <= p /\ p + zlength a + 1 <= USER_STACK_TOP /\
    forall j, 0 <= j <= zlength a -> g (p - USER_STACK_VIRTUAL + j) = byte_at a j) argv addresses.

Lemma strings_below g g' c c' argv addresses : c' <= c -> (forall o, c <= o -> g' o = g o) ->
  strings_at g c argv addresses -> strings_at g' c' argv addresses.
Proof.
  intros Hc Hg H. eapply Forall2_impl; [exact H|]. intros a p (H1 & H2 & H3). split; [lia|]. split; [done|].
  intros j Hj. rewrite Hg by lia. by apply H3.
Qed.

Lemma place_ok v0 f argv g v (Q : Z * list Z -> V -> Prop) :
  filling v0 f g v -> Forall bytes argv -> total_bytes argv <= 4096 ->
  (forall g' addresses v', filling v0 f g' v' -> strings_at g' (4096 - total_bytes argv) argv addresses ->
     Q (4096 - total_bytes argv, addresses) v') ->
  wp (place_arguments (measured_of argv)) v Q.
Proof.
  intros Hf Hb. revert Q. induction argv as [|a argv IH]; intros Q Ht HQ; cbn [measured_of map place_arguments].
  - run. apply (HQ g); [done|constructor].
  - fold (measured_of argv). cbn [total_bytes] in *. apply Forall_cons in Hb as [Hba Hb].
    assert (0 <= zlength a) as Hla by (unfold zlength; lia). pose proof (total_bytes_nonneg argv) as Ht0.
    apply wp_bind. apply IH; [done|lia|]. intros g' addresses v' Hf' Hst. cbn [fst snd]. cbv zeta.
    set (c := 4096 - total_bytes argv) in *. apply wp_bind.
    eapply (fill_run v0 f g' v' (c - (zlength a + 1)) _ (byte_at a)); [done|lia|lia|intros i; by apply byte_at_range|done|].
    rewrite Z2Nat.id by lia. intros v2 Hf2. run.
    replace (4096 - (zlength a + 1 + total_bytes argv)) with (c - (zlength a + 1)) in HQ by lia.
    eapply HQ; [exact Hf2|]. constructor.
    + unfold USER_STACK_VIRTUAL, USER_STACK_TOP. rewrite u32_id by lia. split; [lia|]. split; [lia|]. intros j Hj.
      rewrite overlay_in by lia. f_equal. lia.
    + eapply (strings_below g' _ c); [lia| |exact Hst]. intros o Ho. by rewrite overlay_out by lia.
Qed.

(** ** The block *)

(** The first [k] addresses are stored at [cursor + 4]. *)
Lemma addresses_ok v0 f g v cursor addresses (Q : unit -> V -> Prop) :
  filling v0 f g v -> 0 <= cursor -> cursor + 4 + 4 * zlength addresses <= 4096 ->
  Forall (fun p => 0 <= p < 4294967296) addresses ->
  (forall g' v', filling v0 f g' v' ->
     (forall i p, addresses !! i = Some p -> word_at g' (cursor + 4 + 4 * Z.of_nat i) = p) ->
     (forall o, o < cursor + 4 \/ cursor + 4 + 4 * zlength addresses <= o -> g' o = g o) -> Q tt v') ->
  wp (for_range (length addresses) 0 (fun index =>
        let! address := access (addresses !! Z.to_nat index) in store_word (cursor + (index + 1) * 4) address)) v Q.
Proof.
  intros Hf Hc Hfit Hr HQ. unfold zlength in *.
  apply (wp_for_range (fun k v' => exists g', filling v0 f g' v' /\
     (forall i p, Z.of_nat i < k -> addresses !! i = Some p -> word_at g' (cursor + 4 + 4 * Z.of_nat i) = p) /\
     (forall o, o < cursor + 4 \/ cursor + 4 + 4 * k <= o -> g' o = g o))).
  - exists g. split; [done|]. split; [intros; lia|done].
  - intros k v' Hk (g' & Hf' & Hw & Ho). destruct (lookup_lt_is_Some_2 addresses (Z.to_nat k)) as [p Ep]; [lia|].
    apply wp_bind. apply (wp_access _ p); [done|]. eapply fill_word; [exact Hf'|lia|lia|]. intros v2 Hf2.
    replace (cursor + (k + 1) * 4) with (cursor + 4 + 4 * k) in * by lia. eexists. split; [exact Hf2|]. split.
    + intros i q Hi Hq. destruct (Z.eq_dec (Z.of_nat i) k) as [E|E].
      * subst k. rewrite Nat2Z.id in Ep. rewrite Ep in Hq. injection Hq as ->. apply word_overlay.
        rewrite Forall_lookup in Hr. by eapply Hr.
      * rewrite word_out by lia. apply Hw; [lia|done].
    + intros o Ho'. rewrite overlay_out by lia. apply Ho. lia.
  - intros v' (g' & Hf' & Hw & Ho). apply (HQ g'); [done| |exact Ho]. intros i p Hp. apply Hw; [apply lookup_lt_Some in Hp; lia|done].
Qed.

Lemma align_down c : 0 <= c < 4294967296 -> Z.land c (not32 3) = c / 4 * 4.
Proof. intros Hc. change (not32 3) with (2 ^ 32 - 2 ^ 2). by rewrite land_high_mask by lia. Qed.

Lemma block_ok v0 f argv g v cursor addresses message (Q : option Z -> V -> Prop) : let n := zlength argv in
  filling v0 f g v -> strings_at g (cursor + 4 * (n + 2)) argv addresses -> 0 <= cursor -> cursor mod 4 = 0 -> cursor + 4 * (n + 2) <= 4096 ->
  n <= 16 ->
  (forall v', up_inv v' -> up_window v' = None -> up_room v' = up_room v0 -> same_pages v0 v' -> same_held v0 v' ->
     owned v0 f -> argument_block (up_byte v' f) (USER_STACK_VIRTUAL + cursor) argv ->
     (forall h o, owned v0 h -> h <> f -> 0 <= o < 4096 -> up_byte v' h o = up_byte v0 h o) -> Q (Some (USER_STACK_VIRTUAL + cursor)) v') ->
  owned v0 f ->
  wp (store_word cursor n ;;
      for_range (length argv) 0 (fun index =>
        let! address := access (addresses !! Z.to_nat index) in store_word (cursor + (index + 1) * 4) address) ;;
      store_word (cursor + (n + 1) * 4) 0 ;;
      release_window f message ;;
      ret (Some (USER_STACK_VIRTUAL +u cursor))) v Q.
Proof.
  intros n Hf Hst Hc Hal Hfit Hn HQ Hown. assert (0 <= n) as Hn0 by (unfold n, zlength; lia).
  pose proof (Forall2_length _ _ _ Hst) as Hlen. assert (zlength addresses = n) as Hna by (unfold n, zlength; lia).
  assert (Forall (fun p => 0 <= p < 4294967296) addresses) as Hpr.
  { rewrite Forall_lookup. intros i p Hp. destruct (Forall2_lookup_r _ _ _ _ _ Hst Hp) as (a & _ & H1 & H2 & _).
    unfold USER_STACK_VIRTUAL, USER_STACK_TOP, zlength in *. lia. }
  apply wp_bind. eapply fill_word; [exact Hf|lia|lia|]. intros v1 Hf1. rewrite Hlen.
  apply wp_bind. eapply addresses_ok; [exact Hf1|done|lia|done|]. rewrite Hna. intros g2 v2 Hf2 Hw2 Ho2.
  replace (cursor + (n + 1) * 4) with (cursor + 4 + 4 * n) by lia.
  apply wp_bind. eapply fill_word; [exact Hf2|lia|lia|]. intros v3 Hf3. set (g3 := overlay _ _ _ _) in Hf3.
  unfold release_window. apply wp_bind, wp_bind. wp_apply (up_window_unmap_ok f v3); [apply Hf3|apply Hf3|].
  intros r v4 (-> & B1 & B2 & B3 & B4 & B5 & B6). rewrite Z.eqb_refl. run.
  assert (Hu : u32 (USER_STACK_VIRTUAL + cursor) = USER_STACK_VIRTUAL + cursor) by (unfold USER_STACK_VIRTUAL; apply u32_id; lia).
  rewrite Hu. pose proof Hf3 as [_ _ C3 C4 C5 C6]. unfold same_pages, same_held, same_bytes in *.
  assert (forall h, owned v0 h -> owned v3 h) as Hown3 by (intros h; by eapply filling_owned).
  assert (forall o, 0 <= o < 4096 -> up_byte v4 f o = g3 o) as Hg.
  { intros o Ho. rewrite B3 by auto. rewrite C6 by done. by rewrite Z.eqb_refl. }
  apply HQ; [done|done|congruence|intros p; by rewrite B4, C4|intros h; by rewrite B5, C5|done| |].
  2:{ intros h o Hh Hne Ho. rewrite B3 by auto. rewrite C6 by done. by rewrite (proj2 (Z.eqb_neq h f)). }
  assert (forall o, 0 <= o -> o + 4 <= 4096 -> word_at (up_byte v4 f) o = word_at g3 o) as Hwg.
  { intros o H0 H4. unfold word_at. by rewrite !Hg by lia. }
  split.
  - unfold USER_STACK_VIRTUAL. word_lia.
  - unfold USER_STACK_VIRTUAL, USER_STACK_TOP. fold n. lia.
  - replace (USER_STACK_VIRTUAL + cursor - USER_STACK_VIRTUAL) with cursor by lia. rewrite Hwg by lia. fold n.
    unfold g3. rewrite word_out by lia. unfold word_at. rewrite !Ho2 by lia.
    fold (word_at (overlay g cursor 4 (byte_at (le32 n))) cursor). apply word_overlay. lia.
  - intros i a Ha. destruct (Forall2_lookup_l _ _ _ _ _ Hst Ha) as (p & Hp & H1 & H2 & H3). pose proof (lookup_lt_Some _ _ _ Hp) as Hi.
    assert (Z.of_nat i < n) as Hin by (unfold zlength in Hna; lia).
    replace (USER_STACK_VIRTUAL + cursor - USER_STACK_VIRTUAL) with cursor by lia. cbv zeta. fold n. rewrite Hwg by lia.
    unfold g3 at 1 2 3. rewrite word_out by lia. rewrite (Hw2 i p Hp). split; [lia|]. split; [done|]. intros j Hj.
    unfold USER_STACK_TOP, USER_STACK_VIRTUAL in *. rewrite Hg by lia. unfold g3. rewrite overlay_out by lia. rewrite Ho2 by lia.
    rewrite overlay_out by lia. by apply H3.
  - replace (USER_STACK_VIRTUAL + cursor - USER_STACK_VIRTUAL) with cursor by lia. rewrite Hwg by (fold n; lia). fold n. unfold g3. by apply word_overlay.
Qed.

(** Nothing but the frame [f] differs. *)
Record only_frame v (f : Z) v' : Prop := {
  of_inv : up_inv v';
  of_window : up_window v' = None;
  of_room : up_room v' = up_room v;
  of_pages : same_pages v v';
  of_held : same_held v v';
  of_bytes : forall h o, owned v h -> h <> f -> 0 <= o < 4096 -> up_byte v' h o = up_byte v h o
}.

Lemma only_frame_refl v f : up_inv v -> up_window v = None -> only_frame v f v.
Proof. intros. by split. Qed.

(** The window is opened on [f] and the page cleared, or nothing happens. *)
Lemma clear_ok {A} v f (k : M V (option A)) (Q : option A -> V -> Prop) : up_inv v -> up_window v = None -> owned v f ->
  (forall v', only_frame v f v' -> same_bytes v v' -> up_room v < 0 -> Q None v') ->
  (forall v', filling v f (fun _ => 0) v' -> wp k v' Q) ->
  wp (let! ok := up_window_map f in if negb ok then ret None else for_range 4096 0 (fun index => up_store index 0) ;; k) v Q.
Proof.
  intros Hi Hw Hf Hno Hk. apply wp_bind. wp_apply (up_window_map_ok f v); [done..|]. intros [] v1 (A1 & A2 & A3 & A4 & A5 & A6 & A7); cbn [negb].
  2:{ run. apply Hno; [split; try done|done|].
      - intros h o Hh _ _. by apply A4.
      - destruct (Z.lt_ge_cases (up_room v) 0); [done|]. by specialize (A2 ltac:(lia)). }
  apply wp_bind. eapply (fill_run v f (fun o => up_byte v f o) v1 0 4096 (fun _ => 0)); [|done|done|done|done|].
  { split; try done. intros h o Hh Ho. rewrite A4 by done. by destruct (Z.eqb_spec h f) as [->|]. }
  intros v2 Hf2. apply Hk. eapply filling_ext; [|exact Hf2]. intros o Ho. by rewrite overlay_in by lia.
Qed.

Lemma initialize_user_stack_ok v f argv : up_inv v -> up_window v = None -> owned v f -> Forall Path.c_str argv -> Forall bytes argv ->
  wp (initialize_user_stack f (Some argv)) v (fun r v' => only_frame v f v' /\
    match r with
    | Some sp => arguments_fit argv /\ argument_block (up_byte v' f) sp argv
    | None => same_bytes v v' /\ (arguments_fit argv -> up_room v < 0)
    end).
Proof.
  intros Hi Hw Hf Hs Hb. pose proof (only_frame_refl v f Hi Hw) as Hrefl.
  assert (~ arguments_fit argv -> only_frame v f v /\ same_bytes v v /\ (arguments_fit argv -> up_room v < 0)) as Hnone
    by (intros Hn; split; [done|]; split; [done|]; intros ?; by destruct Hn).
  unfold initialize_user_stack. destruct argv as [|a0 rest] eqn:Ea; [apply wp_ret, Hnone; by intros [? _]|rewrite <-Ea in *].
  assert (argv <> []) as Hne by (by rewrite Ea). destruct (measure_ok argv 0 0 Hs) as [M1 M2]; [done..|].
  destruct (measure_arguments 0 0 argv) as [[measured t]|] eqn:Em.
  2:{ apply wp_ret, Hnone. intros (_ & Hc & Hl & Ht). pose proof (total_bytes_nonneg argv).
      assert (0 <= zlength argv) by (unfold zlength; lia). by discriminate (M1 ltac:(left; lia) Hl ltac:(lia)). }
  destruct (M2 _ _ eq_refl) as ([Hc| ->] & Hl & -> & ->); [|done]. clear M1 M2. cbv zeta.
  assert (zlength (measured_of argv) = zlength argv) as -> by (unfold zlength, measured_of; by rewrite length_map).
  assert (length (measured_of argv) = length argv) as -> by apply length_map.
  pose proof (total_bytes_nonneg argv) as Ht0. assert (0 <= zlength argv) as Hn0 by (unfold zlength; lia). unfold PAGE_SIZE.
  rewrite !Z.add_0_l in *. destruct (Z.ltb_spec 4096 (total_bytes argv + (zlength argv + 2) * 4 + 3)) as [Hbig|Hfit].
  { apply wp_ret, Hnone. intros (_ & _ & _ & ?). lia. }
  assert (arguments_fit argv) as Hfits by (split; [done|]; split; [lia|]; done).
  apply clear_ok; [done..|by intros v' Hof Hsb Hr; split; [done|]|]. intros v1 Hf1.
  apply wp_bind. eapply place_ok; [exact Hf1|done|lia|]. intros g2 addresses v2 Hf2 Hst. set (c := 4096 - total_bytes argv) in *.
  rewrite align_down by lia. set (cursor := c / 4 * 4 - (zlength argv + 2) * 4).
  eapply (block_ok v f argv g2 v2 cursor addresses); [exact Hf2| |unfold cursor, c in *; word_lia|unfold cursor; word_lia|unfold cursor, c; word_lia|lia| |done].
  { eapply strings_below; [|done|exact Hst]. unfold cursor. word_lia. }
  intros v' A1 A2 A3 A4 A5 _ Hbl Hby. split; [by split|]. done.
Qed.


Lemma initialize_user_page_ok v f source : up_inv v -> up_window v = None -> owned v f -> bytes source ->
  wp (initialize_user_page f source) v (fun ok v' => only_frame v f v' /\
    if ok : bool then zlength source <= 4096 /\ forall o, 0 <= o < 4096 -> up_byte v' f o = byte_at source o
    else same_bytes v v' /\ (zlength source <= 4096 -> up_room v < 0)).
Proof.
  intros Hi Hw Hf Hb. unfold initialize_user_page, PAGE_SIZE. destruct (Z.ltb_spec 4096 (zlength source)) as [Hbig|Hfit].
  { run. split; [by apply only_frame_refl|]. split; [done|]. lia. }
  run. wp_apply (up_window_map_ok f v); [done..|]. intros [] v1 (A1 & A2 & A3 & A4 & A5 & A6 & A7); run.
  2:{ split; [split; try done; intros h o Hh _ _; by apply A4|]. split; [done|]. intros _.
      destruct (Z.lt_ge_cases (up_room v) 0); [done|]. by specialize (A2 ltac:(lia)). }
  eapply (fill_run v f (fun o => up_byte v f o) v1 0 4096 (fun _ => 0)); [|done|done|done|done|].
  { split; try done. intros h o Hh Ho. rewrite A4 by done. by destruct (Z.eqb_spec h f) as [->|]. }
  intros v2 Hf2. apply wp_bind. eapply (fill_run v f _ v2 0 (length source) (byte_at source)); [exact Hf2|done|exact Hfit|intros i; by apply byte_at_range|done|].
  intros v3 Hf3. set (g := overlay _ 0 _ _) in Hf3. unfold release_window. run. wp_apply (up_window_unmap_ok f v3); [apply Hf3|apply Hf3|].
  intros r v4 (-> & B1 & B2 & B3 & B4 & B5 & B6). rewrite Z.eqb_refl. run.
  pose proof Hf3 as [_ _ C3 C4 C5 C6]. unfold same_pages, same_held, same_bytes in *.
  assert (forall h, owned v h -> owned v3 h) as Hown3 by (intros h; by eapply filling_owned). split.
  - split; [done|done|congruence|intros p; by rewrite B4, C4|intros h; by rewrite B5, C5|].
    intros h o Hh Hne Ho. rewrite B3 by auto. rewrite C6 by done. by rewrite (proj2 (Z.eqb_neq h f)).
  - split; [done|]. intros o Ho. rewrite B3 by auto. rewrite C6, Z.eqb_refl by done. unfold g, overlay.
    destruct (Z.ltb_spec o (0 + Z.of_nat (length source))).
    + rewrite (proj2 (Z.leb_le _ _)) by lia. cbn [andb]. f_equal. lia.
    + rewrite andb_false_r, (proj2 (Z.leb_le _ _)), (proj2 (Z.ltb_lt _ _)) by lia. cbn [andb]. unfold byte_at.
      by rewrite lookup_ge_None_2 by lia.
Qed.

End spec.
End UserStackSpec.
