(* ===== verification/Spawn.v ===== *)
(** * New user processes, kernel/proc/scheduler.c

    [scheduler_spawn_image] gives a program a kernel stack, an address space with
    its segments, a stack page with its arguments and an entry of the process
    table; [user_process_create] does the same for the one-page test programs of
    the kernel. Every failure goes through a roll-back that returns what was
    taken so far. The proofs are in SpawnSpec.v. *)

From S2P Require Import Prelude Monad Interfaces Bytes Cpu Block MiniFs Path Elf ElfSpec ElfLoad Scheduler SchedulerInv UserStack.
Import MiniFs(result(..)).

(** What spawning needs besides [Services]: page frames and the construction of
    address spaces. [sp_frame e f]: the frame [f] belongs to the scheduler;
    [sp_fresh e d]: the space [d] has no page yet. *)
Class SpawnOps (E : Type) := {
  sp_pages : Z -> UserPageOps E;              (** the page tables of the space with this directory, and the load window *)
  sp_alloc : M E Z;                           (** pmm_alloc *)
  sp_free : Z -> M E bool;                    (** pmm_free *)
  sp_create : M E (option Z);                 (** vmm_address_space_create: the directory, or [None] *)
  sp_directories : M E (Z * Z);               (** vmm_current_page_directory and vmm_kernel_page_directory *)
  sp_frame : E -> Z -> Prop;
  sp_fresh : E -> Z -> Prop
}.

Definition same_frames {E} `{!SpawnOps E} (e e' : E) : Prop := forall f, sp_frame e' f <-> sp_frame e f.

Class Spawning (E : Type) `{!Services E} `{!SpawnOps E} := {
  sp_kmalloc_frames : forall n e, sv_inv e -> wp (sv_kmalloc n) e (fun _ e' => same_frames e e');
  sp_kfree_frames : forall a e, sv_inv e -> sv_stack e a -> wp (sv_kfree a) e (fun _ e' => same_frames e e');
  sp_store_frames : forall a v e, sv_inv e -> wp (sv_store a v) e (fun _ e' => same_frames e e');
  sp_destroy_frames : forall d e, sv_inv e -> sv_space e d -> sv_active e <> d ->
    wp (sv_destroy d) e (fun _ e' => same_frames e e');
  sp_directories_ok : forall e, sv_inv e -> wp sp_directories e (fun _ e' => e' = e);
  sp_alloc_ok : forall e, sv_inv e -> wp sp_alloc e (fun a e' => SchedulerInv.quiet e e' /\
    ((a = 0 /\ same_frames e e') \/ (0 < a /\ ~ sp_frame e a /\ forall f, sp_frame e' f <-> sp_frame e f \/ f = a)));
  sp_free_ok : forall a e, sv_inv e -> sp_frame e a -> wp (sp_free a) e (fun ok e' => ok = true /\
    SchedulerInv.quiet e e' /\ forall f, sp_frame e' f <-> sp_frame e f /\ f <> a);
  sp_create_ok : forall e, sv_inv e -> wp sp_create e (fun r e' => sv_inv e' /\ sv_active e' = sv_active e /\
    same_frames e e' /\ (forall b, sv_stack e' b <-> sv_stack e b) /\
    match r with
    | Some d => 0 < d /\ ~ sv_space e d /\ sv_active e <> d /\ sp_fresh e' d /\ forall d', sv_space e' d' <-> sv_space e d' \/ d' = d
    | None => forall d', sv_space e' d' <-> sv_space e d'
    end);
  (** [elf_load_image] settles: what it allocated belongs to the space. *)
  sp_load_ok : forall d image e, sv_inv e -> sv_space e d -> sp_fresh e d -> bytes image -> zlength image < 4294967296 ->
    wp (@Elf.elf_load_image E (sp_pages d) true true image) e (fun r e' => SchedulerInv.quiet e e' /\ same_frames e e' /\
      forall st, r = Err st -> st < 0);
  (** Filling a frame through the window touches nothing else. *)
  sp_stack_ok : forall d f argv e, sv_inv e -> sp_frame e f -> Forall Path.c_str argv -> Forall bytes argv ->
    wp (@UserStack.initialize_user_stack E (sp_pages d) f (Some argv)) e (fun _ e' => SchedulerInv.quiet e e' /\ same_frames e e');
  sp_page_ok : forall d f source e, sv_inv e -> sp_frame e f -> bytes source ->
    wp (@UserStack.initialize_user_page E (sp_pages d) f source) e (fun _ e' => SchedulerInv.quiet e e' /\ same_frames e e');
  (** A mapped frame belongs to the space. *)
  sp_map_ok : forall d p f fl e, sv_inv e -> sv_space e d -> sp_frame e f -> 0 <= p < 0xC0000000 -> page_aligned p ->
    fl = 0 \/ fl = VMM_WRITABLE ->
    wp (@up_map E (sp_pages d) p f fl) e (fun ok e' => SchedulerInv.quiet e e' /\
      if ok : bool then forall g, sp_frame e' g <-> sp_frame e g /\ g <> f else same_frames e e')
}.

Module Spawn.
Import Scheduler UserStack.

Definition USER_CODE_VIRTUAL : Z := 0x400000.
Definition ENOMEM : Z := 12.

Section spawn.
Context {E : Type} `{!Services E} `{!SpawnOps E}.

Definition release_physical_page (physical_address : Z) : M (sched E) unit :=
  if physical_address =? 0 then ret tt else
  let! ok := zoom (sp_free physical_address) in
  if negb ok then panic "user process rollback found invalid page" else ret tt.

(** The label [rollback] of either routine, with the local variables it reads. *)
Definition roll_back (space_message stack_message : string) (directory : Z) (pages : list Z) (kernel_stack flags result : Z) : M (sched E) Z :=
  (if negb (directory =? 0) then
     let! ok := zoom (sv_destroy directory) in
     if negb ok then panic space_message else ret tt
   else ret tt) ;;
  fold_right (fun page k => release_physical_page page ;; k)
   ((if negb (kernel_stack =? 0) then
       let! ok := zoom (sv_kfree kernel_stack) in
       if negb ok then panic stack_message else ret tt
     else ret tt) ;;
    zoom (Cpu.irq_restore flags) ;;
    ret result) pages.

(** The entry of the new process and its first kernel stack. *)
Definition start_user_process (sym : symbols) (i : Z) (nm : list Z) (new_pid kernel_stack stack_top directory entry_point flags : Z) : M (sched E) Z :=
  put_process i clear_process ;;
  inherit_current_working_directory i ;;
  let! ci := current in
  let! cp := get_process ci in
  let top := kernel_stack +u KERNEL_STACK_SIZE in
  update_process i (fun p =>
    set_process_name nm
      (Process new_pid PROCESS_NEW (name p) (saved_stack p) top stack_top
         directory (exit_code p) (pid cp) (wake_tick p) DEFAULT_TIME_SLICE
         (fd_table p) (current_working_directory p) (run_node p) (wait_node p) (entry p) (argument p)
         kernel_stack EFLAGS_INTERRUPT_ENABLE entry_point)) ;;
  let! stack := prepare_stack top (thread_returned sym) (user_process_trampoline sym) in
  update_process i (set_saved_stack stack) ;;
  update_process i (set_state PROCESS_READY) ;;
  zoom (Cpu.irq_restore flags) ;;
  let! p := get_process i in
  ret (s32 (pid p)).

(** From the address space to the mapped stack: the locals at a [goto rollback]
    (directory, stack frame, result), or directory, stack pointer and entry. *)
Definition spawn_space (kernel_stack stack_physical : Z) (image : list Z) (argv : list (list Z))
    : M E ((Z * Z * Z) + (Z * Z * Z)) :=
  if (kernel_stack =? 0) || (stack_physical =? 0) then ret (inl (0, stack_physical, - ENOMEM)) else
  let! created := sp_create in
  match created with
  | None => ret (inl (0, stack_physical, - ENOMEM))
  | Some directory =>
      let! loaded := @Elf.elf_load_image E (sp_pages directory) true true image in
      match loaded with
      | Err result => if result <? 0 then ret (inl (directory, stack_physical, result)) else fault
      | Ok entry_point =>
          let! initialized := @initialize_user_stack E (sp_pages directory) stack_physical (Some argv) in
          match initialized with
          | None => ret (inl (directory, stack_physical, - MINIOS_EINVAL))
          | Some stack_top =>
              let! mapped := @up_map E (sp_pages directory) USER_STACK_VIRTUAL stack_physical VMM_WRITABLE in
              if negb mapped then ret (inl (directory, stack_physical, - ENOMEM))
              else ret (inr (directory, stack_top, entry_point))
          end
      end
  end.

(** The pointers [image] and [argv] are not null; [nm] is a C string. *)
Definition scheduler_spawn_image (sym : symbols) (nm image : list Z) (argv : list (list Z)) : M (sched E) Z :=
  if match nm with [] => true | c :: _ => c =? 0 end || (zlength image =? 0) || bool_decide (argv = [])
  then ret (- MINIOS_EINVAL) else
  let! flags := zoom Cpu.irq_save_disable in
  let! slot := find_unused_process in
  match slot with
  | None => zoom (Cpu.irq_restore flags) ;; ret (- MINIOS_EAGAIN)
  | Some i =>
      let! kernel_stack := zoom (sv_kmalloc KERNEL_STACK_SIZE) in
      let! stack_physical := zoom sp_alloc in
      let! r := zoom (spawn_space kernel_stack stack_physical image argv) in
      let rollback := roll_back "ELF process address-space rollback failed" "ELF process kernel-stack rollback failed" in
      match r with
      | inl (directory, stack_physical, result) => rollback directory [stack_physical] kernel_stack flags result
      | inr (directory, stack_top, entry_point) =>
          let! fresh := allocate_pid in
          match fresh with
          | None => rollback directory [0] kernel_stack flags (- MINIOS_EAGAIN)
          | Some new_pid => start_user_process sym i nm new_pid kernel_stack stack_top directory entry_point flags
          end
      end
  end.

(** The same for a page of code: directory, code frame and stack frame at a
    [goto rollback], or the directory. *)
Definition create_space (kernel_stack code_physical stack_physical : Z) (image : list Z) : M E ((Z * Z * Z) + Z) :=
  if (kernel_stack =? 0) || (code_physical =? 0) || (stack_physical =? 0) then ret (inl (0, code_physical, stack_physical)) else
  let! filled := andM (@initialize_user_page E (sp_pages 0) code_physical image)
                      (@initialize_user_page E (sp_pages 0) stack_physical []) in
  if negb filled then ret (inl (0, code_physical, stack_physical)) else
  let! created := sp_create in
  match created with
  | None => ret (inl (0, code_physical, stack_physical))
  | Some directory =>
      let! mapped := @up_map E (sp_pages directory) USER_CODE_VIRTUAL code_physical 0 in
      if negb mapped then ret (inl (directory, code_physical, stack_physical)) else
      let! mapped_stack := @up_map E (sp_pages directory) USER_STACK_VIRTUAL stack_physical VMM_WRITABLE in
      if negb mapped_stack then ret (inl (directory, 0, stack_physical)) else
      ret (inr directory)
  end.

Definition user_process_create (sym : symbols) (nm image : list Z) : M (sched E) Z :=
  if match nm with [] => true | c :: _ => c =? 0 end || (zlength image =? 0) || (Elf.PAGE_SIZE <? zlength image)
  then ret (-1) else
  let! flags := zoom Cpu.irq_save_disable in
  let! slot := find_unused_process in
  match slot with
  | None => zoom (Cpu.irq_restore flags) ;; ret (-1)
  | Some i =>
      let! ci := current in
      let! cp := get_process ci in
      let! elsewhere := orM (ret (negb (page_directory cp =? 0)))
        (let! d := zoom sp_directories in ret (negb (fst d =? snd d))) in
      if elsewhere : bool then zoom (Cpu.irq_restore flags) ;; ret (-1) else
      let! kernel_stack := zoom (sv_kmalloc KERNEL_STACK_SIZE) in
      let! code_physical := zoom sp_alloc in
      let! stack_physical := zoom sp_alloc in
      let! r := zoom (create_space kernel_stack code_physical stack_physical image) in
      let rollback := roll_back "user process address-space rollback failed" "user process kernel-stack rollback failed" in
      match r with
      | inl (directory, code_physical, stack_physical) => rollback directory [code_physical; stack_physical] kernel_stack flags (-1)
      | inr directory =>
          let! fresh := allocate_pid in
          match fresh with
          | None => rollback directory [0; 0] kernel_stack flags (-1)
          | Some new_pid => start_user_process sym i nm new_pid kernel_stack USER_STACK_TOP directory USER_CODE_VIRTUAL flags
          end
      end
  end.

End spawn.
End Spawn.
