(* ===== verification/SpawnSpec.v ===== *)
(** * New user processes: nothing is lost on the way

    [holds e k d fs e'] describes the middle of a spawn: besides what it owned in
    [e] the scheduler now owns the kernel stack [k], the address space [d] and
    the frames [fs], where 0 stands for nothing. Every step moves between such
    states, the roll-back leads back to [e], and the new table entry takes
    over what is left. *)

From S2P Require Import Prelude Monad Interfaces Bytes Cpu Block MiniFs Path Elf ElfSpec ElfLoad Scheduler SchedulerInv SchedulerLife UserStack Spawn.
Import MiniFs(result(..)).

Module SpawnSpec.
Import Scheduler SchedulerInv SchedulerLife UserStack Spawn.

Lemma wp_and {S A} (m : M S A) s (P Q : A -> S -> Prop) : wp m s P -> wp m s Q -> wp m s (fun a s' => P a s' /\ Q a s').
Proof. unfold wp. by destruct (m s). Qed.

Section spec.
Context {E : Type} `{!Services E} `{!SpawnOps E} `{!Spawning E}.
Implicit Types (e : E) (s : sched E).

Fixpoint distinct (fs : list Z) : Prop :=
  match fs with [] => True | f :: fs' => (f <> 0 -> f ∉ fs') /\ distinct fs' end.

Record holds e (k d : Z) (fs : list Z) e' : Prop := {
  ho_inv : sv_inv e';
  ho_active : sv_active e' = sv_active e;
  ho_stacks : forall b, sv_stack e' b <-> sv_stack e b \/ b = k /\ k <> 0;
  ho_spaces : forall x, sv_space e' x <-> sv_space e x \/ x = d /\ d <> 0;
  ho_frames : forall f, sp_frame e' f <-> sp_frame e f \/ f ∈ fs /\ f <> 0;
  ho_stack : k <> 0 -> ~ sv_stack e k;
  ho_space : d <> 0 -> ~ sv_space e d /\ sv_active e <> d;
  ho_new : forall f, f ∈ fs -> f <> 0 -> ~ sp_frame e f;
  ho_distinct : distinct fs
}.

Lemma holds_nothing e : sv_inv e -> holds e 0 0 [] e.
Proof. intros Hi. split; try done; intros; try tauto; set_solver. Qed.

Lemma holds_quiet e k d fs e1 e2 : holds e k d fs e1 -> quiet e1 e2 -> same_frames e1 e2 -> holds e k d fs e2.
Proof.
  intros [] (Q1 & Q2 & Q3 & Q4) Hf. unfold same_frames in Hf. split; try done; [congruence|..].
  - intros b. by rewrite Q4. - intros x. by rewrite Q3. - intros f. by rewrite Hf.
Qed.

(** Nothing kept: the resources are those of the start. *)
Lemma holds_back e k fs e' : k = 0 -> Forall (fun f => f = 0) fs -> holds e k 0 fs e' -> quiet e e' /\ same_frames e e'.
Proof.
  intros -> H0 Hh. split; [split; [apply Hh|split; [apply Hh|split]]|].
  - intros x. rewrite (ho_spaces _ _ _ _ _ Hh). tauto.
  - intros b. rewrite (ho_stacks _ _ _ _ _ Hh). tauto.
  - intros f. rewrite (ho_frames _ _ _ _ _ Hh). rewrite Forall_forall in H0. naive_solver.
Qed.

Lemma distinct_snoc fs a : distinct fs -> (a <> 0 -> a ∉ fs) -> distinct (fs ++ [a]).
Proof.
  induction fs as [|f fs IH]; cbn; [intros _ _; split; [intros; set_solver|done]|].
  intros [Hf Hd] Ha. split; [|apply IH; [done|intros; set_solver]]. intros Hne. rewrite elem_of_app, list_elem_of_singleton.
  intros [?|<-]; [by apply Hf|]. apply (Ha Hne). by left.
Qed.

Lemma take_stack e d fs e1 n : 0 < n -> holds e 0 d fs e1 -> wp (sv_kmalloc n) e1 (fun a e2 =>
  0 <= a /\ (a <> 0 -> a + n < 4294967296) /\ holds e a d fs e2).
Proof.
  intros Hn Hh. pose proof (ho_inv _ _ _ _ _ Hh) as Hi. eapply wp_mono; [exact (wp_and _ _ _ _ (sv_kmalloc_ok n e1 Hi) (sp_kmalloc_frames n e1 Hi))|].
  cbv beta. intros a e2 ((Hi2 & Ha2 & Hsp & Hst) & Hf).
  assert (forall b, sv_stack e1 b <-> sv_stack e b) as Hs1 by (intros b; rewrite (ho_stacks _ _ _ _ _ Hh); tauto).
  destruct Hst as [[-> Hst]|(Hp & Hl & Hn0 & Hst)].
  - split; [done|]. split; [done|]. by eapply holds_quiet.
  - split; [lia|]. split; [done|]. unfold same_frames in Hf. destruct Hh. split; try done; [congruence|..].
    + intros b. rewrite Hst, Hs1. split; [intros [?| ->]; [by left|right; split; [done|lia]]|tauto].
    + intros x. by rewrite Hsp. + intros f. by rewrite Hf. + intros _. by rewrite <-Hs1.
Qed.

Lemma allot_frame e k d fs e1 : holds e k d fs e1 -> wp sp_alloc e1 (fun a e2 => holds e k d (fs ++ [a]) e2).
Proof.
  intros Hh. pose proof (ho_inv _ _ _ _ _ Hh) as Hi. eapply wp_mono; [by apply sp_alloc_ok|]. cbv beta. intros a e2 [Hq Hc].
  pose proof Hq as (Q1 & Q2 & Q3 & Q4). destruct Hh. unfold same_frames in Hc.
  assert (a <> 0 -> ~ sp_frame e1 a) as Hna by (destruct Hc as [[-> _]|(? & ? & _)]; done).
  split; try done; [congruence|intros b; by rewrite Q4|intros x; by rewrite Q3|..].
  - intros f. rewrite elem_of_app, list_elem_of_singleton. destruct Hc as [[-> Hc]|(Hp & _ & Hc)]; rewrite Hc, ho_frames0.
    + naive_solver.
    + split; [|naive_solver]. intros [[?|?]| ->]; [by left|naive_solver|]. right. split; [by right|lia].
  - intros f Hf Hne. rewrite elem_of_app, list_elem_of_singleton in Hf. destruct Hf as [Hf| ->]; [by apply ho_new0|].
    specialize (Hna Hne). rewrite ho_frames0 in Hna. tauto.
  - apply distinct_snoc; [done|]. intros Hne Hin. apply (Hna Hne). rewrite ho_frames0. by right.
Qed.

Lemma take_space e k fs e1 : holds e k 0 fs e1 -> wp sp_create e1 (fun r e2 =>
  match r with Some d => d <> 0 /\ sp_fresh e2 d /\ holds e k d fs e2 | None => holds e k 0 fs e2 end).
Proof.
  intros Hh. pose proof (ho_inv _ _ _ _ _ Hh) as Hi. eapply wp_mono; [by apply sp_create_ok|]. cbv beta. intros r e2 (Hi2 & Ha & Hf & Hst & Hr).
  assert (forall x, sv_space e1 x <-> sv_space e x) as Hs1 by (intros x; rewrite (ho_spaces _ _ _ _ _ Hh); tauto).
  destruct r as [d|]; [|by eapply holds_quiet]. destruct Hr as (Hd & Hn & Hna & Hfr & Hsp). split; [lia|]. split; [done|].
  unfold same_frames in Hf. destruct Hh. split; try done; [congruence|intros b; by rewrite Hst| |intros f; by rewrite Hf|].
  - intros x. rewrite Hsp, Hs1. split; [intros [?| ->]; [by left|right; split; [done|lia]]|tauto].
  - intros _. rewrite <-Hs1. split; [done|congruence].
Qed.

(** A frame mapped into the space leaves the list. *)
Lemma give_frame e k d l1 f l2 e1 p fl : holds e k d (l1 ++ f :: l2) e1 -> f <> 0 -> f ∉ l1 -> d <> 0 -> 0 <= p < 0xC0000000 -> page_aligned p ->
  fl = 0 \/ fl = VMM_WRITABLE ->
  wp (@up_map E (sp_pages d) p f fl) e1 (fun ok e2 => if ok : bool then holds e k d (l1 ++ 0 :: l2) e2 else holds e k d (l1 ++ f :: l2) e2).
Proof.
  intros Hh Hf Hf1 Hd Hp Hal Hfl. pose proof (ho_inv _ _ _ _ _ Hh) as Hi.
  assert (sp_frame e1 f) as Hfr by (rewrite (ho_frames _ _ _ _ _ Hh); right; split; [set_solver|done]).
  assert (sv_space e1 d) as Hsp by (rewrite (ho_spaces _ _ _ _ _ Hh); by right).
  eapply wp_mono; [by apply sp_map_ok|]. cbv beta. intros ok e2 [Hq Hok]. destruct ok; [|by eapply holds_quiet].
  pose proof Hq as (Q1 & Q2 & Q3 & Q4).
  assert (~ sp_frame e f) as Hnf by (apply (ho_new _ _ _ _ _ Hh); [set_solver|done]).
  assert (distinct (l1 ++ 0 :: l2) /\ f ∉ l2) as [Hdis Hf2].
  { pose proof (ho_distinct _ _ _ _ _ Hh) as Hd1. clear -Hd1 Hf. induction l1 as [|g l1 IH]; cbn in *; [naive_solver|].
    destruct Hd1 as [H1 H2]. destruct (IH H2). split; [|done]. split; [|done]. intros Hg. specialize (H1 Hg). set_solver. }
  destruct Hh. split; try done; [congruence|intros b; by rewrite Q4|intros x; by rewrite Q3|..].
  - intros g. rewrite Hok, ho_frames0. rewrite !elem_of_app, !elem_of_cons. destruct (decide (g = f)) as [->|Hne]; [|tauto].
    split; [tauto|]. intros [?|[[?|[?|?]] ?]]; tauto.
  - intros g Hg Hne. apply ho_new0; [|done]. rewrite elem_of_app, elem_of_cons in *. tauto.
Qed.

(** ** Giving back *)

(** Only the services differ from [s], whose interrupts are masked. *)
Definition within s e : sched E := set_svc e (lset (Cpu.masked (cpu s)) s).

Lemma give_page s e0 k f fs e1 (Q : unit -> sched E -> Prop) : holds e0 k 0 (f :: fs) e1 ->
  (forall e2, holds e0 k 0 fs e2 -> Q tt (within s e2)) -> wp (release_physical_page f) (within s e1) Q.
Proof.
  intros Hh HQ. unfold release_physical_page. destruct (Z.eqb_spec f 0) as [->|Hf].
  { run. apply HQ. destruct Hh. split; try done.
    - intros g. rewrite ho_frames0, elem_of_cons. naive_solver.
    - intros g Hg. apply ho_new0. by right. - by destruct ho_distinct0. }
  pose proof (ho_inv _ _ _ _ _ Hh) as Hi. apply wp_bind, wp_zoom. eapply wp_mono; [apply sp_free_ok; [done|]|].
  { cbn. rewrite (ho_frames _ _ _ _ _ Hh). right. split; [by left|done]. }
  cbv beta. intros ok e2 (-> & Hq & Hok). run. apply HQ. pose proof Hq as (Q1 & Q2 & Q3 & Q4). cbn [lget svc_lens svc within set_svc] in *.
  assert (~ sp_frame e0 f) as Hnf by (apply (ho_new _ _ _ _ _ Hh); [by left|done]).
  destruct Hh. destruct ho_distinct0 as [Hd1 Hd2]. specialize (Hd1 Hf).
  split; try done; [congruence|intros b; by rewrite Q4|intros x; by rewrite Q3|..].
  - intros g. rewrite Hok, ho_frames0, elem_of_cons. destruct (decide (g = f)) as [->|Hne]; [|tauto]. tauto.
  - intros g Hg. apply ho_new0. by right.
Qed.

Lemma give_space s e0 k d fs e1 (message : string) (Q : unit -> sched E -> Prop) : holds e0 k d fs e1 ->
  (forall e2, holds e0 k 0 fs e2 -> Q tt (within s e2)) ->
  wp (if negb (d =? 0) then let! ok := zoom (sv_destroy d) in if negb ok then panic message else ret tt else ret tt) (within s e1) Q.
Proof.
  intros Hh HQ. destruct (Z.eqb_spec d 0) as [->|Hd]; cbn [negb]; [run; by apply HQ|].
  pose proof (ho_inv _ _ _ _ _ Hh) as Hi. destruct (ho_space _ _ _ _ _ Hh Hd) as [Hns Hna].
  assert (sv_space e1 d) as Hsp by (rewrite (ho_spaces _ _ _ _ _ Hh); by right).
  assert (sv_active e1 <> d) as Hact by (by rewrite (ho_active _ _ _ _ _ Hh)).
  apply wp_bind, wp_zoom. eapply wp_mono; [exact (wp_and _ _ _ _ (sv_destroy_ok d e1 Hi Hsp Hact) (sp_destroy_frames d e1 Hi Hsp Hact))|].
  cbv beta. intros ok e2 ((-> & Hi2 & Ha2 & Hsp2 & Hst2) & Hf). run. apply HQ. unfold same_frames in Hf.
  destruct Hh. split; try done; [congruence|intros b; by rewrite Hst2| |intros f; by rewrite Hf].
  intros x. rewrite Hsp2, ho_spaces0. split; [naive_solver|]. intros [H|[_ ?]]; [|done]. split; [by left|]. by intros ->.
Qed.

Lemma give_stack s e0 k fs e1 (message : string) (Q : unit -> sched E -> Prop) : holds e0 k 0 fs e1 ->
  (forall e2, holds e0 0 0 fs e2 -> Q tt (within s e2)) ->
  wp (if negb (k =? 0) then let! ok := zoom (sv_kfree k) in if negb ok then panic message else ret tt else ret tt) (within s e1) Q.
Proof.
  intros Hh HQ. destruct (Z.eqb_spec k 0) as [->|Hk]; cbn [negb]; [run; by apply HQ|].
  pose proof (ho_inv _ _ _ _ _ Hh) as Hi. pose proof (ho_stack _ _ _ _ _ Hh Hk) as Hns.
  assert (sv_stack e1 k) as Hst by (rewrite (ho_stacks _ _ _ _ _ Hh); by right).
  apply wp_bind, wp_zoom. eapply wp_mono; [exact (wp_and _ _ _ _ (sv_kfree_ok k e1 Hi Hst) (sp_kfree_frames k e1 Hi Hst))|].
  cbv beta. intros ok e2 ((-> & Hi2 & Ha2 & Hsp2 & Hst2) & Hf). run. apply HQ. unfold same_frames in Hf.
  destruct Hh. split; try done; [congruence| |intros x; by rewrite Hsp2|intros f; by rewrite Hf].
  intros b. rewrite Hst2, ho_stacks0. split; [naive_solver|]. intros [H|[_ ?]]; [|done]. split; [by left|]. by intros ->.
Qed.

(** The roll-back ends where the spawn began. *)
Lemma roll_back_ok m1 m2 s k d fs e1 result (Q : Z -> sched E -> Prop) : Cpu.wf (cpu s) -> holds (svc s) k d fs e1 ->
  (forall e2, quiet (svc s) e2 -> same_frames (svc s) e2 -> Q result (set_svc e2 s)) ->
  wp (roll_back m1 m2 d fs k (Cpu.eflags (cpu s)) result) (within s e1) Q.
Proof.
  intros Hc Hh HQ. unfold roll_back. apply wp_bind. eapply give_space; [exact Hh|]. clear e1 Hh. intros e1 Hh.
  revert e1 Hh. induction fs as [|f fs IH]; intros e1 Hh; cbn [fold_right].
  - apply wp_bind. eapply give_stack; [exact Hh|]. intros e2 Hh2. run. apply Cpu.irq_restore_wp; [done|]. run.
    destruct (holds_back _ _ _ _ eq_refl (Forall_nil_2 _) Hh2) as [Hq Hf].
    replace (lset (cpu s) (within s e2)) with (set_svc e2 s) by (by destruct s). by apply HQ.
  - apply wp_bind. eapply give_page; [exact Hh|]. intros e2 Hh2. by apply IH.
Qed.

(** ** The address space *)

Lemma singleton_map e k d f e1 p fl : holds e k d [f] e1 -> f <> 0 -> d <> 0 -> 0 <= p < 0xC0000000 -> page_aligned p ->
  fl = 0 \/ fl = VMM_WRITABLE ->
  wp (@up_map E (sp_pages d) p f fl) e1 (fun ok e2 => if ok : bool then holds e k d [0] e2 else holds e k d [f] e2).
Proof. intros. apply (give_frame e k d [] f []); set_solver. Qed.

Lemma spawn_space_ok e k f image argv e1 : holds e k 0 [f] e1 -> bytes image -> zlength image < 4294967296 ->
  Forall Path.c_str argv -> Forall bytes argv ->
  wp (spawn_space k f image argv) e1 (fun r e2 =>
    match r with
    | inl (d, f', result) => f' = f /\ result < 0 /\ holds e k d [f] e2
    | inr (d, sp, en) => k <> 0 /\ d <> 0 /\ holds e k d [0] e2
    end).
Proof.
  intros Hh Hib His Hs Hb. unfold spawn_space. destruct (Z.eqb_spec k 0) as [->|Hk]; [by run|].
  destruct (Z.eqb_spec f 0) as [->|Hf]; [by run|]. run.
  eapply wp_mono; [by apply take_space|]. cbv beta. intros [d|] e2 Hr; [|by run]. destruct Hr as (Hd & Hfr & Hh2). run.
  pose proof (ho_inv _ _ _ _ _ Hh2) as Hi2. assert (sv_space e2 d) as Hsp by (rewrite (ho_spaces _ _ _ _ _ Hh2); by right).
  eapply wp_mono; [by apply sp_load_ok|]. cbv beta. intros r e3 (Hq & Hsf & Hneg). pose proof (holds_quiet _ _ _ _ _ _ Hh2 Hq Hsf) as Hh3.
  destruct r as [st|en].
  { specialize (Hneg st eq_refl). rewrite (proj2 (Z.ltb_lt st 0)) by done. by run. }
  pose proof (ho_inv _ _ _ _ _ Hh3) as Hi3. assert (sp_frame e3 f) as Hfr3 by (rewrite (ho_frames _ _ _ _ _ Hh3); right; set_solver).
  run. eapply wp_mono; [by apply sp_stack_ok|]. cbv beta. intros r e4 [Hq4 Hsf4]. pose proof (holds_quiet _ _ _ _ _ _ Hh3 Hq4 Hsf4) as Hh4.
  destruct r as [sp|]; [|by run]. run. eapply wp_mono; [apply (singleton_map _ _ _ _ _ USER_STACK_VIRTUAL VMM_WRITABLE Hh4); try done; [by right]|].
  cbv beta. intros [] e5 Hh5; by run.
Qed.

Lemma create_space_ok e k c f image e1 : holds e k 0 [c; f] e1 -> bytes image ->
  wp (create_space k c f image) e1 (fun r e2 =>
    match r with
    | inl (d, c', f') => holds e k d [c'; f'] e2
    | inr d => k <> 0 /\ d <> 0 /\ holds e k d [0; 0] e2
    end).
Proof.
  intros Hh Hib. unfold create_space. destruct (Z.eqb_spec k 0) as [->|Hk]; [by run|].
  destruct (Z.eqb_spec c 0) as [->|Hc]; [by run|]. destruct (Z.eqb_spec f 0) as [->|Hf]; [by run|]. run.
  pose proof (ho_inv _ _ _ _ _ Hh) as Hi. assert (c <> f) as Hcf by (destruct (ho_distinct _ _ _ _ _ Hh) as [H _]; specialize (H Hc); set_solver).
  assert (sp_frame e1 c) as Hfc by (rewrite (ho_frames _ _ _ _ _ Hh); right; set_solver).
  eapply wp_mono; [by apply sp_page_ok|]. cbv beta. intros ok1 e2 [Hq Hsf]. pose proof (holds_quiet _ _ _ _ _ _ Hh Hq Hsf) as Hh2.
  destruct ok1; [|by run]. pose proof (ho_inv _ _ _ _ _ Hh2) as Hi2.
  assert (sp_frame e2 f) as Hff by (rewrite (ho_frames _ _ _ _ _ Hh2); right; set_solver).
  eapply wp_mono; [by apply sp_page_ok; [..|constructor]|]. cbv beta. intros ok2 e3 [Hq3 Hsf3]. pose proof (holds_quiet _ _ _ _ _ _ Hh2 Hq3 Hsf3) as Hh3.
  destruct ok2; run; [|done]. eapply wp_mono; [by apply take_space|]. cbv beta. intros [d|] e4 Hr; [|by run].
  destruct Hr as (Hd & _ & Hh4). run.
  eapply wp_mono; [apply (give_frame _ _ _ [] c [f] _ USER_CODE_VIRTUAL 0 Hh4); try done; [set_solver|by left]|]. cbv beta.
  intros [] e5 Hh5; run; [|done].
  eapply wp_mono; [apply (give_frame _ _ _ [0] f [] _ USER_STACK_VIRTUAL VMM_WRITABLE Hh5); try done; [set_solver|by right]|]. cbv beta.
  intros [] e6 Hh6; by run.
Qed.

(** ** The table entry *)

(** What a successful spawn leaves: a ready child of the caller in the first
    free slot, with resources of its own. *)
Record spawned (nm : list Z) s s' (j : nat) c' : Prop := {
  sd_slot : (1 <= j < 16)%nat /\ (exists c, process_table s !! j = Some c /\ ~ live c) /\
    (forall k d, (1 <= k < j)%nat -> process_table s !! k = Some d -> live d);
  sd_table : process_table s' = <[j := c']> (process_table s);
  sd_state : state c' = PROCESS_READY;
  sd_pid : 0 < pid c' <= PID_MAXIMUM /\ ~ pid_used (process_table s) (pid c');
  sd_parent : exists i p, current_process s = Some (Z.of_nat i) /\ process_table s !! i = Some p /\
    parent_pid c' = pid p /\ cstring (current_working_directory c') = cstring (current_working_directory p);
  sd_files : fd_table c' = fd_zero;
  sd_stack : kernel_stack_top c' = kernel_stack_allocation c' + KERNEL_STACK_SIZE /\
    saved_stack c' = kernel_stack_top c' - 24 /\ ~ sv_stack (svc s) (kernel_stack_allocation c') /\
    forall b, sv_stack (svc s') b <-> sv_stack (svc s) b \/ b = kernel_stack_allocation c';
  sd_space : page_directory c' <> 0 /\ ~ sv_space (svc s) (page_directory c') /\
    forall d, sv_space (svc s') d <-> sv_space (svc s) d \/ d = page_directory c';
  sd_frames : same_frames (svc s) (svc s')
}.

Lemma rok_spawn t e e' j c c' k d fs :
  rok t e -> t !! j = Some c -> ~ live c -> (1 <= j)%nat -> holds e k d fs e' -> k <> 0 -> d <> 0 ->
  kernel_stack_allocation c' = k -> page_directory c' = d -> rok (<[j := c']> t) e'.
Proof.
  intros [Hi Hs Hsu Hp Hpu] Hc Hnl Hj Hh Hk Hd Ek Ed. pose proof (ho_stack _ _ _ _ _ Hh Hk) as Hns. destruct (ho_space _ _ _ _ _ Hh Hd) as [Hnd _].
  split; [apply Hh| | | |].
  - intros i q [(-> & -> & _)|[_ Hq]]%lookup_insert_cases Hl Hi1; rewrite (ho_stacks _ _ _ _ _ Hh); [split; [congruence|by right]|].
    destruct (Hs i q Hq Hl Hi1). auto.
  - intros i l q q' [(-> & -> & _)|[_ Hq]]%lookup_insert_cases [(-> & -> & _)|[_ Hq']]%lookup_insert_cases Hl Hl' Hk1 Hk2 Eq;
      [done| | |by eapply Hsu].
    + destruct (Hs l q' Hq' Hl' Hk2) as [_ Hin]. by rewrite <-Eq, Ek in Hin.
    + destruct (Hs i q Hq Hl Hk1) as [_ Hin]. by rewrite Eq, Ek in Hin.
  - intros i q [(-> & -> & _)|[_ Hq]]%lookup_insert_cases Hl Hne; rewrite (ho_spaces _ _ _ _ _ Hh); [right; by rewrite Ed|left; eauto].
  - intros i l q q' [(-> & -> & _)|[_ Hq]]%lookup_insert_cases [(-> & -> & _)|[_ Hq']]%lookup_insert_cases Hl Hl' Hne Eq;
      [done| | |by eapply Hpu].
    + rewrite Ed in Eq, Hne. pose proof (Hp l q' Hq' Hl' ltac:(congruence)) as Hin. by rewrite <-Eq in Hin.
    + pose proof (Hp i q Hq Hl Hne) as Hin. by rewrite Eq, Ed in Hin.
Qed.

(** Preparing the stack keeps the frames. *)
Lemma prepare_frames s top returned trampoline (Q : Z -> sched E -> Prop) : sv_inv (svc s) ->
  (forall e, quiet (svc s) e -> same_frames (svc s) e -> Q (top -u 24) (set_svc e s)) ->
  wp (prepare_stack top returned trampoline) s Q.
Proof.
  intros Hi HQ. unfold prepare_stack.
  assert (forall {A} a v (k : unit -> M (sched E) A) s0 (R : A -> sched E -> Prop),
    (exists e, quiet (svc s) e /\ same_frames (svc s) e /\ s0 = set_svc e s) ->
    (forall s1, (exists e, quiet (svc s) e /\ same_frames (svc s) e /\ s1 = set_svc e s) -> wp (k tt) s1 R) ->
    wp (bind (zoom (sv_store a v)) k) s0 R) as Hst.
  { intros A a v k s0 R (e & He & Hf & ->) Hk. apply wp_bind, wp_zoom. pose proof (proj1 He) as Hie.
    eapply wp_mono; [exact (wp_and _ _ _ _ (sv_store_ok a v e Hie) (sp_store_frames a v e Hie))|]. cbv beta. intros [] e' [He' Hf'].
    apply Hk. exists e'. split; [by eapply quiet_trans|]. split; [|done]. intros f. by rewrite (Hf' f). }
  apply Hst; [exists (svc s); split; [by apply quiet_refl|split; [done|by destruct s]]|]. intros s1 H1.
  do 5 (apply Hst; [done|]; clear dependent s1; intros s1 H1).
  destruct H1 as (e & He & Hf & ->). apply wp_ret. by apply HQ.
Qed.

Lemma start_ok sym nm s i p j c n k stack_top d fs entry_point next e1 :
  inv s -> current_process s = Some (Z.of_nat i) -> process_table s !! i = Some p ->
  (1 <= j < 16)%nat -> process_table s !! j = Some c -> state c = PROCESS_UNUSED ->
  (forall l q, (1 <= l < j)%nat -> process_table s !! l = Some q -> live q) ->
  0 < n <= PID_MAXIMUM -> ~ pid_used (process_table s) n -> nok (process_table s) next -> (next <> 0 -> n < next) ->
  0 < k -> k + KERNEL_STACK_SIZE < 4294967296 -> d <> 0 -> holds (svc s) k d fs e1 -> Forall (fun f => f = 0) fs ->
  wp (start_user_process sym (Z.of_nat j) nm n k stack_top d entry_point (Cpu.eflags (cpu s)))
    (set_next_pid next (within s e1)) (fun r s' => inv s' /\ cpu s' = cpu s /\
      exists c', spawned nm s s' j c' /\ r = pid c' /\ user_stack_top c' = stack_top /\ user_entry c' = entry_point).
Proof.
  intros Hinv Hc Hp Hj Hcj Hcu Hfirst Hn1 Hfresh Hnok Hnext Hk0 Hk1 Hd Hh Hf0.
  pose proof Hinv as [(i0 & p0 & Hc0 & Hp0 & [Ht Hr Hn Hcpu] & Hact & Hslc)].
  assert (i0 = i) as -> by (rewrite Hc in Hc0; injection Hc0; lia). assert (p0 = p) as -> by congruence.
  pose proof (tok_len _ _ Ht) as Hlen. pose proof (lookup_lt_Some _ _ _ Hcj) as Hjl.
  assert (~ live c) as Hnl by (unfold live; intros H'; by apply H').
  assert (live p) as Hlp by (unfold live; rewrite (proj2 (tok_running _ _ Ht i p Hp) eq_refl); done).
  assert (i <> j) as Hij by (intros ->; simplify_eq; done).
  unfold start_user_process, within. apply wp_bind, wp_put. apply wp_bind. unfold inherit_current_working_directory. run.
  change (current_process _) with (current_process s). rewrite Hc.
  apply wp_bind. eapply wp_get; [tab|simpl; by rewrite list_lookup_insert_ne|].
  apply wp_bind. eapply wp_get; [tab|by apply list_lookup_insert_eq|].
  destruct (tok_buffers _ _ Ht i p Hp) as (_ & Hcl & Hterm).
  destruct (copy_cwd_ok (current_working_directory p) (current_working_directory clear_process))
    as (cwd & -> & Hdl & Hdt & Hdc); [by rewrite Hcl|done|].
  apply wp_put. tsimpl. apply wp_bind. eapply wp_current; [done|].
  apply wp_bind. eapply wp_get; [tab|simpl; by rewrite list_lookup_insert_ne|]. cbv zeta.
  apply wp_bind. tupd. apply wp_bind. apply prepare_frames; [apply Hh|]. intros e2 Hq Hsf.
  pose proof (holds_quiet _ _ _ _ _ _ Hh Hq Hsf) as Hh2.
  apply wp_bind. tupd. apply wp_bind. tupd. unfold KERNEL_STACK_SIZE in *. rewrite (u32_id (k + _)) by lia.
  apply wp_bind, wp_zoom, Cpu.irq_restore_wp; [done|]. apply wp_bind. eapply wp_get; [simpl; by rewrite length_insert|by apply list_lookup_insert_eq|]. run.
  set (c' := set_state PROCESS_READY _). set (s' := lset (cpu s) _).
  assert (s' = set_table (<[j := c']> (process_table s)) (set_next_pid next (set_svc e2 s))) as -> by (by destruct s).
  assert (live c') as Hlc' by done.
  split; [|split; [done|]].
  - split. exists i, p. split; [done|]. split; [simpl; by rewrite list_lookup_insert_ne|]. split.
    + split; [| | |done]; simpl.
      * eapply (tok_replace _ _ j c c'); [done|done|lia|by left|by right|done|]. intros _. split; [done|]. split.
        -- intros Eq. apply Hfresh. by exists i, p.
        -- intros l q Hq' Hl Eq. apply Hfresh. by exists l, q.
      * eapply (rok_spawn _ (svc s) e2 j c c' k d fs); try done; lia.
      * eapply nok_replace; [done|done|]. intros Hnz _. auto.
    + split; [|done]. simpl. by rewrite (ho_active _ _ _ _ _ Hh2).
  - exists c'. split; [|by rewrite s32_pid; [|cbn; lia]].
    split; try done.
    + split; [done|]. split; [by exists c|done].
    + exists i, p. split; [done|]. split; [done|]. split; [done|exact Hdc].
    + split; [done|]. split; [cbn; rewrite u32_id; lia|]. cbn [svc set_table set_next_pid set_svc kernel_stack_allocation c'].
      split; [by apply (ho_stack _ _ _ _ _ Hh2); lia|]. intros b. rewrite (ho_stacks _ _ _ _ _ Hh2). cbn. split; [naive_solver|].
      intros [?| ->]; [by left|right; split; [done|lia]].
    + cbn. split; [done|]. split; [by apply (ho_space _ _ _ _ _ Hh2)|]. intros x. rewrite (ho_spaces _ _ _ _ _ Hh2). naive_solver.
    + intros f. cbn. rewrite (ho_frames _ _ _ _ _ Hh2). rewrite Forall_forall in Hf0. naive_solver.
Qed.

(** ** The routines *)

(** The call failed and everything is as it was. *)
Definition unspawned s (r : Z) s' : Prop :=
  r < 0 /\ process_table s' = process_table s /\ quiet (svc s) (svc s') /\ same_frames (svc s) (svc s').

Lemma unspawned_here s r : inv s -> r < 0 -> unspawned s r s.
Proof.
  intros [(i & p & _ & _ & [_ Hr _ _] & _)] Hneg. split; [done|]. split; [done|]. split; [|done]. apply quiet_refl, Hr.
Qed.

Lemma inv_services s e : inv s -> quiet (svc s) e -> inv (set_svc e s).
Proof.
  intros [(i & p & Hc & Hp & [Ht Hr Hn Hcpu] & Hact & Hslc)] (Q1 & Q2 & Q3 & Q4).
  split. exists i, p. split; [done|]. split; [done|]. split; [|split; [cbn; congruence|done]].
  split; [done| |done|done]. by eapply services_rok.
Qed.

(** After the roll-back. *)
Lemma rolled_back s r e : inv s -> r < 0 -> quiet (svc s) e -> same_frames (svc s) e ->
  inv (set_svc e s) /\ cpu (set_svc e s) = cpu s /\ unspawned s r (set_svc e s).
Proof. intros Hinv Hr Hq Hf. split; [by apply inv_services|]. done. Qed.

Lemma scheduler_spawn_image_ok sym nm image argv s :
  inv s -> bytes image -> zlength image < 4294967296 -> Forall Path.c_str argv -> Forall bytes argv ->
  wp (scheduler_spawn_image sym nm image argv) s (fun r s' => inv s' /\ cpu s' = cpu s /\
    (unspawned s r s' \/ exists j c', spawned nm s s' j c' /\ r = pid c')).
Proof.
  intros Hinv Hib His Hs Hb. pose proof Hinv as [(i & p & Hc & Hp & [Ht Hr Hn Hcpu] & Hact & Hslc)].
  pose proof (tok_len _ _ Ht) as Hlen. unfold scheduler_spawn_image.
  match goal with |- wp (if ?b then _ else _) _ _ => destruct b end.
  { run. split; [done|]. split; [done|]. left. by apply unspawned_here. }
  apply wp_bind, wp_zoom, Cpu.irq_save_disable_wp. apply wp_bind. apply find_unused_ok; [done| |].
  2:{ intros _. run. apply Cpu.irq_restore_wp; [done|]. run. rewrite lset_lset, lset_lget. split; [done|]. split; [done|].
      left. by apply unspawned_here. }
  intros j c Hj Hcj Hu Hfirst. change (process_table s !! j = Some c) in Hcj.
  assert (holds (svc s) 0 0 [] (svc s)) as H0 by (apply holds_nothing, Hr).
  apply wp_bind, wp_zoom. eapply wp_mono; [by apply (take_stack (svc s) 0 [])|]. cbv beta. intros k e1 (Hk0 & Hk1 & H1).
  change (lset e1 _) with (within s e1). apply wp_bind, wp_zoom. eapply wp_mono; [by apply allot_frame|]. cbv beta. intros f e2 H2.
  cbn [app] in H2. change (lset e2 (within s e1)) with (within s e2).
  apply wp_bind, wp_zoom. eapply wp_mono; [by apply (spawn_space_ok (svc s))|]. cbv beta. intros [[[d f'] result]|[[d sp] en]] e3 Hsp.
  - destruct Hsp as (-> & Hneg & H3). change (lset e3 (within s e2)) with (within s e3). cbv zeta.
    eapply roll_back_ok; [done|exact H3|]. intros e4 Hq Hf. destruct (rolled_back s result e4 Hinv Hneg Hq Hf) as (? & ? & ?). auto.
  - destruct Hsp as (Hk & Hd & H3). change (lset e3 (within s e2)) with (within s e3). cbv zeta.
    apply wp_bind. apply allocate_pid_ok; [done|done|]. intros n next Hn1 Hunused Hnext Hnok Hnext'.
    change (process_table (within s e3)) with (process_table s) in *.
    eapply wp_mono; [eapply (start_ok sym nm s i p j c n k sp d [0]); try done; [lia|by apply Hk1|by constructor]|]. cbv beta.
    intros r s' (Hi' & Hc' & c' & Hsd & -> & _). split; [done|]. split; [done|]. right. eauto.
Qed.

Lemma user_process_create_ok sym nm image s :
  inv s -> bytes image ->
  wp (user_process_create sym nm image) s (fun r s' => inv s' /\ cpu s' = cpu s /\
    (unspawned s r s' \/ exists j c', spawned nm s s' j c' /\ r = pid c' /\ user_entry c' = USER_CODE_VIRTUAL)).
Proof.
  intros Hinv Hib. pose proof Hinv as [(i & p & Hc & Hp & [Ht Hr Hn Hcpu] & Hact & Hslc)].
  pose proof (tok_len _ _ Ht) as Hlen. unfold user_process_create.
  assert (inv s /\ cpu s = cpu s /\ (unspawned s (-1) s \/ exists j c', spawned nm s s j c' /\ -1 = pid c' /\ user_entry c' = USER_CODE_VIRTUAL)) as Hsame
    by (split; [done|]; split; [done|]; left; by apply unspawned_here).
  match goal with |- wp (if ?b then _ else _) _ _ => destruct b end; [by run|].
  apply wp_bind, wp_zoom, Cpu.irq_save_disable_wp. apply wp_bind. apply find_unused_ok; [done| |].
  2:{ intros _. run. apply Cpu.irq_restore_wp; [done|]. run. by rewrite lset_lset, lset_lget. }
  intros j c Hj Hcj Hu Hfirst. change (process_table s !! j = Some c) in Hcj.
  apply wp_bind. eapply wp_current; [exact Hc|]. apply wp_bind. eapply wp_get; [done|exact Hp|]. apply wp_bind.
  apply (wp_mono _ _ (fun _ s' => s' = lset (Cpu.masked (cpu s)) s)).
  { apply wp_orM, wp_ret. destruct (page_directory p =? 0); cbn [negb]; [|done]. apply wp_bind, wp_zoom.
    eapply wp_mono; [apply sp_directories_ok; apply Hr|]. cbv beta. intros d e ->. apply wp_ret. by rewrite lset_lget. }
  intros b s0 ->. destruct b; [run; apply Cpu.irq_restore_wp; [done|]; run; by rewrite lset_lset, lset_lget|].
  assert (holds (svc s) 0 0 [] (svc s)) as H0 by (apply holds_nothing, Hr).
  apply wp_bind, wp_zoom. eapply wp_mono; [by apply (take_stack (svc s) 0 [])|]. cbv beta. intros k e1 (Hk0 & Hk1 & H1).
  change (lset e1 _) with (within s e1). apply wp_bind, wp_zoom. eapply wp_mono; [by apply allot_frame|]. cbv beta. intros cf e2 H2.
  change (lset e2 (within s e1)) with (within s e2). apply wp_bind, wp_zoom. eapply wp_mono; [by apply allot_frame|]. cbv beta. intros f e3 H3.
  cbn [app] in H3. change (lset e3 (within s e2)) with (within s e3).
  apply wp_bind, wp_zoom. eapply wp_mono; [by apply (create_space_ok (svc s))|]. cbv beta. intros [[[d cf'] f']|d] e4 Hsp.
  - change (lset e4 (within s e3)) with (within s e4). cbv zeta.
    eapply roll_back_ok; [done|exact Hsp|]. intros e5 Hq Hf. destruct (rolled_back s (-1) e5 Hinv eq_refl Hq Hf) as (? & ? & ?). auto.
  - destruct Hsp as (Hk & Hd & H4). change (lset e4 (within s e3)) with (within s e4). cbv zeta.
    apply wp_bind. apply allocate_pid_ok; [done|done|]. intros n next Hn1 Hunused Hnext Hnok Hnext'.
    change (process_table (within s e4)) with (process_table s) in *.
    eapply wp_mono; [eapply (start_ok sym nm s i p j c n k USER_STACK_TOP d [0; 0]); try done; [lia|by apply Hk1|by repeat constructor]|]. cbv beta.
    intros r s' (Hi' & Hc' & c' & Hsd & -> & _ & He). split; [done|]. split; [done|]. right. eauto.
Qed.


End spec.
End SpawnSpec.
