(* ===== verification/SpawnDemo.v ===== *)
(** * A spawn

    The services of SchedulerDemo.v next to the machine of ElfDemo.v, which holds
    the frames and the space being built, satisfy [Spawning]; the boot process
    spawns the executable of ElfDemo.v with two arguments. *)

From S2P Require Import Prelude Monad Interfaces Bytes Cpu Block MiniFs Path Elf ElfSpec ElfLoad ElfDemo Scheduler SchedulerInv SchedulerLife SchedulerDemo UserStack UserStackSpec Spawn SpawnSpec.
Import MiniFs(result(..)).

Module SpawnDemo.
Import Scheduler SchedulerInv SchedulerLife SchedulerDemo ElfDemo UserStack UserStackSpec Spawn SpawnSpec.

Definition host : Type := toy * machine.

#[local] Instance toy_lens : Lens host toy.
Proof. by refine {| lget := fst; lset := fun t s => (t, snd s) |}; intros; destruct s. Defined.
#[local] Instance machine_lens : Lens host machine.
Proof. by refine {| lget := snd; lset := fun m s => (fst s, m) |}; intros; destruct s. Defined.

Definition host_inv (e : host) : Prop := toy_inv (fst e) /\ up_inv (snd e) /\ up_window (snd e) = None.

#[local] Obligation Tactic := idtac.

#[export] Program Instance host_services : Services host := {|
  sv_kmalloc n := zoom (sv_kmalloc (E := toy) n);
  sv_kfree a := zoom (sv_kfree (E := toy) a);
  sv_store a v := zoom (sv_store (E := toy) a v);
  sv_activate_kernel := zoom (sv_activate_kernel (E := toy));
  sv_activate d := zoom (sv_activate (E := toy) d);
  sv_destroy d := zoom (sv_destroy (E := toy) d);
  sv_set_kernel_stack a := zoom (sv_set_kernel_stack (E := toy) a);
  sv_vfs_initialized := zoom (sv_vfs_initialized (E := toy));
  sv_release_file h := zoom (sv_release_file (E := toy) h);
  sv_inv := host_inv;
  sv_stack e a := sv_stack (E := toy) (fst e) a;
  sv_space e d := sv_space (E := toy) (fst e) d;
  sv_active e := sv_active (E := toy) (fst e)
|}.
Next Obligation. intros n e [Ht Hm]. apply wp_zoom. wp_apply (@sv_kmalloc_ok toy toy_services n (fst e) Ht). intros a t (? & ? & ? & ?). done. Qed.
Next Obligation. intros a e [Ht Hm] Ha. apply wp_zoom. wp_apply (@sv_kfree_ok toy toy_services a (fst e) Ht Ha). intros b t (? & ? & ? & ? & ?). done. Qed.
Next Obligation. intros e [Ht Hm]. apply wp_zoom. wp_apply (@sv_activate_kernel_ok toy toy_services (fst e) Ht). intros b t (? & ? & ? & ? & ?). done. Qed.
Next Obligation. intros d e [Ht Hm] Hd. apply wp_zoom. wp_apply (@sv_activate_ok toy toy_services d (fst e) Ht Hd). intros b t (? & ? & ? & ? & ?). done. Qed.
Next Obligation. intros d e [Ht Hm] Hd Ha. apply wp_zoom. wp_apply (@sv_destroy_ok toy toy_services d (fst e) Ht Hd Ha). intros b t (? & ? & ? & ? & ?). done. Qed.
Next Obligation. intros a v e [Ht Hm]. apply wp_zoom. wp_apply (@sv_store_ok toy toy_services a v (fst e) Ht). intros b t (? & ? & ? & ?). done. Qed.
Next Obligation. intros a e [Ht Hm]. apply wp_zoom. wp_apply (@sv_set_kernel_stack_ok toy toy_services a (fst e) Ht). intros b t (? & ? & ? & ?). done. Qed.
Next Obligation. intros e [Ht Hm]. apply wp_zoom. wp_apply (@sv_vfs_initialized_ok toy toy_services (fst e) Ht). intros b t ->. by destruct e. Qed.
Next Obligation. intros h e [Ht Hm]. apply wp_zoom. wp_apply (@sv_release_file_ok toy toy_services h (fst e) Ht). intros b t (? & ? & ? & ?). done. Qed.

Definition host_pages : UserPageOps host := {|
  up_query a := zoom (up_query (V := machine) a);
  up_protect p fl := zoom (up_protect (V := machine) p fl);
  up_map p f fl := zoom (up_map (V := machine) p f fl);
  up_alloc := zoom (up_alloc (V := machine));
  up_free f := zoom (up_free (V := machine) f);
  up_window_map f := zoom (up_window_map (V := machine) f);
  up_window_unmap := zoom (up_window_unmap (V := machine));
  up_store o b := zoom (up_store (V := machine) o b)
|}.

(** The page routines work on the machine and leave the services [t] alone. *)
Definition host_view (t : toy) : UserPageView host := {|
  up_inv e := fst e = t /\ up_inv (snd e);
  up_page e p := up_page (snd e) p;
  up_byte e f o := up_byte (snd e) f o;
  up_window e := up_window (snd e);
  up_held e f := up_held (snd e) f;
  up_room e := up_room (snd e)
|}.

(** Frames and spaces: a new space gets an empty page table and a number that
    was never used. *)
#[export] Instance host_ops : SpawnOps host := {|
  sp_pages _ := host_pages;
  sp_alloc := zoom (up_alloc (V := machine));
  sp_free f := zoom (up_free (V := machine) f);
  sp_create := fun e =>
    let d := 1 + fold_right Z.max (Z.max 0 (active (fst e))) (spaces (fst e)) in
    let t := fst e in let m := snd e in
    Ret (Some d) (Toy (brk t) (stacks t) (d :: spaces t) (active t) (stores t) (closed t), Machine ∅ (cells m) (window m) (held m) (next m));
  sp_directories := ret (0, 0);
  sp_frame e f := up_held (snd e) f;
  sp_fresh e _ := pages (snd e) = ∅
|}.

Definition host_laws t : @UserPages host host_pages (host_view t).
Proof.
  split; cbn -[up_query up_protect up_map up_alloc up_free up_window_map up_window_unmap up_store up_inv up_page up_byte up_window up_held up_room machine_ops machine_view];
    unfold same_pages, same_held, same_bytes, owned.
  - intros v p f fl [_ Hv]. apply (up_page_frame (V := machine)); done.
  - intros v p q f fl fl' [_ Hv]. by apply (up_page_inj (V := machine)).
  - intros a v [Ht Hv] Ha. apply wp_zoom. wp_apply (up_query_ok (V := machine) a (snd v) Hv Ha). intros r m (? & ? & ? & ? & ? & ? & ?). done.
  - intros p f fl0 v [Ht Hv] Hp Hal E. apply wp_zoom. wp_apply (up_protect_ok (V := machine) p f fl0 (snd v) Hv Hp Hal E). intros r m (? & ? & ? & ? & ? & ? & ?). done.
  - intros p f fl v [Ht Hv] Hp Hal Hf Hfl. apply wp_zoom. wp_apply (up_map_ok (V := machine) p f fl (snd v) Hv Hp Hal Hf Hfl). intros r m (? & ? & ? & ? & ? & ?). done.
  - intros v [Ht Hv]. apply wp_zoom. wp_apply (up_alloc_ok (V := machine) (snd v) Hv). intros r m (? & ? & ? & ? & ? & ? & ?). done.
  - intros f v [Ht Hv] Hf Hw. apply wp_zoom. wp_apply (up_free_ok (V := machine) f (snd v) Hv Hf Hw). intros r m (? & ? & ? & ? & ? & ? & ?). done.
  - intros f v [Ht Hv] Hw Hf. apply wp_zoom. wp_apply (up_window_map_ok (V := machine) f (snd v) Hv Hw Hf). intros r m (? & ? & ? & ? & ? & ? & ?). done.
  - intros f v [Ht Hv] Hw. apply wp_zoom. wp_apply (up_window_unmap_ok (V := machine) f (snd v) Hv Hw). intros r m (? & ? & ? & ? & ? & ? & ?). done.
  - intros f o b v [Ht Hv] Hw Ho Hb. apply wp_zoom. wp_apply (up_store_ok (V := machine) f o b (snd v) Hv Hw Ho Hb). intros r m (? & ? & ? & ? & ? & ?). done.
Qed.

Lemma host_quiet (e e' : host) : host_inv e' -> fst e' = fst e -> quiet e e'.
Proof. intros Hi E. split; [done|]. cbn. by rewrite E. Qed.

Lemma host_kept (e e' : host) : toy_inv (fst e) -> fst e' = fst e -> up_inv (snd e') -> up_window (snd e') = None -> quiet e e'.
Proof. intros Ht E Hm Hw. apply host_quiet; [|done]. split; [by rewrite E|done]. Qed.

Lemma above_all (l : list Z) b d : ((1 + fold_right Z.max b l)%Z = d) -> (d ∉ l) /\ (b < d).
Proof.
  intros <-. assert (forall x, x ∈ l -> x <= fold_right Z.max b l) as H.
  { induction l as [|y l IH]; intros x Hx; [set_solver|]. cbn. apply elem_of_cons in Hx as [->|Hx]; [lia|]. specialize (IH x Hx). lia. }
  assert (b <= fold_right Z.max b l) as Hb by (clear H; induction l; cbn; lia).
  split; [|lia]. intros Hin. specialize (H _ Hin). lia.
Qed.

#[export] Instance host_spawning : Spawning host.
Proof.
  split.
  - intros n e [Ht Hm]. apply wp_zoom. wp_apply (@sv_kmalloc_ok toy toy_services n (fst e) Ht). by intros.
  - intros a e [Ht Hm] Ha. apply wp_zoom. wp_apply (@sv_kfree_ok toy toy_services a (fst e) Ht Ha). by intros.
  - intros a v e [Ht Hm]. apply wp_zoom. wp_apply (@sv_store_ok toy toy_services a v (fst e) Ht). by intros.
  - intros d e [Ht Hm] Hd Ha. apply wp_zoom. wp_apply (@sv_destroy_ok toy toy_services d (fst e) Ht Hd Ha). by intros.
  - done.
  - intros e (Ht & Hm & Hw). apply wp_zoom. wp_apply (up_alloc_ok (V := machine) (snd e) Hm). intros a m (Hm' & _ & _ & Hw' & _ & _ & Hc).
    split; [apply host_quiet; [split; [done|split; [done|exact (eq_trans Hw' Hw)]]|done]|]. destruct Hc as [[-> Hh]|(Ha & Hn & Hh)]; [left|right]; [done|].
    split; [destruct Ha; lia|]. split; [|done]. intros Hin. apply Hn. by left.
  - intros a e (Ht & Hm & Hw) Ha. apply wp_zoom. wp_apply (up_free_ok (V := machine) a (snd e) Hm Ha Hw). intros ok m (-> & Hm' & _ & _ & Hw' & _ & Hh).
    split; [done|]. split; [by apply host_quiet|done].
  - intros e (Ht & (M1 & M2 & M3 & _) & Hw). unfold wp. cbn [sp_create host_ops]. set (d := 1 + _).
    destruct (above_all (spaces (fst e)) (Z.max 0 (active (fst e))) d eq_refl) as [Hn Hb].
    split; [split; [exact Ht|split; [|done]]|].
    { split; [done|]. split; [done|]. split; [done|]. split; cbn; intros *; by rewrite lookup_empty. }
    split; [done|]. split; [done|]. split; [done|]. split; [lia|]. split; [done|]. split; [cbn; lia|]. split; [done|].
    intros d'. cbn. rewrite elem_of_cons. tauto.
  - intros d image e (Ht & Hm & Hw) _ Hfr Hib His.
    eapply wp_mono; [apply (@ElfLoad.elf_load_image_wp host host_pages (host_view (fst e)) (host_laws (fst e)) image e Hib His)|].
    { split; [by split|done|]. intros p _. change (pages (snd e) !! p = None). cbn in Hfr. rewrite Hfr. apply lookup_empty. }
    cbv beta. intros r e' [[[E Hm'] Hw' Hh] Hr]. split; [by apply host_kept|]. split; [exact Hh|].
    intros st ->. destruct Hr as [(_ & -> & _)|(_ & ? & _)]; done.
  - intros d f argv e (Ht & Hm & Hw) Hf Hs Hb.
    eapply wp_mono; [apply (@initialize_user_stack_ok host host_pages (host_view (fst e)) (host_laws (fst e)) e f argv); [by split|done|by left|done|done]|].
    cbv beta. intros r e' [[[E Hm'] Hw' _ _ Hh _] _]. split; [by apply host_kept|exact Hh].
  - intros d f source e (Ht & Hm & Hw) Hf Hb.
    eapply wp_mono; [apply (@initialize_user_page_ok host host_pages (host_view (fst e)) (host_laws (fst e)) e f source); [by split|done|by left|done]|].
    cbv beta. intros r e' [[[E Hm'] Hw' _ _ Hh _] _]. split; [by apply host_kept|exact Hh].
  - intros d p f fl e (Ht & Hm & Hw) _ Hf Hp Hal Hfl. apply wp_zoom.
    wp_apply (up_map_ok (V := machine) p f fl (snd e) Hm Hp Hal Hf Hfl). intros ok m (Hm' & _ & _ & Hw' & _ & Hc).
    split; [apply host_quiet; [split; [done|split; [done|exact (eq_trans Hw' Hw)]]|done]|]. destruct ok; apply Hc.
Qed.

(** ** The run *)

Definition cold : sched host :=
  Sched (Toy 0xD0000000 [] [] 0 [] [], blank) (Cpu.State 0x202) 0xC011FF00 0 [] None 0 (0, 0, 0, 0).
Definition boot : sched host := after (scheduler_init demo_symbols) cold.

Lemma host_boot_inv : inv boot.
Proof.
  apply (after_wp (scheduler_init demo_symbols) cold inv). destruct blank_fresh as [Hi Hw _].
  eapply wp_mono; [apply scheduler_init_ok; [split; [by split|by split]|done|done]|]. by intros _ s' (? & _).
Qed.

(** "ls" and "-l". *)
Definition arguments : list (list Z) := [[108; 115]; [45; 108]].

Lemma arguments_ok : Forall Path.c_str arguments /\ Forall bytes arguments.
Proof. split; repeat constructor; lia. Qed.


(** A test program of one page starts too. *)
Example user_process_created :
  match user_process_create demo_symbols [116] [0xCD; 0x30] boot with Ret r _ => r = 1 | _ => False end.
Proof. vm_compute. reflexivity. Qed.

(** ** A stack *)

Definition stacked : machine := match up_alloc blank with Ret _ m => m | _ => blank end.

Lemma stacked_ok : up_inv stacked /\ up_window stacked = None /\ owned stacked 4096.
Proof.
  destruct blank_fresh as [Hi _ _]. destruct (proj1 (wp_run _ _ _) (up_alloc_ok blank Hi)) as (f & m & Ef & Hm & _).
  injection Ef as <- <-. split; [exact Hm|]. split; [done|]. left. cbn. set_solver.
Qed.


End SpawnDemo.
