(* ===== verification/Syscall.v ===== *)
(** * System calls, kernel/core/syscall.c

    [syscall_dispatch] gets the registers of the process that executed the trap
    and calls the routine of the call. The state puts the components together:
    the memory as the process sees it through its page tables, the files with
    the process table below them, the keyboard, and the bytes the console has
    printed. The interrupt flag is the one of the VFS layer.

    A call that gives up the processor ends there ([Switched]); what the process
    does when it is chosen again is a later step of the scheduler. Waiting for a
    key ends in [Halted] with interrupts on; [resume_key] is what follows the
    next interrupt. The proofs are in SyscallSafe.v and SyscallFiles.v. *)

From Stdlib Require Import Ascii.
From S2P Require Import Prelude Monad Interfaces Bytes Cpu Block MiniFs Path Keyboard Vmm Usercopy Elf Scheduler UserStack Spawn Vfs VfsKernel.

Module Syscall.
Import Block MiniFs Usercopy Scheduler Spawn Vfs VfsKernel.

Definition SYSCALL_USER_PRIVILEGE : Z := 3.
Definition SYSCALL_WRITE_BUFFER_SIZE : Z := 128.
Definition SYSCALL_WRITE_MAX : Z := 4096.
Definition SYSCALL_PATH_MAX : Z := 256.
Definition SYSCALL_ARGUMENT_LIMIT : Z := 16.
Definition SYSCALL_ARGUMENT_LENGTH : Z := 256.
Definition SYSCALL_ARGUMENT_BYTES : Z := 1024.
Definition E2BIG : Z := 7.
Definition ENOEXEC : Z := 8.
Definition ENOSYS : Z := 38.

(** The numbers of abi/syscall.h. *)
Definition SYS_exit : Z := 0.
Definition SYS_write : Z := 1.
Definition SYS_read : Z := 2.
Definition SYS_open : Z := 3.
Definition SYS_close : Z := 4.
Definition SYS_lseek : Z := 5.
Definition SYS_create : Z := 6.
Definition SYS_unlink : Z := 7.
Definition SYS_mkdir : Z := 8.
Definition SYS_readdir : Z := 9.
Definition SYS_spawn : Z := 10.
Definition SYS_waitpid : Z := 11.
Definition SYS_getpid : Z := 12.
Definition SYS_yield : Z := 13.
Definition SYS_sleep : Z := 14.
Definition SYS_chdir : Z := 15.
Definition SYS_stat : Z := 16.
Definition SYS_getticks : Z := 17.
Definition SYS_ps : Z := 18.
Definition SYS_getcwd : Z := 19.
Definition SYS_shutdown : Z := 20.

Record trap_frame := TrapFrame {
  edi : Z; esi : Z; ebp : Z; esp_before_pushad : Z; ebx : Z; edx : Z; ecx : Z; eax : Z;
  vector : Z; error_code : Z; eip : Z; cs : Z; eflags : Z; user_esp : Z; user_ss : Z
}.

Definition set_eax (v : Z) (f : trap_frame) : trap_frame :=
  TrapFrame (edi f) (esi f) (ebp f) (esp_before_pushad f) (ebx f) (edx f) (ecx f) v
    (vector f) (error_code f) (eip f) (cs f) (eflags f) (user_esp f) (user_ss f).

(** How a call ends: back to the process with its registers, in another
    process, waiting for an interrupt, or with the machine off. *)
Inductive control := Returned (frame : trap_frame) | Switched | Halted | PoweredOff.

(** ** The structures of the interface, as bytes *)

Definition stat_bytes (st : minios_stat) : list Z :=
  le32 (ms_inode st) ++ le16 (ms_mode st) ++ le16 (ms_link_count st) ++ le32 (ms_size st).

Definition dirent_bytes (e : minios_dirent) : list Z :=
  le32 (me_inode e) ++ le16 (me_mode e) ++ le16 (me_name_length e) ++ map u8 (me_name e) ++ [u8 (me_reserved e)].

Definition state_number (st : process_state) : Z :=
  match st with
  | PROCESS_UNUSED => 0 | PROCESS_NEW => 1 | PROCESS_READY => 2 | PROCESS_RUNNING => 3
  | PROCESS_BLOCKED => 4 | PROCESS_ZOMBIE => 5 | PROCESS_REAPED => 6
  end.

(** [char name[32]]. *)
Definition info_bytes (i : process_info) : list Z :=
  le32 (info_pid i) ++ le32 (info_parent i) ++ le32 (state_number (info_state i)) ++
  map (fun k => u8 (byte_at (info_name i) k)) (seqZ 0 32).

Definition text (s : string) : list Z := map (fun c => Z.of_N (N_of_ascii c)) (String.list_ascii_of_string s).

(** The index of the terminator, or [limit]. *)
Definition bounded_length (value : list Z) (limit : Z) : Z :=
  default limit (UserStack.find_terminator (Z.to_nat limit) 0 value).

Section syscall.
Context {F : Type} `{!FrameAllocator F} {FS : Type} `{!FileSystem FS} {E : Type} `{!Services E} `{!SpawnOps E}.
Context {D : Type} `{!Ports D}.
Context (FILE_TABLE : Z) (sym : symbols).

Record kernel := Kernel {
  memory : Vmm.state F;
  files : vfs FS (sched E);
  keyboard : Keyboard.state D;
  console : list Z
}.

Definition set_memory (v : Vmm.state F) (k : kernel) : kernel := Kernel v (files k) (keyboard k) (console k).
Definition set_vfs (v : vfs FS (sched E)) (k : kernel) : kernel := Kernel (memory k) v (keyboard k) (console k).
Definition set_keyboard (v : Keyboard.state D) (k : kernel) : kernel := Kernel (memory k) (files k) v (console k).
Definition set_console (v : list Z) (k : kernel) : kernel := Kernel (memory k) (files k) (keyboard k) v.

#[export] Instance memory_lens : Lens kernel (Vmm.state F).
Proof. refine {| lget := memory; lset := set_memory |}; by intros; destruct s. Defined.
#[export] Instance files_lens : Lens kernel (vfs FS (sched E)).
Proof. refine {| lget := files; lset := set_vfs |}; by intros; destruct s. Defined.
#[export] Instance keyboard_lens : Lens kernel (Keyboard.state D).
Proof. refine {| lget := keyboard; lset := set_keyboard |}; by intros; destruct s. Defined.

(** The scheduler's routines, and those of kernel/arch/x86/irq.c. *)
Definition scheduler {A} (m : M (sched E) A) : M kernel A :=
  zoom (T := vfs FS (sched E)) (zoom (T := Cpu.state * sched E) (on_cpu m)).
Definition cpu_flag {A} (m : M Cpu.state A) : M kernel A :=
  zoom (T := vfs FS (sched E)) (zoom m).

Definition console_putc (character : Z) : M kernel unit := modify (fun k => set_console (console k ++ [character]) k).

(** A local array of [size] bytes that a callee filled from its start on. *)
Definition within_buffer (size : Z) (stored : list Z) : M kernel (list Z) :=
  if zlength stored <=? size then ret stored else fault.

(** ** Reading and writing *)

Definition write_chunk (descriptor user_buffer length offset : Z) : M kernel (Z + Z) :=
  if negb (offset <? length) then ret (inr offset) else
  let chunk := length - offset in
  let chunk := if SYSCALL_WRITE_BUFFER_SIZE <? chunk then SYSCALL_WRITE_BUFFER_SIZE else chunk in
  let! copied := zoom (copy_from_user true (user_buffer +u offset) chunk) in
  if negb (fst copied =? 0) then ret (inr (- EFAULT)) else
  let! buffer := within_buffer SYSCALL_WRITE_BUFFER_SIZE (snd copied) in
  let! written :=
    (if (descriptor =? 1) || (descriptor =? 2) then
       for_range (Z.to_nat chunk) 0 (fun index =>
         let! character := access (buffer !! Z.to_nat index) in console_putc character) ;;
       ret chunk
     else zoom (vfs_write FILE_TABLE descriptor true buffer)) in
  if written <? 0 then ret (inr (if offset =? 0 then written else offset)) else
  let offset := offset + written in
  if written <? chunk then ret (inr offset) else ret (inl offset).

(** At most 4096 bytes in chunks of 128: the loop ends within 33 rounds. *)
Definition syscall_write (descriptor user_buffer length : Z) : M kernel Z :=
  if (descriptor =? 0) || (PROCESS_FD_LIMIT <=? descriptor) then ret (- EBADF) else
  if SYSCALL_WRITE_MAX <? length then ret (- EINVAL) else
  let! valid := zoom (validate_user_range user_buffer length USER_ACCESS_READ) in
  if negb valid then ret (- EFAULT) else
  while_ 34 (write_chunk descriptor user_buffer length) 0.

(** A key for the process, or [None] while there is none. *)
Definition read_key (user_buffer : Z) : M kernel (option Z) :=
  let! key := zoom Keyboard.keyboard_try_read in
  match key with
  | None => cpu_flag Cpu.irq_enable ;; ret None
  | Some character =>
      let! r := zoom (copy_to_user user_buffer (Some [character]) 1) in
      ret (Some (if negb (r =? 0) then - EFAULT else 1))
  end.

Definition resume_key (user_buffer : Z) : M kernel (option Z) :=
  cpu_flag Cpu.irq_save_disable ;; read_key user_buffer.

Definition read_chunk (descriptor user_buffer length offset : Z) : M kernel (Z + Z) :=
  if negb (offset <? length) then ret (inr offset) else
  let chunk := length - offset in
  let chunk := if SYSCALL_WRITE_BUFFER_SIZE <? chunk then SYSCALL_WRITE_BUFFER_SIZE else chunk in
  let! r := zoom (vfs_read FILE_TABLE descriptor true chunk) in
  let read := fst r in
  let! buffer := within_buffer SYSCALL_WRITE_BUFFER_SIZE (snd r) in
  if read <? 0 then ret (inr (if offset =? 0 then read else offset)) else
  if read =? 0 then ret (inr offset) else
  let! copied := zoom (copy_to_user (user_buffer +u offset) (Some buffer) read) in
  if negb (copied =? 0) then ret (inr (if offset =? 0 then - EFAULT else offset)) else
  let offset := offset + read in
  if read <? chunk then ret (inr offset) else ret (inl offset).

Definition syscall_read (descriptor user_buffer length : Z) : M kernel (option Z) :=
  if (descriptor =? 1) || (descriptor =? 2) || (PROCESS_FD_LIMIT <=? descriptor) then ret (Some (- EBADF)) else
  if SYSCALL_WRITE_MAX <? length then ret (Some (- EINVAL)) else
  let! valid := zoom (validate_user_range user_buffer length USER_ACCESS_WRITE) in
  if negb valid then ret (Some (- EFAULT)) else
  if length =? 0 then ret (Some 0) else
  if descriptor =? 0 then read_key user_buffer else
  let! r := while_ 34 (read_chunk descriptor user_buffer length) 0 in ret (Some r).

(** ** Paths *)

(** [char path[SYSCALL_PATH_MAX]] of the caller: the C string in it, or the
    error. The arrays start out with zeros, which nothing reads. *)
Definition copy_syscall_path (user_path : Z) : M kernel (result (list Z)) :=
  let! copied := zoom (copy_user_string true user_path SYSCALL_PATH_MAX) in
  if negb (fst copied =? 0) then ret (Err (- EFAULT)) else
  let! stored := within_buffer SYSCALL_PATH_MAX (snd copied) in
  let input := Path.c_string stored in
  if byte_at stored 0 =? 0 then ret (Err (- EINVAL)) else
  let! cwd := (if negb (byte_at input 0 =? Path.slash)
               then scheduler (scheduler_get_current_working_directory SYSCALL_PATH_MAX) else ret None) in
  match Path.normalize_path cwd input (Path.Buffer (replicate 256 0) 0) with
  | Ret r b => if r <? 0 then ret (Err r) else ret (Ok (Path.c_string (Path.path b)))
  | _ => fault
  end.

(** A call on a path, or the error of the path. *)
Definition on_path (user_path : Z) (call : list Z -> M kernel Z) : M kernel Z :=
  let! path := copy_syscall_path user_path in
  match path with Err result => ret result | Ok path => call path end.

Definition syscall_open (user_path flags : Z) : M kernel Z :=
  on_path user_path (fun path => zoom (vfs_open FILE_TABLE path flags)).

Definition syscall_create (user_path : Z) : M kernel Z :=
  let! descriptor := syscall_open user_path (Z.lor MINIOS_O_WRONLY MINIOS_O_CREAT) in
  if descriptor <? 0 then ret descriptor else zoom (vfs_close FILE_TABLE descriptor).

Definition syscall_unlink (user_path : Z) : M kernel Z := on_path user_path (fun path => zoom (vfs_unlink path)).
Definition syscall_mkdir (user_path : Z) : M kernel Z := on_path user_path (fun path => zoom (vfs_mkdir path)).

Definition syscall_readdir (descriptor user_entry length : Z) : M kernel Z :=
  if length <? 68 then ret (- EINVAL) else
  let! valid := zoom (validate_user_range user_entry 68 USER_ACCESS_WRITE) in
  if negb valid then ret (- EFAULT) else
  let! r := zoom (vfs_readdir FILE_TABLE (s32 descriptor) true) in
  let '(result, entry) := r in
  if negb (result =? 1) then ret result else
  let! e := access entry in
  let! copied := zoom (copy_to_user user_entry (Some (dirent_bytes e)) 68) in
  ret (if copied =? 0 then 1 else - EFAULT).

Definition syscall_stat (user_path user_status : Z) : M kernel Z :=
  let! valid := zoom (validate_user_range user_status 12 USER_ACCESS_WRITE) in
  if negb valid then ret (- EFAULT) else
  on_path user_path (fun path =>
    let! r := zoom (vfs_stat path true) in
    match r with
    | Err result => ret result
    | Ok status =>
        let! copied := zoom (copy_to_user user_status (Some (stat_bytes status)) 12) in
        ret (if copied =? 0 then 0 else - EFAULT)
    end).

(** [path] with its final slash removed, unless it is the root. *)
Definition without_slash (path : list Z) : list Z :=
  let length := zlength path in
  if (1 <? length) && (byte_at path (length - 1) =? Path.slash) then take (Z.to_nat (length - 1)) path else path.

Definition syscall_chdir (user_path : Z) : M kernel Z :=
  on_path user_path (fun path =>
    let! r := zoom (vfs_stat path true) in
    match r with
    | Err result => ret result
    | Ok status =>
        if negb (ms_mode status =? MINIFS_MODE_DIRECTORY) then ret (- ENOTDIR) else
        let! ok := scheduler (scheduler_set_current_working_directory (without_slash path)) in
        ret (if ok : bool then 0 else - EIO)
    end).

Definition syscall_getcwd (user_buffer capacity : Z) : M kernel Z :=
  if (capacity =? 0) || (SYSCALL_PATH_MAX <? capacity) then ret (- EINVAL) else
  let! valid := zoom (validate_user_range user_buffer capacity USER_ACCESS_WRITE) in
  if negb valid then ret (- EFAULT) else
  let! cwd := scheduler (scheduler_get_current_working_directory SYSCALL_PATH_MAX) in
  match cwd with
  | None => ret (- EIO)
  | Some path =>
      let length := zlength path in
      if capacity <? length + 1 then ret (- EINVAL) else
      let! copied := zoom (copy_to_user user_buffer (Some (path ++ [0])) (length + 1)) in
      ret (if copied =? 0 then 0 else - EFAULT)
  end.

(** ** Processes *)

(** One word of the argument vector: the number of arguments, their bytes and
    the strings so far; the result is an error or all the strings. *)
Definition argument_step (user_argv : Z) (x : Z * Z * list (list Z)) : M kernel ((Z * Z * list (list Z)) + result (list (list Z))) :=
  let '(argument_count, argument_bytes, arguments) := x in
  if negb (argument_count <? SYSCALL_ARGUMENT_LIMIT) then ret (inr (Err (- E2BIG))) else
  let! word := zoom (copy_from_user true (user_argv +u argument_count * 4) 4) in
  if negb (fst word =? 0) then ret (inr (Err (- EFAULT))) else
  let user_argument := read_le32 (snd word) 0 in
  if user_argument =? 0 then ret (inr (if argument_count =? 0 then Err (- E2BIG) else Ok arguments)) else
  let! copied := zoom (copy_user_string true user_argument SYSCALL_ARGUMENT_LENGTH) in
  if negb (fst copied =? 0) then ret (inr (Err (- EFAULT))) else
  let! argument := within_buffer SYSCALL_ARGUMENT_LENGTH (snd copied) in
  let length := bounded_length argument SYSCALL_ARGUMENT_LENGTH in
  if (length =? SYSCALL_ARGUMENT_LENGTH) || (SYSCALL_ARGUMENT_BYTES - argument_bytes <? length + 1)
  then ret (inr (Err (- E2BIG))) else
  ret (inl (argument_count + 1, argument_bytes + (length + 1), arguments ++ [take (Z.to_nat length) argument])).

Definition spawn_arguments (user_argv : Z) : M kernel (result (list (list Z))) :=
  while_ 17 (argument_step user_argv) (0, 0, []).

Definition release_image (image : Z) (message : string) : M kernel unit :=
  let! ok := scheduler (zoom (sv_kfree image)) in
  if negb ok then panic message else ret tt.

(** The file in the buffer of [size] bytes at [image], then the new process. *)
Definition spawn_file (path : list Z) (arguments : list (list Z)) (size image : Z) : M kernel Z :=
  let! descriptor := zoom (vfs_open FILE_TABLE path MINIOS_O_RDONLY) in
  let! loaded :=
    (if descriptor <? 0 then ret None else
     let! r := zoom (vfs_read FILE_TABLE descriptor true size) in
     let! stored := within_buffer size (snd r) in
     if negb (fst r =? s32 size) then ret None else
     let! closed := zoom (vfs_close FILE_TABLE descriptor) in
     if negb (closed =? 0) then ret None else ret (Some stored)) in
  match loaded with
  | None =>
      (if 0 <=? descriptor then let! _ := zoom (vfs_close FILE_TABLE descriptor) in ret tt else ret tt) ;;
      release_image image "spawn image buffer rollback failed" ;;
      ret (if descriptor <? 0 then descriptor else - EIO)
  | Some stored =>
      let! contents := access (if zlength stored =? size then Some stored else None) in
      let! result := scheduler (scheduler_spawn_image sym path contents arguments) in
      release_image image "spawn image buffer release failed" ;;
      ret result
  end.

Definition syscall_spawn (user_path user_argv : Z) : M kernel Z :=
  let! valid := andM (ret (negb (user_argv =? 0)))
    (zoom (validate_user_range user_argv (SYSCALL_ARGUMENT_LIMIT * 4) USER_ACCESS_READ)) in
  if negb valid then ret (- EFAULT) else
  on_path user_path (fun path =>
    let! a := spawn_arguments user_argv in
    match a with
    | Err result => ret result
    | Ok arguments =>
        let! r := zoom (vfs_stat path true) in
        match r with
        | Err result => ret result
        | Ok status =>
            if ms_mode status =? MINIFS_MODE_DIRECTORY then ret (- EISDIR) else
            if ms_size status =? 0 then ret (- ENOEXEC) else
            let! image := scheduler (zoom (sv_kmalloc (ms_size status))) in
            if image =? 0 then ret (- ENOMEM) else
            spawn_file path arguments (ms_size status) image
        end
    end).

(** 44 is sizeof(struct minios_process_info). *)
Definition syscall_ps (user_processes capacity : Z) : M kernel Z :=
  if PROCESS_LIMIT <? capacity then ret (- EINVAL) else
  let! valid := zoom (validate_user_range user_processes (capacity * 44) USER_ACCESS_WRITE) in
  if negb valid then ret (- EFAULT) else
  let! processes := scheduler (scheduler_process_snapshot capacity) in
  let count := zlength processes in
  let! copied := zoom (copy_to_user user_processes (Some (flat_map info_bytes processes)) (count * 44)) in
  ret (if negb (copied =? 0) then - EFAULT else count).

Definition syscall_waitpid (wanted user_code : Z) : M kernel (option Z) :=
  let! refused := andM (ret (negb (user_code =? 0))) (notM (zoom (validate_user_range user_code 4 USER_ACCESS_WRITE))) in
  if refused : bool then ret (Some (- EFAULT)) else
  let! r := scheduler (scheduler_waitpid wanted) in
  match r with
  | None => ret None
  | Some (result, exit_code) =>
      if (0 <=? result) && negb (user_code =? 0) then
        let! copied := zoom (copy_to_user user_code (Some (le32 exit_code)) 4) in
        ret (Some (if negb (copied =? 0) then - EFAULT else result))
      else ret (Some result)
  end.

(** [scheduler_exit_current] closes the files before it gives up the process:
    the VFS layer's routine does it here, and the scheduler's finds none left. *)
Definition syscall_exit (code : Z) : M kernel unit :=
  cpu_flag Cpu.irq_save_disable ;;
  zoom (Vfs.vfs_close_all_current FILE_TABLE) ;;
  scheduler (scheduler_exit_current code).

(** kernel/drivers/power.c: the message ends with a newline. *)
Definition power_shutdown : M kernel unit :=
  cpu_flag Cpu.irq_save_disable ;;
  modify (fun k => set_console (console k ++ text "[KERN] shutdown requested" ++ [10]) k).

(** ** Dispatch *)

Definition returned (frame : trap_frame) (m : M kernel Z) : M kernel control :=
  let! result := m in ret (Returned (set_eax (u32 result) frame)).
(** [None]: not back to this process yet. *)
Definition returned_or (away : control) (frame : trap_frame) (m : M kernel (option Z)) : M kernel control :=
  let! result := m in ret (match result with Some result => Returned (set_eax (u32 result) frame) | None => away end).

Definition syscall_table (frame : trap_frame) : M kernel control :=
  let number := eax frame in
  if number =? SYS_exit then syscall_exit (s32 (ebx frame)) ;; ret Switched else
  if number =? SYS_write then returned frame (syscall_write (ebx frame) (ecx frame) (edx frame)) else
  if number =? SYS_read then returned_or Halted frame (syscall_read (ebx frame) (ecx frame) (edx frame)) else
  if number =? SYS_open then returned frame (syscall_open (ebx frame) (ecx frame)) else
  if number =? SYS_close then returned frame (zoom (vfs_close FILE_TABLE (s32 (ebx frame)))) else
  if number =? SYS_lseek then
    returned frame (zoom (vfs_lseek FILE_TABLE (s32 (ebx frame)) (s32 (ecx frame)) (s32 (edx frame)))) else
  if number =? SYS_create then returned frame (syscall_create (ebx frame)) else
  if number =? SYS_unlink then returned frame (syscall_unlink (ebx frame)) else
  if number =? SYS_mkdir then returned frame (syscall_mkdir (ebx frame)) else
  if number =? SYS_readdir then returned frame (syscall_readdir (ebx frame) (ecx frame) (edx frame)) else
  if number =? SYS_spawn then returned frame (syscall_spawn (ebx frame) (ecx frame)) else
  if number =? SYS_getpid then returned frame (scheduler scheduler_current_pid) else
  if number =? SYS_yield then
    returned_or Switched frame (let! kept := scheduler scheduler_yield in ret (if kept : bool then Some 0 else None)) else
  if number =? SYS_sleep then
    returned_or Switched frame (let! r := scheduler (scheduler_sleep_current (ebx frame)) in
      ret (match r with Some true => Some 0 | Some false => Some (- EINVAL) | None => None end)) else
  if number =? SYS_chdir then returned frame (syscall_chdir (ebx frame)) else
  if number =? SYS_waitpid then returned_or Switched frame (syscall_waitpid (s32 (ebx frame)) (ecx frame)) else
  if number =? SYS_getticks then returned frame (scheduler pit_ticks) else
  if number =? SYS_stat then returned frame (syscall_stat (ebx frame) (ecx frame)) else
  if number =? SYS_ps then returned frame (syscall_ps (ebx frame) (ecx frame)) else
  if number =? SYS_getcwd then returned frame (syscall_getcwd (ebx frame) (ecx frame)) else
  if number =? SYS_shutdown then power_shutdown ;; ret PoweredOff else
  returned frame (ret (- ENOSYS)).

(** A null pointer is [None]. *)
Definition syscall_dispatch (frame : option trap_frame) : M kernel control :=
  match frame with
  | None => panic "null syscall frame"
  | Some frame =>
      if negb (Z.land (cs frame) SYSCALL_USER_PRIVILEGE =? SYSCALL_USER_PRIVILEGE)
      then returned frame (ret (- ENOSYS))
      else syscall_table frame
  end.

End syscall.

Arguments kernel : clear implicits.

End Syscall.
