(* ===== verification/SyscallBase.v ===== *)
(** * System calls: the state they keep in order

    [strict_descriptors] are the descriptor tables with all of the scheduler's
    invariant, and with everything else of the process table pinned down: a call
    of the VFS layer changes descriptors and nothing more. [kernel_inv] is the
    invariant of the whole state; [secure P m] says that [m] ends without a fault
    from every such state, re-establishes it, changes no memory but writable
    pages of the running process, and returns a value in [P]. *)

From S2P Require Import Prelude Monad Interfaces Bytes Cpu Block MiniFs Path Keyboard Vmm Usercopy UsercopySpec Elf Scheduler SchedulerInv SchedulerLife UserStack Spawn SpawnSpec Vfs VfsSpec VfsKernel Syscall.

Module SyscallBase.
Import Scheduler SchedulerInv SchedulerLife Spawn SpawnSpec VfsKernel Usercopy UsercopySpec Vfs VfsSpec Syscall.

(** ** Descriptor tables inside the process table *)

Section descriptors.
Context {E : Type} `{!Services E}.
Implicit Types (s : sched E) (p : process).

(** Working directories are strings of bytes; who is not there or has ended
    holds no file. *)
Definition tidy s : Prop :=
  forall i p, process_table s !! i = Some p -> bytes (cstring (current_working_directory p)) /\
    (state p = PROCESS_UNUSED \/ state p = PROCESS_ZOMBIE -> fd_table p = fd_zero).

(** The process table without the descriptors. *)
Definition erased s : sched E := set_table (map (set_fd_table []) (process_table s)) s.

Lemma sched_set_cpu c s : inv s -> Cpu.wf c -> inv (Scheduler.set_cpu c s).
Proof.
  intros [(i & p & Hc & Hp & [Ht Hr Hn _] & Ha)] Hw. split. exists i, p. split; [done|]. split; [done|].
  split; [by split|done].
Qed.

Lemma inv_tables s : inv s -> tables_ok s.
Proof.
  intros Hinv. apply scheduler_tables; [done|]. destruct Hinv as [(i & p & _ & _ & [Ht _ _ _] & _)].
  intros j q Hq. by apply (tok_buffers _ _ Ht j q).
Qed.

Lemma inv_running s : inv s -> exists p, current_process s = Some (Z.of_nat (running s)) /\
  process_table s !! running s = Some p /\ state p = PROCESS_RUNNING /\ length (fd_table p) = 16%nat.
Proof.
  intros Hinv. pose proof Hinv as [(i & p & Hc & Hp & [Ht _ _ _] & _)].
  assert (running s = i) as Hr by (unfold running; rewrite Hc; lia). exists p. rewrite Hr.
  split; [done|]. split; [done|]. split; [by apply (tok_running _ _ Ht i p Hp)|by apply (tok_buffers _ _ Ht i p)].
Qed.

Lemma erased_insert s i p fds : process_table s !! i = Some p ->
  erased (set_table (<[i := set_fd_table fds p]> (process_table s)) s) = erased s.
Proof.
  intros Hp. unfold erased. cbn [process_table set_table]. rewrite list_fmap_insert. cbn.
  rewrite list_insert_id; [done|]. rewrite list_lookup_fmap, Hp. done.
Qed.

(** A change of a descriptor of the running process. *)
Lemma fds_settled s i p fds : inv s -> tidy s -> current_process s = Some (Z.of_nat i) -> process_table s !! i = Some p ->
  length fds = length (fd_table p) ->
  let s' := set_table (<[i := set_fd_table fds p]> (process_table s)) s in
  inv s' /\ tidy s' /\ erased s' = erased s.
Proof.
  intros Hinv Ht Hc Hp Hl s'. split; [by apply fd_step_ok|]. split; [|by apply erased_insert].
  destruct (inv_running s Hinv) as (p0 & Hc0 & Hp0 & Hrun & _). rewrite Hc in Hc0.
  assert (running s = i) as Hi by (injection Hc0; lia). rewrite Hi, Hp in Hp0. injection Hp0 as <-.
  intros j q [(-> & -> & _)|[_ Hq]]%lookup_insert_cases; [|by apply (Ht j)].
  split; [by apply (Ht j p)|]. cbn. rewrite Hrun. by intros [?|?].
Qed.

Definition settled (s0 s : sched E) : Prop := inv s /\ tidy s /\ erased s = s0.

Lemma on_cpu_settled {A} (m : M (sched E) A) c s0 s (Q : A -> Cpu.state * sched E -> Prop) :
  Cpu.wf c -> settled s0 s ->
  (inv (Scheduler.set_cpu c s) -> tidy (Scheduler.set_cpu c s) ->
   wp m (Scheduler.set_cpu c s) (fun r s' => Q r (Scheduler.cpu s', Scheduler.set_cpu (Scheduler.cpu s) s'))) ->
  wp (on_cpu m) (c, s) Q.
Proof. intros Hc (Hi & Ht & _) H. apply wp_lifted. apply H; [by apply sched_set_cpu|done]. Qed.

#[local] Obligation Tactic := idtac.

Lemma settled_after c s0 s s' : Cpu.wf (Scheduler.cpu s) -> settled s0 s ->
  inv s' /\ tidy s' /\ erased s' = erased (Scheduler.set_cpu c s) -> settled s0 (Scheduler.set_cpu (Scheduler.cpu s) s').
Proof.
  intros Hc (_ & _ & <-) (Hi & Ht & He). split; [by apply sched_set_cpu|]. split; [done|].
  change (Scheduler.set_cpu (Scheduler.cpu s) (erased s') = erased s). rewrite He. by destruct s.
Qed.

Lemma inv_cpu s : inv s -> Cpu.wf (Scheduler.cpu s).
Proof. by intros [(i & p & _ & _ & [_ _ _ ?] & _)]. Qed.

#[local] Instance strict_descriptors (s0 : sched E) : Descriptors (sched E).
Proof.
  refine {| fdt_inv := settled s0; fdt_current := running; fdt_slot := slot |}.
  - intros s i d (Hi & _) Hs. apply (@fdt_slot_range (sched E) _ scheduler_descriptors s i d); [by apply inv_tables|done].
  - intros d c s Hc (Hi & Ht & He). apply (@fdt_get_ok (sched E) _ scheduler_descriptors d c s Hc). by apply inv_tables.
  - intros d c s Hc Hs. pose proof Hs as (Hi & Ht & _).
    eapply wp_mono; [apply wp_and; [apply (@fdt_remove_ok (sched E) _ scheduler_descriptors d c s Hc); by apply inv_tables|]|].
    { eapply (on_cpu_settled _ _ _ _ (fun _ '(_, s') => settled s0 s')); [done|done|]. intros Hi' Ht'.
      destruct (inv_running _ Hi') as (p & Hcur & Hp & _ & Hl). pose proof (tables_set_cpu c s (inv_tables s Hi)) as [Hlen _ _].
      eapply fd_remove_ok; [exact Hcur|exact Hp|exact Hlen|done|done|intros Hd|intros Hd]; apply (settled_after c); try done; try by apply inv_cpu.
      apply fds_settled; try done. by rewrite length_insert. }
    cbv beta. intros h [c' p'] [(-> & _ & Hr) Hp']. done.
  - intros h c s Hc Hs Hh. pose proof Hs as (Hi & Ht & _).
    eapply wp_mono; [apply wp_and; [apply (@fdt_install_ok (sched E) _ scheduler_descriptors h c s Hc); [by apply inv_tables|done]|]|].
    { eapply (on_cpu_settled _ _ _ _ (fun _ '(_, s') => settled s0 s')); [done|done|]. intros Hi' Ht'.
      destruct (inv_running _ Hi') as (p & Hcur & Hp & _ & Hl). pose proof (tables_set_cpu c s (inv_tables s Hi)) as [Hlen _ _].
      eapply fd_install_ok; [exact Hcur|exact Hp|exact Hlen|done|done|done|intros d Hd _ _|intros _]; apply (settled_after c); try done; try by apply inv_cpu.
      apply fds_settled; try done. by rewrite length_insert. }
    cbv beta. intros r [c' p'] [(-> & _ & Hr) Hp']. done.
Defined.

End descriptors.

(** ** The whole state *)

Section kernel.
Context {F : Type} `{!FrameAllocator F} {FS : Type} `{!FileSystem FS} {E : Type} `{!Services E}.
Context {D : Type} `{!Ports D}.
Context (FILE_TABLE : Z).
Hypothesis table_address : 0 < FILE_TABLE.
Abbreviation K := (kernel F FS E D).
Implicit Types (k : K) (v : vfs FS (sched E)) (s : sched E).

Definition files_inv v : Prop := vfs_inv (Descriptors0 := strict_descriptors (erased (procs v))) FILE_TABLE v.

Record kernel_inv k : Prop := {
  ki_memory : user_ok (memory k);
  ki_files : files_inv (files k);
  ki_keyboard : Keyboard.wf (keyboard k) /\ bytes (Keyboard.queue (keyboard k))
}.

(** The process table on the interrupt flag it shares with the VFS layer. *)
Definition processes v : sched E := Scheduler.set_cpu (cpu v) (procs v).

Lemma processes_inv v : files_inv v -> inv (processes v) /\ tidy (processes v).
Proof. intros [_ _ Hc _ (Hi & Ht & _) _]. split; [by apply sched_set_cpu|done]. Qed.

(** What the scheduler's routines may do to a state with open files. *)
Record proc_step s s' : Prop := {
  ps_inv : inv s';
  ps_tidy : tidy s';
  ps_cpu : Scheduler.cpu s' = Scheduler.cpu s;
  ps_slots : forall i d, slot s' i d = slot s i d
}.

Lemma proc_step_refl s : inv s -> tidy s -> proc_step s s.
Proof. by split. Qed.

(** [v] after the scheduler left [s]. *)
Definition with_processes s v : vfs FS (sched E) := set_procs (Scheduler.cpu s, Scheduler.set_cpu (Scheduler.cpu (procs v)) s) v.

Lemma files_step v s : files_inv v -> proc_step (processes v) s ->
  files_inv (with_processes s v) /\ cpu (with_processes s v) = cpu v.
Proof.
  intros [H1 H2 H3 H4 (Hi & Ht & He) H6] [Pi Pt Pc Ps]. cbn in Pc. split; [|exact Pc].
  split; cbn [vfs_initialized vfs_busy cpu fsys procs file_table with_processes set_procs fst snd]; try done.
  - by rewrite Pc.
  - split; [|split; [exact Pt|done]]. apply sched_set_cpu; [done|by apply inv_cpu].
  - eapply (table_same_slots (Descriptors0 := strict_descriptors _)) in H6; [|exact Ps]. destruct H6. by split.
Qed.

Definition next k k' : Prop := kernel_inv k' /\ user_step (memory k) (memory k').

Lemma next_refl k : kernel_inv k -> next k k.
Proof. intros Hk. split; [done|]. apply user_step_refl, Hk. Qed.

Lemma next_trans k1 k2 k3 : next k1 k2 -> next k2 k3 -> next k1 k3.
Proof. intros [_ H1] [H2 H3]. split; [done|]. by eapply user_step_trans. Qed.

Definition secure {A} (P : A -> Prop) (m : M K A) : Prop :=
  forall k, kernel_inv k -> wp m k (fun a k' => next k k' /\ P a).

Lemma secure_ret {A} (P : A -> Prop) a : P a -> secure P (ret a).
Proof. intros HP k Hk. apply wp_ret. split; [by apply next_refl|done]. Qed.

Lemma secure_bind {A B} (R : A -> Prop) (P : B -> Prop) (m : M K A) (f : A -> M K B) :
  secure R m -> (forall a, R a -> secure P (f a)) -> secure P (bind m f).
Proof.
  intros Hm Hf k Hk. apply wp_bind. eapply wp_mono; [by apply Hm|]. cbv beta. intros a k1 [Hn Ha].
  eapply wp_mono; [apply (Hf a Ha), Hn|]. cbv beta. intros b k2 [Hn2 Hb]. split; [by eapply next_trans|done].
Qed.

Lemma secure_mono {A} (R P : A -> Prop) (m : M K A) : (forall a, R a -> P a) -> secure R m -> secure P m.
Proof. intros HRP Hm k Hk. eapply wp_mono; [by apply Hm|]. cbv beta. intros a k' [? ?]. auto. Qed.

Lemma secure_access {A} (P : A -> Prop) (o : option A) a : o = Some a -> P a -> secure P (access o).
Proof. intros -> HP. by apply secure_ret. Qed.

Lemma secure_while {X R} (I : X -> Prop) (P : R -> Prop) (measure : X -> nat) (step : X -> M K (X + R)) fuel x :
  I x -> (measure x < fuel)%nat ->
  (forall x', I x' -> secure (fun r => match r with inl x'' => I x'' /\ (measure x'' < measure x')%nat | inr r => P r end) (step x')) ->
  secure P (while_ fuel step x).
Proof.
  intros HI Hm Hstep k Hk. apply (wp_while (fun x' k' => next k k' /\ I x') (fun x' _ => measure x')); [split; [by apply next_refl|done]|done|].
  intros x' k' [Hn HI']. eapply wp_mono; [apply (Hstep x' HI'), Hn|]. cbv beta. intros [x''|r] k2 [Hn2 Hr].
  - destruct Hr. split; [|done]. split; [by eapply next_trans|done].
  - split; [by eapply next_trans|done].
Qed.

Lemma secure_range n first (body : Z -> M K unit) :
  (forall i, first <= i < first + Z.of_nat n -> secure (fun _ => True) (body i)) -> secure (fun _ => True) (for_range n first body).
Proof.
  intros Hb k Hk. apply (wp_for_range (fun _ k' => next k k')); [by apply next_refl| |by intros].
  intros i k' Hi Hn. eapply wp_mono; [apply (Hb i Hi), Hn|]. cbv beta. intros [] k2 [Hn2 _]. by eapply next_trans.
Qed.

(** ** Calls into the components *)

Lemma secure_files {A} (P : A -> Prop) (m : M (vfs FS (sched E)) A) :
  (forall s0 v, vfs_inv (Descriptors0 := strict_descriptors s0) FILE_TABLE v ->
     wp m v (fun r v' => kept (Descriptors0 := strict_descriptors s0) FILE_TABLE v r v' /\ P r)) ->
  secure P (zoom m).
Proof.
  intros Hm k [H1 H2 H3]. apply wp_zoom. eapply wp_mono; [by apply Hm|]. cbv beta. intros r v' [[Hv' _] HP].
  split; [|done]. split; [|by apply user_step_refl]. split; [done| |done].
  change (files_inv v'). pose proof (vi_procs _ _ Hv') as (_ & _ & He). unfold files_inv. by rewrite He.
Qed.

Lemma secure_scheduler {A} (P : A -> Prop) (m : M (sched E) A) :
  (forall s, inv s -> tidy s -> wp m s (fun r s' => proc_step s s' /\ P r)) -> secure P (scheduler m).
Proof.
  intros Hm k [H1 H2 H3]. apply wp_zoom, wp_zoom, wp_lifted.
  eapply wp_mono; [apply (Hm (processes (files k))); by apply processes_inv|]. cbv beta. intros r s' [Hs HP].
  split; [|done]. split; [|by apply user_step_refl]. split; [done| |done]. by apply files_step.
Qed.

Lemma secure_memory {A} (P : A -> Prop) (m : M (Vmm.state F) A) :
  (forall u, user_ok u -> wp m u (fun r u' => user_step u u' /\ P r)) -> secure P (zoom m).
Proof.
  intros Hm k [H1 H2 H3]. apply wp_zoom. eapply wp_mono; [by apply Hm|]. cbv beta. intros r s' [Hs HP].
  split; [|done]. split; [|done]. split; [apply Hs|done|done].
Qed.

Definition word (a : Z) : Prop := 0 <= a < 4294967296.

Lemma secure_validate p n access : word p -> word n -> secure (fun _ => True) (zoom (validate_user_range p n access)).
Proof.
  intros Hp Hn. apply secure_memory. intros s Hs. eapply wp_mono; [by apply validate_ok|]. cbv beta.
  intros b s' [-> _]. split; [by apply user_step_refl|done].
Qed.

Lemma secure_copy_from p n : word p -> 0 <= n < 4294967296 -> secure (fun r => bytes (snd r) /\ zlength (snd r) <= n /\
  (fst r = 0 -> zlength (snd r) = n)) (zoom (copy_from_user true p n)).
Proof.
  intros Hp Hn. apply secure_memory. intros s Hs. eapply wp_mono; [by apply copy_from_ok|]. cbv beta.
  intros r s' (-> & Hy & Hno). split; [by apply user_step_refl|].
  unfold bytes. apply dec_stable. intros Hn'. assert (r <> (0, user_bytes s p n)) as H1.
  { intros ->. apply Hn'. cbn. rewrite zlength_user_bytes by lia. split; [apply bytes_user_bytes|]. split; [lia|done]. }
  assert (r <> (- EFAULT, [])) as H2 by (intros ->; apply Hn'; cbn; split; [apply Forall_nil_2|unfold zlength, EFAULT; cbn; lia]).
  apply H2, Hno. intros Hc. by apply H1, Hy.
Qed.

Lemma secure_copy_to p l : word p -> zlength l < 4294967296 -> bytes l ->
  secure (fun _ => True) (zoom (copy_to_user p (Some l) (zlength l))).
Proof.
  intros Hp Hl Hb. apply secure_memory. intros s Hs. eapply wp_mono; [by apply copy_to_ok|]. cbv beta.
  intros r s' [(_ & _ & [Hst _])|(_ & -> & _)]; (split; [|done]); [done|by apply user_step_refl].
Qed.

(** A string the process handed over, with its terminator. *)
Definition terminated_string (max : Z) (l : list Z) : Prop :=
  exists c, l = c ++ [0] /\ Path.c_str c /\ bytes c /\ zlength l <= max.

Lemma string_at_terminated (s : Vmm.state F) p l max : string_at s p l -> zlength l <= max -> terminated_string max l.
Proof.
  intros (n & Hn & -> & H0 & Hne & _) Hz. rewrite user_bytes_snoc, H0 in * by done. exists (user_bytes s p n).
  split; [done|]. split; [|split; [apply bytes_user_bytes|done]].
  apply Forall_forall. intros x Hx. apply list_elem_of_fmap in Hx as (i & -> & Hi). apply elem_of_seqZ in Hi. apply Hne. lia.
Qed.

Lemma secure_copy_string p max : word p -> 0 <= max < 4294967296 ->
  secure (fun r => fst r = 0 -> terminated_string max (snd r)) (zoom (copy_user_string true p max)).
Proof.
  intros Hp Hm. apply secure_memory. intros s Hs. eapply wp_mono; [by apply copy_string_ok|]. cbv beta.
  intros r s' (-> & Hc). split; [by apply user_step_refl|]. destruct Hc as [(l & -> & Hl & Hz)|[Ef _]].
  - intros _. by eapply string_at_terminated.
  - rewrite Ef. done.
Qed.

Lemma secure_buffer size (l : list Z) : zlength l <= size -> secure (fun l' => l' = l) (within_buffer size l).
Proof. intros Hl. unfold within_buffer. rewrite (proj2 (Z.leb_le _ _)) by done. by apply secure_ret. Qed.

Lemma secure_console c : secure (fun _ => True) (console_putc c).
Proof. intros k [H1 H2 H3]. apply wp_modify. split; [|done]. split; [by split|by apply user_step_refl]. Qed.

End kernel.

End SyscallBase.
