(* ===== verification/SyscallSafe.v ===== *)
(** * System calls: no register contents hurt the kernel

    Every call ends, whatever the process puts into its registers and its
    memory: the kernel does not fault, does not overrun a buffer, keeps the
    invariants of the files, the process table and the page tables, and writes
    only to writable pages of the calling process. *)

From S2P Require Import Prelude Monad Interfaces Bytes Cpu Block MiniFs Path Keyboard Vmm Usercopy UsercopySpec Elf Scheduler SchedulerInv SchedulerLife UserStack UserStackSpec Spawn SpawnSpec Vfs VfsSpec VfsKernel Syscall SyscallBase.

Module SyscallSafe.
Import Block MiniFs Scheduler SchedulerInv SchedulerLife Spawn SpawnSpec VfsKernel Usercopy UsercopySpec Vfs VfsSpec Syscall SyscallBase.

Section safe.
Context {F : Type} `{!FrameAllocator F} {FS : Type} `{!FileSystem FS} {E : Type} `{!Services E} `{!SpawnOps E} `{!Spawning E}.
Context {D : Type} `{!Ports D}.
Context (FILE_TABLE : Z) (sym : symbols).
Hypothesis table_address : 0 < FILE_TABLE.
Abbreviation K := (kernel F FS E D).
Abbreviation secure := (secure (F := F) (FS := FS) (E := E) (D := D) FILE_TABLE).
Abbreviation strict s0 := (strict_descriptors (E := E) s0).
Implicit Types (k : K) (s : sched E).

Abbreviation any := (fun _ => True).

(** ** The steps of the VFS layer *)

Lemma secure_call {A} (m : M (vfs FS (sched E)) A) :
  (forall s0 v, vfs_inv (Descriptors0 := strict s0) FILE_TABLE v -> wp m v (kept (Descriptors0 := strict s0) FILE_TABLE v)) ->
  secure any (zoom m).
Proof. intros Hm. apply secure_files. intros s0 v Hv. eapply wp_mono; [by apply (Hm s0)|]. done. Qed.

Lemma secure_write d l : bytes l -> secure any (zoom (vfs_write FILE_TABLE d true l)).
Proof. intros Hb. apply secure_call. intros s0 v Hv. by apply (perform_ok FILE_TABLE table_address (Write d true l)). Qed.
Lemma secure_open path fl : bytes path -> secure any (zoom (vfs_open FILE_TABLE path fl)).
Proof. intros Hb. apply secure_call. intros s0 v Hv. by apply (perform_ok FILE_TABLE table_address (Open path fl)). Qed.
Lemma secure_close d : secure any (zoom (vfs_close FILE_TABLE d)).
Proof. apply secure_call. intros s0 v Hv. by apply (perform_ok FILE_TABLE table_address (Close d)). Qed.
Lemma secure_lseek d o w : secure any (zoom (vfs_lseek FILE_TABLE d o w)).
Proof. apply secure_call. intros s0 v Hv. by apply (perform_ok FILE_TABLE table_address (Lseek d o w)). Qed.
Lemma secure_unlink path : bytes path -> secure any (zoom (vfs_unlink path)).
Proof. intros Hb. apply secure_call. intros s0 v Hv. by apply (perform_ok FILE_TABLE table_address (Unlink path)). Qed.
Lemma secure_mkdir path : bytes path -> secure any (zoom (vfs_mkdir path)).
Proof. intros Hb. apply secure_call. intros s0 v Hv. by apply (perform_ok FILE_TABLE table_address (Mkdir path)). Qed.
Lemma secure_read d n : secure (filled n) (zoom (vfs_read FILE_TABLE d true n)).
Proof. apply secure_files. intros s0 v Hv. by apply (vfs_read_ok FILE_TABLE table_address). Qed.
Lemma secure_readdir d : secure (fun r => fst r = 1 -> exists e, snd r = Some (export_entry e)) (zoom (vfs_readdir FILE_TABLE d true)).
Proof. apply secure_files. intros s0 v Hv. by apply (vfs_readdir_ok FILE_TABLE table_address). Qed.
Lemma secure_stat path : bytes path -> secure (fun r => match r with Err st => st < 0 | Ok st => 0 <= ms_size st <= INT32_MAX end)
  (zoom (vfs_stat path true)).
Proof. intros Hb. apply secure_files. intros s0 v Hv. by apply vfs_stat_ok. Qed.

(** ** Reading and writing *)

Ltac done_here := apply secure_ret; done.

Lemma chunk_range length offset : 0 <= offset < length -> length <= 4096 ->
  let chunk := if SYSCALL_WRITE_BUFFER_SIZE <? length - offset then SYSCALL_WRITE_BUFFER_SIZE else length - offset in
  0 < chunk <= 128 /\ offset + chunk <= length /\ (chunk < 128 -> offset + chunk = length).
Proof. intros Ho Hl. unfold SYSCALL_WRITE_BUFFER_SIZE. destruct (Z.ltb_spec 128 (length - offset)); lia. Qed.

(** Rounds of a transfer that are left. *)
Definition rounds (length offset : Z) : nat := Z.to_nat ((length - offset + 127) / 128).

Lemma rounds_less length offset chunk n : 0 <= offset < length -> 0 < chunk <= n -> (chunk < 128 -> offset + chunk = length) -> chunk <= 128 ->
  (rounds length (offset + n) < rounds length offset)%nat.
Proof.
  intros Ho Hn Hc Hle. unfold rounds. assert (1 <= (length - offset + 127) / 128) by (apply Z.div_le_lower_bound; lia).
  destruct (Z.le_gt_cases 128 chunk).
  - assert ((length - (offset + n) + 127) / 128 <= (length - offset + 127 + -1 * 128) / 128) by (apply Z.div_le_mono; lia).
    rewrite Z.div_add in * by lia. lia.
  - assert ((length - (offset + n) + 127) / 128 <= 127 / 128) by (apply Z.div_le_mono; lia). change (127 / 128) with 0 in *. lia.
Qed.

Lemma rounds_start length : length <= 4096 -> (rounds length 0 < 34)%nat.
Proof. intros Hl. unfold rounds. assert ((length - 0 + 127) / 128 <= 4223 / 128) by (apply Z.div_le_mono; lia). change (4223 / 128) with 32 in *. lia. Qed.

Lemma put_chunk_secure (buffer : list Z) n : n <= zlength buffer ->
  secure any (for_range (Z.to_nat n) 0 (fun index => let! c := access (buffer !! Z.to_nat index) in console_putc c)).
Proof.
  intros Hn. apply secure_range. intros i Hi. destruct (lookup_lt_is_Some_2 buffer (Z.to_nat i)) as [c Hc]; [unfold zlength in *; lia|].
  rewrite Hc. apply (secure_bind _ (fun _ : Z => True)); [by apply secure_ret|]. intros x _. apply secure_console.
Qed.

Lemma write_chunk_secure d p length offset : word p -> 0 <= offset -> length <= 4096 ->
  secure (fun r => match r with inl o => 0 <= o /\ (rounds length o < rounds length offset)%nat | inr r => True end)
    (write_chunk FILE_TABLE d p length offset).
Proof.
  intros Hp Ho Hl. unfold write_chunk. destruct (Z.ltb_spec offset length); cbn [negb]; [|done_here].
  destruct (chunk_range length offset) as (Hc1 & Hc2 & Hc3); [lia|done|]. cbv zeta. set (chunk := if SYSCALL_WRITE_BUFFER_SIZE <? length - offset then _ else _) in *.
  eapply secure_bind; [apply secure_copy_from; [apply u32_range|lia]|]. intros c (Hb & Hz & Hz0).
  destruct (Z.eqb_spec (fst c) 0) as [E0|]; cbn [negb]; [|done_here].
  eapply secure_bind; [apply secure_buffer; unfold SYSCALL_WRITE_BUFFER_SIZE; lia|]. intros buffer ->.
  apply (secure_bind _ (fun _ : Z => True)); [destruct (_ || _)|].
  - eapply secure_bind; [apply put_chunk_secure; rewrite Hz0 by done; lia|]. intros [] _. done_here.
  - by apply secure_write.
  - intros written _. destruct (Z.ltb_spec written 0); [done_here|]. destruct (Z.ltb_spec written chunk); [done_here|].
    apply secure_ret. split; [lia|]. apply (rounds_less length offset chunk); lia.
Qed.

Lemma syscall_write_secure d p n : word p -> word n -> secure any (syscall_write FILE_TABLE d p n).
Proof.
  intros Hp Hn. unfold syscall_write. destruct (_ || _); [done_here|].
  destruct (Z.ltb_spec SYSCALL_WRITE_MAX n) as [|Hmax]; [done_here|]. unfold SYSCALL_WRITE_MAX in Hmax.
  eapply secure_bind; [by apply secure_validate|]. intros [] _; cbn [negb]; [|done_here].
  apply (secure_while _ (fun o => 0 <= o) any (rounds n)); [done|by apply rounds_start|].
  intros o Ho. by apply write_chunk_secure.
Qed.

Lemma enabled_wf c : Cpu.wf c -> Cpu.wf (Cpu.State (Z.lor (Cpu.eflags c) Cpu.EFLAGS_IF)).
Proof.
  unfold Cpu.wf, Cpu.EFLAGS_IF. cbn. intros Hc. split; [apply Z.lor_nonneg; lia|].
  destruct (decide (Cpu.eflags c = 0)) as [->|Hne]; [done|].
  change 4294967296 with (2 ^ 32). apply Z.log2_lt_pow2; [assert (Z.lor (Cpu.eflags c) 512 <> 0); [|assert (0 <= Z.lor (Cpu.eflags c) 512) by (apply Z.lor_nonneg; lia); lia]|].
  { intros [? ?]%Z.lor_eq_0_iff. done. }
  rewrite Z.log2_lor by lia. assert (Z.log2 (Cpu.eflags c) < 32) by (apply Z.log2_lt_pow2; lia). change (Z.log2 512) with 9. lia.
Qed.

Lemma read_key_secure p : word p -> forall k, kernel_inv FILE_TABLE k ->
  wp (read_key p) k (fun _ k' => next FILE_TABLE k k').
Proof.
  intros Hp k Hk. pose proof Hk as [H1 H2 [H3 H4]]. unfold read_key. apply wp_bind, wp_zoom. apply Keyboard.try_read_ok; [done| |].
  - intros Hq. apply wp_bind, wp_zoom, wp_zoom. unfold Cpu.irq_enable, Cpu.sti. apply wp_modify. apply wp_ret.
    split; [|by apply user_step_refl]. split; [done| |by split].
    destruct H2 as [V1 V2 V3 V4 V5 V6]. split; try done. by apply enabled_wf.
  - intros c tail s' Hq Hw. change (lget k) with (keyboard k) in *. rewrite Hq in H4. apply Forall_cons in H4 as [Hc H4].
    apply wp_bind. eapply wp_mono; [apply (secure_copy_to FILE_TABLE p [c]); [done|done|by apply Forall_singleton|]|].
    { split; [done|exact H2|done]. }
    cbv beta. intros r k' [[Hn Hu] _]. by apply wp_ret.
Qed.

Lemma read_chunk_secure d p length offset : word p -> 0 <= offset -> length <= 4096 ->
  secure (fun r => match r with inl o => 0 <= o /\ (rounds length o < rounds length offset)%nat | inr r => True end)
    (read_chunk FILE_TABLE d p length offset).
Proof.
  intros Hp Ho Hl. unfold read_chunk. destruct (Z.ltb_spec offset length); cbn [negb]; [|done_here].
  destruct (chunk_range length offset) as (Hc1 & Hc2 & Hc3); [lia|done|]. cbv zeta.
  set (chunk := if SYSCALL_WRITE_BUFFER_SIZE <? length - offset then _ else _) in *.
  eapply secure_bind; [apply secure_read|]. intros r (Hb & Hz & Hz0).
  eapply secure_bind; [apply secure_buffer; unfold SYSCALL_WRITE_BUFFER_SIZE; lia|]. intros buffer ->.
  destruct (Z.ltb_spec (fst r) 0); [done_here|]. destruct (Z.eqb_spec (fst r) 0); [done_here|].
  eapply secure_bind; [rewrite <-Hz0 by done; apply secure_copy_to; [apply u32_range|lia|done]|]. intros copied _.
  destruct (negb _); [done_here|]. destruct (Z.ltb_spec (fst r) chunk); [done_here|].
  apply secure_ret. split; [lia|]. apply (rounds_less length offset chunk); lia.
Qed.

Lemma syscall_read_secure d p n : word p -> word n -> secure any (syscall_read FILE_TABLE d p n).
Proof.
  intros Hp Hn. unfold syscall_read. destruct (_ || _ || _); [done_here|].
  destruct (Z.ltb_spec SYSCALL_WRITE_MAX n) as [|Hmax]; [done_here|]. unfold SYSCALL_WRITE_MAX in Hmax.
  eapply secure_bind; [by apply secure_validate|]. intros [] _; cbn [negb]; [|done_here].
  destruct (n =? 0); [done_here|]. destruct (d =? 0).
  { intros k Hk. eapply wp_mono; [by apply read_key_secure|]. done. }
  apply (secure_bind _ (fun _ : Z => True)); [|intros r _; done_here].
  apply (secure_while _ (fun o => 0 <= o) any (rounds n)); [done|by apply rounds_start|].
  intros o Ho. by apply read_chunk_secure.
Qed.

(** ** Paths *)

Definition path_ok (path : list Z) : Prop := Path.c_str path /\ bytes path.

Lemma getcwd_step n s : inv s -> tidy s -> wp (scheduler_get_current_working_directory n) s (fun r s' =>
  proc_step s s' /\ forall d, r = Some d -> path_ok d /\ zlength d < 256).
Proof.
  intros Hi Ht. pose proof Hi as [(i & p & Hc & Hp & [Htok _ _ Hcpu] & _)].
  unfold scheduler_get_current_working_directory. run. rewrite Hc.
  destruct (n =? 0); [run; split; [by apply proc_step_refl|done]|].
  apply wp_bind, wp_zoom, Cpu.irq_save_disable_wp. apply wp_bind. eapply wp_get; [apply Htok|exact Hp|].
  apply wp_bind, wp_zoom, Cpu.irq_restore_wp; [done|]. run. rewrite lset_lset, lset_lget. split; [by apply proc_step_refl|].
  destruct (tok_buffers _ _ Htok i p Hp) as (_ & Hl & l & r & Ecwd & Hnz). destruct (Ht i p Hp) as [Hb _].
  rewrite Ecwd in *. rewrite cstring_app in Hb by done. rewrite length_app in Hl. cbn in Hl.
  rewrite cwd_to_buffer_ok by (done || lia). destruct (_ <? n); [|done]. intros d [= <-]. split; [by split|]. unfold zlength. lia.
Qed.

Lemma c_string_terminated max l : terminated_string max l -> exists c, l = c ++ [0] /\ Path.c_string l = c /\ path_ok c /\ zlength l <= max.
Proof. intros (c & -> & Hc & Hb & Hz). exists c. split; [done|]. split; [by apply Path.c_string_app|]. by split. Qed.

Lemma resolve_path_error cwd input e : Path.resolve_path cwd input = inl e -> 0 < e.
Proof.
  unfold Path.resolve_path, Path.finish. intros H. repeat (case_match; simplify_eq; try done).
Qed.

Lemma copy_syscall_path_secure p : word p ->
  secure (fun r => match r with Err st => st < 0 | Ok path => path_ok path end) (copy_syscall_path p).
Proof.
  intros Hp. unfold copy_syscall_path. eapply secure_bind; [apply secure_copy_string; [done|unfold Syscall.SYSCALL_PATH_MAX; lia]|].
  intros copied Hc. destruct (Z.eqb_spec (fst copied) 0) as [E0|]; cbn [negb]; [|done_here].
  destruct (c_string_terminated _ _ (Hc E0)) as (c & El & Ec & [Hs Hb] & Hz).
  eapply secure_bind; [by apply secure_buffer|]. intros stored ->. cbv zeta. rewrite Ec.
  destruct (byte_at (snd copied) 0 =? 0); [done_here|].
  apply (secure_bind _ (fun cwd => forall d, cwd = Some d -> path_ok d)).
  { destruct (negb _); [|done_here]. apply secure_scheduler. intros s Hi Ht.
    eapply wp_mono; [by apply getcwd_step|]. cbv beta. intros r s' [? Hr]. split; [done|]. intros d Hd. by apply Hr. }
  intros cwd Hcwd.
  assert (wp (Path.normalize_path cwd c) (Path.Buffer (replicate 256 0) 0) (fun r b' => if r <? 0 then True else path_ok (Path.c_string (Path.path b')))) as Hn.
  { eapply wp_mono; [apply Path.normalize_path_wp; [done|done|by intros d Hd; apply Hcwd]|]. cbv beta.
    intros r b' [_ Hr]. destruct (Path.resolve_path cwd c) as [e|path] eqn:Er.
    - subst r. assert (0 < e); [by eapply resolve_path_error|by rewrite (proj2 (Z.ltb_lt _ _)) by lia].
    - destruct Hr as [-> ->]. change (0 <? 0) with false. split.
      + by apply (Path.resolve_path_all (fun c => c <> 0) ltac:(done) cwd c path Hs); [intros d Hd; apply Hcwd|].
      + apply (Path.resolve_path_all (fun c => 0 <= c < 256) ltac:(done) cwd c path Hb); [intros d Hd; by apply Hcwd|done]. }
  unfold wp in Hn. destruct (Path.normalize_path _ _ _) as [r b| | |]; try done.
  destruct (Z.ltb_spec r 0); done_here.
Qed.

Lemma on_path_secure p (call : list Z -> M K Z) : word p -> (forall path, path_ok path -> secure any (call path)) -> secure any (on_path p call).
Proof.
  intros Hp Hc. unfold on_path. eapply secure_bind; [by apply copy_syscall_path_secure|]. intros [st|path] Hr; [done_here|by apply Hc].
Qed.

Lemma syscall_open_secure p fl : word p -> secure any (syscall_open FILE_TABLE p fl).
Proof. intros Hp. apply on_path_secure; [done|]. intros path [_ Hb]. by apply secure_open. Qed.

Lemma syscall_create_secure p : word p -> secure any (syscall_create FILE_TABLE p).
Proof.
  intros Hp. unfold syscall_create. eapply secure_bind; [by apply syscall_open_secure|]. intros d _.
  destruct (d <? 0); [done_here|apply secure_close].
Qed.

Lemma le16_ok v : bytes (le16 v) /\ zlength (le16 v) = 2.
Proof. split; [|done]. repeat apply Forall_cons_2; try apply u8_range. apply Forall_nil_2. Qed.
Lemma le32_ok v : bytes (le32 v) /\ zlength (le32 v) = 4.
Proof. split; [|done]. repeat apply Forall_cons_2; try apply u8_range. apply Forall_nil_2. Qed.

Lemma bytes_u8 (l : list Z) : bytes (map u8 l).
Proof. apply Forall_map, Forall_true. intros. apply u8_range. Qed.

Lemma dirent_bytes_ok e : bytes (dirent_bytes (export_entry e)) /\ zlength (dirent_bytes (export_entry e)) = 68.
Proof.
  unfold dirent_bytes. split; [|unfold zlength; rewrite !length_app, length_map; unfold export_entry; cbn [me_name]; rewrite length_map, length_seqZ; cbn; lia].
  repeat apply Forall_app_2; try apply le32_ok; try apply le16_ok; [apply bytes_u8|]. apply Forall_singleton, u8_range.
Qed.

Lemma stat_bytes_ok st : bytes (stat_bytes st) /\ zlength (stat_bytes st) = 12.
Proof. unfold stat_bytes. split; [|done]. repeat apply Forall_app_2; (apply le32_ok || apply le16_ok). Qed.

Lemma secure_store p l n : word p -> bytes l -> zlength l = n -> n < 4294967296 -> secure any (zoom (copy_to_user p (Some l) n)).
Proof. intros Hp Hb <- Hn. by apply secure_copy_to. Qed.

Lemma syscall_readdir_secure d p n : word p -> secure any (syscall_readdir FILE_TABLE d p n).
Proof.
  intros Hp. unfold syscall_readdir. destruct (n <? 68); [done_here|].
  eapply secure_bind; [by apply secure_validate|]. intros [] _; cbn [negb]; [|done_here].
  eapply secure_bind; [apply secure_readdir|]. intros [result entry] Hr. cbn [fst snd] in Hr.
  destruct (Z.eqb_spec result 1) as [->|]; cbn [negb]; [|done_here]. destruct (Hr eq_refl) as [e ->].
  apply (secure_bind _ (fun x => x = export_entry e)); [by apply secure_ret|]. intros x ->. destruct (dirent_bytes_ok e).
  eapply secure_bind; [by apply secure_store|]. intros c _. done_here.
Qed.

Lemma syscall_stat_secure p q : word p -> word q -> secure any (syscall_stat p q).
Proof.
  intros Hp Hq. unfold syscall_stat. eapply secure_bind; [by apply secure_validate|]. intros [] _; cbn [negb]; [|done_here].
  apply on_path_secure; [done|]. intros path [_ Hb]. eapply secure_bind; [by apply secure_stat|].
  intros [st|status] _; [done_here|]. destruct (stat_bytes_ok status). eapply secure_bind; [by apply secure_store|]. intros c _. done_here.
Qed.

Lemma without_slash_ok path : path_ok path -> path_ok (without_slash path).
Proof. intros [Hs Hb]. unfold without_slash. destruct (_ && _); [|done]. split; by apply Forall_take. Qed.

(** One process got other contents that keep its descriptors. *)
Lemma slot_same s s' i p p' : process_table s !! i = Some p -> process_table s' = <[i := p']> (process_table s) ->
  fd_table p' = fd_table p -> forall j d, slot s' j d = slot s j d.
Proof.
  intros Hp Et Ef j d. unfold slot. rewrite Et. destruct (decide (i = j)) as [<-|Hne].
  - rewrite list_lookup_insert_eq by (by eapply lookup_lt_Some). rewrite Hp. unfold fd_of. by rewrite Ef.
  - by rewrite list_lookup_insert_ne.
Qed.

Lemma tidy_insert s s' i p p' : tidy s -> process_table s !! i = Some p -> process_table s' = <[i := p']> (process_table s) ->
  bytes (cstring (current_working_directory p')) -> (state p' = PROCESS_UNUSED \/ state p' = PROCESS_ZOMBIE -> fd_table p' = fd_zero) -> tidy s'.
Proof. intros Ht Hp Et Hb Hf j q. rewrite Et. intros [(-> & -> & _)|[_ Hq]]%lookup_insert_cases; [done|by apply (Ht j)]. Qed.

Lemma chdir_step path s : path_ok path -> inv s -> tidy s ->
  wp (scheduler_set_current_working_directory path) s (fun _ s' => proc_step s s' /\ True).
Proof.
  intros [Hs Hb] Hi Ht. destruct (inv_running s Hi) as (p & Hc & Hp & Hrun & _).
  eapply wp_mono; [by eapply chdir_ok|]. cbv beta. intros ok s' (Hi' & _ & Hcpu & _ & Hcase). split; [|done].
  destruct ok; [|destruct Hcase as [-> _]; by apply proc_step_refl].
  destruct Hcase as (_ & _ & cwd & _ & Hstr & _ & _ & Htab). split; [done| |done|by eapply slot_same].
  eapply tidy_insert; [done|done|done|cbn; by rewrite Hstr|]. cbn. rewrite Hrun. by intros [?|?].
Qed.

Lemma syscall_chdir_secure p : word p -> secure any (syscall_chdir p).
Proof.
  intros Hp. apply on_path_secure; [done|]. intros path Hpath. eapply secure_bind; [by apply secure_stat, Hpath|].
  intros [st|status] _; [done_here|]. destruct (negb _); [done_here|].
  apply (secure_bind _ (fun _ : bool => True)); [|intros ok _; done_here].
  apply secure_scheduler. intros s Hi Ht. by apply chdir_step; [apply without_slash_ok|..].
Qed.

Lemma syscall_getcwd_secure p n : word p -> word n -> secure any (syscall_getcwd p n).
Proof.
  intros Hp Hn. unfold syscall_getcwd. destruct (_ || _); [done_here|].
  eapply secure_bind; [by apply secure_validate|]. intros [] _; cbn [negb]; [|done_here].
  eapply secure_bind; [apply secure_scheduler; intros s Hi Ht; by apply getcwd_step|].
  intros [path|] Hr; [|done_here]. destruct (Hr path eq_refl) as [[_ Hb] Hl]. cbv zeta. destruct (_ <? _); [done_here|].
  assert (zlength (path ++ [0]) = zlength path + 1) as Hz by (unfold zlength; rewrite length_app; cbn; lia).
  eapply secure_bind; [apply secure_store; [done| |done|lia]|intros c _; done_here].
  apply Forall_app. split; [done|]. by apply Forall_singleton.
Qed.

(** ** Processes *)

Lemma snapshot_step n s : inv s -> tidy s -> wp (scheduler_process_snapshot n) s (fun r s' => proc_step s s' /\ zlength r <= 16).
Proof.
  intros Hi Ht. pose proof Hi as [(i & p & _ & _ & [Htok _ _ Hcpu] & _)]. pose proof (tok_len _ _ Htok) as Hlen.
  unfold scheduler_process_snapshot. apply wp_bind, wp_zoom, Cpu.irq_save_disable_wp. apply wp_bind.
  apply (wp_for_acc (fun j infos s' => s' = lset (Cpu.masked (Scheduler.cpu s)) s /\ zlength infos <= j)).
  - done.
  - intros j infos s' Hj [-> Hl]. destruct (_ <? n); [|run; split; [done|lia]].
    destruct (lookup_lt_is_Some_2 (process_table s) (Z.to_nat j)) as [q Hq]; [lia|].
    apply wp_bind. replace j with (Z.of_nat (Z.to_nat j)) at 1 by lia. eapply wp_get; [done|exact Hq|].
    destruct (_ || _); run; (split; [done|]); [lia|]. unfold zlength in *. rewrite length_app. cbn. lia.
  - intros infos s' [-> Hl]. run. apply Cpu.irq_restore_wp; [done|]. run. rewrite lset_lset, lset_lget.
    split; [by apply proc_step_refl|done].
Qed.

Lemma info_bytes_ok i : bytes (info_bytes i) /\ zlength (info_bytes i) = 44.
Proof.
  unfold info_bytes. split; [|unfold zlength; rewrite !length_app, length_map, length_seqZ; cbn; lia].
  repeat apply Forall_app_2; try apply le32_ok. apply Forall_map, Forall_true. intros. apply u8_range.
Qed.

Lemma infos_bytes_ok l : bytes (flat_map info_bytes l) /\ zlength (flat_map info_bytes l) = zlength l * 44.
Proof.
  induction l as [|i l [Hb Hl]]; [split; [apply Forall_nil_2|done]|]. destruct (info_bytes_ok i) as [Hi1 Hi2]. cbn [flat_map].
  split; [by apply Forall_app|]. unfold zlength in *. rewrite length_app. cbn [length]. lia.
Qed.

Lemma syscall_ps_secure p n : word p -> 0 <= n -> secure any (syscall_ps p n).
Proof.
  intros Hp Hn. unfold syscall_ps. destruct (Z.ltb_spec PROCESS_LIMIT n) as [|Hl]; [done_here|]. unfold PROCESS_LIMIT in Hl.
  eapply secure_bind; [apply secure_validate; [done|split; lia]|]. intros [] _; cbn [negb]; [|done_here].
  eapply secure_bind; [apply secure_scheduler; intros s Hi Ht; by apply snapshot_step|]. intros l Hz. cbv zeta.
  destruct (infos_bytes_ok l). eapply secure_bind; [apply secure_store; [done|done|done|unfold zlength in *; lia]|]. intros c _. done_here.
Qed.

(** A heap block that is no kernel stack of a process. *)
Definition spare s (a : Z) : Prop :=
  sv_stack (svc s) a /\ forall i p, process_table s !! i = Some p -> live p -> (1 <= i)%nat -> kernel_stack_allocation p <> a.

Lemma inv_set_svc s e : inv s -> sv_inv e -> sv_active e = sv_active (svc s) -> (forall d, sv_space e d <-> sv_space (svc s) d) ->
  (forall i p, process_table s !! i = Some p -> live p -> (1 <= i)%nat -> sv_stack e (kernel_stack_allocation p)) -> inv (set_svc e s).
Proof.
  intros [(i & p & Hc & Hp & [Ht [R1 R2 R3 R4 R5] Hn Hcpu] & Hact & Hslc)] He Ha Hsp Hst.
  split. exists i, p. split; [done|]. split; [done|]. split; [|split; [cbn; congruence|done]]. split; [done| |done|done].
  split; [done| |done| |done]; cbn.
  - intros j q Hq Hl H1. split; [by apply (R2 j q)|by apply (Hst j q)].
  - intros j q Hq Hl H1. rewrite Hsp. by apply (R4 j q).
Qed.

Lemma inv_kernel_stacks s : inv s -> forall i p, process_table s !! i = Some p -> live p -> (1 <= i)%nat -> sv_stack (svc s) (kernel_stack_allocation p).
Proof. intros [(i0 & p0 & _ & _ & [_ Hr _ _] & _)] i p Hp Hl H1. by apply (rok_stack _ _ Hr i p Hp Hl H1). Qed.
Lemma inv_sv s : inv s -> sv_inv (svc s).
Proof. by intros [(i0 & p0 & _ & _ & [_ [? _ _ _ _] _ _] & _)]. Qed.

Lemma kmalloc_step n s : inv s -> tidy s -> wp (zoom (sv_kmalloc n)) s (fun a s' => proc_step s s' /\ (a <> 0 -> spare s' a)).
Proof.
  intros Hi Ht. apply wp_zoom. eapply wp_mono; [apply sv_kmalloc_ok, inv_sv, Hi|]. cbv beta.
  intros a e (He & Ha & Hsp & Hst). change (lget s) with (svc s) in *. change (lset e s) with (set_svc e s).
  pose proof (inv_kernel_stacks s Hi) as Hs. split.
  - split; [|done|done|done]. apply inv_set_svc; try done. intros i p Hp Hl H1. specialize (Hs i p Hp Hl H1).
    destruct Hst as [[_ Hst]|(_ & _ & _ & Hst)]; apply Hst; auto.
  - intros Hne. destruct Hst as [[-> _]|(_ & _ & Hno & Hst)]; [done|]. split; [apply Hst; by right|].
    intros i p Hp Hl H1 Eq. apply Hno. rewrite <-Eq. by apply (Hs i).
Qed.

Lemma kfree_step a s : inv s -> tidy s -> spare s a -> wp (zoom (sv_kfree a)) s (fun ok s' => ok = true /\ proc_step s s').
Proof.
  intros Hi Ht [Ha Hsp]. apply wp_zoom. eapply wp_mono; [apply sv_kfree_ok; [by apply inv_sv|done]|]. cbv beta.
  intros ok e (-> & He & Hact & Hspc & Hst). split; [done|]. change (lget s) with (svc s) in *. change (lset e s) with (set_svc e s).
  split; [|done|done|done]. apply inv_set_svc; try done. intros i p Hp Hl H1. apply Hst.
  split; [by apply (inv_kernel_stacks s Hi i)|by apply (Hsp i)].
Qed.

(** *** While a block is held *)

Lemma spare_erased s a : spare (erased s) a <-> spare s a.
Proof.
  unfold spare, erased. cbn [svc set_table process_table]. split; intros [Ha Hp]; (split; [done|]); intros i p Hi.
  - apply (Hp i (set_fd_table [] p)). by rewrite list_lookup_fmap, Hi.
  - rewrite list_lookup_fmap in Hi. destruct (process_table s !! i) as [q|] eqn:Eq; [|done]. injection Hi as <-. by apply (Hp i q).
Qed.

Definition guarded (a : Z) {A} (P : A -> Prop) (m : M K A) : Prop :=
  forall k, kernel_inv FILE_TABLE k -> spare (procs (files k)) a ->
  wp m k (fun r k' => next FILE_TABLE k k' /\ spare (procs (files k')) a /\ P r).

Lemma guarded_ret {A} a (P : A -> Prop) x : P x -> guarded a P (ret x).
Proof. intros HP k Hk Ha. apply wp_ret. split; [by apply next_refl|done]. Qed.

Lemma guarded_bind {A B} a (R : A -> Prop) (P : B -> Prop) (m : M K A) (f : A -> M K B) :
  guarded a R m -> (forall x, R x -> guarded a P (f x)) -> guarded a P (bind m f).
Proof.
  intros Hm Hf k Hk Ha. apply wp_bind. eapply wp_mono; [by apply Hm|]. cbv beta. intros x k1 (Hn & Ha1 & Hx).
  eapply wp_mono; [apply (Hf x Hx); [apply Hn|done]|]. cbv beta. intros b k2 (Hn2 & Ha2 & Hb). split; [by eapply next_trans|done].
Qed.

Lemma guarded_files {A} a (P : A -> Prop) (m : M (vfs FS (sched E)) A) :
  (forall s0 v, vfs_inv (Descriptors0 := strict s0) FILE_TABLE v ->
     wp m v (fun r v' => kept (Descriptors0 := strict s0) FILE_TABLE v r v' /\ P r)) -> guarded a P (zoom m).
Proof.
  intros Hm k Hk Ha. pose proof (secure_files FILE_TABLE P m Hm k Hk) as H1.
  assert (wp (zoom m) k (fun _ k' => erased (procs (files k')) = erased (procs (files k)))) as H2.
  { apply wp_zoom. eapply wp_mono; [apply Hm, (ki_files _ _ Hk)|]. cbv beta. intros r v' [[Hv' _] _].
    by pose proof (vi_procs _ _ Hv') as (_ & _ & He). }
  eapply wp_mono; [exact (wp_and _ _ _ _ H1 H2)|]. cbv beta. intros r k' ([Hn HP] & He). split; [done|]. split; [|done].
  by rewrite <-spare_erased, He, spare_erased.
Qed.

Lemma guarded_call {A} a (m : M (vfs FS (sched E)) A) :
  (forall s0 v, vfs_inv (Descriptors0 := strict s0) FILE_TABLE v -> wp m v (kept (Descriptors0 := strict s0) FILE_TABLE v)) ->
  guarded a any (zoom m).
Proof. intros Hm. apply guarded_files. intros s0 v Hv. eapply wp_mono; [by apply (Hm s0)|]. done. Qed.

Lemma within_buffer_fits size l : zlength l <= size -> within_buffer size l = ret (S := K) l.
Proof. intros Hl. unfold within_buffer. by rewrite (proj2 (Z.leb_le _ _)). Qed.

(** The state of the scheduler inside the whole. *)
Lemma wp_scheduler {A} (m : M (sched E) A) k (Q : A -> K -> Prop) :
  wp m (processes (files k)) (fun r s' => Q r (set_vfs (with_processes s' (files k)) k)) -> wp (scheduler m) k Q.
Proof. intros Hm. apply wp_zoom, wp_zoom, wp_lifted. exact Hm. Qed.

Lemma next_step k s : kernel_inv FILE_TABLE k -> proc_step (processes (files k)) s ->
  next FILE_TABLE k (set_vfs (with_processes s (files k)) k).
Proof.
  intros [H1 H2 H3] Hs. split; [|by apply user_step_refl]. split; [done| |done]. by apply files_step.
Qed.

Lemma release_image_ok a msg k : kernel_inv FILE_TABLE k -> spare (procs (files k)) a ->
  wp (release_image a msg) k (fun _ k' => next FILE_TABLE k k').
Proof.
  intros Hk Ha. unfold release_image. apply wp_bind, wp_scheduler. destruct (processes_inv _ _ (ki_files _ _ Hk)) as [Hi Ht].
  eapply wp_mono; [by apply kfree_step|]. cbv beta. intros ok s' [-> Hs]. cbn [negb]. apply wp_ret. by apply next_step.
Qed.

Lemma spawn_step nm image argv a s : bytes image -> zlength image < 4294967296 -> Forall path_ok argv -> inv s -> tidy s -> spare s a ->
  wp (scheduler_spawn_image sym nm image argv) s (fun _ s' => proc_step s s' /\ spare s' a).
Proof.
  intros Hb Hz Hargv Hi Ht [Ha Hp].
  eapply wp_mono; [apply scheduler_spawn_image_ok; [done|done|done|eapply Forall_impl; [exact Hargv|]; by intros ? []..]|]. cbv beta.
  intros r s' (Hi' & Hcpu & Hcase). destruct Hcase as [(_ & Et & Hq & _)|(j & c' & Hsd & _)].
  - split; [split; [done| |done|]|split; [by apply Hq|]]; unfold tidy, slot; by rewrite Et.
  - destruct Hsd as [(Hj & (c & Hc & Hnl) & _) Et Est _ (i & p & _ & Hpi & _ & Hcwd) Efd (_ & _ & Hfresh & Hstk) _ _].
    assert (state c = PROCESS_UNUSED) as Hcu by (unfold live in Hnl; by destruct (decide (state c = PROCESS_UNUSED))).
    assert (fd_table c' = fd_table c) as Ef by (rewrite Efd; symmetry; apply (Ht j c Hc); by left).
    split; [split; [done| |done|by apply (slot_same s s' j c c')]|].
    + eapply (tidy_insert s s' j c c'); [done|done|done|rewrite Hcwd; by apply (Ht i p)|]. rewrite Est. by intros [?|?].
    + split; [apply Hstk; by left|]. intros l q. rewrite Et. intros [(-> & -> & _)|[_ Hq]]%lookup_insert_cases Hl H1; [|by apply (Hp l q)].
      intros Eq. apply Hfresh. by rewrite Eq.
Qed.

Lemma spawn_file_ok path arguments size image k :
  path_ok path -> Forall path_ok arguments -> 0 <= size <= INT32_MAX -> kernel_inv FILE_TABLE k -> spare (procs (files k)) image ->
  wp (spawn_file FILE_TABLE sym path arguments size image) k (fun _ k' => next FILE_TABLE k k').
Proof.
  intros [Hps Hpb] Hargs Hsz Hk Ha. unfold spawn_file. apply wp_bind.
  eapply wp_mono; [apply (guarded_call image); [|done|done]; intros s0 v Hv; by apply (perform_ok FILE_TABLE table_address (Open path MINIOS_O_RDONLY))|].
  cbv beta. intros d k1 (Hn1 & Ha1 & _). apply wp_bind.
  assert (forall d, guarded image any (zoom (vfs_close FILE_TABLE d))) as Hclose.
  { intros d'. apply guarded_call. intros s0 v Hv. by apply (perform_ok FILE_TABLE table_address (Close d')). }
  assert (guarded image (fun r => forall l, r = Some l -> bytes l /\ zlength l = size)
    (if d <? 0 then ret None else
     let! r := zoom (vfs_read FILE_TABLE d true size) in
     let! stored := within_buffer size (snd r) in
     if negb (fst r =? s32 size) then ret None else
     let! closed := zoom (vfs_close FILE_TABLE d) in
     if negb (closed =? 0) then ret None else ret (Some stored))) as Hload.
  { destruct (d <? 0); [by apply guarded_ret|].
    eapply guarded_bind; [apply guarded_files; intros s0 v Hv; by apply (vfs_read_ok FILE_TABLE table_address)|].
    intros r (Hb & Hz & Hz0). rewrite within_buffer_fits by lia. eapply guarded_bind; [by apply (guarded_ret _ (fun l => l = snd r))|]. intros l ->.
    destruct (Z.eqb_spec (fst r) (s32 size)) as [Er|]; cbn [negb]; [|by apply guarded_ret].
    eapply guarded_bind; [apply Hclose|]. intros c _. destruct (negb _); apply guarded_ret; [done|].
    intros l [= <-]. split; [done|]. assert (s32 size = size) as Es by (unfold s32, INT32_MAX in *; rewrite Z.mod_small; lia). lia. }
  eapply wp_mono; [apply Hload; [apply Hn1|done]|]. cbv beta. intros [l|] k2 (Hn2 & Ha2 & Hl).
  - destruct (Hl l eq_refl) as [Hb Hz]. rewrite (proj2 (Z.eqb_eq _ _)) by done. apply wp_bind, wp_ret. apply wp_bind, wp_scheduler.
    destruct (processes_inv _ _ (ki_files _ _ (proj1 Hn2))) as [Hi Ht]. unfold INT32_MAX in *.
    eapply wp_mono; [apply (spawn_step path l arguments image); try done; lia|]. cbv beta. intros r s' [Hs Ha3].
    pose proof (next_step k2 s' (proj1 Hn2) Hs) as Hn3. apply wp_bind.
    eapply wp_mono; [apply release_image_ok; [apply Hn3|exact Ha3]|]. cbv beta. intros _ k4 Hn4. apply wp_ret.
    eapply next_trans; [exact Hn1|]. exact (next_trans _ _ _ _ Hn2 (next_trans _ _ _ _ Hn3 Hn4)).
  - apply wp_bind.
    assert (guarded image any (if 0 <=? d then let! _ := zoom (vfs_close FILE_TABLE d) in ret tt else ret tt)) as Hc.
    { destruct (0 <=? d); [|by apply guarded_ret]. eapply guarded_bind; [apply Hclose|]. intros x _. by apply guarded_ret. }
    eapply wp_mono; [apply Hc; [apply Hn2|done]|]. cbv beta. intros [] k3 (Hn3 & Ha3 & _). apply wp_bind.
    eapply wp_mono; [apply release_image_ok; [apply Hn3|exact Ha3]|]. cbv beta. intros _ k4 Hn4. apply wp_ret.
    eapply next_trans; [exact Hn1|]. exact (next_trans _ _ _ _ Hn2 (next_trans _ _ _ _ Hn3 Hn4)).
Qed.

(** *** Arguments *)

Lemma byte_at_terminator c i : byte_at (c ++ [0]) i = byte_at c i.
Proof.
  unfold byte_at. destruct (decide (Z.to_nat i < length c)%nat); [by rewrite lookup_app_l|].
  rewrite lookup_app_r by lia. rewrite (lookup_ge_None_2 c) by lia. by destruct (Z.to_nat i - length c)%nat.
Qed.

Lemma bounded_length_string c limit : Path.c_str c -> 0 <= limit ->
  bounded_length (c ++ [0]) limit = if zlength c <? limit then zlength c else limit.
Proof.
  intros Hc Hl. unfold bounded_length.
  assert (forall n i, UserStack.find_terminator n i (c ++ [0]) = UserStack.find_terminator n i c) as ->.
  { induction n as [|n IH]; intros i; cbn; [done|]. by rewrite byte_at_terminator, IH. }
  rewrite UserStackSpec.find_terminator_ok by (done || unfold zlength; lia). rewrite Z.add_0_l, Z2Nat.id by done. by destruct (_ <? _).
Qed.

Lemma argument_step_secure p x : word p -> 0 <= fst (fst x) -> Forall path_ok (snd x) ->
  secure (fun r => match r with
    | inl y => (0 <= fst (fst y) /\ Forall path_ok (snd y)) /\ (Z.to_nat (16 - fst (fst y)) < Z.to_nat (16 - fst (fst x)))%nat
    | inr r => match r with Err st => True | Ok args => Forall path_ok args end end) (argument_step p x).
Proof.
  destruct x as [[count total] args]. cbn [fst snd]. intros Hp Hc Ha. unfold argument_step, SYSCALL_ARGUMENT_LIMIT.
  destruct (Z.ltb_spec count 16); cbn [negb]; [|done_here].
  eapply secure_bind; [apply secure_copy_from; [apply u32_range|lia]|]. intros w (Hb & _ & Hz).
  destruct (Z.eqb_spec (fst w) 0); cbn [negb]; [|done_here]. cbv zeta.
  destruct (read_le32 (snd w) 0 =? 0); [apply secure_ret; by destruct (count =? 0)|].
  eapply secure_bind; [apply secure_copy_string; [by apply read_le32_range|unfold SYSCALL_ARGUMENT_LENGTH; lia]|]. intros s Hs.
  destruct (Z.eqb_spec (fst s) 0) as [E0|]; cbn [negb]; [|done_here].
  destruct (c_string_terminated _ _ (Hs E0)) as (c & El & _ & [Hcs Hcb] & Hzl). rewrite El in *. unfold SYSCALL_ARGUMENT_LENGTH in *.
  eapply secure_bind; [by apply secure_buffer|]. intros l ->. rewrite bounded_length_string by (done || lia).
  destruct (_ || _); [done_here|]. apply secure_ret. cbn [fst snd]. split; [|lia]. split; [lia|]. apply Forall_app. split; [done|].
  apply Forall_singleton. assert (zlength (c ++ [0]) = zlength c + 1) as Ez by (unfold zlength; rewrite length_app; cbn; lia).
  rewrite (proj2 (Z.ltb_lt _ _)) by lia. rewrite take_app_le by (unfold zlength; lia). split; by apply Forall_take.
Qed.

Lemma spawn_arguments_secure p : word p ->
  secure (fun r => match r with Err st => True | Ok args => Forall path_ok args end) (spawn_arguments p).
Proof.
  intros Hp. unfold spawn_arguments.
  apply (secure_while _ (fun x => 0 <= fst (fst x) /\ Forall path_ok (snd x)) _ (fun x => Z.to_nat (16 - fst (fst x)))); [done|cbn; lia|].
  intros x [Hc Ha]. by apply argument_step_secure.
Qed.

Lemma syscall_spawn_secure p q : word p -> word q -> secure any (syscall_spawn FILE_TABLE sym p q).
Proof.
  intros Hp Hq. unfold syscall_spawn.
  apply (secure_bind _ (fun _ : bool => True)).
  { unfold andM. eapply secure_bind; [by apply (secure_ret _ (fun _ => True))|]. intros [] _; [|done_here].
    by apply secure_validate. }
  intros [] _; cbn [negb]; [|done_here]. apply on_path_secure; [done|]. intros path Hpath.
  eapply secure_bind; [by apply spawn_arguments_secure|]. intros [st|args] Hargs; [done_here|].
  eapply secure_bind; [by apply secure_stat, Hpath|]. intros [st|status] Hst; [done_here|].
  destruct (_ =? MINIFS_MODE_DIRECTORY); [done_here|]. destruct (_ =? 0); [done_here|].
  intros k Hk. apply wp_bind, wp_scheduler. destruct (processes_inv _ _ (ki_files _ _ Hk)) as [Hi Ht].
  eapply wp_mono; [by apply kmalloc_step|]. cbv beta. intros a s' [Hs Ha]. pose proof (next_step k s' Hk Hs) as Hn.
  destruct (Z.eqb_spec a 0) as [|Hne]; [by apply wp_ret|].
  eapply wp_mono; [apply spawn_file_ok; try done; [apply Hn|exact (Ha Hne)]|]. cbv beta. intros r k' Hn'.
  split; [|done]. by apply (next_trans _ _ _ _ Hn).
Qed.

(** *** Waiting, yielding, leaving *)

Lemma waitpid_step wanted s : -2147483648 <= wanted <= 2147483647 -> inv s -> tidy s ->
  wp (scheduler_waitpid wanted) s (fun r s' => inv s' /\ (r <> None -> proc_step s s')).
Proof.
  intros Hw Hi Ht. eapply wp_mono; [by apply waitpid_ok|]. cbv beta. intros r s' (Hi' & _ & Hpost). split; [done|]. intros Hr.
  destruct Hpost as [(_ & _ & ->)|(_ & i & p & Hc & Hp & Hcase)]; [by apply proc_step_refl|].
  destruct Hcase as [(j & c & Hcj & _ & Hz & _ & Et & _ & _ & _ & _ & Ecpu & _)|(_ & [(_ & -> & _)|[(_ & _ & p2 & (Hrun & Efd & Ecwd) & ->)|[-> _]]])].
  - split; [done| |done|].
    + eapply tidy_insert; [done|exact Hcj|exact Et| |done]. apply Forall_singleton. lia.
    + eapply slot_same; [exact Hcj|exact Et|]. symmetry. apply (Ht j c Hcj). by right.
  - by apply proc_step_refl.
  - split; [done| |done|by eapply slot_same]. eapply tidy_insert; [done|exact Hp|done| |].
    + rewrite Ecwd. by apply (Ht i p).
    + rewrite Hrun. by intros [?|?].
  - done.
Qed.

(** How a call may end. *)
Definition ended (frame : trap_frame) k (o : control) k' : Prop :=
  user_step (memory k) (memory k') /\
  match o with
  | Returned f => kernel_inv FILE_TABLE k' /\ exists r, f = set_eax (u32 r) frame
  | Switched => inv (processes (files k'))
  | Halted | PoweredOff => kernel_inv FILE_TABLE k'
  end.

Lemma ended_next frame k o k' : next FILE_TABLE k k' -> (forall f, o = Returned f -> exists r, f = set_eax (u32 r) frame) -> o <> Switched -> ended frame k o k'.
Proof. intros [Hk Hu] Hf Ho. split; [done|]. destruct o; try done. split; [done|by apply Hf]. Qed.

Lemma returned_ok frame (m : M K Z) k : secure any m -> kernel_inv FILE_TABLE k -> wpp exit_panic (returned frame m) k (ended frame k).
Proof.
  intros Hm Hk. apply wpp_wp. apply wp_bind. eapply wp_mono; [by apply Hm|]. cbv beta. intros r k' [Hn _]. apply wp_ret.
  apply ended_next; [done| |done]. intros f [= <-]. by exists r.
Qed.

Lemma away_ok frame away (m : M K (option Z)) k : wp m k (fun r k' => ended frame k (match r with Some _ => Halted | None => away end) k') ->
  wpp exit_panic (returned_or away frame m) k (ended frame k).
Proof.
  intros Hm. apply wpp_wp. apply wp_bind. eapply wp_mono; [exact Hm|]. cbv beta. intros [r|] k' Hr; apply wp_ret; [|done].
  destruct Hr as [Hu Hk]. split; [done|]. split; [done|by exists r].
Qed.

Lemma wpp_scheduler {A} Ex (m : M (sched E) A) k (Q : A -> K -> Prop) :
  wpp Ex m (processes (files k)) (fun r s' => Q r (set_vfs (with_processes s' (files k)) k)) -> wpp Ex (scheduler m) k Q.
Proof.
  unfold wpp, scheduler, zoom, on_cpu, lifted. cbn. change (Scheduler.set_cpu (cpu (files k)) (procs (files k))) with (processes (files k)).
  by destruct (m (processes (files k))).
Qed.

Lemma processes_after k s : kernel_inv FILE_TABLE k -> inv s -> inv (processes (files (set_vfs (with_processes s (files k)) k))).
Proof.
  intros Hk Hi. cbn. apply sched_set_cpu; [apply sched_set_cpu; [done|]|by apply inv_cpu].
  apply inv_cpu. by pose proof (vi_procs _ _ (ki_files _ _ Hk)) as (? & _).
Qed.

Lemma switching_ok {A} frame (m : M (sched E) A) (g : A -> option Z) k : kernel_inv FILE_TABLE k ->
  (forall s, inv s -> tidy s -> wp m s (fun r s' => inv s' /\ (g r <> None -> proc_step s s'))) ->
  wp (let! r := scheduler m in ret (g r)) k (fun r k' => ended frame k (match r with Some _ => Halted | None => Switched end) k').
Proof.
  intros Hk Hm. destruct (processes_inv _ _ (ki_files _ _ Hk)) as [Hi Ht]. apply wp_bind, wp_scheduler.
  eapply wp_mono; [by apply Hm|]. cbv beta. intros r s' [Hi' Hs]. apply wp_ret. destruct (g r) as [z|].
  - apply ended_next; [apply next_step; [done|by apply Hs]|intros f [=]|done].
  - split; [by apply user_step_refl, Hk|]. by apply processes_after.
Qed.

Lemma flag_off_ok k : kernel_inv FILE_TABLE k -> wp (cpu_flag Cpu.irq_save_disable) k (fun _ k' => next FILE_TABLE k k').
Proof.
  intros [H1 H2 H3]. apply wp_zoom, wp_zoom, Cpu.irq_save_disable_wp. split; [|by apply user_step_refl]. split; [done| |done].
  destruct H2 as [V1 V2 V3 V4 V5 V6]. split; try done. by apply Cpu.masked_wf.
Qed.

Lemma exit_ended frame code k : kernel_inv FILE_TABLE k ->
  wpp exit_panic (syscall_exit FILE_TABLE code ;; ret Switched) k (ended frame k).
Proof.
  intros Hk. apply wpp_bind. unfold syscall_exit. apply wpp_bind_wp. eapply wp_mono; [by apply flag_off_ok|]. cbv beta.
  intros _ k1 Hn1. apply wpp_bind_wp. eapply wp_mono; [apply (secure_call (Vfs.vfs_close_all_current FILE_TABLE)); [|apply Hn1]|].
  { intros s0 v Hv. eapply wp_mono; [exact (vfs_close_all_ok (Descriptors0 := strict s0) FILE_TABLE table_address v Hv)|]. by intros r v' [? _]. }
  cbv beta. intros [] k2 [Hn2 _]. destruct (processes_inv _ _ (ki_files _ _ (proj1 Hn2))) as [Hi Ht].
  apply wpp_scheduler. eapply wpp_mono; [by apply exit_ok|]. cbv beta. intros _ s' (Hi' & _). apply wpp_wp, wp_ret.
  split; [eapply user_step_trans; [apply Hn1|apply Hn2]|]. apply processes_after; [apply Hn2|done].
Qed.

Lemma yield_step s : inv s -> tidy s -> wp scheduler_yield s (fun kept s' => inv s' /\ ((if kept : bool then Some 0 else None) <> None -> proc_step s s')).
Proof.
  intros Hi Ht. eapply wp_mono; [by apply yield_ok|]. cbv beta. intros [] s' (Hi' & _ & Hs); (split; [done|]); [|by intros []].
  destruct Hs as [-> _]. intros _. by apply proc_step_refl.
Qed.

Lemma sleep_step ticks s : 0 <= ticks -> inv s -> tidy s -> wp (scheduler_sleep_current ticks) s (fun r s' => inv s' /\
  (match r with Some true => Some 0 | Some false => Some (- EINVAL) | None => None end <> None -> proc_step s s')).
Proof.
  intros H0 Hi Ht. eapply wp_mono; [by apply sleep_ok|]. cbv beta. intros r s' (Hi' & _ & Hs). split; [done|]. intros Hr.
  destruct r as [[]|]; [destruct Hs as [_ ->]|destruct Hs as [-> _]|done]; by apply proc_step_refl.
Qed.

Lemma current_pid_step s : inv s -> tidy s -> wp scheduler_current_pid s (fun _ s' => proc_step s s' /\ True).
Proof.
  intros Hi Ht. pose proof Hi as [(i & p & Hc & Hp & [Htok _ _ _] & _)]. unfold scheduler_current_pid. run. rewrite Hc.
  apply wp_bind. eapply wp_get; [apply Htok|exact Hp|]. run. split; [by apply proc_step_refl|done].
Qed.

Lemma syscall_waitpid_ok frame wanted p k : -2147483648 <= wanted <= 2147483647 -> word p -> kernel_inv FILE_TABLE k ->
  wp (syscall_waitpid wanted p) k (fun r k' => ended frame k (match r with Some _ => Halted | None => Switched end) k').
Proof.
  intros Hw Hp Hk. unfold syscall_waitpid. apply wp_bind.
  assert (secure any (andM (ret (negb (p =? 0))) (notM (zoom (validate_user_range p 4 USER_ACCESS_WRITE))))) as Hv.
  { unfold andM, notM. eapply secure_bind; [by apply (secure_ret _ (fun _ => True))|]. intros [] _; [|done_here].
    eapply secure_bind; [by apply secure_validate|]. intros b _. done_here. }
  assert (forall k1 k2, next FILE_TABLE k1 k2 -> ended frame k1 Halted k2) as Hend.
  { intros k1 k2 Hn. apply ended_next; [done|intros f [=]|done]. }
  eapply wp_mono; [by apply Hv|]. cbv beta. intros [] k1 [Hn1 _]; [apply wp_ret; by apply Hend|].
  apply wp_bind, wp_scheduler. destruct (processes_inv _ _ (ki_files _ _ (proj1 Hn1))) as [Hi Ht].
  eapply wp_mono; [by apply waitpid_step|]. cbv beta. intros [[result code]|] s' [Hi' Hs].
  - pose proof (next_trans _ _ _ _ Hn1 (next_step _ _ (proj1 Hn1) (Hs ltac:(done)))) as Hn2.
    destruct (_ && _); [|apply wp_ret; by apply Hend]. destruct (le32_ok code) as [Hb Hz]. apply wp_bind.
    eapply wp_mono; [apply (secure_store p (le32 code) 4); [done..|apply Hn2]|]. cbv beta. intros c k3 [Hn3 _]. apply wp_ret.
    apply Hend. by apply (next_trans _ _ _ _ Hn2).
  - apply wp_ret. split; [apply Hn1|]. by apply processes_after; [apply Hn1|].
Qed.


End safe.
End SyscallSafe.
