(* ===== verification/SyscallFiles.v ===== *)
(** * System calls: what a process writes and reads

    [syscall_write] to the console prints exactly the bytes the process points
    to; through a descriptor the bytes go from user memory in chunks to the
    blocks of the MiniFS volume, and [syscall_read] brings them back to user
    memory. *)

From S2P Require Import Prelude Monad Interfaces Bytes Cpu Block MiniFs MiniFsSafe MiniFsSpec MiniFsDisk MiniFsFiles MiniFsWrite Path Keyboard Vmm Usercopy UsercopySpec Elf Scheduler SchedulerInv Spawn Vfs VfsSpec VfsKernel VfsRoundtrip Syscall SyscallBase SyscallSafe.

Module SyscallFiles.
Import Block MiniFs MiniFsSafe MiniFsSpec MiniFsDisk MiniFsFiles MiniFsWrite VfsKernel Usercopy UsercopySpec Vfs VfsSpec VfsRoundtrip Syscall SyscallBase SyscallSafe.

(** ** Ranges of user memory *)

Section ranges.
Context {F : Type} `{!FrameAllocator F}.
Implicit Types u : Vmm.state F.

Lemma user_bytes_app u p a c : 0 <= a -> 0 <= c -> user_bytes u p (a + c) = user_bytes u p a ++ user_bytes u (p + a) c.
Proof.
  intros Ha Hc. unfold user_bytes. rewrite seqZ_app, map_app by lia. f_equal. rewrite Z.add_0_l.
  replace (seqZ a c) with (Z.add a <$> seqZ 0 c) by (rewrite fmap_add_seqZ; f_equal; lia).
  change (Z.add a <$> seqZ 0 c) with (map (Z.add a) (seqZ 0 c)). rewrite map_map. apply map_ext. intros i. by rewrite Z.add_assoc.
Qed.

Lemma take_user_bytes u p a n : 0 <= a <= n -> take (Z.to_nat a) (user_bytes u p n) = user_bytes u p a.
Proof.
  intros Ha. replace n with (a + (n - a)) by lia. rewrite user_bytes_app by lia.
  apply take_app_length'. unfold user_bytes. by rewrite length_map, length_seqZ.
Qed.

Lemma slice_user_bytes u p o c n : 0 <= o -> 0 <= c -> o + c <= n -> slice (user_bytes u p n) o c = user_bytes u (p + o) c.
Proof.
  intros Ho Hc Hn. replace n with (o + (c + (n - o - c))) by lia. rewrite !user_bytes_app by lia. unfold slice.
  rewrite drop_app_length' by (unfold user_bytes; by rewrite length_map, length_seqZ).
  apply take_app_length'. unfold user_bytes. by rewrite length_map, length_seqZ.
Qed.

Lemma user_range_part u access p n o c : user_range u access p n -> 0 <= o -> 0 <= c -> o + c <= n -> user_range u access (p + o) c.
Proof. intros [->|H] Ho Hc Hn; [left; lia|]. right. intros a Ha. apply H. lia. Qed.

Lemma wrote_app u p l1 u1 l2 u2 : wrote u p l1 u1 -> wrote u1 (p + zlength l1) l2 u2 -> wrote u p (l1 ++ l2) u2.
Proof.
  intros [S1 B1] [S2 B2]. split; [by eapply user_step_trans|]. intros a Ha.
  rewrite B2 by (by apply (step_can u u1 _ _ S1)). rewrite B1 by done.
  unfold zlength, byte_at. rewrite length_app, Nat2Z.inj_add.
  destruct (Z.leb_spec p a), (Z.ltb_spec a (p + Z.of_nat (length l1))), (Z.leb_spec (p + Z.of_nat (length l1)) a),
    (Z.ltb_spec a (p + Z.of_nat (length l1) + Z.of_nat (length l2))), (Z.ltb_spec a (p + (Z.of_nat (length l1) + Z.of_nat (length l2))));
    cbn [andb]; try lia; try done.
  - by rewrite lookup_app_l by lia.
  - rewrite lookup_app_r by lia. f_equal. f_equal. lia.
Qed.

Lemma wrote_range u p l u' access a n : wrote u p l u' -> user_range u access a n -> user_range u' access a n.
Proof. intros [S1 _] [->|H]; [by left|]. right. intros x Hx. apply (step_can u u' _ _ S1). by apply H. Qed.

End ranges.

(** ** The console *)

Section console.
Context {F : Type} `{!FrameAllocator F} {FS : Type} `{!FileSystem FS} {E : Type} `{!Services E}.
Context {D : Type} `{!Ports D} (FILE_TABLE : Z).
Abbreviation K := (kernel F FS E D).
Implicit Types k : K.

(** [k] after printing [l]. *)
Definition printed l k : K := set_console (console k ++ l) k.

Lemma put_chunk_ok (buffer : list Z) k :
  wp (for_range (Z.to_nat (zlength buffer)) 0 (fun index => let! c := access (buffer !! Z.to_nat index) in console_putc c)) k
    (fun _ k' => k' = printed buffer k).
Proof.
  apply (wp_for_range (fun i k' => k' = printed (take (Z.to_nat i) buffer) k)).
  - unfold printed. cbn. rewrite app_nil_r. by destruct k.
  - intros i k' Hi ->. destruct (lookup_lt_is_Some_2 buffer (Z.to_nat i)) as [c Hc]; [unfold zlength in *; lia|].
    apply wp_bind. eapply wp_access; [exact Hc|]. apply wp_modify. unfold printed. cbn. rewrite <-app_assoc.
    replace (Z.to_nat (i + 1)) with (S (Z.to_nat i)) by lia. by rewrite (take_S_r _ _ c).
  - intros k' ->. by rewrite take_ge by (unfold zlength; lia).
Qed.

Lemma copy_chunk k p n o c (Q : Z * list Z -> K -> Prop) : user_ok (memory k) -> user_range (memory k) USER_ACCESS_READ p n ->
  0 <= o -> 0 < c -> o + c <= n -> Q (0, user_bytes (memory k) (p + o) c) k -> wp (zoom (copy_from_user true (p +u o) c)) k Q.
Proof.
  intros Hu Hr Ho Hc Hn HQ. destruct (range_bounds _ _ _ _ Hr) as [B1 B2]; [lia|]. unfold Vmm.KERNEL_BASE in B2.
  rewrite u32_id by lia. apply wp_zoom. eapply wp_mono; [apply copy_from_ok; [done|lia..]|]. cbv beta. intros r u (-> & Hy & _).
  rewrite Hy; [by destruct k|]. right. split; [done|]. eapply user_range_part; [exact Hr|lia..].
Qed.

(** C24. What a process writes to descriptor 1 or 2 is printed exactly:
    [syscall_write] appends the bytes in its memory to the console, in order, and
    returns their number; more than 4096 bytes are refused with EINVAL and memory
    the process may not read with EFAULT, and then nothing is printed. Nothing
    else of the state changes. *)
Theorem console_write_exact k d p n :
  user_ok (memory k) -> d = 1 \/ d = 2 -> word p -> word n ->
  wp (syscall_write FILE_TABLE d p n) k (fun r k' =>
    (n <= 4096 /\ user_range (memory k) USER_ACCESS_READ p n /\ r = n /\ k' = printed (user_bytes (memory k) p n) k) \/
    (n <= 4096 /\ ~ user_range (memory k) USER_ACCESS_READ p n /\ r = - EFAULT /\ k' = k) \/
    (4096 < n /\ r = - EINVAL /\ k' = k)).
Proof.
  intros Hu Hd Hp Hn. unfold syscall_write, Scheduler.PROCESS_FD_LIMIT, SYSCALL_WRITE_MAX.
  rewrite (proj2 (Z.eqb_neq d 0)), (proj2 (Z.leb_gt 16 d)) by lia. cbn [orb].
  destruct (Z.ltb_spec 4096 n) as [Hbig|Hmax]; [apply wp_ret; right; by right|].
  apply wp_bind, wp_zoom. eapply wp_mono; [by apply (validate_ok (memory k) p n USER_ACCESS_READ)|]. cbv beta. intros v u [-> Hv].
  replace (lset (memory k) k) with k by (by destruct k). destruct v; cbn [negb].
  2:{ apply wp_ret. right. left. split; [done|]. split; [|done]. intros Hr. by apply Hv in Hr. }
  pose proof (proj1 Hv eq_refl) as Hr.
  apply (wp_while (fun o k' => 0 <= o <= n /\ k' = printed (user_bytes (memory k) p o) k) (fun o _ => rounds n o)).
  - split; [unfold word in Hn; lia|]. unfold printed. cbn. rewrite app_nil_r. by destruct k.
  - by apply rounds_start.
  - intros o k' [Ho ->]. unfold write_chunk. destruct (Z.ltb_spec o n); cbn [negb].
    2:{ apply wp_ret. left. assert (o = n) as -> by lia. done. }
    destruct (chunk_range n o) as (C1 & C2 & C3); [lia|done|]. cbv zeta.
    set (chunk := if SYSCALL_WRITE_BUFFER_SIZE <? n - o then _ else _) in *.
    apply wp_bind. eapply (copy_chunk (printed _ k) p n); [done|done|lia..|]. cbn [fst snd negb Z.eqb].
    change (memory (printed _ k)) with (memory k).
    rewrite within_buffer_fits by (rewrite zlength_user_bytes by lia; unfold SYSCALL_WRITE_BUFFER_SIZE; lia). apply wp_bind, wp_ret.
    assert ((d =? 1) || (d =? 2) = true) as -> by (destruct Hd as [-> | ->]; done).
    apply wp_bind, wp_bind. rewrite <-(zlength_user_bytes (memory k) (p + o) chunk) at 1 by lia.
    eapply wp_mono; [apply put_chunk_ok|]. cbv beta. intros _ k' ->. apply wp_ret.
    rewrite (proj2 (Z.ltb_ge chunk 0)), Z.ltb_irrefl by lia. apply wp_ret. split; [|apply (rounds_less n o chunk); lia].
    split; [lia|]. unfold printed. cbn. by rewrite user_bytes_app, app_assoc by lia.
Qed.

End console.

(** ** Files *)

Section files.
Context {F : Type} `{!FrameAllocator F} {B : Type} `{!BlockDevice B} {E : Type} `{!Services E}.
Context {D : Type} `{!Ports D}.
Context (start count : Z) (b : superblock) (FILE_TABLE : Z).
Hypothesis volume_range : 0 <= start /\ 0 <= count /\ start + count < 4294967296.
Hypothesis geo : geometry count b.
Hypothesis table_address : 0 < FILE_TABLE.

#[local] Instance volume_system : FileSystem (fs B) := minifs_system start count.

Abbreviation K := (kernel F (fs B) E D).
Abbreviation volume := (volume start count b).
Implicit Types (k : K) (d : disk) (f : vfs_file).

(** Descriptor [descriptor] of the running process is entry [slot] of the
    open-file table, which is open for reading and writing; the file has the
    inode [i] on the volume [d], and its offset is inside the file. *)
Record open_at k (descriptor : Z) (slot : nat) f i d : Prop := {
  oa_inv : vfs_inv FILE_TABLE (files k);
  oa_slot : reads_and_writes FILE_TABLE (files k) descriptor slot f;
  oa_volume : volume (fsys (files k)) d;
  oa_consistent : consistent b d;
  oa_number : 0 <= inode_number f;
  oa_inode : inode_at b d (inode_number f) = Ok i;
  oa_regular : mode i = MINIFS_MODE_REGULAR;
  oa_offset : 0 <= offset f <= size i
}.

Lemma now_now (v : vfs (fs B) (Scheduler.sched E)) slot f x o x' o' : now (now v slot f x o) slot (set_offset o f) x' o' = now v slot f x' o'.
Proof. unfold now. cbn. rewrite list_insert_insert_eq. by destruct v. Qed.

Lemma descriptor_range k descriptor slot f i d : open_at k descriptor slot f i d -> 3 <= descriptor < 16.
Proof.
  intros H. pose proof (oa_inv _ _ _ _ _ _ H) as Hv. pose proof (rw_slot _ _ _ _ _ (oa_slot _ _ _ _ _ _ H)) as Hs.
  eapply fdt_slot_range; [apply (vi_procs _ _ Hv)|]. rewrite Hs. unfold handle_of, VFS_FILE_SIZE. lia.
Qed.

(** The state after a transfer that leaves the file at [o]. *)
Definition moved_to k slot f x o : K := set_vfs (now (files k) slot f x o) k.

Lemma small_offset o : 0 <= o <= MINIFS_MAX_FILE_SIZE -> 0 <= o < 4294967296.
Proof. unfold MINIFS_MAX_FILE_SIZE, MINIFS_MAX_FILE_BLOCKS, MINIFS_BLOCK_SIZE. lia. Qed.

Lemma moved_open k descriptor slot f i d x d' i' o : open_at k descriptor slot f i d -> volume x d' -> consistent b d' ->
  inode_at b d' (inode_number f) = Ok i' -> mode i' = MINIFS_MODE_REGULAR -> 0 <= o <= size i' -> o <= MINIFS_MAX_FILE_SIZE ->
  open_at (moved_to k slot f x o) descriptor slot (set_offset o f) i' d'.
Proof.
  intros [H1 H2 H3 H4 H5 H6 H7 H8] Hx Hc Hi Hm Ho Hmax.
  destruct (now_inv start count FILE_TABLE (files k) descriptor slot f x o) as [N1 N2];
    [done|done|apply (vol_disk _ _ _ _ _ Hx)|apply small_offset; lia|].
  by split.
Qed.

(** [j] bytes of the data are in the file; [j] is the result, or there was no
    room for the first one. *)
Definition stored k slot f i d (source : list Z) (r : Z) k' : Prop := exists j i' d' x,
  0 <= j <= zlength source /\ chunk_done b d (inode_number f) i (offset f) (take (Z.to_nat j) source) d' i' /\
  (r = j \/ r = - ENOSPC /\ j = 0) /\ volume x d' /\ k' = moved_to k slot f x (offset f + j).

Lemma open_size k descriptor slot f i d : open_at k descriptor slot f i d -> 0 <= size i <= MINIFS_MAX_FILE_SIZE.
Proof.
  intros [_ _ H3 _ H5 H6 _ _]. pose proof (vol_disk _ _ _ _ _ H3) as Hd.
  destruct (inode_at_ok start count b volume_range geo _ d i (od_blk _ _ _ _ d Hd) H5 H6) as (Hok & _). apply (inode_size i Hok).
Qed.

(** The file after the first [o] bytes. *)
Lemma stored_open k descriptor slot f i d source o i' d' x : open_at k descriptor slot f i d -> 0 <= o <= zlength source ->
  offset f + zlength source <= MINIFS_MAX_FILE_SIZE ->
  chunk_done b d (inode_number f) i (offset f) (take (Z.to_nat o) source) d' i' -> volume x d' ->
  open_at (moved_to k slot f x (offset f + o)) descriptor slot (set_offset (offset f + o) f) i' d'.
Proof.
  intros Hk Ho Hlim Hc Hx. pose proof (open_size _ _ _ _ _ _ Hk) as Hsz. destruct Hk as [H1 H2 H3 H4 H5 H6 H7 H8] eqn:Ek.
  assert (zlength (take (Z.to_nat o) source) = o) as Hl by (unfold zlength in *; rewrite length_take; lia).
  destruct (inode_at_ok start count b volume_range geo _ d' i' (od_blk _ _ _ _ d' (vol_disk _ _ _ _ _ Hx)) H5 (cd_inode _ _ _ _ _ _ _ _ Hc)) as (Hok & _).
  pose proof (chunk_done_size b d _ i (offset f) _ d' i' ltac:(lia) (proj1 (inode_size i' Hok)) H8 Hc) as Hs. rewrite Hl in Hs.
  eapply moved_open; [exact Hk|done|apply Hc|apply Hc|destruct (cd_mode _ _ _ _ _ _ _ _ Hc) as [-> _]; done|lia|lia].
Qed.

Lemma write_chunk_file k descriptor slot f i d p n o i' d' x :
  user_ok (memory k) -> open_at k descriptor slot f i d -> word p -> n <= 4096 -> user_range (memory k) USER_ACCESS_READ p n ->
  offset f + n <= MINIFS_MAX_FILE_SIZE -> 0 <= o <= n ->
  chunk_done b d (inode_number f) i (offset f) (user_bytes (memory k) p o) d' i' -> volume x d' ->
  wp (write_chunk FILE_TABLE descriptor p n o) (moved_to k slot f x (offset f + o)) (fun r k' => match r with
    | inl o' => (rounds n o' < rounds n o)%nat /\ 0 <= o' <= n /\ exists i2 d2 x2, chunk_done b d (inode_number f) i (offset f) (user_bytes (memory k) p o') d2 i2 /\
        volume x2 d2 /\ k' = moved_to k slot f x2 (offset f + o')
    | inr r => stored k slot f i d (user_bytes (memory k) p n) r k' end).
Proof.
  intros Hu Hk Hp Hn Hr Hlim Ho Hc Hx. pose proof (descriptor_range _ _ _ _ _ _ Hk) as Hd. pose proof (open_size _ _ _ _ _ _ Hk) as Hsz.
  pose proof (oa_offset _ _ _ _ _ _ Hk) as Hoff.
  assert (zlength (user_bytes (memory k) p n) = n) as Hzn by (apply zlength_user_bytes; lia).
  assert (forall j, 0 <= j <= n -> take (Z.to_nat j) (user_bytes (memory k) p n) = user_bytes (memory k) p j) as Htk by (intros; by apply take_user_bytes).
  unfold write_chunk. destruct (Z.ltb_spec o n); cbn [negb].
  2:{ apply wp_ret. exists o, i', d', x. rewrite Htk, Hzn by lia. by auto. }
  destruct (chunk_range n o) as (C1 & C2 & C3); [lia|done|]. cbv zeta.
  set (chunk := if SYSCALL_WRITE_BUFFER_SIZE <? n - o then _ else _) in *.
  apply wp_bind. eapply (copy_chunk (moved_to k slot f x _) p n); [done|done|lia..|]. cbn [fst snd negb Z.eqb].
  change (memory (moved_to _ _ _ _ _)) with (memory k).
  rewrite within_buffer_fits by (rewrite zlength_user_bytes by lia; unfold SYSCALL_WRITE_BUFFER_SIZE; lia). apply wp_bind, wp_ret.
  rewrite (proj2 (Z.eqb_neq descriptor 1)), (proj2 (Z.eqb_neq descriptor 2)) by lia. cbn [orb]. apply wp_bind, wp_zoom.
  assert (open_at (moved_to k slot f x (offset f + o)) descriptor slot (set_offset (offset f + o) f) i' d') as Hk'.
  { eapply (stored_open k descriptor slot f i d (user_bytes (memory k) p n)); try done; rewrite ?Hzn; [lia|done|]. by rewrite Htk by lia. }
  destruct Hk' as [V1 V2 V3 V4 V5 V6 V7 V8].
  eapply wp_mono; [apply (vfs_write_volume start count b FILE_TABLE volume_range geo table_address _ descriptor slot (set_offset (offset f + o) f) i' d');
    try done; [apply bytes_user_bytes|rewrite zlength_user_bytes by lia; cbn; lia]|]. cbv beta.
  intros r v' (d2 & x2 & (j & i2 & Hj & Hdone & Hres & _) & Hx2 & ->). rewrite zlength_user_bytes in Hj by lia.
  change (lget (moved_to k slot f x (offset f + o))) with (now (files k) slot f x (offset f + o)). rewrite now_now.
  change (lset (now (files k) slot f x2 ?o2) _) with (moved_to k slot f x2 o2).
  assert (chunk_done b d (inode_number f) i (offset f) (user_bytes (memory k) p (o + j)) d2 i2) as Hall.
  { rewrite user_bytes_app by lia. rewrite take_user_bytes in Hdone by lia. eapply chunk_done_app; [lia|apply Hk|done|].
    by rewrite zlength_user_bytes by lia. }
  set (total := user_bytes (memory k) p n) in *.
  destruct Hres as [[-> Hpos]|[-> ->]].
  - rewrite (proj2 (Z.ltb_ge j 0)) by lia. rewrite behind_id by (cbn; lia). cbn [offset set_offset]. rewrite <-Z.add_assoc.
    destruct (Z.ltb_spec j chunk); apply wp_ret.
    + exists (o + j), i2, d2, x2. rewrite Hzn, Htk by lia. split; [lia|]. by auto.
    + assert (j = chunk) as -> by lia. split; [apply (rounds_less n o chunk); lia|]. split; [lia|]. by exists i2, d2, x2.
  - change (- ENOSPC <? 0) with true. apply wp_ret. unfold behind. change (0 <? - ENOSPC) with false. cbn [offset set_offset]. rewrite Z.add_0_r in Hall.
    exists o, i2, d2, x2. rewrite Hzn, Htk by lia. split; [lia|]. split; [done|]. split; [|done].
    destruct (Z.eqb_spec o 0) as [->|]; [by right|by left].
Qed.

Lemma syscall_write_file k descriptor slot f i d p n :
  user_ok (memory k) -> open_at k descriptor slot f i d -> word p -> 0 <= n <= 4096 -> user_range (memory k) USER_ACCESS_READ p n ->
  offset f + n <= MINIFS_MAX_FILE_SIZE ->
  wp (syscall_write FILE_TABLE descriptor p n) k (stored k slot f i d (user_bytes (memory k) p n)).
Proof.
  intros Hu Hk Hp Hn Hr Hlim. pose proof (descriptor_range _ _ _ _ _ _ Hk) as Hd.
  unfold syscall_write, Scheduler.PROCESS_FD_LIMIT, SYSCALL_WRITE_MAX.
  rewrite (proj2 (Z.eqb_neq descriptor 0)), (proj2 (Z.leb_gt 16 descriptor)), (proj2 (Z.ltb_ge 4096 n)) by lia. cbn [orb].
  apply wp_bind, wp_zoom. eapply wp_mono; [apply (validate_ok (memory k) p n USER_ACCESS_READ); [done|done|unfold word; lia]|].
  cbv beta. intros v u [-> Hv]. rewrite (proj2 Hv Hr). cbn [negb].
  apply (wp_while (fun o k' => 0 <= o <= n /\ exists i2 d2 x2, chunk_done b d (inode_number f) i (offset f) (user_bytes (memory k) p o) d2 i2 /\
    volume x2 d2 /\ k' = moved_to k slot f x2 (offset f + o)) (fun o _ => rounds n o)).
  - split; [lia|]. exists i, d, (fsys (files k)). split; [apply chunk_done_nil; apply Hk|]. split; [apply Hk|].
    rewrite Z.add_0_r. unfold moved_to. rewrite <-(now_same _ _ _ _ _ _ (oa_slot _ _ _ _ _ _ Hk)). destruct k as [m [] kb c]. done.
  - apply rounds_start. lia.
  - intros o k' (Ho & i2 & d2 & x2 & Hc & Hx & ->).
    eapply wp_mono; [apply (write_chunk_file k descriptor slot f i d p n o i2 d2 x2); done || lia|]. cbv beta.
    intros [o'|r] k'; [|done]. intros (Hm & Ho' & Hrest). by split.
Qed.

(** The bytes of the file from the offset on. *)
Definition fetched k slot f d (q : Z) (data : list Z) k' : Prop := exists x m,
  volume x d /\ wrote (memory k) q data m /\ k' = set_memory m (moved_to k slot f x (offset f + zlength data)).

Lemma slice_slice_app (l : list Z) o a c : 0 <= o -> 0 <= a -> 0 <= c -> slice l o (a + c) = slice l o a ++ slice l (o + a) c.
Proof.
  intros Ho Ha Hc. unfold slice. replace (Z.to_nat (o + a)) with (Z.to_nat o + Z.to_nat a)%nat by lia.
  rewrite <-drop_drop. rewrite take_take_drop. f_equal. lia.
Qed.

Lemma slice_bound (l : list Z) o n : 0 <= n -> zlength (slice l o n) <= n.
Proof. intros Hn. unfold zlength, slice. rewrite length_take. lia. Qed.

(** A read that stops early has reached the end. *)
Lemma slice_short (l : list Z) o a n : 0 <= o -> 0 <= a <= n -> zlength (slice l o a) < a -> slice l o n = slice l o a.
Proof.
  intros Ho Ha Hs. unfold slice, zlength in *. rewrite length_take, length_drop in Hs.
  rewrite !take_ge by (rewrite length_drop; lia). done.
Qed.

Lemma bytes_content d i : (forall p, 0 <= p < count -> blk (d p)) -> file_ok b d i -> bytes (content d i).
Proof.
  intros Hd Hf. apply Forall_forall. intros z Hz. apply list_elem_of_fmap in Hz as (o & -> & Ho). apply elem_of_seqZ in Ho.
  apply byte_at_range. apply Hd, (data_block_range start count b volume_range geo). eapply fo_used; [done|]. left.
  exists (o / 4096). split; [apply offset_block; lia|done].
Qed.

Lemma read_chunk_file k descriptor slot f i d q n o x m :
  user_ok (memory k) -> open_at k descriptor slot f i d -> word q -> n <= 4096 -> user_range (memory k) USER_ACCESS_WRITE q n -> 0 <= o <= n ->
  zlength (slice (content d i) (offset f) o) = o ->
  volume x d -> wrote (memory k) q (slice (content d i) (offset f) o) m ->
  wp (read_chunk FILE_TABLE descriptor q n o) (set_memory m (moved_to k slot f x (offset f + o))) (fun r k' => match r with
    | inl o' => (rounds n o' < rounds n o)%nat /\ 0 <= o' <= n /\ zlength (slice (content d i) (offset f) o') = o' /\
        exists x2 m2, volume x2 d /\ wrote (memory k) q (slice (content d i) (offset f) o') m2 /\ k' = set_memory m2 (moved_to k slot f x2 (offset f + o'))
    | inr r => r = zlength (slice (content d i) (offset f) n) /\ fetched k slot f d q (slice (content d i) (offset f) n) k' end).
Proof.
  intros Hu Hk Hq Hn Hr Ho Hz Hx Hw. pose proof (oa_offset _ _ _ _ _ _ Hk) as Hoff. pose proof (open_size _ _ _ _ _ _ Hk) as Hsz.
  assert (file_ok b d i) as Hfo by (eapply (con_file _ _ (oa_consistent _ _ _ _ _ _ Hk) (inode_number f)); apply Hk).
  set (file := content d i) in *. assert (bytes file) as Hfb.
  { apply bytes_content; [|done]. apply (od_blk _ _ _ _ d (vol_disk _ _ _ _ _ Hx)). }
  assert (zlength file = size i) as Hfz by (apply zlength_content; lia).
  unfold read_chunk. destruct (Z.ltb_spec o n); cbn [negb].
  2:{ apply wp_ret. assert (o = n) as -> by lia. split; [done|]. exists x, m. by rewrite Hz. }
  destruct (chunk_range n o) as (C1 & C2 & C3); [lia|done|]. cbv zeta.
  set (chunk := if SYSCALL_WRITE_BUFFER_SIZE <? n - o then _ else _) in *.
  assert (o <= size i - offset f) as Hos.
  { unfold zlength, slice in Hz. rewrite length_take, length_drop in Hz. unfold zlength in Hfz. lia. }
  assert (open_at (moved_to k slot f x (offset f + o)) descriptor slot (set_offset (offset f + o) f) i d) as Hk'.
  { eapply moved_open; try done; try apply Hk; lia. }
  destruct Hk' as [V1 V2 V3 V4 V5 V6 V7 V8]. apply wp_bind, wp_zoom.
  eapply wp_mono; [apply (vfs_read_volume start count b FILE_TABLE volume_range geo table_address _ descriptor slot (set_offset (offset f + o) f) i d chunk);
    try done; cbn; lia|]. cbv beta. intros r v' (x2 & -> & Hx2 & ->). cbn [fst snd offset set_offset]. fold file.
  set (data := slice file (offset f + o) chunk).
  assert (bytes data) as Hdb by (by apply bytes_slice). assert (zlength data <= chunk) as Hdz by (by apply slice_bound; lia).
  change (lget (set_memory m (moved_to k slot f x (offset f + o)))) with (now (files k) slot f x (offset f + o)). rewrite now_now.
  rewrite within_buffer_fits by (unfold SYSCALL_WRITE_BUFFER_SIZE; lia). apply wp_bind, wp_ret.
  assert (0 <= zlength data) as Hd0 by (unfold zlength; lia). rewrite (proj2 (Z.ltb_ge (zlength data) 0)) by lia.
  assert (zlength (slice file (offset f) n) <= size i - offset f) as Hall.
  { unfold zlength, slice. rewrite length_take, length_drop. unfold zlength in Hfz. lia. }
  assert (slice file (offset f) (o + chunk) = slice file (offset f) o ++ data) as Happ by (apply slice_slice_app; lia).
  assert (zlength (slice file (offset f) (o + chunk)) = o + zlength data) as Hzapp.
  { rewrite Happ. unfold zlength in *. rewrite length_app. lia. }
  assert (zlength data < chunk -> slice file (offset f) n = slice file (offset f) o ++ data) as Hshort.
  { intros Hs. rewrite <-Happ. apply slice_short; [lia|lia|]. rewrite Hzapp. lia. }
  assert (zlength (slice file (offset f) (o + chunk)) <= size i - offset f) as Hlim.
  { unfold zlength, slice. rewrite length_take, length_drop. unfold zlength in Hfz. lia. }
  rewrite behind_id by (cbn; lia). cbn [offset set_offset]. rewrite <-Z.add_assoc.
  destruct (Z.eqb_spec (zlength data) 0) as [E0|Hne].
  { apply wp_ret. assert (data = []) as Ed by (unfold zlength in E0; by apply nil_length_inv; lia).
    rewrite Hshort by lia. rewrite Ed, app_nil_r. split; [done|]. exists x2, m. rewrite Hz. split; [done|]. split; [done|]. change (zlength (@nil Z)) with 0. by rewrite Z.add_0_r. }
  destruct (range_bounds _ _ _ _ Hr) as [B1 B2]; [lia|]. unfold Vmm.KERNEL_BASE in B2. rewrite (u32_id (q + o)) by lia.
  apply wp_bind, wp_zoom. change (lget _) with m.
  eapply wp_mono; [apply (copy_to_ok m (q + o) data); [apply Hw|lia|lia|done]|]. cbv beta. intros c m2 Hc.
  destruct Hc as [(-> & _ & Hw2)|(_ & _ & Hno)].
  2:{ destruct Hno. eapply wrote_range; [exact Hw|]. eapply user_range_part; [exact Hr|lia..]. }
  cbn [negb Z.eqb]. change (lset m2 _) with (set_memory m2 (moved_to k slot f x2 (offset f + (o + zlength data)))).
  assert (wrote (memory k) q (slice file (offset f) o ++ data) m2) as Hw3 by (eapply wrote_app; [exact Hw|by rewrite Hz]).
  destruct (Z.ltb_spec (zlength data) chunk) as [Hs|Hs]; apply wp_ret.
  - rewrite Hshort by done. assert (zlength (slice file (offset f) o ++ data) = o + zlength data) as Ez by (by rewrite <-Happ).
    rewrite Ez. split; [done|]. exists x2, m2. by rewrite Ez.
  - assert (zlength data = chunk) as Ez by lia. rewrite Ez in *. split; [apply (rounds_less n o chunk); lia|]. split; [lia|]. split; [done|].
    exists x2, m2. rewrite Happ. done.
Qed.

Lemma syscall_read_file k descriptor slot f i d q n :
  user_ok (memory k) -> open_at k descriptor slot f i d -> word q -> 0 <= n <= 4096 -> user_range (memory k) USER_ACCESS_WRITE q n ->
  wp (syscall_read FILE_TABLE descriptor q n) k (fun r k' => let data := slice (content d i) (offset f) n in
    r = Some (zlength data) /\ fetched k slot f d q data k').
Proof.
  intros Hu Hk Hq Hn Hr. pose proof (descriptor_range _ _ _ _ _ _ Hk) as Hd. pose proof (oa_offset _ _ _ _ _ _ Hk) as Hoff.
  unfold syscall_read, Scheduler.PROCESS_FD_LIMIT, SYSCALL_WRITE_MAX.
  rewrite (proj2 (Z.eqb_neq descriptor 1)), (proj2 (Z.eqb_neq descriptor 2)), (proj2 (Z.leb_gt 16 descriptor)), (proj2 (Z.ltb_ge 4096 n)) by lia. cbn [orb].
  apply wp_bind, wp_zoom. eapply wp_mono; [apply (validate_ok (memory k) q n USER_ACCESS_WRITE); [done|done|unfold word; lia]|].
  cbv beta. intros v u [-> Hv]. rewrite (proj2 Hv Hr). cbn [negb].
  assert (lset (memory k) k = set_memory (memory k) (moved_to k slot f (fsys (files k)) (offset f + 0))) as ->.
  { rewrite Z.add_0_r. unfold moved_to. rewrite <-(now_same _ _ _ _ _ _ (oa_slot _ _ _ _ _ _ Hk)). by destruct k as [m [] kb c]. }
  destruct (Z.eqb_spec n 0) as [->|Hn0].
  { apply wp_ret. change (slice (content d i) (offset f) 0) with (@nil Z). cbv zeta. split; [done|].
    exists (fsys (files k)), (memory k). split; [apply Hk|]. split; [by apply wrote_nil|done]. }
  rewrite (proj2 (Z.eqb_neq descriptor 0)) by lia. apply wp_bind.
  apply (wp_while (fun o k' => 0 <= o <= n /\ zlength (slice (content d i) (offset f) o) = o /\ exists x m, volume x d /\
    wrote (memory k) q (slice (content d i) (offset f) o) m /\ k' = set_memory m (moved_to k slot f x (offset f + o))) (fun o _ => rounds n o)).
  - split; [lia|]. split; [done|]. exists (fsys (files k)), (memory k). split; [apply Hk|]. split; [by apply wrote_nil|done].
  - apply rounds_start. lia.
  - intros o k' (Ho & Hz & x & m & Hx & Hw & ->).
    eapply wp_mono; [apply (read_chunk_file k descriptor slot f i d q n o x m); done || lia|]. cbv beta.
    intros [o'|r] k'; [intros (Hm & Ho' & Hz' & Hrest); by split|]. intros [-> Hf]. by apply wp_ret.
Qed.

(** C3. What a process writes to a file it reads back, from memory to memory:
    [syscall_write] takes the bytes at [p], in chunks of 128, through the
    descriptor and the open-file table to the blocks of the volume; after seeking
    back, [syscall_read] stores exactly the bytes that were written at [q] and
    returns their number. Nothing else in the memory of the process changes, no
    memory of the kernel or of others does, and nothing is printed. When not even
    one byte fits the volume, the call says ENOSPC. *)
Theorem syscall_file_roundtrip k descriptor slot f i d p q n :
  user_ok (memory k) -> open_at k descriptor slot f i d -> word p -> word q -> 0 <= n <= 4096 ->
  user_range (memory k) USER_ACCESS_READ p n -> user_range (memory k) USER_ACCESS_WRITE q n ->
  offset f + n <= MINIFS_MAX_FILE_SIZE ->
  wp (let! w := syscall_write FILE_TABLE descriptor p n in
      if w <? 0 then ret (w, None) else
      let! _ := zoom (vfs_lseek FILE_TABLE descriptor (- w) MINIOS_SEEK_CUR) in
      let! r := syscall_read FILE_TABLE descriptor q w in ret (w, r)) k (fun '(w, r) k' =>
    console k' = console k /\ keyboard k' = keyboard k /\
    (w = - ENOSPC /\ r = None /\ memory k' = memory k \/
     0 <= w <= n /\ r = Some w /\ wrote (memory k) q (user_bytes (memory k) p w) (memory k'))).
Proof.
  intros Hu Hk Hp Hq Hn Hrp Hrq Hlim. pose proof (oa_offset _ _ _ _ _ _ Hk) as Hoff. pose proof (open_size _ _ _ _ _ _ Hk) as Hsz.
  assert (zlength (user_bytes (memory k) p n) = n) as Hzn by (apply zlength_user_bytes; lia).
  apply wp_bind. eapply wp_mono; [by apply (syscall_write_file k descriptor slot f i d p n)|]. cbv beta.
  intros w k1 (j & i1 & d1 & x1 & Hj & Hdone & Hw & Hx1 & ->). rewrite Hzn in Hj.
  destruct Hw as [-> |[-> ->]]; [|change (- ENOSPC <? 0) with true; apply wp_ret; split; [done|]; split; [done|]; by left].
  rewrite (proj2 (Z.ltb_ge j 0)) by lia.
  assert (open_at (moved_to k slot f x1 (offset f + j)) descriptor slot (set_offset (offset f + j) f) i1 d1) as Hk1.
  { eapply (stored_open k descriptor slot f i d (user_bytes (memory k) p n)); try done; rewrite Hzn; [lia|done]. }
  apply wp_bind, wp_zoom.
  eapply wp_mono; [apply (vfs_lseek_back start count FILE_TABLE table_address _ descriptor slot (set_offset (offset f + j) f) j); [apply Hk1|apply Hk1|]|].
  { cbn. unfold INT32_MAX, MINIFS_MAX_FILE_SIZE, MINIFS_MAX_FILE_BLOCKS, MINIFS_BLOCK_SIZE in *. lia. }
  cbv beta. intros t v [_ ->]. cbn [offset set_offset]. replace (offset f + j - j) with (offset f) by lia.
  change (lget (moved_to k slot f x1 (offset f + j))) with (now (files k) slot f x1 (offset f + j)). rewrite now_now.
  change (fsys (now (files k) slot f x1 (offset f + j))) with x1.
  change (lset (now (files k) slot f x1 (offset f)) _) with (moved_to k slot f x1 (offset f)).
  assert (open_at (moved_to k slot f x1 (offset f)) descriptor slot (set_offset (offset f) f) i1 d1) as Hk2.
  { eapply moved_open; [exact Hk|done|apply Hk1|apply Hk1|apply Hk1| |lia]. pose proof (oa_offset _ _ _ _ _ _ Hk1) as Ho1. cbn in Ho1. lia. }
  apply wp_bind. eapply wp_mono; [apply (syscall_read_file (moved_to k slot f x1 (offset f)) descriptor slot _ i1 d1 q j Hu Hk2 Hq); [lia|]|].
  { replace q with (q + 0) by lia. eapply user_range_part; [exact Hrq|lia..]. }
  cbv beta zeta. cbn [offset set_offset]. intros r k3 [-> (x3 & m3 & Hx3 & Hw3 & ->)]. apply wp_ret.
  destruct (written_slice start count b volume_range geo (inode_number f) (offset f) (user_bytes (memory k) p n) i d (fsys (files k)) j i1 d1) as [Hsl Hl];
    [apply Hk|apply Hk|apply Hk|done|lia|done|].
  rewrite Hsl, Hl in *. rewrite take_user_bytes in * by lia. split; [done|]. split; [done|]. right. split; [lia|]. split; [done|]. exact Hw3.
Qed.

End files.

End SyscallFiles.
