(* ===== verification/SyscallDemo.v ===== *)
(** * System calls of a running program

    The memory of UsercopyDemo.v, in which the program of ElfDemo.v is loaded,
    the volume of MiniFsDemo.v, and a process table: that of SpawnDemo.v without
    open files, and that of VfsDemo.v with /f open as descriptor 3. *)

From S2P Require Import Prelude Monad Interfaces Bytes Cpu Pmm Vmm VmmSpec MemoryBoot Block MiniFs MiniFsSafe MiniFsSpec MiniFsDisk MiniFsFiles MiniFsDemo Keyboard AddressSpace AddressSpaceDemo Usercopy UsercopySpec UsercopyDemo Elf Scheduler SchedulerInv SchedulerLife SchedulerDemo Spawn SpawnSpec SpawnDemo Vfs VfsSpec VfsKernel VfsRoundtrip VfsDemo Syscall SyscallBase SyscallSafe SyscallFiles.

Module SyscallDemo.
Import MiniFsDemo Usercopy UsercopySpec Vfs VfsSpec VfsKernel Syscall SyscallBase SyscallSafe SyscallFiles.

#[local] Existing Instance Pmm.pmm_frame_allocator.
#[local] Existing Instance Keyboard.Script.ports.
#[local] Existing Instance SpawnDemo.host_services.
#[local] Existing Instance SpawnDemo.host_ops.
#[local] Existing Instance SpawnDemo.host_spawning.
#[local] Instance demo_volume : FileSystem (MiniFs.fs ram) := minifs_system 2 16.

Abbreviation user_memory := (AddressSpace.vmm UsercopyDemo.running).
Definition FILE_TABLE : Z := VfsDemo.FILE_TABLE.

(** ** Nothing open *)

Abbreviation boot := SpawnDemo.boot.

Definition clean (p : Scheduler.process) : bool :=
  forallb (fun c => (0 <=? c) && (c <? 256)) (SchedulerLife.cstring (Scheduler.current_working_directory p)) &&
  bool_decide (Scheduler.fd_table p = Scheduler.fd_zero).

Lemma boot_clean : forallb clean (Scheduler.process_table boot) = true.
Proof. vm_compute. reflexivity. Qed.

Lemma clean_at i p : Scheduler.process_table boot !! i = Some p ->
  bytes (SchedulerLife.cstring (Scheduler.current_working_directory p)) /\ Scheduler.fd_table p = Scheduler.fd_zero.
Proof.
  intros Hp. pose proof boot_clean as H. rewrite forallb_forall in H. specialize (H p).
  apply list_elem_of_lookup_2, list_elem_of_In in Hp. apply H in Hp. unfold clean in Hp. apply andb_true_iff in Hp as [Hb Hf].
  split; [|by apply bool_decide_eq_true in Hf]. apply Forall_forall. intros c Hc. rewrite forallb_forall in Hb.
  apply list_elem_of_In in Hc. apply Hb in Hc. lia.
Qed.

Lemma boot_slots i d : slot boot i d = 0.
Proof.
  unfold slot. destruct (Scheduler.process_table boot !! i) as [p|] eqn:E; [|done].
  unfold SchedulerInv.fd_of. rewrite (proj2 (clean_at i p E)). destruct (SchedulerInv.fd_range d); [|done].
  unfold Scheduler.fd_zero. destruct (replicate 16 0 !! Z.to_nat d) eqn:Er; [|done]. by apply lookup_replicate in Er as [-> _].
Qed.

Lemma boot_tidy : tidy boot.
Proof. intros i p Hp. destruct (clean_at i p Hp) as [Hb Hf]. by split. Qed.

Definition idle : kernel Pmm.state (MiniFs.fs ram) SpawnDemo.host Keyboard.Script.t :=
  Kernel user_memory (State (replicate 32 cleared) true false (Cpu.State 0x202) MiniFsDemo.running boot) (Keyboard.demo_state []) [].

Lemma idle_inv : kernel_inv FILE_TABLE idle.
Proof.
  split; [exact UsercopyDemo.running_user_ok| |].
  - split; [done|done|done|apply running_on_disk| |].
    + split; [exact SpawnDemo.host_boot_inv|]. split; [exact boot_tidy|done].
    + split; [done| | | |].
      * intros k f Hk _. right. by apply lookup_replicate in Hk as [-> _].
      * intros i d H. by destruct (H (boot_slots i d)).
      * intros i d i' d' H. by destruct (H (boot_slots i d)).
      * intros k f Hk _ Hu. by apply lookup_replicate in Hk as [-> _].
  - split; [apply Keyboard.demo_wf|constructor].
Qed.

(** write(1, 0x400074, 4) *)
Definition write_frame : trap_frame := TrapFrame 0 0 0 0 1 4 0x400074 1 0x80 0 0x400076 0x1B 0x202 0xBFFFFFE8 0x23.


(** The four bytes are printed, and EAX is their number. *)
Example write_dispatched :
  match syscall_dispatch FILE_TABLE SchedulerDemo.demo_symbols (Some write_frame) idle with
  | Ret o k' => o = Returned (set_eax 4 write_frame) /\ console k' = user_bytes user_memory 0x400074 4
  | _ => False
  end.
Proof. vm_compute. done. Qed.

Lemma console_write_exact_witness :
  wp (syscall_write FILE_TABLE 1 0x400074 4) idle (fun r k' =>
    (4 <= 4096 /\ user_range (memory idle) USER_ACCESS_READ 0x400074 4 /\ r = 4 /\ k' = printed (user_bytes (memory idle) 0x400074 4) idle) \/
    (4 <= 4096 /\ ~ user_range (memory idle) USER_ACCESS_READ 0x400074 4 /\ r = - EFAULT /\ k' = idle) \/
    (4096 < 4 /\ r = - Block.EINVAL /\ k' = idle)).
Proof.
  apply (console_write_exact FILE_TABLE idle 1 0x400074 4); [exact UsercopyDemo.running_user_ok|by left|unfold word; lia..].
Defined.

(** ** One open file *)

#[local] Existing Instance SchedulerDemo.toy_services.

Definition editing : kernel Pmm.state (MiniFs.fs ram) SchedulerDemo.toy Keyboard.Script.t :=
  Kernel user_memory VfsDemo.opened (Keyboard.demo_state []) [].

Lemma editing_open : open_at 2 16 layout16 FILE_TABLE editing 3 0 VfsDemo.the_file file_inode image.
Proof.
  split.
  - exact VfsDemo.opened_inv.
  - split; [vm_compute; reflexivity|reflexivity|reflexivity|reflexivity].
  - split; [exact running_on_disk|reflexivity|reflexivity].
  - exact image_consistent.
  - cbn. lia.
  - exact running_file.
  - reflexivity.
  - vm_compute. split; intros H; discriminate H.
Qed.

Lemma range_checked access p n : word p -> word n ->
  match validate_user_range p n access user_memory with Ret b _ => b = true | _ => False end -> user_range user_memory access p n.
Proof.
  intros Hp Hn H. pose proof (validate_ok user_memory p n access UsercopyDemo.running_user_ok Hp Hn) as Hv.
  unfold wp in Hv. destruct (validate_user_range p n access user_memory); [|done..]. apply Hv. exact H.
Qed.

Lemma syscall_file_roundtrip_witness :
  wp (let! w := syscall_write FILE_TABLE 3 0x400074 4 in
      if w <? 0 then ret (w, None) else
      let! _ := zoom (vfs_lseek FILE_TABLE 3 (- w) MINIOS_SEEK_CUR) in
      let! r := syscall_read FILE_TABLE 3 0x400100 w in ret (w, r)) editing (fun '(w, r) k' =>
    console k' = console editing /\ keyboard k' = keyboard editing /\
    (w = - MiniFs.ENOSPC /\ r = None /\ memory k' = memory editing \/
     0 <= w <= 4 /\ r = Some w /\ wrote (memory editing) 0x400100 (user_bytes (memory editing) 0x400074 w) (memory k'))).
Proof.
  apply (syscall_file_roundtrip 2 16 layout16 FILE_TABLE volume16_range layout16_geometry
    ltac:(unfold FILE_TABLE, VfsDemo.FILE_TABLE; lia) editing 3 0%nat VfsDemo.the_file file_inode image 0x400074 0x400100 4).
  - exact UsercopyDemo.running_user_ok.
  - exact editing_open.
  - unfold word. lia.
  - unfold word. lia.
  - lia.
  - apply range_checked; [unfold word; lia..|vm_compute; reflexivity].
  - apply range_checked; [unfold word; lia..|vm_compute; reflexivity].
  - vm_compute. intros H. discriminate H.
Defined.

(** The bytes arrive. *)
Example bytes_arrive :
  match (let! w := syscall_write FILE_TABLE 3 0x400074 4 in
         let! _ := zoom (vfs_lseek FILE_TABLE 3 (- w) MINIOS_SEEK_CUR) in
         let! r := syscall_read FILE_TABLE 3 0x400100 w in ret (w, r)) editing with
  | Ret (w, r) k' => w = 4 /\ r = Some 4 /\ user_bytes (memory k') 0x400100 4 = user_bytes user_memory 0x400074 4
  | _ => False
  end.
Proof. vm_compute. done. Qed.

End SyscallDemo.
