(* ===== verification/Libc.v ===== *)
(** * The C library of user programs, user/libc

    Strings (string.c) and output (io.c) over the system calls. [UserCalls] is
    the system-call interface as a program sees it: what [SYS_write] took is
    appended to what the descriptor has received. C strings are the lists of
    their bytes without the terminator: the byte behind the end reads as 0. *)

From Stdlib Require Import Ascii.
From S2P Require Import Prelude Monad Interfaces Bytes Block MiniFs Vfs.

Module Libc.
Import MiniFs(result(..)) Vfs(minios_stat(..)).

Class UserCalls (U : Type) := {
  us_write : Z -> list Z -> M U Z;                 (** minios_write: the bytes at the pointer *)
  us_read : Z -> Z -> M U (Z * list Z);            (** minios_read: status and the bytes stored *)
  us_open : list Z -> Z -> M U Z;
  us_close : Z -> M U Z;
  us_stat : list Z -> M U (result minios_stat);
  us_unlink : list Z -> M U Z;

  us_output : U -> Z -> list Z;                    (** what a descriptor has received *)

  us_write_ok : forall d l u, wp (us_write d l) u (fun r u' => r <= zlength l /\
    us_output u' d = us_output u d ++ take (Z.to_nat r) l /\ (forall d', d' <> d -> us_output u' d' = us_output u d'));
  us_read_ok : forall d n u, 0 <= n -> wp (us_read d n) u (fun r u' => fst r <= n /\ zlength (snd r) = Z.max 0 (fst r) /\ bytes (snd r) /\
    (forall d', us_output u' d' = us_output u d'));
  us_open_ok : forall path flags u, wp (us_open path flags) u (fun _ u' => forall d', d' = 1 \/ d' = 2 -> us_output u' d' = us_output u d');
  us_close_ok : forall d u, wp (us_close d) u (fun _ u' => forall d', us_output u' d' = us_output u d');
  us_stat_ok : forall path u, wp (us_stat path) u (fun r u' =>
    (forall d', us_output u' d' = us_output u d') /\ forall e, r = Err e -> e < 0);
  us_unlink_ok : forall path u, wp (us_unlink path) u (fun _ u' => forall d', us_output u' d' = us_output u d')
}.

(** ** string.c *)

Fixpoint strlen (value : list Z) : Z :=
  match value with [] => 0 | c :: value' => if c =? 0 then 0 else 1 + strlen value' end.

(** A null pointer is [None]. *)
Definition minios_strlen (value : option (list Z)) : Z :=
  match value with None => 0 | Some value => strlen value end.

Fixpoint streq (a b : list Z) : bool :=
  match a, b with
  | l :: a', r :: b' => if negb (l =? 0) && negb (r =? 0) then (if negb (l =? r) then false else streq a' b') else l =? r
  | [], r :: _ => 0 =? r
  | l :: _, [] => l =? 0
  | [], [] => true
  end.

Definition minios_streq (a b : option (list Z)) : bool :=
  match a, b with Some a, Some b => streq a b | _, _ => false end.

(** A string without a terminator inside. *)
Definition c_text (l : list Z) : Prop := Forall (fun c => c <> 0) l.

Lemma strlen_text l : c_text l -> strlen l = zlength l.
Proof.
  intros H. induction H as [|c l Hc _ IH]; [done|]. cbn. rewrite (proj2 (Z.eqb_neq c 0) Hc), IH. unfold zlength. cbn [length]. lia.
Qed.

Lemma streq_text l r : c_text l -> c_text r -> streq l r = bool_decide (l = r).
Proof.
  intros Hl. revert r. induction Hl as [|c l Hc _ IH]; intros r Hr; destruct Hr as [|d r Hd Hr]; cbn [streq].
  - done.
  - rewrite bool_decide_eq_false_2 by done. by apply Z.eqb_neq.
  - rewrite bool_decide_eq_false_2 by done. by apply Z.eqb_neq.
  - rewrite (proj2 (Z.eqb_neq c 0) Hc), (proj2 (Z.eqb_neq d 0) Hd). cbn. destruct (Z.eqb_spec c d) as [->|Hn]; cbn.
    + rewrite IH by done. apply bool_decide_ext. split; [by intros ->|by intros [=]].
    + symmetry. apply bool_decide_eq_false. by intros [=].
Qed.

(** ** io.c *)

(** [array[index]] and [array[index] = value] of a local array. *)
Definition fetch {S} (array : list Z) (index : Z) : M S Z := access (if 0 <=? index then array !! Z.to_nat index else None).
Definition assign {S} (array : list Z) (index value : Z) : M S (list Z) :=
  if (0 <=? index) && (index <? zlength array) then ret (<[Z.to_nat index := value]> array) else fault.

(** The bytes of a literal, and a message that ends with a newline. *)
Definition text (s : string) : list Z := map (fun c => Z.of_N (N_of_ascii c)) (String.list_ascii_of_string s).
Definition message (s : string) : option (list Z) := Some (text s ++ [10]).

Section io.
Context {U : Type} `{!UserCalls U}.
Implicit Types u : U.

Definition write_round (descriptor : Z) (buffer : list Z) (length offset : Z) : M U (Z + bool) :=
  if negb (offset <? length) then ret (inr true) else
  let chunk := length - offset in
  let chunk := if 4096 <? chunk then 4096 else chunk in
  let! written := us_write descriptor (slice buffer offset chunk) in
  if written <=? 0 then ret (inr false) else ret (inl (offset + written)).

(** The buffer has at least [length] bytes; every round writes one or more. *)
Definition minios_write_all (descriptor : Z) (buffer : option (list Z)) (length : Z) : M U bool :=
  match buffer with
  | None => ret (length =? 0)
  | Some buffer => while_ (S (Z.to_nat length)) (write_round descriptor buffer length) 0
  end.

Definition minios_print (descriptor : Z) (text : option (list Z)) : M U bool :=
  match text with
  | None => ret false
  | Some text => minios_write_all descriptor (Some text) (strlen text)
  end.

Definition digit_step (x : list Z * Z * Z) : M U ((list Z * Z * Z) + (list Z * Z)) :=
  let '(digits, count, value) := x in
  let! digits := assign digits count (48 + value mod 10) in
  let value := value / 10 in
  let count := count + 1 in
  if negb (value =? 0) then ret (inl (digits, count, value)) else ret (inr (digits, count)).

Definition swap_digits (count index : Z) (digits : list Z) : M U (list Z) :=
  let! temporary := fetch digits index in
  let! other := fetch digits (count - index - 1) in
  let! digits := assign digits index other in
  assign digits (count - index - 1) temporary.

(** Ten digits at most: the loop ends within ten rounds. *)
Definition minios_print_uint32 (descriptor value : Z) : M U bool :=
  let! r := while_ 11 digit_step (replicate 10 0, 0, value) in
  let '(digits, count) := r in
  let! digits := for_acc (Z.to_nat (count / 2)) 0 digits (swap_digits count) in
  minios_write_all descriptor (Some digits) count.

Definition minios_print_int32 (descriptor value : Z) : M U bool :=
  if 0 <=? value then minios_print_uint32 descriptor (u32 value) else
  let magnitude := u32 (- value) in
  andM (minios_print descriptor (Some [45])) (minios_print_uint32 descriptor magnitude).

Definition minios_error_text (error : Z) : list Z :=
  let code := if error <? 0 then - error else error in
  if code =? 2 then text "not found"
  else if code =? 5 then text "I/O error"
  else if code =? 7 then text "argument list too long"
  else if code =? 8 then text "not executable"
  else if code =? 9 then text "bad file descriptor"
  else if code =? 10 then text "no child process"
  else if code =? 11 then text "resource temporarily unavailable"
  else if code =? 12 then text "out of memory"
  else if code =? 14 then text "bad address"
  else if code =? 16 then text "resource busy"
  else if code =? 17 then text "already exists"
  else if code =? 20 then text "not a directory"
  else if code =? 21 then text "is a directory"
  else if code =? 22 then text "invalid argument"
  else if code =? 23 then text "system file table full"
  else if code =? 24 then text "too many open files"
  else if code =? 28 then text "no space left"
  else if code =? 38 then text "not implemented"
  else if code =? 39 then text "directory not empty"
  else text "unknown error".

Definition minios_report_error (command : list Z) (operand : option (list Z)) (error : Z) : M U bool :=
  let! result := andM (minios_print 2 (Some command)) (minios_print 2 (Some (text ": "))) in
  let! result :=
    match operand with
    | Some operand => andM (ret result) (andM (minios_print 2 (Some operand)) (minios_print 2 (Some (text ": "))))
    | None => ret result
    end in
  andM (ret result) (andM (minios_print 2 (Some (minios_error_text error))) (minios_print 2 (Some [10]))).

(** ** What is printed *)

(** [u'] is [u] after [l] was written to [d]. *)
Definition printed (d : Z) (l : list Z) u u' : Prop :=
  us_output u' d = us_output u d ++ l /\ forall d', d' <> d -> us_output u' d' = us_output u d'.

Lemma printed_nil d u : printed d [] u u.
Proof. split; [by rewrite app_nil_r|done]. Qed.

Lemma printed_app d l1 l2 u1 u2 u3 : printed d l1 u1 u2 -> printed d l2 u2 u3 -> printed d (l1 ++ l2) u1 u3.
Proof. intros [A1 A2] [B1 B2]. split; [by rewrite B1, A1, app_assoc|]. intros d' H. by rewrite B2, A2. Qed.

Lemma write_all_ok d l n u : 0 <= n <= zlength l ->
  wp (minios_write_all d (Some l) n) u (fun ok u' => exists k, 0 <= k <= n /\ printed d (take (Z.to_nat k) l) u u' /\ (ok = true -> k = n)).
Proof.
  intros Hn. unfold minios_write_all.
  apply (wp_while (fun o u' => 0 <= o <= n /\ printed d (take (Z.to_nat o) l) u u') (fun o _ => Z.to_nat (n - o))).
  - split; [lia|apply printed_nil].
  - lia.
  - intros o u1 [Ho Hp]. unfold write_round. destruct (Z.ltb_spec o n) as [Hlt|Hge]; cbn [negb].
    2:{ apply wp_ret. exists o. split; [done|]. split; [done|]. intros _. lia. }
    set (c := if 4096 <? n - o then 4096 else n - o). assert (0 < c <= n - o) as Hc by (unfold c; destruct (Z.ltb_spec 4096 (n - o)); lia).
    apply wp_bind. eapply wp_mono; [apply us_write_ok|]. cbv beta. intros r u2 (Hr & Ho2 & Hoth).
    assert (zlength (slice l o c) = c) as Hz by (apply zlength_slice; lia). rewrite Hz in Hr.
    destruct (Z.leb_spec r 0) as [Hr0|Hr0]; apply wp_ret.
    + exists o. split; [done|]. split; [|done]. replace (Z.to_nat r) with 0%nat in Ho2 by lia. cbn in Ho2. rewrite app_nil_r in Ho2.
      destruct Hp as [Hp1 Hp2]. split; [by rewrite Ho2|]. intros d' Hd'. by rewrite Hoth, Hp2.
    + split; [|lia]. split; [lia|]. replace (Z.to_nat (o + r)) with (Z.to_nat o + Z.to_nat r)%nat by lia.
      assert (take (Z.to_nat o + Z.to_nat r) l = take (Z.to_nat o) l ++ take (Z.to_nat r) (slice l o c)) as ->.
      { unfold slice. rewrite take_take, Nat.min_l by lia. symmetry. apply take_take_drop. }
      eapply printed_app; [exact Hp|]. by split.
Qed.

Lemma print_ok d t u : c_text t ->
  wp (minios_print d (Some t)) u (fun ok u' => exists k, 0 <= k <= zlength t /\ printed d (take (Z.to_nat k) t) u u' /\ (ok = true -> k = zlength t)).
Proof. intros Ht. unfold minios_print. rewrite strlen_text by done. apply write_all_ok. unfold zlength. lia. Qed.

(** ** Numbers *)

Definition number (l : list Z) : Z := fold_left (fun a c => a * 10 + (c - 48)) l 0.
Definition le_number (l : list Z) : Z := fold_right (fun c a => (c - 48) + 10 * a) 0 l.
Definition digit (c : Z) : Prop := 48 <= c <= 57.

Lemma number_rev l : number (reverse l) = le_number l.
Proof.
  unfold number, le_number. unfold reverse. rewrite rev_append_rev, app_nil_r, <-fold_left_rev_right, rev_involutive.
  induction l as [|c l IH]; [done|]. cbn. rewrite IH. lia.
Qed.

Lemma le_number_snoc l c : le_number (l ++ [c]) = le_number l + 10 ^ zlength l * (c - 48).
Proof.
  unfold le_number, zlength. induction l as [|x l IH]; [cbn; lia|]. cbn [app fold_right length]. rewrite IH, Nat2Z.inj_succ, Z.pow_succ_r by lia. lia.
Qed.

Lemma fetch_ok {S} (l : list Z) i (s : S) (Q : Z -> S -> Prop) : 0 <= i < zlength l -> Q (byte_at l i) s -> wp (fetch l i) s Q.
Proof.
  intros Hi HQ. unfold fetch. rewrite (proj2 (Z.leb_le 0 i)) by lia. unfold byte_at in HQ. unfold zlength in Hi.
  destruct (lookup_lt_is_Some_2 l (Z.to_nat i)) as [x Hx]; [lia|]. rewrite Hx in *. by apply wp_ret.
Qed.

Lemma assign_ok {S} (l : list Z) i v (s : S) (Q : list Z -> S -> Prop) : 0 <= i < zlength l -> Q (<[Z.to_nat i := v]> l) s -> wp (assign l i v) s Q.
Proof.
  intros Hi HQ. unfold assign. rewrite (proj2 (Z.leb_le 0 i)), (proj2 (Z.ltb_lt i _)) by lia. by apply wp_ret.
Qed.

(** The digits, lowest first, at the start of the array. *)
Definition low_digits (v : Z) (ds : list Z) : Prop :=
  le_number ds = v /\ Forall digit ds /\ 1 <= zlength ds <= 10 /\ (1 < zlength ds -> last ds <> Some 48).

Lemma digits_ok v u : 0 <= v < 4294967296 ->
  wp (while_ 11 digit_step (replicate 10 0, 0, v)) u (fun r u' => u' = u /\ exists ds pad, r = (ds ++ pad, zlength ds) /\ length (ds ++ pad) = 10%nat /\ low_digits v ds).
Proof.
  intros Hv.
  apply (wp_while (fun '(l, n, x) u' => u' = u /\ exists ds pad, l = ds ++ pad /\ length l = 10%nat /\ n = zlength ds /\ Forall digit ds /\
    le_number ds + 10 ^ n * x = v /\ 0 <= x /\ (n = 0 \/ 0 < x) /\ x < 10 ^ (10 - n) /\ n <= 10)
    (fun '(_, n, _) _ => Z.to_nat (10 - n))).
  - split; [done|]. exists [], (replicate 10 0). split; [done|]. split; [done|]. split; [done|]. split; [constructor|]. cbn. lia.
  - cbn. lia.
  - intros [[l n] x] u1 (-> & ds & pad & -> & Hl & -> & HF & Hval & Hx & Hnx & Hxlt & Hn10). unfold digit_step.
    assert (zlength ds < 10) as Hlt.
    { destruct (decide (zlength ds = 10)) as [E|]; [|lia]. rewrite E in *. destruct Hnx; [lia|]. cbn in Hxlt. lia. }
    assert (zlength (ds ++ pad) = 10) as Hl' by (unfold zlength; lia).
    apply wp_bind, assign_ok; [rewrite Hl'; unfold zlength in *; lia|].
    destruct pad as [|p0 pad]; [rewrite app_nil_r in Hl; unfold zlength in Hlt; lia|].
    set (c := 48 + x mod 10). assert (digit c) as Hc by (unfold digit, c; pose proof (Z.mod_pos_bound x 10); lia).
    assert (<[Z.to_nat (zlength ds) := c]> (ds ++ p0 :: pad) = ds ++ c :: pad) as ->.
    { unfold zlength. rewrite Nat2Z.id. replace (length ds) with (length ds + 0)%nat by lia. by rewrite insert_app_r. }
    assert (ds ++ c :: pad = (ds ++ [c]) ++ pad) as Eapp by (by rewrite <-app_assoc).
    assert (zlength (ds ++ [c]) = zlength ds + 1) as Ez by (unfold zlength; rewrite length_app; cbn; lia).
    assert (length ((ds ++ [c]) ++ pad) = 10%nat) as Hl2 by (rewrite <-Eapp; rewrite length_app in *; cbn in *; lia).
    assert (le_number (ds ++ [c]) + 10 ^ (zlength ds + 1) * (x / 10) = v) as Hval2.
    { rewrite le_number_snoc, Z.pow_add_r by (unfold zlength; lia). pose proof (Z.div_mod x 10). unfold c. change (10 ^ 1) with 10. nia. }
    destruct (Z.eqb_spec (x / 10) 0) as [E0|Hne]; cbn [negb]; apply wp_ret.
    + split; [done|]. exists (ds ++ [c]), pad. rewrite <-Eapp, Ez. split; [done|]. split; [by rewrite Eapp|]. split; [rewrite E0 in Hval2; lia|].
      split; [apply Forall_app; split; [done|by apply Forall_singleton]|]. split; [unfold zlength in *; lia|]. intros H1. rewrite last_snoc. intros [= E48].
      assert (x mod 10 = 0) by (unfold c in E48; lia). pose proof (Z.div_mod x 10). destruct Hnx; lia.
    + split; [|unfold zlength in *; lia]. split; [done|]. exists (ds ++ [c]), pad. split; [done|]. split; [by rewrite Eapp|]. split; [by rewrite Ez|].
      split; [apply Forall_app; split; [done|by apply Forall_singleton]|]. split; [done|]. pose proof (Z.div_pos x 10 ltac:(lia) ltac:(lia)).
      split; [done|]. split; [lia|]. split; [|lia]. apply Z.div_lt_upper_bound; [lia|]. rewrite <-Z.pow_succ_r by (unfold zlength in *; lia).
      replace (Z.succ (10 - (zlength ds + 1))) with (10 - zlength ds) by lia. done.
Qed.

(** The array with the outer [i] digits of its first [n] swapped. *)
Definition swapped (l : list Z) (n i j : Z) : option Z :=
  if (0 <=? j) && (j <? n) && ((j <? i) || (n - i <=? j)) then l !! Z.to_nat (n - 1 - j) else l !! Z.to_nat j.

Lemma swaps_ok l n u : 0 <= n <= zlength l ->
  wp (for_acc (Z.to_nat (n / 2)) 0 l (swap_digits n)) u (fun l' u' => u' = u /\ length l' = length l /\ take (Z.to_nat n) l' = reverse (take (Z.to_nat n) l)).
Proof.
  intros Hn. assert (0 <= n / 2 /\ n - 1 <= 2 * (n / 2) <= n) as Hh by (pose proof (Z.div_mod n 2); pose proof (Z.mod_pos_bound n 2); lia).
  apply (wp_for_acc (fun i l' u' => u' = u /\ length l' = length l /\ forall j, 0 <= j -> l' !! Z.to_nat j = swapped l n i j)).
  - split; [done|]. split; [done|]. intros j Hj. unfold swapped. destruct (Z.ltb_spec j 0), (Z.leb_spec (n - 0) j), (Z.ltb_spec j n); rewrite ?andb_false_r; try done; lia.
  - intros i l' u' Hi (-> & Hl & Hsw). rewrite Z2Nat.id in Hi by lia. unfold swap_digits.
    assert (zlength l' = zlength l) as Hz by (unfold zlength; lia).
    assert (forall j, i <= j <= n - 1 - i -> l' !! Z.to_nat j = l !! Z.to_nat j) as Hmid.
    { intros j Hj. rewrite Hsw by lia. unfold swapped. destruct (Z.ltb_spec j i), (Z.leb_spec (n - i) j); rewrite ?andb_false_r; try done; lia. }
    assert (forall j, 0 <= j < n -> l' !! Z.to_nat j = Some (byte_at l' j)) as Hsome.
    { intros j Hj. unfold byte_at. destruct (lookup_lt_is_Some_2 l' (Z.to_nat j)) as [x ->]; [unfold zlength in *; lia|done]. }
    apply wp_bind, fetch_ok; [lia|]. apply wp_bind, fetch_ok; [lia|]. apply wp_bind, assign_ok; [lia|].
    apply assign_ok; [unfold zlength in *; rewrite length_insert; lia|]. split; [done|]. split; [by rewrite !length_insert|].
    intros j Hj. unfold swapped. destruct (decide (j = n - i - 1)) as [->|H1].
    { rewrite list_lookup_insert_eq by (rewrite length_insert; unfold zlength in *; lia). rewrite <-Hsome, Hmid by lia.
      destruct (Z.leb_spec 0 (n - i - 1)), (Z.ltb_spec (n - i - 1) n), (Z.leb_spec (n - (i + 1)) (n - i - 1)); try lia. rewrite orb_true_r. cbn. f_equal. lia. }
    rewrite list_lookup_insert_ne by lia. destruct (decide (j = i)) as [->|H2].
    { rewrite list_lookup_insert_eq by (unfold zlength in *; lia). rewrite <-Hsome, Hmid by lia.
      destruct (Z.leb_spec 0 i), (Z.ltb_spec i n), (Z.ltb_spec i (i + 1)); try lia. cbn. f_equal. lia. }
    rewrite list_lookup_insert_ne by lia. rewrite Hsw by done. unfold swapped.
    destruct (Z.ltb_spec j i), (Z.ltb_spec j (i + 1)), (Z.leb_spec (n - i) j), (Z.leb_spec (n - (i + 1)) j), (Z.ltb_spec j n); try lia; done.
  - rewrite Z2Nat.id by lia. intros l' u' (-> & Hl & Hsw). split; [done|]. split; [done|].
    assert (length (take (Z.to_nat n) l) = Z.to_nat n) as Hlt by (rewrite length_take; unfold zlength in Hn; lia).
    apply list_eq. intros j. destruct (decide (j < Z.to_nat n)%nat) as [Hj|Hj].
    + rewrite lookup_take_lt by done. rewrite reverse_lookup by lia. rewrite Hlt, lookup_take_lt by lia.
      replace j with (Z.to_nat (Z.of_nat j)) at 1 by lia. rewrite Hsw by lia. unfold swapped.
      destruct (Z.leb_spec 0 (Z.of_nat j)), (Z.ltb_spec (Z.of_nat j) n), (Z.ltb_spec (Z.of_nat j) (0 + n / 2)), (Z.leb_spec (n - (0 + n / 2)) (Z.of_nat j)); try lia; cbn [andb orb]; f_equal; lia.
    + rewrite lookup_take_ge by lia. symmetry. apply lookup_ge_None_2. rewrite length_reverse. lia.
Qed.

(** The text of a number: its value, in digits, without leading zeros. *)
Definition decimal (v : Z) (l : list Z) : Prop :=
  number l = v /\ Forall digit l /\ 1 <= zlength l <= 10 /\ (1 < zlength l -> head l <> Some 48).

Lemma print_uint32_ok d v u : 0 <= v < 4294967296 ->
  wp (minios_print_uint32 d v) u (fun ok u' => exists l k, decimal v l /\ 0 <= k <= zlength l /\ printed d (take (Z.to_nat k) l) u u' /\ (ok = true -> k = zlength l)).
Proof.
  intros Hv. unfold minios_print_uint32. apply wp_bind. eapply wp_mono; [by apply (digits_ok v u)|]. cbv beta.
  intros r u1 (-> & ds & pad & -> & Hl & Hval & HF & Hz & Hlast). apply wp_bind.
  assert (0 <= zlength ds <= zlength (ds ++ pad)) as Hzz by (unfold zlength; rewrite length_app; lia).
  eapply wp_mono; [by apply (swaps_ok (ds ++ pad) (zlength ds) u)|]. cbv beta. intros l' u1 (-> & Hl' & Ht).
  assert (take (Z.to_nat (zlength ds)) (ds ++ pad) = ds) as E by (apply take_app_length'; unfold zlength; lia). rewrite E in Ht.
  assert (zlength (reverse ds) = zlength ds) as Hrev by (unfold zlength; by rewrite length_reverse).
  eapply wp_mono; [apply (write_all_ok d l' (zlength ds) u); unfold zlength in *; lia|]. cbv beta. intros ok u2 (k & Hk & Hp & Hok).
  exists (reverse ds), k. rewrite Hrev. split.
  - split; [by rewrite number_rev|]. split; [by apply Forall_reverse|]. rewrite Hrev. split; [done|]. intros H1. rewrite head_reverse. by apply Hlast.
  - split; [done|]. split; [|done]. rewrite <-Ht, take_take, Nat.min_l by lia. done.
Qed.

End io.

End Libc.
