(* ===== verification/Edit.v ===== *)
(** * The line editor, user/programs/edit.c

    The text is a byte array of 32768 places and its length. The commands work
    on lines: they look for the newlines and move the bytes behind the place of
    change. The specification and its proofs are in EditSpec.v. *)

From S2P Require Import Prelude Monad Interfaces Bytes Block MiniFs Vfs Libc.

Module Edit.
Import MiniFs(result(..), MINIFS_MODE_REGULAR, ENOENT, EIO, EISDIR) Vfs(ms_mode, ms_size, MINIOS_O_RDONLY, MINIOS_O_WRONLY, MINIOS_O_CREAT, MINIOS_O_TRUNC) Libc.

Definition EDIT_BUFFER_CAPACITY : Z := 32768.
Definition EDIT_COMMAND_CAPACITY : Z := 256.
Definition EDIT_IO_CHUNK : Z := 4096.
Definition newline : Z := 10.
Definition E2BIG : Z := 7.

Inductive editor_action := EDITOR_CONTINUE | EDITOR_EXIT | EDITOR_FATAL.

(** ** Numbers and words of a command; a [char *] is the rest of the string *)

Fixpoint skip_spaces (cursor : list Z) : list Z :=
  match cursor with c :: rest => if (c =? 32) || (c =? 9) then skip_spaces rest else cursor | [] => [] end.

(** [**cursor]. *)
Definition current (cursor : list Z) : Z := byte_at cursor 0.

Definition command_arguments (command : list Z) (verb : Z) : option (list Z) :=
  if negb (byte_at command 0 =? verb) ||
     (negb (byte_at command 1 =? 0) && negb (byte_at command 1 =? 32) && negb (byte_at command 1 =? 9))
  then None else Some (skip_spaces (tail command)).

Fixpoint consume_digits (cursor : list Z) (parsed : Z) (found : bool) : option (Z * bool * list Z) :=
  match cursor with
  | c :: rest =>
      if (48 <=? c) && (c <=? 57) then
        let digit := c - 48 in
        if (4294967295 - digit) / 10 <? parsed then None else
        consume_digits rest (parsed *u 10 +u digit) true
      else Some (parsed, found, cursor)
  | [] => Some (parsed, found, [])
  end.

(** The number and the rest of the string. *)
Definition consume_number (cursor : list Z) : option (Z * list Z) :=
  match consume_digits (skip_spaces cursor) 0 false with
  | None => None
  | Some (parsed, found, rest) =>
      if negb found || (negb (current rest =? 0) && negb (current rest =? 32) && negb (current rest =? 9)) then None
      else Some (parsed, skip_spaces rest)
  end.

Section edit.
Context {U : Type} `{!UserCalls U}.

Record editor := Editor { edit_buffer : list Z; edit_length : Z; user : U }.

Definition set_buffer (b : list Z) (s : editor) : editor := Editor b (edit_length s) (user s).
Definition set_length (n : Z) (s : editor) : editor := Editor (edit_buffer s) n (user s).
Definition set_user (u : U) (s : editor) : editor := Editor (edit_buffer s) (edit_length s) u.

#[export] Instance user_lens : Lens editor U.
Proof. refine {| lget := user; lset := set_user |}; by intros; destruct s. Defined.

(** [edit_buffer[index]] and its assignment. *)
Definition peek (index : Z) : M editor Z := let! b := gets edit_buffer in fetch b index.
Definition poke (index value : Z) : M editor unit :=
  let! b := gets edit_buffer in let! b' := assign b index value in modify (set_buffer b').

Definition print (descriptor : Z) (t : option (list Z)) : M editor bool := zoom (minios_print descriptor t).

(** ** The text *)

Definition text_byte_supported (value : Z) : bool :=
  (value =? 10) || (value =? 9) || ((0x20 <=? value) && (value <=? 0x7E)).

Definition buffer_set_text (t : list Z) : M editor bool :=
  let length := strlen t in
  if EDIT_BUFFER_CAPACITY <? length then ret false else
  for_range (Z.to_nat length) 0 (fun index => let! c := fetch t index in poke index (u8 c)) ;;
  modify (set_length length) ;;
  ret true.

Definition line_count : M editor Z :=
  let! n := gets edit_length in
  if n =? 0 then ret 0 else
  let! count := for_acc (Z.to_nat n) 0 0 (fun index count =>
    let! c := peek index in ret (if c =? newline then count + 1 else count)) in
  let! c := peek (n - 1) in
  ret (if negb (c =? newline) then count + 1 else count).

(** [while (position < edit_length && edit_buffer[position] != '\n') ++position]. *)
Definition to_newline (position : Z) : M editor Z :=
  let! n := gets edit_length in
  while_ (S (Z.to_nat n)) (fun position =>
    let! go := andM (ret (position <? n)) (let! c := peek position in ret (negb (c =? newline))) in
    ret (if go : bool then inl (position + 1) else inr position)) position.

(** The places where line [number] starts, where its text ends and where it
    ends. *)
Definition line_bounds (number : Z) : M editor (option (Z * Z * Z)) :=
  let! n := gets edit_length in
  if (number =? 0) || (n =? 0) then ret None else
  let! found := while_ (S (S (Z.to_nat n))) (fun '(current, position) =>
    if negb (current <? number) then ret (inr (Some position)) else
    let! position := to_newline position in
    if position =? n then ret (inr None) else ret (inl (current + 1, position + 1))) (1, 0) in
  match found with
  | None => ret None
  | Some position =>
      if n <=? position then ret None else
      let start := position in
      let! position := to_newline position in
      ret (Some (start, position, if position <? n then position + 1 else position))
  end.

Definition move_up (start end_ replacement_length tail : Z) : M editor unit :=
  while_ (S (Z.to_nat tail)) (fun index =>
    if negb (0 <? index) then ret (inr tt) else
    let! c := peek (end_ + index - 1) in
    poke (start + replacement_length + index - 1) c ;;
    ret (inl (index - 1))) tail.

Definition move_down (start end_ replacement_length tail : Z) : M editor unit :=
  for_range (Z.to_nat tail) 0 (fun index =>
    let! c := peek (end_ + index) in
    poke (start + replacement_length + index) c).

(** [replacement] is the null pointer or has [replacement_length] bytes. *)
Definition replace_range (start end_ : Z) (replacement : option (list Z)) (replacement_length : Z) : M editor bool :=
  let! n := gets edit_length in
  if (end_ <? start) || (n <? end_) || (bool_decide (replacement = None) && negb (replacement_length =? 0)) then ret false else
  let removed := end_ - start in
  if EDIT_BUFFER_CAPACITY -u (n -u removed) <? replacement_length then ret false else
  let tail := n - end_ in
  let new_length := n -u removed +u replacement_length in
  (if removed <? replacement_length then move_up start end_ replacement_length tail
   else move_down start end_ replacement_length tail) ;;
  for_range (Z.to_nat replacement_length) 0 (fun index =>
    let! r := access replacement in
    let! c := fetch r index in poke (start + index) (u8 c)) ;;
  modify (set_length new_length) ;;
  ret true.

(** [payload] of [capacity] bytes: the text as a line. *)
Definition build_line_payload (capacity : Z) (leading_newline : bool) (t : list Z) : option (list Z) :=
  if capacity <? strlen t + (if leading_newline then 2 else 1) then None
  else Some ((if leading_newline then [newline] else []) ++ take (Z.to_nat (strlen t)) t ++ [newline]).

Definition append_line (t : list Z) : M editor bool :=
  let! n := gets edit_length in
  let! needs_separator := andM (ret (0 <? n)) (let! c := peek (n - 1) in ret (negb (c =? newline))) in
  match build_line_payload (EDIT_COMMAND_CAPACITY + 2) needs_separator t with
  | None => ret false
  | Some payload => replace_range n n (Some payload) (zlength payload)
  end.

Definition insert_line (number : Z) (t : list Z) : M editor bool :=
  let! count := line_count in
  if number =? count +u 1 then append_line t else
  if (number =? 0) || (count <? number) then ret false else
  let! bounds := line_bounds number in
  match bounds with
  | None => ret false
  | Some (start, _, _) =>
      match build_line_payload (EDIT_COMMAND_CAPACITY + 2) false t with
      | None => ret false
      | Some payload => replace_range start start (Some payload) (zlength payload)
      end
  end.

Definition replace_line (number : Z) (t : list Z) : M editor bool :=
  let! bounds := line_bounds number in
  match bounds with
  | None => ret false
  | Some (start, content_end, _) => replace_range start content_end (Some t) (strlen t)
  end.

Definition delete_line (number : Z) : M editor bool :=
  let! bounds := line_bounds number in
  match bounds with
  | None => ret false
  | Some (start, _, full_end) => replace_range start full_end None 0
  end.

(** ** Output and files *)

(** Lines [number] to [last]. *)
Definition print_step (last number : Z) : M editor (Z + bool) :=
  if negb (number <=? last) then ret (inr true) else
  let! bounds := line_bounds number in
  match bounds with
  | None => ret (inr false)
  | Some (start, content_end, _) =>
      let! shown :=
        andM (zoom (minios_print_uint32 1 (u32 number)))
          (andM (print 1 (Some [9]))
            (andM (let! b := gets edit_buffer in zoom (minios_write_all 1 (Some (drop (Z.to_nat start) b)) (content_end - start)))
              (print 1 (Some [newline])))) in
      ret (if shown : bool then inl (number + 1) else inr false)
  end.

Definition print_range (first last : Z) : M editor bool :=
  let! count := line_count in
  if count =? 0 then print 1 (message "(empty)") else
  if (first =? 0) || (last <? first) || (count <? last) then ret false else
  while_ (S (Z.to_nat last)) (print_step last) first.

Definition print_help : M editor bool :=
  print 1 (Some (flat_map (fun line => text line ++ [newline])
    ["edit commands:"; "  p [first [last]]  print numbered lines"; "  a [text]          append a line";
     "  i line [text]     insert before a line"; "  r line [text]     replace a line"; "  d line            delete a line";
     "  w                 save"; "  q / q!            quit / discard changes"; "  h                 show this help"]%string)).

Definition report (path : list Z) (error : Z) : M editor unit :=
  let! _ := zoom (minios_report_error (text "edit") (Some path) error) in ret tt.

(** One chunk of the file; the result is [inr]. *)
Definition load_step (path : list Z) (descriptor size : Z) (x : unit) : M editor (unit + bool) :=
  let! n := gets edit_length in
  if negb (n <? size) then ret (inr true) else
  let chunk := size - n in
  let chunk := if EDIT_IO_CHUNK <? chunk then EDIT_IO_CHUNK else chunk in
  let! r := zoom (us_read descriptor chunk) in
  let '(result, data) := r in
  let! b := gets edit_buffer in
  (if n + zlength data <=? zlength b then modify (set_buffer (splice b n data)) else fault) ;;
  if result <=? 0 then
    report path (if result <? 0 then result else - EIO) ;;
    let! _ := zoom (us_close descriptor) in
    ret (inr false)
  else modify (set_length (n + result)) ;; ret (inl tt).

(** [Some new_file], or [None] when the file cannot be edited. *)
Definition load_file (path : list Z) : M editor (option bool) :=
  modify (set_length 0) ;;
  let! r := zoom (us_stat path) in
  match r with
  | Err result =>
      if result =? - ENOENT then ret (Some true) else
      report path result ;; ret None
  | Ok status =>
      if negb (ms_mode status =? MINIFS_MODE_REGULAR) then report path (- EISDIR) ;; ret None else
      if EDIT_BUFFER_CAPACITY <? ms_size status then report path (- E2BIG) ;; ret None else
      let! descriptor := zoom (us_open path MINIOS_O_RDONLY) in
      if descriptor <? 3 then report path descriptor ;; ret None else
      let! loaded := while_ (S (Z.to_nat (ms_size status))) (load_step path descriptor (ms_size status)) tt in
      if negb loaded then ret None else
      let! closed := zoom (us_close descriptor) in
      if closed <? 0 then report path (- EIO) ;; ret None else
      let! n := gets edit_length in
      let! bad := for_until (Z.to_nat n) 0 (fun index =>
        let! c := peek index in ret (if negb (text_byte_supported c) then Some tt else None)) in
      match bad with
      | Some _ =>
          let! _ := print 2 (Some (text "edit: ")) in
          let! _ := print 2 (Some path) in
          let! _ := print 2 (message ": unsupported non-text byte") in
          ret None
      | None => ret (Some false)
      end
  end.

(** Success and the new value of [dirty]. *)
Definition save_file (path : list Z) (dirty : bool) : M editor (bool * bool) :=
  let! descriptor := zoom (us_open path (Z.lor (Z.lor MINIOS_O_WRONLY MINIOS_O_CREAT) MINIOS_O_TRUNC)) in
  if descriptor <? 3 then report path descriptor ;; ret (false, dirty) else
  let! b := gets edit_buffer in
  let! n := gets edit_length in
  let! written := zoom (minios_write_all descriptor (Some b) n) in
  (if written : bool then ret tt else report path (- EIO)) ;;
  let! r := zoom (us_close descriptor) in
  (if r <? 0 then report path (- EIO) else ret tt) ;;
  let success := written && negb (r <? 0) in
  if success then
    let! _ := zoom (minios_print_uint32 1 (u32 n)) in
    let! _ := print 1 (message " bytes written") in
    ret (true, false)
  else ret (false, dirty).

(** ** Commands *)

Definition say (m : string) : M editor unit := let! _ := print 2 (message m) in ret tt.

Definition command_print (arguments : list Z) (dirty : bool) : M editor (editor_action * bool) :=
  let! count := line_count in
  let finish (first last : Z) :=
    let! shown := print_range first last in ret (if shown : bool then EDITOR_CONTINUE else EDITOR_FATAL, dirty) in
  if current arguments =? 0 then finish 1 count else
  match consume_number arguments with
  | None => say "usage: p [first [last]]" ;; ret (EDITOR_CONTINUE, dirty)
  | Some (first, arguments) =>
      match (if negb (current arguments =? 0) then consume_number arguments else Some (first, arguments)) with
      | None => say "usage: p [first [last]]" ;; ret (EDITOR_CONTINUE, dirty)
      | Some (last, arguments) =>
          if negb (current arguments =? 0) || (first =? 0) || (last <? first) || (count <? last)
          then say "edit: invalid line range" ;; ret (EDITOR_CONTINUE, dirty)
          else finish first last
      end
  end.

(** The end of a change: [dirty] is set when it was made. *)
Definition changed_or (m : M editor bool) (refusal : string) (dirty : bool) : M editor (editor_action * bool) :=
  let! ok := m in
  if negb ok then say refusal ;; ret (EDITOR_CONTINUE, dirty) else ret (EDITOR_CONTINUE, true).

Definition command_insert (arguments : list Z) (dirty : bool) : M editor (editor_action * bool) :=
  match consume_number arguments with
  | None => say "usage: i line [text]" ;; ret (EDITOR_CONTINUE, dirty)
  | Some (number, arguments) =>
      let! invalid := (if number =? 0 then ret true else let! count := line_count in ret (count +u 1 <? number)) in
      if invalid : bool then say "edit: invalid line number" ;; ret (EDITOR_CONTINUE, dirty)
      else changed_or (insert_line number arguments) "edit: text buffer full" dirty
  end.

Definition command_replace (arguments : list Z) (dirty : bool) : M editor (editor_action * bool) :=
  match consume_number arguments with
  | None => say "usage: r line [text]" ;; ret (EDITOR_CONTINUE, dirty)
  | Some (number, arguments) =>
      let! invalid := (if number =? 0 then ret true else let! count := line_count in ret (count <? number)) in
      if invalid : bool then say "edit: invalid line number" ;; ret (EDITOR_CONTINUE, dirty)
      else changed_or (replace_line number arguments) "edit: text buffer full" dirty
  end.

Definition command_delete (arguments : list Z) (dirty : bool) : M editor (editor_action * bool) :=
  match consume_number arguments with
  | Some (number, arguments) =>
      if negb (current arguments =? 0) then say "usage: d line" ;; ret (EDITOR_CONTINUE, dirty)
      else changed_or (delete_line number) "edit: invalid line number" dirty
  | None => say "usage: d line" ;; ret (EDITOR_CONTINUE, dirty)
  end.

(** What to do next and the new value of [dirty]. *)
Definition process_command (command path : list Z) (dirty : bool) : M editor (editor_action * bool) :=
  if byte_at command 0 =? 0 then ret (EDITOR_CONTINUE, dirty) else
  if streq command (text "h") then
    let! shown := print_help in ret (if shown : bool then EDITOR_CONTINUE else EDITOR_FATAL, dirty) else
  if streq command (text "w") then
    let! r := save_file path dirty in ret (EDITOR_CONTINUE, snd r) else
  if streq command (text "q!") then ret (EDITOR_EXIT, dirty) else
  if streq command (text "q") then
    if dirty then say "edit: unsaved changes; use w or q!" ;; ret (EDITOR_CONTINUE, dirty)
    else ret (EDITOR_EXIT, dirty) else
  match command_arguments command 112 with Some arguments => command_print arguments dirty | None =>
  match command_arguments command 97 with Some arguments => changed_or (append_line arguments) "edit: text buffer full" dirty | None =>
  match command_arguments command 105 with Some arguments => command_insert arguments dirty | None =>
  match command_arguments command 114 with Some arguments => command_replace arguments dirty | None =>
  match command_arguments command 100 with Some arguments => command_delete arguments dirty | None =>
  say "edit: unknown command; use h for help" ;; ret (EDITOR_CONTINUE, dirty)
  end end end end end.

End edit.
Arguments editor U : clear implicits.

End Edit.
