(* ===== verification/EditSpec.v ===== *)
(** * The line editor works on lines

    [lines] is the document as the user sees it. Every editing command of edit.c
    is the operation on the list of lines that it is meant to be, as long as the
    text fits, and otherwise changes nothing. *)

From S2P Require Import Prelude Monad Interfaces Bytes Block MiniFs Vfs Libc Edit.

Module EditSpec.
Import Libc Edit.

(** ** Lines *)

Fixpoint lines (t : list Z) : list (list Z) :=
  match t with
  | [] => []
  | c :: t' => if c =? newline then [] :: lines t' else
      match lines t' with [] => [[c]] | l :: ls => (c :: l) :: ls end
  end.

Definition no_newline (l : list Z) : Prop := Forall (fun c => c <> newline) l.

(** Empty, or ending with a newline. *)
Definition closed (t : list Z) : Prop := t = [] \/ exists t', t = t' ++ [newline].

Lemma closed_cons c t : closed (c :: t) -> t <> [] -> closed t.
Proof.
  intros [?|[t' E]] Hn; [done|]. right. destruct t' as [|x t']; [by injection E as -> ->|]. injection E as -> ->. by exists t'.
Qed.

Lemma lines_app pre t : closed pre -> lines (pre ++ t) = lines pre ++ lines t.
Proof.
  induction pre as [|c pre IH]; intros Hc; [done|]. cbn. destruct pre as [|d pre].
  - destruct Hc as [?|[[|x [|? ?]] E]]; [done| |done|done]. injection E as ->. done.
  - rewrite IH by (by eapply closed_cons). destruct (c =? newline); [done|].
    assert (exists l ls, lines (d :: pre) = l :: ls) as (l & ls & ->); [|done]. cbn. destruct (d =? newline); [eauto|]. destruct (lines pre); eauto.
Qed.

Lemma lines_line l t : no_newline l -> lines (l ++ newline :: t) = l :: lines t.
Proof.
  intros H. induction H as [|c l Hc _ IH]; [done|]. cbn. rewrite (proj2 (Z.eqb_neq c newline) Hc), IH. done.
Qed.

Lemma lines_last l : no_newline l -> l <> [] -> lines l = [l].
Proof.
  intros H. induction H as [|c l Hc Hl IH]; [done|]. intros _. cbn. rewrite (proj2 (Z.eqb_neq c newline) Hc).
  destruct l as [|d l]; [done|]. by rewrite IH.
Qed.

Lemma lines_open t : ~ closed t -> lines (t ++ [newline]) = lines t.
Proof.
  induction t as [|c t IH]; intros Hn; [destruct Hn; by left|]. cbn. destruct (decide (t = [])) as [->|Ht].
  - cbn. destruct (Z.eqb_spec c newline) as [->|]; [|done]. destruct Hn. right. by exists [].
  - rewrite IH; [done|]. intros [?|[t' ->]]; [done|]. apply Hn. right. by exists (c :: t').
Qed.

Lemma lines_bound t : zlength (lines t) <= zlength t.
Proof.
  unfold zlength. induction t as [|c t IH]; [done|]. cbn. destruct (c =? newline); [cbn; lia|]. destruct (lines t); cbn in *; lia.
Qed.

(** The text up to the first newline. *)
Fixpoint first_line (t : list Z) : list Z :=
  match t with [] => [] | c :: t' => if c =? newline then [] else c :: first_line t' end.

Lemma first_line_split t : no_newline (first_line t) /\
  (t = first_line t \/ exists r, t = first_line t ++ newline :: r).
Proof.
  induction t as [|c t [IH1 IH2]]; [split; [constructor|by left]|]. cbn. destruct (Z.eqb_spec c newline) as [->|Hc].
  - split; [constructor|]. right. by exists t.
  - split; [by constructor|]. destruct IH2 as [E|[r E]]; [left; congruence|right]. exists r. cbn. congruence.
Qed.

(** ** The buffer *)

Section spec.
Context {U : Type} `{!UserCalls U}.
Implicit Types s : editor U.

Definition content s : list Z := take (Z.to_nat (edit_length s)) (edit_buffer s).

Record wf s : Prop := {
  wf_capacity : zlength (edit_buffer s) = 32768;
  wf_length : 0 <= edit_length s <= 32768;
  wf_bytes : bytes (edit_buffer s)
}.

Lemma content_length s : wf s -> zlength (content s) = edit_length s.
Proof. intros [H1 H2 _]. unfold content, zlength in *. rewrite length_take. lia. Qed.

Lemma peek_ok s i (Q : Z -> editor U -> Prop) : wf s -> 0 <= i < 32768 -> Q (byte_at (edit_buffer s) i) s -> wp (peek i) s Q.
Proof. intros Hs Hi HQ. unfold peek. apply wp_bind, wp_gets, fetch_ok; [by rewrite (wf_capacity s Hs)|done]. Qed.

Lemma content_at s i : 0 <= i < edit_length s -> byte_at (content s) i = byte_at (edit_buffer s) i.
Proof. intros Hi. unfold content, byte_at. by rewrite lookup_take_lt by lia. Qed.

Lemma poke_ok s i v (Q : unit -> editor U -> Prop) : wf s -> 0 <= i < 32768 -> 0 <= v < 256 ->
  (wf (set_buffer (<[Z.to_nat i := v]> (edit_buffer s)) s) -> Q tt (set_buffer (<[Z.to_nat i := v]> (edit_buffer s)) s)) -> wp (poke i v) s Q.
Proof.
  intros Hs Hi Hv HQ. unfold poke. apply wp_bind, wp_gets, wp_bind, assign_ok; [by rewrite (wf_capacity s Hs)|]. apply wp_modify, HQ.
  destruct Hs as [H1 H2 H3]. split; [|done|by apply Forall_insert]. cbn. unfold zlength in *. by rewrite length_insert.
Qed.

(** ** Finding lines *)

Lemma to_newline_ok s p : wf s -> 0 <= p <= edit_length s ->
  wp (to_newline p) s (fun q s' => s' = s /\ q = p + zlength (first_line (drop (Z.to_nat p) (content s)))).
Proof.
  intros Hs Hp. pose proof (content_length s Hs) as Hz. pose proof (wf_length s Hs) as Hn. unfold to_newline. apply wp_bind, wp_gets.
  set (r := p + zlength (first_line (drop (Z.to_nat p) (content s)))).
  apply (wp_while (fun q s' => s' = s /\ p <= q <= edit_length s /\ r = q + zlength (first_line (drop (Z.to_nat q) (content s)))) (fun q _ => Z.to_nat (edit_length s - q))).
  - split; [done|]. split; [lia|done].
  - lia.
  - intros q s' (-> & Hq & Hr). destruct (Z.ltb_spec q (edit_length s)) as [Hlt|Hge].
    + apply wp_bind, wp_andM, wp_ret. apply wp_bind, peek_ok; [done|lia|]. apply wp_ret, wp_ret.
      assert (drop (Z.to_nat q) (content s) = byte_at (edit_buffer s) q :: drop (Z.to_nat (q + 1)) (content s)) as Ed.
      { replace (Z.to_nat (q + 1)) with (S (Z.to_nat q)) by lia. apply drop_S. rewrite <-content_at by lia. unfold byte_at.
        destruct (lookup_lt_is_Some_2 (content s) (Z.to_nat q)) as [x ->]; [unfold zlength in Hz; lia|done]. }
      rewrite Ed in Hr. cbn [first_line] in Hr. destruct (byte_at (edit_buffer s) q =? newline); cbn [negb].
      * split; [done|]. unfold zlength in Hr. cbn in Hr. lia.
      * split; [|lia]. split; [done|]. split; [lia|]. unfold zlength in *. cbn [length] in Hr. lia.
    + apply wp_bind, wp_andM, wp_ret, wp_ret. split; [done|]. rewrite drop_ge in Hr by (unfold zlength in Hz; lia). unfold zlength in Hr. cbn in Hr. lia.
Qed.

(** Line [number] of the text and what is around it. *)
Record at_line (t : list Z) (number : Z) (pre l sep post : list Z) : Prop := {
  al_text : t = pre ++ l ++ sep ++ post;
  al_pre : closed pre;
  al_number : zlength (lines pre) = number - 1;
  al_line : no_newline l;
  al_sep : sep = [newline] \/ sep = [] /\ post = [] /\ l <> []
}.

Lemma at_line_lines t number pre l sep post : at_line t number pre l sep post -> lines t = lines pre ++ l :: lines post.
Proof.
  intros [-> Hc _ Hl Hs]. rewrite lines_app by done. f_equal. destruct Hs as [->|(-> & -> & Hn)].
  - apply (lines_line l post Hl).
  - rewrite !app_nil_r. by apply lines_last.
Qed.

Lemma at_line_count t number pre l sep post : at_line t number pre l sep post -> 1 <= number <= zlength (lines t).
Proof.
  intros H. pose proof (al_number _ _ _ _ _ _ H) as Hn. rewrite (at_line_lines _ _ _ _ _ _ H). unfold zlength in *. rewrite length_app. cbn [length]. lia.
Qed.

Lemma closed_line pre l : closed (pre ++ l ++ [newline]).
Proof. right. exists (pre ++ l). by rewrite <-app_assoc. Qed.

Lemma open_line pre l : no_newline l -> l <> [] -> ~ closed (pre ++ l).
Proof.
  intros Hl Hn [E|[t' E]]; [by apply app_eq_nil in E as [_ ->]|]. destruct (exists_last Hn) as (l' & x & ->).
  rewrite app_assoc in E. apply app_inj_tail in E as [_ E]. apply Forall_app in Hl as [_ Hl]. apply (proj1 (Forall_singleton _ _)) in Hl. done.
Qed.

Lemma line_bounds_ok s number : wf s -> 0 <= number ->
  wp (line_bounds number) s (fun r s' => s' = s /\ match r with
    | Some (a, c, e) => exists pre l sep post, at_line (content s) number pre l sep post /\
        a = zlength pre /\ c = a + zlength l /\ e = c + zlength sep
    | None => number = 0 \/ zlength (lines (content s)) < number
    end).
Proof.
  intros Hs Hnum. pose proof (content_length s Hs) as Hz. pose proof (wf_length s Hs) as Hn. unfold line_bounds. apply wp_bind, wp_gets.
  destruct (Z.eqb_spec number 0) as [->|Hn0]; [apply wp_ret; split; [done|by left]|]. cbn [orb].
  destruct (Z.eqb_spec (edit_length s) 0) as [E0|Hl0].
  { apply wp_ret. split; [done|]. right. unfold content, zlength. rewrite E0. change (take (Z.to_nat 0) (edit_buffer s)) with (@nil Z). cbn. lia. }
  apply wp_bind.
  apply (wp_while (fun '(k, p) s' => s' = s /\ 0 <= p <= edit_length s /\ 1 <= k <= number /\ closed (take (Z.to_nat p) (content s)) /\
    zlength (lines (take (Z.to_nat p) (content s))) = k - 1) (fun '(k, p) _ => Z.to_nat (edit_length s - p))).
  - split; [done|]. split; [lia|]. split; [lia|]. split; [by left|done].
  - lia.
  - intros [k p] s' (-> & Hp & Hk & Hc & Hcount). destruct (first_line_split (drop (Z.to_nat p) (content s))) as [Hfl Hsplit].
    assert (content s = take (Z.to_nat p) (content s) ++ drop (Z.to_nat p) (content s)) as Et by (by rewrite take_drop).
    assert (zlength (take (Z.to_nat p) (content s)) = p) as Hzp by (unfold zlength in *; rewrite length_take; lia).
    assert (zlength (drop (Z.to_nat p) (content s)) = edit_length s - p) as Hzd by (unfold zlength in *; rewrite length_drop; lia).
    destruct (Z.ltb_spec k number) as [Hlt|Hge]; cbn [negb].
    + apply wp_bind. eapply wp_mono; [by apply (to_newline_ok s p)|]. cbv beta. intros q s' [-> ->].
      set (fl := first_line (drop (Z.to_nat p) (content s))) in *.
      destruct Hsplit as [E|[r E]].
      * rewrite E in Hzd. destruct (Z.eqb_spec (p + zlength fl) (edit_length s)) as [_|]; [|lia]. apply wp_ret. cbv beta iota. apply wp_ret.
        split; [done|]. right. rewrite Et, lines_app by done. rewrite E. unfold zlength in *. rewrite length_app.
        destruct (decide (fl = [])) as [->|Hne]; [cbn; lia|]. rewrite (lines_last fl Hfl Hne). cbn. lia.
      * assert (zlength (fl ++ newline :: r) = edit_length s - p) as Hzr by congruence. unfold zlength in Hzr. rewrite length_app in Hzr. cbn [length] in Hzr.
        destruct (Z.eqb_spec (p + zlength fl) (edit_length s)) as [Eq|_]; [unfold zlength in Eq; lia|]. apply wp_ret. cbv beta iota.
        assert (take (Z.to_nat (p + zlength fl + 1)) (content s) = take (Z.to_nat p) (content s) ++ fl ++ [newline]) as Etk.
        { rewrite Et at 1. rewrite E. rewrite (app_assoc fl [newline] r : fl ++ newline :: r = _), app_assoc. apply take_app_length'.
          rewrite !length_app. cbn [length]. unfold zlength in *. lia. }
        split; [|unfold zlength in *; lia]. split; [done|]. split; [unfold zlength in *; lia|]. split; [lia|]. rewrite Etk. split; [apply closed_line|].
        rewrite lines_app by done. rewrite (lines_line fl []) by done. cbn. unfold zlength in *. rewrite length_app. cbn. lia.
    + assert (k = number) as -> by lia. apply wp_ret. cbv beta iota. destruct (Z.leb_spec (edit_length s) p) as [Hge'|Hlt].
      { apply wp_ret. split; [done|]. right. rewrite take_ge in Hcount by (unfold zlength in Hz; lia). lia. }
      apply wp_bind. eapply wp_mono; [by apply (to_newline_ok s p)|]. cbv beta. intros q s' [-> ->]. apply wp_ret. split; [done|].
      set (fl := first_line (drop (Z.to_nat p) (content s))) in *. exists (take (Z.to_nat p) (content s)), fl.
      destruct Hsplit as [E|[r E]].
      * exists [], []. rewrite E in Hzd. split; [|destruct (Z.ltb_spec (p + zlength fl) (edit_length s)); [lia|]; split; [done|]; split; [done|]; change (zlength (@nil Z)) with 0; lia].
        split; [by rewrite !app_nil_r, <-E|done|done|done|]. right. split; [done|]. split; [done|]. intros ->. unfold zlength in Hzd. cbn in Hzd. lia.
      * exists [newline], r. assert (zlength (fl ++ newline :: r) = edit_length s - p) as Hzr by congruence. unfold zlength in Hzr. rewrite length_app in Hzr. cbn [length] in Hzr.
        split; [split; [cbn; by rewrite <-E|done|done|done|by left]|]. destruct (Z.ltb_spec (p + zlength fl) (edit_length s)); [|unfold zlength in *; lia].
        split; [done|]. split; [done|]. done.
Qed.

(** ** Counting lines *)

Definition newlines (t : list Z) : Z := zlength (filter (fun c => c = newline) t).

Lemma newlines_snoc t c : newlines (t ++ [c]) = if c =? newline then newlines t + 1 else newlines t.
Proof.
  unfold newlines, zlength. rewrite filter_app, length_app, filter_cons. destruct (Z.eqb_spec c newline); [rewrite decide_True by done|rewrite decide_False by done]; cbn; lia.
Qed.

Lemma lines_count t : zlength (lines t) = newlines t + (if bool_decide (t = [] \/ last t = Some newline) then 0 else 1).
Proof.
  induction t as [|c t IH]; [done|]. unfold newlines, zlength in *. rewrite filter_cons. cbn [lines]. rewrite (bool_decide_ext (c :: t = [] \/ last (c :: t) = Some newline) (last (c :: t) = Some newline)) by naive_solver.
  destruct (decide (t = [])) as [->|Ht].
  - destruct (Z.eqb_spec c newline) as [->|Hc]; [done|]. rewrite decide_False, bool_decide_eq_false_2 by (done || by intros [= ->]). done.
  - assert (last (c :: t) = last t) as -> by (destruct t; done). rewrite (bool_decide_ext (t = [] \/ last t = Some newline) (last t = Some newline)) in IH by naive_solver.
    destruct (Z.eqb_spec c newline) as [->|Hc]; [rewrite decide_True by done; cbn [length]; lia|]. rewrite decide_False by done.
    destruct (lines t) as [|l ls] eqn:El; [|exact IH]. exfalso. destruct t as [|d t]; [done|]. cbn in El. destruct (d =? newline); [done|]. by destruct (lines t).
Qed.

Lemma line_count_ok s : wf s -> wp line_count s (fun n s' => s' = s /\ n = zlength (lines (content s))).
Proof.
  intros Hs. pose proof (content_length s Hs) as Hz. pose proof (wf_length s Hs) as Hn. unfold line_count. apply wp_bind, wp_gets.
  destruct (Z.eqb_spec (edit_length s) 0) as [E0|Hl0].
  { apply wp_ret. split; [done|]. unfold content. rewrite E0. done. }
  apply wp_bind.
  apply (wp_for_acc (fun i n s' => s' = s /\ n = newlines (take (Z.to_nat i) (content s)))); [done|..].
  - intros i n s' Hi (-> & ->). apply wp_bind, peek_ok; [done|lia|]. apply wp_ret. split; [done|].
    replace (Z.to_nat (i + 1)) with (S (Z.to_nat i)) by lia.
    assert (content s !! Z.to_nat i = Some (byte_at (edit_buffer s) i)) as Hc.
    { rewrite <-content_at by lia. unfold byte_at. destruct (lookup_lt_is_Some_2 (content s) (Z.to_nat i)) as [x ->]; [unfold zlength in Hz; lia|done]. }
    rewrite (take_S_r _ _ _ Hc), newlines_snoc. done.
  - intros n s' (-> & ->). rewrite take_ge by (unfold zlength in Hz; lia). apply wp_bind, peek_ok; [done|lia|]. apply wp_ret. split; [done|].
    rewrite lines_count. assert (last (content s) = Some (byte_at (edit_buffer s) (edit_length s - 1))) as Hlast.
    { rewrite last_lookup, <-content_at by lia. unfold byte_at. replace (pred (length (content s))) with (Z.to_nat (edit_length s - 1)) by (unfold zlength in Hz; lia).
      destruct (lookup_lt_is_Some_2 (content s) (Z.to_nat (edit_length s - 1))) as [x ->]; [unfold zlength in Hz; lia|done]. }
    rewrite Hlast. destruct (Z.eqb_spec (byte_at (edit_buffer s) (edit_length s - 1)) newline) as [->|Hne]; cbn [negb].
    + rewrite bool_decide_eq_true_2 by (by right). lia.
    + rewrite bool_decide_eq_false_2; [done|]. intros [E|[= E]]; [rewrite E in Hz; unfold zlength in Hz; cbn in Hz; lia|done].
Qed.

(** ** Replacing a range *)

(** The buffer [b'] is [b] with [n] bytes from [from] copied to [to]. *)
Definition moved (b b' : list Z) (from to n : Z) : Prop :=
  length b' = length b /\ forall j, 0 <= j -> b' !! Z.to_nat j = if (to <=? j) && (j <? to + n) then b !! Z.to_nat (j - to + from) else b !! Z.to_nat j.

Lemma move_up_ok s start e n tail : wf s -> 0 <= start -> 0 <= n -> 0 <= tail -> start <= e -> e < start + n -> start + n + tail <= 32768 ->
  wp (move_up start e n tail) s (fun _ s' => exists b, s' = set_buffer b s /\ wf s' /\ moved (edit_buffer s) b e (start + n) tail).
Proof.
  intros Hs H1 H2 H3 H4 H5 H6. unfold move_up.
  apply (wp_while (fun i s' => 0 <= i <= tail /\ exists b, s' = set_buffer b s /\ wf s' /\ moved (edit_buffer s) b (e + i) (start + n + i) (tail - i)) (fun i _ => Z.to_nat i)).
  - split; [lia|]. exists (edit_buffer s). split; [by destruct s|]. split; [done|]. split; [done|]. intros j Hj.
    destruct (Z.leb_spec (start + n + tail) j), (Z.ltb_spec j (start + n + tail + (tail - tail))); try lia; done.
  - lia.
  - intros i s' (Hi & b & -> & Hw & [Hl Hm]). destruct (Z.ltb_spec 0 i) as [Hp|Hp]; cbn [negb].
    2:{ apply wp_ret. exists b. split; [done|]. split; [done|]. assert (i = 0) as -> by lia. rewrite !Z.add_0_r, Z.sub_0_r in Hm. by split. }
    apply wp_bind, peek_ok; [done|lia|]. cbn [edit_buffer set_buffer].
    apply wp_bind, poke_ok; [done|lia|by apply byte_at_range, Hw|]. intros Hw'. apply wp_ret. split; [|lia]. split; [lia|].
    eexists. split; [reflexivity|]. split; [exact Hw'|]. cbn [edit_buffer set_buffer]. split; [by rewrite length_insert|]. intros j Hj.
    pose proof (wf_capacity s Hs) as Hcap. unfold zlength in Hcap.
    destruct (decide (j = start + n + i - 1)) as [->|Hne].
    + rewrite list_lookup_insert_eq by lia. destruct (Z.leb_spec (start + n + (i - 1)) (start + n + i - 1)), (Z.ltb_spec (start + n + i - 1) (start + n + (i - 1) + (tail - (i - 1)))); try lia.
      cbn [andb]. unfold byte_at. specialize (Hm (e + i - 1) ltac:(lia)).
      destruct (Z.leb_spec (start + n + i) (e + i - 1)); [lia|]. cbn [andb] in Hm. rewrite Hm.
      replace (start + n + i - 1 - (start + n + (i - 1)) + (e + (i - 1))) with (e + i - 1) by lia.
      destruct (lookup_lt_is_Some_2 (edit_buffer s) (Z.to_nat (e + i - 1))) as [x ->]; [lia|done].
    + rewrite list_lookup_insert_ne by lia. rewrite Hm by done.
      destruct (Z.leb_spec (start + n + i) j), (Z.ltb_spec j (start + n + i + (tail - i))), (Z.leb_spec (start + n + (i - 1)) j), (Z.ltb_spec j (start + n + (i - 1) + (tail - (i - 1)))); try lia; cbn [andb]; try done; f_equal; lia.
Qed.

Lemma move_down_ok s start e n tail : wf s -> 0 <= start -> 0 <= n -> 0 <= tail -> start + n <= e -> e + tail <= 32768 ->
  wp (move_down start e n tail) s (fun _ s' => exists b, s' = set_buffer b s /\ wf s' /\ moved (edit_buffer s) b e (start + n) tail).
Proof.
  intros Hs H1 H2 H3 H4 H5. unfold move_down.
  apply (wp_for_range (fun i s' => exists b, s' = set_buffer b s /\ wf s' /\ moved (edit_buffer s) b e (start + n) i)).
  - exists (edit_buffer s). split; [by destruct s|]. split; [done|]. split; [done|]. intros j Hj.
    destruct (Z.leb_spec (start + n) j), (Z.ltb_spec j (start + n + 0)); try lia; done.
  - intros i s' Hi (b & -> & Hw & [Hl Hm]). rewrite Z2Nat.id in Hi by lia. apply wp_bind, peek_ok; [done|lia|]. cbn [edit_buffer set_buffer].
    apply poke_ok; [done|lia|by apply byte_at_range, Hw|]. intros Hw'. eexists. split; [reflexivity|]. split; [exact Hw'|].
    cbn [edit_buffer set_buffer]. split; [by rewrite length_insert|]. intros j Hj. pose proof (wf_capacity s Hs) as Hcap. unfold zlength in Hcap.
    destruct (decide (j = start + n + i)) as [->|Hne].
    + rewrite list_lookup_insert_eq by lia. destruct (Z.leb_spec (start + n) (start + n + i)), (Z.ltb_spec (start + n + i) (start + n + (i + 1))); try lia.
      cbn [andb]. unfold byte_at. specialize (Hm (e + i) ltac:(lia)). destruct (Z.ltb_spec (e + i) (start + n + i)); [lia|]. rewrite andb_false_r in Hm. rewrite Hm.
      replace (start + n + i - (start + n) + e) with (e + i) by lia. destruct (lookup_lt_is_Some_2 (edit_buffer s) (Z.to_nat (e + i))) as [x ->]; [lia|done].
    + rewrite list_lookup_insert_ne by lia. rewrite Hm by done.
      destruct (Z.leb_spec (start + n) j), (Z.ltb_spec j (start + n + i)), (Z.ltb_spec j (start + n + (i + 1))); try lia; done.
  - intros s' Hs'. rewrite Z2Nat.id in Hs' by lia. exact Hs'.
Qed.

(** The replacement copied over the buffer. *)
Lemma fill_ok s start r n : wf s -> bytes r -> 0 <= n <= zlength r -> 0 <= start -> start + n <= 32768 ->
  wp (for_range (Z.to_nat n) 0 (fun index => let! r := access (Some r) in let! c := fetch r index in poke (start + index) (u8 c))) s
    (fun _ s' => exists b, s' = set_buffer b s /\ wf s' /\ length b = length (edit_buffer s) /\
      forall j, 0 <= j -> b !! Z.to_nat j = if (start <=? j) && (j <? start + n) then r !! Z.to_nat (j - start) else edit_buffer s !! Z.to_nat j).
Proof.
  intros Hs Hr Hn H1 H2.
  apply (wp_for_range (fun i s' => exists b, s' = set_buffer b s /\ wf s' /\ length b = length (edit_buffer s) /\
    forall j, 0 <= j -> b !! Z.to_nat j = if (start <=? j) && (j <? start + i) then r !! Z.to_nat (j - start) else edit_buffer s !! Z.to_nat j)).
  - exists (edit_buffer s). split; [by destruct s|]. split; [done|]. split; [done|]. intros j Hj. destruct (Z.leb_spec start j), (Z.ltb_spec j (start + 0)); try lia; done.
  - intros i s' Hi (b & -> & Hw & Hl & Hm). rewrite Z2Nat.id in Hi by lia. apply wp_bind, wp_ret, wp_bind, fetch_ok; [lia|].
    pose proof (byte_at_range r i Hr) as Hb. rewrite u8_id by lia. apply poke_ok; [done|lia|done|]. intros Hw'. eexists. split; [reflexivity|]. split; [exact Hw'|].
    cbn [edit_buffer set_buffer]. split; [by rewrite length_insert|]. intros j Hj. pose proof (wf_capacity s Hs) as Hcap. unfold zlength in *.
    destruct (decide (j = start + i)) as [->|Hne].
    + rewrite list_lookup_insert_eq by lia. destruct (Z.leb_spec start (start + i)), (Z.ltb_spec (start + i) (start + (i + 1))); try lia. cbn [andb].
      replace (start + i - start) with i by lia. unfold byte_at. destruct (lookup_lt_is_Some_2 r (Z.to_nat i)) as [x ->]; [lia|done].
    + rewrite list_lookup_insert_ne by lia. rewrite Hm by done. destruct (Z.leb_spec start j), (Z.ltb_spec j (start + i)), (Z.ltb_spec j (start + (i + 1))); try lia; done.
  - intros s' Hs'. rewrite Z2Nat.id in Hs' by lia. exact Hs'.
Qed.

(** The buffer after the tail was moved and the replacement filled in. *)
Lemma content_spliced s b b' start e r n : wf s -> 0 <= start <= e -> e <= edit_length s -> 0 <= n <= zlength r -> edit_length s - (e - start) + n <= 32768 ->
  moved (edit_buffer s) b e (start + n) (edit_length s - e) ->
  length b' = length b -> (forall j, 0 <= j -> b' !! Z.to_nat j = if (start <=? j) && (j <? start + n) then r !! Z.to_nat (j - start) else b !! Z.to_nat j) ->
  take (Z.to_nat (edit_length s - (e - start) + n)) b' = take (Z.to_nat start) (content s) ++ take (Z.to_nat n) r ++ drop (Z.to_nat e) (content s).
Proof.
  intros Hs H1 H2 H3 H4 [Hl Hm] Hl' Hm'. pose proof (wf_capacity s Hs) as Hcap. pose proof (content_length s Hs) as Hz. unfold zlength in *.
  apply list_eq. intros j. destruct (decide (j < Z.to_nat (edit_length s - (e - start) + n))%nat) as [Hj|Hj].
  2:{ rewrite lookup_take_ge by lia. symmetry. apply lookup_ge_None_2. rewrite !length_app, !length_take, length_drop. lia. }
  rewrite lookup_take_lt by done. replace j with (Z.to_nat (Z.of_nat j)) at 1 by lia. rewrite Hm' by lia. unfold content.
  destruct (Z.leb_spec start (Z.of_nat j)) as [Ha|Ha]; cbn [andb].
  2:{ rewrite Hm by lia. destruct (Z.leb_spec (start + n) (Z.of_nat j)); [lia|]. cbn [andb]. rewrite lookup_app_l by (rewrite !length_take; lia).
      rewrite !lookup_take_lt by lia. by rewrite Nat2Z.id. }
  rewrite lookup_app_r by (rewrite !length_take; lia). rewrite !length_take. destruct (Z.ltb_spec (Z.of_nat j) (start + n)) as [Hb|Hb]; cbn [andb].
  - rewrite lookup_app_l by (rewrite length_take; lia). rewrite lookup_take_lt by lia. f_equal. lia.
  - rewrite Hm by lia. destruct (Z.leb_spec (start + n) (Z.of_nat j)); [|lia]. destruct (Z.ltb_spec (Z.of_nat j) (start + n + (edit_length s - e))); [|lia]. cbn [andb].
    rewrite lookup_app_r by (rewrite length_take; lia). rewrite lookup_drop, lookup_take_lt by (rewrite length_take; lia). f_equal. rewrite length_take. lia.
Qed.

(** [replace_range] on a range of the text: the text with the range replaced,
    unless that would be too long. *)
Lemma replace_range_ok s start e r n : wf s -> 0 <= start <= e -> e <= edit_length s ->
  match r with Some l => bytes l /\ 0 <= n <= zlength l | None => n = 0 end -> n <= 32768 ->
  wp (replace_range start e r n) s (fun ok s' => wf s' /\ user s' = user s /\
    ok = (edit_length s - (e - start) + n <=? 32768) /\
    if ok : bool then content s' = take (Z.to_nat start) (content s) ++ take (Z.to_nat n) (default [] r) ++ drop (Z.to_nat e) (content s) else s' = s).
Proof.
  intros Hs H1 H2 Hr Hn. pose proof (wf_length s Hs) as Hl. unfold replace_range. apply wp_bind, wp_gets.
  destruct (Z.ltb_spec e start); [lia|]. destruct (Z.ltb_spec (edit_length s) e); [lia|]. cbn [orb].
  assert (bool_decide (r = None) && negb (n =? 0) = false) as ->.
  { destruct r; [rewrite bool_decide_eq_false_2 by done; done|]. subst n. apply andb_false_r. }
  assert (0 <= n) as Hn0 by (destruct r; lia). unfold EDIT_BUFFER_CAPACITY.
  rewrite (u32_id (edit_length s - (e - start))), (u32_id (32768 - (edit_length s - (e - start)))), (u32_id (edit_length s - (e - start) + n)) by lia.
  destruct (Z.ltb_spec (32768 - (edit_length s - (e - start))) n) as [Hbig|Hfit].
  { apply wp_ret. split; [done|]. split; [done|]. rewrite (proj2 (Z.leb_gt _ _)) by lia. done. }
  set (l := default [] r). assert (bytes l /\ 0 <= n <= zlength l) as [Hlb Hln].
  { unfold l. destruct r; [done|]. subst n. split; [by apply Forall_nil_2|done]. }
  apply wp_bind. eapply (wp_mono _ _ (fun _ s' => exists b, s' = set_buffer b s /\ wf s' /\ moved (edit_buffer s) b e (start + n) (edit_length s - e))).
  { destruct (Z.ltb_spec (e - start) n); [apply move_up_ok|apply move_down_ok]; try done; lia. }
  cbv beta. intros [] s1 (b & -> & Hw & Hm). apply wp_bind.
  assert (for_range (Z.to_nat n) 0 (fun index => let! r := access r in let! c := fetch r index in poke (start + index) (u8 c)) =
    for_range (Z.to_nat n) 0 (fun index => let! r := access (Some l) in let! c := fetch r index in poke (start + index) (u8 c))) as ->.
  { unfold l. destruct r; [done|]. by subst n. }
  eapply wp_mono; [apply (fill_ok (set_buffer b s) start l n); try done; lia|].
  cbv beta. intros [] s2 (b' & -> & Hw' & Hl' & Hm'). apply wp_bind, wp_modify, wp_ret.
  cbn [edit_buffer set_buffer] in *. rewrite (proj2 (Z.leb_le _ _)) by lia. split; [destruct Hw' as [A1 A2 A3]; split; [done|cbn; lia|done]|].
  split; [done|]. split; [done|]. apply (content_spliced s b b' start e l n); try done; lia.
Qed.

(** ** The commands *)

(** What a user can type as a line. *)
Definition typed (t : list Z) : Prop := bytes t /\ c_text t /\ no_newline t /\ zlength t <= 255.

Lemma payload_ok leading t : typed t ->
  build_line_payload (EDIT_COMMAND_CAPACITY + 2) leading t = Some ((if leading then [newline] else []) ++ t ++ [newline]).
Proof.
  intros (_ & Ht & _ & Hz). unfold build_line_payload. rewrite strlen_text by done. change (EDIT_COMMAND_CAPACITY + 2) with 258.
  rewrite (proj2 (Z.ltb_ge _ _)) by (destruct leading; lia). rewrite take_ge by (unfold zlength; lia). done.
Qed.

Lemma line_bytes leading t : typed t -> bytes ((if leading : bool then [newline] else []) ++ t ++ [newline]).
Proof. intros (Hb & _). assert (bytes [newline]) as Hn by (repeat constructor; unfold newline; lia). destruct leading; repeat apply Forall_app_2; try done; apply Forall_nil_2. Qed.

Lemma zlength_cat {A} (l1 l2 : list A) : zlength (l1 ++ l2) = zlength l1 + zlength l2.
Proof. unfold zlength. rewrite length_app. lia. Qed.

(** The text ends in the middle of a line. *)
Definition open_end (t : list Z) : bool := negb (bool_decide (t = [] \/ last t = Some newline)).

Lemma closed_iff t : closed t <-> open_end t = false.
Proof.
  unfold open_end. rewrite negb_false_iff, bool_decide_eq_true. split; (intros [->|H]; [by left|right]).
  - destruct H as [t' ->]. apply last_snoc.
  - apply last_Some in H. exact H.
Qed.

Lemma content_last s : wf s -> edit_length s <> 0 -> last (content s) = Some (byte_at (edit_buffer s) (edit_length s - 1)).
Proof.
  intros Hs H0. pose proof (content_length s Hs) as Hz. pose proof (wf_length s Hs). rewrite last_lookup, <-content_at by lia. unfold byte_at.
  replace (pred (length (content s))) with (Z.to_nat (edit_length s - 1)) by (unfold zlength in Hz; lia).
  destruct (lookup_lt_is_Some_2 (content s) (Z.to_nat (edit_length s - 1))) as [x ->]; [unfold zlength in Hz; lia|done].
Qed.

Lemma append_line_ok s t : wf s -> typed t ->
  wp (append_line t) s (fun ok s' => wf s' /\ user s' = user s /\
    if ok : bool then lines (content s') = lines (content s) ++ [t] else s' = s /\ 32768 < edit_length s + zlength t + 2).
Proof.
  intros Hs Ht. pose proof (content_length s Hs) as Hz. pose proof (wf_length s Hs) as Hl. unfold append_line. apply wp_bind, wp_gets, wp_bind.
  apply (wp_mono _ _ (fun b s' => b = open_end (content s) /\ s' = s)).
  { apply wp_andM, wp_ret. unfold open_end. destruct (Z.ltb_spec 0 (edit_length s)) as [Hp|Hp].
    - apply wp_bind, peek_ok; [done|lia|]. apply wp_ret. split; [|done]. rewrite content_last by (done || lia). f_equal.
      assert (content s <> []) as Hne by (intros E; rewrite E in Hz; unfold zlength in Hz; cbn in Hz; lia).
      destruct (Z.eqb_spec (byte_at (edit_buffer s) (edit_length s - 1)) newline) as [->|Hn]; symmetry; [apply bool_decide_eq_true; by right|].
      apply bool_decide_eq_false. intros [?|[= ?]]; done.
    - split; [|done]. rewrite bool_decide_eq_true_2; [done|]. left. unfold zlength in Hz. destruct (content s); [done|cbn in Hz; lia]. }
  cbv beta. intros lead s' [-> ->]. rewrite payload_ok by done. set (lead := open_end (content s)). pose proof Ht as (Hb & Hc & Hnn & H255).
  set (pl := (if lead then [newline] else []) ++ t ++ [newline]). assert (zlength pl = (if lead then 1 else 0) + zlength t + 1) as Hpl.
  { unfold pl. rewrite !zlength_cat. destruct lead; change (zlength [newline]) with 1; change (zlength (@nil Z)) with 0; lia. }
  eapply wp_mono; [apply (replace_range_ok s (edit_length s) (edit_length s) (Some pl) (zlength pl)); try done; try lia|].
  { split; [by apply line_bytes|unfold zlength; lia]. }
  { rewrite Hpl. destruct lead; lia. }
  cbv beta. intros ok s' (Hw & Hu & Hok & Hres). split; [done|]. split; [done|]. destruct ok.
  2:{ split; [done|]. symmetry in Hok. apply Z.leb_gt in Hok. rewrite Hpl in Hok. destruct lead; lia. }
  rewrite Hres. rewrite take_ge, drop_ge by (unfold zlength in Hz; lia). rewrite app_nil_r. cbn [default from_option id]. rewrite take_ge by (unfold zlength; lia).
  unfold pl. destruct lead eqn:El.
  - assert (~ closed (content s)) as Hnc by (rewrite closed_iff; unfold lead in El; congruence).
    change ([newline] ++ t ++ [newline]) with ([newline] ++ (t ++ [newline])). rewrite app_assoc, lines_app by (right; by exists (content s)).
    rewrite lines_open by done. f_equal. by apply (lines_line t []).
  - rewrite lines_app by (by apply closed_iff). f_equal. by apply (lines_line t []).
Qed.

Lemma zlength_lines_take {A} (l1 l2 : list A) (k : Z) : zlength l1 = k -> take (Z.to_nat k) (l1 ++ l2) = l1 /\ drop (Z.to_nat k) (l1 ++ l2) = l2.
Proof. intros <-. unfold zlength. rewrite Nat2Z.id. split; [apply take_app_length|apply drop_app_length]. Qed.

(** Changing the part of the text between two places of a line. *)
Lemma at_line_change s number pre l sep post (skip keep : list Z) (mid : list Z) :
  wf s -> at_line (content s) number pre l sep post -> l ++ sep = skip ++ keep ->
  take (Z.to_nat (zlength pre)) (content s) ++ mid ++ drop (Z.to_nat (zlength pre + zlength skip)) (content s) = pre ++ mid ++ keep ++ post.
Proof.
  intros Hs [-> _ _ _ _] E. assert (pre ++ l ++ sep ++ post = pre ++ skip ++ keep ++ post) as ->.
  { f_equal. rewrite (app_assoc l), (app_assoc skip). by rewrite E. }
  destruct (zlength_lines_take pre (skip ++ keep ++ post) (zlength pre) eq_refl) as [-> _].
  rewrite (app_assoc pre skip). destruct (zlength_lines_take (pre ++ skip) (keep ++ post) (zlength pre + zlength skip)) as [_ ->]; [apply zlength_cat|]. done.
Qed.

Lemma at_line_length s number pre l sep post : wf s -> at_line (content s) number pre l sep post ->
  zlength pre + zlength l + zlength sep + zlength post = edit_length s.
Proof. intros Hs [E _ _ _ _]. rewrite <-(content_length s Hs), E, !zlength_cat. lia. Qed.

Inductive edit_op := Append (t : list Z) | Insert (n : Z) (t : list Z) | Replace (n : Z) (t : list Z) | Delete (n : Z).

Definition perform (op : edit_op) : M (editor U) bool :=
  match op with
  | Append t => append_line t
  | Insert n t => insert_line n t
  | Replace n t => replace_line n t
  | Delete n => delete_line n
  end.

Definition op_ok (op : edit_op) : Prop :=
  match op with Append t => typed t | Insert n t | Replace n t => typed t /\ 0 <= n < 4294967296 | Delete n => 0 <= n < 4294967296 end.

Definition op_text (op : edit_op) : list Z := match op with Append t | Insert _ t | Replace _ t => t | Delete _ => [] end.

(** The operations on a document; [None] when there is no such line. A last
    line without a newline that is replaced by nothing disappears. *)
Definition changed (op : edit_op) (ls : list (list Z)) (unfinished : bool) : option (list (list Z)) :=
  let count := zlength ls in
  match op with
  | Append t => Some (ls ++ [t])
  | Insert n t => if (1 <=? n) && (n <=? count + 1) then Some (take (Z.to_nat (n - 1)) ls ++ t :: drop (Z.to_nat (n - 1)) ls) else None
  | Replace n t => if (1 <=? n) && (n <=? count) then
      Some (take (Z.to_nat (n - 1)) ls ++ (if unfinished && (n =? count) && bool_decide (t = []) then [] else [t]) ++ drop (Z.to_nat n) ls) else None
  | Delete n => if (1 <=? n) && (n <=? count) then Some (take (Z.to_nat (n - 1)) ls ++ drop (Z.to_nat n) ls) else None
  end.

(** A command did what it is for, or there was no room for it. *)
Definition done_or_full (op : edit_op) s (ls : list (list Z)) (ok : bool) s' : Prop :=
  wf s' /\ user s' = user s /\
  if ok then lines (content s') = ls else s' = s /\ 32768 < edit_length s + zlength (op_text op) + 2.

Lemma line_split s n pre l sep post : at_line (content s) n pre l sep post ->
  let ls := lines (content s) in take (Z.to_nat (n - 1)) ls = lines pre /\ drop (Z.to_nat (n - 1)) ls = l :: lines post /\ drop (Z.to_nat n) ls = lines post.
Proof.
  intros H. pose proof (at_line_count _ _ _ _ _ _ H) as Hc. cbv zeta. rewrite (at_line_lines _ _ _ _ _ _ H).
  destruct (zlength_lines_take (lines pre) (l :: lines post) (n - 1) (al_number _ _ _ _ _ _ H)) as [-> ->]. split; [done|]. split; [done|].
  assert (lines pre ++ l :: lines post = (lines pre ++ [l]) ++ lines post) as -> by (by rewrite <-app_assoc).
  destruct (zlength_lines_take (lines pre ++ [l]) (lines post) n) as [_ ->]; [|done].
  rewrite zlength_cat, (al_number _ _ _ _ _ _ H). change (zlength [l]) with 1. lia.
Qed.

Lemma insert_line_ok s n t : wf s -> typed t -> 1 <= n <= zlength (lines (content s)) ->
  wp (insert_line n t) s (done_or_full (Insert n t) s (take (Z.to_nat (n - 1)) (lines (content s)) ++ t :: drop (Z.to_nat (n - 1)) (lines (content s)))).
Proof.
  intros Hs Ht Hn. unfold insert_line. apply wp_bind. eapply wp_mono; [by apply line_count_ok|]. cbv beta. intros c s' [-> ->].
  assert (zlength (lines (content s)) <= 32768) as Hmax.
  { pose proof (content_length s Hs). pose proof (wf_length s Hs). pose proof (lines_bound (content s)). lia. }
  rewrite u32_id by lia. destruct (Z.eqb_spec n (zlength (lines (content s)) + 1)); [lia|].
  destruct (Z.eqb_spec n 0); [lia|]. destruct (Z.ltb_spec (zlength (lines (content s))) n); [lia|]. cbn [orb].
  apply wp_bind. eapply wp_mono; [apply (line_bounds_ok s n); [done|lia]|]. cbv beta. intros [[[a c] e]|] s' [-> Hb]; [|lia].
  destruct Hb as (pre & l & sep & post & Hat & -> & -> & ->). rewrite payload_ok by done. pose proof (at_line_length _ _ _ _ _ _ Hs Hat) as Hlen.
  pose proof Ht as (Hbt & Hc & Hnn & H255). set (pl := [] ++ t ++ [newline]). assert (zlength pl = zlength t + 1) as Hpl by (unfold pl; cbn [app]; by rewrite zlength_cat).
  assert (forall l : list Z, 0 <= zlength l) as Hpos by (intros; unfold zlength; lia).
  pose proof (Hpos pre). pose proof (Hpos l). pose proof (Hpos sep). pose proof (Hpos post).
  eapply wp_mono; [apply (replace_range_ok s (zlength pre) (zlength pre) (Some pl) (zlength pl)); try done; try lia|].
  { split; [by apply (line_bytes false)|unfold zlength; lia]. }
  cbv beta. intros ok s' (Hw & Hu & Hok & Hres). split; [done|]. split; [done|]. destruct ok.
  2:{ split; [done|]. symmetry in Hok. apply Z.leb_gt in Hok. cbn [op_text]. lia. }
  rewrite Hres. cbn [default from_option id]. rewrite (take_ge pl) by (unfold zlength; lia).
  replace (zlength pre) with (zlength pre + zlength (@nil Z)) at 2 by (change (zlength (@nil Z)) with 0; lia).
  rewrite (at_line_change s n pre l sep post [] (l ++ sep)) by done. destruct (line_split s n pre l sep post Hat) as (-> & -> & _).
  rewrite lines_app by apply Hat. f_equal. unfold pl. cbn [app]. rewrite <-app_assoc. cbn [app]. rewrite lines_line by done. f_equal.
  pose proof (at_line_lines _ _ _ _ _ _ Hat) as El. rewrite (al_text _ _ _ _ _ _ Hat), lines_app in El by apply Hat. apply app_inv_head in El. by rewrite <-app_assoc.
Qed.

Lemma zlength_nonneg {A} (l : list A) : 0 <= zlength l.
Proof. unfold zlength. lia. Qed.

Lemma replace_line_ok s n t : wf s -> typed t -> 1 <= n <= zlength (lines (content s)) ->
  let ls := lines (content s) in
  wp (replace_line n t) s (done_or_full (Replace n t) s (take (Z.to_nat (n - 1)) ls ++
    (if open_end (content s) && (n =? zlength ls) && bool_decide (t = []) then [] else [t]) ++ drop (Z.to_nat n) ls)).
Proof.
  intros Hs Ht Hn ls. unfold replace_line. apply wp_bind. eapply wp_mono; [apply (line_bounds_ok s n); [done|lia]|]. cbv beta. intros [[[a c] e]|] s' [-> Hb]; [|lia].
  destruct Hb as (pre & l & sep & post & Hat & -> & -> & ->). pose proof (at_line_length _ _ _ _ _ _ Hs Hat) as Hlen.
  pose proof Ht as (Hbt & Hc & Hnn & H255). rewrite strlen_text by done.
  pose proof (zlength_nonneg pre). pose proof (zlength_nonneg l). pose proof (zlength_nonneg sep). pose proof (zlength_nonneg post). pose proof (zlength_nonneg t).
  eapply wp_mono; [apply (replace_range_ok s (zlength pre) (zlength pre + zlength l) (Some t) (zlength t)); try done; try lia; by split|].
  cbv beta. intros ok s' (Hw & Hu & Hok & Hres). split; [done|]. split; [done|]. destruct ok.
  2:{ split; [done|]. symmetry in Hok. apply Z.leb_gt in Hok. cbn [op_text]. lia. }
  rewrite Hres. cbn [default from_option id]. rewrite (take_ge t) by (unfold zlength; lia).
  rewrite (at_line_change s n pre l sep post l sep) by done. destruct (line_split s n pre l sep post Hat) as (Ht1 & _ & Ht2). fold ls in Ht1, Ht2. rewrite Ht1, Ht2.
  rewrite lines_app by apply Hat. f_equal. pose proof (at_line_lines _ _ _ _ _ _ Hat) as El. fold ls in El.
  assert (zlength ls = n + zlength (lines post)) as Hcount by (rewrite El, zlength_cat, (al_number _ _ _ _ _ _ Hat); unfold zlength; cbn; lia).
  destruct (al_sep _ _ _ _ _ _ Hat) as [->|(-> & -> & Hl)].
  - cbn [app]. rewrite lines_line by done. destruct (open_end (content s) && (n =? zlength ls) && bool_decide (t = [])) eqn:E; [|done].
    apply andb_true_iff in E as [E _]. apply andb_true_iff in E as [Eo En]. apply Z.eqb_eq in En. exfalso.
    assert (lines post = []) as Ep by (apply nil_length_inv; unfold zlength in *; lia). assert (post = []) as ->.
    { destruct post as [|x post]; [done|]. cbn in Ep. destruct (x =? newline); [done|]. by destruct (lines post). }
    assert (closed (content s)) as Hcl by (rewrite (al_text _ _ _ _ _ _ Hat); cbn [app]; apply closed_line). apply closed_iff in Hcl. congruence.
  - assert (open_end (content s) = true) as ->.
    { apply not_false_iff_true. intros Hcl. apply closed_iff in Hcl. rewrite (al_text _ _ _ _ _ _ Hat), !app_nil_r in Hcl.
      revert Hcl. apply open_line; [apply Hat|done]. }
    rewrite (proj2 (Z.eqb_eq n _)) by (cbn in Hcount; unfold zlength in *; cbn in Hcount; lia). cbn [andb]. rewrite !app_nil_r. destruct (decide (t = [])) as [->|Hne].
    + by rewrite bool_decide_eq_true_2.
    + rewrite bool_decide_eq_false_2 by done. by apply lines_last.
Qed.

Lemma delete_line_ok s n : wf s -> 1 <= n <= zlength (lines (content s)) ->
  let ls := lines (content s) in
  wp (delete_line n) s (done_or_full (Delete n) s (take (Z.to_nat (n - 1)) ls ++ drop (Z.to_nat n) ls)).
Proof.
  intros Hs Hn ls. unfold delete_line. apply wp_bind. eapply wp_mono; [apply (line_bounds_ok s n); [done|lia]|]. cbv beta. intros [[[a c] e]|] s' [-> Hb]; [|lia].
  destruct Hb as (pre & l & sep & post & Hat & -> & -> & ->). pose proof (at_line_length _ _ _ _ _ _ Hs Hat) as Hlen. pose proof (wf_length s Hs).
  pose proof (zlength_nonneg pre). pose proof (zlength_nonneg l). pose proof (zlength_nonneg sep). pose proof (zlength_nonneg post).
  eapply wp_mono; [apply (replace_range_ok s (zlength pre) (zlength pre + zlength l + zlength sep) None 0); try done; lia|].
  cbv beta. intros ok s' (Hw & Hu & Hok & Hres). split; [done|]. split; [done|]. destruct ok.
  2:{ symmetry in Hok. apply Z.leb_gt in Hok. lia. }
  rewrite Hres. change (take (Z.to_nat 0) (default [] None)) with (@nil Z). rewrite <-Z.add_assoc, <-zlength_cat.
  rewrite (at_line_change s n pre l sep post (l ++ sep) []) by (done || by rewrite app_nil_r).
  destruct (line_split s n pre l sep post Hat) as (Ht1 & _ & Ht2). fold ls in Ht1, Ht2. rewrite Ht1, Ht2. cbn [app]. by apply lines_app, Hat.
Qed.

Lemma edit_perform_ok s op :
  wf s -> op_ok op ->
  wp (perform op) s (fun ok s' =>
    match changed op (lines (content s)) (open_end (content s)) with
    | None => ok = false /\ s' = s
    | Some ls => done_or_full op s ls ok s'
    end).
Proof.
  intros Hs Hop. assert (forall n, 0 <= n -> ~ 1 <= n <= zlength (lines (content s)) -> wp (line_bounds n) s (fun r s' => r = None /\ s' = s)) as Hnone.
  { intros n Hn Hout. eapply wp_mono; [apply (line_bounds_ok s n); [done|lia]|]. cbv beta. intros [[[a c] e]|] s' [-> Hb]; [|done].
    destruct Hb as (pre & l & sep & post & Hat & _). by apply at_line_count in Hat. }
  destruct op as [t|n t|n t|n]; cbn [perform changed op_ok] in *.
  - eapply wp_mono; [by apply append_line_ok|]. cbv beta. by intros ok s' (H1 & H2 & H3).
  - destruct Hop as [Ht Hn]. destruct (decide (n = zlength (lines (content s)) + 1)) as [En|Hne].
    + rewrite (proj2 (Z.leb_le 1 n)), (proj2 (Z.leb_le n _)) by (pose proof (zlength_nonneg (lines (content s))); lia). cbn [andb].
      rewrite take_ge, drop_ge by (unfold zlength in En; lia). unfold insert_line. apply wp_bind. eapply wp_mono; [by apply line_count_ok|]. cbv beta. intros c s' [-> ->].
      rewrite u32_id by (pose proof (zlength_nonneg (lines (content s))); lia). rewrite (proj2 (Z.eqb_eq n _) En).
      eapply wp_mono; [by apply append_line_ok|]. cbv beta. by intros ok s' (H1 & H2 & H3).
    + destruct (decide (1 <= n <= zlength (lines (content s)))) as [Hin|Hout].
      { rewrite (proj2 (Z.leb_le 1 n)), (proj2 (Z.leb_le n _)) by lia. by apply insert_line_ok. }
      assert ((1 <=? n) && (n <=? zlength (lines (content s)) + 1) = false) as -> by lia.
      unfold insert_line. apply wp_bind. eapply wp_mono; [by apply line_count_ok|]. cbv beta. intros c s' [-> ->].
      pose proof (lines_bound (content s)). pose proof (content_length s Hs). pose proof (wf_length s Hs). rewrite u32_id by (pose proof (zlength_nonneg (lines (content s))); lia).
      rewrite (proj2 (Z.eqb_neq n _) Hne). assert ((n =? 0) || (zlength (lines (content s)) <? n) = true) as -> by lia. by apply wp_ret.
  - destruct Hop as [Ht Hn]. destruct (decide (1 <= n <= zlength (lines (content s)))) as [Hin|Hout].
    { rewrite (proj2 (Z.leb_le 1 n)), (proj2 (Z.leb_le n _)) by lia. by apply replace_line_ok. }
    assert ((1 <=? n) && (n <=? zlength (lines (content s))) = false) as -> by lia.
    unfold replace_line. apply wp_bind. eapply wp_mono; [apply (Hnone n); [lia|done]|]. cbv beta. intros r s' [-> ->]. by apply wp_ret.
  - destruct (decide (1 <= n <= zlength (lines (content s)))) as [Hin|Hout].
    { rewrite (proj2 (Z.leb_le 1 n)), (proj2 (Z.leb_le n _)) by lia. by apply delete_line_ok. }
    assert ((1 <=? n) && (n <=? zlength (lines (content s))) = false) as -> by lia.
    unfold delete_line. apply wp_bind. eapply wp_mono; [apply (Hnone n); [lia|done]|]. cbv beta. intros r s' [-> ->]. by apply wp_ret.
Qed.


End spec.

End EditSpec.
