(* ===== verification/EditCommands.v ===== *)
(** * The commands of the editor

    Numbers in commands are read back as they are printed, and no change of the
    text is lost: the editor ends only when the text is saved or the user says
    that the changes are to be discarded. *)

From S2P Require Import Prelude Monad Interfaces Bytes Block MiniFs Vfs Libc Edit EditSpec.

Module EditCommands.
Import Libc Edit EditSpec.

(** ** Numbers *)

Definition number_from (p : Z) (l : list Z) : Z := fold_left (fun a c => a * 10 + (c - 48)) l p.

Lemma number_from_ge p l : 0 <= p -> Forall digit l -> p <= number_from p l.
Proof.
  intros Hp Hl. revert p Hp. induction Hl as [|c l Hc _ IH]; intros p Hp; [cbn; lia|]. cbn. unfold digit in Hc.
  specialize (IH (p * 10 + (c - 48)) ltac:(lia)). unfold number_from in IH. lia.
Qed.

(** The string goes on with something that is not a digit. *)
Definition ends_number (rest : list Z) : Prop := match rest with [] => True | c :: _ => ~ digit c end.

Lemma consume_digits_ok l rest p found : Forall digit l -> ends_number rest -> 0 <= p < 4294967296 ->
  consume_digits (l ++ rest) p found =
    if number_from p l <? 4294967296 then Some (number_from p l, found || negb (bool_decide (l = [])), rest) else None.
Proof.
  intros Hl Hr. revert p found. induction Hl as [|c l Hc Hl IH]; intros p found Hp; cbn [app].
  - cbn [number_from fold_left]. rewrite (proj2 (Z.ltb_lt p _)) by lia. rewrite orb_false_r. destruct rest as [|c rest]; [done|]. cbn in Hr |- *. unfold digit in Hr.
    destruct (Z.leb_spec 48 c), (Z.leb_spec c 57); try done. lia.
  - unfold digit in Hc. cbn [consume_digits]. rewrite (proj2 (Z.leb_le 48 c)), (proj2 (Z.leb_le c 57)) by lia. cbn [andb].
    change (number_from p (c :: l)) with (number_from (p * 10 + (c - 48)) l).
    destruct (Z.ltb_spec ((4294967295 - (c - 48)) / 10) p) as [Hbig|Hok].
    + assert (4294967296 <= p * 10 + (c - 48)) as Hge.
      { destruct (Z.le_gt_cases (p * 10) (4294967295 - (c - 48))); [|lia]. pose proof (Z.div_le_lower_bound (4294967295 - (c - 48)) 10 p). lia. }
      pose proof (number_from_ge (p * 10 + (c - 48)) l ltac:(lia) Hl). by rewrite (proj2 (Z.ltb_ge _ _)) by lia.
    + assert (p * 10 + (c - 48) <= 4294967295) as Hle by (pose proof (Z.mul_div_le (4294967295 - (c - 48)) 10); lia).
      rewrite (u32_id (p * 10)), (u32_id (p * 10 + (c - 48))) by lia. rewrite IH by lia. rewrite (bool_decide_eq_false_2 (c :: l = [])) by done.
      by rewrite orb_true_r.
Qed.

Lemma skip_spaces_digit l rest : Forall digit l -> l <> [] -> skip_spaces (l ++ rest) = l ++ rest.
Proof.
  intros [|c l' Hc Hl] Hn; [done|]. cbn. unfold digit in Hc. destruct (Z.eqb_spec c 32), (Z.eqb_spec c 9); try lia. done.
Qed.

(** A string of digits is read as its value, or refused when that is more than
    an [uint32_t] holds. *)
Lemma consume_number_digits l : Forall digit l -> l <> [] ->
  consume_number l = if number l <? 4294967296 then Some (number l, []) else None.
Proof.
  intros Hl Hn. unfold consume_number. rewrite <-(app_nil_r l) at 1. rewrite skip_spaces_digit by done. rewrite consume_digits_ok by (done || lia).
  change (number_from 0 l) with (number l). destruct (number l <? 4294967296); [|done]. by rewrite (bool_decide_eq_false_2 (l = [])).
Qed.

Section commands.
Context {U : Type} `{!UserCalls U}.
Implicit Types (s : editor U) (u : U).

(** C40. Numbers travel as text: what [minios_print_uint32] writes is the number
    in decimal, without leading zeros and inside its array of ten digits, and the
    editor's [consume_number] reads exactly that number from it; a string of
    digits beyond [UINT32_MAX] is refused instead of wrapping around. *)
Theorem number_text_roundtrip d v u :
  0 <= v < 4294967296 ->
  wp (minios_print_uint32 d v) u (fun ok u' => exists l k, decimal v l /\ printed d (take (Z.to_nat k) l) u u' /\ (ok = true -> k = zlength l) /\
    consume_number l = Some (v, [])) /\
  forall l, Forall digit l -> 4294967296 <= number l -> consume_number l = None.
Proof.
  intros Hv. split.
  - eapply wp_mono; [by apply print_uint32_ok|]. cbv beta. intros ok u' (l & k & Hd & Hk & Hp & Hok). exists l, k. split; [done|]. split; [done|]. split; [done|].
    destruct Hd as (Hn & HF & Hz & _). rewrite consume_number_digits; [by rewrite Hn, (proj2 (Z.ltb_lt v _)) by lia|done|]. intros ->. unfold zlength in Hz. cbn in Hz. lia.
  - intros l Hl Hbig. rewrite consume_number_digits; [by rewrite (proj2 (Z.ltb_ge _ _))|done|]. intros ->. cbn in Hbig. lia.
Qed.

(** ** Output leaves the text alone *)

(** Only the terminal has received something. *)
Definition quiet s s' : Prop :=
  exists u, s' = set_user u s /\ forall d, 3 <= d -> us_output u d = us_output (user s) d.

Lemma quiet_same s : quiet s s.
Proof. exists (user s). by destruct s. Qed.

Lemma quiet_then s1 s2 s3 : quiet s1 s2 -> quiet s2 s3 -> quiet s1 s3.
Proof. intros (u2 & -> & H2) (u3 & -> & H3). exists u3. split; [done|]. intros d Hd. rewrite H3 by done. by apply H2. Qed.

Lemma quiet_wf s s' : quiet s s' -> wf s -> wf s' /\ content s' = content s.
Proof. intros (u & -> & _) [H1 H2 H3]. done. Qed.

(** A routine of the C library that writes to descriptor 1 or 2. *)
Definition terminal {A} (m : M U A) : Prop :=
  forall u, wp m u (fun _ u' => forall d, 3 <= d -> us_output u' d = us_output u d).

Lemma terminal_ret {A} (a : A) : terminal (ret a).
Proof. by intros u. Qed.

Lemma terminal_bind {A B} (m : M U A) (f : A -> M U B) : terminal m -> (forall a, terminal (f a)) -> terminal (bind m f).
Proof.
  intros Hm Hf u. apply wp_bind. eapply wp_mono; [apply Hm|]. cbv beta. intros a u1 H1. eapply wp_mono; [apply Hf|]. cbv beta. intros b u2 H2 d Hd.
  by rewrite H2, H1.
Qed.

Lemma terminal_and (a b : M U bool) : terminal a -> terminal b -> terminal (andM a b).
Proof.
  intros Ha Hb u. apply wp_andM. eapply wp_mono; [apply Ha|]. cbv beta. intros [] u1 H1; [|done].
  eapply wp_mono; [apply Hb|]. cbv beta. intros ? u2 H2 d Hd. by rewrite H2, H1.
Qed.

Lemma printed_terminal d l u u' : d = 1 \/ d = 2 -> printed d l u u' -> forall d', 3 <= d' -> us_output u' d' = us_output u d'.
Proof. intros Hd [_ H] d' Hd'. apply H. lia. Qed.

Lemma strlen_bound l : 0 <= strlen l <= zlength l.
Proof. induction l as [|c l IH]; [done|]. cbn. unfold zlength in *. cbn [length]. destruct (c =? 0); lia. Qed.

Lemma terminal_write d l n : d = 1 \/ d = 2 -> 0 <= n <= zlength l -> terminal (minios_write_all d (Some l) n).
Proof. intros Hd Hn u. eapply wp_mono; [by apply write_all_ok|]. cbv beta. intros ok u' (k & _ & Hp & _). by apply (printed_terminal d _ _ _ Hd Hp). Qed.

Lemma terminal_print d t : d = 1 \/ d = 2 -> terminal (minios_print d t).
Proof. intros Hd. destruct t as [t|]; [apply terminal_write; [done|apply strlen_bound]|apply terminal_ret]. Qed.

Lemma terminal_number d v : d = 1 \/ d = 2 -> 0 <= v < 4294967296 -> terminal (minios_print_uint32 d v).
Proof. intros Hd Hv u. eapply wp_mono; [by apply print_uint32_ok|]. cbv beta. intros ok u' (l & k & _ & _ & Hp & _). by apply (printed_terminal d _ _ _ Hd Hp). Qed.

Lemma terminal_report c o e : terminal (minios_report_error c o e).
Proof.
  unfold minios_report_error. apply terminal_bind; [by apply terminal_and; apply terminal_print; right|]. intros r1.
  apply terminal_bind; [destruct o; [|apply terminal_ret]; repeat apply terminal_and; first [apply terminal_ret|by apply terminal_print; right]|]. intros r2.
  repeat apply terminal_and; first [apply terminal_ret|by apply terminal_print; right].
Qed.

Lemma quiet_zoom {A} (m : M U A) s (Q : A -> editor U -> Prop) : terminal m -> (forall a s', quiet s s' -> Q a s') -> wp (zoom m) s Q.
Proof. intros Hm HQ. apply wp_zoom. eapply wp_mono; [apply Hm|]. cbv beta. intros a u Hu. apply HQ. by exists u. Qed.

Lemma say_ok m s (Q : unit -> editor U -> Prop) : (forall s', quiet s s' -> Q tt s') -> wp (say m) s Q.
Proof. intros HQ. unfold say. apply wp_bind, quiet_zoom; [by apply terminal_print; right|]. intros b s' Hs. by apply wp_ret, HQ. Qed.

Lemma report_ok path e s (Q : unit -> editor U -> Prop) : (forall s', quiet s s' -> Q tt s') -> wp (report path e) s Q.
Proof. intros HQ. unfold report. apply wp_bind, quiet_zoom; [apply terminal_report|]. intros b s' Hs. by apply wp_ret, HQ. Qed.

(** A step that may go on or stop, on a text that does not change. *)
Lemma quiet_and (a b : M (editor U) bool) s (Q : bool -> editor U -> Prop) :
  (forall s0, wf s0 -> wp a s0 (fun _ s' => quiet s0 s')) -> (forall s0, wf s0 -> wp b s0 (fun _ s' => quiet s0 s')) -> wf s ->
  (forall r s', quiet s s' -> Q r s') -> wp (andM a b) s Q.
Proof.
  intros Ha Hb Hs HQ. apply wp_andM. eapply wp_mono; [by apply Ha|]. cbv beta. intros [] s1 H1; [|by apply HQ].
  eapply wp_mono; [apply Hb; by apply (quiet_wf s s1)|]. cbv beta. intros r s2 H2. apply HQ. by apply (quiet_then s s1).
Qed.

Lemma print_step_ok last k s : wf s -> 0 <= k -> last < 4294967296 ->
  wp (print_step last k) s (fun r s' => quiet s s' /\ forall k', r = inl k' -> k' = k + 1 /\ k <= last).
Proof.
  intros Hs Hk Hl. unfold print_step. destruct (Z.leb_spec k last) as [Hle|Hgt]; cbn [negb]; [|apply wp_ret; split; [apply quiet_same|done]].
  apply wp_bind. eapply wp_mono; [by apply (line_bounds_ok s k)|]. cbv beta. intros [[[a c] e]|] s' [-> Hb]; [|apply wp_ret; split; [apply quiet_same|done]].
  destruct Hb as (pre & l & sep & post & Hat & -> & -> & ->). pose proof (at_line_length _ _ _ _ _ _ Hs Hat) as Hlen.
  pose proof (zlength_nonneg pre). pose proof (zlength_nonneg l). pose proof (zlength_nonneg sep). pose proof (zlength_nonneg post). pose proof (wf_length s Hs).
  assert (forall (m : M U bool) s0, terminal m -> wp (zoom m) s0 (fun _ s' => quiet s0 s')) as Hq by (intros m s0 Hm; by apply quiet_zoom).
  assert (forall d t s0, d = 1 -> wp (print d t) s0 (fun _ s' => quiet s0 s')) as Hp by (intros d t s0 ->; apply Hq, terminal_print; by left).
  apply wp_bind. eapply (quiet_and _ _ s); [..|exact Hs|].
  - intros s0 _. apply Hq, terminal_number; [by left|rewrite u32_id; lia].
  - intros s0 W0. eapply quiet_and; [by intros; apply Hp| |exact W0|done]. intros s1 W1. eapply quiet_and; [|by intros; apply Hp|exact W1|done].
    intros s2 W2. apply wp_bind, wp_gets, Hq, terminal_write; [by left|]. pose proof (wf_capacity s2 W2) as Hc. unfold zlength in *. rewrite length_drop. lia.
  - intros r s' Hs'. apply wp_ret. split; [done|]. destruct r; [|done]. by intros k' [= <-].
Qed.

Lemma print_range_ok first last s : wf s -> 0 <= first -> last < 4294967296 -> wp (print_range first last) s (fun _ s' => quiet s s').
Proof.
  intros Hs Hf Hl. unfold print_range. apply wp_bind. eapply wp_mono; [by apply line_count_ok|]. cbv beta. intros c s' [-> ->].
  destruct (_ =? 0); [apply quiet_zoom; [by apply terminal_print; left|done]|]. destruct (_ || _) eqn:Eb; [apply wp_ret, quiet_same|].
  assert (1 <= first <= last) as Hr by lia.
  apply (wp_while (fun k s' => quiet s s' /\ first <= k <= last + 1) (fun k _ => Z.to_nat (last + 1 - k))); [split; [apply quiet_same|lia]|lia|].
  intros k s1 [H1 Hk]. destruct (quiet_wf s s1 H1 Hs) as [Hw _]. eapply wp_mono; [apply (print_step_ok last k s1); [done|lia|done]|]. cbv beta. intros [k'|b] s2 [H2 Hn].
  - destruct (Hn k' eq_refl) as [-> Hle]. split; [|lia]. split; [by apply (quiet_then s s1)|lia].
  - by apply (quiet_then s s1).
Qed.

(** ** No change is lost *)

(** After a command: the text is as before or marked as changed; the editor
    ends only without unsaved changes or when told to discard them; the mark is
    removed only when a file has received the whole text. *)
Definition nothing_lost s (command : list Z) (dirty : bool) (r : editor_action * bool) s' : Prop :=
  wf s' /\ (content s' = content s \/ snd r = true) /\
  (fst r = EDITOR_EXIT -> content s' = content s /\ (dirty = false \/ command = text "q!")) /\
  (dirty = true -> snd r = false -> exists d o, 3 <= d /\ us_output (user s') d = o ++ content s').

Lemma quiet_kept s command dirty a s' : wf s -> quiet s s' -> a <> EDITOR_EXIT -> nothing_lost s command dirty (a, dirty) s'.
Proof. intros Hs Hq Ha. destruct (quiet_wf s s' Hq Hs) as [Hw Hc]. split; [done|]. split; [by left|]. split; [done|]. by intros ->. Qed.

Lemma said s command dirty m : wf s -> wp (say m ;; ret (EDITOR_CONTINUE, dirty)) s (nothing_lost s command dirty).
Proof. intros Hs. apply wp_bind, say_ok. intros s' Hq. apply wp_ret. by apply quiet_kept. Qed.

Lemma save_file_ok path dirty s : wf s ->
  wp (save_file path dirty) s (fun r s' => wf s' /\ content s' = content s /\
    (snd r = dirty \/ exists d o, 3 <= d /\ us_output (user s') d = o ++ content s')).
Proof.
  intros Hs. pose proof (wf_length s Hs) as Hl. unfold save_file. apply wp_bind, wp_zoom. eapply wp_mono; [apply us_open_ok|]. cbv beta. intros d u1 _.
  set (s1 := lset u1 s). assert (wf s1 /\ content s1 = content s) as [Hs1 Hc1] by (destruct Hs; done).
  destruct (Z.ltb_spec d 3) as [Hd|Hd].
  { apply wp_bind, report_ok. intros s2 Hq. apply wp_ret. destruct (quiet_wf s1 s2 Hq Hs1) as [? E]. split; [done|]. split; [congruence|by left]. }
  apply wp_bind, wp_gets, wp_bind, wp_gets, wp_bind, wp_zoom. eapply wp_mono; [apply (write_all_ok d (edit_buffer s1) (edit_length s1) u1)|].
  { pose proof (wf_capacity s1 Hs1). cbn in *. lia. }
  cbv beta. intros ok u2 (k & Hk & [Hp _] & Hok). set (s2 := lset u2 s1). assert (wf s2 /\ content s2 = content s) as [Hs2 Hc2] by (destruct Hs; done).
  assert (ok = true -> us_output u2 d = us_output u1 d ++ content s) as Hall by (intros E; rewrite Hp, (Hok E); done).
  apply wp_bind. apply (wp_mono _ _ (fun _ s' => quiet s2 s')).
  { destruct ok; [apply wp_ret, quiet_same|by apply report_ok]. }
  cbv beta. intros [] s3 Hq3. apply wp_bind, wp_zoom. eapply wp_mono; [apply us_close_ok|]. cbv beta. intros r u4 H4.
  destruct (quiet_wf s2 s3 Hq3 Hs2) as [Hs3 Hc3]. set (s4 := lset u4 s3). assert (wf s4 /\ content s4 = content s) as [Hs4 Hc4] by (split; [destruct Hs3; done|change (content s4) with (content s3); congruence]).
  apply wp_bind. apply (wp_mono _ _ (fun _ s' => quiet s4 s')).
  { destruct (r <? 0); [by apply report_ok|apply wp_ret, quiet_same]. }
  cbv beta. intros [] s5 Hq5. destruct (quiet_wf s4 s5 Hq5 Hs4) as [Hs5 Hc5]. destruct ok; cbn [andb].
  2:{ apply wp_ret. split; [done|]. split; [congruence|by left]. }
  destruct (r <? 0); cbn [negb]; [apply wp_ret; split; [done|]; split; [congruence|by left]|].
  apply wp_bind, quiet_zoom; [apply terminal_number; [by left|rewrite u32_id; cbn in *; lia]|]. intros b6 s6 Hq6.
  apply wp_bind, quiet_zoom; [by apply terminal_print; left|]. intros b7 s7 Hq7. apply wp_ret.
  assert (quiet s4 s7) as Hq by (eapply quiet_then; [exact Hq5|]; eapply quiet_then; [exact Hq6|exact Hq7]).
  destruct (quiet_wf s4 s7 Hq Hs4) as [Hs7 Hc7]. split; [done|]. split; [congruence|]. right. exists d, (us_output u1 d). split; [done|].
  destruct Hq as (u7 & -> & H7). cbn [user set_user]. rewrite H7 by done. change (user s4) with u4. rewrite H4. destruct Hq3 as (u3 & -> & H3).
  change (lget (set_user u3 s2)) with u3. rewrite H3 by done. change (user s2) with u2. by rewrite Hall.
Qed.

Lemma changed_ok op s command dirty m : wf s -> op_ok op -> wp (changed_or (perform op) m dirty) s (nothing_lost s command dirty).
Proof.
  intros Hs Hop. unfold changed_or. apply wp_bind. eapply wp_mono; [by apply edit_perform_ok|]. cbv beta. intros ok s' H.
  assert (wf s' /\ (ok = false -> s' = s)) as [Hw Hsame].
  { destruct (changed _ _ _); [|destruct H as [-> ->]; done]. destruct H as (H1 & H2 & H3). split; [done|]. intros ->. apply H3. }
  destruct ok; cbn [negb].
  - apply wp_ret. split; [done|]. split; [by right|]. done.
  - rewrite Hsame by done. by apply said.
Qed.

(** *** The rest of a typed line is a typed line *)

Lemma typed_suffix t l : typed (t ++ l) -> typed l.
Proof.
  intros (H1 & H2 & H3 & H4). apply Forall_app in H1 as [_ H1]. apply Forall_app in H2 as [_ H2]. apply Forall_app in H3 as [_ H3].
  split; [done|]. split; [done|]. split; [done|]. rewrite zlength_cat in H4. pose proof (zlength_nonneg t). lia.
Qed.

Lemma skip_spaces_suffix l : exists t, l = t ++ skip_spaces l.
Proof.
  induction l as [|c l [t IH]]; [by exists []|]. cbn. destruct (_ || _); [|by exists []]. exists (c :: t). cbn. by rewrite <-IH.
Qed.

Lemma typed_skip l : typed l -> typed (skip_spaces l).
Proof. intros H. destruct (skip_spaces_suffix l) as [t E]. rewrite E in H. by apply typed_suffix in H. Qed.

Lemma consume_digits_suffix l p f v f' r : 0 <= p < 4294967296 -> consume_digits l p f = Some (v, f', r) -> 0 <= v < 4294967296 /\ exists t, l = t ++ r.
Proof.
  revert p f. induction l as [|c l IH]; intros p f Hp; cbn.
  - intros [= <- <- <-]. split; [done|by exists []].
  - destruct (_ && _); [|intros [= <- <- <-]; split; [done|by exists []]]. destruct (_ <? _); [done|]. intros E.
    destruct (IH _ _ (u32_range _) E) as [Hv [t ->]]. split; [done|]. by exists (c :: t).
Qed.

Lemma typed_consume l v r : typed l -> consume_number l = Some (v, r) -> typed r /\ 0 <= v < 4294967296.
Proof.
  intros Hl. unfold consume_number. destruct (consume_digits _ _ _) as [[[w f] r']|] eqn:E; [|done]. destruct (_ || _); [done|]. intros [= <- <-].
  apply consume_digits_suffix in E as [Hv [t E]]; [|lia]. split; [|done]. apply typed_skip. apply (typed_suffix t). rewrite <-E. by apply typed_skip.
Qed.

Lemma typed_arguments l v r : typed l -> command_arguments l v = Some r -> typed r.
Proof.
  intros Hl. unfold command_arguments. destruct (_ || _); [done|]. intros [= <-]. apply typed_skip. destruct l as [|c l]; [done|]. by apply (typed_suffix [c]).
Qed.

Lemma command_print_ok arguments s command dirty : wf s -> typed arguments -> wp (command_print arguments dirty) s (nothing_lost s command dirty).
Proof.
  intros Hs Ht. unfold command_print. apply wp_bind. eapply wp_mono; [by apply line_count_ok|]. cbv beta zeta. intros c s' [-> ->].
  pose proof (lines_bound (content s)). pose proof (content_length s Hs). pose proof (wf_length s Hs).
  assert (forall a b, 0 <= a -> b < 4294967296 -> wp (let! shown := print_range a b in ret (if shown : bool then EDITOR_CONTINUE else EDITOR_FATAL, dirty)) s (nothing_lost s command dirty)) as Hpr.
  { intros a b Ha Hb. apply wp_bind. eapply wp_mono; [by apply print_range_ok|]. cbv beta. intros r s' Hq. apply wp_ret. apply quiet_kept; [done|done|]. by destruct r. }
  destruct (_ =? 0); [apply Hpr; lia|]. destruct (consume_number arguments) as [[first rest]|] eqn:E1; [|by apply said].
  destruct (typed_consume _ _ _ Ht E1) as [Hr Hf].
  destruct (if negb (current rest =? 0) then consume_number rest else Some (first, rest)) as [[last rest']|] eqn:E2; [|by apply said].
  assert (0 <= last < 4294967296) as Hl by (destruct (negb _); [by apply typed_consume in E2 as [_ ?]|by injection E2 as <- <-]).
  destruct (_ || _); [by apply said|]. apply Hpr; lia.
Qed.

(** Commands with a line number and a text. *)
Lemma numbered_ok (limit : Z -> Z) (op : Z -> list Z -> edit_op) arguments (usage refusal : string) s command dirty :
  wf s -> typed arguments -> (forall n t, typed t -> 0 <= n < 4294967296 -> op_ok (op n t)) ->
  wp (match consume_number arguments with
      | None => say usage ;; ret (EDITOR_CONTINUE, dirty)
      | Some (number, arguments) =>
          let! invalid := (if number =? 0 then ret true else let! count := line_count in ret (limit count <? number)) in
          if invalid : bool then say "edit: invalid line number" ;; ret (EDITOR_CONTINUE, dirty)
          else changed_or (perform (op number arguments)) refusal dirty
      end) s (nothing_lost s command dirty).
Proof.
  intros Hs Ht Hop. destruct (consume_number arguments) as [[n rest]|] eqn:E; [|by apply said]. destruct (typed_consume _ _ _ Ht E) as [Hr Hn].
  apply wp_bind. apply (wp_mono _ _ (fun _ s' => s' = s)).
  { destruct (n =? 0); [by apply wp_ret|]. apply wp_bind. eapply wp_mono; [by apply line_count_ok|]. cbv beta. intros c s' [-> _]. by apply wp_ret. }
  cbv beta. intros invalid s' ->. destruct invalid; [by apply said|]. apply changed_ok; [done|by apply Hop].
Qed.


End commands.

End EditCommands.
