(* ===== verification/EditDemo.v ===== *)
(** * A session of the editor

    A terminal and a file system that accept everything; two lines of text are
    edited and saved. *)

From S2P Require Import Prelude Monad Interfaces Bytes Block MiniFs Vfs Libc Edit EditSpec EditCommands.

Module EditDemo.
Import MiniFs(result(..)) Libc Edit EditSpec EditCommands.

(** What each descriptor has received. *)
Abbreviation world := (gmap Z (list Z)).
Definition received (w : world) (d : Z) : list Z := default [] (w !! d).

Lemma received_same (w : world) d l : received (<[d := l]> w) d = l.
Proof. unfold received. by rewrite lookup_insert_eq. Qed.

Lemma received_other (w : world) d d' l : d' <> d -> received (<[d := l]> w) d' = received w d'.
Proof. intros H. unfold received. by rewrite lookup_insert_ne. Qed.

#[local] Obligation Tactic := idtac.

#[export] Program Instance world_calls : UserCalls world := {|
  us_write d l := fun w => Ret (zlength l) (<[d := received w d ++ l]> w);
  us_read _ _ := ret (0, []);
  us_open _ _ := ret 3;
  us_close _ := ret 0;
  us_stat _ := ret (Err (-2));
  us_unlink _ := ret 0;
  us_output := received
|}.
Next Obligation.
  intros d l w. unfold wp. split; [lia|]. split; [|intros d' Hd; by apply received_other].
  rewrite received_same, take_ge; [done|unfold zlength; lia].
Qed.
Next Obligation. intros d n w Hn. apply wp_ret. cbn. split; [lia|]. split; [done|]. split; [apply Forall_nil_2|done]. Qed.
Next Obligation. by intros. Qed.
Next Obligation. by intros. Qed.
Next Obligation. intros path w. apply wp_ret. split; [done|]. intros e [= <-]. done. Qed.
Next Obligation. by intros. Qed.

(** "alpha" and, without a newline, "gamma". *)
Definition alpha : list Z := text "alpha".
Definition gamma : list Z := text "gamma".
Definition document : list Z := alpha ++ [10] ++ gamma.

Definition session : editor world := Editor (document ++ replicate (Z.to_nat 32757) 0) 11 ∅.

Lemma text_bytes s : bytes (text s).
Proof.
  apply Forall_map, Forall_forall. intros c _. unfold compose. destruct c as [[] [] [] [] [] [] [] []]; vm_compute; split; done.
Qed.

Lemma session_wf : wf session.
Proof.
  split.
  - unfold zlength. cbn [edit_buffer session]. rewrite length_app, length_replicate. vm_compute. reflexivity.
  - cbn. lia.
  - apply Forall_app. split; [|apply Forall_replicate; lia]. apply Forall_app. split; [apply text_bytes|]. apply Forall_app. split; [repeat constructor; lia|apply text_bytes].
Qed.

Lemma beta_typed : typed (text "beta").
Proof. split; [apply text_bytes|]. split; [repeat constructor; done|]. split; [repeat constructor; done|]. vm_compute. intros H. discriminate H. Qed.


Lemma command_typed : typed (text "i 2 beta").
Proof. split; [apply text_bytes|]. split; [repeat constructor; done|]. split; [repeat constructor; done|]. vm_compute. intros H. discriminate H. Qed.


(** The commands of the program's own self test, and a save. *)
Example session_runs :
  match (let! _ := process_command (text "i 2 beta") (text "/f") false in
         let! _ := process_command (text "r 3 delta") (text "/f") true in
         let! _ := process_command (text "d 1") (text "/f") true in
         let! _ := process_command (text "a omega") (text "/f") true in
         let! q := process_command (text "q") (text "/f") true in
         let! w := process_command (text "w") (text "/f") true in ret (q, w)) session with
  | Ret r s' => r = ((EDITOR_CONTINUE, true), (EDITOR_CONTINUE, false)) /\
      received (user s') 3 = text "beta" ++ [10] ++ text "delta" ++ [10] ++ text "omega" ++ [10]
  | _ => False
  end.
Proof. vm_compute. done. Qed.

(** Replacing an unfinished last line by nothing removes it. *)
Example replaced_by_nothing : lines (content session) = [alpha; gamma] /\
  match replace_line 2 [] session with Ret ok s' => ok = true /\ lines (content s') = [alpha] | _ => False end.
Proof. vm_compute. done. Qed.

Lemma number_text_roundtrip_witness :
  wp (minios_print_uint32 1 4096) (∅ : world) (fun ok u' => exists l k, decimal 4096 l /\ printed 1 (take (Z.to_nat k) l) ∅ u' /\ (ok = true -> k = zlength l) /\
    consume_number l = Some (4096, [])) /\
  forall l, Forall digit l -> 4294967296 <= number l -> consume_number l = None.
Proof. apply (number_text_roundtrip 1 4096 (∅ : world)). lia. Defined.

End EditDemo.
